(* ===== verification/_CoqProject ===== *)
-Q . S2P
Prelude.v
Layout.v
Bitmap.v
Machine.v
Pmm.v
DList.v
CString.v
Printf.v
Ram.v
Words.v
Multiboot.v
Vam.v
Paging.v
PagingSpec.v
Vmm.v
Heap.v
HeapSpec.v
HeapRoom.v
HeapSupply.v
TaskSpace.v
ListFamily.v
Task.v
TaskSpec.v
TaskOps.v
Sync.v
SyncSpec.v
SyncInv.v
SyncSafe.v
TaskDemo.v
TaskProps.v
SyncProps.v
Fs.v
FsSpec.v
Exec.v
ExecSpec.v
Console.v
ConsoleSpec.v
Descriptors.v
Kernel.v
Printing.v
Process.v
Lifecycle.v
Elf.v
Syscall.v
ElfFile.v
ElfPages.v
ElfLoad.v
ElfSpec.v
UserStack.v
ThreadStack.v
ProcessSpec.v
ThreadSpec.v
ThreadLife.v
ReapSpec.v
StartSpec.v
SyscallSpec.v
Boot.v
InterruptSpec.v
BootSpec.v
