(* ===== verification/Prelude.v ===== *)
(** * The neox kernel: a verification development

    neox is a small monolithic kernel for 32-bit x86 ([src/kernel]), with a
    tool that builds its root file system image ([src/tools/mkfs.c]). This
    library is a shallow embedding of its core in Rocq: every C function that
    is modelled is a Rocq function of the same name, with the same branches in
    the same order, and the theorems are about these functions.

    ** How the code is embedded

    A C function that reads or changes state is a computation of the monad [M]
    (defined below): a function from a state to [Ok result state'] or to
    [Fault f]. A fault is a failed [ASSERT] or [panic], an access to an address
    that is not there, or a loop that did not end within its fuel. Each
    component has its own state, a record with the statics of its C file and
    the memory it owns; [zoom] with a [lens] runs a component inside a larger
    state. [wp m Q s] says that [m] started in [s] does not fault and that [Q]
    holds of the result and the final state: it is total correctness, so a
    theorem of this form includes that the code returns. Unsigned integers are
    elements of [Z] with [u8], [u16], [u32] or [u64] written where C wraps;
    [s32] is the signed reading. A pointer is its address, or the name of the
    object it points to where a component only follows it.

    ** The parts and how they interact

    From the bottom up, with the source each file models:
    - [Layout]: the constants of [kernel/include/memory_layout.h] and
      [paging.h], the compile-time assertions, and the conversions between
      physical and virtual addresses.
    - [Bitmap]: the bitmap routines that [pmm.c] and [vam.c] each define.
    - [Machine]: the interrupt flag, CR3 and [invlpg]
      ([kernel/arch/x86/arch.c], [paging_asm.asm]).
    - [Pmm]: [kernel/mm/pmm.c], the physical page allocator.
    - [DList], [ListFamily]: [kernel/lib/list.c], intrusive circular lists as a
      store of nodes, and the representation of several lists in one store.
    - [CString], [Printf]: [kernel/lib/string.c] and [printf.c] over the
      interface [ByteMem], a byte memory with accesses that may fault.
    - [Ram]: physical memory behind the direct mapping, an instance of
      [ByteMem], with little-endian words.
    - [Vam]: [kernel/mm/vam.c], kernel virtual addresses and stack slots.
    - [Paging], [PagingSpec]: [kernel/mm/paging.c]. The page directories and
      tables are pages of [Ram]; frames come from [Pmm].
    - [Vmm]: [kernel/mm/vmm.c], on [Pmm], [Paging] and [Vam].
    - [Heap], [HeapSpec], [HeapRoom], [HeapSupply]: [kernel/mm/heap.c] against
      the interface [PageSupply]; [HeapSupply] proves that [vmm_alloc_pages]
      over the machine implements the interface.
    - [TaskSpace]: the directory of a process beside the kernel's: which bytes
      the paging routines write, and what they leave to the others.
    - [Task], [TaskSpec], [TaskOps], [Sync], [SyncSpec]: the scheduler, wait
      queues, [thread_block]/[thread_unblock]/[thread_yield], mutexes,
      semaphores and condition variables ([kernel/task/scheduler.c], [wait.c],
      [thread.c], [mutex.c], [semaphore.c], [condvar.c]). A context switch
      leaves a routine in the middle; what is left to do is a [frame] on the
      thread's kernel stack, and [step] is the step relation of the system:
      its events are calls of the routines by the current thread, the
      continuation of a routine, and timer ticks, in any order.
    - [SyncInv], [SyncSafe], [SyncProps], [TaskDemo], [TaskProps]: the
      invariant of the task system and what follows from it.
    - [Fs], [FsSpec]: [kernel/fs/fs.c], [kernel/file/file.c], the descriptor
      table of [kernel/task/process.c], and [tools/mkfs.c] on the host.
    - [Exec], [ExecSpec]: [exec_build_user_stack] of
      [kernel/arch/x86/syscall.c], the initial stack of a program.
    - [Words], [Multiboot]: little-endian words over any byte memory, and
      [kernel/boot/multiboot2.c] with the walk of [pmm_init] over the memory
      map; it computes the value [boot_memory] that [Pmm.pmm_init] takes.
    - [Console], [ConsoleSpec]: ports ([io.c]), the text screen ([vga.c],
      [console.c]) and the keyboard with its layouts.
    - [Descriptors]: the GDT, the IDT, the TSS, the interrupt controller and
      the timer chip ([gdt.c], [idt.c], [tss.c], [pic.c], [pit.c]), and
      [arch_init].
    - [Kernel]: the record [kernel] with the states of all components, and
      the lenses through which each component runs in it; the bytes at
      virtual addresses, translated through the directory in CR3, as an
      instance of [ByteMem].
    - [Printing]: what [printf] leaves on the screen of the kernel.
    - [Process], [Lifecycle], [Elf], [Syscall]: the code that composes the
      components: [process.c] and the user stacks of [usermode.c]; creation,
      destruction, joining and reaping of threads ([thread.c], [reaper.c],
      [usermode.c], [scheduler_start]); [elf_loader.c]; [exec.c] and
      [syscall.c].
    - [ElfFile], [ElfPages], [ElfLoad], [ElfSpec]: a reference reading of
      executables as pure functions of their bytes, and the proof that
      [elf_load] on the whole kernel computes it.
    - [UserStack], [ProcessSpec]: the user stacks of [usermode.c] and the
      processes of [process.c] on the whole kernel.
    - [ThreadStack], [ThreadSpec], [ThreadLife]: kernel stacks, and
      [thread_create], [thread_add] and [thread_destroy] on the whole kernel.
    - [ReapSpec]: the end of a thread and of its process, [reap] and
      [thread_join]; [StartSpec]: the invariant that ties processes, threads,
      stacks and heap together, and [reaper_init] under it.
    - [SyscallSpec]: the answers of the system calls.
    - [Boot], [InterruptSpec], [BootSpec]: the interrupt handlers of [isr.c] and [irq.c], and the
      start of the kernel: [kernel.c], [kernelmain.c], [boot.c], [drivers.c]
      and [kernel/task/init.c]; the state is the record [computer].

    ** What the theorems show

    - Physical memory: whatever a client does, no page is handed out twice and
      the page count is conserved ([Pmm]); [pmm_init] frees exactly the
      available pages outside the kernel, the module and the bitmap.
    - Lists: every routine refines the corresponding operation on sequences.
    - Strings and output: the routines compute their mathematical
      definitions; printed numbers read back.
    - Address spaces: mapping, unmapping and translating are insertion,
      deletion and lookup of a partial function from pages to frames; the
      checks of user ranges are exact; destroying a directory gives back
      exactly the pages it owns ([PagingSpec]). Ranges of kernel pages are
      granted whole or not at all ([Vmm]).
    - Heap: the blocks tile the heap; an allocation takes the first block
      that fits, is disjoint from all others, and grows the heap page by page
      only while nothing fits and the supply of pages lasts; freeing restores
      the invariant ([HeapSpec]).
    - Tasks: an invariant of every reachable state ([SyncProps]): the queues
      are well formed, each thread is on the queues its state says, locks are
      owned by at most one thread, and no assertion of these files fails;
      ownership handoff, semaphore counts, no lost wake-up; the scheduler is
      round robin and fair and preempts at the quantum ([TaskProps]).
    - Files: the image [mkfs] writes mounts, and every file is found in it
      with its contents; descriptors read sequentially ([FsSpec]).
    - Programs: what a program finds on its stack, byte for byte
      ([ExecSpec]); for a file whose segments are aligned to pages, apart and
      in the user half, the loader builds exactly the memory that the file
      describes, on frames of its own, or gives everything back ([ElfSpec]);
      a new stack takes the highest free slot, or nothing happens
      ([UserStack]).
    - Processes and threads: a new process has a directory on a page of its
      own and shares the kernel half; destroying it gives back exactly its
      pages, and the two together are a round trip ([ProcessSpec]); a new
      thread has a kernel stack of its own, visible in both directories, or
      everything is undone ([ThreadSpec]); threads that come and go keep the
      invariants of the scheduler, and the whole life of a thread is a round
      trip ([ThreadLife]); the last thread of a process takes the process with
      it, joining does this at once for a thread that has ended, and the
      reaper does it to a zombie ([ReapSpec]); the reaper starts without a failed assertion and leaves a
      kernel whose parts fit together ([StartSpec]). These theorems assume
      that the kernel's page tables for the whole heap are there, of which
      [kernel_init] makes the first.
    - Interrupts: what an exception reports and whom it stops, and in which
      order a hardware interrupt is served and acknowledged
      ([InterruptSpec]).
    - Start: every search over the boot information ends and finds what is
      there ([Multiboot]); the processor decodes from the descriptor tables
      what the code put in, and hardware interrupts arrive behind the
      exceptions, at the rate the timer was set to ([Descriptors]);
      [kernel_init], from the state the boot loader leaves, runs to its end
      with the pool, the kernel's directory, the one-block heap, the address
      manager and the idle thread set up and its reports on the screen
      ([BootSpec]).
    - Screen: the driver, which scrolls in place, shows the end of a terminal
      with unbounded scrollback ([ConsoleSpec]).
    - System calls: a refused call answers -1 and leaves the whole kernel as it
      was; a write types exactly its bytes ([SyscallSpec]).

    ** Bounds and fuel

    A [while] loop without an evident bound is [loop] with fuel. Walks along
    the heap get one unit per header ([walk_fuel]) and visit each once; the
    specifications of [strlen] and of the others take any fuel above the
    length of the string; [expand_until] gets more fuel than there are pages
    left, and each round costs a page. The theorems are stated with [wp], for
    which running out of fuel is a fault, so in each of them the fuel is
    proved to be enough.

    ** Not modelled

    - The messages of the memory managers ([pmm_init] apart) on failure:
      their state has no screen. So where a page table, a range of pages or a
      block cannot be had, the screen component of the state leaves out what
      [paging_map], [vmm_alloc_pages], [kmalloc] and [heap_init] print. All
      other output of the modelled functions is in the model.
    - The TLB as a cache: [invlpg] is recorded, and accesses use the tables.
    - Heap clients' own writes into their blocks.
    - The assembly: entry and exit of interrupts, the jump to ring 3, the
      bootstrap page tables. What the C code relies on is in the model:
      [context_switch], [paging_load_directory], [gdt_load].
    - [kernel_loop], which is never reached; [idle_loop] is in [Task].
    - Interrupts during [kernel_init]: it is run as a whole. Until the idle
      thread is current [scheduler_tick] does nothing, but a key pressed then
      would appear among the reports.
    - The reaper's loop around [reap_zombie], the threads of programs and the
      commit of [exec] are definitions without theorems of their own.
    - The kernel's own test suite ([kernel/test]). *)

From Stdlib Require Export ZArith Lia Btauto.
From stdpp Require Export base tactics option list strings gmap sets.

#[export] Set Default Goal Selector "!".
#[export] Set Warnings "-clear-no-such-hyp".

(** [lia] reasons about [/] and [mod] by constants. *)
Ltac Zify.zify_post_hook ::= Z.div_mod_to_equations.
#[global] Open Scope list_scope.
#[global] Open Scope Z_scope.

(** ** Machine integers

    C's [uint8_t], [uint16_t], [uint32_t], [uint64_t] as integers reduced
    modulo a power of two at the points where the C expression wraps. *)

Definition u8 (x : Z) : Z := x mod 2 ^ 8.
Definition u16 (x : Z) : Z := x mod 2 ^ 16.
Definition u32 (x : Z) : Z := x mod 2 ^ 32.
Definition u64 (x : Z) : Z := x mod 2 ^ 64.

Definition is_u8 (x : Z) : Prop := 0 <= x < 2 ^ 8.
Definition is_u16 (x : Z) : Prop := 0 <= x < 2 ^ 16.
Definition is_u32 (x : Z) : Prop := 0 <= x < 2 ^ 32.
Definition is_u64 (x : Z) : Prop := 0 <= x < 2 ^ 64.

(** [int] and [int32_t]: the signed reading of a 32-bit pattern. *)
Definition s32 (x : Z) : Z :=
  let y := u32 x in if decide (y < 2 ^ 31) then y else y - 2 ^ 32.

Create HintDb neox discriminated.
Create Rewrite HintDb bits.

Section MachineIntegers.
Implicit Types x y n : Z.

Lemma u8_range x : is_u8 (u8 x).
Proof. apply Z.mod_pos_bound; lia. Qed.

Lemma u16_range x : is_u16 (u16 x).
Proof. apply Z.mod_pos_bound; lia. Qed.

Lemma u32_range x : is_u32 (u32 x).
Proof. apply Z.mod_pos_bound; lia. Qed.

Lemma u64_range x : is_u64 (u64 x).
Proof. apply Z.mod_pos_bound; lia. Qed.

Lemma u8_id x : is_u8 x -> u8 x = x.
Proof. intros H. apply Z.mod_small, H. Qed.

Lemma u16_id x : is_u16 x -> u16 x = x.
Proof. intros H. apply Z.mod_small, H. Qed.

Lemma u32_id x : is_u32 x -> u32 x = x.
Proof. intros H. apply Z.mod_small, H. Qed.

Lemma u64_id x : is_u64 x -> u64 x = x.
Proof. intros H. apply Z.mod_small, H. Qed.

Lemma u32_u32 x : u32 (u32 x) = u32 x.
Proof. apply u32_id, u32_range. Qed.

Lemma u32_land x : u32 x = Z.land x (Z.ones 32).
Proof. unfold u32. by rewrite Z.land_ones by lia. Qed.

Lemma u8_land x : u8 x = Z.land x (Z.ones 8).
Proof. unfold u8. by rewrite Z.land_ones by lia. Qed.

Lemma u32_testbit x n :
  0 <= n -> Z.testbit (u32 x) n = (n <? 32) && Z.testbit x n.
Proof.
  intros Hn. unfold u32. destruct (n <? 32) eqn:E; simpl.
  - by rewrite Z.mod_pow2_bits_low by lia.
  - by rewrite Z.mod_pow2_bits_high by lia.
Qed.

Lemma u8_testbit x n :
  0 <= n -> Z.testbit (u8 x) n = (n <? 8) && Z.testbit x n.
Proof.
  intros Hn. unfold u8. destruct (n <? 8) eqn:E; simpl.
  - by rewrite Z.mod_pow2_bits_low by lia.
  - by rewrite Z.mod_pow2_bits_high by lia.
Qed.

(** A value below [2^k] has no bit at [k] or above. *)
Lemma testbit_high x k n :
  0 <= x < 2 ^ k -> 0 <= k <= n -> Z.testbit x n = false.
Proof.
  intros Hx Hn. rewrite <- (Z.mod_small x (2 ^ k)) by lia.
  by apply Z.mod_pow2_bits_high.
Qed.

(** The converse: a natural number without bits at [k] or above is below
    [2^k]. *)
Lemma bits_below x k :
  0 <= k -> 0 <= x -> (forall n, k <= n -> Z.testbit x n = false) -> x < 2 ^ k.
Proof.
  intros Hk Hx Hbits.
  assert (x = x mod 2 ^ k) as ->.
  { apply Z.bits_inj'. intros n Hn. destruct (decide (n < k)).
    - by rewrite Z.mod_pow2_bits_low by lia.
    - rewrite Z.mod_pow2_bits_high by lia. apply Hbits; lia. }
  apply Z.mod_pos_bound; lia.
Qed.

(** Clearing the low [k] bits of [x] is rounding down to a multiple of
    [2^k]. *)
Lemma ldiff_ones x k : 0 <= k -> Z.ldiff x (Z.ones k) = 2 ^ k * (x / 2 ^ k).
Proof.
  intros Hk. rewrite Z.ldiff_ones_r by lia.
  rewrite Z.shiftl_mul_pow2, Z.shiftr_div_pow2 by lia. lia.
Qed.

(** [x & ~(2^k - 1)] in [uint32_t] arithmetic. *)
Lemma land_lnot_mask x k :
  0 <= k <= 32 -> is_u32 x ->
  Z.land x (u32 (Z.lnot (2 ^ k - 1))) = 2 ^ k * (x / 2 ^ k).
Proof.
  intros Hk Hx. rewrite <- ldiff_ones by lia.
  replace (2 ^ k - 1) with (Z.ones k) by (rewrite Z.ones_equiv; lia).
  apply Z.bits_inj'. intros n Hn.
  rewrite Z.land_spec, Z.ldiff_spec, u32_testbit, Z.lnot_spec by lia.
  destruct (n <? 32) eqn:E; simpl; [done|].
  by rewrite (testbit_high x 32) by (unfold is_u32 in Hx; lia).
Qed.
End MachineIntegers.

#[export] Hint Resolve u8_range u16_range u32_range u64_range : neox.
#[export] Hint Rewrite Z.land_spec Z.lor_spec Z.lxor_spec Z.ldiff_spec
  Z.testbit_0_l : bits.
#[export] Hint Rewrite Z.lnot_spec Z.shiftl_spec Z.shiftr_spec
  u32_testbit u8_testbit using lia : bits.

(** Expose the numeric bounds hidden behind the range predicates. *)
Ltac unfold_ranges := unfold is_u8, is_u16, is_u32, is_u64 in *.

(** Drop a wrap-around that the context shows to be the identity. *)
Ltac wrap_id :=
  repeat first
    [ rewrite u32_id by (unfold_ranges; lia)
    | rewrite u64_id by (unfold_ranges; lia)
    | rewrite u8_id by (unfold_ranges; lia)
    | rewrite u16_id by (unfold_ranges; lia) ].

(** ** Execution of kernel code

    A kernel routine over a state [S] returns a value and a new state, or the
    kernel stops: an [ASSERT] fails, [panic] is called, or the code touches
    memory that the C program may not touch. [Diverged] is the answer of a
    bounded interpretation whose bound was too small; every routine below
    that can give it has a theorem that it does not. *)

Inductive fault : Type :=
  | AssertFailed (expr : string)
  | Panicked (message : string)
  | BadAccess (address : Z)
  | BadPointer
  | OutOfBounds (index : Z)
  | Diverged.

Inductive res (S A : Type) : Type :=
  | Ok (a : A) (s : S)
  | Fault (f : fault).
Arguments Ok {S A} a s.
Arguments Fault {S A} f.

Definition M (S A : Type) : Type := S -> res S A.

Section Monad.
Context {S : Type}.

Definition ret {A} (a : A) : M S A := fun s => Ok a s.

Definition bind {A B} (m : M S A) (k : A -> M S B) : M S B :=
  fun s => match m s with Ok a s' => k a s' | Fault f => Fault f end.

Definition fail {A} (f : fault) : M S A := fun _ => Fault f.

Definition gets {A} (f : S -> A) : M S A := fun s => Ok (f s) s.

Definition modify (f : S -> S) : M S unit := fun s => Ok tt (f s).

(** [ASSERT(expr)] of [assert.h]: halts the kernel when [b] is false. *)
Definition ASSERT (expr : string) (b : bool) : M S unit :=
  if b then ret tt else fail (AssertFailed expr).

(** A partial read of the state: [f] stops the kernel when it is [None]. *)
Definition require (f : fault) {A} (o : option A) : M S A :=
  match o with Some a => ret a | None => fail f end.
End Monad.

Declare Scope kernel_scope.
Delimit Scope kernel_scope with kernel.
Notation "'let*' x ':=' m 'in' k" := (bind m (fun x => k))
  (at level 10, x name, m at level 100, k at level 200,
   format "'[v' 'let*'  x  ':='  m  'in' '/' k ']'") : kernel_scope.
Notation "m ';;;' k" := (bind m (fun _ => k))
  (at level 60, right associativity, format "'[v' m  ';;;' '/' k ']'") : kernel_scope.
#[global] Open Scope kernel_scope.

(** The state a routine leaves behind; the initial one if it faults. *)
Definition final {S A} (m : M S A) (s : S) : S :=
  match m s with Ok _ s' => s' | Fault _ => s end.

(** The result of a routine, if it does not fault. *)
Definition result {S A} (m : M S A) (s : S) : option A :=
  match m s with Ok a _ => Some a | Fault _ => None end.

(** Counted loops. [for_range i n body] runs [body i], ..., [body (i+n-1)];
    an iteration that answers [Some r] is a [return r] (or a [break]) from
    inside the loop. *)
Fixpoint for_range {S R} (i : Z) (n : nat) (body : Z -> M S (option R))
  : M S (option R) :=
  match n with
  | O => ret None
  | Datatypes.S n' =>
      let* r := body i in
      match r with
      | Some v => ret (Some v)
      | None => for_range (i + 1) n' body
      end
  end.

(** A counted loop without early exit. *)
Fixpoint for_each {S} (i : Z) (n : nat) (body : Z -> M S unit) : M S unit :=
  match n with
  | O => ret tt
  | Datatypes.S n' => body i ;;; for_each (i + 1) n' body
  end.

(** [while] loops carry a bound on their iterations. [None] continues with
    the next iteration, [Some r] leaves the loop. *)
Fixpoint loop {S L R} (fuel : nat) (body : L -> M S (L + R)) (l : L) : M S R :=
  match fuel with
  | O => fail Diverged
  | Datatypes.S fuel' =>
      let* r := body l in
      match r with
      | inl l' => loop fuel' body l'
      | inr v => ret v
      end
  end.

(** ** Weakest preconditions

    [wp m Q s]: started in [s], the routine [m] finishes without a fault and
    its result and final state satisfy [Q]. It is total correctness. *)

Definition wp {S A} (m : M S A) (Q : A -> S -> Prop) (s : S) : Prop :=
  match m s with Ok a s' => Q a s' | Fault _ => False end.

Section Wp.
Context {S : Type}.

Lemma wp_ret {A} (a : A) (Q : A -> S -> Prop) s : Q a s -> wp (ret a) Q s.
Proof. done. Qed.

Lemma wp_bind {A B} (m : M S A) (k : A -> M S B) Q s :
  wp m (fun a s' => wp (k a) Q s') s -> wp (bind m k) Q s.
Proof. unfold wp, bind. by destruct (m s). Qed.

Lemma wp_bind_assoc {A B C} (m : M S A) (k : A -> M S B) (k' : B -> M S C) Q s :
  wp (bind (bind m k) k') Q s -> wp (bind m (fun a => bind (k a) k')) Q s.
Proof. unfold wp, bind. by destruct (m s). Qed.

Lemma wp_gets {A} (f : S -> A) Q s : Q (f s) s -> wp (gets f) Q s.
Proof. done. Qed.

Lemma wp_modify f (Q : unit -> S -> Prop) s : Q tt (f s) -> wp (modify f) Q s.
Proof. done. Qed.

Lemma wp_assert e b (Q : unit -> S -> Prop) s :
  b = true -> Q tt s -> wp (ASSERT e b) Q s.
Proof. by intros ->. Qed.

Lemma wp_require {A} f (o : option A) Q (s : S) a :
  o = Some a -> Q a s -> wp (require f o) Q s.
Proof. by intros ->. Qed.

Lemma wp_mono {A} (m : M S A) (Q Q' : A -> S -> Prop) s :
  wp m Q s -> (forall a s', Q a s' -> Q' a s') -> wp m Q' s.
Proof. unfold wp. destruct (m s); auto. Qed.

Lemma wp_conj {A} (m : M S A) (Q Q' : A -> S -> Prop) s :
  wp m Q s -> wp m Q' s -> wp m (fun a s' => Q a s' /\ Q' a s') s.
Proof. unfold wp. destruct (m s); auto. Qed.

Lemma wp_Ok {A} (m : M S A) (Q : A -> S -> Prop) s a s' :
  m s = Ok a s' -> Q a s' -> wp m Q s.
Proof. unfold wp. by intros ->. Qed.

Lemma wp_inv {A} (m : M S A) (Q : A -> S -> Prop) s :
  wp m Q s -> exists a s', m s = Ok a s' /\ Q a s'.
Proof. unfold wp. destruct (m s); [eauto|done]. Qed.

Lemma wp_run {A} (m : M S A) (Q : A -> S -> Prop) s a s' :
  wp m Q s -> m s = Ok a s' -> Q a s'.
Proof. unfold wp. intros H E. by rewrite E in H. Qed.

(** A computation is known to have run as it did. *)
Lemma wp_ran {A} (m : M S A) (Q : A -> S -> Prop) s :
  wp m (fun a s' => m s = Ok a s' -> Q a s') s -> wp m Q s.
Proof. unfold wp. destruct (m s); auto. Qed.

Lemma wp_final {A} (m : M S A) (Q : A -> S -> Prop) s :
  wp m Q s -> exists a, Q a (final m s).
Proof. unfold wp, final. destruct (m s); [eauto|done]. Qed.

(** The invariant rule of [for_range]: [I i] holds before iteration [i]. *)
Lemma wp_for_range {R} (I : Z -> S -> Prop) (body : Z -> M S (option R)) n :
  forall i Q s,
  I i s ->
  (forall j s', i <= j < i + Z.of_nat n -> I j s' ->
     wp (body j) (fun r s'' => match r with
                               | None => I (j + 1) s''
                               | Some v => Q (Some v) s''
                               end) s') ->
  (forall s', I (i + Z.of_nat n) s' -> Q None s') ->
  wp (for_range i n body) Q s.
Proof.
  induction n as [|n IH]; intros i Q s HI Hbody Hend; cbn [for_range].
  - apply wp_ret, Hend. by rewrite Z.add_0_r.
  - apply wp_bind. eapply wp_mono; [apply Hbody; [lia|done]|].
    intros [v|] s' Hr; [done|]. apply IH; [done| |].
    + intros j s'' Hj. apply Hbody. lia.
    + intros s'' HI'. apply Hend. by replace (i + Z.of_nat (Datatypes.S n))
        with (i + 1 + Z.of_nat n) by lia.
Qed.

Lemma wp_for_each (I : Z -> S -> Prop) (body : Z -> M S unit) n :
  forall i (Q : unit -> S -> Prop) s,
  I i s ->
  (forall j s', i <= j < i + Z.of_nat n -> I j s' ->
     wp (body j) (fun _ s'' => I (j + 1) s'') s') ->
  (forall s', I (i + Z.of_nat n) s' -> Q tt s') ->
  wp (for_each i n body) Q s.
Proof.
  induction n as [|n IH]; intros i Q s HI Hbody Hend; cbn [for_each].
  - apply wp_ret, Hend. by rewrite Z.add_0_r.
  - apply wp_bind. eapply wp_mono; [apply Hbody; [lia|done]|].
    intros [] s' Hr. apply IH; [done| |].
    + intros j s'' Hj. apply Hbody. lia.
    + intros s'' HI'. apply Hend. by replace (i + Z.of_nat (Datatypes.S n))
        with (i + 1 + Z.of_nat n) by lia.
Qed.

(** The variant rule of [loop]: a measure below the fuel that every
    continuing iteration decreases. *)
Lemma wp_loop {L R} (I : L -> S -> Prop) (measure : L -> S -> nat)
    (body : L -> M S (L + R)) Q :
  (forall l s, I l s ->
     wp (body l) (fun r s' => match r with
                              | inl l' => I l' s' /\ (measure l' s' < measure l s)%nat
                              | inr v => Q v s'
                              end) s) ->
  forall fuel l s, I l s -> (measure l s < fuel)%nat -> wp (loop fuel body l) Q s.
Proof.
  intros Hbody. induction fuel as [|fuel IH]; intros l s HI Hm; [lia|].
  cbn [loop]. apply wp_bind. eapply wp_mono; [by apply Hbody|].
  intros [l'|v] s' Hr; [|done]. destruct Hr as [HI' Hm']. apply IH; [done|lia].
Qed.
End Wp.

(** ** Components of a larger state

    A routine of one component runs on the part of the state that component
    owns. *)
Record lens (T S : Type) : Type := Lens {
  view : T -> S;
  set_view : S -> T -> T;
}.
Arguments Lens {T S}.
Arguments view {T S} l t : rename.
Arguments set_view {T S} l s t : rename.

Definition zoom {T S A} (l : lens T S) (m : M S A) : M T A := fun t =>
  match m (view l t) with
  | Ok a s => Ok a (set_view l s t)
  | Fault f => Fault f
  end.

Lemma wp_zoom {T S A} (l : lens T S) (m : M S A) Q t :
  wp m (fun a s => Q a (set_view l s t)) (view l t) -> wp (zoom l m) Q t.
Proof. unfold wp, zoom. by destruct (m (view l t)). Qed.

#[export] Hint Resolve wp_ret : neox.

(** Step through straight-line code: one bind, one primitive at a time. *)
Ltac wp_step :=
  lazymatch goal with
  | |- wp (bind _ _) _ _ => apply wp_bind
  | |- wp (ret _) _ _ => apply wp_ret
  | |- wp (gets _) _ _ => apply wp_gets
  | |- wp (modify _) _ _ => apply wp_modify
  | |- wp (zoom _ _) _ _ => apply wp_zoom
  | |- wp (if ?b then _ else _) _ _ => let E := fresh "Hif" in destruct b eqn:E
  | |- wp (match ?o with _ => _ end) _ _ => destruct o eqn:?
  end.
Ltac wp_steps := repeat (wp_step; cbn beta iota).
