(* ===== verification/Layout.v ===== *)
(** * Virtual memory layout

    The constants of [kernel/include/memory_layout.h], the page size of
    [kernel/include/memory.h] and the entry flags of
    [kernel/include/paging.h], with the header's [_Static_assert]s evaluated
    in the widths C gives them, and the arithmetic facts about regions that
    the memory managers rely on. *)

From S2P Require Import Prelude.

(** ** [memory.h] *)
Definition PAGE_SIZE : Z := 4096.

(** The null pointer, as an address. *)
Definition NULL : Z := 0.

(** ** [memory_layout.h] *)
Definition VIRTUAL_ADDRESS_SPACE_START : Z := 0x00000000.
Definition VIRTUAL_ADDRESS_SPACE_END : Z := 0xFFFFFFFF.
Definition VIRTUAL_ADDRESS_SPACE_SIZE : Z := 0x100000000.

Definition USER_VIRT_START : Z := 0x00000000.
Definition USER_VIRT_END : Z := 0xBFFFFFFF.
Definition USER_VIRT_SIZE : Z := 0xC0000000.
Definition USER_VIRT_NULL_GUARD_END : Z := 0x00000FFF.

Definition KERNEL_VIRT_BASE : Z := 0xC0000000.
Definition KERNEL_VIRT_END : Z := 0xFFBFFFFF.
Definition KERNEL_VIRT_SIZE : Z := 0x3FC00000.
Definition BOOTSTRAP_MAP_SIZE : Z := 0x01000000.
Definition KERNEL_BOOTSTRAP_END : Z := u32 (KERNEL_VIRT_BASE + BOOTSTRAP_MAP_SIZE).

Definition RECURSIVE_PDE_INDEX : Z := 1023.
Definition RECURSIVE_VIRT_BASE : Z := 0xFFC00000.
Definition RECURSIVE_VIRT_END : Z := 0xFFFFFFFF.
Definition RECURSIVE_VIRT_SIZE : Z := 0x00400000.

Definition KERNEL_LOAD_ADDRESS : Z := 0x00100000.
Definition KERNEL_LINK_ADDRESS : Z := 0xC0100000.
Definition KERNEL_IMAGE_BASE : Z := KERNEL_LINK_ADDRESS.
Definition KERNEL_PHYS_OFFSET : Z := u32 (KERNEL_LINK_ADDRESS - KERNEL_LOAD_ADDRESS).

Definition PHYS_TO_VIRT (addr : Z) : Z := u32 (addr + KERNEL_PHYS_OFFSET).
Definition VIRT_TO_PHYS (addr : Z) : Z := u32 (addr - KERNEL_PHYS_OFFSET).

Definition KERNEL_HEAP_START : Z := KERNEL_BOOTSTRAP_END.
Definition KERNEL_HEAP_END : Z := 0xCFFFFFFF.
Definition KERNEL_HEAP_SIZE : Z := u32 (u32 (KERNEL_HEAP_END - KERNEL_HEAP_START) + 1).

Definition KERNEL_STACKS_START : Z := 0xD0000000.
Definition KERNEL_STACKS_END : Z := 0xDFFFFFFF.
Definition KERNEL_STACKS_SIZE : Z := 0x10000000.

Definition KERNEL_REMAINING_START : Z := 0xE0000000.
Definition KERNEL_REMAINING_END : Z := 0xFFBFFFFF.
Definition KERNEL_REMAINING_SIZE : Z := 0x1FC00000.

Definition PAGE_DIRECTORY_ENTRIES : Z := 1024.
Definition PAGE_TABLE_ENTRIES : Z := 1024.
Definition PAGE_DIRECTORY_COVERAGE : Z := 0x00400000.
Definition USER_PDE_COUNT : Z := 768.
Definition KERNEL_PDE_START : Z := 768.
Definition KERNEL_PDE_END : Z := 1022.
Definition RECURSIVE_PDE_COUNT : Z := 1.

Definition KERNEL_STACK_SIZE : Z := 0x4000.
Definition KERNEL_STACK_PDE : Z := Z.shiftr KERNEL_STACKS_START 22.
Definition KERNEL_STACK_COUNT : Z :=
  u32 (u32 (KERNEL_STACKS_END - KERNEL_STACKS_START) + 1) / KERNEL_STACK_SIZE.
Definition KERNEL_STACK_BITMAP_BYTES : Z := u32 (KERNEL_STACK_COUNT + 7) / 8.

(** The compile-time validation at the end of the header. [ULL] operands
    make an addition 64 bits wide; all others are 32 bits wide. *)
Definition static_asserts_boundaries : list bool :=
  [ (* user/kernel virtual address boundary *)
    u64 (USER_VIRT_END + 1) =? KERNEL_VIRT_BASE;
    (* kernel/recursive virtual address boundary *)
    u64 (KERNEL_VIRT_END + 1) =? RECURSIVE_VIRT_BASE;
    (* recursive PDE matches recursive virtual address *)
    u32 (RECURSIVE_PDE_INDEX * PAGE_DIRECTORY_COVERAGE) =? RECURSIVE_VIRT_BASE;
    (* recursive region is exactly one PDE *)
    RECURSIVE_VIRT_SIZE =? PAGE_DIRECTORY_COVERAGE;
    (* user space matches the user PDE count *)
    u32 (USER_PDE_COUNT * PAGE_DIRECTORY_COVERAGE) =? USER_VIRT_SIZE;
    (* kernel PDE range ends before the recursive PDE *)
    u32 (KERNEL_PDE_END + 1) =? RECURSIVE_PDE_INDEX ].

Definition static_asserts_sizes : list bool :=
  [ (* heap, stacks, remaining: size matches the inclusive range *)
    u64 (u64 (KERNEL_HEAP_END - KERNEL_HEAP_START) + 1) =? KERNEL_HEAP_SIZE;
    u64 (u64 (KERNEL_STACKS_END - KERNEL_STACKS_START) + 1) =? KERNEL_STACKS_SIZE;
    u64 (u64 (KERNEL_REMAINING_END - KERNEL_REMAINING_START) + 1)
      =? KERNEL_REMAINING_SIZE;
    (* physical/virtual offset, kernel image base *)
    u32 (KERNEL_LINK_ADDRESS - KERNEL_LOAD_ADDRESS) =? KERNEL_PHYS_OFFSET;
    KERNEL_IMAGE_BASE =? u32 (KERNEL_VIRT_BASE + 0x00100000) ].

Definition static_asserts_adjacency : list bool :=
  [ KERNEL_IMAGE_BASE <? KERNEL_HEAP_START;
    KERNEL_STACKS_START =? u32 (KERNEL_HEAP_END + 1);
    KERNEL_REMAINING_START =? u32 (KERNEL_STACKS_END + 1);
    u64 (KERNEL_REMAINING_END + 1) =? RECURSIVE_VIRT_BASE;
    u32 (u32 (KERNEL_PDE_END + RECURSIVE_PDE_COUNT) + 1) =? PAGE_DIRECTORY_ENTRIES;
    u32 (u32 (USER_PDE_COUNT + u32 (u32 (KERNEL_PDE_END - KERNEL_PDE_START) + 1))
         + RECURSIVE_PDE_COUNT) =? PAGE_DIRECTORY_ENTRIES;
    KERNEL_BOOTSTRAP_END <=? KERNEL_HEAP_START;
    KERNEL_HEAP_END <? KERNEL_STACKS_START ].

(** ** [paging.h] *)
Definition PAGE_ENTRIES : Z := 1024.
Definition PAGE_FRAME_MASK : Z := 0xFFFFF000.
Definition PAGE_PRESENT : Z := Z.shiftl 1 0.
Definition PAGE_WRITABLE : Z := Z.shiftl 1 1.
Definition PAGE_USER : Z := Z.shiftl 1 2.
Definition PAGE_PWT : Z := Z.shiftl 1 3.
Definition PAGE_PCD : Z := Z.shiftl 1 4.
Definition PAGE_ACCESSED : Z := Z.shiftl 1 5.
Definition PAGE_DIRTY : Z := Z.shiftl 1 6.
Definition PAGE_4MB : Z := Z.shiftl 1 7.
Definition PAGE_GLOBAL : Z := Z.shiftl 1 8.

(** ** Regions

    The fixed regions as inclusive address ranges. *)
Inductive region : Type :=
  | UserSpace | KernelImageGap | KernelHeap | KernelStacks | KernelRemaining
  | RecursiveWindow.

#[export] Instance region_eq_dec : EqDecision region.
Proof. solve_decision. Defined.

Definition region_first (r : region) : Z :=
  match r with
  | UserSpace => USER_VIRT_START
  | KernelImageGap => KERNEL_VIRT_BASE
  | KernelHeap => KERNEL_HEAP_START
  | KernelStacks => KERNEL_STACKS_START
  | KernelRemaining => KERNEL_REMAINING_START
  | RecursiveWindow => RECURSIVE_VIRT_BASE
  end.

Definition region_last (r : region) : Z :=
  match r with
  | UserSpace => USER_VIRT_END
  | KernelImageGap => KERNEL_BOOTSTRAP_END - 1
  | KernelHeap => KERNEL_HEAP_END
  | KernelStacks => KERNEL_STACKS_END
  | KernelRemaining => KERNEL_REMAINING_END
  | RecursiveWindow => RECURSIVE_VIRT_END
  end.

Definition in_region (r : region) (a : Z) : Prop := region_first r <= a <= region_last r.

(** The layout constants as numbers, for [lia]. *)
Ltac layout :=
  unfold in_region, region_first, region_last in *;
  change KERNEL_HEAP_START with 0xC1000000 in *;
  change KERNEL_HEAP_SIZE with 0x0F000000 in *;
  change KERNEL_STACK_COUNT with 16384 in *;
  change KERNEL_STACK_BITMAP_BYTES with 2048 in *;
  change KERNEL_BOOTSTRAP_END with 0xC1000000 in *;
  change KERNEL_PHYS_OFFSET with 0xC0000000 in *;
  unfold PAGE_SIZE, USER_VIRT_START, USER_VIRT_END, KERNEL_VIRT_BASE, KERNEL_VIRT_END,
    KERNEL_VIRT_SIZE, BOOTSTRAP_MAP_SIZE, RECURSIVE_VIRT_BASE, RECURSIVE_VIRT_END,
    KERNEL_LOAD_ADDRESS, KERNEL_IMAGE_BASE, KERNEL_LINK_ADDRESS, KERNEL_HEAP_END,
    KERNEL_STACKS_START, KERNEL_STACKS_END, KERNEL_STACK_SIZE, KERNEL_REMAINING_START,
    KERNEL_REMAINING_END, KERNEL_PDE_START, PAGE_DIRECTORY_ENTRIES,
    RECURSIVE_PDE_INDEX, PAGE_ENTRIES in *.

Lemma static_asserts_hold :
  Forall (fun b => b = true)
    (static_asserts_boundaries ++ static_asserts_sizes ++ static_asserts_adjacency).
Proof. repeat constructor. Qed.

(** The regions tile the 32-bit address space: every address lies in exactly
    one of them. *)
Lemma regions_partition a :
  is_u32 a -> exists r, in_region r a /\ forall r', in_region r' a -> r' = r.
Proof.
  intros Ha. unfold_ranges.
  assert (exists r, in_region r a) as [r Hr].
  { destruct (decide (a < 0xC0000000)); [exists UserSpace; layout; lia|].
    destruct (decide (a < 0xC1000000)); [exists KernelImageGap; layout; lia|].
    destruct (decide (a < 0xD0000000)); [exists KernelHeap; layout; lia|].
    destruct (decide (a < 0xE0000000)); [exists KernelStacks; layout; lia|].
    destruct (decide (a < 0xFFC00000)); [exists KernelRemaining; layout; lia|].
    exists RecursiveWindow; layout; lia. }
  exists r. split; [done|]. intros r' Hr'.
  destruct r, r'; try done; exfalso; layout; lia.
Qed.

Lemma phys_to_virt_to_phys a : is_u32 a -> VIRT_TO_PHYS (PHYS_TO_VIRT a) = a.
Proof.
  intros Ha. unfold VIRT_TO_PHYS, PHYS_TO_VIRT, u32, is_u32 in *.
  rewrite Zminus_mod_idemp_l.
  replace (a + KERNEL_PHYS_OFFSET - KERNEL_PHYS_OFFSET) with a by lia.
  by apply Z.mod_small.
Qed.

Lemma phys_to_virt_direct a :
  0 <= a < BOOTSTRAP_MAP_SIZE -> PHYS_TO_VIRT a = a + KERNEL_VIRT_BASE.
Proof. intros Ha. unfold PHYS_TO_VIRT. layout. apply u32_id. unfold_ranges. lia. Qed.
