(* ===== verification/Bitmap.v ===== *)
(** * Bitmaps in byte arrays

    [pmm.c] and [vam.c] each keep page occupancy in a byte array and
    manipulate it with the same three expressions. This file holds the byte
    array with its bounds, the three expressions, their meaning as updates of
    a set of bits, and the counting facts the allocators need. *)

From S2P Require Import Prelude.

(** A C array of [uint8_t]: index to contents; reading or writing an index
    outside the array is a fault. *)
Abbreviation bytes := (gmap Z Z).

Definition load (i : Z) : M bytes Z := fun bs =>
  match bs !! i with Some b => Ok b bs | None => Fault (OutOfBounds i) end.

Definition store (i v : Z) : M bytes unit := fun bs =>
  match bs !! i with
  | Some _ => Ok tt (<[i := v]> bs)
  | None => Fault (OutOfBounds i)
  end.

(** [bitmap[n / 8] |= (1 << (n % 8))] *)
Definition set_bit (n : Z) : M bytes unit :=
  let* b := load (n / 8) in
  store (n / 8) (u8 (Z.lor b (Z.shiftl 1 (n mod 8)))).

(** [bitmap[n / 8] &= (uint8_t)~(1 << (n % 8))] *)
Definition clear_bit (n : Z) : M bytes unit :=
  let* b := load (n / 8) in
  store (n / 8) (u8 (Z.land b (u8 (Z.lnot (Z.shiftl 1 (n mod 8)))))).

(** [(bitmap[n / 8] >> (n % 8)) & 1] *)
Definition shift_bit (n : Z) : M bytes Z :=
  let* b := load (n / 8) in
  ret (Z.land (Z.shiftr b (n mod 8)) 1).

(** [(bitmap[n / 8] & (1u << (n % 8))) != 0] *)
Definition mask_bit (n : Z) : M bytes bool :=
  let* b := load (n / 8) in
  ret (negb (Z.land b (Z.shiftl 1 (n mod 8)) =? 0)).

(** [memset(bitmap, value, size)] over the first [size] bytes. *)
Definition fill (size value : Z) : M bytes unit :=
  for_each 0 (Z.to_nat size) (fun i => store i (u8 value)).

(** ** Meaning *)

(** An array of exactly [n] bytes. *)
Definition bytes_ok (n : Z) (bs : bytes) : Prop :=
  forall i, match bs !! i with
            | Some b => 0 <= i < n /\ is_u8 b
            | None => ~ (0 <= i < n)
            end.

(** Bit [n] of the array; [false] outside of it. *)
Definition bit (bs : bytes) (n : Z) : bool :=
  Z.testbit (default 0 (bs !! (n / 8))) (n mod 8).

(** The array of [n] bytes that all hold [v]. *)
Fixpoint fill_from (i : Z) (n : nat) (v : Z) : bytes :=
  match n with
  | O => ∅
  | S n' => <[i := v]> (fill_from (i + 1) n' v)
  end.

Definition filled (n v : Z) : bytes := fill_from 0 (Z.to_nat n) v.

Section Meaning.
Implicit Types (bs : bytes) (n i j v : Z).

Lemma bytes_ok_lookup n bs i :
  bytes_ok n bs -> 0 <= i < n -> exists b, bs !! i = Some b /\ is_u8 b.
Proof.
  intros Hok Hi. specialize (Hok i). destruct (bs !! i) as [b|]; [|done].
  exists b. by destruct Hok.
Qed.

Lemma bytes_ok_insert n bs i v :
  bytes_ok n bs -> 0 <= i < n -> is_u8 v -> bytes_ok n (<[i := v]> bs).
Proof.
  intros Hok Hi Hv j. specialize (Hok j).
  destruct (decide (i = j)) as [->|Hne].
  - by rewrite lookup_insert_eq.
  - by rewrite lookup_insert_ne.
Qed.

Lemma wp_load n bs i Q :
  bytes_ok n bs -> 0 <= i < n ->
  (forall b, bs !! i = Some b -> is_u8 b -> Q b bs) -> wp (load i) Q bs.
Proof.
  intros Hok Hi HQ. destruct (bytes_ok_lookup n bs i) as (b & E & Hb); [done..|].
  unfold wp, load. rewrite E. auto.
Qed.

Lemma wp_store n bs i v (Q : unit -> bytes -> Prop) :
  bytes_ok n bs -> 0 <= i < n -> Q tt (<[i := v]> bs) -> wp (store i v) Q bs.
Proof.
  intros Hok Hi HQ. destruct (bytes_ok_lookup n bs i) as (b & E & Hb); [done..|].
  unfold wp, store. by rewrite E.
Qed.

(** Two bit numbers share a byte and a position only if they are equal. *)
Lemma bit_position i j : i / 8 = j / 8 -> i mod 8 = j mod 8 -> i = j.
Proof. lia. Qed.

Lemma testbit_pow2 k m : 0 <= k -> 0 <= m -> Z.testbit (Z.shiftl 1 k) m = (m =? k).
Proof.
  intros Hk Hm. rewrite Z.shiftl_1_l. rewrite Z.pow2_bits_eqb by lia.
  apply Z.eqb_sym.
Qed.

(** Replacing the byte of bit [i] changes exactly the bits of that byte. *)
Lemma bit_insert bs i j v :
  bit (<[i := v]> bs) j
  = if decide (j / 8 = i) then Z.testbit v (j mod 8) else bit bs j.
Proof.
  unfold bit. case_decide as E.
  - subst. by rewrite lookup_insert_eq.
  - by rewrite lookup_insert_ne by congruence.
Qed.

Lemma wp_set_bit n bs i (Q : unit -> bytes -> Prop) :
  bytes_ok n bs -> 0 <= i < 8 * n ->
  (forall bs', bytes_ok n bs' ->
     (forall j, bit bs' j = bool_decide (j = i) || bit bs j) -> Q tt bs') ->
  wp (set_bit i) Q bs.
Proof.
  intros Hok Hi HQ. unfold set_bit. apply wp_bind.
  apply (wp_load n); [done|lia|]. intros b E Hb.
  apply (wp_store n); [done|lia|]. apply HQ.
  - apply bytes_ok_insert; [done|lia|apply u8_range].
  - intros j. rewrite bit_insert.
    pose proof (Z.mod_pos_bound j 8). pose proof (Z.mod_pos_bound i 8).
    case_decide as Ej.
    + unfold bit. rewrite Ej, E. cbn.
      rewrite u8_testbit, Z.lor_spec, testbit_pow2 by lia.
      rewrite (proj2 (Z.ltb_lt (j mod 8) 8)) by lia. cbn.
      rewrite orb_comm. f_equal. case_bool_decide; subst; lia.
    + rewrite bool_decide_false; [done|]. by intros ->.
Qed.

Lemma wp_clear_bit n bs i (Q : unit -> bytes -> Prop) :
  bytes_ok n bs -> 0 <= i < 8 * n ->
  (forall bs', bytes_ok n bs' ->
     (forall j, bit bs' j = negb (bool_decide (j = i)) && bit bs j) -> Q tt bs') ->
  wp (clear_bit i) Q bs.
Proof.
  intros Hok Hi HQ. unfold clear_bit. apply wp_bind.
  apply (wp_load n); [done|lia|]. intros b E Hb.
  apply (wp_store n); [done|lia|]. apply HQ.
  - apply bytes_ok_insert; [done|lia|apply u8_range].
  - intros j. rewrite bit_insert.
    pose proof (Z.mod_pos_bound j 8). pose proof (Z.mod_pos_bound i 8).
    case_decide as Ej.
    + unfold bit. rewrite Ej, E. cbn.
      rewrite u8_testbit, Z.land_spec, u8_testbit, Z.lnot_spec, testbit_pow2 by lia.
      rewrite (proj2 (Z.ltb_lt (j mod 8) 8)) by lia. cbn.
      rewrite andb_comm. f_equal. f_equal. case_bool_decide; subst; lia.
    + rewrite bool_decide_false; [done|]. by intros ->.
Qed.

Lemma wp_shift_bit n bs i Q :
  bytes_ok n bs -> 0 <= i < 8 * n -> Q (Z.b2z (bit bs i)) bs ->
  wp (shift_bit i) Q bs.
Proof.
  intros Hok Hi HQ. unfold shift_bit. apply wp_bind.
  apply (wp_load n); [done|lia|]. intros b E Hb. apply wp_ret.
  replace (Z.land (Z.shiftr b (i mod 8)) 1) with (Z.b2z (bit bs i)); [done|].
  unfold bit. rewrite E. cbn. change 1 with (Z.ones 1). rewrite Z.land_ones by lia.
  rewrite Z.testbit_spec' by (apply Z.mod_pos_bound; lia).
  rewrite Z.shiftr_div_pow2; [done|]. apply Z.mod_pos_bound; lia.
Qed.

Lemma land_pow2_testbit b k :
  0 <= k -> negb (Z.land b (Z.shiftl 1 k) =? 0) = Z.testbit b k.
Proof.
  intros Hk. destruct (Z.testbit b k) eqn:E.
  - apply negb_true_iff, Z.eqb_neq. intros H0.
    assert (Z.testbit (Z.land b (Z.shiftl 1 k)) k = false) as H1
      by (rewrite H0; apply Z.testbit_0_l).
    rewrite Z.land_spec, testbit_pow2, E, Z.eqb_refl in H1 by lia. done.
  - apply negb_false_iff, Z.eqb_eq. apply Z.bits_inj'. intros m Hm.
    rewrite Z.land_spec, testbit_pow2, Z.testbit_0_l by lia.
    destruct (m =? k) eqn:Em; [|by rewrite andb_false_r].
    apply Z.eqb_eq in Em. subst. by rewrite E.
Qed.

Lemma wp_mask_bit n bs i Q :
  bytes_ok n bs -> 0 <= i < 8 * n -> Q (bit bs i) bs -> wp (mask_bit i) Q bs.
Proof.
  intros Hok Hi HQ. unfold mask_bit. apply wp_bind.
  apply (wp_load n); [done|lia|]. intros b E Hb. apply wp_ret.
  rewrite land_pow2_testbit by (apply Z.mod_pos_bound; lia).
  unfold bit in HQ. by rewrite E in HQ.
Qed.
End Meaning.

(** ** Ranges of bits *)

Definition in_range (start count j : Z) : bool := (start <=? j) && (j <? start + count).

(** [for (i = 0; i < count; i++) bitmap_set(start + i)] *)
Definition set_bits (start count : Z) : M bytes unit :=
  for_each 0 (Z.to_nat count) (fun i => set_bit (u32 (start + i))).

(** [for (i = 0; i < count; i++) bitmap_clear(start + i)] *)
Definition clear_bits (start count : Z) : M bytes unit :=
  for_each 0 (Z.to_nat count) (fun i => clear_bit (u32 (start + i))).

(** [for (i = 0; i < count; i++) if (bitmap_test(start + i)) return false;
    return true] *)
Definition bits_clear (start count : Z) : M bytes bool :=
  let* r := for_range 0 (Z.to_nat count) (fun i =>
    let* b := mask_bit (u32 (start + i)) in
    ret (if b then Some false else None)) in
  ret (default true r).

Section Ranges.
Implicit Types (bs : bytes) (n start count i j : Z).

Lemma in_range_step start i j :
  0 <= i -> bool_decide (j = start + i) || in_range start i j = in_range start (i + 1) j.
Proof. intros Hi. unfold in_range. case_bool_decide; lia. Qed.

Lemma in_range_iff start count j :
  in_range start count j = true <-> start <= j < start + count.
Proof. unfold in_range. lia. Qed.

Lemma wp_set_bits n bs start count (Q : unit -> bytes -> Prop) :
  bytes_ok n bs -> 8 * n <= 2 ^ 32 -> 0 <= start -> 0 <= count ->
  start + count <= 8 * n ->
  (forall bs', bytes_ok n bs' ->
     (forall j, bit bs' j = in_range start count j || bit bs j) -> Q tt bs') ->
  wp (set_bits start count) Q bs.
Proof.
  intros Hok Hn Hs Hc Hle HQ. unfold set_bits.
  apply (wp_for_each (fun i bs' => bytes_ok n bs' /\
    forall j, bit bs' j = in_range start i j || bit bs j)).
  - split; [done|]. intros j. unfold in_range.
    by replace ((start <=? j) && (j <? start + 0)) with false by lia.
  - intros i bs' Hi [Hok' Hbits]. rewrite u32_id by (unfold_ranges; lia).
    apply (wp_set_bit n); [done|lia|]. intros bs'' Hok'' Hbits''.
    split; [done|]. intros j. rewrite Hbits'', Hbits, <- in_range_step by lia.
    by rewrite orb_assoc.
  - intros bs' [Hok' Hbits]. apply HQ; [done|]. intros j. rewrite Hbits.
    by rewrite Z.add_0_l, Z2Nat.id by lia.
Qed.

Lemma wp_clear_bits n bs start count (Q : unit -> bytes -> Prop) :
  bytes_ok n bs -> 8 * n <= 2 ^ 32 -> 0 <= start -> 0 <= count ->
  start + count <= 8 * n ->
  (forall bs', bytes_ok n bs' ->
     (forall j, bit bs' j = negb (in_range start count j) && bit bs j) -> Q tt bs') ->
  wp (clear_bits start count) Q bs.
Proof.
  intros Hok Hn Hs Hc Hle HQ. unfold clear_bits.
  apply (wp_for_each (fun i bs' => bytes_ok n bs' /\
    forall j, bit bs' j = negb (in_range start i j) && bit bs j)).
  - split; [done|]. intros j. unfold in_range.
    by replace ((start <=? j) && (j <? start + 0)) with false by lia.
  - intros i bs' Hi [Hok' Hbits]. rewrite u32_id by (unfold_ranges; lia).
    apply (wp_clear_bit n); [done|lia|]. intros bs'' Hok'' Hbits''.
    split; [done|]. intros j. rewrite Hbits'', Hbits, <- in_range_step by lia.
    by rewrite negb_orb, andb_assoc.
  - intros bs' [Hok' Hbits]. apply HQ; [done|]. intros j. rewrite Hbits.
    by rewrite Z.add_0_l, Z2Nat.id by lia.
Qed.

Lemma wp_bits_clear n bs start count (Q : bool -> bytes -> Prop) :
  bytes_ok n bs -> 8 * n <= 2 ^ 32 -> 0 <= start -> 0 <= count ->
  start + count <= 8 * n ->
  (forall r, (r = true <-> forall j, start <= j < start + count -> bit bs j = false) ->
     Q r bs) ->
  wp (bits_clear start count) Q bs.
Proof.
  intros Hok Hn Hs Hc Hle HQ. unfold bits_clear. apply wp_bind.
  apply (wp_for_range (fun i bs' => bs' = bs /\
    forall j, start <= j < start + i -> bit bs j = false)).
  - split; [done|]. lia.
  - intros i bs' Hi [-> Hbits]. rewrite u32_id by (unfold_ranges; lia).
    apply wp_bind, (wp_mask_bit n); [done|lia|]. apply wp_ret.
    destruct (bit bs (start + i)) eqn:E.
    + apply wp_ret, HQ. cbn. split; [done|]. intros Hall.
      rewrite <- E. rewrite Hall; [done|lia].
    + split; [done|]. intros j Hj. destruct (decide (j = start + i)) as [->|]; [done|].
      apply Hbits. lia.
  - intros bs' [-> Hbits]. apply wp_ret, HQ. split; [|done]. intros _ j Hj.
    apply Hbits. lia.
Qed.

Lemma wp_fill n bs size v (Q : unit -> bytes -> Prop) :
  bytes_ok n bs -> 0 <= size <= n ->
  (forall bs', bytes_ok n bs' ->
     (forall i, 0 <= i < size -> bs' !! i = Some (u8 v)) ->
     (forall i, ~ (0 <= i < size) -> bs' !! i = bs !! i) -> Q tt bs') ->
  wp (fill size v) Q bs.
Proof.
  intros Hok Hs HQ. unfold fill.
  apply (wp_for_each (fun k bs' => bytes_ok n bs' /\
    (forall i, 0 <= i < k -> bs' !! i = Some (u8 v)) /\
    (forall i, ~ (0 <= i < k) -> bs' !! i = bs !! i))).
  - split; [done|]. split; [lia|done].
  - intros k bs' Hk (Hok' & Hin & Hout). apply (wp_store n); [done|lia|].
    split; [|split].
    + apply bytes_ok_insert; [done|lia|apply u8_range].
    + intros i Hi. destruct (decide (k = i)) as [->|].
      * by rewrite lookup_insert_eq.
      * rewrite lookup_insert_ne by done. apply Hin. lia.
    + intros i Hi. rewrite lookup_insert_ne by lia. apply Hout. lia.
  - intros bs' (Hok' & Hin & Hout).
    apply HQ; [done| |]; intros i Hi; [apply Hin|apply Hout]; lia.
Qed.
End Ranges.

(** ** Counting *)

(** How many of [0], ..., [n-1] satisfy [f]. *)
Fixpoint count (f : Z -> bool) (n : nat) : Z :=
  match n with
  | O => 0
  | S n' => count f n' + Z.b2z (f (Z.of_nat n'))
  end.

Section Counting.
Implicit Types f g : Z -> bool.

Lemma count_ext f g n :
  (forall i, 0 <= i < Z.of_nat n -> f i = g i) -> count f n = count g n.
Proof.
  induction n as [|n IH]; intros H; cbn [count]; [done|].
  rewrite IH, H by (intros; try apply H; lia). done.
Qed.

Lemma count_mono f g n :
  (forall i, 0 <= i < Z.of_nat n -> f i = true -> g i = true) -> count f n <= count g n.
Proof.
  intros H. induction n as [|n IH]; cbn [count]; [done|].
  pose proof (IH ltac:(intros i Hi; apply H; lia)). pose proof (H (Z.of_nat n) ltac:(lia)) as Hn.
  destruct (f (Z.of_nat n)); [rewrite Hn by done|]; destruct (g (Z.of_nat n)); cbn; lia.
Qed.

Lemma count_bound f n : 0 <= count f n <= Z.of_nat n.
Proof.
  induction n as [|n IH]; cbn [count]; [lia|].
  destruct (f (Z.of_nat n)); cbn; lia.
Qed.

(** Turning one [false] into [true] raises the count by one. *)
Lemma count_flip f g n i :
  0 <= i < Z.of_nat n -> f i = false -> g i = true ->
  (forall j, j <> i -> f j = g j) -> count g n = count f n + 1.
Proof.
  intros Hi Hf Hg Hne. induction n as [|n IH]; [lia|]. cbn [count].
  destruct (decide (i = Z.of_nat n)) as [->|].
  - rewrite Hf, Hg. cbn. rewrite (count_ext g f); [lia|].
    intros j Hj. symmetry. apply Hne. lia.
  - rewrite IH by lia. rewrite Hne by lia. lia.
Qed.

Lemma count_pos f n i : 0 <= i < Z.of_nat n -> f i = true -> 0 < count f n.
Proof.
  induction n as [|n IH]; intros Hi Hf; [lia|]. cbn [count].
  pose proof (count_bound f n). destruct (decide (i = Z.of_nat n)) as [->|].
  - rewrite Hf. cbn. lia.
  - specialize (IH ltac:(lia) Hf). destruct (f (Z.of_nat n)); cbn; lia.
Qed.
End Counting.

(** ** Arrays filled with one byte *)

Section Filled.
Implicit Types n v i : Z.

Lemma fill_from_lookup (n : nat) v : forall k i,
  fill_from k n v !! i = if decide (k <= i < k + Z.of_nat n) then Some v else None.
Proof.
  induction n as [|n IH]; intros k i; cbn [fill_from].
  - case_decide; [lia|]. apply lookup_empty.
  - destruct (decide (i = k)) as [->|Hne].
    + rewrite lookup_insert_eq. by rewrite decide_True by lia.
    + rewrite lookup_insert_ne, IH by done. repeat case_decide; (done || lia).
Qed.

Lemma filled_lookup n v i :
  filled n v !! i = if decide (0 <= i < n) then Some v else None.
Proof. unfold filled. rewrite fill_from_lookup. repeat case_decide; (done || lia). Qed.

Lemma filled_ok n v : is_u8 v -> bytes_ok n (filled n v).
Proof. intros Hv i. rewrite filled_lookup. by case_decide. Qed.

Lemma bit_filled_ones n i : bit (filled n 0xFF) i = (0 <=? i) && (i <? 8 * n).
Proof.
  unfold bit. rewrite filled_lookup. case_decide as Hi; cbn [default option.from_option id].
  - replace 0xFF with (Z.ones 8) by done.
    rewrite Z.ones_spec_low by (apply Z.mod_pos_bound; lia). lia.
  - cbn. rewrite Z.testbit_0_l. lia.
Qed.

Lemma bit_filled_zero n i : bit (filled n 0) i = false.
Proof.
  unfold bit. rewrite filled_lookup. case_decide; apply Z.testbit_0_l.
Qed.
End Filled.
