(* ===== verification/Machine.v ===== *)
(** * Processor state

    The part of the x86 processor that [kernel/arch/x86/arch.c] and
    [kernel/arch/x86/paging_asm.asm] expose to the rest of the kernel: EFLAGS
    with its interrupt flag, CR3, and the addresses whose TLB entries were
    flushed. *)

From S2P Require Import Prelude.

Create Rewrite HintDb cpu.

Record cpu : Type := Cpu {
  eflags : Z;
  cr3 : Z;
  (** [invlpg] operands, the latest first *)
  flushed : list Z;
}.

(** [#define EFLAGS_IF (1u << 9)] *)
Definition EFLAGS_IF : Z := Z.shiftl 1 9.

(** [pushf; pop state; cli] *)
Definition interrupt_save : M cpu Z := fun c =>
  Ok (eflags c) (Cpu (Z.ldiff (eflags c) EFLAGS_IF) (cr3 c) (flushed c)).

(** [push state; popf] *)
Definition interrupt_restore (state : Z) : M cpu unit :=
  modify (fun c => Cpu state (cr3 c) (flushed c)).

(** [cli] *)
Definition interrupt_disable : M cpu unit :=
  modify (fun c => Cpu (Z.ldiff (eflags c) EFLAGS_IF) (cr3 c) (flushed c)).

(** [sti] *)
Definition interrupt_enable : M cpu unit :=
  modify (fun c => Cpu (Z.lor (eflags c) EFLAGS_IF) (cr3 c) (flushed c)).

Definition if_set (state : Z) : bool := negb (Z.land state EFLAGS_IF =? 0).

(** [pushf; pop state; return (state & EFLAGS_IF) != 0] *)
Definition interrupt_enabled : M cpu bool := gets (fun c => if_set (eflags c)).

(** [paging_load_directory]: [mov cr3, directory]. Loading CR3 also drops
    every non-global TLB entry, which the log does not record. *)
Definition paging_load_directory (directory : Z) : M cpu unit :=
  modify (fun c => Cpu (eflags c) directory (flushed c)).

(** [paging_invalidate]: [invlpg [address]] *)
Definition paging_invalidate (address : Z) : M cpu unit :=
  modify (fun c => Cpu (eflags c) (cr3 c) (address :: flushed c)).

Section Interrupts.
Implicit Types c : cpu.

Lemma if_set_testbit x : if_set x = Z.testbit x 9.
Proof.
  unfold if_set. destruct (Z.testbit x 9) eqn:E.
  - apply negb_true_iff, Z.eqb_neq. intros H.
    assert (Z.testbit (Z.land x EFLAGS_IF) 9 = false) as H1
      by (rewrite H; apply Z.testbit_0_l).
    rewrite Z.land_spec, E in H1. done.
  - apply negb_false_iff, Z.eqb_eq, Z.bits_inj'. intros n Hn.
    rewrite Z.land_spec, Z.testbit_0_l. unfold EFLAGS_IF.
    rewrite Z.shiftl_1_l, Z.pow2_bits_eqb by lia.
    destruct (9 =? n) eqn:En; [|apply andb_false_r].
    apply Z.eqb_eq in En. subst. by rewrite E.
Qed.

Lemma if_set_cli x : if_set (Z.ldiff x EFLAGS_IF) = false.
Proof. rewrite if_set_testbit, Z.ldiff_spec. cbn. apply andb_false_r. Qed.

Lemma if_set_sti x : if_set (Z.lor x EFLAGS_IF) = true.
Proof. rewrite if_set_testbit, Z.lor_spec. cbn. apply orb_true_r. Qed.

(** A critical section gives the flags back as it found them. *)
Lemma save_restore c :
  (let* s := interrupt_save in interrupt_restore s) c = Ok tt c.
Proof. by destruct c. Qed.
End Interrupts.

#[export] Hint Rewrite if_set_cli if_set_sti : cpu.
