(* ===== verification/Pmm.v ===== *)
(** * Physical memory manager

    [kernel/mm/pmm.c]: page frames of physical memory, tracked in a bitmap
    where a set bit is an occupied page. The state is the file's static
    variables; the routines run with the processor, whose interrupt flag they
    save and restore. *)

From S2P Require Import Prelude Layout Bitmap Machine.

(** The statics of [pmm.c]. *)
Record pmm : Type := Pmm {
  total_memory : Z;
  usable_memory : Z;
  highest_address : Z;
  total_pages : Z;
  bitmap : bytes;
  bitmap_address : Z;
  bitmap_size : Z;
  bitmap_pages : Z;
  free_pages : Z;
  fail_allocations : Z;
}.

Definition with_memory t u h (p : pmm) : pmm :=
  Pmm t u h (total_pages p) (bitmap p) (bitmap_address p) (bitmap_size p)
    (bitmap_pages p) (free_pages p) (fail_allocations p).
Definition with_bitmap bm (p : pmm) : pmm :=
  Pmm (total_memory p) (usable_memory p) (highest_address p) (total_pages p) bm
    (bitmap_address p) (bitmap_size p) (bitmap_pages p) (free_pages p)
    (fail_allocations p).
Definition with_geometry tp ba bs bp (p : pmm) : pmm :=
  Pmm (total_memory p) (usable_memory p) (highest_address p) tp (bitmap p) ba bs bp
    (free_pages p) (fail_allocations p).
Definition with_free_pages n (p : pmm) : pmm :=
  Pmm (total_memory p) (usable_memory p) (highest_address p) (total_pages p)
    (bitmap p) (bitmap_address p) (bitmap_size p) (bitmap_pages p) n
    (fail_allocations p).
Definition with_fail_allocations n (p : pmm) : pmm :=
  Pmm (total_memory p) (usable_memory p) (highest_address p) (total_pages p)
    (bitmap p) (bitmap_address p) (bitmap_size p) (bitmap_pages p) (free_pages p) n.

Definition bitmap_l : lens pmm bytes := Lens bitmap with_bitmap.

(** ** Bitmap primitives *)

Definition bitmap_set (page : Z) : M pmm unit := zoom bitmap_l (set_bit page).

Definition bitmap_clear (page : Z) : M pmm unit := zoom bitmap_l (clear_bit page).

Definition bitmap_test (page : Z) : M pmm Z := zoom bitmap_l (shift_bit page).

Definition bitmap_clear_range (addr len : Z) : M pmm unit :=
  zoom bitmap_l (clear_bits (u32 (addr / PAGE_SIZE)) (u32 (len / PAGE_SIZE))).

Definition bitmap_set_range (addr len : Z) : M pmm unit :=
  zoom bitmap_l
    (set_bits (u32 (addr / PAGE_SIZE)) (u32 (u64 (len + PAGE_SIZE - 1) / PAGE_SIZE))).

(** ** Initialisation *)

Definition MULTIBOOT_MEMORY_AVAILABLE : Z := 1.

(** One entry of the Multiboot2 memory map. *)
Record mmap_entry : Type := MmapEntry {
  entry_addr : Z;
  entry_len : Z;
  entry_type : Z;
}.

(** What [pmm_init] reads from the boot information and the linker script:
    the memory map, the virtual address and the size of the boot information,
    the [rootfs] module's bounds and the symbol [kernel_end]. *)
Record boot_memory : Type := BootMemory {
  memory_map : option (list mmap_entry);
  mb_info : Z;
  mb_total_size : Z;
  rootfs_module : option (Z * Z);
  kernel_end : Z;
}.

(** Body of the first pass over the memory map: the statistics. *)
Definition collect_entry (e : mmap_entry) : M pmm unit := modify (fun p =>
  let total := u32 (total_memory p + u32 (entry_len e)) in
  if entry_type e =? MULTIBOOT_MEMORY_AVAILABLE then
    let stop := u64 (entry_addr e + entry_len e) in
    with_memory total (u32 (usable_memory p + u32 (entry_len e)))
      (if highest_address p <? stop then stop else highest_address p) p
  else with_memory total (usable_memory p) (highest_address p) p).

(** Body of the second pass: available regions become free. *)
Definition release_entry (e : mmap_entry) : M pmm unit :=
  if entry_type e =? MULTIBOOT_MEMORY_AVAILABLE
  then bitmap_clear_range (entry_addr e) (entry_len e)
  else ret tt.

Fixpoint for_entries (body : mmap_entry -> M pmm unit) (l : list mmap_entry)
  : M pmm unit :=
  match l with
  | [] => ret tt
  | e :: l' => body e ;;; for_entries body l'
  end.

(** [(x + PAGE_SIZE - 1) & ~(PAGE_SIZE - 1)] on [uintptr_t] *)
Definition page_align_up (x : Z) : Z :=
  Z.land (u32 (x + PAGE_SIZE - 1)) (u32 (Z.lnot (PAGE_SIZE - 1))).

(** First byte after everything that must stay below the bitmap. *)
Definition reserved_end (b : boot_memory) : Z :=
  let mb_info_physical := VIRT_TO_PHYS (mb_info b) in
  if kernel_end b <? u32 (mb_info_physical + mb_total_size b)
  then u32 (mb_info_physical + mb_total_size b) else kernel_end b.

(** Sizes and place of the bitmap, and the [memset] that marks every page
    occupied. The array ends where the [memset] ends. *)
Definition place_bitmap (b : boot_memory) : M pmm unit := modify (fun p =>
  let pages := u32 (u64 (highest_address p + PAGE_SIZE - 1) / PAGE_SIZE) in
  let size := u32 (pages + 7) / 8 in
  with_bitmap (filled size 0xFF)
    (with_geometry pages (page_align_up (reserved_end b)) size
       (u32 (size + PAGE_SIZE - 1) / PAGE_SIZE) p)).

(** The reservations of low memory, the kernel image, the boot information,
    the module and the bitmap itself. *)
Definition reserve_boot_memory (b : boot_memory) : M pmm unit :=
  bitmap_set_range 0 0x00100000 ;;;
  bitmap_set_range KERNEL_LOAD_ADDRESS (u32 (kernel_end b - KERNEL_LOAD_ADDRESS)) ;;;
  bitmap_set_range (VIRT_TO_PHYS (mb_info b)) (mb_total_size b) ;;;
  match rootfs_module b with
  | Some (mod_start, mod_end) => bitmap_set_range mod_start (u32 (mod_end - mod_start))
  | None => ret tt
  end ;;;
  let* addr := gets bitmap_address in
  let* pages := gets bitmap_pages in
  bitmap_set_range addr (u32 (pages * PAGE_SIZE)).

(** [for (i = 0; i < total_pages; i++) if (!bitmap_test(i)) free_pages++;] *)
Definition count_free_pages : M pmm unit :=
  modify (with_free_pages 0) ;;;
  let* n := gets total_pages in
  for_each 0 (Z.to_nat n) (fun i =>
    let* b := bitmap_test i in
    if b =? 0 then modify (fun p => with_free_pages (u32 (free_pages p + 1)) p)
    else ret tt).

(** [pmm_init] up to the report of the statistics, and from there on. The
    report itself, which needs the screen, is [Boot.print_memory]. *)
Definition pmm_survey (b : boot_memory) : M pmm unit :=
  modify (with_memory 0 0 0) ;;;
  match memory_map b with
  | None => ret tt
  | Some entries => for_entries collect_entry entries ;;; place_bitmap b
  end.

Definition pmm_release (b : boot_memory) : M pmm unit :=
  match memory_map b with
  | None => ret tt
  | Some entries =>
      for_entries release_entry entries ;;;
      reserve_boot_memory b ;;;
      count_free_pages
  end.

Definition pmm_init (b : boot_memory) : M pmm unit := pmm_survey b ;;; pmm_release b.

(** ** Allocation and release *)

(** The processor and the manager's statics. *)
Record pmm_world : Type := PmmWorld { pmm_cpu : cpu; pmm_of : pmm }.

Definition cpu_l : lens pmm_world cpu :=
  Lens pmm_cpu (fun c w => PmmWorld c (pmm_of w)).
Definition pmm_l : lens pmm_world pmm :=
  Lens pmm_of (fun p w => PmmWorld (pmm_cpu w) p).

Definition pmm_alloc_page : M pmm_world Z :=
  let* failing := gets (fun w => fail_allocations (pmm_of w)) in
  if negb (failing =? 0) then
    zoom pmm_l (modify (with_fail_allocations (failing - 1))) ;;; ret NULL
  else
    let* state := zoom cpu_l interrupt_save in
    let* n := gets (fun w => total_pages (pmm_of w)) in
    let* found := for_range 0 (Z.to_nat n) (fun page =>
      let* b := zoom pmm_l (bitmap_test page) in
      if b =? 0 then
        zoom pmm_l (bitmap_set page) ;;;
        zoom pmm_l (modify (fun p => with_free_pages (u32 (free_pages p - 1)) p)) ;;;
        zoom cpu_l (interrupt_restore state) ;;;
        ret (Some (u32 (page * PAGE_SIZE)))
      else ret None) in
    match found with
    | Some addr => ret addr
    | None => zoom cpu_l (interrupt_restore state) ;;; ret NULL
    end.

Definition pmm_free_page (page : Z) : M pmm_world unit :=
  let* state := zoom cpu_l interrupt_save in
  let page_number := u32 page / PAGE_SIZE in
  let* n := gets (fun w => total_pages (pmm_of w)) in
  if n <=? page_number then zoom cpu_l (interrupt_restore state)
  else
    let* b := zoom pmm_l (bitmap_test page_number) in
    if b =? 0 then zoom cpu_l (interrupt_restore state)
    else
      zoom pmm_l (bitmap_clear page_number) ;;;
      zoom pmm_l (modify (fun p => with_free_pages (u32 (free_pages p + 1)) p)) ;;;
      zoom cpu_l (interrupt_restore state).

Definition pmm_total_memory : M pmm Z := gets total_memory.
Definition pmm_usable_memory : M pmm Z := gets usable_memory.
Definition pmm_free_pages : M pmm Z := gets free_pages.
Definition pmm_fail_next_allocations (count : Z) : M pmm unit :=
  modify (with_fail_allocations count).

(** ** The manager as a set of free pages *)

(** Page [p] is managed and free. *)
Definition page_free (p : pmm) (page : Z) : bool :=
  (0 <=? page) && (page <? total_pages p) && negb (bit (bitmap p) page).

(** The invariant of the manager once initialised: the bitmap has the size
    the code computed and covers all managed pages, every managed page has a
    32-bit address, page 0 is never handed out, and [free_pages] counts the
    clear bits. *)
Record pmm_inv (p : pmm) : Prop := {
  inv_bytes : bytes_ok (bitmap_size p) (bitmap p);
  inv_size : 8 * bitmap_size p <= 2 ^ 32;
  inv_total : 0 <= total_pages p <= 2 ^ 20;
  inv_cover : total_pages p <= 8 * bitmap_size p;
  inv_null : page_free p 0 = false;
  inv_count : free_pages p = count (page_free p) (Z.to_nat (total_pages p));
}.

(** [p'] is [p] with page [page] taken, or given back. *)
Record page_taken (page : Z) (p p' : pmm) : Prop := {
  taken_inv : pmm_inv p';
  taken_free : forall q, page_free p' q = page_free p q && negb (q =? page);
  taken_count : free_pages p' = free_pages p - 1;
  taken_total : total_pages p' = total_pages p;
  taken_fail : fail_allocations p' = fail_allocations p;
}.

Record page_released (page : Z) (p p' : pmm) : Prop := {
  released_inv : pmm_inv p';
  released_free : forall q, page_free p' q = page_free p q || (q =? page);
  released_count : free_pages p' = free_pages p + 1;
  released_total : total_pages p' = total_pages p;
  released_fail : fail_allocations p' = fail_allocations p;
}.

(** The least free page, or that there is none. *)
Definition least_free (p : pmm) (page : Z) : Prop :=
  page_free p page = true /\ forall q, q < page -> page_free p q = false.
Definition none_free (p : pmm) : Prop := forall q, page_free p q = false.

Section Invariant.
Implicit Types p : pmm.

Lemma with_bitmap_id p : with_bitmap (bitmap p) p = p.
Proof. by destruct p. Qed.

Lemma page_free_iff p page :
  page_free p page = true <-> 0 <= page < total_pages p /\ bit (bitmap p) page = false.
Proof. unfold page_free. destruct (bit (bitmap p) page); cbn; lia. Qed.

Lemma page_free_range p page : page_free p page = true -> 0 <= page < total_pages p.
Proof. intros H. by apply page_free_iff in H as [? _]. Qed.

Lemma free_pages_bound p : pmm_inv p -> 0 <= free_pages p <= total_pages p.
Proof.
  intros [??? _ ? ->]. pose proof (count_bound (page_free p) (Z.to_nat (total_pages p))).
  lia.
Qed.

Lemma free_pages_pos p page : pmm_inv p -> page_free p page = true -> 0 < free_pages p.
Proof.
  intros Hinv Hp. rewrite (inv_count p Hinv).
  pose proof (page_free_range p page Hp). apply count_pos with page; [lia|done].
Qed.

Lemma taken_intro p page bm :
  pmm_inv p -> page_free p page = true -> bytes_ok (bitmap_size p) bm ->
  (forall j, bit bm j = bool_decide (j = page) || bit (bitmap p) j) ->
  page_taken page p (with_free_pages (u32 (free_pages p - 1)) (with_bitmap bm p)).
Proof.
  intros Hinv Hfree Hok Hbits.
  pose proof (free_pages_bound p Hinv). pose proof (free_pages_pos p page Hinv Hfree).
  pose proof (inv_total p Hinv).
  assert (Hpf : forall q, page_free (with_free_pages (u32 (free_pages p - 1))
    (with_bitmap bm p)) q = page_free p q && negb (q =? page)).
  { intros q. unfold page_free. cbn. rewrite Hbits.
    case_bool_decide; destruct (bit (bitmap p) q); cbn; lia. }
  assert (Hcount : u32 (free_pages p - 1) = free_pages p - 1)
    by (apply u32_id; unfold_ranges; lia).
  split; [|done|done|done|done]. destruct Hinv as [Hby Hsz Hto Hco Hnu Hct].
  split; [done..| |].
  - rewrite Hpf, Hnu. done.
  - change (u32 (free_pages p - 1) = count (page_free (with_free_pages
      (u32 (free_pages p - 1)) (with_bitmap bm p))) (Z.to_nat (total_pages p))).
    rewrite Hcount, Hct in *. pose proof (page_free_range p page Hfree).
    apply Z.sub_move_r, (count_flip _ _ _ page); [lia| |done|].
    + rewrite Hpf, Z.eqb_refl. apply andb_false_r.
    + intros j Hj. rewrite Hpf, (proj2 (Z.eqb_neq j page)) by done. apply andb_true_r.
Qed.

Lemma released_intro p page bm :
  pmm_inv p -> 0 < page < total_pages p -> page_free p page = false ->
  bytes_ok (bitmap_size p) bm ->
  (forall j, bit bm j = negb (bool_decide (j = page)) && bit (bitmap p) j) ->
  page_released page p (with_free_pages (u32 (free_pages p + 1)) (with_bitmap bm p)).
Proof.
  intros Hinv Hpage Hfree Hok Hbits.
  pose proof (free_pages_bound p Hinv). pose proof (inv_total p Hinv).
  assert (Hpf : forall q, page_free (with_free_pages (u32 (free_pages p + 1))
    (with_bitmap bm p)) q = page_free p q || (q =? page)).
  { intros q. unfold page_free. cbn. rewrite Hbits.
    case_bool_decide; destruct (bit (bitmap p) q); cbn; lia. }
  assert (Hcount : u32 (free_pages p + 1) = free_pages p + 1)
    by (apply u32_id; unfold_ranges; lia).
  split; [|done|done|done|done]. destruct Hinv as [Hby Hsz Hto Hco Hnu Hct].
  split; [done..| |].
  - rewrite Hpf, Hnu. lia.
  - change (u32 (free_pages p + 1) = count (page_free (with_free_pages
      (u32 (free_pages p + 1)) (with_bitmap bm p))) (Z.to_nat (total_pages p))).
    rewrite Hcount, Hct in *. symmetry. apply (count_flip _ _ _ page); [lia|done| |].
    + rewrite Hpf, Z.eqb_refl. apply orb_true_r.
    + intros j Hj. rewrite Hpf, (proj2 (Z.eqb_neq j page)) by done. by rewrite orb_false_r.
Qed.

(** Primitive steps on the bitmap, as the allocator uses them. *)
Lemma wp_bitmap_test p page (Q : Z -> pmm -> Prop) :
  pmm_inv p -> 0 <= page < total_pages p ->
  Q (Z.b2z (bit (bitmap p) page)) p -> wp (bitmap_test page) Q p.
Proof.
  intros [] Hp HQ. apply wp_zoom, (wp_shift_bit (bitmap_size p)); [done|lia|].
  cbn. by rewrite with_bitmap_id.
Qed.

Lemma wp_take p page (Q : unit -> pmm -> Prop) :
  pmm_inv p -> page_free p page = true ->
  (forall p', page_taken page p p' -> Q tt p') ->
  wp (bitmap_set page ;;;
      modify (fun p => with_free_pages (u32 (free_pages p - 1)) p)) Q p.
Proof.
  intros Hinv Hfree HQ. pose proof (page_free_range p page Hfree).
  pose proof (inv_cover p Hinv).
  apply wp_bind, wp_zoom, (wp_set_bit (bitmap_size p)); [apply Hinv|lia|].
  intros bm Hok Hbits. apply wp_modify, HQ.
  by apply (taken_intro p page bm).
Qed.
End Invariant.

(** ** Specifications of the two operations *)

Section Operations.
Implicit Types (w : pmm_world) (p : pmm).

Lemma cpu_view w : set_view cpu_l (pmm_cpu w) w = w.
Proof. by destruct w. Qed.

(** [cpu] with interrupts disabled, remembering the flags. *)
Definition cli (c : cpu) : cpu := Cpu (Z.ldiff (eflags c) EFLAGS_IF) (cr3 c) (flushed c).

Lemma restored w : PmmWorld (Cpu (eflags (pmm_cpu w)) (cr3 (cli (pmm_cpu w)))
  (flushed (cli (pmm_cpu w)))) (pmm_of w) = w.
Proof. by destruct w as [[]]. Qed.

(** Allocation without injected failures: the least free page is taken and
    its address returned, or nothing changes and the answer is [NULL]. *)
Lemma wp_pmm_alloc_page w (Q : Z -> pmm_world -> Prop) :
  pmm_inv (pmm_of w) -> fail_allocations (pmm_of w) = 0 ->
  (none_free (pmm_of w) -> Q NULL w) ->
  (forall page p', least_free (pmm_of w) page -> page_taken page (pmm_of w) p' ->
     Q (page * PAGE_SIZE) (PmmWorld (pmm_cpu w) p')) ->
  wp pmm_alloc_page Q w.
Proof.
  intros Hinv Hfail HNone HSome. unfold pmm_alloc_page.
  apply wp_bind, wp_gets. rewrite Hfail. cbn [negb Z.eqb].
  apply wp_bind, wp_zoom. apply (wp_Ok _ _ _ _ _ eq_refl). cbn [set_view view cpu_l pmm_cpu pmm_of].
  apply wp_bind, wp_gets. cbn [pmm_of].
  apply wp_bind.
  apply (wp_for_range (fun i w' =>
    w' = PmmWorld (cli (pmm_cpu w)) (pmm_of w) /\
    forall q, q < i -> page_free (pmm_of w) q = false)).
  - split; [done|]. intros q Hq. unfold page_free. lia.
  - pose proof (inv_total _ Hinv).
    intros i w' Hi [-> Hno]. apply wp_bind, wp_zoom.
    apply wp_bitmap_test; [done|cbn; lia|]. cbn [set_view view pmm_l pmm_cpu pmm_of].
    destruct (bit (bitmap (pmm_of w)) i) eqn:Hbit; cbn [Z.b2z Z.eqb].
    { apply wp_ret; cbn beta iota. split; [done|]. intros q Hq.
      destruct (decide (q = i)) as [->|]; [|apply Hno; lia].
      unfold page_free. rewrite Hbit. apply andb_false_r. }
    assert (Hfree : page_free (pmm_of w) i = true) by (apply page_free_iff; split; [lia|done]).
    pose proof (wp_take (pmm_of w) i (fun _ p' => page_taken i (pmm_of w) p') Hinv Hfree
      ltac:(auto)) as Htake.
    apply wp_inv in Htake as ([] & p' & Hrun & Htaken).
    unfold bind in Hrun. destruct (bitmap_set i (pmm_of w)) as [[] p1|] eqn:E1; [|done].
    apply wp_bind, wp_zoom. eapply wp_Ok; [exact E1|]. cbn [set_view view pmm_l pmm_cpu pmm_of].
    apply wp_bind, wp_zoom. eapply wp_Ok; [exact Hrun|]. cbn [set_view view pmm_l pmm_cpu pmm_of].
    apply wp_bind, wp_zoom, wp_modify. cbn. apply wp_ret, wp_ret.
    assert (u32 (i * PAGE_SIZE) = i * PAGE_SIZE) as ->
      by (apply u32_id; unfold_ranges; layout; lia).
    destruct w as [[fl cr fs] p]. apply HSome; [by split|done].
  - intros w' [-> Hno]. apply wp_bind, wp_zoom, wp_modify. apply wp_ret. cbn.
    rewrite restored. apply HNone. intros q.
    destruct (decide (q < total_pages (pmm_of w))) as [|Hge].
    + apply Hno. pose proof (inv_total _ Hinv). lia.
    + unfold page_free. lia.
Qed.

(** Release: an occupied managed page becomes free; anything else is
    ignored. *)
Lemma wp_pmm_free_page w a (Q : unit -> pmm_world -> Prop) :
  pmm_inv (pmm_of w) -> is_u32 a -> 0 < a / PAGE_SIZE ->
  (total_pages (pmm_of w) <= a / PAGE_SIZE \/ page_free (pmm_of w) (a / PAGE_SIZE) = true ->
     Q tt w) ->
  (forall p', a / PAGE_SIZE < total_pages (pmm_of w) ->
     page_free (pmm_of w) (a / PAGE_SIZE) = false ->
     page_released (a / PAGE_SIZE) (pmm_of w) p' -> Q tt (PmmWorld (pmm_cpu w) p')) ->
  wp (pmm_free_page a) Q w.
Proof.
  intros Hinv Ha Hpos HNo HYes. unfold pmm_free_page.
  apply wp_bind, wp_zoom. apply (wp_Ok _ _ _ _ _ eq_refl). cbn [set_view view cpu_l pmm_cpu pmm_of].
  rewrite u32_id by done. set (n := a / PAGE_SIZE) in *.
  apply wp_bind, wp_gets. cbn [pmm_of].
  destruct (Z.leb_spec (total_pages (pmm_of w)) n) as [Hle|Hlt].
  { apply wp_zoom, wp_modify. cbn. rewrite restored. auto. }
  apply wp_bind, wp_zoom, wp_bitmap_test; [done|cbn; lia|]. cbn [set_view view pmm_l pmm_cpu pmm_of].
  destruct (bit (bitmap (pmm_of w)) n) eqn:Hbit; cbn [Z.b2z Z.eqb].
  - assert (Hfree : page_free (pmm_of w) n = false).
    { unfold page_free. rewrite Hbit. apply andb_false_r. }
    pose proof (inv_cover _ Hinv).
    apply wp_bind, wp_zoom, wp_zoom, (wp_clear_bit (bitmap_size (pmm_of w)));
      [apply Hinv|cbn; lia|]. intros bm Hok Hbits.
    apply wp_bind, wp_zoom, wp_modify. apply wp_zoom, wp_modify.
    destruct w as [[fl cr fs] p]. cbn. apply HYes; [done..|].
    apply released_intro; [done|cbn in *; lia|done..].
  - apply wp_zoom, wp_modify. cbn. rewrite restored. apply HNo. right.
    apply page_free_iff. split; [lia|done].
Qed.
End Operations.

(** ** Initialisation *)

(** Pages that the second pass marks free, and pages that are reserved
    afterwards. *)
Definition entry_pages (e : mmap_entry) (j : Z) : bool :=
  (entry_type e =? MULTIBOOT_MEMORY_AVAILABLE)
  && in_range (entry_addr e / PAGE_SIZE) (entry_len e / PAGE_SIZE) j.

Definition released (entries : list mmap_entry) (j : Z) : bool :=
  existsb (fun e => entry_pages e j) entries.

(** Pages touched by the bytes from [addr] to [addr + len - 1]. *)
Definition range_pages (addr len j : Z) : bool :=
  in_range (addr / PAGE_SIZE) ((len + PAGE_SIZE - 1) / PAGE_SIZE) j.

Definition module_pages (b : boot_memory) (j : Z) : bool :=
  match rootfs_module b with
  | Some (s, e) => range_pages s (u32 (e - s)) j
  | None => false
  end.

Definition boot_reserved (b : boot_memory) (addr pages j : Z) : bool :=
  range_pages 0 0x00100000 j
  || range_pages KERNEL_LOAD_ADDRESS (u32 (kernel_end b - KERNEL_LOAD_ADDRESS)) j
  || range_pages (VIRT_TO_PHYS (mb_info b)) (mb_total_size b) j
  || module_pages b j
  || range_pages addr (u32 (pages * PAGE_SIZE)) j.

(** The end of the highest available region. *)
Definition entry_end (e : mmap_entry) : Z :=
  if entry_type e =? MULTIBOOT_MEMORY_AVAILABLE then entry_addr e + entry_len e else 0.
Fixpoint highest (entries : list mmap_entry) : Z :=
  match entries with
  | [] => 0
  | e :: l => Z.max (entry_end e) (highest l)
  end.

Definition pages_below (h : Z) : Z := (h + PAGE_SIZE - 1) / PAGE_SIZE.
Definition bitmap_bytes (h : Z) : Z := (pages_below h + 7) / 8.

(** A reservation stays inside the bitmap. *)
Definition fits (size addr len : Z) : Prop :=
  is_u32 addr /\ 0 <= len < 2 ^ 32 /\
  addr / PAGE_SIZE + (len + PAGE_SIZE - 1) / PAGE_SIZE <= 8 * size.

(** Boot information the code can cope with: memory below 4 GiB, and every
    reserved range inside the managed memory. *)
Record boot_ok (b : boot_memory) (entries : list mmap_entry) : Prop := {
  ok_map : memory_map b = Some entries;
  ok_entries : Forall (fun e => 0 <= entry_addr e /\ 0 <= entry_len e /\
    entry_addr e + entry_len e <= 2 ^ 32) entries;
  ok_low : fits (bitmap_bytes (highest entries)) 0 0x00100000;
  ok_kernel : fits (bitmap_bytes (highest entries)) KERNEL_LOAD_ADDRESS
    (u32 (kernel_end b - KERNEL_LOAD_ADDRESS));
  ok_mb_info : fits (bitmap_bytes (highest entries)) (VIRT_TO_PHYS (mb_info b))
    (mb_total_size b);
  ok_module : match rootfs_module b with
              | Some (s, e) => fits (bitmap_bytes (highest entries)) s (u32 (e - s))
              | None => True
              end;
  ok_bitmap : fits (bitmap_bytes (highest entries)) (page_align_up (reserved_end b))
    (u32 ((bitmap_bytes (highest entries) + PAGE_SIZE - 1) / PAGE_SIZE * PAGE_SIZE));
}.

Section Initialisation.
Implicit Types (p : pmm) (b : boot_memory) (entries : list mmap_entry).

(** [p'] differs from [p] only in the bitmap, which reads as [f]. *)
Definition bitmap_is (n : Z) (f : Z -> bool) (p p' : pmm) : Prop :=
  p' = with_bitmap (bitmap p') p /\ bytes_ok n (bitmap p') /\
  forall j, bit (bitmap p') j = f j.

Lemma highest_nonneg entries :
  Forall (fun e => 0 <= entry_addr e /\ 0 <= entry_len e /\
    entry_addr e + entry_len e <= 2 ^ 32) entries -> 0 <= highest entries <= 2 ^ 32.
Proof.
  induction 1 as [|e l He _ IH]; cbn [highest]; [lia|]. unfold entry_end.
  destruct (entry_type e =? _); lia.
Qed.

Lemma pages_below_bound h : 0 <= h <= 2 ^ 32 -> 0 <= pages_below h <= 2 ^ 20.
Proof. unfold pages_below. layout. lia. Qed.

(** The bytes of all entries, and of the available ones. *)
Definition all_bytes (entries : list mmap_entry) : Z := foldr (fun e n => entry_len e + n) 0 entries.
Definition available_bytes (entries : list mmap_entry) : Z :=
  foldr (fun e n => if entry_type e =? MULTIBOOT_MEMORY_AVAILABLE then entry_len e + n else n) 0 entries.

Lemma u32_sum x y z : u32 (u32 (x + u32 y) + z) = u32 (x + (y + z)).
Proof. unfold u32. lia. Qed.

(** The first pass computes the statistics. *)
Lemma wp_collect entries : forall p (Q : unit -> pmm -> Prop),
  Forall (fun e => 0 <= entry_addr e /\ 0 <= entry_len e /\
    entry_addr e + entry_len e <= 2 ^ 32) entries ->
  0 <= highest_address p -> is_u32 (total_memory p) -> is_u32 (usable_memory p) ->
  Q tt (with_memory (u32 (total_memory p + all_bytes entries)) (u32 (usable_memory p + available_bytes entries))
    (Z.max (highest_address p) (highest entries)) p) ->
  wp (for_entries collect_entry entries) Q p.
Proof.
  induction entries as [|e l IH]; intros p Q Hall Hh Ht Hu HQ; cbn [for_entries].
  - apply wp_ret. cbn [highest all_bytes available_bytes foldr] in HQ. rewrite Z.max_l, !Z.add_0_r, !u32_id in HQ by done || lia.
    by destruct p.
  - inversion_clear Hall as [|? ? He Hl]. apply wp_bind, wp_modify. cbv zeta.
    cbn [highest all_bytes available_bytes foldr] in HQ. unfold entry_end in HQ.
    fold (all_bytes l) in HQ. fold (available_bytes l) in HQ.
    destruct (entry_type e =? MULTIBOOT_MEMORY_AVAILABLE).
    + rewrite u64_id by (unfold_ranges; lia).
      replace (if highest_address p <? entry_addr e + entry_len e
        then entry_addr e + entry_len e else highest_address p)
        with (Z.max (highest_address p) (entry_addr e + entry_len e))
        by (destruct (Z.ltb_spec (highest_address p) (entry_addr e + entry_len e)); lia).
      apply IH; cbn [highest_address total_memory usable_memory with_memory]; [done|lia|apply u32_range..|].
      rewrite !u32_sum. rewrite <- Z.max_assoc. exact HQ.
    + apply IH; cbn [highest_address total_memory usable_memory with_memory]; [done|lia|apply u32_range|done|].
      rewrite u32_sum. pose proof (highest_nonneg l Hl) as Hpos.
      rewrite (Z.max_r 0) in HQ by lia. exact HQ.
Qed.

Lemma wp_bitmap_set_range n p addr len (Q : unit -> pmm -> Prop) :
  bytes_ok n (bitmap p) -> 8 * n <= 2 ^ 32 -> fits n addr len ->
  (forall p', bitmap_is n (fun j => range_pages addr len j || bit (bitmap p) j) p p' ->
     Q tt p') ->
  wp (bitmap_set_range addr len) Q p.
Proof.
  intros Hok Hn (Ha & Hl & Hfit) HQ. apply wp_zoom.
  rewrite (u64_id (len + PAGE_SIZE - 1)) by (unfold_ranges; layout; lia).
  rewrite !u32_id by (unfold_ranges; layout; lia).
  apply (wp_set_bits n); [done|lia|layout; unfold_ranges; lia|layout; lia|done|].
  intros bm Hok' Hbits. apply HQ. split; [by destruct p|]. split; [done|].
  intros j. cbn. by rewrite Hbits.
Qed.

Lemma wp_release_entry n p e (Q : unit -> pmm -> Prop) :
  bytes_ok n (bitmap p) -> 8 * n <= 2 ^ 32 ->
  0 <= entry_addr e -> 0 <= entry_len e -> entry_addr e + entry_len e <= 2 ^ 32 ->
  (entry_type e = MULTIBOOT_MEMORY_AVAILABLE ->
     entry_addr e + entry_len e <= PAGE_SIZE * (8 * n)) ->
  (forall p', bitmap_is n (fun j => negb (entry_pages e j) && bit (bitmap p) j) p p' ->
     Q tt p') ->
  wp (release_entry e) Q p.
Proof.
  intros Hok Hn Ha Hl Hle Hfit HQ. unfold release_entry.
  destruct (entry_type e =? MULTIBOOT_MEMORY_AVAILABLE) eqn:E.
  - apply wp_zoom. apply Z.eqb_eq in E. specialize (Hfit E).
    rewrite !u32_id by (unfold_ranges; layout; lia).
    apply (wp_clear_bits n); [done|lia|layout; lia|layout; lia|layout; lia|].
    intros bm Hok' Hbits. apply HQ. split; [by destruct p|]. split; [done|].
    intros j. cbn. unfold entry_pages. by rewrite Hbits, E.
  - apply wp_ret, HQ. split; [by destruct p|]. split; [done|].
    intros j. unfold entry_pages. by rewrite E.
Qed.

Lemma wp_release entries : forall n p (Q : unit -> pmm -> Prop),
  bytes_ok n (bitmap p) -> 8 * n <= 2 ^ 32 ->
  Forall (fun e => 0 <= entry_addr e /\ 0 <= entry_len e /\
    entry_addr e + entry_len e <= 2 ^ 32) entries ->
  highest entries <= PAGE_SIZE * (8 * n) ->
  (forall p', bitmap_is n (fun j => negb (released entries j) && bit (bitmap p) j) p p' ->
     Q tt p') ->
  wp (for_entries release_entry entries) Q p.
Proof.
  induction entries as [|e l IH]; intros n p Q Hok Hn Hall Hh HQ; cbn [for_entries].
  - apply wp_ret, HQ. split; [by destruct p|]. by split.
  - inversion_clear Hall as [|? ? (Ha & Hl & Hle) Hrest].
    cbn [highest] in Hh. unfold entry_end in Hh.
    apply wp_bind, (wp_release_entry n); [done..| |].
    { intros E. rewrite E, Z.eqb_refl in Hh. lia. }
    intros p' (Hp' & Hok' & Hbits).
    apply (IH n); [done..|lia|]. intros p'' (Hp'' & Hok'' & Hbits'').
    apply HQ. split; [rewrite Hp'', Hp'; by destruct p|]. split; [done|].
    intros j. rewrite Hbits'', Hbits.
    change (released (e :: l) j) with (entry_pages e j || released l j).
    by destruct (entry_pages e j), (released l j).
Qed.

Lemma bitmap_is_trans n f g p p' p'' :
  bitmap_is n f p p' -> bitmap_is n g p' p'' -> bitmap_is n g p p''.
Proof.
  intros (E & _) (E' & Hok & Hbits). split; [|by split].
  rewrite E', E. by destruct p.
Qed.

(** The chain of reservations adds [boot_reserved] to the occupied pages. *)
Lemma wp_reserve b entries n p (Q : unit -> pmm -> Prop) :
  boot_ok b entries -> n = bitmap_bytes (highest entries) ->
  bytes_ok n (bitmap p) -> 8 * n <= 2 ^ 32 ->
  bitmap_address p = page_align_up (reserved_end b) ->
  bitmap_pages p = (n + PAGE_SIZE - 1) / PAGE_SIZE ->
  (forall p', bitmap_is n (fun j =>
       boot_reserved b (bitmap_address p) (bitmap_pages p) j || bit (bitmap p) j) p p' ->
     Q tt p') ->
  wp (reserve_boot_memory b) Q p.
Proof.
  intros Hb -> Hok Hn Haddr Hpages HQ. unfold reserve_boot_memory.
  set (n := bitmap_bytes (highest entries)) in *.
  apply wp_bind, (wp_bitmap_set_range n); [done..|apply Hb|].
  intros p1 (E1 & Hok1 & H1).
  apply wp_bind, (wp_bitmap_set_range n); [done..|apply Hb|].
  intros p2 (E2 & Hok2 & H2).
  apply wp_bind, (wp_bitmap_set_range n); [done..|apply Hb|].
  intros p3 (E3 & Hok3 & H3).
  apply wp_bind. eapply (wp_mono _ (fun _ p4 =>
    bitmap_is n (fun j => module_pages b j || bit (bitmap p3) j) p3 p4)).
  { pose proof (ok_module b entries Hb) as Hm. unfold module_pages.
    destruct (rootfs_module b) as [[s e]|].
    - apply (wp_bitmap_set_range n); auto.
    - apply wp_ret. split; [by destruct p3|]. by split. }
  intros [] p4 (E4 & Hok4 & H4).
  assert (E : p4 = with_bitmap (bitmap p4) p)
    by (rewrite E4, E3, E2, E1; by destruct p).
  assert (bitmap_address p4 = bitmap_address p) as Ea by (by rewrite E).
  assert (bitmap_pages p4 = bitmap_pages p) as Ep by (by rewrite E).
  apply wp_bind, wp_gets, wp_bind, wp_gets. rewrite Ea, Ep.
  apply (wp_bitmap_set_range n); [done..| |].
  { rewrite Haddr, Hpages. apply Hb. }
  intros p5 (E5 & Hok5 & H5). apply HQ. split; [rewrite E5, E; by destruct p|].
  split; [done|]. intros j. rewrite H5, H4, H3, H2, H1. unfold boot_reserved.
  btauto.
Qed.
Lemma wp_count_free_pages n p (Q : unit -> pmm -> Prop) :
  bytes_ok n (bitmap p) -> 0 <= total_pages p <= 8 * n -> total_pages p <= 2 ^ 20 ->
  Q tt (with_free_pages (count (page_free p) (Z.to_nat (total_pages p))) p) ->
  wp count_free_pages Q p.
Proof.
  intros Hok Ht Hle HQ. unfold count_free_pages.
  apply wp_bind, wp_modify, wp_bind, wp_gets. cbn [total_pages with_free_pages].
  apply (wp_for_each (fun i p' =>
    p' = with_free_pages (count (page_free p) (Z.to_nat i)) p)).
  - done.
  - intros i p' Hi ->. apply wp_bind, wp_zoom.
    apply (wp_shift_bit n); [done|cbn; lia|].
    change (set_view bitmap_l (view bitmap_l ?q) ?q) with q.
    cbn [view bitmap_l bitmap with_free_pages].
    replace (Z.to_nat (i + 1)) with (S (Z.to_nat i)) by lia. cbn [count].
    rewrite Z2Nat.id by lia. unfold page_free at 2.
    rewrite (proj2 (Z.leb_le 0 i)), (proj2 (Z.ltb_lt i (total_pages p))) by lia.
    destruct (bit (bitmap p) i); cbn [Z.b2z Z.eqb negb andb].
    + apply wp_ret. by rewrite Z.add_0_r.
    + apply wp_modify. cbn [free_pages with_free_pages]. unfold with_free_pages. cbn.
      f_equal. pose proof (count_bound (page_free p) (Z.to_nat i)).
      apply u32_id. unfold_ranges. lia.
  - intros p' ->. rewrite Z.add_0_l, Z2Nat.id by lia. done.
Qed.

Lemma page_zero_reserved b addr pages : boot_reserved b addr pages 0 = true.
Proof. done. Qed.

(** The statistics that [pmm_init] reports. *)
Lemma wp_pmm_survey b entries p :
  boot_ok b entries ->
  wp (pmm_survey b) (fun _ p' => total_memory p' = u32 (all_bytes entries) /\ usable_memory p' = u32 (available_bytes entries)) p.
Proof.
  intros Hb. unfold pmm_survey. apply wp_bind, wp_modify. rewrite (ok_map b entries Hb).
  apply wp_bind, wp_collect; [apply Hb|done..|]. by apply wp_modify.
Qed.

(** Initialisation: started in any state, on boot information the code can
    cope with, the manager comes up in its invariant, and a page is free
    exactly when an available region contains it and nothing reserves it. *)
Lemma wp_pmm_init b entries p :
  boot_ok b entries ->
  wp (pmm_init b) (fun _ p' =>
    pmm_inv p' /\
    total_pages p' = pages_below (highest entries) /\
    fail_allocations p' = fail_allocations p /\
    forall j, page_free p' j =
      (0 <=? j) && (j <? pages_below (highest entries)) && released entries j
      && negb (boot_reserved b (page_align_up (reserved_end b))
           ((bitmap_bytes (highest entries) + PAGE_SIZE - 1) / PAGE_SIZE) j)) p.
Proof.
  intros Hb. pose proof (highest_nonneg entries (ok_entries b entries Hb)) as Hh.
  pose proof (pages_below_bound _ Hh) as Hpb.
  unfold pmm_init, pmm_survey, pmm_release. apply wp_bind, wp_bind, wp_modify. rewrite (ok_map b entries Hb).
  apply wp_bind, wp_collect; [apply Hb|done..|].
  cbn [highest_address with_memory]. rewrite Z.max_r by lia.
  set (n := bitmap_bytes (highest entries)).
  assert (Hn : 0 <= n <= 2 ^ 17) by (unfold n, bitmap_bytes; lia).
  assert (Hcover : pages_below (highest entries) <= 8 * n)
    by (unfold n, bitmap_bytes; lia).
  apply wp_modify. cbv zeta. cbn [highest_address with_memory].
  rewrite (u64_id (highest entries + PAGE_SIZE - 1)) by (unfold_ranges; layout; lia).
  fold (pages_below (highest entries)).
  rewrite (u32_id (pages_below (highest entries))) by (unfold_ranges; lia).
  rewrite (u32_id (pages_below (highest entries) + 7)) by (unfold_ranges; lia).
  fold (bitmap_bytes (highest entries)). fold n.
  rewrite (u32_id (n + PAGE_SIZE - 1)) by (unfold_ranges; layout; lia).
  set (p0 := with_bitmap _ _).
  apply wp_bind, (wp_release entries n).
  { apply filled_ok. unfold_ranges. lia. }
  { lia. }
  { apply Hb. }
  { unfold pages_below in Hcover. layout. lia. }
  intros p1 (E1 & Hok1 & H1).
  apply wp_bind, (wp_reserve b entries n p1); [done|done|done|lia|by rewrite E1..|].
  intros p2 (E2 & Hok2 & H2).
  assert (E : p2 = with_bitmap (bitmap p2) p0) by (rewrite E2, E1; done).
  assert (Etot : total_pages p2 = pages_below (highest entries)) by (by rewrite E).
  apply (wp_count_free_pages n); [done|lia|lia|].
  assert (Hfree : forall j, page_free p2 j =
    (0 <=? j) && (j <? pages_below (highest entries)) && released entries j
    && negb (boot_reserved b (page_align_up (reserved_end b))
         ((n + PAGE_SIZE - 1) / PAGE_SIZE) j)).
  { intros j. unfold page_free. rewrite Etot, H2, H1.
    assert (bitmap_address p1 = page_align_up (reserved_end b)) as -> by (by rewrite E1).
    assert (bitmap_pages p1 = (n + PAGE_SIZE - 1) / PAGE_SIZE) as -> by (by rewrite E1).
    cbn [bitmap p0 with_bitmap]. rewrite bit_filled_ones.
    destruct (Z.leb_spec 0 j), (Z.ltb_spec j (pages_below (highest entries)));
      cbn [andb]; [|done..].
    rewrite (proj2 (Z.ltb_lt j (8 * n))) by lia. btauto. }
  split; [split|].
  - by replace (bitmap_size _) with n by (by rewrite E).
  - change (8 * bitmap_size p2 <= 2 ^ 32). replace (bitmap_size p2) with n by (by rewrite E).
    lia.
  - change (0 <= total_pages p2 <= 2 ^ 20). lia.
  - change (total_pages p2 <= 8 * bitmap_size p2).
    replace (bitmap_size p2) with n by (by rewrite E). lia.
  - change (page_free p2 0 = false). rewrite Hfree, page_zero_reserved. apply andb_false_r.
  - done.
  - split; [done|]. split; [by rewrite E|]. exact Hfree.
Qed.
End Initialisation.

(** ** Properties *)

Section Properties.
Implicit Types (w : pmm_world) (p : pmm).

Lemma least_free_pos p page : pmm_inv p -> least_free p page -> 0 < page < 2 ^ 20.
Proof.
  intros Hinv [Hf _]. pose proof (page_free_range p page Hf).
  pose proof (inv_total p Hinv). pose proof (inv_null p Hinv).
  destruct (decide (page = 0)) as [->|]; [congruence|lia].
Qed.

Lemma inv_with_fail p n : pmm_inv p -> pmm_inv (with_fail_allocations n p).
Proof. by intros []. Qed.

(** [pmm_alloc_page] never faults. With an injected failure pending it
    consumes that failure and answers [NULL]; otherwise it hands out the
    lowest free page and updates bitmap and [free_pages] accordingly, or
    answers [NULL] when no page is free. The interrupt state of the caller
    is restored on every path. *)
Theorem pmm_alloc_page_spec w :
  pmm_inv (pmm_of w) ->
  wp pmm_alloc_page (fun a w' =>
    pmm_cpu w' = pmm_cpu w /\
    if decide (fail_allocations (pmm_of w) = 0) then
      (none_free (pmm_of w) /\ a = NULL /\ w' = w) \/
      (exists page, least_free (pmm_of w) page /\ a = page * PAGE_SIZE /\
         page_taken page (pmm_of w) (pmm_of w'))
    else
      a = NULL /\
      pmm_of w' = with_fail_allocations (fail_allocations (pmm_of w) - 1) (pmm_of w)) w.
Proof.
  intros Hinv. destruct (decide (fail_allocations (pmm_of w) = 0)) as [E|E].
  - apply wp_pmm_alloc_page; [done..|auto|]. intros page p' Hl Ht. split; [done|].
    right. eauto.
  - unfold pmm_alloc_page. apply wp_bind, wp_gets.
    rewrite (proj2 (Z.eqb_neq _ _) E). cbn [negb].
    apply wp_bind, wp_zoom, wp_modify. by apply wp_ret.
Qed.

(** [pmm_free_page] gives an occupied managed page back, adding exactly
    that page to the free set; for a page beyond the managed memory or a
    page that is already free (a double free) it changes nothing. *)
Theorem pmm_free_page_spec w a :
  pmm_inv (pmm_of w) -> PAGE_SIZE <= a < 2 ^ 32 ->
  wp (pmm_free_page a) (fun _ w' =>
    if (a / PAGE_SIZE <? total_pages (pmm_of w))
         && negb (page_free (pmm_of w) (a / PAGE_SIZE))
    then pmm_cpu w' = pmm_cpu w /\
         page_released (a / PAGE_SIZE) (pmm_of w) (pmm_of w')
    else w' = w) w.
Proof.
  intros Hinv Ha. apply wp_pmm_free_page.
  - done.
  - unfold_ranges. layout. lia.
  - layout. lia.
  - intros [H|H].
    + by rewrite (proj2 (Z.ltb_ge _ _) H).
    + by rewrite H, andb_false_r.
  - intros p' Hlt Hf Hr. by rewrite (proj2 (Z.ltb_lt _ _) Hlt), Hf.
Qed.

(** A client of the manager that frees only what it was given: the pages it
    owns, with the manager's state. *)
Inductive client_step : pmm_world * gset Z -> pmm_world * gset Z -> Prop :=
  | client_alloc w own a w' :
      pmm_alloc_page w = Ok a w' -> a <> NULL -> client_step (w, own) (w', {[a]} ∪ own)
  | client_alloc_failed w own w' :
      pmm_alloc_page w = Ok NULL w' -> client_step (w, own) (w', own)
  | client_free w own a w' :
      a ∈ own -> pmm_free_page a w = Ok tt w' -> client_step (w, own) (w', own ∖ {[a]})
  | client_inject w own n w' :
      zoom pmm_l (pmm_fail_next_allocations n) w = Ok tt w' ->
      client_step (w, own) (w', own).

Definition owned_ok (p : pmm) (own : gset Z) : Prop :=
  forall a, a ∈ own -> exists page, a = page * PAGE_SIZE /\
    0 < page < total_pages p /\ page_free p page = false.

Definition client_inv (n : Z) (f : Z) (s : pmm_world * gset Z) : Prop :=
  pmm_inv (pmm_of s.1) /\ owned_ok (pmm_of s.1) s.2 /\
  free_pages (pmm_of s.1) + Z.of_nat (size s.2) = n /\ eflags (pmm_cpu s.1) = f.

Lemma taken_owned p p' page own :
  page_taken page p p' -> page_free p page = true -> 0 < page -> owned_ok p own ->
  (page * PAGE_SIZE ∉ own) /\ owned_ok p' ({[page * PAGE_SIZE]} ∪ own).
Proof.
  intros Ht Hf Hpos Hown. split.
  - intros Hin. destruct (Hown _ Hin) as (q & E & _ & Hq).
    assert (page = q) as -> by (layout; lia). congruence.
  - intros a [->%elem_of_singleton|Hin]%elem_of_union.
    + exists page. split; [done|]. rewrite (taken_total _ _ _ Ht), (taken_free _ _ _ Ht).
      pose proof (page_free_range p page Hf). split; [lia|].
      rewrite Z.eqb_refl. apply andb_false_r.
    + destruct (Hown a Hin) as (q & -> & Hr & Hq). exists q. split; [done|].
      by rewrite (taken_total _ _ _ Ht), (taken_free _ _ _ Ht), Hq.
Qed.

Lemma released_owned p p' page own :
  page_released page p p' -> owned_ok p own ->
  owned_ok p' (own ∖ {[page * PAGE_SIZE]}).
Proof.
  intros Hr Hown a [Hin Hne%not_elem_of_singleton]%elem_of_difference.
  destruct (Hown a Hin) as (q & -> & Hrange & Hq). exists q. split; [done|].
  rewrite (released_total _ _ _ Hr), (released_free _ _ _ Hr), Hq. split; [done|].
  apply Z.eqb_neq. by intros ->.
Qed.

Lemma client_step_inv n f s s' :
  client_step s s' -> client_inv n f s -> client_inv n f s'.
Proof.
  destruct 1 as [w own a w' Hrun Hne|w own w' Hrun|w own a w' Hin Hrun|w own k w' Hrun];
    intros (Hinv & Hown & Hcount & Hfl); unfold client_inv in *; cbn [fst snd] in *.
  - pose proof (wp_run _ _ _ _ _ (pmm_alloc_page_spec w Hinv) Hrun) as [Hcpu H].
    rewrite Hcpu. case_decide; [|by destruct H].
    destruct H as [(_ & ? & _)|(page & Hl & -> & Ht)]; [done|].
    pose proof (least_free_pos _ _ Hinv Hl). destruct Hl as [Hf _].
    destruct (taken_owned _ _ _ _ Ht Hf ltac:(lia) Hown) as [Hnew Hown'].
    split; [apply Ht|]. split; [done|]. split; [|done].
    rewrite size_union by set_solver. rewrite size_singleton, (taken_count _ _ _ Ht). lia.
  - pose proof (wp_run _ _ _ _ _ (pmm_alloc_page_spec w Hinv) Hrun) as [Hcpu H].
    rewrite Hcpu. case_decide.
    + destruct H as [(_ & _ & ->)|(page & Hl & E & Ht)]; [done|].
      pose proof (least_free_pos _ _ Hinv Hl). unfold NULL in E. layout. lia.
    + destruct H as [_ ->]. split; [by apply inv_with_fail|done].
  - destruct (Hown a Hin) as (page & -> & Hrange & Hf).
    pose proof (inv_total _ Hinv) as Htot.
    pose proof (wp_run _ _ _ _ _ (pmm_free_page_spec w (page * PAGE_SIZE) Hinv
      ltac:(layout; lia)) Hrun) as H.
    cbn beta in H. rewrite Z.div_mul in H by (layout; lia).
    rewrite (proj2 (Z.ltb_lt page _)), Hf in H by lia. destruct H as [Hcpu Hr].
    split; [apply Hr|]. split; [by eapply released_owned|]. rewrite Hcpu. split; [|done].
    rewrite (released_count _ _ _ Hr).
    assert (size own = S (size (own ∖ {[page * PAGE_SIZE]}))) as Hsz.
    { rewrite (union_difference_singleton_L (page * PAGE_SIZE) own Hin) at 1.
      rewrite size_union, size_singleton; [done|]. apply disjoint_difference_r1; set_solver. }
    lia.
  - cbv in Hrun. injection Hrun as <-. split; [by apply inv_with_fail|done].
Qed.

(** C1 No page is handed out twice. A client that runs any sequence of
    allocations, releases of its own pages and injected failures, from any
    state of the manager, at every point owns pairwise distinct occupied
    pages, none of them page 0, and the pages it owns plus the free pages
    are as many as there were free pages at the start. *)
Theorem pmm_no_double_allocation w0 w own :
  pmm_inv (pmm_of w0) -> rtc client_step (w0, ∅) (w, own) ->
  pmm_inv (pmm_of w) /\ owned_ok (pmm_of w) own /\
  free_pages (pmm_of w) + Z.of_nat (size own) = free_pages (pmm_of w0) /\
  eflags (pmm_cpu w) = eflags (pmm_cpu w0).
Proof.
  intros Hinv Hrun.
  assert (client_inv (free_pages (pmm_of w0)) (eflags (pmm_cpu w0)) (w0, ∅)) as H0.
  { split; [done|]. split; [intros a; set_solver|]. cbn [fst snd]. by rewrite size_empty, Z.add_0_r. }
  change (client_inv (free_pages (pmm_of w0)) (eflags (pmm_cpu w0)) (w, own)).
  revert H0. generalize (free_pages (pmm_of w0)) (eflags (pmm_cpu w0)). intros n f.
  induction Hrun as [|s s' s'' Hstep _ IH]; [done|]. intros H0.
  by apply IH, (client_step_inv n f s s').
Qed.

(** [pmm_init], from any previous state, brings the manager up in its
    invariant: a page is free if and only if it is managed, lies inside an
    available region of the memory map, and is not touched by the first
    mebibyte, the kernel image, the boot information, the root file system
    module or the bitmap. *)
Theorem pmm_init_spec b entries p :
  boot_ok b entries ->
  wp (pmm_init b) (fun _ p' =>
    pmm_inv p' /\
    forall j, page_free p' j =
      (0 <=? j) && (j <? pages_below (highest entries)) && released entries j
      && negb (boot_reserved b (page_align_up (reserved_end b))
           ((bitmap_bytes (highest entries) + PAGE_SIZE - 1) / PAGE_SIZE) j)) p.
Proof.
  intros Hb. eapply wp_mono; [by apply wp_pmm_init|].
  intros _ p' (Hinv & _ & _ & Hfree). done.
Qed.
End Properties.

(** ** Deciding the invariant of a concrete manager *)

Definition bytes_check (n : Z) (bs : bytes) : bool :=
  forallb (fun '(i, b) => (0 <=? i) && (i <? n) && (0 <=? b) && (b <? 2 ^ 8)) (map_to_list bs) &&
  forallb (fun i => bool_decide (is_Some (bs !! i))) (seqZ 0 n).

Definition pmm_check (p : pmm) : bool :=
  bytes_check (bitmap_size p) (bitmap p) && (8 * bitmap_size p <=? 2 ^ 32) &&
  (0 <=? total_pages p) && (total_pages p <=? 2 ^ 20) && (total_pages p <=? 8 * bitmap_size p) &&
  negb (page_free p 0) && (free_pages p =? count (page_free p) (Z.to_nat (total_pages p))).

Lemma bytes_check_ok n bs : bytes_check n bs = true -> bytes_ok n bs.
Proof.
  unfold bytes_check. rewrite andb_true_iff, !forallb_forall. intros [H1 H2] i.
  destruct (bs !! i) as [b|] eqn:E.
  - assert (List.In (i, b) (map_to_list bs)) as Hin by by apply list_elem_of_In, elem_of_map_to_list.
    specialize (H1 _ Hin). cbn in H1. unfold is_u8. lia.
  - intros Hi. assert (List.In i (seqZ 0 n)) as Hin by (apply list_elem_of_In, elem_of_seqZ; lia).
    specialize (H2 _ Hin). cbn beta in H2. apply bool_decide_eq_true in H2 as [x Hx]. congruence.
Qed.

Lemma pmm_check_ok p : pmm_check p = true -> pmm_inv p.
Proof.
  unfold pmm_check. rewrite !andb_true_iff. intros [[[[[[H1 H2] H3] H4] H5] H6] H7].
  apply bytes_check_ok in H1. split; [done|lia|lia|lia| |lia]. by apply negb_true_iff in H6.
Qed.

(** ** A concrete machine: 16 MiB of memory, a kernel of 1 MiB *)

Definition demo_boot : boot_memory := {|
  memory_map := Some [ MmapEntry 0 0x9F000 1; MmapEntry 0xF0000 0x10000 2;
                       MmapEntry 0x100000 0xF00000 1 ];
  mb_info := 0xC0250000;
  mb_total_size := 0x900;
  rootfs_module := Some (0x300000, 0x328000);
  kernel_end := 0x200000;
|}.

Definition pmm_reset : pmm := Pmm 0 0 0 0 ∅ 0 0 0 0 0.
Definition demo_cpu : cpu := Cpu 0x202 0x1000 [].

Definition demo_pmm : pmm := final (pmm_init demo_boot) pmm_reset.
Definition demo_world : pmm_world := PmmWorld demo_cpu demo_pmm.

Lemma demo_boot_ok : boot_ok demo_boot (default [] (memory_map demo_boot)).
Proof.
  split; [done|repeat constructor; cbn; lia|..]; vm_compute; repeat split; congruence.
Qed.

Lemma demo_pmm_inv : pmm_inv demo_pmm.
Proof.
  destruct (wp_final _ _ _ (wp_pmm_init demo_boot _ pmm_reset demo_boot_ok)) as (a & H & _).
  exact H.
Qed.

Lemma pmm_alloc_page_spec_witness :
  pmm_inv (pmm_of demo_world) /\
  result pmm_alloc_page demo_world = Some 0x200000 /\
  wp pmm_alloc_page (fun _ w' => pmm_cpu w' = demo_cpu) demo_world.
Proof.
  split; [exact demo_pmm_inv|]. split; [vm_compute; reflexivity|].
  eapply wp_mono; [exact (pmm_alloc_page_spec demo_world demo_pmm_inv)|].
  intros a w' [H _]. exact H.
Defined.

Lemma pmm_free_page_spec_witness :
  PAGE_SIZE <= 0x180000 < 2 ^ 32 /\
  wp (pmm_free_page 0x180000) (fun _ w' => page_free (pmm_of w') 0x180 = true) demo_world.
Proof.
  split; [unfold PAGE_SIZE; lia|].
  eapply wp_mono; [apply (pmm_free_page_spec demo_world 0x180000 demo_pmm_inv);
                   unfold PAGE_SIZE; lia|].
  intros [] w'.
  replace ((0x180000 / PAGE_SIZE <? total_pages (pmm_of demo_world))
    && negb (page_free (pmm_of demo_world) (0x180000 / PAGE_SIZE))) with true
    by (vm_compute; reflexivity).
  intros [_ Hr]. rewrite (released_free _ _ _ Hr). apply orb_true_r.
Defined.

Lemma pmm_no_double_allocation_witness :
  exists w own, rtc client_step (demo_world, ∅) (w, own) /\ own = {[0x200000]} /\
    free_pages (pmm_of w) + Z.of_nat (size own) = free_pages (pmm_of demo_world).
Proof.
  destruct (wp_inv _ _ _ (pmm_alloc_page_spec demo_world demo_pmm_inv))
    as (a & w' & Hrun & _).
  assert (result pmm_alloc_page demo_world = Some 0x200000) as Ea
    by (vm_compute; reflexivity).
  unfold result in Ea. rewrite Hrun in Ea. injection Ea as Ea.
  exists w', {[0x200000]}.
  assert (rtc client_step (demo_world, ∅) (w', {[0x200000]})) as Hr.
  { eapply rtc_l; [|apply rtc_refl].
    replace ({[0x200000]} : gset Z) with ({[a]} ∪ ∅ : gset Z) by (subst; set_solver).
    apply client_alloc; [done|]. by rewrite Ea. }
  destruct (pmm_no_double_allocation demo_world w' {[0x200000]} demo_pmm_inv Hr)
    as (_ & _ & Hcount & _).
  split; [exact Hr|]. split; [reflexivity|exact Hcount].
Defined.

Lemma pmm_init_spec_witness :
  boot_ok demo_boot (default [] (memory_map demo_boot)) /\
  wp (pmm_init demo_boot) (fun _ p' => pmm_inv p' /\ page_free p' 0x210 = true) pmm_reset.
Proof.
  split; [exact demo_boot_ok|].
  eapply wp_mono; [exact (pmm_init_spec demo_boot _ pmm_reset demo_boot_ok)|].
  intros _ p' [Hinv Hfree]. split; [exact Hinv|]. rewrite Hfree. vm_compute. reflexivity.
Defined.
