(* ===== verification/DList.v ===== *)
(** * Intrusive doubly-linked lists

    [kernel/lib/list.c]. A list is a circle of nodes through a head node that
    lives in [struct list]; elements embed their own [struct list_node]. The
    model keeps the nodes in a store indexed by an arbitrary type of node
    locations, so that every object that embeds nodes (threads, processes,
    user stacks, loaded pages) names its nodes in its own way, and
    [container_of] is the function from a node's location to its object. *)

From S2P Require Import Prelude.

Section DList.
Context {L : Type} `{Countable L}.

(** Pointers to nodes; [NULL] is [None]. *)
Record list_node : Type := Node { prev : option L; next : option L }.

Abbreviation nodes := (gmap L list_node).

Implicit Types (s : nodes) (a b h x y : L) (xs ys : list L).

(** [node->prev], [node->next] as values and as assignments. *)
Definition deref (p : option L) : M nodes list_node := fun s =>
  match p with
  | Some a => match s !! a with Some n => Ok n s | None => Fault BadPointer end
  | None => Fault BadPointer
  end.

Definition assign (p : option L) (n : list_node) : M nodes unit := fun s =>
  match p with
  | Some a => match s !! a with
              | Some _ => Ok tt (<[a := n]> s)
              | None => Fault BadPointer
              end
  | None => Fault BadPointer
  end.

Definition get_prev (p : option L) : M nodes (option L) := let* n := deref p in ret (prev n).
Definition get_next (p : option L) : M nodes (option L) := let* n := deref p in ret (next n).
Definition set_prev (p : option L) (v : option L) : M nodes unit :=
  let* n := deref p in assign p (Node v (next n)).
Definition set_next (p : option L) (v : option L) : M nodes unit :=
  let* n := deref p in assign p (Node (prev n) v).

Definition is_null (p : option L) : bool := match p with None => true | Some _ => false end.

(** ** The operations of [list.c]

    A [struct list *] is the address of its head node. *)

Definition list_front (l : option L) : M nodes (option L) :=
  if is_null l then ret None else get_next l.

Definition list_back (l : option L) : M nodes (option L) :=
  if is_null l then ret None else get_prev l.

Definition list_next (node : option L) : M nodes (option L) :=
  if is_null node then ret None else get_next node.

Definition list_prev (node : option L) : M nodes (option L) :=
  if is_null node then ret None else get_prev node.

Definition list_node_init (node : option L) : M nodes unit :=
  ASSERT "node != NULL" (negb (is_null node)) ;;;
  set_prev node None ;;;
  set_next node None.

Definition list_init (l : option L) : M nodes unit :=
  ASSERT "list != NULL" (negb (is_null l)) ;;;
  set_next l l ;;;
  set_prev l l.

Definition list_empty (l : option L) : M nodes bool :=
  if is_null l then ret true
  else let* n := get_next l in ret (bool_decide (n = l)).

Definition list_insert_before (pos node : option L) : M nodes unit :=
  ASSERT "pos != NULL" (negb (is_null pos)) ;;;
  ASSERT "node != NULL" (negb (is_null node)) ;;;
  let* np := get_prev node in
  ASSERT "node->prev == NULL" (is_null np) ;;;
  let* nn := get_next node in
  ASSERT "node->next == NULL" (is_null nn) ;;;
  let* pp := get_prev pos in
  set_prev node pp ;;;
  set_next node pos ;;;
  let* pp' := get_prev pos in
  set_next pp' node ;;;
  set_prev pos node.

Definition list_insert_after (pos node : option L) : M nodes unit :=
  ASSERT "pos != NULL" (negb (is_null pos)) ;;;
  ASSERT "node != NULL" (negb (is_null node)) ;;;
  let* np := get_prev node in
  ASSERT "node->prev == NULL" (is_null np) ;;;
  let* nn := get_next node in
  ASSERT "node->next == NULL" (is_null nn) ;;;
  set_prev node pos ;;;
  let* pn := get_next pos in
  set_next node pn ;;;
  let* pn' := get_next pos in
  set_prev pn' node ;;;
  set_next pos node.

Definition list_push_front (l node : option L) : M nodes unit :=
  ASSERT "list != NULL" (negb (is_null l)) ;;;
  ASSERT "node != NULL" (negb (is_null node)) ;;;
  list_insert_after l node.

Definition list_push_back (l node : option L) : M nodes unit :=
  ASSERT "list != NULL" (negb (is_null l)) ;;;
  ASSERT "node != NULL" (negb (is_null node)) ;;;
  list_insert_before l node.

Definition list_remove (node : option L) : M nodes unit :=
  ASSERT "node != NULL" (negb (is_null node)) ;;;
  let* np := get_prev node in
  ASSERT "node->prev != NULL" (negb (is_null np)) ;;;
  let* nn := get_next node in
  ASSERT "node->next != NULL" (negb (is_null nn)) ;;;
  let* np' := get_prev node in
  let* nn' := get_next node in
  set_next np' nn' ;;;
  let* nn'' := get_next node in
  let* np'' := get_prev node in
  set_prev nn'' np'' ;;;
  set_prev node None ;;;
  set_next node None.

(** ** Representation

    [chain s a xs b]: following [next] from [a] visits [xs] and arrives at
    [b], and the [prev] pointers lead back. A list with head [h] and elements
    [xs] is a chain from [h] through [xs] to [h] without repetition. *)

Definition next_of s a : option L := match s !! a with Some n => next n | None => None end.
Definition prev_of s a : option L := match s !! a with Some n => prev n | None => None end.

Fixpoint chain s a xs b : Prop :=
  match xs with
  | [] => next_of s a = Some b /\ prev_of s b = Some a
  | x :: xs' => next_of s a = Some x /\ prev_of s x = Some a /\ chain s x xs' b
  end.

Definition is_list s h xs : Prop := NoDup (h :: xs) /\ chain s h xs h.

(** A node outside of every list. *)
Definition unlinked s x : Prop := s !! x = Some (Node None None).

(** Nodes outside [xs] are as before. *)
Definition unchanged xs s s' : Prop := forall y, y ∉ xs -> s' !! y = s !! y.

(** ** Lemmas on chains *)

Lemma next_of_Some s a b : next_of s a = Some b -> exists n, s !! a = Some n /\ next n = Some b.
Proof. unfold next_of. destruct (s !! a); [eauto|done]. Qed.

Lemma prev_of_Some s a b : prev_of s a = Some b -> exists n, s !! a = Some n /\ prev n = Some b.
Proof. unfold prev_of. destruct (s !! a); [eauto|done]. Qed.

Lemma chain_app s a xs y ys b :
  chain s a (xs ++ y :: ys) b <-> chain s a xs y /\ chain s y ys b.
Proof.
  revert a. induction xs as [|x xs IH]; intros a; cbn [chain app].
  - tauto.
  - rewrite IH. tauto.
Qed.

Lemma chain_ext s s' a xs b :
  (forall y, y ∈ a :: xs -> next_of s' y = next_of s y) ->
  (forall y, y ∈ xs ++ [b] -> prev_of s' y = prev_of s y) ->
  chain s a xs b -> chain s' a xs b.
Proof.
  revert a. induction xs as [|x xs IH]; intros a Hn Hp; cbn [chain].
  - intros [E1 E2]. split; [rewrite Hn|rewrite Hp]; set_solver.
  - intros (E1 & E2 & Hc). split; [rewrite Hn; set_solver|].
    split; [rewrite Hp; set_solver|]. apply IH; [|by intros y Hy; apply Hp; set_solver|done].
    intros y Hy. apply Hn. set_solver.
Qed.

Lemma chain_defined s a xs b y : chain s a xs b -> y ∈ a :: xs -> is_Some (s !! y).
Proof.
  revert a. induction xs as [|x xs IH]; intros a; cbn [chain].
  - intros [(n & E & _)%next_of_Some _] ->%list_elem_of_singleton. by rewrite E.
  - intros ((n & E & _)%next_of_Some & _ & Hc) [->|Hy]%elem_of_cons; [by rewrite E|].
    by apply (IH x).
Qed.

(** The last node of a chain and its link to the end. *)
Lemma chain_last s a xs b :
  chain s a xs b -> exists y, prev_of s b = Some y /\ next_of s y = Some b /\ y ∈ a :: xs /\
    last (a :: xs) = Some y.
Proof.
  revert a. induction xs as [|x xs IH]; intros a; cbn [chain].
  - intros [E1 E2]. exists a. set_solver.
  - intros (E1 & E2 & Hc). destruct (IH x Hc) as (y & Ep & En & Hin & Ey).
    exists y. split; [done|]. split; [done|]. split; [set_solver|done].
Qed.

Lemma chain_first s a xs b :
  chain s a xs b -> exists y, next_of s a = Some y /\ prev_of s y = Some a /\
    head (xs ++ [b]) = Some y.
Proof. destruct xs as [|x xs]; cbn [chain]; [intros [E1 E2]|intros (E1 & E2 & _)]; eauto. Qed.

(** ** Primitive assignments *)

(** What an operation leaves behind: its [next] and [prev] fields, the same
    nodes as before, and untouched nodes outside of [dirty]. *)
Record updated (fn fp : L -> option L) (dirty : list L) s s' : Prop := {
  upd_next y : next_of s' y = fn y;
  upd_prev y : prev_of s' y = fp y;
  upd_dom y : is_Some (s' !! y) <-> is_Some (s !! y);
  upd_rest : unchanged dirty s s';
}.

Lemma unlinked_iff s x :
  unlinked s x <-> is_Some (s !! x) /\ next_of s x = None /\ prev_of s x = None.
Proof.
  unfold unlinked, next_of, prev_of. split; [intros ->; eauto|].
  intros ([[p n] E] & Hn & Hp). rewrite E in *. cbn in *. by subst.
Qed.

Lemma wp_get_next a (Q : option L -> nodes -> Prop) s :
  is_Some (s !! a) -> Q (next_of s a) s -> wp (get_next (Some a)) Q s.
Proof. intros [n E]. unfold wp, get_next, bind, deref, next_of. by rewrite E. Qed.

Lemma wp_get_prev a (Q : option L -> nodes -> Prop) s :
  is_Some (s !! a) -> Q (prev_of s a) s -> wp (get_prev (Some a)) Q s.
Proof. intros [n E]. unfold wp, get_prev, bind, deref, prev_of. by rewrite E. Qed.

Lemma updated_insert_next s a n v :
  s !! a = Some n ->
  updated (fun y => if decide (y = a) then v else next_of s y) (prev_of s) [a] s
    (<[a := Node (prev n) v]> s).
Proof.
  intros E. split; intros y; unfold next_of, prev_of, unchanged.
  - rewrite lookup_insert. by repeat case_decide; simplify_eq/=.
  - rewrite lookup_insert. case_decide; subst; by rewrite ?E.
  - rewrite lookup_insert. case_decide; subst; rewrite ?E; by split; eauto.
  - intros Hy. rewrite lookup_insert_ne; set_solver.
Qed.

Lemma updated_insert_prev s a n v :
  s !! a = Some n ->
  updated (next_of s) (fun y => if decide (y = a) then v else prev_of s y) [a] s
    (<[a := Node v (next n)]> s).
Proof.
  intros E. split; intros y; unfold next_of, prev_of, unchanged.
  - rewrite lookup_insert. case_decide; subst; by rewrite ?E.
  - rewrite lookup_insert. by repeat case_decide; simplify_eq/=.
  - rewrite lookup_insert. case_decide; subst; rewrite ?E; by split; eauto.
  - intros Hy. rewrite lookup_insert_ne; set_solver.
Qed.

Lemma wp_set_next a v (Q : unit -> nodes -> Prop) s :
  is_Some (s !! a) ->
  (forall s', updated (fun y => if decide (y = a) then v else next_of s y) (prev_of s) [a] s s' ->
     Q tt s') ->
  wp (set_next (Some a) v) Q s.
Proof.
  intros [n E] HQ. unfold wp, set_next, bind, deref, assign. rewrite E, E. apply HQ.
  by apply updated_insert_next.
Qed.

Lemma wp_set_prev a v (Q : unit -> nodes -> Prop) s :
  is_Some (s !! a) ->
  (forall s', updated (next_of s) (fun y => if decide (y = a) then v else prev_of s y) [a] s s' ->
     Q tt s') ->
  wp (set_prev (Some a) v) Q s.
Proof.
  intros [n E] HQ. unfold wp, set_prev, bind, deref, assign. rewrite E, E. apply HQ.
  by apply updated_insert_prev.
Qed.

Lemma unchanged_mono xs ys s s' : unchanged xs s s' -> xs ⊆ ys -> unchanged ys s s'.
Proof. intros Hu Hsub y Hy. apply Hu. set_solver. Qed.

Lemma unchanged_trans xs s s' s'' : unchanged xs s s' -> unchanged xs s' s'' -> unchanged xs s s''.
Proof. intros H1 H2 y Hy. by rewrite H2, H1. Qed.

(** ** Insertion

    [linked_in p n b s s']: in [s'], node [n] sits between [p] and [b]. *)
Definition linked_in (p n b : L) s s' : Prop :=
  updated (fun y => if decide (y = p) then Some n else if decide (y = n) then Some b
                    else next_of s y)
          (fun y => if decide (y = b) then Some n else if decide (y = n) then Some p
                    else prev_of s y) [p; n; b] s s'.

Lemma wp_list_insert_before pos node p (Q : unit -> nodes -> Prop) s :
  unlinked s node -> is_Some (s !! pos) -> prev_of s pos = Some p -> is_Some (s !! p) ->
  node <> pos -> node <> p ->
  (forall s', linked_in p node pos s s' -> Q tt s') ->
  wp (list_insert_before (Some pos) (Some node)) Q s.
Proof.
  intros (Hnode & Hn & Hp)%unlinked_iff Hpos Epos Hpp Hne1 Hne2 HQ.
  unfold list_insert_before. cbn [is_null negb].
  apply wp_bind, wp_assert; [done|]. apply wp_bind, wp_assert; [done|].
  apply wp_bind, wp_get_prev; [done|]. rewrite Hp. apply wp_bind, wp_assert; [done|].
  apply wp_bind, wp_get_next; [done|]. rewrite Hn. apply wp_bind, wp_assert; [done|].
  apply wp_bind, wp_get_prev; [done|]. rewrite Epos.
  apply wp_bind, wp_set_prev; [done|]. intros s1 U1.
  apply wp_bind, wp_set_next; [by apply U1|]. intros s2 U2.
  apply wp_bind, wp_get_prev; [by apply U2, U1|].
  rewrite (upd_prev _ _ _ _ _ U2), (upd_prev _ _ _ _ _ U1), decide_False, Epos by done.
  apply wp_bind, wp_set_next; [by apply U2, U1|]. intros s3 U3.
  apply wp_set_prev; [by apply U3, U2, U1|]. intros s4 U4.
  apply HQ. destruct U1 as [N1 P1 D1 R1], U2 as [N2 P2 D2 R2], U3 as [N3 P3 D3 R3],
    U4 as [N4 P4 D4 R4]. split.
  - intros y. rewrite N4, N3, N2, N1. repeat case_decide; congruence.
  - intros y. rewrite P4, P3, P2, P1. repeat case_decide; congruence.
  - intros y. by rewrite D4, D3, D2, D1.
  - intros y Hy. rewrite R4, R3, R2, R1 by set_solver. done.
Qed.

Lemma wp_list_insert_after pos node q (Q : unit -> nodes -> Prop) s :
  unlinked s node -> is_Some (s !! pos) -> next_of s pos = Some q -> is_Some (s !! q) ->
  node <> pos -> node <> q ->
  (forall s', linked_in pos node q s s' -> Q tt s') ->
  wp (list_insert_after (Some pos) (Some node)) Q s.
Proof.
  intros (Hnode & Hn & Hp)%unlinked_iff Hpos Epos Hqq Hne1 Hne2 HQ.
  unfold list_insert_after. cbn [is_null negb].
  apply wp_bind, wp_assert; [done|]. apply wp_bind, wp_assert; [done|].
  apply wp_bind, wp_get_prev; [done|]. rewrite Hp. apply wp_bind, wp_assert; [done|].
  apply wp_bind, wp_get_next; [done|]. rewrite Hn. apply wp_bind, wp_assert; [done|].
  apply wp_bind, wp_set_prev; [done|]. intros s1 U1.
  apply wp_bind, wp_get_next; [by apply U1|].
  rewrite (upd_next _ _ _ _ _ U1), Epos.
  apply wp_bind, wp_set_next; [by apply U1|]. intros s2 U2.
  apply wp_bind, wp_get_next; [by apply U2, U1|].
  rewrite (upd_next _ _ _ _ _ U2), decide_False, (upd_next _ _ _ _ _ U1), Epos by done.
  apply wp_bind, wp_set_prev; [by apply U2, U1|]. intros s3 U3.
  apply wp_set_next; [by apply U3, U2, U1|]. intros s4 U4.
  apply HQ. destruct U1 as [N1 P1 D1 R1], U2 as [N2 P2 D2 R2], U3 as [N3 P3 D3 R3],
    U4 as [N4 P4 D4 R4]. split.
  - intros y. rewrite N4, N3, N2, N1. repeat case_decide; congruence.
  - intros y. rewrite P4, P3, P2, P1. repeat case_decide; congruence.
  - intros y. by rewrite D4, D3, D2, D1.
  - intros y Hy. rewrite R4, R3, R2, R1 by set_solver. done.
Qed.

(** A node linked in at the end of a chain. *)
Lemma chain_insert_end s s' a xs b p n :
  chain s a xs b -> prev_of s b = Some p -> NoDup (a :: xs) -> n ∉ a :: xs -> n <> b -> b ∉ xs ->
  linked_in p n b s s' -> chain s' a (xs ++ [n]) b.
Proof.
  intros Hc Hp Hnd Hn Hnb Hb [N P _ _]. revert a Hc Hnd Hn.
  induction xs as [|x xs IH]; intros a Hc Hnd Hn; cbn [chain app] in *.
  - destruct Hc as [E1 E2]. assert (p = a) as -> by congruence.
    rewrite !N, !P. repeat case_decide; set_solver.
  - destruct Hc as (E1 & E2 & Hc). apply NoDup_cons in Hnd as [Ha Hnd].
    destruct (chain_last _ _ _ _ Hc) as (y & Ey & _ & Hy & _).
    assert (y = p) as -> by congruence.
    split; [|split].
    + rewrite N, !decide_False; set_solver.
    + rewrite P, !decide_False; set_solver.
    + apply IH; set_solver.
Qed.

(** ** Removal

    [linked_out p x q s s']: [x], between [p] and [q] in [s], is isolated in
    [s'] and its neighbours point at each other. *)
Definition linked_out (p x q : L) s s' : Prop :=
  updated (fun y => if decide (y = x) then None else if decide (y = p) then Some q
                    else next_of s y)
          (fun y => if decide (y = x) then None else if decide (y = q) then Some p
                    else prev_of s y) [p; x; q] s s'.

Lemma wp_list_remove x p q (Q : unit -> nodes -> Prop) s :
  is_Some (s !! x) -> prev_of s x = Some p -> next_of s x = Some q ->
  is_Some (s !! p) -> is_Some (s !! q) -> p <> x -> q <> x ->
  (forall s', linked_out p x q s s' -> Q tt s') ->
  wp (list_remove (Some x)) Q s.
Proof.
  intros Hx Ep Eq Hp Hq Hpx Hqx HQ. unfold list_remove. cbn [is_null negb].
  apply wp_bind, wp_assert; [done|].
  apply wp_bind, wp_get_prev; [done|]. rewrite Ep. apply wp_bind, wp_assert; [done|].
  apply wp_bind, wp_get_next; [done|]. rewrite Eq. apply wp_bind, wp_assert; [done|].
  apply wp_bind, wp_get_prev; [done|]. apply wp_bind, wp_get_next; [done|].
  rewrite Ep, Eq. apply wp_bind, wp_set_next; [done|]. intros s1 U1.
  apply wp_bind, wp_get_next; [by apply U1|]. apply wp_bind, wp_get_prev; [by apply U1|].
  rewrite (upd_next _ _ _ _ _ U1), (upd_prev _ _ _ _ _ U1), decide_False, Ep, Eq by done.
  apply wp_bind, wp_set_prev; [by apply U1|]. intros s2 U2.
  apply wp_bind, wp_set_prev; [by apply U2, U1|]. intros s3 U3.
  apply wp_set_next; [by apply U3, U2, U1|]. intros s4 U4.
  apply HQ. destruct U1 as [N1 P1 D1 R1], U2 as [N2 P2 D2 R2], U3 as [N3 P3 D3 R3],
    U4 as [N4 P4 D4 R4]. split.
  - intros y. rewrite N4, N3, N2, N1. repeat case_decide; congruence.
  - intros y. rewrite P4, P3, P2, P1. repeat case_decide; congruence.
  - intros y. by rewrite D4, D3, D2, D1.
  - intros y Hy. rewrite R4, R3, R2, R1 by set_solver. done.
Qed.

Lemma chain_remove s s' a l1 x l2 b p q :
  chain s a l1 x -> chain s x l2 b -> prev_of s x = Some p -> next_of s x = Some q ->
  NoDup (a :: l1 ++ x :: l2) -> b ∉ l1 ++ x :: l2 ->
  linked_out p x q s s' -> chain s' a (l1 ++ l2) b.
Proof.
  intros Hc1 Hc2 Hp Hq Hnd Hb [N P _ _]. revert a Hc1 Hnd.
  induction l1 as [|y l1 IH]; intros a Hc1 Hnd; cbn [app chain] in *.
  - destruct Hc1 as [E1 E2]. assert (p = a) as -> by congruence.
    apply NoDup_cons in Hnd as [Ha Hnd]. apply NoDup_cons in Hnd as [Hx Hnd].
    destruct l2 as [|z l2]; cbn [chain] in *.
    + destruct Hc2 as [E3 E4]. assert (q = b) as -> by congruence.
      rewrite !N, !P. repeat case_decide; set_solver.
    + destruct Hc2 as (E3 & E4 & Hc2). assert (q = z) as -> by congruence.
      apply NoDup_cons in Hnd as [Hz Hnd].
      split; [rewrite !N; repeat case_decide; set_solver|].
      split; [rewrite !P; repeat case_decide; set_solver|].
      apply (chain_ext s); [| |done].
      * intros w Hw. rewrite N, !decide_False; set_solver.
      * intros w Hw. rewrite P, !decide_False; set_solver.
  - destruct Hc1 as (E1 & E2 & Hc1). apply NoDup_cons in Hnd as [Ha Hnd].
    destruct (chain_last _ _ _ _ Hc1) as (w & Ew & _ & Hw & _).
    assert (w = p) as -> by congruence.
    assert (Hyq : y <> q).
    { destruct (chain_first _ _ _ _ Hc2) as (z & Ez & _ & Hz).
      assert (z = q) as -> by congruence. apply NoDup_cons in Hnd as [Hy _].
      destruct l2; cbn in Hz; set_solver. }
    split; [rewrite N, !decide_False; set_solver|].
    split; [rewrite P, !decide_False; set_solver|]. apply IH; set_solver.
Qed.

(** ** Whole lists *)

Lemma chain_linked s a xs b y : chain s a xs b -> y ∈ a :: xs -> next_of s y <> None.
Proof.
  revert a. induction xs as [|x xs IH]; intros a; cbn [chain].
  - intros [E _] ->%list_elem_of_singleton. congruence.
  - intros (E & _ & Hc) [->|Hy]%elem_of_cons; [congruence|]. by apply (IH x).
Qed.

Lemma unlinked_not_in s h xs n : is_list s h xs -> unlinked s n -> n ∉ h :: xs.
Proof.
  intros [_ Hc] (_ & Hn & _)%unlinked_iff Hin. by apply (chain_linked _ _ _ _ _ Hc Hin).
Qed.

(** A list is not affected by operations on other nodes. *)
Lemma is_list_frame s s' h xs dirty :
  is_list s h xs -> unchanged dirty s s' -> (forall y, y ∈ h :: xs -> y ∉ dirty) ->
  is_list s' h xs.
Proof.
  intros [Hnd Hc] Hu Hd. split; [done|]. apply (chain_ext s); [| |done].
  - intros y Hy. unfold next_of. by rewrite Hu by auto.
  - intros y Hy. unfold prev_of. rewrite Hu; [done|]. apply Hd. set_solver.
Qed.

Lemma unlinked_frame s s' x dirty :
  unlinked s x -> unchanged dirty s s' -> x ∉ dirty -> unlinked s' x.
Proof. unfold unlinked. intros E Hu Hx. by rewrite Hu. Qed.

(** The neighbours of the gap between [l1] and [l2]. *)
Lemma gap_neighbours s h l1 l2 p q :
  is_list s h (l1 ++ l2) -> last (h :: l1) = Some p -> head (l2 ++ [h]) = Some q ->
  prev_of s q = Some p /\ next_of s p = Some q /\ chain s h l1 q /\
  (l2 = [] /\ q = h \/ exists c, l2 = q :: c /\ chain s q c h).
Proof.
  intros [_ Hc] Hp Hq.
  assert (chain s h l1 q /\ (l2 = [] /\ q = h \/ exists c, l2 = q :: c /\ chain s q c h))
    as [Hc1 Hc2].
  { destruct l2 as [|z l2]; cbn in Hq; injection Hq as <-.
    - rewrite app_nil_r in Hc. auto.
    - apply chain_app in Hc as [? ?]. eauto. }
  destruct (chain_last _ _ _ _ Hc1) as (y & Ey & En & _ & Hl).
  assert (y = p) as -> by congruence. auto.
Qed.

(** A node linked into the gap between [l1] and [l2]. *)
Lemma linked_in_list s s' h l1 l2 p n q :
  is_list s h (l1 ++ l2) -> last (h :: l1) = Some p -> head (l2 ++ [h]) = Some q ->
  n ∉ h :: l1 ++ l2 -> linked_in p n q s s' -> is_list s' h (l1 ++ n :: l2).
Proof.
  intros Hl Hp Hq Hin Hlink.
  destruct (gap_neighbours _ _ _ _ _ _ Hl Hp Hq) as (Ep & _ & Hc1 & Hc2).
  destruct Hl as [Hnd _]. apply NoDup_cons in Hnd as [Hh Hnd].
  apply NoDup_app in Hnd as (Hn1 & Hn12 & Hn2).
  assert (q ∉ l1) as Hql1 by (destruct Hc2 as [[_ ->]|(c & -> & _)]; set_solver).
  assert (n <> q) as Hnq by (destruct Hc2 as [[_ ->]|(c & -> & _)]; set_solver).
  assert (chain s' h (l1 ++ [n]) q) as Hc1'.
  { apply (chain_insert_end s s' h l1 q p n); [done|done| | |done|done|done].
    - apply NoDup_cons. set_solver.
    - set_solver. }
  split.
  - apply NoDup_cons. split; [set_solver|]. apply NoDup_app. split; [done|].
    split; [set_solver|]. apply NoDup_cons. set_solver.
  - destruct Hc2 as [[-> ->]|(c & -> & Hc2)]; [done|].
    apply chain_app in Hc1' as [Hca [Hcb1 Hcb2]]. apply chain_app. split; [done|].
    split; [done|]. split; [done|]. apply NoDup_cons in Hn2 as [Hpc Hn2].
    destruct Hlink as [N P _ _]. apply (chain_ext s); [| |done].
    + intros y Hy. rewrite N, !decide_False; [done|set_solver|].
      intros ->. destruct (last_Some (h :: l1) p) as [[l' El] _]; [done|].
      assert (p ∈ h :: l1) by (rewrite El; set_solver). set_solver.
    + intros y Hy. rewrite P, !decide_False; set_solver.
Qed.

Lemma is_list_defined s h xs y : is_list s h xs -> y ∈ h :: xs -> is_Some (s !! y).
Proof. intros [_ Hc]. by apply (chain_defined _ _ _ _ _ Hc). Qed.

(** No more elements than nodes. *)
Lemma is_list_length s h xs : is_list s h xs -> (S (length xs) <= size s)%nat.
Proof.
  intros Hl. pose proof Hl as [Hnd _]. change (S (length xs)) with (length (h :: xs)).
  rewrite <- (size_list_to_set (C := gset L)) by done. rewrite <- size_dom. apply subseteq_size.
  intros x Hx%elem_of_list_to_set. apply elem_of_dom. by eapply is_list_defined.
Qed.

Lemma last_in xs y : last xs = Some y -> y ∈ xs.
Proof. intros [l ->]%last_Some. set_solver. Qed.

Lemma head_in xs y : head xs = Some y -> y ∈ xs.
Proof. intros [l ->]%head_Some. set_solver. Qed.

Lemma last_cons_exists a xs : exists p, last (a :: xs) = Some p.
Proof. rewrite last_cons. destruct (last xs); eauto. Qed.

Lemma head_snoc_exists a xs : exists p, head (xs ++ [a]) = Some p.
Proof. destruct xs; cbn; eauto. Qed.

(** The effect of an insertion: [n] is in the list, nothing outside the list
    changes. *)
Definition inserted h l1 n l2 s s' : Prop :=
  is_list s' h (l1 ++ n :: l2) /\ unchanged (n :: h :: l1 ++ l2) s s' /\
  (forall y, is_Some (s' !! y) <-> is_Some (s !! y)).

Lemma linked_in_inserted s s' h l1 l2 p n q :
  is_list s h (l1 ++ l2) -> last (h :: l1) = Some p -> head (l2 ++ [h]) = Some q ->
  n ∉ h :: l1 ++ l2 -> linked_in p n q s s' -> inserted h l1 n l2 s s'.
Proof.
  intros Hl Hp Hq Hin Hlink. split; [by eapply linked_in_list|]. split; [|apply Hlink].
  eapply unchanged_mono; [apply Hlink|].
  apply last_in in Hp. apply head_in in Hq. set_solver.
Qed.

(** [list_insert_before] before the first node of [l2], or the head. *)
Lemma wp_insert_before_list h l1 l2 pos n (Q : unit -> nodes -> Prop) s :
  is_list s h (l1 ++ l2) -> head (l2 ++ [h]) = Some pos -> unlinked s n ->
  (forall s', inserted h l1 n l2 s s' -> Q tt s') ->
  wp (list_insert_before (Some pos) (Some n)) Q s.
Proof.
  intros Hl Hq Hn HQ. pose proof (unlinked_not_in _ _ _ _ Hl Hn) as Hin.
  destruct (last_cons_exists h l1) as [p Hp].
  destruct (gap_neighbours _ _ _ _ _ _ Hl Hp Hq) as (Ep & _).
  pose proof (last_in _ _ Hp). pose proof (head_in _ _ Hq).
  apply (wp_list_insert_before _ _ p); [done| |done| |set_solver|set_solver|].
  - eapply is_list_defined; [done|set_solver].
  - eapply is_list_defined; [done|set_solver].
  - intros s' Hlink. apply HQ. by eapply linked_in_inserted.
Qed.

(** [list_insert_after] after the last node of [l1], or the head. *)
Lemma wp_insert_after_list h l1 l2 pos n (Q : unit -> nodes -> Prop) s :
  is_list s h (l1 ++ l2) -> last (h :: l1) = Some pos -> unlinked s n ->
  (forall s', inserted h l1 n l2 s s' -> Q tt s') ->
  wp (list_insert_after (Some pos) (Some n)) Q s.
Proof.
  intros Hl Hp Hn HQ. pose proof (unlinked_not_in _ _ _ _ Hl Hn) as Hin.
  destruct (head_snoc_exists h l2) as [q Hq].
  destruct (gap_neighbours _ _ _ _ _ _ Hl Hp Hq) as (_ & Eq & _).
  pose proof (last_in _ _ Hp). pose proof (head_in _ _ Hq).
  apply (wp_list_insert_after _ _ q); [done| |done| |set_solver|set_solver|].
  - eapply is_list_defined; [done|set_solver].
  - eapply is_list_defined; [done|set_solver].
  - intros s' Hlink. apply HQ. by eapply linked_in_inserted.
Qed.

Lemma wp_push_back h xs n (Q : unit -> nodes -> Prop) s :
  is_list s h xs -> unlinked s n ->
  (forall s', inserted h xs n [] s s' -> Q tt s') ->
  wp (list_push_back (Some h) (Some n)) Q s.
Proof.
  intros Hl Hn HQ. unfold list_push_back. do 2 (apply wp_bind, wp_assert; [done|]).
  apply (wp_insert_before_list h xs []); [by rewrite app_nil_r|done..].
Qed.

Lemma wp_push_front h xs n (Q : unit -> nodes -> Prop) s :
  is_list s h xs -> unlinked s n ->
  (forall s', inserted h [] n xs s s' -> Q tt s') ->
  wp (list_push_front (Some h) (Some n)) Q s.
Proof.
  intros Hl Hn HQ. unfold list_push_front. do 2 (apply wp_bind, wp_assert; [done|]).
  by apply (wp_insert_after_list h [] xs).
Qed.

(** The effect of a removal. *)
Definition removed h l1 x l2 s s' : Prop :=
  is_list s' h (l1 ++ l2) /\ unlinked s' x /\ unchanged (h :: l1 ++ x :: l2) s s' /\
  (forall y, is_Some (s' !! y) <-> is_Some (s !! y)).

Lemma wp_remove_list h l1 x l2 (Q : unit -> nodes -> Prop) s :
  is_list s h (l1 ++ x :: l2) ->
  (forall s', removed h l1 x l2 s s' -> Q tt s') ->
  wp (list_remove (Some x)) Q s.
Proof.
  intros Hl HQ. pose proof Hl as [Hnd Hc]. apply chain_app in Hc as [Hc1 Hc2].
  destruct (chain_last _ _ _ _ Hc1) as (p & Ep & _ & Hp & _).
  destruct (chain_first _ _ _ _ Hc2) as (q & Eq & _ & Hq). apply head_in in Hq.
  apply NoDup_cons in Hnd as [Hh Hnd]. pose proof Hnd as Hnd'.
  apply NoDup_app in Hnd as (Hn1 & Hn12 & Hn2). apply NoDup_cons in Hn2 as [Hxl2 Hn2].
  apply (wp_list_remove x p q); [|done|done| | |set_solver|set_solver|].
  1-3: eapply is_list_defined; [done|set_solver].
  intros s' Hlink. apply HQ. split; [split|split; [|split]].
  - apply NoDup_cons. split; [set_solver|]. apply NoDup_app. set_solver.
  - apply (chain_remove s s' h l1 x l2 h p q); try done. by apply NoDup_cons.
  - apply unlinked_iff. destruct Hlink as [N P D _]. rewrite D, N, P, !decide_True by done.
    split; [|done]. eapply is_list_defined; [done|set_solver].
  - eapply unchanged_mono; [apply Hlink|]. set_solver.
  - apply Hlink.
Qed.

(** The other operations on one list. *)
Lemma wp_list_empty h xs (Q : bool -> nodes -> Prop) s :
  is_list s h xs -> Q (bool_decide (xs = [])) s -> wp (list_empty (Some h)) Q s.
Proof.
  intros Hl HQ. pose proof Hl as [Hnd Hc].
  apply wp_bind, wp_get_next; [eapply is_list_defined; [exact Hl|left]|]. apply wp_ret.
  destruct xs as [|x xs]; cbn [chain] in Hc.
  - destruct Hc as [-> _]. by rewrite bool_decide_true.
  - destruct Hc as [-> _]. rewrite bool_decide_false; [done|]. intros [= ->].
    apply NoDup_cons in Hnd as [Hnd _]. apply Hnd. left.
Qed.

Lemma wp_list_back h xs (Q : option L -> nodes -> Prop) s :
  is_list s h xs -> Q (last (h :: xs)) s -> wp (list_back (Some h)) Q s.
Proof.
  intros Hl HQ. pose proof Hl as [_ Hc]. apply wp_get_prev; [eapply is_list_defined; [exact Hl|left]|].
  destruct (chain_last _ _ _ _ Hc) as (b & Eb & _ & _ & Hb). by rewrite Eb, <- Hb.
Qed.

Lemma wp_list_front h xs (Q : option L -> nodes -> Prop) s :
  is_list s h xs -> Q (head (xs ++ [h])) s -> wp (list_front (Some h)) Q s.
Proof.
  intros Hl HQ. pose proof Hl as [_ Hc]. apply wp_get_next; [eapply is_list_defined; [exact Hl|left]|].
  destruct (chain_first _ _ _ _ Hc) as (b & Eb & _ & Hb). by rewrite Eb, <- Hb.
Qed.

Lemma wp_list_next h l1 x l2 (Q : option L -> nodes -> Prop) s :
  is_list s h (l1 ++ x :: l2) -> Q (head (l2 ++ [h])) s -> wp (list_next (Some x)) Q s.
Proof.
  intros Hl HQ. pose proof Hl as [_ Hc]. apply wp_get_next; [eapply is_list_defined; [exact Hl|set_solver]|].
  apply chain_app in Hc as [_ Hc]. destruct (chain_first _ _ _ _ Hc) as (b & Eb & _ & Hb). by rewrite Eb, <- Hb.
Qed.

Lemma wp_node_init n (Q : unit -> nodes -> Prop) s : unlinked s n -> Q tt s -> wp (list_node_init (Some n)) Q s.
Proof.
  intros E HQ. unfold wp, list_node_init, set_prev, set_next, ASSERT, bind, deref, assign. cbn.
  rewrite E, E. cbn. rewrite lookup_insert_eq. cbn. rewrite lookup_insert_eq, insert_insert_eq. cbn.
  by rewrite insert_id.
Qed.

Lemma wp_list_init h (Q : unit -> nodes -> Prop) s :
  is_Some (s !! h) -> (forall s', is_list s' h [] -> unchanged [h] s s' -> Q tt s') -> wp (list_init (Some h)) Q s.
Proof.
  intros Hh HQ. unfold list_init. apply wp_bind, wp_assert; [done|]. apply wp_bind, wp_set_next; [done|].
  intros s1 [N1 P1 D1 U1]. apply wp_set_prev; [by apply D1|]. intros s2 [N2 P2 D2 U2]. apply HQ.
  - split; [apply NoDup_singleton|]. split; [rewrite N2, N1|rewrite P2]; by rewrite decide_True.
  - eapply unchanged_trans; [exact U1|exact U2].
Qed.

(** ** The list as a sequence *)

(** The mutating operations with their arguments. *)
Inductive list_op : Type :=
  | PushFront (n : L)
  | PushBack (n : L)
  | InsertBefore (pos n : L)
  | InsertAfter (pos n : L)
  | Remove (n : L).

Definition run_op (h : L) (op : list_op) : M nodes unit :=
  match op with
  | PushFront n => list_push_front (Some h) (Some n)
  | PushBack n => list_push_back (Some h) (Some n)
  | InsertBefore pos n => list_insert_before (Some pos) (Some n)
  | InsertAfter pos n => list_insert_after (Some pos) (Some n)
  | Remove n => list_remove (Some n)
  end.

Definition op_node (op : list_op) : L :=
  match op with
  | PushFront n | PushBack n | InsertBefore _ n | InsertAfter _ n | Remove n => n
  end.

(** The positions of [InsertBefore] and [InsertAfter] are in the list. *)
Definition op_pos_ok (op : list_op) xs : Prop :=
  match op with
  | InsertBefore pos _ | InsertAfter pos _ => pos ∈ xs
  | _ => True
  end.

Fixpoint insert_before (pos n : L) xs : list L :=
  match xs with
  | [] => []
  | x :: xs' => if decide (x = pos) then n :: x :: xs' else x :: insert_before pos n xs'
  end.

Fixpoint insert_after (pos n : L) xs : list L :=
  match xs with
  | [] => []
  | x :: xs' => if decide (x = pos) then x :: n :: xs' else x :: insert_after pos n xs'
  end.

(** What an operation does to the sequence of elements; [None] when the
    caller breaks the rule that a node is in at most one list. *)
Definition abs_op (op : list_op) xs : option (list L) :=
  if decide (op_node op ∈ xs) then
    match op with Remove n => Some (filter (fun y => y <> n) xs) | _ => None end
  else
    match op with
    | PushFront n => Some (n :: xs)
    | PushBack n => Some (xs ++ [n])
    | InsertBefore pos n => Some (insert_before pos n xs)
    | InsertAfter pos n => Some (insert_after pos n xs)
    | Remove _ => None
    end.

Lemma insert_before_split pos n l1 l2 :
  pos ∉ l1 -> insert_before pos n (l1 ++ pos :: l2) = l1 ++ n :: pos :: l2.
Proof.
  induction l1 as [|x l1 IH]; intros Hp; cbn [insert_before app].
  - by rewrite decide_True.
  - rewrite decide_False by set_solver. rewrite IH by set_solver. done.
Qed.

Lemma insert_after_split pos n l1 l2 :
  pos ∉ l1 -> insert_after pos n (l1 ++ pos :: l2) = l1 ++ pos :: n :: l2.
Proof.
  induction l1 as [|x l1 IH]; intros Hp; cbn [insert_after app].
  - by rewrite decide_True.
  - rewrite decide_False by set_solver. rewrite IH by set_solver. done.
Qed.

Lemma filter_ne_id x xs : x ∉ xs -> filter (fun y => y <> x) xs = xs.
Proof.
  induction xs as [|y xs IH]; intros Hx; [done|].
  rewrite filter_cons_True by set_solver. rewrite IH by set_solver. done.
Qed.

Lemma filter_ne_split x l1 l2 :
  NoDup (l1 ++ x :: l2) -> filter (fun y => y <> x) (l1 ++ x :: l2) = l1 ++ l2.
Proof.
  intros (Hn1 & Hn12 & Hn2)%NoDup_app. apply NoDup_cons in Hn2 as [Hx Hn2].
  rewrite filter_app, filter_cons_False by (intros H1; by apply H1).
  rewrite !filter_ne_id by set_solver. done.
Qed.

Lemma chain_back_linked s a xs b y : chain s a xs b -> y ∈ xs ++ [b] -> prev_of s y <> None.
Proof.
  revert a. induction xs as [|x xs IH]; intros a; cbn [chain app].
  - intros [_ E] ->%list_elem_of_singleton. congruence.
  - intros (_ & E & Hc) [->|Hy]%elem_of_cons; [congruence|]. by apply (IH x).
Qed.

(** Inserting a node that is in a list, or removing one that is not, fails
    the corresponding assertion. *)
Lemma insert_linked_fails s n m :
  is_Some (s !! n) -> prev_of s n <> None ->
  list_insert_before (Some m) (Some n) s = Fault (AssertFailed "node->prev == NULL") /\
  list_insert_after (Some m) (Some n) s = Fault (AssertFailed "node->prev == NULL").
Proof.
  intros [[p q] E] Hp. unfold prev_of in Hp. rewrite E in Hp. cbn in Hp.
  unfold list_insert_before, list_insert_after, bind, get_prev, bind, deref. cbn.
  rewrite E. cbn. destruct p; [|done]. by split.
Qed.

Lemma remove_unlinked_fails s n :
  unlinked s n -> list_remove (Some n) s = Fault (AssertFailed "node->prev != NULL").
Proof.
  intros E. unfold unlinked in E. unfold list_remove, bind, get_prev, bind, deref. cbn.
  rewrite E. done.
Qed.

(** C30 The pointer operations of [list.c] implement operations on sequences.
    On a list with elements [xs] and a node that is in the list or in none,
    an operation that respects the one-list rule leaves a well-formed list
    whose elements are those of the abstract operation and changes no node
    outside this list; one that breaks the rule stops at the assertion that
    checks it and never corrupts the list. *)
Theorem list_ops_refine s h xs op :
  is_list s h xs -> op_pos_ok op xs -> op_node op ∈ xs \/ unlinked s (op_node op) ->
  match abs_op op xs with
  | Some xs' => wp (run_op h op) (fun _ s' =>
      is_list s' h xs' /\ unchanged (op_node op :: h :: xs) s s' /\
      (op_node op ∈ xs -> unlinked s' (op_node op))) s
  | None => exists e, run_op h op s = Fault (AssertFailed e)
  end.
Proof.
  intros Hl Hpos Hn. unfold abs_op. case_decide as Hin.
  - assert (is_Some (s !! op_node op)) as Hd by (eapply is_list_defined; [done|set_solver]).
    assert (prev_of s (op_node op) <> None) as Hlk.
    { destruct Hl as [_ Hc]. eapply chain_back_linked; [done|set_solver]. }
    destruct op as [n|n|pos n|pos n|n]; cbn [op_node run_op] in *.
    + eexists. by apply (proj2 (insert_linked_fails s n h Hd Hlk)).
    + eexists. by apply (proj1 (insert_linked_fails s n h Hd Hlk)).
    + eexists. by apply (insert_linked_fails s n pos Hd Hlk).
    + eexists. by apply (insert_linked_fails s n pos Hd Hlk).
    + apply list_elem_of_split in Hin as (l1 & l2 & ->).
      apply (wp_remove_list h l1 n l2); [done|]. intros s' (Hl' & Hx & Hu & _).
      destruct Hl as [[_ Hnd]%NoDup_cons _]. rewrite filter_ne_split by done.
      split; [done|]. split; [|done]. eapply unchanged_mono; [done|set_solver].
  - destruct Hn as [?|Hn]; [done|].
    destruct op as [n|n|pos n|pos n|n]; cbn [op_node run_op op_pos_ok] in *.
    + apply (wp_push_front h xs); [done..|]. intros s' (Hl' & Hu & _). done.
    + apply (wp_push_back h xs); [done..|]. intros s' (Hl' & Hu & _).
      rewrite app_nil_r in Hu. done.
    + destruct Hl as [Hnd Hc]. pose proof Hpos as (l1 & l2 & -> & Hp1)%list_elem_of_split_l.
      rewrite insert_before_split by done.
      apply (wp_insert_before_list h l1 (pos :: l2)); [by split|done..|].
      intros s' (Hl' & Hu & _). done.
    + destruct Hl as [Hnd Hc]. pose proof Hpos as (l1 & l2 & -> & Hp1)%list_elem_of_split_l.
      rewrite insert_after_split by done.
      apply (wp_insert_after_list h (l1 ++ [pos]) l2); [| |done|].
      * by rewrite <- app_assoc.
      * rewrite last_cons, last_snoc. done.
      * intros s' (Hl' & Hu & _). rewrite <- !app_assoc in *. done.
    + eexists. by apply remove_unlinked_fails.
Qed.

(** The accessors read the sequence: front and back are its first and last
    element (or the head node when it is empty), [list_empty] tests for the
    empty sequence, and [list_next]/[list_prev] step through it, reaching the
    head node at either end. None of them changes the list. *)
Theorem list_accessors s h xs :
  is_list s h xs ->
  list_front (Some h) s = Ok (head (xs ++ [h])) s /\
  list_back (Some h) s = Ok (last (h :: xs)) s /\
  list_empty (Some h) s = Ok (bool_decide (xs = [])) s /\
  forall l1 x l2, xs = l1 ++ x :: l2 ->
    list_next (Some x) s = Ok (head (l2 ++ [h])) s /\
    list_prev (Some x) s = Ok (last (h :: l1)) s.
Proof.
  intros Hl. pose proof Hl as [Hnd Hc]. apply NoDup_cons in Hnd as [Hh Hnd].
  assert (Hget : forall y, is_Some (s !! y) ->
    get_next (Some y) s = Ok (next_of s y) s /\ get_prev (Some y) s = Ok (prev_of s y) s).
  { intros y [n E]. unfold get_next, get_prev, bind, deref, next_of, prev_of. by rewrite E. }
  destruct (chain_first _ _ _ _ Hc) as (f & Ef & _ & Hf).
  destruct (chain_last _ _ _ _ Hc) as (b & Eb & _ & _ & Hb).
  destruct (Hget h ltac:(eapply is_list_defined; [done|set_solver])) as [Hnx Hpv].
  unfold list_front, list_back, list_empty, list_next, list_prev. cbn [is_null].
  split; [by rewrite Hnx, Ef, Hf|]. split; [by rewrite Hpv, Eb, Hb|]. split.
  - unfold bind. rewrite Hnx, Ef. unfold ret. f_equal. apply bool_decide_ext.
    destruct xs as [|x xs]; cbn in Hf; injection Hf as <-; [done|].
    split; [intros [= ->]; set_solver|done].
  - intros l1 x l2 ->. apply chain_app in Hc as [Hc1 Hc2].
    destruct (Hget x ltac:(eapply is_list_defined; [done|set_solver])) as [-> ->].
    destruct (chain_first _ _ _ _ Hc2) as (y & -> & _ & ->).
    destruct (chain_last _ _ _ _ Hc1) as (z & -> & _ & _ & ->). done.
Qed.

End DList.

Arguments list_node L : clear implicits.

(** ** Concrete lists over numbered nodes: head 0, elements 1 and 2, node 3 free *)
Definition demo_nodes : gmap Z (list_node Z) :=
  list_to_map [ (0, Node (Some 2) (Some 1)); (1, Node (Some 0) (Some 2));
                (2, Node (Some 1) (Some 0)); (3, Node None None) ].

Lemma demo_is_list : is_list demo_nodes 0 [1; 2].
Proof.
  split; [|vm_compute; done].
  repeat (apply NoDup_cons; split; [set_solver|]). apply NoDup_nil. done.
Qed.

Lemma list_ops_refine_witness :
  abs_op (InsertAfter 1 3) [1; 2] = Some [1; 3; 2] /\
  wp (run_op 0 (InsertAfter 1 3)) (fun _ s' => is_list s' 0 [1; 3; 2]) demo_nodes /\
  exists e, run_op 0 (PushBack 2) demo_nodes = Fault (AssertFailed e).
Proof.
  split; [vm_compute; reflexivity|]. split.
  - assert (H : op_pos_ok (InsertAfter 1 3) [1; 2]) by (cbn; set_solver).
    eapply wp_mono; [refine (list_ops_refine demo_nodes 0 [1; 2] (InsertAfter 1 3)
      demo_is_list H (or_intror _)); vm_compute; reflexivity|].
    intros a s' [Hl _]. exact Hl.
  - refine (list_ops_refine demo_nodes 0 [1; 2] (PushBack 2) demo_is_list I (or_introl _)).
    cbn. set_solver.
Defined.

Lemma list_accessors_witness :
  is_list demo_nodes 0 [1; 2] /\
  list_front (Some 0) demo_nodes = Ok (Some 1) demo_nodes.
Proof.
  split; [exact demo_is_list|]. exact (proj1 (list_accessors demo_nodes 0 [1; 2] demo_is_list)).
Defined.
