(* ===== verification/CString.v ===== *)
(** * String and memory routines

    [kernel/lib/string.c] over byte memory. The memory is an interface: a
    type with partial byte loads and stores and the two laws that relate
    them. The routines and their theorems are for any memory that satisfies
    the interface; [Paging] instantiates it with the kernel's direct mapping
    of physical memory. *)

From S2P Require Import Prelude.

(** ** Byte-addressed memory *)

Class ByteMem (Mem : Type) : Type := {
  load8 : Z -> Mem -> option Z;
  store8 : Z -> Z -> Mem -> option Mem;
}.

Class ByteMemLaws (Mem : Type) `{ByteMem Mem} : Prop := {
  store_defined a v m : is_Some (load8 a m) -> is_Some (store8 a v m);
  load_store_eq a v m m' : store8 a v m = Some m' -> load8 a m' = Some v;
  load_store_ne a b v m m' : store8 a v m = Some m' -> a <> b -> load8 b m' = load8 b m;
}.

(** Buffers as finite maps: an address outside the map faults. *)
#[export] Instance gmap_mem : ByteMem (gmap Z Z) := {|
  load8 a m := m !! a;
  store8 a v m := match m !! a with Some _ => Some (<[a := v]> m) | None => None end;
|}.

#[export] Instance gmap_mem_laws : ByteMemLaws (gmap Z Z).
Proof.
  split; cbn.
  - intros a v m [x ->]. eauto.
  - intros a v m m'. destruct (m !! a); [|done]. intros [= <-]. apply lookup_insert_eq.
  - intros a b v m m'. destruct (m !! a); [|done]. intros [= <-] Hne.
    by apply lookup_insert_ne.
Qed.

Section Routines.
Context {Mem : Type} `{ByteMem Mem}.

Definition ld (a : Z) : M Mem Z := fun m =>
  match load8 a m with Some v => Ok v m | None => Fault (BadAccess a) end.

Definition st (a v : Z) : M Mem unit := fun m =>
  match store8 a v m with Some m' => Ok tt m' | None => Fault (BadAccess a) end.

(** [while ( *str++) len++;] *)
Definition strlen (fuel : nat) (str : Z) : M Mem Z :=
  loop fuel (fun '(p, len) =>
    let* c := ld p in
    if c =? 0 then ret (inr len) else ret (inl (u32 (p + 1), u32 (len + 1)))) (str, 0).

(** [while (n--) *ptr++ = (uint8_t)value;] *)
Definition memset (dest value n : Z) : M Mem Z :=
  for_each 0 (Z.to_nat n) (fun i => st (u32 (dest + i)) (u8 value)) ;;;
  ret dest.

(** [while (n--) *d++ = *s++;] *)
Definition memcpy (dest src n : Z) : M Mem Z :=
  for_each 0 (Z.to_nat n) (fun i =>
    let* v := ld (u32 (src + i)) in
    st (u32 (dest + i)) v) ;;;
  ret dest.

(** [while (n--) { if ( *p1 != *p2) return *p1 - *p2; p1++; p2++; } return 0;] *)
Definition memcmp (a b n : Z) : M Mem Z :=
  let* r := for_range 0 (Z.to_nat n) (fun i =>
    let* x := ld (u32 (a + i)) in
    let* y := ld (u32 (b + i)) in
    ret (if x =? y then None else Some (x - y))) in
  ret (default 0 r).

(** [while (( *dest++ = *src++) != '\0');] *)
Definition strcpy (fuel : nat) (dest src : Z) : M Mem Z :=
  loop fuel (fun '(d, s) =>
    let* c := ld s in
    st d c ;;;
    if c =? 0 then ret (inr dest) else ret (inl (u32 (d + 1), u32 (s + 1)))) (dest, src).

(** First loop of [strncpy]: copies until [n] bytes are written or the source
    ends; answers where it stopped and how many bytes are left. *)
Definition strncpy_copy (dest src n : Z) : M Mem (Z * Z) :=
  let* r := for_range 0 (Z.to_nat n) (fun i =>
    let* c := ld (u32 (src + i)) in
    if c =? 0 then ret (Some i)
    else st (u32 (dest + i)) c ;;; ret None) in
  let k := default n r in
  ret (u32 (dest + k), n - k).

Definition strncpy (dest src n : Z) : M Mem Z :=
  let* r := strncpy_copy dest src n in
  for_each 0 (Z.to_nat r.2) (fun i => st (u32 (r.1 + i)) 0) ;;;
  ret dest.

(** [while ( *a && ( *a == *b)) { a++; b++; }
    return (unsigned char)*a - (unsigned char)*b;] *)
Definition strcmp (fuel : nat) (a b : Z) : M Mem Z :=
  loop fuel (fun '(p, q) =>
    let* x := ld p in
    if x =? 0 then let* y := ld q in ret (inr (u8 x - u8 y))
    else
      let* y := ld q in
      if x =? y then ret (inl (u32 (p + 1), u32 (q + 1)))
      else ret (inr (u8 x - u8 y))) (a, b).

(** ** What memory holds *)

(** The bytes [l] at address [p], inside the address space. *)
Definition holds (m : Mem) (p : Z) (l : list Z) : Prop :=
  0 <= p /\ p + Z.of_nat (length l) <= 2 ^ 32 /\
  forall i v, l !! i = Some v -> load8 (p + Z.of_nat i) m = Some v.

(** A NUL-terminated string. *)
Definition cstring (m : Mem) (p : Z) (l : list Z) : Prop :=
  Forall (fun c => c <> 0) l /\ holds m p (l ++ [0]).

(** Memory outside [n] bytes from [p] is as before. *)
Definition same_outside (p n : Z) (m m' : Mem) : Prop :=
  forall a, ~ (p <= a < p + n) -> load8 a m' = load8 a m.

Context `{!ByteMemLaws Mem}.
Implicit Types (m : Mem) (p q n : Z) (l : list Z).

Lemma wp_ld a v m (Q : Z -> Mem -> Prop) : load8 a m = Some v -> Q v m -> wp (ld a) Q m.
Proof. intros E HQ. unfold wp, ld. by rewrite E. Qed.

Lemma wp_st a v m (Q : unit -> Mem -> Prop) :
  is_Some (load8 a m) ->
  (forall m', load8 a m' = Some v -> (forall b, b <> a -> load8 b m' = load8 b m) -> Q tt m') ->
  wp (st a v) Q m.
Proof.
  intros Hd HQ. destruct (store_defined a v m Hd) as [m' E]. unfold wp, st. rewrite E.
  apply HQ; [by eapply load_store_eq|]. intros b Hb. by eapply load_store_ne.
Qed.

Lemma holds_app m p l1 l2 :
  holds m p (l1 ++ l2) <-> holds m p l1 /\ holds m (p + Z.of_nat (length l1)) l2.
Proof.
  unfold holds. rewrite length_app. split.
  - intros (Hp & Hle & Hl). split; (split; [lia|]); (split; [lia|]).
    + intros i v E. apply Hl. by apply lookup_app_l_Some.
    + intros i v E. replace (p + _ + _) with (p + Z.of_nat (length l1 + i)) by lia.
      apply Hl. rewrite lookup_app_r by lia. by replace (length l1 + i - length l1)%nat with i by lia.
  - intros [(Hp & Hle & Hl1) (Hp' & Hle' & Hl2)]. split; [lia|]. split; [lia|].
    intros i v [E|[Hi E]]%lookup_app_Some; [by apply Hl1|].
    replace (p + Z.of_nat i)
      with (p + Z.of_nat (length l1) + Z.of_nat (i - length l1)) by lia.
    by apply Hl2.
Qed.

Lemma holds_lookup m p l i v :
  holds m p l -> l !! i = Some v ->
  load8 (p + Z.of_nat i) m = Some v /\ 0 <= p + Z.of_nat i < 2 ^ 32.
Proof.
  intros (Hp & Hle & Hl) E. split; [by apply Hl|].
  apply lookup_lt_Some in E. lia.
Qed.

Lemma same_outside_holds m m' p n q l :
  same_outside p n m m' -> holds m q l ->
  q + Z.of_nat (length l) <= p \/ p + n <= q -> holds m' q l.
Proof.
  intros Hs (Hq & Hle & Hl) Hdisj. split; [done|]. split; [done|].
  intros i v E. rewrite Hs; [by apply Hl|]. apply lookup_lt_Some in E. lia.
Qed.

(** ** Loops over buffers *)

Lemma holds_snoc m p l v :
  holds m p (l ++ [v]) <-> holds m p l /\ p + Z.of_nat (length l) < 2 ^ 32 /\
    load8 (p + Z.of_nat (length l)) m = Some v.
Proof.
  rewrite holds_app. unfold holds. cbn [length]. split.
  - intros [Hl (_ & ? & H1)]. split; [done|]. split; [lia|].
    specialize (H1 0%nat v eq_refl). by rewrite Nat2Z.inj_0, Z.add_0_r in H1.
  - intros [Hl (? & E)]. split; [done|]. destruct Hl as (? & _).
    split; [lia|].
    split; [lia|]. intros [|i] w Hw; [|done]. injection Hw as <-.
    by rewrite Nat2Z.inj_0, Z.add_0_r.
Qed.

Lemma take_snoc l i v : l !! i = Some v -> take (S i) l = take i l ++ [v].
Proof. intros E. by erewrite take_S_r. Qed.

(** A loop that stores [l] byte by byte at [dest], whatever it reads. *)
Lemma wp_store_loop dest l (body : Z -> M Mem unit) (Q : unit -> Mem -> Prop) m :
  0 <= dest -> dest + Z.of_nat (length l) <= 2 ^ 32 ->
  (forall i, 0 <= i < Z.of_nat (length l) -> is_Some (load8 (dest + i) m)) ->
  (forall i v m' (R : unit -> Mem -> Prop), l !! i = Some v ->
     same_outside dest (Z.of_nat i) m m' -> holds m' dest (take i l) ->
     wp (st (u32 (dest + Z.of_nat i)) v) R m' -> wp (body (Z.of_nat i)) R m') ->
  (forall m', holds m' dest l -> same_outside dest (Z.of_nat (length l)) m m' -> Q tt m') ->
  wp (for_each 0 (length l) body) Q m.
Proof.
  intros Hd Hle Hdef Hbody HQ.
  apply (wp_for_each (fun i m' => 0 <= i /\ holds m' dest (take (Z.to_nat i) l) /\
    same_outside dest i m m')).
  - split; [done|]. split; [|by intros a _]. rewrite Z2Nat.inj_0, take_0.
    split; [done|]. split; [cbn; lia|done].
  - intros i m' Hi (_ & Hh & Hs).
    destruct (lookup_lt_is_Some_2 l (Z.to_nat i) ltac:(lia)) as [v Ev].
    rewrite <- (Z2Nat.id i) by lia. apply (Hbody _ v); [done|by rewrite Z2Nat.id by lia|done|].
    rewrite Z2Nat.id by lia. rewrite u32_id by (unfold_ranges; lia).
    apply wp_st.
    { rewrite Hs by lia. apply Hdef. lia. }
    intros m'' E Hne. split; [lia|]. replace (Z.to_nat (i + 1)) with (S (Z.to_nat i)) by lia.
    rewrite (take_snoc l _ v Ev). split.
    + apply holds_snoc. rewrite length_take_le by lia. rewrite Z2Nat.id by lia.
      split; [|split; [lia|done]]. destruct Hh as (? & ? & Hh). split; [done|]. split; [done|].
      intros j w Ej. rewrite Hne; [by apply Hh|]. apply lookup_lt_Some in Ej.
      rewrite length_take_le in Ej by lia. lia.
    + intros a Ha. rewrite Hne by lia. apply Hs. lia.
  - intros m' (_ & Hh & Hs). rewrite Z.add_0_l in *. rewrite Nat2Z.id, firstn_all in Hh.
    by apply HQ.
Qed.

(** ** [memset], [memcpy], [memcmp] *)

(** [memset] writes [n] copies of the low byte of [value] and touches
    nothing else. *)
Lemma wp_memset m dest value n :
  0 <= dest -> 0 <= n -> dest + n <= 2 ^ 32 ->
  (forall i, 0 <= i < n -> is_Some (load8 (dest + i) m)) ->
  wp (memset dest value n) (fun r m' =>
    r = dest /\ holds m' dest (replicate (Z.to_nat n) (u8 value)) /\
    same_outside dest n m m') m.
Proof.
  intros Hd Hn Hle Hdef. unfold memset. apply wp_bind.
  replace (Z.to_nat n) with (length (replicate (Z.to_nat n) (u8 value))) at 1
    by apply length_replicate.
  apply (wp_store_loop dest); rewrite ?length_replicate, ?Z2Nat.id by lia; [done..| |].
  - intros i v m' R [-> _]%lookup_replicate _ _ H1. done.
  - intros m' Hh Hs. by apply wp_ret.
Qed.

(** [memcpy] copies [n] bytes, provided the regions are disjoint or the
    destination starts at or before the source: the copy runs forward. *)
Lemma wp_memcpy m dest src l :
  holds m src l -> 0 <= dest -> dest + Z.of_nat (length l) <= 2 ^ 32 ->
  (forall i, 0 <= i < Z.of_nat (length l) -> is_Some (load8 (dest + i) m)) ->
  dest <= src \/ src + Z.of_nat (length l) <= dest ->
  wp (memcpy dest src (Z.of_nat (length l))) (fun r m' =>
    r = dest /\ holds m' dest l /\ same_outside dest (Z.of_nat (length l)) m m') m.
Proof.
  intros Hsrc Hd Hle Hdef Hov. unfold memcpy. apply wp_bind. rewrite Nat2Z.id.
  apply (wp_store_loop dest); [done..| |].
  - intros i v m' R E Hs _ HR. destruct (holds_lookup _ _ _ _ _ Hsrc E) as [Ev Hr].
    apply lookup_lt_Some in E. rewrite (u32_id (src + _)) by done.
    apply wp_bind, (wp_ld _ v); [|done]. rewrite Hs; [done|lia].
  - intros m' Hh Hs. by apply wp_ret.
Qed.

(** The first position where two lists differ decides their comparison. *)
Fixpoint first_diff (l1 l2 : list Z) : Z :=
  match l1, l2 with
  | x :: l1', y :: l2' => if x =? y then first_diff l1' l2' else x - y
  | _, _ => 0
  end.

Lemma first_diff_zero l1 l2 :
  length l1 = length l2 -> first_diff l1 l2 = 0 <-> l1 = l2.
Proof.
  revert l2. induction l1 as [|x l1 IH]; intros [|y l2] E; try done.
  injection E as E. cbn. destruct (Z.eqb_spec x y) as [->|Hne].
  - rewrite IH by done. split; [by intros ->|by intros [=]].
  - split; [lia|]. by intros [= ].
Qed.

Lemma first_diff_drop l1 l2 k :
  take k l1 = take k l2 -> first_diff (drop k l1) (drop k l2) = first_diff l1 l2.
Proof.
  revert l1 l2. induction k as [|k IH]; intros [|x l1] [|y l2] E; try done.
  cbn in E. injection E as -> E. cbn. rewrite Z.eqb_refl. by apply IH.
Qed.

(** [memcmp] returns the difference of the first two differing bytes, and
    0 exactly when the buffers are equal. *)
Lemma wp_memcmp m a b l1 l2 :
  holds m a l1 -> holds m b l2 -> length l1 = length l2 ->
  wp (memcmp a b (Z.of_nat (length l1))) (fun r m' =>
    m' = m /\ r = first_diff l1 l2 /\ (r = 0 <-> l1 = l2)) m.
Proof.
  intros Ha Hb Hlen. unfold memcmp. apply wp_bind. rewrite Nat2Z.id.
  apply (wp_for_range (fun i m' => m' = m /\ 0 <= i /\
    take (Z.to_nat i) l1 = take (Z.to_nat i) l2)).
  - done.
  - intros i m' Hi (-> & _ & Heq).
    destruct (lookup_lt_is_Some_2 l1 (Z.to_nat i) ltac:(lia)) as [x Ex].
    destruct (lookup_lt_is_Some_2 l2 (Z.to_nat i) ltac:(lia)) as [y Ey].
    destruct (holds_lookup _ _ _ _ _ Ha Ex) as [Lx Hx].
    destruct (holds_lookup _ _ _ _ _ Hb Ey) as [Ly Hy].
    rewrite Z2Nat.id in * by lia. rewrite !u32_id by done.
    apply wp_bind, (wp_ld _ x); [done|]. apply wp_bind, (wp_ld _ y); [done|]. apply wp_ret.
    assert (first_diff l1 l2 = first_diff (drop (Z.to_nat i) l1) (drop (Z.to_nat i) l2))
      as Efd by (symmetry; by apply first_diff_drop).
    rewrite (drop_S _ _ _ Ex), (drop_S _ _ _ Ey) in Efd. cbn in Efd.
    destruct (Z.eqb_spec x y) as [->|Hne].
    + split; [done|]. split; [lia|]. replace (Z.to_nat (i + 1)) with (S (Z.to_nat i)) by lia.
      by rewrite (take_snoc _ _ _ Ex), (take_snoc _ _ _ Ey), Heq.
    + apply wp_ret. split; [done|]. cbn. split; [done|].
      rewrite <- Efd. by apply first_diff_zero.
  - intros m' (-> & _ & Heq). rewrite Z.add_0_l, Nat2Z.id in Heq.
    rewrite firstn_all, Hlen, firstn_all in Heq. subst. apply wp_ret. cbn.
    split; [done|]. split; [symmetry; by apply first_diff_zero|done].
Qed.

(** ** NUL-terminated strings *)

Lemma cstring_char m p l i c :
  cstring m p l -> l !! i = Some c ->
  load8 (p + Z.of_nat i) m = Some c /\ c <> 0 /\ 0 <= p + Z.of_nat i < 2 ^ 32 - 1.
Proof.
  intros (Hnz & Hp & Hle & Hl) E. split; [apply Hl; by apply lookup_app_l_Some|].
  split; [by eapply Forall_lookup_1 in Hnz|]. rewrite length_app in Hle.
  apply lookup_lt_Some in E. cbn in Hle. lia.
Qed.

Lemma cstring_nul m p l : cstring m p l -> load8 (p + Z.of_nat (length l)) m = Some 0.
Proof.
  intros (_ & _ & _ & Hl). apply Hl. rewrite lookup_app_r by lia.
  by rewrite Nat.sub_diag.
Qed.

Lemma cstring_bounds m p l :
  cstring m p l -> 0 <= p /\ p + Z.of_nat (length l) < 2 ^ 32.
Proof. intros (_ & Hp & Hle & _). rewrite length_app in Hle. cbn in Hle. lia. Qed.

(** A string is either at its end or at a non-zero character. *)
Lemma cstring_at m p l i :
  cstring m p l -> (i <= length l)%nat ->
  (i = length l /\ load8 (p + Z.of_nat i) m = Some 0) \/
  (exists c, l !! i = Some c /\ c <> 0 /\ load8 (p + Z.of_nat i) m = Some c /\
    (i < length l)%nat).
Proof.
  intros Hs Hi. destruct (decide (i = length l)) as [->|Hne].
  - left. split; [done|]. by apply cstring_nul.
  - right. destruct (lookup_lt_is_Some_2 l i ltac:(lia)) as [c Ec].
    destruct (cstring_char _ _ _ _ _ Hs Ec) as (H1 & H2 & _). exists c. repeat split; [done..|lia].
Qed.

(** [strlen] finds the terminator: with enough iterations it returns the
    length of the string and leaves memory alone. *)
Lemma wp_strlen m p l fuel :
  cstring m p l -> (length l < fuel)%nat ->
  wp (strlen fuel p) (fun r m' => m' = m /\ r = Z.of_nat (length l)) m.
Proof.
  intros Hs Hf. unfold strlen. pose proof (cstring_bounds _ _ _ Hs) as Hb.
  apply (wp_loop (fun '(q, len) m' => m' = m /\ exists i : nat, (i <= length l)%nat /\
    q = p + Z.of_nat i /\ len = Z.of_nat i) (fun '(_, len) _ => length l - Z.to_nat len)%nat).
  - intros [q len] m' (-> & i & Hi & -> & ->).
    destruct (cstring_at _ _ _ _ Hs Hi) as [[-> E]|(c & _ & Hc & E & Hlt)].
    + apply wp_bind, (wp_ld _ 0); [done|]. by apply wp_ret.
    + apply wp_bind, (wp_ld _ c); [done|]. rewrite (proj2 (Z.eqb_neq c 0)) by done.
      apply wp_ret. wrap_id. split; [|lia]. split; [done|]. exists (S i). lia.
  - split; [done|]. exists 0%nat. lia.
  - lia.
Qed.

(** [strcpy] copies the characters and the terminator, provided the
    destination does not start inside the source. *)
Lemma wp_strcpy m dest src l fuel :
  cstring m src l -> (length l < fuel)%nat ->
  0 <= dest -> dest + Z.of_nat (length l) < 2 ^ 32 ->
  (forall i, 0 <= i <= Z.of_nat (length l) -> is_Some (load8 (dest + i) m)) ->
  dest <= src \/ src + Z.of_nat (length l) < dest ->
  wp (strcpy fuel dest src) (fun r m' =>
    r = dest /\ cstring m' dest l /\ same_outside dest (Z.of_nat (length l) + 1) m m') m.
Proof.
  intros Hs Hf Hd Hle Hdef Hov. unfold strcpy. pose proof (cstring_bounds _ _ _ Hs) as Hb.
  apply (wp_loop (fun '(d, s) m' => exists i : nat, (i <= length l)%nat /\
      d = dest + Z.of_nat i /\ s = src + Z.of_nat i /\
      holds m' dest (take i l) /\ same_outside dest (Z.of_nat i) m m')
    (fun '(d, _) _ => length l - Z.to_nat (d - dest))%nat).
  - intros [d s] m' (i & Hi & -> & -> & Hh & Hsame).
    assert (forall c R, load8 (src + Z.of_nat i) m = Some c ->
      (forall m'', load8 (dest + Z.of_nat i) m'' = Some c ->
        holds m'' dest (take i l ++ [c]) -> same_outside dest (Z.of_nat i + 1) m m'' -> R tt m'') ->
      load8 (src + Z.of_nat i) m' = Some c /\ wp (st (dest + Z.of_nat i) c) R m') as Hstep.
    { intros c R E HR. split; [rewrite Hsame; [done|lia]|]. apply wp_st.
      - rewrite Hsame by lia. apply Hdef. lia.
      - intros m'' E' Hne. apply HR; [done| |].
        + apply holds_snoc. rewrite length_take_le by lia. split; [|split; [lia|done]].
          destruct Hh as (? & ? & Hh). split; [done|]. split; [done|].
          intros j w Ej. rewrite Hne; [by apply Hh|]. apply lookup_lt_Some in Ej.
          rewrite length_take_le in Ej by lia. lia.
        + intros a Ha. rewrite Hne by lia. apply Hsame. lia. }
    destruct (cstring_at _ _ _ _ Hs Hi) as [[-> E]|(c & Ec & Hc & E & Hlt)].
    + edestruct (Hstep 0) as [E' W]; [done| |apply wp_bind, (wp_ld _ 0); [done|]; apply wp_bind, W].
      cbn beta. intros m'' _ Hh'' Hs''. apply wp_ret. rewrite firstn_all in Hh''.
      split; [done|]. split; [|done]. split; [apply Hs|done].
    + edestruct (Hstep c) as [E' W]; [done| |apply wp_bind, (wp_ld _ c); [done|]; apply wp_bind, W].
      cbn beta. intros m'' _ Hh'' Hs''. rewrite (proj2 (Z.eqb_neq c 0)) by done.
      apply wp_ret. wrap_id. split; [|lia]. exists (S i). rewrite (take_snoc _ _ _ Ec).
      repeat split; try apply Hh''; try lia. intros a Ha. apply Hs''. lia.
  - exists 0%nat. rewrite take_0. repeat split; try (cbn; lia); done.
  - lia.
Qed.

(** [strncpy] stops at the terminator or after [n] bytes. *)
Lemma wp_strncpy_copy m dest src l n k :
  cstring m src l -> 0 <= n -> 0 <= dest -> dest + n < 2 ^ 32 ->
  k = Nat.min (Z.to_nat n) (length l) ->
  (forall i, 0 <= i < n -> is_Some (load8 (dest + i) m)) ->
  dest <= src \/ src + Z.of_nat (length l) < dest ->
  wp (strncpy_copy dest src n) (fun r m' =>
    r = (dest + Z.of_nat k, n - Z.of_nat k) /\ holds m' dest (take k l) /\
    same_outside dest (Z.of_nat k) m m') m.
Proof.
  intros Hs Hn Hd Hle -> Hdef Hov. unfold strncpy_copy. pose proof (cstring_bounds _ _ _ Hs) as Hb.
  apply wp_bind.
  apply (wp_for_range (fun i m' => 0 <= i /\ i <= Z.of_nat (length l) /\
    holds m' dest (take (Z.to_nat i) l) /\ same_outside dest i m m')).
  - rewrite Z2Nat.inj_0, take_0. repeat split; try (cbn; lia); done.
  - intros i m' Hi (Hi0 & Hil & Hh & Hsame).
    destruct (cstring_at _ _ _ (Z.to_nat i) Hs ltac:(lia)) as [[El E]|(c & Ec & Hc & E & Hlt)];
      rewrite Z2Nat.id in E by lia.
    + apply wp_bind, (wp_ld _ 0); [wrap_id; by rewrite Hsame by lia|].
      apply wp_ret, wp_ret. cbn. wrap_id.
      replace (Nat.min _ _) with (Z.to_nat i) by lia. rewrite Z2Nat.id by lia. done.
    + apply wp_bind, (wp_ld _ c); [wrap_id; by rewrite Hsame by lia|].
      rewrite (proj2 (Z.eqb_neq c 0)) by done. apply wp_bind. wrap_id. apply wp_st.
      { rewrite Hsame by lia. apply Hdef. lia. }
      intros m'' E' Hne. apply wp_ret. replace (Z.to_nat (i + 1)) with (S (Z.to_nat i)) by lia.
      rewrite (take_snoc _ _ _ Ec). split; [lia|]. split; [lia|]. split.
      * apply holds_snoc. rewrite length_take_le, Z2Nat.id by lia. split; [|split; [lia|done]].
        destruct Hh as (? & ? & Hh). split; [done|]. split; [done|].
        intros j w Ej. rewrite Hne; [by apply Hh|]. apply lookup_lt_Some in Ej.
        rewrite length_take_le in Ej by lia. lia.
      * intros a Ha. rewrite Hne by lia. apply Hsame. lia.
  - intros m' (_ & Hil & Hh & Hsame). apply wp_ret. cbn.
    rewrite Z.add_0_l, !Z2Nat.id in * by lia. wrap_id.
    replace (Nat.min _ _) with (Z.to_nat n) by lia. by rewrite Z2Nat.id by lia.
Qed.

(** [strncpy] fills exactly [n] bytes: the first [n] characters of the
    string, then zeros; a string of [n] or more characters is not
    terminated. *)
Lemma wp_strncpy m dest src l n :
  cstring m src l -> 0 <= n -> 0 <= dest -> dest + n < 2 ^ 32 ->
  (forall i, 0 <= i < n -> is_Some (load8 (dest + i) m)) ->
  dest <= src \/ src + Z.of_nat (length l) < dest ->
  wp (strncpy dest src n) (fun r m' =>
    r = dest /\
    holds m' dest (take (Z.to_nat n) l ++ replicate (Z.to_nat n - length l) 0) /\
    same_outside dest n m m') m.
Proof.
  intros Hs Hn Hd Hle Hdef Hov. unfold strncpy. apply wp_bind.
  eapply wp_mono; [by apply wp_strncpy_copy|]. cbn beta. intros r m' (-> & Hh & Hsame). cbn [fst snd].
  set (k := Nat.min (Z.to_nat n) (length l)) in *.
  assert (take k l = take (Z.to_nat n) l) as Etake.
  { unfold k. destruct (decide (Z.to_nat n <= length l)%nat); [by rewrite Nat.min_l by lia|].
    rewrite Nat.min_r, firstn_all, take_ge by lia. done. }
  apply wp_bind. replace (Z.to_nat (n - Z.of_nat k)) with (length (replicate (Z.to_nat n - length l) 0))
    by (rewrite length_replicate; lia).
  apply (wp_store_loop (dest + Z.of_nat k)); rewrite ?length_replicate; [lia|lia|..].
  - intros i Hi. rewrite Hsame by lia. replace (dest + Z.of_nat k + i) with (dest + (Z.of_nat k + i)) by lia.
    apply Hdef. lia.
  - intros i v m'' R [-> _]%lookup_replicate _ _ HR. done.
  - intros m'' Hh' Hsame'. apply wp_ret. split; [done|]. split.
    + rewrite <- Etake. apply holds_app. rewrite length_take_le by lia. split; [|done].
      eapply same_outside_holds; [done..|]. rewrite length_take_le by lia. lia.
    + intros a Ha. rewrite Hsame' by lia. apply Hsame. lia.
Qed.

Lemma first_diff_cstring l1 l2 :
  Forall (fun c => c <> 0) l1 -> Forall (fun c => c <> 0) l2 ->
  first_diff (l1 ++ [0]) (l2 ++ [0]) = 0 <-> l1 = l2.
Proof.
  intros H1. revert l2. induction H1 as [|x l1 Hx _ IH]; intros l2 H2.
  - destruct H2 as [|y l2 Hy _]; cbn; [done|]. destruct y; done.
  - destruct H2 as [|y l2 Hy H2]; cbn [first_diff app].
    + rewrite (proj2 (Z.eqb_neq x 0)) by done. split; [lia|done].
    + destruct (Z.eqb_spec x y) as [->|Hne].
      * rewrite IH by done. split; [by intros ->|by intros [=]].
      * split; [lia|]. by intros [= ].
Qed.

(** [strcmp] on byte strings returns the difference of the first two
    differing characters (a terminator counts as 0), and 0 exactly when the
    strings are equal. *)
Lemma wp_strcmp m a b l1 l2 fuel :
  cstring m a l1 -> cstring m b l2 -> Forall is_u8 l1 -> Forall is_u8 l2 ->
  (length l1 < fuel)%nat ->
  wp (strcmp fuel a b) (fun r m' =>
    m' = m /\ r = first_diff (l1 ++ [0]) (l2 ++ [0]) /\ (r = 0 <-> l1 = l2)) m.
Proof.
  intros Ha Hb H81 H82 Hf. unfold strcmp.
  pose proof (cstring_bounds _ _ _ Ha). pose proof (cstring_bounds _ _ _ Hb).
  assert (first_diff (l1 ++ [0]) (l2 ++ [0]) = 0 <-> l1 = l2) as Hzero
    by (apply first_diff_cstring; [apply Ha|apply Hb]).
  apply (wp_loop (fun '(p, q) m' => m' = m /\ exists i : nat,
      (i <= length l1)%nat /\ (i <= length l2)%nat /\
      p = a + Z.of_nat i /\ q = b + Z.of_nat i /\
      first_diff (l1 ++ [0]) (l2 ++ [0]) = first_diff (drop i l1 ++ [0]) (drop i l2 ++ [0]))
    (fun '(p, _) _ => length l1 - Z.to_nat (p - a))%nat).
  - intros [p q] m' (-> & i & Hi1 & Hi2 & -> & -> & Hfd).
    destruct (cstring_at _ _ _ _ Ha Hi1) as [[-> Ex]|(x & Ec & Hx & Ex & Hlt)];
    destruct (cstring_at _ _ _ _ Hb Hi2) as [[Eq Ey]|(y & Ed & Hy & Ey & Hlt')];
    apply wp_bind; (eapply wp_ld; [done|]); try rewrite (proj2 (Z.eqb_neq x 0)) by done;
    apply wp_bind; (eapply wp_ld; [done|]).
    + apply wp_ret. split; [done|]. rewrite Hfd, drop_all, Eq, drop_all in *. done.
    + apply wp_ret. rewrite drop_all, (drop_S _ _ _ Ed) in Hfd. cbn [app first_diff] in Hfd.
      rewrite (proj2 (Z.eqb_neq 0 y)) in Hfd by done. change (u8 0) with 0.
      rewrite u8_id by (by eapply Forall_lookup_1 in H82). by rewrite <- Hfd.
    + rewrite (proj2 (Z.eqb_neq x 0)) by done. apply wp_ret.
      rewrite Eq, drop_all, <- Eq, (drop_S _ _ _ Ec) in Hfd. cbn [app first_diff] in Hfd.
      rewrite (proj2 (Z.eqb_neq x 0)) in Hfd by done. change (u8 0) with 0.
      rewrite u8_id by (by eapply Forall_lookup_1 in H81). rewrite Hfd in *. cbn. done.
    + rewrite (drop_S _ _ _ Ec), (drop_S _ _ _ Ed) in Hfd. cbn [app first_diff] in Hfd.
      destruct (Z.eqb_spec x y) as [->|Hne]; apply wp_ret.
      * wrap_id. split; [|lia]. split; [done|]. exists (S i). repeat split; lia.
      * rewrite (u8_id x) by (by eapply Forall_lookup_1 in H81).
        rewrite (u8_id y) by (by eapply Forall_lookup_1 in H82). by rewrite <- Hfd.
  - split; [done|]. exists 0%nat. repeat split; lia.
  - lia.
Qed.

(** [n] bytes at [p] that may be written. *)
Definition writable m p n : Prop :=
  0 <= p /\ p + n < 2 ^ 32 /\ forall i, 0 <= i < n -> is_Some (load8 (p + i) m).

(** A forward copy of [n] bytes reads every byte before it overwrites it. *)
Definition copy_safe dest src n : Prop := dest <= src \/ src + n <= dest.

(** The memory routines on any byte memory: [memset] fills, [memcpy]
    copies when the regions do not overlap forwards, both return the
    destination and touch nothing else; [memcmp] reads only, and is 0 exactly
    on equal buffers. None of them faults. *)
Theorem memory_routines_spec m :
  (forall dest value n, 0 <= n -> writable m dest n ->
    wp (memset dest value n) (fun r m' => r = dest /\
      holds m' dest (replicate (Z.to_nat n) (u8 value)) /\ same_outside dest n m m') m) /\
  (forall dest src l, let n := Z.of_nat (length l) in
    holds m src l -> writable m dest n -> copy_safe dest src n ->
    wp (memcpy dest src n) (fun r m' => r = dest /\
      holds m' dest l /\ same_outside dest n m m') m) /\
  (forall a b l1 l2, holds m a l1 -> holds m b l2 -> length l1 = length l2 ->
    wp (memcmp a b (Z.of_nat (length l1))) (fun r m' =>
      m' = m /\ r = first_diff l1 l2 /\ (r = 0 <-> l1 = l2)) m).
Proof.
  split; [|split].
  - intros dest value n Hn (Hd & Hle & Hdef). apply wp_memset; [done..|lia|done].
  - intros dest src l n Hs (Hd & Hle & Hdef) Hov. by apply wp_memcpy; [..|lia| |].
  - intros a b l1 l2 Ha Hb Hl. by apply wp_memcmp.
Qed.

(** C31 The string routines on NUL-terminated byte strings, with as many
    iterations as the string has characters plus one: [strlen] is the length;
    [strcpy] makes a second copy of the string; [strncpy] fills exactly [n]
    bytes, padded with zeros, without a terminator when the string has [n]
    characters or more; [strcmp] is the difference of the first differing
    characters and is 0 exactly on equal strings. *)
Theorem string_routines_spec m src l fuel :
  cstring m src l -> Forall is_u8 l -> (length l < fuel)%nat ->
  wp (strlen fuel src) (fun r m' => m' = m /\ r = Z.of_nat (length l)) m /\
  (forall dest, let n := Z.of_nat (length l) + 1 in
    writable m dest n -> copy_safe dest src n ->
    wp (strcpy fuel dest src) (fun r m' => r = dest /\
      cstring m' dest l /\ same_outside dest n m m') m) /\
  (forall dest n, 0 <= n -> writable m dest n ->
    copy_safe dest src (Z.of_nat (length l) + 1) ->
    wp (strncpy dest src n) (fun r m' => r = dest /\
      holds m' dest (take (Z.to_nat n) l ++ replicate (Z.to_nat n - length l) 0) /\
      same_outside dest n m m') m) /\
  (forall b l2, cstring m b l2 -> Forall is_u8 l2 ->
    wp (strcmp fuel src b) (fun r m' => m' = m /\
      r = first_diff (l ++ [0]) (l2 ++ [0]) /\ (r = 0 <-> l = l2)) m).
Proof.
  intros Hs H8 Hf. split; [by apply wp_strlen|]. split; [|split].
  - intros dest n (Hd & Hle & Hdef) Hov. apply wp_strcpy; [done..|lia| |].
    + intros i Hi. apply Hdef. lia.
    + unfold copy_safe in Hov. lia.
  - intros dest n Hn (Hd & Hle & Hdef) Hov. apply wp_strncpy; [done..|].
    unfold copy_safe in Hov. lia.
  - intros b l2 Hb H82. by apply wp_strcmp.
Qed.

End Routines.

(** ** Witnesses *)

(** A buffer that holds [l] at 100 and room for ten bytes at 200. *)
Definition demo_buffer (l : list Z) : gmap Z Z :=
  map_seqZ 100 l ∪ map_seqZ 200 (replicate 10 7).

Definition demo_hello : list Z := [104; 105].

Lemma demo_buffer_cstring : cstring (demo_buffer (demo_hello ++ [0])) 100 demo_hello.
Proof.
  split; [by repeat constructor|]. split; [lia|]. split; [cbn; lia|].
  intros i v E. do 3 (destruct i as [|i]; [injection E as <-; reflexivity|]). done.
Qed.

Lemma demo_buffer_writable l n : 0 <= n <= 10 -> writable (demo_buffer l) 200 n.
Proof.
  intros Hn. split; [lia|]. split; [lia|]. intros i Hi. cbn. apply lookup_union_is_Some. right.
  exists 7. apply lookup_map_seqZ_Some. split; [lia|]. apply lookup_replicate. split; [done|lia].
Qed.

Lemma string_routines_spec_witness :
  strlen 5 100 (demo_buffer (demo_hello ++ [0])) = Ok 2 (demo_buffer (demo_hello ++ [0])) /\
  wp (strncpy 200 100 4) (fun r m' => r = 200 /\ holds m' 200 [104; 105; 0; 0] /\
    same_outside 200 4 (demo_buffer (demo_hello ++ [0])) m') (demo_buffer (demo_hello ++ [0])).
Proof.
  split; [vm_compute; reflexivity|].
  destruct (string_routines_spec (demo_buffer (demo_hello ++ [0])) 100 demo_hello 5
    demo_buffer_cstring ltac:(by repeat constructor) ltac:(cbn; lia)) as (_ & _ & H & _).
  apply (H 200 4); [lia|by apply demo_buffer_writable|right; cbn; lia].
Defined.

Lemma memory_routines_spec_witness :
  wp (memset 200 257 3) (fun r m' => r = 200 /\ holds m' 200 [1; 1; 1] /\
    same_outside 200 3 (demo_buffer [1]) m') (demo_buffer [1]) /\
  memcmp 100 200 1 (demo_buffer [1]) = Ok (-6) (demo_buffer [1]).
Proof.
  split; [|vm_compute; reflexivity].
  destruct (memory_routines_spec (demo_buffer [1])) as (H & _).
  apply (H 200 257 3); [lia|by apply demo_buffer_writable].
Defined.
