(* ===== verification/Printf.v ===== *)
(** * Formatted output

    [kernel/lib/printf.c]: the conversion of numbers to digits and the
    interpreter of format strings. The state is the list of characters the
    console was given; the format and the string arguments are read from a
    memory that printing does not change; the variable arguments are the
    32-bit words that [va_arg] takes one after the other. *)

From S2P Require Import Prelude CString.

(** Characters of the format language. *)
Definition chr_zero : Z := 48.
Definition chr_A : Z := 65.
Definition chr_minus : Z := 45.
Definition chr_percent : Z := 37.
Definition chr_c : Z := 99.
Definition chr_s : Z := 115.
Definition chr_d : Z := 100.
Definition chr_u : Z := 117.
Definition chr_x : Z := 120.

(** ["(null)"] *)
Definition null_text : list Z := [40; 110; 117; 108; 108; 41].

Definition console : Type := list Z.

Definition console_putchar (c : Z) : M console unit :=
  modify (fun out => out ++ [u8 c]).

Fixpoint put_all (l : list Z) : M console unit :=
  match l with
  | [] => ret tt
  | c :: l' => console_putchar c ;;; put_all l'
  end.

Definition digit_char (digit : Z) : Z :=
  if digit <? 10 then chr_zero + digit else chr_A + (digit - 10).

(** The local [char buffer[32]], filled from index 0; [i] is its length. *)
Definition fill_digits (base value : Z) : M console (list Z) :=
  loop 33 (fun '(value, buffer) =>
    if value =? 0 then ret (inr buffer)
    else if Z.of_nat (length buffer) <? 32
    then ret (inl (value / base, buffer ++ [digit_char (value mod base)]))
    else fail (OutOfBounds (Z.of_nat (length buffer)))) (value, []).

Definition print_unsigned (value base : Z) : M console Z :=
  if value =? 0 then console_putchar chr_zero ;;; ret 1
  else
    let* buffer := fill_digits base value in
    let written := Z.of_nat (length buffer) in
    put_all (rev buffer) ;;;
    ret written.

Definition print_signed (value : Z) : M console Z :=
  if value <? 0 then
    console_putchar chr_minus ;;;
    let* n := print_unsigned (u32 (u32 (- (value + 1)) + 1)) 10 in
    ret (s32 (1 + n))
  else print_unsigned (u32 value) 10.

Section Format.
Context {Mem : Type} `{ByteMem Mem} (mem : Mem).

Definition peek (a : Z) : M console Z :=
  match load8 a mem with Some v => ret v | None => fail (BadAccess a) end.

(** [va_arg]: the next word; reading past the arguments is undefined. *)
Definition va_arg (args : list Z) : M console (Z * list Z) :=
  match args with
  | w :: args' => ret (w, args')
  | [] => fail BadPointer
  end.

(** [while ( *str) { console_putchar( *str++); written++; }] *)
Definition print_string (fuel : nat) (str written : Z) : M console Z :=
  loop fuel (fun '(p, written) =>
    let* c := peek p in
    if c =? 0 then ret (inr written)
    else console_putchar c ;;; ret (inl (u32 (p + 1), s32 (written + 1)))) (str, written).

(** The [switch ( *fmt)] after a percent sign. *)
Definition print_directive (fuel : nat) (c : Z) (args : list Z) (written : Z)
  : M console (list Z * Z) :=
  if c =? chr_percent then console_putchar chr_percent ;;; ret (args, s32 (written + 1))
  else if c =? chr_c then
    let* a := va_arg args in
    console_putchar a.1 ;;;
    ret (a.2, s32 (written + 1))
  else if c =? chr_s then
    let* a := va_arg args in
    let* w := (if a.1 =? 0
               then put_all null_text ;;; ret (s32 (written + Z.of_nat (length null_text)))
               else print_string fuel a.1 written) in
    ret (a.2, w)
  else if c =? chr_d then
    let* a := va_arg args in
    let* n := print_signed (s32 a.1) in
    ret (a.2, s32 (written + n))
  else if c =? chr_u then
    let* a := va_arg args in
    let* n := print_unsigned a.1 10 in
    ret (a.2, s32 (written + n))
  else if c =? chr_x then
    let* a := va_arg args in
    let* n := print_unsigned a.1 16 in
    ret (a.2, s32 (written + n))
  else
    console_putchar chr_percent ;;;
    console_putchar c ;;;
    ret (args, s32 (written + 2)).

(** One iteration of [while ( *fmt)]. *)
Definition vprintf_step (fuel : nat) (l : Z * list Z * Z)
  : M console ((Z * list Z * Z) + Z) :=
  let '(fmt, args, written) := l in
  let* c := peek fmt in
  if c =? 0 then ret (inr written)
  else if negb (c =? chr_percent) then
    console_putchar c ;;;
    ret (inl (u32 (fmt + 1), args, s32 (written + 1)))
  else
    let* d := peek (u32 (fmt + 1)) in
    let* r := print_directive fuel d args written in
    ret (inl (u32 (u32 (fmt + 1) + 1), r.1, r.2)).

Definition vprintf (fuel : nat) (fmt : Z) (args : list Z) : M console Z :=
  loop fuel (vprintf_step fuel) (fmt, args, 0).
End Format.

(** ** Reference conversion *)

(** The digits of [v] in [base], most significant first. *)
Fixpoint digits (n : nat) (base v : Z) (acc : list Z) : list Z :=
  match n with
  | O => acc
  | S n' => if v =? 0 then acc else digits n' base (v / base) (digit_char (v mod base) :: acc)
  end.

Definition unsigned_text (base v : Z) : list Z :=
  if v =? 0 then [chr_zero] else digits 32 base v [].

Definition signed_text (v : Z) : list Z :=
  if v <? 0 then chr_minus :: unsigned_text 10 (- v) else unsigned_text 10 v.

(** Reading a numeral back. *)
Definition char_digit (c : Z) : Z := if c <? chr_A then c - chr_zero else c - chr_A + 10.

Definition numeral_value (base : Z) (l : list Z) : Z :=
  fold_left (fun acc c => acc * base + char_digit c) l 0.

Lemma char_digit_char d : 0 <= d < 16 -> char_digit (digit_char d) = d.
Proof.
  intros Hd. unfold char_digit, digit_char, chr_A, chr_zero.
  destruct (Z.ltb_spec d 10).
  - by rewrite (proj2 (Z.ltb_lt _ _)) by lia; lia.
  - by rewrite (proj2 (Z.ltb_ge _ _)) by lia; lia.
Qed.

Lemma numeral_value_app base l1 l2 acc :
  fold_left (fun acc c => acc * base + char_digit c) (l1 ++ l2) acc =
  fold_left (fun acc c => acc * base + char_digit c) l2
    (fold_left (fun acc c => acc * base + char_digit c) l1 acc).
Proof. apply fold_left_app. Qed.

Lemma digits_acc n base v acc : digits n base v acc = digits n base v [] ++ acc.
Proof.
  revert v acc. induction n as [|n IH]; intros v acc; cbn; [done|].
  destruct (v =? 0); [done|]. rewrite IH, (IH _ [_]), <- app_assoc. done.
Qed.

Lemma digits_value n base v :
  1 < base <= 16 -> 0 <= v < base ^ Z.of_nat n -> numeral_value base (digits n base v []) = v.
Proof.
  intros Hb. revert v. induction n as [|n IH]; intros v Hv; cbn [digits].
  - cbn in Hv. unfold numeral_value. cbn. lia.
  - destruct (Z.eqb_spec v 0) as [->|Hne]; [done|]. rewrite digits_acc.
    unfold numeral_value. rewrite fold_left_app. fold (numeral_value base (digits n base (v / base) [])).
    rewrite IH.
    + cbn. rewrite char_digit_char; [|pose proof (Z.mod_pos_bound v base); lia].
      rewrite (Z.div_mod v base) at 3 by lia. lia.
    + rewrite Nat2Z.inj_succ, Z.pow_succ_r in Hv by lia. split; [apply Z.div_pos; lia|].
      apply Z.div_lt_upper_bound; lia.
Qed.

(** ** Numbers *)

Lemma digit_char_u8 d : 0 <= d < 16 -> is_u8 (digit_char d).
Proof. unfold digit_char, is_u8, chr_zero, chr_A. destruct (d <? 10) eqn:E; lia. Qed.

Lemma digits_u8 n base v acc :
  1 < base <= 16 -> 0 <= v -> Forall is_u8 acc -> Forall is_u8 (digits n base v acc).
Proof.
  intros Hb. revert v acc. induction n as [|n IH]; intros v acc Hv Hacc; cbn; [done|].
  destruct (v =? 0); [done|]. apply IH; [apply Z.div_pos; lia|].
  constructor; [|done]. apply digit_char_u8. pose proof (Z.mod_pos_bound v base). lia.
Qed.

Lemma unsigned_text_u8 base v :
  1 < base <= 16 -> 0 <= v -> Forall is_u8 (unsigned_text base v).
Proof.
  intros Hb Hv. unfold unsigned_text. destruct (v =? 0).
  - repeat constructor. unfold chr_zero, is_u8. lia.
  - by apply digits_u8.
Qed.

Lemma unsigned_text_value base v :
  1 < base <= 16 -> is_u32 v -> numeral_value base (unsigned_text base v) = v.
Proof.
  intros Hb Hv. unfold unsigned_text. destruct (Z.eqb_spec v 0) as [->|Hne]; [done|].
  apply digits_value; [done|]. unfold is_u32 in Hv. split; [lia|].
  apply Z.lt_le_trans with (2 ^ 32); [lia|]. apply Z.pow_le_mono_l. lia.
Qed.

Lemma digits_length n base v : (length (digits n base v []) <= n)%nat.
Proof.
  revert v. induction n as [|n IH]; intros v; cbn; [done|].
  destruct (v =? 0); cbn; [lia|]. rewrite digits_acc, length_app. cbn. specialize (IH (v / base)). lia.
Qed.

Lemma digits_step n base v acc :
  v <> 0 -> digits (S n) base v acc = digits n base (v / base) (digit_char (v mod base) :: acc).
Proof. intros Hv. cbn [digits]. by rewrite (proj2 (Z.eqb_neq _ _)) by done. Qed.

Lemma unsigned_text_length base v : (1 <= length (unsigned_text base v) <= 32)%nat.
Proof.
  unfold unsigned_text. destruct (Z.eqb_spec v 0) as [|Hv]; [cbn; lia|].
  split; [|apply digits_length].
  rewrite (digits_step 31), digits_acc, length_app by done. cbn [length]. lia.
Qed.

Lemma wp_put_all l (Q : unit -> console -> Prop) out :
  Forall is_u8 l -> Q tt (out ++ l) -> wp (put_all l) Q out.
Proof.
  intros Hl. revert out. induction Hl as [|c l Hc _ IH]; intros out HQ; cbn.
  - apply wp_ret. by rewrite app_nil_r in HQ.
  - apply wp_bind, wp_modify, IH. by rewrite u8_id, <- app_assoc.
Qed.

Lemma wp_fill_digits base v (out : console) :
  1 < base <= 16 -> 0 <= v < base ^ 32 ->
  wp (fill_digits base v) (fun buffer out' => out' = out /\ rev buffer = digits 32 base v []) out.
Proof.
  intros Hb Hv. unfold fill_digits.
  apply (wp_loop (fun '(v', buffer) out' => out' = out /\ (length buffer <= 32)%nat /\
      0 <= v' < base ^ Z.of_nat (32 - length buffer) /\
      digits 32 base v [] = digits (32 - length buffer) base v' [] ++ rev buffer)
    (fun '(_, buffer) _ => 32 - length buffer)%nat).
  - intros [v' buffer] out' (-> & Hlen & Hv' & Hd). destruct (Z.eqb_spec v' 0) as [->|Hne].
    + apply wp_ret. split; [done|]. rewrite Hd. by destruct (32 - length buffer)%nat.
    + destruct (decide (length buffer = 32)%nat) as [E|Hlt].
      { rewrite E in Hv'. cbn in Hv'. lia. }
      rewrite (proj2 (Z.ltb_lt _ _)) by lia. apply wp_ret. rewrite length_app. cbn [length].
      split; [|lia]. split; [done|]. split; [lia|].
      replace (32 - length buffer)%nat with (S (32 - (length buffer + 1)))%nat in Hv', Hd by lia.
      rewrite Nat2Z.inj_succ, Z.pow_succ_r in Hv' by lia. split.
      * split; [apply Z.div_pos; lia|]. apply Z.div_lt_upper_bound; lia.
      * rewrite Hd. cbn [digits]. rewrite (proj2 (Z.eqb_neq _ _)) by done.
        rewrite digits_acc, rev_app_distr, <- app_assoc. done.
  - split; [done|]. split; [cbn; lia|]. split; [exact Hv|]. by rewrite app_nil_r.
  - cbn. lia.
Qed.

Lemma wp_print_unsigned base v (Q : Z -> console -> Prop) out :
  1 < base <= 16 -> is_u32 v ->
  Q (Z.of_nat (length (unsigned_text base v))) (out ++ unsigned_text base v) ->
  wp (print_unsigned v base) Q out.
Proof.
  intros Hb Hv HQ. unfold print_unsigned. pose proof (unsigned_text_u8 base v Hb) as H8.
  unfold unsigned_text in *. destruct (v =? 0).
  - by apply wp_bind, wp_modify, wp_ret.
  - apply wp_bind. unfold is_u32 in Hv. eapply wp_mono; [apply wp_fill_digits; [done|]|].
    + split; [lia|]. apply Z.lt_le_trans with (2 ^ 32); [lia|]. apply Z.pow_le_mono_l. lia.
    + intros buffer out' (-> & E). apply wp_bind. rewrite <- (length_rev buffer), E.
      apply wp_put_all; [apply H8; lia|]. by apply wp_ret.
Qed.

Lemma wp_print_signed v (Q : Z -> console -> Prop) out :
  - 2 ^ 31 <= v < 2 ^ 31 ->
  Q (Z.of_nat (length (signed_text v))) (out ++ signed_text v) ->
  wp (print_signed v) Q out.
Proof.
  intros Hv HQ. unfold print_signed, signed_text in *. destruct (Z.ltb_spec v 0) as [Hn|Hn].
  - apply wp_bind, wp_modify. rewrite (u32_id (- (v + 1))) by (unfold is_u32; lia).
    replace (- (v + 1) + 1) with (- v) by lia. rewrite u32_id by (unfold is_u32; lia).
    apply wp_bind, wp_print_unsigned; [lia|unfold is_u32; lia|]. apply wp_ret.
    rewrite <- app_assoc. cbn [app] in *. change (u8 chr_minus) with chr_minus.
    cbn [length] in HQ. pose proof (unsigned_text_length 10 (- v)).
    unfold s32. rewrite u32_id by (unfold is_u32; lia). rewrite decide_True by lia.
    by replace (1 + Z.of_nat (length (unsigned_text 10 (- v))))
      with (Z.of_nat (S (length (unsigned_text 10 (- v))))) by lia.
  - rewrite u32_id by (unfold is_u32; lia). apply wp_print_unsigned; [lia|unfold is_u32; lia|done].
Qed.

(** Number printing is exact: for every 32-bit value and base 10 or 16
    (any base up to 16) [print_unsigned] stays inside its buffer, appends
    digits that read back as the value, and returns how many it printed; and
    for every [int], including the most negative one, [print_signed] appends
    an optional minus sign and the digits of the magnitude. *)
Theorem print_number_roundtrip base v out :
  1 < base <= 16 -> is_u32 v ->
  wp (print_unsigned v base) (fun r out' => exists l, out' = out ++ l /\
    r = Z.of_nat (length l) /\ numeral_value base l = v) out /\
  wp (print_signed (s32 v)) (fun r out' => exists sign l, out' = out ++ sign ++ l /\
    r = Z.of_nat (length (sign ++ l)) /\
    ((sign = [] /\ s32 v = numeral_value 10 l) \/
     (sign = [chr_minus] /\ s32 v = - numeral_value 10 l /\ s32 v < 0))) out.
Proof.
  intros Hb Hv. split.
  - apply wp_print_unsigned; [done..|]. eexists. split; [done|]. split; [done|].
    by apply unsigned_text_value.
  - assert (- 2 ^ 31 <= s32 v < 2 ^ 31) as Hs.
    { unfold s32. rewrite u32_id by done. unfold is_u32 in Hv. destruct (decide _); lia. }
    apply wp_print_signed; [done|]. unfold signed_text. destruct (Z.ltb_spec (s32 v) 0).
    + exists [chr_minus], (unsigned_text 10 (- s32 v)). split; [done|]. split; [done|]. right.
      rewrite unsigned_text_value by (unfold is_u32; lia). split; [done|]. lia.
    + exists [], (unsigned_text 10 (s32 v)). split; [done|]. split; [done|]. left.
      rewrite unsigned_text_value by (unfold is_u32; lia). done.
Qed.

(** ** Formats

    A format is a sequence of pieces. Each piece has its source text, the
    words it takes from the arguments, and the text it prints. *)

Inductive piece : Type :=
  | Literal (c : Z)
  | Percent
  | Character (w : Z)
  | Text (p : Z) (l : list Z)
  | NullText
  | Decimal (w : Z)
  | Unsigned (w : Z)
  | Hexadecimal (w : Z)
  | Unknown (c : Z).

Definition piece_format (x : piece) : list Z :=
  match x with
  | Literal c => [c]
  | Percent => [chr_percent; chr_percent]
  | Character _ => [chr_percent; chr_c]
  | Text _ _ | NullText => [chr_percent; chr_s]
  | Decimal _ => [chr_percent; chr_d]
  | Unsigned _ => [chr_percent; chr_u]
  | Hexadecimal _ => [chr_percent; chr_x]
  | Unknown c => [chr_percent; c]
  end.

Definition piece_args (x : piece) : list Z :=
  match x with
  | Literal _ | Percent | Unknown _ => []
  | Character w | Decimal w | Unsigned w | Hexadecimal w => [w]
  | Text p _ => [p]
  | NullText => [0]
  end.

Definition piece_text (x : piece) : list Z :=
  match x with
  | Literal c => [c]
  | Percent => [chr_percent]
  | Character w => [u8 w]
  | Text _ l => l
  | NullText => null_text
  | Decimal w => signed_text (s32 w)
  | Unsigned w => unsigned_text 10 w
  | Hexadecimal w => unsigned_text 16 w
  | Unknown c => [chr_percent; c]
  end.

(** Literal characters are not percent signs; an unknown directive is a
    character without a meaning (and not the end of the format). *)
Definition piece_ok {Mem} `{ByteMem Mem} (mem : Mem) (fuel : nat) (x : piece) : Prop :=
  match x with
  | Literal c => is_u8 c /\ c <> chr_percent
  | Text p l => p <> 0 /\ cstring mem p l /\ Forall is_u8 l /\ (length l < fuel)%nat
  | Character w | Decimal w | Unsigned w | Hexadecimal w => is_u32 w
  | Percent | NullText => True
  | Unknown c => is_u8 c /\ c <> 0 /\
      c ∉ [chr_percent; chr_c; chr_s; chr_d; chr_u; chr_x]
  end.

Definition texts (l : list piece) : list Z := concat (piece_text <$> l).
Definition formats (l : list piece) : list Z := concat (piece_format <$> l).
Definition arguments (l : list piece) : list Z := concat (piece_args <$> l).

Section FormatSpec.
Context {Mem : Type} `{ByteMem Mem} `{!ByteMemLaws Mem} (mem : Mem).

Lemma s32_small x : 0 <= x < 2 ^ 31 -> s32 x = x.
Proof.
  intros Hx. unfold s32. rewrite u32_id by (unfold is_u32; lia). by rewrite decide_True by lia.
Qed.

Lemma wp_peek a v Q (out : console) : load8 a mem = Some v -> Q v out -> wp (peek mem a) Q out.
Proof. intros E HQ. unfold wp, peek. by rewrite E. Qed.

Lemma wp_print_string fuel p l w (Q : Z -> console -> Prop) out :
  cstring mem p l -> Forall is_u8 l -> (length l < fuel)%nat ->
  0 <= w -> w + Z.of_nat (length l) < 2 ^ 31 ->
  Q (w + Z.of_nat (length l)) (out ++ l) ->
  wp (print_string mem fuel p w) Q out.
Proof.
  intros Hs H8 Hf Hw Hle HQ. unfold print_string. pose proof (cstring_bounds _ _ _ Hs) as Hb.
  apply (wp_loop (fun '(q, w') out' => exists i : nat, (i <= length l)%nat /\
    q = p + Z.of_nat i /\ w' = w + Z.of_nat i /\ out' = out ++ take i l)
    (fun '(_, w') _ => length l - Z.to_nat (w' - w))%nat).
  - intros [q w'] out' (i & Hi & -> & -> & ->).
    destruct (cstring_at _ _ _ _ Hs Hi) as [[-> E]|(c & Ec & Hc & E & Hlt)].
    + apply wp_bind, (wp_peek _ 0); [done|]. apply wp_ret. by rewrite firstn_all.
    + apply wp_bind, (wp_peek _ c); [done|]. rewrite (proj2 (Z.eqb_neq c 0)) by done.
      apply wp_bind, wp_modify, wp_ret. wrap_id. rewrite s32_small by lia. split; [|lia].
      exists (S i). rewrite (take_snoc _ _ _ Ec), app_assoc.
      rewrite u8_id by (by eapply Forall_lookup_1 in H8). repeat split; lia.
  - exists 0%nat. rewrite take_0, app_nil_r. repeat split; lia.
  - lia.
Qed.

(** One directive: it takes its words and prints its text. *)
Lemma wp_print_directive fuel x c args w (Q : list Z * Z -> console -> Prop) out :
  piece_ok mem fuel x -> piece_format x = [chr_percent; c] ->
  0 <= w -> w + Z.of_nat (length (piece_text x)) < 2 ^ 31 ->
  Q (args, w + Z.of_nat (length (piece_text x))) (out ++ piece_text x) ->
  wp (print_directive mem fuel c (piece_args x ++ args) w) Q out.
Proof.
  intros Hok Hx Hw Hle HQ. unfold print_directive.
  destruct x as [b| |a|p l| |a|a|a|b]; cbn in Hx; try discriminate; injection Hx as Hc;
    try subst c; cbn [Z.eqb Pos.eqb chr_percent chr_c chr_s chr_d chr_u chr_x piece_args app];
    cbn [piece_text length] in *.
  - apply wp_bind, wp_modify, wp_ret. by rewrite s32_small by lia.
  - apply wp_bind, wp_ret, wp_bind, wp_modify, wp_ret. cbn [fst snd]. by rewrite s32_small by lia.
  - destruct Hok as (Hp & Hs & H8 & Hf). apply wp_bind, wp_ret. cbn [fst snd].
    rewrite (proj2 (Z.eqb_neq p 0)) by done. apply wp_bind, (wp_print_string _ _ l); [done..|].
    by apply wp_ret.
  - apply wp_bind, wp_ret, wp_bind. cbn [fst snd Z.eqb]. apply wp_bind, wp_put_all.
    + repeat constructor; unfold is_u8; lia.
    + apply wp_ret, wp_ret. by rewrite s32_small by (cbn [length null_text] in *; lia).
  - apply wp_bind, wp_ret. cbn [fst snd]. apply wp_bind, wp_print_signed.
    + unfold piece_ok, is_u32 in Hok. unfold s32. rewrite u32_id by done.
      destruct (decide _); lia.
    + apply wp_ret. by rewrite s32_small by lia.
  - apply wp_bind, wp_ret, wp_bind, wp_print_unsigned; [lia|done|]. cbn [fst snd].
    apply wp_ret. by rewrite s32_small by lia.
  - apply wp_bind, wp_ret, wp_bind, wp_print_unsigned; [lia|done|]. cbn [fst snd].
    apply wp_ret. by rewrite s32_small by lia.
  - destruct Hok as (H8 & Hnz & Hnot). rewrite !not_elem_of_cons in Hnot.
    destruct Hnot as (? & ? & ? & ? & ? & ? & _).
    rewrite !(proj2 (Z.eqb_neq _ _)) by done.
    apply wp_bind, wp_modify, wp_bind, wp_modify, wp_ret. rewrite s32_small by lia.
    rewrite <- app_assoc. by rewrite (u8_id b).
Qed.

Lemma cstring_suffix p l1 l2 :
  cstring mem p (l1 ++ l2) -> cstring mem (p + Z.of_nat (length l1)) l2.
Proof.
  intros [Hnz Hh]. rewrite <- app_assoc in Hh. apply holds_app in Hh.
  apply Forall_app in Hnz. split; [apply Hnz|apply Hh].
Qed.

(** One iteration handles one piece. *)
Lemma wp_vprintf_step fuel x l fmt args w
    (Q : (Z * list Z * Z) + Z -> console -> Prop) out :
  cstring mem fmt (piece_format x ++ l) -> piece_ok mem fuel x ->
  0 <= w -> w + Z.of_nat (length (piece_text x)) < 2 ^ 31 ->
  Q (inl (fmt + Z.of_nat (length (piece_format x)), args,
      w + Z.of_nat (length (piece_text x)))) (out ++ piece_text x) ->
  wp (vprintf_step mem fuel (fmt, piece_args x ++ args, w)) Q out.
Proof.
  intros Hs Hok Hw Hle HQ. unfold vprintf_step. pose proof (cstring_bounds _ _ _ Hs) as Hb.
  rewrite length_app in Hb.
  assert ((exists c, x = Literal c) \/ exists c, piece_format x = [chr_percent; c]) as [[c ->]|[c Hc]]
    by (destruct x; cbn; eauto).
  - cbn in Hb. destruct (cstring_char _ _ _ 0 c Hs eq_refl) as (E & Hc & _).
    rewrite Z.add_0_r in E. apply wp_bind, (wp_peek _ c); [done|].
    rewrite (proj2 (Z.eqb_neq _ _)) by done. destruct Hok as [H8 Hp].
    rewrite (proj2 (Z.eqb_neq c chr_percent)) by done. cbn [negb].
    apply wp_bind, wp_modify, wp_ret. cbn [length piece_text piece_format piece_args app] in *.
    rewrite u8_id, s32_small by (done || lia). wrap_id. done.
  - rewrite Hc in Hs, Hb, HQ. cbn [length app] in Hs, Hb, HQ.
    destruct (cstring_char _ _ _ 0 _ Hs eq_refl) as (E0 & _).
    destruct (cstring_char _ _ _ 1 _ Hs eq_refl) as (E1 & _).
    rewrite Z.add_0_r in E0. apply wp_bind, (wp_peek _ chr_percent); [done|]. cbn [Z.eqb Pos.eqb chr_percent negb].
    wrap_id. apply wp_bind, (wp_peek _ c); [done|]. apply wp_bind.
    apply (wp_print_directive _ x); [done..|]. apply wp_ret. wrap_id. cbn [fst snd].
    by replace (fmt + 1 + 1) with (fmt + Z.of_nat 2) by lia.
Qed.

Lemma wp_vprintf_from sfuel rest pieces :
  forall fuel fmt w (Q : Z -> console -> Prop) out,
  cstring mem fmt (formats pieces) -> Forall (piece_ok mem sfuel) pieces ->
  (length pieces < fuel)%nat -> 0 <= w -> w + Z.of_nat (length (texts pieces)) < 2 ^ 31 ->
  Q (w + Z.of_nat (length (texts pieces))) (out ++ texts pieces) ->
  wp (loop fuel (vprintf_step mem sfuel) (fmt, arguments pieces ++ rest, w)) Q out.
Proof.
  induction pieces as [|x pieces IH]; intros [|fuel] fmt w Q out Hs Hok Hf Hw Hle HQ;
    try (cbn in Hf; lia); cbn [loop]; apply wp_bind.
  - unfold vprintf_step. cbn in HQ. apply cstring_nul in Hs. cbn [formats fmap list_fmap concat length] in Hs.
    rewrite Z.add_0_r in Hs. apply wp_bind, (wp_peek _ 0); [done|]. do 2 apply wp_ret.
    by rewrite Z.add_0_r, app_nil_r in HQ.
  - inversion_clear Hok as [|? ? Hx Hok']. unfold formats, texts, arguments in *. cbn in *.
    rewrite length_app in Hle, HQ. rewrite <- app_assoc.
    eapply wp_vprintf_step; [done..|lia|]. apply IH; [by apply cstring_suffix|done|lia..|].
    rewrite <- app_assoc, <- Z.add_assoc, <- Nat2Z.inj_add. done.
Qed.

(** C32 [vprintf] prints exactly what its format says: for a format made of
    literal characters and directives, with the matching words as arguments,
    it appends the text of every piece in order, takes exactly those words,
    and returns the number of characters printed. Unknown directives are
    printed as they stand. The loop ends after one iteration per piece. *)
Theorem vprintf_spec fuel fmt pieces rest (out : console) :
  cstring mem fmt (formats pieces) -> Forall (piece_ok mem fuel) pieces ->
  (length pieces < fuel)%nat -> Z.of_nat (length (texts pieces)) < 2 ^ 31 ->
  wp (vprintf mem fuel fmt (arguments pieces ++ rest)) (fun r out' =>
    out' = out ++ texts pieces /\ r = Z.of_nat (length (texts pieces))) out.
Proof.
  intros Hs Hok Hf Hle. unfold vprintf. apply wp_vprintf_from; [done..|lia|lia|].
  by rewrite Z.add_0_l.
Qed.
End FormatSpec.

(** A format that ends in a percent sign is read past its terminator: the
    default case prints the terminator and steps over it. *)
Theorem vprintf_trailing_percent {Mem} `{ByteMem Mem} `{!ByteMemLaws Mem} (mem : Mem)
    fuel fmt args (out : console) :
  cstring mem fmt [chr_percent] -> load8 (u32 (fmt + 2)) mem = None ->
  vprintf mem (S (S fuel)) fmt args out = Fault (BadAccess (u32 (fmt + 2))).
Proof.
  intros Hs Hnone. pose proof (cstring_bounds _ _ _ Hs) as Hb. cbn in Hb.
  destruct (cstring_char _ _ _ 0 _ Hs eq_refl) as (E0 & _). rewrite Z.add_0_r in E0.
  pose proof (cstring_nul _ _ _ Hs) as E1.
  change (Z.of_nat (length [chr_percent])) with 1 in E1.
  unfold vprintf. cbn [loop]. unfold bind at 1. unfold vprintf_step at 1, bind at 1, peek at 1.
  rewrite E0. cbn [Z.eqb Pos.eqb chr_percent negb].
  rewrite (u32_id (fmt + 1)) by (unfold is_u32; lia).
  unfold bind at 1, peek at 1. rewrite E1. cbn.
  replace (fmt + 1 + 1) with (fmt + 2) by lia. unfold bind, vprintf_step, peek.
  by rewrite Hnone.
Qed.

(** ** Witnesses *)

(** The format ["a%d%x%%"] and the text ["hi"]. *)
Definition demo_memory : gmap Z Z :=
  map_seqZ 100 [97; 37; 100; 37; 120; 37; 115; 37; 37; 0] ∪ map_seqZ 200 [104; 105; 0].

Definition demo_pieces : list piece :=
  [Literal 97; Decimal (2 ^ 32 - 5); Hexadecimal 255; Text 200 [104; 105]; Percent].

Lemma print_number_roundtrip_witness :
  print_unsigned 255 16 [] = Ok 2 [70; 70] /\
  print_signed (s32 (2 ^ 31)) [] = Ok 11 [45; 50; 49; 52; 55; 52; 56; 51; 54; 52; 56] /\
  wp (print_unsigned 255 16) (fun r out' => exists l, out' = [] ++ l /\
    r = Z.of_nat (length l) /\ numeral_value 16 l = 255) [].
Proof.
  split; [vm_compute; reflexivity|]. split; [vm_compute; reflexivity|].
  destruct (print_number_roundtrip 16 255 []) as [H _]; [lia|unfold is_u32; lia|].
  exact H.
Defined.

Lemma vprintf_spec_witness :
  texts demo_pieces = [97; 45; 53; 70; 70; 104; 105; 37] /\
  wp (vprintf demo_memory 10 100 ([2 ^ 32 - 5; 255; 200] ++ [])) (fun r out' =>
    out' = [] ++ texts demo_pieces /\ r = Z.of_nat (length (texts demo_pieces))) [].
Proof.
  split; [vm_compute; reflexivity|].
  apply (vprintf_spec demo_memory 10 100 demo_pieces []).
  - split; [by repeat constructor|]. split; [lia|]. split; [cbn; lia|].
    intros i v E. do 10 (destruct i as [|i]; [injection E as <-; reflexivity|]). done.
  - repeat constructor; try (unfold is_u8, is_u32; lia); try done.
    intros i v E. do 3 (destruct i as [|i]; [injection E as <-; reflexivity|]). done.
  - cbn. lia.
  - vm_compute. reflexivity.
Defined.
