(* ===== verification/Ram.v ===== *)
(** * Physical memory behind the direct mapping

    The kernel reaches physical memory through the mapping of the first
    [BOOTSTRAP_MAP_SIZE] bytes at [KERNEL_VIRT_BASE] that the boot code sets
    up: the virtual address [a] of that window is the physical address
    [a - KERNEL_VIRT_BASE]. An access to any other address through this
    interface is a fault. Words are little endian, as the processor reads and
    writes them. *)

From S2P Require Import Prelude Layout CString.

(** Physical address to byte; a cell never written holds 0. *)
Record ram : Type := Ram { cells : gmap Z Z }.

Definition byte (r : ram) (p : Z) : Z := default 0 (cells r !! p).
Definition set_byte (p v : Z) (r : ram) : ram := Ram (<[p := v]> (cells r)).

(** The bytes [l] from [p] on. *)
Fixpoint put_bytes (p : Z) (l : list Z) (r : ram) : ram :=
  match l with [] => r | v :: l' => put_bytes (p + 1) l' (set_byte p v r) end.

(** Virtual addresses of the direct mapping. *)
Definition direct (a : Z) : bool := (KERNEL_VIRT_BASE <=? a) && (a <? KERNEL_BOOTSTRAP_END).

#[export] Instance ram_mem : ByteMem ram := {|
  load8 a r := if direct a then Some (byte r (a - KERNEL_VIRT_BASE)) else None;
  store8 a v r := if direct a then Some (set_byte (a - KERNEL_VIRT_BASE) v r) else None;
|}.

Lemma byte_set_eq r p v : byte (set_byte p v r) p = v.
Proof. unfold byte, set_byte. cbn. by rewrite lookup_insert_eq. Qed.

Lemma byte_set_ne r p q v : p <> q -> byte (set_byte p v r) q = byte r q.
Proof. intros Hne. unfold byte, set_byte. cbn. by rewrite lookup_insert_ne. Qed.

#[export] Instance ram_mem_laws : ByteMemLaws ram.
Proof.
  split; cbn.
  - intros a v r. destruct (direct a); [eauto|]. by intros [].
  - intros a v r r'. destruct (direct a); [|done]. intros [= <-]. by rewrite byte_set_eq.
  - intros a b v r r'. destruct (direct a); [|done]. intros [= <-] Hne.
    destruct (direct b); [|done]. f_equal. apply byte_set_ne. lia.
Qed.

(** ** Words *)

Definition word_of (b0 b1 b2 b3 : Z) : Z :=
  u32 (b0 + Z.shiftl b1 8 + Z.shiftl b2 16 + Z.shiftl b3 24).

Definition ld32 (a : Z) : M ram Z :=
  let* b0 := ld a in
  let* b1 := ld (u32 (a + 1)) in
  let* b2 := ld (u32 (a + 2)) in
  let* b3 := ld (u32 (a + 3)) in
  ret (word_of b0 b1 b2 b3).

Definition st32 (a v : Z) : M ram unit :=
  st a (u8 v) ;;;
  st (u32 (a + 1)) (u8 (Z.shiftr v 8)) ;;;
  st (u32 (a + 2)) (u8 (Z.shiftr v 16)) ;;;
  st (u32 (a + 3)) (u8 (Z.shiftr v 24)).

(** The word at a physical address, and its update. *)
Definition word (r : ram) (p : Z) : Z :=
  word_of (byte r p) (byte r (p + 1)) (byte r (p + 2)) (byte r (p + 3)).

Definition set_word (p v : Z) (r : ram) : ram :=
  set_byte (p + 3) (u8 (Z.shiftr v 24)) (set_byte (p + 2) (u8 (Z.shiftr v 16))
    (set_byte (p + 1) (u8 (Z.shiftr v 8)) (set_byte p (u8 v) r))).

Section Words.
Implicit Types (r : ram) (p q v : Z).

Lemma word_range r p : is_u32 (word r p).
Proof. apply u32_range. Qed.

Lemma word_of_split v :
  is_u32 v ->
  word_of (u8 v) (u8 (Z.shiftr v 8)) (u8 (Z.shiftr v 16)) (u8 (Z.shiftr v 24)) = v.
Proof.
  intros Hv. unfold word_of, u8. rewrite !Z.shiftr_div_pow2, !Z.shiftl_mul_pow2 by lia.
  unfold is_u32 in Hv. rewrite u32_id; [|unfold is_u32; lia]. lia.
Qed.

Lemma byte_set_word_ne r p q v :
  q < p \/ p + 4 <= q -> byte (set_word p v r) q = byte r q.
Proof. intros H. unfold set_word. by rewrite !byte_set_ne by lia. Qed.

Lemma word_set_eq r p v : is_u32 v -> word (set_word p v r) p = v.
Proof.
  intros Hv. unfold word, set_word.
  rewrite (byte_set_ne _ (p + 3) p), (byte_set_ne _ (p + 2) p), (byte_set_ne _ (p + 1) p),
    byte_set_eq by lia.
  rewrite (byte_set_ne _ (p + 3) (p + 1)), (byte_set_ne _ (p + 2) (p + 1)), byte_set_eq by lia.
  rewrite (byte_set_ne _ (p + 3) (p + 2)), byte_set_eq, byte_set_eq by lia.
  by apply word_of_split.
Qed.

Lemma word_ext r r' p :
  (forall q, p <= q < p + 4 -> byte r' q = byte r q) -> word r' p = word r p.
Proof. intros H. unfold word. by rewrite !H by lia. Qed.

Lemma word_set_ne r p q v : q + 4 <= p \/ p + 4 <= q -> word (set_word p v r) q = word r q.
Proof. intros H. apply word_ext. intros k Hk. apply byte_set_word_ne. lia. Qed.

Lemma direct_iff a :
  direct a = true <-> KERNEL_VIRT_BASE <= a < KERNEL_VIRT_BASE + BOOTSTRAP_MAP_SIZE.
Proof.
  unfold direct. change KERNEL_BOOTSTRAP_END with (KERNEL_VIRT_BASE + BOOTSTRAP_MAP_SIZE). lia.
Qed.

(** A range of physical memory inside the direct mapping. *)
Definition reachable p n : Prop := 0 <= p /\ p + n <= BOOTSTRAP_MAP_SIZE.

Lemma reachable_load r p n i :
  reachable p n -> 0 <= i < n ->
  direct (KERNEL_VIRT_BASE + p + i) = true /\
  load8 (KERNEL_VIRT_BASE + p + i) r = Some (byte r (p + i)) /\
  is_u32 (KERNEL_VIRT_BASE + p + i).
Proof.
  intros [Hp Hn] Hi. assert (direct (KERNEL_VIRT_BASE + p + i) = true) as E
    by (apply direct_iff; lia).
  split; [done|]. split.
  - cbn. rewrite E. do 2 f_equal. lia.
  - unfold is_u32. unfold BOOTSTRAP_MAP_SIZE, KERNEL_VIRT_BASE in *. lia.
Qed.

Lemma reachable_range p n :
  reachable p n -> 0 <= n -> is_u32 (KERNEL_VIRT_BASE + p) /\ KERNEL_VIRT_BASE + p + n < 2 ^ 32.
Proof. unfold reachable, is_u32, KERNEL_VIRT_BASE, BOOTSTRAP_MAP_SIZE. lia. Qed.

Lemma wp_ld_ram r p i n (Q : Z -> ram -> Prop) :
  reachable p n -> 0 <= i < n -> Q (byte r (p + i)) r ->
  wp (ld (u32 (KERNEL_VIRT_BASE + p + i))) Q r.
Proof.
  intros Hr Hi HQ. destruct (reachable_load r p n i Hr Hi) as (_ & E & Hu).
  rewrite u32_id by done. by eapply wp_ld.
Qed.

Lemma wp_st_ram r p i n v (Q : unit -> ram -> Prop) :
  reachable p n -> 0 <= i < n -> Q tt (set_byte (p + i) v r) ->
  wp (st (u32 (KERNEL_VIRT_BASE + p + i)) v) Q r.
Proof.
  intros Hr Hi HQ. destruct (reachable_load r p n i Hr Hi) as (E & _ & Hu).
  rewrite u32_id by done. unfold wp, st. cbn. rewrite E.
  by replace (KERNEL_VIRT_BASE + p + i - KERNEL_VIRT_BASE) with (p + i) by lia.
Qed.

Lemma wp_ld32 r p (Q : Z -> ram -> Prop) :
  reachable p 4 -> Q (word r p) r -> wp (ld32 (KERNEL_VIRT_BASE + p)) Q r.
Proof.
  intros Hr HQ. unfold ld32. destruct (reachable_range p 4 Hr ltac:(lia)) as [Hu _].
  rewrite <- (u32_id (KERNEL_VIRT_BASE + p)) at 1 by done.
  rewrite <- (Z.add_0_r (KERNEL_VIRT_BASE + p)) at 1.
  apply wp_bind, (wp_ld_ram _ _ _ 4); [done|lia|].
  apply wp_bind, (wp_ld_ram _ _ _ 4); [done|lia|].
  apply wp_bind, (wp_ld_ram _ _ _ 4); [done|lia|].
  apply wp_bind, (wp_ld_ram _ _ _ 4); [done|lia|].
  apply wp_ret. by rewrite Z.add_0_r.
Qed.

Lemma wp_st32 r p v (Q : unit -> ram -> Prop) :
  reachable p 4 -> Q tt (set_word p v r) -> wp (st32 (KERNEL_VIRT_BASE + p) v) Q r.
Proof.
  intros Hr HQ. unfold st32. destruct (reachable_range p 4 Hr ltac:(lia)) as [Hu _].
  rewrite <- (u32_id (KERNEL_VIRT_BASE + p)) at 1 by done.
  rewrite <- (Z.add_0_r (KERNEL_VIRT_BASE + p)) at 1.
  apply wp_bind, (wp_st_ram _ _ _ 4); [done|lia|].
  apply wp_bind, (wp_st_ram _ _ _ 4); [done|lia|].
  apply wp_bind, (wp_st_ram _ _ _ 4); [done|lia|].
  apply (wp_st_ram _ _ _ 4); [done|lia|].
  by rewrite Z.add_0_r.
Qed.
End Words.

(** ** What lies outside the direct mapping

    No routine over this memory changes a byte it cannot reach. *)

Definition untouched (r r' : ram) : Prop :=
  forall q, ~ (0 <= q < BOOTSTRAP_MAP_SIZE) -> byte r' q = byte r q.

Definition keeps_rest {A} (m : M ram A) : Prop :=
  forall r a r', m r = Ok a r' -> untouched r r'.

Section KeepsRest.

Lemma keeps_ret {A} (a : A) : keeps_rest (ret a).
Proof. intros r b r' [= _ <-]. by intros q. Qed.

Lemma keeps_bind {A B} (m : M ram A) (k : A -> M ram B) :
  keeps_rest m -> (forall a, keeps_rest (k a)) -> keeps_rest (bind m k).
Proof.
  intros Hm Hk r b r'' E. unfold bind in E. destruct (m r) as [a r'|] eqn:Em; [|done].
  intros q Hq. rewrite (Hk _ _ _ _ E q Hq). by apply (Hm _ _ _ Em).
Qed.

Lemma keeps_ld a : keeps_rest (ld a).
Proof. intros r b r' E. unfold ld in E. destruct (load8 a r); [|done]. injection E as _ <-. by intros q. Qed.

Lemma keeps_st a v : keeps_rest (st a v).
Proof.
  intros r b r' E q Hq. unfold st in E. cbn in E. destruct (direct a) eqn:D; [|done].
  injection E as _ <-. apply direct_iff in D. apply byte_set_ne. lia.
Qed.

Lemma keeps_for_each (body : Z -> M ram unit) n :
  (forall i, keeps_rest (body i)) -> forall i, keeps_rest (for_each i n body).
Proof.
  intros Hb. induction n as [|n IH]; intros i; cbn [for_each]; [apply keeps_ret|].
  apply keeps_bind; auto.
Qed.

Lemma keeps_memset dest value n : keeps_rest (memset dest value n).
Proof.
  apply keeps_bind; [|intros; apply keeps_ret]. apply keeps_for_each. intros i. apply keeps_st.
Qed.

Lemma keeps_memcpy dest src n : keeps_rest (memcpy dest src n).
Proof.
  apply keeps_bind; [|intros; apply keeps_ret]. apply keeps_for_each. intros i.
  apply keeps_bind; [apply keeps_ld|]. intros v. apply keeps_st.
Qed.

Lemma wp_keeps {A} (m : M ram A) (Q : A -> ram -> Prop) r :
  keeps_rest m -> wp m (fun a r' => untouched r r' -> Q a r') r -> wp m Q r.
Proof. intros Hk. unfold wp. destruct (m r) eqn:E; [|done]. intros HQ. by eapply HQ, Hk. Qed.
End KeepsRest.
