(* ===== verification/Words.v ===== *)
(** * Words in byte memory

    [uint16_t], [uint32_t] and [uint64_t] objects in little-endian byte
    memory, and the length of byte lists. *)

From S2P Require Import Prelude CString Ram.

Definition len {A} (l : list A) : Z := Z.of_nat (length l).

Lemma len_app {A} (l1 l2 : list A) : len (l1 ++ l2) = len l1 + len l2.
Proof. unfold len. rewrite length_app. lia. Qed.

Lemma len_nonneg {A} (l : list A) : 0 <= len l.
Proof. unfold len. lia. Qed.

Definition le16 (v : Z) : list Z := [u8 v; u8 (Z.shiftr v 8)].
Definition le32 (v : Z) : list Z := [u8 v; u8 (Z.shiftr v 8); u8 (Z.shiftr v 16); u8 (Z.shiftr v 24)].
Definition le64 (v : Z) : list Z := le32 (u32 v) ++ le32 (v / 2 ^ 32).

Lemma le32_u8 v : Forall is_u8 (le32 v).
Proof. unfold le32. repeat constructor; apply u8_range. Qed.

Section Words.
Context {Mem : Type} `{ByteMem Mem}.

Definition load_u16 (a : Z) : M Mem Z :=
  let* b0 := ld a in
  let* b1 := ld (u32 (a + 1)) in
  ret (u16 (b0 + Z.shiftl b1 8)).

Definition load_u32 (a : Z) : M Mem Z :=
  let* b0 := ld a in
  let* b1 := ld (u32 (a + 1)) in
  let* b2 := ld (u32 (a + 2)) in
  let* b3 := ld (u32 (a + 3)) in
  ret (word_of b0 b1 b2 b3).

Definition load_u64 (a : Z) : M Mem Z :=
  let* lo := load_u32 a in
  let* hi := load_u32 (u32 (a + 4)) in
  ret (u64 (lo + Z.shiftl hi 32)).

(** [*(uint32_t * )a = v] *)
Definition store32 (a v : Z) : M Mem unit :=
  st a (u8 v) ;;;
  st (u32 (a + 1)) (u8 (Z.shiftr v 8)) ;;;
  st (u32 (a + 2)) (u8 (Z.shiftr v 16)) ;;;
  st (u32 (a + 3)) (u8 (Z.shiftr v 24)).

Context `{!ByteMemLaws Mem}.
Implicit Types (m : Mem) (a p q n v : Z) (l : list Z).

Lemma holds_at m p l1 l2 l3 : holds m p (l1 ++ l2 ++ l3) -> holds m (p + len l1) l2.
Proof. intros [_ H2]%holds_app. by apply holds_app in H2 as [? _]. Qed.

Lemma holds_prefix m p l1 l2 : holds m p (l1 ++ l2) -> holds m p l1.
Proof. by intros [? _]%holds_app. Qed.

Lemma wp_load_u16 m a v (Q : Z -> Mem -> Prop) :
  holds m a (le16 v) -> is_u16 v -> Q v m -> wp (load_u16 a) Q m.
Proof.
  intros Hh Hv HQ. unfold load_u16.
  pose proof (holds_lookup _ _ _ 0 _ Hh eq_refl) as [E0 R0]. pose proof (holds_lookup _ _ _ 1 _ Hh eq_refl) as [E1 R1].
  rewrite Z.add_0_r in E0. rewrite !u32_id by (unfold is_u32; lia).
  do 2 (apply wp_bind; eapply wp_ld; [done|]). apply wp_ret.
  assert (u16 (u8 v + Z.shiftl (u8 (Z.shiftr v 8)) 8) = v) as ->; [|done].
  unfold u16, u8, is_u16 in *. rewrite Z.shiftr_div_pow2, Z.shiftl_mul_pow2 by lia. lia.
Qed.

Lemma wp_load_u32 m a v (Q : Z -> Mem -> Prop) :
  holds m a (le32 v) -> is_u32 v -> Q v m -> wp (load_u32 a) Q m.
Proof.
  intros Hh Hv HQ. unfold load_u32.
  pose proof (holds_lookup _ _ _ 0 _ Hh eq_refl) as [E0 R0]. pose proof (holds_lookup _ _ _ 1 _ Hh eq_refl) as [E1 R1].
  pose proof (holds_lookup _ _ _ 2 _ Hh eq_refl) as [E2 R2]. pose proof (holds_lookup _ _ _ 3 _ Hh eq_refl) as [E3 R3].
  rewrite Z.add_0_r in E0. rewrite !u32_id by (unfold is_u32; lia).
  do 4 (apply wp_bind; eapply wp_ld; [done|]). apply wp_ret. by rewrite word_of_split.
Qed.

Lemma wp_load_u64 m a v (Q : Z -> Mem -> Prop) :
  holds m a (le64 v) -> is_u64 v -> Q v m -> wp (load_u64 a) Q m.
Proof.
  intros Hh Hv HQ. unfold load_u64. apply holds_app in Hh as [Hlo Hhi].
  change (Z.of_nat (length (le32 (u32 v)))) with 4 in Hhi.
  assert (is_u32 (v / 2 ^ 32)) as Hd by (unfold is_u64, is_u32 in *; lia).
  apply wp_bind, (wp_load_u32 m a (u32 v)); [done|apply u32_range|].
  rewrite u32_id by (destruct Hhi as (? & Hle & _); cbn in Hle; unfold is_u32; lia).
  apply wp_bind, (wp_load_u32 m _ (v / 2 ^ 32)); [done..|]. apply wp_ret.
  assert (u64 (u32 v + Z.shiftl (v / 2 ^ 32) 32) = v) as ->; [|done].
  unfold u64, u32, is_u64 in *. rewrite Z.shiftl_mul_pow2 by lia. lia.
Qed.

(** A store into a region that may be written leaves it so. *)
Lemma writable_after m m' p n q l : writable m p n -> holds m' q l -> same_outside q (len l) m m' -> writable m' p n.
Proof.
  intros (Hp & Hn & Hw) Hh Hs. split; [done|]. split; [done|]. intros i Hi.
  destruct (decide (q <= p + i < q + len l)) as [Hin|Hout].
  - destruct (lookup_lt_is_Some_2 l (Z.to_nat (p + i - q))) as [x E]; [unfold len in Hin; lia|].
    destruct (holds_lookup _ _ _ _ _ Hh E) as [E' _]. replace (q + _) with (p + i) in E' by lia. by rewrite E'.
  - rewrite Hs by done. by apply Hw.
Qed.

Lemma writable_sub m p n q k : writable m p n -> p <= q -> q + k <= p + n -> writable m q k.
Proof.
  intros (Hp & Hn & Hw) H1 H2. split; [lia|]. split; [lia|]. intros i Hi. replace (q + i) with (p + (q - p + i)) by lia. apply Hw. lia.
Qed.

Lemma same_outside_sub p n q k m m' : same_outside q k m m' -> p <= q -> q + k <= p + n -> same_outside p n m m'.
Proof. intros Hs H1 H2 a Ha. apply Hs. lia. Qed.

Lemma same_outside_trans p n m m' m'' : same_outside p n m m' -> same_outside p n m' m'' -> same_outside p n m m''.
Proof. intros H1 H2 a Ha. by rewrite H2, H1. Qed.

Lemma wp_store32 m a v (Q : unit -> Mem -> Prop) :
  writable m a 4 -> (forall m', holds m' a (le32 v) -> same_outside a 4 m m' -> Q tt m') -> wp (store32 a v) Q m.
Proof.
  intros (Ha & Hle & Hw) HQ. unfold store32. rewrite !u32_id by (unfold is_u32; lia).
  assert (forall k, 0 <= k < 4 -> is_Some (load8 (a + k) m)) as Hk by (intros k Hk; apply Hw; lia).
  apply wp_bind, wp_st. { rewrite <- (Z.add_0_r a). by apply Hk. } intros m1 E1 N1.
  apply wp_bind, wp_st. { rewrite N1 by lia. by apply Hk. } intros m2 E2 N2.
  apply wp_bind, wp_st. { rewrite N2, N1 by lia. by apply Hk. } intros m3 E3 N3.
  apply wp_st. { rewrite N3, N2, N1 by lia. by apply Hk. } intros m4 E4 N4. apply HQ.
  - split; [done|]. split; [cbn; lia|]. intros i x E.
    destruct i as [|[|[|[|i]]]]; [| | | |by destruct i]; injection E as <-; cbn [Z.of_nat Pos.of_succ_nat Pos.succ].
    + rewrite Z.add_0_r, N4, N3, N2 by lia. done.
    + rewrite N4, N3 by lia. done.
    + rewrite N4 by lia. done.
    + done.
  - intros b Hb. by rewrite N4, N3, N2, N1 by lia.
Qed.

Lemma holds_outside p n m m' q l : holds m q l -> same_outside p n m m' -> (q + len l <= p \/ p + n <= q) -> holds m' q l.
Proof. intros Hh Hs Ho. eapply same_outside_holds; [exact Hs|exact Hh|]. unfold len in Ho. lia. Qed.
End Words.
