(* ===== verification/Multiboot.v ===== *)
(** * The boot information

    [kernel/boot/multiboot2.c]: the tags that the boot loader leaves in
    memory, and the walk of [pmm_init] over the memory map in them, which
    gives the value [Pmm.pmm_init] is stated over. *)

From S2P Require Import Prelude Layout CString Ram Words Pmm.

Definition MULTIBOOT2_BOOTLOADER_MAGIC : Z := 0x36D76289.
Definition MULTIBOOT_TAG_TYPE_END : Z := 0.
Definition MULTIBOOT_TAG_TYPE_MODULE : Z := 3.
Definition MULTIBOOT_TAG_TYPE_MMAP : Z := 6.

Section Multiboot.
Context {Mem : Type} `{ByteMem Mem}.

(** The static [boot_info], and memory. *)
Record boot : Type := Boot { boot_info : Z; b_mem : Mem }.

Definition b_mem_l : lens boot Mem := Lens b_mem (fun m b => Boot (boot_info b) m).

Abbreviation BM := (M boot).

Definition read32 (a : Z) : BM Z := zoom b_mem_l (load_u32 a).
Definition read64 (a : Z) : BM Z := zoom b_mem_l (load_u64 a).

Definition multiboot2_init (magic mb_info : Z) : BM unit :=
  if negb (magic =? MULTIBOOT2_BOOTLOADER_MAGIC) then fail (Panicked "Invalid Multiboot2 magic")
  else modify (fun b => Boot (PHYS_TO_VIRT mb_info) (b_mem b)).

Definition multiboot2_info : BM Z := gets boot_info.

Definition multiboot2_total_size : BM Z := let* info := gets boot_info in read32 info.

(** [tag->type] and [tag->size] *)
Definition tag_type (tag : Z) : BM Z := read32 tag.
Definition tag_size (tag : Z) : BM Z := read32 (u32 (tag + 4)).

Definition multiboot2_first_tag : BM Z := gets (fun b => u32 (boot_info b + 8)).

Definition multiboot2_next_tag (tag : Z) : BM Z :=
  let* n := tag_size tag in
  ret (u32 (tag + Z.land (u32 (n + 7)) (u32 (Z.lnot 7)))).

(** [while (tag->type != MULTIBOOT_TAG_TYPE_END) { body; tag = next; }] *)
Definition walk_tags (fuel : nat) (body : Z -> Z -> BM (option Z)) : BM Z :=
  let* first := multiboot2_first_tag in
  loop fuel (fun tag =>
    let* type := tag_type tag in
    if type =? MULTIBOOT_TAG_TYPE_END then ret (inr NULL)
    else
      let* r := body type tag in
      match r with
      | Some found => ret (inr found)
      | None => let* next := multiboot2_next_tag tag in ret (inl next)
      end) first.

Definition multiboot2_find_tag (fuel : nat) (type : Z) : BM Z :=
  walk_tags fuel (fun t tag => ret (if t =? type then Some tag else None)).

Definition multiboot2_memory_map (fuel : nat) : BM Z := multiboot2_find_tag fuel MULTIBOOT_TAG_TYPE_MMAP.

(** [module->cmdline] is at offset 16. *)
Definition multiboot2_find_module (fuel fuel' : nat) (name : Z) : BM Z :=
  walk_tags fuel (fun t tag =>
    if t =? MULTIBOOT_TAG_TYPE_MODULE then
      let* c := zoom b_mem_l (strcmp fuel' (u32 (tag + 16)) name) in
      ret (if c =? 0 then Some tag else None)
    else ret None).

(** ** What [pmm_init] reads *)

Definition MMAP_HEADER_SIZE : Z := 16.

(** [struct multiboot_mmap_entry] at [entry] *)
Definition read_entry (entry : Z) : BM mmap_entry :=
  let* addr := read64 entry in
  let* n := read64 (u32 (entry + 8)) in
  let* type := read32 (u32 (entry + 16)) in
  ret (MmapEntry addr n type).

(** The entries in the order of both passes. *)
Fixpoint read_entries (n : nat) (entry entry_size : Z) : BM (list mmap_entry) :=
  match n with
  | O => ret []
  | S n' =>
      let* e := read_entry entry in
      let* l := read_entries n' (u32 (entry + entry_size)) entry_size in
      ret (e :: l)
  end.

Definition read_map (mmap : Z) : BM (option (list mmap_entry)) :=
  if mmap =? NULL then ret None
  else
    let* n := tag_size mmap in
    let* entry_size := read32 (u32 (mmap + 8)) in
    if entry_size =? 0 then fail (Panicked "Divide Error")
    else
      let count := u32 (n - MMAP_HEADER_SIZE) / entry_size in
      let* l := read_entries (Z.to_nat count) (u32 (mmap + MMAP_HEADER_SIZE)) entry_size in
      ret (Some l).

(** [rootfs] is the address of the string ["rootfs"], [kernel_end] that of the
    linker's symbol. *)
Definition read_boot_memory (fuel fuel' : nat) (rootfs kernel_end : Z) : BM boot_memory :=
  let* mmap := multiboot2_memory_map fuel in
  let* info := multiboot2_info in
  let* module := multiboot2_find_module fuel fuel' rootfs in
  let* entries := read_map mmap in
  match entries with
  | None => ret (BootMemory None info 0 None kernel_end)
  | Some _ =>
      let* total := multiboot2_total_size in
      let* bounds :=
        (if module =? NULL then ret None
         else
           let* start := read32 (u32 (module + 8)) in
           let* stop := read32 (u32 (module + 12)) in
           ret (Some (start, stop))) in
      ret (BootMemory entries info total bounds kernel_end)
  end.
End Multiboot.
Arguments boot : clear implicits.

(** ** Tags as data *)

Record tag : Type := Tag { t_type : Z; t_body : list Z }.

Definition tag_bytes (t : tag) : list Z := le32 (t_type t) ++ le32 (8 + len (t_body t)) ++ t_body t.

(** Tags start at multiples of 8. *)
Definition tag_span (t : tag) : Z := 8 * ((8 + len (t_body t) + 7) / 8).

(** The address of the first tag with [p], from the one at [a] on. *)
Fixpoint first_with (p : tag -> bool) (a : Z) (ts : list tag) : Z :=
  match ts with
  | [] => NULL
  | t :: ts' => if p t then a else first_with p (a + tag_span t) ts'
  end.

Definition has_type (type : Z) (t : tag) : bool := t_type t =? type.

(** A module tag: its bounds and its name. *)
Definition module_body (start stop : Z) (name rest : list Z) : list Z :=
  le32 start ++ le32 stop ++ name ++ 0 :: rest.

(** The name of a module tag, up to the terminator. *)
Fixpoint until_nul (l : list Z) : list Z :=
  match l with
  | [] => []
  | c :: l' => if c =? 0 then [] else c :: until_nul l'
  end.

Definition module_named (name : list Z) (t : tag) : bool :=
  has_type MULTIBOOT_TAG_TYPE_MODULE t && bool_decide (until_nul (drop 8 (t_body t)) = name).

(** A memory map tag with entries of [size] bytes. *)
Definition entry_bytes (e : mmap_entry) (rest : list Z) : list Z :=
  le64 (entry_addr e) ++ le64 (entry_len e) ++ le32 (entry_type e) ++ rest.

Definition map_body (size version : Z) (es : list (mmap_entry * list Z)) : list Z :=
  le32 size ++ le32 version ++ concat ((fun '(e, rest) => entry_bytes e rest) <$> es).

Definition valid_entry (size : Z) (x : mmap_entry * list Z) : Prop :=
  is_u64 (entry_addr x.1) /\ is_u64 (entry_len x.1) /\ is_u32 (entry_type x.1) /\ 20 + len x.2 = size.

Section Spec.
Context {Mem : Type} `{ByteMemLaws Mem}.
Implicit Types (m : Mem) (b : boot Mem) (t : tag) (ts : list tag) (a : Z).

(** The tags [ts], from [a] on, and the end tag. *)
Fixpoint tags_at m a ts : Prop :=
  match ts with
  | [] => holds m a (le32 MULTIBOOT_TAG_TYPE_END)
  | t :: ts' =>
      holds m a (tag_bytes t) /\ 0 < t_type t < 2 ^ 32 /\ a + tag_span t < 2 ^ 32 /\ tags_at m (a + tag_span t) ts'
  end.

(** Every module tag has a name that ends, within [fuel] characters. *)
Definition modules_ok (fuel : nat) ts : Prop :=
  Forall (fun t => t_type t = MULTIBOOT_TAG_TYPE_MODULE -> exists start stop name rest,
    is_u32 start /\ is_u32 stop /\ Forall (fun c => c <> 0) name /\ Forall is_u8 name /\ (length name < fuel)%nat /\
    t_body t = module_body start stop name rest) ts.

Lemma wp_read32 b a v (Q : Z -> boot Mem -> Prop) :
  holds (b_mem b) a (le32 v) -> is_u32 v -> Q v b -> wp (read32 a) Q b.
Proof.
  intros Hh Hv HQ. apply (wp_zoom b_mem_l). apply (wp_load_u32 _ _ v); [done..|]. by destruct b.
Qed.

Lemma wp_read64 b a v (Q : Z -> boot Mem -> Prop) :
  holds (b_mem b) a (le64 v) -> is_u64 v -> Q v b -> wp (read64 a) Q b.
Proof.
  intros Hh Hv HQ. apply (wp_zoom b_mem_l). apply (wp_load_u64 _ _ v); [done..|]. by destruct b.
Qed.

Lemma tag_head m a t : holds m a (tag_bytes t) -> a + tag_span t < 2 ^ 32 ->
  holds m a (le32 (t_type t)) /\ holds m (a + 4) (le32 (8 + len (t_body t))) /\ holds m (a + 8) (t_body t) /\
  is_u32 (a + 4) /\ is_u32 (a + 8) /\ is_u32 (8 + len (t_body t)) /\ 8 + len (t_body t) <= tag_span t.
Proof.
  intros Hh Hs. pose proof Hh as (Ha & _). unfold tag_bytes in Hh.
  assert (8 + len (t_body t) <= tag_span t) as Hle by (unfold tag_span; lia).
  pose proof (len_nonneg (t_body t)). split; [by eapply holds_prefix|].
  pose proof (holds_at _ _ _ _ _ Hh) as H4. change (len (le32 _)) with 4 in H4. rewrite app_assoc in Hh.
  apply holds_app in Hh as [_ H8]. change (Z.of_nat (length (_ ++ _))) with 8 in H8.
  unfold is_u32. repeat (split; [done || lia|]). lia.
Qed.

Lemma wp_next_tag b a t (Q : Z -> boot Mem -> Prop) :
  holds (b_mem b) a (tag_bytes t) -> a + tag_span t < 2 ^ 32 -> Q (a + tag_span t) b ->
  wp (multiboot2_next_tag a) Q b.
Proof.
  intros Hh Hs HQ. destruct (tag_head _ _ _ Hh Hs) as (_ & H4 & _ & U4 & _ & Us & Hle).
  pose proof Hh as (Ha & _). pose proof (len_nonneg (t_body t)).
  unfold multiboot2_next_tag, tag_size. apply wp_bind. rewrite u32_id by done. apply (wp_read32 _ _ (8 + len (t_body t))); [done..|].
  apply wp_ret. rewrite (u32_id (_ + 7)) by (unfold is_u32, tag_span in *; lia).
  change 7 with (2 ^ 3 - 1) at 2. rewrite land_lnot_mask by (lia || unfold is_u32, tag_span in *; lia).
  change (2 ^ 3) with 8. fold (tag_span t). by rewrite u32_id by (unfold is_u32, tag_span in *; lia).
Qed.

(** A walk that asks [p] of every tag finds the first that has it, with one
    round per tag and one for the end. *)
Lemma wp_walk b body (p : tag -> bool) ts fuel (Q : Z -> boot Mem -> Prop) :
  is_u32 (boot_info b + 8) -> tags_at (b_mem b) (boot_info b + 8) ts ->
  (forall a t, holds (b_mem b) a (tag_bytes t) -> a + tag_span t < 2 ^ 32 -> t ∈ ts ->
     wp (body (t_type t) a) (fun r b' => b' = b /\ r = if p t then Some a else None) b) ->
  (length ts < fuel)%nat -> Q (first_with p (boot_info b + 8) ts) b -> wp (walk_tags fuel body) Q b.
Proof.
  intros Hi Hts Hbody Hfuel HQ. unfold walk_tags. apply wp_bind, wp_gets. rewrite u32_id by done.
  clear Hi. revert Hts Hbody Hfuel HQ. generalize (boot_info b + 8). revert fuel.
  induction ts as [|t ts IH]; intros [|fuel] a Hts Hbody Hfuel HQ; cbn [length] in Hfuel; [lia| |lia|]; cbn [loop tags_at] in *; apply wp_bind, wp_bind.
  - apply (wp_read32 _ _ 0); [done..|]. by apply wp_ret.
  - destruct Hts as (Hh & Ht & Hs & Hts). destruct (tag_head _ _ _ Hh Hs) as (Hty & _).
    apply (wp_read32 _ _ (t_type t)); [done|unfold is_u32; lia|]. rewrite (proj2 (Z.eqb_neq _ _)) by (unfold MULTIBOOT_TAG_TYPE_END; lia).
    apply wp_bind. eapply wp_mono; [apply Hbody; [done..|left]|]. intros r b' (-> & ->). cbn [first_with] in HQ.
    destruct (p t); [by apply wp_ret|]. apply wp_bind, (wp_next_tag _ _ t); [done..|]. apply wp_ret.
    apply IH; [done| |lia|done]. intros a' t' Hh' Hs' Hin. apply Hbody; [done..|by right].
Qed.
Lemma until_nul_app l rest : Forall (fun c => c <> 0) l -> until_nul (l ++ 0 :: rest) = l.
Proof.
  induction l as [|c l IH]; intros Hl; [done|]. apply Forall_cons in Hl as [Hc Hl]. cbn [app until_nul].
  rewrite (proj2 (Z.eqb_neq c 0)) by done. by rewrite IH.
Qed.

(** The name of a module tag as a string in memory. *)
Lemma module_cmdline m a t start stop name rest :
  holds m a (tag_bytes t) -> a + tag_span t < 2 ^ 32 -> t_body t = module_body start stop name rest ->
  Forall (fun c => c <> 0) name ->
  holds m (a + 8) (le32 start) /\ holds m (a + 12) (le32 stop) /\ cstring m (a + 16) name /\
  is_u32 (a + 8) /\ is_u32 (a + 12) /\ is_u32 (a + 16) /\ until_nul (drop 8 (t_body t)) = name.
Proof.
  intros Hh Hs Eb Hn. destruct (tag_head _ _ _ Hh Hs) as (_ & _ & H8 & _ & _ & _ & Hle). pose proof Hh as (Ha & _).
  rewrite Eb in H8, Hle. unfold module_body in *. rewrite !len_app in Hle. change (len (le32 _)) with 4 in Hle.
  assert (1 <= len (0 :: rest)) by (unfold len; cbn [length]; lia). pose proof (len_nonneg name).
  split; [by eapply holds_prefix|]. split.
  { replace (a + 12) with (a + 8 + len (le32 start)) by (change (len (le32 start)) with 4; lia). by eapply holds_at. }
  split.
  { split; [done|]. rewrite app_assoc in H8. apply holds_app in H8 as [_ H8].
    change (Z.of_nat (length (_ ++ _))) with 8 in H8. replace (a + 8 + 8) with (a + 16) in H8 by lia.
    change (0 :: rest) with ([0] ++ rest) in H8. rewrite app_assoc in H8. by eapply holds_prefix. }
  unfold is_u32. do 3 (split; [lia|]). rewrite Eb. unfold module_body. rewrite app_assoc.
  change 8%nat with (length (le32 start ++ le32 stop)). rewrite drop_app_length. by apply until_nul_app.
Qed.

Lemma wp_module_matches b a t name nm fuel (Q : option Z -> boot Mem -> Prop) ts :
  holds (b_mem b) a (tag_bytes t) -> a + tag_span t < 2 ^ 32 -> t ∈ ts -> modules_ok fuel ts ->
  cstring (b_mem b) nm name -> Forall is_u8 name ->
  Q (if module_named name t then Some a else None) b ->
  wp (if t_type t =? MULTIBOOT_TAG_TYPE_MODULE then
        let* c := zoom b_mem_l (strcmp fuel (u32 (a + 16)) nm) in
        ret (if c =? 0 then Some a else None)
      else ret None) Q b.
Proof.
  intros Hh Hs Hin Hok Hnm Hn8 HQ. unfold module_named, has_type in HQ.
  destruct (Z.eqb_spec (t_type t) MULTIBOOT_TAG_TYPE_MODULE) as [Et|]; [|by apply wp_ret].
  unfold modules_ok in Hok. rewrite Forall_forall in Hok.
  destruct (Hok t Hin Et) as (start & stop & name' & rest & _ & _ & Hz & Hz8 & Hf & Eb).
  destruct (module_cmdline _ _ _ _ _ _ _ Hh Hs Eb Hz) as (_ & _ & Hc & _ & _ & U16 & Eu).
  rewrite Eu in HQ. rewrite u32_id by done. apply wp_bind, (wp_zoom b_mem_l).
  eapply wp_mono; [apply (wp_strcmp (b_mem b) (a + 16) nm name' name); done|].
  intros r m' (-> & _ & Er). destruct b as [info m]. cbn [b_mem_l set_view boot_info b_mem] in *. apply wp_ret.
  destruct (Z.eqb_spec r 0) as [E|E]; [rewrite bool_decide_true in HQ by by apply Er|rewrite bool_decide_false in HQ by (intros En; by apply E, Er)]; exact HQ.
Qed.

(** Entries of a memory map. *)
Lemma wp_read_entry b a e rest (Q : mmap_entry -> boot Mem -> Prop) size :
  holds (b_mem b) a (entry_bytes e rest) -> valid_entry size (e, rest) -> Q e b -> wp (read_entry a) Q b.
Proof.
  intros Hh (H1 & H2 & H3 & _) HQ. cbn [fst] in *. unfold entry_bytes in Hh. pose proof Hh as (Ha & Hle & _).
  rewrite !length_app in Hle. cbn [length le64 le32 app] in Hle.
  assert (holds (b_mem b) (a + 8) (le64 (entry_len e))) as Hl by (eapply (holds_at _ _ (le64 (entry_addr e))); exact Hh).
  assert (holds (b_mem b) (a + 16) (le32 (entry_type e))) as Ht.
  { rewrite app_assoc in Hh. eapply (holds_at _ _ (le64 (entry_addr e) ++ le64 (entry_len e))). exact Hh. }
  apply wp_bind. apply (wp_read64 _ _ (entry_addr e)); [by eapply holds_prefix|done|].
  apply wp_bind. rewrite u32_id by (unfold is_u32; lia). apply (wp_read64 _ _ (entry_len e)); [done..|].
  apply wp_bind. rewrite u32_id by (unfold is_u32; lia). apply (wp_read32 _ _ (entry_type e)); [done..|].
  apply wp_ret. by destruct e.
Qed.

Definition entries_bytes (es : list (mmap_entry * list Z)) : list Z :=
  concat ((fun '(e, rest) => entry_bytes e rest) <$> es).

Lemma wp_read_entries b size es : forall a (Q : list mmap_entry -> boot Mem -> Prop),
  holds (b_mem b) a (entries_bytes es) -> Forall (valid_entry size) es -> a + len (entries_bytes es) < 2 ^ 32 ->
  Q es.*1 b -> wp (read_entries (length es) a size) Q b.
Proof.
  induction es as [|[e rest] es IH]; intros a Q Hh Hv Hle HQ; cbn [length read_entries]; [by apply wp_ret|].
  apply Forall_cons in Hv as [He Hv]. change (entries_bytes _) with (entry_bytes e rest ++ entries_bytes es) in Hh, Hle.
  apply holds_app in Hh as [Hh1 Hh2]. rewrite len_app in Hle. pose proof (len_nonneg (entries_bytes es)).
  assert (Z.of_nat (length (entry_bytes e rest)) = size) as El.
  { destruct He as (_ & _ & _ & <-). unfold entry_bytes, len. rewrite !length_app. cbn [length le64 le32 app snd]. lia. }
  apply wp_bind, (wp_read_entry _ _ e rest _ size); [done..|]. apply wp_bind. rewrite El in Hh2. unfold len in Hle at 1.
  rewrite El in Hle. destruct Hh1 as (Ha & _). rewrite u32_id by (unfold is_u32; lia).
  apply IH; [done|done|lia|]. apply wp_ret. exact HQ.
Qed.

Lemma len_entries size es : Forall (valid_entry size) es -> len (entries_bytes es) = size * len es.
Proof.
  induction es as [|[e rest] es IH]; intros Hv; [unfold len; cbn; lia|]. apply Forall_cons in Hv as [He Hv].
  change (entries_bytes _) with (entry_bytes e rest ++ entries_bytes es). rewrite len_app, IH by done.
  destruct He as (_ & _ & _ & <-). unfold entry_bytes. rewrite !len_app. cbn [snd].
  change (len (le64 _)) with 8. change (len (le32 _)) with 4. unfold len. cbn [length]. lia.
Qed.

Lemma wp_read_map b a t size version es (Q : option (list mmap_entry) -> boot Mem -> Prop) :
  0 < a -> holds (b_mem b) a (tag_bytes t) -> a + tag_span t < 2 ^ 32 -> t_body t = map_body size version es ->
  Forall (valid_entry size) es -> 20 <= size < 2 ^ 32 -> Q (Some es.*1) b -> wp (read_map a) Q b.
Proof.
  intros Hpos Hh Hs Eb Hv Hsz HQ. destruct (tag_head _ _ _ Hh Hs) as (_ & H4 & H8 & U4 & U8 & Us & Hle).
  rewrite Eb in *. unfold map_body in H8, H4, Us, Hle |- *. fold (entries_bytes es) in *. rewrite !len_app in *.
  change (len (le32 _)) with 4 in *. rewrite (len_entries size) in * by done. pose proof (len_nonneg es).
  unfold read_map. rewrite (proj2 (Z.eqb_neq a NULL)) by (unfold NULL; lia).
  apply wp_bind. unfold tag_size. rewrite u32_id by done. apply (wp_read32 _ _ (8 + (4 + (4 + size * len es)))); [done..|].
  apply wp_bind. rewrite u32_id by done. apply (wp_read32 _ _ size); [by eapply holds_prefix|unfold is_u32; lia|].
  rewrite (proj2 (Z.eqb_neq size 0)) by lia. unfold MMAP_HEADER_SIZE. rewrite u32_id by (unfold is_u32 in *; lia).
  replace (8 + (4 + (4 + size * len es)) - 16) with (len es * size) by lia. rewrite Z.div_mul by lia.
  unfold len at 1. rewrite Nat2Z.id. apply wp_bind.
  rewrite app_assoc in H8. apply holds_app in H8 as [_ H8]. change (Z.of_nat (length (_ ++ _))) with 8 in H8.
  replace (a + 8 + 8) with (a + 16) in H8 by lia. rewrite u32_id by (unfold is_u32; lia).
  apply (wp_read_entries b size); [done|done|rewrite (len_entries size) by done; lia|]. by apply wp_ret.
Qed.
(** Where a walk ends. *)
Lemma first_with_spec m p : forall ts a, 0 < a -> tags_at m a ts ->
  match find p ts with
  | Some t => 0 < first_with p a ts /\ holds m (first_with p a ts) (tag_bytes t) /\
      first_with p a ts + tag_span t < 2 ^ 32 /\ t ∈ ts /\ p t = true
  | None => first_with p a ts = NULL
  end.
Proof.
  induction ts as [|t ts IH]; intros a Ha Hts; [done|]. cbn [find first_with tags_at] in *.
  destruct Hts as (Hh & _ & Hs & Hts). destruct (p t) eqn:Ep; [repeat (split; [done|]); split; [left|done]|].
  assert (0 <= tag_span t) by (unfold tag_span; pose proof (len_nonneg (t_body t)); lia).
  specialize (IH (a + tag_span t) ltac:(lia) Hts). destruct (find p ts); [|done].
  destruct IH as (? & ? & ? & ? & ?). repeat (split; [done|]). split; [by right|done].
Qed.

(** What the tags say of the memory map and of the module called [name]. *)
Definition describes ts (name : list Z) (entries : list mmap_entry) (bounds : option (Z * Z)) : Prop :=
  (exists t size version es, find (has_type MULTIBOOT_TAG_TYPE_MMAP) ts = Some t /\
     t_body t = map_body size version es /\ 20 <= size < 2 ^ 32 /\ Forall (valid_entry size) es /\ entries = es.*1) /\
  match find (module_named name) ts with
  | Some t => exists start stop nm rest, is_u32 start /\ is_u32 stop /\ Forall (fun c => c <> 0) nm /\
      t_body t = module_body start stop nm rest /\ bounds = Some (start, stop)
  | None => bounds = None
  end.

(** The boot information at [boot_info b] holds the tags [ts]. *)
Record boot_holds b (total : Z) ts : Prop := {
  bh_info : 0 < boot_info b /\ boot_info b + 8 < 2 ^ 32;
  bh_total : holds (b_mem b) (boot_info b) (le32 total) /\ is_u32 total;
  bh_tags : tags_at (b_mem b) (boot_info b + 8) ts;
}.

Lemma find_tag_ok b total ts fuel type :
  boot_holds b total ts -> (length ts < fuel)%nat ->
  multiboot2_find_tag fuel type b = Ok (first_with (has_type type) (boot_info b + 8) ts) b.
Proof.
  intros [[H1 H2] _ Hts] Hf.
  destruct (wp_inv (multiboot2_find_tag fuel type) (fun r b' => r = first_with (has_type type) (boot_info b + 8) ts /\ b' = b) b)
    as (r & b' & E & -> & ->); [|done].
  apply (wp_walk _ _ (has_type type) ts); [unfold is_u32; lia|done| |done|done]. intros a t _ _ _. by apply wp_ret.
Qed.

Lemma find_module_ok b total ts fuel fuel' name nm :
  boot_holds b total ts -> (length ts < fuel)%nat -> modules_ok fuel' ts ->
  cstring (b_mem b) nm name -> Forall is_u8 name ->
  multiboot2_find_module fuel fuel' nm b = Ok (first_with (module_named name) (boot_info b + 8) ts) b.
Proof.
  intros [[H1 H2] _ Hts] Hf Hok Hc H8.
  destruct (wp_inv (multiboot2_find_module fuel fuel' nm)
    (fun r b' => r = first_with (module_named name) (boot_info b + 8) ts /\ b' = b) b) as (r & b' & E & -> & ->); [|done].
  apply (wp_walk _ _ (module_named name) ts); [unfold is_u32; lia|done| |done|done]. intros a t Hh Hs Hin.
  by apply (wp_module_matches b a t name nm fuel' _ ts).
Qed.

Lemma wp_bounds b a t start stop nm rest (Q : option (Z * Z) -> boot Mem -> Prop) :
  0 < a -> holds (b_mem b) a (tag_bytes t) -> a + tag_span t < 2 ^ 32 -> t_body t = module_body start stop nm rest ->
  Forall (fun c => c <> 0) nm -> is_u32 start -> is_u32 stop -> Q (Some (start, stop)) b ->
  wp (if a =? NULL then ret None
      else let* start := read32 (u32 (a + 8)) in let* stop := read32 (u32 (a + 12)) in ret (Some (start, stop))) Q b.
Proof.
  intros Ha Hh Hs Eb Hn H1 H2 HQ. destruct (module_cmdline _ _ _ _ _ _ _ Hh Hs Eb Hn) as (Hl1 & Hl2 & _ & U8 & U12 & _).
  rewrite (proj2 (Z.eqb_neq a NULL)) by (unfold NULL; lia). rewrite !u32_id by done.
  apply wp_bind, (wp_read32 _ _ start); [done..|]. apply wp_bind, (wp_read32 _ _ stop); [done..|]. by apply wp_ret.
Qed.

(** What [pmm_init] reads. *)
Lemma read_boot_memory_ok b total ts name rootfs fuel fuel' kernel_end entries bounds :
  boot_holds b total ts -> (length ts < fuel)%nat -> modules_ok fuel' ts ->
  cstring (b_mem b) rootfs name -> Forall is_u8 name -> describes ts name entries bounds ->
  read_boot_memory fuel fuel' rootfs kernel_end b = Ok (BootMemory (Some entries) (boot_info b) total bounds kernel_end) b.
Proof.
  intros Hb Hf Hok Hc H8 ((t & size & version & es & Et & Eb & Hsz & Hv & ->) & Hbounds).
  pose proof (fun type => find_tag_ok b total ts fuel type Hb Hf) as Hfind.
  pose proof (find_module_ok b total ts fuel fuel' name rootfs Hb Hf Hok Hc H8) as Hmod.
  destruct Hb as [[H1 H2] [Ht1 Ht2] Hts].
  pose proof (first_with_spec (b_mem b) (has_type MULTIBOOT_TAG_TYPE_MMAP) ts (boot_info b + 8) ltac:(lia) Hts) as Hmap.
  pose proof (first_with_spec (b_mem b) (module_named name) ts (boot_info b + 8) ltac:(lia) Hts) as Hm. rewrite Et in Hmap.
  destruct Hmap as (Hp & Hh & Hs & _).
  destruct (wp_inv (read_boot_memory fuel fuel' rootfs kernel_end)
    (fun r b' => r = BootMemory (Some es.*1) (boot_info b) total bounds kernel_end /\ b' = b) b) as (r & b' & E & -> & ->); [|done].
  unfold read_boot_memory, multiboot2_memory_map. apply wp_bind. eapply wp_Ok; [apply Hfind|]. apply wp_bind, wp_gets.
  apply wp_bind. eapply wp_Ok; [exact Hmod|]. apply wp_bind, (wp_read_map _ _ t size version es); [done..|].
  apply wp_bind, wp_bind, wp_gets. apply (wp_read32 _ _ total); [done..|]. apply wp_bind.
  destruct (find (module_named name) ts) as [mt|].
  - destruct Hm as (Hmp & Hmh & Hms & _). destruct Hbounds as (start & stop & nm & rest & Hu1 & Hu2 & Hnz & Emb & ->).
    apply (wp_bounds _ _ mt start stop nm rest); [done..|]. by apply wp_ret.
  - rewrite Hm, Hbounds. by do 2 apply wp_ret.
Qed.

(** C39 The walks over the boot information end, after one round per tag and
    one for the end tag, and do not read outside of the tags: a search finds
    the first tag of the type, or the first module of the name, or nothing.
    So what [pmm_init] works on is what the tags describe: the entries of the
    first memory map, in order, and the bounds of the module. *)
Theorem boot_tags_spec b total ts name rootfs fuel fuel' kernel_end :
  boot_holds b total ts -> (length ts < fuel)%nat -> modules_ok fuel' ts ->
  cstring (b_mem b) rootfs name -> Forall is_u8 name ->
  (forall type, multiboot2_find_tag fuel type b = Ok (first_with (has_type type) (boot_info b + 8) ts) b) /\
  multiboot2_find_module fuel fuel' rootfs b = Ok (first_with (module_named name) (boot_info b + 8) ts) b /\
  forall entries bounds, describes ts name entries bounds ->
    read_boot_memory fuel fuel' rootfs kernel_end b =
      Ok (BootMemory (Some entries) (boot_info b) total bounds kernel_end) b.
Proof.
  intros Hb Hf Hok Hc H8. split; [intros type; by apply (find_tag_ok b total ts)|].
  split; [by apply (find_module_ok b total ts)|]. intros entries bounds Hd. by apply (read_boot_memory_ok b total ts name).
Qed.
End Spec.

(** ** Witness *)

Definition demo_tags : list tag :=
  [Tag 1 [47; 0]; Tag 3 (module_body 0x200000 0x210000 [114; 111; 111; 116; 102; 115] []);
   Tag 6 (map_body 24 0 [(MmapEntry 0 0x9F000 1, [0; 0; 0; 0]); (MmapEntry 0x100000 0x1000000 1, [0; 0; 0; 0])])].

(** The bytes of tags, the gaps filled with zeros. *)
Definition tags_bytes (ts : list tag) : list Z :=
  concat ((fun t => tag_bytes t ++ replicate (Z.to_nat (tag_span t - len (tag_bytes t))) 0) <$> ts) ++ le32 0 ++ le32 8.

Definition demo_info : list Z := le32 144 ++ le32 0 ++ tags_bytes demo_tags.
Definition demo_boot_info : boot (gmap Z Z) :=
  Boot 0xC0007000 (list_to_map (zip (seqZ 0xC0007000 (len demo_info)) demo_info) ∪
                   list_to_map (zip (seqZ 0xC0100000 7) [114; 111; 111; 116; 102; 115; 0])).

(** [holds], decided. *)
Definition holds_check (m : gmap Z Z) (p : Z) (l : list Z) : bool :=
  (0 <=? p) && (p + len l <=? 2 ^ 32) && forallb (fun '(i, v) => bool_decide (m !! (p + i) = Some v)) (zip (seqZ 0 (len l)) l).

Lemma holds_check_ok m p l : holds_check m p l = true -> holds m p l.
Proof.
  unfold holds_check, len. rewrite !andb_true_iff, Z.leb_le, Z.leb_le, forallb_forall. intros [[H1 H2] H3].
  split; [done|]. split; [done|]. intros i v E. specialize (H3 (Z.of_nat i, v)).
  apply bool_decide_eq_true in H3; [exact H3|]. apply list_elem_of_In, list_elem_of_lookup. exists i.
  apply lookup_zip_with_Some. exists (Z.of_nat i), v. split; [done|]. split; [|done].
  apply lookup_seqZ. apply lookup_lt_Some in E. lia.
Qed.

Lemma demo_boot_holds : boot_holds demo_boot_info 144 demo_tags.
Proof.
  split; [by split| |].
  - split; [apply holds_check_ok; by vm_compute|done].
  - cbn [tags_at demo_tags]. do 3 (split; [apply holds_check_ok; by vm_compute|]; split; [by split|]; split; [by vm_compute|]).
    apply holds_check_ok. by vm_compute.
Qed.

Lemma boot_tags_spec_witness :
  read_boot_memory 4 7 0xC0100000 0x150000 demo_boot_info =
    Ok (BootMemory (Some [MmapEntry 0 0x9F000 1; MmapEntry 0x100000 0x1000000 1]) 0xC0007000 144
          (Some (0x200000, 0x210000)) 0x150000) demo_boot_info.
Proof.
  destruct (boot_tags_spec demo_boot_info 144 demo_tags [114; 111; 111; 116; 102; 115] 0xC0100000 4 7 0x150000) as (_ & _ & H).
  - exact demo_boot_holds.
  - vm_compute. lia.
  - repeat (constructor; [try discriminate|]); [|constructor]. intros _.
    exists 0x200000, 0x210000, [114; 111; 111; 116; 102; 115], []. unfold is_u32, is_u8. repeat split; try lia; repeat constructor; try discriminate; lia.
  - split; [repeat constructor; discriminate|apply holds_check_ok; vm_compute; reflexivity].
  - unfold is_u8. repeat constructor; lia.
  - apply H. split.
    + exists (Tag 6 (map_body 24 0 [(MmapEntry 0 0x9F000 1, [0; 0; 0; 0]); (MmapEntry 0x100000 0x1000000 1, [0; 0; 0; 0])])), 24, 0,
        [(MmapEntry 0 0x9F000 1, [0; 0; 0; 0]); (MmapEntry 0x100000 0x1000000 1, [0; 0; 0; 0])].
      split; [reflexivity|]. split; [reflexivity|]. split; [lia|]. split; [|reflexivity].
      unfold valid_entry, is_u64, is_u32. repeat constructor; cbn; lia.
    + exists 0x200000, 0x210000, [114; 111; 111; 116; 102; 115], []. unfold is_u32. repeat split; try lia. repeat constructor; discriminate.
Defined.

(** A tag whose size field is 0 is its own successor: a search for another
    type does not end. *)
Example zero_size_tag_loops fuel :
  multiboot2_find_tag fuel 6 (Boot 0 (list_to_map (zip (seqZ 8 8) (le32 1 ++ le32 0)) : gmap Z Z)) = Fault Diverged.
Proof.
  unfold multiboot2_find_tag, walk_tags. cbn [bind gets multiboot2_first_tag boot_info]. change (u32 (0 + 8)) with 8.
  induction fuel as [|fuel IH]; [done|]. cbn [loop]. exact IH.
Qed.
