(* ===== verification/Vam.v ===== *)
(** * Kernel virtual address manager

    [kernel/mm/vam.c]: two statically allocated bitmaps, one bit per page of
    the kernel's virtual address space and one bit per kernel stack slot. The
    linker symbol [kernel_virtual_end] is an argument of [vam_init]. *)

From S2P Require Import Prelude Layout Bitmap.

Definition VAM_TOTAL_PAGES : Z := KERNEL_VIRT_SIZE / PAGE_SIZE.
Definition VAM_BITMAP_BYTES : Z := u32 (VAM_TOTAL_PAGES + 7) / 8.

(** The statics of [vam.c]. *)
Record vam : Type := Vam {
  vam_bitmap : bytes;
  kernel_stack_bitmap : bytes;
}.

Definition vam_bitmap_l : lens vam bytes :=
  Lens vam_bitmap (fun bm v => Vam bm (kernel_stack_bitmap v)).
Definition stack_bitmap_l : lens vam bytes :=
  Lens kernel_stack_bitmap (fun bm v => Vam (vam_bitmap v) bm).

(** Before [vam_init]: statics are zero. *)
Definition vam_start : vam :=
  Vam (filled VAM_BITMAP_BYTES 0) (filled KERNEL_STACK_BITMAP_BYTES 0).

Definition vam_addr_to_index (virt : Z) : Z := u32 (virt - KERNEL_VIRT_BASE) / PAGE_SIZE.

Definition vam_index_to_addr (index : Z) : Z := u32 (KERNEL_VIRT_BASE + u32 (index * PAGE_SIZE)).

Definition kernel_stack_slot_test (slot : Z) : M vam bool := zoom stack_bitmap_l (mask_bit slot).
Definition kernel_stack_slot_set (slot : Z) : M vam unit := zoom stack_bitmap_l (set_bit slot).
Definition kernel_stack_slot_clear (slot : Z) : M vam unit := zoom stack_bitmap_l (clear_bit slot).

Definition bitmap_range_set (start count : Z) : M vam unit :=
  zoom vam_bitmap_l (set_bits start count).
Definition bitmap_range_clear (start count : Z) : M vam unit :=
  zoom vam_bitmap_l (clear_bits start count).
Definition bitmap_range_free (start count : Z) : M vam bool :=
  zoom vam_bitmap_l (bits_clear start count).

Definition vam_reserve_region (start stop : Z) : M vam unit :=
  let first := vam_addr_to_index start in
  let count := u32 (u32 (stop - start) / PAGE_SIZE + 1) in
  bitmap_range_set first count.

Definition vam_alloc_stack : M vam Z :=
  let* r := for_range 0 (Z.to_nat KERNEL_STACK_COUNT) (fun slot =>
    let* used := kernel_stack_slot_test slot in
    if negb used then
      kernel_stack_slot_set slot ;;;
      ret (Some (u32 (KERNEL_STACKS_START + u32 (slot * KERNEL_STACK_SIZE))))
    else ret None) in
  ret (default NULL r).

Definition vam_free_stack (address : Z) : M vam unit :=
  if address =? NULL then ret tt
  else if (address <? KERNEL_STACKS_START) || (KERNEL_STACKS_END <? address) then ret tt
  else if negb (u32 (address - KERNEL_STACKS_START) mod KERNEL_STACK_SIZE =? 0) then ret tt
  else
    let slot := u32 (address - KERNEL_STACKS_START) / KERNEL_STACK_SIZE in
    if KERNEL_STACK_COUNT <=? slot then ret tt
    else kernel_stack_slot_clear slot.

Definition vam_init (kernel_virtual_end : Z) : M vam unit :=
  zoom vam_bitmap_l (fill VAM_BITMAP_BYTES 0) ;;;
  zoom stack_bitmap_l (fill KERNEL_STACK_BITMAP_BYTES 0) ;;;
  let image_end := Z.land (u32 (kernel_virtual_end + PAGE_SIZE - 1))
                          (u32 (Z.lnot (PAGE_SIZE - 1))) in
  vam_reserve_region KERNEL_IMAGE_BASE (u32 (image_end - 1)) ;;;
  vam_reserve_region KERNEL_HEAP_START KERNEL_HEAP_END ;;;
  vam_reserve_region KERNEL_STACKS_START KERNEL_STACKS_END.

(** [for (index = 0; index <= VAM_TOTAL_PAGES - count; index++)]: the bound is
    computed in [uint32_t]. *)
Definition vam_alloc_pages (count : Z) : M vam Z :=
  if count =? 0 then ret NULL
  else
    let* r := for_range 0 (Z.to_nat (u32 (VAM_TOTAL_PAGES - count) + 1)) (fun index =>
      let* free := bitmap_range_free index count in
      if free then
        bitmap_range_set index count ;;;
        ret (Some (vam_index_to_addr index))
      else ret None) in
    ret (default NULL r).

Definition vam_free_pages (addr count : Z) : M vam unit :=
  if count =? 0 then ret tt
  else
    let index := vam_addr_to_index addr in
    bitmap_range_clear index count.

(** ** The manager as two sets *)

Record vam_inv (v : vam) : Prop := {
  vam_inv_pages : bytes_ok VAM_BITMAP_BYTES (vam_bitmap v);
  vam_inv_stacks : bytes_ok KERNEL_STACK_BITMAP_BYTES (kernel_stack_bitmap v);
}.

(** Page [i] of the kernel region, slot [s] of the stack region. *)
Definition occupied (v : vam) (i : Z) : bool := bit (vam_bitmap v) i.
Definition slot_used (v : vam) (s : Z) : bool := bit (kernel_stack_bitmap v) s.

Definition run_free (v : vam) (i count : Z) : Prop :=
  forall j, i <= j < i + count -> occupied v j = false.

(** [v'] is [v] with exactly the pages [i .. i+count-1] occupied, or free. *)
Definition pages_reserved (i count : Z) (v v' : vam) : Prop :=
  vam_inv v' /\ kernel_stack_bitmap v' = kernel_stack_bitmap v /\
  forall j, occupied v' j = in_range i count j || occupied v j.
Definition pages_released (i count : Z) (v v' : vam) : Prop :=
  vam_inv v' /\ kernel_stack_bitmap v' = kernel_stack_bitmap v /\
  forall j, occupied v' j = negb (in_range i count j) && occupied v j.

Ltac vam_consts := unfold VAM_TOTAL_PAGES, VAM_BITMAP_BYTES, KERNEL_STACK_BITMAP_BYTES,
  KERNEL_STACK_COUNT in *; layout.

Section Vam.
Implicit Types (v : vam) (i j count slot : Z).

Lemma vam_sizes : VAM_TOTAL_PAGES = 261120 /\ 8 * VAM_BITMAP_BYTES = VAM_TOTAL_PAGES /\
  KERNEL_STACK_COUNT = 16384 /\ 8 * KERNEL_STACK_BITMAP_BYTES = KERNEL_STACK_COUNT.
Proof. by vm_compute. Qed.

Lemma index_to_addr i :
  0 <= i < VAM_TOTAL_PAGES ->
  vam_index_to_addr i = KERNEL_VIRT_BASE + i * PAGE_SIZE /\
  vam_addr_to_index (vam_index_to_addr i) = i.
Proof.
  intros Hi. pose proof vam_sizes as (E & _). rewrite E in Hi.
  unfold vam_addr_to_index, vam_index_to_addr, KERNEL_VIRT_BASE, PAGE_SIZE.
  rewrite (u32_id (i * 4096)) by (unfold is_u32; lia).
  rewrite (u32_id (_ + _)) by (unfold is_u32; lia).
  rewrite u32_id by (unfold is_u32; lia). lia.
Qed.

Lemma wp_range_set v i count (Q : unit -> vam -> Prop) :
  vam_inv v -> 0 <= i -> 0 <= count -> i + count <= VAM_TOTAL_PAGES ->
  (forall v', pages_reserved i count v v' -> Q tt v') -> wp (bitmap_range_set i count) Q v.
Proof.
  intros [Hp Hs] Hi Hc Hle HQ. pose proof vam_sizes as (E1 & E2 & _).
  apply wp_zoom, (wp_set_bits VAM_BITMAP_BYTES); [done|lia..|]. intros bm Hok Hbits. apply HQ.
  split; [by split|]. split; [done|]. exact Hbits.
Qed.

Lemma wp_range_clear v i count (Q : unit -> vam -> Prop) :
  vam_inv v -> 0 <= i -> 0 <= count -> i + count <= VAM_TOTAL_PAGES ->
  (forall v', pages_released i count v v' -> Q tt v') -> wp (bitmap_range_clear i count) Q v.
Proof.
  intros [Hp Hs] Hi Hc Hle HQ. pose proof vam_sizes as (E1 & E2 & _).
  apply wp_zoom, (wp_clear_bits VAM_BITMAP_BYTES); [done|lia..|]. intros bm Hok Hbits. apply HQ.
  split; [by split|]. split; [done|]. exact Hbits.
Qed.

Lemma vam_view_pages v : set_view vam_bitmap_l (vam_bitmap v) v = v.
Proof. by destruct v. Qed.

Lemma vam_view_stacks v : set_view stack_bitmap_l (kernel_stack_bitmap v) v = v.
Proof. by destruct v. Qed.

Lemma wp_range_free v i count (Q : bool -> vam -> Prop) :
  vam_inv v -> 0 <= i -> 0 <= count -> i + count <= VAM_TOTAL_PAGES ->
  (forall r, (r = true <-> run_free v i count) -> Q r v) -> wp (bitmap_range_free i count) Q v.
Proof.
  intros [Hp Hs] Hi Hc Hle HQ. pose proof vam_sizes as (E1 & E2 & _).
  apply wp_zoom, (wp_bits_clear VAM_BITMAP_BYTES); [done|lia..|]. intros r Hr.
  cbn [view vam_bitmap_l]. rewrite vam_view_pages. by apply HQ.
Qed.

(** First fit: the lowest run, or none exists. *)
Lemma wp_vam_alloc_pages v count (Q : Z -> vam -> Prop) :
  vam_inv v -> 0 < count <= VAM_TOTAL_PAGES ->
  ((forall i, 0 <= i <= VAM_TOTAL_PAGES - count -> ~ run_free v i count) -> Q NULL v) ->
  (forall i v', 0 <= i <= VAM_TOTAL_PAGES - count -> run_free v i count ->
     (forall k, 0 <= k < i -> ~ run_free v k count) -> pages_reserved i count v v' ->
     Q (KERNEL_VIRT_BASE + i * PAGE_SIZE) v') ->
  wp (vam_alloc_pages count) Q v.
Proof.
  intros Hinv Hc Hnone Hsome. pose proof vam_sizes as (E & _). unfold vam_alloc_pages.
  rewrite (proj2 (Z.eqb_neq _ _)) by lia. rewrite u32_id by (unfold is_u32; lia).
  apply wp_bind. apply (wp_for_range (fun i v' => v' = v /\ 0 <= i /\
    forall k, 0 <= k < i -> ~ run_free v k count)).
  - split; [done|]. split; [done|]. intros k Hk. lia.
  - intros i v' Hi (-> & _ & Hno). apply wp_bind, wp_range_free; [done|lia..|].
    intros [] Hr.
    + apply wp_bind, wp_range_set; [done|lia..|]. intros v' Hres. do 2 apply wp_ret. cbn.
      rewrite (proj1 (index_to_addr i ltac:(lia))). apply Hsome; [lia|by apply Hr|done|done].
    + apply wp_ret. split; [done|]. split; [lia|]. intros k Hk.
      destruct (decide (k = i)) as [->|]; [by intros H%Hr|apply Hno; lia].
  - intros v' (-> & _ & Hno). apply wp_ret, Hnone. intros i Hi. apply Hno. lia.
Qed.

Lemma wp_vam_free_pages v i count (Q : unit -> vam -> Prop) :
  vam_inv v -> 0 <= i -> 0 < count -> i + count <= VAM_TOTAL_PAGES ->
  (forall v', pages_released i count v v' -> Q tt v') ->
  wp (vam_free_pages (KERNEL_VIRT_BASE + i * PAGE_SIZE) count) Q v.
Proof.
  intros Hinv Hi Hc Hle HQ. unfold vam_free_pages. rewrite (proj2 (Z.eqb_neq _ _)) by lia.
  destruct (index_to_addr i) as [E1 E2]; [lia|]. rewrite <- E1, E2.
  apply wp_range_clear; [done|lia..|done].
Qed.

(** Rounding the image end up to a page. *)
Lemma align_up_u32 x :
  0 <= x -> x + PAGE_SIZE - 1 < 2 ^ 32 ->
  Z.land (u32 (x + PAGE_SIZE - 1)) (u32 (Z.lnot (PAGE_SIZE - 1)))
  = PAGE_SIZE * ((x + PAGE_SIZE - 1) / PAGE_SIZE).
Proof.
  intros Hx Hle. unfold PAGE_SIZE in *. change (4096 - 1) with (2 ^ 12 - 1).
  rewrite u32_id by (unfold is_u32; lia). rewrite land_lnot_mask; [done|lia|unfold is_u32; lia].
Qed.

Lemma wp_reserve_region v first last (Q : unit -> vam -> Prop) :
  vam_inv v -> 0 <= first <= last -> last < VAM_TOTAL_PAGES ->
  (forall v', pages_reserved first (last + 1 - first) v v' -> Q tt v') ->
  wp (vam_reserve_region (KERNEL_VIRT_BASE + first * PAGE_SIZE)
    (KERNEL_VIRT_BASE + last * PAGE_SIZE + PAGE_SIZE - 1)) Q v.
Proof.
  intros Hinv Hf Hl HQ. pose proof vam_sizes as (E & _). unfold vam_reserve_region.
  assert (vam_addr_to_index (KERNEL_VIRT_BASE + first * PAGE_SIZE) = first) as ->
    by (unfold vam_addr_to_index, KERNEL_VIRT_BASE, PAGE_SIZE;
        rewrite u32_id by (unfold is_u32; lia); lia).
  assert (u32 (u32 (KERNEL_VIRT_BASE + last * PAGE_SIZE + PAGE_SIZE - 1
    - (KERNEL_VIRT_BASE + first * PAGE_SIZE)) / PAGE_SIZE + 1) = last + 1 - first) as ->.
  { unfold PAGE_SIZE, KERNEL_VIRT_BASE.
    rewrite (u32_id (_ - (_ + _))) by (unfold is_u32; lia).
    rewrite u32_id by (unfold is_u32; lia). lia. }
  apply wp_range_set; [done|lia..|done].
Qed.
End Vam.

(** ** Oversized requests

    A request for more pages than there are makes the loop bound wrap, and the
    scan runs off the end of the bitmap. *)

Section Oversized.
Implicit Types (v : vam) (bs : bytes).

Lemma for_range_faults {S R} (body : Z -> M S (option R)) f s k n :
  forall i, (forall j, i <= j < k -> body j s = Ok None s) -> body k s = Fault f ->
  i <= k < i + Z.of_nat n -> for_range i n body s = Fault f.
Proof.
  induction n as [|n IH]; intros i Hno Hf Hk; [lia|]. cbn [for_range]. unfold bind.
  destruct (decide (i = k)) as [->|Hne]; [by rewrite Hf|].
  rewrite Hno by lia. apply IH; [|done|lia]. intros j Hj. apply Hno. lia.
Qed.

(** The start of the free tail of the bitmap. *)
Lemma free_tail bs (n : nat) :
  exists k, 0 <= k <= Z.of_nat n /\ (forall j, k <= j < Z.of_nat n -> bit bs j = false) /\
    (0 < k -> bit bs (k - 1) = true).
Proof.
  induction n as [|n (k & Hk & Hclear & Hset)]; [exists 0; split; [lia|split; intros; lia]|].
  destruct (bit bs (Z.of_nat n)) eqn:E.
  - exists (Z.of_nat n + 1). split; [lia|]. split; [intros; lia|]. intros _.
    by replace (Z.of_nat n + 1 - 1) with (Z.of_nat n) by lia.
  - exists k. split; [lia|]. split; [|done]. intros j Hj.
    destruct (decide (j = Z.of_nat n)) as [->|]; [done|]. apply Hclear. lia.
Qed.

Lemma mask_bit_run n bs i :
  bytes_ok n bs -> 0 <= i < 8 * n -> mask_bit i bs = Ok (bit bs i) bs.
Proof.
  intros Hok Hi. assert (wp (mask_bit i) (fun b bs' => b = bit bs i /\ bs' = bs) bs) as H
    by (by apply (wp_mask_bit n)).
  apply wp_inv in H as (b & bs' & -> & -> & ->). done.
Qed.

(** A scan that meets an occupied page stops there; one that does not reads
    the byte after the array. *)
Lemma bits_clear_stops n bs i count b :
  bytes_ok n bs -> 8 * n < 2 ^ 32 -> 0 <= i <= b -> b < 8 * n -> b < i + count ->
  bit bs b = true -> bits_clear i count bs = Ok false bs.
Proof.
  intros Hok Hn Hi Hb Hc Hset.
  assert (wp (bits_clear i count) (fun r bs' => r = false /\ bs' = bs) bs) as H.
  { unfold bits_clear. apply wp_bind.
    apply (wp_for_range (fun k bs' => bs' = bs /\ k <= b - i)).
    - split; [done|lia].
    - intros j bs' Hj [-> Hle]. rewrite u32_id by (unfold is_u32; lia).
      apply wp_bind, (wp_mask_bit n); [done|lia|]. apply wp_ret.
      destruct (bit bs (i + j)) eqn:E; [by apply wp_ret|]. split; [done|].
      destruct (decide (j = b - i)) as [->|]; [|lia].
      replace (i + (b - i)) with b in E by lia. congruence.
    - intros bs' [-> Hle]. lia. }
  apply wp_inv in H as (r & bs' & -> & -> & ->). done.
Qed.

Lemma bits_clear_overruns n bs i count :
  bytes_ok n bs -> 0 <= n -> 8 * n < 2 ^ 32 -> 0 <= i <= 8 * n -> 8 * n < i + count ->
  (forall j, i <= j < 8 * n -> bit bs j = false) ->
  bits_clear i count bs = Fault (OutOfBounds n).
Proof.
  intros Hok Hn0 Hn Hi Hc Hclear. unfold bits_clear, bind at 1.
  erewrite (for_range_faults _ (OutOfBounds n) bs (8 * n - i)); [done|..].
  - intros j Hj. rewrite u32_id by (unfold is_u32; lia). unfold bind.
    rewrite (mask_bit_run n) by (done || lia). by rewrite Hclear by lia.
  - replace (i + (8 * n - i)) with (8 * n) by lia. rewrite u32_id by (unfold is_u32; lia).
    unfold mask_bit, bind, load. replace (8 * n / 8) with n by lia.
    specialize (Hok n). destruct (bs !! n); [lia|done].
  - lia.
Qed.

Lemma vam_alloc_pages_overruns v count :
  vam_inv v -> VAM_TOTAL_PAGES < count < 2 ^ 32 ->
  vam_alloc_pages count v = Fault (OutOfBounds VAM_BITMAP_BYTES).
Proof.
  intros [Hp _] Hc. pose proof vam_sizes as (E1 & E2 & _).
  destruct (free_tail (vam_bitmap v) (Z.to_nat VAM_TOTAL_PAGES)) as (k & Hk & Hclear & Hset).
  rewrite Z2Nat.id in * by lia. unfold vam_alloc_pages.
  rewrite (proj2 (Z.eqb_neq _ _)) by lia. unfold bind at 1.
  erewrite (for_range_faults _ (OutOfBounds VAM_BITMAP_BYTES) v k); [done|..].
  - intros j Hj. unfold bind, bitmap_range_free, zoom. cbn [view vam_bitmap_l].
    rewrite (bits_clear_stops VAM_BITMAP_BYTES _ _ _ (k - 1)) by (done || lia || (apply Hset; lia)).
    change (Ok None (set_view vam_bitmap_l (vam_bitmap v) v) = Ok (@None Z) v).
    by rewrite vam_view_pages.
  - unfold bind, bitmap_range_free, zoom. cbn [view vam_bitmap_l].
    rewrite (bits_clear_overruns VAM_BITMAP_BYTES); [done|done|lia..|].
    intros j Hj. apply Hclear. lia.
  - assert (u32 (VAM_TOTAL_PAGES - count) = VAM_TOTAL_PAGES - count + 2 ^ 32) as ->
      by (unfold u32; symmetry; apply Z.mod_unique with (-1); lia).
    lia.
Qed.
End Oversized.

(** ** Specifications *)

Section Specifications.
Implicit Types (v : vam) (i j count slot : Z).

(** C33 [vam_alloc_pages] on every 32-bit count, in every state: for 0 it
    answers [NULL]; for a count that fits it is first fit - it returns the
    lowest run of free pages and occupies exactly that run, or answers [NULL]
    and changes nothing when no run exists; for a larger count the bound of
    its loop wraps and it reads past the end of its bitmap. *)
Theorem vam_alloc_pages_spec v count :
  vam_inv v -> is_u32 count ->
  (count = 0 -> vam_alloc_pages count v = Ok NULL v) /\
  (0 < count <= VAM_TOTAL_PAGES ->
    wp (vam_alloc_pages count) (fun addr v' =>
      (addr = NULL /\ v' = v /\
        forall i, 0 <= i <= VAM_TOTAL_PAGES - count -> ~ run_free v i count) \/
      (exists i, addr = KERNEL_VIRT_BASE + i * PAGE_SIZE /\ 0 <= i <= VAM_TOTAL_PAGES - count /\
        run_free v i count /\ (forall k, 0 <= k < i -> ~ run_free v k count) /\
        pages_reserved i count v v')) v) /\
  (VAM_TOTAL_PAGES < count -> vam_alloc_pages count v = Fault (OutOfBounds VAM_BITMAP_BYTES)).
Proof.
  intros Hinv Hc. split; [by intros ->|]. split.
  - intros Hle. apply wp_vam_alloc_pages; [done..| |].
    + intros Hno. by left.
    + intros i v' Hi Hrun Hleast Hres. right. by exists i.
  - intros Hgt. apply vam_alloc_pages_overruns; [done|]. unfold is_u32 in Hc. lia.
Qed.

(** Which pages are fixed at boot: the image, the heap and the stacks. *)
Definition boot_reserved (kernel_virtual_end i : Z) : bool :=
  in_range 256 ((kernel_virtual_end + PAGE_SIZE - 1) / PAGE_SIZE - KERNEL_IMAGE_BASE / PAGE_SIZE) i ||
  in_range 4096 (KERNEL_HEAP_SIZE / PAGE_SIZE) i ||
  in_range 65536 (KERNEL_STACKS_SIZE / PAGE_SIZE) i.

Lemma wp_vam_init v kernel_virtual_end :
  vam_inv v -> KERNEL_IMAGE_BASE < kernel_virtual_end <= KERNEL_HEAP_START ->
  wp (vam_init kernel_virtual_end) (fun _ v' => vam_inv v' /\
    (forall i, 0 <= i < VAM_TOTAL_PAGES -> occupied v' i = boot_reserved kernel_virtual_end i) /\
    (forall s, 0 <= s < KERNEL_STACK_COUNT -> slot_used v' s = false)) v.
Proof.
  intros [Hp Hs] Hend. pose proof vam_sizes as (E1 & E2 & E3 & E4). unfold vam_init.
  apply wp_bind, wp_zoom, (wp_fill VAM_BITMAP_BYTES); [done|lia|]. intros bm Hok Hzero _.
  apply wp_bind, wp_zoom, (wp_fill KERNEL_STACK_BITMAP_BYTES); [done|lia|].
  intros bs Hoks Hzeros _. cbv zeta.
  set (last := (kernel_virtual_end + PAGE_SIZE - 1) / PAGE_SIZE - KERNEL_VIRT_BASE / PAGE_SIZE - 1).
  change KERNEL_IMAGE_BASE with 0xC0100000 in *. change KERNEL_HEAP_START with 0xC1000000 in *.
  assert (256 <= last < 4096) as Hlast by (unfold last, PAGE_SIZE, KERNEL_VIRT_BASE; lia).
  rewrite align_up_u32 by (unfold PAGE_SIZE; lia).
  replace (u32 (PAGE_SIZE * _ - 1)) with (KERNEL_VIRT_BASE + last * PAGE_SIZE + PAGE_SIZE - 1).
  2:{ unfold last, PAGE_SIZE, KERNEL_VIRT_BASE. rewrite u32_id by (unfold is_u32; lia). lia. }
  apply wp_bind, (wp_reserve_region _ 256); [by split|lia..|]. intros v1 (Hv1 & Hk1 & Ho1).
  apply wp_bind, (wp_reserve_region _ 4096 65535); [done|lia..|]. intros v2 (Hv2 & Hk2 & Ho2).
  apply (wp_reserve_region _ 65536 131071); [done|lia..|]. intros v3 (Hv3 & Hk3 & Ho3).
  split; [done|]. split.
  - intros i Hi. rewrite Ho3, Ho2, Ho1. unfold boot_reserved.
    assert (occupied (set_view stack_bitmap_l bs (set_view vam_bitmap_l bm v)) i = false) as ->.
    { unfold occupied, bit. cbn. rewrite Hzero by lia. apply Z.testbit_0_l. }
    rewrite orb_false_r.
    replace (last + 1 - 256) with ((kernel_virtual_end + PAGE_SIZE - 1) / PAGE_SIZE
      - KERNEL_IMAGE_BASE / PAGE_SIZE)
      by (change KERNEL_IMAGE_BASE with 0xC0100000; unfold last, PAGE_SIZE, KERNEL_VIRT_BASE; lia).
    change (65535 + 1 - 4096) with (KERNEL_HEAP_SIZE / PAGE_SIZE).
    change (131071 + 1 - 65536) with (KERNEL_STACKS_SIZE / PAGE_SIZE). btauto.
  - intros s Hs'. unfold slot_used, bit. rewrite Hk3, Hk2, Hk1. cbn.
    rewrite Hzeros by lia. apply Z.testbit_0_l.
Qed.

(** [vam_init] brings any previous state into the invariant: exactly the
    pages of the kernel image, the heap and the stacks are occupied, and every
    stack slot is free, for every kernel image that ends below the heap. *)
Theorem vam_init_spec v kernel_virtual_end :
  vam_inv v -> KERNEL_IMAGE_BASE < kernel_virtual_end <= KERNEL_HEAP_START ->
  wp (vam_init kernel_virtual_end) (fun _ v' => vam_inv v' /\
    (forall i, 0 <= i < VAM_TOTAL_PAGES -> occupied v' i = boot_reserved kernel_virtual_end i) /\
    (forall s, 0 <= s < KERNEL_STACK_COUNT -> slot_used v' s = false)) v.
Proof. apply wp_vam_init. Qed.

(** The megabyte below the image is not reserved: the first page handed out
    after boot is the start of the direct mapping, which the boot page tables
    already map. *)
Theorem vam_first_allocation v kernel_virtual_end :
  vam_inv v -> KERNEL_IMAGE_BASE < kernel_virtual_end <= KERNEL_HEAP_START ->
  wp (vam_init kernel_virtual_end ;;; vam_alloc_pages 1)
    (fun addr _ => addr = KERNEL_VIRT_BASE) v.
Proof.
  intros Hinv Hend. pose proof vam_sizes as (E & _).
  apply wp_bind. eapply wp_mono; [by apply wp_vam_init|]. intros _ v' (Hinv' & Hocc & _).
  assert (run_free v' 0 1) as Hrun.
  { intros j Hj. rewrite Hocc by lia. replace j with 0 by lia. reflexivity. }
  apply wp_vam_alloc_pages; [done|lia| |].
  - intros Hno. exfalso. eapply (Hno 0); [lia|done].
  - intros i v'' Hi _ Hleast _. destruct (decide (i = 0)) as [->|]; [done|].
    exfalso. eapply (Hleast 0); [lia|done].
Qed.

Definition slot_address slot : Z := KERNEL_STACKS_START + slot * KERNEL_STACK_SIZE.

Definition slots_updated v v' (f : Z -> bool) : Prop :=
  vam_inv v' /\ vam_bitmap v' = vam_bitmap v /\ forall s, slot_used v' s = f s.

Lemma slot_address_u32 slot :
  0 <= slot < KERNEL_STACK_COUNT ->
  u32 (KERNEL_STACKS_START + u32 (slot * KERNEL_STACK_SIZE)) = slot_address slot /\
  u32 (slot_address slot - KERNEL_STACKS_START) = slot * KERNEL_STACK_SIZE /\
  KERNEL_STACKS_START <= slot_address slot <= KERNEL_STACKS_END.
Proof.
  intros Hs. pose proof vam_sizes as (_ & _ & E & _). rewrite E in Hs.
  unfold slot_address, KERNEL_STACKS_START, KERNEL_STACKS_END, KERNEL_STACK_SIZE.
  rewrite (u32_id (slot * _)) by (unfold is_u32; lia).
  rewrite !u32_id by (unfold is_u32; lia). lia.
Qed.

Lemma wp_vam_alloc_stack v (Q : Z -> vam -> Prop) :
  vam_inv v ->
  ((forall s, 0 <= s < KERNEL_STACK_COUNT -> slot_used v s = true) -> Q NULL v) ->
  (forall slot v', 0 <= slot < KERNEL_STACK_COUNT -> slot_used v slot = false ->
     (forall s, 0 <= s < slot -> slot_used v s = true) ->
     slots_updated v v' (fun s => bool_decide (s = slot) || slot_used v s) ->
     Q (slot_address slot) v') ->
  wp vam_alloc_stack Q v.
Proof.
  intros [Hp Hs] Hnone Hsome. pose proof vam_sizes as (_ & _ & E3 & E4). unfold vam_alloc_stack.
  apply wp_bind. apply (wp_for_range (fun i v' => v' = v /\
    forall s, 0 <= s < i -> slot_used v s = true)).
  - split; [done|]. intros s Hs'. lia.
  - intros i v' Hi (-> & Hall). apply wp_bind, wp_zoom, (wp_mask_bit KERNEL_STACK_BITMAP_BYTES);
      [done|lia|]. cbn [view stack_bitmap_l]. rewrite vam_view_stacks.
    destruct (bit (kernel_stack_bitmap v) i) eqn:E; cbn [negb].
    + apply wp_ret. split; [done|]. intros s Hs'.
      destruct (decide (s = i)) as [->|]; [done|apply Hall; lia].
    + apply wp_bind, wp_zoom, (wp_set_bit KERNEL_STACK_BITMAP_BYTES); [done|lia|].
      intros bm Hok Hbits. do 2 apply wp_ret. cbn [default option.from_option id].
      rewrite (proj1 (slot_address_u32 i ltac:(lia))).
      apply Hsome; [lia|done|done|]. split; [by split|]. split; [done|]. exact Hbits.
  - intros v' (-> & Hall). apply wp_ret, Hnone. intros s Hs'. apply Hall. lia.
Qed.

Lemma wp_vam_free_stack v slot (Q : unit -> vam -> Prop) :
  vam_inv v -> 0 <= slot < KERNEL_STACK_COUNT ->
  (forall v', slots_updated v v' (fun s => negb (bool_decide (s = slot)) && slot_used v s) ->
     Q tt v') ->
  wp (vam_free_stack (slot_address slot)) Q v.
Proof.
  intros [Hp Hs] Hslot HQ. pose proof vam_sizes as (_ & _ & E3 & E4). unfold vam_free_stack.
  destruct (slot_address_u32 slot Hslot) as (_ & E & Hr).
  rewrite (proj2 (Z.eqb_neq _ _)) by (unfold NULL, KERNEL_STACKS_START in *; lia).
  rewrite (proj2 (Z.ltb_ge _ _)), (proj2 (Z.ltb_ge KERNEL_STACKS_END _)) by lia. cbn [orb].
  rewrite E. rewrite Z.mod_mul by done. cbn [negb Z.eqb].
  rewrite Z.div_mul by done. rewrite (proj2 (Z.leb_gt _ _)) by lia.
  apply wp_zoom, (wp_clear_bit KERNEL_STACK_BITMAP_BYTES); [done|lia|]. intros bm Hok Hbits.
  apply HQ. split; [by split|]. split; [done|]. exact Hbits.
Qed.

(** An address that [vam_free_stack] acts on: the base of a slot. *)
Definition is_slot_base (address : Z) : Prop :=
  exists slot, 0 <= slot < KERNEL_STACK_COUNT /\ address = slot_address slot.

Lemma vam_free_stack_ignores v address :
  is_u32 address -> ~ is_slot_base address -> vam_free_stack address v = Ok tt v.
Proof.
  intros Ha Hno. pose proof vam_sizes as (_ & _ & E3 & _). unfold vam_free_stack.
  destruct (address =? NULL); [done|].
  destruct ((address <? KERNEL_STACKS_START) || (KERNEL_STACKS_END <? address)) eqn:Er; [done|].
  unfold is_u32 in Ha. apply orb_false_iff in Er as [E1 E2].
  rewrite u32_id by (unfold is_u32, KERNEL_STACKS_START in *; lia).
  destruct (negb _) eqn:Em; [done|]. apply negb_false_iff, Z.eqb_eq in Em.
  destruct (Z.leb_spec KERNEL_STACK_COUNT ((address - KERNEL_STACKS_START) / KERNEL_STACK_SIZE))
    as [|Hlt]; [done|].
  destruct Hno. exists ((address - KERNEL_STACKS_START) / KERNEL_STACK_SIZE).
  unfold slot_address. pose proof (Z.div_mod (address - KERNEL_STACKS_START) KERNEL_STACK_SIZE ltac:(done)).
  split; [split; [apply Z.div_pos; [lia|done]|done]|lia].
Qed.

(** Kernel stack slots: [vam_alloc_stack] hands out the base of the lowest
    unused slot and marks only it, or answers [NULL] when all slots are in
    use; [vam_free_stack] of a slot base frees exactly that slot, so that the
    slot just allocated can be given back and the slots are as before; any
    other address is ignored. *)
Theorem vam_stack_slots v :
  vam_inv v ->
  wp vam_alloc_stack (fun addr v' =>
    (addr = NULL /\ v' = v /\ forall s, 0 <= s < KERNEL_STACK_COUNT -> slot_used v s = true) \/
    (exists slot, 0 <= slot < KERNEL_STACK_COUNT /\ addr = slot_address slot /\
      slot_used v slot = false /\ (forall s, 0 <= s < slot -> slot_used v s = true) /\
      slots_updated v v' (fun s => bool_decide (s = slot) || slot_used v s) /\
      wp (vam_free_stack addr) (fun _ v'' => slots_updated v v'' (slot_used v)) v')) v /\
  (forall address, is_u32 address -> ~ is_slot_base address ->
    vam_free_stack address v = Ok tt v).
Proof.
  intros Hinv. split; [|intros; by apply vam_free_stack_ignores].
  apply wp_vam_alloc_stack; [done| |].
  - intros Hall. by left.
  - intros slot v' Hslot Hfree Hleast (Hinv' & Hbm & Hupd). right. exists slot.
    do 5 (split; [done|]). apply wp_vam_free_stack; [done..|].
    intros v'' (Hinv'' & Hbm' & Hupd'). split; [done|]. split; [congruence|].
    intros s. rewrite Hupd', Hupd. case_bool_decide; subst; cbn; [done|done].
Qed.

End Specifications.

(** ** Witnesses *)

Lemma vam_start_inv : vam_inv vam_start.
Proof. split; apply filled_ok; by vm_compute. Qed.

Lemma vam_alloc_pages_spec_witness :
  vam_alloc_pages 0 vam_start = Ok NULL vam_start /\
  vam_alloc_pages 261121 vam_start = Fault (OutOfBounds VAM_BITMAP_BYTES).
Proof.
  assert (is_u32 0 /\ is_u32 261121) as [H0 H1] by by vm_compute.
  assert (VAM_TOTAL_PAGES < 261121) as Hgt by by vm_compute.
  split.
  - exact (proj1 (vam_alloc_pages_spec vam_start 0 vam_start_inv H0) eq_refl).
  - exact (proj2 (proj2 (vam_alloc_pages_spec vam_start 261121 vam_start_inv H1)) Hgt).
Defined.

Lemma vam_init_spec_witness :
  wp (vam_init 0xC0180000) (fun _ v' => vam_inv v' /\
    (forall i, 0 <= i < VAM_TOTAL_PAGES -> occupied v' i = boot_reserved 0xC0180000 i) /\
    (forall s, 0 <= s < KERNEL_STACK_COUNT -> slot_used v' s = false)) vam_start.
Proof. apply (vam_init_spec vam_start 0xC0180000 vam_start_inv). by vm_compute. Defined.

Lemma vam_stack_slots_witness :
  vam_free_stack 0xD0000001 vam_start = Ok tt vam_start.
Proof.
  destruct (vam_stack_slots vam_start vam_start_inv) as [_ H]. apply H; [by vm_compute|].
  intros (slot & Hs & E). unfold slot_address, KERNEL_STACKS_START, KERNEL_STACK_SIZE in E. lia.
Defined.
