(* ===== verification/Paging.v ===== *)
(** * Page directories and page tables

    [kernel/mm/paging.c]. The state is physical memory, the physical memory
    manager with the processor, and the static [kernel_directory]. Page
    directories and tables are pages of physical memory, reached through the
    direct mapping: a table whose frame lies above the mapped window cannot be
    touched and the routine faults. *)

From S2P Require Import Prelude Layout Bitmap Machine Pmm CString Ram.

Record machine : Type := MkMachine {
  m_pmm : pmm_world;
  m_ram : ram;
  (** [static struct page_directory *kernel_directory], 0 for [NULL] *)
  kernel_directory : Z;
}.

Definition pmm_world_l : lens machine pmm_world :=
  Lens m_pmm (fun p m => MkMachine p (m_ram m) (kernel_directory m)).
Definition ram_l : lens machine ram :=
  Lens m_ram (fun r m => MkMachine (m_pmm m) r (kernel_directory m)).
Definition machine_cpu_l : lens machine cpu :=
  Lens (fun m => pmm_cpu (m_pmm m))
    (fun c m => MkMachine (PmmWorld c (pmm_of (m_pmm m))) (m_ram m) (kernel_directory m)).
Definition set_kernel_directory (d : Z) : M machine unit :=
  modify (fun m => MkMachine (m_pmm m) (m_ram m) d).

(** [table->entries[index]], [table->entries[index] = v]. *)
Definition get_entry (table index : Z) : M machine Z :=
  zoom ram_l (ld32 (u32 (table + 4 * index))).
Definition set_entry (table index v : Z) : M machine unit :=
  zoom ram_l (st32 (u32 (table + 4 * index)) v).

(** [e & PAGE_PRESENT] as a condition, [e & PAGE_FRAME_MASK]. *)
Definition present (e : Z) : bool := negb (Z.land e PAGE_PRESENT =? 0).
Definition user_bit (e : Z) : bool := negb (Z.land e PAGE_USER =? 0).
Definition frame_of (e : Z) : Z := Z.land e PAGE_FRAME_MASK.

(** [virt >> 22], [(virt >> 12) & 0x3FF], [virt & 0xFFF]. *)
Definition pde_index (virt : Z) : Z := Z.shiftr virt 22.
Definition pte_index (virt : Z) : Z := Z.land (Z.shiftr virt 12) 0x3FF.
Definition page_offset (virt : Z) : Z := Z.land virt 0xFFF.

Definition paging_get_table (directory directory_index : Z) : M machine Z :=
  let* entry := get_entry directory directory_index in
  if negb (present entry) then ret NULL
  else ret (PHYS_TO_VIRT (frame_of entry)).

(** [memset(table, 0, sizeof( *table))] *)
Definition clear_page (table : Z) : M machine unit :=
  zoom ram_l (memset table 0 4096) ;;; ret tt.

Definition paging_alloc_table : M machine Z :=
  let* phys := zoom pmm_world_l pmm_alloc_page in
  if phys =? 0 then ret NULL
  else
    let table := PHYS_TO_VIRT phys in
    clear_page table ;;;
    ret table.

Definition paging_get_kernel_directory : M machine Z := gets kernel_directory.

Definition paging_map (directory virt phys flags : Z) : M machine unit :=
  let directory_index := pde_index virt in
  let table_index := pte_index virt in
  let* table := paging_get_table directory directory_index in
  let* table := (if table =? NULL then
      let* table := paging_alloc_table in
      if table =? NULL then ret NULL
      else
        let table_phys := VIRT_TO_PHYS table in
        set_entry directory directory_index
          (Z.lor (Z.lor table_phys PAGE_PRESENT)
                 (Z.land flags (Z.lor PAGE_WRITABLE PAGE_USER))) ;;;
        ret table
    else ret table) in
  if table =? NULL then ret tt
  else
    set_entry table table_index (Z.lor (Z.land phys PAGE_FRAME_MASK) flags) ;;;
    zoom machine_cpu_l (paging_invalidate virt).

Definition paging_map_kernel (virt phys flags : Z) : M machine unit :=
  let* d := gets kernel_directory in
  paging_map d virt phys flags.

(** [for (i = 0; i < 1024; i++) if (table->entries[i] & PAGE_PRESENT) return;] *)
Definition table_in_use (table : Z) : M machine bool :=
  let* r := for_range 0 1024 (fun i =>
    let* e := get_entry table i in
    ret (if present e then Some tt else None)) in
  ret (match r with Some _ => true | None => false end).

Definition paging_unmap (directory virt : Z) : M machine unit :=
  ASSERT "directory != NULL" (negb (directory =? NULL)) ;;;
  let directory_index := pde_index virt in
  let table_index := pte_index virt in
  let* pde := get_entry directory directory_index in
  if negb (present pde) then ret tt
  else
    let* table := paging_get_table directory directory_index in
    if table =? NULL then ret tt
    else
      set_entry table table_index 0 ;;;
      zoom machine_cpu_l (paging_invalidate virt) ;;;
      let* used := table_in_use table in
      if used then ret tt
      else
        let table_phys := frame_of pde in
        zoom pmm_world_l (pmm_free_page table_phys) ;;;
        set_entry directory directory_index 0.

Definition paging_translate (directory virt : Z) : M machine Z :=
  let* table := paging_get_table directory (pde_index virt) in
  if table =? NULL then ret 0
  else
    let* entry := get_entry table (pte_index virt) in
    if negb (present entry) then ret 0
    else ret (u32 (frame_of entry + page_offset virt)).

Definition paging_copy_kernel_mappings (directory : Z) : M machine unit :=
  ASSERT "directory != NULL" (negb (directory =? NULL)) ;;;
  let* kd := gets kernel_directory in
  ASSERT "kernel_directory != NULL" (negb (kd =? NULL)) ;;;
  for_each KERNEL_PDE_START (Z.to_nat (PAGE_DIRECTORY_ENTRIES - KERNEL_PDE_START)) (fun i =>
    let* e := get_entry kd i in
    set_entry directory i e).

Definition paging_create_directory : M machine Z :=
  let* phys := zoom pmm_world_l pmm_alloc_page in
  if phys =? 0 then ret NULL
  else
    let directory := PHYS_TO_VIRT phys in
    clear_page directory ;;;
    paging_copy_kernel_mappings directory ;;;
    ret directory.

(** The inner loop of [paging_destroy_directory]: every page of one table. *)
Definition free_table_pages (table : Z) : M machine unit :=
  for_each 0 1024 (fun table_index =>
    let* pte := get_entry table table_index in
    if negb (present pte) then ret tt
    else
      zoom pmm_world_l (pmm_free_page (frame_of pte)) ;;;
      set_entry table table_index 0).

Definition destroy_table (directory directory_index : Z) : M machine unit :=
  let* pde := get_entry directory directory_index in
  if negb (present pde) then ret tt
  else
    let table := PHYS_TO_VIRT (frame_of pde) in
    free_table_pages table ;;;
    zoom pmm_world_l (pmm_free_page (frame_of pde)) ;;;
    set_entry directory directory_index 0.

Definition paging_destroy_directory (directory : Z) : M machine unit :=
  ASSERT "directory != NULL" (negb (directory =? NULL)) ;;;
  let* on := zoom machine_cpu_l interrupt_enabled in
  ASSERT "!interrupt_enabled()" (negb on) ;;;
  for_each 0 768 (fun directory_index => destroy_table directory directory_index) ;;;
  zoom pmm_world_l (pmm_free_page (VIRT_TO_PHYS directory)).

Definition paging_init : M machine unit :=
  let* phys := zoom pmm_world_l pmm_alloc_page in
  if phys =? 0 then fail (Panicked "paging_init: failed to allocate kernel page directory")
  else
    let kd := PHYS_TO_VIRT phys in
    set_kernel_directory kd ;;;
    clear_page kd ;;;
    let* cr3 := zoom machine_cpu_l (gets cr3) in
    let bootstrap := PHYS_TO_VIRT cr3 in
    for_each 0 1024 (fun i => let* e := get_entry bootstrap i in set_entry kd i e) ;;;
    set_entry kd RECURSIVE_PDE_INDEX (Z.lor (Z.lor phys PAGE_PRESENT) PAGE_WRITABLE) ;;;
    zoom machine_cpu_l (paging_load_directory phys).

(** ** Validation of user memory *)

(** [x & ~(PAGE_SIZE - 1)] *)
Definition page_down (x : Z) : Z := Z.land x (u32 (Z.lnot (PAGE_SIZE - 1))).

(** One page of [paging_user_range_valid]: [Some false] returns. *)
Definition user_page_check (directory page : Z) : M machine bool :=
  let* table := paging_get_table directory (pde_index page) in
  if table =? NULL then ret false
  else
    let* entry := get_entry table (pte_index page) in
    if negb (present entry) then ret false
    else if negb (user_bit entry) then ret false
    else ret true.

(** The loop visits [start], [start + PAGE_SIZE], ..., [end] and breaks at
    [end]. *)
Definition paging_user_range_valid (directory addr len : Z) : M machine bool :=
  if directory =? NULL then ret false
  else if len =? 0 then ret true
  else if u32 (addr + len) <? addr then ret false
  else
    let start := page_down addr in
    let stop := page_down (u32 (u32 (addr + len) - 1)) in
    let* r := for_range 0 (Z.to_nat ((stop - start) / PAGE_SIZE + 1)) (fun i =>
      let* ok := user_page_check directory (u32 (start + i * PAGE_SIZE)) in
      ret (if ok then None else Some false)) in
    ret (default true r).

Definition paging_validate_mapping (directory virt : Z) : M machine bool :=
  ASSERT "directory != NULL" (negb (directory =? NULL)) ;;;
  let* pde := get_entry directory (pde_index virt) in
  if negb (present pde) then ret false
  else
    let* table := paging_get_table directory (pde_index virt) in
    if table =? NULL then ret false
    else
      let* pte := get_entry table (pte_index virt) in
      ret (present pte).

(** Reading memory at a virtual address, as the processor does with the
    directory that CR3 holds: both levels must be present. *)
Definition entry (r : ram) (frame i : Z) : Z := word r (frame + 4 * i).

(** The page-table entry that maps [virt] in the directory at the physical
    address [d]. *)
Definition walk (r : ram) (d virt : Z) : option Z :=
  let pde := entry r d (pde_index virt) in
  if present pde then
    let pte := entry r (frame_of pde) (pte_index virt) in
    if present pte then Some pte else None
  else None.

Definition virtual_load (a : Z) : M machine Z := fun m =>
  match walk (m_ram m) (frame_of (cr3 (pmm_cpu (m_pmm m)))) a with
  | Some pte => Ok (byte (m_ram m) (frame_of pte + page_offset a)) m
  | None => Fault (BadAccess a)
  end.

(** [while (address < page_end)]: [inl] is the address where the next page
    starts, [inr] a [return]. *)
Definition scan_page (page_end address : Z) : M machine (Z + bool) :=
  loop 4097 (fun address =>
    if address <? page_end then
      let* c := virtual_load address in
      if c =? 0 then ret (inr (inr true))
      else
        let address := u32 (address + 1) in
        if USER_VIRT_END <? address then ret (inr (inr false)) else ret (inl address)
    else ret (inr (inl address))) address.

Definition paging_user_string_valid (fuel : nat) (directory string : Z) : M machine bool :=
  if directory =? NULL then ret false
  else if string =? NULL then ret false
  else
    loop fuel (fun address =>
      let* ok := paging_user_range_valid directory address 1 in
      if negb ok then ret (inr false)
      else
        scan_page (u32 (page_down address + PAGE_SIZE)) address) string.

(** ** Entries and addresses *)

Section Entries.
Implicit Types (e f a virt flags : Z).

Lemma land_pow2 e k : 0 <= k -> negb (Z.land e (Z.shiftl 1 k) =? 0) = Z.testbit e k.
Proof. apply land_pow2_testbit. Qed.

Lemma present_bit e : present e = Z.testbit e 0.
Proof. apply (land_pow2 e 0). lia. Qed.

Lemma user_bit_bit e : user_bit e = Z.testbit e 2.
Proof. apply (land_pow2 e 2). lia. Qed.

Lemma frame_of_div e : is_u32 e -> frame_of e = PAGE_SIZE * (e / PAGE_SIZE).
Proof.
  intros He. unfold frame_of. change PAGE_FRAME_MASK with (u32 (Z.lnot (2 ^ 12 - 1))).
  rewrite land_lnot_mask by (done || lia). done.
Qed.

Lemma page_down_div a : is_u32 a -> page_down a = PAGE_SIZE * (a / PAGE_SIZE).
Proof.
  intros Ha. unfold page_down. change (PAGE_SIZE - 1) with (2 ^ 12 - 1).
  rewrite land_lnot_mask by (done || lia). done.
Qed.

Lemma pde_index_div virt : pde_index virt = virt / 2 ^ 22.
Proof. unfold pde_index. by rewrite Z.shiftr_div_pow2 by lia. Qed.

Lemma pte_index_mod virt : pte_index virt = (virt / PAGE_SIZE) mod 1024.
Proof.
  unfold pte_index. change 0x3FF with (Z.ones 10).
  rewrite Z.land_ones, Z.shiftr_div_pow2 by lia. done.
Qed.

Lemma page_offset_mod virt : page_offset virt = virt mod PAGE_SIZE.
Proof. unfold page_offset. change 0xFFF with (Z.ones 12). by rewrite Z.land_ones by lia. Qed.

Lemma pde_index_range virt : is_u32 virt -> 0 <= pde_index virt < 1024.
Proof. rewrite pde_index_div. unfold is_u32. lia. Qed.

Lemma pte_index_range virt : 0 <= pte_index virt < 1024.
Proof. rewrite pte_index_mod. lia. Qed.

(** Two addresses with the same indices lie in the same page. *)
Lemma same_page a b :
  is_u32 a -> is_u32 b -> pde_index a = pde_index b -> pte_index a = pte_index b ->
  a / PAGE_SIZE = b / PAGE_SIZE.
Proof. rewrite !pde_index_div, !pte_index_mod. unfold is_u32, PAGE_SIZE. lia. Qed.

(** A frame address and flags below the page size share no bit. *)
Lemma frame_testbit_low f n :
  f mod PAGE_SIZE = 0 -> 0 <= n < 12 -> Z.testbit f n = false.
Proof.
  intros Hf Hn. rewrite <- (Z.mod_pow2_bits_low f 12 n) by lia.
  change (2 ^ 12) with PAGE_SIZE. rewrite Hf. apply Z.testbit_0_l.
Qed.

Lemma frame_lor f flags :
  is_u32 f -> f mod PAGE_SIZE = 0 -> 0 <= flags < PAGE_SIZE ->
  is_u32 (Z.lor f flags) /\ frame_of (Z.lor f flags) = f /\
  (forall n, 0 <= n < 12 -> Z.testbit (Z.lor f flags) n = Z.testbit flags n).
Proof.
  intros Hf Hm Hfl. assert (is_u32 (Z.lor f flags)) as Hu.
  { unfold is_u32 in *. split; [apply Z.lor_nonneg; lia|]. apply bits_below; [lia|apply Z.lor_nonneg; lia|].
    intros n Hn. rewrite Z.lor_spec, !(testbit_high _ 32) by (unfold PAGE_SIZE in *; lia). done. }
  split; [done|]. split.
  - unfold frame_of. change PAGE_FRAME_MASK with (Z.ldiff (Z.ones 32) (Z.ones 12)).
    apply Z.bits_inj'. intros n Hn.
    rewrite Z.land_spec, Z.lor_spec, Z.ldiff_spec, !Z.testbit_ones_nonneg by lia.
    destruct (Z.ltb_spec n 12).
    + rewrite (frame_testbit_low f) by (done || lia). btauto.
    + rewrite (testbit_high flags 12) by (unfold PAGE_SIZE in *; lia).
      destruct (Z.ltb_spec n 32); [btauto|].
      rewrite (testbit_high f 32) by (unfold is_u32 in *; lia). btauto.
  - intros n Hn. by rewrite Z.lor_spec, frame_testbit_low.
Qed.

Lemma frame_of_aligned e :
  is_u32 e -> frame_of e mod PAGE_SIZE = 0 /\ 0 <= frame_of e <= e.
Proof. intros He. rewrite frame_of_div by done. unfold is_u32, PAGE_SIZE in *. lia. Qed.
End Entries.

(** ** Pages of entries *)

(** A page frame inside the direct mapping; frame 0 is never used for one. *)
Definition good_frame (f : Z) : Prop :=
  0 < f /\ f + PAGE_SIZE <= BOOTSTRAP_MAP_SIZE /\ f mod PAGE_SIZE = 0.

Definition with_ram (r : ram) (m : machine) : machine :=
  MkMachine (m_pmm m) r (kernel_directory m).
Definition with_pmm (p : pmm) (m : machine) : machine :=
  MkMachine (PmmWorld (pmm_cpu (m_pmm m)) p) (m_ram m) (kernel_directory m).
Definition with_cpu (c : cpu) (m : machine) : machine :=
  MkMachine (PmmWorld c (pmm_of (m_pmm m))) (m_ram m) (kernel_directory m).

Definition ram_entry_set (f i v : Z) (r : ram) : ram := set_word (f + 4 * i) v r.

(** [r'] is [r] with the page at [f] cleared. *)
Definition cleared (f : Z) (r r' : ram) : Prop :=
  (forall i, 0 <= i < 1024 -> entry r' f i = 0) /\
  (forall q, ~ (f <= q < f + PAGE_SIZE) -> byte r' q = byte r q).

Section Pages.
Implicit Types (r : ram) (m : machine) (f g i j v : Z).

Lemma good_frame_virt f :
  good_frame f -> PHYS_TO_VIRT f = KERNEL_VIRT_BASE + f /\
    VIRT_TO_PHYS (KERNEL_VIRT_BASE + f) = f /\ PHYS_TO_VIRT f <> NULL /\ is_u32 f.
Proof.
  unfold good_frame, PHYS_TO_VIRT, VIRT_TO_PHYS, NULL, PAGE_SIZE, is_u32.
  change KERNEL_PHYS_OFFSET with 0xC0000000. unfold BOOTSTRAP_MAP_SIZE, KERNEL_VIRT_BASE.
  intros Hf. rewrite !u32_id by (unfold is_u32; lia). lia.
Qed.

Lemma entry_u32 r f i : is_u32 (entry r f i).
Proof. apply word_range. Qed.

Lemma entry_set_eq r f i v : is_u32 v -> entry (ram_entry_set f i v r) f i = v.
Proof. apply word_set_eq. Qed.

Lemma entry_set_ne r f i g j v :
  f mod PAGE_SIZE = 0 -> g mod PAGE_SIZE = 0 -> 0 <= i < 1024 -> 0 <= j < 1024 ->
  (f <> g \/ i <> j) -> entry (ram_entry_set f i v r) g j = entry r g j.
Proof. intros Hf Hg Hi Hj Hne. apply word_set_ne. unfold PAGE_SIZE in *. lia. Qed.

Lemma entry_reachable f i : good_frame f -> 0 <= i < 1024 -> reachable (f + 4 * i) 4.
Proof. unfold good_frame, reachable, PAGE_SIZE. lia. Qed.

Lemma entry_address f i :
  good_frame f -> 0 <= i < 1024 ->
  u32 (PHYS_TO_VIRT f + 4 * i) = KERNEL_VIRT_BASE + (f + 4 * i).
Proof.
  intros Hf Hi. destruct (good_frame_virt f Hf) as (-> & _).
  unfold good_frame, PAGE_SIZE, BOOTSTRAP_MAP_SIZE, KERNEL_VIRT_BASE in *.
  rewrite u32_id by (unfold is_u32; lia). lia.
Qed.

Lemma with_ram_id m : with_ram (m_ram m) m = m.
Proof. by destruct m. Qed.

Lemma wp_ram {A} (c : M ram A) (Q : A -> machine -> Prop) m :
  wp c (fun a r => Q a (with_ram r m)) (m_ram m) -> wp (zoom ram_l c) Q m.
Proof. exact (wp_zoom ram_l c Q m). Qed.

Lemma wp_get_entry m f i (Q : Z -> machine -> Prop) :
  good_frame f -> 0 <= i < 1024 -> Q (entry (m_ram m) f i) m ->
  wp (get_entry (PHYS_TO_VIRT f) i) Q m.
Proof.
  intros Hf Hi HQ. unfold get_entry. rewrite entry_address by done.
  apply wp_ram, wp_ld32; [by apply entry_reachable|]. by rewrite with_ram_id.
Qed.

Lemma wp_set_entry m f i v (Q : unit -> machine -> Prop) :
  good_frame f -> 0 <= i < 1024 -> Q tt (with_ram (ram_entry_set f i v (m_ram m)) m) ->
  wp (set_entry (PHYS_TO_VIRT f) i v) Q m.
Proof.
  intros Hf Hi HQ. unfold set_entry. rewrite entry_address by done.
  by apply wp_ram, wp_st32; [apply entry_reachable|].
Qed.

Lemma wp_clear_page m f (Q : unit -> machine -> Prop) :
  good_frame f -> (forall r, cleared f (m_ram m) r -> Q tt (with_ram r m)) ->
  wp (clear_page (PHYS_TO_VIRT f)) Q m.
Proof.
  intros Hf HQ. unfold clear_page. destruct (good_frame_virt f Hf) as (Ev & _).
  pose proof Hf as (H0 & Hle & Hm). unfold BOOTSTRAP_MAP_SIZE in Hle.
  assert (reachable f PAGE_SIZE) as Hr by (split; [lia|apply Hf]).
  apply wp_bind, wp_ram. rewrite Ev. apply wp_keeps; [apply keeps_memset|]. eapply wp_mono.
  - apply (wp_memset _ (KERNEL_VIRT_BASE + f) 0 4096).
    + unfold KERNEL_VIRT_BASE. lia.
    + lia.
    + unfold KERNEL_VIRT_BASE, PAGE_SIZE in *. lia.
    + intros i Hi. destruct (reachable_load (m_ram m) f PAGE_SIZE i Hr ltac:(done)) as (_ & E & _).
      eexists. exact E.
  - intros d r (_ & Hh & Hs) Hrest. apply wp_ret, HQ. split.
    + assert (forall q, f <= q < f + PAGE_SIZE -> byte r q = 0) as Hz.
      { intros q Hq. destruct Hh as (_ & _ & Hh).
        specialize (Hh (Z.to_nat (q - f)) 0). rewrite Z2Nat.id in Hh by lia.
        destruct (reachable_load r f PAGE_SIZE (q - f) Hr ltac:(lia)) as (_ & E & _).
        rewrite E in Hh. replace (f + (q - f)) with q in Hh by lia.
        assert (Some (byte r q) = Some 0) as [= ->]; [|done]. apply Hh.
        apply lookup_replicate. split; [done|]. unfold PAGE_SIZE in *. lia. }
      intros i Hi. unfold entry, word. rewrite !Hz by (unfold PAGE_SIZE in *; lia). done.
    + intros q Hq. destruct (decide (reachable q 1)) as [Hq1|Hq1].
      * destruct (reachable_load r q 1 0 Hq1 ltac:(lia)) as (_ & E & _).
        destruct (reachable_load (m_ram m) q 1 0 Hq1 ltac:(lia)) as (_ & E' & _).
        rewrite Z.add_0_r in E, E'. specialize (Hs (KERNEL_VIRT_BASE + q)).
        rewrite E, E' in Hs. rewrite Z.add_0_r in Hs.
        assert (Some (byte r q) = Some (byte (m_ram m) q)) as [= ->]; [|done].
        apply Hs. unfold PAGE_SIZE in *. lia.
      * apply Hrest. unfold reachable in Hq1. lia.
Qed.
End Pages.

(** ** The physical memory manager behind paging *)

(** Every page the manager can still hand out lies in the direct mapping; on
    a machine with more memory the kernel relies on not running that far. *)
Definition pool_low (p : pmm) : Prop :=
  forall page, page_free p page = true -> (page + 1) * PAGE_SIZE <= BOOTSTRAP_MAP_SIZE.

Definition m_free (m : machine) (f : Z) : bool := page_free (pmm_of (m_pmm m)) (f / PAGE_SIZE).

Definition mem_ok (m : machine) : Prop :=
  pmm_inv (pmm_of (m_pmm m)) /\ pool_low (pmm_of (m_pmm m)).

(** An allocation that failed: injected, or nothing is free. *)
Definition alloc_failed (p p' : pmm) : Prop :=
  (fail_allocations p <> 0 \/ none_free p) /\ pmm_inv p' /\
  (forall q, page_free p' q = page_free p q) /\ free_pages p' = free_pages p /\
  total_pages p' = total_pages p /\ (fail_allocations p = 0 -> p' = p).

Section Memory.
Implicit Types (m : machine) (p : pmm) (f : Z).

Lemma wp_pmm {A} (c : M pmm_world A) (Q : A -> machine -> Prop) m :
  wp c (fun a w => Q a (MkMachine w (m_ram m) (kernel_directory m))) (m_pmm m) ->
  wp (zoom pmm_world_l c) Q m.
Proof. exact (wp_zoom pmm_world_l c Q m). Qed.

Lemma good_page_frame page :
  0 < page -> (page + 1) * PAGE_SIZE <= BOOTSTRAP_MAP_SIZE -> good_frame (page * PAGE_SIZE).
Proof. unfold good_frame, PAGE_SIZE, BOOTSTRAP_MAP_SIZE. lia. Qed.

Lemma wp_alloc_frame m (Q : Z -> machine -> Prop) :
  mem_ok m ->
  (forall p', alloc_failed (pmm_of (m_pmm m)) p' -> Q NULL (with_pmm p' m)) ->
  (forall f p', good_frame f -> f <> NULL -> m_free m f = true -> fail_allocations (pmm_of (m_pmm m)) = 0 ->
     page_taken (f / PAGE_SIZE) (pmm_of (m_pmm m)) p' -> Q f (with_pmm p' m)) ->
  wp (zoom pmm_world_l pmm_alloc_page) Q m.
Proof.
  intros [Hinv Hlow] Hfail Hok. apply wp_pmm.
  destruct (decide (fail_allocations (pmm_of (m_pmm m)) = 0)) as [E|E].
  - apply wp_pmm_alloc_page; [done..| |].
    + intros Hnone. destruct m as [[c p] r kd]. apply (Hfail p). split; [by right|]. done.
    + intros page p' Hleast Htaken. destruct (least_free_pos _ _ Hinv Hleast) as [Hpos _].
      assert (good_frame (page * PAGE_SIZE)) as Hg.
      { apply good_page_frame; [lia|]. apply Hlow, Hleast. }
      assert (page * PAGE_SIZE / PAGE_SIZE = page) as Ediv by (unfold PAGE_SIZE; lia).
      apply Hok; [done|unfold NULL, PAGE_SIZE; lia| |done|by rewrite Ediv].
      unfold m_free. rewrite Ediv. apply Hleast.
  - unfold pmm_alloc_page. apply wp_bind, wp_gets. rewrite (proj2 (Z.eqb_neq _ _)) by done.
    cbn [negb]. apply wp_bind, wp_zoom, wp_modify, wp_ret.
    destruct m as [[c p] r kd]. apply (Hfail (with_fail_allocations (fail_allocations p - 1) p)).
    split; [by left|]. split; [by apply inv_with_fail|]. done.
Qed.

Lemma wp_free_frame m f (Q : unit -> machine -> Prop) :
  mem_ok m -> is_u32 f -> 0 < f / PAGE_SIZE -> f + PAGE_SIZE <= BOOTSTRAP_MAP_SIZE ->
  (total_pages (pmm_of (m_pmm m)) <= f / PAGE_SIZE \/ m_free m f = true -> Q tt m) ->
  (forall p', f / PAGE_SIZE < total_pages (pmm_of (m_pmm m)) -> m_free m f = false ->
     page_released (f / PAGE_SIZE) (pmm_of (m_pmm m)) p' -> mem_ok (with_pmm p' m) ->
     Q tt (with_pmm p' m)) ->
  wp (zoom pmm_world_l (pmm_free_page f)) Q m.
Proof.
  intros [Hinv Hlow] Hf Hpos Hle HNo HYes. apply wp_pmm. apply wp_pmm_free_page; [done..| |].
  - intros H. destruct m as [w r kd]. by apply HNo.
  - intros p' Hlt Hused Hrel. apply HYes; [done..|]. split; [apply Hrel|].
    intros page Hp. cbn in Hp. rewrite (released_free _ _ _ Hrel) in Hp.
    apply orb_true_iff in Hp as [Hp|Hp]; [by apply Hlow|]. apply Z.eqb_eq in Hp. subst page.
    unfold PAGE_SIZE, BOOTSTRAP_MAP_SIZE in *. lia.
Qed.

Lemma failed_mem_ok m p' : mem_ok m -> alloc_failed (pmm_of (m_pmm m)) p' -> mem_ok (with_pmm p' m).
Proof.
  intros [_ Hlow] (_ & Hinv & Hsame & _). split; [done|]. intros page Hp. cbn in Hp.
  rewrite Hsame in Hp. by apply Hlow.
Qed.

Lemma taken_mem_ok m page p' :
  mem_ok m -> page_taken page (pmm_of (m_pmm m)) p' -> mem_ok (with_pmm p' m).
Proof.
  intros [_ Hlow] Ht. split; [apply Ht|]. intros q Hq. cbn in Hq.
  rewrite (taken_free _ _ _ Ht) in Hq. apply andb_true_iff in Hq as [Hq _]. by apply Hlow.
Qed.
End Memory.

(** ** Address spaces *)

Definition pde (m : machine) (d i : Z) : Z := entry (m_ram m) d i.
Definition table_of (m : machine) (d i : Z) : Z := frame_of (pde m d i).

(** The directory in frame [d] with its tables: all in the direct mapping,
    and none of these pages is free. *)
Record space (m : machine) (d : Z) : Prop := {
  space_dir : good_frame d;
  space_dir_used : m_free m d = false;
  space_tables : forall i, 0 <= i < 1024 -> present (pde m d i) = true ->
    good_frame (table_of m d i) /\ m_free m (table_of m d i) = false;
}.

(** The table behind entry [i], if there is one, is neither the directory
    itself (as in the recursive entry) nor shared with another entry. *)
Definition private (m : machine) (d i : Z) : Prop :=
  present (pde m d i) = true ->
  table_of m d i <> d /\
  forall j, 0 <= j < 1024 -> j <> i -> present (pde m d j) = true -> table_of m d j <> table_of m d i.

(** What every change of one mapping preserves: the manager stays sound, the
    space well formed, private tables private, and every other page of a
    private table translates as before. *)
Record space_step (d virt : Z) (m m' : machine) : Prop := {
  step_mem : mem_ok m';
  step_space : space m' d;
  step_kd : kernel_directory m' = kernel_directory m;
  step_other : forall j, 0 <= j < 1024 -> j <> pde_index virt -> pde m' d j = pde m d j;
  step_private : forall j, 0 <= j < 1024 -> private m d j -> private m' d j;
  step_walk : forall va, is_u32 va -> va / PAGE_SIZE <> virt / PAGE_SIZE ->
    private m d (pde_index va) -> walk (m_ram m') d va = walk (m_ram m) d va;
}.

Section Spaces.
Implicit Types (m : machine) (d i j virt va f : Z).

Lemma wp_paging_get_table m d i (Q : Z -> machine -> Prop) :
  good_frame d -> 0 <= i < 1024 ->
  Q (if present (pde m d i) then PHYS_TO_VIRT (table_of m d i) else NULL) m ->
  wp (paging_get_table (PHYS_TO_VIRT d) i) Q m.
Proof.
  intros Hd Hi HQ. unfold paging_get_table.
  apply wp_bind, wp_get_entry; [done..|]. unfold pde in HQ.
  destruct (present _); by apply wp_ret.
Qed.

Lemma walk_unfold r d va :
  walk r d va =
    if present (entry r d (pde_index va)) then
      let pte := entry r (frame_of (entry r d (pde_index va))) (pte_index va) in
      if present pte then Some pte else None
    else None.
Proof. done. Qed.

(** Only the entries of the directory and of one table matter to a walk. *)
Lemma walk_ext r r' d va :
  entry r' d (pde_index va) = entry r d (pde_index va) ->
  (present (entry r d (pde_index va)) = true ->
   entry r' (frame_of (entry r d (pde_index va))) (pte_index va)
   = entry r (frame_of (entry r d (pde_index va))) (pte_index va)) ->
  walk r' d va = walk r d va.
Proof.
  intros E1 E2. rewrite !walk_unfold, E1. destruct (present _); [|done]. cbn zeta.
  by rewrite E2.
Qed.

Lemma good_frame_aligned f : good_frame f -> f mod PAGE_SIZE = 0.
Proof. by intros (_ & _ & ?). Qed.

(** Writing one entry of an existing private table. *)
Lemma step_set_pte m d virt v :
  mem_ok m -> space m d -> is_u32 virt -> is_u32 v ->
  present (pde m d (pde_index virt)) = true -> private m d (pde_index virt) ->
  let m' := with_ram (ram_entry_set (table_of m d (pde_index virt)) (pte_index virt) v (m_ram m)) m in
  space_step d virt m m' /\ pde m' d (pde_index virt) = pde m d (pde_index virt) /\
  entry (m_ram m') (table_of m d (pde_index virt)) (pte_index virt) = v /\
  walk (m_ram m') d virt = (if present v then Some v else None).
Proof.
  intros Hmem Hsp Hv Hvv Hpres Hpriv m'. pose proof (space_dir _ _ Hsp) as Hd.
  set (i := pde_index virt) in *. pose proof (pde_index_range virt Hv) as Hi. fold i in Hi.
  pose proof (pte_index_range virt) as Hti.
  destruct (space_tables _ _ Hsp i Hi Hpres) as [Ht Hused].
  destruct (Hpriv Hpres) as [Htd Hshare].
  apply good_frame_aligned in Hd as Had. apply good_frame_aligned in Ht as Hat.
  assert (forall j, 0 <= j < 1024 -> pde m' d j = pde m d j) as Hpde
    by (intros j Hj; apply entry_set_ne; auto).
  assert (forall j, 0 <= j < 1024 -> table_of m' d j = table_of m d j) as Htab
    by (intros j Hj; unfold table_of; by rewrite Hpde).
  assert (entry (m_ram m') (table_of m d i) (pte_index virt) = v) as Hset by by apply entry_set_eq.
  split; [split|split; [by apply Hpde|split; [done|]]].
  - exact Hmem.
  - split; [done|apply Hsp|]. intros j Hj. rewrite Hpde, Htab by done. apply Hsp; done.
  - done.
  - intros j Hj _. by apply Hpde.
  - intros j Hj Hp. unfold private. rewrite Hpde, Htab by done. intros Hj'.
    destruct (Hp Hj') as [H1 H2]. split; [done|]. intros k Hk. rewrite Hpde, Htab by done. auto.
  - intros va Hva Hne Hp. pose proof (pde_index_range va Hva) as Hj.
    apply walk_ext; [by apply Hpde|]. intros Hj'.
    apply entry_set_ne; [done|by apply frame_of_aligned, entry_u32|done|apply pte_index_range|].
    destruct (decide (pde_index va = i)) as [Eij|Hij].
    + right. intros Et. apply Hne, same_page; [done|done|exact Eij|congruence].
    + left. apply not_eq_sym, Hshare; done.
  - rewrite walk_unfold. fold i. change (entry (m_ram m') d i) with (pde m' d i).
    rewrite Hpde, Hpres by done. cbn zeta. change (frame_of (pde m d i)) with (table_of m d i).
    by rewrite Hset.
Qed.

Lemma present_lor_flags f flags :
  is_u32 f -> f mod PAGE_SIZE = 0 -> 0 <= flags < PAGE_SIZE ->
  present (Z.lor f flags) = Z.testbit flags 0.
Proof.
  intros Hf Hm Hfl. rewrite present_bit. apply (frame_lor f flags Hf Hm Hfl). lia.
Qed.

(** A walk does not look at the processor or at the manager. *)
Lemma space_step_trans d virt m m' m'' :
  space_step d virt m m' -> space_step d virt m' m'' ->
  space_step d virt m m''.
Proof.
  intros [? ? ? Ho1 Hp1 Hw1] [? ? ? Ho2 Hp2 Hw2].
  split; [done|done|congruence|intros j Hj Hji; by rewrite Ho2, Ho1|auto|].
  intros va Hva Hne Hp. rewrite Hw2, Hw1; [done..|].
  apply Hp1; [by apply pde_index_range|done].
Qed.

(** Installing a fresh, cleared table under an absent entry. *)
Lemma step_new_table m d virt f p' r e :
  mem_ok m -> space m d -> is_u32 virt -> present (pde m d (pde_index virt)) = false ->
  good_frame f -> m_free m f = true -> page_taken (f / PAGE_SIZE) (pmm_of (m_pmm m)) p' ->
  cleared f (m_ram m) r -> is_u32 e -> present e = true -> frame_of e = f ->
  let m' := with_ram (ram_entry_set d (pde_index virt) e r) (with_pmm p' m) in
  space_step d virt m m' /\ pde m' d (pde_index virt) = e /\ private m' d (pde_index virt) /\
  (forall k, 0 <= k < 1024 -> entry (m_ram m') f k = 0).
Proof.
  intros Hmem Hsp Hv Habs Hf Hfree Htaken [Hzero Hkeep] He Hpres Hfe m'.
  pose proof (space_dir _ _ Hsp) as Hd. set (i := pde_index virt) in *.
  pose proof (pde_index_range virt Hv) as Hi. fold i in Hi.
  assert (forall g, good_frame g -> m_free m g = false -> g <> f) as Hfresh
    by (intros g _ Hg ->; congruence).
  assert (d <> f) as Hdf by (apply Hfresh; [done|apply Hsp]).
  apply good_frame_aligned in Hd as Had. apply good_frame_aligned in Hf as Haf.
  assert (forall g j, good_frame g -> g <> f -> 0 <= j < 1024 -> entry r g j = entry (m_ram m) g j)
    as Hother.
  { intros g j Hg Hgf Hj. apply word_ext. intros q Hq. apply Hkeep.
    apply good_frame_aligned in Hg. unfold PAGE_SIZE in *. lia. }
  assert (forall j, 0 <= j < 1024 -> j <> i -> pde m' d j = pde m d j) as Hpde.
  { intros j Hj Hji. unfold pde, m'. cbn [m_ram with_ram]. rewrite entry_set_ne by auto. by apply Hother. }
  assert (pde m' d i = e) as Hpi by by apply entry_set_eq.
  assert (forall j, 0 <= j < 1024 -> j <> i -> table_of m' d j = table_of m d j) as Htab
    by (intros j Hj Hji; unfold table_of; by rewrite Hpde).
  assert (forall j, 0 <= j < 1024 -> j <> i -> present (pde m' d j) = true ->
    good_frame (table_of m' d j) /\ m_free m (table_of m' d j) = false) as Htok.
  { intros j Hj Hji. rewrite Hpde, Htab by done. by apply Hsp. }
  assert (forall g, m_free m' g = m_free m g && negb (g / PAGE_SIZE =? f / PAGE_SIZE)) as Hmf
    by (intros g; apply (taken_free _ _ _ Htaken)).
  assert (forall j, 0 <= j < 1024 -> j <> i -> present (pde m' d j) = true -> table_of m' d j <> f)
    as Hnf by (intros j Hj Hji Hp; destruct (Htok j Hj Hji Hp); by apply Hfresh).
  assert (table_of m' d i = f) as Hti by (unfold table_of; by rewrite Hpi).
  split; [split|split; [done|split]].
  - by eapply taken_mem_ok.
  - split; [done| |].
    + rewrite Hmf, (space_dir_used _ _ Hsp). done.
    + intros j Hj Hp. destruct (decide (j = i)) as [->|Hji].
      * rewrite Hti. split; [done|]. rewrite Hmf, Z.eqb_refl. apply andb_false_r.
      * destruct (Htok j Hj Hji Hp) as [H1 H2]. split; [done|]. by rewrite Hmf, H2.
  - done.
  - exact Hpde.
  - intros j Hj Hp Hp'. destruct (decide (j = i)) as [->|Hji].
    + rewrite Hti. split; [done|]. intros k Hk Hki Hpk. by apply Hnf.
    + rewrite Hpde in Hp' by done. destruct (Hp Hp') as [H1 H2]. rewrite Htab by done.
      split; [done|]. intros k Hk Hkj Hpk. destruct (decide (k = i)) as [->|Hki].
      * rewrite Hti. destruct (Htok j Hj Hji) as [H3 H4]; [by rewrite Hpde|].
        rewrite Htab in * by done. apply not_eq_sym, Hfresh; done.
      * rewrite Htab by done. apply H2; [done..|]. by rewrite <- Hpde.
  - intros va Hva Hne Hp. pose proof (pde_index_range va Hva) as Hj.
    pose proof (pte_index_range va) as Htj. destruct (decide (pde_index va = i)) as [Eji|Hji].
    + rewrite !walk_unfold, Eji. change (entry (m_ram m') d i) with (pde m' d i).
      change (entry (m_ram m) d i) with (pde m d i). rewrite Habs, Hpi, Hpres, Hfe. cbn zeta.
      unfold m'. cbn [m_ram with_ram]. rewrite entry_set_ne by auto. by rewrite Hzero.
    + apply walk_ext; [by apply Hpde|]. intros Hp'. destruct (Hp Hp') as [H1 _].
      destruct (Htok (pde_index va) Hj Hji) as [H3 H4]; [by rewrite Hpde|].
      rewrite Htab in H3, H4 by done. change (frame_of _) with (table_of m d (pde_index va)).
      unfold m'. cbn [m_ram with_ram].
      rewrite entry_set_ne; [|done|by apply good_frame_aligned|done|done|by left; apply not_eq_sym].
      apply Hother; [done|by apply Hfresh|done].
  - intros Hp'. rewrite Hti. split; [done|]. intros j Hj Hji Hpj. by apply Hnf.
  - intros k Hk. unfold m'. cbn [m_ram with_ram]. rewrite entry_set_ne by auto. by apply Hzero.
Qed.
End Spaces.

(** ** The operations *)

Definition pmm_at (m : machine) : pmm := pmm_of (m_pmm m).

(** The entry [paging_map] writes. *)
Definition leaf (phys flags : Z) : Z := Z.lor (frame_of phys) flags.

(** Flags of a mapping: below the frame bits, with [PAGE_PRESENT]. *)
Definition map_flags (flags : Z) : Prop := 0 <= flags < PAGE_SIZE /\ Z.testbit flags 0 = true.

(** [virt] is now mapped by [e]; the manager is as before, or one page was
    taken for the page table that was missing. *)
Definition mapped (d virt e : Z) (m m' : machine) : Prop :=
  space_step d virt m m' /\ walk (m_ram m') d virt = Some e /\
  present (pde m' d (pde_index virt)) = true /\ private m' d (pde_index virt) /\
  flushed (pmm_cpu (m_pmm m')) = virt :: flushed (pmm_cpu (m_pmm m)) /\
  eflags (pmm_cpu (m_pmm m')) = eflags (pmm_cpu (m_pmm m)) /\
  cr3 (pmm_cpu (m_pmm m')) = cr3 (pmm_cpu (m_pmm m)) /\
  (present (pde m d (pde_index virt)) = true /\ pmm_at m' = pmm_at m /\
     pde m' d (pde_index virt) = pde m d (pde_index virt) \/
   present (pde m d (pde_index virt)) = false /\
     m_free m (table_of m' d (pde_index virt)) = true /\
     page_taken (table_of m' d (pde_index virt) / PAGE_SIZE) (pmm_at m) (pmm_at m')).

(** No table and no page for one: [paging_map] returns without a word. *)
Definition map_failed (d virt : Z) (m m' : machine) : Prop :=
  present (pde m d (pde_index virt)) = false /\
  exists p', alloc_failed (pmm_at m) p' /\ m' = with_pmm p' m.

Section Operations.
Implicit Types (m : machine) (d virt phys flags : Z).

Lemma leaf_ok phys flags :
  is_u32 phys -> map_flags flags ->
  is_u32 (leaf phys flags) /\ present (leaf phys flags) = true /\
  frame_of (leaf phys flags) = frame_of phys.
Proof.
  intros Hp [Hf Hb]. destruct (frame_of_aligned phys Hp) as [Ha Hr].
  assert (is_u32 (frame_of phys)) as Hu by (unfold is_u32 in *; lia).
  destruct (frame_lor _ _ Hu Ha Hf) as (H1 & H2 & H3). split; [done|]. split; [|done].
  by rewrite present_bit, H3 by lia.
Qed.

Lemma table_flags flags :
  0 <= Z.land flags (Z.lor PAGE_WRITABLE PAGE_USER) < PAGE_SIZE - 1 /\
  Z.testbit (Z.land flags (Z.lor PAGE_WRITABLE PAGE_USER)) 0 = false.
Proof.
  split.
  - change (Z.lor PAGE_WRITABLE PAGE_USER) with 6.
    assert (0 <= Z.land flags 6) as H0 by (apply Z.land_nonneg; lia).
    split; [done|]. apply Z.lt_le_trans with (2 ^ 3); [|done].
    apply bits_below; [lia|done|]. intros n Hn. rewrite Z.land_spec.
    rewrite (testbit_high 6 3) by lia. apply andb_false_r.
  - rewrite Z.land_spec. apply andb_false_r.
Qed.

(** The entry for a new table. *)
Lemma table_entry_ok f flags :
  good_frame f ->
  let e := Z.lor (Z.lor f PAGE_PRESENT) (Z.land flags (Z.lor PAGE_WRITABLE PAGE_USER)) in
  is_u32 e /\ present e = true /\ frame_of e = f.
Proof.
  intros Hf e. destruct (good_frame_virt f Hf) as (_ & _ & _ & Hu).
  apply good_frame_aligned in Hf. destruct (table_flags flags) as [Hr Hb].
  unfold e. rewrite <- Z.lor_assoc.
  destruct (frame_lor f (Z.lor PAGE_PRESENT (Z.land flags (Z.lor PAGE_WRITABLE PAGE_USER))) Hu Hf)
    as (H1 & H2 & H3).
  - split; [apply Z.lor_nonneg; split; [done|lia]|].
    apply (bits_below _ 12); [lia|apply Z.lor_nonneg; split; [done|lia]|].
    intros n Hn. rewrite Z.lor_spec. rewrite (testbit_high PAGE_PRESENT 1) by (done || lia).
    apply (testbit_high _ 12); unfold PAGE_SIZE in *; lia.
  - split; [done|]. split; [|done]. rewrite present_bit, H3 by lia.
    by rewrite Z.lor_spec.
Qed.

Lemma wp_flush m virt (Q : unit -> machine -> Prop) :
  Q tt (with_cpu (Cpu (eflags (pmm_cpu (m_pmm m))) (cr3 (pmm_cpu (m_pmm m)))
    (virt :: flushed (pmm_cpu (m_pmm m)))) m) ->
  wp (zoom machine_cpu_l (paging_invalidate virt)) Q m.
Proof. intros HQ. exact HQ. Qed.

Lemma with_cpu_step d virt c m m' : space_step d virt m m' -> space_step d virt m (with_cpu c m').
Proof. intros [? [] ? Ho Hp ?]. split; done. Qed.

Lemma wp_paging_map m d virt phys flags (Q : unit -> machine -> Prop) :
  mem_ok m -> space m d -> private m d (pde_index virt) ->
  is_u32 virt -> is_u32 phys -> map_flags flags ->
  (forall m', mapped d virt (leaf phys flags) m m' -> Q tt m') ->
  (forall m', map_failed d virt m m' -> Q tt m') ->
  wp (paging_map (PHYS_TO_VIRT d) virt phys flags) Q m.
Proof.
  intros Hmem Hsp Hpriv Hv Hp Hfl HQ HQf. pose proof (space_dir _ _ Hsp) as Hd.
  pose proof (pde_index_range virt Hv) as Hi. pose proof (pte_index_range virt) as Hti.
  destruct (leaf_ok phys flags Hp Hfl) as (Hl1 & Hl2 & _).
  unfold paging_map. apply wp_bind, wp_paging_get_table; [done..|].
  destruct (present (pde m d (pde_index virt))) eqn:Epres.
  - destruct (space_tables _ _ Hsp _ Hi Epres) as [Hg _].
    destruct (good_frame_virt _ Hg) as (_ & _ & Hnn & _).
    rewrite (proj2 (Z.eqb_neq _ _)) by done. apply wp_bind, wp_ret.
    rewrite (proj2 (Z.eqb_neq _ _)) by done.
    apply wp_bind, wp_set_entry; [done..|]. apply wp_flush, HQ.
    destruct (step_set_pte m d virt (leaf phys flags)) as (Hstep & Hpde & _ & Hwalk); [done..|].
    split; [by apply with_cpu_step|]. rewrite Hl2 in Hwalk.
    split; [done|]. split; [by rewrite <- Epres, <- Hpde|].
    split; [by apply (step_private _ _ _ _ Hstep)|]. repeat (split; [done|]). left. done.
  - unfold paging_alloc_table. cbn [Z.eqb NULL].
    apply wp_bind, wp_bind, wp_bind, wp_alloc_frame; [done| |].
    + intros p' Hf. do 3 apply wp_ret. apply HQf. split; [done|]. by exists p'.
    + intros f p' Hg Hnz Hfree _ Htaken.
      destruct (good_frame_virt f Hg) as (Ev & Ep & Hnn & Hu).
      rewrite (proj2 (Z.eqb_neq f 0)) by done.
      apply wp_bind, wp_clear_page; [done|]. intros r Hr. apply wp_ret.
      rewrite (proj2 (Z.eqb_neq _ _)) by done.
      assert (VIRT_TO_PHYS (PHYS_TO_VIRT f) = f) as -> by by rewrite Ev.
      destruct (table_entry_ok f flags Hg) as (He1 & He2 & He3).
      apply wp_bind, wp_set_entry; [done..|]. apply wp_ret.
      rewrite (proj2 (Z.eqb_neq _ _)) by done.
      destruct (step_new_table m d virt f p' r _ Hmem Hsp Hv Epres Hg Hfree Htaken Hr He1 He2 He3)
        as (Hstep & Hpde & Hpriv' & _).
      apply wp_bind, wp_set_entry; [done..|]. apply wp_flush, HQ.
      set (m1 := with_ram _ _) in Hstep, Hpde, Hpriv'.
      assert (table_of m1 d (pde_index virt) = f) as Ht1 by (unfold table_of; by rewrite Hpde).
      destruct (step_set_pte m1 d virt (leaf phys flags)) as (Hstep2 & Hpde2 & _ & Hwalk);
        [apply Hstep|apply Hstep|done|done|by rewrite Hpde|done|].
      rewrite Hl2, Ht1 in *.
      split; [apply with_cpu_step; eapply space_step_trans; [exact Hstep|exact Hstep2]|].
      split; [exact Hwalk|]. split; [exact (eq_trans (f_equal present Hpde2) (eq_trans (f_equal present Hpde) He2))|].
      split; [by apply (step_private _ _ _ _ Hstep2)|]. repeat (split; [done|]).
      right. split; [done|]. replace (table_of _ d _) with f; [by split|].
      exact (eq_sym (eq_trans (f_equal frame_of Hpde2) Ht1)).
Qed.

Lemma wp_paging_translate m d virt (Q : Z -> machine -> Prop) :
  space m d -> is_u32 virt ->
  Q (match walk (m_ram m) d virt with
     | Some e => u32 (frame_of e + page_offset virt)
     | None => 0
     end) m ->
  wp (paging_translate (PHYS_TO_VIRT d) virt) Q m.
Proof.
  intros Hsp Hv HQ. pose proof (pde_index_range virt Hv) as Hi.
  pose proof (pte_index_range virt) as Hti. unfold paging_translate.
  apply wp_bind, wp_paging_get_table; [apply Hsp|done|].
  rewrite walk_unfold in HQ. change (entry (m_ram m) d _) with (pde m d (pde_index virt)) in HQ.
  destruct (present (pde m d (pde_index virt))) eqn:E; [|by apply wp_ret].
  destruct (space_tables _ _ Hsp _ Hi E) as [Hg _].
  destruct (good_frame_virt _ Hg) as (_ & _ & Hnn & _). rewrite (proj2 (Z.eqb_neq _ _)) by done.
  apply wp_bind, wp_get_entry; [done..|]. cbn zeta in HQ.
  change (frame_of (pde m d (pde_index virt))) with (table_of m d (pde_index virt)) in HQ.
  destruct (present (entry _ _ _)); by apply wp_ret.
Qed.

(** The scan of [paging_unmap] tells whether any entry is present. *)
Lemma wp_table_in_use m f (Q : bool -> machine -> Prop) :
  good_frame f ->
  (forall b, (b = false -> forall i, 0 <= i < 1024 -> present (entry (m_ram m) f i) = false) ->
     Q b m) ->
  wp (table_in_use (PHYS_TO_VIRT f)) Q m.
Proof.
  intros Hf HQ. unfold table_in_use. apply wp_bind.
  apply (wp_for_range (fun i m' => m' = m /\
    forall k, 0 <= k < i -> present (entry (m_ram m) f k) = false)).
  - split; [done|]. intros k Hk. lia.
  - intros i m' Hi (-> & Hno). apply wp_bind, wp_get_entry; [done|lia|]. apply wp_ret.
    destruct (present _) eqn:E.
    + apply wp_ret, HQ. done.
    + split; [done|]. intros k Hk. destruct (decide (k = i)) as [->|]; [done|apply Hno; lia].
  - intros m' (-> & Hno). apply wp_ret, HQ. intros _ i Hi. apply Hno. lia.
Qed.

(** [virt] is no longer mapped; the manager is as before, or its table was
    empty and has been given back. *)
Definition unmapped (d virt : Z) (m m' : machine) : Prop :=
  space_step d virt m m' /\ walk (m_ram m') d virt = None /\
  eflags (pmm_cpu (m_pmm m')) = eflags (pmm_cpu (m_pmm m)) /\
  cr3 (pmm_cpu (m_pmm m')) = cr3 (pmm_cpu (m_pmm m)) /\
  (present (pde m' d (pde_index virt)) = true -> pde m' d (pde_index virt) = pde m d (pde_index virt)) /\
  (pmm_at m' = pmm_at m \/
   page_released (table_of m d (pde_index virt) / PAGE_SIZE) (pmm_at m) (pmm_at m') /\
   m_free m (table_of m d (pde_index virt)) = false /\
   present (pde m' d (pde_index virt)) = false).

(** Dropping an empty private table from the directory. *)
Lemma step_drop_table m d virt w :
  mem_ok (MkMachine w (m_ram m) (kernel_directory m)) -> space m d -> is_u32 virt ->
  present (pde m d (pde_index virt)) = true -> private m d (pde_index virt) ->
  (forall k, 0 <= k < 1024 -> present (entry (m_ram m) (table_of m d (pde_index virt)) k) = false) ->
  (forall g, page_free (pmm_of w) (g / PAGE_SIZE) =
     m_free m g || (g / PAGE_SIZE =? table_of m d (pde_index virt) / PAGE_SIZE) \/
     page_free (pmm_of w) (g / PAGE_SIZE) = m_free m g) ->
  let m' := with_ram (ram_entry_set d (pde_index virt) 0 (m_ram m))
    (MkMachine w (m_ram m) (kernel_directory m)) in
  space_step d virt m m' /\ pde m' d (pde_index virt) = 0 /\ walk (m_ram m') d virt = None.
Proof.
  intros Hmem Hsp Hv Hpres Hpriv Hempty Hfree m'. pose proof (space_dir _ _ Hsp) as Hd.
  set (i := pde_index virt) in *. pose proof (pde_index_range virt Hv) as Hi. fold i in Hi.
  destruct (Hpriv Hpres) as [Htd Hshare]. destruct (space_tables _ _ Hsp i Hi Hpres) as [Ht _].
  apply good_frame_aligned in Hd as Had. apply good_frame_aligned in Ht as Hat.
  assert (forall j, 0 <= j < 1024 -> j <> i -> pde m' d j = pde m d j) as Hpde
    by (intros j Hj Hji; apply entry_set_ne; auto).
  assert (pde m' d i = 0) as Hpi by by apply entry_set_eq.
  assert (forall g, good_frame g -> m_free m g = false -> g <> table_of m d i -> m_free m' g = false)
    as Hused.
  { intros g Hg Hgf Hne. apply good_frame_aligned in Hg. change (m_free m' g) with (page_free (pmm_of w) (g / PAGE_SIZE)).
    destruct (Hfree g) as [->| ->]; [|done]. rewrite Hgf. unfold PAGE_SIZE in *. lia. }
  split; [split|split; [done|]].
  - exact Hmem.
  - split; [done|by apply Hused; [|apply Hsp|apply not_eq_sym]|]. intros j Hj Hp.
    destruct (decide (j = i)) as [->|Hji]; [by rewrite Hpi in Hp|].
    rewrite Hpde in Hp by done. unfold table_of. rewrite Hpde by done.
    destruct (space_tables _ _ Hsp j Hj Hp) as [H1 H2]. split; [done|].
    apply Hused; [done..|]. by apply Hshare.
  - done.
  - exact Hpde.
  - intros j Hj Hp Hp'. destruct (decide (j = i)) as [->|Hji]; [by rewrite Hpi in Hp'|].
    rewrite Hpde in Hp' by done. destruct (Hp Hp') as [H1 H2]. unfold table_of in *.
    rewrite (Hpde j) by done. split; [done|]. intros k Hk Hkj Hpk.
    destruct (decide (k = i)) as [->|Hki]; [by rewrite Hpi in Hpk|].
    rewrite Hpde in * by done. by apply H2.
  - intros va Hva Hne Hp. pose proof (pde_index_range va Hva) as Hj.
    destruct (decide (pde_index va = i)) as [Eji|Hji].
    + rewrite !walk_unfold, Eji. change (entry (m_ram m') d i) with (pde m' d i).
      change (entry (m_ram m) d i) with (pde m d i). rewrite Hpi, Hpres. cbn zeta.
      rewrite Hempty by apply pte_index_range. done.
    + apply walk_ext; [by apply Hpde|]. intros Hp'. destruct (Hp Hp') as [H1 _].
      apply entry_set_ne; [done|by apply frame_of_aligned, entry_u32|done|apply pte_index_range|].
      left. by apply not_eq_sym.
  - rewrite walk_unfold. fold i. change (entry (m_ram m') d i) with (pde m' d i). by rewrite Hpi.
Qed.

Lemma good_frame_page f : good_frame f -> 0 < f / PAGE_SIZE /\ f + PAGE_SIZE <= BOOTSTRAP_MAP_SIZE.
Proof. unfold good_frame, PAGE_SIZE. lia. Qed.

Lemma walk_absent r d virt : present (entry r d (pde_index virt)) = false -> walk r d virt = None.
Proof. intros E. by rewrite walk_unfold, E. Qed.

Lemma space_step_refl d virt m : mem_ok m -> space m d -> space_step d virt m m.
Proof. intros Hm Hs. split; auto. Qed.

Lemma wp_paging_unmap m d virt (Q : unit -> machine -> Prop) :
  mem_ok m -> space m d -> private m d (pde_index virt) -> is_u32 virt ->
  (forall m', unmapped d virt m m' -> Q tt m') ->
  wp (paging_unmap (PHYS_TO_VIRT d) virt) Q m.
Proof.
  intros Hmem Hsp Hpriv Hv HQ. pose proof (space_dir _ _ Hsp) as Hd.
  pose proof (pde_index_range virt Hv) as Hi. pose proof (pte_index_range virt) as Hti.
  destruct (good_frame_virt d Hd) as (_ & _ & Hdn & _). unfold paging_unmap.
  apply wp_bind, wp_assert; [by rewrite (proj2 (Z.eqb_neq _ _))|].
  apply wp_bind, wp_get_entry; [done..|]. change (entry (m_ram m) d _) with (pde m d (pde_index virt)).
  destruct (present (pde m d (pde_index virt))) eqn:Epres; cbn [negb].
  2:{ apply wp_ret, HQ. split; [by apply space_step_refl|]. split; [by apply walk_absent|]. auto 6. }
  destruct (space_tables _ _ Hsp _ Hi Epres) as [Hg Hused].
  destruct (good_frame_virt _ Hg) as (_ & _ & Hnn & Hgu).
  apply wp_bind, wp_paging_get_table; [done..|]. rewrite Epres.
  rewrite (proj2 (Z.eqb_neq _ _)) by done.
  apply wp_bind, wp_set_entry; [done..|]. apply wp_bind, wp_flush.
  destruct (step_set_pte m d virt 0) as (Hstep & Hpde & _ & Hwalk); [done..|].
  set (m1 := with_ram _ _) in Hstep, Hpde, Hwalk |- *. set (m2 := with_cpu _ m1).
  assert (space_step d virt m m2) as Hstep2 by by apply with_cpu_step.
  apply wp_bind, wp_table_in_use; [done|]. intros [] Hempty.
  { apply wp_ret, HQ. split; [done|]. split; [exact Hwalk|]. do 2 (split; [done|]).
    split; [intros _; exact Hpde|]. by left. }
  specialize (Hempty eq_refl). assert (table_of m2 d (pde_index virt) = table_of m d (pde_index virt))
    as Htab by (unfold table_of; exact (f_equal frame_of Hpde)).
  assert (present (pde m2 d (pde_index virt)) = true) as Hpres2 by (rewrite <- Epres; exact (f_equal present Hpde)).
  assert (private m2 d (pde_index virt)) as Hpriv2 by by apply (step_private _ _ _ _ Hstep2).
  destruct (good_frame_page _ Hg) as [Hpos Hle].
  change (frame_of (pde m d (pde_index virt))) with (table_of m d (pde_index virt)).
  rewrite <- Htab in Hempty, Hg, Hpos, Hle, Hgu, Hused |- *.
  apply wp_bind, wp_free_frame; [apply Hstep2|done..| |].
  - intros _. apply wp_set_entry; [done..|]. apply HQ.
    destruct (step_drop_table m2 d virt (m_pmm m2)) as (Hs3 & Hp3 & Hw3);
      [apply Hstep2|apply Hstep2|done..|by right|].
    split; [eapply space_step_trans; [exact Hstep2|exact Hs3]|]. split; [exact Hw3|].
    do 2 (split; [done|]). split; [|by left]. intros E. discriminate (eq_trans (eq_sym E) (f_equal present Hp3)).
  - intros p' Hlt Hnf Hrel Hmem'. apply wp_set_entry; [done..|]. apply HQ.
    destruct (step_drop_table m2 d virt (PmmWorld (pmm_cpu (m_pmm m2)) p')) as (Hs3 & Hp3 & Hw3);
      [exact Hmem'|apply Hstep2|done..|by left; apply (released_free _ _ _ Hrel)|].
    split; [eapply space_step_trans; [exact Hstep2|exact Hs3]|]. split; [exact Hw3|].
    do 2 (split; [done|]). split; [intros E; discriminate (eq_trans (eq_sym E) (f_equal present Hp3))|]. right. rewrite <- Htab. split; [exact Hrel|].
    split; [exact Hused|]. exact (f_equal present Hp3).
Qed.

Lemma wp_paging_validate_mapping m d virt (Q : bool -> machine -> Prop) :
  space m d -> is_u32 virt ->
  Q (match walk (m_ram m) d virt with Some _ => true | None => false end) m ->
  wp (paging_validate_mapping (PHYS_TO_VIRT d) virt) Q m.
Proof.
  intros Hsp Hv HQ. pose proof (pde_index_range virt Hv) as Hi.
  pose proof (pte_index_range virt) as Hti. pose proof (space_dir _ _ Hsp) as Hd.
  destruct (good_frame_virt d Hd) as (_ & _ & Hdn & _). unfold paging_validate_mapping.
  apply wp_bind, wp_assert; [by rewrite (proj2 (Z.eqb_neq _ _))|].
  apply wp_bind, wp_get_entry; [done..|]. rewrite walk_unfold in HQ.
  change (entry (m_ram m) d _) with (pde m d (pde_index virt)) in HQ |- *.
  destruct (present (pde m d (pde_index virt))) eqn:E; cbn [negb]; [|by apply wp_ret].
  apply wp_bind, wp_paging_get_table; [done..|]. rewrite E.
  destruct (space_tables _ _ Hsp _ Hi E) as [Hg _].
  destruct (good_frame_virt _ Hg) as (_ & _ & Hnn & _). rewrite (proj2 (Z.eqb_neq _ _)) by done.
  apply wp_bind, wp_get_entry; [done..|]. apply wp_ret. cbn zeta in HQ.
  change (frame_of (pde m d (pde_index virt))) with (table_of m d (pde_index virt)) in HQ.
  by destruct (present (entry _ _ _)).
Qed.

(** ** User memory *)

(** The page of [va] is mapped with [PAGE_USER] in its table entry. *)
Definition user_mapped r d va : bool :=
  match walk r d va with Some e => user_bit e | None => false end.

Lemma wp_user_page_check m d va (Q : bool -> machine -> Prop) :
  space m d -> is_u32 va -> Q (user_mapped (m_ram m) d va) m ->
  wp (user_page_check (PHYS_TO_VIRT d) va) Q m.
Proof.
  intros Hsp Hv HQ. pose proof (pde_index_range va Hv) as Hi.
  pose proof (pte_index_range va) as Hti. pose proof (space_dir _ _ Hsp) as Hd.
  unfold user_page_check, user_mapped in *. apply wp_bind, wp_paging_get_table; [done..|].
  rewrite walk_unfold in HQ. change (entry (m_ram m) d _) with (pde m d (pde_index va)) in HQ.
  destruct (present (pde m d (pde_index va))) eqn:E; [|by apply wp_ret].
  destruct (space_tables _ _ Hsp _ Hi E) as [Hg _].
  destruct (good_frame_virt _ Hg) as (_ & _ & Hnn & _). rewrite (proj2 (Z.eqb_neq _ _)) by done.
  apply wp_bind, wp_get_entry; [done..|]. cbn zeta in HQ.
  change (frame_of (pde m d (pde_index va))) with (table_of m d (pde_index va)) in HQ.
  destruct (present (entry _ _ _)); cbn [negb]; [|by apply wp_ret].
  destruct (user_bit _); by apply wp_ret.
Qed.

(** A walk depends on the page only. *)
Lemma walk_page r d a b : a / PAGE_SIZE = b / PAGE_SIZE -> walk r d a = walk r d b.
Proof.
  intros E. unfold walk. assert (pde_index a = pde_index b) as ->.
  { rewrite !pde_index_div. unfold PAGE_SIZE in E. lia. }
  assert (pte_index a = pte_index b) as -> by (by rewrite !pte_index_mod, E). done.
Qed.

Lemma wp_user_range_valid m d addr len (Q : bool -> machine -> Prop) :
  space m d -> is_u32 addr -> is_u32 len ->
  (forall b, (b = true <-> len = 0 \/
      addr + len < 2 ^ 32 /\ forall a, addr <= a < addr + len -> user_mapped (m_ram m) d a = true) ->
    Q b m) ->
  wp (paging_user_range_valid (PHYS_TO_VIRT d) addr len) Q m.
Proof.
  intros Hsp Ha Hl HQ. destruct (good_frame_virt d (space_dir _ _ Hsp)) as (_ & _ & Hdn & _).
  unfold paging_user_range_valid. rewrite (proj2 (Z.eqb_neq _ _)) by done.
  destruct (Z.eqb_spec len 0) as [->|Hlen]; [apply wp_ret, HQ; by split; [left|]|].
  unfold is_u32 in Ha, Hl. destruct (Z.ltb_spec (u32 (addr + len)) addr) as [Hw|Hw].
  { apply wp_ret, HQ. split; [done|]. intros [?|[Hlt _]]; [done|].
    rewrite u32_id in Hw by (unfold is_u32; lia). lia. }
  assert (addr + len < 2 ^ 32) as Hsum.
  { destruct (decide (addr + len < 2 ^ 32)) as [|Hge]; [done|].
    replace (u32 (addr + len)) with (addr + len - 2 ^ 32) in Hw; [lia|].
    unfold u32. apply Z.mod_unique with 1; lia. }
  rewrite (u32_id (addr + len)) by (unfold is_u32; lia).
  rewrite u32_id by (unfold is_u32; lia).
  rewrite !page_down_div by (unfold is_u32; lia). unfold PAGE_SIZE.
  set (s := addr / 4096). set (e := (addr + len - 1) / 4096).
  assert (s <= e < 2 ^ 20) as Hse by (unfold s, e; lia).
  replace ((4096 * e - 4096 * s) / 4096 + 1) with (e - s + 1) by lia.
  apply wp_bind. apply (wp_for_range (fun i m' => m' = m /\ forall k, 0 <= k < i ->
    user_mapped (m_ram m) d (4096 * (s + k)) = true)).
  - split; [done|]. intros k Hk. lia.
  - intros i m' Hi (-> & Hall). replace (4096 * s + i * 4096) with (4096 * (s + i)) by lia.
    assert (is_u32 (4096 * (s + i))) as Hu by (unfold is_u32; lia).
    rewrite u32_id by done. apply wp_bind, wp_user_page_check; [done..|]. apply wp_ret.
    destruct (user_mapped _ _ _) eqn:Em.
    + split; [done|]. intros k Hk. destruct (decide (k = i)) as [->|]; [done|apply Hall; lia].
    + apply wp_ret, HQ. cbn. split; [done|]. intros [?|[_ Hm]]; [done|]. exfalso.
      set (a := Z.max addr (4096 * (s + i))).
      assert (user_mapped (m_ram m) d a = true) as Hma
        by (apply Hm; unfold a, s, e in *; lia).
      unfold user_mapped in Hma, Em.
      rewrite (walk_page _ _ a (4096 * (s + i))) in Hma by (unfold a, s, e, PAGE_SIZE in *; lia).
      congruence.
  - intros m' (-> & Hall). apply wp_ret, HQ. cbn. split; [|done]. intros _. right.
    split; [done|]. intros a Hra. unfold user_mapped.
    rewrite (walk_page _ _ a (4096 * (s + (a / 4096 - s)))) by (unfold PAGE_SIZE; lia).
    apply Hall. unfold s, e in *. lia.
Qed.
End Operations.

(** ** Creating and destroying address spaces *)

(** The entries of every page but [f] are as before. *)
Definition only_page (f : Z) (r r' : ram) : Prop :=
  forall g i, g mod PAGE_SIZE = 0 -> g <> f -> 0 <= i < 1024 -> entry r' g i = entry r g i.

Definition is_kernel_pde (i : Z) : bool := (KERNEL_PDE_START <=? i) && (i <? 1024).

Section Create.
Implicit Types (m : machine) (d f g i : Z).

Lemma only_page_set f i v r : f mod PAGE_SIZE = 0 -> 0 <= i < 1024 -> only_page f r (ram_entry_set f i v r).
Proof. intros Hf Hi g j Hg Hne Hj. apply entry_set_ne; auto. Qed.

Lemma only_page_trans f r r' r'' : only_page f r r' -> only_page f r' r'' -> only_page f r r''.
Proof. intros H1 H2 g i Hg Hne Hi. by rewrite H2, H1. Qed.

Lemma cleared_only_page f r r' : f mod PAGE_SIZE = 0 -> cleared f r r' -> only_page f r r'.
Proof.
  intros Hf [_ Hk] g i Hg Hne Hi. apply word_ext. intros q Hq. apply Hk.
  unfold PAGE_SIZE in *. lia.
Qed.

(** The loop that copies entries [first .. 1023] of one page to another. *)
Lemma wp_copy_entries m d s first (Q : unit -> machine -> Prop) :
  good_frame d -> good_frame s -> d <> s -> 0 <= first <= 1024 ->
  (forall r, only_page d (m_ram m) r ->
     (forall i, first <= i < 1024 -> entry r d i = entry (m_ram m) s i) ->
     (forall i, 0 <= i < first -> entry r d i = entry (m_ram m) d i) -> Q tt (with_ram r m)) ->
  wp (for_each first (Z.to_nat (1024 - first)) (fun i =>
    let* e := get_entry (PHYS_TO_VIRT s) i in set_entry (PHYS_TO_VIRT d) i e)) Q m.
Proof.
  intros Hd Hs Hne Hfirst HQ. apply good_frame_aligned in Hd as Had. apply good_frame_aligned in Hs as Has.
  apply (wp_for_each (fun i m' => exists r, m' = with_ram r m /\ only_page d (m_ram m) r /\
    (forall k, first <= k < i -> entry r d k = entry (m_ram m) s k) /\
    (forall k, 0 <= k < first -> entry r d k = entry (m_ram m) d k))).
  - exists (m_ram m). rewrite with_ram_id. split; [done|]. split; [by intros g|].
    split; [intros k Hk; lia|done].
  - intros i m' Hi (r & -> & Honly & Hcopied & Hkept).
    apply wp_bind, wp_get_entry; [done|lia|]. apply wp_set_entry; [done|lia|].
    cbn [m_ram with_ram]. exists (ram_entry_set d i (entry r s i) r). split; [done|].
    split; [eapply only_page_trans; [exact Honly|apply only_page_set; [done|lia]]|]. split.
    + intros k Hk. destruct (decide (k = i)) as [->|Hki].
      * rewrite entry_set_eq by apply entry_u32. apply Honly; [done|by apply not_eq_sym|lia].
      * rewrite entry_set_ne by (done || lia || auto). apply Hcopied. lia.
    + intros k Hk. rewrite entry_set_ne by (done || lia || right; lia). by apply Hkept.
  - intros m' (r & -> & Honly & Hcopied & Hkept). apply HQ; [done| |done].
    intros i Hi. apply Hcopied. lia.
Qed.

Lemma wp_copy_kernel_mappings m d kd (Q : unit -> machine -> Prop) :
  good_frame d -> good_frame kd -> d <> kd -> kernel_directory m = PHYS_TO_VIRT kd ->
  (forall r, only_page d (m_ram m) r ->
     (forall i, 0 <= i < 1024 -> entry r d i =
       if is_kernel_pde i then entry (m_ram m) kd i else entry (m_ram m) d i) ->
     Q tt (with_ram r m)) ->
  wp (paging_copy_kernel_mappings (PHYS_TO_VIRT d)) Q m.
Proof.
  intros Hd Hkd Hne Ekd HQ. destruct (good_frame_virt d Hd) as (_ & _ & Hdn & _).
  destruct (good_frame_virt kd Hkd) as (_ & _ & Hkn & _). unfold paging_copy_kernel_mappings.
  apply wp_bind, wp_assert; [by rewrite (proj2 (Z.eqb_neq _ _))|].
  apply wp_bind, wp_gets. rewrite Ekd.
  apply wp_bind, wp_assert; [by rewrite (proj2 (Z.eqb_neq _ _))|].
  apply (wp_copy_entries m d kd KERNEL_PDE_START); [done..|unfold KERNEL_PDE_START; lia|].
  intros r Honly Hc Hk. apply HQ; [done|]. intros i Hi. unfold is_kernel_pde.
  destruct (Z.leb_spec KERNEL_PDE_START i).
  - rewrite (proj2 (Z.ltb_lt _ _)) by lia. apply Hc. lia.
  - apply Hk. lia.
Qed.

(** A new directory: its user half is empty and its kernel half is the
    kernel's. *)
Record created (kd f : Z) (m m' : machine) : Prop := {
  created_mem : mem_ok m';
  created_space : space m' f;
  created_kernel : space m' kd;
  created_kd : kernel_directory m' = kernel_directory m;
  created_cpu : pmm_cpu (m_pmm m') = pmm_cpu (m_pmm m);
  created_taken : page_taken (f / PAGE_SIZE) (pmm_at m) (pmm_at m');
  created_only : only_page f (m_ram m) (m_ram m');
  created_user : forall va, is_u32 va -> va < KERNEL_VIRT_BASE -> walk (m_ram m') f va = None;
  created_shared : forall va, is_u32 va -> KERNEL_VIRT_BASE <= va ->
    walk (m_ram m') f va = walk (m_ram m') kd va;
  created_pde : forall i, 0 <= i < 1024 -> pde m' f i = if is_kernel_pde i then pde m' kd i else 0;
}.

Lemma space_only_page m m' d f :
  space m d -> only_page f (m_ram m) (m_ram m') -> d <> f ->
  (forall g, m_free m' g = m_free m g && negb (g / PAGE_SIZE =? f / PAGE_SIZE)) -> space m' d.
Proof.
  intros [Hd Hu Ht] Honly Hne Hfree. apply good_frame_aligned in Hd as Had. split; [done| |].
  - by rewrite Hfree, Hu.
  - intros i Hi. unfold table_of, pde. rewrite Honly by done. intros Hp.
    destruct (Ht i Hi Hp) as [H1 H2]. split; [done|]. unfold table_of, pde in H2. by rewrite Hfree, H2.
Qed.

Lemma wp_paging_create_directory m kd (Q : Z -> machine -> Prop) :
  mem_ok m -> space m kd -> kernel_directory m = PHYS_TO_VIRT kd ->
  (forall p', alloc_failed (pmm_at m) p' -> Q NULL (with_pmm p' m)) ->
  (forall f m', good_frame f -> m_free m f = true -> created kd f m m' -> Q (PHYS_TO_VIRT f) m') ->
  wp paging_create_directory Q m.
Proof.
  intros Hmem Hsp Ekd Hfail HQ. pose proof (space_dir _ _ Hsp) as Hkd. unfold paging_create_directory.
  apply wp_bind, wp_alloc_frame; [done| |].
  { intros p' Hf. apply wp_ret. by apply Hfail. }
  intros f p' Hg Hnz Hfree _ Htaken. rewrite (proj2 (Z.eqb_neq f 0)) by done.
  assert (f <> kd) as Hne by (intros ->; by rewrite (space_dir_used _ _ Hsp) in Hfree).
  apply wp_bind, wp_clear_page; [done|]. intros r Hr.
  apply wp_bind, (wp_copy_kernel_mappings _ f kd); [done..|]. intros r' Honly' Hcopy. apply wp_ret.
  apply HQ; [done..|]. cbn [m_ram with_ram] in *.
  apply good_frame_aligned in Hg as Haf. apply good_frame_aligned in Hkd as Hak.
  assert (only_page f (m_ram m) r) as Honly0 by by apply cleared_only_page.
  assert (only_page f (m_ram m) r') as Honly by by eapply only_page_trans.
  set (m' := with_ram r' _).
  assert (forall g, m_free m' g = m_free m g && negb (g / PAGE_SIZE =? f / PAGE_SIZE)) as Hmf
    by (intros g; apply (taken_free _ _ _ Htaken)).
  assert (mem_ok m') as Hmem' by by eapply taken_mem_ok.
  assert (space m' kd) as Hspk by (eapply space_only_page; [exact Hsp|exact Honly|by apply not_eq_sym|exact Hmf]).
  assert (forall i, 0 <= i < 1024 -> pde m' f i = if is_kernel_pde i then pde m' kd i else 0) as Hpde.
  { intros i Hi. change (pde m' f i) with (entry r' f i). change (pde m' kd i) with (entry r' kd i).
    rewrite Hcopy, Honly', (proj1 Hr) by auto. done. }
  split; try done.
  - split; [done| |].
    + rewrite Hmf, Z.eqb_refl. apply andb_false_r.
    + intros i Hi. unfold table_of. rewrite Hpde by done. destruct (is_kernel_pde i); [|done].
      intros Hp. by apply (space_tables _ _ Hspk).
  - intros va Hva Hlt. apply walk_absent. change (entry (m_ram m') f ?i) with (pde m' f i).
    rewrite Hpde by by apply pde_index_range. unfold is_kernel_pde.
    rewrite (proj2 (Z.leb_gt _ _)); [done|]. rewrite pde_index_div.
    unfold KERNEL_PDE_START, KERNEL_VIRT_BASE, is_u32 in *. lia.
  - intros va Hva Hge. rewrite !walk_unfold. change (entry (m_ram m') f ?i) with (pde m' f i).
    rewrite Hpde by by apply pde_index_range. unfold is_kernel_pde.
    pose proof (pde_index_range va Hva) as Hi. rewrite (proj2 (Z.ltb_lt _ _)) by lia.
    rewrite (proj2 (Z.leb_le _ _)); [done|]. rewrite pde_index_div.
    unfold KERNEL_PDE_START, KERNEL_VIRT_BASE, is_u32 in *. lia.
Qed.
End Create.

(** What a directory owns: per present user entry, the pages its table maps
    and the table; and the directory page. *)
Definition frame_list (e : Z) : list Z := if present e then [frame_of e] else [].

Definition table_pages (r : ram) (t : Z) (n : Z) : list Z :=
  concat ((fun k => frame_list (entry r t k)) <$> seqZ 0 n).

Definition block (r : ram) (e : Z) : list Z :=
  if present e then table_pages r (frame_of e) 1024 ++ [frame_of e] else [].

Definition blocks (r : ram) (d : Z) (n : Z) : list Z :=
  concat ((fun i => block r (entry r d i)) <$> seqZ 0 n).

Definition owned (r : ram) (d : Z) : list Z := blocks r d 768 ++ [d].

(** A managed page in the direct mapping that is in use. *)
Definition freeable (p : pmm) (f : Z) : Prop :=
  0 < f /\ f mod PAGE_SIZE = 0 /\ f + PAGE_SIZE <= BOOTSTRAP_MAP_SIZE /\ is_u32 f /\
  f / PAGE_SIZE < total_pages p /\ page_free p (f / PAGE_SIZE) = false.

(** [p'] is [p] with exactly the pages of [l] given back. *)
Record given_back (l : list Z) (p p' : pmm) : Prop := {
  gb_inv : pmm_inv p';
  gb_free : forall f, f mod PAGE_SIZE = 0 ->
    page_free p' (f / PAGE_SIZE) = page_free p (f / PAGE_SIZE) || bool_decide (f ∈ l);
  gb_count : free_pages p' = free_pages p + Z.of_nat (length l);
  gb_total : total_pages p' = total_pages p;
  gb_fail : fail_allocations p' = fail_allocations p;
}.

Section Destroy.
Implicit Types (m : machine) (p : pmm) (d t f i : Z) (l : list Z).

Lemma concat_seqZ_snoc (f : Z -> list Z) n :
  0 <= n -> concat (f <$> seqZ 0 (n + 1)) = concat (f <$> seqZ 0 n) ++ f n.
Proof.
  intros Hn. rewrite seqZ_app, fmap_app, concat_app by lia. f_equal.
  rewrite Z.add_0_l, seqZ_cons by lia. change (Z.pred 1) with 0.
  cbn [fmap list_fmap concat]. apply app_nil_r.
Qed.

Lemma given_back_nil p : pmm_inv p -> given_back [] p p.
Proof.
  intros Hp. split; [done| |cbn; lia|done..]. intros f _. rewrite bool_decide_false by by intros ?%not_elem_of_nil.
  by rewrite orb_false_r.
Qed.

(** Giving back one more page of a list without duplicates. *)
Lemma wp_give_back m p l f (Q : unit -> machine -> Prop) :
  mem_ok m -> given_back l p (pmm_at m) -> freeable p f -> f ∉ l ->
  (forall p', mem_ok (with_pmm p' m) -> given_back (l ++ [f]) p p' -> Q tt (with_pmm p' m)) ->
  wp (zoom pmm_world_l (pmm_free_page f)) Q m.
Proof.
  intros Hmem Hgb (Hpos & Hal & Hle & Hu & Htot & Hused) Hnot HQ.
  assert (m_free m f = false) as Hnf.
  { unfold m_free. change (pmm_of (m_pmm m)) with (pmm_at m).
    rewrite (gb_free _ _ _ Hgb f Hal), Hused, bool_decide_false by done. done. }
  pose proof (gb_total _ _ _ Hgb) as Et.
  apply wp_free_frame; [done|done|unfold PAGE_SIZE in *; lia|done| |].
  - change (pmm_of (m_pmm m)) with (pmm_at m). intros [H|H]; [lia|congruence].
  - intros p' _ _ Hrel Hmem'. apply HQ; [done|]. change (pmm_of (m_pmm m)) with (pmm_at m) in Hrel.
    split; [apply Hrel| | | |].
    + intros g Hg. rewrite (released_free _ _ _ Hrel), (gb_free _ _ _ Hgb g Hg).
      rewrite <- orb_assoc. f_equal. apply Bool.eq_iff_eq_true.
      rewrite orb_true_iff, !bool_decide_eq_true, elem_of_app, list_elem_of_singleton.
      unfold PAGE_SIZE in *. rewrite Z.eqb_eq. intuition lia.
    + rewrite (released_count _ _ _ Hrel), (gb_count _ _ _ Hgb), length_app. cbn. lia.
    + by rewrite (released_total _ _ _ Hrel).
    + by rewrite (released_fail _ _ _ Hrel), (gb_fail _ _ _ Hgb).
Qed.

Lemma table_pages_ext r r' t n :
  (forall k, 0 <= k < n -> entry r' t k = entry r t k) -> table_pages r' t n = table_pages r t n.
Proof.
  intros H. unfold table_pages. f_equal. apply list_fmap_ext. intros j k E.
  apply lookup_seqZ in E. rewrite H by lia. done.
Qed.

Lemma table_pages_prefix r t n k :
  0 <= k < n -> exists rest, table_pages r t n = table_pages r t k ++ frame_list (entry r t k) ++ rest.
Proof.
  intros Hk. exists (concat ((fun j => frame_list (entry r t j)) <$> seqZ (0 + (k + 1)) (n - (k + 1)))).
  unfold table_pages at 1. replace n with (k + 1 + (n - (k + 1))) at 1 by lia.
  rewrite seqZ_app, fmap_app, concat_app, concat_seqZ_snoc by lia. by rewrite <- app_assoc.
Qed.

Lemma wp_free_table_pages m p l t (Q : unit -> machine -> Prop) :
  mem_ok m -> given_back l p (pmm_at m) -> good_frame t ->
  Forall (freeable p) (table_pages (m_ram m) t 1024) ->
  NoDup (l ++ table_pages (m_ram m) t 1024) ->
  (forall p' r, let m' := with_ram r (with_pmm p' m) in
     mem_ok m' -> given_back (l ++ table_pages (m_ram m) t 1024) p p' ->
     only_page t (m_ram m) r -> Q tt m') ->
  wp (free_table_pages (PHYS_TO_VIRT t)) Q m.
Proof.
  intros Hmem Hgb Ht Hfree Hnd HQ. apply good_frame_aligned in Ht as Hat.
  apply (wp_for_each (fun k m' => exists p' r, m' = with_ram r (with_pmm p' m) /\ mem_ok m' /\
    given_back (l ++ table_pages (m_ram m) t k) p p' /\ only_page t (m_ram m) r /\
    forall j, k <= j < 1024 -> entry r t j = entry (m_ram m) t j)).
  - exists (pmm_at m), (m_ram m). change (table_pages (m_ram m) t 0) with (@nil Z). rewrite app_nil_r.
    split; [by destruct m as [[]]|]. split; [done|]. split; [done|]. split; [by intros g|done].
  - intros k m' Hk (p' & r & -> & Hmem' & Hgb' & Honly & Hrest).
    apply wp_bind, wp_get_entry; [done|lia|]. cbn [m_ram with_ram]. rewrite Hrest by lia.
    destruct (table_pages_prefix (m_ram m) t 1024 k ltac:(lia)) as [rest Epre].
    unfold table_pages in *. rewrite concat_seqZ_snoc by lia.
    destruct (present (entry (m_ram m) t k)) eqn:Ep; cbn [negb].
    + assert (frame_list (entry (m_ram m) t k) = [frame_of (entry (m_ram m) t k)]) as Efl
        by (unfold frame_list; by rewrite Ep). rewrite Efl in Epre |- *.
      set (f := frame_of (entry (m_ram m) t k)) in *.
      rewrite Epre in Hfree, Hnd. apply Forall_app in Hfree as [_ Hfree].
      apply Forall_cons in Hfree as [Hff _].
      apply wp_bind, (wp_give_back _ p (l ++ concat ((fun k => frame_list (entry (m_ram m) t k)) <$> seqZ 0 k)));
        [done|done|done| |].
      * rewrite app_assoc in Hnd. apply NoDup_app in Hnd as (_ & Hnd & _).
        intros Hin. apply (Hnd f Hin). left.
      * intros p'' Hmem'' Hgb''. apply wp_set_entry; [done|lia|].
        exists p'', (ram_entry_set t k 0 r). cbn [m_ram with_ram with_pmm]. split; [done|].
        split; [exact Hmem''|]. rewrite app_assoc. split; [exact Hgb''|]. split.
        { eapply only_page_trans; [exact Honly|apply only_page_set; [done|lia]]. }
        intros j Hj. rewrite entry_set_ne by (done || lia || right; lia). apply Hrest. lia.
    + assert (frame_list (entry (m_ram m) t k) = []) as -> by (unfold frame_list; by rewrite Ep).
      apply wp_ret. exists p', r. split; [done|]. split; [done|]. rewrite app_nil_r.
      split; [done|]. split; [done|]. intros j Hj. apply Hrest. lia.
  - intros m' (p' & r & -> & Hmem' & Hgb' & Honly & _). by apply HQ.
Qed.

Lemma blocks_prefix r d n i :
  0 <= i < n -> exists rest, blocks r d n = blocks r d i ++ block r (entry r d i) ++ rest.
Proof.
  intros Hk. exists (concat ((fun j => block r (entry r d j)) <$> seqZ (0 + (i + 1)) (n - (i + 1)))).
  unfold blocks at 1. replace n with (i + 1 + (n - (i + 1))) at 1 by lia.
  rewrite seqZ_app, fmap_app, concat_app, concat_seqZ_snoc by lia. by rewrite <- app_assoc.
Qed.

(** The state after the tables of the entries below [i] are gone. *)
Definition destroyed_to (m : machine) (d i : Z) (m' : machine) : Prop :=
  exists p' r', m' = with_ram r' (with_pmm p' m) /\ mem_ok m' /\
    given_back (blocks (m_ram m) d i) (pmm_at m) p' /\
    (forall j, i <= j < 1024 -> entry r' d j = entry (m_ram m) d j) /\
    (forall g k, g mod PAGE_SIZE = 0 -> g <> d -> g ∉ blocks (m_ram m) d i -> 0 <= k < 1024 ->
       entry r' g k = entry (m_ram m) g k).

Definition destroyable (m : machine) (d : Z) : Prop :=
  good_frame d /\ NoDup (owned (m_ram m) d) /\ Forall (freeable (pmm_at m)) (owned (m_ram m) d).

Lemma wp_destroy_table m d i m' (Q : unit -> machine -> Prop) :
  destroyable m d -> 0 <= i < 768 -> destroyed_to m d i m' ->
  (forall m'', destroyed_to m d (i + 1) m'' -> Q tt m'') ->
  wp (destroy_table (PHYS_TO_VIRT d) i) Q m'.
Proof.
  intros (Hd & Hnd & Hfree) Hi (p' & r' & -> & Hmem & Hgb & Hrest & Hother) HQ.
  unfold owned in *. destruct (blocks_prefix (m_ram m) d 768 i Hi) as [rest Epre].
  assert (blocks (m_ram m) d (i + 1) = blocks (m_ram m) d i ++ block (m_ram m) (entry (m_ram m) d i))
    as Esnoc by (unfold blocks; by rewrite concat_seqZ_snoc by lia).
  apply good_frame_aligned in Hd as Had. unfold destroy_table.
  apply wp_bind, wp_get_entry; [done|lia|]. cbn [m_ram with_ram]. rewrite Hrest by lia.
  set (e := entry (m_ram m) d i) in *. unfold block in Epre, Esnoc.
  destruct (present e) eqn:Ep; cbn [negb].
  2:{ apply wp_ret, HQ. exists p', r'. rewrite Esnoc, app_nil_r. repeat (split; [done|]).
      split; [|done]. intros j Hj. apply Hrest. lia. }
  set (t := frame_of e) in *. rewrite Epre in Hnd, Hfree.
  rewrite <- !app_assoc in Hnd, Hfree. cbn [app] in Hnd, Hfree.
  apply Forall_app in Hfree as [_ Hfree]. apply Forall_app in Hfree as [Hft Hfree].
  apply Forall_cons in Hfree as [Hftt _].
  assert (good_frame t) as Hgt by (destruct Hftt as (? & ? & ? & _); by split).
  assert ((t ∉ blocks (m_ram m) d i ++ table_pages (m_ram m) t 1024) /\ t <> d) as [Htn Htd].
  { rewrite app_assoc in Hnd. apply NoDup_app in Hnd as (_ & Hnd & Hnd2). split.
    - intros Hin. apply (Hnd t Hin). left.
    - intros ->. apply NoDup_cons in Hnd2 as [Hnd2 _]. apply Hnd2. set_solver. }
  assert (table_pages r' t 1024 = table_pages (m_ram m) t 1024) as Etp.
  { apply table_pages_ext. intros k Hk. apply Hother; [by apply good_frame_aligned|done|set_solver|done]. }
  apply wp_bind, (wp_free_table_pages _ (pmm_at m) (blocks (m_ram m) d i));
    cbn [m_ram with_ram]; rewrite ?Etp; [done..| |].
  { rewrite app_assoc in Hnd. by apply NoDup_app in Hnd as (Hnd & _). }
  intros p2 r2 Hmem2 Hgb2 Honly.
  apply wp_bind, (wp_give_back _ (pmm_at m) (blocks (m_ram m) d i ++ table_pages (m_ram m) t 1024));
    [done..|]. intros p3 Hmem3 Hgb3. apply wp_set_entry; [done|lia|]. apply HQ.
  exists p3, (ram_entry_set d i 0 r2). split; [done|]. split; [exact Hmem3|].
  rewrite Esnoc. split; [by rewrite app_assoc|]. split.
  - intros j Hj. rewrite entry_set_ne by (done || lia || right; lia).
    rewrite Honly by (done || lia || by apply not_eq_sym). apply Hrest. lia.
  - intros g k Hg Hgd Hgn Hk. rewrite entry_set_ne by (done || lia || left; by apply not_eq_sym).
    rewrite Honly; [|done|set_solver|done]. apply Hother; [done..|set_solver|done].
Qed.

(** What [paging_destroy_directory] leaves: exactly the owned pages are given
    back, and no page outside the directory and its tables is written. *)
Definition destroyed (d : Z) (m m' : machine) : Prop :=
  mem_ok m' /\ given_back (owned (m_ram m) d) (pmm_at m) (pmm_at m') /\
  pmm_cpu (m_pmm m') = pmm_cpu (m_pmm m) /\ kernel_directory m' = kernel_directory m /\
  forall g k, g mod PAGE_SIZE = 0 -> g ∉ owned (m_ram m) d -> 0 <= k < 1024 ->
    entry (m_ram m') g k = entry (m_ram m) g k.

Lemma wp_paging_destroy_directory m d (Q : unit -> machine -> Prop) :
  mem_ok m -> destroyable m d -> if_set (eflags (pmm_cpu (m_pmm m))) = false ->
  (forall m', destroyed d m m' -> Q tt m') ->
  wp (paging_destroy_directory (PHYS_TO_VIRT d)) Q m.
Proof.
  intros Hmem Hdes Hoff HQ. pose proof Hdes as (Hd & Hnd & Hfree).
  destruct (good_frame_virt d Hd) as (Ev & Ep & Hdn & Hu). unfold paging_destroy_directory.
  apply wp_bind, wp_assert; [by rewrite (proj2 (Z.eqb_neq _ _))|].
  apply wp_bind, wp_zoom, wp_gets. cbn [view machine_cpu_l]. rewrite Hoff.
  assert (set_view machine_cpu_l (pmm_cpu (m_pmm m)) m = m) as -> by by destruct m as [[]].
  apply wp_bind, wp_assert; [done|]. apply wp_bind.
  apply (wp_for_each (fun i m' => 0 <= i /\ destroyed_to m d i m')).
  - split; [done|]. exists (pmm_at m), (m_ram m). split; [by destruct m as [[]]|].
    split; [done|]. split; [by apply given_back_nil, Hmem|]. done.
  - intros i m' Hi [_ Hto]. apply (wp_destroy_table m d i); [done|lia|done|].
    intros m'' Hto'. split; [lia|done].
  - intros m' [_ (p' & r' & -> & Hmem' & Hgb & Hrest & Hother)]. rewrite Ev, Ep.
    unfold owned in *. change (0 + Z.of_nat 768) with 768 in *.
    apply Forall_app in Hfree as [_ [Hfd _]%Forall_cons].
    apply (wp_give_back _ (pmm_at m) (blocks (m_ram m) d 768)); [done..| |].
    + apply NoDup_app in Hnd as (_ & Hnd & _). intros Hin. apply (Hnd d Hin). left.
    + intros p'' Hmem'' Hgb''. apply HQ. split; [exact Hmem''|]. split; [exact Hgb''|].
      split; [done|]. split; [done|]. intros g k Hg Hgn Hk. apply Hother; [done|set_solver|set_solver|done].
Qed.
End Destroy.
