(* ===== verification/PagingSpec.v ===== *)
(** * Properties of paging

    Start-up of the kernel directory, the validation of user strings, and the
    theorems about [kernel/mm/paging.c], each with a run on a small machine
    whose directory [paging_init] built. *)

From S2P Require Import Prelude Layout Bitmap Machine Pmm CString Ram Paging.

(** ** Start-up *)

Section Init.
Implicit Types (m : machine) (d b f : Z).

(** The kernel directory after [paging_init]: the bootstrap directory's
    entries with the recursive entry in the last slot, loaded into CR3. *)
Record initialised (b f : Z) (m m' : machine) : Prop := {
  init_mem : mem_ok m';
  init_space : space m' f;
  init_kd : kernel_directory m' = PHYS_TO_VIRT f;
  init_cr3 : cr3 (pmm_cpu (m_pmm m')) = f;
  init_flags : eflags (pmm_cpu (m_pmm m')) = eflags (pmm_cpu (m_pmm m));
  init_taken : page_taken (f / PAGE_SIZE) (pmm_at m) (pmm_at m');
  init_only : only_page f (m_ram m) (m_ram m');
  init_walk : forall va, is_u32 va -> va < RECURSIVE_VIRT_BASE ->
    walk (m_ram m') f va = walk (m_ram m) b va;
  init_recursive : table_of m' f RECURSIVE_PDE_INDEX = f;
  init_pde : forall i, 0 <= i < RECURSIVE_PDE_INDEX -> pde m' f i = pde m b i;
}.

Lemma wp_paging_init m b (Q : unit -> machine -> Prop) :
  mem_ok m -> space m b -> cr3 (pmm_cpu (m_pmm m)) = b ->
  fail_allocations (pmm_at m) = 0 -> ~ none_free (pmm_at m) ->
  (forall f m', good_frame f -> m_free m f = true -> initialised b f m m' -> Q tt m') ->
  wp paging_init Q m.
Proof.
  intros Hmem Hsp Hcr Hfail Hsome HQ. pose proof (space_dir _ _ Hsp) as Hb. unfold paging_init.
  apply wp_bind, wp_alloc_frame; [done| |].
  { intros p' ([H|H] & _); [by destruct H|done]. }
  intros f p' Hg Hnz Hfree _ Htaken. rewrite (proj2 (Z.eqb_neq f 0)) by done.
  assert (f <> b) as Hne by (intros ->; by rewrite (space_dir_used _ _ Hsp) in Hfree).
  destruct (good_frame_virt f Hg) as (_ & _ & _ & Hu).
  apply wp_bind, wp_modify. apply wp_bind, wp_clear_page; [done|]. intros r Hr.
  apply wp_bind, wp_zoom, wp_gets. cbn [view set_view machine_cpu_l m_pmm with_ram pmm_cpu with_pmm].
  rewrite Hcr. cbn [m_ram pmm_of kernel_directory]. apply wp_bind.
  apply (wp_copy_entries _ f b 0); [done..|].
  intros r' Honly' Hcopy _. apply wp_bind, wp_set_entry; [done..|]. apply wp_zoom, wp_modify.
  cbn [m_ram with_ram set_view machine_cpu_l m_pmm pmm_of kernel_directory] in *.
  apply good_frame_aligned in Hg as Haf. apply good_frame_aligned in Hb as Hab.
  assert (only_page f (m_ram m) r') as Honly
    by (eapply only_page_trans; [by apply cleared_only_page|done]).
  set (e := Z.lor (Z.lor f PAGE_PRESENT) PAGE_WRITABLE).
  assert (is_u32 e /\ present e = true /\ frame_of e = f) as (He1 & He2 & He3)
    by apply (table_entry_ok f PAGE_WRITABLE Hg).
  set (m' := MkMachine _ _ _).
  assert (only_page f (m_ram m) (m_ram m')) as Honlym
    by (eapply only_page_trans; [exact Honly|by apply only_page_set]).
  assert (forall i, 0 <= i < 1024 -> pde m' f i = if i =? 1023 then e else pde m b i) as Hpde.
  { intros i Hi. unfold pde, m'. cbn [m_ram]. destruct (Z.eqb_spec i 1023) as [->|Hi'].
    - by apply entry_set_eq.
    - rewrite entry_set_ne by (done || lia || right; unfold RECURSIVE_PDE_INDEX; lia).
      rewrite Hcopy by done. apply cleared_only_page in Hr; [|done]. apply Hr; auto. }
  assert (forall g, m_free m' g = m_free m g && negb (g / PAGE_SIZE =? f / PAGE_SIZE)) as Hmf
    by (intros g; apply (taken_free _ _ _ Htaken)).
  apply (HQ f); [done..|]. split; try done.
  - exact (taken_mem_ok m _ p' Hmem Htaken).
  - split; [done|rewrite Hmf, Z.eqb_refl; apply andb_false_r|].
    intros i Hi. unfold table_of. rewrite Hpde by done. destruct (i =? 1023).
    + rewrite He3. intros _. split; [done|]. rewrite Hmf, Z.eqb_refl. apply andb_false_r.
    + intros Hp. destruct (space_tables _ _ Hsp i Hi Hp) as [H1 H2]. split; [done|].
      unfold table_of in H2. by rewrite Hmf, H2.
  - intros va Hva Hlt. pose proof (pde_index_range va Hva) as Hi.
    assert (pde_index va <> 1023) as Hn
      by (rewrite pde_index_div; unfold RECURSIVE_VIRT_BASE, is_u32 in *; lia).
    rewrite !walk_unfold. change (entry (m_ram m') f ?i) with (pde m' f i).
    rewrite Hpde by done. rewrite (proj2 (Z.eqb_neq _ _)) by done.
    change (entry (m_ram m) b (pde_index va)) with (pde m b (pde_index va)).
    destruct (present (pde m b (pde_index va))) eqn:E; [|done].
    destruct (space_tables _ _ Hsp _ Hi E) as [H1 H2]. cbn zeta.
    change (frame_of (pde m b (pde_index va))) with (table_of m b (pde_index va)).
    rewrite Honlym; [done|by apply good_frame_aligned| |apply pte_index_range].
    intros Ef. by rewrite Ef, Hfree in H2.
  - unfold table_of. by rewrite Hpde.
  - intros i Hi. unfold RECURSIVE_PDE_INDEX in Hi. rewrite Hpde by lia. by rewrite (proj2 (Z.eqb_neq i 1023)) by lia.
Qed.
End Init.

(** ** User strings *)

(** The byte a virtual address reads as. *)
Definition virtual_byte (r : ram) (d a : Z) : option Z :=
  match walk r d a with
  | Some pte => Some (byte r (frame_of pte + page_offset a))
  | None => None
  end.

(** [n] user characters from [a] on, none of them the terminator. *)
Definition user_text (r : ram) (d a n : Z) : Prop :=
  forall k, 0 <= k < n -> user_mapped r d (a + k) = true /\ virtual_byte r d (a + k) <> Some 0.

(** A terminated string in user memory. *)
Definition user_string (r : ram) (d a n : Z) : Prop :=
  0 <= n /\ a + n <= USER_VIRT_END /\ user_text r d a n /\
  user_mapped r d (a + n) = true /\ virtual_byte r d (a + n) = Some 0.

Section Strings.
Implicit Types (m : machine) (r : ram) (d a n : Z).

(** The processor translates with the directory [d]. *)
Definition active (m : machine) (d : Z) : Prop := frame_of (cr3 (pmm_cpu (m_pmm m))) = d.

Lemma user_mapped_byte r d a : user_mapped r d a = true -> exists c, virtual_byte r d a = Some c.
Proof. unfold user_mapped, virtual_byte. destruct (walk r d a); [eauto|done]. Qed.

Lemma wp_virtual_load m d a c (Q : Z -> machine -> Prop) :
  active m d -> virtual_byte (m_ram m) d a = Some c -> Q c m -> wp (virtual_load a) Q m.
Proof.
  intros Ha E HQ. unfold virtual_byte in E. unfold wp, virtual_load. rewrite Ha.
  destruct (walk _ _ _); [|done]. by injection E as ->.
Qed.

Lemma user_mapped_page r d a b : a / PAGE_SIZE = b / PAGE_SIZE -> user_mapped r d a = user_mapped r d b.
Proof. intros E. unfold user_mapped. by rewrite (walk_page r d a b). Qed.

Lemma user_text_snoc r d a n :
  0 <= n -> user_text r d a n -> user_mapped r d (a + n) = true -> virtual_byte r d (a + n) <> Some 0 ->
  user_text r d a (n + 1).
Proof.
  intros Hn Ht Hm Hb k Hk. destruct (decide (k = n)) as [->|]; [done|]. apply Ht. lia.
Qed.

(** The scan of one page, from a character up to the end of the page. *)
Lemma wp_scan_page m d s a (Q : Z + bool -> machine -> Prop) :
  active m d -> 0 <= s <= a -> a <= USER_VIRT_END ->
  user_mapped (m_ram m) d a = true -> user_text (m_ram m) d s (a - s) ->
  let stop := PAGE_SIZE * (a / PAGE_SIZE) + PAGE_SIZE in
  (user_text (m_ram m) d s (stop - s) -> stop <= USER_VIRT_END -> Q (inl stop) m) ->
  (forall n, user_string (m_ram m) d s n -> Q (inr true) m) ->
  (user_text (m_ram m) d s (USER_VIRT_END + 1 - s) -> Q (inr false) m) ->
  wp (scan_page stop a) Q m.
Proof.
  intros Hact Hs Ha Hmap Htext stop Hnext Hfound Hend. unfold scan_page.
  assert (stop <= USER_VIRT_END + 1) as Hstop by (unfold stop, PAGE_SIZE, USER_VIRT_END in *; lia).
  assert (forall x, a <= x < stop -> user_mapped (m_ram m) d x = true) as Hpage.
  { intros x Hx. rewrite <- Hmap. apply user_mapped_page. unfold stop, PAGE_SIZE in *. lia. }
  apply (wp_loop (fun x m' => m' = m /\ a <= x <= stop /\ x <= USER_VIRT_END /\
    user_text (m_ram m) d s (x - s)) (fun x _ => Z.to_nat (stop - x))).
  - intros x m' (-> & Hx & Hxu & Ht). destruct (Z.ltb_spec x stop) as [Hlt|Hge].
    + pose proof (Hpage x ltac:(lia)) as Hmx. destruct (user_mapped_byte _ _ _ Hmx) as [c Hc].
      apply wp_bind, (wp_virtual_load _ d _ c); [done..|].
      destruct (Z.eqb_spec c 0) as [->|Hne].
      * apply wp_ret, (Hfound (x - s)). unfold user_string.
        replace (s + (x - s)) with x by lia. split; [lia|]. by split; [lia|].
      * assert (user_text (m_ram m) d s (x + 1 - s)) as Ht'.
        { replace (x + 1 - s) with (x - s + 1) by lia. apply user_text_snoc; [lia|done|..];
            replace (s + (x - s)) with x by lia; [done|congruence]. }
        rewrite u32_id by (unfold is_u32, USER_VIRT_END in *; lia).
        destruct (Z.ltb_spec USER_VIRT_END (x + 1)) as [Hu|Hu]; apply wp_ret.
        -- apply Hend. by replace (USER_VIRT_END + 1) with (x + 1) by lia.
        -- split; [|lia]. split; [done|]. split; [lia|]. split; [lia|done].
    + apply wp_ret. assert (x = stop) as -> by lia. by apply Hnext.
  - split; [done|]. split; [unfold stop, PAGE_SIZE in *; lia|]. done.
  - unfold stop, PAGE_SIZE in *. lia.
Qed.

Lemma user_string_after r d s a n :
  user_text r d s (a - s) -> user_string r d s n -> a <= s + n.
Proof.
  intros Ht (Hn & _ & _ & _ & H0). destruct (decide (a <= s + n)) as [|Hlt]; [done|].
  destruct (Ht n) as [_ Hne]; [lia|done].
Qed.

Lemma wp_user_string_valid m d s fuel (Q : bool -> machine -> Prop) :
  space m d -> active m d -> 0 < s <= USER_VIRT_END ->
  ((USER_VIRT_END + PAGE_SIZE - s) / PAGE_SIZE < Z.of_nat fuel) ->
  (forall b, (b = true <-> exists n, user_string (m_ram m) d s n) -> Q b m) ->
  wp (paging_user_string_valid fuel (PHYS_TO_VIRT d) s) Q m.
Proof.
  intros Hsp Hact Hs Hfuel HQ. destruct (good_frame_virt d (space_dir _ _ Hsp)) as (_ & _ & Hdn & _).
  unfold paging_user_string_valid. rewrite (proj2 (Z.eqb_neq _ _)) by done.
  rewrite (proj2 (Z.eqb_neq s NULL)) by (unfold NULL; lia).
  apply (wp_loop (fun a m' => m' = m /\ s <= a <= USER_VIRT_END /\ user_text (m_ram m) d s (a - s))
    (fun a _ => Z.to_nat ((USER_VIRT_END + PAGE_SIZE - a) / PAGE_SIZE))).
  - intros a m' (-> & Ha & Ht). assert (is_u32 a) as Hau by (unfold is_u32, USER_VIRT_END in *; lia).
    apply wp_bind, wp_user_range_valid; [done..|unfold is_u32; lia|]. intros b Hb.
    destruct b; cbn [negb].
    + assert (user_mapped (m_ram m) d a = true) as Hm.
      { destruct (proj1 Hb eq_refl) as [?|[_ H]]; [done|]. apply H. lia. }
      rewrite page_down_div by done.
      rewrite (u32_id (_ + _)) by (unfold is_u32, PAGE_SIZE, USER_VIRT_END in *; lia).
      apply (wp_scan_page _ d s); [done|lia|lia|done|done|..].
      * intros Ht' Hle. split; [split; [done|]|].
        -- split; [unfold PAGE_SIZE in *; lia|done].
        -- unfold PAGE_SIZE, USER_VIRT_END in *. lia.
      * intros n Hn. apply HQ. split; [by exists n|done].
      * intros Ht'. apply HQ. split; [done|]. intros [n Hn]. exfalso.
        pose proof (user_string_after _ _ _ _ _ Ht' Hn). destruct Hn as (_ & Hle & _). lia.
    + apply wp_ret, HQ. split; [done|]. intros [n Hn]. exfalso.
      pose proof (user_string_after _ _ _ _ _ Ht Hn) as Hle.
      assert (user_mapped (m_ram m) d a = true) as Hm.
      { destruct Hn as (Hn & _ & Htn & Hmn & _). destruct (decide (a = s + n)) as [->|]; [done|].
        replace a with (s + (a - s)) by lia. apply Htn. lia. }
      assert (false = true); [|done]. apply Hb. right. split; [unfold USER_VIRT_END in *; lia|].
      intros x Hx. by replace x with a by lia.
  - split; [done|]. split; [lia|]. intros k Hk. lia.
  - unfold PAGE_SIZE, USER_VIRT_END in *. lia.
Qed.
End Strings.

(** ** Properties *)

Section Properties.
Implicit Types (m : machine) (d virt phys flags : Z).

(** A table for [virt] exists, or a page for one can be had. *)
Definition table_available (m : machine) (d virt : Z) : Prop :=
  present (pde m d (pde_index virt)) = true \/
  fail_allocations (pmm_at m) = 0 /\ ~ none_free (pmm_at m).

Lemma available_not_failed m m' d virt :
  table_available m d virt -> map_failed d virt m m' -> False.
Proof.
  intros [H|[H1 H2]] [Hp (p' & ([H3|H3] & _) & _)]; [congruence..| |]; done.
Qed.

(** C18 [paging_map] in a well-formed address space, for a page whose table is
    not shared: afterwards the page translates to the given frame with the
    given flags, every other page of every private table translates as
    before, and at most one page was taken, for a missing table - or the
    table was missing, no page could be had, and nothing but the pending
    failure count changed. The space is well formed in both cases. *)
Theorem paging_map_spec m d virt phys flags :
  mem_ok m -> space m d -> private m d (pde_index virt) ->
  is_u32 virt -> is_u32 phys -> map_flags flags ->
  wp (paging_map (PHYS_TO_VIRT d) virt phys flags) (fun _ m' =>
    (mapped d virt (leaf phys flags) m m' \/ map_failed d virt m m') /\
    (table_available m d virt -> mapped d virt (leaf phys flags) m m')) m.
Proof.
  intros Hm Hs Hp Hv Hph Hf. apply wp_paging_map; [done..| |].
  - intros m' H. split; [by left|done].
  - intros m' H. split; [by right|]. intros Ha. by destruct (available_not_failed _ _ _ _ Ha H).
Qed.

(** Map, translate, unmap, translate: the first translation is the mapped
    frame plus the page offset, the second is 0, and all other pages of
    private tables translate as before the whole exchange. *)
Theorem paging_roundtrip m d virt phys flags :
  mem_ok m -> space m d -> private m d (pde_index virt) ->
  is_u32 virt -> is_u32 phys -> map_flags flags -> table_available m d virt ->
  wp (let dir := PHYS_TO_VIRT d in
      paging_map dir virt phys flags ;;;
      let* a := paging_translate dir virt in
      paging_unmap dir virt ;;;
      let* b := paging_translate dir virt in
      ret (a, b)) (fun r m' =>
    r = (PAGE_SIZE * (phys / PAGE_SIZE) + virt mod PAGE_SIZE, 0) /\
    mem_ok m' /\ space m' d /\
    forall va, is_u32 va -> va / PAGE_SIZE <> virt / PAGE_SIZE -> private m d (pde_index va) ->
      walk (m_ram m') d va = walk (m_ram m) d va) m.
Proof.
  intros Hm Hs Hp Hv Hph Hf Ha. cbv zeta. apply wp_bind, wp_paging_map; [done..| |].
  2:{ intros m' H. by destruct (available_not_failed _ _ _ _ Ha H). }
  intros m1 (Hstep & Hwalk & _ & Hpriv & _).
  apply wp_bind, wp_paging_translate; [apply Hstep|done|]. rewrite Hwalk.
  destruct (leaf_ok phys flags Hph Hf) as (_ & _ & ->).
  rewrite frame_of_div, page_offset_mod by done.
  rewrite u32_id by (unfold is_u32, PAGE_SIZE in *; lia).
  apply wp_bind, wp_paging_unmap; [apply Hstep|apply Hstep|done..|].
  intros m2 (Hstep2 & Hwalk2 & _).
  apply wp_bind, wp_paging_translate; [apply Hstep2|done|]. rewrite Hwalk2. apply wp_ret.
  split; [done|]. pose proof (space_step_trans _ _ _ _ _ Hstep Hstep2) as [H1 H2 _ _ H5]. done.
Qed.

(** C19 The checks of user memory are exact. A range is accepted exactly when
    it is empty or does not wrap and every byte of it lies in a page mapped
    with the user flag; a string is accepted exactly when it reaches a
    terminator inside user space with every character, the terminator
    included, in such pages; the scan of strings ends after at most one round
    per remaining page of user space. *)
Theorem paging_user_checks_exact m d :
  space m d -> active m d ->
  (forall addr len, is_u32 addr -> is_u32 len ->
    wp (paging_user_range_valid (PHYS_TO_VIRT d) addr len) (fun b m' => m' = m /\
      (b = true <-> len = 0 \/ addr + len < 2 ^ 32 /\
        forall a, addr <= a < addr + len -> user_mapped (m_ram m) d a = true)) m) /\
  (forall s fuel, 0 < s <= USER_VIRT_END ->
    (USER_VIRT_END + PAGE_SIZE - s) / PAGE_SIZE < Z.of_nat fuel ->
    wp (paging_user_string_valid fuel (PHYS_TO_VIRT d) s)
      (fun b m' => m' = m /\ (b = true <-> exists n, user_string (m_ram m) d s n)) m).
Proof.
  intros Hs Hact. split.
  - intros addr len Ha Hl. by apply wp_user_range_valid.
  - intros s fuel Hr Hfuel. by apply wp_user_string_valid.
Qed.

(** [paging_create_directory] either changes nothing but the pending
    failure count and answers [NULL], or takes one page for a directory that
    maps nothing below the kernel base and translates every kernel address as
    the kernel directory does; all other page tables are untouched. *)
Theorem paging_create_directory_spec m kd :
  mem_ok m -> space m kd -> kernel_directory m = PHYS_TO_VIRT kd ->
  wp paging_create_directory (fun dir m' =>
    (dir = NULL /\ exists p', alloc_failed (pmm_at m) p' /\ m' = with_pmm p' m) \/
    (exists f, dir = PHYS_TO_VIRT f /\ good_frame f /\ m_free m f = true /\ created kd f m m')) m.
Proof.
  intros Hm Hs Hk. apply (wp_paging_create_directory m kd); [done..| |].
  - intros p' Hf. left. split; [done|]. by exists p'.
  - intros f m' Hg Hf Hc. right. by exists f.
Qed.

(** C20 [paging_destroy_directory] leaks nothing and frees nothing twice: with
    interrupts off, and every page the user half of the directory refers to
    owned by it alone, it gives back exactly the mapped user pages, their
    tables and the directory, and writes no other page of entries. *)
Theorem paging_destroy_directory_spec m d :
  mem_ok m -> destroyable m d -> if_set (eflags (pmm_cpu (m_pmm m))) = false ->
  wp (paging_destroy_directory (PHYS_TO_VIRT d)) (fun _ m' => destroyed d m m' /\
    free_pages (pmm_at m') = free_pages (pmm_at m) + Z.of_nat (length (owned (m_ram m) d))) m.
Proof.
  intros Hm Hd Hoff. apply wp_paging_destroy_directory; [done..|]. intros m' Hdes.
  split; [done|]. apply Hdes.
Qed.
End Properties.

(** ** A machine *)

(** The processor runs on an empty bootstrap directory at 0x1000. *)
Definition demo_boot_machine : machine := MkMachine demo_world (Ram ∅) NULL.
Definition demo_machine : machine := final paging_init demo_boot_machine.

(** The frame of its kernel directory. *)
Definition demo_kd : Z := 0x200000.

Lemma demo_boot_mem : mem_ok demo_boot_machine.
Proof.
  split; [exact demo_pmm_inv|]. intros page Hp.
  apply (page_free_range demo_pmm) in Hp. assert (total_pages demo_pmm = 4096) as E by by vm_compute.
  rewrite E in Hp. unfold PAGE_SIZE, BOOTSTRAP_MAP_SIZE. lia.
Qed.

Lemma demo_boot_space : space demo_boot_machine 0x1000.
Proof. split; [by vm_compute|by vm_compute|]. intros i Hi. done. Qed.

(** Everything read off the machine, computed once. *)
Lemma demo_facts :
  cr3 (pmm_cpu (m_pmm demo_machine)) = demo_kd /\
  present (pde demo_machine demo_kd 832) = false /\
  page_free (pmm_at demo_machine) 0x210 = true /\
  fail_allocations (pmm_at demo_machine) = 0 /\ free_pages (pmm_at demo_machine) = 3541 /\
  forallb (fun i => negb (present (pde demo_machine demo_kd i))) (seqZ 772 60) = true.
Proof. vm_compute. auto 10. Qed.

Lemma demo_initialised : initialised 0x1000 demo_kd demo_boot_machine demo_machine.
Proof.
  assert (wp paging_init (fun _ m' => exists f, initialised 0x1000 f demo_boot_machine m' /\ is_u32 f)
    demo_boot_machine) as H.
  { apply (wp_paging_init _ 0x1000 _ demo_boot_mem demo_boot_space); [done|by vm_compute| |].
    - intros Hn. assert (page_free demo_pmm 0x200 = true) as Hp by (vm_compute; reflexivity).
      change (pmm_at demo_boot_machine) with demo_pmm in Hn. by rewrite Hn in Hp.
    - intros f m' Hg _ Hi. exists f. split; [done|]. apply (good_frame_virt f Hg). }
  apply wp_final in H as (_ & f & Hi & _). change (final paging_init demo_boot_machine) with demo_machine in Hi.
  pose proof (proj1 demo_facts) as E.
  rewrite (init_cr3 _ _ _ _ Hi) in E. by subst f.
Qed.

#[local] Opaque demo_machine.

Lemma demo_mem : mem_ok demo_machine.
Proof. exact (init_mem _ _ _ _ demo_initialised). Qed.

Lemma demo_space : space demo_machine demo_kd.
Proof. exact (init_space _ _ _ _ demo_initialised). Qed.

Lemma demo_private virt :
  present (pde demo_machine demo_kd (pde_index virt)) = false ->
  private demo_machine demo_kd (pde_index virt).
Proof. intros E H. congruence. Qed.

Lemma demo_absent : present (pde demo_machine demo_kd (pde_index 0xD0000123)) = false.
Proof. exact (proj1 (proj2 demo_facts)). Qed.

Lemma demo_available : table_available demo_machine demo_kd 0xD0000123.
Proof.
  right. split; [exact (proj1 (proj2 (proj2 (proj2 demo_facts))))|]. intros Hn.
  pose proof (proj1 (proj2 (proj2 demo_facts))) as Hp. rewrite Hn in Hp. discriminate Hp.
Qed.

Lemma demo_active : active demo_machine demo_kd.
Proof. unfold active. rewrite (proj1 demo_facts). vm_compute. reflexivity. Qed.

(** ** Witnesses *)

Lemma paging_map_spec_witness :
  wp (paging_map (PHYS_TO_VIRT demo_kd) 0xD0000123 0x345678 3) (fun _ m' =>
    walk (m_ram m') demo_kd 0xD0000123 = Some 0x345003) demo_machine.
Proof.
  assert (is_u32 0xD0000123 /\ is_u32 0x345678 /\ map_flags 3) as (H1 & H2 & H3) by by vm_compute.
  eapply wp_mono; [exact (paging_map_spec demo_machine demo_kd 0xD0000123 0x345678 3 demo_mem demo_space
    (demo_private _ demo_absent) H1 H2 H3)|].
  intros _ m' [_ H]. destruct (H demo_available) as (_ & Hw & _). exact Hw.
Defined.

Lemma paging_roundtrip_witness :
  wp (let dir := PHYS_TO_VIRT demo_kd in
      paging_map dir 0xD0000123 0x345678 3 ;;;
      let* a := paging_translate dir 0xD0000123 in
      paging_unmap dir 0xD0000123 ;;;
      let* b := paging_translate dir 0xD0000123 in
      ret (a, b)) (fun r _ => r = (0x345123, 0)) demo_machine.
Proof.
  assert (is_u32 0xD0000123 /\ is_u32 0x345678 /\ map_flags 3) as (H1 & H2 & H3) by by vm_compute.
  eapply wp_mono; [exact (paging_roundtrip demo_machine demo_kd 0xD0000123 0x345678 3 demo_mem demo_space
    (demo_private _ demo_absent) H1 H2 H3 demo_available)|].
  intros r m' [Hr _]. exact Hr.
Defined.

Lemma paging_user_checks_exact_witness :
  wp (paging_user_range_valid (PHYS_TO_VIRT demo_kd) 0x400000 4)
    (fun b _ => b = true -> user_mapped (m_ram demo_machine) demo_kd 0x400000 = true) demo_machine.
Proof.
  assert (is_u32 0x400000 /\ is_u32 4) as [H1 H2] by by vm_compute.
  pose proof (paging_user_checks_exact demo_machine demo_kd demo_space demo_active) as [H _].
  specialize (H 0x400000 4 H1 H2). eapply wp_mono; [exact H|].
  intros b m' [_ Hb] E. clear H.
  destruct (proj1 Hb E) as [H|[_ Hall]]; [discriminate H|]. apply Hall. clear. lia.
Defined.

Lemma paging_create_directory_spec_witness :
  wp paging_create_directory (fun dir m' => dir = NULL \/
    exists f, dir = PHYS_TO_VIRT f /\ walk (m_ram m') f 0x400000 = None) demo_machine.
Proof.
  assert (kernel_directory demo_machine = PHYS_TO_VIRT demo_kd) as Ek
    by exact (init_kd _ _ _ _ demo_initialised).
  eapply wp_mono; [exact (paging_create_directory_spec demo_machine demo_kd demo_mem demo_space Ek)|].
  intros dir m' [[-> _]|(f & -> & _ & _ & Hc)]; [by left|]. right. exists f. split; [done|].
  apply (created_user _ _ _ _ Hc); clear; [by vm_compute|]. unfold KERNEL_VIRT_BASE. lia.
Defined.

(** Deciding that a concrete machine is sound. *)
Definition space_check (m : machine) (d : Z) : bool :=
  bool_decide (0 < d /\ d + PAGE_SIZE <= BOOTSTRAP_MAP_SIZE /\ d mod PAGE_SIZE = 0) &&
  negb (m_free m d) &&
  forallb (fun i => negb (present (pde m d i)) ||
    (bool_decide (0 < table_of m d i /\ table_of m d i + PAGE_SIZE <= BOOTSTRAP_MAP_SIZE /\
       table_of m d i mod PAGE_SIZE = 0) && negb (m_free m (table_of m d i)))) (seqZ 0 1024).

Definition mem_check (m : machine) : bool :=
  pmm_check (pmm_at m) && (total_pages (pmm_at m) <=? BOOTSTRAP_MAP_SIZE / PAGE_SIZE).

Lemma space_check_ok m d : space_check m d = true -> space m d.
Proof.
  unfold space_check. rewrite !andb_true_iff, negb_true_iff, bool_decide_eq_true, forallb_forall.
  intros [[H1 H2] H3]. split; [done..|]. intros i Hi Hp.
  assert (List.In i (seqZ 0 1024)) as Hin by (apply list_elem_of_In, elem_of_seqZ; lia).
  specialize (H3 _ Hin). cbn beta in H3. rewrite Hp in H3. cbn [negb orb] in H3.
  apply andb_true_iff in H3 as [H3 H4]. apply bool_decide_eq_true in H3. apply negb_true_iff in H4. done.
Qed.

Definition freeable_check (p : pmm) (l : list Z) : bool :=
  forallb (fun f => (0 <? f) && (f mod PAGE_SIZE =? 0) && (f + PAGE_SIZE <=? BOOTSTRAP_MAP_SIZE) &&
    (f / PAGE_SIZE <? total_pages p) && negb (page_free p (f / PAGE_SIZE))) l.

Lemma freeable_check_ok p l : freeable_check p l = true -> Forall (freeable p) l.
Proof.
  unfold freeable_check. rewrite forallb_forall. intros H. apply Forall_forall. intros f Hin.
  apply list_elem_of_In, H in Hin. rewrite !andb_true_iff, negb_true_iff in Hin.
  unfold freeable, is_u32, PAGE_SIZE, BOOTSTRAP_MAP_SIZE in *. destruct Hin as [[[[H1 H2] H3] H4] H5].
  apply Z.ltb_lt in H1, H4. apply Z.eqb_eq in H2. apply Z.leb_le in H3. repeat split; (done || lia).
Qed.

Lemma mem_check_ok m : mem_check m = true -> mem_ok m.
Proof.
  unfold mem_check. rewrite andb_true_iff. intros [H1 H2]. split; [by apply pmm_check_ok|].
  intros page Hp. apply page_free_range in Hp. change (pmm_of (m_pmm m)) with (pmm_at m) in Hp.
  unfold PAGE_SIZE, BOOTSTRAP_MAP_SIZE in *. lia.
Qed.

(** A process directory with one user page, interrupts off. *)
Definition demo_process_machine : machine :=
  final (let* d := paging_create_directory in
         let* page := zoom pmm_world_l pmm_alloc_page in
         paging_map d 0x400000 page 7 ;;;
         zoom machine_cpu_l interrupt_disable) demo_machine.

Definition demo_process_frame : Z := 0x201000.

#[local] Opaque demo_process_machine.

Lemma demo_process_facts :
  owned (m_ram demo_process_machine) demo_process_frame = [0x202000; 0x203000; 0x201000] /\
  mem_check demo_process_machine = true /\
  freeable_check (pmm_at demo_process_machine) [0x202000; 0x203000; 0x201000] = true /\
  if_set (eflags (pmm_cpu (m_pmm demo_process_machine))) = false.
Proof. vm_compute. auto. Qed.

Lemma demo_process_destroyable : destroyable demo_process_machine demo_process_frame.
Proof.
  destruct demo_process_facts as (Eo & _ & Hf & _). split; [by clear; vm_compute|]. rewrite Eo. split.
  - clear. apply (bool_decide_unpack _). vm_compute. exact I.
  - apply freeable_check_ok. exact Hf.
Qed.

Lemma paging_destroy_directory_spec_witness :
  wp (paging_destroy_directory (PHYS_TO_VIRT demo_process_frame)) (fun _ m' =>
    free_pages (pmm_at m') = free_pages (pmm_at demo_process_machine) + 3) demo_process_machine.
Proof.
  pose proof demo_process_facts as (Eo & Hm & _ & Hoff).
  eapply wp_mono; [exact (paging_destroy_directory_spec _ _ (mem_check_ok _ Hm) demo_process_destroyable Hoff)|].
  intros _ m' [_ E]. rewrite Eo in E. exact E.
Defined.

(** ** Observations *)

(** Unmapping the last page of a kernel table gives the table back to the
    manager although the directories of processes still refer to it. *)
Definition stale_machine : machine :=
  final (let* kd := gets kernel_directory in
         paging_map kd 0xD0000000 0x300000 3 ;;;
         let* d := paging_create_directory in
         paging_unmap kd 0xD0000000) demo_machine.

Example paging_unmap_leaves_stale_entry :
  let d := 0x202000 in let i := pde_index 0xD0000000 in
  present (pde stale_machine demo_kd i) = false /\
  present (pde stale_machine d i) = true /\ m_free stale_machine (table_of stale_machine d i) = true.
Proof. vm_compute. auto. Qed.

(** A table that the first mapping made read-only stays read-only: the entry
    of the directory lacks [PAGE_WRITABLE] although a later page asks for it. *)
Definition readonly_machine : machine :=
  final (let* kd := gets kernel_directory in
         paging_map kd 0x400000 0x300000 5 ;;;
         paging_map kd 0x401000 0x301000 7) demo_machine.

Example paging_map_keeps_table_readonly :
  walk (m_ram readonly_machine) demo_kd 0x401000 = Some 0x301007 /\
  Z.testbit (pde readonly_machine demo_kd (pde_index 0x401000)) 1 = false.
Proof. vm_compute. auto. Qed.
