(* ===== verification/Vmm.v ===== *)
(** * Virtual memory manager

    [kernel/mm/vmm.c]: physical pages behind kernel virtual addresses. It is
    written against the physical memory manager, paging and, for
    [vmm_alloc_pages_any], the virtual address manager. Its diagnostics on the
    console are not part of the state. *)

From S2P Require Import Prelude Layout Bitmap Machine Pmm CString Ram Paging PagingSpec Vam.

(** [virt + i * PAGE_SIZE] *)
Definition page_at (virt i : Z) : Z := u32 (virt + u32 (i * PAGE_SIZE)).

Definition vmm_unmap_pages (virt count : Z) : M machine unit :=
  let* directory := paging_get_kernel_directory in
  for_each 0 (Z.to_nat count) (fun i =>
    let* phys := paging_translate directory (page_at virt i) in
    if phys =? 0 then ret tt
    else
      paging_unmap directory (page_at virt i) ;;;
      zoom pmm_world_l (pmm_free_page (page_down phys))).

(** The first loop of [vmm_map_pages]: is any page mapped already? *)
Definition any_mapped (directory virt count : Z) : M machine bool :=
  let* r := for_range 0 (Z.to_nat count) (fun i =>
    let* phys := paging_translate directory (page_at virt i) in
    ret (if negb (phys =? 0) then Some tt else None)) in
  ret (match r with Some _ => true | None => false end).

Definition vmm_map_pages (virt count : Z) : M machine bool :=
  let* directory := paging_get_kernel_directory in
  let* mapped := any_mapped directory virt count in
  if mapped then ret false
  else
    let* r := for_range 0 (Z.to_nat count) (fun i =>
      let* phys := zoom pmm_world_l pmm_alloc_page in
      if phys =? NULL then
        vmm_unmap_pages virt i ;;;
        ret (Some false)
      else
        paging_map directory (page_at virt i) phys (Z.lor PAGE_PRESENT PAGE_WRITABLE) ;;;
        ret None) in
    ret (default true r).

Definition vmm_alloc_pages (virt count : Z) : M machine Z :=
  if count =? 0 then ret NULL
  else
    let* ok := vmm_map_pages virt count in
    if negb ok then ret NULL else ret virt.

Definition vmm_free_pages (virt count : Z) : M machine unit := vmm_unmap_pages virt count.

Definition vmm_alloc_page (virt : Z) : M machine Z := vmm_alloc_pages virt 1.

Definition vmm_free_page (virt : Z) : M machine unit := vmm_free_pages virt 1.

(** The machine with the statics of [vam.c]. *)
Record vmm_world : Type := VmmWorld { v_machine : machine; v_vam : vam }.

Definition machine_l : lens vmm_world machine :=
  Lens v_machine (fun m w => VmmWorld m (v_vam w)).
Definition vam_l : lens vmm_world vam :=
  Lens v_vam (fun v w => VmmWorld (v_machine w) v).

Definition vmm_alloc_pages_any (count : Z) : M vmm_world Z :=
  if count =? 0 then ret NULL
  else
    let* virt := zoom vam_l (vam_alloc_pages count) in
    if virt =? 0 then ret NULL
    else
      let* ok := zoom machine_l (vmm_map_pages virt count) in
      if negb ok then
        zoom vam_l (vam_free_pages virt count) ;;;
        ret NULL
      else ret virt.

(** ** What the manager relies on *)

(** The kernel directory is a well-formed space in frame [kd]. *)
Record ready (m : machine) (kd : Z) : Prop := {
  ready_mem : mem_ok m;
  ready_space : space m kd;
  ready_kd : kernel_directory m = PHYS_TO_VIRT kd;
}.

(** A page-aligned range of kernel addresses whose tables are not shared. *)
Definition good_range (m : machine) (kd virt count : Z) : Prop :=
  0 <= virt /\ virt mod PAGE_SIZE = 0 /\ 0 <= count /\ virt + count * PAGE_SIZE <= 2 ^ 32 /\
  forall i, 0 <= i < count -> private m kd (pde_index (virt + i * PAGE_SIZE)).

(** What [paging_translate] answers for a page of the range. *)
Definition frame_at (m : machine) (kd va : Z) : Z :=
  match walk (m_ram m) kd va with Some e => frame_of e | None => 0 end.

(** The page is neither the directory nor one of its tables. *)
Definition leaf_frame (m : machine) (kd f : Z) : Prop :=
  f <> kd /\ forall j, 0 <= j < 1024 -> present (pde m kd j) = true -> table_of m kd j <> f.

(** The page was free in [m] and now backs [va], writable. *)
Definition backed (m : machine) (kd va : Z) (m' : machine) (f : Z) : Prop :=
  good_frame f /\ m_free m f = true /\ m_free m' f = false /\ leaf_frame m' kd f /\
  walk (m_ram m') kd va = Some (leaf f 3).

Section Vmm.
Implicit Types (m : machine) (kd virt count i va : Z).

Lemma page_at_ok m kd virt count i :
  good_range m kd virt count -> 0 <= i < count ->
  page_at virt i = virt + i * PAGE_SIZE /\ is_u32 (virt + i * PAGE_SIZE) /\
  (virt + i * PAGE_SIZE) mod PAGE_SIZE = 0 /\ (virt + i * PAGE_SIZE) / PAGE_SIZE = virt / PAGE_SIZE + i.
Proof.
  intros (Hv & Ha & Hc & Hle & _) Hi. unfold page_at, is_u32, PAGE_SIZE in *.
  rewrite (u32_id (i * 4096)) by (unfold is_u32; lia). rewrite u32_id by (unfold is_u32; lia). lia.
Qed.

Lemma wp_translate_page m kd virt count i (Q : Z -> machine -> Prop) :
  ready m kd -> good_range m kd virt count -> 0 <= i < count ->
  Q (frame_at m kd (virt + i * PAGE_SIZE)) m ->
  wp (paging_translate (PHYS_TO_VIRT kd) (page_at virt i)) Q m.
Proof.
  intros Hr Hg Hi HQ. destruct (page_at_ok _ _ _ _ _ Hg Hi) as (-> & Hu & Ha & _).
  apply wp_paging_translate; [apply Hr|done|]. unfold frame_at in HQ.
  destruct (walk _ _ _) as [e|] eqn:Ew; [|done].
  rewrite page_offset_mod, Ha, Z.add_0_r. assert (is_u32 e) as He.
  { unfold walk in Ew. destruct (present _); [|done]. cbn zeta in Ew.
    destruct (present _); [|done]. injection Ew as <-. apply entry_u32. }
  destruct (frame_of_aligned e He). rewrite u32_id by (unfold is_u32 in *; lia). done.
Qed.

(** The range checked by the first loop. *)
Lemma wp_any_mapped m kd virt count (Q : bool -> machine -> Prop) :
  ready m kd -> good_range m kd virt count ->
  (forall b, (b = true <-> exists i, 0 <= i < count /\ frame_at m kd (virt + i * PAGE_SIZE) <> 0) ->
     Q b m) ->
  wp (any_mapped (PHYS_TO_VIRT kd) virt count) Q m.
Proof.
  intros Hr Hg HQ. unfold any_mapped. apply wp_bind. pose proof Hg as (_ & _ & Hc & _).
  apply (wp_for_range (fun i m' => m' = m /\
    forall k, 0 <= k < i -> frame_at m kd (virt + k * PAGE_SIZE) = 0)).
  - split; [done|]. intros k Hk. lia.
  - intros i m' Hi (-> & Hno). apply wp_bind, (wp_translate_page _ kd _ count); [done|done|lia|].
    apply wp_ret. destruct (Z.eqb_spec (frame_at m kd (virt + i * PAGE_SIZE)) 0) as [E|E]; cbn [negb].
    + split; [done|]. intros k Hk. destruct (decide (k = i)) as [->|]; [done|apply Hno; lia].
    + apply wp_ret, HQ. split; [|done]. intros _. exists i. split; [lia|done].
  - intros m' (-> & Hno). apply wp_ret, HQ. split; [done|]. intros (i & Hi & Hne).
    destruct Hne. apply Hno. lia.
Qed.

Lemma step_ready d virt m m' kd :
  ready m kd -> space_step d virt m m' -> d = kd -> ready m' kd.
Proof.
  intros Hr Hs ->. split; [apply Hs|apply Hs|]. rewrite (step_kd _ _ _ _ Hs). apply Hr.
Qed.

Lemma pool_range m f : mem_ok m -> m_free m f = true -> 0 <= f / PAGE_SIZE.
Proof. intros _ Hf. apply page_free_range in Hf. lia. Qed.

(** Taking pages changes the free set downwards only. *)
Lemma taken_m_free m p' page f :
  page_taken page (pmm_at m) p' -> m_free (with_pmm p' m) f = m_free m f && negb (f / PAGE_SIZE =? page).
Proof. intros Ht. apply (taken_free _ _ _ Ht). Qed.

Lemma count_none (f : Z -> bool) n : (forall i, f i = false) -> count f n = 0.
Proof. intros Hf. induction n as [|n IH]; cbn [count]; [done|]. rewrite IH, Hf. done. Qed.

Lemma none_free_zero p : pmm_inv p -> none_free p -> free_pages p = 0.
Proof. intros Hinv Hnone. rewrite (inv_count p Hinv). by apply count_none. Qed.

Lemma no_failure p p' :
  pmm_inv p -> fail_allocations p = 0 -> 0 < free_pages p -> ~ alloc_failed p p'.
Proof.
  intros Hinv Hf Hp [[H|H] _]; [done|]. rewrite (none_free_zero _ Hinv H) in Hp. lia.
Qed.

(** How the free pool evolves: no failures, at most [n] pages fewer, and
    nothing becomes free. *)
Record drawn (n : Z) (m m' : machine) : Prop := {
  drawn_fail : fail_allocations (pmm_at m') = fail_allocations (pmm_at m);
  drawn_count : free_pages (pmm_at m) - n <= free_pages (pmm_at m') <= free_pages (pmm_at m);
  drawn_free : forall f, m_free m' f = true -> m_free m f = true;
}.

Lemma drawn_refl m : drawn 0 m m.
Proof. split; [done|lia|done]. Qed.

Lemma drawn_trans a b m m' m'' : drawn a m m' -> drawn b m' m'' -> drawn (a + b) m m''.
Proof. intros [? ? ?] [? ? ?]. split; [congruence|lia|auto]. Qed.

Lemma drawn_taken m m' page : page_taken page (pmm_at m) (pmm_at m') -> drawn 1 m m'.
Proof.
  intros Ht. split; [apply Ht|rewrite (taken_count _ _ _ Ht); lia|].
  intros f Hf. unfold m_free in *. change (pmm_of (m_pmm m')) with (pmm_at m') in Hf.
  rewrite (taken_free _ _ _ Ht) in Hf. by apply andb_true_iff in Hf as [Hf _].
Qed.

Lemma drawn_mapped m m' d va e : mapped d va e m m' -> drawn 1 m m'.
Proof.
  intros (_ & _ & _ & _ & _ & _ & _ & [(_ & E & _)|(_ & _ & Ht)]); [|by eapply drawn_taken].
  split; [by rewrite E|rewrite E; lia|]. intros f. unfold m_free.
  change (pmm_of (m_pmm m')) with (pmm_at m'). by rewrite E.
Qed.

(** One page: a frame from the manager, then the mapping. *)
Record page_added (kd va f : Z) (m m' : machine) : Prop := {
  added_step : space_step kd va m m';
  added_backed : backed m kd va m' f;
  added_drawn : drawn 2 m m';
  added_tables : forall j, 0 <= j < 1024 -> present (pde m' kd j) = true ->
    pde m' kd j = pde m kd j \/ m_free m (table_of m' kd j) = true;
}.

Lemma taken_space m kd f p' :
  space m kd -> page_taken (f / PAGE_SIZE) (pmm_at m) p' -> space (with_pmm p' m) kd.
Proof.
  intros [Hd Hu Ht] Htaken. split; [done| |].
  - by rewrite (taken_m_free _ _ _ _ Htaken), Hu.
  - intros i Hi Hp. destruct (Ht i Hi Hp) as [H1 H2]. split; [done|].
    rewrite (taken_m_free _ _ _ _ Htaken). change (table_of (with_pmm p' m) kd i) with (table_of m kd i).
    by rewrite H2.
Qed.

Lemma wp_add_page {A} m kd va (k : M machine A) (a : A) (Q : A -> machine -> Prop) :
  ready m kd -> private m kd (pde_index va) -> is_u32 va ->
  fail_allocations (pmm_at m) = 0 -> 2 <= free_pages (pmm_at m) ->
  (forall f m', page_added kd va f m m' -> Q a m') ->
  wp (let* phys := zoom pmm_world_l pmm_alloc_page in
      if phys =? NULL then k
      else paging_map (PHYS_TO_VIRT kd) va phys (Z.lor PAGE_PRESENT PAGE_WRITABLE) ;;; ret a) Q m.
Proof.
  intros [Hmem Hsp Hkd] Hpriv Hva Hfail Hfree HQ. apply wp_bind, wp_alloc_frame; [done| |].
  { intros p' Hf. destruct (no_failure (pmm_at m) p'); [apply Hmem|done|lia|done]. }
  intros f p' Hg Hnz Hff _ Htaken. rewrite (proj2 (Z.eqb_neq f NULL)) by done. set (m1 := with_pmm p' m).
  assert (space m1 kd) as Hsp1 by by eapply taken_space.
  assert (mem_ok m1) as Hmem1 by by eapply taken_mem_ok.
  assert (drawn 1 m m1) as Hd1 by by eapply drawn_taken.
  assert (space_step kd va m m1) as Hs1 by by split.
  destruct (good_frame_virt f Hg) as (_ & _ & _ & Hu).
  assert (frame_of f = f) as Eff.
  { rewrite frame_of_div by done. apply good_frame_aligned in Hg. unfold PAGE_SIZE in *. lia. }
  apply wp_bind, wp_paging_map; [done..| |].
  - intros m2 Hmap. apply wp_ret, (HQ f). pose proof (drawn_mapped _ _ _ _ _ Hmap) as Hd2.
    destruct Hmap as (Hs2 & Hw2 & _ & _ & _ & _ & _ & Htab).
    assert (forall j, 0 <= j < 1024 -> present (pde m2 kd j) = true ->
      pde m2 kd j = pde m1 kd j \/ m_free m1 (table_of m2 kd j) = true) as Htabs.
    { intros j Hj Hp. destruct (decide (j = pde_index va)) as [->|Hji].
      - destruct Htab as [(_ & _ & E)|(_ & E & _)]; [by left|by right].
      - left. by apply (step_other _ _ _ _ Hs2). }
    assert (m_free m1 f = false) as Hf1
      by (rewrite (taken_m_free m p' _ _ Htaken), Z.eqb_refl; apply andb_false_r).
    split.
    + by eapply space_step_trans.
    + split; [done|]. split; [done|]. split; [|split; [|exact Hw2]].
      * destruct (m_free m2 f) eqn:E; [|done]. apply (drawn_free _ _ _ Hd2) in E. congruence.
      * split; [intros ->; by rewrite (space_dir_used _ _ Hsp) in Hff|]. intros j Hj Hp Ht.
        destruct (Htabs j Hj Hp) as [E|E]; [|by rewrite Ht, Hf1 in E].
        unfold table_of in Ht. rewrite E in Hp, Ht.
        destruct (space_tables _ _ Hsp j Hj Hp) as [_ Hu']. unfold table_of in Hu'.
        change (pde m1 kd j) with (pde m kd j) in Ht. by rewrite Ht, Hff in Hu'.
    + by apply (drawn_trans 1 1 m m1 m2).
    + intros j Hj Hp. destruct (Htabs j Hj Hp) as [E|E]; [by left|]. right.
      by apply (drawn_free _ _ _ Hd1).
  - intros m2 [_ (p2 & Hf2 & _)]. exfalso. eapply no_failure; [..|exact Hf2]; [apply Hmem1| |].
    + by rewrite (drawn_fail _ _ _ Hd1).
    + pose proof (drawn_count _ _ _ Hd1). lia.
Qed.

(** After the first [n] pages of the range. *)
Record filled_to (kd virt n : Z) (m m' : machine) : Prop := {
  to_ready : ready m' kd;
  to_drawn : drawn (2 * n) m m';
  to_private : forall j, 0 <= j < 1024 -> private m kd j -> private m' kd j;
  to_backed : forall k, 0 <= k < n -> exists f, backed m kd (virt + k * PAGE_SIZE) m' f;
  to_distinct : forall k k', 0 <= k < n -> 0 <= k' < n -> k <> k' ->
    frame_at m' kd (virt + k * PAGE_SIZE) <> frame_at m' kd (virt + k' * PAGE_SIZE);
  to_other : forall va, is_u32 va -> ~ (virt / PAGE_SIZE <= va / PAGE_SIZE < virt / PAGE_SIZE + n) ->
    private m kd (pde_index va) -> walk (m_ram m') kd va = walk (m_ram m) kd va;
}.

Lemma backed_frame m kd va m' f : backed m kd va m' f -> frame_at m' kd va = f.
Proof.
  intros (Hg & _ & _ & _ & Hw). unfold frame_at. rewrite Hw.
  destruct (good_frame_virt f Hg) as (_ & _ & _ & Hu).
  destruct (leaf_ok f 3 Hu) as (_ & _ & ->); [by split|]. rewrite frame_of_div by done.
  apply good_frame_aligned in Hg. unfold PAGE_SIZE in *. lia.
Qed.

Lemma filled_zero kd virt m : ready m kd -> filled_to kd virt 0 m m.
Proof. intros Hr. split; [done|apply drawn_refl|done|intros; lia|intros; lia|done]. Qed.

Lemma filled_step kd virt count n m m1 m2 f :
  good_range m kd virt count -> 0 <= n < count -> filled_to kd virt n m m1 ->
  page_added kd (virt + n * PAGE_SIZE) f m1 m2 -> filled_to kd virt (n + 1) m m2.
Proof.
  intros Hg Hn [Hr Hd Hp Hb Hdis Ho] [Hs Hbk Hd2 Htabs]. pose proof Hg as (_ & _ & _ & _ & Hprivs).
  assert (forall k, 0 <= k < n -> walk (m_ram m2) kd (virt + k * PAGE_SIZE)
    = walk (m_ram m1) kd (virt + k * PAGE_SIZE)) as Hkeep.
  { intros k Hk. destruct (page_at_ok _ _ _ _ k Hg ltac:(lia)) as (_ & Hu & _ & Hdiv).
    destruct (page_at_ok _ _ _ _ n Hg ltac:(lia)) as (_ & Hu' & _ & Hdiv').
    apply (step_walk _ _ _ _ Hs); [done|lia|]. apply Hp; [by apply pde_index_range|]. apply Hprivs. lia. }
  assert (forall k, 0 <= k < n -> exists f', backed m kd (virt + k * PAGE_SIZE) m2 f' /\ f' <> f) as Hold.
  { intros k Hk. destruct (Hb k Hk) as (f' & H1 & H2 & H3 & [H4 H4'] & H5). exists f'. split.
    - split; [done|]. split; [done|]. split; [|split; [split; [done|]|by rewrite Hkeep]].
      + destruct (m_free m2 f') eqn:E; [|done]. apply (drawn_free _ _ _ Hd2) in E. congruence.
      + intros j Hj Hpj Ht. destruct (Htabs j Hj Hpj) as [E|E]; [|congruence].
        unfold table_of in Ht. rewrite E in Hpj, Ht. by apply (H4' j Hj Hpj).
    - intros ->. destruct Hbk as (_ & Hf & _). congruence. }
  assert (backed m kd (virt + n * PAGE_SIZE) m2 f) as Hnew.
  { destruct Hbk as (H1 & H2 & H3 & H4 & H5). split; [done|].
    split; [by apply (drawn_free _ _ _ Hd)|done]. }
  split.
  - by eapply step_ready.
  - replace (2 * (n + 1)) with (2 * n + 2) by lia. by eapply drawn_trans.
  - intros j Hj Hpj. apply (step_private _ _ _ _ Hs); [done|]. by apply Hp.
  - intros k Hk. destruct (decide (k = n)) as [->|]; [by exists f|].
    destruct (Hold k) as (f' & H & _); [lia|by exists f'].
  - intros k k' Hk Hk' Hne. destruct (decide (k = n)) as [->|]; destruct (decide (k' = n)) as [->|]; [done|..].
    + destruct (Hold k') as (f' & H & Hf'); [lia|].
      rewrite (backed_frame _ _ _ _ _ H), (backed_frame _ _ _ _ _ Hnew). by apply not_eq_sym.
    + destruct (Hold k) as (f' & H & Hf'); [lia|].
      by rewrite (backed_frame _ _ _ _ _ H), (backed_frame _ _ _ _ _ Hnew).
    + unfold frame_at. rewrite !Hkeep by lia. apply Hdis; lia.
  - intros va Hva Hout Hpv. destruct (page_at_ok _ _ _ _ n Hg ltac:(lia)) as (_ & Hu & _ & Hdiv).
    rewrite (step_walk _ _ _ _ Hs); [apply Ho; [done|lia|done]|done|lia|].
    apply Hp; [by apply pde_index_range|done].
Qed.

Lemma wp_vmm_map_pages m kd virt count (Q : bool -> machine -> Prop) :
  ready m kd -> good_range m kd virt count ->
  fail_allocations (pmm_at m) = 0 -> 2 * count <= free_pages (pmm_at m) ->
  ((exists i, 0 <= i < count /\ frame_at m kd (virt + i * PAGE_SIZE) <> 0) -> Q false m) ->
  (forall m', (forall i, 0 <= i < count -> frame_at m kd (virt + i * PAGE_SIZE) = 0) ->
     filled_to kd virt count m m' -> Q true m') ->
  wp (vmm_map_pages virt count) Q m.
Proof.
  intros Hr Hg Hfail Hfree HQf HQt. pose proof Hg as (_ & _ & Hc & _ & Hprivs).
  unfold vmm_map_pages. apply wp_bind, wp_gets. rewrite (ready_kd _ _ Hr).
  apply wp_bind, (wp_any_mapped m kd); [done|done|]. intros b Hb.
  destruct b; [apply wp_ret, HQf; by apply Hb|]. apply wp_bind.
  apply (wp_for_range (fun i m' => filled_to kd virt i m m')).
  - by apply filled_zero.
  - intros i m' Hi Hto. destruct (page_at_ok _ _ _ _ i Hg ltac:(lia)) as (-> & Hu & _ & _).
    apply wp_add_page.
    + apply Hto.
    + apply (to_private _ _ _ _ _ Hto); [by apply pde_index_range|]. apply Hprivs. lia.
    + done.
    + by rewrite (drawn_fail _ _ _ (to_drawn _ _ _ _ _ Hto)).
    + pose proof (drawn_count _ _ _ (to_drawn _ _ _ _ _ Hto)). lia.
    + intros f m'' Hadd. eapply filled_step; [exact Hg|lia|done|done].
  - intros m' Hto. rewrite Z.add_0_l, Z2Nat.id in Hto by lia. apply wp_ret, HQt; [|done].
    intros i Hi. destruct (decide (frame_at m kd (virt + i * PAGE_SIZE) = 0)) as [|Hne]; [done|].
    assert (false = true); [|done]. apply Hb. by exists i.
Qed.

(** ** Releasing a range *)

(** A mapped page of the range has a frame of its own. *)
Definition releasable (m : machine) (kd virt count : Z) : Prop :=
  (forall k, 0 <= k < count -> let f := frame_at m kd (virt + k * PAGE_SIZE) in
     f <> 0 -> good_frame f /\ leaf_frame m kd f) /\
  (forall k k', 0 <= k < count -> 0 <= k' < count -> k <> k' ->
     frame_at m kd (virt + k * PAGE_SIZE) <> 0 ->
     frame_at m kd (virt + k * PAGE_SIZE) <> frame_at m kd (virt + k' * PAGE_SIZE)).

Definition in_pool (m : machine) (f : Z) : Prop := f / PAGE_SIZE < total_pages (pmm_at m).

(** After the first [n] pages of the range were released. *)
Record released_to (kd virt n : Z) (m m' : machine) : Prop := {
  rel_ready : ready m' kd;
  rel_private : forall j, 0 <= j < 1024 -> private m kd j -> private m' kd j;
  rel_tables : forall j, 0 <= j < 1024 -> present (pde m' kd j) = true -> pde m' kd j = pde m kd j;
  rel_gone : forall k, 0 <= k < n -> frame_at m' kd (virt + k * PAGE_SIZE) = 0;
  rel_freed : forall k, 0 <= k < n -> let f := frame_at m kd (virt + k * PAGE_SIZE) in
    f <> 0 -> in_pool m f -> m_free m' f = true;
  rel_more : forall f, m_free m f = true -> m_free m' f = true;
  rel_total : total_pages (pmm_at m') = total_pages (pmm_at m);
  rel_fail : fail_allocations (pmm_at m') = fail_allocations (pmm_at m);
  rel_other : forall va, is_u32 va -> ~ (virt / PAGE_SIZE <= va / PAGE_SIZE < virt / PAGE_SIZE + n) ->
    private m kd (pde_index va) -> walk (m_ram m') kd va = walk (m_ram m) kd va;
}.

Lemma released_zero kd virt m : ready m kd -> released_to kd virt 0 m m.
Proof. intros Hr. split; (done || (intros; lia)). Qed.

(** Giving a leaf page back keeps the space. *)
Lemma space_release m kd f p' :
  space m kd -> good_frame f -> leaf_frame m kd f -> page_released (f / PAGE_SIZE) (pmm_at m) p' ->
  space (with_pmm p' m) kd.
Proof.
  intros [Hd Hu Ht] Hg [Hne Hleaf] Hrel.
  assert (forall g, good_frame g -> g <> f -> m_free m g = false -> m_free (with_pmm p' m) g = false) as H.
  { intros g Hgg Hgf Hfr. unfold m_free. change (pmm_of (m_pmm (with_pmm p' m))) with p'.
    rewrite (released_free _ _ _ Hrel). unfold m_free in Hfr. change (pmm_of (m_pmm m)) with (pmm_at m) in Hfr.
    rewrite Hfr. apply good_frame_aligned in Hg, Hgg. unfold PAGE_SIZE in *. cbn [orb]. lia. }
  split; [done|by apply H; [|apply not_eq_sym|]|]. intros i Hi Hp.
  destruct (Ht i Hi Hp) as [H1 H2]. split; [done|]. apply H; [done|by apply Hleaf|done].
Qed.

Lemma unmapped_frame d virt m m' : unmapped d virt m m' -> frame_at m' d virt = 0.
Proof. intros (_ & Hw & _). unfold frame_at. by rewrite Hw. Qed.

Lemma unmapped_free d virt m m' f :
  unmapped d virt m m' ->
  (m_free m f = true -> m_free m' f = true) /\
  total_pages (pmm_at m') = total_pages (pmm_at m) /\
  fail_allocations (pmm_at m') = fail_allocations (pmm_at m).
Proof.
  intros (_ & _ & _ & _ & _ & [E|(Hr & _)]).
  - unfold m_free. change (pmm_of (m_pmm m')) with (pmm_at m'). by rewrite E.
  - unfold m_free. change (pmm_of (m_pmm m')) with (pmm_at m').
    rewrite (released_free _ _ _ Hr). split; [|split; apply Hr].
    change (pmm_of (m_pmm m)) with (pmm_at m). by intros ->.
Qed.

(** One round of the loop of [vmm_unmap_pages]. *)
Lemma wp_release_page m m1 kd virt count i (Q : unit -> machine -> Prop) :
  good_range m kd virt count -> releasable m kd virt count -> 0 <= i < count ->
  released_to kd virt i m m1 ->
  (forall m2, released_to kd virt (i + 1) m m2 -> Q tt m2) ->
  wp (let* phys := paging_translate (PHYS_TO_VIRT kd) (page_at virt i) in
      if phys =? 0 then ret tt
      else
        paging_unmap (PHYS_TO_VIRT kd) (page_at virt i) ;;;
        zoom pmm_world_l (pmm_free_page (page_down phys))) Q m1.
Proof.
  intros Hg [Hleaf Hdis] Hi [Hr Hp Ht Hgone Hfreed Hmore Htot Hfail Ho] HQ.
  pose proof Hg as (Hv0 & Hva & Hc & Hle & Hprivs).
  assert (good_range m1 kd virt count) as Hg1.
  { repeat (split; [done|]). intros k Hk. destruct (page_at_ok _ _ _ _ k Hg Hk) as (_ & Hu & _).
    apply Hp; [by apply pde_index_range|]. by apply Hprivs. }
  destruct (page_at_ok _ _ _ _ i Hg Hi) as (Eat & Hu & _ & Hdiv).
  assert (forall k, i <= k < count -> frame_at m1 kd (virt + k * PAGE_SIZE) = frame_at m kd (virt + k * PAGE_SIZE))
    as Hsame.
  { intros k Hk. destruct (page_at_ok _ _ _ _ k Hg ltac:(lia)) as (_ & Huk & _ & Hdk).
    unfold frame_at. rewrite Ho; [done|done|lia|]. apply Hprivs. lia. }
  apply wp_bind, (wp_translate_page _ kd _ count); [done..|]. rewrite Hsame by lia.
  set (f := frame_at m kd (virt + i * PAGE_SIZE)) in *.
  destruct (Z.eqb_spec f 0) as [Ef|Ef].
  { apply wp_ret, HQ. split; try done.
    - intros k Hk. destruct (decide (k = i)) as [->|]; [by rewrite Hsame by lia|apply Hgone; lia].
    - intros k Hk. cbv zeta. destruct (decide (k = i)) as [Ek|]; [by rewrite Ek|apply Hfreed; lia].
    - intros va Hvau Hout. apply Ho; [done|lia]. }
  destruct (Hleaf i Hi Ef) as [Hgf [Hfk Hft]]. fold f in Hgf, Hfk, Hft.
  destruct (good_frame_virt f Hgf) as (_ & _ & _ & Hfu).
  assert (page_down f = f) as ->.
  { rewrite page_down_div by done. apply good_frame_aligned in Hgf. unfold PAGE_SIZE in *. lia. }
  apply wp_bind. rewrite Eat.
  apply wp_paging_unmap; [apply Hr|apply Hr| |done|].
  { apply Hp; [by apply pde_index_range|]. by apply Hprivs. }
  intros m2 Hun. pose proof Hun as (Hs & _ & _ & _ & Hpi & _).
  assert (forall g, (m_free m1 g = true -> m_free m2 g = true)) as Hf2
    by (intros g; apply (unmapped_free _ _ _ _ g Hun)).
  destruct (unmapped_free _ _ _ _ f Hun) as (_ & Htot2 & Hfail2).
  assert (forall j, 0 <= j < 1024 -> present (pde m2 kd j) = true -> pde m2 kd j = pde m kd j) as Ht2.
  { intros j Hj Hpj. destruct (decide (j = pde_index (virt + i * PAGE_SIZE))) as [->|Hji].
    - rewrite Hpi in Hpj |- * by done. by apply Ht.
    - rewrite (step_other _ _ _ _ Hs) in Hpj |- * by done. by apply Ht. }
  assert (leaf_frame m2 kd f) as Hleaf2.
  { split; [done|]. intros j Hj Hpj. unfold table_of. rewrite Ht2 by done. apply Hft; [done|].
    by rewrite <- Ht2. }
  assert (forall m3, m_ram m3 = m_ram m2 -> ready m3 kd -> (forall g, m_free m2 g = true -> m_free m3 g = true) ->
    total_pages (pmm_at m3) = total_pages (pmm_at m2) -> fail_allocations (pmm_at m3) = fail_allocations (pmm_at m2) ->
    (in_pool m f -> m_free m3 f = true) -> released_to kd virt (i + 1) m m3) as Hdone.
  { intros m3 Er Hr3 Hf3 Htot3 Hfail3 Hff.
    assert (forall j, pde m3 kd j = pde m2 kd j) as Epde by (intros j; unfold pde; by rewrite Er).
    split; [done|..].
    - intros j Hj Hpj. unfold private, table_of. setoid_rewrite Epde.
      apply (step_private _ _ _ _ Hs); [done|]. by apply Hp.
    - intros j Hj. rewrite Epde. by apply Ht2.
    - intros k Hk. unfold frame_at. rewrite Er. destruct (decide (k = i)) as [->|Hki].
      + exact (unmapped_frame _ _ _ _ Hun).
      + destruct (page_at_ok _ _ _ _ k Hg ltac:(lia)) as (_ & Huk & _ & Hdk).
        rewrite (step_walk _ _ _ _ Hs); [apply Hgone; lia|done|lia|].
        apply Hp; [by apply pde_index_range|]. apply Hprivs. lia.
    - intros k Hk. cbv zeta. destruct (decide (k = i)) as [Ek|Hki]; [rewrite Ek; intros _; exact Hff|].
      intros Hne Hpool. apply Hf3, Hf2, Hfreed; [lia|done|done].
    - intros g Hgf'. by apply Hf3, Hf2, Hmore.
    - congruence.
    - congruence.
    - intros va Hvau Hout Hpv. rewrite Er, (step_walk _ _ _ _ Hs); [apply Ho; [done|lia|done]|done|lia|].
      apply Hp; [by apply pde_index_range|done]. }
  assert (ready m2 kd) as Hr2 by by eapply step_ready.
  destruct (good_frame_page _ Hgf) as [Hfpos Hfle].
  apply wp_free_frame; [apply Hr2|done..| |].
  - intros H. apply HQ, Hdone; try done. intros Hpool. destruct H as [H|H]; [|done].
    unfold in_pool in Hpool. change (pmm_of (m_pmm m2)) with (pmm_at m2) in H. lia.
  - intros p' _ _ Hrel Hmem'. change (pmm_of (m_pmm m2)) with (pmm_at m2) in Hrel.
    assert (forall g, m_free (with_pmm p' m2) g = m_free m2 g || (g / PAGE_SIZE =? f / PAGE_SIZE)) as Hmf
      by (intros g; apply (released_free _ _ _ Hrel)).
    apply HQ, Hdone; [done| | |apply Hrel|apply Hrel|].
    + split; [done| |apply Hr2]. eapply space_release; [apply Hr2|done..].
    + intros g Hfg. by rewrite Hmf, Hfg.
    + intros _. rewrite Hmf, Z.eqb_refl. apply orb_true_r.
Qed.

Lemma wp_vmm_unmap_pages m kd virt count (Q : unit -> machine -> Prop) :
  ready m kd -> good_range m kd virt count -> releasable m kd virt count ->
  (forall m', released_to kd virt count m m' -> Q tt m') ->
  wp (vmm_unmap_pages virt count) Q m.
Proof.
  intros Hr Hg Hrel HQ. pose proof Hg as (_ & _ & Hc & _). unfold vmm_unmap_pages.
  apply wp_bind, wp_gets. rewrite (ready_kd _ _ Hr).
  apply (wp_for_each (fun i m' => 0 <= i /\ released_to kd virt i m m')).
  - split; [done|]. by apply released_zero.
  - intros i m' Hi [_ Hto]. eapply wp_release_page; [exact Hg|exact Hrel|lia|exact Hto|].
    intros m2 Hto2. split; [lia|done].
  - intros m' [_ Hto]. rewrite Z.add_0_l, Z2Nat.id in Hto by lia. by apply HQ.
Qed.
End Vmm.

(** ** Properties *)

Section Properties.
Implicit Types (m : machine) (kd virt count : Z).

Definition all_unmapped m kd virt count : Prop :=
  forall i, 0 <= i < count -> frame_at m kd (virt + i * PAGE_SIZE) = 0.

Lemma wp_vmm_alloc_pages m kd virt count (Q : Z -> machine -> Prop) :
  ready m kd -> good_range m kd virt count -> 0 < count ->
  fail_allocations (pmm_at m) = 0 -> 2 * count <= free_pages (pmm_at m) ->
  (~ all_unmapped m kd virt count -> Q NULL m) ->
  (forall m', all_unmapped m kd virt count -> filled_to kd virt count m m' -> Q virt m') ->
  wp (vmm_alloc_pages virt count) Q m.
Proof.
  intros Hr Hg Hc Hfail Hfree HQn HQ. unfold vmm_alloc_pages.
  rewrite (proj2 (Z.eqb_neq _ _)) by lia. apply wp_bind, (wp_vmm_map_pages m kd); [done..| |].
  - intros (i & Hi & Hne). apply wp_ret, HQn. intros Hall. by apply Hne, Hall.
  - intros m' Hall Hto. by apply wp_ret, HQ.
Qed.

Lemma filled_releasable kd virt count m m' :
  filled_to kd virt count m m' -> releasable m' kd virt count.
Proof.
  intros Hto. split.
  - intros k Hk. destruct (to_backed _ _ _ _ _ Hto k Hk) as (f & Hb). cbv zeta.
    rewrite (backed_frame _ _ _ _ _ Hb). intros _. destruct Hb as (H1 & _ & _ & H4 & _). done.
  - intros k k' Hk Hk' Hne _. by apply (to_distinct _ _ _ _ _ Hto).
Qed.

Lemma filled_good_range kd virt count m m' :
  good_range m kd virt count -> filled_to kd virt count m m' -> good_range m' kd virt count.
Proof.
  intros Hg Hto. pose proof Hg as (Hv & Ha & Hc & Hle & Hp). repeat (split; [done|]).
  intros i Hi. destruct (page_at_ok _ _ _ _ i Hg Hi) as (_ & Hu & _).
  apply (to_private _ _ _ _ _ Hto); [by apply pde_index_range|]. by apply Hp.
Qed.

(** C22 [vmm_alloc_pages] with enough free pages: a request for 0 pages or for
    a range with a mapped page is refused without any change; otherwise every
    page of the range is backed, writable, by a page of its own that was free
    before, and no other translation changes. *)
Theorem vmm_alloc_pages_spec m kd virt count :
  ready m kd -> good_range m kd virt count ->
  fail_allocations (pmm_at m) = 0 -> 2 * count <= free_pages (pmm_at m) ->
  wp (vmm_alloc_pages virt count) (fun r m' =>
    ((count = 0 \/ ~ all_unmapped m kd virt count) /\ r = NULL /\ m' = m) \/
    (0 < count /\ all_unmapped m kd virt count /\ r = virt /\ filled_to kd virt count m m')) m.
Proof.
  intros Hr Hg Hfail Hfree. pose proof Hg as (_ & _ & Hc & _).
  destruct (decide (count = 0)) as [->|Hne]; [left; by split; [left|]|].
  apply (wp_vmm_alloc_pages m kd); [done|done|lia|done..| |].
  - intros Hn. left. by split; [right|].
  - intros m' Hall Hto. right. split; [lia|done].
Qed.

(** C34 [vmm_free_pages] undoes [vmm_alloc_pages]: afterwards no page of the
    range is mapped, every frame that backed it is free again, no page that
    was free before is lost, and every other translation is as at the start. *)
Theorem vmm_alloc_free_roundtrip m kd virt count :
  ready m kd -> good_range m kd virt count -> 0 < count -> all_unmapped m kd virt count ->
  fail_allocations (pmm_at m) = 0 -> 2 * count <= free_pages (pmm_at m) ->
  wp (vmm_alloc_pages virt count) (fun _ m1 =>
    wp (vmm_free_pages virt count) (fun _ m2 =>
      ready m2 kd /\ all_unmapped m2 kd virt count /\
      (forall k f, 0 <= k < count -> backed m kd (virt + k * PAGE_SIZE) m1 f -> in_pool m1 f ->
         m_free m2 f = true) /\
      (forall va, is_u32 va -> ~ (virt / PAGE_SIZE <= va / PAGE_SIZE < virt / PAGE_SIZE + count) ->
         private m kd (pde_index va) -> walk (m_ram m2) kd va = walk (m_ram m) kd va)) m1) m.
Proof.
  intros Hr Hg Hc Hall Hfail Hfree. apply (wp_vmm_alloc_pages m kd); [done..| |].
  - intros Hn. done.
  - intros m1 _ Hto. apply (wp_vmm_unmap_pages m1 kd).
    + apply Hto.
    + by eapply filled_good_range.
    + by eapply filled_releasable.
    + intros m2 Hrel. split; [apply Hrel|]. split; [exact (rel_gone _ _ _ _ _ Hrel)|]. split.
      * intros k f Hk Hb Hpool. pose proof (rel_freed _ _ _ _ _ Hrel k Hk) as Hf. cbv zeta in Hf.
        rewrite (backed_frame _ _ _ _ _ Hb) in Hf. apply Hf; [|done].
        destruct Hb as (Hgf & _). unfold good_frame in Hgf. lia.
      * intros va Hva Hout Hp. rewrite (rel_other _ _ _ _ _ Hrel); [|done|done|].
        -- by apply (to_other _ _ _ _ _ Hto).
        -- apply (to_private _ _ _ _ _ Hto); [by apply pde_index_range|done].
Qed.
End Properties.

(** ** Witnesses *)

#[local] Opaque demo_machine.

Lemma demo_ready : ready demo_machine demo_kd.
Proof.
  split; [exact demo_mem|exact demo_space|exact (init_kd _ _ _ _ demo_initialised)].
Qed.

Lemma demo_range : good_range demo_machine demo_kd 0xD0000000 2.
Proof.
  split; [lia|]. split; [done|]. split; [lia|]. split; [unfold PAGE_SIZE; lia|].
  pose proof (proj1 (proj2 demo_facts)) as E.
  intros i Hi H. replace (pde_index (0xD0000000 + i * PAGE_SIZE)) with 832 in H; [congruence|].
  clear E H. rewrite pde_index_div. unfold PAGE_SIZE. lia.
Qed.

Lemma demo_unmapped : all_unmapped demo_machine demo_kd 0xD0000000 2.
Proof.
  intros i Hi. unfold frame_at. rewrite walk_absent; [done|].
  replace (pde_index (0xD0000000 + i * PAGE_SIZE)) with 832.
  - exact (proj1 (proj2 demo_facts)).
  - rewrite pde_index_div. unfold PAGE_SIZE. lia.
Qed.

Lemma demo_pool : fail_allocations (pmm_at demo_machine) = 0 /\ free_pages (pmm_at demo_machine) = 3541.
Proof. destruct demo_facts as (_ & _ & _ & H1 & H2 & _). split; [exact H1|exact H2]. Qed.

Lemma vmm_alloc_pages_spec_witness :
  wp (vmm_alloc_pages 0xD0000000 2) (fun r m' => r = 0xD0000000 /\
    filled_to demo_kd 0xD0000000 2 demo_machine m') demo_machine.
Proof.
  destruct demo_pool as [Hf Hp]. eapply wp_mono; [apply (vmm_alloc_pages_spec demo_machine demo_kd
    0xD0000000 2 demo_ready demo_range Hf); rewrite Hp; lia|].
  intros r m' [[[H|H] _]|(_ & _ & Hr & Hto)]; [discriminate H|destruct (H demo_unmapped)|].
  split; [exact Hr|exact Hto].
Defined.

Lemma vmm_alloc_free_roundtrip_witness :
  wp (vmm_alloc_pages 0xD0000000 2) (fun _ m1 =>
    wp (vmm_free_pages 0xD0000000 2) (fun _ m2 => all_unmapped m2 demo_kd 0xD0000000 2) m1) demo_machine.
Proof.
  destruct demo_pool as [Hf Hp]. eapply wp_mono; [apply (vmm_alloc_free_roundtrip demo_machine demo_kd
    0xD0000000 2 demo_ready demo_range); [clear; lia|exact demo_unmapped|exact Hf|rewrite Hp; clear; lia]|].
  intros r m1 H. eapply wp_mono; [exact H|]. intros _ m2 (_ & Hall & _). exact Hall.
Defined.

(** ** Observations *)

(** One page left and no table for the address: the page is taken, the table
    cannot be had, [paging_map] gives up silently, and the request is reported
    as granted although the address stays unmapped. *)
Definition last_page_machine : machine :=
  with_pmm (with_free_pages 1 (with_bitmap (<[0x210 / 8 := 0xFE]> (filled 512 0xFF))
    (pmm_at demo_machine))) demo_machine.

Example vmm_alloc_reports_unmapped_page :
  match vmm_alloc_page 0xD0000000 last_page_machine with
  | Ok r m' => r = 0xD0000000 /\ walk (m_ram m') demo_kd 0xD0000000 = None /\ free_pages (pmm_at m') = 0
  | Fault _ => False
  end.
Proof. vm_compute. auto. Qed.

(** The address manager hands out the start of the direct mapping first. Its
    page 0 reads as unmapped, because it translates to 0, and is mapped again;
    page 1 is mapped, so every later request is refused. *)
Definition direct_mapped_machine : machine :=
  final (let* kd := gets kernel_directory in
         paging_map kd 0xC0000000 0 3 ;;; paging_map kd 0xC0001000 0x1000 3) demo_machine.

(** The pages below the kernel image are free after [vam_init], as they are
    in the initial state ([Vam.vam_first_allocation]). *)
Definition boot_world : vmm_world := VmmWorld direct_mapped_machine vam_start.

Example vmm_alloc_any_remaps_direct_map :
  match vmm_alloc_pages_any 1 boot_world with
  | Ok r w => r = KERNEL_VIRT_BASE /\ frame_at (v_machine w) demo_kd KERNEL_VIRT_BASE = 0x202000 /\
      result (vmm_alloc_pages_any 1) w = Some NULL
  | Fault _ => False
  end.
Proof. vm_compute. auto. Qed.
