(* ===== verification/Heap.v ===== *)
(** * Kernel heap

    [kernel/mm/heap.c]: a first-fit allocator over a singly linked list of
    block headers that tile the heap. Pages come from an interface,
    [PageSupply], that the virtual memory manager implements. The headers are
    a store from addresses to contents; what clients keep in their blocks is
    not modelled, and they are taken not to write outside of them. The kernel
    is built with [KERNEL_DEBUG], so [HEAP_VALIDATE] runs [heap_validate]. *)

From S2P Require Import Prelude Layout Machine Pmm Ram Paging PagingSpec Vam Vmm.

(** ** Where pages come from *)

Class PageSupply (S : Type) : Type := {
  supply_alloc_pages : Z -> Z -> M S Z;
  supply_free_page : Z -> M S unit;
  (** the processor can read and write this address *)
  accessible : S -> Z -> bool;
}.

(** The addresses of the heap region. *)
Definition in_heap (a : Z) : Prop := KERNEL_HEAP_START <= a <= KERNEL_HEAP_END.

Class PageSupplyLaws (S : Type) `{PageSupply S} : Type := {
  supply_ok : S -> Prop;
  supply_left : S -> nat;
  (** A page for an address of the heap: refused without loss of access, or
      granted at the cost of one page of what is left. *)
  supply_alloc_spec s a (Q : Z -> S -> Prop) :
    supply_ok s -> a mod PAGE_SIZE = 0 -> KERNEL_HEAP_START <= a <= KERNEL_HEAP_END + 1 ->
    ((0 < supply_left s)%nat -> a + PAGE_SIZE <= KERNEL_HEAP_END + 1) ->
    (forall s', supply_ok s' -> (supply_left s' <= supply_left s)%nat ->
       (forall b, in_heap b -> accessible s b = true -> accessible s' b = true) -> Q NULL s') ->
    (forall s', supply_ok s' -> (supply_left s' < supply_left s)%nat ->
       (forall b, in_heap b -> accessible s b = true -> accessible s' b = true) ->
       (forall b, a <= b < a + PAGE_SIZE -> accessible s' b = true) -> Q a s') ->
    wp (supply_alloc_pages a 1) Q s;
}.

(** ** State *)

Definition HEAP_ALIGNMENT : Z := 8.
Definition HEAP_START : Z := KERNEL_HEAP_START.
Definition HEAP_PAGES : Z := 1.

(** [sizeof(struct heap_block)]: 12 bytes, aligned to 8. *)
Definition HEADER : Z := 16.

Record heap_block : Type := Block {
  block_size : Z;
  block_free : bool;
  block_next : Z;
}.

(** The statics of [heap.c] and the headers in heap memory. *)
Record heap : Type := Heap {
  heap_head : Z;
  heap_end : Z;
  heap_expansions : Z;
  headers : gmap Z heap_block;
}.

Section Heap.
Context {S : Type} `{PageSupply S}.

Record heap_world : Type := HeapWorld { the_heap : heap; the_supply : S }.

Definition heap_l : lens heap_world heap := Lens the_heap (fun h w => HeapWorld h (the_supply w)).
Definition supply_l : lens heap_world S := Lens the_supply (fun s w => HeapWorld (the_heap w) s).

Abbreviation HM := (M heap_world).

(** Reading a header through a pointer, and writing one. *)
Definition deref (block : Z) : HM heap_block := fun w =>
  if block =? NULL then Fault BadPointer
  else if negb (accessible (the_supply w) block) then Fault (BadAccess block)
  else match headers (the_heap w) !! block with
       | Some b => Ok b w
       | None => Fault (BadAccess block)
       end.

Definition put_block (block : Z) (b : heap_block) : HM unit := fun w =>
  if block =? NULL then Fault BadPointer
  else if negb (accessible (the_supply w) block) then Fault (BadAccess block)
  else
    let h := the_heap w in
    Ok tt (HeapWorld (Heap (heap_head h) (heap_end h) (heap_expansions h) (<[block := b]> (headers h)))
             (the_supply w)).

Definition set_size (block size : Z) : HM unit :=
  let* b := deref block in put_block block (Block size (block_free b) (block_next b)).
Definition set_free (block : Z) (free : bool) : HM unit :=
  let* b := deref block in put_block block (Block (block_size b) free (block_next b)).
Definition set_next (block next : Z) : HM unit :=
  let* b := deref block in put_block block (Block (block_size b) (block_free b) next).

(** A walk along the list visits every header at most once. *)
Definition walk_fuel : HM nat := gets (fun w => Datatypes.S (size (headers (the_heap w)))).

(** [while (block != NULL) { ...; block = block->next; }]: [Some r] leaves
    the loop early. *)
Definition for_blocks {R} (start : Z) (body : Z -> heap_block -> HM (option R)) : HM (option R) :=
  let* fuel := walk_fuel in
  loop fuel (fun block =>
    if block =? NULL then ret (inr None)
    else
      let* b := deref block in
      let* r := body block b in
      match r with
      | Some v => ret (inr (Some v))
      | None => ret (inl (block_next b))
      end) start.

Definition heap_validate : HM unit :=
  let* head := gets (fun w => heap_head (the_heap w)) in
  let* stop := gets (fun w => heap_end (the_heap w)) in
  let* _ := for_blocks (R := unit) head (fun addr b =>
    ASSERT "addr >= KERNEL_HEAP_START" (KERNEL_HEAP_START <=? addr) ;;;
    ASSERT "addr < heap_end" (addr <? stop) ;;;
    ASSERT "(addr % HEAP_ALIGNMENT) == 0" (addr mod HEAP_ALIGNMENT =? 0) ;;;
    ASSERT "(block->size % HEAP_ALIGNMENT) == 0" (block_size b mod HEAP_ALIGNMENT =? 0) ;;;
    let bend := u32 (u32 (addr + HEADER) + block_size b) in
    ASSERT "end <= heap_end" (bend <=? stop) ;;;
    if negb (block_next b =? NULL) then
      ASSERT "(uintptr_t)block->next == end" (block_next b =? bend) ;;;
      ASSERT "(uintptr_t)block->next > addr" (addr <? block_next b) ;;;
      ret None
    else ret None) in
  ret tt.

(** [(size + HEAP_ALIGNMENT - 1) & ~(HEAP_ALIGNMENT - 1)], or 0 when the sum
    would not fit. *)
Definition heap_align (size : Z) : Z :=
  if 2 ^ 32 - 1 - (HEAP_ALIGNMENT - 1) <? size then 0
  else Z.land (u32 (u32 (size + HEAP_ALIGNMENT) - 1)) (u32 (Z.lnot (HEAP_ALIGNMENT - 1))).

(** [(void * )(block + 1)] *)
Definition payload (block : Z) : Z := u32 (block + HEADER).

Definition heap_find_block (ptr : Z) : HM Z :=
  let* head := gets (fun w => heap_head (the_heap w)) in
  let* r := for_blocks head (fun block _ =>
    ret (if payload block =? ptr then Some block else None)) in
  ret (default NULL r).

Definition heap_find_free (size : Z) : HM Z :=
  let* head := gets (fun w => heap_head (the_heap w)) in
  let* r := for_blocks head (fun block b =>
    ret (if block_free b && (size <=? block_size b) then Some block else None)) in
  ret (default NULL r).

(** [while (block->next != NULL) block = block->next;] *)
Definition heap_last_block : HM Z :=
  let* head := gets (fun w => heap_head (the_heap w)) in
  if head =? NULL then ret NULL
  else
    let* fuel := walk_fuel in
    loop fuel (fun block =>
      let* b := deref block in
      if block_next b =? NULL then ret (inr block) else ret (inl (block_next b))) head.

Definition heap_merge : HM unit :=
  let* head := gets (fun w => heap_head (the_heap w)) in
  let* fuel := walk_fuel in
  loop fuel (fun block =>
    if block =? NULL then ret (inr tt)
    else
      let* b := deref block in
      if block_next b =? NULL then ret (inr tt)
      else
        let* n := deref (block_next b) in
        if block_free b && block_free n then
          set_size block (u32 (block_size b + u32 (HEADER + block_size n))) ;;;
          set_next block (block_next n) ;;;
          ret (inl block)
        else ret (inl (block_next b))) head.

Definition set_heap_end (stop : Z) : HM unit := zoom heap_l (modify (fun h =>
  Heap (heap_head h) stop (heap_expansions h) (headers h))).
Definition set_heap_head (head : Z) : HM unit := zoom heap_l (modify (fun h =>
  Heap head (heap_end h) (heap_expansions h) (headers h))).
Definition set_heap_expansions (n : Z) : HM unit := zoom heap_l (modify (fun h =>
  Heap (heap_head h) (heap_end h) n (headers h))).

Definition heap_expand : HM bool :=
  let* h := gets the_heap in
  ASSERT "heap_head != NULL" (negb (heap_head h =? NULL)) ;;;
  ASSERT "heap_end >= HEAP_START" (HEAP_START <=? heap_end h) ;;;
  let* page := zoom supply_l (supply_alloc_pages (heap_end h) 1) in
  if page =? NULL then ret false
  else
    let* last := heap_last_block in
    if last =? NULL then
      zoom supply_l (supply_free_page (heap_end h)) ;;;
      ret false
    else
      set_next last (heap_end h) ;;;
      put_block (heap_end h) (Block (PAGE_SIZE - HEADER) true NULL) ;;;
      set_heap_end (u32 (heap_end h + PAGE_SIZE)) ;;;
      set_heap_expansions (u32 (heap_expansions h + 1)) ;;;
      heap_merge ;;;
      heap_validate ;;;
      ret true.

Definition heap_split_block (block size : Z) : HM unit :=
  ASSERT "block != NULL" (negb (block =? NULL)) ;;;
  let* b := deref block in
  ASSERT "block->free" (block_free b) ;;;
  ASSERT "size <= block->size" (size <=? block_size b) ;;;
  let remaining := u32 (block_size b - size) in
  if remaining <=? HEADER then ret tt
  else
    let new_block := u32 (payload block + size) in
    put_block new_block (Block (u32 (remaining - HEADER)) true (block_next b)) ;;;
    set_size block size ;;;
    set_next block new_block.

Definition heap_init : HM unit :=
  let* page := zoom supply_l (supply_alloc_pages KERNEL_HEAP_START HEAP_PAGES) in
  if page =? NULL then ret tt
  else
    set_heap_expansions 0 ;;;
    set_heap_head KERNEL_HEAP_START ;;;
    set_heap_end (KERNEL_HEAP_START + HEAP_PAGES * PAGE_SIZE) ;;;
    put_block KERNEL_HEAP_START (Block (HEAP_PAGES * PAGE_SIZE - HEADER) true NULL) ;;;
    heap_validate.

(** [while (block == NULL)] in [kmalloc]: [None] is out of memory. *)
Definition expand_until (fuel : nat) (size block : Z) : HM (option Z) :=
  loop fuel (fun block =>
    if negb (block =? NULL) then ret (inr (Some block))
    else
      let* ok := heap_expand in
      if negb ok then ret (inr None)
      else
        let* block := heap_find_free size in
        ret (inl block)) block.

Definition kmalloc (fuel : nat) (size : Z) : HM Z :=
  if size =? 0 then ret NULL
  else
    let size := heap_align size in
    if size =? 0 then ret NULL
    else
      let* block := heap_find_free size in
      let* found := expand_until fuel size block in
      match found with
      | None => ret NULL
      | Some block =>
          heap_split_block block size ;;;
          set_free block false ;;;
          heap_validate ;;;
          ret (payload block)
      end.

Definition kfree (ptr : Z) : HM unit :=
  if ptr =? NULL then ret tt
  else
    let* block := heap_find_block ptr in
    ASSERT "block != NULL" (negb (block =? NULL)) ;;;
    let* b := deref block in
    ASSERT "!block->free" (negb (block_free b)) ;;;
    set_free block true ;;;
    heap_merge ;;;
    heap_validate.
End Heap.
Arguments heap_world : clear implicits.
