(* ===== verification/HeapSpec.v ===== *)
(** * The heap as a tiling

    The abstract view of [Heap]: the heap is a sequence of tiles, each with a
    size and a free flag, that covers the heap without gaps. The lemmas show
    what each routine of [heap.c] does to the sequence. *)

From S2P Require Import Prelude Layout Machine Pmm Ram Paging PagingSpec Vam Vmm Heap.

Abbreviation tile := (Z * bool)%type.

(** The bytes a sequence of tiles takes, headers included. *)
Fixpoint span (l : list tile) : Z :=
  match l with
  | [] => 0
  | (s, _) :: l' => HEADER + s + span l'
  end.

Definition tile_ok (t : tile) : Prop := HEAP_ALIGNMENT <= t.1 /\ t.1 mod HEAP_ALIGNMENT = 0.

(** The headers at [a] on are those of [l]; the last one points to [e]. *)
Fixpoint seg (bl : gmap Z heap_block) (a : Z) (l : list tile) (e : Z) : Prop :=
  match l with
  | [] => True
  | (s, f) :: l' =>
      let next := match l' with [] => e | _ => a + HEADER + s end in
      bl !! a = Some (Block s f next) /\ seg bl (a + HEADER + s) l' e
  end.

(** The addresses of the headers. *)
Fixpoint starts (a : Z) (l : list tile) : list Z :=
  match l with
  | [] => []
  | (s, _) :: l' => a :: starts (a + HEADER + s) l'
  end.

Section Tiles.
Implicit Types (l : list tile) (a e s x : Z) (f : bool) (bl : gmap Z heap_block).

Lemma span_app l1 l2 : span (l1 ++ l2) = span l1 + span l2.
Proof. induction l1 as [|[s f] l1 IH]; cbn; lia. Qed.

Lemma span_nonneg l : Forall tile_ok l -> 0 <= span l.
Proof.
  induction 1 as [|[s f] l [Hs _] _ IH]; cbn in *; unfold HEADER, HEAP_ALIGNMENT in *; lia.
Qed.

Lemma span_mod l : Forall tile_ok l -> span l mod HEAP_ALIGNMENT = 0.
Proof.
  induction 1 as [|[s f] l [_ Hs] _ IH]; [done|]. cbn in *. unfold HEADER, HEAP_ALIGNMENT in *. lia.
Qed.

Lemma seg_app bl a l1 t l2 e :
  seg bl a (l1 ++ t :: l2) e <-> seg bl a l1 (a + span l1) /\ seg bl (a + span l1) (t :: l2) e.
Proof.
  revert a. induction l1 as [|[s f] l1 IH]; intros a.
  - cbn [app span]. rewrite Z.add_0_r. cbn [seg]. naive_solver.
  - cbn [app span]. replace (a + (HEADER + s + span l1)) with (a + HEADER + s + span l1) by lia.
    cbn [seg]. rewrite IH. destruct l1 as [|t1 l1']; cbn [app span] in *.
    + rewrite Z.add_0_r. tauto.
    + tauto.
Qed.

Lemma starts_app a l1 l2 : starts a (l1 ++ l2) = starts a l1 ++ starts (a + span l1) l2.
Proof.
  revert a. induction l1 as [|[s f] l1 IH]; intros a; cbn [app starts span].
  - by rewrite Z.add_0_r.
  - rewrite IH. by replace (a + HEADER + s + span l1) with (a + (HEADER + s + span l1)) by lia.
Qed.

Lemma starts_range a l x :
  Forall tile_ok l -> x ∈ starts a l -> a <= x /\ x + HEADER + HEAP_ALIGNMENT <= a + span l.
Proof.
  intros Hl. revert a. induction Hl as [|[s f] l [Hs _] Hl IH]; intros a Hx; cbn in *.
  - by apply not_elem_of_nil in Hx.
  - pose proof (span_nonneg l Hl). apply elem_of_cons in Hx as [->|Hx].
    + unfold HEADER, HEAP_ALIGNMENT in *. lia.
    + apply IH in Hx. unfold HEADER, HEAP_ALIGNMENT in *. lia.
Qed.

Lemma starts_nodup a l : Forall tile_ok l -> NoDup (starts a l).
Proof.
  intros Hl. revert a. induction Hl as [|[s f] l [Hs _] Hl IH]; intros a; cbn; constructor; [|done].
  intros Hx. apply starts_range in Hx; [|done]. unfold HEADER, HEAP_ALIGNMENT in *. cbn in Hs. lia.
Qed.

Lemma starts_length a l : length (starts a l) = length l.
Proof. revert a. induction l as [|[s f] l IH]; intros a; cbn; [done|]. by rewrite IH. Qed.

Lemma seg_starts bl a l e : seg bl a l e -> forall x, x ∈ starts a l -> is_Some (bl !! x).
Proof.
  revert a. induction l as [|[s f] l IH]; intros a Hs x Hx; cbn in *; [by apply not_elem_of_nil in Hx|].
  destruct Hs as [E Hs]. apply elem_of_cons in Hx as [->|Hx]; [eauto|]. by eapply IH.
Qed.

(** There are at least as many headers as tiles: the walks have enough fuel. *)
Lemma seg_length bl a l e :
  Forall tile_ok l -> seg bl a l e -> (length l <= size bl)%nat.
Proof.
  intros Hl Hs. rewrite <- (starts_length a), <- (size_list_to_set (C := gset Z)) by by apply starts_nodup.
  rewrite <- size_dom. apply subseteq_size. intros x Hx%elem_of_list_to_set.
  apply elem_of_dom. by eapply seg_starts.
Qed.

(** Only the headers of the tiles matter. *)
Lemma seg_frame bl bl' a l e :
  (forall x, x ∈ starts a l -> bl' !! x = bl !! x) -> seg bl a l e -> seg bl' a l e.
Proof.
  revert a. induction l as [|[s f] l IH]; intros a Heq Hs; cbn in *; [done|].
  destruct Hs as [E Hs]. split; [rewrite Heq; [done|left]|]. apply IH; [|done].
  intros x Hx. apply Heq. by right.
Qed.

Lemma seg_insert bl a l e x b :
  (x ∉ starts a l) -> seg bl a l e -> seg (<[x := b]> bl) a l e.
Proof.
  intros Hx. apply seg_frame. intros y Hy. apply lookup_insert_ne. by intros ->.
Qed.
End Tiles.

(** ** Allocated blocks and merging, on sequences *)

(** The blocks in use: payload address and size. *)
Fixpoint used (a : Z) (l : list tile) : list (Z * Z) :=
  match l with
  | [] => []
  | (s, f) :: l' => (if f then [] else [(a + HEADER, s)]) ++ used (a + HEADER + s) l'
  end.

(** Adding a tile in front, merged with a free neighbour if it is free. *)
Definition push (t : tile) (l : list tile) : list tile :=
  match t, l with
  | (s, true), (s2, true) :: l' => (s + (HEADER + s2), true) :: l'
  | _, _ => t :: l
  end.

Definition merged (l : list tile) : list tile := foldr push [] l.

(** No two free tiles are neighbours. *)
Fixpoint coalesced (l : list tile) : Prop :=
  match l with
  | [] => True
  | (_, f) :: l' => match l' with (_, f') :: _ => ~ (f = true /\ f' = true) | [] => True end /\ coalesced l'
  end.

Section Merging.
Implicit Types (l : list tile) (a s : Z) (f : bool) (t : tile).

Lemma span_push t l : span (push t l) = span (t :: l).
Proof. destruct t as [s []], l as [|[s2 []] l]; cbn; lia. Qed.

Lemma span_merged l : span (merged l) = span l.
Proof.
  induction l as [|[s f] l IH]; [done|]. change (merged ((s, f) :: l)) with (push (s, f) (merged l)).
  rewrite span_push. cbn. by rewrite IH.
Qed.

Lemma tiles_push t l : tile_ok t -> Forall tile_ok l -> Forall tile_ok (push t l).
Proof.
  intros Ht Hl. destruct t as [s []], l as [|[s2 []] l]; cbn; try by constructor.
  apply Forall_cons in Hl as [[H1 H2] Hl]. destruct Ht as [H3 H4]. constructor; [|done].
  unfold tile_ok, HEADER, HEAP_ALIGNMENT in *. cbn in *. lia.
Qed.

Lemma tiles_merged l : Forall tile_ok l -> Forall tile_ok (merged l).
Proof. induction 1; [constructor|by apply tiles_push]. Qed.

Lemma push_not_nil t l : push t l <> [].
Proof. by destruct t as [s []], l as [|[s2 []] l]. Qed.

Lemma push_push s s2 l : push (s, true) (push (s2, true) l) = push (s + (HEADER + s2), true) l.
Proof. destruct l as [|[s3 []] l]; cbn; try done; do 2 f_equal; lia. Qed.

(** A used tile, or a free tile before a used one, is just put in front. *)
Lemma merged_step s f s2 f2 l :
  f && f2 = false -> merged ((s, f) :: (s2, f2) :: l) = (s, f) :: merged ((s2, f2) :: l).
Proof.
  intros E. change (push (s, f) (push (s2, f2) (merged l)) = (s, f) :: push (s2, f2) (merged l)).
  destruct f; [|done]. cbn in E. subst f2. by destruct (merged l) as [|[? []] ?].
Qed.

Lemma merged_join s s2 l :
  merged ((s, true) :: (s2, true) :: l) = merged ((s + (HEADER + s2), true) :: l).
Proof. apply push_push. Qed.

Lemma coalesced_cons s f l :
  coalesced ((s, f) :: l) <->
  match l with (_, f') :: _ => ~ (f = true /\ f' = true) | [] => True end /\ coalesced l.
Proof. done. Qed.

Lemma coalesced_push t l : coalesced l -> coalesced (push t l).
Proof.
  intros Hl. destruct t as [s []], l as [|[s2 []] l]; cbn in *; try naive_solver.
Qed.

Lemma coalesced_merged l : coalesced (merged l).
Proof. induction l as [|t l IH]; [done|]. by apply coalesced_push. Qed.

Lemma used_app a l1 l2 : used a (l1 ++ l2) = used a l1 ++ used (a + span l1) l2.
Proof.
  revert a. induction l1 as [|[s f] l1 IH]; intros a; cbn [app used span].
  - by rewrite Z.add_0_r.
  - rewrite IH, <- app_assoc. by replace (a + HEADER + s + span l1) with (a + (HEADER + s + span l1)) by lia.
Qed.

Lemma used_push a t l : used a (push t l) = used a (t :: l).
Proof.
  destruct t as [s []], l as [|[s2 []] l]; cbn; try done.
  by replace (a + HEADER + (s + (HEADER + s2))) with (a + HEADER + s + HEADER + s2) by lia.
Qed.

Lemma used_merged a l : used a (merged l) = used a l.
Proof.
  revert a. induction l as [|[s f] l IH]; intros a; [done|].
  change (merged ((s, f) :: l)) with (push (s, f) (merged l)). rewrite used_push. cbn. by rewrite IH.
Qed.

(** Blocks in use lie inside the tiling, aligned, and in order. *)
Lemma used_range a l p n :
  Forall tile_ok l -> (p, n) ∈ used a l -> a + HEADER <= p /\ p + n <= a + span l /\ 8 <= n.
Proof.
  intros Hl. revert a. induction Hl as [|[s f] l [Hs _] Hl IH]; intros a Hin; cbn in *.
  - by apply not_elem_of_nil in Hin.
  - pose proof (span_nonneg l Hl). unfold HEADER, HEAP_ALIGNMENT in *.
    apply elem_of_app in Hin as [Hin|Hin].
    + destruct f; [by apply not_elem_of_nil in Hin|]. apply list_elem_of_singleton in Hin as [= -> ->]. lia.
    + apply IH in Hin. lia.
Qed.

(** Two blocks in use do not overlap: the later one's header lies after the
    end of the earlier one. *)
Lemma used_disjoint a l i j p n p' n' :
  Forall tile_ok l -> used a l !! i = Some (p, n) -> used a l !! j = Some (p', n') -> (i < j)%nat ->
  p + n + HEADER <= p'.
Proof.
  intros Hl. revert a i j. induction Hl as [|[s f] l [Hs _] Hl IH]; intros a i j Hi Hj Hij; cbn in *.
  - done.
  - destruct f; cbn in Hi, Hj; [by eapply IH|].
    destruct i as [|i], j as [|j]; cbn in Hi, Hj; try lia.
    + injection Hi as <- <-. apply list_elem_of_lookup_2, used_range in Hj; [|done]. lia.
    + eapply IH; [done..|lia].
Qed.
End Merging.

(** ** The invariant *)

Section Spec.
Context {S : Type} `{PageSupplyLaws S}.
Implicit Types (w : heap_world S) (l : list tile) (a e s x : Z) (f : bool).

(** The heap is tiled by [l], every byte of it is accessible, and what is left
    of the supply fits below the end of the heap region. *)
Record heap_ok w l : Prop := {
  ok_head : heap_head (the_heap w) = HEAP_START;
  ok_seg : seg (headers (the_heap w)) HEAP_START l NULL;
  ok_end : heap_end (the_heap w) = HEAP_START + span l;
  ok_tiles : Forall tile_ok l;
  ok_some : l <> [];
  ok_page : heap_end (the_heap w) mod PAGE_SIZE = 0;
  ok_access : forall a, HEAP_START <= a < heap_end (the_heap w) -> accessible (the_supply w) a = true;
  ok_supply : supply_ok (the_supply w);
  ok_room : heap_end (the_heap w) + Z.of_nat (supply_left (the_supply w)) * PAGE_SIZE <= KERNEL_HEAP_END + 1;
}.

(** Where the tile after [l1] starts, and what its header points to. *)
Definition at_ l1 : Z := HEAP_START + span l1.
Definition next_of l1 s l2 : Z := match l2 with [] => NULL | _ => at_ l1 + HEADER + s end.

Lemma heap_bounds : HEAP_START = 0xC1000000 /\ KERNEL_HEAP_END = 0xCFFFFFFF.
Proof. by vm_compute. Qed.

Lemma ok_limit w l : heap_ok w l -> HEAP_START + span l <= KERNEL_HEAP_END + 1.
Proof. intros Hok. pose proof (ok_room _ _ Hok). rewrite (ok_end _ _ Hok) in *. unfold PAGE_SIZE in *. lia. Qed.

Lemma tiles_split l1 s f l2 :
  Forall tile_ok (l1 ++ (s, f) :: l2) ->
  0 <= span l1 /\ span l1 mod 8 = 0 /\ 8 <= s /\ s mod 8 = 0 /\ 0 <= span l2 /\
  span (l1 ++ (s, f) :: l2) = span l1 + 16 + s + span l2.
Proof.
  intros Hl. apply Forall_app in Hl as [H1 H2]. apply Forall_cons in H2 as [[Hs Hm] H2].
  rewrite span_app. cbn in *. pose proof (span_nonneg _ H1). pose proof (span_nonneg _ H2).
  pose proof (span_mod _ H1). unfold HEADER, HEAP_ALIGNMENT in *. lia.
Qed.

(** The tile after [l1]: its address, and the facts the code relies on. *)
Lemma tile_at w l1 s f l2 :
  heap_ok w (l1 ++ (s, f) :: l2) ->
  headers (the_heap w) !! at_ l1 = Some (Block s f (next_of l1 s l2)) /\
  accessible (the_supply w) (at_ l1) = true /\
  at_ l1 mod 8 = 0 /\ HEAP_START <= at_ l1 /\ 8 <= s /\ s mod 8 = 0 /\
  at_ l1 + 16 + s + span l2 = heap_end (the_heap w) /\ 0 <= span l2 /\
  heap_end (the_heap w) <= KERNEL_HEAP_END + 1.
Proof.
  intros Hok. pose proof (ok_limit _ _ Hok) as Hlim. pose proof (ok_end _ _ Hok) as Hend.
  destruct (tiles_split _ _ _ _ (ok_tiles _ _ Hok)) as (H1 & H2 & H3 & H4 & H5 & H6).
  rewrite H6 in *. destruct heap_bounds as [Hs He]. unfold at_. rewrite Hend.
  pose proof (ok_seg _ _ Hok) as Hseg. apply seg_app in Hseg as [_ [E _]].
  split; [exact E|]. split; [apply (ok_access _ _ Hok); rewrite Hend; lia|]. lia.
Qed.

Lemma wp_deref w l1 s f l2 (Q : heap_block -> heap_world S -> Prop) :
  heap_ok w (l1 ++ (s, f) :: l2) -> Q (Block s f (next_of l1 s l2)) w -> wp (deref (at_ l1)) Q w.
Proof.
  intros Hok HQ. destruct (tile_at _ _ _ _ _ Hok) as (E & Ha & _ & Hge & _).
  destruct heap_bounds as [Hs _]. unfold wp, deref.
  rewrite (proj2 (Z.eqb_neq _ _)) by (unfold NULL; lia). by rewrite Ha, E.
Qed.

Lemma at_app l1 s f : at_ (l1 ++ [(s, f)]) = at_ l1 + HEADER + s.
Proof. unfold at_. rewrite span_app. cbn. lia. Qed.

Lemma next_of_cons l1 s f t l2 : next_of l1 s (t :: l2) = at_ (l1 ++ [(s, f)]).
Proof. by rewrite at_app. Qed.

Lemma at_not_null l1 : Forall tile_ok l1 -> at_ l1 <> NULL.
Proof.
  intros Hl. pose proof (span_nonneg _ Hl). destruct heap_bounds as [Hs _]. unfold at_, NULL. lia.
Qed.

Lemma app_assoc1 {A} (l1 : list A) (t : A) (l2 : list A) : l1 ++ t :: l2 = (l1 ++ [t]) ++ l2.
Proof. by rewrite <- app_assoc. Qed.

(** The rule for walks that leave the heap alone: [P] holds of the tiles
    passed so far. *)
Lemma wp_for_blocks {R} w l (P : list tile -> Prop) (body : Z -> heap_block -> M (heap_world S) (option R))
    (Q : option R -> heap_world S -> Prop) :
  heap_ok w l -> P [] ->
  (forall l1 s f l2, l = l1 ++ (s, f) :: l2 -> P l1 ->
     wp (body (at_ l1) (Block s f (next_of l1 s l2)))
       (fun r w' => w' = w /\ match r with None => P (l1 ++ [(s, f)]) | Some v => Q (Some v) w end) w) ->
  (P l -> Q None w) ->
  wp (for_blocks HEAP_START body) Q w.
Proof.
  intros Hok HP Hbody Hend. unfold for_blocks, walk_fuel. apply wp_bind, wp_gets.
  assert (forall l2 l1 fuel, l = l1 ++ l2 -> (length l2 < fuel)%nat -> P l1 ->
    wp (loop fuel (fun block => if block =? NULL then ret (inr None)
        else let* b := deref block in
             let* r := body block b in
             match r with Some v => ret (inr (Some v)) | None => ret (inl (block_next b)) end)
      (match l2 with [] => NULL | _ => at_ l1 end)) Q w) as Hloop.
  { induction l2 as [|[s f] l2 IH]; intros l1 [|fuel] El Hf HP1; cbn in Hf; try lia;
      cbn [loop]; apply wp_bind.
    - apply wp_ret, wp_ret. rewrite app_nil_r in El. subst l1. by apply Hend.
    - pose proof (ok_tiles _ _ Hok) as Htiles. rewrite El in Htiles.
      apply Forall_app in Htiles as [Ht1 _]. rewrite (proj2 (Z.eqb_neq _ _)) by by apply at_not_null.
      apply wp_bind, (wp_deref w l1 s f l2); [by rewrite <- El|]. apply wp_bind.
      eapply wp_mono; [by apply (Hbody l1 s f l2)|]. intros [v|] w' [-> Hr].
      + by apply wp_ret, wp_ret.
      + apply wp_ret. cbn [block_next].
        replace (next_of l1 s l2) with (match l2 with [] => NULL | _ => at_ (l1 ++ [(s, f)]) end)
          by (destruct l2; [done|by rewrite (next_of_cons l1 s f)]).
        apply IH; [by rewrite <- app_assoc|lia|done]. }
  specialize (Hloop l [] (Datatypes.S (size (headers (the_heap w)))) eq_refl).
  unfold at_ in Hloop. cbn [span] in Hloop. rewrite Z.add_0_r in Hloop.
  destruct l as [|t l]; [by destruct (ok_some _ _ Hok)|]. apply Hloop; [|done].
  pose proof (seg_length _ _ _ _ (ok_tiles _ _ Hok) (ok_seg _ _ Hok)). lia.
Qed.

Definition fits (size : Z) (t : tile) : Prop := t.2 = true /\ size <= t.1.

Lemma head_of w l : heap_ok w l -> heap_head (the_heap w) = HEAP_START.
Proof. apply ok_head. Qed.

Lemma wp_find_free w l size (Q : Z -> heap_world S -> Prop) :
  heap_ok w l ->
  (Forall (fun t => ~ fits size t) l -> Q NULL w) ->
  (forall l1 s l2, l = l1 ++ (s, true) :: l2 -> size <= s -> Forall (fun t => ~ fits size t) l1 ->
     Q (at_ l1) w) ->
  wp (heap_find_free size) Q w.
Proof.
  intros Hok HQn HQ. unfold heap_find_free. apply wp_bind, wp_gets. rewrite (head_of w l) by done.
  apply wp_bind, (wp_for_blocks w l (fun l1 => Forall (fun t => ~ fits size t) l1)); [done|done| |].
  - intros l1 s f l2 El Hno. apply wp_ret. split; [done|]. cbn [block_free block_size].
    destruct (f && (size <=? s)) eqn:E.
    + apply andb_true_iff in E as [-> E]. apply wp_ret. cbn. apply (HQ l1 s l2); [done|lia|done].
    + apply Forall_app. split; [done|]. apply Forall_cons. split; [|done]. intros [Hf Hs].
      cbn in Hf, Hs. subst f. cbn in E. lia.
  - intros Hno. apply wp_ret. by apply HQn.
Qed.

Lemma payload_at w l1 s f l2 :
  heap_ok w (l1 ++ (s, f) :: l2) -> payload (at_ l1) = at_ l1 + HEADER.
Proof.
  intros Hok. destruct (tile_at _ _ _ _ _ Hok) as (_ & _ & _ & H1 & H2 & _ & H3 & H4 & H5).
  destruct heap_bounds as [E1 E2]. unfold payload, HEADER. apply u32_id. unfold is_u32. lia.
Qed.

Lemma wp_find_block w l ptr (Q : Z -> heap_world S -> Prop) :
  heap_ok w l ->
  ((forall l1 s f l2, l = l1 ++ (s, f) :: l2 -> at_ l1 + HEADER <> ptr) -> Q NULL w) ->
  (forall l1 s f l2, l = l1 ++ (s, f) :: l2 -> at_ l1 + HEADER = ptr -> Q (at_ l1) w) ->
  wp (heap_find_block ptr) Q w.
Proof.
  intros Hok HQn HQ. unfold heap_find_block. apply wp_bind, wp_gets. rewrite (head_of w l) by done.
  apply wp_bind, (wp_for_blocks w l (fun p => forall l1 s f l2, p = l1 ++ (s, f) :: l2 ->
    at_ l1 + HEADER <> ptr)); [done| | |].
  - intros l1 s f l2 E. by destruct l1.
  - intros l1 s f l2 El Hno. apply wp_ret. split; [done|]. subst l. rewrite (payload_at _ _ _ _ _ Hok).
    destruct (Z.eqb_spec (at_ l1 + HEADER) ptr) as [E|E].
    + apply wp_ret. cbn. by apply (HQ l1 s f l2).
    + intros l1' s' f' l2' E'. destruct l2' as [|t l2' _] using rev_ind.
      * apply app_inj_tail in E' as [-> [= -> ->]]. done.
      * rewrite app_comm_cons, app_assoc in E'. apply app_inj_tail in E' as [E' _].
        by apply (Hno l1' s' f' l2').
  - intros Hno. by apply wp_ret, HQn.
Qed.

Lemma wp_heap_validate w l (Q : unit -> heap_world S -> Prop) :
  heap_ok w l -> Q tt w -> wp heap_validate Q w.
Proof.
  intros Hok HQ. unfold heap_validate. do 2 apply wp_bind, wp_gets.
  rewrite (head_of w l) by done. apply wp_bind.
  apply (wp_for_blocks w l (fun _ => True)); [done|done| |intros _; by apply wp_ret].
  intros l1 s f l2 -> _. destruct (tile_at _ _ _ _ _ Hok) as (_ & _ & Ha & H1 & H2 & Hs & H3 & H4 & H5).
  destruct heap_bounds as [E1 E2]. change KERNEL_HEAP_START with HEAP_START.
  unfold HEADER, HEAP_ALIGNMENT. cbn [block_size block_next].
  rewrite (u32_id (at_ l1 + 16)) by (unfold is_u32; lia).
  rewrite u32_id by (unfold is_u32; lia).
  do 5 (apply wp_bind, wp_assert; [lia|]).
  destruct (Z.eqb_spec (next_of l1 s l2) NULL) as [En|En]; [by apply wp_ret|]. cbn [negb].
  assert (next_of l1 s l2 = at_ l1 + 16 + s) as Enext by (unfold next_of in *; destruct l2; done).
  do 2 (apply wp_bind, wp_assert; [lia|]). by apply wp_ret.
Qed.

(** Rewriting one header: the tile changes, the rest stays. *)
Definition with_headers (bl : gmap Z heap_block) w : heap_world S :=
  HeapWorld (Heap (heap_head (the_heap w)) (heap_end (the_heap w)) (heap_expansions (the_heap w)) bl)
    (the_supply w).

Lemma wp_put_block w x b (Q : unit -> heap_world S -> Prop) :
  HEAP_START <= x -> accessible (the_supply w) x = true ->
  Q tt (with_headers (<[x := b]> (headers (the_heap w))) w) -> wp (put_block x b) Q w.
Proof.
  intros Hx Ha HQ. destruct heap_bounds as [E _]. unfold wp, put_block.
  rewrite (proj2 (Z.eqb_neq x NULL)) by (unfold NULL; lia). by rewrite Ha.
Qed.

(** A heap with other headers is sound when they tile it. *)
Lemma heap_ok_headers w l bl l' :
  heap_ok w l -> seg bl HEAP_START l' NULL -> span l' = span l -> Forall tile_ok l' -> l' <> [] ->
  heap_ok (with_headers bl w) l'.
Proof.
  intros [] Hs Hspan Ht Hne. split; try done. cbn. by rewrite Hspan.
Qed.

Lemma at_not_start l1 s f l2 :
  Forall tile_ok (l1 ++ (s, f) :: l2) ->
  (at_ l1 ∉ starts HEAP_START l1) /\ (at_ l1 ∉ starts (at_ l1 + HEADER + s) l2).
Proof.
  intros Ht. apply Forall_app in Ht as [H1 Ht2]. apply Forall_cons in Ht2 as [[Hs _] H2]. cbn in Hs.
  split; intros Hx; apply starts_range in Hx; try done; unfold at_, HEADER, HEAP_ALIGNMENT in *; lia.
Qed.

(** Replacing the header of one tile by one of the same size. *)
Lemma seg_replace bl l1 s f f' l2 :
  Forall tile_ok (l1 ++ (s, f) :: l2) ->
  seg bl HEAP_START (l1 ++ (s, f) :: l2) NULL ->
  seg (<[at_ l1 := Block s f' (next_of l1 s l2)]> bl) HEAP_START (l1 ++ (s, f') :: l2) NULL.
Proof.
  intros Ht Hs. destruct (at_not_start _ _ _ _ Ht) as [N1 N2].
  apply seg_app in Hs as [Hs1 [_ Hs2]]. apply seg_app. split; [by apply seg_insert|]. split.
  - rewrite lookup_insert_eq. done.
  - by apply seg_insert.
Qed.

Lemma wp_set_free w l1 s f l2 f' (Q : unit -> heap_world S -> Prop) :
  heap_ok w (l1 ++ (s, f) :: l2) ->
  (forall w', heap_ok w' (l1 ++ (s, f') :: l2) -> the_supply w' = the_supply w -> Q tt w') ->
  wp (set_free (at_ l1) f') Q w.
Proof.
  intros Hok HQ. destruct (tile_at _ _ _ _ _ Hok) as (_ & Ha & _ & Hge & _).
  pose proof (ok_tiles _ _ Hok) as Ht. unfold set_free.
  apply wp_bind, (wp_deref w l1 s f l2); [done|]. cbn [block_size block_next].
  apply wp_put_block; [done|done|]. apply HQ; [|done]. eapply heap_ok_headers; [done| | | |].
  - apply (seg_replace _ _ _ f); [done|apply Hok].
  - by rewrite !span_app.
  - apply Forall_app in Ht as [H1 H2]. apply Forall_app. split; [done|].
    apply Forall_cons in H2 as [H2 H3]. by apply Forall_cons.
  - by destruct l1.
Qed.

Lemma wp_deref_raw w x b (Q : heap_block -> heap_world S -> Prop) :
  HEAP_START <= x -> accessible (the_supply w) x = true -> headers (the_heap w) !! x = Some b ->
  Q b w -> wp (deref x) Q w.
Proof.
  intros Hx Ha E HQ. destruct heap_bounds as [Es _]. unfold wp, deref.
  rewrite (proj2 (Z.eqb_neq x NULL)) by (unfold NULL; lia). by rewrite Ha, E.
Qed.

(** [block->size = size; block->next = next;] *)
Lemma wp_resize w x b sz nx (Q : unit -> heap_world S -> Prop) :
  HEAP_START <= x -> accessible (the_supply w) x = true -> headers (the_heap w) !! x = Some b ->
  Q tt (with_headers (<[x := Block sz (block_free b) nx]> (headers (the_heap w))) w) ->
  wp (set_size x sz ;;; set_next x nx) Q w.
Proof.
  intros Hx Ha E HQ. apply wp_bind, wp_bind, (wp_deref_raw _ _ b); [done..|].
  apply wp_put_block; [done..|].
  apply wp_bind, (wp_deref_raw _ _ (Block sz (block_free b) (block_next b)));
    [done|done|cbn; apply lookup_insert_eq|].
  apply wp_put_block; [done..|]. cbn. unfold with_headers in *. cbn. by rewrite insert_insert_eq.
Qed.

(** Two free neighbours become one tile. *)
Lemma heap_ok_join w l1 s s2 l2 :
  heap_ok w (l1 ++ (s, true) :: (s2, true) :: l2) ->
  heap_ok (with_headers (<[at_ l1 := Block (s + (HEADER + s2)) true (next_of (l1 ++ [(s, true)]) s2 l2)]>
    (headers (the_heap w))) w) (l1 ++ (s + (HEADER + s2), true) :: l2).
Proof.
  intros Hok. pose proof (ok_tiles _ _ Hok) as Ht. pose proof (ok_seg _ _ Hok) as Hseg.
  apply seg_app in Hseg as [Hs1 (_ & _ & Hs2)].
  apply Forall_app in Ht as [Ht1 Ht2]. apply Forall_cons in Ht2 as [[Hs Hm] Ht2].
  apply Forall_cons in Ht2 as [[Hs' Hm'] Ht2]. cbn in Hs, Hm, Hs', Hm'.
  assert (tile_ok (s + (HEADER + s2), true)) as Hnew
    by (unfold tile_ok, HEADER, HEAP_ALIGNMENT in *; cbn; lia).
  assert (Forall tile_ok (l1 ++ (s + (HEADER + s2), true) :: l2)) as Htiles
    by (apply Forall_app; split; [done|by apply Forall_cons]).
  destruct (at_not_start _ _ _ _ Htiles) as [N1 N2].
  replace (at_ l1 + HEADER + (s + (HEADER + s2))) with (at_ l1 + HEADER + s + HEADER + s2) in N2 by lia.
  eapply heap_ok_headers; [done| | |done|by destruct l1].
  - apply seg_app. split; [by apply seg_insert|]. split.
    + rewrite lookup_insert_eq. unfold next_of. rewrite at_app.
      destruct l2; [done|]. do 2 f_equal. unfold at_. lia.
    + replace (HEAP_START + span l1 + HEADER + (s + (HEADER + s2)))
        with (HEAP_START + span l1 + HEADER + s + HEADER + s2) by lia. by apply seg_insert.
  - rewrite !span_app. cbn. lia.
Qed.

(** The body of the loop of [heap_merge]. *)
Lemma wp_merge_loop (Q : unit -> heap_world S -> Prop) l2 : forall l1 s f fuel w,
  heap_ok w (l1 ++ (s, f) :: l2) -> (length l2 < fuel)%nat ->
  (forall w', heap_ok w' (l1 ++ merged ((s, f) :: l2)) -> the_supply w' = the_supply w -> Q tt w') ->
  wp (loop fuel (fun block =>
    if block =? NULL then ret (inr tt)
    else
      let* b := deref block in
      if block_next b =? NULL then ret (inr tt)
      else
        let* n := deref (block_next b) in
        if block_free b && block_free n then
          set_size block (u32 (block_size b + u32 (HEADER + block_size n))) ;;;
          set_next block (block_next n) ;;;
          ret (inl block)
        else ret (inl (block_next b))) (at_ l1)) Q w.
Proof.
  induction l2 as [|[s2 f2] l2 IH]; intros l1 s f [|fuel] w Hok Hf HQ; cbn in Hf; try lia;
    cbn [loop]; destruct (tile_at _ _ _ _ _ Hok) as (E & Ha & T0 & T1 & T2 & T3 & T4 & T5 & T6);
    apply wp_bind; rewrite (proj2 (Z.eqb_neq (at_ l1) NULL)) by (destruct heap_bounds; unfold NULL; lia);
    (apply wp_bind; eapply (wp_deref w l1 s f); [exact Hok|]); cbn [block_next block_free block_size].
  - apply wp_ret, wp_ret. apply HQ; [|done]. by destruct f.
  - pose proof Hok as Hok2. rewrite app_assoc1 in Hok2.
    destruct (tile_at _ _ _ _ _ Hok2) as (E' & Ha' & G0 & G1 & G2 & G3 & G4 & G5 & G6).
    rewrite (next_of_cons l1 s f). rewrite (proj2 (Z.eqb_neq _ NULL)) by (destruct heap_bounds; unfold NULL; lia).
    apply wp_bind, (wp_deref w (l1 ++ [(s, f)]) s2 f2 l2); [done|]. cbn [block_next block_free block_size].
    rewrite at_app in *. unfold HEADER in *. destruct heap_bounds as [B1 B2].
    destruct (f && f2) eqn:Ef.
    + apply andb_true_iff in Ef as [-> ->].
      rewrite (u32_id (16 + s2)) by (unfold is_u32; lia). rewrite u32_id by (unfold is_u32; lia).
      apply wp_bind_assoc, wp_bind, (wp_resize _ _ _ _ _ _ T1 Ha E). apply wp_ret.
      apply (IH l1 (s + (HEADER + s2)) true); [|lia|].
      * by apply heap_ok_join.
      * intros w' Hok' Hs. apply HQ; [|done]. by rewrite merged_join.
    + apply wp_ret. change (at_ l1 + 16 + s) with (at_ l1 + HEADER + s). rewrite <- (at_app l1 s f). apply (IH (l1 ++ [(s, f)]) s2 f2); [by rewrite <- app_assoc|lia|].
      intros w' Hok' Hs. apply HQ; [|done]. rewrite merged_step by done.
      by rewrite <- app_assoc in Hok'.
Qed.

Lemma at_nil : at_ [] = HEAP_START.
Proof. unfold at_. cbn. lia. Qed.

Lemma wp_heap_merge w l (Q : unit -> heap_world S -> Prop) :
  heap_ok w l -> (forall w', heap_ok w' (merged l) -> the_supply w' = the_supply w -> Q tt w') ->
  wp heap_merge Q w.
Proof.
  intros Hok HQ. unfold heap_merge, walk_fuel. do 2 apply wp_bind, wp_gets. rewrite (head_of w l) by done.
  pose proof (seg_length _ _ _ _ (ok_tiles _ _ Hok) (ok_seg _ _ Hok)) as Hlen.
  destruct l as [|[s f] l]; [by destruct (ok_some _ _ Hok)|]. rewrite <- at_nil.
  apply (wp_merge_loop _ l [] s f); [done|cbn in Hlen; lia|done].
Qed.

Lemma wp_heap_last_block w l s f (Q : Z -> heap_world S -> Prop) :
  heap_ok w (l ++ [(s, f)]) -> Q (at_ l) w -> wp heap_last_block Q w.
Proof.
  intros Hok HQ. unfold heap_last_block, walk_fuel. apply wp_bind, wp_gets.
  rewrite (head_of w _) by done. destruct heap_bounds as [B1 B2].
  rewrite (proj2 (Z.eqb_neq _ NULL)) by (unfold NULL; lia). apply wp_bind, wp_gets.
  pose proof (seg_length _ _ _ _ (ok_tiles _ _ Hok) (ok_seg _ _ Hok)) as Hlen.
  assert (forall l2 l1 s1 f1 fuel, l ++ [(s, f)] = l1 ++ (s1, f1) :: l2 -> (length l2 < fuel)%nat ->
    wp (loop fuel (fun block => let* b := deref block in
      if block_next b =? NULL then ret (inr block) else ret (inl (block_next b))) (at_ l1)) Q w) as Hloop.
  { induction l2 as [|[s2 f2] l2 IH]; intros l1 s1 f1 [|fuel] El Hf; cbn in Hf; try lia;
      cbn [loop]; rewrite El in Hok; apply wp_bind, wp_bind; eapply (wp_deref w l1 s1 f1); [exact Hok| |exact Hok|];
      cbn [block_next].
    - apply wp_ret, wp_ret. apply app_inj_tail in El as [<- _]. done.
    - rewrite (next_of_cons l1 s1 f1). rewrite (proj2 (Z.eqb_neq _ NULL)).
      + apply wp_ret. apply (IH _ s2 f2); [by rewrite <- app_assoc|lia].
      + apply at_not_null. pose proof (ok_tiles _ _ Hok) as Ht. rewrite app_assoc1 in Ht.
        by apply Forall_app in Ht as [Ht _]. }
  rewrite <- at_nil. destruct l as [|[s1 f1] l].
  - apply (Hloop [] [] s f); [done|cbn; lia].
  - apply (Hloop (l ++ [(s, f)]) [] s1 f1); [done|]. cbn in Hlen. lia.
Qed.

(** Splitting a free tile; a remainder too small for a header stays with it. *)
Definition split_tiles (s size : Z) : list tile :=
  if s - size <=? HEADER then [(s, true)] else [(size, true); (s - size - HEADER, true)].

Lemma heap_ok_split w l1 s size l2 :
  heap_ok w (l1 ++ (s, true) :: l2) -> 8 <= size -> size mod 8 = 0 -> HEADER < s - size ->
  heap_ok (with_headers (<[at_ l1 := Block size true (at_ l1 + HEADER + size)]>
    (<[at_ l1 + HEADER + size := Block (s - size - HEADER) true (next_of l1 s l2)]> (headers (the_heap w)))) w)
    (l1 ++ (size, true) :: (s - size - HEADER, true) :: l2).
Proof.
  intros Hok Hs8 Hsm Hgt. pose proof (ok_tiles _ _ Hok) as Ht. pose proof (ok_seg _ _ Hok) as Hseg.
  apply seg_app in Hseg as [Hs1 [_ Hs2]].
  apply Forall_app in Ht as [Ht1 Ht2]. apply Forall_cons in Ht2 as [[Hs Hm] Ht2]. cbn in Hs, Hm.
  unfold HEADER, HEAP_ALIGNMENT in *.
  assert (tile_ok (size, true) /\ tile_ok (s - size - 16, true)) as [Hn1 Hn2]
    by (unfold tile_ok, HEAP_ALIGNMENT; cbn; lia).
  assert (Forall tile_ok (l1 ++ (size, true) :: (s - size - 16, true) :: l2)) as Htiles
    by (apply Forall_app; split; [done|by do 2 (apply Forall_cons; split; [done|])]).
  destruct (at_not_start _ _ _ _ Htiles) as [N1 _]. rewrite app_assoc1 in Htiles.
  destruct (at_not_start _ _ _ _ Htiles) as [N3 N4]. rewrite at_app in N3, N4.
  rewrite starts_app, not_elem_of_app in N3. destruct N3 as [N3 _]. unfold HEADER in *.
  replace (at_ l1 + 16 + size + 16 + (s - size - 16)) with (at_ l1 + 16 + s) in N4 by lia.
  eapply heap_ok_headers; [done| | |by rewrite <- app_assoc in Htiles|by destruct l1].
  - apply seg_app. split; [by apply seg_insert, seg_insert|]. split.
    + by rewrite lookup_insert_eq.
    + change (HEAP_START + span l1) with (at_ l1). cbn [seg]. split.
      * rewrite lookup_insert_ne by (unfold HEADER; lia). unfold HEADER. rewrite lookup_insert_eq.
        unfold next_of, HEADER. destruct l2; [done|]. do 2 f_equal. lia.
      * unfold HEADER. replace (at_ l1 + 16 + size + 16 + (s - size - 16)) with (at_ l1 + 16 + s) by lia.
        apply seg_insert, seg_insert; [|done|done]. intros Hx.
        apply starts_range in Hx; [|done]. lia.
  - rewrite !span_app. cbn. unfold HEADER. lia.
Qed.

Lemma wp_heap_split_block w l1 s size l2 (Q : unit -> heap_world S -> Prop) :
  heap_ok w (l1 ++ (s, true) :: l2) -> 8 <= size <= s -> size mod 8 = 0 ->
  (forall w', heap_ok w' (l1 ++ split_tiles s size ++ l2) -> the_supply w' = the_supply w -> Q tt w') ->
  wp (heap_split_block (at_ l1) size) Q w.
Proof.
  intros Hok Hs Hm HQ. destruct (tile_at _ _ _ _ _ Hok) as (E & Ha & T0 & T1 & T2 & T3 & T4 & T5 & T6).
  destruct heap_bounds as [B1 B2]. unfold heap_split_block.
  apply wp_bind, wp_assert; [by rewrite (proj2 (Z.eqb_neq _ _)) by (unfold NULL; lia)|].
  apply wp_bind; eapply (wp_deref w l1 s true); [exact Hok|]. cbn [block_free block_size block_next].
  apply wp_bind, wp_assert; [done|]. apply wp_bind, wp_assert; [lia|].
  rewrite (u32_id (s - size)) by (unfold is_u32; lia). unfold split_tiles in HQ.
  destruct (Z.leb_spec (s - size) HEADER) as [Hle|Hgt].
  - apply wp_ret, HQ; [exact Hok|done].
  - rewrite (payload_at _ _ _ _ _ Hok). unfold HEADER in Hgt.
    rewrite !u32_id by (unfold is_u32, HEADER; lia).
    apply wp_bind, wp_put_block; [unfold HEADER; lia| |].
    { apply (ok_access _ _ Hok). unfold HEADER. lia. }
    eapply wp_resize; [done|done|cbn; rewrite lookup_insert_ne by (unfold HEADER; lia); exact E|].
    apply HQ; [|done]. exact (heap_ok_split w l1 s size l2 Hok (proj1 Hs) Hm Hgt).
Qed.

Lemma heap_align_spec size :
  0 < size < 2 ^ 32 ->
  (2 ^ 32 - 8 < size /\ heap_align size = 0) \/
  (size <= 2 ^ 32 - 8 /\ size <= heap_align size < size + 8 /\ 8 <= heap_align size /\
   heap_align size mod 8 = 0 /\ heap_align size < 2 ^ 32).
Proof.
  intros Hs. unfold heap_align, HEAP_ALIGNMENT.
  destruct (Z.ltb_spec (2 ^ 32 - 1 - (8 - 1)) size) as [Hgt|Hle]; [left; lia|]. right.
  change (8 - 1) with (2 ^ 3 - 1).
  assert (u32 (u32 (size + 8) - 1) = size + 7) as ->.
  { destruct (decide (size + 8 < 2 ^ 32)).
    - rewrite (u32_id (size + 8)) by (unfold is_u32; lia). rewrite u32_id by (unfold is_u32; lia). lia.
    - replace size with (2 ^ 32 - 8) by lia. done. }
  rewrite land_lnot_mask by (lia || (unfold is_u32; lia)). lia.
Qed.

(** ** Growing the heap *)

Lemma heap_ok_supply w l (s' : S) :
  heap_ok w l -> supply_ok s' -> (supply_left s' <= supply_left (the_supply w))%nat ->
  (forall b, in_heap b -> accessible (the_supply w) b = true -> accessible s' b = true) ->
  heap_ok (HeapWorld (the_heap w) s') l.
Proof.
  intros Hok Hs Hle Ha. pose proof (ok_limit _ _ Hok) as Hlim. rewrite <- (ok_end _ _ Hok) in Hlim.
  destruct Hok. split; try done; cbn.
  - intros a Hr. apply Ha; [unfold in_heap, HEAP_START in *; lia|auto].
  - unfold PAGE_SIZE in *. lia.
Qed.

Lemma seg_extend bl a l s f s2 f2 :
  Forall tile_ok (l ++ [(s, f)]) -> seg bl a (l ++ [(s, f)]) NULL ->
  let b := a + span (l ++ [(s, f)]) in
  seg (<[b := Block s2 f2 NULL]> (<[a + span l := Block s f b]> bl)) a (l ++ [(s, f); (s2, f2)]) NULL.
Proof.
  intros Ht Hs b. assert (b = a + span l + HEADER + s) as Eb by (unfold b; rewrite span_app; cbn; lia).
  apply Forall_app in Ht as [H1 H2]. apply Forall_cons in H2 as [[Hs8 _] _]. cbn in Hs8.
  unfold HEADER, HEAP_ALIGNMENT in *. apply seg_app in Hs as [Hs1 _]. apply seg_app. split.
  - apply seg_insert; [|apply seg_insert; [|done]]; intros Hx; apply starts_range in Hx; try done;
      unfold HEADER, HEAP_ALIGNMENT in *; lia.
  - cbn [seg]. unfold HEADER. rewrite <- Eb. split; [|split; [|done]].
    + rewrite lookup_insert_ne by lia. by rewrite lookup_insert_eq.
    + by rewrite lookup_insert_eq.
Qed.

(** The new last tile of an expanded heap. *)
Definition page_tile : tile := (PAGE_SIZE - HEADER, true).

Definition with_end (stop n : Z) w : heap_world S :=
  HeapWorld (Heap (heap_head (the_heap w)) stop n (headers (the_heap w))) (the_supply w).

Lemma heap_ok_extend w l s f n :
  heap_ok w (l ++ [(s, f)]) -> let b := heap_end (the_heap w) in
  b + PAGE_SIZE + Z.of_nat (supply_left (the_supply w)) * PAGE_SIZE <= KERNEL_HEAP_END + 1 ->
  (forall a, b <= a < b + PAGE_SIZE -> accessible (the_supply w) a = true) ->
  heap_ok (with_end (b + PAGE_SIZE) n (with_headers (<[b := Block (PAGE_SIZE - HEADER) true NULL]>
    (<[at_ l := Block s f b]> (headers (the_heap w)))) w)) ((l ++ [(s, f)]) ++ [page_tile]).
Proof.
  intros Hok b Hroom Hacc. pose proof (ok_end _ _ Hok) as Eb. fold b in Eb. destruct Hok. split; cbn; try done.
  - rewrite <- app_assoc. unfold b. rewrite ok_end0. by apply seg_extend.
  - rewrite span_app. cbn. unfold PAGE_SIZE, HEADER. lia.
  - apply Forall_app. split; [done|]. constructor; [|done]. by vm_compute.
  - by destruct l.
  - unfold PAGE_SIZE in *. fold b in ok_page0. lia.
  - intros a Ha. destruct (decide (a < b)) as [|]; [apply ok_access0; fold b; lia|apply Hacc; lia].
Qed.

Lemma page_of_end w l : heap_ok w l ->
  HEAP_START <= heap_end (the_heap w) <= KERNEL_HEAP_END + 1.
Proof.
  intros Hok. pose proof (ok_limit _ _ Hok). rewrite (ok_end _ _ Hok).
  pose proof (span_nonneg _ (ok_tiles _ _ Hok)). lia.
Qed.

Lemma wp_heap_expand w l (Q : bool -> heap_world S -> Prop) :
  heap_ok w l ->
  (forall w', heap_ok w' l -> heap_end (the_heap w') = heap_end (the_heap w) ->
     supply_alloc_pages (heap_end (the_heap w)) 1 (the_supply w) = Ok NULL (the_supply w') -> Q false w') ->
  (forall w', heap_ok w' (merged (l ++ [page_tile])) ->
     (supply_left (the_supply w') < supply_left (the_supply w))%nat ->
     supply_alloc_pages (heap_end (the_heap w)) 1 (the_supply w) = Ok (heap_end (the_heap w)) (the_supply w') -> Q true w') ->
  wp heap_expand Q w.
Proof.
  intros Hok HQf HQt. destruct heap_bounds as [B1 B2]. pose proof (page_of_end _ _ Hok) as Hend.
  unfold heap_expand. apply wp_bind, wp_gets.
  apply wp_bind, wp_assert; [rewrite (ok_head _ _ Hok); by rewrite (proj2 (Z.eqb_neq _ _)) by (unfold NULL; lia)|].
  apply wp_bind, wp_assert; [lia|].
  apply wp_bind, wp_zoom. cbn [view supply_l set_view]. set (b := heap_end (the_heap w)) in *.
  pose proof (ok_room _ _ Hok) as Hroom. fold b in Hroom.
  apply wp_ran, supply_alloc_spec; [apply Hok|apply Hok|done|unfold PAGE_SIZE in *; lia|..].
  { intros s' Hs' Hle Hacc Hrun. apply wp_ret. apply HQf; [|done|done]. by apply heap_ok_supply. }
  intros s' Hs' Hlt Hacc Hnew Hrun. rewrite (proj2 (Z.eqb_neq b NULL)) by (unfold NULL; lia).
  set (w1 := HeapWorld (the_heap w) s').
  assert (heap_ok w1 l) as Hok1 by (apply heap_ok_supply; [done|done|lia|done]).
  destruct l as [|[s f] l _] using rev_ind; [by destruct (ok_some _ _ Hok)|].
  apply wp_bind, (wp_heap_last_block _ l s f); [done|].
  pose proof Hok1 as Hok1'. destruct (tile_at _ _ _ _ _ Hok1) as (E & Ha & T0 & T1 & T2 & T3 & T4 & _).
  rewrite (proj2 (Z.eqb_neq (at_ l) NULL)) by (unfold NULL; lia).
  apply wp_bind, wp_bind; eapply wp_deref; [exact Hok1|]. cbn [block_size block_free].
  apply wp_put_block; [done|done|]. apply wp_bind, wp_put_block; [lia|apply Hnew; unfold PAGE_SIZE; lia|].
  apply wp_bind, wp_zoom, wp_modify. apply wp_bind, wp_zoom, wp_modify.
  rewrite (u32_id (b + PAGE_SIZE)) by (unfold is_u32, PAGE_SIZE in *; lia).
  apply wp_bind. eapply (wp_heap_merge _ ((l ++ [(s, f)]) ++ [page_tile])).
  - apply (heap_ok_extend w1); [done| |done]. cbn [the_supply the_heap w1]. fold b.
    unfold PAGE_SIZE in *. lia.
  - intros w' Hok' Es. apply wp_bind, (wp_heap_validate _ _ _ Hok'), wp_ret, HQt; [exact Hok'|rewrite Es; exact Hlt|].
    rewrite Es. exact Hrun.
Qed.

(** ** Allocation and release *)

(** The heap is sound and has no two free neighbours; [u] are the blocks in
    use. *)
Definition heap_holds w (u : list (Z * Z)) : Prop :=
  exists l, heap_ok w l /\ coalesced l /\ used HEAP_START l = u.

Definition pages_left w : nat := supply_left (the_supply w).

(** Some free tile is large enough. *)
Definition has_room w (size : Z) : Prop :=
  exists l, heap_ok w l /\ exists t, t ∈ l /\ fits size t.

Lemma heap_ok_unique w l l' : heap_ok w l -> heap_ok w l' -> l = l'.
Proof.
  intros Hok Hok'. pose proof (ok_seg _ _ Hok) as Hs. pose proof (ok_seg _ _ Hok') as Hs'.
  pose proof (ok_end _ _ Hok) as He. pose proof (ok_end _ _ Hok') as He'. rewrite He' in He.
  pose proof (ok_tiles _ _ Hok) as Ht. pose proof (ok_tiles _ _ Hok') as Ht'.
  clear Hok Hok' He'. revert Hs Hs' He Ht Ht'. generalize HEAP_START as a.
  revert l'. induction l as [|[s f] l IH]; intros [|[s' f'] l'] a Hs Hs' He Ht Ht'; try done.
  - apply Forall_cons in Ht' as [[H1 _] H2]. pose proof (span_nonneg _ H2).
    cbn in *. unfold HEADER, HEAP_ALIGNMENT in *. lia.
  - apply Forall_cons in Ht as [[H1 _] H2]. pose proof (span_nonneg _ H2).
    cbn in *. unfold HEADER, HEAP_ALIGNMENT in *. lia.
  - destruct Hs as [E Hs], Hs' as [E' Hs']. rewrite E in E'. injection E' as -> -> _.
    f_equal. apply (IH l' (a + HEADER + s')); [done|done|cbn in He; lia|..];
      [by apply Forall_cons in Ht as [_ ?]|by apply Forall_cons in Ht' as [_ ?]].
Qed.

Lemma used_split l1 s f l2 :
  used HEAP_START (l1 ++ (s, f) :: l2) =
  used HEAP_START l1 ++ (if f then [] else [(at_ l1 + HEADER, s)]) ++ used (at_ l1 + HEADER + s) l2.
Proof. by rewrite used_app. Qed.

(** Taking a free tile, split or whole. *)
Definition taken_tiles (s size : Z) : list tile :=
  if s - size <=? HEADER then [(s, false)] else [(size, false); (s - size - HEADER, true)].
Definition taken_size (s size : Z) : Z := if s - size <=? HEADER then s else size.

Lemma coalesced_middle l1 t t' ts l2 :
  coalesced (l1 ++ t :: l2) -> t'.2 = false -> coalesced ((t' :: ts) ++ l2) -> coalesced (l1 ++ (t' :: ts) ++ l2).
Proof.
  intros Hc Hf Ht. induction l1 as [|[s f] l1 IH]; [done|]. cbn [app] in Hc |- *.
  rewrite coalesced_cons in Hc |- *. destruct Hc as [H1 H2]. split; [|by apply IH].
  destruct l1 as [|[s' f'] l1]; cbn [app] in *; [|done]. destruct t' as [s' f']. cbn in Hf. naive_solver.
Qed.

Lemma coalesced_tail l1 l2 : coalesced (l1 ++ l2) -> coalesced l2.
Proof.
  induction l1 as [|[s f] l1 IH]; [done|]. cbn [app]. rewrite coalesced_cons. intros [_ Hc]. auto.
Qed.

Lemma coalesced_taken l1 s size l2 :
  coalesced (l1 ++ (s, true) :: l2) -> coalesced (l1 ++ taken_tiles s size ++ l2).
Proof.
  intros Hc. pose proof (coalesced_tail _ _ Hc) as Ht. rewrite coalesced_cons in Ht.
  unfold taken_tiles. destruct (s - size <=? HEADER).
  - eapply coalesced_middle; [exact Hc|done|]. cbn [app]. rewrite coalesced_cons.
    split; [destruct l2 as [|[? ?] ?]; [done|naive_solver]|apply Ht].
  - eapply coalesced_middle; [exact Hc|done|]. cbn [app]. rewrite coalesced_cons.
    split; [naive_solver|]. rewrite coalesced_cons. exact Ht.
Qed.

(** The two steps of [kmalloc] once a tile is found. *)
Lemma wp_take_tile w l1 s size l2 (Q : unit -> heap_world S -> Prop) :
  heap_ok w (l1 ++ (s, true) :: l2) -> 8 <= size <= s -> size mod 8 = 0 ->
  (forall w', heap_ok w' (l1 ++ taken_tiles s size ++ l2) -> the_supply w' = the_supply w -> Q tt w') ->
  wp (heap_split_block (at_ l1) size ;;; set_free (at_ l1) false) Q w.
Proof.
  intros Hok Hs Hm HQ. apply wp_bind, (wp_heap_split_block w l1 s size l2); [done..|].
  intros w1 Hok1 E1. unfold split_tiles, taken_tiles in *.
  destruct (s - size <=? HEADER); cbn [app] in *.
  - eapply wp_set_free; [exact Hok1|]. intros w2 Hok2 E2. apply HQ; [done|congruence].
  - eapply wp_set_free; [exact Hok1|]. intros w2 Hok2 E2. apply HQ; [done|congruence].
Qed.

Lemma used_taken l1 s size l2 :
  used HEAP_START (l1 ++ taken_tiles s size ++ l2) =
  used HEAP_START l1 ++ (at_ l1 + HEADER, taken_size s size) :: used (at_ l1 + HEADER + s) l2.
Proof.
  unfold taken_tiles, taken_size. destruct (s - size <=? HEADER); cbn [app]; rewrite used_split; [done|].
  cbn [used app]. by replace (at_ l1 + HEADER + size + HEADER + (s - size - HEADER))
    with (at_ l1 + HEADER + s) by lia.
Qed.

(** *** Growing the heap *)

(** The tiles after [n] more pages. *)
Fixpoint grow (n : nat) (l : list tile) : list tile :=
  match n with O => l | Datatypes.S n' => merged (grow n' l ++ [page_tile]) end.

(** The supply granted [n] pages, one after the other, from the address [e] on. *)
Inductive extended (e : Z) (s : S) : nat -> S -> Prop :=
  | extended_0 : extended e s 0 s
  | extended_S n (s1 s2 : S) : extended e s n s1 ->
      supply_alloc_pages (e + Z.of_nat n * PAGE_SIZE) 1 s1 = Ok (e + Z.of_nat n * PAGE_SIZE) s2 ->
      extended e s (Datatypes.S n) s2.

(** No tile of [l] fits; the first that does, in front of which is [l1]. *)
Definition no_fit (size : Z) (l : list tile) : Prop := Forall (fun t => ~ fits size t) l.
Definition first_fit (size : Z) (l l1 : list tile) (s : Z) (l2 : list tile) : Prop :=
  l = l1 ++ (s, true) :: l2 /\ size <= s /\ no_fit size l1.
Definition found (size : Z) (l : list tile) (block : Z) : Prop :=
  (block = NULL /\ no_fit size l) \/ (block <> NULL /\ exists l1 s l2, first_fit size l l1 s l2 /\ block = at_ l1).

Lemma used_grow n l : used HEAP_START (grow n l) = used HEAP_START l.
Proof. induction n as [|n IH]; [done|]. cbn [grow]. rewrite used_merged, used_app, IH. cbn. apply app_nil_r. Qed.

Lemma span_grow n l : span (grow n l) = span l + Z.of_nat n * PAGE_SIZE.
Proof. induction n as [|n IH]; [cbn; lia|]. cbn [grow]. rewrite span_merged, span_app, IH. cbn. unfold PAGE_SIZE, HEADER. lia. Qed.

Lemma coalesced_grow n l : coalesced l -> coalesced (grow n l).
Proof. intros Hc. destruct n; [done|]. apply coalesced_merged. Qed.

Lemma grown_end w w' n l : heap_ok w l -> heap_ok w' (grow n l) -> heap_end (the_heap w') = heap_end (the_heap w) + Z.of_nat n * PAGE_SIZE.
Proof. intros Hok Hok'. pose proof (ok_end _ _ Hok). pose proof (ok_end _ _ Hok'). pose proof (span_grow n l). lia. Qed.

Lemma wp_find_first w l size (Q : Z -> heap_world S -> Prop) :
  heap_ok w l -> (forall block, found size l block -> Q block w) -> wp (heap_find_free size) Q w.
Proof.
  intros Hok HQ. apply (wp_find_free w l); [done| |].
  - intros Hno. apply HQ. by left.
  - intros l1 s l2 El Hs Hno. apply HQ. right. split; [|by exists l1, s, l2].
    pose proof (ok_tiles _ _ Hok) as Ht. rewrite El in Ht. apply Forall_app in Ht as [Ht _]. by apply at_not_null.
Qed.

(** The heap grows page by page until a tile fits or the supply refuses. *)
Lemma wp_expand_until w l size block fuel (Q : option Z -> heap_world S -> Prop) :
  heap_ok w l -> (Datatypes.S (pages_left w) < fuel)%nat -> found size l block ->
  (forall w' n (s1 : S), heap_ok w' (grow n l) -> extended (heap_end (the_heap w)) (the_supply w) n s1 ->
     (forall i, (i <= n)%nat -> no_fit size (grow i l)) ->
     supply_alloc_pages (heap_end (the_heap w')) 1 s1 = Ok NULL (the_supply w') -> Q None w') ->
  (forall w' n l1 s l2, heap_ok w' (grow n l) -> extended (heap_end (the_heap w)) (the_supply w) n (the_supply w') ->
     (forall i, (i < n)%nat -> no_fit size (grow i l)) -> first_fit size (grow n l) l1 s l2 -> Q (Some (at_ l1)) w') ->
  wp (expand_until fuel size block) Q w.
Proof.
  intros Hok Hfuel Hblock HQn HQ. unfold expand_until.
  apply (wp_loop (fun b w' => exists n, heap_ok w' (grow n l) /\
      extended (heap_end (the_heap w)) (the_supply w) n (the_supply w') /\
      (forall i, (i < n)%nat -> no_fit size (grow i l)) /\ found size (grow n l) b)
    (fun b w' => if b =? NULL then Datatypes.S (pages_left w') else 0%nat)).
  - intros b w' (n & Hok' & Hext & Hno & [[-> Hnone]|[Hne (l1 & s & l2 & Hfit & ->)]]).
    + cbn [negb Z.eqb NULL]. pose proof (grown_end _ _ _ _ Hok Hok') as Ee.
      assert (forall i, (i <= n)%nat -> no_fit size (grow i l)) as Hno'.
      { intros i Hi. destruct (decide (i = n)) as [->|]; [done|]. apply Hno. lia. }
      apply wp_bind, (wp_heap_expand w' (grow n l)); [done| |].
      * intros w2 Hok2 E2 Hrun. apply wp_ret, (HQn w2 n (the_supply w')); [done..|]. by rewrite E2.
      * intros w2 Hok2 Hlt Hrun. cbn [negb]. apply wp_bind, (wp_find_first _ _ _ _ Hok2). intros b Hb. apply wp_ret. split.
        -- exists (Datatypes.S n). split; [done|]. split; [|split; [|done]].
           ++ apply (extended_S _ _ n (the_supply w')); [done|]. by rewrite <- Ee.
           ++ intros i Hi. apply Hno'. lia.
        -- unfold pages_left. destruct (b =? NULL); lia.
    + rewrite (proj2 (Z.eqb_neq _ _)) by done. apply wp_ret. by apply (HQ w' n l1 s l2).
  - exists 0%nat. split; [done|]. split; [constructor|]. split; [lia|done].
  - destruct (block =? NULL); lia.
Qed.

(** [kmalloc] gave out [n] bytes at [p]. *)
Definition granted w (size p n : Z) (u u' : list (Z * Z)) : Prop :=
  (exists u1 u2, u = u1 ++ u2 /\ u' = u1 ++ (p, n) :: u2) /\
  size <= n /\ p mod HEAP_ALIGNMENT = 0 /\ HEAP_START + HEADER <= p /\ p + n <= heap_end (the_heap w) /\
  forall q m, (q, m) ∈ u -> q + m + HEADER <= p \/ p + n + HEADER <= q.

Lemma granted_intro w l1 s size l2 :
  heap_ok w (l1 ++ taken_tiles s size ++ l2) -> size <= s ->
  granted w size (at_ l1 + HEADER) (taken_size s size)
    (used HEAP_START (l1 ++ (s, true) :: l2)) (used HEAP_START (l1 ++ taken_tiles s size ++ l2)).
Proof.
  intros Hok Hs. pose proof (ok_tiles _ _ Hok) as Ht. pose proof (ok_end _ _ Hok) as He.
  pose proof (used_taken l1 s size l2) as Eu. split; [|split; [|split; [|split; [|split]]]].
  - rewrite Eu, used_split. eauto.
  - unfold taken_size. destruct (s - size <=? HEADER); lia.
  - unfold taken_tiles in Hok. destruct (s - size <=? HEADER); cbn [app] in Hok;
      destruct (tile_at _ _ _ _ _ Hok) as (_ & _ & Ha & _); unfold HEADER, HEAP_ALIGNMENT; lia.
  - unfold at_. apply Forall_app in Ht as [Ht _]. pose proof (span_nonneg _ Ht). lia.
  - assert ((at_ l1 + HEADER, taken_size s size) ∈ used HEAP_START (l1 ++ taken_tiles s size ++ l2)) as Hin
      by (rewrite Eu; set_solver).
    apply used_range in Hin; [|done]. lia.
  - intros q m Hin. rewrite used_split in Hin. cbn [app] in Hin.
    apply elem_of_app in Hin as [Hin|Hin]; apply list_elem_of_lookup in Hin as [i Hi].
    + left. eapply (used_disjoint HEAP_START _ i (length (used HEAP_START l1))); [exact Ht|..].
      * rewrite Eu. by apply lookup_app_l_Some.
      * rewrite Eu, lookup_app_r by lia. by rewrite Nat.sub_diag.
      * by apply lookup_lt_Some in Hi.
    + right. eapply (used_disjoint HEAP_START _ (length (used HEAP_START l1))
        (length (used HEAP_START l1) + 1 + i)); [exact Ht|..|lia].
      * rewrite Eu, lookup_app_r by lia. by rewrite Nat.sub_diag.
      * rewrite Eu, lookup_app_r by lia.
        by replace (length (used HEAP_START l1) + 1 + i - length (used HEAP_START l1))%nat with (Datatypes.S i) by lia.
Qed.

Lemma used_tile_from a l p n :
  (p, n) ∈ used a l -> exists l1 l2, l = l1 ++ (n, false) :: l2 /\ p = a + span l1 + HEADER.
Proof.
  revert a. induction l as [|[s f] l IH]; intros a Hin; cbn in Hin; [by apply not_elem_of_nil in Hin|].
  apply elem_of_app in Hin as [Hin|Hin].
  - destruct f; [by apply not_elem_of_nil in Hin|]. apply list_elem_of_singleton in Hin as [= -> ->].
    exists [], l. split; [done|]. cbn. lia.
  - apply IH in Hin as (l1 & l2 & -> & ->). exists ((s, f) :: l1), l2. split; [done|]. cbn. lia.
Qed.

Lemma used_tile l p n :
  (p, n) ∈ used HEAP_START l -> exists l1 l2, l = l1 ++ (n, false) :: l2 /\ p = at_ l1 + HEADER.
Proof. apply used_tile_from. Qed.

(** Same pages, same extent. *)
Definition same_extent w w' : Prop :=
  the_supply w' = the_supply w /\ heap_end (the_heap w') = heap_end (the_heap w).

Lemma span_middle l1 l2 l3 l2' : span l2' = span l2 -> span (l1 ++ l2' ++ l3) = span (l1 ++ l2 ++ l3).
Proof. rewrite !span_app. lia. Qed.

Lemma span_taken s size : span (taken_tiles s size) = span [(s, true)].
Proof. unfold taken_tiles. destruct (s - size <=? HEADER); cbn; lia. Qed.

Lemma same_end w w' l l' :
  heap_ok w l -> heap_ok w' l' -> span l' = span l -> heap_end (the_heap w') = heap_end (the_heap w).
Proof. intros Hok Hok' E. rewrite (ok_end _ _ Hok), (ok_end _ _ Hok'). lia. Qed.

(** [kfree] of a block in use. *)
Lemma wp_kfree w u p (Q : unit -> heap_world S -> Prop) :
  heap_holds w u -> p ∈ u.*1 ->
  (forall w' u1 n u2, u = u1 ++ (p, n) :: u2 -> heap_holds w' (u1 ++ u2) -> same_extent w w' -> Q tt w') ->
  wp (kfree p) Q w.
Proof.
  intros (l & Hok & Hc & Hu) Hin HQ. apply list_elem_of_fmap in Hin as ([p' n] & E & Hin). cbn in E. subst p'. subst u.
  apply used_tile in Hin as (l1' & l2' & El' & Ep).
  assert (p <> NULL) as Hnz.
  { pose proof (ok_tiles _ _ Hok) as Ht. rewrite El' in Ht. apply Forall_app in Ht as [Ht _].
    pose proof (span_nonneg _ Ht). destruct heap_bounds. unfold at_, NULL, HEADER in *. lia. }
  unfold kfree. rewrite (proj2 (Z.eqb_neq p NULL)) by done.
  apply wp_bind, (wp_find_block w l); [done| |].
  { intros Hno. exfalso. by apply (Hno l1' n false l2' El'). }
  intros l1 s f l2 El Ep2. assert (at_ l1 = at_ l1') as Eat by lia.
  pose proof Hok as Hok1. rewrite El in Hok1. pose proof Hok as Hok2. rewrite El' in Hok2.
  destruct (tile_at _ _ _ _ _ Hok1) as (E1 & _). destruct (tile_at _ _ _ _ _ Hok2) as (E2 & _).
  rewrite Eat, E2 in E1. injection E1 as <- <- _.
  pose proof (ok_tiles _ _ Hok1) as Ht. apply Forall_app in Ht as [Ht _].
  apply wp_bind, wp_assert; [by rewrite (proj2 (Z.eqb_neq _ _)) by by apply at_not_null|].
  apply wp_bind; eapply wp_deref; [exact Hok1|]. apply wp_bind, wp_assert; [done|].
  apply wp_bind; eapply wp_set_free; [exact Hok1|]. intros w1 Hokf Es1.
  apply wp_bind, (wp_heap_merge _ _ _ Hokf). intros w2 Hokm Es2.
  apply (wp_heap_validate _ _ _ Hokm). rewrite El, used_split in HQ. cbn [app] in HQ. rewrite Ep2 in HQ.
  apply (HQ _ _ _ _ eq_refl).
  - eexists. split; [exact Hokm|]. split; [apply coalesced_merged|]. rewrite used_merged, used_split. cbn [app]. by rewrite ?Ep2.
  - split; [congruence|]. apply (same_end _ _ _ _ Hok1 Hokm). rewrite span_merged, !span_app. done.
Qed.
(** C2 [kmalloc] is first fit over a heap that grows no more than it must. A
    request of 0, or too large to align, is answered [NULL] and changes nothing.
    For every other 32-bit size, in a sound heap and with an iteration for
    every page the supply has left, it ends without a failed assertion: the
    heap is extended by [n] pages, taken one by one from the supply at the end
    of the heap, and nothing fitted before the last of them was there, so when
    a free block is large enough [n] is 0. Then either the first free block
    that is large enough is granted, split if the rest can hold a block: it is
    aligned, inside the heap, apart from every block in use, and the only one
    added; or nothing fits, the supply refused the next page, the answer is
    [NULL] and the same blocks are in use. *)
Theorem kmalloc_spec w l u size fuel :
  heap_ok w l -> coalesced l -> used HEAP_START l = u -> is_u32 size -> (Datatypes.S (pages_left w) < fuel)%nat ->
  wp (kmalloc fuel size) (fun r w' =>
    (~ (0 < size <= 2 ^ 32 - HEAP_ALIGNMENT) /\ r = NULL /\ w' = w) \/
    (0 < size <= 2 ^ 32 - HEAP_ALIGNMENT /\ exists n (s1 : S),
       extended (heap_end (the_heap w)) (the_supply w) n s1 /\
       heap_end (the_heap w') = heap_end (the_heap w) + Z.of_nat n * PAGE_SIZE /\
       (forall i, (i < n)%nat -> no_fit (heap_align size) (grow i l)) /\
       ((r = NULL /\ no_fit (heap_align size) (grow n l) /\ heap_ok w' (grow n l) /\ heap_holds w' u /\
           supply_alloc_pages (heap_end (the_heap w')) 1 s1 = Ok NULL (the_supply w')) \/
        (exists l1 s l2 u', first_fit (heap_align size) (grow n l) l1 s l2 /\ r = at_ l1 + HEADER /\ the_supply w' = s1 /\
           heap_ok w' (l1 ++ taken_tiles s (heap_align size) ++ l2) /\ heap_holds w' u' /\
           granted w' size r (taken_size s (heap_align size)) u u')))) w.
Proof.
  intros Hok Hc Hu Hsize Hfuel. unfold kmalloc, is_u32 in *.
  destruct (Z.eqb_spec size 0) as [->|Hnz]; [apply wp_ret; left; split; [lia|done]|].
  destruct (heap_align_spec size ltac:(lia)) as [[Hbig ->]|(Hsm & Ha1 & Ha2 & Ha3 & Ha4)].
  { apply wp_ret. left. split; [unfold HEAP_ALIGNMENT; lia|done]. }
  rewrite (proj2 (Z.eqb_neq (heap_align size) 0)) by lia. set (asize := heap_align size) in *.
  apply wp_bind, (wp_find_first w l); [done|]. intros block Hblock.
  apply wp_bind, (wp_expand_until w l); [done..| |].
  - intros w' n s1 Hok' Hext Hno Hrun. apply wp_ret. right. split; [unfold HEAP_ALIGNMENT; lia|]. exists n, s1.
    split; [done|]. split; [by apply (grown_end _ _ _ l)|]. split; [intros i Hi; apply Hno; lia|]. left.
    split; [done|]. split; [by apply Hno|]. split; [done|]. split; [|done].
    exists (grow n l). split; [done|]. split; [by apply coalesced_grow|]. by rewrite used_grow.
  - intros w' n l1 s l2 Hok' Hext Hno Hfit. pose proof Hfit as (El & Hs & _). pose proof (grown_end _ _ _ _ Hok Hok') as Ee.
    pose proof Hok' as Hok1. rewrite El in Hok1.
    apply wp_bind_assoc, wp_bind, (wp_take_tile w' l1 s asize l2); [done..|].
    intros w2 Hok2 Es. apply wp_bind, (wp_heap_validate _ _ _ Hok2), wp_ret. right. split; [unfold HEAP_ALIGNMENT; lia|].
    exists n, (the_supply w'). split; [done|].
    split; [rewrite <- Ee; apply (same_end w' w2 _ _ Hok1 Hok2), (span_middle l1 [(s, true)]), span_taken|]. split; [done|]. right.
    exists l1, s, l2, (used HEAP_START (l1 ++ taken_tiles s asize ++ l2)). split; [done|].
    rewrite (payload_at _ _ _ _ _ Hok1). split; [done|]. split; [done|]. split; [done|].
    destruct (granted_intro _ _ _ _ _ Hok2 Hs) as (G1 & G2 & G3). split.
    + eexists. split; [exact Hok2|]. split; [|done]. apply coalesced_taken with (s := s). rewrite <- El. by apply coalesced_grow.
    + rewrite <- Hu, <- (used_grow n l), El. split; [exact G1|]. split; [lia|exact G3].
Qed.

(** C21 [kfree] is correct in a sound heap: [NULL] is ignored; a block in use
    is removed from the blocks in use and no other is, with the heap sound
    and its free neighbours merged; any other pointer, a block freed before
    included, stops the kernel with a failed assertion. *)
Theorem kfree_spec w u p :
  heap_holds w u ->
  (p = NULL -> kfree p w = Ok tt w) /\
  (p ∈ u.*1 -> wp (kfree p) (fun _ w' => exists u1 n u2,
     u = u1 ++ (p, n) :: u2 /\ heap_holds w' (u1 ++ u2)) w) /\
  (p <> NULL -> p ∉ u.*1 -> exists e : string, kfree p w = Fault (AssertFailed e)).
Proof.
  intros (l & Hok & Hc & Hu). split; [by intros ->|]. split.
  - intros Hin. apply (wp_kfree w u); [by exists l|done|]. intros w' u1 n u2 E Hh _. by exists u1, n, u2.
  - intros Hnz Hnot. assert (wp (heap_find_block p) (fun r w' => w' = w /\ (r = NULL \/
      exists l1 s l2, l = l1 ++ (s, true) :: l2 /\ r = at_ l1)) w) as Hfind.
    { apply (wp_find_block w l); [done|by intros _; split; [|left]|].
      intros l1 s f l2 El Ep. split; [done|]. right. destruct f; [by exists l1, s, l2|]. exfalso.
      apply Hnot. apply list_elem_of_fmap. exists (p, s). split; [done|]. rewrite <- Hu, El, used_split.
      rewrite <- Ep. set_solver. }
    apply wp_inv in Hfind as (r & w' & Er & -> & [->|(l1 & s & l2 & El & ->)]);
      unfold kfree; rewrite (proj2 (Z.eqb_neq p NULL)) by done; unfold bind at 1; rewrite Er.
    + exists "block != NULL"%string. done.
    + exists "!block->free"%string. rewrite El in Hok.
      destruct (tile_at _ _ _ _ _ Hok) as (E & Ha & _ & Hge & _). destruct heap_bounds as [B _].
      rewrite (proj2 (Z.eqb_neq (at_ l1) NULL)) by (unfold NULL; lia). unfold bind at 1, ASSERT at 1.
      cbn [negb]. unfold ret at 1, bind at 1, deref.
      rewrite (proj2 (Z.eqb_neq (at_ l1) NULL)) by (unfold NULL; lia). rewrite Ha. cbn [negb]. by rewrite E.
Qed.

(** [heap_init] establishes the invariant: with a page from the supply the
    heap is sound and empty; without one nothing changes but the supply. *)
Theorem heap_init_spec w :
  supply_ok (the_supply w) ->
  HEAP_START + Z.of_nat (pages_left w) * PAGE_SIZE <= KERNEL_HEAP_END + 1 ->
  wp heap_init (fun _ w' => heap_holds w' [] \/ the_heap w' = the_heap w) w.
Proof.
  intros Hs Hroom. destruct heap_bounds as [B1 B2]. unfold heap_init. apply wp_bind, wp_zoom.
  change HEAP_PAGES with 1. change KERNEL_HEAP_START with HEAP_START.
  apply supply_alloc_spec; [done|by vm_compute|unfold HEAP_START in *; lia|..].
  { unfold pages_left, PAGE_SIZE, HEAP_START in *. cbn [view supply_l]. lia. }
  { intros s' _ _ _. apply wp_ret. by right. }
  intros s' Hs' Hlt Hacc Hnew. rewrite (proj2 (Z.eqb_neq _ NULL)) by (unfold NULL; lia).
  do 3 apply wp_bind, wp_zoom, wp_modify.
  apply wp_bind, wp_put_block; [done|apply Hnew; unfold PAGE_SIZE; lia|].
  set (w' := with_headers _ _). assert (heap_ok w' [page_tile]) as Hok.
  { split; try done; cbn.
    - by rewrite lookup_insert_eq.
    - constructor; [|done]. by vm_compute.
    - unfold HEAP_START in *. unfold pages_left, PAGE_SIZE in *. cbn [view supply_l] in *. lia. }
  apply (wp_heap_validate _ _ _ Hok). left. exists [page_tile]. split; [exact Hok|]. done.
Qed.
End Spec.
