(* ===== verification/HeapRoom.v ===== *)
(** * The heap with room to spare

    What [kmalloc] does when a free tile is large enough: no page is asked for,
    and a tile with room for several blocks keeps room for the others. The components that keep small records in the heap build on this. *)

From S2P Require Import Prelude Layout Heap HeapSpec.

Section Room.
Context {S : Type} `{PageSupplyLaws S}.
Implicit Types (w : heap_world S) (l : list tile) (u : list (Z * Z)) (size s p n : Z).

(** Taking [size] from a tile leaves room for [s] where there was room for
    both and the header between them. *)
Lemma room_after l1 l2 t size s :
  0 < s -> 0 <= size -> (exists y, y ∈ l1 ++ (t, true) :: l2 /\ fits (size + HEADER + s) y) ->
  exists y, y ∈ l1 ++ taken_tiles t size ++ l2 /\ fits s y.
Proof.
  intros Hs Hsz (y & Hin & Hf & Hle). apply elem_of_app in Hin as [Hin|Hin].
  { exists y. split; [set_solver|]. split; [done|]. unfold HEADER in *. lia. }
  apply elem_of_cons in Hin as [->|Hin].
  2:{ exists y. split; [set_solver|]. split; [done|]. unfold HEADER in *. lia. }
  cbn [fst snd] in Hle. exists (t - size - HEADER, true). split; [|split; [done|cbn; lia]].
  apply elem_of_app. right. apply elem_of_app. left. unfold taken_tiles.
  destruct (Z.leb_spec (t - size) HEADER); [unfold HEADER in *; lia|]. set_solver.
Qed.

(** [kmalloc] when a tile fits. *)
Lemma wp_kmalloc_room w u size fuel (Q : Z -> heap_world S -> Prop) :
  heap_holds w u -> 0 < size <= 2 ^ 32 - HEAP_ALIGNMENT -> has_room w (heap_align size) -> (1 < fuel)%nat ->
  (forall p n w' u', heap_holds w' u' -> granted w' size p n u u' -> same_extent w w' ->
     (forall s, 0 < s -> has_room w (heap_align size + HEADER + s) -> has_room w' s) -> Q p w') ->
  wp (kmalloc fuel size) Q w.
Proof.
  intros (l & Hok & Hc & Hu) Hsize (l0 & Hok0 & Hfit) Hfuel HQ. unfold kmalloc, HEAP_ALIGNMENT in *.
  rewrite <- (heap_ok_unique _ _ _ Hok Hok0) in Hfit. clear l0 Hok0.
  rewrite (proj2 (Z.eqb_neq size 0)) by lia.
  destruct (heap_align_spec size ltac:(lia)) as [[Hbig _]|(Hsm & Ha1 & Ha2 & Ha3 & Ha4)]; [lia|].
  rewrite (proj2 (Z.eqb_neq (heap_align size) 0)) by lia. set (asize := heap_align size) in *.
  apply wp_bind, (wp_find_free w l); [done| |].
  { intros Hno. rewrite Forall_forall in Hno. destruct Hfit as (t & Hin & Hf). by destruct (Hno t). }
  intros l1 s l2 El Hs _. pose proof Hok as Hok1. rewrite El in Hok1.
  destruct (tile_at _ _ _ _ _ Hok1) as (_ & _ & _ & Hge & _). destruct heap_bounds as [B _].
  apply wp_bind. destruct fuel as [|fuel]; [lia|]. unfold expand_until. cbn [loop].
  rewrite (proj2 (Z.eqb_neq (at_ l1) NULL)) by (unfold NULL; lia). cbn [negb].
  apply wp_bind, wp_ret, wp_ret.
  apply wp_bind_assoc, wp_bind, (wp_take_tile w l1 s asize l2); [done..|].
  intros w2 Hok2 Es. apply wp_bind, (wp_heap_validate _ _ _ Hok2), wp_ret.
  rewrite (payload_at _ _ _ _ _ Hok1).
  destruct (granted_intro _ _ _ _ _ Hok2 Hs) as (G1 & G2 & G3).
  apply (HQ _ (taken_size s asize) _ (used HEAP_START (l1 ++ taken_tiles s asize ++ l2))).
  - eexists. split; [exact Hok2|]. split; [apply coalesced_taken; congruence|done].
  - rewrite <- Hu, El. split; [exact G1|]. split; [lia|exact G3].
  - split; [exact Es|]. apply (same_end _ _ _ _ Hok1 Hok2).
    change ((s, true) :: l2) with ([(s, true)] ++ l2). apply span_middle, span_taken.
  - intros x Hx (l0 & Hok0 & Hf). rewrite <- (heap_ok_unique _ _ _ Hok Hok0), El in Hf.
    exists (l1 ++ taken_tiles s asize ++ l2). split; [exact Hok2|]. apply room_after; [done|lia|done].
Qed.

End Room.
