(* ===== verification/HeapSupply.v ===== *)
(** * The virtual memory manager supplies the heap

    The instance of [PageSupply] that [heap.c] runs on, [vmm_alloc_pages] and
    [vmm_free_page] over the machine, with a proof of its laws; and the heap's
    theorems at a concrete supply. *)

From S2P Require Import Prelude Layout Bitmap Machine Pmm CString Ram Paging PagingSpec Vam Vmm Heap HeapSpec.

#[local] Opaque demo_machine.

(** The processor reads and writes the heap through the kernel directory. *)
Definition kernel_accessible (m : machine) (a : Z) : bool :=
  bool_decide (is_Some (walk (m_ram m) (VIRT_TO_PHYS (kernel_directory m)) a)).

#[export] Instance vmm_supply : PageSupply machine := {
  supply_alloc_pages := vmm_alloc_pages;
  supply_free_page := vmm_free_page;
  accessible := kernel_accessible;
}.

(** A sound machine whose heap region has its page tables. Without a table
    and with one page left the manager reports a page that is not mapped
    ([Vmm.vmm_alloc_reports_unmapped_page]), so this cannot be dropped. *)
Definition heap_tables (m : machine) (kd : Z) : Prop :=
  forall i, pde_index KERNEL_HEAP_START <= i <= pde_index KERNEL_HEAP_END ->
    present (pde m kd i) = true /\ private m kd i.

Definition heap_supply_ok (m : machine) : Prop :=
  exists kd, ready m kd /\ fail_allocations (pmm_at m) = 0 /\ heap_tables m kd.

Definition pages_free (m : machine) : nat := Z.to_nat (free_pages (pmm_at m)).

Section Supply.
Implicit Types (m : machine) (kd a f : Z).

Lemma heap_pde a : in_heap a ->
  is_u32 a /\ pde_index KERNEL_HEAP_START <= pde_index a <= pde_index KERNEL_HEAP_END /\ 0 <= pde_index a < 1024.
Proof.
  destruct heap_bounds as [E1 E2]. unfold HEAP_START, in_heap, is_u32 in *. rewrite !pde_index_div, E1, E2. lia.
Qed.

Lemma ready_directory m kd : ready m kd -> VIRT_TO_PHYS (kernel_directory m) = kd.
Proof.
  intros Hr. rewrite (ready_kd _ _ Hr).
  destruct (good_frame_virt kd (space_dir _ _ (ready_space _ _ Hr))) as (Ev & Ep & _). by rewrite Ev.
Qed.

Lemma accessible_walk m kd a :
  ready m kd -> kernel_accessible m a = true <-> is_Some (walk (m_ram m) kd a).
Proof. intros Hr. unfold kernel_accessible. by rewrite bool_decide_eq_true, (ready_directory m kd). Qed.

(** One page more for the heap. *)
Record heap_page (kd va : Z) (m m' : machine) : Prop := {
  hp_ready : ready m' kd;
  hp_fail : fail_allocations (pmm_at m') = fail_allocations (pmm_at m);
  hp_count : free_pages (pmm_at m') = free_pages (pmm_at m) - 1;
  hp_mapped : is_Some (walk (m_ram m') kd va);
  hp_tables : forall j, 0 <= j < 1024 -> pde m' kd j = pde m kd j;
  hp_private : forall j, 0 <= j < 1024 -> private m kd j -> private m' kd j;
  hp_walk : forall b, is_u32 b -> b / PAGE_SIZE <> va / PAGE_SIZE -> private m kd (pde_index b) ->
    walk (m_ram m') kd b = walk (m_ram m) kd b;
}.

Lemma wp_add_heap_page {A} m kd va (k : M machine A) (a : A) (Q : A -> machine -> Prop) :
  ready m kd -> is_u32 va ->
  free_pages (pmm_at m) = 0 \/ present (pde m kd (pde_index va)) = true /\ private m kd (pde_index va) ->
  fail_allocations (pmm_at m) = 0 ->
  (forall p', alloc_failed (pmm_at m) p' -> wp k Q (with_pmm p' m)) ->
  (forall m', heap_page kd va m m' -> Q a m') ->
  wp (let* phys := zoom pmm_world_l pmm_alloc_page in
      if phys =? NULL then k
      else paging_map (PHYS_TO_VIRT kd) va phys (Z.lor PAGE_PRESENT PAGE_WRITABLE) ;;; ret a) Q m.
Proof.
  intros [Hmem Hsp Hkd] Hva Htab Hfail HQf HQ. apply wp_bind, wp_alloc_frame; [done|done|].
  intros f p' Hg Hnz Hff _ Htaken. rewrite (proj2 (Z.eqb_neq f NULL)) by done. set (m1 := with_pmm p' m).
  assert (0 < free_pages (pmm_at m)) as Hpos.
  { pose proof (taken_count _ _ _ Htaken) as Hc. rewrite (inv_count _ (taken_inv _ _ _ Htaken)) in Hc.
    pose proof (count_bound (page_free p') (Z.to_nat (total_pages p'))). unfold pmm_at. lia. }
  destruct Htab as [Hz|[Htab Hpriv]]; [lia|].
  assert (space m1 kd) as Hsp1 by by eapply taken_space.
  assert (mem_ok m1) as Hmem1 by by eapply taken_mem_ok.
  destruct (good_frame_virt f Hg) as (_ & _ & _ & Hu).
  apply wp_bind, wp_paging_map; [done..| |].
  - intros m2 Hmap. apply wp_ret, HQ.
    destruct Hmap as (Hs2 & Hw2 & _ & _ & _ & _ & _ & [(_ & Ep & Et)|(Hno & _)]).
    2:{ change (pde m1 kd) with (pde m kd) in Hno. congruence. }
    split.
    + split; [apply Hs2|apply Hs2|]. by rewrite (step_kd _ _ _ _ Hs2).
    + rewrite Ep. apply (taken_fail _ _ _ Htaken).
    + rewrite Ep. apply (taken_count _ _ _ Htaken).
    + by rewrite Hw2.
    + intros j Hj. destruct (decide (j = pde_index va)) as [->|Hji]; [done|]. by apply (step_other _ _ _ _ Hs2).
    + apply (step_private _ _ _ _ Hs2).
    + apply (step_walk _ _ _ _ Hs2).
  - intros m2 [Hno _]. change (pde m1 kd) with (pde m kd) in Hno. congruence.
Qed.

Lemma vmm_supply_spec m a (Q : Z -> machine -> Prop) :
  heap_supply_ok m -> a mod PAGE_SIZE = 0 -> KERNEL_HEAP_START <= a <= KERNEL_HEAP_END + 1 ->
  ((0 < pages_free m)%nat -> a + PAGE_SIZE <= KERNEL_HEAP_END + 1) ->
  (forall m', heap_supply_ok m' -> (pages_free m' <= pages_free m)%nat ->
     (forall b, in_heap b -> kernel_accessible m b = true -> kernel_accessible m' b = true) -> Q NULL m') ->
  (forall m', heap_supply_ok m' -> (pages_free m' < pages_free m)%nat ->
     (forall b, in_heap b -> kernel_accessible m b = true -> kernel_accessible m' b = true) ->
     (forall b, a <= b < a + PAGE_SIZE -> kernel_accessible m' b = true) -> Q a m') ->
  wp (vmm_alloc_pages a 1) Q m.
Proof.
  intros (kd & Hr & Hfail & Htabs) Ha Hrange Hroom HQf HQ.
  assert (heap_supply_ok m) as Hok by by exists kd.
  destruct heap_bounds as [B1 B2]. unfold HEAP_START in B1. rewrite B1, B2 in Hrange.
  assert (is_u32 a) as Hua by (unfold is_u32; lia).
  unfold vmm_alloc_pages. rewrite (proj2 (Z.eqb_neq 1 0)) by done.
  apply wp_bind. unfold vmm_map_pages. apply wp_bind, wp_gets. rewrite (ready_kd _ _ Hr).
  unfold any_mapped. change (Z.to_nat 1) with 1%nat. cbn [for_range].
  assert (page_at a 0 = a) as Eat.
  { unfold page_at. change (u32 (0 * PAGE_SIZE)) with 0. by rewrite Z.add_0_r, u32_id. }
  rewrite Eat. do 4 apply wp_bind. apply wp_paging_translate; [apply Hr|done|].
  apply wp_ret. destruct (negb (_ =? 0)).
  { do 4 apply wp_ret. by apply HQf. }
  do 3 apply wp_ret. apply wp_bind, wp_bind.
  apply (wp_add_heap_page m kd).
  - done.
  - done.
  - destruct (decide (free_pages (pmm_at m) = 0)) as [|Hne]; [by left|]. right.
    unfold pages_free in Hroom. assert (0 <= free_pages (pmm_at m)) as Hnn.
    { destruct (ready_mem _ _ Hr) as [Hinv _]. unfold pmm_at. rewrite (inv_count _ Hinv). apply count_bound. }
    apply Htabs, heap_pde. unfold in_heap, PAGE_SIZE in *. lia.
  - done.
  - intros p' (_ & _ & _ & _ & _ & Hsame). rewrite (Hsame Hfail).
    assert (with_pmm (pmm_at m) m = m) as -> by by destruct m as [[]].
    apply wp_bind, wp_gets. do 5 apply wp_ret. by apply HQf.
  - intros m' Hp. do 4 apply wp_ret. apply HQ.
    + exists kd. split; [apply Hp|]. split; [by rewrite (hp_fail _ _ _ _ Hp)|].
      intros i Hi. destruct (Htabs i Hi) as [H1 H2]. 
      assert (0 <= i < 1024) as Hi2.
      { rewrite !pde_index_div, B1, B2 in Hi. lia. }
      rewrite (hp_tables _ _ _ _ Hp) by done. split; [done|]. by apply (hp_private _ _ _ _ Hp).
    + unfold pages_free. pose proof (hp_count _ _ _ _ Hp) as Hc.
      destruct (ready_mem _ _ (hp_ready _ _ _ _ Hp)) as [Hinv _].
      pose proof (count_bound (page_free (pmm_at m')) (Z.to_nat (total_pages (pmm_at m')))) as Hb.
      pose proof (inv_count _ Hinv) as Hn. change (pmm_of (m_pmm m')) with (pmm_at m') in Hn. lia.
    + intros b Hb. rewrite (accessible_walk m kd b Hr), (accessible_walk m' kd b (hp_ready _ _ _ _ Hp)).
      destruct (heap_pde b Hb) as (Hub & Hib & _).
      destruct (decide (b / PAGE_SIZE = a / PAGE_SIZE)) as [E|E].
      * intros _. rewrite (walk_page _ _ _ a) by done. apply Hp.
      * rewrite (hp_walk _ _ _ _ Hp); [done|done|done|by apply Htabs].
    + intros b Hb. apply (accessible_walk m' kd b (hp_ready _ _ _ _ Hp)).
      rewrite (walk_page _ _ _ a) by (unfold PAGE_SIZE in *; lia). apply Hp.
Qed.

#[export] Instance vmm_supply_laws : PageSupplyLaws machine := {
  supply_ok := heap_supply_ok;
  supply_left := pages_free;
  supply_alloc_spec := vmm_supply_spec;
}.
End Supply.

(** ** The heap on a concrete supply *)

(** A supply of [n] pages behind addresses that are all accessible. *)
#[local] Instance counting_supply : PageSupply nat := {
  supply_alloc_pages a _ := fun n => match n with O => Ok NULL O | S n' => Ok a n' end;
  supply_free_page _ := modify S;
  accessible _ _ := true;
}.

#[local] Instance counting_supply_laws : PageSupplyLaws nat.
Proof.
  refine {| supply_ok := fun _ => True; supply_left := fun n => n |}.
  intros [|n] a Q _ _ _ _ HQf HQ; cbn.
  - by apply HQf.
  - apply HQ; auto.
Defined.

(** A heap of one page with a block of 64 bytes in use, and 3 pages left. *)
Definition demo_heap : heap_world nat :=
  HeapWorld (Heap 0xC1000000 0xC1001000 0
    (<[0xC1000000 := Block 64 false 0xC1000050]> {[0xC1000050 := Block 4000 true NULL]})) 3%nat.

Lemma demo_heap_ok : heap_ok demo_heap [(64, false); (4000, true)].
Proof.
  split; try done.
  - by repeat constructor.
Qed.

Lemma demo_heap_holds : heap_holds demo_heap [(0xC1000010, 64)].
Proof.
  exists [(64, false); (4000, true)]. split; [exact demo_heap_ok|]. split; [|by vm_compute].
  cbn. split; [intros [H _]; discriminate H|done].
Qed.

(** What the counting supply grants is what it loses. *)
Lemma counting_extended e s n s1 : 0 < e -> extended e s n s1 -> (n + s1 = s)%nat.
Proof.
  intros He. induction 1 as [|n [|s1] s2 _ IH E]; [lia| |].
  - injection E as E _. unfold NULL, PAGE_SIZE in E. lia.
  - injection E as ->. lia.
Qed.

(** 100 bytes are granted behind the first block without a new page; for
    20000 the three pages that are left do not do, and are taken in vain. *)
Lemma kmalloc_spec_witness :
  wp (kmalloc 10 100) (fun r w' => r = 0xC1000060 /\ heap_end (the_heap w') = 0xC1001000) demo_heap /\
  wp (kmalloc 10 20000) (fun r w' => r = NULL /\ heap_end (the_heap w') = 0xC1004000 /\ heap_holds w' [(0xC1000010, 64)]) demo_heap.
Proof.
  split.
  - eapply wp_mono.
    { apply (kmalloc_spec demo_heap [(64, false); (4000, true)] [(0xC1000010, 64)] 100 10); [exact demo_heap_ok|by split; [intros [[=] _]|]|by vm_compute|by split|cbn; lia]. }
    intros r w' [(Hno & _)|(_ & n & s1 & _ & He & Hgrow & Hr)]; [destruct Hno; by vm_compute|].
    assert (n = 0%nat) as ->.
    { destruct n as [|n]; [reflexivity|]. specialize (Hgrow 0%nat ltac:(lia)). apply Forall_cons in Hgrow as [_ [Hgrow _]%Forall_cons].
      destruct Hgrow. by vm_compute. }
    split; [|exact He]. destruct Hr as [(_ & Hno & _)|(l1 & s & l2 & u' & (El & Hs & Hno) & -> & _)].
    + apply Forall_cons in Hno as [_ [Hno _]%Forall_cons]. destruct Hno. by vm_compute.
    + cbn in El. destruct l1 as [|t [|t' l1]]; [discriminate El| |].
      * by injection El as <- <- _.
      * injection El as _ <- El. destruct l1; discriminate El.
  - eapply wp_mono.
    { apply (kmalloc_spec demo_heap [(64, false); (4000, true)] [(0xC1000010, 64)] 20000 10); [exact demo_heap_ok|by split; [intros [[=] _]|]|by vm_compute|by split|cbn; lia]. }
    intros r w' [(Hno & _)|(_ & n & s1 & Hext & He & _ & Hr)]; [destruct Hno; by vm_compute|].
    apply counting_extended in Hext; [|done]. cbn [the_supply demo_heap] in Hext. destruct Hr as [(-> & _ & _ & Hh & Hrun)|(l1 & s & l2 & u' & (El & Hs & _) & _)].
    + split; [reflexivity|]. split; [|exact Hh]. rewrite He. destruct s1 as [|s1]; [by replace n with 3%nat by lia|]. exfalso. rewrite He in Hrun. injection Hrun as Hrun _.
      cbn in Hrun. unfold NULL, PAGE_SIZE in Hrun. lia.
    + exfalso. assert ((s, true) ∈ grow n [(64, false); (4000, true)]) as Hin by (rewrite El; set_solver).
      assert (Forall (fun t => t.1 <= 16288) (grow n [(64, false); (4000, true)])) as Hall.
      { destruct n as [|[|[|[|n]]]]; [..|lia]; by repeat constructor. }
      rewrite Forall_forall in Hall. specialize (Hall _ Hin). cbn in Hall. change (heap_align 20000) with 20000 in Hs. lia.
Defined.

Lemma kfree_spec_witness :
  wp (kfree 0xC1000010) (fun _ w' => exists u1 n u2,
    [(0xC1000010, 64)] = u1 ++ (0xC1000010, n) :: u2 /\ heap_holds w' (u1 ++ u2)) demo_heap.
Proof.
  apply (kfree_spec demo_heap [(0xC1000010, 64)] 0xC1000010 demo_heap_holds). left.
Defined.

(** ** The heap on the machine *)

(** Mapping one page in the reach of every table of the heap region puts the
    tables there; the addresses mapped are those [i * 2^22 + 0x3FF000]. *)
Definition map_heap_tables : M machine unit :=
  for_each 772 60 (fun i => paging_map (PHYS_TO_VIRT demo_kd) (i * 2 ^ 22 + 0x3FF000) 0x300000 3).

(** The tables of the entries from 772 up to [i] are there, none after. *)
Record tabled (m0 : machine) (i : Z) (m : machine) : Prop := {
  td_ready : ready m demo_kd;
  td_fail : fail_allocations (pmm_at m) = 0;
  td_left : free_pages (pmm_at m0) - (i - 772) <= free_pages (pmm_at m) <= free_pages (pmm_at m0);
  td_done : forall j, 772 <= j < i -> present (pde m demo_kd j) = true /\ private m demo_kd j;
  td_rest : forall j, i <= j < 832 -> present (pde m demo_kd j) = false;
}.

Lemma tabled_step m0 i m (Q : unit -> machine -> Prop) :
  772 <= i < 832 -> 60 < free_pages (pmm_at m0) -> tabled m0 i m ->
  (forall m', tabled m0 (i + 1) m' -> Q tt m') ->
  wp (paging_map (PHYS_TO_VIRT demo_kd) (i * 2 ^ 22 + 0x3FF000) 0x300000 3) Q m.
Proof.
  intros Hi Hfree [[Hmem Hsp Hkd] Hfail Hleft Hdone Hrest] HQ.
  assert (pde_index (i * 2 ^ 22 + 0x3FF000) = i) as Ei by (rewrite pde_index_div; lia).
  apply wp_paging_map; [done|done|rewrite Ei|unfold is_u32; lia|by vm_compute|by vm_compute|..].
  - intros Hp. by rewrite Hrest in Hp by lia.
  - intros m' Hmap. apply HQ. pose proof (drawn_mapped _ _ _ _ _ Hmap) as Hd.
    destruct Hmap as (Hs & _ & Hp & Hpriv & _). rewrite Ei in *. split.
    + split; [apply Hs|apply Hs|]. by rewrite (step_kd _ _ _ _ Hs).
    + by rewrite (drawn_fail _ _ _ Hd).
    + pose proof (drawn_count _ _ _ Hd). lia.
    + intros j Hj. destruct (decide (j = i)) as [->|]; [done|]. destruct (Hdone j ltac:(lia)) as [H1 H2].
      rewrite (step_other _ _ _ _ Hs) by lia. split; [done|]. apply (step_private _ _ _ _ Hs); [lia|done].
    + intros j Hj. rewrite (step_other _ _ _ _ Hs) by lia. apply Hrest. lia.
  - intros m' [_ (p' & Hf & _)]. exfalso. eapply no_failure; [apply Hmem|exact Hfail| |exact Hf].
    unfold pmm_at in *. lia.
Qed.

Lemma demo_absent_tables : forallb (fun i => negb (present (pde demo_machine demo_kd i))) (seqZ 772 60) = true.
Proof. exact (proj2 (proj2 (proj2 (proj2 (proj2 demo_facts))))). Qed.

Lemma demo_absent_table j : 772 <= j < 832 -> present (pde demo_machine demo_kd j) = false.
Proof.
  pose proof demo_absent_tables as H. rewrite forallb_forall in H. intros Hj.
  apply negb_true_iff, H, list_elem_of_In, elem_of_seqZ. clear H. lia.
Qed.

Lemma demo_tabled : tabled demo_machine 772 demo_machine.
Proof.
  destruct demo_pool as [Hf _]. split; [exact demo_ready|exact Hf| | |exact demo_absent_table].
  - clear. lia.
  - intros j Hj. clear - Hj. lia.
Qed.

Lemma map_heap_tables_ok :
  wp map_heap_tables (fun _ m => heap_supply_ok m /\ (pages_free m <= 3541)%nat) demo_machine.
Proof.
  destruct demo_pool as [_ Hp].
  apply (wp_for_each (fun i m => 772 <= i /\ tabled demo_machine i m)).
  - split; [lia|exact demo_tabled].
  - intros i m Hi [_ Ht]. apply (tabled_step demo_machine); [lia|lia|done|]. intros m' Ht'. split; [lia|done].
  - intros m [_ Ht]. split; [|unfold pages_free; pose proof (td_left _ _ _ Ht); lia].
    exists demo_kd. split; [apply Ht|]. split; [apply Ht|]. intros i Hi. apply (td_done _ _ _ Ht).
    destruct heap_bounds as [B1 B2]. unfold HEAP_START in B1. clear Hp Ht. rewrite !pde_index_div, B1, B2 in Hi. clear B1 B2. lia.
Qed.

Definition boot_heap : heap_world machine := HeapWorld (Heap 0 0 0 ∅) (final map_heap_tables demo_machine).

Lemma boot_heap_ok : supply_ok (the_supply boot_heap) /\ (pages_left boot_heap <= 3541)%nat.
Proof. pose proof map_heap_tables_ok as H. apply wp_final in H as [_ H]. exact H. Qed.

Lemma boot_heap_room :
  HEAP_START + Z.of_nat (pages_left boot_heap) * PAGE_SIZE <= KERNEL_HEAP_END + 1.
Proof.
  destruct boot_heap_ok as [_ H]. destruct heap_bounds as [-> ->]. unfold PAGE_SIZE. revert H.
  generalize (pages_left boot_heap). lia.
Qed.

Lemma heap_init_spec_witness :
  wp heap_init (fun _ w' => heap_holds w' [] \/ the_heap w' = the_heap boot_heap) boot_heap.
Proof. exact (heap_init_spec boot_heap (proj1 boot_heap_ok) boot_heap_room). Defined.
