(* ===== verification/TaskSpace.v ===== *)
(** * The address space of a process beside the kernel's

    The kernel changes the directory of a process while it runs on others. The
    lemmas here show that mapping and unmapping user pages of one directory
    write only the directory's page and one page table, so the kernel's own
    translations, every page in use and the supply of the heap stay as they
    are. *)

From S2P Require Import Prelude Layout Bitmap Machine Pmm CString Ram Paging PagingSpec Vam Vmm Heap HeapSpec HeapSupply.

(** ** Which bytes the operations write *)

(** The page at [f] reads as before. *)
Definition page_kept (r r' : ram) (f : Z) : Prop :=
  forall i, 0 <= i < PAGE_SIZE -> byte r' (f + i) = byte r (f + i).

Lemma heap_world_eta (w : heap_world machine) : HeapWorld (the_heap w) (the_supply w) = w.
Proof. by destruct w. Qed.

Lemma with_pmm_same (m : machine) : with_pmm (pmm_at m) m = m.
Proof. by destruct m as [[]]. Qed.

Section Bytes.
Implicit Types (r : ram) (m : machine) (d f g t i k v virt : Z).

Lemma kept_refl r f : page_kept r r f.
Proof. done. Qed.

Lemma kept_trans r r' r'' f : page_kept r r' f -> page_kept r' r'' f -> page_kept r r'' f.
Proof. intros H1 H2 i Hi. by rewrite H2, H1. Qed.

Lemma kept_entry r r' f k : page_kept r r' f -> 0 <= k < 1024 -> entry r' f k = entry r f k.
Proof.
  intros Hk Hi. apply word_ext. intros q Hq. replace q with (f + (q - f)) by lia. apply Hk. unfold PAGE_SIZE. lia.
Qed.

Lemma kept_entry_set r f g k v :
  f mod PAGE_SIZE = 0 -> g mod PAGE_SIZE = 0 -> f <> g -> 0 <= k < 1024 -> page_kept r (ram_entry_set f k v r) g.
Proof. intros Hf Hg Hne Hk i Hi. apply byte_set_word_ne. unfold PAGE_SIZE in *. lia. Qed.

Lemma kept_cleared r r' f g :
  f mod PAGE_SIZE = 0 -> g mod PAGE_SIZE = 0 -> f <> g -> cleared f r r' -> page_kept r r' g.
Proof. intros Hf Hg Hne [_ Hk] i Hi. apply Hk. unfold PAGE_SIZE in *. lia. Qed.

(** Every page but those of [d] and [t] is kept. *)
Definition only_pages d t r r' : Prop :=
  forall f, f mod PAGE_SIZE = 0 -> f <> d -> f <> t -> page_kept r r' f.

Lemma wp_map_bytes m d virt phys flags :
  mem_ok m -> space m d -> private m d (pde_index virt) -> is_u32 virt -> is_u32 phys -> map_flags flags ->
  wp (paging_map (PHYS_TO_VIRT d) virt phys flags) (fun _ m' =>
    only_pages d (table_of m' d (pde_index virt)) (m_ram m) (m_ram m')) m.
Proof.
  intros Hmem Hsp Hpriv Hv Hp Hfl. pose proof (space_dir _ _ Hsp) as Hd.
  pose proof (pde_index_range virt Hv) as Hi. pose proof (pte_index_range virt) as Hti.
  pose proof (good_frame_aligned _ Hd) as Had.
  unfold paging_map. apply wp_bind, wp_paging_get_table; [done..|].
  destruct (present (pde m d (pde_index virt))) eqn:Epres.
  - destruct (space_tables _ _ Hsp _ Hi Epres) as [Hg _].
    destruct (good_frame_virt _ Hg) as (_ & _ & Hnn & _).
    rewrite (proj2 (Z.eqb_neq _ _)) by done. apply wp_bind, wp_ret.
    rewrite (proj2 (Z.eqb_neq _ _)) by done.
    apply wp_bind, wp_set_entry; [done..|]. apply wp_flush. intros f Hf Hfd Hft.
    pose proof (good_frame_aligned _ Hg) as Hag.
    destruct (step_set_pte m d virt (leaf phys flags)) as (_ & Hpde & _); [done..|by apply leaf_ok|done|done|].
    apply kept_entry_set; [done..| |done]. intros <-. apply Hft. exact (eq_sym (f_equal frame_of Hpde)).
  - unfold paging_alloc_table. cbn [Z.eqb NULL].
    apply wp_bind, wp_bind, wp_bind, wp_alloc_frame; [done| |].
    + intros p' Hf. do 3 apply wp_ret. intros f _ _ _. apply kept_refl.
    + intros t p' Hg Hnz Hfree _ Htaken. destruct (good_frame_virt t Hg) as (Ev & Ep & Hnn & Hu).
      pose proof (good_frame_aligned _ Hg) as Hag.
      rewrite (proj2 (Z.eqb_neq t 0)) by done.
      apply wp_bind, wp_clear_page; [done|]. intros r Hr. apply wp_ret.
      rewrite (proj2 (Z.eqb_neq _ _)) by done.
      assert (VIRT_TO_PHYS (PHYS_TO_VIRT t) = t) as -> by by rewrite Ev.
      destruct (table_entry_ok t flags Hg) as (He1 & He2 & He3).
      apply wp_bind, wp_set_entry; [done..|]. apply wp_ret.
      rewrite (proj2 (Z.eqb_neq _ _)) by done.
      destruct (step_new_table m d virt t p' r _ Hmem Hsp Hv Epres Hg Hfree Htaken Hr He1 He2 He3)
        as (_ & Hpde & _).
      apply wp_bind, wp_set_entry; [done..|]. apply wp_flush. intros f Hf Hfd Hft.
      assert (t <> d) as Htd by (intros ->; by rewrite (space_dir_used _ _ Hsp) in Hfree).
      assert (f <> t) as Hne.
      { intros ->. apply Hft. set (m1 := with_ram _ _) in Hpde. unfold table_of.
        change (t = frame_of (entry (ram_entry_set t (pte_index virt) (leaf phys flags) (m_ram m1)) d (pde_index virt))).
        rewrite entry_set_ne by auto. change (entry (m_ram m1) d (pde_index virt)) with (pde m1 d (pde_index virt)).
        by rewrite Hpde. }
      assert (page_kept (m_ram m) r f) as K1 by (apply (kept_cleared _ _ t); [done|done|by apply not_eq_sym|done]).
      set (e := Z.lor (Z.lor t PAGE_PRESENT) _) in *. set (r1 := ram_entry_set d (pde_index virt) e r).
      change (page_kept (m_ram m) (ram_entry_set t (pte_index virt) (leaf phys flags) r1) f).
      apply (kept_trans _ r1); [apply (kept_trans _ r); [exact K1|]|].
      * apply kept_entry_set; [done|done|by apply not_eq_sym|done].
      * apply kept_entry_set; [done|done|by apply not_eq_sym|done].
Qed.

Lemma wp_unmap_bytes m d virt :
  mem_ok m -> space m d -> private m d (pde_index virt) -> is_u32 virt ->
  wp (paging_unmap (PHYS_TO_VIRT d) virt) (fun _ m' =>
    only_pages d (table_of m d (pde_index virt)) (m_ram m) (m_ram m')) m.
Proof.
  intros Hmem Hsp Hpriv Hv. pose proof (space_dir _ _ Hsp) as Hd.
  pose proof (pde_index_range virt Hv) as Hi. pose proof (pte_index_range virt) as Hti.
  pose proof (good_frame_aligned _ Hd) as Had.
  destruct (good_frame_virt d Hd) as (_ & _ & Hdn & _). unfold paging_unmap.
  apply wp_bind, wp_assert; [by rewrite (proj2 (Z.eqb_neq _ _))|].
  apply wp_bind, wp_get_entry; [done..|]. change (entry (m_ram m) d _) with (pde m d (pde_index virt)).
  destruct (present (pde m d (pde_index virt))) eqn:Epres; cbn [negb].
  2:{ apply wp_ret. intros f _ _ _. apply kept_refl. }
  destruct (space_tables _ _ Hsp _ Hi Epres) as [Hg Hused].
  destruct (good_frame_virt _ Hg) as (_ & _ & Hnn & Hgu). pose proof (good_frame_aligned _ Hg) as Hag.
  apply wp_bind, wp_paging_get_table; [done..|]. rewrite Epres.
  rewrite (proj2 (Z.eqb_neq _ _)) by done.
  apply wp_bind, wp_set_entry; [done..|]. apply wp_bind, wp_flush.
  destruct (step_set_pte m d virt 0) as (Hstep & _); [done..|].
  set (m1 := with_ram _ _) in Hstep |- *. set (m2 := with_cpu _ m1).
  assert (only_pages d (table_of m d (pde_index virt)) (m_ram m) (m_ram m2)) as H2.
  { intros f Hf Hfd Hft. apply kept_entry_set; [done|done|by apply not_eq_sym|done]. }
  assert (forall p', only_pages d (table_of m d (pde_index virt)) (m_ram m)
    (m_ram (with_ram (ram_entry_set d (pde_index virt) 0 (m_ram (with_pmm p' m2))) (with_pmm p' m2)))) as H3.
  { intros p' f Hf Hfd Hft. eapply kept_trans; [by apply H2|]. apply kept_entry_set; [done|done|by apply not_eq_sym|done]. }
  apply wp_bind, wp_table_in_use; [done|]. intros [] _; [by apply wp_ret|].
  destruct (good_frame_page _ Hg) as [Hpos Hle].
  change (frame_of (pde m d (pde_index virt))) with (table_of m d (pde_index virt)).
  apply wp_bind, wp_free_frame; [exact (step_mem _ _ _ _ (with_cpu_step _ _ _ _ _ Hstep))|done..| |].
  - intros _. apply wp_set_entry; [done..|]. exact (H3 (pmm_at m2)).
  - intros p' _ _ _ _. apply wp_set_entry; [done..|]. apply (H3 p').
Qed.
(** A table that stays behind is in use. *)
Lemma wp_table_in_use_some m f (Q : bool -> machine -> Prop) :
  good_frame f -> (forall b, (b = true -> exists i, 0 <= i < 1024 /\ present (entry (m_ram m) f i) = true) -> Q b m) ->
  wp (table_in_use (PHYS_TO_VIRT f)) Q m.
Proof.
  intros Hf HQ. unfold table_in_use. apply wp_bind. apply (wp_for_range (fun i m' => m' = m)).
  - done.
  - intros i m' Hi ->. apply wp_bind, wp_get_entry; [done|lia|]. apply wp_ret. destruct (present _) eqn:E; [|done].
    apply wp_ret, HQ. intros _. exists i. split; [lia|done].
  - intros m' ->. apply wp_ret, HQ. done.
Qed.

(** After unmapping, the table is there because an entry of it is in use, or it
    went back to the pool. *)
Definition table_kept d virt m m' : Prop :=
  present (pde m' d (pde_index virt)) = true /\
  (exists k, 0 <= k < 1024 /\ present (entry (m_ram m') (table_of m' d (pde_index virt)) k) = true) \/
  present (pde m' d (pde_index virt)) = false /\
  (present (pde m d (pde_index virt)) = true -> table_of m d (pde_index virt) / PAGE_SIZE < total_pages (pmm_at m) ->
   page_released (table_of m d (pde_index virt) / PAGE_SIZE) (pmm_at m) (pmm_at m')).

Lemma wp_unmap_table m d virt :
  mem_ok m -> space m d -> private m d (pde_index virt) -> is_u32 virt ->
  wp (paging_unmap (PHYS_TO_VIRT d) virt) (fun _ m' => table_kept d virt m m') m.
Proof.
  intros Hmem Hsp Hpriv Hv. pose proof (space_dir _ _ Hsp) as Hd.
  pose proof (pde_index_range virt Hv) as Hi. pose proof (pte_index_range virt) as Hti.
  destruct (good_frame_virt d Hd) as (_ & _ & Hdn & _). unfold paging_unmap.
  apply wp_bind, wp_assert; [by rewrite (proj2 (Z.eqb_neq _ _))|].
  apply wp_bind, wp_get_entry; [done..|]. change (entry (m_ram m) d _) with (pde m d (pde_index virt)).
  destruct (present (pde m d (pde_index virt))) eqn:Epres; cbn [negb].
  2:{ apply wp_ret. right. split; [done|]. congruence. }
  destruct (space_tables _ _ Hsp _ Hi Epres) as [Hg Hused]. destruct (good_frame_virt _ Hg) as (_ & _ & Hnn & Hgu).
  apply wp_bind, wp_paging_get_table; [done..|]. rewrite Epres. rewrite (proj2 (Z.eqb_neq _ _)) by done.
  apply wp_bind, wp_set_entry; [done..|]. apply wp_bind, wp_flush.
  destruct (step_set_pte m d virt 0) as (Hstep & Hpde & _); [done..|].
  set (m1 := with_ram _ _) in Hstep, Hpde |- *. set (m2 := with_cpu _ m1).
  apply wp_bind, wp_table_in_use_some; [done|]. intros [] Hsome.
  { apply wp_ret. left. split; [exact (eq_trans (f_equal present Hpde) Epres)|].
    destruct (Hsome eq_refl) as (k & Hk & Ek). exists k. split; [done|].
    change (present (entry (m_ram m1) (table_of m1 d (pde_index virt)) k) = true). unfold table_of. by rewrite Hpde. }
  assert (forall p', present (pde (with_ram (ram_entry_set d (pde_index virt) 0 (m_ram (with_pmm p' m2))) (with_pmm p' m2))
    d (pde_index virt)) = false) as Hno.
  { intros p'. unfold pde. cbn [m_ram with_ram]. by rewrite entry_set_eq. }
  destruct (good_frame_page _ Hg) as [Hpos Hle].
  change (frame_of (pde m d (pde_index virt))) with (table_of m d (pde_index virt)).
  apply wp_bind, wp_free_frame; [exact (step_mem _ _ _ _ (with_cpu_step _ _ _ _ _ Hstep))|done..| |].
  - intros Hout. apply wp_set_entry; [done..|]. right. split; [exact (Hno (pmm_at m2))|]. intros _ Hlt. exfalso.
    destruct Hout as [Hout|Hout]; [|change (m_free m2) with (m_free m) in Hout; congruence].
    change (total_pages (pmm_of (m_pmm m2))) with (total_pages (pmm_at m)) in Hout. lia.
  - intros p' _ _ Hrel _. apply wp_set_entry; [done..|]. right. split; [exact (Hno p')|]. intros _ _. exact Hrel.
Qed.

(** Without a table there is nothing to do. *)
Lemma wp_unmap_absent m d virt (Q : unit -> machine -> Prop) :
  good_frame d -> is_u32 virt -> present (pde m d (pde_index virt)) = false -> Q tt m ->
  wp (paging_unmap (PHYS_TO_VIRT d) virt) Q m.
Proof.
  intros Hd Hv E HQ. destruct (good_frame_virt d Hd) as (_ & _ & Hdn & _). unfold paging_unmap.
  apply wp_bind, wp_assert; [by rewrite (proj2 (Z.eqb_neq _ _))|].
  apply wp_bind, wp_get_entry; [done|by apply pde_index_range|]. change (entry (m_ram m) d _) with (pde m d (pde_index virt)).
  rewrite E. by apply wp_ret.
Qed.
End Bytes.

(** ** Two directories *)

(** The user half of a directory. *)
Definition user_pde (i : Z) : Prop := 0 <= i < KERNEL_PDE_START.
Definition user_address (va : Z) : Prop := 0 <= va < KERNEL_VIRT_BASE.

(** The kernel directory [kd] serves the heap, and the directory [d] of a
    process has user tables of its own. *)
Record task_space (kd d : Z) (m : machine) : Prop := {
  ts_ready : ready m kd;
  ts_fail : fail_allocations (pmm_at m) = 0;
  ts_tables : heap_tables m kd;
  ts_space : space m d;
  ts_private : forall i, user_pde i -> private m d i;
  ts_dirs : d <> kd;
  ts_kernel : forall j, 0 <= j < 1024 -> present (pde m kd j) = true -> table_of m kd j <> d;
  ts_user : forall i, user_pde i -> present (pde m d i) = true ->
    table_of m d i <> kd /\ forall j, 0 <= j < 1024 -> present (pde m kd j) = true -> table_of m d i <> table_of m kd j;
}.

(** A page that is neither directory nor a table of one. *)
Definition plain (kd d : Z) (m : machine) (f : Z) : Prop := leaf_frame m kd f /\ leaf_frame m d f.

(** The directory at [kd] and its tables hold the same entries. *)
Record same_kernel (kd : Z) (m m' : machine) : Prop := {
  sk_pde : forall j, 0 <= j < 1024 -> pde m' kd j = pde m kd j;
  sk_table : forall j k, 0 <= j < 1024 -> 0 <= k < 1024 -> present (pde m kd j) = true ->
    entry (m_ram m') (table_of m kd j) k = entry (m_ram m) (table_of m kd j) k;
}.

Section Spaces.
Implicit Types (r : ram) (m : machine) (kd d f g t i j k va virt : Z) (p : pmm).

Lemma user_address_pde va : user_address va -> is_u32 va /\ user_pde (pde_index va).
Proof.
  unfold user_address, user_pde, is_u32. rewrite pde_index_div. unfold KERNEL_VIRT_BASE, KERNEL_PDE_START. lia.
Qed.

Lemma user_pde_range i : user_pde i -> 0 <= i < 1024.
Proof. unfold user_pde, KERNEL_PDE_START. lia. Qed.

Lemma same_kernel_refl kd m : same_kernel kd m m.
Proof. by split. Qed.

Lemma same_kernel_table kd m m' j : same_kernel kd m m' -> 0 <= j < 1024 -> table_of m' kd j = table_of m kd j.
Proof. intros [H _] Hj. unfold table_of. by rewrite H. Qed.

Lemma same_kernel_trans kd m m' m'' : same_kernel kd m m' -> same_kernel kd m' m'' -> same_kernel kd m m''.
Proof.
  intros H1 H2. split.
  - intros j Hj. by rewrite (sk_pde _ _ _ H2), (sk_pde _ _ _ H1).
  - intros j k Hj Hk Hp. rewrite <- (sk_table _ _ _ H1) by done.
    rewrite <- (same_kernel_table _ _ _ _ H1 Hj). apply (sk_table _ _ _ H2); [done..|]. by rewrite (sk_pde _ _ _ H1).
Qed.

Lemma same_kernel_sym kd m m' : same_kernel kd m m' -> same_kernel kd m' m.
Proof.
  intros H. split; [intros j Hj; by rewrite (sk_pde _ _ _ H)|]. intros j k Hj Hk Hp.
  rewrite (same_kernel_table _ _ _ _ H) by done. rewrite (sk_pde _ _ _ H) in Hp by done. by rewrite (sk_table _ _ _ H).
Qed.

Lemma same_kernel_walk kd m m' va :
  same_kernel kd m m' -> is_u32 va -> walk (m_ram m') kd va = walk (m_ram m) kd va.
Proof.
  intros Hs Hv. pose proof (pde_index_range va Hv). pose proof (pte_index_range va).
  apply walk_ext; [by apply (sk_pde _ _ _ Hs)|]. intros Hp. by apply (sk_table _ _ _ Hs).
Qed.

Lemma same_kernel_private kd m m' j : same_kernel kd m m' -> 0 <= j < 1024 -> private m kd j -> private m' kd j.
Proof.
  intros Hs Hj Hp Hpres. rewrite (sk_pde _ _ _ Hs) in Hpres by done. destruct (Hp Hpres) as [H1 H2].
  rewrite (same_kernel_table _ _ _ _ Hs) by done. split; [done|]. intros i Hi Hne Hpi.
  rewrite (sk_pde _ _ _ Hs) in Hpi by done. rewrite (same_kernel_table _ _ _ _ Hs) by done. by apply H2.
Qed.

Lemma same_kernel_leaf kd m m' f : same_kernel kd m m' -> leaf_frame m kd f -> leaf_frame m' kd f.
Proof.
  intros Hs [H1 H2]. split; [done|]. intros j Hj Hp. rewrite (sk_pde _ _ _ Hs) in Hp by done.
  rewrite (same_kernel_table _ _ _ _ Hs) by done. by apply H2.
Qed.

(** Writing only pages that hold no entries of [kd]. *)
Lemma only_pages_kernel kd d t m m' :
  only_pages d t (m_ram m) (m_ram m') -> space m kd -> d <> kd -> t <> kd ->
  (forall j, 0 <= j < 1024 -> present (pde m kd j) = true -> table_of m kd j <> d /\ table_of m kd j <> t) ->
  same_kernel kd m m'.
Proof.
  intros Ho Hsp Hd Ht Hj. split.
  - intros j Hr. apply kept_entry; [|done]. apply Ho; [apply good_frame_aligned, Hsp|congruence..].
  - intros j k Hr Hk Hp. destruct (Hj j Hr Hp). destruct (space_tables _ _ Hsp _ Hr Hp) as [Hg _].
    apply kept_entry; [|done]. apply Ho; [by apply good_frame_aligned|done..].
Qed.

(** What the kernel needs from a step that leaves its entries alone. *)
Lemma ready_step kd m m' :
  ready m kd -> same_kernel kd m m' -> mem_ok m' -> kernel_directory m' = kernel_directory m ->
  m_free m' kd = false ->
  (forall j, 0 <= j < 1024 -> present (pde m kd j) = true -> m_free m' (table_of m kd j) = false) -> ready m' kd.
Proof.
  intros [Hmem Hsp Hk] Hs Hmem' Ek Hfd Hft. split; [done| |congruence]. split; [apply Hsp|done|].
  intros j Hj Hp. rewrite (sk_pde _ _ _ Hs) in Hp by done. rewrite (same_kernel_table _ _ _ _ Hs) by done.
  split; [by apply (space_tables _ _ Hsp)|by apply Hft].
Qed.

Lemma heap_tables_step kd m m' : heap_tables m kd -> same_kernel kd m m' -> heap_tables m' kd.
Proof.
  intros Ht Hs i Hi. assert (0 <= i < 1024) as Hr.
  { destruct heap_bounds as [B1 B2]. unfold HEAP_START in B1. rewrite !pde_index_div, B1, B2 in Hi. lia. }
  destruct (Ht i Hi). rewrite (sk_pde _ _ _ Hs) by done. split; [done|]. by eapply same_kernel_private.
Qed.

(** A step that changes neither the entries of [kd] nor those of [d], and takes
    or gives back a page that is no table. *)
Lemma task_space_keep kd d m m' :
  task_space kd d m -> same_kernel kd m m' -> same_kernel d m m' -> mem_ok m' ->
  kernel_directory m' = kernel_directory m -> fail_allocations (pmm_at m') = fail_allocations (pmm_at m) ->
  (forall f, good_frame f -> m_free m f = false -> ~ plain kd d m f -> m_free m' f = false) ->
  task_space kd d m'.
Proof.
  intros Ht Hk Hd Hmem Ekd Ef Hfree. destruct Ht as [Hr Hf Htab Hsp Hpriv Hne Hkt Hut].
  pose proof (ready_space _ _ Hr) as Hspk.
  assert (forall f, good_frame f -> m_free m f = false -> f = kd \/ f = d \/
    (exists j, 0 <= j < 1024 /\ present (pde m kd j) = true /\ table_of m kd j = f) \/
    (exists j, 0 <= j < 1024 /\ present (pde m d j) = true /\ table_of m d j = f) -> m_free m' f = false) as Hu.
  { intros f Hg Hff Hcase. apply Hfree; [done..|]. intros [[P1 P2] [P3 P4]].
    destruct Hcase as [->|[->|[(j & Hj & Hp & E)|(j & Hj & Hp & E)]]]; [done|done|by apply (P2 j)|by apply (P4 j)]. }
  split.
  - apply (ready_step kd m); try done.
    + apply Hu; [apply Hspk|apply Hspk|by left].
    + intros j Hj Hp. destruct (space_tables _ _ Hspk _ Hj Hp). apply Hu; [done..|]. right; right; left. eauto.
  - congruence.
  - by eapply heap_tables_step.
  - split; [apply Hsp|apply Hu; [apply Hsp|apply Hsp|auto]|].
    intros j Hj Hp. rewrite (sk_pde _ _ _ Hd) in Hp by done. rewrite (same_kernel_table _ _ _ _ Hd) by done.
    destruct (space_tables _ _ Hsp _ Hj Hp). split; [done|]. apply Hu; [done..|]. right; right; right. eauto.
  - intros i Hi. eapply same_kernel_private; [done|by apply user_pde_range|by apply Hpriv].
  - done.
  - intros j Hj Hp. rewrite (sk_pde _ _ _ Hk) in Hp by done. rewrite (same_kernel_table _ _ _ _ Hk) by done. by apply Hkt.
  - intros i Hi Hp. pose proof (user_pde_range _ Hi). rewrite (sk_pde _ _ _ Hd) in Hp by done.
    rewrite (same_kernel_table _ _ _ _ Hd) by done. destruct (Hut i Hi Hp) as [U1 U2]. split; [done|].
    intros j Hj Hpj. rewrite (sk_pde _ _ _ Hk) in Hpj by done. rewrite (same_kernel_table _ _ _ _ Hk) by done. by apply U2.
Qed.
End Spaces.

(** ** The steps *)

Section Steps.
Implicit Types (r : ram) (m : machine) (kd d f g t i j k va virt e : Z) (p : pmm).

Lemma same_pages f g : good_frame f -> good_frame g -> f / PAGE_SIZE = g / PAGE_SIZE -> f = g.
Proof. intros Hf Hg. apply good_frame_aligned in Hf, Hg. unfold PAGE_SIZE in *. lia. Qed.

Lemma ts_taken kd d m f p :
  task_space kd d m -> page_taken (f / PAGE_SIZE) (pmm_at m) p -> task_space kd d (with_pmm p m).
Proof.
  intros Ht Hp. apply (task_space_keep kd d m); [done|by split|by split| |done|apply (taken_fail _ _ _ Hp)|].
  - eapply taken_mem_ok; [apply Ht|exact Hp].
  - intros g _ Hg _. by rewrite (taken_m_free _ _ _ _ Hp), Hg.
Qed.

Lemma ts_released kd d m f p :
  task_space kd d m -> good_frame f -> plain kd d m f -> mem_ok (with_pmm p m) ->
  page_released (f / PAGE_SIZE) (pmm_at m) p -> task_space kd d (with_pmm p m).
Proof.
  intros Ht Hg Hpl Hmem Hp. apply (task_space_keep kd d m); [done|by split|by split|done|done|apply (released_fail _ _ _ Hp)|].
  intros g Hgg Hf Hn. unfold m_free. change (pmm_of (m_pmm (with_pmm p m))) with p. rewrite (released_free _ _ _ Hp).
  apply orb_false_iff. split; [exact Hf|]. apply Z.eqb_neq. intros E. apply Hn. by rewrite (same_pages g f).
Qed.

(** Writing into a plain page. *)
Definition only_page_of f r r' : Prop := forall g, g mod PAGE_SIZE = 0 -> g <> f -> page_kept r r' g.

Lemma only_page_same kd d m f r :
  plain kd d m f -> space m kd -> space m d -> only_page_of f (m_ram m) r ->
  same_kernel kd m (with_ram r m) /\ same_kernel d m (with_ram r m).
Proof.
  intros [H1 H2] Hk Hd Ho. split; (eapply (only_pages_kernel _ f f); [by intros g Hg Hn _; apply Ho|done|..]);
    try apply H1; try apply H2; intros j Hj Hp; split; by (apply H1 || apply H2).
Qed.

Lemma ts_written kd d m f r :
  task_space kd d m -> plain kd d m f -> only_page_of f (m_ram m) r -> task_space kd d (with_ram r m).
Proof.
  intros Ht Hpl Ho. destruct (only_page_same kd d m f r) as [Hk Hd]; [done|apply Ht|apply Ht|done|].
  apply (task_space_keep kd d m); try done. apply Ht.
Qed.

(** The kernel's side of a change below user entry [i] of [d], through the
    table [t]. *)
Lemma kernel_side kd d t m m' :
  task_space kd d m -> only_pages d t (m_ram m) (m_ram m') -> t <> kd ->
  (forall j, 0 <= j < 1024 -> present (pde m kd j) = true -> table_of m kd j <> t) -> same_kernel kd m m'.
Proof.
  intros Ht Ho Hk Hj. eapply only_pages_kernel; [exact Ho|apply Ht|apply Ht|done|].
  intros j Hr Hp. split; [by apply (ts_kernel _ _ _ Ht)|by apply Hj].
Qed.

Lemma ts_mapped kd d m m' virt e :
  task_space kd d m -> user_address virt -> mapped d virt e m m' ->
  only_pages d (table_of m' d (pde_index virt)) (m_ram m) (m_ram m') ->
  task_space kd d m' /\ same_kernel kd m m' /\
  (forall g, good_frame g -> m_free m g = false -> plain kd d m g -> plain kd d m' g).
Proof.
  intros Ht Hu Hmap Ho. destruct (user_address_pde _ Hu) as [Hv Hi]. pose proof (user_pde_range _ Hi) as Hir.
  destruct Ht as [Hr Hf Htab Hsp Hpriv Hne Hkt Hut]. pose proof (ready_space _ _ Hr) as Hspk.
  destruct Hmap as (Hs & Hw & Hpres & Hprv & _ & _ & _ & Hcase). set (t := table_of m' d (pde_index virt)) in *.
  assert (forall g, good_frame g -> m_free m g = false ->
    (present (pde m d (pde_index virt)) = true -> table_of m d (pde_index virt) <> g) -> t <> g) as Hfresh.
  { intros g Hg Hgf Hold Eg. destruct Hcase as [(Hp & _ & E)|(_ & Hfr & _)]; [|congruence].
    apply (Hold Hp). rewrite <- Eg. unfold t, table_of. by rewrite E. }
  assert (t <> kd) as Hkd. { apply Hfresh; [apply Hspk..|]. intros Hp. by apply Hut. }
  assert (forall j, 0 <= j < 1024 -> present (pde m kd j) = true -> table_of m kd j <> t) as Htj.
  { intros j Hj Hp. apply not_eq_sym. destruct (space_tables _ _ Hspk _ Hj Hp). apply Hfresh; [done..|].
    intros Hp2. by apply Hut. }
  assert (same_kernel kd m m') as Hsk by (eapply (kernel_side kd d t); [by split|done..]).
  assert (forall g, m_free m g = false -> m_free m' g = false) as Hfree.
  { intros g Hg. unfold m_free in *. destruct Hcase as [(_ & E & _)|(_ & _ & Htk)].
    - change (page_free (pmm_at m') (g / PAGE_SIZE) = false). by rewrite E.
    - change (page_free (pmm_at m') (g / PAGE_SIZE) = false). rewrite (taken_free _ _ _ Htk). unfold pmm_at. by rewrite Hg. }
  assert (fail_allocations (pmm_at m') = 0) as Hf'.
  { rewrite <- Hf. destruct Hcase as [(_ & E & _)|(_ & _ & Htk)]; [by rewrite E|apply (taken_fail _ _ _ Htk)]. }
  split; [|split; [done|]].
  - split; [|done|by eapply heap_tables_step|apply Hs| |done| |].
    + apply (ready_step kd m); [done|done|apply Hs|apply Hs|apply Hfree, Hspk|].
      intros j Hj Hp. apply Hfree. by apply (space_tables _ _ Hspk).
    + intros i Hi'. destruct (decide (i = pde_index virt)) as [->|]; [done|].
      apply (step_private _ _ _ _ Hs); [by apply user_pde_range|by apply Hpriv].
    + intros j Hj Hp. rewrite (sk_pde _ _ _ Hsk) in Hp by done. rewrite (same_kernel_table _ _ _ _ Hsk) by done. by apply Hkt.
    + intros i Hi' Hp. pose proof (user_pde_range _ Hi').
      assert (forall j, 0 <= j < 1024 -> present (pde m' kd j) = true ->
        present (pde m kd j) = true /\ table_of m' kd j = table_of m kd j) as Hkj.
      { intros j Hj Hpj. rewrite (sk_pde _ _ _ Hsk) in Hpj by done. by rewrite (same_kernel_table _ _ _ _ Hsk). }
      destruct (decide (i = pde_index virt)) as [->|Hni].
      * split; [done|]. intros j Hj Hpj. destruct (Hkj j Hj Hpj) as [Hpm ->]. apply not_eq_sym. by apply Htj.
      * assert (pde m' d i = pde m d i) as E by by apply (step_other _ _ _ _ Hs).
        unfold table_of. rewrite E in Hp |- *. destruct (Hut i Hi' Hp) as [U1 U2]. split; [done|].
        intros j Hj Hpj. destruct (Hkj j Hj Hpj) as [Hpm Ej]. unfold table_of in Ej. rewrite Ej. by apply U2.
  - intros g Hg Hgf [P1 [P2 P3]]. split; [by eapply same_kernel_leaf|]. split; [done|]. intros j Hj Hp.
    destruct (decide (j = pde_index virt)) as [->|Hnj].
    + apply Hfresh; [done..|]. intros Hpm. by apply P3.
    + assert (pde m' d j = pde m d j) as E by by apply (step_other _ _ _ _ Hs).
      unfold table_of. rewrite E in Hp |- *. by apply P3.
Qed.

Lemma ts_unmapped kd d m m' virt :
  task_space kd d m -> user_address virt -> walk (m_ram m) d virt <> None -> unmapped d virt m m' ->
  only_pages d (table_of m d (pde_index virt)) (m_ram m) (m_ram m') ->
  task_space kd d m' /\ same_kernel kd m m' /\
  (forall g, good_frame g -> m_free m g = false -> plain kd d m g -> plain kd d m' g /\ m_free m' g = false).
Proof.
  intros Ht Hu Hw (Hs & _ & _ & _ & Hsame & Hcase) Ho. destruct (user_address_pde _ Hu) as [Hv Hi].
  pose proof (user_pde_range _ Hi) as Hir. destruct Ht as [Hr Hf Htab Hsp Hpriv Hne Hkt Hut].
  pose proof (ready_space _ _ Hr) as Hspk. set (t := table_of m d (pde_index virt)) in *.
  assert (present (pde m d (pde_index virt)) = true) as Hpres.
  { apply not_false_iff_true. intros E. apply Hw. apply walk_absent. exact E. }
  destruct (space_tables _ _ Hsp _ Hir Hpres) as [Htg _]. destruct (Hut _ Hi Hpres) as [Hkd Htj].
  assert (same_kernel kd m m') as Hsk.
  { eapply (kernel_side kd d t); [by split|done..|]. intros j Hj Hp. apply not_eq_sym. by apply Htj. }
  assert (forall g, good_frame g -> g <> t -> m_free m g = false -> m_free m' g = false) as Hfree.
  { intros g Hg Hgt Hgf. unfold m_free. change (page_free (pmm_at m') (g / PAGE_SIZE) = false).
    destruct Hcase as [E|[E _]]; [by rewrite E|]. rewrite (released_free _ _ _ E). apply orb_false_iff.
    split; [exact Hgf|]. apply Z.eqb_neq. intros E2. by apply Hgt, same_pages. }
  assert (forall j, 0 <= j < 1024 -> present (pde m' d j) = true -> pde m' d j = pde m d j) as Hd.
  { intros j Hj Hp. destruct (decide (j = pde_index virt)) as [->|]; [by apply Hsame|by apply (step_other _ _ _ _ Hs)]. }
  split; [|split; [done|]].
  - split; [| |by eapply heap_tables_step|apply Hs| |done| |].
    + apply (ready_step kd m); [done|done|apply Hs|apply Hs|apply Hfree; [apply Hspk|by apply not_eq_sym|apply Hspk]|].
      intros j Hj Hp. destruct (space_tables _ _ Hspk _ Hj Hp). apply Hfree; [done|by apply not_eq_sym, Htj|done].
    + rewrite <- Hf. destruct Hcase as [E|[E _]]; [by rewrite E|apply (released_fail _ _ _ E)].
    + intros i Hi'. apply (step_private _ _ _ _ Hs); [by apply user_pde_range|by apply Hpriv].
    + intros j Hj Hp. rewrite (sk_pde _ _ _ Hsk) in Hp by done. rewrite (same_kernel_table _ _ _ _ Hsk) by done. by apply Hkt.
    + intros i Hi' Hp. pose proof (user_pde_range _ Hi') as Hri. pose proof (Hd i Hri Hp) as E. rewrite E in Hp.
      assert (table_of m' d i = table_of m d i) as -> by (unfold table_of; by rewrite E). destruct (Hut i Hi' Hp) as [U1 U2]. split; [done|]. intros j Hj Hpj.
      rewrite (sk_pde _ _ _ Hsk) in Hpj by done. rewrite (same_kernel_table _ _ _ _ Hsk) by done. by apply U2.
  - intros g Hg Hgf [P1 [P2 P3]]. split; [|apply Hfree; [done| |done]; intros ->; by apply (P3 (pde_index virt))].
    split; [by eapply same_kernel_leaf|]. split; [done|]. intros j Hj Hp. pose proof (Hd j Hj Hp) as E.
    unfold table_of. rewrite E in Hp |- *. by apply P3.
Qed.
End Steps.

(** ** The heap under a changing machine *)

Section HeapMove.
Implicit Types (m : machine) (h : heap) (kd : Z).

(** The heap is sound, with the blocks [u] in use, at this machine. *)
Definition heap_at h m (u : list (Z * Z)) : Prop := heap_holds (HeapWorld h m) u.

(** The heap's own addresses are translated as before. *)
Definition heap_walks kd h m m' : Prop :=
  forall a, HEAP_START <= a < heap_end h -> walk (m_ram m') kd a = walk (m_ram m) kd a.

Lemma heap_move kd h m m' l :
  heap_ok (HeapWorld h m) l -> ready m kd -> ready m' kd -> fail_allocations (pmm_at m') = 0 -> heap_tables m' kd ->
  heap_walks kd h m m' -> heap_end h + Z.of_nat (pages_free m') * PAGE_SIZE <= KERNEL_HEAP_END + 1 ->
  heap_ok (HeapWorld h m') l.
Proof.
  intros [H1 H2 H3 H4 H5 H6 H7 H8 H9] Hr Hr' Hf Ht Hs Hroom. split; try done.
  - intros a Ha. pose proof (H7 a Ha) as Hacc. apply (accessible_walk m' kd); [done|].
    apply (accessible_walk m kd) in Hacc; [|done]. by rewrite (Hs a Ha).
  - by exists kd.
Qed.

Lemma heap_at_walks kd h m m' u :
  heap_at h m u -> ready m kd -> ready m' kd -> fail_allocations (pmm_at m') = 0 ->
  heap_tables m' kd -> heap_walks kd h m m' ->
  heap_end h + Z.of_nat (pages_free m') * PAGE_SIZE <= KERNEL_HEAP_END + 1 ->
  heap_at h m' u /\ forall s, has_room (HeapWorld h m) s -> has_room (HeapWorld h m') s.
Proof.
  intros (l & Hok & Hc & Hu) Hr Hr' Hf Ht Hs Hroom. split.
  - exists l. split; [by eapply heap_move|done].
  - intros s (l' & Hok' & Hfit). exists l'. split; [by eapply heap_move|done].
Qed.

Lemma heap_at_move kd h m m' u :
  heap_at h m u -> ready m kd -> ready m' kd -> fail_allocations (pmm_at m') = 0 ->
  heap_tables m' kd -> same_kernel kd m m' ->
  heap_end h + Z.of_nat (pages_free m') * PAGE_SIZE <= KERNEL_HEAP_END + 1 ->
  heap_at h m' u /\ forall s, has_room (HeapWorld h m) s -> has_room (HeapWorld h m') s.
Proof.
  intros Hh Hr Hr' Hf Ht Hs Hroom. apply (heap_at_walks kd h m m' u); [done..| |done].
  intros a Ha. apply (same_kernel_walk kd m m'); [done|]. destruct Hh as (l & [_ _ _ _ _ _ _ _ H9] & _).
  destruct heap_bounds as [B1 B2]. cbn [the_heap the_supply] in *. unfold is_u32, PAGE_SIZE in *. lia.
Qed.

Lemma heap_at_bound h m u : heap_at h m u -> heap_end h + Z.of_nat (pages_free m) * PAGE_SIZE <= KERNEL_HEAP_END + 1.
Proof. intros (l & Hok & _). apply (ok_room _ _ Hok). Qed.

Lemma block_size h m u a n : heap_at h m u -> (a, n) ∈ u -> 8 <= n.
Proof. intros (l & Hok & _ & <-) Hin. by apply used_range in Hin as (_ & _ & ?); [|apply (ok_tiles _ _ Hok)]. Qed.

(** The steps of a user page keep the heap. *)
Lemma heap_at_task kd d h m m' u :
  heap_at h m u -> task_space kd d m -> task_space kd d m' -> same_kernel kd m m' ->
  free_pages (pmm_at m') <= free_pages (pmm_at m) -> heap_at h m' u.
Proof.
  intros Hh Ht Ht' Hs Hle. apply (heap_at_move kd h m m' u); try done; try apply Ht; try apply Ht'.
  pose proof (heap_at_bound h m u Hh). unfold pages_free, PAGE_SIZE in *. lia.
Qed.

(** A block handed out is not one of those in use. *)
Lemma granted_fresh h m u (w : heap_world machine) size a n u' :
  heap_at h m u -> 0 < size -> granted w size a n u u' -> (a ∉ u.*1) /\ a <> NULL /\ u'.*1 ≡ₚ a :: u.*1.
Proof.
  intros Hu Hs ((u1 & u2 & E1 & E2) & Hsz & _ & Hlow & _ & Hdis). split; [|split].
  - intros Hin. apply list_elem_of_fmap in Hin as ([q s] & Eq & Hin). cbn in Eq. subst q.
    pose proof (block_size _ _ _ _ _ Hu Hin). destruct (Hdis a s Hin); unfold HEADER in *; lia.
  - destruct heap_bounds as [B _]. rewrite B in Hlow. unfold NULL, HEADER in *. lia.
  - rewrite E1, E2, !fmap_app, fmap_cons. cbn. by rewrite Permutation_middle.
Qed.
End HeapMove.
