(* ===== verification/ListFamily.v ===== *)
(** * Many lists in one store

    The lists of the kernel share one store of nodes. [lists s F] says that
    the store [s] holds, for every head [h] of the map [F], the list of the
    nodes [F !! h], that the lists have no node in common, and that a node of
    none of them is unlinked. It is the abstract state that the components
    built on intrusive lists work with. *)

From S2P Require Import Prelude DList.

Section Family.
Context {L : Type} `{Countable L}.

Abbreviation nodes := (gmap L (list_node L)).
Abbreviation family := (gmap L (list L)).

Implicit Types (s : nodes) (F : family) (h x y : L) (xs : list L).

(** In the list of [h], or its head. *)
Definition occurs F h x : Prop := exists xs, F !! h = Some xs /\ x ∈ h :: xs.

Record lists s F : Prop := {
  fam_list : forall h xs, F !! h = Some xs -> is_list s h xs;
  fam_disjoint : forall h h' x, occurs F h x -> occurs F h' x -> h = h';
  fam_free : forall x, is_Some (s !! x) -> (forall h, ~ occurs F h x) -> unlinked s x;
}.

(** An initialised node that is in no list. *)
Definition free_node s F x : Prop := is_Some (s !! x) /\ forall h, ~ occurs F h x.

Lemma occurs_insert F h xs h' x :
  occurs (<[h := xs]> F) h' x <-> (h' = h /\ x ∈ h :: xs) \/ (h' <> h /\ occurs F h' x).
Proof.
  unfold occurs. destruct (decide (h' = h)) as [->|Hne].
  - rewrite lookup_insert_eq. naive_solver.
  - rewrite lookup_insert_ne by done. naive_solver.
Qed.

Lemma occurs_head F h xs : F !! h = Some xs -> occurs F h h.
Proof. intros E. exists xs. set_solver. Qed.

Lemma occurs_in F h xs x : F !! h = Some xs -> x ∈ xs -> occurs F h x.
Proof. intros E Hx. exists xs. set_solver. Qed.

(** A list of the family changed within its own nodes and free ones. *)
Lemma lists_update s s' F h xs xs' dirty :
  lists s F -> F !! h = Some xs ->
  is_list s' h xs' -> unchanged dirty s s' -> (forall y, is_Some (s' !! y) <-> is_Some (s !! y)) ->
  (forall y, y ∈ dirty -> y ∈ h :: xs \/ free_node s F y) ->
  (forall y, y ∈ h :: xs' -> y ∈ h :: xs \/ free_node s F y) ->
  (forall y, y ∈ dirty -> y ∉ h :: xs' -> unlinked s' y) ->
  (forall y, y ∈ h :: xs -> y ∈ dirty \/ y ∈ h :: xs') ->
  lists s' (<[h := xs']> F).
Proof.
  intros [Hl Hd Hf] E Hl' Hun Hdom Hdirty Hxs' Hout Hold.
  assert (forall h' y, h' <> h -> occurs F h' y -> y ∉ dirty) as Hclean.
  { intros h' y Hne Ho Hin. destruct (Hdirty y Hin) as [Hy|[_ Hy]]; [|by apply (Hy h')].
    apply Hne, (Hd h' h y); [done|]. by exists xs. }
  split.
  - intros h' ys. destruct (decide (h' = h)) as [->|Hne].
    + rewrite lookup_insert_eq. by intros [= <-].
    + rewrite lookup_insert_ne by done. intros E'. eapply is_list_frame; [by apply Hl|exact Hun|].
      intros y Hy. apply (Hclean h'); [done|]. by exists ys.
  - assert (forall h' y, h' <> h -> y ∈ h :: xs' -> occurs F h' y -> False) as Hno.
    { intros h' y Hne Hy Ho. destruct (Hxs' y Hy) as [Hy'|[_ Hy']]; [|by apply (Hy' h')].
      apply Hne, (Hd h' h y); [done|]. by exists xs. }
    intros h1 h2 y. rewrite !occurs_insert. intros [[-> Hy]|[Hn1 H1]] [[-> Hy']|[Hn2 H2]]; try done.
    + by destruct (Hno h2 y).
    + by destruct (Hno h1 y).
    + by apply (Hd h1 h2 y).
  - intros y Hy Hno. assert (y ∉ h :: xs') as Hnin.
    { intros Hin. apply (Hno h). rewrite occurs_insert. by left. }
    destruct (decide (y ∈ dirty)) as [Hyd|Hyd]; [by apply Hout|].
    unfold unlinked. rewrite Hun by done. apply Hf; [by apply Hdom|]. intros h' Ho.
    destruct (decide (h' = h)) as [->|Hne].
    + destruct Ho as (xs0 & E0 & Hin). rewrite E in E0. injection E0 as <-.
      by destruct (Hold y Hin).
    + apply (Hno h'). rewrite occurs_insert. by right.
Qed.

Definition same_nodes s s' : Prop := forall y, is_Some (s' !! y) <-> is_Some (s !! y).

(** What an operation that turns the list of [h] into [xs] leaves behind. *)
Definition relisted h xs F s s' : Prop := lists s' (<[h := xs]> F) /\ same_nodes s s'.

Lemma free_unlinked s F x : lists s F -> free_node s F x -> unlinked s x.
Proof. intros Hl [Hx Hno]. by apply (fam_free _ _ Hl). Qed.

Lemma free_mono s s' F x : same_nodes s s' -> free_node s F x -> free_node s' F x.
Proof. intros Hs [Hx Hno]. split; [by apply Hs|done]. Qed.

Lemma free_insert s s' F h xs x :
  free_node s F x -> same_nodes s s' -> x ∉ h :: xs -> free_node s' (<[h := xs]> F) x.
Proof.
  intros [Hx Hno] Hs Hin. split; [by apply Hs|]. intros h' [[_ Hin']|[_ Ho]]%occurs_insert; [done|].
  by apply (Hno h').
Qed.

Lemma listed_defined s F h x : lists s F -> occurs F h x -> is_Some (s !! x).
Proof. intros Hl (xs & E & Hx). eapply is_list_defined; [by apply (fam_list _ _ Hl)|done]. Qed.

Lemma wp_fam_push_back s F h xs n (Q : unit -> nodes -> Prop) :
  lists s F -> F !! h = Some xs -> free_node s F n ->
  (forall s', relisted h (xs ++ [n]) F s s' -> Q tt s') ->
  wp (list_push_back (Some h) (Some n)) Q s.
Proof.
  intros Hl E Hn HQ. apply (wp_push_back h xs); [by apply Hl|by eapply free_unlinked|].
  intros s' (Hl' & Hun & Hdom). apply HQ. split; [|done].
  eapply (lists_update s s' F h xs _ (n :: h :: xs ++ [])); [done..| | | |].
  - rewrite app_nil_r. intros y [->|Hy]%elem_of_cons; [by right|by left].
  - intros y [->|[Hy| ->%list_elem_of_singleton]%elem_of_app]%elem_of_cons; [left; left|left; by right|by right].
  - rewrite app_nil_r. intros y Hy Hnin. destruct Hnin. set_solver.
  - intros y Hy. right. set_solver.
Qed.

Lemma wp_fam_remove s F h l1 x l2 (Q : unit -> nodes -> Prop) :
  lists s F -> F !! h = Some (l1 ++ x :: l2) ->
  (forall s', relisted h (l1 ++ l2) F s s' -> free_node s' (<[h := l1 ++ l2]> F) x -> Q tt s') ->
  wp (list_remove (Some x)) Q s.
Proof.
  intros Hl E HQ. pose proof (fam_list _ _ Hl _ _ E) as Hlist. apply (wp_remove_list h l1 x l2); [done|].
  intros s' (Hl' & Hx & Hun & Hdom). pose proof Hlist as [Hnd _].
  assert (x ∉ h :: l1 ++ l2) as Hnin.
  { apply NoDup_cons in Hnd as [Hh Hnd]. apply NoDup_app in Hnd as (_ & H12 & Hnd2).
    apply NoDup_cons in Hnd2 as [Hx2 _]. set_solver. }
  apply HQ; [split; [|done]|].
  - eapply (lists_update s s' F h (l1 ++ x :: l2) _ (h :: l1 ++ x :: l2)); [done..| | | |].
    + by left.
    + intros y Hy. left. set_solver.
    + intros y Hy Hn. assert (y = x) as -> by set_solver. done.
    + by left.
  - split; [apply Hdom; eapply is_list_defined; [exact Hlist|set_solver]|].
    intros h' [[_ Hin]|[Hne Ho]]%occurs_insert; [done|].
    apply Hne, (fam_disjoint _ _ Hl h' h x); [done|]. exists (l1 ++ x :: l2). set_solver.
Qed.

Lemma wp_fam_empty s F h xs (Q : bool -> nodes -> Prop) :
  lists s F -> F !! h = Some xs -> Q (bool_decide (xs = [])) s -> wp (list_empty (Some h)) Q s.
Proof.
  intros Hl E HQ. by apply (wp_list_empty h xs); [apply (fam_list _ _ Hl)|].
Qed.

Lemma wp_fam_front s F h x xs (Q : option L -> nodes -> Prop) :
  lists s F -> F !! h = Some (x :: xs) -> Q (Some x) s -> wp (list_front (Some h)) Q s.
Proof.
  intros Hl E HQ. pose proof (fam_list _ _ Hl _ _ E) as Hlist. pose proof Hlist as [_ Hc].
  apply wp_get_next; [eapply is_list_defined; [exact Hlist|left]|]. by destruct Hc as [-> _].
Qed.

Lemma wp_fam_front_nil s F h (Q : option L -> nodes -> Prop) :
  lists s F -> F !! h = Some [] -> Q (Some h) s -> wp (list_front (Some h)) Q s.
Proof.
  intros Hl E HQ. pose proof (fam_list _ _ Hl _ _ E) as Hlist. pose proof Hlist as [_ Hc].
  apply wp_get_next; [eapply is_list_defined; [exact Hlist|left]|]. by destruct Hc as [-> _].
Qed.

(** The successor of an element: the next one, or the head. *)
Lemma wp_fam_next s F h l1 x l2 (Q : option L -> nodes -> Prop) :
  lists s F -> F !! h = Some (l1 ++ x :: l2) -> Q (head (l2 ++ [h])) s -> wp (list_next (Some x)) Q s.
Proof.
  intros Hl E HQ. pose proof (fam_list _ _ Hl _ _ E) as Hlist. pose proof Hlist as [_ Hc].
  apply chain_app in Hc as [_ Hc]. destruct (chain_first _ _ _ _ Hc) as (q & Eq & _ & Hq).
  apply wp_get_next; [eapply is_list_defined; [exact Hlist|set_solver]|]. by rewrite Eq, <- Hq.
Qed.

(** The [NULL] tests of a node's pointers tell whether it is in a list. *)
Lemma free_pointers s F x : lists s F -> free_node s F x -> s !! x = Some (Node None None).
Proof. apply free_unlinked. Qed.

Lemma listed_pointers s F h xs x : lists s F -> F !! h = Some xs -> x ∈ xs ->
  exists p q, s !! x = Some (Node (Some p) (Some q)).
Proof.
  intros Hl E Hx. pose proof (fam_list _ _ Hl _ _ E) as Hlist. pose proof Hlist as [_ Hc].
  assert (is_Some (s !! x)) as [[p q] Es] by (eapply is_list_defined; [exact Hlist|set_solver]).
  pose proof (chain_linked _ _ _ _ x Hc ltac:(set_solver)) as H1.
  pose proof (chain_back_linked _ _ _ _ x Hc ltac:(set_solver)) as H2.
  unfold next_of, prev_of in *. rewrite Es in *. cbn in *. destruct p, q; try done. eauto.
Qed.

(** A node that is in no list can be written over with an unlinked one. *)
Lemma lists_new s F x :
  lists s F -> (forall h, ~ occurs F h x) -> lists (<[x := Node None None]> s) F.
Proof.
  intros Hl Hno. split; [|apply (fam_disjoint _ _ Hl)|].
  - intros h xs E. eapply (is_list_frame s _ h xs [x]); [by apply Hl| |].
    + intros y Hy. apply lookup_insert_ne. set_solver.
    + intros y Hy ->%list_elem_of_singleton. apply (Hno h). by exists xs.
  - intros y Hy Hfree. unfold unlinked. destruct (decide (y = x)) as [->|Hne].
    + by rewrite lookup_insert_eq.
    + rewrite lookup_insert_ne by done. apply (fam_free _ _ Hl); [|done].
      by rewrite lookup_insert_ne in Hy by done.
Qed.

Lemma lists_delete s F x : lists s F -> (forall h, ~ occurs F h x) -> lists (delete x s) F.
Proof.
  intros Hl Hno. split; [|apply (fam_disjoint _ _ Hl)|].
  - intros h xs E. eapply (is_list_frame s _ h xs [x]); [by apply Hl| |].
    + intros y Hy. apply lookup_delete_ne. set_solver.
    + intros y Hy ->%list_elem_of_singleton. apply (Hno h). by exists xs.
  - intros y Hy Hfree. unfold unlinked. destruct (decide (y = x)) as [->|Hne].
    + rewrite lookup_delete_eq in Hy. by destruct Hy.
    + rewrite lookup_delete_ne by done. apply (fam_free _ _ Hl); [|done].
      by rewrite lookup_delete_ne in Hy by done.
Qed.

(** [list_init] on a node of no list adds an empty list. *)
Lemma wp_fam_init s F h (Q : unit -> nodes -> Prop) :
  lists s F -> free_node s F h -> F !! h = None ->
  (forall s', relisted h [] F s s' -> Q tt s') ->
  wp (list_init (Some h)) Q s.
Proof.
  intros Hl [Hh Hno] E HQ. unfold list_init. apply wp_bind, wp_assert; [done|].
  apply wp_bind, wp_set_next; [done|]. intros s1 [N1 P1 D1 R1].
  apply wp_set_prev; [by apply D1|]. intros s2 [N2 P2 D2 R2]. apply HQ.
  assert (unchanged [h] s s2) as Hun by by eapply unchanged_trans.
  assert (is_list s2 h []) as Hlist.
  { split; [constructor; [by intros ?%not_elem_of_nil|constructor]|]. cbn.
    rewrite N2, N1, P2, !decide_True by done. done. }
  assert (same_nodes s s2) as Hdom by (intros y; by rewrite D2, D1).
  split; [|done]. split.
  - intros h' ys. destruct (decide (h' = h)) as [->|Hne].
    + rewrite lookup_insert_eq. by intros [= <-].
    + rewrite lookup_insert_ne by done. intros E'. eapply is_list_frame; [by apply Hl|exact Hun|].
      intros y Hy ->%list_elem_of_singleton. apply (Hno h'). by exists ys.
  - intros h1 h2 y. rewrite !occurs_insert, !list_elem_of_singleton.
    intros [[-> ->]|[Hn1 H1]] [[-> Hy']|[Hn2 H2]]; try done.
    + by destruct (Hno h2).
    + subst y. by destruct (Hno h1).
    + by apply (fam_disjoint _ _ Hl h1 h2 y).
  - intros y Hy Hfree. destruct (decide (y = h)) as [->|Hne].
    + destruct (Hfree h). rewrite occurs_insert. left. set_solver.
    + unfold unlinked. rewrite Hun by set_solver. apply (fam_free _ _ Hl); [by apply Hdom|].
      intros h' Ho. apply (Hfree h'). rewrite occurs_insert. right. split; [|done]. intros ->.
      destruct Ho as (ys & E' & _). congruence.
Qed.
End Family.
