(* ===== verification/Task.v ===== *)
(** * Threads, the scheduler and wait queues

    [kernel/task/scheduler.c] without its boot-time setup, [wait.c], the parts
    of [thread.c] that do not touch memory management, and
    [tss_set_kernel_stack]. A context switch leaves a routine in the middle;
    what the routine still has to do when its thread runs again is data, a
    [frame] on the thread's kernel stack. So a routine runs up to its switch,
    and the frames of the thread that is then current come next
    ([run_frame] in [Sync]). *)

From S2P Require Import Prelude Layout Machine DList.

(** ** Threads and their list nodes *)

(** [&idle_thread], or a thread from [kmalloc]. *)
Inductive tref : Type := IdleThread | HeapThread (a : Z).

(** Wait queues, by the object they are embedded in. *)
Inductive queue : Type :=
  | TerminationQueue (t : tref)
  | ReaperQueue
  | MutexQueue (m : Z)
  | SemaphoreQueue (s : Z)
  | CondvarQueue (c : Z).

(** The [struct list_node]s of threads, and the list heads. *)
Inductive node : Type :=
  | ReadyHead | ZombieHead | QueueHead (q : queue) | ThreadsHead (p : Z)
  | SchedNode (t : tref) | WaitNode (t : tref) | ZombieNode (t : tref) | GroupNode (t : tref).

#[export] Instance tref_eq_dec : EqDecision tref.
Proof. solve_decision. Defined.

#[export] Instance tref_countable : Countable tref.
Proof.
  apply (inj_countable' (fun t => match t with IdleThread => None | HeapThread a => Some a end)
    (fun o => match o with None => IdleThread | Some a => HeapThread a end)).
  by intros [].
Defined.

#[export] Instance queue_eq_dec : EqDecision queue.
Proof. solve_decision. Defined.

#[export] Instance queue_countable : Countable queue.
Proof.
  apply (inj_countable'
    (fun q => match q with
              | TerminationQueue t => inl t | ReaperQueue => inr (inl tt)
              | MutexQueue m => inr (inr (inl m)) | SemaphoreQueue s => inr (inr (inr (inl s)))
              | CondvarQueue c => inr (inr (inr (inr c))) end)
    (fun o => match o with
              | inl t => TerminationQueue t | inr (inl _) => ReaperQueue
              | inr (inr (inl m)) => MutexQueue m | inr (inr (inr (inl s))) => SemaphoreQueue s
              | inr (inr (inr (inr c))) => CondvarQueue c end)).
  by intros [].
Defined.

#[export] Instance node_eq_dec : EqDecision node.
Proof. solve_decision. Defined.

#[export] Instance node_countable : Countable node.
Proof.
  apply (inj_countable'
    (fun n => match n with
              | ReadyHead => inl true | ZombieHead => inl false
              | QueueHead q => inr (inl q) | ThreadsHead p => inr (inr (inl p))
              | SchedNode t => inr (inr (inr (inl (true, t)))) | WaitNode t => inr (inr (inr (inl (false, t))))
              | ZombieNode t => inr (inr (inr (inr (true, t)))) | GroupNode t => inr (inr (inr (inr (false, t))))
              end)
    (fun c => match c with
              | inl true => ReadyHead | inl false => ZombieHead
              | inr (inl q) => QueueHead q | inr (inr (inl p)) => ThreadsHead p
              | inr (inr (inr (inl (true, t)))) => SchedNode t | inr (inr (inr (inl (false, t)))) => WaitNode t
              | inr (inr (inr (inr (true, t)))) => ZombieNode t | inr (inr (inr (inr (false, t)))) => GroupNode t
              end)).
  by intros [].
Defined.

Inductive thread_state : Type :=
  THREAD_READY | THREAD_RUNNING | THREAD_BLOCKED | THREAD_TERMINATED.

#[export] Instance thread_state_eq_dec : EqDecision thread_state.
Proof. solve_decision. Defined.

(** Where a thread goes on when it gets the processor back: the return
    addresses that a context switch, or the window between two critical
    sections, can leave on its kernel stack, with the locals still in use. *)
Inductive frame : Type :=
  | ThreadStart                               (* thread_bootstrap *)
  | IdleStart                                 (* scheduler_idle_loop *)
  | TimerReturn (flags : Z)                   (* iret of the timer interrupt *)
  | BlockReturn (state : Z)                   (* thread_block *)
  | YieldReturn (state : Z)                   (* thread_yield *)
  | KillReturn                                (* thread_kill_current *)
  | LockReturn (m : Z) (state : Z)            (* mutex_lock *)
  | UnlockWake (t : tref)                     (* mutex_unlock, after interrupt_restore *)
  | AcquireReturn (s : Z) (state : Z)         (* semaphore_acquire *)
  | CondvarSleep (c m : Z) (state : Z)        (* condvar_wait, after mutex_unlock *)
  | CondvarWoken (m : Z) (state : Z)          (* condvar_wait, after wait_queue_sleep *)
  | CondvarRelock (m : Z)                     (* condvar_wait, after interrupt_restore *)
  | JoinReturn (t : tref) (state : Z)         (* thread_join *)
  | ReaperWoken (state : Z).                  (* reaper_entry *)

Record thread : Type := Thread {
  tid : Z;
  kernel_stack : Z;
  entry : Z;
  state : thread_state;
  process : Z;
  detached : bool;
  wait_queue : option queue;
  user_stack : Z;
  usermode_desc : Z;
  (** what [kernel_sp] points to while the thread does not run *)
  saved : list frame;
}.

Definition with_state (s : thread_state) (t : thread) : thread :=
  Thread (tid t) (kernel_stack t) (entry t) s (process t) (detached t) (wait_queue t) (user_stack t)
    (usermode_desc t) (saved t).
Definition with_wait_queue (q : option queue) (t : thread) : thread :=
  Thread (tid t) (kernel_stack t) (entry t) (state t) (process t) (detached t) q (user_stack t)
    (usermode_desc t) (saved t).
Definition with_saved (k : list frame) (t : thread) : thread :=
  Thread (tid t) (kernel_stack t) (entry t) (state t) (process t) (detached t) (wait_queue t) (user_stack t)
    (usermode_desc t) k.
Definition with_detached (b : bool) (t : thread) : thread :=
  Thread (tid t) (kernel_stack t) (entry t) (state t) (process t) b (wait_queue t) (user_stack t)
    (usermode_desc t) (saved t).

(** ** State *)

Definition SCHEDULER_QUANTUM_TICKS : Z := 5.

(** The statics of [scheduler.c], [reaper.c] and [tss.c], the threads, their
    list nodes, and what the scheduler reads of processes. [stack] is the
    kernel stack in use. *)
Record sched : Type := Sched {
  nodes : gmap node (list_node node);
  threads : gmap tref thread;
  current : option tref;
  quantum_remaining : Z;
  stack : list frame;
  tss_esp0 : Z;
  directories : gmap Z Z;
  reaper_thread : option tref;
  reaper_ready : bool;
}.

Record tasks : Type := Tasks { t_cpu : cpu; t_sched : sched }.

Definition t_cpu_l : lens tasks cpu := Lens t_cpu (fun c w => Tasks c (t_sched w)).
Definition t_sched_l : lens tasks sched := Lens t_sched (fun s w => Tasks (t_cpu w) s).
Definition nodes_l : lens tasks (gmap node (list_node node)) :=
  Lens (fun w => nodes (t_sched w)) (fun n w =>
    let s := t_sched w in
    Tasks (t_cpu w) (Sched n (threads s) (current s) (quantum_remaining s) (stack s) (tss_esp0 s)
      (directories s) (reaper_thread s) (reaper_ready s))).

Definition set_threads (ts : gmap tref thread) (w : tasks) : tasks :=
  let s := t_sched w in
  Tasks (t_cpu w) (Sched (nodes s) ts (current s) (quantum_remaining s) (stack s) (tss_esp0 s)
    (directories s) (reaper_thread s) (reaper_ready s)).
Definition set_current (c : option tref) (w : tasks) : tasks :=
  let s := t_sched w in
  Tasks (t_cpu w) (Sched (nodes s) (threads s) c (quantum_remaining s) (stack s) (tss_esp0 s)
    (directories s) (reaper_thread s) (reaper_ready s)).
Definition set_quantum (q : Z) (w : tasks) : tasks :=
  let s := t_sched w in
  Tasks (t_cpu w) (Sched (nodes s) (threads s) (current s) q (stack s) (tss_esp0 s)
    (directories s) (reaper_thread s) (reaper_ready s)).
Definition set_stack (k : list frame) (w : tasks) : tasks :=
  let s := t_sched w in
  Tasks (t_cpu w) (Sched (nodes s) (threads s) (current s) (quantum_remaining s) k (tss_esp0 s)
    (directories s) (reaper_thread s) (reaper_ready s)).
Definition set_tss_esp0 (e : Z) (w : tasks) : tasks :=
  let s := t_sched w in
  Tasks (t_cpu w) (Sched (nodes s) (threads s) (current s) (quantum_remaining s) (stack s) e
    (directories s) (reaper_thread s) (reaper_ready s)).

Abbreviation TM := (M tasks).

Definition cpu_op {A} (m : M cpu A) : TM A := zoom t_cpu_l m.
Definition list_op {A} (m : M (gmap node (list_node node)) A) : TM A := zoom nodes_l m.

(** Reading and writing through a [struct thread *]. *)
Definition get_thread (p : option tref) : TM thread := fun w =>
  match p with
  | Some t => match threads (t_sched w) !! t with Some th => Ok th w | None => Fault BadPointer end
  | None => Fault BadPointer
  end.

Definition update_thread (p : option tref) (f : thread -> thread) : TM unit := fun w =>
  match p with
  | Some t => match threads (t_sched w) !! t with
              | Some th => Ok tt (set_threads (<[t := f th]> (threads (t_sched w))) w)
              | None => Fault BadPointer
              end
  | None => Fault BadPointer
  end.

Definition set_state (p : option tref) (s : thread_state) : TM unit := update_thread p (with_state s).

(** What a routine leaves to be done after a switch. *)
Definition push_frame (f : frame) : TM unit :=
  modify (fun w => set_stack (f :: stack (t_sched w)) w).

Definition ASSERT_disabled : TM unit :=
  let* e := cpu_op interrupt_enabled in ASSERT "!interrupt_enabled()" (negb e).

Definition not_null {A} (p : option A) : bool := match p with Some _ => true | None => false end.

(** [container_of(node, struct thread, sched_node)], and for the other nodes *)
Definition sched_container (n : option node) : TM (option tref) :=
  match n with Some (SchedNode t) => ret (Some t) | _ => fail BadPointer end.
Definition wait_container (n : option node) : TM (option tref) :=
  match n with Some (WaitNode t) => ret (Some t) | _ => fail BadPointer end.
Definition zombie_container (n : option node) : TM (option tref) :=
  match n with Some (ZombieNode t) => ret (Some t) | _ => fail BadPointer end.

(** ** scheduler.c *)

Definition scheduler_init : TM unit :=
  list_op (list_init (Some ReadyHead)) ;;;
  list_op (list_init (Some ZombieHead)) ;;;
  modify (set_current None) ;;;
  modify (set_quantum SCHEDULER_QUANTUM_TICKS).

Definition scheduler_add (thread : option tref) : TM unit :=
  ASSERT_disabled ;;;
  match thread with
  | None => ret tt
  | Some t => list_op (list_push_back (Some ReadyHead) (Some (SchedNode t)))
  end.

Definition scheduler_remove (thread : option tref) : TM unit :=
  ASSERT "thread != NULL" (not_null thread) ;;;
  ASSERT_disabled ;;;
  let n := SchedNode <$> thread in
  let* p := list_op (get_prev n) in
  let* q := list_op (get_next n) in
  if is_null p && is_null q then ret tt
  else list_op (list_remove n).

Definition scheduler_current : TM (option tref) := gets (fun w => current (t_sched w)).

(** The choice in [scheduler_next] after the demotion of the current thread:
    the node after it, skipping the head. *)
Definition next_node (cur : option tref) : TM (option node) :=
  let n := SchedNode <$> cur in
  let* q := list_op (get_next n) in
  let* p := list_op (get_prev n) in
  if is_null q && is_null p then list_op (list_front (Some ReadyHead))
  else
    let* node := list_op (list_next n) in
    if bool_decide (node = Some ReadyHead) then list_op (list_front (Some ReadyHead)) else ret node.

Definition scheduler_next : TM (option tref) :=
  let* empty := list_op (list_empty (Some ReadyHead)) in
  if empty : bool then
    modify (set_current (Some IdleThread)) ;;;
    set_state (Some IdleThread) THREAD_RUNNING ;;;
    scheduler_current
  else
    let* cur := scheduler_current in
    if bool_decide (cur = None) then
      let* node := list_op (list_front (Some ReadyHead)) in
      let* t := sched_container node in
      modify (set_current t) ;;;
      set_state t THREAD_RUNNING ;;;
      scheduler_current
    else
      let* th := get_thread cur in
      (if bool_decide (state th = THREAD_RUNNING) && bool_decide (cur <> Some IdleThread)
       then set_state cur THREAD_READY else ret tt) ;;;
      let* node := next_node cur in
      let* t := sched_container node in
      modify (set_current t) ;;;
      set_state t THREAD_RUNNING ;;;
      scheduler_current.

(** [tss.c] *)
Definition tss_set_kernel_stack (esp0 : Z) : TM unit := modify (set_tss_esp0 esp0).

(** [context_switch(&old->kernel_sp, next->kernel_sp)]: the stack in use is
    saved with [old], and the one saved with [next] is in use. *)
Definition context_switch (old next : option tref) : TM unit :=
  let* k := gets (fun w => stack (t_sched w)) in
  update_thread old (with_saved k) ;;;
  let* th := get_thread next in
  modify (set_stack (saved th)).

(** [next->process->page_directory] *)
Definition page_directory_of (p : Z) : TM Z :=
  let* ds := gets (fun w => directories (t_sched w)) in require BadPointer (ds !! p).

Definition scheduler_switch : TM unit :=
  ASSERT_disabled ;;;
  let* old := scheduler_current in
  let* next := scheduler_next in
  modify (set_quantum SCHEDULER_QUANTUM_TICKS) ;;;
  if bool_decide (next = old) then ret tt
  else
    let* th := get_thread next in
    tss_set_kernel_stack (u32 (kernel_stack th + KERNEL_STACK_SIZE)) ;;;
    (if process th =? NULL then ret tt
     else
       let* dir := page_directory_of (process th) in
       cpu_op (paging_load_directory (VIRT_TO_PHYS dir))) ;;;
    context_switch old next.

Definition scheduler_tick : TM unit :=
  let* cur := scheduler_current in
  if bool_decide (cur = None) then ret tt
  else
    modify (fun w => set_quantum (u32 (quantum_remaining (t_sched w) - 1)) w) ;;;
    let* q := gets (fun w => quantum_remaining (t_sched w)) in
    if 0 <? q then ret tt else scheduler_switch.

Definition scheduler_yield : TM unit :=
  ASSERT_disabled ;;;
  let* cur := scheduler_current in
  if bool_decide (cur = None) then ret tt else scheduler_switch.

Definition scheduler_next_zombie : TM (option tref) :=
  ASSERT_disabled ;;;
  let* empty := list_op (list_empty (Some ZombieHead)) in
  if empty : bool then ret None
  else
    let* node := list_op (list_front (Some ZombieHead)) in
    list_op (list_remove node) ;;;
    zombie_container node.

Definition scheduler_idle : TM bool := gets (fun w => bool_decide (current (t_sched w) = Some IdleThread)).

Definition scheduler_get_quantum_remaining : TM Z := gets (fun w => quantum_remaining (t_sched w)).

(** ** wait.c *)

Definition wait_queue_init (q : queue) : TM unit := list_op (list_init (Some (QueueHead q))).

Definition wait_queue_add (q : queue) (thread : option tref) : TM unit :=
  ASSERT "thread != NULL" (not_null thread) ;;;
  update_thread thread (with_wait_queue (Some q)) ;;;
  list_op (list_push_back (Some (QueueHead q)) (WaitNode <$> thread)).

Definition wait_queue_remove (q : queue) : TM (option tref) :=
  let* empty := list_op (list_empty (Some (QueueHead q))) in
  if empty : bool then ret None
  else
    let* node := list_op (list_front (Some (QueueHead q))) in
    list_op (list_remove node) ;;;
    let* thread := wait_container node in
    update_thread thread (with_wait_queue None) ;;;
    ret thread.

(** [thread.c] *)
Definition thread_unblock (thread : option tref) : TM unit :=
  ASSERT "thread != NULL" (not_null thread) ;;;
  let* th := get_thread thread in
  ASSERT "thread->state == THREAD_BLOCKED" (bool_decide (state th = THREAD_BLOCKED)) ;;;
  let* st := cpu_op interrupt_save in
  set_state thread THREAD_READY ;;;
  scheduler_add thread ;;;
  cpu_op (interrupt_restore st).

Definition wait_queue_wake (q : queue) : TM unit :=
  ASSERT_disabled ;;;
  let* thread := wait_queue_remove q in
  if bool_decide (thread = None) then ret tt else thread_unblock thread.

(** [while ((thread = wait_queue_remove(queue)) != NULL) thread_unblock(thread);] *)
Definition wait_queue_wake_all (fuel : nat) (q : queue) : TM unit :=
  ASSERT_disabled ;;;
  loop fuel (fun _ : unit =>
    let* thread := wait_queue_remove q in
    if bool_decide (thread = None) then ret (inr tt)
    else thread_unblock thread ;;; ret (inl tt)) tt.

Definition wait_queue_sleep (q : queue) : TM unit :=
  ASSERT_disabled ;;;
  let* thread := scheduler_current in
  ASSERT "thread != NULL" (not_null thread) ;;;
  wait_queue_add q thread ;;;
  set_state thread THREAD_BLOCKED ;;;
  scheduler_remove thread ;;;
  scheduler_yield.

(** ** The reaper's statics, and termination *)

Definition reaper_wait_queue : TM (option queue) :=
  gets (fun w => if reaper_ready (t_sched w) then Some ReaperQueue else None).
Definition reaper_thread_get : TM (option tref) := gets (fun w => reaper_thread (t_sched w)).

Definition scheduler_push_zombie (thread : option tref) : TM unit :=
  ASSERT "thread != NULL" (not_null thread) ;;;
  ASSERT_disabled ;;;
  let* th := get_thread thread in
  ASSERT "thread->state == THREAD_TERMINATED" (bool_decide (state th = THREAD_TERMINATED)) ;;;
  let* wq := reaper_wait_queue in
  match wq with
  | None => ret tt
  | Some q =>
      list_op (list_push_back (Some ZombieHead) (ZombieNode <$> thread)) ;;;
      wait_queue_wake q
  end.

(** A walk that unlinks one node per round is bounded by their number. *)
Definition node_fuel : TM nat := gets (fun w => S (size (nodes (t_sched w)))).

Definition scheduler_terminate (thread : option tref) : TM unit :=
  ASSERT "thread != NULL" (not_null thread) ;;;
  ASSERT_disabled ;;;
  let* reaper := reaper_thread_get in
  ASSERT "thread != reaper_thread_get()" (bool_decide (thread <> reaper)) ;;;
  scheduler_remove thread ;;;
  set_state thread THREAD_TERMINATED ;;;
  match thread with
  | None => fail BadPointer
  | Some t =>
      let* fuel := node_fuel in
      wait_queue_wake_all fuel (TerminationQueue t) ;;;
      let* th := get_thread thread in
      if detached th then scheduler_push_zombie thread else ret tt
  end.

(** ** thread.c, without thread_create, thread_destroy and thread_join *)

Definition thread_block : TM unit :=
  let* cur := scheduler_current in
  ASSERT "scheduler_current() != NULL" (not_null cur) ;;;
  let* st := cpu_op interrupt_save in
  let* thread := scheduler_current in
  set_state thread THREAD_BLOCKED ;;;
  scheduler_remove thread ;;;
  push_frame (BlockReturn st) ;;;
  scheduler_yield.

Definition thread_add (thread : option tref) : TM unit :=
  ASSERT "thread != NULL" (not_null thread) ;;;
  let* th := get_thread thread in
  list_op (list_push_back (Some (ThreadsHead (process th))) (GroupNode <$> thread)) ;;;
  scheduler_add thread.

Definition thread_detach (thread : option tref) : TM unit :=
  ASSERT "thread != NULL" (not_null thread) ;;;
  let* th := get_thread thread in
  ASSERT "!thread->detached" (negb (detached th)) ;;;
  let* st := cpu_op interrupt_save in
  update_thread thread (with_detached true) ;;;
  let* th := get_thread thread in
  (if bool_decide (state th = THREAD_TERMINATED) then scheduler_push_zombie thread else ret tt) ;;;
  cpu_op (interrupt_restore st).

Definition thread_yield : TM unit :=
  let* cur := scheduler_current in
  if bool_decide (cur = None) then ret tt
  else
    let* st := cpu_op interrupt_save in
    push_frame (YieldReturn st) ;;;
    scheduler_yield.

(** [panic("terminated thread resumed")] follows in the frame. *)
Definition thread_kill_current : TM unit :=
  cpu_op interrupt_disable ;;;
  let* thread := scheduler_current in
  ASSERT "thread != NULL" (not_null thread) ;;;
  scheduler_terminate thread ;;;
  push_frame KillReturn ;;;
  scheduler_yield.

(** [scheduler_restore], which only the tests call. *)
Definition scheduler_restore (thread : option tref) : TM unit :=
  ASSERT_disabled ;;;
  ASSERT "thread != NULL" (not_null thread) ;;;
  list_op (list_init (Some ReadyHead)) ;;;
  list_op (list_node_init (SchedNode <$> thread)) ;;;
  list_op (list_push_back (Some ReadyHead) (SchedNode <$> thread)) ;;;
  modify (set_current thread) ;;;
  set_state thread THREAD_RUNNING ;;;
  modify (set_quantum SCHEDULER_QUANTUM_TICKS).

(** The timer interrupt taken while a thread runs: the gate saves EFLAGS and
    clears IF, the handler counts and acknowledges, and the scheduler may
    switch before the [iret]. *)
Definition timer_interrupt : TM unit :=
  let* st := cpu_op interrupt_save in
  push_frame (TimerReturn st) ;;;
  scheduler_tick.
