(* ===== verification/TaskSpec.v ===== *)
(** * The scheduler's view

    The abstract state of [Task]: which threads are in the ready list, in the
    wait queues, in the zombie list and in the processes' thread lists, as
    sequences. [holds] relates it to the linked nodes, [base] and [ok] are the
    invariants that tie it to the thread states. *)

From S2P Require Import Prelude Layout Machine DList ListFamily Task.

Record view : Type := View {
  v_ready : list tref;
  v_zombies : list tref;
  v_queues : gmap queue (list tref);
  v_groups : gmap Z (list tref);
}.

Definition with_ready (l : list tref) (v : view) : view := View l (v_zombies v) (v_queues v) (v_groups v).
Definition with_zombies (l : list tref) (v : view) : view := View (v_ready v) l (v_queues v) (v_groups v).
Definition with_queue (q : queue) (l : list tref) (v : view) : view :=
  View (v_ready v) (v_zombies v) (<[q := l]> (v_queues v)) (v_groups v).
Definition with_group (p : Z) (l : list tref) (v : view) : view :=
  View (v_ready v) (v_zombies v) (v_queues v) (<[p := l]> (v_groups v)).

(** The threads waiting in [q]. *)
Definition waiting (v : view) (q : queue) : list tref := default [] (v_queues v !! q).

(** The list at a head, as nodes. *)
Definition entry_of (v : view) (h : node) : option (list node) :=
  match h with
  | ReadyHead => Some (fmap (M:=list) SchedNode (v_ready v))
  | ZombieHead => Some (fmap (M:=list) ZombieNode (v_zombies v))
  | QueueHead q => fmap (M:=list) WaitNode <$> v_queues v !! q
  | ThreadsHead p => fmap (M:=list) GroupNode <$> v_groups v !! p
  | _ => None
  end.

(** The nodes of the threads exist, and are linked as [v] says. *)
Record holds (s : sched) (v : view) : Prop := {
  h_lists : exists F, lists (nodes s) F /\ forall h, F !! h = entry_of v h;
  h_nodes : forall t, is_Some (threads s !! t) -> is_Some (nodes s !! SchedNode t) /\
    is_Some (nodes s !! WaitNode t) /\ is_Some (nodes s !! ZombieNode t) /\ is_Some (nodes s !! GroupNode t);
}.

(** [w] with other nodes. *)
Definition set_nodes (n : gmap node (list_node node)) (w : tasks) : tasks := set_view nodes_l n w.

Section Views.
Implicit Types (v : view) (F : gmap node (list node)) (s : sched) (w : tasks) (t c d : tref) (q : queue).

(** In which list a thread's nodes can be. *)
Definition node_in v (x h : node) : Prop :=
  match x with
  | SchedNode t => h = ReadyHead /\ t ∈ v_ready v
  | ZombieNode t => h = ZombieHead /\ t ∈ v_zombies v
  | WaitNode t => exists q, h = QueueHead q /\ t ∈ waiting v q
  | GroupNode t => exists p, h = ThreadsHead p /\ t ∈ default [] (v_groups v !! p)
  | _ => h = x /\ is_Some (entry_of v h)
  end.

Lemma occurs_in_view v F h x : (forall h, F !! h = entry_of v h) -> occurs F h x <-> node_in v x h.
Proof.
  intros HF. unfold occurs. rewrite HF. split.
  - intros (xs & E & Hin). apply elem_of_cons in Hin as [->|Hin].
    + destruct h; try done; by eexists.
    + destruct h; cbn in E; try done.
      * injection E as <-. apply list_elem_of_fmap in Hin as (t & -> & Hin). done.
      * injection E as <-. apply list_elem_of_fmap in Hin as (t & -> & Hin). done.
      * destruct (v_queues v !! q) as [l|] eqn:El; [|done]. injection E as <-.
        apply list_elem_of_fmap in Hin as (t & -> & Hin). exists q. unfold waiting. by rewrite El.
      * destruct (v_groups v !! p) as [l|] eqn:El; [|done]. injection E as <-.
        apply list_elem_of_fmap in Hin as (t & -> & Hin). exists p. by rewrite El.
  - destruct x; cbn [node_in].
    1-4: intros [-> [xs E]]; exists xs; split; [done|left].
    + intros [-> Hin]. eexists. split; [done|]. right. by apply list_elem_of_fmap_2.
    + intros (q & -> & Hin). unfold waiting in Hin. cbn. destruct (v_queues v !! q) as [l|]; cbn in *.
      * eexists. split; [done|]. right. by apply list_elem_of_fmap_2.
      * by apply not_elem_of_nil in Hin.
    + intros [-> Hin]. eexists. split; [done|]. right. by apply list_elem_of_fmap_2.
    + intros (p & -> & Hin). cbn. destruct (v_groups v !! p) as [l|]; cbn in *.
      * eexists. split; [done|]. right. by apply list_elem_of_fmap_2.
      * by apply not_elem_of_nil in Hin.
Qed.

(** A list of the view replaced: the new view describes the new family. *)
Lemma entry_update v v' F h xs :
  (forall h, F !! h = entry_of v h) -> entry_of v' h = Some xs ->
  (forall h', h' <> h -> entry_of v' h' = entry_of v h') ->
  forall h', <[h := xs]> F !! h' = entry_of v' h'.
Proof.
  intros HF E Hrest h'. destruct (decide (h' = h)) as [->|Hne].
  - by rewrite lookup_insert_eq.
  - by rewrite lookup_insert_ne, HF, Hrest.
Qed.

Lemma holds_relisted w v v' h xs n F :
  holds (t_sched w) v ->
  (forall h, F !! h = entry_of v h) -> relisted h xs F (nodes (t_sched w)) n ->
  entry_of v' h = Some xs -> (forall h', h' <> h -> entry_of v' h' = entry_of v h') ->
  holds (t_sched (set_nodes n w)) v'.
Proof.
  intros [_ Hn] HF [Hl Hd] E Hrest. split.
  - exists (<[h := xs]> F). split; [done|]. by eapply entry_update.
  - intros t Ht. destruct (Hn t Ht) as (H1 & H2 & H3 & H4). by repeat split; apply Hd.
Qed.
(** ** The list operations on the view *)

Lemma wp_list_op {A} (m : M (gmap node (list_node node)) A) (Q : A -> tasks -> Prop) w :
  wp m (fun a n => Q a (set_nodes n w)) (nodes (t_sched w)) -> wp (list_op m) Q w.
Proof. exact (wp_zoom nodes_l m Q w). Qed.

Lemma set_nodes_id w : set_nodes (nodes (t_sched w)) w = w.
Proof. by destruct w as [c []]. Qed.

Lemma free_in_view v F s x :
  lists (nodes s) F -> (forall h, F !! h = entry_of v h) -> is_Some (nodes s !! x) ->
  (forall h, ~ node_in v x h) -> free_node (nodes s) F x.
Proof. intros Hl HF Hx Hno. split; [done|]. intros h Ho. by apply (Hno h), (occurs_in_view v F). Qed.

(** Pushing a node that is in no list at the back of the list at [h]. *)
Lemma wp_push_node w v v' h xs x (Q : unit -> tasks -> Prop) :
  holds (t_sched w) v -> is_Some (nodes (t_sched w) !! x) -> (forall h, ~ node_in v x h) ->
  entry_of v h = Some xs -> entry_of v' h = Some (xs ++ [x]) ->
  (forall h', h' <> h -> entry_of v' h' = entry_of v h') ->
  (forall n, holds (t_sched (set_nodes n w)) v' -> Q tt (set_nodes n w)) ->
  wp (list_op (list_push_back (Some h) (Some x))) Q w.
Proof.
  intros Hh Hx Hno E E' Hrest HQ. destruct (h_lists _ _ Hh) as (F & Hl & HF).
  apply wp_list_op, (wp_fam_push_back _ F h xs); [done|by rewrite HF|by eapply free_in_view|].
  intros n Hn. by eapply HQ, holds_relisted.
Qed.

Lemma wp_remove_node w v v' h l1 x l2 (Q : unit -> tasks -> Prop) :
  holds (t_sched w) v -> entry_of v h = Some (l1 ++ x :: l2) -> entry_of v' h = Some (l1 ++ l2) ->
  (forall h', h' <> h -> entry_of v' h' = entry_of v h') ->
  (forall n, holds (t_sched (set_nodes n w)) v' -> Q tt (set_nodes n w)) ->
  wp (list_op (list_remove (Some x))) Q w.
Proof.
  intros Hh E E' Hrest HQ. destruct (h_lists _ _ Hh) as (F & Hl & HF).
  apply wp_list_op, (wp_fam_remove _ F h l1 x l2); [done|by rewrite HF|].
  intros n Hn _. by eapply HQ, holds_relisted.
Qed.

Lemma wp_empty_list w v h xs (Q : bool -> tasks -> Prop) :
  holds (t_sched w) v -> entry_of v h = Some xs -> Q (bool_decide (xs = [])) w ->
  wp (list_op (list_empty (Some h))) Q w.
Proof.
  intros Hh E HQ. destruct (h_lists _ _ Hh) as (F & Hl & HF).
  apply wp_list_op, (wp_fam_empty _ F h xs); [done|by rewrite HF|]. by rewrite set_nodes_id.
Qed.

Lemma wp_front_node w v h x xs (Q : option node -> tasks -> Prop) :
  holds (t_sched w) v -> entry_of v h = Some (x :: xs) -> Q (Some x) w ->
  wp (list_op (list_front (Some h))) Q w.
Proof.
  intros Hh E HQ. destruct (h_lists _ _ Hh) as (F & Hl & HF).
  apply wp_list_op, (wp_fam_front _ F h x xs); [done|by rewrite HF|]. by rewrite set_nodes_id.
Qed.

Lemma wp_next_node_in w v h l1 x l2 (Q : option node -> tasks -> Prop) :
  holds (t_sched w) v -> entry_of v h = Some (l1 ++ x :: l2) -> Q (head (l2 ++ [h])) w ->
  wp (list_op (list_next (Some x))) Q w.
Proof.
  intros Hh E HQ. destruct (h_lists _ _ Hh) as (F & Hl & HF).
  apply wp_list_op, (wp_fam_next _ F h l1 x l2); [done|by rewrite HF|]. by rewrite set_nodes_id.
Qed.

(** The pointers of a thread's [sched_node]: both [NULL], or both not. *)
Lemma sched_pointers w v t :
  holds (t_sched w) v -> is_Some (threads (t_sched w) !! t) ->
  ((t ∉ v_ready v) /\ nodes (t_sched w) !! SchedNode t = Some (Node None None)) \/
  (t ∈ v_ready v /\ exists p q : node, nodes (t_sched w) !! SchedNode t = Some (Node (Some p) (Some q))).
Proof.
  intros Hh Ht. destruct (h_lists _ _ Hh) as (F & Hl & HF). destruct (h_nodes _ _ Hh t Ht) as (Hx & _).
  destruct (decide (t ∈ v_ready v)) as [Hin|Hin]; [right; split; [done|]|left; split; [done|]].
  - destruct (listed_pointers _ _ ReadyHead (SchedNode <$> v_ready v) (SchedNode t) Hl) as (p & q & E).
    + by rewrite HF.
    + by apply list_elem_of_fmap_2.
    + eauto.
  - apply (free_pointers _ F); [done|]. eapply free_in_view; [done..|]. by intros h [_ H].
Qed.

Lemma wp_get_ptr w (x : node) (p q : option node) (Q : option node -> tasks -> Prop) :
  nodes (t_sched w) !! x = Some (Node p q) ->
  (Q p w -> wp (list_op (get_prev (Some x))) Q w) /\ (Q q w -> wp (list_op (get_next (Some x))) Q w).
Proof.
  intros E. split; intros HQ; apply wp_list_op; [apply wp_get_prev|apply wp_get_next];
    unfold prev_of, next_of; rewrite ?E; try done; by rewrite set_nodes_id.
Qed.

(** ** Threads and the processor *)

Definition update_threads (f : gmap tref thread -> gmap tref thread) w : tasks :=
  set_threads (f (threads (t_sched w))) w.

Lemma wp_get_thread w t th (Q : thread -> tasks -> Prop) :
  threads (t_sched w) !! t = Some th -> Q th w -> wp (get_thread (Some t)) Q w.
Proof. intros E HQ. unfold wp, get_thread. by rewrite E. Qed.

Lemma wp_update_thread w t f (Q : unit -> tasks -> Prop) :
  is_Some (threads (t_sched w) !! t) -> Q tt (update_threads (alter f t) w) ->
  wp (update_thread (Some t) f) Q w.
Proof.
  intros [th E] HQ. unfold wp, update_thread. rewrite E.
  replace (<[t := f th]> (threads (t_sched w))) with (alter f t (threads (t_sched w))); [done|].
  apply map_eq. intros u. destruct (decide (u = t)) as [->|Hne].
  - by rewrite lookup_alter_eq, lookup_insert_eq, E.
  - by rewrite lookup_alter_ne, lookup_insert_ne by done.
Qed.

Lemma wp_cpu_op {A} (m : M cpu A) (Q : A -> tasks -> Prop) w :
  wp m (fun a cp => Q a (Tasks cp (t_sched w))) (t_cpu w) -> wp (cpu_op m) Q w.
Proof. exact (wp_zoom t_cpu_l m Q w). Qed.

Definition disabled w : Prop := if_set (eflags (t_cpu w)) = false.

Lemma wp_assert_disabled w (Q : unit -> tasks -> Prop) : disabled w -> Q tt w -> wp ASSERT_disabled Q w.
Proof.
  intros Hd HQ. unfold ASSERT_disabled. apply wp_bind, wp_cpu_op, wp_gets.
  unfold disabled in Hd. rewrite Hd. apply wp_assert; [done|]. by destruct w.
Qed.

(** The flags [interrupt_save] leaves. *)
Definition cli w : tasks := Tasks (Cpu (Z.ldiff (eflags (t_cpu w)) EFLAGS_IF) (cr3 (t_cpu w)) (flushed (t_cpu w))) (t_sched w).
Definition set_flags (e : Z) w : tasks := Tasks (Cpu e (cr3 (t_cpu w)) (flushed (t_cpu w))) (t_sched w).

Lemma cli_disabled w : disabled (cli w).
Proof. apply if_set_cli. Qed.

Lemma wp_interrupt_save w (Q : Z -> tasks -> Prop) :
  Q (eflags (t_cpu w)) (cli w) -> wp (cpu_op interrupt_save) Q w.
Proof. done. Qed.

Lemma wp_interrupt_restore e w (Q : unit -> tasks -> Prop) :
  Q tt (set_flags e w) -> wp (cpu_op (interrupt_restore e)) Q w.
Proof. done. Qed.

Lemma holds_threads s v ts cur quantum k e ds r rr :
  holds s v -> (forall t, is_Some (ts !! t) -> is_Some (threads s !! t)) ->
  holds (Sched (nodes s) ts cur quantum k e ds r rr) v.
Proof. intros [Hl Hn] Ht. split; [done|]. intros t H. by apply Hn, Ht. Qed.
End Views.

(** ** The invariant *)

(** The thread after [t] in the ready list; the choice of the scheduler when
    the thread [c] gives the processor up. *)
Fixpoint successor (t : tref) (l : list tref) : option tref :=
  match l with
  | [] => None
  | x :: l' => if decide (x = t) then head l' else successor t l'
  end.

Definition pick (ready : list tref) (c : tref) : tref :=
  match ready with
  | [] => IdleThread
  | x :: _ => default x (successor c ready)
  end.

Definition runnable (s : thread_state) : Prop := s = THREAD_READY \/ s = THREAD_RUNNING.

(** What holds at every call of a scheduler routine, also while the current
    thread is already marked blocked or terminated. *)
Record base (w : tasks) (v : view) : Prop := {
  b_holds : holds (t_sched w) v;
  b_idle : exists th, threads (t_sched w) !! IdleThread = Some th /\ state th = THREAD_RUNNING /\
    wait_queue th = None;
  b_ready : forall t, t ∈ v_ready v <-> t <> IdleThread /\
    exists th, threads (t_sched w) !! t = Some th /\ runnable (state th);
  b_wait : forall q t, t ∈ waiting v q <->
    exists th, threads (t_sched w) !! t = Some th /\ wait_queue th = Some q;
  b_blocked : forall t th, threads (t_sched w) !! t = Some th -> wait_queue th <> None ->
    state th = THREAD_BLOCKED;
  b_zombie : forall t, t ∈ v_zombies v ->
    exists th, threads (t_sched w) !! t = Some th /\ state th = THREAD_TERMINATED /\ detached th = true;
  b_running : forall t th, threads (t_sched w) !! t = Some th -> state th = THREAD_RUNNING ->
    t = IdleThread \/ current (t_sched w) = Some t;
  b_current : exists c, current (t_sched w) = Some c /\ is_Some (threads (t_sched w) !! c);
  b_quantum : 0 <= quantum_remaining (t_sched w) <= SCHEDULER_QUANTUM_TICKS;
  b_dirs : forall t th, threads (t_sched w) !! t = Some th -> process th <> NULL ->
    is_Some (directories (t_sched w) !! process th);
  b_termination : forall t, t <> IdleThread -> is_Some (threads (t_sched w) !! t) ->
    is_Some (v_queues v !! TerminationQueue t);
  b_reaper : reaper_ready (t_sched w) = true -> is_Some (v_queues v !! ReaperQueue);
}.

Definition running (w : tasks) : Prop := 1 <= quantum_remaining (t_sched w) /\ exists c th, current (t_sched w) = Some c /\
  threads (t_sched w) !! c = Some th /\ state th = THREAD_RUNNING.

Definition ok (w : tasks) (v : view) : Prop := base w v /\ running w.

(** *** The switch as a function *)

Definition demote (c : tref) (th : thread) : thread :=
  if bool_decide (state th = THREAD_RUNNING) && bool_decide (Some c <> Some IdleThread)
  then with_state THREAD_READY th else th.

(** After [scheduler_next]: [d] is chosen in place of [c]. *)
Definition chosen (c d : tref) (w : tasks) : tasks :=
  update_threads (alter (with_state THREAD_RUNNING) d)
    (set_current (Some d) (update_threads (alter (demote c) c) w)).

Definition load_directory (p : Z) (w : tasks) : tasks :=
  if p =? NULL then w
  else Tasks (Cpu (eflags (t_cpu w)) (VIRT_TO_PHYS (default NULL (directories (t_sched w) !! p))) (flushed (t_cpu w)))
         (t_sched w).

(** After [context_switch]. *)
Definition swap_stacks (c d : tref) (w : tasks) : tasks :=
  let w1 := update_threads (alter (with_saved (stack (t_sched w))) c) w in
  set_stack (default [] (saved <$> threads (t_sched w1) !! d)) w1.

Definition switched (c d : tref) (w : tasks) : tasks :=
  let w1 := set_quantum SCHEDULER_QUANTUM_TICKS (chosen c d w) in
  if bool_decide (Some d = Some c) then w1
  else
    match threads (t_sched w1) !! d with
    | Some th =>
        swap_stacks c d (load_directory (process th)
          (set_tss_esp0 (u32 (kernel_stack th + KERNEL_STACK_SIZE)) w1))
    | None => w1
    end.

Section Scheduler.
Implicit Types (v : view) (w : tasks) (t c d : tref) (q : queue) (l : list tref).

Lemma ready_nodup w v : holds (t_sched w) v -> NoDup (v_ready v).
Proof.
  intros Hh. destruct (h_lists _ _ Hh) as (F & Hl & HF).
  destruct (fam_list _ _ Hl ReadyHead (SchedNode <$> v_ready v)) as [Hnd _]; [by rewrite HF|].
  apply NoDup_cons in Hnd as [_ Hnd]. by eapply NoDup_fmap_1.
Qed.

Lemma successor_split t l1 l2 : t ∉ l1 -> successor t (l1 ++ t :: l2) = head l2.
Proof.
  induction l1 as [|x l1 IH]; intros Hn; cbn [app successor].
  - by rewrite decide_True.
  - rewrite decide_False by set_solver. apply IH. set_solver.
Qed.

Lemma successor_absent t l : t ∉ l -> successor t l = None.
Proof.
  induction l as [|x l IH]; intros Hn; cbn; [done|]. rewrite decide_False by set_solver. apply IH. set_solver.
Qed.

Lemma successor_in t l u : successor t l = Some u -> u ∈ l.
Proof.
  induction l as [|x l IH]; cbn; [done|]. case_decide.
  - intros E. right. destruct l as [|y l]; [done|]. injection E as ->. left.
  - intros E. right. by apply IH.
Qed.

Lemma pick_in x l c : pick (x :: l) c ∈ x :: l.
Proof.
  unfold pick. destruct (successor c (x :: l)) eqn:E; cbn [default]; [by eapply successor_in|left].
Qed.

Lemma wp_scheduler_current w (Q : option tref -> tasks -> Prop) :
  Q (current (t_sched w)) w -> wp scheduler_current Q w.
Proof. done. Qed.

Lemma alter_ext_at (f g : thread -> thread) t (m : gmap tref thread) :
  (forall th, m !! t = Some th -> f th = g th) -> alter f t m = alter g t m.
Proof.
  intros H. apply map_eq. intros u. destruct (decide (u = t)) as [->|Hne].
  - rewrite !lookup_alter_eq. destruct (m !! t) eqn:E; cbn; [by rewrite H|done].
  - by rewrite !lookup_alter_ne.
Qed.

Lemma alter_id_iff (f : thread -> thread) t (m : gmap tref thread) :
  (forall th, m !! t = Some th -> f th = th) -> alter f t m = m.
Proof.
  intros H. apply map_eq. intros u. destruct (decide (u = t)) as [->|Hne].
  - rewrite lookup_alter_eq. destruct (m !! t) eqn:E; cbn; [by rewrite H|done].
  - by rewrite lookup_alter_ne.
Qed.

(** The choice of the node after the current thread's. *)
Lemma wp_next_node w v c x l (Q : option node -> tasks -> Prop) :
  holds (t_sched w) v -> is_Some (threads (t_sched w) !! c) -> v_ready v = x :: l ->
  Q (Some (SchedNode (pick (v_ready v) c))) w -> wp (next_node (Some c)) Q w.
Proof.
  intros Hh Hc El HQ. unfold next_node. cbn [fmap option_fmap option_map].
  assert (forall (Q : option node -> tasks -> Prop), Q (Some (SchedNode x)) w ->
    wp (list_op (list_front (Some ReadyHead))) Q w) as Hfront.
  { intros Q' HQ'. eapply wp_front_node; [done| |done]. cbn. by rewrite El. }
  destruct (sched_pointers w v c Hh Hc) as [[Hno Hp]|[Hin (p & q & Hp)]];
    (apply wp_bind, (wp_get_ptr w _ _ _ _ Hp); apply wp_bind, (wp_get_ptr w _ _ _ _ Hp)); cbn [is_null andb].
  - apply Hfront. unfold pick in HQ. rewrite El in HQ, Hno. by rewrite successor_absent in HQ.
  - apply list_elem_of_split in Hin as (l1 & l2 & Es). pose proof (ready_nodup _ _ Hh) as Hnd.
    assert (c ∉ l1) as Hcl by (rewrite Es in Hnd; apply NoDup_app in Hnd; set_solver).
    apply wp_bind. eapply (wp_next_node_in w v ReadyHead (SchedNode <$> l1) _ (SchedNode <$> l2)); [done| |].
    { cbn. by rewrite Es, fmap_app. }
    assert (pick (v_ready v) c = default x (head l2)) as Ep.
    { unfold pick. rewrite <- (successor_split c l1 l2), <- Es by done. by rewrite El. }
    rewrite Ep in HQ. destruct l2 as [|y l2]; cbn [fmap list_fmap app head default] in *.
    + rewrite bool_decide_true by done. by apply Hfront.
    + rewrite bool_decide_false by done. by apply wp_ret.
Qed.

Lemma current_state w v c th :
  base w v -> current (t_sched w) = Some c -> threads (t_sched w) !! c = Some th ->
  v_ready v = [] -> demote c th = th.
Proof.
  intros Hb Hc Et El. unfold demote. case_bool_decide as Hs; [|done].
  case_bool_decide as Hi; [|done]. exfalso.
  assert (c ∈ v_ready v) as Hin.
  { apply (b_ready _ _ Hb). split; [congruence|]. exists th. split; [done|by right]. }
  rewrite El in Hin. by apply not_elem_of_nil in Hin.
Qed.

Lemma picked_exists w v c : base w v -> is_Some (threads (t_sched w) !! pick (v_ready v) c).
Proof.
  intros Hb. destruct (v_ready v) as [|x l] eqn:El.
  - destruct (b_idle _ _ Hb) as (th & E & _). by exists th.
  - pose proof (pick_in x l c) as Hin. rewrite <- El in Hin.
    apply (b_ready _ _ Hb) in Hin as (_ & th & E & _). rewrite El in E. by exists th.
Qed.

Lemma holds_same_nodes w w' v :
  holds (t_sched w) v -> nodes (t_sched w') = nodes (t_sched w) ->
  (forall t, is_Some (threads (t_sched w') !! t) -> is_Some (threads (t_sched w) !! t)) ->
  holds (t_sched w') v.
Proof.
  intros [Hl Hn] E Ht. split; rewrite E; [done|]. intros t H. by apply Hn, Ht.
Qed.

Lemma alter_is_Some (f : thread -> thread) t u (m : gmap tref thread) :
  is_Some (alter f t m !! u) <-> is_Some (m !! u).
Proof. rewrite lookup_alter_is_Some. done. Qed.

Lemma wp_scheduler_next w v c (Q : option tref -> tasks -> Prop) :
  base w v -> current (t_sched w) = Some c ->
  Q (Some (pick (v_ready v) c)) (chosen c (pick (v_ready v) c) w) -> wp scheduler_next Q w.
Proof.
  intros Hb Hc HQ. pose proof (b_holds _ _ Hb) as Hh. destruct (b_current _ _ Hb) as (c' & Ec & [th Eth]).
  rewrite Hc in Ec. injection Ec as <-. pose proof (picked_exists w v c Hb) as Hd.
  unfold scheduler_next. apply wp_bind. eapply wp_empty_list; [done|done|].
  destruct (v_ready v) as [|x l] eqn:El; cbn [fmap list_fmap].
  - rewrite bool_decide_true by done. apply wp_bind, wp_modify.
    apply wp_bind, wp_update_thread; [done|]. apply wp_gets.
    unfold chosen, update_threads at 2 in HQ. rewrite alter_id_iff in HQ.
    + cbn [pick] in HQ. by destruct w as [? []].
    + intros th' E. rewrite Eth in E. injection E as <-. by eapply current_state.
  - rewrite bool_decide_false by done. apply wp_bind, wp_scheduler_current. rewrite Hc.
    rewrite bool_decide_false by done. apply wp_bind, (wp_get_thread _ _ th); [done|].
    apply wp_bind. set (w1 := update_threads (alter (demote c) c) w).
    assert (forall Q', Q' tt w1 -> wp (if bool_decide (state th = THREAD_RUNNING) && bool_decide (Some c <> Some IdleThread)
      then set_state (Some c) THREAD_READY else ret tt) Q' w) as Hdem.
    { intros Q' HQ'. destruct (bool_decide _ && bool_decide _) eqn:Ed.
      - apply wp_update_thread; [by eexists|]. unfold w1, update_threads in HQ'.
        unfold update_threads. rewrite (alter_ext_at _ (demote c)); [done|].
        intros th' E. rewrite Eth in E. injection E as <-. unfold demote. by rewrite Ed.
      - apply wp_ret. unfold w1, update_threads in HQ'. rewrite alter_id_iff in HQ'; [by destruct w as [? []]|].
        intros th' E. rewrite Eth in E. injection E as <-. unfold demote. by rewrite Ed. }
    apply Hdem. apply wp_bind, (wp_next_node w1 v c x l); [| |done|].
    + eapply holds_same_nodes; [exact Hh|done|]. intros t. apply alter_is_Some.
    + apply alter_is_Some. by exists th.
    + rewrite El. apply wp_bind, wp_ret, wp_bind, wp_modify, wp_bind, wp_update_thread; [|by apply wp_gets].
      cbn [t_sched set_current threads]. apply alter_is_Some. done.
Qed.

Lemma chosen_threads c d w t :
  threads (t_sched (chosen c d w)) !! t =
  (fun th => (if decide (t = d) then with_state THREAD_RUNNING else id)
     ((if decide (t = c) then demote c else id) th)) <$> threads (t_sched w) !! t.
Proof.
  unfold chosen, update_threads. cbn [t_sched set_threads threads set_current].
  rewrite !lookup_alter. repeat case_decide; subst; try done; by destruct (threads (t_sched w) !! _).
Qed.

Lemma wp_scheduler_switch w v c (Q : unit -> tasks -> Prop) :
  base w v -> disabled w -> current (t_sched w) = Some c ->
  Q tt (switched c (pick (v_ready v) c) w) -> wp scheduler_switch Q w.
Proof.
  intros Hb Hd Hc HQ. set (d := pick (v_ready v) c) in *.
  pose proof (picked_exists w v c Hb) as [th0 Eth0]. fold d in Eth0.
  unfold scheduler_switch. apply wp_bind, wp_assert_disabled; [done|].
  apply wp_bind, wp_scheduler_current. apply wp_bind, (wp_scheduler_next w v c); [done..|]. fold d.
  apply wp_bind, wp_modify. rewrite Hc. unfold switched in HQ.
  case_bool_decide as Edc; [by apply wp_ret|].
  set (w1 := set_quantum SCHEDULER_QUANTUM_TICKS (chosen c d w)) in *.
  assert (exists th, threads (t_sched w1) !! d = Some th /\ process th = process th0) as (th & Eth & Ep).
  { change (threads (t_sched w1)) with (threads (t_sched (chosen c d w))). rewrite chosen_threads, Eth0.
    cbn. rewrite decide_True by done. eexists. split; [done|]. case_decide; [congruence|done]. }
  rewrite Eth in HQ. apply wp_bind, (wp_get_thread _ _ th); [done|].
  apply wp_bind, wp_modify. apply wp_bind.
  set (w2 := set_tss_esp0 _ w1) in *.
  assert (forall Q', Q' tt (load_directory (process th) w2) ->
    wp (if process th =? NULL then ret tt else
        let* dir := page_directory_of (process th) in
        cpu_op (paging_load_directory (VIRT_TO_PHYS dir))) Q' w2) as Hload.
  { intros Q' HQ'. unfold load_directory in HQ'. destruct (Z.eqb_spec (process th) NULL) as [|Hnz]; [by apply wp_ret|].
    destruct (b_dirs _ _ Hb d th0 Eth0) as [dir Edir]; [congruence|]. rewrite <- Ep in Edir.
    change (directories (t_sched w2)) with (directories (t_sched w)) in HQ'. rewrite Edir in HQ'.
    apply wp_bind, wp_bind, wp_gets. cbn beta. change (directories (t_sched w2)) with (directories (t_sched w)).
    by apply (wp_require _ _ _ _ dir). }
  apply Hload. set (w3 := load_directory _ w2) in *.
  assert (threads (t_sched w3) = threads (t_sched w1)) as Et3 by (unfold w3, load_directory; by destruct (process th =? NULL)).
  apply wp_bind, wp_gets. apply wp_bind, wp_update_thread.
  { rewrite Et3. change (threads (t_sched w1)) with (threads (t_sched (chosen c d w))). rewrite chosen_threads.
    destruct (b_current _ _ Hb) as (c' & Ec & [thc Ethc]). rewrite Hc in Ec. injection Ec as <-. by rewrite Ethc. }
  assert (threads (t_sched (update_threads (alter (with_saved (stack (t_sched w3))) c) w3)) !! d = Some th) as E.
  { unfold update_threads. cbn [t_sched set_threads threads]. rewrite Et3, lookup_alter_ne by congruence. done. }
  eapply wp_bind, wp_get_thread; [exact E|]. apply wp_modify.
  unfold swap_stacks in HQ. cbv zeta in HQ. by rewrite E in HQ.
Qed.

(** What a switch from [c] to [d] does to a thread. *)
Definition after_switch (c d : tref) (k : list frame) t (th : thread) : thread :=
  let th := if decide (t = c) then demote c th else th in
  let th := if decide (t = d) then with_state THREAD_RUNNING th else th in
  if decide (t = c /\ c <> d) then with_saved k th else th.

Record switches (c d : tref) w w' : Prop := {
  sw_nodes : nodes (t_sched w') = nodes (t_sched w);
  sw_threads : forall t, threads (t_sched w') !! t =
    after_switch c d (stack (t_sched w)) t <$> threads (t_sched w) !! t;
  sw_current : current (t_sched w') = Some d;
  sw_quantum : quantum_remaining (t_sched w') = SCHEDULER_QUANTUM_TICKS;
  sw_stack : stack (t_sched w') = if decide (c = d) then stack (t_sched w)
    else default [] (saved <$> threads (t_sched w) !! d);
  sw_flags : eflags (t_cpu w') = eflags (t_cpu w);
  sw_directories : directories (t_sched w') = directories (t_sched w);
  sw_reaper : reaper_thread (t_sched w') = reaper_thread (t_sched w) /\
    reaper_ready (t_sched w') = reaper_ready (t_sched w);
}.

Lemma switches_switched c d w :
  is_Some (threads (t_sched w) !! d) -> switches c d w (switched c d w).
Proof.
  intros [th0 E0]. unfold switched. case_bool_decide as Edc.
  - injection Edc as ->. split; try done; [|by rewrite decide_True].
    intros t. change (threads (t_sched (set_quantum _ (chosen c c w)))) with (threads (t_sched (chosen c c w))).
    rewrite chosen_threads. unfold after_switch. destruct (threads (t_sched w) !! t); [|done]. cbn.
    repeat case_decide; naive_solver.
  - assert (c <> d) as Hne by congruence. set (w1 := set_quantum _ _).
    assert (forall t, threads (t_sched w1) !! t = threads (t_sched (chosen c d w)) !! t) as E1 by done.
    rewrite (E1 d), chosen_threads, E0. cbn [fmap option_fmap option_map].
    set (th := (if decide (d = d) then _ else _) _). set (w3 := load_directory _ _).
    assert (t_sched w3 = t_sched (set_tss_esp0 (u32 (kernel_stack th + KERNEL_STACK_SIZE)) w1) /\
      eflags (t_cpu w3) = eflags (t_cpu w)) as [E3 F3].
    { unfold w3, load_directory. by destruct (_ =? NULL). }
    unfold swap_stacks, update_threads. split; unfold set_stack, set_threads; cbn [nodes threads current
      quantum_remaining stack directories reaper_thread reaper_ready t_sched t_cpu]; rewrite ?E3; try done.
    + intros t. cbn [t_sched threads set_tss_esp0 w1 set_quantum stack]. rewrite lookup_alter.
      unfold after_switch. case_decide as Ec.
      * subst t. rewrite (chosen_threads c d w c). destruct (threads (t_sched w) !! c); [|done]. cbn.
        destruct (decide (c = c)), (decide (c = d)), (decide (c = c /\ c <> d)); naive_solver.
      * rewrite (chosen_threads c d w t). destruct (threads (t_sched w) !! t); [|done]. cbn.
        repeat case_decide; naive_solver.
    + rewrite decide_False by done. cbn [t_sched threads set_tss_esp0 w1 set_quantum].
      rewrite lookup_alter_ne, chosen_threads, E0 by done. cbn. destruct (decide (d = d)), (decide (d = c)); try done; congruence.
Qed.

Lemma after_switch_fields c d k t th :
  wait_queue (after_switch c d k t th) = wait_queue th /\ detached (after_switch c d k t th) = detached th /\
  process (after_switch c d k t th) = process th /\
  state (after_switch c d k t th) =
    (if decide (t = d) then THREAD_RUNNING
     else if decide (t = c /\ t <> IdleThread /\ state th = THREAD_RUNNING) then THREAD_READY else state th).
Proof.
  unfold after_switch, demote.
  destruct (decide (t = c)) as [Hc|Hc], (decide (t = d)) as [Hd|Hd]; cbn;
    repeat first [case_bool_decide | case_decide]; cbn; repeat split; try done; naive_solver.
Qed.

(** Giving the processor to the thread the scheduler picks restores the
    invariant, whatever the old thread's state was. *)
Lemma switches_ok w w' v c :
  base w v -> current (t_sched w) = Some c -> switches c (pick (v_ready v) c) w w' -> ok w' v.
Proof.
  intros Hb Hc Hs. set (d := pick (v_ready v) c) in *. pose proof (picked_exists w v c Hb) as [thd Ed]. fold d in Ed.
  assert (forall t th', threads (t_sched w') !! t = Some th' -> exists th,
    threads (t_sched w) !! t = Some th /\ th' = after_switch c d (stack (t_sched w)) t th) as Hinv.
  { intros t th' E. rewrite (sw_threads _ _ _ _ Hs) in E.
    destruct (threads (t_sched w) !! t) as [th|] eqn:Et; [|done]. injection E as <-. by exists th. }
  assert (forall t th, threads (t_sched w) !! t = Some th ->
    threads (t_sched w') !! t = Some (after_switch c d (stack (t_sched w)) t th)) as Hfwd.
  { intros t th E. by rewrite (sw_threads _ _ _ _ Hs), E. }
  assert (d = IdleThread \/ d ∈ v_ready v) as Hdr.
  { unfold d. destruct (v_ready v) as [|x l]; [by left|right; apply pick_in]. }
  assert (runnable (state thd)) as Hrd.
  { destruct Hdr as [->|Hin]; [destruct (b_idle _ _ Hb) as (th & E & Es & _); right; congruence|].
    apply (b_ready _ _ Hb) in Hin as (_ & th & E & Hr). congruence. }
  split; [split|].
  - eapply holds_same_nodes; [apply Hb|apply Hs|]. intros t [th' E]. apply Hinv in E as (th & E & _). eauto.
  - destruct (b_idle _ _ Hb) as (th & E & Es & Ew). eexists. split; [by apply Hfwd|].
    destruct (after_switch_fields c d (stack (t_sched w)) IdleThread th) as (-> & _ & _ & ->).
    split; [|done]. repeat case_decide; naive_solver.
  - intros t. rewrite (b_ready _ _ Hb t). split; intros [Hi (th & E & Hr)]; (split; [done|]).
    + eexists. split; [by apply Hfwd|].
      destruct (after_switch_fields c d (stack (t_sched w)) t th) as (_ & _ & _ & ->).
      repeat case_decide; [by right|by left|done].
    + apply Hinv in E as (th0 & E & ->). exists th0. split; [done|].
      destruct (after_switch_fields c d (stack (t_sched w)) t th0) as (_ & _ & _ & Es). rewrite Es in Hr.
      revert Hr. repeat case_decide; [|by intros; right; naive_solver|done].
      intros _. subst t. rewrite Ed in E. by injection E as <-.
  - intros q t. rewrite (b_wait _ _ Hb q t). split; intros (th & E & Hq).
    + eexists. split; [by apply Hfwd|]. by destruct (after_switch_fields c d (stack (t_sched w)) t th) as (-> & _).
    + apply Hinv in E as (th0 & E & ->). exists th0. split; [done|].
      by destruct (after_switch_fields c d (stack (t_sched w)) t th0) as (Eq & _); rewrite Eq in Hq.
  - intros t th' E Hw. apply Hinv in E as (th & E & ->).
    destruct (after_switch_fields c d (stack (t_sched w)) t th) as (Eq & _ & _ & ->). rewrite Eq in Hw.
    pose proof (b_blocked _ _ Hb t th E Hw) as Hbl. case_decide as Htd.
    + subst t. rewrite Ed in E. injection E as <-. destruct Hrd; congruence.
    + case_decide; [naive_solver congruence|done].
  - intros t Ht. destruct (b_zombie _ _ Hb t Ht) as (th & E & Es & Edt). eexists. split; [by apply Hfwd|].
    destruct (after_switch_fields c d (stack (t_sched w)) t th) as (_ & -> & _ & ->). split; [|done].
    case_decide as Htd; [subst t; rewrite Ed in E; injection E as <-; destruct Hrd; congruence|].
    case_decide; [naive_solver congruence|done].
  - intros t th' E Hr. apply Hinv in E as (th & E & ->). rewrite (sw_current _ _ _ _ Hs).
    destruct (after_switch_fields c d (stack (t_sched w)) t th) as (_ & _ & _ & Es). rewrite Es in Hr.
    case_decide; [subst; by right|]. case_decide as Hcr; [done|].
    destruct (b_running _ _ Hb t th E Hr) as [|Hcur]; [by left|]. rewrite Hc in Hcur. injection Hcur as <-.
    destruct (decide (c = IdleThread)); [by left|]. by destruct Hcr.
  - exists d. split; [apply Hs|]. eexists. by apply Hfwd.
  - rewrite (sw_quantum _ _ _ _ Hs). unfold SCHEDULER_QUANTUM_TICKS. lia.
  - intros t th' E Hp. apply Hinv in E as (th & E & ->). rewrite (sw_directories _ _ _ _ Hs).
    destruct (after_switch_fields c d (stack (t_sched w)) t th) as (_ & _ & Epr & _). rewrite Epr in *.
    by apply (b_dirs _ _ Hb t).
  - intros t Hi [th' E]. apply Hinv in E as (th & E & _). apply (b_termination _ _ Hb); [done|by exists th].
  - destruct (sw_reaper _ _ _ _ Hs) as [_ ->]. apply Hb.
  - split; [rewrite (sw_quantum _ _ _ _ Hs); unfold SCHEDULER_QUANTUM_TICKS; lia|].
    exists d. eexists. split; [apply Hs|]. split; [by apply Hfwd|].
    destruct (after_switch_fields c d (stack (t_sched w)) d thd) as (_ & _ & _ & ->). by rewrite decide_True.
Qed.

Lemma wp_switch w v c (Q : unit -> tasks -> Prop) :
  base w v -> disabled w -> current (t_sched w) = Some c ->
  (forall w', switches c (pick (v_ready v) c) w w' -> ok w' v -> Q tt w') -> wp scheduler_switch Q w.
Proof.
  intros Hb Hd Hc HQ. eapply wp_scheduler_switch; [done..|].
  assert (switches c (pick (v_ready v) c) w (switched c (pick (v_ready v) c) w)) as Hs
    by by apply switches_switched, (picked_exists w v c Hb).
  apply HQ; [done|]. by eapply switches_ok.
Qed.
End Scheduler.

(** ** One thread changes *)

(** [w'] differs from [w] in the thread [t], the nodes and the processor. *)
Record updates (t : tref) (f : thread -> thread) (w w' : tasks) : Prop := {
  up_threads : threads (t_sched w') = alter f t (threads (t_sched w));
  up_current : current (t_sched w') = current (t_sched w);
  up_quantum : quantum_remaining (t_sched w') = quantum_remaining (t_sched w);
  up_stack : stack (t_sched w') = stack (t_sched w);
  up_directories : directories (t_sched w') = directories (t_sched w);
  up_reaper : reaper_thread (t_sched w') = reaper_thread (t_sched w);
  up_reaper_ready : reaper_ready (t_sched w') = reaper_ready (t_sched w);
}.

(** The view changes for the thread [t] only, and as its new record [th]
    wants it. *)
Record follows (t : tref) (th : thread) (v v' : view) : Prop := {
  fo_ready : t ∈ v_ready v' <-> runnable (state th);
  fo_ready_other : forall u, u <> t -> u ∈ v_ready v' <-> u ∈ v_ready v;
  fo_wait : forall q, t ∈ waiting v' q <-> wait_queue th = Some q;
  fo_wait_other : forall u q, u <> t -> u ∈ waiting v' q <-> u ∈ waiting v q;
  fo_blocked : wait_queue th <> None -> state th = THREAD_BLOCKED;
  fo_zombie : t ∈ v_zombies v' -> state th = THREAD_TERMINATED /\ detached th = true;
  fo_zombie_other : forall u, u <> t -> u ∈ v_zombies v' -> u ∈ v_zombies v;
  fo_queues : forall q, is_Some (v_queues v !! q) -> is_Some (v_queues v' !! q);
}.

Section Updates.
Implicit Types (v : view) (w : tasks) (t c d u : tref) (q : queue) (f : thread -> thread).

Lemma base_updates w w' v v' t f th :
  base w v -> updates t f w w' -> threads (t_sched w) !! t = Some th -> t <> IdleThread ->
  holds (t_sched w') v' -> follows t (f th) v v' -> process (f th) = process th ->
  (state (f th) = THREAD_RUNNING -> current (t_sched w) = Some t) ->
  base w' v'.
Proof.
  intros Hb Hu Et Hi Hh Hf Hp Hrun.
  assert (forall u th', threads (t_sched w') !! u = Some th' ->
    (u = t /\ th' = f th) \/ (u <> t /\ threads (t_sched w) !! u = Some th')) as Hinv.
  { intros u th'. rewrite (up_threads _ _ _ _ Hu). destruct (decide (u = t)) as [->|Hne].
    - rewrite lookup_alter_eq, Et. intros [= <-]. by left.
    - rewrite lookup_alter_ne by done. by right. }
  assert (threads (t_sched w') !! t = Some (f th)) as Eself
    by by rewrite (up_threads _ _ _ _ Hu), lookup_alter_eq, Et.
  assert (forall u, u <> t -> threads (t_sched w') !! u = threads (t_sched w) !! u) as Eother.
  { intros u Hne. by rewrite (up_threads _ _ _ _ Hu), lookup_alter_ne. }
  split; try done.
  - rewrite Eother by done. apply Hb.
  - intros u. destruct (decide (u = t)) as [->|Hne].
    + rewrite (fo_ready _ _ _ _ Hf), Eself. naive_solver.
    + rewrite (fo_ready_other _ _ _ _ Hf) by done. rewrite (b_ready _ _ Hb u), Eother by done. done.
  - intros q u. destruct (decide (u = t)) as [->|Hne].
    + rewrite (fo_wait _ _ _ _ Hf), Eself. naive_solver.
    + rewrite (fo_wait_other _ _ _ _ Hf) by done. rewrite (b_wait _ _ Hb q u), Eother by done. done.
  - intros u th' [[-> ->]|[_ E]]%Hinv; [apply Hf|by apply (b_blocked _ _ Hb u)].
  - intros u Hin. destruct (decide (u = t)) as [->|Hne].
    + exists (f th). split; [done|]. by apply Hf.
    + rewrite Eother by done. apply (b_zombie _ _ Hb). by apply (fo_zombie_other _ _ _ _ Hf).
  - rewrite (up_current _ _ _ _ Hu). intros u th' [[-> ->]|[_ E]]%Hinv; [by right; apply Hrun|].
    by apply (b_running _ _ Hb u).
  - rewrite (up_current _ _ _ _ Hu). destruct (b_current _ _ Hb) as (c & Ec & Hc). exists c. split; [done|].
    destruct (decide (c = t)) as [->|]; [by rewrite Eself|by rewrite Eother].
  - rewrite (up_quantum _ _ _ _ Hu). apply Hb.
  - rewrite (up_directories _ _ _ _ Hu). intros u th' [[-> ->]|[_ E]]%Hinv Hnz.
    + rewrite Hp in *. by apply (b_dirs _ _ Hb t).
    + by apply (b_dirs _ _ Hb u).
  - intros u Hne [th' [[-> _]|[_ E]]%Hinv]; apply (fo_queues _ _ _ _ Hf), (b_termination _ _ Hb); eauto.
  - rewrite (up_reaper_ready _ _ _ _ Hu). intros Hr. by apply (fo_queues _ _ _ _ Hf), (b_reaper _ _ Hb).
Qed.

(** The current thread still runs if the change spares a running thread. *)
Lemma running_updates w w' t f :
  updates t f w w' ->
  (forall th, threads (t_sched w) !! t = Some th -> state th = THREAD_RUNNING -> state (f th) = THREAD_RUNNING) ->
  running w -> running w'.
Proof.
  intros Hu Hf (Hq & c & thc & Ec & Et & Es). split; [by rewrite (up_quantum _ _ _ _ Hu)|]. exists c. destruct (decide (t = c)) as [->|Hne].
  - exists (f thc). rewrite (up_current _ _ _ _ Hu), (up_threads _ _ _ _ Hu), lookup_alter_eq, Et. auto.
  - exists thc. by rewrite (up_current _ _ _ _ Hu), (up_threads _ _ _ _ Hu), lookup_alter_ne.
Qed.

Lemma updates_cpu t f w w' cp : updates t f w w' -> updates t f w (Tasks cp (t_sched w')).
Proof. by intros []. Qed.

Lemma updates_from_cpu t f w w' cp : updates t f (Tasks cp (t_sched w)) w' -> updates t f w w'.
Proof. by intros []. Qed.

Lemma base_cpu w cp v : base w v -> base (Tasks cp (t_sched w)) v.
Proof. by intros []. Qed.

Lemma ok_cpu w cp v : ok w v -> ok (Tasks cp (t_sched w)) v.
Proof. intros [H1 H2]. split; [by apply base_cpu|done]. Qed.

(** *** Waiting lists *)

Lemma waiting_queue v q l q' : waiting (with_queue q l v) q' = if decide (q' = q) then l else waiting v q'.
Proof. unfold waiting. cbn. rewrite lookup_insert. by repeat case_decide; subst. Qed.

Lemma waiting_entry v q ts : v_queues v !! q = Some ts -> waiting v q = ts.
Proof. unfold waiting. by intros ->. Qed.

(** *** [thread_unblock] *)

(** [t] made ready, at the end of the ready list. *)
Definition readied t w w' : Prop := updates t (with_state THREAD_READY) w w' /\ t_cpu w' = t_cpu w.

Lemma wp_thread_unblock w v t th (Q : unit -> tasks -> Prop) :
  base w v -> threads (t_sched w) !! t = Some th -> state th = THREAD_BLOCKED -> wait_queue th = None ->
  (forall w', readied t w w' -> base w' (with_ready (v_ready v ++ [t]) v) -> (running w -> running w') -> Q tt w') ->
  wp (thread_unblock (Some t)) Q w.
Proof.
  intros Hb Et Es Ew HQ. pose proof (b_holds _ _ Hb) as Hh.
  assert (t <> IdleThread) as Hi.
  { intros ->. destruct (b_idle _ _ Hb) as (th0 & E0 & S0 & _). congruence. }
  assert (t ∉ v_ready v) as Hnr.
  { intros (_ & th0 & E0 & [S0|S0])%(b_ready _ _ Hb); congruence. }
  unfold thread_unblock. apply wp_bind, wp_assert; [done|]. apply wp_bind, (wp_get_thread _ _ th); [done|].
  apply wp_bind, wp_assert; [by rewrite bool_decide_true|].
  apply wp_bind, wp_interrupt_save. apply wp_bind, wp_update_thread; [by eexists|].
  set (w1 := update_threads _ (cli w)).
  assert (holds (t_sched w1) v) as Hh1.
  { eapply (holds_same_nodes w); [done|done|]. intros u. apply alter_is_Some. }
  apply wp_bind. unfold scheduler_add. apply wp_bind, wp_assert_disabled; [apply cli_disabled|].
  eapply (wp_push_node w1 v (with_ready (v_ready v ++ [t]) v)); [done| | |done| |by intros [] |].
  - destruct (h_nodes _ _ Hh1 t) as (H & _); [|exact H]. apply alter_is_Some. by exists th.
  - by intros h [_ H].
  - cbn. by rewrite fmap_app.
  - intros n Hn. apply wp_interrupt_restore. set (w2 := set_flags _ _).
    assert (updates t (with_state THREAD_READY) w w2) as Hu by done.
    assert (base w2 (with_ready (v_ready v ++ [t]) v)) as Hb2.
    { eapply base_updates; [exact Hb|exact Hu|exact Et|done|exact Hn| |done|done]. split; cbn; try done.
      - split; [by left|]. intros _. set_solver.
      - intros u Hne. set_solver.
      - intros q. unfold waiting. cbn. change (t ∈ waiting v q <-> wait_queue th = Some q).
        rewrite (b_wait _ _ Hb). naive_solver.
      - intros Hz. destruct (b_zombie _ _ Hb t Hz) as (th0 & E0 & S0 & _). congruence. }
    apply HQ; [split; [done|by destruct w as [[]]]|exact Hb2|].
    apply (running_updates _ _ _ _ Hu). intros th0 E0. congruence.
Qed.

(** *** Wait queues *)

Lemma updates_trans t f g w w' w'' :
  updates t f w w' -> updates t g w' w'' -> updates t (g ∘ f) w w''.
Proof.
  intros [E1] [E2]. split; try congruence. rewrite E2, E1. apply map_eq. intros u. rewrite !lookup_alter.
  repeat case_decide; try done; by destruct (threads (t_sched w) !! t).
Qed.

Lemma queue_member w v q t ts :
  base w v -> v_queues v !! q = Some (t :: ts) ->
  exists th, threads (t_sched w) !! t = Some th /\ wait_queue th = Some q /\ state th = THREAD_BLOCKED /\
    t <> IdleThread /\ (t ∉ v_ready v) /\ (t ∉ ts).
Proof.
  intros Hb E. assert (t ∈ waiting v q) as Hin by (rewrite (waiting_entry _ _ _ E); left).
  apply (b_wait _ _ Hb) in Hin as (th & Et & Ew). exists th. split; [done|]. split; [done|].
  assert (state th = THREAD_BLOCKED) as Es by (apply (b_blocked _ _ Hb t); [done|congruence]).
  split; [done|]. split; [|split].
  - intros ->. destruct (b_idle _ _ Hb) as (th0 & E0 & S0 & _). congruence.
  - intros (_ & th0 & E0 & [S0|S0])%(b_ready _ _ Hb); congruence.
  - destruct (h_lists _ _ (b_holds _ _ Hb)) as (F & Hl & HF).
    destruct (fam_list _ _ Hl (QueueHead q) (WaitNode <$> t :: ts)) as [Hnd _]; [by rewrite HF; cbn; rewrite E|].
    apply NoDup_cons in Hnd as [_ Hnd]. apply NoDup_fmap_1 in Hnd. by apply NoDup_cons in Hnd as [? _].
Qed.

Lemma other_queue w v q q' t ts : base w v -> v_queues v !! q = Some (t :: ts) -> t ∈ waiting v q' -> q' = q.
Proof.
  intros Hb E Hin. destruct (queue_member _ _ _ _ _ Hb E) as (th & Et & Ew & _).
  apply (b_wait _ _ Hb) in Hin as (th' & Et' & Ew'). congruence.
Qed.

Lemma wp_wait_queue_remove w v q ts (Q : option tref -> tasks -> Prop) :
  base w v -> v_queues v !! q = Some ts ->
  (ts = [] -> Q None w) ->
  (forall t ts' w', ts = t :: ts' -> updates t (with_wait_queue None) w w' -> t_cpu w' = t_cpu w ->
     base w' (with_queue q ts' v) -> (running w -> running w') -> Q (Some t) w') ->
  wp (wait_queue_remove q) Q w.
Proof.
  intros Hb E HQn HQ. pose proof (b_holds _ _ Hb) as Hh.
  unfold wait_queue_remove. apply wp_bind. eapply wp_empty_list; [done|by cbn; rewrite E|].
  destruct ts as [|t ts]; cbn [fmap list_fmap].
  { rewrite bool_decide_true by done. by apply wp_ret, HQn. }
  rewrite bool_decide_false by done. apply wp_bind. eapply wp_front_node; [done|by cbn; rewrite E|].
  destruct (queue_member _ _ _ _ _ Hb E) as (th & Et & Ew & Es & Hi & Hnr & Hnt).
  apply wp_bind. eapply (wp_remove_node w v (with_queue q ts v) (QueueHead q) [] _ (WaitNode <$> ts)); [done|..].
  - cbn. by rewrite E.
  - cbn. by rewrite lookup_insert_eq.
  - intros [] Hne; try done. cbn. rewrite lookup_insert_ne by congruence. done.
  - intros n Hn. apply wp_bind, wp_ret, wp_bind, wp_update_thread; [by exists th|]. apply wp_ret.
    set (w' := update_threads _ _).
    assert (updates t (with_wait_queue None) w w') as Hu by done.
    assert (holds (t_sched w') (with_queue q ts v)) as Hh'.
    { eapply holds_same_nodes; [exact Hn|done|]. intros u. apply alter_is_Some. }
    enough (base w' (with_queue q ts v) /\ (running w -> running w')) as [H1 H2]
      by (by eapply HQ).
    assert (base w' (with_queue q ts v)) as Hb'.
    { eapply base_updates; [exact Hb|exact Hu|exact Et|exact Hi|exact Hh'| |done|].
      - split; cbn [wait_queue with_wait_queue state]; try done.
        + split; [done|]. intros [|]; congruence.
        + intros q'. rewrite waiting_queue. case_decide as Eq; [naive_solver|]. split; [|done].
          intros Hin. by destruct Eq; eapply other_queue.
        + intros u q' Hne. rewrite waiting_queue. case_decide as Eq; [|done]. subst q'.
          rewrite (waiting_entry _ _ _ E). set_solver.
        + intros Hz. destruct (b_zombie _ _ Hb t Hz) as (th0 & E0 & S0 & _). congruence.
        + intros q' Hq. cbn. destruct (decide (q' = q)) as [->|].
          * by rewrite lookup_insert_eq.
          * by rewrite lookup_insert_ne.
      - cbn. congruence. }
    split; [exact Hb'|]. by apply (running_updates _ _ _ _ Hu).
Qed.

(** [t] was taken out of its queue and made ready. *)
Definition woken t w w' : Prop :=
  updates t (with_state THREAD_READY ∘ with_wait_queue None) w w' /\ t_cpu w' = t_cpu w.

Lemma wp_wake_removed w w1 v q t ts (Q : unit -> tasks -> Prop) :
  base w v -> v_queues v !! q = Some (t :: ts) ->
  updates t (with_wait_queue None) w w1 -> t_cpu w1 = t_cpu w -> base w1 (with_queue q ts v) ->
  (forall w', woken t w w' -> base w' (with_ready (v_ready v ++ [t]) (with_queue q ts v)) ->
     (running w1 -> running w') -> Q tt w') ->
  wp (thread_unblock (Some t)) Q w1.
Proof.
  intros Hok E Hu Hc Hok1 HQ. destruct (queue_member _ _ _ _ _ Hok E) as (th & Et & _ & Es & _).
  apply (wp_thread_unblock w1 (with_queue q ts v) t (with_wait_queue None th)); [done| |done|done|].
  - by rewrite (up_threads _ _ _ _ Hu), lookup_alter_eq, Et.
  - intros w' [Hu' Hc'] Hok' Hrun. apply HQ; [|done..]. split; [by eapply updates_trans|congruence].
Qed.

Lemma wp_wait_queue_wake w v q ts (Q : unit -> tasks -> Prop) :
  base w v -> disabled w -> v_queues v !! q = Some ts ->
  (ts = [] -> Q tt w) ->
  (forall t ts' w', ts = t :: ts' -> woken t w w' ->
     base w' (with_ready (v_ready v ++ [t]) (with_queue q ts' v)) -> (running w -> running w') -> Q tt w') ->
  wp (wait_queue_wake q) Q w.
Proof.
  intros Hok Hd E HQn HQ. unfold wait_queue_wake. apply wp_bind, wp_assert_disabled; [done|].
  apply wp_bind. eapply wp_wait_queue_remove; [done|done| |].
  - intros ->. rewrite bool_decide_true by done. by apply wp_ret, HQn.
  - intros t ts' w1 -> Hu Hc Hok1 Hr1. rewrite bool_decide_false by done.
    eapply wp_wake_removed; [exact Hok|exact E|done..|]. intros w' Hw Hok' Hr2. eapply HQ; eauto.
Qed.

(** All threads of [ts] woken, in order. *)
Fixpoint woken_all (ts : list tref) w w' : Prop :=
  match ts with
  | [] => w' = w
  | t :: ts' => exists w1, woken t w w1 /\ woken_all ts' w1 w'
  end.

Lemma queue_length w v q ts : holds (t_sched w) v -> v_queues v !! q = Some ts ->
  (length ts < size (nodes (t_sched w)))%nat.
Proof.
  intros Hh E. destruct (h_lists _ _ Hh) as (F & Hl & HF).
  pose proof (fam_list _ _ Hl (QueueHead q) (WaitNode <$> ts)) as Hlist. rewrite HF in Hlist.
  cbn in Hlist. rewrite E in Hlist. specialize (Hlist eq_refl). pose proof Hlist as [Hnd _].
  assert (length (QueueHead q :: (WaitNode <$> ts)) = S (length ts)) as El by (cbn; by rewrite length_fmap).
  enough (length (QueueHead q :: (WaitNode <$> ts)) <= size (nodes (t_sched w)))%nat by lia.
  rewrite <- (size_list_to_set (C := gset node)) by done. rewrite <- size_dom. apply subseteq_size.
  intros x Hx%elem_of_list_to_set. apply elem_of_dom. by eapply is_list_defined.
Qed.

Lemma woken_disabled t w w' : woken t w w' -> disabled w -> disabled w'.
Proof. unfold disabled. by intros [_ ->]. Qed.

Lemma with_ready_assoc v q a l l' ts :
  with_ready ((l ++ [a]) ++ l') (with_queue q [] (with_ready (l ++ [a]) (with_queue q ts v))) =
  with_ready (l ++ a :: l') (with_queue q [] v).
Proof.
  unfold with_ready, with_queue. cbn. by rewrite <- app_assoc, insert_insert_eq.
Qed.

Lemma wp_wake_loop ts : forall fuel w v q (Q : unit -> tasks -> Prop),
  base w v -> v_queues v !! q = Some ts -> (length ts < fuel)%nat ->
  (forall w', woken_all ts w w' -> base w' (with_ready (v_ready v ++ ts) (with_queue q [] v)) ->
     (running w -> running w') -> Q tt w') ->
  wp (loop fuel (fun _ : unit =>
    let* thread := wait_queue_remove q in
    if bool_decide (thread = None) then ret (inr tt)
    else thread_unblock thread ;;; ret (inl tt)) tt) Q w.
Proof.
  induction ts as [|t ts IH]; intros [|fuel] w v q Q Hok E Hf HQ; try (cbn in Hf; lia); cbn [loop].
  - apply wp_bind, wp_bind. eapply wp_wait_queue_remove; [done|done| |done].
    intros _. rewrite bool_decide_true by done. do 2 apply wp_ret. apply HQ; [done| |done].
    rewrite app_nil_r. destruct v as [r z qs g]. cbn in E. unfold with_ready, with_queue. cbn. by rewrite insert_id.
  - apply wp_bind, wp_bind. eapply wp_wait_queue_remove; [done|done|done|].
    intros t' ts' w1 [= <- <-] Hu Hc Hok1 Hr1. rewrite bool_decide_false by done.
    apply wp_bind. eapply wp_wake_removed; [exact Hok|exact E|done..|]. intros w2 Hw Hok2 Hr2.
    apply wp_ret. eapply IH; [exact Hok2|by cbn; rewrite lookup_insert_eq|cbn in Hf; lia|].
    intros w3 Hall Hok3 Hr3. apply HQ; [by exists w2| |by auto].
    cbn [v_ready with_ready] in Hok3. by rewrite with_ready_assoc in Hok3.
Qed.

Lemma wp_wait_queue_wake_all w v q ts fuel (Q : unit -> tasks -> Prop) :
  base w v -> disabled w -> v_queues v !! q = Some ts -> (length ts < fuel)%nat ->
  (forall w', woken_all ts w w' -> base w' (with_ready (v_ready v ++ ts) (with_queue q [] v)) ->
     (running w -> running w') -> Q tt w') ->
  wp (wait_queue_wake_all fuel q) Q w.
Proof.
  intros Hok Hd E Hf HQ. unfold wait_queue_wake_all. apply wp_bind, wp_assert_disabled; [done|].
  by apply (wp_wake_loop ts fuel w v).
Qed.

(** *** Giving up the processor *)

(** The state a thread leaves behind when it blocks: marked, out of the ready
    list; [f] is what happens to its record. *)
Lemma wp_scheduler_remove w v t (Q : unit -> tasks -> Prop) :
  holds (t_sched w) v -> is_Some (threads (t_sched w) !! t) -> disabled w ->
  (forall n, holds (t_sched (set_nodes n w)) (with_ready (filter (fun u => u <> t) (v_ready v)) v) ->
     Q tt (set_nodes n w)) ->
  wp (scheduler_remove (Some t)) Q w.
Proof.
  intros Hh Ht Hd HQ. unfold scheduler_remove. apply wp_bind, wp_assert; [done|].
  apply wp_bind, wp_assert_disabled; [done|]. cbn [fmap option_fmap option_map].
  destruct (sched_pointers w v t Hh Ht) as [[Hno Hp]|[Hin (p & q & Hp)]];
    (apply wp_bind, (wp_get_ptr w _ _ _ _ Hp); apply wp_bind, (wp_get_ptr w _ _ _ _ Hp)); cbn [is_null andb].
  - apply wp_ret. rewrite <- (set_nodes_id w). apply HQ. rewrite set_nodes_id, filter_ne_id by done. by destruct v.
  - pose proof (ready_nodup _ _ Hh) as Hnd. apply list_elem_of_split in Hin as (l1 & l2 & El).
    rewrite El in Hnd. assert (t ∉ l1 ++ l2) as Hn.
    { apply NoDup_app in Hnd as (_ & H1 & H2). apply NoDup_cons in H2 as [H2 _]. set_solver. }
    apply (wp_remove_node w v (with_ready (l1 ++ l2) v) ReadyHead (SchedNode <$> l1) _ (SchedNode <$> l2)); [done|..].
    + cbn. by rewrite El, fmap_app.
    + cbn. by rewrite fmap_app.
    + by intros [].
    + intros n Hn'. apply HQ. rewrite El, filter_ne_split by done. done.
Qed.

Lemma base_stack w k v : base w v -> base (set_stack k w) v.
Proof. intros []. split; try done. by eapply holds_same_nodes. Qed.

Lemma ok_stack w k v : ok w v -> ok (set_stack k w) v.
Proof. intros [H1 H2]. split; [by apply base_stack|done]. Qed.

(** The current thread leaves the ready list with a state of its own; the
    result is what [scheduler_yield] may be called in. *)
Definition remove_ready t v : view := with_ready (filter (fun u => u <> t) (v_ready v)) v.

Lemma base_leave w w' v v' c f th :
  base w v -> current (t_sched w) = Some c -> c <> IdleThread -> threads (t_sched w) !! c = Some th ->
  wait_queue th = None -> updates c f w w' -> holds (t_sched w') v' ->
  v_ready v' = filter (fun u => u <> c) (v_ready v) -> v_zombies v' = v_zombies v ->
  (forall u q, u <> c -> u ∈ waiting v' q <-> u ∈ waiting v q) ->
  (forall q, c ∈ waiting v' q <-> wait_queue (f th) = Some q) ->
  (forall q, is_Some (v_queues v !! q) -> is_Some (v_queues v' !! q)) ->
  process (f th) = process th -> state (f th) = THREAD_BLOCKED \/
    state (f th) = THREAD_TERMINATED /\ wait_queue (f th) = None ->
  runnable (state th) -> base w' v'.
Proof.
  intros Hb Hc Hi Et Ew Hu Hh Er Ez Hwo Hws Hq Hp Hs Hr.
  eapply base_updates; [exact Hb|exact Hu|exact Et|exact Hi|exact Hh| |exact Hp|].
  - split; try done.
    + rewrite Er, list_elem_of_filter. split; [tauto|]. unfold runnable. naive_solver congruence.
    + intros u Hne. rewrite Er, list_elem_of_filter. tauto.
    + naive_solver congruence.
    + rewrite Ez. intros Hz. destruct (b_zombie _ _ Hb c Hz) as (th0 & E0 & S0 & _).
      destruct Hr; congruence.
    + intros u Hne. by rewrite Ez.
  - naive_solver congruence.
Qed.

Lemma running_current w v c : ok w v -> current (t_sched w) = Some c ->
  exists th, threads (t_sched w) !! c = Some th /\ state th = THREAD_RUNNING /\ wait_queue th = None.
Proof.
  intros [Hb (_ & c' & th & Ec & Et & Es)] Hc. rewrite Hc in Ec. injection Ec as <-. exists th.
  split; [done|]. split; [done|]. destruct (wait_queue th) eqn:Ew; [|done].
  assert (state th = THREAD_BLOCKED); [|congruence]. apply (b_blocked _ _ Hb c); [done|congruence].
Qed.

Lemma wp_yield w v c (Q : unit -> tasks -> Prop) :
  base w v -> disabled w -> current (t_sched w) = Some c ->
  (forall w', switches c (pick (v_ready v) c) w w' -> ok w' v -> Q tt w') -> wp scheduler_yield Q w.
Proof.
  intros Hb Hd Hc HQ. unfold scheduler_yield. apply wp_bind, wp_assert_disabled; [done|].
  apply wp_bind, wp_scheduler_current. rewrite Hc, bool_decide_false by done. by eapply wp_switch.
Qed.

(** The current thread [c] went to sleep in [q], behind [ts]. *)
Definition asleep (q : queue) c w w1 : Prop :=
  updates c (with_state THREAD_BLOCKED ∘ with_wait_queue (Some q)) w w1 /\ t_cpu w1 = t_cpu w.

Definition slept (q : queue) c (ts : list tref) v : view := remove_ready c (with_queue q (ts ++ [c]) v).

Lemma wp_wait_queue_sleep w v q c ts (Q : unit -> tasks -> Prop) :
  ok w v -> disabled w -> current (t_sched w) = Some c -> c <> IdleThread -> v_queues v !! q = Some ts ->
  (forall w1 w', asleep q c w w1 -> base w1 (slept q c ts v) ->
     switches c (pick (v_ready (slept q c ts v)) c) w1 w' -> ok w' (slept q c ts v) -> Q tt w') ->
  wp (wait_queue_sleep q) Q w.
Proof.
  intros Hok Hd Hc Hi E HQ. pose proof (proj1 Hok) as Hb. pose proof (b_holds _ _ Hb) as Hh.
  destruct (running_current _ _ _ Hok Hc) as (th & Et & Es & Ew).
  unfold wait_queue_sleep. apply wp_bind, wp_assert_disabled; [done|].
  apply wp_bind, wp_scheduler_current. rewrite Hc. apply wp_bind, wp_assert; [done|].
  apply wp_bind. unfold wait_queue_add. apply wp_bind, wp_assert; [done|].
  apply wp_bind, wp_update_thread; [by exists th|]. set (wa := update_threads _ w).
  assert (holds (t_sched wa) v) as Hha.
  { eapply holds_same_nodes; [exact Hh|done|]. intros u. apply alter_is_Some. }
  cbn [fmap option_fmap option_map].
  eapply (wp_push_node wa v (with_queue q (ts ++ [c]) v) (QueueHead q)); [done| | |by cbn; rewrite E|..].
  - destruct (h_nodes _ _ Hh c) as (_ & H & _); [by exists th|exact H].
  - intros h (q' & _ & Hin). apply (b_wait _ _ Hb) in Hin as (th' & E' & Ew'). congruence.
  - cbn. rewrite lookup_insert_eq. cbn. by rewrite fmap_app.
  - intros [] Hne; try done. cbn. rewrite lookup_insert_ne by congruence. done.
  - intros n Hn. set (wb := set_nodes n wa) in *.
    apply wp_bind, wp_update_thread; [by apply alter_is_Some; exists th|]. set (wc := update_threads _ wb).
    assert (holds (t_sched wc) (with_queue q (ts ++ [c]) v)) as Hhc.
    { eapply holds_same_nodes; [exact Hn|done|]. intros u. apply alter_is_Some. }
    apply wp_bind, (wp_scheduler_remove wc (with_queue q (ts ++ [c]) v)); [done| |done|].
    { apply alter_is_Some, alter_is_Some. by exists th. }
    intros n' Hn'. set (wd := set_nodes n' wc) in *.
    assert (asleep q c w wd) as Ha by (split; [by eapply (updates_trans _ _ _ w wb)|done]).
    assert (base wd (slept q c ts v)) as Hbd.
    { eapply (base_leave w wd v); [exact Hb|exact Hc|exact Hi|exact Et|exact Ew|apply Ha|exact Hn'|done..| | | | | |].
      - intros u q' Hne. change (u ∈ waiting (with_queue q (ts ++ [c]) v) q' <-> u ∈ waiting v q').
        rewrite waiting_queue. case_decide as Eq; [|done]. subst q'. rewrite (waiting_entry _ _ _ E). set_solver.
      - intros q'. change (c ∈ waiting (with_queue q (ts ++ [c]) v) q' <-> Some q = Some q').
        rewrite waiting_queue. case_decide as Eq; [subst; set_solver|].
        rewrite (b_wait _ _ Hb). naive_solver congruence.
      - intros q' Hq'. cbn. destruct (decide (q' = q)) as [->|].
        + by rewrite lookup_insert_eq.
        + by rewrite lookup_insert_ne.
      - done.
      - by left.
      - by right. }
    apply (wp_yield wd (slept q c ts v) c); [exact Hbd|done|done|]. intros w' Hs Hok'. by eapply HQ.
Qed.
End Updates.
