(* ===== verification/TaskOps.v ===== *)
(** * Preemption, termination and zombies

    What the timer, [thread_yield], [thread_kill_current] and the zombie list
    do, in terms of the view of [TaskSpec]. *)

From S2P Require Import Prelude Layout Machine DList ListFamily Task TaskSpec.

Section Ops.
Implicit Types (v : view) (w : tasks) (t c d u : tref) (q : queue) (f : thread -> thread).

(** ** The timer *)

Lemma base_quantum w n v : base w v -> 0 <= n <= SCHEDULER_QUANTUM_TICKS -> base (set_quantum n w) v.
Proof. intros [] Hn. split; try done. by eapply holds_same_nodes. Qed.

(** One tick: the quantum counts down, and its end switches. *)
Lemma wp_scheduler_tick w v c (Q : unit -> tasks -> Prop) :
  ok w v -> disabled w -> current (t_sched w) = Some c ->
  (1 < quantum_remaining (t_sched w) -> ok (set_quantum (quantum_remaining (t_sched w) - 1) w) v ->
     Q tt (set_quantum (quantum_remaining (t_sched w) - 1) w)) ->
  (forall w', quantum_remaining (t_sched w) = 1 -> switches c (pick (v_ready v) c) (set_quantum 0 w) w' ->
     ok w' v -> Q tt w') ->
  wp scheduler_tick Q w.
Proof.
  intros [Hb [Hq Hrun]] Hd Hc HQk HQs. pose proof (b_quantum _ _ Hb) as Hq5. unfold SCHEDULER_QUANTUM_TICKS in Hq5.
  unfold scheduler_tick. apply wp_bind, wp_scheduler_current. rewrite Hc, bool_decide_false by done.
  apply wp_bind, wp_modify. apply wp_bind, wp_gets.
  rewrite (u32_id (quantum_remaining (t_sched w) - 1)) by (unfold is_u32; lia).
  set (n := quantum_remaining (t_sched w) - 1) in *. change (quantum_remaining _) with n.
  assert (base (set_quantum n w) v) as Hbn by (apply base_quantum; [done|unfold SCHEDULER_QUANTUM_TICKS; lia]).
  destruct (Z.ltb_spec 0 n) as [Hlt|Hle].
  - apply wp_ret, HQk; [lia|]. split; [done|]. split; [exact Hlt || (cbn; lia)|exact Hrun].
  - assert (n = 0) as E0 by lia. rewrite E0 in *.
    apply (wp_switch _ v c); [done..|]. intros w' Hs Hok. apply HQs; [lia|done..].
Qed.

(** The timer interrupt of a running thread. *)
Lemma wp_timer_interrupt w v c (Q : unit -> tasks -> Prop) :
  ok w v -> current (t_sched w) = Some c ->
  (forall w', ok w' v -> (exists n, t_sched w' = t_sched (set_quantum n (set_stack (TimerReturn (eflags (t_cpu w)) :: stack (t_sched w)) w))) ->
     t_cpu w' = t_cpu (cli w) -> Q tt w') ->
  (forall w1 w', t_sched w1 = t_sched (set_quantum 0 (set_stack (TimerReturn (eflags (t_cpu w)) :: stack (t_sched w)) w)) ->
     t_cpu w1 = t_cpu (cli w) -> switches c (pick (v_ready v) c) w1 w' -> ok w' v -> Q tt w') ->
  wp timer_interrupt Q w.
Proof.
  intros Hok Hc HQk HQs. unfold timer_interrupt. apply wp_bind, wp_interrupt_save. apply wp_bind, wp_modify.
  set (w1 := set_stack _ _).
  apply (wp_scheduler_tick w1 v c).
  - by apply ok_stack, ok_cpu.
  - exact (cli_disabled w).
  - done.
  - intros _ Hok1. apply HQk; [done| |done]. by eexists.
  - intros w' _ Hs Hok'. by apply (HQs (set_quantum 0 w1) w').
Qed.

(** ** The end of a thread *)

Definition pushed_zombie t v : view := with_zombies (v_zombies v ++ [t]) v.

(** After [scheduler_push_zombie]: the reaper, if it waits, is woken. *)
Lemma wp_push_zombie w v t th (Q : unit -> tasks -> Prop) :
  base w v -> disabled w -> threads (t_sched w) !! t = Some th -> state th = THREAD_TERMINATED ->
  detached th = true -> t ∉ v_zombies v ->
  (reaper_ready (t_sched w) = false -> Q tt w) ->
  (forall w1 w' v', base w1 (pushed_zombie t v) -> updates t id w w1 -> t_cpu w1 = t_cpu w ->
     (w' = w1 /\ v' = pushed_zombie t v \/ exists r rs, waiting v ReaperQueue = r :: rs /\ woken r w1 w' /\
        v' = with_ready (v_ready v ++ [r]) (with_queue ReaperQueue rs (pushed_zombie t v))) ->
     base w' v' -> (running w -> running w') -> Q tt w') ->
  wp (scheduler_push_zombie (Some t)) Q w.
Proof.
  intros Hb Hd Et Es Edt Hn HQn HQ. pose proof (b_holds _ _ Hb) as Hh. unfold scheduler_push_zombie.
  apply wp_bind, wp_assert; [done|]. apply wp_bind, wp_assert_disabled; [done|].
  apply wp_bind, (wp_get_thread _ _ th); [done|]. apply wp_bind, wp_assert; [by rewrite bool_decide_true|].
  apply wp_bind, wp_gets. destruct (reaper_ready (t_sched w)) eqn:Er; [|by apply wp_ret, HQn].
  destruct (b_reaper _ _ Hb Er) as [ts Ets].
  apply wp_bind. cbn [fmap option_fmap option_map].
  eapply (wp_push_node w v (pushed_zombie t v) ZombieHead); [done| | |done| | |].
  - destruct (h_nodes _ _ Hh t) as (_ & _ & H & _); [by exists th|exact H].
  - by intros h [_ H].
  - cbn. by rewrite fmap_app.
  - by intros [].
  - intros n Hn'. set (w1 := set_nodes n w) in *.
    assert (updates t id w w1) as Hu.
    { split; try done. cbn. symmetry. by apply alter_id_iff. }
    assert (base w1 (pushed_zombie t v)) as Hb1.
    { assert (t <> IdleThread) as Hi.
      { intros ->. destruct (b_idle _ _ Hb) as (th0 & E0 & S0 & _). congruence. }
      eapply base_updates; [exact Hb|exact Hu|exact Et|exact Hi|exact Hn'| |done|cbn; congruence].
      split; cbn [v_ready v_zombies v_queues pushed_zombie with_zombies id]; try done.
      - rewrite (b_ready _ _ Hb). unfold runnable. naive_solver congruence.
      - intros q. change (t ∈ waiting v q <-> wait_queue th = Some q). rewrite (b_wait _ _ Hb). naive_solver.
      - by apply (b_blocked _ _ Hb t).
      - intros u Hne. set_solver. }
    assert (running w -> running w1) as Hr1 by by apply (running_updates _ _ _ _ Hu).
    eapply (wp_wait_queue_wake w1); [exact Hb1|done|exact Ets| |].
    + intros ->. apply (HQ w1 w1 (pushed_zombie t v)); [done|done|done|by left|done|done].
    + intros r rs w' -> Hw Hb' Hr'. eapply (HQ w1 w'); [done|done|done| |exact Hb'|by auto].
      right. exists r, rs. split; [by apply waiting_entry|done].
Qed.
End Ops.
