(* ===== verification/Sync.v ===== *)
(** * Mutexes, semaphores, condition variables

    [kernel/task/mutex.c], [semaphore.c] and [condvar.c], and the machine that
    runs threads calling them: [run_frame] is what a thread does when a
    routine it called goes on, and [step] takes one such frame, one call by
    the running thread, or one timer interrupt. *)

From S2P Require Import Prelude Layout Machine DList Task.

(** [struct mutex] and [struct semaphore], by address; their wait queues are
    [MutexQueue m] and [SemaphoreQueue s]. *)
Record sync : Type := Sync {
  s_tasks : tasks;
  owners : gmap Z (option tref);
  counts : gmap Z Z;
}.

Definition tasks_l : lens sync tasks := Lens s_tasks (fun w s => Sync w (owners s) (counts s)).

Abbreviation SM := (M sync).

Definition task_op {A} (m : M tasks A) : SM A := zoom tasks_l m.

Definition get_owner (m : Z) : SM (option tref) :=
  let* os := gets owners in require BadPointer (os !! m).
Definition set_owner (m : Z) (t : option tref) : SM unit :=
  get_owner m ;;; modify (fun s => Sync (s_tasks s) (<[m := t]> (owners s)) (counts s)).
Definition get_count (a : Z) : SM Z :=
  let* cs := gets counts in require BadPointer (cs !! a).
Definition set_count (a n : Z) : SM unit :=
  get_count a ;;; modify (fun s => Sync (s_tasks s) (owners s) (<[a := n]> (counts s))).

Definition save : SM Z := task_op (cpu_op interrupt_save).
Definition restore (st : Z) : SM unit := task_op (cpu_op (interrupt_restore st)).
Definition push (f : frame) : SM unit := task_op (push_frame f).

(** ** mutex.c *)

Definition mutex_init (m : Z) : SM unit :=
  ASSERT "mutex != NULL" (negb (m =? NULL)) ;;;
  set_owner m None ;;;
  task_op (wait_queue_init (MutexQueue m)).

Definition mutex_lock (m : Z) : SM unit :=
  ASSERT "mutex != NULL" (negb (m =? NULL)) ;;;
  let* st := save in
  let* o := get_owner m in
  if bool_decide (o = None) then
    let* cur := task_op scheduler_current in
    set_owner m cur ;;;
    restore st
  else
    push (LockReturn m st) ;;;
    task_op (wait_queue_sleep (MutexQueue m)).

(** [thread_unblock] comes after [interrupt_restore], so a timer interrupt can
    come between them: it is a frame. *)
Definition mutex_unlock (m : Z) : SM unit :=
  ASSERT "mutex != NULL" (negb (m =? NULL)) ;;;
  let* o := get_owner m in
  let* cur := task_op scheduler_current in
  ASSERT "mutex->owner == scheduler_current()" (bool_decide (o = cur)) ;;;
  let* st := save in
  let* thread := task_op (wait_queue_remove (MutexQueue m)) in
  match thread with
  | Some t =>
      set_owner m (Some t) ;;;
      restore st ;;;
      push (UnlockWake t)
  | None =>
      set_owner m None ;;;
      restore st
  end.

(** ** semaphore.c *)

Definition semaphore_init (a count : Z) : SM unit :=
  ASSERT "sem != NULL" (negb (a =? NULL)) ;;;
  set_count a count ;;;
  task_op (wait_queue_init (SemaphoreQueue a)).

Definition semaphore_acquire (a : Z) : SM unit :=
  ASSERT "sem != NULL" (negb (a =? NULL)) ;;;
  let* st := save in
  let* n := get_count a in
  if 0 <? n then
    set_count a (u32 (n - 1)) ;;;
    restore st
  else
    push (AcquireReturn a st) ;;;
    task_op (wait_queue_sleep (SemaphoreQueue a)).

(** The early return does not restore the interrupt flag. *)
Definition semaphore_release (a : Z) : SM unit :=
  ASSERT "sem != NULL" (negb (a =? NULL)) ;;;
  let* st := save in
  let* thread := task_op (wait_queue_remove (SemaphoreQueue a)) in
  if bool_decide (thread <> None) then task_op (thread_unblock thread)
  else
    let* n := get_count a in
    set_count a (u32 (n + 1)) ;;;
    restore st.

(** ** condvar.c *)

Definition condvar_init (c : Z) : SM unit :=
  ASSERT "cv != NULL" (negb (c =? NULL)) ;;;
  task_op (wait_queue_init (CondvarQueue c)).

(** What follows [mutex_unlock] is in the frames. *)
Definition condvar_wait (c m : Z) : SM unit :=
  ASSERT "cv != NULL" (negb (c =? NULL)) ;;;
  ASSERT "mutex != NULL" (negb (m =? NULL)) ;;;
  let* st := save in
  push (CondvarSleep c m st) ;;;
  mutex_unlock m.

Definition condvar_signal (c : Z) : SM unit :=
  ASSERT "cv != NULL" (negb (c =? NULL)) ;;;
  let* st := save in
  task_op (wait_queue_wake (CondvarQueue c)) ;;;
  restore st.

Definition condvar_broadcast (c : Z) : SM unit :=
  ASSERT "cv != NULL" (negb (c =? NULL)) ;;;
  let* st := save in
  let* fuel := task_op node_fuel in
  task_op (wait_queue_wake_all fuel (CondvarQueue c)) ;;;
  restore st.

(** ** The machine *)

(** A routine goes on after a switch or in the next critical section. The
    frames of [thread_join] and of the reaper belong to [Lifecycle]. *)
Definition run_frame (f : frame) : SM unit :=
  match f with
  | ThreadStart | IdleStart => task_op (cpu_op interrupt_enable)
  | TimerReturn st | BlockReturn st | YieldReturn st | LockReturn _ st | AcquireReturn _ st => restore st
  | KillReturn => fail (Panicked "terminated thread resumed")
  | UnlockWake t => task_op (thread_unblock (Some t))
  | CondvarSleep c m st =>
      push (CondvarWoken m st) ;;;
      task_op (wait_queue_sleep (CondvarQueue c))
  | CondvarWoken m st =>
      push (CondvarRelock m) ;;;
      restore st
  | CondvarRelock m => mutex_lock m
  | JoinReturn _ _ | ReaperWoken _ => ret tt
  end.

(** The calls a running thread can make. *)
Inductive call : Type :=
  | Yield
  | Lock (m : Z) | Unlock (m : Z)
  | Acquire (a : Z) | Release (a : Z)
  | Wait (c m : Z) | Signal (c : Z) | Broadcast (c : Z)
  | Kill.

Definition run_call (o : call) : SM unit :=
  match o with
  | Yield => task_op thread_yield
  | Lock m => mutex_lock m
  | Unlock m => mutex_unlock m
  | Acquire a => semaphore_acquire a
  | Release a => semaphore_release a
  | Wait c m => condvar_wait c m
  | Signal c => condvar_signal c
  | Broadcast c => condvar_broadcast c
  | Kill => task_op thread_kill_current
  end.

(** What happens next on the processor. *)
Inductive event : Type := Call (o : call) | Return | Timer.

(** The top frame is popped and run. *)
Definition return_step : SM unit :=
  let* k := gets (fun s => stack (t_sched (s_tasks s))) in
  match k with
  | [] => ret tt
  | f :: k' => task_op (modify (set_stack k')) ;;; run_frame f
  end.

Definition run_event (e : event) : SM unit :=
  match e with
  | Call o => run_call o
  | Return => return_step
  | Timer => task_op timer_interrupt
  end.

(** When an event can happen: calls need an empty stack and a thread other
    than the idle thread, and keep to the rules of the interfaces; the timer
    needs the interrupt flag. *)
Definition live_current (s : sync) (t : tref) : Prop :=
  current (t_sched (s_tasks s)) = Some t /\ t <> IdleThread /\ stack (t_sched (s_tasks s)) = [].

(** [list_init] was called for the queue. *)
Definition initialised_queue (q : queue) (s : sync) : Prop :=
  exists a b : node, nodes (t_sched (s_tasks s)) !! QueueHead q = Some (Node (Some a) (Some b)).

Definition rules (o : call) (t : tref) (s : sync) : Prop :=
  match o with
  | Yield => True
  | Lock m => is_Some (owners s !! m)
  | Unlock m => owners s !! m = Some (Some t)
  | Acquire a | Release a => is_Some (counts s !! a)
  | Wait c m => owners s !! m = Some (Some t) /\ c <> NULL /\ initialised_queue (CondvarQueue c) s
  | Signal c | Broadcast c => c <> NULL /\ initialised_queue (CondvarQueue c) s
  | Kill => Some t <> reaper_thread (t_sched (s_tasks s))
  end.

Definition enabled (e : event) (s : sync) : Prop :=
  match e with
  | Call o => exists t, live_current s t /\ rules o t s
  | Return => stack (t_sched (s_tasks s)) <> []
  | Timer => if_set (eflags (t_cpu (s_tasks s))) = true
  end.

Inductive step (s : sync) (e : event) (s' : sync) : Prop :=
  | step_intro : enabled e s -> run_event e s = Ok tt s' -> step s e s'.

Inductive steps : sync -> list event -> sync -> Prop :=
  | steps_nil s : steps s [] s
  | steps_cons s e s1 es s2 : step s e s1 -> steps s1 es s2 -> steps s (e :: es) s2.
