(* ===== verification/SyncSpec.v ===== *)
(** * The synchronisation primitives keep their promises

    What the primitives rely on about a thread is its [summary]: the queue it
    waits in, whether it is blocked or terminated, and the frames it has still
    to run. A context switch changes no summary, so every routine changes the
    summaries of the threads it names and of no other; the invariant [sync_ok]
    is stated over them. *)

From S2P Require Import Prelude Layout Machine DList ListFamily Task TaskSpec TaskOps Sync.

Record summary : Type := Summary {
  su_queue : option queue;
  su_blocked : bool;
  su_dead : bool;
  su_frames : list frame;
}.

Definition summary_of (w : tasks) (u : tref) : option summary :=
  (fun th => Summary (wait_queue th) (bool_decide (state th = THREAD_BLOCKED))
     (bool_decide (state th = THREAD_TERMINATED))
     (if decide (current (t_sched w) = Some u) then stack (t_sched w) else saved th)) <$> threads (t_sched w) !! u.

Abbreviation summaries := (tref -> option summary).

Definition su_set (t : tref) (x : summary) (g : summaries) : summaries :=
  fun u => if decide (u = t) then Some x else g u.

Section Summaries.
Implicit Types (v : view) (w : tasks) (t c d u : tref) (q : queue) (f : thread -> thread).

Lemma summary_switches w w' v c u :
  base w v -> current (t_sched w) = Some c -> switches c (pick (v_ready v) c) w w' ->
  summary_of w' u = summary_of w u.
Proof.
  intros Hb Hc Hs. set (d := pick (v_ready v) c) in *. unfold summary_of.
  rewrite (sw_threads _ _ _ _ Hs), (sw_current _ _ _ _ Hs), (sw_stack _ _ _ _ Hs), Hc.
  destruct (threads (t_sched w) !! u) as [th|] eqn:Eu; [|done]. cbn [fmap option_fmap option_map].
  destruct (after_switch_fields c d (stack (t_sched w)) u th) as (-> & _ & _ & Es).
  assert (u = d -> runnable (state th)) as Hd.
  { intros ->. unfold d in *. destruct (v_ready v) as [|x l] eqn:El.
    - destruct (b_idle _ _ Hb) as (th0 & E0 & S0 & _). cbn in Eu. right. congruence.
    - pose proof (pick_in x l c) as Hin. rewrite <- El in Hin.
      apply (b_ready _ _ Hb) in Hin as (_ & th0 & E0 & S0). rewrite El in E0. congruence. }
  assert (state th = THREAD_BLOCKED <-> state (after_switch c d (stack (t_sched w)) u th) = THREAD_BLOCKED) as Hbl.
  { rewrite Es. unfold runnable in Hd. repeat case_decide; naive_solver congruence. }
  assert (state th = THREAD_TERMINATED <-> state (after_switch c d (stack (t_sched w)) u th) = THREAD_TERMINATED) as Hte.
  { rewrite Es. unfold runnable in Hd. repeat case_decide; naive_solver congruence. }
  f_equal. f_equal.
  - apply bool_decide_ext. tauto.
  - apply bool_decide_ext. tauto.
  - unfold after_switch. destruct (decide (c = d)) as [Ecd|Ncd].
    + subst d. rewrite <- Ecd. destruct (decide (Some c = Some u)) as [[= <-]|Hne]; [done|].
      destruct (decide (u = c)); [congruence|]. by rewrite decide_False by tauto.
    + destruct (decide (Some d = Some u)) as [Edu|Ndu].
      * rewrite decide_False by congruence. injection Edu as ->. by rewrite Eu.
      * rewrite (decide_False (P := u = d)) by congruence.
        destruct (decide (Some c = Some u)) as [Ecu|Ncu].
        -- injection Ecu as ->. by rewrite (decide_True (P := _ /\ _)) by done.
        -- rewrite (decide_False (P := _ /\ _)), (decide_False (P := u = c)) by naive_solver. done.
Qed.

Lemma summary_updates w w' t f u :
  updates t f w w' -> (forall th, saved (f th) = saved th) ->
  summary_of w' u = if decide (u = t)
    then (fun th => Summary (wait_queue (f th)) (bool_decide (state (f th) = THREAD_BLOCKED))
            (bool_decide (state (f th) = THREAD_TERMINATED))
            (if decide (current (t_sched w) = Some u) then stack (t_sched w) else saved th)) <$> threads (t_sched w) !! u
    else summary_of w u.
Proof.
  intros Hu Hf. unfold summary_of. rewrite (up_threads _ _ _ _ Hu), (up_current _ _ _ _ Hu), (up_stack _ _ _ _ Hu).
  destruct (decide (u = t)) as [->|Hne].
  - rewrite lookup_alter_eq. destruct (threads (t_sched w) !! t); [|done]. cbn. by rewrite Hf.
  - by rewrite lookup_alter_ne.
Qed.

Lemma summary_sched w w' u : t_sched w' = t_sched w -> summary_of w' u = summary_of w u.
Proof. intros E. unfold summary_of. by rewrite E. Qed.

(** Pushing and popping frames of the current thread. *)
Lemma summary_stack w k c x u :
  current (t_sched w) = Some c -> summary_of w c = Some x ->
  summary_of (set_stack k w) u =
    su_set c (Summary (su_queue x) (su_blocked x) (su_dead x) k) (summary_of w) u.
Proof.
  intros Hc Hx. unfold summary_of, su_set in *. cbn [t_sched set_stack threads current stack]. rewrite Hc in *.
  destruct (decide (u = c)) as [->|Hne].
  - destruct (threads (t_sched w) !! c) as [th|]; [|done]. cbn in *. injection Hx as <-. cbn.
    by rewrite decide_True.
  - destruct (decide (Some c = Some u)); [congruence|done].
Qed.

(** The current thread's summary: running, with the stack in use. *)
Lemma summary_current w v c : ok w v -> current (t_sched w) = Some c ->
  summary_of w c = Some (Summary None false false (stack (t_sched w))).
Proof.
  intros Hok Hc. destruct (running_current _ _ _ Hok Hc) as (th & Et & Es & Ew). unfold summary_of.
  rewrite Et, Hc. cbn. rewrite Ew, Es, decide_True by done. done.
Qed.

(** A waiting thread's summary. *)
Lemma summary_waiting w v q t ts :
  base w v -> v_queues v !! q = Some (t :: ts) ->
  exists k, summary_of w t = Some (Summary (Some q) true false k).
Proof.
  intros Hb E. destruct (queue_member _ _ _ _ _ Hb E) as (th & Et & Ew & Es & _). unfold summary_of.
  rewrite Et. cbn. rewrite Ew, Es. eexists. done.
Qed.

(** *** The effect of the routines on summaries *)

Definition queues_of v : queue -> Prop := fun q => is_Some (v_queues v !! q).

(** What every routine below leaves: the invariant of the scheduler, and the
    wait queues that were there. *)
Definition fine v w' : Prop := exists v', ok w' v' /\ forall q, queues_of v q -> queues_of v' q.

Definition changes (g : summaries) w w' : Prop := forall u, summary_of w' u = g u.

Lemma queues_with_queue q l v q' : queues_of v q' -> queues_of (with_queue q l v) q'.
Proof.
  unfold queues_of. intros Hq. cbn. destruct (decide (q' = q)) as [->|Hne].
  - by rewrite lookup_insert_eq.
  - by rewrite lookup_insert_ne.
Qed.

Lemma queue_entry v q : queues_of v q -> exists ts, v_queues v !! q = Some ts.
Proof. by intros [ts E]; exists ts. Qed.

Lemma su_sleep w v q c (Q : unit -> tasks -> Prop) :
  ok w v -> disabled w -> current (t_sched w) = Some c -> c <> IdleThread -> queues_of v q ->
  (forall w', fine v w' -> disabled w' ->
     (forall u, summary_of w' u = su_set c (Summary (Some q) true false (stack (t_sched w))) (summary_of w) u) -> Q tt w') ->
  wp (wait_queue_sleep q) Q w.
Proof.
  intros Hok Hd Hc Hi [ts E] HQ. destruct (running_current _ _ _ Hok Hc) as (th & Et & Es & Ew).
  eapply wp_wait_queue_sleep; [done..|]. intros w1 w' [Hu Hcpu] Hb1 Hs Hok'. apply HQ.
  - exists (slept q c ts v). split; [done|]. intros q' Hq. by apply queues_with_queue.
  - unfold disabled in *. by rewrite (sw_flags _ _ _ _ Hs), Hcpu.
  - intros u. rewrite (summary_switches w1 w' _ c u Hb1) by (done || by rewrite (up_current _ _ _ _ Hu)).
    rewrite (summary_updates _ _ _ _ u Hu) by done. unfold su_set.
    destruct (decide (u = c)) as [->|]; [|done]. rewrite Et, Hc. cbn. by rewrite decide_True.
Qed.

Lemma su_remove w v q (Q : option tref -> tasks -> Prop) :
  ok w v -> queues_of v q ->
  ((forall t x, summary_of w t = Some x -> su_queue x <> Some q) -> Q None w) ->
  (forall t k w', fine v w' -> t_cpu w' = t_cpu w -> current (t_sched w') = current (t_sched w) ->
     stack (t_sched w') = stack (t_sched w) -> reaper_thread (t_sched w') = reaper_thread (t_sched w) ->
     summary_of w t = Some (Summary (Some q) true false k) ->
     (forall u, summary_of w' u = su_set t (Summary None true false k) (summary_of w) u) -> Q (Some t) w') ->
  wp (wait_queue_remove q) Q w.
Proof.
  intros [Hb Hrun] [ts E] HQn HQ. eapply wp_wait_queue_remove; [done..| |].
  - intros ->. apply HQn. intros t x Hx Hq. unfold summary_of in Hx.
    destruct (threads (t_sched w) !! t) as [th|] eqn:Et; [|done]. injection Hx as <-. cbn in Hq.
    assert (t ∈ waiting v q) as Hin by (apply (b_wait _ _ Hb); eauto).
    rewrite (waiting_entry _ _ _ E) in Hin. by apply not_elem_of_nil in Hin.
  - intros t ts' w' -> Hu Hcpu Hb' Hr. destruct (summary_waiting _ _ _ _ _ Hb E) as [k Hk].
    apply (HQ t k); [|done|apply Hu|apply Hu|apply Hu|done|].
    + exists (with_queue q ts' v). split; [split; [done|by apply Hr]|]. intros q'. apply queues_with_queue.
    + intros u. rewrite (summary_updates _ _ _ _ u Hu) by done. unfold su_set.
      destruct (decide (u = t)) as [->|]; [|done]. unfold summary_of in Hk.
      destruct (threads (t_sched w) !! t) as [th|]; [|done]. injection Hk as E1 E2 E3 E4. cbn.
      by rewrite E2, E3, E4.
Qed.

Lemma su_unblock w v t k (Q : unit -> tasks -> Prop) :
  ok w v -> summary_of w t = Some (Summary None true false k) ->
  (forall w', fine v w' -> t_cpu w' = t_cpu w -> current (t_sched w') = current (t_sched w) ->
     stack (t_sched w') = stack (t_sched w) ->
     (forall u, summary_of w' u = su_set t (Summary None false false k) (summary_of w) u) -> Q tt w') ->
  wp (thread_unblock (Some t)) Q w.
Proof.
  intros [Hb Hrun] Hx HQ. unfold summary_of in Hx. destruct (threads (t_sched w) !! t) as [th|] eqn:Et; [|done].
  injection Hx as E1 E2 E3 E4. apply bool_decide_eq_true in E2.
  eapply wp_thread_unblock; [done..|]. intros w' [Hu Hcpu] Hb' Hr.
  apply HQ; [|done|apply Hu|apply Hu|].
  - eexists. split; [split; [exact Hb'|by apply Hr]|done].
  - intros u. rewrite (summary_updates _ _ _ _ u Hu) by done. unfold su_set.
    destruct (decide (u = t)) as [->|]; [|done]. rewrite Et. cbn. by rewrite E1, E4.
Qed.

(** Some threads that waited in queues of [P] were woken, nothing else. *)
Definition woken_from (P : queue -> Prop) (g g' : summaries) : Prop :=
  forall u, g' u = g u \/ exists x q, g u = Some x /\ su_queue x = Some q /\ P q /\
    g' u = Some (Summary None false false (su_frames x)).

Lemma woken_from_refl P g : woken_from P g g.
Proof. intros u. by left. Qed.

Lemma woken_from_trans P g g1 g2 : woken_from P g g1 -> woken_from P g1 g2 -> woken_from P g g2.
Proof.
  intros H1 H2 u. destruct (H2 u) as [->|(x & q & E & Eq & Hq & ->)]; [apply H1|].
  destruct (H1 u) as [E1|(x1 & q1 & E1 & Eq1 & Hq1 & E1')].
  - right. exists x, q. by rewrite <- E1.
  - rewrite E1' in E. injection E as <-. done.
Qed.

Lemma woken_from_mono (P P' : queue -> Prop) g g' :
  (forall q, P q -> P' q) -> woken_from P g g' -> woken_from P' g g'.
Proof. intros HP H u. destruct (H u) as [|(x & q & ?)]; [by left|right]. exists x, q. naive_solver. Qed.

Lemma summary_woken w w' t q ts v :
  base w v -> v_queues v !! q = Some (t :: ts) -> woken t w w' ->
  woken_from (fun q' => q' = q) (summary_of w) (summary_of w').
Proof.
  intros Hb E [Hu _] u. rewrite (summary_updates _ _ _ _ u Hu) by done.
  destruct (decide (u = t)) as [->|]; [|by left]. right.
  destruct (summary_waiting _ _ _ _ _ Hb E) as [k Hk]. exists (Summary (Some q) true false k), q.
  split; [done|]. split; [done|]. split; [done|]. unfold summary_of in Hk.
  destruct (threads (t_sched w) !! t); [|done]. injection Hk as _ _ _ <-. done.
Qed.

Lemma woken_keeps t w w' : woken t w w' -> t_cpu w' = t_cpu w /\ current (t_sched w') = current (t_sched w) /\
  stack (t_sched w') = stack (t_sched w) /\ reaper_thread (t_sched w') = reaper_thread (t_sched w).
Proof. intros [[] Hc]. done. Qed.

Lemma su_wake w v q (Q : unit -> tasks -> Prop) :
  ok w v -> disabled w -> queues_of v q ->
  (forall w', fine v w' -> t_cpu w' = t_cpu w -> current (t_sched w') = current (t_sched w) ->
     stack (t_sched w') = stack (t_sched w) ->
     woken_from (fun q' => q' = q) (summary_of w) (summary_of w') -> Q tt w') ->
  wp (wait_queue_wake q) Q w.
Proof.
  intros [Hb Hrun] Hd [ts E] HQ. eapply wp_wait_queue_wake; [done..| |].
  - intros _. apply HQ; try done; [|apply woken_from_refl]. by exists v.
  - intros t ts' w' -> Hw Hb' Hr. destruct (woken_keeps _ _ _ Hw) as (E1 & E2 & E3 & _).
    apply HQ; [|done..|by eapply summary_woken]. eexists. split; [split; [exact Hb'|by apply Hr]|].
    intros q'. apply queues_with_queue.
Qed.

Lemma summary_woken_all q ts : forall w w',
  NoDup ts -> (forall t, t ∈ ts -> exists th, threads (t_sched w) !! t = Some th /\ wait_queue th = Some q) ->
  woken_all ts w w' ->
  woken_from (fun q' => q' = q) (summary_of w) (summary_of w') /\
  t_cpu w' = t_cpu w /\ current (t_sched w') = current (t_sched w) /\
  stack (t_sched w') = stack (t_sched w) /\ reaper_thread (t_sched w') = reaper_thread (t_sched w).
Proof.
  induction ts as [|t ts IH]; intros w w' Hnd Hts Hall; cbn in Hall.
  - subst w'. split; [apply woken_from_refl|done].
  - destruct Hall as (w1 & Hw & Hall). apply NoDup_cons in Hnd as [Hn Hnd].
    destruct (woken_keeps _ _ _ Hw) as (C1 & C2 & C3 & C4). pose proof (proj1 Hw) as Hu.
    destruct (IH w1 w' Hnd) as (Hf & D1 & D2 & D3 & D4); [|done|].
    + intros u Hin. destruct (Hts u ltac:(by right)) as (th & E & Ew). exists th. split; [|done].
      rewrite (up_threads _ _ _ _ Hu), lookup_alter_ne; [done|]. by intros ->.
    + split; [|by rewrite D1, D2, D3, D4]. eapply woken_from_trans; [|exact Hf].
      intros u. rewrite (summary_updates _ _ _ _ u Hu) by done. destruct (decide (u = t)) as [->|]; [|by left].
      right. destruct (Hts t ltac:(by left)) as (th & E & Ew). unfold summary_of. rewrite E. cbn.
      eexists _, q. split; [done|]. by rewrite Ew.
Qed.

Lemma queue_members w v q ts : base w v -> v_queues v !! q = Some ts ->
  NoDup ts /\ forall t, t ∈ ts -> exists th, threads (t_sched w) !! t = Some th /\ wait_queue th = Some q.
Proof.
  intros Hb E. split.
  - destruct (h_lists _ _ (b_holds _ _ Hb)) as (F & Hl & HF).
    destruct (fam_list _ _ Hl (QueueHead q) (WaitNode <$> ts)) as [Hnd _]; [by rewrite HF; cbn; rewrite E|].
    apply NoDup_cons in Hnd as [_ Hnd]. by apply NoDup_fmap_1 in Hnd.
  - intros t Hin. apply (b_wait _ _ Hb). by rewrite (waiting_entry _ _ _ E).
Qed.

Lemma su_wake_all w v q fuel (Q : unit -> tasks -> Prop) :
  ok w v -> disabled w -> queues_of v q -> (size (nodes (t_sched w)) <= fuel)%nat ->
  (forall w', fine v w' -> t_cpu w' = t_cpu w -> current (t_sched w') = current (t_sched w) ->
     stack (t_sched w') = stack (t_sched w) ->
     woken_from (fun q' => q' = q) (summary_of w) (summary_of w') -> Q tt w') ->
  wp (wait_queue_wake_all fuel q) Q w.
Proof.
  intros [Hb Hrun] Hd [ts E] Hf HQ. pose proof (queue_length _ _ _ _ (b_holds _ _ Hb) E) as Hlen.
  eapply wp_wait_queue_wake_all; [done..|lia|]. intros w' Hall Hb' Hr.
  destruct (queue_members _ _ _ _ Hb E) as [Hnd Hts].
  destruct (summary_woken_all q ts w w' Hnd Hts Hall) as (Hw & E1 & E2 & E3 & _).
  apply HQ; [|done..]. eexists. split; [split; [exact Hb'|by apply Hr]|]. intros q'. apply queues_with_queue.
Qed.

(** *** Yielding, and the timer *)

Lemma su_yield w v c (Q : unit -> tasks -> Prop) :
  ok w v -> disabled w -> current (t_sched w) = Some c ->
  (forall w', fine v w' -> disabled w' -> (forall u, summary_of w' u = summary_of w u) -> Q tt w') ->
  wp scheduler_yield Q w.
Proof.
  intros [Hb Hrun] Hd Hc HQ. eapply wp_yield; [done..|]. intros w' Hs Hok'. apply HQ.
  - by exists v.
  - unfold disabled in *. by rewrite (sw_flags _ _ _ _ Hs).
  - intros u. by eapply summary_switches.
Qed.

Lemma su_timer w v c (Q : unit -> tasks -> Prop) :
  ok w v -> current (t_sched w) = Some c ->
  (forall w', fine v w' -> disabled w' ->
     (forall u, summary_of w' u = su_set c (Summary None false false (TimerReturn (eflags (t_cpu w)) :: stack (t_sched w)))
        (summary_of w) u) -> Q tt w') ->
  wp timer_interrupt Q w.
Proof.
  intros Hok Hc HQ. pose proof (summary_current _ _ _ Hok Hc) as Hx.
  assert (forall k u, summary_of (set_stack k w) u = su_set c (Summary None false false k) (summary_of w) u) as Hst.
  { intros k u. by apply (summary_stack w k c (Summary None false false (stack (t_sched w))) u). }
  eapply wp_timer_interrupt; [done..| |].
  - intros w' Hok' [n En] Ec. apply HQ; [by exists v| |].
    + unfold disabled. rewrite Ec. apply cli_disabled.
    + intros u. rewrite <- Hst. unfold summary_of. by rewrite En.
  - intros w1 w' E1 Ec Hs Hok'. apply HQ; [by exists v| |].
    + unfold disabled. rewrite (sw_flags _ _ _ _ Hs), Ec. apply cli_disabled.
    + intros u. rewrite <- Hst.
      assert (base w1 v) as Hb1.
      { destruct w1 as [cp1 s1]. cbn in E1. subst s1. apply (base_cpu (set_quantum 0 (set_stack _ w))).
        apply base_quantum; [apply base_stack, Hok|unfold SCHEDULER_QUANTUM_TICKS; lia]. }
      rewrite (summary_switches w1 w' v c u Hb1); [|by rewrite E1|done]. unfold summary_of. by rewrite E1.
Qed.

(** *** Termination *)

(** Marking the current thread terminated and out of the ready list. *)
Lemma wp_mark_terminated w v c (Q : unit -> tasks -> Prop) :
  ok w v -> disabled w -> current (t_sched w) = Some c -> c <> IdleThread ->
  (forall w1, base w1 (remove_ready c v) -> updates c (with_state THREAD_TERMINATED) w w1 -> t_cpu w1 = t_cpu w -> Q tt w1) ->
  wp (scheduler_remove (Some c) ;;; set_state (Some c) THREAD_TERMINATED) Q w.
Proof.
  intros Hok Hd Hc Hi HQ. pose proof (proj1 Hok) as Hb. destruct (running_current _ _ _ Hok Hc) as (th & Et & Es & Ew).
  apply wp_bind, (wp_scheduler_remove w v); [apply Hb|by exists th|done|]. intros n Hn.
  apply wp_update_thread; [by exists th|]. set (w1 := update_threads _ _).
  assert (updates c (with_state THREAD_TERMINATED) w w1) as Hu by done.
  apply HQ; [|done|done].
  eapply (base_leave w w1 v); [exact Hb|exact Hc|exact Hi|exact Et|exact Ew|exact Hu| |done|done|done| |done|done| |by right].
  - eapply holds_same_nodes; [exact Hn|done|]. intros u. apply alter_is_Some.
  - intros q. change (c ∈ waiting v q <-> wait_queue th = Some q). rewrite (b_wait _ _ Hb). naive_solver.
  - right. done.
Qed.

Lemma woken_all_other t ts : forall w w', woken_all ts w w' -> t ∉ ts ->
  threads (t_sched w') !! t = threads (t_sched w) !! t.
Proof.
  induction ts as [|u ts IH]; intros w w' Hall Hn; cbn in Hall; [by subst|].
  destruct Hall as (w1 & [Hu _] & Hall). rewrite (IH w1 w') by (done || set_solver).
  rewrite (up_threads _ _ _ _ Hu), lookup_alter_ne; [done|set_solver].
Qed.

Definition ending_queue c : queue -> Prop := fun q => q = TerminationQueue c \/ q = ReaperQueue.

(** The end of [scheduler_terminate]: a detached thread goes to the reaper. *)
Lemma wp_hand_over w v c th (Q : unit -> tasks -> Prop) :
  base w v -> disabled w -> threads (t_sched w) !! c = Some th -> state th = THREAD_TERMINATED ->
  c ∉ v_zombies v ->
  (forall w' v', base w' v' -> (forall q, queues_of v q -> queues_of v' q) -> t_cpu w' = t_cpu w ->
     current (t_sched w') = current (t_sched w) -> stack (t_sched w') = stack (t_sched w) ->
     woken_from (ending_queue c) (summary_of w) (summary_of w') -> Q tt w') ->
  wp (let* th := get_thread (Some c) in if detached th then scheduler_push_zombie (Some c) else ret tt) Q w.
Proof.
  intros Hb Hd Et Es Hn HQ. apply wp_bind, (wp_get_thread _ _ th); [done|].
  destruct (detached th) eqn:Edt; [|apply wp_ret, (HQ w v); try done; apply woken_from_refl].
  eapply wp_push_zombie; [done..| |].
  - intros _. apply (HQ w v); try done; apply woken_from_refl.
  - intros w1 w' v' Hb1 Hu1 Hc1 Hcase Hb' _.
    assert (forall u, summary_of w1 u = summary_of w u) as Es1.
    { intros u. rewrite (summary_updates _ _ _ _ u Hu1) by done.
      destruct (decide (u = c)) as [->|]; [|done]. unfold summary_of. by rewrite Et. }
    destruct Hcase as [[-> ->]|(r & rs & Er & Hw & ->)].
    + apply (HQ w1 (pushed_zombie c v)); try done; [apply Hu1|apply Hu1|]. intros u. left. by rewrite Es1.
    + destruct (woken_keeps _ _ _ Hw) as (C1 & C2 & C3 & _).
      apply (HQ w' _ Hb'); try congruence.
      * intros q Hq. by apply queues_with_queue.
      * rewrite C2. apply Hu1.
      * rewrite C3. apply Hu1.
      * assert (v_queues (pushed_zombie c v) !! ReaperQueue = Some (r :: rs)) as Eq.
        { unfold waiting in Er. cbn. destruct (v_queues v !! ReaperQueue) as [l|]; cbn in Er; [by subst|done]. }
        intros u. destruct (summary_woken _ _ _ _ _ _ Hb1 Eq Hw u) as [E|(x & q & E & H1 & -> & H2)].
        -- left. by rewrite E, Es1.
        -- right. exists x, ReaperQueue. rewrite Es1 in E. split; [done|]. split; [done|]. split; [by right|done].
Qed.

Lemma su_kill w v c (Q : unit -> tasks -> Prop) :
  ok w v -> current (t_sched w) = Some c -> c <> IdleThread -> Some c <> reaper_thread (t_sched w) ->
  (forall w' g, fine v w' -> disabled w' -> woken_from (ending_queue c) (summary_of w) g -> g c = summary_of w c ->
     (forall u, summary_of w' u = su_set c (Summary None false true (KillReturn :: stack (t_sched w))) g u) -> Q tt w') ->
  wp thread_kill_current Q w.
Proof.
  intros Hok Hc Hi Hr HQ. pose proof (summary_current _ _ _ Hok Hc) as Hx. unfold thread_kill_current.
  apply wp_bind, wp_cpu_op, wp_modify. change (Tasks _ (t_sched w)) with (cli w).
  assert (ok (cli w) v) as Hok0 by by apply ok_cpu. pose proof (cli_disabled w) as Hd0.
  apply wp_bind, wp_scheduler_current. cbn [t_sched cli]. rewrite Hc. apply wp_bind, wp_assert; [done|].
  apply wp_bind. unfold scheduler_terminate. apply wp_bind, wp_assert; [done|].
  apply wp_bind, wp_assert_disabled; [done|]. apply wp_bind, wp_gets. cbn [t_sched cli].
  apply wp_bind, wp_assert; [by rewrite bool_decide_true|].
  apply wp_bind_assoc, wp_bind, (wp_mark_terminated (cli w) v c); [done..|].
  intros w1 Hb1 Hu1 C1. assert (disabled w1) as Hd1 by (unfold disabled in *; by rewrite C1).
  destruct (running_current _ _ _ Hok Hc) as (th & Et & Es & Ew).
  assert (threads (t_sched w1) !! c = Some (with_state THREAD_TERMINATED th)) as Et1.
  { rewrite (up_threads _ _ _ _ Hu1), lookup_alter_eq. cbn [t_sched cli]. by rewrite Et. }
  apply wp_bind, wp_gets.
  destruct (b_termination _ _ Hb1 c Hi ltac:(by eexists)) as [ts Ets].
  pose proof (queue_length _ _ _ _ (b_holds _ _ Hb1) Ets) as Hlen.
  apply wp_bind. eapply (wp_wait_queue_wake_all w1); [done..|lia|]. intros w2 Hall Hb2 _.
  destruct (queue_members _ _ _ _ Hb1 Ets) as [Hnd Hts].
  destruct (summary_woken_all _ ts w1 w2 Hnd Hts Hall) as (Hw2 & C2 & Ec2 & Ek2 & _).
  assert (threads (t_sched w2) !! c = Some (with_state THREAD_TERMINATED th)) as Et2.
  { rewrite (woken_all_other c ts w1 w2); [done|done|]. intros Hin.
    destruct (Hts c Hin) as (th' & E' & Ew'). rewrite Et1 in E'. injection E' as <-. cbn in Ew'. congruence. }
  eapply (wp_hand_over w2); [exact Hb2| |exact Et2|done| |].
  { unfold disabled in *. by rewrite C2. }
  { intros Hz. destruct (b_zombie _ _ (proj1 Hok) c Hz) as (th' & E' & Es' & _). congruence. }
  intros w3 v3 Hb3 Hq3 C3 Ec3 Ek3 Hw3.
  apply wp_bind, wp_modify. set (w4 := set_stack _ w3).
  assert (current (t_sched w4) = Some c) as Ec4.
  { cbn. by rewrite Ec3, Ec2, (up_current _ _ _ _ Hu1). }
  assert (base w4 v3) as Hb4 by by apply base_stack.
  apply (wp_yield w4 v3 c); [done| |done|].
  { unfold disabled in *. cbn. by rewrite C3, C2. }
  intros w' Hs Hok'.
  assert (woken_from (ending_queue c) (summary_of w1) (summary_of w3)) as Hw.
  { eapply woken_from_trans; [|exact Hw3]. eapply woken_from_mono; [|exact Hw2]. intros q ->. by left. }
  assert (forall u, summary_of w1 u = su_set c (Summary None false true (stack (t_sched w))) (summary_of w) u) as E1.
  { intros u. rewrite (summary_updates _ _ _ _ u Hu1) by done. unfold su_set.
    destruct (decide (u = c)) as [->|]; [|done]. cbn [t_sched cli]. rewrite Et, Hc. cbn. rewrite Ew, decide_True by done. done. }
  assert (summary_of w3 c = Some (Summary None false true (stack (t_sched w)))) as E3.
  { destruct (Hw c) as [->|(x & q & E & Eq & _)]; rewrite E1 in *; unfold su_set in *; rewrite decide_True in * by done; [done|].
    injection E as <-. done. }
  apply (HQ w' (su_set c (Summary None false false (stack (t_sched w))) (summary_of w3))).
  - exists v3. split; [done|]. intros q Hq. by apply Hq3, queues_with_queue.
  - unfold disabled in *. rewrite (sw_flags _ _ _ _ Hs). cbn. by rewrite C3, C2.
  - intros u. unfold su_set. destruct (decide (u = c)) as [->|Hne]; [by left; rewrite Hx|].
    destruct (Hw u) as [E|(x & q & E & H1 & H2 & H3)]; rewrite E1 in E; unfold su_set in E;
      rewrite decide_False in E by done; [by left|right]. by exists x, q.
  - unfold su_set. by rewrite decide_True.
  - intros u. rewrite (summary_switches w4 w' v3 c u Hb4 Ec4 Hs).
    unfold w4. rewrite (summary_stack w3 _ c _ u Ec4 E3). unfold su_set. destruct (decide (u = c)); [|done]. cbn [su_queue su_blocked su_dead].
    by rewrite Ek3, Ek2, (up_stack _ _ _ _ Hu1).
Qed.
End Summaries.
