(* ===== verification/SyncInv.v ===== *)
(** * The invariant of the synchronising threads

    [sync_ok] is an invariant of the machine of [Sync]: whatever the running
    threads call and whenever the timer interrupts, no assertion fails, and
    the owner of a mutex, the count of a semaphore and the frames of every
    thread agree. *)

From S2P Require Import Prelude Layout Machine DList ListFamily Task TaskSpec TaskOps Sync SyncSpec.

(** Stacks that the timer may interrupt, stacks of threads that do not run,
    and the stack between the two halves of [condvar_wait]. *)
Definition open_stack (k : list frame) : bool :=
  match k with [] | [UnlockWake _] | [CondvarRelock _] => true | _ => false end.

Definition parked (k : list frame) : bool :=
  match k with
  | [YieldReturn _] | [LockReturn _ _] | [AcquireReturn _ _] | [KillReturn] | [CondvarWoken _ _]
  | [ThreadStart] | [IdleStart] => true
  | TimerReturn _ :: k' => open_stack k'
  | _ => false
  end.

Definition closing (k : list frame) : bool :=
  match k with [CondvarSleep _ _ _] | [UnlockWake _; CondvarSleep _ _ _] => true | _ => false end.

(** What the current thread has on its stack between two events: the timer may
    interrupt it, or it has just been switched to. *)
Definition stable (k : list frame) (dis : Prop) : Prop :=
  open_stack k = true \/ ((parked k || closing k) = true /\ dis).

Definition idle_frame (f : frame) : Prop :=
  match f with IdleStart | TimerReturn _ => True | _ => False end.

Section Core.
Variables (o : gmap Z (option tref)) (n : gmap Z Z) (qs : queue -> Prop).

(** The mutexes and queues a frame will use exist. *)
Definition known (f : frame) : Prop :=
  match f with
  | CondvarSleep c m _ => qs (CondvarQueue c) /\ is_Some (o !! m)
  | CondvarWoken m _ | CondvarRelock m => is_Some (o !! m)
  | _ => True
  end.

Record tinv (u : tref) (x : summary) : Prop := {
  (** A thread about to return from the slow path of [mutex_lock] owns the
      mutex as soon as it does not wait any more. *)
  ti_lock : forall m st, LockReturn m st ∈ su_frames x ->
    su_queue x = Some (MutexQueue m) \/ o !! m = Some (Some u);
  ti_kill : KillReturn ∈ su_frames x -> su_dead x = true /\ su_queue x = None;
  ti_mutex : forall m, su_queue x = Some (MutexQueue m) -> exists t, o !! m = Some (Some t);
  ti_sem : forall a, su_queue x = Some (SemaphoreQueue a) -> n !! a = Some 0;
  ti_known : Forall known (su_frames x);
  ti_idle : u = IdleThread -> Forall idle_frame (su_frames x);
}.

Record core (g : summaries) : Prop := {
  co_thread : forall u x, g u = Some x -> tinv u x;
  (** The thread an unlocker still has to wake sleeps in no queue, and no one
      else is about to wake it. *)
  co_pending : forall u x t, g u = Some x -> UnlockWake t ∈ su_frames x ->
    exists k, g t = Some (Summary None true false k);
  co_unique : forall u u' x x' t, g u = Some x -> g u' = Some x' ->
    UnlockWake t ∈ su_frames x -> UnlockWake t ∈ su_frames x' -> u = u';
  co_mutex : forall m, is_Some (o !! m) -> m <> NULL /\ qs (MutexQueue m);
  co_sem : forall a, is_Some (n !! a) -> a <> NULL /\ qs (SemaphoreQueue a);
  co_count : forall a k, n !! a = Some k -> is_u32 k;
}.
End Core.

Section CoreLemmas.
Implicit Types (o : gmap Z (option tref)) (n : gmap Z Z) (qs : queue -> Prop) (g : summaries) (u t : tref).

Lemma core_ext o n qs g g' : (forall u, g' u = g u) -> core o n qs g -> core o n qs g'.
Proof.
  intros E [H1 H2 H3 H4 H5 H6]. split; try done.
  - intros u x. rewrite E. apply H1.
  - intros u x t. rewrite !E. apply H2.
  - intros u u' x x' t. rewrite !E. apply H3.
Qed.

(** One thread's summary changes from [x] to [y]. *)
Lemma core_one o n qs g t x y :
  core o n qs g -> g t = Some x -> tinv o n qs t y ->
  (forall a, UnlockWake a ∈ su_frames y -> UnlockWake a ∈ su_frames x) ->
  (forall k, x = Summary None true false k -> (exists k', y = Summary None true false k') \/
     forall u z, g u = Some z -> UnlockWake t ∉ su_frames z) ->
  core o n qs (su_set t y g).
Proof.
  intros [H1 H2 H3 H4 H5 H6] Et Hy Hun Hp. unfold su_set.
  assert (forall a v w, (if decide (v = t) then Some y else g v) = Some w -> UnlockWake a ∈ su_frames w ->
    exists w', g v = Some w' /\ UnlockWake a ∈ su_frames w') as Hback.
  { intros a v w. case_decide; [intros [= <-]; subst v; exists x; split; [done|by apply Hun]|by exists w]. }
  split; [| | |done..].
  - intros u z. case_decide as E; [intros [= <-]; by subst u|apply H1].
  - intros u z a Ez Hin. destruct (Hback a u z Ez Hin) as (w & Ew & Hw). destruct (H2 u w a Ew Hw) as [k Ek].
    clear Ez. case_decide as Ea; [|by exists k]. subst a. rewrite Et in Ek. injection Ek as ->.
    destruct (Hp k eq_refl) as [[k' ->]|Hno]; [by exists k'|by destruct (Hno u w)].
  - intros u u' z z' a Ez Ez' Hin Hin'.
    destruct (Hback a u z Ez Hin) as (w & ? & ?). destruct (Hback a u' z' Ez' Hin') as (w' & ? & ?).
    by apply (H3 u u' w w' a).
Qed.

(** A thread that leaves a queue other than a mutex's keeps its invariant. *)
Lemma tinv_leave o n qs u x q :
  tinv o n qs u x -> su_queue x = Some q -> (forall m, q <> MutexQueue m) ->
  tinv o n qs u (Summary None false false (su_frames x)).
Proof.
  intros [T1 T2 T3 T4 T5 T6] Eq Hq. split; cbn; try done.
  - intros m st Hin. destruct (T1 m st Hin) as [Hm|]; [|by right]. rewrite Eq in Hm. injection Hm as ->. by destruct (Hq m).
  - intros Hin. destruct (T2 Hin) as [_ E]. congruence.
Qed.

(** Threads woken from queues other than those of mutexes. *)
Lemma core_woken o n qs g g' (P : queue -> Prop) :
  (forall m, ~ P (MutexQueue m)) -> woken_from P g g' -> core o n qs g -> core o n qs g'.
Proof.
  intros HP Hw [H1 H2 H3 H4 H5 H6].
  assert (forall u x', g' u = Some x' -> exists x, g u = Some x /\ su_frames x' = su_frames x /\
    (x' = x \/ exists q, su_queue x = Some q /\ P q /\ x' = Summary None false false (su_frames x))) as Hinv.
  { intros u x' E. destruct (Hw u) as [Eg|(x & q & Ex & Eq & Hq & Eg)]; rewrite Eg in E.
    - exists x'. auto.
    - injection E as <-. exists x. split; [done|]. split; [done|]. right. by exists q. }
  split; [| | |done..].
  - intros u x' (x & E & _ & [->|(q & Eq & Hq & ->)])%Hinv; [by apply H1|].
    apply (tinv_leave _ _ _ _ _ q); [by apply H1|done|]. intros m ->. by apply (HP m).
  - intros u x' t (x & E & Ef & _)%Hinv. rewrite Ef. intros Hin. destruct (H2 u x t E Hin) as [k Ek].
    exists k. destruct (Hw t) as [->|(y & q & Ey & Eq & _)]; [done|]. rewrite Ek in Ey. by injection Ey as <-.
  - intros u u' x x' t (y & E & Ef & _)%Hinv (y' & E' & Ef' & _)%Hinv. rewrite Ef, Ef'. by apply (H3 u u' y y').
Qed.

Lemma known_mono o qs qs' f : (forall q, qs q -> qs' q) -> known o qs f -> known o qs' f.
Proof. intros Hq. destruct f; cbn; naive_solver. Qed.

Lemma core_queues o n qs qs' g : (forall q, qs q -> qs' q) -> core o n qs g -> core o n qs' g.
Proof.
  intros Hq [H1 H2 H3 H4 H5 H6]. split; [|done|done|naive_solver|naive_solver|done].
  intros u x E. destruct (H1 u x E). split; try done. eapply Forall_impl; [done|].
  intros f. by apply known_mono.
Qed.
End CoreLemmas.

(** ** The invariant *)

(** The running thread [c] has the frames [k] on its stack; the others are
    where a switch left them. *)
Record mid (s : sync) (v : view) (c : tref) (k : list frame) : Prop := {
  mid_ok : ok (s_tasks s) v;
  mid_current : current (t_sched (s_tasks s)) = Some c;
  mid_stack : stack (t_sched (s_tasks s)) = k;
  mid_core : core (owners s) (counts s) (queues_of v) (summary_of (s_tasks s));
  mid_parked : forall u x, u <> c -> summary_of (s_tasks s) u = Some x -> parked (su_frames x) = true;
}.

Definition sync_ok (s : sync) (v : view) : Prop :=
  exists c k, mid s v c k /\ stable k (disabled (s_tasks s)).

(** What every event leaves: the wait queues stay. *)
Definition safe (v : view) : unit -> sync -> Prop := fun _ s' =>
  exists v', sync_ok s' v' /\ forall q, queues_of v q -> queues_of v' q.

Definition with_tasks (w : tasks) (s : sync) : sync := Sync w (owners s) (counts s).

Section Mid.
Implicit Types (s : sync) (v : view) (w : tasks) (c t u : tref) (k : list frame) (q : queue).

Lemma wp_task_op {A} (m : M tasks A) (Q : A -> sync -> Prop) s :
  wp m (fun a w => Q a (with_tasks w s)) (s_tasks s) -> wp (task_op m) Q s.
Proof. exact (wp_zoom tasks_l m Q s). Qed.

Lemma mid_summary s v c k : mid s v c k -> summary_of (s_tasks s) c = Some (Summary None false false k).
Proof. intros [Hok Hc <- _ _]. by eapply summary_current. Qed.

Lemma mid_tinv s v c k : mid s v c k ->
  tinv (owners s) (counts s) (queues_of v) c (Summary None false false k).
Proof. intros H. apply (co_thread _ _ _ _ (mid_core _ _ _ _ H)), mid_summary with (v := v), H. Qed.

(** The processor's registers do not matter to [mid]. *)
Lemma mid_cpu s v c k cp : mid s v c k -> mid (with_tasks (Tasks cp (t_sched (s_tasks s))) s) v c k.
Proof. intros [Hok Hc Hk H Hp]. split; [by apply ok_cpu|done..]. Qed.

(** The running thread pushes or pops frames. *)
Lemma mid_frames s v c k k' :
  mid s v c k -> tinv (owners s) (counts s) (queues_of v) c (Summary None false false k') ->
  (forall t, UnlockWake t ∈ k' -> UnlockWake t ∈ k) ->
  mid (with_tasks (set_stack k' (s_tasks s)) s) v c k'.
Proof.
  intros H Ht Hk. pose proof (mid_summary _ _ _ _ H) as Hx. destruct H as [Hok Hc Hst Hco Hp].
  assert (forall u, summary_of (set_stack k' (s_tasks s)) u =
    su_set c (Summary None false false k') (summary_of (s_tasks s)) u) as E
    by (intros u; by apply (summary_stack _ _ c _ u Hc Hx)).
  split; [by apply ok_stack|done|done| |].
  - eapply core_ext; [exact E|]. by eapply core_one.
  - intros u x Hne. cbn. rewrite E. unfold su_set. rewrite decide_False by done. by apply Hp.
Qed.

(** Nothing ties a running thread with an empty stack. *)
Lemma tinv_idle_stack o n qs u : tinv o n qs u (Summary None false false []).
Proof. split; cbn; try done; try (intros; exfalso; by eapply not_elem_of_nil). Qed.

Lemma tinv_pop o n qs u f k :
  tinv o n qs u (Summary None false false (f :: k)) -> tinv o n qs u (Summary None false false k).
Proof.
  intros [T1 T2 T3 T4 T5 T6]. cbn in *. split; cbn; try done.
  - intros m st Hin. apply (T1 m st). by right.
  - intros Hin. apply T2. by right.
  - by apply Forall_cons in T5 as [_ ?].
  - intros E. apply T6 in E. by apply Forall_cons in E as [_ ?].
Qed.

Lemma mid_pop s v c f k : mid s v c (f :: k) -> mid (with_tasks (set_stack k (s_tasks s)) s) v c k.
Proof.
  intros H. eapply mid_frames; [done|eapply tinv_pop, mid_tinv, H|]. intros t Hin. by right.
Qed.

(** A frame without claims on mutexes, pushed on a stack. *)
Definition plain (f : frame) : bool :=
  match f with LockReturn _ _ | KillReturn | UnlockWake _ => false | _ => true end.

Lemma tinv_push o n qs u f k x :
  tinv o n qs u x -> su_frames x = k -> plain f = true -> known o qs f -> (u = IdleThread -> idle_frame f) ->
  tinv o n qs u (Summary (su_queue x) (su_blocked x) (su_dead x) (f :: k)).
Proof.
  intros [T1 T2 T3 T4 T5 T6] <- Hf Hk Hi. split; cbn; try done.
  - intros m st [<-|Hin]%elem_of_cons; [done|]. by apply (T1 m st).
  - intros [<-|Hin]%elem_of_cons; [done|]. by apply T2.
  - apply Forall_cons. by split.
  - intros E. apply Forall_cons. split; [by apply Hi|by apply T6].
Qed.

Lemma mid_push s v c k f :
  mid s v c k -> plain f = true -> known (owners s) (queues_of v) f -> (c = IdleThread -> idle_frame f) ->
  mid (with_tasks (set_stack (f :: k) (s_tasks s)) s) v c (f :: k).
Proof.
  intros H Hf Hk Hi. eapply mid_frames; [done| |].
  - apply (tinv_push _ _ _ c f k (Summary None false false k)); [by apply mid_tinv|done..].
  - intros t [<-|Hin]%elem_of_cons; [done|done].
Qed.

(** *** The ends of events *)

Lemma settle s v c k : mid s v c k -> stable k (disabled (s_tasks s)) -> safe v tt s.
Proof. intros H Hk. exists v. split; [by exists c, k|done]. Qed.

Lemma open_settle s v c k : mid s v c k -> open_stack k = true -> safe v tt s.
Proof. intros H Hk. eapply settle; [done|by left]. Qed.

(** After a switch every thread is parked. *)
Lemma settle_switched s v w' :
  fine v w' -> disabled w' -> core (owners s) (counts s) (queues_of v) (summary_of w') ->
  (forall u x, summary_of w' u = Some x -> parked (su_frames x) = true) -> safe v tt (with_tasks w' s).
Proof.
  intros (v' & Hok & Hq) Hd Hco Hp. destruct (b_current _ _ (proj1 Hok)) as (c & Hc & _).
  pose proof (Hp _ _ (summary_current _ _ _ Hok Hc)) as Hk.
  exists v'. split; [|done]. exists c, (stack (t_sched w')). split; [|right; cbn in *; by rewrite Hk].
  split; [done|done|done|by eapply core_queues|]. intros u x _. apply Hp.
Qed.

(** A summary of the running thread changes and it gives the processor up. *)
Lemma settle_gave_up s v c k y w' :
  mid s v c k -> fine v w' -> disabled w' ->
  (forall u, summary_of w' u = su_set c y (summary_of (s_tasks s)) u) ->
  tinv (owners s) (counts s) (queues_of v) c y -> parked (su_frames y) = true ->
  (forall t, UnlockWake t ∈ su_frames y -> UnlockWake t ∈ k) -> safe v tt (with_tasks w' s).
Proof.
  intros H Hf Hd E Hy Hk Hun. apply settle_switched; [done|done| |].
  - eapply core_ext; [exact E|]. eapply core_one; [apply H|eapply mid_summary, H|done|done|done].
  - intros u x. rewrite E. unfold su_set. case_decide; [intros [= <-]; done|]. by apply (mid_parked _ _ _ _ H).
Qed.

(** Leaving a frame behind and going to sleep. *)
Lemma wp_push_sleep s v c k f q :
  mid s v c k -> disabled (s_tasks s) -> c <> IdleThread -> queues_of v q -> parked (f :: k) = true ->
  tinv (owners s) (counts s) (queues_of v) c (Summary (Some q) true false (f :: k)) ->
  (forall t, UnlockWake t ∈ f :: k -> UnlockWake t ∈ k) ->
  wp (push f ;;; task_op (wait_queue_sleep q)) (safe v) s.
Proof.
  intros H Hd Hi Hq Hk Hy Hun. pose proof (mid_summary _ _ _ _ H) as Hx.
  apply wp_bind, wp_task_op, wp_modify. set (w1 := set_stack _ _).
  assert (stack (t_sched w1) = f :: k) as E1 by (cbn; by rewrite (mid_stack _ _ _ _ H)).
  assert (forall u, summary_of w1 u = su_set c (Summary None false false (stack (t_sched w1))) (summary_of (s_tasks s)) u) as E2
    by (intros u; exact (summary_stack _ _ c _ u (mid_current _ _ _ _ H) Hx)).
  rewrite E1 in E2. apply wp_task_op. cbn [s_tasks with_tasks].
  apply (su_sleep w1 v q c); [by apply ok_stack, H|done|apply H|done|done|].
  intros w' Hf Hd' E. eapply (settle_gave_up s v c k (Summary (Some q) true false (f :: k))); try done.
  intros u. rewrite E, E1. unfold su_set. case_decide as Eu; [done|]. rewrite E2. unfold su_set. by rewrite decide_False.
Qed.
End Mid.
