(* ===== verification/SyncSafe.v ===== *)
(** * The synchronisation primitives are safe

    Every event of the machine of [Sync] keeps [sync_ok]: no assertion fails,
    no thread that terminated runs again, a mutex has at most one owner and
    passes from the unlocker to the thread that waited longest, a semaphore
    with waiters has count 0. *)

From S2P Require Import Prelude Layout Machine DList ListFamily Task TaskSpec TaskOps Sync SyncSpec SyncInv.

Section Routines.
Implicit Types (s : sync) (v : view) (w : tasks) (c t u : tref) (k : list frame) (q : queue).

Lemma wp_save s (Q : Z -> sync -> Prop) :
  Q (eflags (t_cpu (s_tasks s))) (with_tasks (cli (s_tasks s)) s) -> wp save Q s.
Proof. done. Qed.

Lemma wp_restore st s (Q : unit -> sync -> Prop) : Q tt (with_tasks (set_flags st (s_tasks s)) s) -> wp (restore st) Q s.
Proof. done. Qed.

Lemma wp_push f s (Q : unit -> sync -> Prop) :
  Q tt (with_tasks (set_stack (f :: stack (t_sched (s_tasks s))) (s_tasks s)) s) -> wp (push f) Q s.
Proof. done. Qed.

Lemma wp_get_owner m o s (Q : option tref -> sync -> Prop) :
  owners s !! m = Some o -> Q o s -> wp (get_owner m) Q s.
Proof. intros E HQ. by apply wp_bind, wp_gets, (wp_require _ _ _ _ o). Qed.

Lemma wp_set_owner m (t : option tref) s (Q : unit -> sync -> Prop) :
  is_Some (owners s !! m) -> Q tt (Sync (s_tasks s) (<[m := t]> (owners s)) (counts s)) -> wp (set_owner m t) Q s.
Proof. intros [o E] HQ. by apply wp_bind, (wp_get_owner m o), wp_modify. Qed.

Lemma wp_get_count a n s (Q : Z -> sync -> Prop) :
  counts s !! a = Some n -> Q n s -> wp (get_count a) Q s.
Proof. intros E HQ. by apply wp_bind, wp_gets, (wp_require _ _ _ _ n). Qed.

Lemma wp_set_count a n s (Q : unit -> sync -> Prop) :
  is_Some (counts s !! a) -> Q tt (Sync (s_tasks s) (owners s) (<[a := n]> (counts s))) -> wp (set_count a n) Q s.
Proof. intros [o E] HQ. by apply wp_bind, (wp_get_count a o), wp_modify. Qed.

Lemma mid_cli s v c k : mid s v c k -> mid (with_tasks (cli (s_tasks s)) s) v c k.
Proof. apply mid_cpu. Qed.

Lemma mid_flags s v c k st : mid s v c k -> mid (with_tasks (set_flags st (s_tasks s)) s) v c k.
Proof. apply mid_cpu. Qed.

Lemma tinv_lookup o n qs g u x : core o n qs g -> g u = Some x -> tinv o n qs u x.
Proof. intros H. apply (co_thread _ _ _ _ H). Qed.

Lemma wp_current s v c k (Q : option tref -> sync -> Prop) :
  mid s v c k -> Q (Some c) s -> wp (task_op scheduler_current) Q s.
Proof.
  intros H HQ. apply wp_task_op, wp_scheduler_current. rewrite (mid_current _ _ _ _ H). by destruct s.
Qed.

(** The end of an event at which [c] still runs. *)
Lemma settle_fine w o n v c :
  fine v w -> current (t_sched w) = Some c -> core o n (queues_of v) (summary_of w) ->
  (forall u x, u <> c -> summary_of w u = Some x -> parked (su_frames x) = true) ->
  stable (stack (t_sched w)) (disabled w) -> safe v tt (Sync w o n).
Proof.
  intros (v' & Hok & Hq) Hc Hco Hp Hs. exists v'. split; [|done]. exists c, (stack (t_sched w)). split; [|done].
  split; [done|done|done|by eapply core_queues|done].
Qed.

Lemma wp_not_null e a s (Q : unit -> sync -> Prop) : a <> NULL -> Q tt s -> wp (ASSERT e (negb (a =? NULL))) Q s.
Proof. intros Ha. apply wp_assert. by apply negb_true_iff, Z.eqb_neq. Qed.

(** *** Mutexes *)

(** A new owner [p] of [m]: no thread sleeps for [m] unless it has one, and
    who returns from [mutex_lock] owns it. *)
Lemma core_owner o n qs g m p :
  core o n qs g -> is_Some (o !! m) ->
  (forall u x st, g u = Some x -> LockReturn m st ∈ su_frames x -> su_queue x = Some (MutexQueue m) \/ p = Some u) ->
  (forall u x, g u = Some x -> su_queue x = Some (MutexQueue m) -> exists t, p = Some t) ->
  core (<[m := p]> o) n qs g.
Proof.
  intros [H1 H2 H3 H4 H5 H6] Hm Hl Hw.
  assert (forall m', is_Some (o !! m') -> is_Some (<[m := p]> o !! m')) as Hsome.
  { intros m' [z E]. destruct (decide (m' = m)) as [->|]; [rewrite lookup_insert_eq; eauto|rewrite lookup_insert_ne; eauto]. }
  split; [|done|done| |done|done].
  - intros u x E. destruct (H1 u x E) as [T1 T2 T3 T4 T5 T6]. split; try done.
    + intros m' st Hin. destruct (decide (m' = m)) as [->|Hne].
      * rewrite lookup_insert_eq. destruct (Hl u x st E Hin) as [?| ->]; [by left|by right].
      * rewrite lookup_insert_ne by done. by apply (T1 m' st).
    + intros m' Eq. destruct (decide (m' = m)) as [->|Hne].
      * rewrite lookup_insert_eq. destruct (Hw u x E Eq) as [t ->]. by exists t.
      * rewrite lookup_insert_ne by done. by apply T3.
    + eapply Forall_impl; [done|]. intros f. destruct f; cbn; naive_solver.
  - intros m' Hm'. apply H4. destruct (decide (m' = m)) as [->|]; [done|by rewrite lookup_insert_ne in Hm'].
Qed.

Lemma mid_owner s v c k m p :
  mid s v c k -> is_Some (owners s !! m) ->
  (forall u x st, summary_of (s_tasks s) u = Some x -> LockReturn m st ∈ su_frames x ->
     su_queue x = Some (MutexQueue m) \/ p = Some u) ->
  (forall u x, summary_of (s_tasks s) u = Some x -> su_queue x = Some (MutexQueue m) -> exists t, p = Some t) ->
  mid (Sync (s_tasks s) (<[m := p]> (owners s)) (counts s)) v c k.
Proof. intros [Hok Hc Hk Hco Hp] Hm Hl Hw. split; [done..| |done]. by apply core_owner. Qed.

Lemma wp_mutex_lock s v c m :
  mid s v c [] -> c <> IdleThread -> is_Some (owners s !! m) -> wp (mutex_lock m) (safe v) s.
Proof.
  intros H Hi [o Eo]. apply wp_bind, wp_not_null; [by apply (co_mutex _ _ _ _ (mid_core _ _ _ _ H))|].
  apply wp_bind, wp_save. set (s1 := with_tasks _ s).
  assert (mid s1 v c []) as H1 by by apply mid_cli. pose proof (mid_core _ _ _ _ H1) as Hco.
  apply wp_bind, (wp_get_owner m o); [done|]. case_bool_decide as En.
  - subst o. apply wp_bind, (wp_current _ _ _ _ _ H1).
    apply wp_bind, wp_set_owner; [by exists None|]. apply wp_restore.
    apply (open_settle _ v c []); [|done]. apply mid_flags, mid_owner; [done|by exists None| |].
    + intros u x st E Hin. destruct (ti_lock _ _ _ _ _ (tinv_lookup _ _ _ _ _ _ Hco E) m st Hin) as [|E']; [by left|].
      cbn in E'. rewrite Eo in E'. congruence.
    + intros u x E Eq. destruct (ti_mutex _ _ _ _ _ (tinv_lookup _ _ _ _ _ _ Hco E) m Eq) as [t E']. cbn in E'. congruence.
  - destruct o as [t|]; [|done]. eapply wp_push_sleep; [exact H1|apply cli_disabled|done| |done| |].
    + apply (co_mutex _ _ _ _ Hco). by exists (Some t).
    + split; cbn; try done.
      * intros m' st. rewrite list_elem_of_singleton. intros [= -> ->]. by left.
      * rewrite list_elem_of_singleton. done.
      * intros m' [= <-]. by exists t.
      * by repeat constructor.
    + intros u. rewrite list_elem_of_singleton. done.
Qed.
(** The stack under [mutex_unlock]: a call, or [condvar_wait]. *)
Definition under_unlock k (dis : Prop) : Prop := k = [] \/ (exists a m st, k = [CondvarSleep a m st]) /\ dis.

Lemma under_unlock_frames k dis f : under_unlock k dis -> f ∈ k -> plain f = true.
Proof.
  intros [->|[(a & m & st & ->) _]]; [by intros ?%elem_of_nil|]. by intros ->%list_elem_of_singleton.
Qed.

Lemma under_unlock_stable k dis : under_unlock k dis -> stable k dis.
Proof. intros [->|[(a & m & st & ->) H]]; [by left|by right]. Qed.

Lemma under_unlock_wake k dis t : under_unlock k dis -> stable (UnlockWake t :: k) dis.
Proof. intros [->|[(a & m & st & ->) H]]; [by left|by right]. Qed.

(** A frame that claims the wake-up of [t], on the stack of [c]. *)
Lemma core_claim o n qs g c t k kt :
  core o n qs g -> g c = Some (Summary None false false k) -> c <> IdleThread ->
  g t = Some (Summary None true false kt) -> (forall u x, g u = Some x -> UnlockWake t ∉ su_frames x) ->
  core o n qs (su_set c (Summary None false false (UnlockWake t :: k)) g).
Proof.
  intros Hco Ec Hi Et Hno. unfold su_set.
  assert (forall u x a, (if decide (u = c) then Some (Summary None false false (UnlockWake t :: k)) else g u) = Some x ->
    UnlockWake a ∈ su_frames x -> (u = c /\ a = t) \/ (exists y, g u = Some y /\ UnlockWake a ∈ su_frames y)) as Hwake.
  { intros u x a. case_decide; [|by eauto]. subst u. intros [= <-] [[= ->]|Hin]%elem_of_cons; [by left|right; eauto]. }
  assert (forall a, a <> c -> (if decide (a = c) then Some (Summary None false false (UnlockWake t :: k)) else g a) = g a)
    as Hne by (intros a Hac; by rewrite decide_False).
  split; [| | |apply Hco..].
  - intros u x. case_decide; [|apply (co_thread _ _ _ _ Hco)]. subst u. intros [= <-].
    destruct (tinv_lookup _ _ _ _ _ _ Hco Ec) as [T1 T2 T3 T4 T5 T6]. split; cbn in *; try done.
    + intros m st [[=]|Hin]%elem_of_cons. by apply (T1 m st).
    + intros [[=]|Hin]%elem_of_cons. by apply T2.
    + by apply Forall_cons.
  - intros u x a E Hin. destruct (Hwake u x a E Hin) as [[-> ->]|(y & Ey & Hy)].
    + exists kt. rewrite Hne; [done|congruence].
    + destruct (co_pending _ _ _ _ Hco u y a Ey Hy) as [k' E']. exists k'. rewrite Hne; [done|congruence].
  - intros u u' x x' a E E' Hin Hin'.
    destruct (Hwake u x a E Hin) as [[-> ->]|(y & Ey & Hy)], (Hwake u' x' _ E' Hin') as [[-> E2]|(y' & Ey' & Hy')];
      [done|by destruct (Hno u' y')|subst a; by destruct (Hno u y)|by apply (co_unique _ _ _ _ Hco u u' y y' a)].
Qed.

(** The mutex passes from [c] to the waiter [t], which [c] has still to wake. *)
Lemma core_handoff o n qs g m c t k kt :
  core o n qs g -> o !! m = Some (Some c) -> g c = Some (Summary None false false k) ->
  (forall f, f ∈ k -> plain f = true) -> c <> IdleThread -> g t = Some (Summary (Some (MutexQueue m)) true false kt) ->
  core (<[m := Some t]> o) n qs
    (su_set c (Summary None false false (UnlockWake t :: k)) (su_set t (Summary None true false kt) g)).
Proof.
  intros Hco Em Ec Hk Hi Et.
  assert (core (<[m := Some t]> o) n qs g) as H1.
  { apply core_owner; [done|by eexists| |intros; by exists t].
    intros u x st E Hin. destruct (ti_lock _ _ _ _ _ (tinv_lookup _ _ _ _ _ _ Hco E) m st Hin) as [|E']; [by left|].
    rewrite Em in E'. injection E' as ->. rewrite Ec in E. injection E as <-. by apply Hk in Hin. }
  assert (forall u y, g u = Some y -> UnlockWake t ∉ su_frames y) as Hno.
  { intros u y E Hin. destruct (co_pending _ _ _ _ Hco u y t E Hin) as [k' E']. congruence. }
  assert (core (<[m := Some t]> o) n qs (su_set t (Summary None true false kt) g)) as H2.
  { eapply core_one; [done..| |done|done]. destruct (tinv_lookup _ _ _ _ _ _ H1 Et) as [T1 T2 T3 T4 T5 T6].
    split; cbn in *; try done.
    - intros m' st Hin. destruct (T1 m' st Hin) as [[= ->]|]; right; [by rewrite lookup_insert_eq|done].
    - intros Hin. by destruct (T2 Hin). }
  eapply core_claim; [done| |done| |].
  - unfold su_set. rewrite decide_False; [done|]. intros ->. congruence.
  - unfold su_set. by rewrite decide_True.
  - intros u x. unfold su_set. case_decide; [|by apply Hno]. subst u. intros [= <-]. by apply (Hno t _ Et).
Qed.

Lemma wp_mutex_unlock s v c k m :
  mid s v c k -> c <> IdleThread -> owners s !! m = Some (Some c) -> under_unlock k (disabled (s_tasks s)) ->
  wp (mutex_unlock m) (safe v) s.
Proof.
  intros H Hi Eo Hk. apply wp_bind, wp_not_null; [apply (co_mutex _ _ _ _ (mid_core _ _ _ _ H)); by eexists|].
  apply wp_bind, (wp_get_owner m (Some c)); [done|].
  apply wp_bind, (wp_current _ _ _ _ _ H).
  apply wp_bind, wp_assert; [by apply bool_decide_eq_true|]. apply wp_bind, wp_save. set (s1 := with_tasks _ _).
  assert (mid s1 v c k) as H1 by apply (mid_cli _ _ _ _ H). pose proof (mid_core _ _ _ _ H1) as Hco.
  pose proof (mid_summary _ _ _ _ H1) as Ec. pose proof (fun f => under_unlock_frames k _ f Hk) as Hf.
  assert (queues_of v (MutexQueue m)) as Hq by (apply (co_mutex _ _ _ _ Hco); by eexists).
  apply wp_bind, wp_task_op, (su_remove _ v (MutexQueue m)); [apply H1|done| |].
  - intros Hnone. apply wp_bind, wp_set_owner; [by eexists|]. apply wp_restore.
    apply (settle _ v c k); [|by apply under_unlock_stable]. apply mid_flags, (mid_owner s1); [done|by eexists| |].
    + intros u x st E Hin. destruct (ti_lock _ _ _ _ _ (tinv_lookup _ _ _ _ _ _ Hco E) m st Hin) as [|E']; [by left|].
      cbn in E'. rewrite Eo in E'. injection E' as ->. rewrite Ec in E. injection E as <-. by apply Hf in Hin.
    + intros u x E Eq. by destruct (Hnone u x E).
  - intros t kt w' Hfi Ecpu Ecur Est _ Et Hsum. apply wp_bind, wp_set_owner; [by eexists|]. apply wp_bind, wp_restore, wp_push.
    cbn [s_tasks with_tasks owners counts set_flags t_sched].
    assert (summary_of w' c = Some (Summary None false false k)) as Ec'.
    { rewrite Hsum. unfold su_set. rewrite decide_False; [done|]. intros ->. congruence. }
    assert (current (t_sched w') = Some c) as Ecur' by (rewrite Ecur; apply H1).
    assert (stack (t_sched w') = k) as Est' by (rewrite Est; apply H1).
    rewrite Est'.
    assert (forall u, summary_of (set_stack (UnlockWake t :: k) (set_flags (eflags (t_cpu (s_tasks s))) w')) u =
      su_set c (Summary None false false (UnlockWake t :: k)) (su_set t (Summary None true false kt) (summary_of (s_tasks s1))) u) as E.
    { intros u. etransitivity; [exact (summary_stack w' _ c _ u Ecur' Ec')|]. unfold su_set at 1 2. case_decide; [done|]. apply Hsum. }
    apply (settle_fine _ _ _ v c).
    + destruct Hfi as (v' & Hok' & Hq'). exists v'. split; [|done]. by apply ok_stack, ok_cpu.
    + done.
    + eapply core_ext; [exact E|]. by apply core_handoff.
    + intros u x Hne. rewrite E. unfold su_set. rewrite decide_False by done. case_decide.
      * subst u. intros [= <-]. by apply (mid_parked _ _ _ _ H1 t _ Hne Et).
      * by apply (mid_parked _ _ _ _ H1).
    + by apply under_unlock_wake.
Qed.

(** *** Semaphores *)

Lemma core_set_count o n qs g a (k : Z) :
  core o n qs g -> is_Some (n !! a) -> is_u32 k ->
  (forall u x, g u = Some x -> su_queue x = Some (SemaphoreQueue a) -> k = 0) -> core o (<[a := k]> n) qs g.
Proof.
  intros [H1 H2 H3 H4 H5 H6] Ha Hk Hw. split; [|done|done|done| |].
  - intros u x E. destruct (H1 u x E) as [T1 T2 T3 T4 T5 T6]. split; try done.
    intros a' Eq. destruct (decide (a' = a)) as [->|Hne].
    + rewrite lookup_insert_eq. by rewrite (Hw u x E Eq).
    + rewrite lookup_insert_ne by done. by apply T4.
  - intros a' Ha'. apply H5. destruct (decide (a' = a)) as [->|]; [done|by rewrite lookup_insert_ne in Ha'].
  - intros a' k'. destruct (decide (a' = a)) as [->|].
    + rewrite lookup_insert_eq. by intros [= <-].
    + rewrite lookup_insert_ne by done. apply H6.
Qed.

Lemma mid_count s v c k a n :
  mid s v c k -> is_Some (counts s !! a) -> is_u32 n ->
  (forall u x, summary_of (s_tasks s) u = Some x -> su_queue x = Some (SemaphoreQueue a) -> n = 0) ->
  mid (Sync (s_tasks s) (owners s) (<[a := n]> (counts s))) v c k.
Proof. intros [Hok Hc Hk Hco Hp] Ha Hn Hw. split; [done..| |done]. by apply core_set_count. Qed.

Lemma wp_semaphore_acquire s v c a :
  mid s v c [] -> c <> IdleThread -> is_Some (counts s !! a) -> wp (semaphore_acquire a) (safe v) s.
Proof.
  intros H Hi [n En]. apply wp_bind, wp_not_null; [apply (co_sem _ _ _ _ (mid_core _ _ _ _ H)); by eexists|].
  apply wp_bind, wp_save. set (s1 := with_tasks _ s).
  assert (mid s1 v c []) as H1 by by apply mid_cli. pose proof (mid_core _ _ _ _ H1) as Hco.
  pose proof (co_count _ _ _ _ Hco a n En) as Hn. unfold is_u32 in Hn.
  apply wp_bind, (wp_get_count a n); [done|]. destruct (0 <? n) eqn:Hpos.
  - apply wp_bind, wp_set_count; [by exists n|]. apply wp_restore.
    apply (open_settle _ v c []); [|done]. apply mid_flags, (mid_count s1); [done|by exists n|apply u32_range|].
    intros u x E Eq. pose proof (ti_sem _ _ _ _ _ (tinv_lookup _ _ _ _ _ _ Hco E) a Eq) as E0.
    cbn in E0. assert (n = 0) by congruence. lia.
  - eapply wp_push_sleep; [exact H1|apply cli_disabled|done| |done| |].
    + apply (co_sem _ _ _ _ Hco). by exists n.
    + split; cbn; try done; try (intros *; rewrite list_elem_of_singleton; done).
      * intros a' [= <-]. rewrite En. f_equal. lia.
      * by repeat constructor.
    + intros u. rewrite list_elem_of_singleton. done.
Qed.

(** Threads were woken, and the running thread goes on. *)
Lemma settle_woken s v c k w' (P : queue -> Prop) :
  mid s v c k -> fine v w' -> current (t_sched w') = Some c -> stack (t_sched w') = k -> (forall m, ~ P (MutexQueue m)) ->
  woken_from P (summary_of (s_tasks s)) (summary_of w') -> stable k (disabled w') -> safe v tt (with_tasks w' s).
Proof.
  intros H Hf Hc Hk HP Hw Hs. apply (settle_fine _ _ _ v c); [done|done| | |by rewrite Hk].
  - eapply core_woken; [done..|apply H].
  - intros u x Hne E. destruct (Hw u) as [Eu|(y & q & Ey & _ & _ & Eu)]; rewrite Eu in E.
    + by apply (mid_parked _ _ _ _ H u).
    + injection E as <-. cbn. by apply (mid_parked _ _ _ _ H u y).
Qed.

Lemma woken_one (g g' : summaries) t q kt : g t = Some (Summary (Some q) true false kt) ->
  (forall u, g' u = su_set t (Summary None false false kt) g u) -> woken_from (fun q' => q' = q) g g'.
Proof.
  intros Et E u. rewrite E. unfold su_set. case_decide as Eu; [|by left]. subst u. right.
  by exists (Summary (Some q) true false kt), q.
Qed.

Lemma wp_semaphore_release s v c a :
  mid s v c [] -> is_Some (counts s !! a) -> wp (semaphore_release a) (safe v) s.
Proof.
  intros H [n En]. apply wp_bind, wp_not_null; [apply (co_sem _ _ _ _ (mid_core _ _ _ _ H)); by eexists|].
  apply wp_bind, wp_save. set (s1 := with_tasks _ s).
  assert (mid s1 v c []) as H1 by by apply mid_cli. pose proof (mid_core _ _ _ _ H1) as Hco.
  assert (queues_of v (SemaphoreQueue a)) as Hq by (apply (co_sem _ _ _ _ Hco); by eexists).
  apply wp_bind, wp_task_op, (su_remove _ v (SemaphoreQueue a)); [apply H1|done| |].
  - intros Hnone. rewrite bool_decide_false by naive_solver.
    apply wp_bind, (wp_get_count a n); [done|]. apply wp_bind, wp_set_count; [by exists n|]. apply wp_restore.
    apply (open_settle _ v c []); [|done]. apply mid_flags, (mid_count s1); [done|by exists n|apply u32_range|].
    intros u x E Eq. by destruct (Hnone u x E).
  - intros t kt w' (v1 & Hok1 & Hq1) Ecpu Ecur Est _ Et Hsum. rewrite bool_decide_true by done.
    apply wp_task_op, (su_unblock w' v1 t kt); [done| |].
    { rewrite Hsum. unfold su_set. by rewrite decide_True. }
    intros w2 (v2 & Hok2 & Hq2) _ Ecur2 Est2 Hsum2.
    apply (settle_woken s1 v c [] w2 (fun q => q = SemaphoreQueue a)); [done| | | |done| |by left].
    + exists v2. split; [done|]. intros q Hq'. by apply Hq2, Hq1.
    + rewrite Ecur2, Ecur. apply H1.
    + rewrite Est2, Est. apply H1.
    + apply (woken_one _ _ t _ kt Et). intros u. rewrite Hsum2. unfold su_set. case_decide as Eu; [done|].
      rewrite Hsum. unfold su_set. by rewrite decide_False.
Qed.

(** *** Condition variables *)

Lemma wp_condvar_signal s v c a :
  mid s v c [] -> a <> NULL -> queues_of v (CondvarQueue a) -> wp (condvar_signal a) (safe v) s.
Proof.
  intros H Ha Hq. apply wp_bind, wp_not_null; [done|]. apply wp_bind, wp_save. set (s1 := with_tasks _ s).
  assert (mid s1 v c []) as H1 by by apply mid_cli.
  apply wp_bind, wp_task_op, (su_wake _ v (CondvarQueue a)); [apply H1|apply cli_disabled|done|].
  intros w' Hf _ Ecur Est Hw. apply wp_restore.
  apply (settle_woken s1 v c [] _ (fun q => q = CondvarQueue a)); [done| |by rewrite <- (mid_current _ _ _ _ H1)
    |by rewrite <- (mid_stack _ _ _ _ H1)|done|exact Hw|by left].
  destruct Hf as (v' & Hok & Hq'). exists v'. split; [by apply ok_cpu|done].
Qed.

Lemma wp_condvar_broadcast s v c a :
  mid s v c [] -> a <> NULL -> queues_of v (CondvarQueue a) -> wp (condvar_broadcast a) (safe v) s.
Proof.
  intros H Ha Hq. apply wp_bind, wp_not_null; [done|]. apply wp_bind, wp_save. set (s1 := with_tasks _ s).
  assert (mid s1 v c []) as H1 by by apply mid_cli.
  apply wp_bind, wp_task_op, wp_gets.
  apply wp_bind, wp_task_op, (su_wake_all _ v (CondvarQueue a)); [apply H1|apply cli_disabled|done|cbn; lia|].
  intros w' Hf _ Ecur Est Hw. apply wp_restore.
  apply (settle_woken s1 v c [] _ (fun q => q = CondvarQueue a)); [done| |by rewrite <- (mid_current _ _ _ _ H1)
    |by rewrite <- (mid_stack _ _ _ _ H1)|done|exact Hw|by left].
  destruct Hf as (v' & Hok & Hq'). exists v'. split; [by apply ok_cpu|done].
Qed.

Lemma wp_condvar_wait s v c a m :
  mid s v c [] -> c <> IdleThread -> owners s !! m = Some (Some c) -> a <> NULL -> queues_of v (CondvarQueue a) ->
  wp (condvar_wait a m) (safe v) s.
Proof.
  intros H Hi Eo Ha Hq. apply wp_bind, wp_not_null; [done|].
  apply wp_bind, wp_not_null; [apply (co_mutex _ _ _ _ (mid_core _ _ _ _ H)); by eexists|]. apply wp_bind, wp_save. set (s1 := with_tasks _ s).
  assert (mid s1 v c []) as H1 by by apply mid_cli. set (st := eflags _).
  assert (mid (with_tasks (set_stack [CondvarSleep a m st] (s_tasks s1)) s1) v c [CondvarSleep a m st]) as H2.
  { apply (mid_push s1 v c []); [done..| |done]. cbn. split; [done|by eexists]. }
  apply wp_bind, wp_push. rewrite (mid_stack _ _ _ _ H1). eapply (wp_mutex_unlock _ v c); [exact H2|done|done|].
  right. split; [by eexists _, _, _|apply cli_disabled].
Qed.

(** *** The other events *)

Lemma wp_sync_yield s v c : mid s v c [] -> c <> IdleThread -> wp (task_op thread_yield) (safe v) s.
Proof.
  intros H Hi. apply wp_task_op. unfold thread_yield. apply wp_bind, wp_scheduler_current.
  rewrite (mid_current _ _ _ _ H), bool_decide_false by done. apply wp_bind, wp_interrupt_save, wp_bind, wp_modify.
  set (st := eflags _). pose proof (mid_cli _ _ _ _ H) as H1.
  assert (mid (with_tasks (set_stack [YieldReturn st] (cli (s_tasks s))) s) v c [YieldReturn st]) as H2
    by by apply (mid_push (with_tasks (cli (s_tasks s)) s) v c []).
  cbn [t_sched cli]. rewrite (mid_stack _ _ _ _ H).
  apply (su_yield _ v c); [apply H2|apply cli_disabled|apply H2|]. intros w' Hf Hd E.
  apply (settle_gave_up _ v c _ (Summary None false false [YieldReturn st]) w' H2); [done|done| |by apply (mid_tinv _ v)|done|done].
  intros u. rewrite E. unfold su_set. case_decide as Eu; [|done]. subst u. by apply (mid_summary _ _ _ _ H2).
Qed.

Lemma wp_sync_kill s v c :
  mid s v c [] -> c <> IdleThread -> Some c <> reaper_thread (t_sched (s_tasks s)) ->
  wp (task_op thread_kill_current) (safe v) s.
Proof.
  intros H Hi Hr. apply wp_task_op, (su_kill _ v c); [apply H|apply H|done|done|].
  intros w' g Hf Hd Hw Ec E. rewrite (mid_stack _ _ _ _ H) in E. pose proof (mid_summary _ _ _ _ H) as Hc.
  assert (core (owners s) (counts s) (queues_of v) g) as Hco.
  { eapply (core_woken _ _ _ _ _ (ending_queue c)); [|exact Hw|apply H]. by intros m [|]. }
  apply settle_switched; [done|done| |].
  - eapply core_ext; [exact E|]. eapply core_one; [done|by rewrite Ec| | |done].
    + split; cbn; try done; try (intros *; rewrite list_elem_of_singleton; done). by repeat constructor.
    + by intros u ?%list_elem_of_singleton.
  - intros u x. rewrite E. unfold su_set. case_decide as Eu; [by intros [= <-]|].
    intros Ex. destruct (Hw u) as [Eg|(y & q & Ey & _ & _ & Eg)]; rewrite Eg in Ex.
    + by apply (mid_parked _ _ _ _ H u).
    + injection Ex as <-. by apply (mid_parked _ _ _ _ H u y).
Qed.

Lemma wp_sync_timer s v c k : mid s v c k -> open_stack k = true -> wp (task_op timer_interrupt) (safe v) s.
Proof.
  intros H Hk. apply wp_task_op, (su_timer _ v c); [apply H|apply H|]. intros w' Hf Hd E.
  rewrite (mid_stack _ _ _ _ H) in E. eapply (settle_gave_up s v c k); [done|done|done|exact E| |done|].
  - eapply (tinv_push _ _ _ _ _ k (Summary None false false k)); [by apply mid_tinv|done..].
  - intros t. by intros [[=]|]%elem_of_cons.
Qed.

(** The wake-up that [mutex_unlock] left. *)
Lemma wp_unlock_wake s v c t k :
  mid s v c (UnlockWake t :: k) -> under_unlock k (disabled (s_tasks s)) ->
  wp (task_op (modify (set_stack k)) ;;; task_op (thread_unblock (Some t))) (safe v) s.
Proof.
  intros H Hk. pose proof (mid_pop _ _ _ _ _ H) as H1. set (s1 := with_tasks _ s) in H1.
  pose proof (mid_core _ _ _ _ H) as Hco. pose proof (mid_summary _ _ _ _ H) as Hc.
  destruct (co_pending _ _ _ _ Hco c _ t Hc ltac:(by left)) as [kt Et].
  assert (c <> t) as Hct by (intros ->; congruence).
  assert (forall u, summary_of (s_tasks s1) u = su_set c (Summary None false false k) (summary_of (s_tasks s)) u) as E1
    by (intros u; exact (summary_stack _ _ c _ u (mid_current _ _ _ _ H) Hc)).
  assert (summary_of (s_tasks s1) t = Some (Summary None true false kt)) as Et1
    by (rewrite E1; unfold su_set; by rewrite decide_False).
  apply wp_bind, wp_task_op, wp_modify, wp_task_op. change (s_tasks (with_tasks _ s)) with (s_tasks s1).
  apply (su_unblock _ v t kt); [apply H1|done|]. intros w' Hf Ecpu Ecur Est E.
  change (with_tasks w' (with_tasks _ s)) with (with_tasks w' s1).
  apply (settle_fine _ _ _ v c); [done|by rewrite Ecur; apply H1| | |].
  - eapply core_ext; [exact E|]. eapply core_one; [apply H1|done| |done|].
    + destruct (tinv_lookup _ _ _ _ _ _ (mid_core _ _ _ _ H1) Et1) as [T1 T2 T3 T4 T5 T6]. split; cbn in *; try done.
    + intros _ _. right. intros u z. rewrite E1. unfold su_set. case_decide as Eu.
      * subst u. intros [= <-]. by intros Hin%(under_unlock_frames _ _ _ Hk).
      * intros Ez Hin. apply Eu. by apply (co_unique _ _ _ _ Hco u c z _ t Ez Hc Hin ltac:(by left)).
  - intros u x Hne. rewrite E. unfold su_set. case_decide as Eu; [|by apply (mid_parked _ _ _ _ H1)].
    subst u. intros [= <-]. by apply (mid_parked _ _ _ _ H1 t _ Hne Et1).
  - rewrite Est, (mid_stack _ _ _ _ H1). apply under_unlock_stable. unfold disabled. by rewrite Ecpu.
Qed.

(** Frames that only set the interrupt flag. *)
Lemma wp_set_flags s v c f k e :
  mid s v c (f :: k) -> open_stack k = true ->
  wp (task_op (modify (set_stack k)) ;;; task_op (cpu_op (modify (fun cp => Cpu (e cp) (cr3 cp) (flushed cp))))) (safe v) s.
Proof.
  intros H Hk. pose proof (mid_pop _ _ _ _ _ H) as H1. apply wp_bind, wp_task_op, wp_modify, wp_task_op, wp_cpu_op, wp_modify.
  eapply (open_settle _ v c k); [|done]. apply (mid_cpu _ _ _ _ _ H1).
Qed.

Lemma mid_idle s v c f k : mid s v c (f :: k) -> ~ idle_frame f -> c <> IdleThread.
Proof. intros H Hf Hi. pose proof (ti_idle _ _ _ _ _ (mid_tinv _ _ _ _ H) Hi) as [Hc _]%Forall_cons. done. Qed.

(** The second half of [condvar_wait]. *)
Lemma wp_condvar_sleep s v c a m st :
  mid s v c [CondvarSleep a m st] -> disabled (s_tasks s) ->
  wp (task_op (modify (set_stack [])) ;;; run_frame (CondvarSleep a m st)) (safe v) s.
Proof.
  intros H Hd. pose proof (mid_pop _ _ _ _ _ H) as H1. pose proof (mid_tinv _ _ _ _ H) as Ht.
  pose proof (mid_idle _ _ _ _ _ H (fun F => F)) as Hi. pose proof (ti_known _ _ _ _ _ Ht) as [[Hq Hm] _]%Forall_cons.
  apply wp_bind, wp_task_op, wp_modify. eapply wp_push_sleep; [exact H1|done|done|exact Hq|done| |].
  - split; cbn; try done; try (intros *; rewrite list_elem_of_singleton; done). by repeat constructor.
  - by intros t ?%list_elem_of_singleton.
Qed.

Lemma wp_return_step s v c k :
  mid s v c k -> stable k (disabled (s_tasks s)) -> k <> [] -> wp return_step (safe v) s.
Proof.
  intros H Hk Hne. unfold return_step. apply wp_bind, wp_gets. rewrite (mid_stack _ _ _ _ H).
  pose proof (mid_summary _ _ _ _ H) as Hc. pose proof (mid_tinv _ _ _ _ H) as Ht.
  destruct Hk as [Hk|[[Hk|Hk]%orb_true_iff Hd]].
  - destruct k as [|[] []]; try done.
    + apply (wp_unlock_wake s v c); [done|by left].
    + pose proof (mid_pop _ _ _ _ _ H) as H1. apply wp_bind, wp_task_op, wp_modify.
      apply (wp_mutex_lock _ v c); [exact H1|exact (mid_idle _ _ _ _ _ H (fun F => F))|].
      by pose proof (ti_known _ _ _ _ _ Ht) as [Hm _]%Forall_cons.
  - destruct k as [|f k']; [done|]. destruct f; try done.
    all: try (destruct k'; [|done]).
    1-4, 6-7: by eapply wp_set_flags.
    + by destruct (ti_kill _ _ _ _ _ Ht ltac:(by left)).
    + pose proof (mid_pop _ _ _ _ _ H) as H1. pose proof (ti_known _ _ _ _ _ Ht) as [Hm _]%Forall_cons.
      apply wp_bind, wp_task_op, wp_modify, wp_bind, wp_push, wp_restore.
      eapply (open_settle _ v c [CondvarRelock m]); [|done].
      pose proof (mid_push _ _ _ _ (CondvarRelock m) H1 eq_refl Hm (fun Hi => mid_idle _ _ _ _ _ H (fun F => F) Hi)) as H2.
      apply (mid_cpu _ _ _ _ _ H2).
  - destruct k as [|[] []]; try done.
    + destruct f, l; try done. apply (wp_unlock_wake s v c); [done|]. right. split; [by eexists _, _, _|done].
    + by apply (wp_condvar_sleep s v c).
Qed.

(** A head with pointers is the head of a list. *)
Lemma initialised_known s v q : ok (s_tasks s) v -> initialised_queue q s -> queues_of v q.
Proof.
  intros Hok (a & b & E). destruct (h_lists _ _ (b_holds _ _ (proj1 Hok))) as (F & Hl & HF).
  unfold queues_of. destruct (v_queues v !! q) as [l|] eqn:Eq; [done|]. exfalso.
  assert (free_node (nodes (t_sched (s_tasks s))) F (QueueHead q)) as Hfree.
  { eapply free_in_view; [done..|by eexists|]. intros h [-> [xs Ex]]. cbn in Ex. by rewrite Eq in Ex. }
  rewrite (free_pointers _ _ _ Hl Hfree) in E. done.
Qed.

Lemma mid_of s v c : sync_ok s v -> live_current s c -> mid s v c [] /\ c <> IdleThread.
Proof.
  intros (c' & k & H & _) (Hc & Hi & Hk). rewrite (mid_current _ _ _ _ H) in Hc. injection Hc as ->.
  rewrite (mid_stack _ _ _ _ H) in Hk. by subst k.
Qed.

Lemma wp_call s v o c : sync_ok s v -> live_current s c -> rules o c s -> wp (run_call o) (safe v) s.
Proof.
  intros Hs Hc Hr. destruct (mid_of _ _ _ Hs Hc) as [H Hi]. pose proof (mid_ok _ _ _ _ H) as Hok.
  destruct o; cbn [run_call rules] in *.
  - by apply (wp_sync_yield s v c).
  - by apply (wp_mutex_lock s v c).
  - apply (wp_mutex_unlock s v c []); [done..|by left].
  - by apply (wp_semaphore_acquire s v c).
  - by apply (wp_semaphore_release s v c).
  - destruct Hr as (Ho & Hn & Hq). apply (wp_condvar_wait s v c); [done..|by eapply initialised_known].
  - destruct Hr as (Hn & Hq). apply (wp_condvar_signal s v c); [done..|by eapply initialised_known].
  - destruct Hr as (Hn & Hq). apply (wp_condvar_broadcast s v c); [done..|by eapply initialised_known].
  - by apply (wp_sync_kill s v c).
Qed.

Lemma wp_event s v e : sync_ok s v -> enabled e s -> wp (run_event e) (safe v) s.
Proof.
  intros Hs He. destruct e as [o| |]; cbn [run_event enabled] in *.
  - destruct He as (c & Hc & Hr). by apply (wp_call s v o c).
  - destruct Hs as (c & k & H & Hk). apply (wp_return_step s v c k); [done|done|].
    by rewrite <- (mid_stack _ _ _ _ H).
  - destruct Hs as (c & k & H & Hk). apply (wp_sync_timer s v c k); [done|].
    destruct Hk as [Hk|[_ Hd]]; [done|]. unfold disabled in Hd. congruence.
Qed.
End Routines.
