(* ===== verification/TaskDemo.v ===== *)
(** * Deciding the invariants on a concrete state

    [lists], [base] and [sync_ok] quantify over nodes, threads and queues; on
    a concrete state they can be evaluated. [demo] is such a state: a thread
    that runs and holds a mutex, a thread that is ready, a thread that waits
    for the mutex and the idle thread. *)

From S2P Require Import Prelude Layout Machine DList ListFamily Task TaskSpec TaskOps Sync SyncSpec SyncInv SyncSafe.

Section Lists.
Context {L : Type} `{Countable L}.
Implicit Types (s : gmap L (list_node L)) (F : gmap L (list L)) (h x : L) (xs : list L).

#[export] Instance chain_dec s xs : forall a b, Decision (chain s a xs b).
Proof. induction xs as [|x xs IH]; intros a b; cbn [chain]; apply _. Defined.

(** The nodes of a list and its head. *)
Definition members (hx : L * list L) : list L := hx.1 :: hx.2.

Definition lists_check s F : Prop :=
  map_Forall (fun h xs => is_list s h xs) F /\
  NoDup (concat (members <$> map_to_list F)) /\
  map_Forall (fun x n => x ∈ concat (members <$> map_to_list F) \/ n = Node None None) s.

#[export] Instance is_list_dec s h xs : Decision (is_list s h xs).
Proof. unfold is_list. apply _. Defined.

#[export] Instance list_node_eq_dec : EqDecision (list_node L).
Proof. solve_decision. Defined.

#[export] Instance lists_check_dec s F : Decision (lists_check s F).
Proof. unfold lists_check. apply _. Defined.

Lemma in_members F h xs x : F !! h = Some xs -> x ∈ h :: xs -> x ∈ concat (members <$> map_to_list F).
Proof.
  intros E Hx. apply list_elem_of_In, in_concat. exists (h :: xs). split; [|by apply list_elem_of_In].
  apply list_elem_of_In, list_elem_of_fmap. exists (h, xs). split; [done|]. by apply elem_of_map_to_list.
Qed.

Lemma concat_disjoint (l : list (L * list L)) : NoDup (concat (members <$> l)) ->
  forall p p' x, p ∈ l -> p' ∈ l -> x ∈ members p -> x ∈ members p' -> p = p'.
Proof.
  assert (forall (l : list (L * list L)) p x, p ∈ l -> x ∈ members p -> x ∈ concat (members <$> l)) as Hin.
  { intros l' p x Hp Hx. apply list_elem_of_In, in_concat. exists (members p).
    split; [apply list_elem_of_In; by apply list_elem_of_fmap_2|by apply list_elem_of_In]. }
  induction l as [|q l IH]; [intros _ p p' x Hp; by apply not_elem_of_nil in Hp|].
  rewrite fmap_cons. cbn [concat]. intros (_ & Hd & Hn)%NoDup_app p p' x.
  intros [->|Hp]%elem_of_cons [->|Hp']%elem_of_cons Hx Hx'; [done| | |by apply (IH Hn p p' x)].
  - by destruct (Hd x Hx); apply (Hin l p').
  - by destruct (Hd x Hx'); apply (Hin l p).
Qed.

Lemma lists_check_ok s F : lists_check s F -> lists s F.
Proof.
  intros (Hl & Hd & Hf). split.
  - intros h xs E. by apply Hl.
  - intros h h' x (xs & E & Hx) (xs' & E' & Hx').
    pose proof (concat_disjoint _ Hd (h, xs) (h', xs') x) as Hp.
    assert ((h, xs) = (h', xs')) as [= -> _]; [|done].
    apply Hp; [by apply elem_of_map_to_list..|done|done].
  - intros x [n E] Hno. destruct (Hf x n E) as [Hx| ->]; [|done]. exfalso.
    apply list_elem_of_In, in_concat in Hx as (ys & Hys & Hx).
    apply list_elem_of_In, list_elem_of_fmap in Hys as ([h xs] & -> & Hh). apply elem_of_map_to_list in Hh.
    apply (Hno h). exists xs. split; [done|]. by apply list_elem_of_In in Hx.
Qed.
End Lists.

Section Check.
Implicit Types (w : tasks) (v : view) (t : tref) (q : queue).

(** [entry_of v] as a map. *)
Definition family_of v : gmap node (list node) :=
  {[ReadyHead := SchedNode <$> v_ready v; ZombieHead := ZombieNode <$> v_zombies v]} ∪
  kmap QueueHead (fmap (M:=list) WaitNode <$> v_queues v) ∪
  kmap ThreadsHead (fmap (M:=list) GroupNode <$> v_groups v).

#[local] Instance QueueHead_inj : Inj (=) (=) QueueHead.
Proof. by intros ? ? [= ->]. Qed.
#[local] Instance ThreadsHead_inj : Inj (=) (=) ThreadsHead.
Proof. by intros ? ? [= ->]. Qed.

Lemma kmap_other {K A} `{Countable K} (f : K -> node) `{!Inj (=) (=) f} (m : gmap K A) x :
  (forall k, f k <> x) -> (kmap f m : gmap node A) !! x = None.
Proof. intros Hx. apply lookup_kmap_None; [done|]. intros k E. by destruct (Hx k). Qed.

Lemma family_lookup v h : family_of v !! h = entry_of v h.
Proof.
  unfold family_of. destruct h; cbn [entry_of]; rewrite !lookup_union.
  all: try (rewrite (kmap_other QueueHead) by done). all: try (rewrite (kmap_other ThreadsHead) by done).
  all: rewrite ?lookup_insert_eq, ?lookup_insert_ne, ?lookup_singleton_eq, ?lookup_singleton_ne by done; try done.
  - rewrite lookup_kmap, lookup_fmap by apply _. by destruct (v_queues v !! q).
  - rewrite lookup_kmap, lookup_fmap by apply _. by destruct (v_groups v !! p).
Qed.

(** [P] of the thread at [t], which exists. *)
Definition at_thread w t (P : thread -> Prop) : Prop :=
  match threads (t_sched w) !! t with Some th => P th | None => False end.

#[export] Instance at_thread_dec w t P : (forall th, Decision (P th)) -> Decision (at_thread w t P).
Proof. intros HP. unfold at_thread. destruct (threads (t_sched w) !! t); apply _. Defined.

Lemma at_thread_exists w t P : at_thread w t P -> exists th, threads (t_sched w) !! t = Some th /\ P th.
Proof. unfold at_thread. destruct (threads (t_sched w) !! t); [eauto|done]. Qed.

#[export] Instance runnable_dec s : Decision (runnable s).
Proof. unfold runnable. apply _. Defined.

Definition threads_check w v t (th : thread) : Prop :=
  (t <> IdleThread -> runnable (state th) -> t ∈ v_ready v) /\
  (wait_queue th <> None -> state th = THREAD_BLOCKED) /\
  match wait_queue th with Some q => t ∈ waiting v q | None => True end /\
  (state th = THREAD_RUNNING -> t = IdleThread \/ current (t_sched w) = Some t) /\
  (process th <> NULL -> is_Some (directories (t_sched w) !! process th)) /\
  (t <> IdleThread -> is_Some (v_queues v !! TerminationQueue t)) /\
  is_Some (nodes (t_sched w) !! SchedNode t) /\ is_Some (nodes (t_sched w) !! WaitNode t) /\
  is_Some (nodes (t_sched w) !! ZombieNode t) /\ is_Some (nodes (t_sched w) !! GroupNode t).

Definition ok_check w v : Prop :=
  lists_check (nodes (t_sched w)) (family_of v) /\
  at_thread w IdleThread (fun th => state th = THREAD_RUNNING /\ wait_queue th = None) /\
  Forall (fun t => t <> IdleThread /\ at_thread w t (fun th => runnable (state th))) (v_ready v) /\
  map_Forall (fun q ts => Forall (fun t => at_thread w t (fun th => wait_queue th = Some q)) ts) (v_queues v) /\
  Forall (fun t => at_thread w t (fun th => state th = THREAD_TERMINATED /\ detached th = true)) (v_zombies v) /\
  map_Forall (threads_check w v) (threads (t_sched w)) /\
  1 <= quantum_remaining (t_sched w) <= SCHEDULER_QUANTUM_TICKS /\
  match current (t_sched w) with Some c => at_thread w c (fun th => state th = THREAD_RUNNING) | None => False end /\
  (reaper_ready (t_sched w) = true -> is_Some (v_queues v !! ReaperQueue)).

#[export] Instance threads_check_dec w v t th : Decision (threads_check w v t th).
Proof. unfold threads_check. destruct (wait_queue th); apply _. Defined.

#[export] Instance ok_check_dec w v : Decision (ok_check w v).
Proof. unfold ok_check. destruct (current (t_sched w)); apply _. Defined.

Lemma ok_check_ok w v : ok_check w v -> ok w v.
Proof.
  intros (Hl & Hi & Hr & Hw & Hz & Ht & Hq & Hc & Hre).
  destruct (current (t_sched w)) as [c|] eqn:Ec; [|done].
  apply at_thread_exists in Hc as (thc & Etc & Esc).
  assert (forall t th, threads (t_sched w) !! t = Some th -> threads_check w v t th) as Hth by (intros t th; apply Ht).
  split; [|split; [lia|by exists c, thc]]. split.
  - split; [exists (family_of v); split; [by apply lists_check_ok|apply family_lookup]|].
    intros t [th E]. by destruct (Hth t th E) as (_ & _ & _ & _ & _ & _ & ? & ? & ? & ?).
  - by apply at_thread_exists in Hi.
  - intros t. split.
    + intros Hin. destruct (proj1 (Forall_forall _ _) Hr t Hin) as [Hne Hat]. split; [done|]. by apply at_thread_exists.
    + intros (Hne & th & E & Hrun). by apply (Hth t th E).
  - intros q t. split.
    + unfold waiting. destruct (v_queues v !! q) as [ts|] eqn:Eq; cbn; [|by intros ?%not_elem_of_nil].
      intros Hin. apply at_thread_exists. exact (proj1 (Forall_forall _ _) (Hw q ts Eq) t Hin).
    + intros (th & E & Eq). destruct (Hth t th E) as (_ & _ & Hwt & _). by rewrite Eq in Hwt.
  - intros t th E. by apply (Hth t th E).
  - intros t Hin. apply at_thread_exists. exact (proj1 (Forall_forall _ _) Hz t Hin).
  - intros t th E. by apply (Hth t th E).
  - exists c. eauto.
  - lia.
  - intros t th E. by apply (Hth t th E).
  - intros t Hne [th E]. by apply (Hth t th E).
  - done.
Qed.
End Check.

Section SyncCheck.
Implicit Types (s : sync) (v : view) (t : tref) (f : frame) (x : summary).

(** The clauses of [tinv] and [known] for one frame; a state without pending
    wake-ups is enough here. *)
Definition frame_check s v t x f : Prop :=
  match f with
  | LockReturn m _ => su_queue x = Some (MutexQueue m) \/ owners s !! m = Some (Some t)
  | KillReturn | UnlockWake _ => False
  | CondvarSleep c m _ => is_Some (v_queues v !! CondvarQueue c) /\ is_Some (owners s !! m)
  | CondvarWoken m _ | CondvarRelock m => is_Some (owners s !! m)
  | _ => True
  end /\ (t = IdleThread -> idle_frame f).

Definition waits_check s x : Prop :=
  match su_queue x with
  | Some (MutexQueue m) => match owners s !! m with Some (Some _) => True | _ => False end
  | Some (SemaphoreQueue a) => counts s !! a = Some 0
  | _ => True
  end.

Definition summary_check s v t : Prop :=
  match summary_of (s_tasks s) t with
  | Some x => Forall (frame_check s v t x) (su_frames x) /\ waits_check s x /\
      (current (t_sched (s_tasks s)) <> Some t -> parked (su_frames x) = true)
  | None => True
  end.

Definition sync_check s v : Prop :=
  ok_check (s_tasks s) v /\
  open_stack (stack (t_sched (s_tasks s))) = true /\
  map_Forall (fun t _ => summary_check s v t) (threads (t_sched (s_tasks s))) /\
  map_Forall (fun m _ => m <> NULL /\ is_Some (v_queues v !! MutexQueue m)) (owners s) /\
  map_Forall (fun a n => a <> NULL /\ is_Some (v_queues v !! SemaphoreQueue a) /\ 0 <= n < 2 ^ 32) (counts s).

#[export] Instance frame_check_dec s v t x f : Decision (frame_check s v t x f).
Proof. unfold frame_check, idle_frame. destruct f; apply _. Defined.

#[export] Instance summary_check_dec s v t : Decision (summary_check s v t).
Proof.
  unfold summary_check, waits_check. destruct (summary_of (s_tasks s) t) as [x|]; [|apply _].
  destruct (su_queue x) as [[]|]; try apply _. destruct (owners s !! m) as [[]|]; apply _.
Defined.

#[export] Instance sync_check_dec s v : Decision (sync_check s v).
Proof. unfold sync_check. apply _. Defined.

Lemma sync_check_ok s v : sync_check s v -> sync_ok s v.
Proof.
  intros (Hok & Hst & Hsum & Hm & Ha). apply ok_check_ok in Hok. destruct (b_current _ _ (proj1 Hok)) as (c & Hc & _).
  assert (forall t x, summary_of (s_tasks s) t = Some x -> Forall (frame_check s v t x) (su_frames x) /\ waits_check s x /\
      (current (t_sched (s_tasks s)) <> Some t -> parked (su_frames x) = true)) as Hx.
  { intros t x E. assert (is_Some (threads (t_sched (s_tasks s)) !! t)) as [th Et].
    { unfold summary_of in E. destruct (threads (t_sched (s_tasks s)) !! t); [by eexists|done]. }
    pose proof (Hsum t th Et) as H. cbn in H. unfold summary_check in H. by rewrite E in H. }
  assert (forall t x a, summary_of (s_tasks s) t = Some x -> UnlockWake a ∉ su_frames x) as Hno.
  { intros t x a E Hin. destruct (Hx t x E) as (Hf & _). by destruct (proj1 (Forall_forall _ _) Hf _ Hin). }
  exists c, (stack (t_sched (s_tasks s))). split; [|by left]. split; [done|done|done| |].
  - split.
    + intros t x E. destruct (Hx t x E) as (Hf & Hw & _). pose proof (proj1 (Forall_forall _ _) Hf) as Hf'.
      unfold waits_check in Hw. split.
      * intros m st Hin. apply (Hf' _ Hin).
      * intros Hin. by destruct (Hf' _ Hin).
      * intros m Eq. rewrite Eq in Hw. destruct (owners s !! m) as [[t'|]|]; [by exists t'|done..].
      * intros a Eq. by rewrite Eq in Hw.
      * eapply Forall_impl; [exact Hf|]. intros f [H _]. by destruct f.
      * intros Hi. eapply Forall_impl; [exact Hf|]. intros f [_ H]. by apply H.
    + intros u x t E Hin. by destruct (Hno u x t E).
    + intros u u' x x' t E _ Hin. by destruct (Hno u x t E).
    + intros m [o E]. by apply (Hm m o).
    + intros a [n E]. by destruct (Ha a n E) as (? & ? & _).
    + intros a n E. by destruct (Ha a n E) as (_ & _ & ?).
  - intros t x Hne E. destruct (Hx t x E) as (_ & _ & Hp). apply Hp. congruence.
Qed.
End SyncCheck.

(** ** A concrete state *)

(** The nodes of a circular list. *)
Definition ring {L} (h : L) (xs : list L) : list (L * list_node L) :=
  zip (h :: xs) (zip_with (fun p q => Node (Some p) (Some q)) (default h (last xs) :: h :: xs) (xs ++ [h])).

Definition lone (x : node) : node * list_node node := (x, Node None None).

Definition T1 : tref := HeapThread 3238002708.
Definition T2 : tref := HeapThread 3238003000.
Definition T3 : tref := HeapThread 3238003300.
Definition demo_mutex : Z := 3238010000.
Definition demo_semaphore : Z := 3238011000.
Definition demo_condvar : Z := 3238012000.
Definition demo_process : Z := 3238013000.

Definition demo_thread (n slot : Z) (st : thread_state) (q : option queue) (k : list frame) : thread :=
  Thread n (KERNEL_STACKS_START + slot * KERNEL_STACK_SIZE) 0 st (if slot =? 0 then NULL else demo_process)
    false q 0 NULL k.

Definition demo_view : view := View [T1; T2] []
  {[TerminationQueue T1 := []; TerminationQueue T2 := []; TerminationQueue T3 := [];
    MutexQueue demo_mutex := [T3]; SemaphoreQueue demo_semaphore := []; CondvarQueue demo_condvar := []]}
  {[demo_process := [T1; T2; T3]]}.

Definition demo_nodes : gmap node (list_node node) :=
  list_to_map (ring ReadyHead [SchedNode T1; SchedNode T2] ++ ring ZombieHead [] ++
    ring (QueueHead (TerminationQueue T1)) [] ++ ring (QueueHead (TerminationQueue T2)) [] ++
    ring (QueueHead (TerminationQueue T3)) [] ++ ring (QueueHead (MutexQueue demo_mutex)) [WaitNode T3] ++
    ring (QueueHead (SemaphoreQueue demo_semaphore)) [] ++ ring (QueueHead (CondvarQueue demo_condvar)) [] ++
    ring (ThreadsHead demo_process) [GroupNode T1; GroupNode T2; GroupNode T3] ++
    [lone (SchedNode T3); lone (SchedNode IdleThread); lone (WaitNode T1); lone (WaitNode T2);
     lone (WaitNode IdleThread); lone (GroupNode IdleThread); lone (ZombieNode T1); lone (ZombieNode T2);
     lone (ZombieNode T3); lone (ZombieNode IdleThread)]).

(** EFLAGS with IF, and without. *)
Definition FLAGS_ON : Z := 514.
Definition FLAGS_OFF : Z := 2.

Definition demo_tasks (flags quantum : Z) : tasks :=
  Tasks (Cpu flags 0 []) (Sched demo_nodes
    {[IdleThread := demo_thread 0 0 THREAD_RUNNING None [IdleStart];
      T1 := demo_thread 1 1 THREAD_RUNNING None [];
      T2 := demo_thread 2 2 THREAD_READY None [YieldReturn FLAGS_ON];
      T3 := demo_thread 3 3 THREAD_BLOCKED (Some (MutexQueue demo_mutex)) [LockReturn demo_mutex FLAGS_ON]]}
    (Some T1) quantum [] 0 {[demo_process := 3222274048]} None false).

Definition demo : sync :=
  Sync (demo_tasks FLAGS_ON 5) {[demo_mutex := Some T1]} {[demo_semaphore := 2]}.

Lemma demo_ok : sync_ok demo demo_view.
Proof. apply sync_check_ok, (bool_decide_eq_true_1 _). vm_compute. reflexivity. Qed.

Lemma demo_tasks_ok flags : ok (demo_tasks flags 5) demo_view.
Proof.
  destruct demo_ok as (c & k & H & _). exact (ok_cpu (s_tasks demo) (Cpu flags 0 []) _ (mid_ok _ _ _ _ H)).
Qed.
