(* ===== verification/TaskProps.v ===== *)
(** * What the scheduler promises

    Round robin, fairness, the time slice, and first-in first-out wait
    queues, as theorems about the routines of [Task]. *)

From S2P Require Import Prelude Layout Machine DList ListFamily Task TaskSpec TaskOps Sync SyncSpec SyncInv SyncSafe TaskDemo.

(** [n] calls of [scheduler_switch], or of [scheduler_tick]. *)
Definition switch_times (n : nat) : TM unit := for_each 0 n (fun _ => scheduler_switch).
Definition tick_times (n : nat) : TM unit := for_each 0 n (fun _ => scheduler_tick).

Section Turns.
Implicit Types (v : view) (w : tasks) (t c d : tref) (l : list tref).

Lemma for_each_shift {S} (m : M S unit) n : forall i j s, for_each i n (fun _ => m) s = for_each j n (fun _ => m) s.
Proof.
  induction n as [|n IH]; intros i j s; cbn [for_each]; [done|]. unfold bind. destruct (m s); [apply IH|done].
Qed.

Lemma wp_times_S {S} (m : M S unit) n (Q : unit -> S -> Prop) s :
  wp m (fun _ s' => wp (for_each 0 n (fun _ => m)) Q s') s -> wp (for_each 0 (Datatypes.S n) (fun _ => m)) Q s.
Proof.
  intros H. cbn [for_each]. apply wp_bind. eapply wp_mono; [exact H|]. cbn. intros [] s' Hs.
  unfold wp in *. by rewrite (for_each_shift m n (0 + 1) 0).
Qed.

Lemma pick_split l1 c l2 : c ∉ l1 -> pick (l1 ++ c :: l2) c = hd c (l2 ++ l1 ++ [c]).
Proof.
  intros Hn. unfold pick. pose proof (successor_split c l1 l2 Hn) as E.
  destruct (l1 ++ c :: l2) as [|x l] eqn:El; [by destruct l1|]. rewrite E. destruct l2 as [|y l2]; cbn; [|done].
  destruct l1; cbn in *; by injection El.
Qed.

Lemma pick_absent l c : c ∉ l -> pick l c = hd IdleThread l.
Proof. intros Hn. unfold pick. destruct l as [|x l]; [done|]. by rewrite successor_absent. Qed.

(** The turn after position [i]. *)
Lemma pick_turn l i c : NoDup l -> l !! i = Some c ->
  l !! (if decide (S i < length l)%nat then S i else 0%nat) = Some (pick l c).
Proof.
  intros Hnd E. pose proof (take_drop_middle l i c E) as Es.
  assert (c ∉ take i l) as Hn.
  { rewrite <- Es in Hnd. apply NoDup_app in Hnd as (_ & Hd & _). intros Hin. apply (Hd c Hin). left. }
  pose proof (lookup_lt_Some _ _ _ E) as Hi.
  assert (pick l c = hd c (drop (S i) l ++ take i l ++ [c])) as ->.
  { rewrite <- Es at 1. by apply pick_split. }
  case_decide as Hlt.
  - destruct (lookup_lt_is_Some_2 l (S i) Hlt) as [d Ed]. rewrite Ed. by rewrite (drop_S l d (S i)).
  - rewrite drop_ge by lia. cbn [app]. assert (length l = S i) as El by lia.
    rewrite <- Es, drop_ge at 1 by lia. destruct (take i l); done.
Qed.

(** After [n] switches it is the turn of the thread [n] places further on. *)
Lemma wp_switch_times v l : v_ready v = l -> forall n i w c,
  ok w v -> disabled w -> current (t_sched w) = Some c -> l !! i = Some c ->
  wp (switch_times n) (fun _ w' => ok w' v /\ disabled w' /\ exists d, current (t_sched w') = Some d /\
    l !! ((i + n) mod length l)%nat = Some d) w.
Proof.
  intros El. induction n as [|n IH]; intros i w c Hok Hd Hc Hi; pose proof (lookup_lt_Some _ _ _ Hi) as Hlt.
  - split; [done|]. split; [done|]. exists c. by rewrite Nat.add_0_r, Nat.mod_small.
  - apply wp_times_S. eapply (wp_switch w v c); [apply Hok|done|done|]. intros w' Hs Hok'.
    assert (NoDup l) as Hnd by (subst l; by apply (ready_nodup w), Hok). rewrite El in Hs.
    eapply wp_mono; [apply (IH (if decide (S i < length l)%nat then S i else 0%nat) w' (pick l c)); [done| |apply Hs|by apply pick_turn]|].
    + unfold disabled in *. by rewrite (sw_flags _ _ _ _ Hs).
    + intros _ w2 (H1 & H2 & d & Hd2 & E). split; [done|]. split; [done|]. exists d. split; [done|].
      rewrite <- E. f_equal. case_decide; [f_equal; lia|]. replace (i + S n)%nat with (n + 1 * length l)%nat by lia.
      by rewrite Nat.Div0.mod_add.
Qed.

Lemma wp_result {A} (m : TM A) (Q : A -> tasks -> Prop) w : wp m Q w -> exists a w', m w = Ok a w' /\ Q a w'.
Proof. apply wp_inv. Qed.

(** The current thread is in the ready list, or it is the idle thread. *)
Lemma current_ready w v c : ok w v -> current (t_sched w) = Some c -> c <> IdleThread -> c ∈ v_ready v.
Proof.
  intros Hok Hc Hi. destruct (running_current _ _ _ Hok Hc) as (th & Et & Es & _). apply (b_ready _ _ (proj1 Hok)).
  split; [done|]. exists th. split; [done|]. by right.
Qed.

Lemma idle_not_ready w v : base w v -> IdleThread ∉ v_ready v.
Proof. by intros Hb [Hi _]%(b_ready _ _ Hb). Qed.

Lemma wp_tick_times v n : forall w c, ok w v -> disabled w -> current (t_sched w) = Some c ->
  Z.of_nat n < quantum_remaining (t_sched w) ->
  wp (tick_times n) (fun _ w' => ok w' v /\ disabled w' /\ current (t_sched w') = Some c /\
    quantum_remaining (t_sched w') = quantum_remaining (t_sched w) - Z.of_nat n /\ stack (t_sched w') = stack (t_sched w)) w.
Proof.
  induction n as [|n IH]; intros w c Hok Hd Hc Hn.
  - split; [done|]. split; [done|]. split; [done|]. split; [lia|done].
  - apply wp_times_S. apply (wp_scheduler_tick w v c); [done..| |intros; lia].
    intros Hq Hok'. eapply wp_mono; [apply (IH _ c); [done..|cbn; lia]|].
    cbn. intros _ w' (H1 & H2 & H3 & H4 & H5). repeat (split; [done|]). split; [lia|done].
Qed.
End Turns.

(** ** Properties *)

(** Round robin. With interrupts disabled, [scheduler_switch] succeeds from
    every state of the scheduler, also when the current thread has just been
    marked blocked or terminated: the next thread is the one after the current
    thread in the ready list, cyclically, or the first one when the current
    thread is not in the list, or the idle thread when the list is empty. The
    current thread goes back to READY if it was RUNNING, its stack is saved,
    the next thread's stack is in use, the quantum is full again, no other
    thread and no list changes, and the next thread runs. *)
Theorem scheduler_switch_round_robin (w : tasks) (v : view) :
  base w v -> disabled w -> exists c w', current (t_sched w) = Some c /\ scheduler_switch w = Ok tt w' /\
    switches c (pick (v_ready v) c) w w' /\ ok w' v /\
    (forall l1 l2, v_ready v = l1 ++ c :: l2 -> pick (v_ready v) c = hd c (l2 ++ l1 ++ [c])) /\
    (c ∉ v_ready v -> pick (v_ready v) c = hd IdleThread (v_ready v)).
Proof.
  intros Hb Hd. destruct (b_current _ _ Hb) as (c & Hc & _).
  destruct (wp_result scheduler_switch (fun _ w' => switches c (pick (v_ready v) c) w w' /\ ok w' v) w)
    as ([] & w' & E & Hs & Hok); [by eapply wp_switch|].
  exists c, w'. repeat (split; [done|]). split; [|apply pick_absent].
  intros l1 l2 El. rewrite El. apply pick_split. pose proof (ready_nodup w v (b_holds _ _ Hb)) as Hnd.
  rewrite El in Hnd. apply NoDup_app in Hnd as (_ & H & _). intros Hin. apply (H c Hin). left.
Qed.

Lemma scheduler_switch_round_robin_witness :
  exists c w', current (t_sched (demo_tasks FLAGS_OFF 5)) = Some c /\ scheduler_switch (demo_tasks FLAGS_OFF 5) = Ok tt w' /\
    switches c (pick (v_ready demo_view) c) (demo_tasks FLAGS_OFF 5) w' /\ ok w' demo_view /\
    (forall l1 l2, v_ready demo_view = l1 ++ c :: l2 -> pick (v_ready demo_view) c = hd c (l2 ++ l1 ++ [c])) /\
    (c ∉ v_ready demo_view -> pick (v_ready demo_view) c = hd IdleThread (v_ready demo_view)).
Proof. apply scheduler_switch_round_robin; [apply demo_tasks_ok|reflexivity]. Defined.

(** C26 Fairness. Every ready thread gets the processor: after at most as many
    switches as there are ready threads it is the current one. *)
Theorem scheduler_fair (w : tasks) (v : view) (t : tref) :
  ok w v -> disabled w -> t ∈ v_ready v ->
  exists n w', (n <= length (v_ready v))%nat /\ switch_times n w = Ok tt w' /\ current (t_sched w') = Some t /\ ok w' v.
Proof.
  intros Hok Hd Ht. destruct (b_current _ _ (proj1 Hok)) as (c & Hc & _).
  apply list_elem_of_lookup in Ht as [j Ej]. pose proof (lookup_lt_Some _ _ _ Ej) as Hj. set (l := v_ready v) in *.
  assert (forall m (u : tasks) i d, ok u v -> disabled u -> current (t_sched u) = Some d -> l !! i = Some d ->
    ((i + m) mod length l = j)%nat -> exists w', switch_times m u = Ok tt w' /\ current (t_sched w') = Some t /\ ok w' v) as Hrun.
  { intros m u i d Hu Hdu Hcu Ei Em. destruct (wp_inv _ _ _ (wp_switch_times v l eq_refl m i u d Hu Hdu Hcu Ei))
      as ([] & w' & E & H1 & _ & d' & H2 & H3). exists w'. split; [done|]. split; [|done].
    rewrite Em, Ej in H3. congruence. }
  destruct (decide (c ∈ l)) as [[i Ei]%list_elem_of_lookup|Hn].
  - pose proof (lookup_lt_Some _ _ _ Ei) as Hi.
    destruct (Hrun ((j + length l - i) mod length l)%nat w i c) as (w' & H1 & H2 & H3); [done..| |].
    { rewrite Nat.Div0.add_mod_idemp_r. replace (i + (j + length l - i))%nat with (j + 1 * length l)%nat by lia.
      rewrite Nat.Div0.mod_add. by apply Nat.mod_small. }
    exists ((j + length l - i) mod length l)%nat, w'. split; [|done].
    pose proof (Nat.mod_upper_bound (j + length l - i) (length l)). lia.
  - destruct (wp_inv _ _ _ (wp_switch w v c (fun _ w' => switches c (pick l c) w w' /\ ok w' v) (proj1 Hok) Hd Hc
      ltac:(done))) as ([] & w1 & E1 & Hs & Hok1).
    destruct (Hrun j w1 0%nat (pick l c)) as (w' & H1 & H2 & H3); [done| |apply Hs| |by apply Nat.mod_small|].
    + unfold disabled in *. by rewrite (sw_flags _ _ _ _ Hs).
    + rewrite pick_absent by done. destruct l; [cbn in Hj; lia|done].
    + exists (S j), w'. split; [lia|]. split; [|done]. unfold switch_times in *. cbn [for_each]. unfold bind.
      rewrite E1. by rewrite (for_each_shift _ _ _ 0).
Qed.

Lemma scheduler_fair_witness :
  exists n w', (n <= length (v_ready demo_view))%nat /\ switch_times n (demo_tasks FLAGS_OFF 5) = Ok tt w' /\
    current (t_sched w') = Some T2 /\ ok w' demo_view.
Proof. apply scheduler_fair; [apply demo_tasks_ok|reflexivity|right; left]. Defined.

(** C36 The time slice. A running thread keeps the processor for the ticks that
    its quantum has left, at most [SCHEDULER_QUANTUM_TICKS], and the last of
    these ticks switches to the next thread with a full quantum: the counter
    neither wraps nor skips a switch. *)
Theorem scheduler_tick_quantum (w : tasks) (v : view) (c : tref) :
  ok w v -> disabled w -> current (t_sched w) = Some c ->
  1 <= quantum_remaining (t_sched w) <= SCHEDULER_QUANTUM_TICKS /\
  (forall n, Z.of_nat n < quantum_remaining (t_sched w) -> exists w', tick_times n w = Ok tt w' /\
     current (t_sched w') = Some c /\ stack (t_sched w') = stack (t_sched w) /\
     quantum_remaining (t_sched w') = quantum_remaining (t_sched w) - Z.of_nat n) /\
  exists w1 w', tick_times (Z.to_nat (quantum_remaining (t_sched w) - 1)) w = Ok tt w1 /\ scheduler_tick w1 = Ok tt w' /\
    current (t_sched w') = Some (pick (v_ready v) c) /\ quantum_remaining (t_sched w') = SCHEDULER_QUANTUM_TICKS /\ ok w' v.
Proof.
  intros Hok Hd Hc. pose proof (b_quantum _ _ (proj1 Hok)) as Hq. pose proof (proj1 (proj2 Hok)) as Hq1.
  split; [lia|]. split.
  - intros n Hn. destruct (wp_inv _ _ _ (wp_tick_times v n w c Hok Hd Hc Hn)) as ([] & w' & E & _ & _ & ? & ? & ?).
    by exists w'.
  - set (n := Z.to_nat (quantum_remaining (t_sched w) - 1)).
    destruct (wp_inv _ _ _ (wp_tick_times v n w c Hok Hd Hc ltac:(lia))) as ([] & w1 & E & Hok1 & Hd1 & Hc1 & Hq2 & _).
    destruct (wp_inv scheduler_tick (fun _ w' => current (t_sched w') = Some (pick (v_ready v) c) /\
      quantum_remaining (t_sched w') = SCHEDULER_QUANTUM_TICKS /\ ok w' v) w1) as ([] & w' & E' & H).
    { apply (wp_scheduler_tick w1 v c); [done..|lia|]. intros w' _ Hs Hok'. split; [apply Hs|]. by split; [apply Hs|]. }
    by exists w1, w'.
Qed.

Lemma scheduler_tick_quantum_witness :
  let w := demo_tasks FLAGS_OFF 5 in
  1 <= quantum_remaining (t_sched w) <= SCHEDULER_QUANTUM_TICKS /\
  (forall n, Z.of_nat n < quantum_remaining (t_sched w) -> exists w', tick_times n w = Ok tt w' /\
     current (t_sched w') = Some T1 /\ stack (t_sched w') = stack (t_sched w) /\
     quantum_remaining (t_sched w') = quantum_remaining (t_sched w) - Z.of_nat n) /\
  exists w1 w', tick_times (Z.to_nat (quantum_remaining (t_sched w) - 1)) w = Ok tt w1 /\ scheduler_tick w1 = Ok tt w' /\
    current (t_sched w') = Some (pick (v_ready demo_view) T1) /\ quantum_remaining (t_sched w') = SCHEDULER_QUANTUM_TICKS /\
    ok w' demo_view.
Proof. apply scheduler_tick_quantum; [apply demo_tasks_ok|reflexivity..]. Defined.

(** C37 Wait queues are first-in first-out. The current thread goes to sleep at
    the end of the queue, blocked and out of the ready list, and another
    thread runs; waking takes the thread that has waited longest out of the
    queue to the end of the ready list, waking all takes all of them in order,
    and both succeed with an empty queue and change nothing. *)
Theorem wait_queue_fifo (w : tasks) (v : view) (q : queue) (ts : list tref) (c : tref) (fuel : nat) :
  ok w v -> disabled w -> current (t_sched w) = Some c -> v_queues v !! q = Some ts ->
  (size (nodes (t_sched w)) <= fuel)%nat ->
  (c <> IdleThread -> exists w' v', wait_queue_sleep q w = Ok tt w' /\ ok w' v' /\ waiting v' q = ts ++ [c] /\
     v_ready v' = filter (fun u => u <> c) (v_ready v) /\ current (t_sched w') = Some (pick (v_ready v') c)) /\
  (exists w' v', wait_queue_wake q w = Ok tt w' /\ ok w' v' /\ waiting v' q = tail ts /\
     v_ready v' = v_ready v ++ take 1 ts /\ current (t_sched w') = Some c /\ (ts = [] -> w' = w)) /\
  (exists w' v', wait_queue_wake_all fuel q w = Ok tt w' /\ ok w' v' /\ waiting v' q = [] /\
     v_ready v' = v_ready v ++ ts /\ (ts = [] -> w' = w)).
Proof.
  intros Hok Hd Hc Hq Hf. destruct Hok as [Hb Hrun]. split; [|split].
  - intros Hi. destruct (wp_inv (wait_queue_sleep q) (fun _ w' => ok w' (slept q c ts v) /\
      current (t_sched w') = Some (pick (v_ready (slept q c ts v)) c)) w) as ([] & w' & E & H1 & H2).
    { apply (wp_wait_queue_sleep w v q c ts); [done..|]. intros w1 w' _ _ Hs Hok'. by split; [|apply Hs]. }
    exists w', (slept q c ts v). split; [done|]. split; [done|]. split; [|done].
    change (waiting (with_queue q (ts ++ [c]) v) q = ts ++ [c]). rewrite waiting_queue. by rewrite decide_True.
  - destruct (wp_inv (wait_queue_wake q) (fun _ w' => exists v', ok w' v' /\ waiting v' q = tail ts /\
      v_ready v' = v_ready v ++ take 1 ts /\ current (t_sched w') = Some c /\ (ts = [] -> w' = w)) w) as ([] & w' & E & v' & H).
    { apply (wp_wait_queue_wake w v q ts); [done..| |].
      - intros ->. exists v. split; [done|]. split; [by apply waiting_entry|]. by rewrite app_nil_r.
      - intros t ts' w' -> [Hu _] Hb' Hr. eexists. split; [by split; [exact Hb'|apply Hr]|]. split; [|split; [done|split]].
        + change (waiting (with_queue q ts' v) q = ts'). rewrite waiting_queue. by rewrite decide_True.
        + by rewrite (up_current _ _ _ _ Hu).
        + done. }
    by exists w', v'.
  - pose proof (queue_length _ _ _ _ (b_holds _ _ Hb) Hq) as Hlen.
    destruct (wp_inv (wait_queue_wake_all fuel q) (fun _ w' => exists v', ok w' v' /\ waiting v' q = [] /\
      v_ready v' = v_ready v ++ ts /\ (ts = [] -> w' = w)) w) as ([] & w' & E & v' & H).
    { apply (wp_wait_queue_wake_all w v q ts); [done..|lia|]. intros w' Hall Hb' Hr.
      eexists. split; [by split; [exact Hb'|apply Hr]|]. split; [|split; [done|]].
      - change (waiting (with_queue q [] v) q = []). rewrite waiting_queue. by rewrite decide_True.
      - by intros ->. }
    by exists w', v'.
Qed.

Lemma wait_queue_fifo_witness :
  let w := demo_tasks FLAGS_OFF 5 in let q := MutexQueue demo_mutex in let fuel := size demo_nodes in
  (T1 <> IdleThread -> exists w' v', wait_queue_sleep q w = Ok tt w' /\ ok w' v' /\ waiting v' q = [T3] ++ [T1] /\
     v_ready v' = filter (fun u => u <> T1) (v_ready demo_view) /\ current (t_sched w') = Some (pick (v_ready v') T1)) /\
  (exists w' v', wait_queue_wake q w = Ok tt w' /\ ok w' v' /\ waiting v' q = tail [T3] /\
     v_ready v' = v_ready demo_view ++ take 1 [T3] /\ current (t_sched w') = Some T1 /\ ([T3] = [] -> w' = w)) /\
  (exists w' v', wait_queue_wake_all fuel q w = Ok tt w' /\ ok w' v' /\ waiting v' q = [] /\
     v_ready v' = v_ready demo_view ++ [T3] /\ ([T3] = [] -> w' = w)).
Proof.
  apply wait_queue_fifo; [apply demo_tasks_ok|reflexivity|reflexivity|reflexivity|apply le_n].
Defined.
