(* ===== verification/SyncProps.v ===== *)
(** * What mutexes, semaphores and condition variables promise

    The theorems about the routines of [Sync], from the invariant of
    [SyncInv] that [SyncSafe] shows every event to keep. *)

From S2P Require Import Prelude Layout Machine DList ListFamily Task TaskSpec TaskOps Sync SyncSpec SyncInv SyncSafe TaskDemo.

Section Effects.
Implicit Types (s : sync) (v : view) (w : tasks) (c t u : tref) (k : list frame) (q : queue).

(** *** The owner of a mutex *)

(** [x] does not take the mutex [m] away from [t]. *)
Definition spares {A} (m : Z) t (x : SM A) : Prop :=
  forall s a s', owners s !! m = Some (Some t) -> x s = Ok a s' -> owners s' !! m = Some (Some t).

Lemma spares_bind {A B} m t (x : SM A) (f : A -> SM B) :
  spares m t x -> (forall a, spares m t (f a)) -> spares m t (bind x f).
Proof.
  intros Hx Hf s b s' Ho. unfold bind. destruct (x s) as [a s1|] eqn:E; [|done].
  intros E'. eapply Hf; [|exact E']. by eapply Hx.
Qed.

Lemma spares_task_op {A} m t (x : TM A) : spares m t (task_op x).
Proof.
  intros s a s' Ho. unfold task_op, zoom. destruct (x _); [|done]. intros [= _ <-]. done.
Qed.

Lemma spares_ret {A} m t (a : A) : spares m t (ret a).
Proof. intros s b s' Ho [= _ <-]. done. Qed.

Lemma spares_fail {A} m t f : spares m t (fail (A := A) f).
Proof. by intros s b s' Ho. Qed.

Lemma spares_gets {A} m t (f : sync -> A) : spares m t (gets f).
Proof. intros s b s' Ho [= _ <-]. done. Qed.

Lemma spares_require {A} m t f (o : option A) : spares m t (require f o).
Proof. destruct o; [apply spares_ret|apply spares_fail]. Qed.

Lemma spares_assert m t e b : spares m t (ASSERT e b).
Proof. destruct b; [apply spares_ret|apply spares_fail]. Qed.

Lemma spares_get_owner m t m' : spares m t (get_owner m').
Proof. apply spares_bind; [apply spares_gets|]. intros. apply spares_require. Qed.

Lemma spares_get_count m t a : spares m t (get_count a).
Proof. apply spares_bind; [apply spares_gets|]. intros. apply spares_require. Qed.

Lemma spares_set_owner m t m' o : m' <> m -> spares m t (set_owner m' o).
Proof.
  intros Hne. apply spares_bind; [apply spares_get_owner|]. intros _ s a s' Ho [= _ <-]. cbn. by rewrite lookup_insert_ne.
Qed.

Lemma spares_set_count m t a n : spares m t (set_count a n).
Proof. apply spares_bind; [apply spares_get_count|]. intros _ s b s' Ho [= _ <-]. done. Qed.
End Effects.

Create HintDb spares.
#[export] Hint Resolve spares_bind spares_task_op spares_ret spares_fail spares_gets spares_require spares_assert
  spares_get_owner spares_get_count spares_set_count : spares.

(** Sequences of steps that spare a mutex. *)
Ltac spare :=
  repeat first
    [ progress intros
    | solve [auto 1 with spares]
    | apply spares_bind
    | lazymatch goal with |- spares _ _ (if ?b then _ else _) => destruct b end
    | lazymatch goal with |- spares _ _ (match ?o with _ => _ end) => destruct o end ].

Section Owner.
Implicit Types (s : sync) (t : tref).

(** The owner that a routine reads is the owner there is. *)
Lemma spares_read_owner {A} m t m' (f : option tref -> SM A) :
  (forall o, (m' = m -> o = Some t) -> spares m t (f o)) -> spares m t (let* o := get_owner m' in f o).
Proof.
  intros Hf s a s' Ho. unfold bind at 1.
  assert (get_owner m' s = match owners s !! m' with Some o => Ok o s | None => Fault BadPointer end) as ->
    by (unfold get_owner, bind, gets, require; by destruct (owners s !! m')).
  destruct (owners s !! m') as [o|] eqn:Eo; [|done]. apply (Hf o); [|done]. intros ->. congruence.
Qed.

(** Locking takes no mutex from its owner. *)
Lemma spares_mutex_lock m t m' : spares m t (mutex_lock m').
Proof.
  unfold mutex_lock, save, push, restore. do 2 (apply spares_bind; [spare|]; intros ?). apply spares_read_owner.
  intros o Ho. case_bool_decide; [|spare]. apply spares_bind; [spare|]. intros cur.
  apply spares_bind; [|spare]. apply spares_set_owner. intros E. by specialize (Ho E); subst.
Qed.

Lemma spares_mutex_unlock m t m' : m' <> m -> spares m t (mutex_unlock m').
Proof.
  intros Hne. unfold mutex_unlock, save, push, restore. pose proof (fun o => spares_set_owner m t m' o Hne). spare.
Qed.

Lemma spares_run_frame m t f : spares m t (run_frame f).
Proof.
  destruct f; unfold run_frame, restore, push; try apply spares_mutex_lock; spare.
Qed.

(** Only a call of [mutex_unlock] or [condvar_wait] can. *)
Lemma spares_run_event m t e :
  e <> Call (Unlock m) -> (forall c, e <> Call (Wait c m)) -> spares m t (run_event e).
Proof.
  intros Hu Hw. destruct e as [o| |]; cbn [run_event].
  - destruct o; cbn [run_call];
      unfold semaphore_acquire, semaphore_release, condvar_wait, condvar_signal, condvar_broadcast, save, restore, push.
    2: apply spares_mutex_lock.
    2: apply spares_mutex_unlock; congruence.
    4: { do 4 (apply spares_bind; [spare|]; intros ?). apply spares_mutex_unlock. intros ->. by apply (Hw c). }
    all: spare.
  - unfold return_step. apply spares_bind; [spare|]. intros [|f k]; [spare|]. apply spares_bind; [spare|].
    intros _. apply spares_run_frame.
  - spare.
Qed.
End Owner.

Section Theorems.
Implicit Types (s : sync) (v : view) (w : tasks) (c t u : tref) (k : list frame) (q : queue).

Lemma event_steps s v e : sync_ok s v -> enabled e s -> exists s' v', step s e s' /\ sync_ok s' v'.
Proof.
  intros Hs He. destruct (wp_inv _ _ _ (wp_event s v e Hs He)) as ([] & s' & E & v' & Hs' & _).
  by exists s', v'.
Qed.

Lemma steps_ok s es s' v : steps s es s' -> sync_ok s v -> exists v', sync_ok s' v'.
Proof.
  intros H. revert v. induction H as [s|s e s1 es s2 [He E] _ IH]; intros v Hs; [by exists v|].
  destruct (wp_inv _ _ _ (wp_event s v e Hs He)) as ([] & s1' & E' & v1 & Hs1 & _).
  rewrite E in E'. injection E' as <-. by apply (IH v1).
Qed.

(** *** The effect of [mutex_unlock] *)

Lemma wp_unlock_effect s v c k m ts (Q : unit -> sync -> Prop) :
  mid s v c k -> owners s !! m = Some (Some c) -> m <> NULL -> v_queues v !! MutexQueue m = Some ts ->
  (ts = [] -> forall w', t_sched w' = t_sched (s_tasks s) -> t_cpu w' = t_cpu (s_tasks s) ->
     Q tt (Sync w' (<[m := None]> (owners s)) (counts s))) ->
  (forall t ts' w1 w', ts = t :: ts' -> updates t (with_wait_queue None) (s_tasks s) w1 -> ok w1 (with_queue (MutexQueue m) ts' v) ->
     w' = set_stack (UnlockWake t :: k) w1 -> t_cpu w1 = t_cpu (s_tasks s) ->
     Q tt (Sync w' (<[m := Some t]> (owners s)) (counts s))) ->
  wp (mutex_unlock m) Q s.
Proof.
  intros H Eo Hm Eq HQn HQ. apply wp_bind, wp_not_null; [done|]. apply wp_bind, (wp_get_owner m (Some c)); [done|].
  apply wp_bind, (wp_current _ _ _ _ _ H). apply wp_bind, wp_assert; [by apply bool_decide_eq_true|].
  apply wp_bind, wp_save. pose proof (mid_cli _ _ _ _ H) as H1. set (s1 := with_tasks _ _) in *.
  apply wp_bind, wp_task_op. destruct (mid_ok _ _ _ _ H1) as [Hb Hrun].
  apply (wp_wait_queue_remove _ v (MutexQueue m) ts); [done|done| |].
  - intros ->. apply wp_bind, wp_set_owner; [by eexists|]. apply wp_restore. apply HQn; [done|done|].
    by destruct s as [[[] ?] ? ?].
  - intros t ts' w' -> Hu Hcpu Hb' Hr. apply wp_bind, wp_set_owner; [by eexists|]. apply wp_bind, wp_restore, wp_push.
    apply (HQ t ts' (set_flags (eflags (t_cpu (s_tasks s))) w')); [done| | | |].
    + destruct Hu. by split.
    + apply ok_cpu. split; [done|by apply Hr].
    + cbn [s_tasks with_tasks t_sched set_flags]. rewrite (up_stack _ _ _ _ Hu). f_equal. f_equal. apply (mid_stack _ _ _ _ H1).
    + change (Cpu (eflags (t_cpu (s_tasks s))) (cr3 (t_cpu w')) (flushed (t_cpu w')) = t_cpu (s_tasks s)).
      rewrite Hcpu. change (t_cpu (s_tasks s1)) with (t_cpu (cli (s_tasks s))). unfold cli. cbn. by destruct (t_cpu (s_tasks s)).
Qed.
(** The thread that [mutex_unlock] made the owner is woken. *)
Lemma wp_return_wake s v v' c t k (Q : unit -> sync -> Prop) :
  mid s v c (UnlockWake t :: k) -> ok (s_tasks s) v' ->
  (forall w', readied t (set_stack k (s_tasks s)) w' -> ok w' (with_ready (v_ready v' ++ [t]) v') ->
     Q tt (with_tasks w' s)) -> wp return_step Q s.
Proof.
  intros H Hok HQ. apply wp_bind, wp_gets. rewrite (mid_stack _ _ _ _ H).
  destruct (co_pending _ _ _ _ (mid_core _ _ _ _ H) c _ t (mid_summary _ _ _ _ H) ltac:(by left)) as [kt Et].
  unfold summary_of in Et. destruct (threads (t_sched (s_tasks s)) !! t) as [th|] eqn:Eth; [|done].
  injection Et as Ew Es _ _. apply bool_decide_eq_true in Es.
  pose proof (ok_stack _ k _ Hok) as [Hb Hrun].
  apply wp_bind, wp_task_op, wp_modify, wp_task_op. apply (wp_thread_unblock (set_stack k (s_tasks s)) v' t th); [done..|].
  intros w' Hr Hb' Hrun'. apply (HQ w' Hr). split; [done|by apply Hrun'].
Qed.

Lemma mid_intro s v c k : sync_ok s v -> current (t_sched (s_tasks s)) = Some c -> stack (t_sched (s_tasks s)) = k -> mid s v c k.
Proof.
  intros (c' & k' & H & _) Hc Hk. rewrite (mid_current _ _ _ _ H) in Hc. injection Hc as ->.
  by rewrite (mid_stack _ _ _ _ H) in Hk; subst.
Qed.

Lemma queue_of_mutex s v c k m : mid s v c k -> is_Some (owners s !! m) ->
  m <> NULL /\ v_queues v !! MutexQueue m = Some (waiting v (MutexQueue m)).
Proof.
  intros H Hm. destruct (co_mutex _ _ _ _ (mid_core _ _ _ _ H) m Hm) as [Hn [ts E]]. split; [done|].
  rewrite E. by rewrite (waiting_entry _ _ _ E).
Qed.

Lemma queue_of_semaphore s v c k a : mid s v c k -> is_Some (counts s !! a) ->
  a <> NULL /\ v_queues v !! SemaphoreQueue a = Some (waiting v (SemaphoreQueue a)).
Proof.
  intros H Ha. destruct (co_sem _ _ _ _ (mid_core _ _ _ _ H) a Ha) as [Hn [ts E]]. split; [done|].
  rewrite E. by rewrite (waiting_entry _ _ _ E).
Qed.

(** *** The effect of the semaphore routines *)

Lemma wp_acquire_effect s v c a n (Q : unit -> sync -> Prop) :
  mid s v c [] -> c <> IdleThread -> counts s !! a = Some n ->
  (0 < n -> Q tt (Sync (s_tasks s) (owners s) (<[a := u32 (n - 1)]> (counts s)))) ->
  (n <= 0 -> forall w', ok w' (slept (SemaphoreQueue a) c (waiting v (SemaphoreQueue a)) v) -> Q tt (with_tasks w' s)) ->
  wp (semaphore_acquire a) Q s.
Proof.
  intros H Hi En HQ HQs. destruct (queue_of_semaphore _ _ _ _ a H ltac:(by eexists)) as [Hn Eq].
  apply wp_bind, wp_not_null; [done|]. apply wp_bind, wp_save, wp_bind, (wp_get_count a n); [done|].
  pose proof (mid_cli _ _ _ _ H) as H1. destruct (Z.ltb_spec 0 n).
  - apply wp_bind, wp_set_count; [by eexists|]. apply wp_restore. specialize (HQ ltac:(done)).
    by destruct s as [[[] ?] ? ?].
  - apply wp_bind, wp_push, wp_task_op.
    apply (wp_wait_queue_sleep _ v (SemaphoreQueue a) c (waiting v (SemaphoreQueue a)));
      [apply ok_stack, H1|apply cli_disabled|apply H1|done|done|]. intros w2 w' _ _ _ Hok. by apply HQs.
Qed.

Lemma wp_release_effect s v c a n (Q : unit -> sync -> Prop) :
  mid s v c [] -> counts s !! a = Some n ->
  (waiting v (SemaphoreQueue a) = [] -> Q tt (Sync (s_tasks s) (owners s) (<[a := u32 (n + 1)]> (counts s)))) ->
  (forall t ts w', waiting v (SemaphoreQueue a) = t :: ts -> disabled w' ->
     ok w' (with_ready (v_ready v ++ [t]) (with_queue (SemaphoreQueue a) ts v)) -> Q tt (with_tasks w' s)) ->
  wp (semaphore_release a) Q s.
Proof.
  intros H En HQ HQs. destruct (queue_of_semaphore _ _ _ _ a H ltac:(by eexists)) as [Hn Eq].
  apply wp_bind, wp_not_null; [done|]. apply wp_bind, wp_save.
  pose proof (mid_cli _ _ _ _ H) as H1. destruct (mid_ok _ _ _ _ H1) as [Hb Hrun]. apply wp_bind, wp_task_op.
  eapply wp_wait_queue_remove; [exact Hb|exact Eq| |].
  - intros Enil. rewrite bool_decide_false by naive_solver. apply wp_bind, (wp_get_count a n); [done|].
    apply wp_bind, wp_set_count; [by eexists|]. apply wp_restore. specialize (HQ Enil). by destruct s as [[[] ?] ? ?].
  - intros t ts w1 E Hu Hcpu Hb1 Hr1. rewrite bool_decide_true by done. apply wp_task_op. rewrite E in Eq.
    eapply wp_wake_removed; [exact Hb|exact Eq|exact Hu|exact Hcpu|exact Hb1|]. intros w2 Hw Hb2 Hr2.
    apply (HQs t ts w2 E); [|split; [exact Hb2|by apply Hr2, Hr1]]. eapply woken_disabled; [exact Hw|apply cli_disabled].
Qed.
End Theorems.

(** ** Properties *)

(** C5 Whatever the threads call and whenever the timer interrupts, the
    synchronisation state stays well formed, and nothing that can happen next
    fails: no assertion of the scheduler, the wait queues, the mutexes, the
    semaphores or the condition variables, no bad pointer, and a terminated
    thread never resumes. *)
Theorem sync_invariant (s s' : sync) (v : view) (es : list event) :
  sync_ok s v -> steps s es s' ->
  exists v', sync_ok s' v' /\ forall e, enabled e s' -> exists s'' v'', step s' e s'' /\ sync_ok s'' v''.
Proof.
  intros Hs H. destruct (steps_ok s es s' v H Hs) as [v' Hs']. exists v'. split; [done|].
  intros e. by apply (event_steps s' v').
Qed.

Definition demo_after : sync := final (run_event (Call (Unlock demo_mutex))) demo.

Lemma demo_live : live_current demo T1.
Proof. split; [reflexivity|]. split; [discriminate|reflexivity]. Qed.

Lemma step_final s v e : sync_ok s v -> enabled e s -> step s e (final (run_event e) s).
Proof.
  intros Hs He. split; [done|]. destruct (wp_inv _ _ _ (wp_event s v e Hs He)) as ([] & s' & E & _).
  unfold final. by rewrite E.
Qed.

Lemma demo_steps : steps demo [Call (Unlock demo_mutex)] demo_after.
Proof.
  apply (steps_cons _ _ demo_after); [|apply steps_nil]. apply (step_final _ demo_view); [apply demo_ok|].
  exists T1. split; [apply demo_live|reflexivity].
Qed.

Lemma sync_invariant_witness :
  exists v', sync_ok demo_after v' /\ forall e, enabled e demo_after -> exists s'' v'', step demo_after e s'' /\ sync_ok s'' v''.
Proof. apply (sync_invariant demo demo_after demo_view [Call (Unlock demo_mutex)]); [apply demo_ok|apply demo_steps]. Defined.

Lemma unlock_or_not e m :
  e = Call (Unlock m) \/ (exists a, e = Call (Wait a m)) \/ e <> Call (Unlock m) /\ forall a, e <> Call (Wait a m).
Proof.
  destruct e as [[]| |]; try (by right; right).
  - destruct (decide (m0 = m)) as [->|]; [by left|]. right. right. split; [congruence|done].
  - destruct (decide (m0 = m)) as [->|]; [right; left; eauto|]. right. right. split; [done|congruence].
Qed.

(** C24 Mutual exclusion. A mutex leaves its owner only when the owner itself
    calls [mutex_unlock] or [condvar_wait] on it, and a thread that waited in
    [mutex_lock] owns the mutex when it gets the processor back: so between
    the return from a lock and the unlock no other thread returns from a lock
    of the same mutex. *)
Theorem mutex_ownership (s : sync) (v : view) :
  sync_ok s v ->
  (forall e s' m t, step s e s' -> owners s !! m = Some (Some t) -> owners s' !! m <> Some (Some t) ->
     current (t_sched (s_tasks s)) = Some t /\ (e = Call (Unlock m) \/ exists c, e = Call (Wait c m))) /\
  (forall m st k, stack (t_sched (s_tasks s)) = LockReturn m st :: k ->
     owners s !! m = Some (current (t_sched (s_tasks s)))) /\
  (forall m t st k, summary_of (s_tasks s) t = Some (Summary None false false (LockReturn m st :: k)) ->
     owners s !! m = Some (Some t)).
Proof.
  intros (c & k & H & Hk). split; [|split].
  - intros e s' m t [He E] Ho Ho'.
    assert (e = Call (Unlock m) \/ exists a, e = Call (Wait a m)) as He'.
    { assert (spares m t (run_event e) -> False) as Hno by (intros Hsp; by apply Ho', (Hsp s tt s')).
      destruct (unlock_or_not e m) as [->|[[a ->]|[Hu Hw]]]; [by left|by right; exists a|].
      by destruct Hno; apply spares_run_event. }
    split; [|done].
    destruct He' as [->|[a ->]]; cbn in He; destruct He as (t' & (Hc & _) & Hr); cbn in Hr.
    + congruence.
    + destruct Hr as [Hr _]. congruence.
  - intros m st k' E. rewrite (mid_stack _ _ _ _ H) in E. subst k. rewrite (mid_current _ _ _ _ H).
    by destruct (ti_lock _ _ _ _ _ (mid_tinv _ _ _ _ H) m st ltac:(by left)).
  - intros m t st k' E. by destruct (ti_lock _ _ _ _ _ (tinv_lookup _ _ _ _ _ _ (mid_core _ _ _ _ H) E) m st ltac:(by left)).
Qed.

Lemma mutex_ownership_witness :
  (forall e s' m t, step demo e s' -> owners demo !! m = Some (Some t) -> owners s' !! m <> Some (Some t) ->
     current (t_sched (s_tasks demo)) = Some t /\ (e = Call (Unlock m) \/ exists c, e = Call (Wait c m))) /\
  (forall m st k, stack (t_sched (s_tasks demo)) = LockReturn m st :: k ->
     owners demo !! m = Some (current (t_sched (s_tasks demo)))) /\
  (forall m t st k, summary_of (s_tasks demo) t = Some (Summary None false false (LockReturn m st :: k)) ->
     owners demo !! m = Some (Some t)).
Proof. apply (mutex_ownership demo demo_view), demo_ok. Defined.

(** C35 Unlocking. The owner's [mutex_unlock] frees the mutex when nobody waits,
    and changes nothing else; otherwise the mutex passes directly to the
    thread that waited longest, which leaves the queue, and after the
    second half of the call is at the end of the ready list. The interrupt
    flag is restored. *)
Theorem mutex_unlock_handoff (s : sync) (v : view) (c : tref) (m : Z) :
  sync_ok s v -> live_current s c -> owners s !! m = Some (Some c) ->
  (waiting v (MutexQueue m) = [] ->
     mutex_unlock m s = Ok tt (Sync (s_tasks s) (<[m := None]> (owners s)) (counts s))) /\
  (forall t ts, waiting v (MutexQueue m) = t :: ts ->
     exists s1 s2 v2, mutex_unlock m s = Ok tt s1 /\ step s1 Return s2 /\ owners s1 = <[m := Some t]> (owners s) /\
       owners s2 = owners s1 /\ ok (s_tasks s2) v2 /\ waiting v2 (MutexQueue m) = ts /\ v_ready v2 = v_ready v ++ [t] /\
       current (t_sched (s_tasks s2)) = Some c /\ t_cpu (s_tasks s2) = t_cpu (s_tasks s)).
Proof.
  intros Hs Hc Eo. destruct (mid_of _ _ _ Hs Hc) as [H Hi].
  destruct (queue_of_mutex _ _ _ _ m H ltac:(by eexists)) as [Hm Eq]. split.
  - intros E. rewrite E in Eq. destruct (wp_inv (mutex_unlock m)
      (fun _ s' => s' = Sync (s_tasks s) (<[m := None]> (owners s)) (counts s)) s) as ([] & s' & Er & ->); [|done].
    eapply wp_unlock_effect; [done..| |done]. intros _ w' E1 E2. f_equal. destruct w', (s_tasks s). by cbn in *; subst.
  - intros t ts E. rewrite E in Eq.
    destruct (wp_inv (mutex_unlock m) (fun _ s1 => safe v tt s1 /\ exists w1, s1 = Sync (set_stack [UnlockWake t] w1)
        (<[m := Some t]> (owners s)) (counts s) /\ updates t (with_wait_queue None) (s_tasks s) w1 /\
        t_cpu w1 = t_cpu (s_tasks s) /\ ok w1 (with_queue (MutexQueue m) ts v)) s)
      as ([] & s1 & E1 & (v1 & Hs1 & _) & w1 & -> & Hu & Hcpu & Hok1).
    { apply wp_conj; [apply (wp_mutex_unlock s v c []); [done..|by left]|].
      eapply wp_unlock_effect; [done..|]. intros t' ts' w1 w' [= <- <-] Hu Hok -> Hcpu. by exists w1. }
    set (s1 := Sync _ _ _) in *.
    assert (mid s1 v1 c [UnlockWake t]) as H1.
    { apply mid_intro; [done| |done]. cbn. rewrite (up_current _ _ _ _ Hu). apply H. }
    destruct (co_pending _ _ _ _ (mid_core _ _ _ _ H1) c _ t (mid_summary _ _ _ _ H1) ltac:(by left)) as [kt Et].
    destruct (wp_inv return_step (fun _ s2 => exists w2, s2 = with_tasks w2 s1 /\ readied t (set_stack [] (s_tasks s1)) w2 /\
      ok w2 (with_ready (v_ready v ++ [t]) (with_queue (MutexQueue m) ts v))) s1) as ([] & s2 & E2 & w2 & -> & [Hu2 Hcpu2] & Hok2).
    { apply (wp_return_wake s1 v1 (with_queue (MutexQueue m) ts v) c t []); [exact H1|by apply ok_stack|].
      intros w' Hr Hok'. by exists w'. }
    exists s1, (with_tasks w2 s1), (with_ready (v_ready v ++ [t]) (with_queue (MutexQueue m) ts v)).
    split; [done|]. split; [by split|]. split; [done|]. split; [done|]. split; [exact Hok2|]. split; [|split; [done|split]].
    + change (waiting (with_queue (MutexQueue m) ts v) (MutexQueue m) = ts). rewrite waiting_queue. by rewrite decide_True.
    + cbn. rewrite (up_current _ _ _ _ Hu2). cbn. rewrite (up_current _ _ _ _ Hu). apply H.
    + cbn. by rewrite Hcpu2.
Qed.

Lemma mutex_unlock_handoff_witness :
  (waiting demo_view (MutexQueue demo_mutex) = [] ->
     mutex_unlock demo_mutex demo = Ok tt (Sync (s_tasks demo) (<[demo_mutex := None]> (owners demo)) (counts demo))) /\
  (forall t ts, waiting demo_view (MutexQueue demo_mutex) = t :: ts ->
     exists s1 s2 v2, mutex_unlock demo_mutex demo = Ok tt s1 /\ step s1 Return s2 /\
       owners s1 = <[demo_mutex := Some t]> (owners demo) /\ owners s2 = owners s1 /\ ok (s_tasks s2) v2 /\
       waiting v2 (MutexQueue demo_mutex) = ts /\ v_ready v2 = v_ready demo_view ++ [t] /\
       current (t_sched (s_tasks s2)) = Some T1 /\ t_cpu (s_tasks s2) = t_cpu (s_tasks demo)).
Proof. apply mutex_unlock_handoff; [apply demo_ok|apply demo_live|reflexivity]. Defined.

(** Semaphores. With a positive count nobody waits, and [semaphore_acquire]
    takes one unit; with count 0 the caller goes to sleep at the end of the
    queue. [semaphore_release] adds a unit (modulo 2^32) when nobody waits,
    with the flags restored; otherwise it moves the thread that waited longest
    to the end of the ready list and the count stays, and the call returns
    with interrupts disabled, whatever the flags were at the call. *)
Theorem semaphore_spec (s : sync) (v : view) (c : tref) (a n : Z) :
  sync_ok s v -> live_current s c -> counts s !! a = Some n ->
  (0 < n -> waiting v (SemaphoreQueue a) = [] /\
     semaphore_acquire a s = Ok tt (Sync (s_tasks s) (owners s) (<[a := n - 1]> (counts s)))) /\
  (n = 0 -> exists w' v', semaphore_acquire a s = Ok tt (Sync w' (owners s) (counts s)) /\ ok w' v' /\
     waiting v' (SemaphoreQueue a) = waiting v (SemaphoreQueue a) ++ [c] /\ c ∉ v_ready v') /\
  (waiting v (SemaphoreQueue a) = [] ->
     semaphore_release a s = Ok tt (Sync (s_tasks s) (owners s) (<[a := u32 (n + 1)]> (counts s)))) /\
  (forall t ts, waiting v (SemaphoreQueue a) = t :: ts ->
     exists w' v', semaphore_release a s = Ok tt (Sync w' (owners s) (counts s)) /\ ok w' v' /\
       waiting v' (SemaphoreQueue a) = ts /\ v_ready v' = v_ready v ++ [t] /\ disabled w').
Proof.
  intros Hs Hc En. destruct (mid_of _ _ _ Hs Hc) as [H Hi]. pose proof (mid_core _ _ _ _ H) as Hco.
  destruct (queue_of_semaphore _ _ _ _ a H ltac:(by eexists)) as [Hn Eq].
  pose proof (co_count _ _ _ _ Hco a n En) as Hu. unfold is_u32 in Hu. repeat split.
  - destruct (waiting v (SemaphoreQueue a)) as [|t ts] eqn:E; [done|]. exfalso.
    destruct (summary_waiting _ _ _ _ _ (proj1 (mid_ok _ _ _ _ H)) Eq) as [k Ek].
    pose proof (ti_sem _ _ _ _ _ (tinv_lookup _ _ _ _ _ _ Hco Ek) a eq_refl). assert (n = 0) by congruence. lia.
  - destruct (wp_inv (semaphore_acquire a)
      (fun _ s' => s' = Sync (s_tasks s) (owners s) (<[a := n - 1]> (counts s))) s) as ([] & s' & Er & ->); [|done].
    apply (wp_acquire_effect s v c a n); [done..| |lia]. intros _. by rewrite u32_id by (unfold is_u32; lia).
  - intros ->. destruct (wp_inv (semaphore_acquire a) (fun _ s' => exists w', s' = with_tasks w' s /\
      ok w' (slept (SemaphoreQueue a) c (waiting v (SemaphoreQueue a)) v)) s) as ([] & s' & Er & w' & -> & Hok').
    { apply (wp_acquire_effect s v c a 0); [done..|lia|]. intros _ w' Hok. by exists w'. }
    eexists w', _. split; [exact Er|]. split; [exact Hok'|]. split.
    + change (waiting (with_queue (SemaphoreQueue a) (waiting v (SemaphoreQueue a) ++ [c]) v) (SemaphoreQueue a) =
        waiting v (SemaphoreQueue a) ++ [c]). rewrite waiting_queue. by rewrite decide_True.
    + cbn. rewrite list_elem_of_filter. by intros [].
  - intros E. destruct (wp_inv (semaphore_release a)
      (fun _ s' => s' = Sync (s_tasks s) (owners s) (<[a := u32 (n + 1)]> (counts s))) s) as ([] & s' & Er & ->); [|done].
    apply (wp_release_effect s v c a n); [done..|]. intros t ts w' E'. congruence.
  - intros t ts E. destruct (wp_inv (semaphore_release a) (fun _ s' => exists w', s' = with_tasks w' s /\ disabled w' /\
      ok w' (with_ready (v_ready v ++ [t]) (with_queue (SemaphoreQueue a) ts v))) s) as ([] & s' & Er & w' & -> & Hd & Hok').
    { apply (wp_release_effect s v c a n); [done..|congruence|]. intros t' ts' w' E'. rewrite E in E'. injection E' as <- <-.
      intros Hd Hok. by exists w'. }
    eexists w', _. split; [exact Er|]. split; [exact Hok'|]. split; [|done].
    change (waiting (with_queue (SemaphoreQueue a) ts v) (SemaphoreQueue a) = ts). rewrite waiting_queue. by rewrite decide_True.
Qed.

Lemma semaphore_spec_witness :
  let s := demo in let a := demo_semaphore in let v := demo_view in
  (0 < 2 -> waiting v (SemaphoreQueue a) = [] /\
     semaphore_acquire a s = Ok tt (Sync (s_tasks s) (owners s) (<[a := 2 - 1]> (counts s)))) /\
  (2 = 0 -> exists w' v', semaphore_acquire a s = Ok tt (Sync w' (owners s) (counts s)) /\ ok w' v' /\
     waiting v' (SemaphoreQueue a) = waiting v (SemaphoreQueue a) ++ [T1] /\ T1 ∉ v_ready v') /\
  (waiting v (SemaphoreQueue a) = [] ->
     semaphore_release a s = Ok tt (Sync (s_tasks s) (owners s) (<[a := u32 (2 + 1)]> (counts s)))) /\
  (forall t ts, waiting v (SemaphoreQueue a) = t :: ts ->
     exists w' v', semaphore_release a s = Ok tt (Sync w' (owners s) (counts s)) /\ ok w' v' /\
       waiting v' (SemaphoreQueue a) = ts /\ v_ready v' = v_ready v ++ [t] /\ disabled w').
Proof. apply semaphore_spec; [apply demo_ok|apply demo_live|reflexivity]. Defined.

(** [n] returns lead to [P], and nothing else can happen before. *)
Fixpoint returns_until (n : nat) (P : sync -> Prop) (s : sync) : Prop :=
  match n with
  | O => P s
  | S n' => (forall e, enabled e s -> e = Return) /\ exists s', step s Return s' /\ returns_until n' P s'
  end.

Definition sleeps_in (q : queue) (t : tref) (s : sync) : Prop :=
  exists k, summary_of (s_tasks s) t = Some (Summary (Some q) true false k).

Section Condvar.
Implicit Types (s : sync) (v : view) (c t : tref) (k : list frame).

Lemma closing_only_return s v c k : mid s v c k -> closing k = true -> disabled (s_tasks s) ->
  forall e, enabled e s -> e = Return.
Proof.
  intros H Hk Hd e He. destruct e as [o| |]; [|done|].
  - destruct He as (t & (_ & _ & E) & _). rewrite (mid_stack _ _ _ _ H) in E. by subst k.
  - cbn in He. unfold disabled in Hd. congruence.
Qed.

Lemma wp_return_sleep s v c a m st :
  mid s v c [CondvarSleep a m st] -> disabled (s_tasks s) ->
  wp return_step (fun _ s' => sleeps_in (CondvarQueue a) c s') s.
Proof.
  intros H Hd. pose proof (mid_pop _ _ _ _ _ H) as H1. pose proof (mid_idle _ _ _ _ _ H (fun F => F)) as Hi.
  pose proof (ti_known _ _ _ _ _ (mid_tinv _ _ _ _ H)) as [[Hq _] _]%Forall_cons.
  apply wp_bind, wp_gets. rewrite (mid_stack _ _ _ _ H). apply wp_bind, wp_task_op, wp_modify.
  apply wp_bind, wp_push, wp_task_op. apply (su_sleep _ v (CondvarQueue a) c); [by apply ok_stack, H1|done|apply H1|done|done|].
  intros w' _ _ E. eexists. cbn. rewrite E. unfold su_set. by rewrite decide_True.
Qed.

(** From a state in the middle of [condvar_wait] the caller goes to sleep. *)
Lemma closing_sleeps s v c a m st k :
  mid s v c k -> disabled (s_tasks s) -> k = [CondvarSleep a m st] \/ (exists t, k = [UnlockWake t; CondvarSleep a m st]) ->
  exists n, (1 <= n <= 2)%nat /\ returns_until n (sleeps_in (CondvarQueue a) c) s.
Proof.
  assert (forall s v, mid s v c [CondvarSleep a m st] -> disabled (s_tasks s) ->
    returns_until 1 (sleeps_in (CondvarQueue a) c) s) as H1.
  { intros s0 v0 H Hd. split; [by apply (closing_only_return s0 v0 c _ H)|].
    destruct (wp_inv _ _ _ (wp_return_sleep s0 v0 c a m st H Hd)) as ([] & s' & E & Hs). exists s'. split; [|done].
    split; [|done]. cbn. by rewrite (mid_stack _ _ _ _ H). }
  intros H Hd [->|[t ->]]; [exists 1%nat; split; [lia|by apply (H1 s v)]|exists 2%nat; split; [lia|]].
  split; [by apply (closing_only_return s v c _ H)|].
  destruct (wp_inv return_step (fun _ s' => safe v tt s' /\ exists w', s' = with_tasks w' s /\
      readied t (set_stack [CondvarSleep a m st] (s_tasks s)) w') s) as ([] & s' & E & (v' & Hs' & _) & w' & -> & Hu & Hcpu).
  { apply wp_conj.
    - apply (wp_return_step s v c [UnlockWake t; CondvarSleep a m st]); [done|by right|done].
    - apply (wp_return_wake s v v c t [CondvarSleep a m st]); [done|apply H|]. intros w' Hr _. by exists w'. }
  exists (with_tasks w' s). split; [split; [cbn; by rewrite (mid_stack _ _ _ _ H)|done]|]. apply (H1 _ v').
  - apply mid_intro; [done| |]; cbn; [by rewrite (up_current _ _ _ _ Hu); apply H|by rewrite (up_stack _ _ _ _ Hu)].
  - unfold disabled in *. cbn. by rewrite Hcpu.
Qed.
End Condvar.

(** C25 No lost wake-up. After [condvar_wait] gave the mutex up, only the rest
    of the call can happen, in one or two steps and with interrupts disabled,
    until the caller sleeps in the queue of the condition variable: no thread
    can signal, and no timer can come, between the unlock and the sleep. *)
Theorem condvar_no_lost_wakeup (s : sync) (v : view) (c : tref) (a m : Z) :
  sync_ok s v -> live_current s c -> rules (Wait a m) c s ->
  exists s1, step s (Call (Wait a m)) s1 /\ owners s1 !! m <> Some (Some c) /\
    exists n, (1 <= n <= 2)%nat /\ returns_until n (sleeps_in (CondvarQueue a) c) s1.
Proof.
  intros Hs Hc Hr. destruct (mid_of _ _ _ Hs Hc) as [H Hi]. pose proof Hr as (Eo & Ha & Hq).
  pose proof (initialised_known _ _ _ (mid_ok _ _ _ _ H) Hq) as Hqv.
  destruct (queue_of_mutex _ _ _ _ m H ltac:(by eexists)) as [Hm Eq].
  set (st := eflags (t_cpu (s_tasks s))).
  destruct (wp_inv (run_call (Wait a m)) (fun _ s1 => safe v tt s1 /\ owners s1 !! m <> Some (Some c) /\
      current (t_sched (s_tasks s1)) = Some c /\ disabled (s_tasks s1) /\
      (stack (t_sched (s_tasks s1)) = [CondvarSleep a m st] \/
       exists t, stack (t_sched (s_tasks s1)) = [UnlockWake t; CondvarSleep a m st])) s)
    as ([] & s1 & E & (v1 & Hs1 & _) & Ho & Hc1 & Hd & Hk).
  { apply wp_conj; [by apply (wp_condvar_wait s v c)|]. apply wp_bind, wp_not_null; [done|].
    apply wp_bind, wp_not_null; [done|]. apply wp_bind, wp_save. pose proof (mid_cli _ _ _ _ H) as H1.
    set (s1 := with_tasks _ s) in *. pose proof (mid_push s1 v c [] (CondvarSleep a m st) H1 eq_refl) as H2.
    specialize (H2 ltac:(split; [done|by eexists]) ltac:(done)). set (s2 := with_tasks _ s1) in H2.
    apply wp_bind, wp_push. rewrite (mid_stack _ _ _ _ H1). change (with_tasks _ s1) with s2.
    apply (wp_unlock_effect s2 v c [CondvarSleep a m st] m (waiting v (MutexQueue m))); [done..| |].
    - intros _ w' E1 E2. cbn. rewrite lookup_insert_eq. split; [done|]. rewrite E1. split; [apply H2|].
      split; [|left; apply H2]. unfold disabled. rewrite E2. apply cli_disabled.
    - intros t ts w1 w' Et Hu Hok -> Hcpu. cbn. rewrite lookup_insert_eq. split; [|split; [|split]].
      + intros [= ->]. rewrite Et in Eq. destruct (queue_member _ _ _ _ _ (proj1 (mid_ok _ _ _ _ H)) Eq) as (th & E1 & E2 & E3 & _).
        destruct (running_current _ _ _ (mid_ok _ _ _ _ H) (mid_current _ _ _ _ H)) as (th' & E1' & E3' & _). congruence.
      + rewrite (up_current _ _ _ _ Hu). apply H2.
      + unfold disabled. cbn. rewrite Hcpu. apply cli_disabled.
      + right. by exists t. }
  exists s1. split; [split; [by exists c|done]|]. split; [done|].
  apply (closing_sleeps s1 v1 c a m st (stack (t_sched (s_tasks s1)))); [by apply mid_intro|done|done].
Qed.

Lemma condvar_no_lost_wakeup_witness :
  exists s1, step demo (Call (Wait demo_condvar demo_mutex)) s1 /\ owners s1 !! demo_mutex <> Some (Some T1) /\
    exists n, (1 <= n <= 2)%nat /\ returns_until n (sleeps_in (CondvarQueue demo_condvar) T1) s1.
Proof.
  apply (condvar_no_lost_wakeup demo demo_view T1); [apply demo_ok|apply demo_live|].
  split; [reflexivity|]. split; [discriminate|]. do 2 eexists. reflexivity.
Defined.
