(* ===== verification/Fs.v ===== *)
(** * The file system image and open files

    [kernel/fs/fs.c], [kernel/fs/file.c], the file table of
    [kernel/task/process.c], and the host tool [tools/mkfs.c] that builds the
    image. The kernel side reads the image as words and bytes of memory, over
    any byte memory. *)

From S2P Require Import Prelude Layout CString Ram Words.

(** ** fs_format.h *)

Definition FS_MAGIC : Z := 0x4E584653.
Definition FS_VERSION : Z := 1.
Definition FS_FILENAME_MAX : Z := 64.

(** [sizeof] and the offsets of the members *)
Definition SUPERBLOCK_SIZE : Z := 20.
Definition FILE_ENTRY_SIZE : Z := 72.

(** ** fs.c *)

(** The statics of [fs.c]: addresses, 0 for [NULL]. *)
Record fs : Type := Fs {
  fs_image : Z;
  fs_image_size : Z;
  fs_superblock : Z;
}.

(** [struct file]; [fs_file] is the address of a file table entry. *)
Record file : Type := File {
  fs_file : Z;
  position : Z;
  access : Z;
}.

(** [struct process_file], by the address of the table slot: a process at [p]
    has its slot [fd] at [p + 64 + 16 * fd]. *)
Record process_file : Type := ProcessFile { pf_file : file; used : bool }.

Section FileSystem.
Context {Mem : Type} `{ByteMem Mem}.

Record disk : Type := Disk {
  d_fs : fs;
  d_mem : Mem;
  d_files : gmap Z file;
  d_table : gmap Z bool;
}.

Definition d_mem_l : lens disk Mem := Lens d_mem (fun m d => Disk (d_fs d) m (d_files d) (d_table d)).

Abbreviation DM := (M disk).

Definition mem_op {A} (x : M Mem A) : DM A := zoom d_mem_l x.

Definition set_fs (f : fs) : DM unit := modify (fun d => Disk f (d_mem d) (d_files d) (d_table d)).

Definition load32 (a : Z) : DM Z := mem_op (load_u32 a).

(** The members of the superblock at [sb] and of the file entry at [f]. *)
Definition sb_magic (sb : Z) : DM Z := load32 sb.
Definition sb_version (sb : Z) : DM Z := load32 (u32 (sb + 4)).
Definition sb_file_count (sb : Z) : DM Z := load32 (u32 (sb + 8)).
Definition sb_files_offset (sb : Z) : DM Z := load32 (u32 (sb + 12)).
Definition sb_data_offset (sb : Z) : DM Z := load32 (u32 (sb + 16)).
Definition f_offset (f : Z) : DM Z := load32 (u32 (f + 64)).
Definition f_size (f : Z) : DM Z := load32 (u32 (f + 68)).

Definition fs_mount (image size : Z) : DM Z :=
  if image =? NULL then ret (-1)
  else if size <? SUPERBLOCK_SIZE then ret (-1)
  else
    set_fs (Fs image size image) ;;;
    let* magic := sb_magic image in
    if negb (magic =? FS_MAGIC) then ret (-1)
    else
      let* version := sb_version image in
      if negb (version =? FS_VERSION) then ret (-1)
      else
        let* files_offset := sb_files_offset image in
        if size <? files_offset then ret (-1)
        else
          let* file_count := sb_file_count image in
          if u32 (size - files_offset) / FILE_ENTRY_SIZE <? file_count then ret (-1)
          else
            let files_end := u32 (files_offset + u32 (file_count * FILE_ENTRY_SIZE)) in
            let* data_offset := sb_data_offset image in
            if data_offset <? files_end then ret (-1)
            else if size <? data_offset then ret (-1)
            else ret 0.

(** [fuel] bounds the length of the names compared. *)
Definition fs_find (fuel : nat) (path : Z) : DM Z :=
  let* s := gets d_fs in
  let sb := fs_superblock s in
  if sb =? NULL then ret NULL
  else
    let* files_offset := sb_files_offset sb in
    let files := u32 (fs_image s + files_offset) in
    let* count := sb_file_count sb in
    let* r := for_range 0 (Z.to_nat count) (fun i =>
      let* c := mem_op (strcmp fuel (u32 (files + i * FILE_ENTRY_SIZE)) path) in
      ret (if c =? 0 then Some (u32 (files + i * FILE_ENTRY_SIZE)) else None)) in
    ret (default NULL r).

Definition fs_file_data (f : Z) : DM Z :=
  if f =? NULL then ret NULL
  else
    let* s := gets d_fs in
    let* offset := f_offset f in
    if fs_image_size s <? offset then ret NULL
    else
      let* size := f_size f in
      if u32 (fs_image_size s - offset) <? size then ret NULL
      else ret (u32 (fs_image s + offset)).

Definition fs_file_size (f : Z) : DM Z := if f =? NULL then ret 0 else f_size f.

(** ** file.c *)

Definition FILE_ACCESS_READ : Z := 1.
Definition FILE_ACCESS_WRITE : Z := 2.
Definition FILE_ACCESS_READ_WRITE : Z := Z.lor FILE_ACCESS_READ FILE_ACCESS_WRITE.

(** [*p], for [struct file *p] *)
Definition get_file (p : Z) : DM file :=
  let* fl := gets d_files in require BadPointer (fl !! p).
Definition set_file (p : Z) (f : file) : DM unit :=
  get_file p ;;;
  modify (fun d => Disk (d_fs d) (d_mem d) (<[p := f]> (d_files d)) (d_table d)).

Definition file_open (fuel : nat) (path acc p : Z) : DM Z :=
  if negb (acc =? FILE_ACCESS_READ) && negb (acc =? FILE_ACCESS_WRITE) && negb (acc =? FILE_ACCESS_READ_WRITE)
  then ret (-1)
  else if path =? NULL then ret (-1)
  else if p =? NULL then ret (-1)
  else
    let* f := fs_find fuel path in
    if f =? NULL then ret (-1)
    else set_file p (File f 0 acc) ;;; ret 0.

Definition file_data (p : Z) : DM Z :=
  if p =? NULL then ret NULL
  else let* f := get_file p in fs_file_data (fs_file f).

Definition file_size (p : Z) : DM Z :=
  if p =? NULL then ret 0
  else
    let* f := get_file p in
    if fs_file f =? NULL then ret 0 else fs_file_size (fs_file f).

(** [count] and the result are 32 bits wide; the result is [(ssize_t)count]. *)
Definition file_read (p buffer count : Z) : DM Z :=
  if p =? NULL then ret (-1)
  else if buffer =? NULL then ret (-1)
  else
    let* f := get_file p in
    if fs_file f =? NULL then ret (-1)
    else if negb (access f =? FILE_ACCESS_READ) && negb (access f =? FILE_ACCESS_READ_WRITE) then ret (-1)
    else
      let* size := file_size p in
      if size <=? position f then ret 0
      else
        let* size := file_size p in
        let remaining := u32 (size - position f) in
        let count := if remaining <? count then remaining else count in
        let* data := file_data p in
        mem_op (memcpy buffer (u32 (data + position f)) count) ;;;
        set_file p (File (fs_file f) (u32 (position f + count)) (access f)) ;;;
        ret (s32 count).

Definition file_close (p : Z) : DM unit :=
  if p =? NULL then ret tt
  else set_file p (File NULL 0 0).

(** ** The file table of a process *)

Definition PROCESS_MAX_FILES : Z := 16.

(** [&process->files[fd].file] *)
Definition file_slot (process fd : Z) : Z := u32 (process + 64 + 16 * fd).

Definition get_used (process fd : Z) : DM bool :=
  let* us := gets d_table in require BadPointer (us !! file_slot process fd).
Definition set_used (process fd : Z) (b : bool) : DM unit :=
  get_used process fd ;;;
  modify (fun d => Disk (d_fs d) (d_mem d) (d_files d) (<[file_slot process fd := b]> (d_table d))).

Definition process_open (fuel : nat) (process path acc : Z) : DM Z :=
  if process =? NULL then ret (-1)
  else if path =? NULL then ret (-1)
  else
    let* r := for_range 0 (Z.to_nat PROCESS_MAX_FILES) (fun fd =>
      let* u := get_used process fd in
      if u : bool then ret None
      else
        let* e := file_open fuel path acc (file_slot process fd) in
        if negb (e =? 0) then ret (Some (-1))
        else set_used process fd true ;;; ret (Some fd)) in
    ret (default (-1) r).

Definition process_get_file (process fd : Z) : DM Z :=
  if process =? NULL then ret NULL
  else if (fd <? 0) || (PROCESS_MAX_FILES <=? fd) then ret NULL
  else
    let* u := get_used process fd in
    if negb u then ret NULL else ret (file_slot process fd).

Definition process_read (process fd buffer count : Z) : DM Z :=
  let* f := process_get_file process fd in
  if f =? NULL then ret (-1) else file_read f buffer count.

Definition process_close (process fd : Z) : DM Z :=
  let* f := process_get_file process fd in
  if f =? NULL then ret (-1)
  else
    file_close f ;;;
    set_used process fd false ;;;
    ret 0.
End FileSystem.
Arguments disk : clear implicits.

(** ** mkfs.c *)

(** The files of the host: a path to its contents. Strings are lists of
    characters without their terminator; the output is the bytes written so
    far, and [die] ends the program. *)
Section Mkfs.
Variable host : list Z -> option (list Z).

Abbreviation HM := (M (list Z)).

Record input_file : Type := InputFile { in_name : list Z; host_path : list Z; in_size : Z; in_offset : Z }.

Definition die {A} (message : string) : HM A := fail (Panicked message).

Definition get_file_size (path : list Z) : HM Z :=
  match host path with
  | None => die "fopen"
  | Some data =>
      if 4294967295 <? Z.of_nat (length data) then die "input file is too large"
      else ret (u32 (Z.of_nat (length data)))
  end.

Definition fwrite (bytes : list Z) : HM unit := modify (fun out => out ++ bytes).

(** [fread] of at most [n] bytes from what is left of a file. *)
Definition copy_file (path : list Z) (size : Z) : HM unit :=
  match host path with
  | None => die "fopen"
  | Some data =>
      loop (Z.to_nat (size / 4096 + 2)) (fun '(rest, remaining) =>
        if remaining =? 0 then ret (inr tt)
        else
          let chunk := if 4096 <? remaining then 4096 else remaining in
          let buffer := take (Z.to_nat chunk) rest in
          if negb (Z.of_nat (length buffer) =? chunk) then die "failed to read input file"
          else
            fwrite buffer ;;;
            ret (inl (drop (Z.to_nat chunk) rest, u32 (remaining - chunk)))) (data, size)
  end.

(** The bytes of the [struct fs_file] that [create_file_entry] fills. *)
Definition create_file_entry (i : input_file) : HM (list Z) :=
  let n := Z.of_nat (length (in_name i)) in
  if FS_FILENAME_MAX <=? n then die "filesystem path is too long"
  else ret (in_name i ++ replicate (Z.to_nat (FS_FILENAME_MAX - n)) 0 ++ le32 (in_offset i) ++ le32 (in_size i)).

(** [strchr(argument, '=')], as the parts before and after it *)
Fixpoint split_at_separator (argument : list Z) : option (list Z * list Z) :=
  match argument with
  | [] => None
  | c :: r => if c =? 61 then Some ([], r)
              else match split_at_separator r with Some (a, b) => Some (c :: a, b) | None => None end
  end.

Definition parse_input (argument : list Z) : HM input_file :=
  match split_at_separator argument with
  | None => die "input must have the form <path>=<source>"
  | Some (name, path) =>
      let n := Z.of_nat (length name) in
      if n =? 0 then die "filesystem path cannot be empty"
      else if FS_FILENAME_MAX <=? n then die "filesystem path is too long"
      else
        let* size := get_file_size path in
        ret (InputFile name path size 0)
  end.

(** [for] loops over the inputs *)
Fixpoint map_inputs {A B} (f : A -> HM B) (l : list A) : HM (list B) :=
  match l with
  | [] => ret []
  | a :: l' => let* b := f a in let* bs := map_inputs f l' in ret (b :: bs)
  end.

(** [inputs[i].offset = current_offset; current_offset += inputs[i].size] *)
Fixpoint assign_offsets (current_offset : Z) (inputs : list input_file) : list input_file :=
  match inputs with
  | [] => []
  | i :: l => InputFile (in_name i) (host_path i) (in_size i) current_offset ::
      assign_offsets (u32 (current_offset + in_size i)) l
  end.

(** [main], with [args] for [argv[2]] and the following *)
Definition mkfs (args : list (list Z)) : HM unit :=
  match args with
  | [] => die "usage"
  | _ =>
      let* inputs := map_inputs parse_input args in
      let file_count := u32 (Z.of_nat (length args)) in
      let files_offset := SUPERBLOCK_SIZE in
      let data_offset := u32 (files_offset + file_count * FILE_ENTRY_SIZE) in
      let inputs := assign_offsets data_offset inputs in
      let* files := map_inputs create_file_entry inputs in
      fwrite (le32 FS_MAGIC ++ le32 FS_VERSION ++ le32 file_count ++ le32 files_offset ++ le32 data_offset) ;;;
      fwrite (concat files) ;;;
      map_inputs (fun i => copy_file (host_path i) (in_size i)) inputs ;;;
      ret tt
  end.
End Mkfs.
