(* ===== verification/FsSpec.v ===== *)
(** * The image that mkfs writes is the file system the kernel reads

    [image_of] is the layout of an image as a function of the files in it.
    [mkfs] writes it, [fs_mount] accepts it, [fs_find] finds every file in it
    by its name, and reading an open file gives the bytes that went in. *)

From S2P Require Import Prelude Layout CString Ram Words Fs.

(** ** The layout of an image *)

(** Files: names and contents. *)
Abbreviation files := (list (list Z * list Z)).

Definition entry_bytes (name : list Z) (offset size : Z) : list Z :=
  name ++ replicate (Z.to_nat (FS_FILENAME_MAX - len name)) 0 ++ le32 offset ++ le32 size.

Fixpoint table_bytes (offset : Z) (fl : files) : list Z :=
  match fl with
  | [] => []
  | (name, data) :: fl' => entry_bytes name offset (len data) ++ table_bytes (offset + len data) fl'
  end.

Definition contents (fl : files) : list Z := concat (snd <$> fl).

Definition data_start (fl : files) : Z := SUPERBLOCK_SIZE + len fl * FILE_ENTRY_SIZE.

Definition superblock_bytes (fl : files) : list Z :=
  le32 FS_MAGIC ++ le32 FS_VERSION ++ le32 (len fl) ++ le32 SUPERBLOCK_SIZE ++ le32 (data_start fl).

Definition image_of (fl : files) : list Z :=
  superblock_bytes fl ++ table_bytes (data_start fl) fl ++ contents fl.

(** Where the data of the file [i] starts. *)
Definition data_offset (i : nat) (fl : files) : Z := data_start fl + len (contents (take i fl)).

(** Names of one to 63 characters; an image of less than 4 GiB. *)
Definition valid_name (name : list Z) : Prop :=
  (0 < length name < 64)%nat /\ Forall (fun c => c <> 0) name /\ Forall is_u8 name.

Definition valid (fl : files) : Prop :=
  Forall (fun f => valid_name f.1) fl /\ len (image_of fl) < 2 ^ 32.

Section Layout.
Implicit Types (fl : files) (name data path : list Z).

Lemma len_entry name offset size : valid_name name -> len (entry_bytes name offset size) = FILE_ENTRY_SIZE.
Proof.
  intros [Hn _]. unfold len, entry_bytes. rewrite !length_app, length_replicate. cbn [le32 length].
  unfold FS_FILENAME_MAX, FILE_ENTRY_SIZE, len. lia.
Qed.

Lemma len_table fl : forall offset, Forall (fun f => valid_name f.1) fl ->
  len (table_bytes offset fl) = len fl * FILE_ENTRY_SIZE.
Proof.
  induction fl as [|[name data] fl IH]; intros offset Hv; [done|]. apply Forall_cons in Hv as [Hn Hv].
  cbn [table_bytes]. rewrite len_app, len_entry, IH by done. unfold len. cbn [length]. unfold FILE_ENTRY_SIZE. lia.
Qed.

Lemma len_image fl : Forall (fun f => valid_name f.1) fl -> len (image_of fl) = data_start fl + len (contents fl).
Proof.
  intros Hv. unfold image_of. rewrite !len_app, len_table by done. change (len (superblock_bytes fl)) with 20.
  unfold data_start, SUPERBLOCK_SIZE. lia.
Qed.

Lemma contents_app fl fl' : contents (fl ++ fl') = contents fl ++ contents fl'.
Proof. unfold contents. by rewrite fmap_app, concat_app. Qed.

Lemma contents_split fl i name data : fl !! i = Some (name, data) ->
  contents fl = contents (take i fl) ++ data ++ contents (drop (S i) fl).
Proof.
  intros E. rewrite <- (take_drop_middle fl i _ E) at 1. by rewrite contents_app.
Qed.

(** Every file lies in the image. *)
Lemma data_in_image fl i name data : Forall (fun f => valid_name f.1) fl -> fl !! i = Some (name, data) ->
  data_start fl <= data_offset i fl /\ data_offset i fl + len data <= len (image_of fl).
Proof.
  intros Hv E. rewrite len_image, (contents_split _ _ _ _ E), !len_app by done. unfold data_offset.
  pose proof (len_nonneg (contents (take i fl))). pose proof (len_nonneg (contents (drop (S i) fl))). lia.
Qed.

Lemma start_in_image fl : Forall (fun f => valid_name f.1) fl -> 20 <= data_start fl <= len (image_of fl).
Proof.
  intros Hv. rewrite len_image by done. pose proof (len_nonneg (contents fl)). pose proof (len_nonneg fl).
  unfold data_start, SUPERBLOCK_SIZE, FILE_ENTRY_SIZE. lia.
Qed.
End Layout.

(** ** mkfs *)

Section MkfsSpec.
Variable host : list Z -> option (list Z).
Implicit Types (fl : files) (args : list (list Z)) (inputs : list input_file) (out : list Z).

(** The argument names the file [f]: [<path>=<source>]. *)
Definition names_file (argument : list Z) (f : list Z * list Z) : Prop :=
  exists source, split_at_separator argument = Some (f.1, source) /\ host source = Some f.2.

(** The input record of a file at an offset. *)
Definition input_of (i : input_file) (f : list Z * list Z) : Prop :=
  in_name i = f.1 /\ host (host_path i) = Some f.2 /\ in_size i = len f.2.

Lemma wp_get_file_size path data (Q : Z -> list Z -> Prop) out :
  host path = Some data -> is_u32 (len data) -> Q (len data) out -> wp (get_file_size host path) Q out.
Proof.
  intros E Hd HQ. unfold get_file_size. rewrite E. fold (len data). unfold is_u32 in Hd.
  destruct (Z.ltb_spec 4294967295 (len data)); [lia|]. apply wp_ret. by rewrite u32_id.
Qed.

Lemma wp_parse_input a f (Q : input_file -> list Z -> Prop) out :
  names_file a f -> valid_name f.1 -> is_u32 (len f.2) ->
  (forall i, input_of i f -> Q i out) -> wp (parse_input host a) Q out.
Proof.
  intros (source & E & Eh) [Hn _] Hd HQ. unfold parse_input. rewrite E.
  destruct (Z.eqb_spec (Z.of_nat (length f.1)) 0); [lia|]. unfold FS_FILENAME_MAX.
  destruct (Z.leb_spec 64 (Z.of_nat (length f.1))); [lia|].
  apply wp_bind, (wp_get_file_size source f.2); [done..|]. by apply wp_ret, HQ.
Qed.

Lemma wp_map_inputs {A B C} (g : A -> M (list Z) B) (R : A -> C -> Prop) (R' : B -> C -> Prop) (l : list A) (cs : list C) :
  forall (Q : list B -> list Z -> Prop) out,
  Forall2 R l cs ->
  (forall a c (Q' : B -> list Z -> Prop) out', R a c -> (forall b, R' b c -> Q' b out') -> wp (g a) Q' out') ->
  (forall bs, Forall2 R' bs cs -> Q bs out) -> wp (map_inputs g l) Q out.
Proof.
  intros Q out HR. revert Q. induction HR as [|a c l cs Ha HR IH]; intros Q Hg HQ; cbn [map_inputs].
  - apply wp_ret. by apply HQ.
  - apply wp_bind, (Hg a c); [done|]. intros b Hb. apply wp_bind. apply IH; [done|]. intros bs Hbs.
    apply wp_ret, HQ. by constructor.
Qed.

(** The chunks of [copy_file] add up to the file. *)
Lemma wp_copy_file path data out (Q : unit -> list Z -> Prop) :
  host path = Some data -> is_u32 (len data) -> Q tt (out ++ data) -> wp (copy_file host path (len data)) Q out.
Proof.
  intros E Hd HQ. unfold copy_file. rewrite E. unfold is_u32 in Hd.
  apply (wp_loop (fun '(rest, remaining) o => remaining = len rest /\ len rest <= len data /\ o ++ rest = out ++ data)
    (fun '(rest, remaining) _ => Z.to_nat ((remaining + 4095) / 4096))).
  - intros [rest remaining] o (-> & Hle & Eo). destruct (Z.eqb_spec (len rest) 0) as [Hz|Hnz].
    + apply wp_ret. destruct rest; [|unfold len in Hz; cbn in Hz; lia]. rewrite app_nil_r in Eo. by subst o.
    + set (chunk := if 4096 <? len rest then 4096 else len rest).
      assert (0 < chunk <= len rest /\ chunk <= 4096 /\ (chunk = 4096 \/ chunk = len rest)) as (Hc1 & Hc2 & Hc3).
      { pose proof (len_nonneg rest). unfold chunk. destruct (Z.ltb_spec 4096 (len rest)); lia. }
      assert (Z.of_nat (length (take (Z.to_nat chunk) rest)) = chunk) as El by (rewrite length_take; unfold len in *; lia).
      rewrite El, Z.eqb_refl. cbn [negb]. apply wp_bind, wp_modify, wp_ret.
      assert (len (drop (Z.to_nat chunk) rest) = len rest - chunk) as Er by (unfold len in *; rewrite length_drop; lia).
      rewrite u32_id by (unfold is_u32; lia). rewrite Er. split; [split; [done|]; split; [lia|]|].
      * by rewrite <- app_assoc, take_drop.
      * apply Z2Nat.inj_lt; [apply Z.div_pos; lia..|]. destruct Hc3 as [->| ->].
        -- replace (len rest + 4095) with (len rest - 4096 + 4095 + 1 * 4096) by lia.
           rewrite Z.div_add by lia. lia.
        -- rewrite Z.sub_diag. change ((0 + 4095) / 4096) with 0. apply Z.div_str_pos. lia.
  - split; [done|]. split; [lia|done].
  - pose proof (len_nonneg data). enough ((len data + 4095) / 4096 < len data / 4096 + 2).
    { pose proof (Z.div_pos (len data) 4096 ltac:(lia) ltac:(lia)). pose proof (Z.div_pos (len data + 4095) 4096 ltac:(lia) ltac:(lia)). lia. }
    pose proof (Z.div_le_mono (len data + 4095) (len data + 1 * 4096) 4096 ltac:(lia) ltac:(lia)) as Hm.
    rewrite Z.div_add in Hm by lia. lia.
Qed.

Lemma Forall2_and_r {A B} (P : A -> B -> Prop) (R : B -> Prop) l k :
  Forall2 P l k -> Forall R k -> Forall2 (fun x y => P x y /\ R y) l k.
Proof. induction 1; intros Hk; [done|]. apply Forall_cons in Hk as [? ?]. by constructor; auto. Qed.

(** The file table. *)
Lemma wp_entries inputs fl : forall base (Q : list (list Z) -> list Z -> Prop) out,
  Forall2 input_of inputs fl -> Forall (fun f => valid_name f.1) fl -> 0 <= base -> base + len (contents fl) < 2 ^ 32 ->
  (forall bs, concat bs = table_bytes base fl -> Q bs out) ->
  wp (map_inputs create_file_entry (assign_offsets base inputs)) Q out.
Proof.
  intros base Q out Hin. revert base Q. induction Hin as [|i [name data] inputs fl (En & _ & Es) Hin IH];
    intros base Q Hv Hb Hl HQ; cbn [assign_offsets map_inputs].
  - by apply wp_ret, HQ.
  - apply Forall_cons in Hv as [Hn Hv]. cbn [fst snd] in *. change (contents ((name, data) :: fl)) with (data ++ contents fl) in Hl.
    rewrite len_app in Hl. pose proof (len_nonneg data). pose proof (len_nonneg (contents fl)).
    apply wp_bind. unfold create_file_entry. cbn [in_name in_offset in_size]. rewrite En. destruct Hn as [Hn _].
    unfold FS_FILENAME_MAX. destruct (Z.leb_spec 64 (Z.of_nat (length name))); [lia|]. apply wp_ret.
    apply wp_bind. rewrite Es, u32_id by (unfold is_u32; lia). apply IH; [done|lia|lia|].
    intros bs Ebs. apply wp_ret, HQ. cbn [concat table_bytes]. by rewrite Ebs.
Qed.

(** The contents, one file after the other. *)
Lemma wp_copies inputs fl : forall base out (Q : list unit -> list Z -> Prop),
  Forall2 input_of inputs fl -> Forall (fun f => is_u32 (len f.2)) fl ->
  (forall us, Q us (out ++ contents fl)) ->
  wp (map_inputs (fun i => copy_file host (host_path i) (in_size i)) (assign_offsets base inputs)) Q out.
Proof.
  intros base out Q Hin. revert base out Q. induction Hin as [|i [name data] inputs fl (_ & Eh & Es) Hin IH];
    intros base out Q Hv HQ; cbn [assign_offsets map_inputs].
  - apply wp_ret. specialize (HQ []). by rewrite app_nil_r in HQ.
  - apply Forall_cons in Hv as [Hn Hv]. cbn [fst snd] in *. apply wp_bind. cbn [host_path in_size]. rewrite Es.
    apply (wp_copy_file _ data); [done..|]. apply wp_bind, IH; [done|]. intros us. apply wp_ret.
    specialize (HQ (tt :: us)). change (contents ((name, data) :: fl)) with (data ++ contents fl) in HQ. by rewrite app_assoc in HQ.
Qed.

Lemma sizes_fit fl : len (contents fl) < 2 ^ 32 -> Forall (fun f => is_u32 (len f.2)) fl.
Proof.
  induction fl as [|[name data] fl IH]; intros Hl; [done|].
  change (contents ((name, data) :: fl)) with (data ++ contents fl) in Hl. rewrite len_app in Hl.
  pose proof (len_nonneg data). pose proof (len_nonneg (contents fl)).
  constructor; [unfold is_u32; cbn; lia|]. apply IH. lia.
Qed.

Lemma wp_mkfs args fl : args <> [] -> Forall2 names_file args fl -> valid fl ->
  wp (mkfs host args) (fun _ out => out = image_of fl) [].
Proof.
  intros Hne Hargs [Hv Hl]. unfold mkfs. destruct args as [|a0 args0]; [done|]. set (args := a0 :: args0) in *.
  rewrite len_image in Hl by done. pose proof (start_in_image fl Hv) as [Hs _].
  pose proof (len_nonneg fl) as Hfl. pose proof (len_nonneg (contents fl)) as Hcl. pose proof (sizes_fit fl ltac:(lia)) as Hsz.
  assert (Z.of_nat (length args) = len fl) as -> by (unfold len; by rewrite (Forall2_length _ _ _ Hargs)).
  assert (u32 (len fl) = len fl /\ u32 (SUPERBLOCK_SIZE + len fl * FILE_ENTRY_SIZE) = data_start fl) as [E1 E2].
  { unfold data_start, SUPERBLOCK_SIZE, FILE_ENTRY_SIZE in *. split; apply u32_id; unfold is_u32; lia. }
  rewrite E1, E2. apply wp_bind.
  eapply (wp_map_inputs _ (fun a f => (names_file a f /\ valid_name f.1) /\ is_u32 (len f.2)) input_of args fl).
  - by repeat apply Forall2_and_r.
  - intros a f Q' out' [[H1 H2] H3] HQ'. by apply (wp_parse_input a f).
  - intros inputs Hin. apply wp_bind, (wp_entries inputs fl); [done|done|lia|lia|]. intros bs Ebs.
    apply wp_bind, wp_modify, wp_bind, wp_modify, wp_bind, (wp_copies inputs fl); [done..|]. intros us. apply wp_ret.
    rewrite Ebs. cbn [app]. unfold image_of, superblock_bytes. by rewrite <- !app_assoc.
Qed.
End MkfsSpec.

(** ** The kernel side *)

Section Kernel.
Context {Mem : Type} `{ByteMemLaws Mem}.
Implicit Types (fl : files) (name data path : list Z) (d : disk Mem) (p q a b : Z).

Lemma wp_mem_op {A} (x : M Mem A) (Q : A -> disk Mem -> Prop) d :
  wp x (fun r m => Q r (Disk (d_fs d) m (d_files d) (d_table d))) (d_mem d) -> wp (mem_op x) Q d.
Proof. exact (wp_zoom d_mem_l x Q d). Qed.

Lemma disk_mem_id d : Disk (d_fs d) (d_mem d) (d_files d) (d_table d) = d.
Proof. by destruct d. Qed.

Lemma wp_load32 d a v (Q : Z -> disk Mem -> Prop) :
  holds (d_mem d) a (le32 v) -> is_u32 v -> Q v d -> wp (load32 a) Q d.
Proof. intros Hh Hv HQ. apply wp_mem_op, (wp_load_u32 _ _ v); [done..|]. by rewrite disk_mem_id. Qed.

(** *** Members of the image *)

Lemma holds_table m fl : forall p i off name data,
  holds m p (table_bytes off fl) -> Forall (fun f => valid_name f.1) fl -> fl !! i = Some (name, data) ->
  holds m (p + Z.of_nat i * FILE_ENTRY_SIZE) (entry_bytes name (off + len (contents (take i fl))) (len data)).
Proof.
  induction fl as [|[n0 d0] fl IH]; intros p i off name data Hh Hv E; [done|].
  apply Forall_cons in Hv as [Hn Hv]. cbn [table_bytes] in Hh. apply holds_app in Hh as [Hh1 Hh2].
  destruct i as [|i]; cbn [lookup list_lookup take] in *.
  - injection E as -> ->. change (len (contents [])) with 0.
    by rewrite !Z.add_0_r.
  - fold (len (entry_bytes n0 off (len d0))) in Hh2. rewrite len_entry in Hh2 by done.
    pose proof (IH _ i _ name data Hh2 Hv E) as Hi.
    change (contents ((n0, d0) :: take i fl)) with (d0 ++ contents (take i fl)). rewrite len_app.
    replace (p + Z.of_nat (S i) * FILE_ENTRY_SIZE) with (p + FILE_ENTRY_SIZE + Z.of_nat i * FILE_ENTRY_SIZE) by lia.
    by rewrite Z.add_assoc.
Qed.

(** The image is in memory at [p], and mounted. *)
Record mounted d p fl : Prop := {
  mo_valid : valid fl;
  mo_fs : d_fs d = Fs p (len (image_of fl)) p;
  mo_null : p <> NULL;
  mo_image : holds (d_mem d) p (image_of fl);
  mo_room : p + len (image_of fl) < 2 ^ 32;
}.

Definition entry_at p (i : nat) : Z := p + SUPERBLOCK_SIZE + Z.of_nat i * FILE_ENTRY_SIZE.

Section Mounted.
Context (d : disk Mem) (p : Z) (fl : files).
Hypothesis Hv : valid fl.
Hypothesis Hh : holds (d_mem d) p (image_of fl).

Lemma image_bounds : 0 <= p /\ p + len (image_of fl) <= 2 ^ 32.
Proof. destruct Hh as (? & ? & _). done. Qed.

Lemma len_fl : 0 <= len fl /\ SUPERBLOCK_SIZE + len fl * FILE_ENTRY_SIZE = data_start fl /\
  20 <= data_start fl <= len (image_of fl) /\ len (image_of fl) < 2 ^ 32.
Proof.
  destruct Hv as [H1 H2]. split; [apply len_nonneg|]. split; [done|]. split; [by apply start_in_image|done].
Qed.

Lemma holds_superblock : holds (d_mem d) p (superblock_bytes fl).
Proof. by apply holds_app in Hh as [? _]. Qed.

(** A word of the superblock. *)
Lemma wp_superblock (Q : Z -> disk Mem -> Prop) l1 v l2 :
  superblock_bytes fl = l1 ++ le32 v ++ l2 -> is_u32 v -> Q v d -> wp (load32 (u32 (p + len l1))) Q d.
Proof.
  intros E Hu HQ. pose proof holds_superblock as Hs. rewrite E in Hs. apply holds_at in Hs.
  assert (p + len l1 < 2 ^ 32 /\ 0 <= p) as [H1 H2].
  { destruct Hs as (? & Hs & _). pose proof image_bounds. cbn [le32 length] in Hs. pose proof (len_nonneg l1). lia. }
  pose proof (len_nonneg l1). rewrite u32_id by (unfold is_u32; lia). by apply (wp_load32 d _ v).
Qed.

Lemma wp_sb_file_count (Q : Z -> disk Mem -> Prop) : Q (len fl) d -> wp (sb_file_count p) Q d.
Proof.
  intros HQ. pose proof len_fl. unfold FILE_ENTRY_SIZE, SUPERBLOCK_SIZE in *.
  apply (wp_superblock Q (le32 FS_MAGIC ++ le32 FS_VERSION) (len fl) (le32 20 ++ le32 (data_start fl)));
    [done|unfold is_u32; lia|done].
Qed.

Lemma wp_sb_files_offset (Q : Z -> disk Mem -> Prop) : Q SUPERBLOCK_SIZE d -> wp (sb_files_offset p) Q d.
Proof.
  intros HQ. apply (wp_superblock Q (le32 FS_MAGIC ++ le32 FS_VERSION ++ le32 (len fl)) 20 (le32 (data_start fl)));
    [done|unfold is_u32; lia|done].
Qed.

Lemma wp_sb_data_offset (Q : Z -> disk Mem -> Prop) : Q (data_start fl) d -> wp (sb_data_offset p) Q d.
Proof.
  intros HQ. pose proof len_fl.
  apply (wp_superblock Q (le32 FS_MAGIC ++ le32 FS_VERSION ++ le32 (len fl) ++ le32 20) (data_start fl) []);
    [done|unfold is_u32; lia|done].
Qed.

Lemma wp_sb_magic (Q : Z -> disk Mem -> Prop) : Q FS_MAGIC d -> wp (sb_magic p) Q d.
Proof.
  intros HQ. pose proof holds_superblock as Hs. apply holds_app in Hs as [Hs _].
  by apply (wp_load32 d p FS_MAGIC); [done|unfold is_u32, FS_MAGIC; lia|].
Qed.

Lemma wp_sb_version (Q : Z -> disk Mem -> Prop) : Q FS_VERSION d -> wp (sb_version p) Q d.
Proof.
  intros HQ. apply (wp_superblock Q (le32 FS_MAGIC) FS_VERSION (le32 (len fl) ++ le32 20 ++ le32 (data_start fl)));
    [done|unfold is_u32, FS_VERSION; lia|done].
Qed.

(** The entry and the data of the file [i]. *)
Context (i : nat) (name data : list Z).
Hypothesis Hi : fl !! i = Some (name, data).

Lemma holds_entry : holds (d_mem d) (entry_at p i) (entry_bytes name (data_offset i fl) (len data)).
Proof.
  destruct Hv as [Hn _]. unfold image_of in Hh. apply holds_at in Hh as Ht. change (len (superblock_bytes fl)) with SUPERBLOCK_SIZE in Ht.
  exact (holds_table _ _ _ i _ _ _ Ht Hn Hi).
Qed.

Lemma holds_data : holds (d_mem d) (p + data_offset i fl) data.
Proof.
  destruct Hv as [Hn _]. pose proof Hh as Hc. unfold image_of in Hc. rewrite app_assoc in Hc. apply holds_app in Hc as [_ Hc].
  change (Z.of_nat (length ?l)) with (len l) in Hc. rewrite len_app, len_table in Hc by done.
  change (len (superblock_bytes fl)) with SUPERBLOCK_SIZE in Hc. rewrite (contents_split _ _ _ _ Hi) in Hc.
  apply holds_at in Hc. unfold data_offset, data_start. by rewrite Z.add_assoc.
Qed.

Lemma valid_name_i : valid_name name.
Proof. destruct Hv as [Hn _]. exact (proj1 (Forall_lookup _ _) Hn i _ Hi). Qed.

Lemma data_bounds : data_start fl <= data_offset i fl /\ data_offset i fl + len data <= len (image_of fl).
Proof. destruct Hv as [Hn _]. by apply (data_in_image fl i name). Qed.

Lemma entry_bounds : 0 < entry_at p i /\ entry_at p i + FILE_ENTRY_SIZE <= p + len (image_of fl).
Proof.
  pose proof len_fl as (H1 & H2 & H3 & H4). pose proof image_bounds. pose proof (lookup_lt_Some _ _ _ Hi).
  unfold entry_at, SUPERBLOCK_SIZE, FILE_ENTRY_SIZE, len in *. lia.
Qed.

Lemma entry_name : cstring (d_mem d) (entry_at p i) name.
Proof.
  pose proof holds_entry as He. destruct valid_name_i as (Hn & Hz & _). split; [done|].
  unfold entry_bytes in He. rewrite app_assoc in He. apply holds_app in He as [He _].
  replace (Z.to_nat (FS_FILENAME_MAX - len name)) with (S (63 - length name)) in He by (unfold FS_FILENAME_MAX, len; lia).
  cbn [replicate] in He. change (0 :: ?l) with ([0] ++ l) in He. rewrite app_assoc in He. by apply holds_app in He as [He _].
Qed.

(** The words of the entry. *)
Lemma wp_entry_word (Q : Z -> disk Mem -> Prop) l1 v l2 :
  entry_bytes name (data_offset i fl) (len data) = l1 ++ le32 v ++ l2 -> is_u32 v -> Q v d ->
  wp (load32 (u32 (entry_at p i + len l1))) Q d.
Proof.
  intros E Hu HQ. pose proof holds_entry as He. rewrite E in He. apply holds_at in He.
  pose proof entry_bounds. pose proof image_bounds. pose proof (len_nonneg l1).
  assert (entry_at p i + len l1 + 4 <= 2 ^ 32) by (destruct He as (_ & He & _); cbn [le32 length] in He; lia).
  rewrite u32_id by (unfold is_u32; lia). by apply (wp_load32 d _ v).
Qed.

Lemma len_name_bytes : len (name ++ replicate (Z.to_nat (FS_FILENAME_MAX - len name)) 0) = 64.
Proof. destruct valid_name_i as (Hn & _). unfold len, FS_FILENAME_MAX. rewrite length_app, length_replicate. lia. Qed.

Lemma wp_f_offset (Q : Z -> disk Mem -> Prop) : Q (data_offset i fl) d -> wp (f_offset (entry_at p i)) Q d.
Proof.
  intros HQ. unfold f_offset. rewrite <- len_name_bytes. pose proof data_bounds. pose proof len_fl. pose proof (len_nonneg data).
  eapply wp_entry_word; [|unfold is_u32|exact HQ]; [|lia]. unfold entry_bytes. by rewrite <- app_assoc.
Qed.

Lemma wp_f_size (Q : Z -> disk Mem -> Prop) : Q (len data) d -> wp (f_size (entry_at p i)) Q d.
Proof.
  intros HQ. unfold f_size.
  replace 68 with (len (name ++ replicate (Z.to_nat (FS_FILENAME_MAX - len name)) 0 ++ le32 (data_offset i fl)))
    by (rewrite app_assoc, len_app, len_name_bytes; done).
  pose proof data_bounds. pose proof len_fl. pose proof (len_nonneg data).
  eapply (wp_entry_word Q _ (len data) []); [|unfold is_u32; lia|exact HQ]. unfold entry_bytes. by rewrite <- !app_assoc, app_nil_r.
Qed.
End Mounted.

(** *** The routines *)

Lemma wp_fs_mount d p fl (Q : Z -> disk Mem -> Prop) :
  valid fl -> p <> NULL -> holds (d_mem d) p (image_of fl) -> p + len (image_of fl) < 2 ^ 32 ->
  (forall d', mounted d' p fl -> d_mem d' = d_mem d -> d_files d' = d_files d -> d_table d' = d_table d -> Q 0 d') ->
  wp (fs_mount p (len (image_of fl))) Q d.
Proof.
  intros Hv Hp Hh Hroom HQ. unfold fs_mount. rewrite (proj2 (Z.eqb_neq p NULL)) by done.
  destruct (len_fl fl Hv) as (H1 & H2 & H3 & H4).
  destruct (Z.ltb_spec (len (image_of fl)) SUPERBLOCK_SIZE) as [Hlt|_]; [unfold SUPERBLOCK_SIZE in Hlt; lia|].
  apply wp_bind, wp_modify. set (d' := Disk _ _ _ _). assert (holds (d_mem d') p (image_of fl)) as Hh' by done.
  assert (u32 (len (image_of fl) - SUPERBLOCK_SIZE) / FILE_ENTRY_SIZE >= len fl) as Hc.
  { rewrite u32_id by (unfold is_u32, SUPERBLOCK_SIZE; lia). apply Z.le_ge, Z.div_le_lower_bound; unfold FILE_ENTRY_SIZE, SUPERBLOCK_SIZE in *; lia. }
  assert (u32 (SUPERBLOCK_SIZE + u32 (len fl * FILE_ENTRY_SIZE)) = data_start fl) as He.
  { unfold FILE_ENTRY_SIZE, SUPERBLOCK_SIZE in *. rewrite !u32_id; unfold is_u32; try rewrite u32_id; unfold is_u32; lia. }
  apply wp_bind, (wp_sb_magic d' p fl); [done..|]. cbn [negb]. rewrite Z.eqb_refl.
  apply wp_bind, (wp_sb_version d' p fl); [done..|]. cbn [negb]. rewrite Z.eqb_refl.
  apply wp_bind, (wp_sb_files_offset d' p fl); [done..|].
  destruct (Z.ltb_spec (len (image_of fl)) SUPERBLOCK_SIZE) as [Hlt|_]; [unfold SUPERBLOCK_SIZE in Hlt; lia|].
  apply wp_bind, (wp_sb_file_count d' p fl); [done..|]. destruct (Z.ltb_spec (u32 (len (image_of fl) - SUPERBLOCK_SIZE) / FILE_ENTRY_SIZE) (len fl)); [lia|].
  apply wp_bind, (wp_sb_data_offset d' p fl); [done..|]. rewrite He. rewrite Z.ltb_irrefl.
  destruct (Z.ltb_spec (len (image_of fl)) (data_start fl)); [lia|]. apply wp_ret. by apply HQ.
Qed.

Lemma entry_at_u32 d p fl (j : Z) : valid fl -> holds (d_mem d) p (image_of fl) -> 0 <= j < len fl ->
  u32 (u32 (p + SUPERBLOCK_SIZE) + j * FILE_ENTRY_SIZE) = entry_at p (Z.to_nat j).
Proof.
  intros Hv Hh Hj. destruct (len_fl fl Hv) as (H1 & H2 & H3 & H4). destruct (image_bounds d p fl Hh).
  unfold entry_at, SUPERBLOCK_SIZE, FILE_ENTRY_SIZE in *. rewrite (u32_id (p + 20)) by (unfold is_u32; lia).
  rewrite u32_id by (unfold is_u32; lia). lia.
Qed.

(** The first file of that name. *)
Lemma wp_fs_find d p fl fuel q path (Q : Z -> disk Mem -> Prop) :
  mounted d p fl -> cstring (d_mem d) q path -> Forall is_u8 path -> (64 <= fuel)%nat ->
  (forall i data, fl !! i = Some (path, data) -> (forall j n dt, (j < i)%nat -> fl !! j = Some (n, dt) -> n <> path) ->
     Q (entry_at p i) d) ->
  ((forall n dt, (n, dt) ∈ fl -> n <> path) -> Q NULL d) -> wp (fs_find fuel q) Q d.
Proof.
  intros [Hv Hfs Hp Hh _] Hq Hq8 Hf HQ HQn. unfold fs_find. apply wp_bind, wp_gets. rewrite Hfs.
  cbn [fs_superblock fs_image]. rewrite (proj2 (Z.eqb_neq p NULL)) by done.
  apply wp_bind, (wp_sb_files_offset d p fl); [done..|]. apply wp_bind, (wp_sb_file_count d p fl); [done..|].
  pose proof (len_nonneg fl). apply wp_bind.
  apply (wp_for_range (fun j d' => d' = d /\ forall k n dt, Z.of_nat k < j -> fl !! k = Some (n, dt) -> n <> path)).
  - split; [done|]. intros k n dt Hk. lia.
  - intros j d' Hj [-> Hno]. rewrite Z2Nat.id in Hj by lia. rewrite (entry_at_u32 d p fl j) by (done || lia).
    destruct (lookup_lt_is_Some_2 fl (Z.to_nat j)) as [[name data] E]; [unfold len in Hj; lia|].
    destruct (valid_name_i fl Hv _ _ _ E) as (Hn & _ & Hn8).
    apply wp_bind, wp_mem_op. eapply wp_mono; [apply (wp_strcmp _ _ _ name path); [by apply (entry_name d p fl Hv Hh _ _ data)|done|done|done|lia]|].
    intros r m' (-> & _ & Hr). rewrite disk_mem_id. apply wp_ret. destruct (Z.eqb_spec r 0) as [->|Hne].
    + apply wp_ret. cbn [default]. destruct (proj1 Hr eq_refl). apply (HQ _ data E). intros k n dt Hk. apply Hno. lia.
    + split; [done|]. intros k n dt Hk Ek. destruct (decide (k = Z.to_nat j)) as [->|Hkj]; [|apply (Hno k n dt); [lia|done]].
      rewrite E in Ek. injection Ek as <- <-. naive_solver.
  - intros d' [-> Hno]. apply wp_ret, HQn. intros n dt [k Ek]%list_elem_of_lookup. apply (Hno k n dt); [|done].
    apply lookup_lt_Some in Ek. unfold len. lia.
Qed.

Lemma wp_fs_file_data d p fl i name data (Q : Z -> disk Mem -> Prop) :
  mounted d p fl -> fl !! i = Some (name, data) -> Q (p + data_offset i fl) d -> wp (fs_file_data (entry_at p i)) Q d.
Proof.
  intros [Hv Hfs Hp Hh Hroom] E HQ. unfold fs_file_data. destruct (entry_bounds d p fl Hv Hh i name data E) as [He _].
  rewrite (proj2 (Z.eqb_neq _ NULL)) by (unfold NULL; lia). apply wp_bind, wp_gets.
  apply wp_bind, (wp_f_offset d p fl Hv Hh i name data E). rewrite Hfs. cbn [fs_image_size fs_image].
  destruct (data_bounds fl Hv i name data E) as [H1 H2]. destruct (len_fl fl Hv) as (H3 & H4 & H5 & H6).
  pose proof (len_nonneg data). destruct (image_bounds d p fl Hh).
  destruct (Z.ltb_spec (len (image_of fl)) (data_offset i fl)); [lia|].
  apply wp_bind, (wp_f_size d p fl Hv Hh i name data E). rewrite u32_id by (unfold is_u32; lia).
  destruct (Z.ltb_spec (len (image_of fl) - data_offset i fl) (len data)); [lia|].
  apply wp_ret. by rewrite u32_id by (unfold is_u32; lia).
Qed.

(** A file that is open: its entry, and a position inside it. *)
Record opened d p fl (slot : Z) (i : nat) (name data : list Z) (pos acc : Z) : Prop := {
  op_mounted : mounted d p fl;
  op_slot : slot <> NULL;
  op_entry : fl !! i = Some (name, data);
  op_file : d_files d !! slot = Some (File (entry_at p i) pos acc);
  op_pos : 0 <= pos <= len data;
}.

Definition readable_mode (acc : Z) : Prop := acc = FILE_ACCESS_READ \/ acc = FILE_ACCESS_READ_WRITE.
Definition access_mode (acc : Z) : Prop := readable_mode acc \/ acc = FILE_ACCESS_WRITE.

Lemma wp_get_file d slot f (Q : file -> disk Mem -> Prop) : d_files d !! slot = Some f -> Q f d -> wp (get_file slot) Q d.
Proof. intros E HQ. apply wp_bind, wp_gets. by apply (wp_require _ _ _ _ f). Qed.

Lemma wp_set_file d slot f (Q : unit -> disk Mem -> Prop) : is_Some (d_files d !! slot) ->
  Q tt (Disk (d_fs d) (d_mem d) (<[slot := f]> (d_files d)) (d_table d)) -> wp (set_file slot f) Q d.
Proof. intros [f0 E] HQ. apply wp_bind, (wp_get_file d slot f0); [done|]. by apply wp_modify. Qed.

(** Changing the file records leaves the image mounted. *)
Lemma mounted_files d d' p fl : mounted d p fl -> d_fs d' = d_fs d -> d_mem d' = d_mem d -> mounted d' p fl.
Proof. intros [] E1 E2. split; rewrite ?E1, ?E2; done. Qed.

Lemma wp_file_open d p fl fuel q path slot acc (Q : Z -> disk Mem -> Prop) :
  mounted d p fl -> q <> NULL -> cstring (d_mem d) q path -> Forall is_u8 path -> (64 <= fuel)%nat -> slot <> NULL ->
  is_Some (d_files d !! slot) -> access_mode acc ->
  (forall i data, fl !! i = Some (path, data) -> (forall j n dt, (j < i)%nat -> fl !! j = Some (n, dt) -> n <> path) ->
     Q 0 (Disk (d_fs d) (d_mem d) (<[slot := File (entry_at p i) 0 acc]> (d_files d)) (d_table d))) ->
  ((forall n dt, (n, dt) ∈ fl -> n <> path) -> Q (-1) d) -> wp (file_open fuel q acc slot) Q d.
Proof.
  intros Hm Hq0 Hq Hq8 Hf Hs Hslot Hacc HQ HQn. unfold file_open.
  assert (negb (acc =? FILE_ACCESS_READ) && negb (acc =? FILE_ACCESS_WRITE) && negb (acc =? FILE_ACCESS_READ_WRITE) = false) as ->.
  { destruct Hacc as [[->| ->]| ->]; done. }
  rewrite (proj2 (Z.eqb_neq q NULL)), (proj2 (Z.eqb_neq slot NULL)) by done.
  apply wp_bind, (wp_fs_find d p fl fuel q path); [done..| |].
  - intros i data E Hno. destruct (entry_bounds d p fl (mo_valid _ _ _ Hm) (mo_image _ _ _ Hm) i path data E) as [He _].
    rewrite (proj2 (Z.eqb_neq _ NULL)) by (unfold NULL; lia). apply wp_bind, wp_set_file; [done|]. apply wp_ret. by apply (HQ i data).
  - intros Hno. rewrite Z.eqb_refl. by apply wp_ret, HQn.
Qed.

Lemma wp_file_size d p fl slot i name data pos acc (Q : Z -> disk Mem -> Prop) :
  opened d p fl slot i name data pos acc -> Q (len data) d -> wp (file_size slot) Q d.
Proof.
  intros [Hm Hs E Ef Hp] HQ. unfold file_size. rewrite (proj2 (Z.eqb_neq slot NULL)) by done.
  apply wp_bind, (wp_get_file _ _ _ _ Ef). cbn [fs_file].
  destruct (entry_bounds d p fl (mo_valid _ _ _ Hm) (mo_image _ _ _ Hm) i name data E) as [He _].
  assert ((entry_at p i =? NULL) = false) as E0 by (apply Z.eqb_neq; unfold NULL; lia).
  unfold fs_file_size. rewrite E0.
  by apply (wp_f_size d p fl (mo_valid _ _ _ Hm) (mo_image _ _ _ Hm) i name data E).
Qed.

Lemma wp_file_data d p fl slot i name data pos acc (Q : Z -> disk Mem -> Prop) :
  opened d p fl slot i name data pos acc -> Q (p + data_offset i fl) d -> wp (file_data slot) Q d.
Proof.
  intros [Hm Hs E Ef Hp] HQ. unfold file_data. rewrite (proj2 (Z.eqb_neq slot NULL)) by done.
  apply wp_bind, (wp_get_file _ _ _ _ Ef). cbn [fs_file]. by apply (wp_fs_file_data d p fl i name data).
Qed.

(** Room for [n] bytes at [b], apart from the image. *)
Record buffer d p fl (b n : Z) : Prop := {
  bu_null : b <> NULL;
  bu_writable : writable (d_mem d) b n;
  bu_apart : b + n <= p \/ p + len (image_of fl) <= b;
}.

Lemma wp_file_read d p fl slot i name data pos acc b count (Q : Z -> disk Mem -> Prop) :
  opened d p fl slot i name data pos acc -> readable_mode acc -> 0 <= count ->
  buffer d p fl b (count `min` (len data - pos)) ->
  (forall d', opened d' p fl slot i name data (pos + count `min` (len data - pos)) acc ->
     holds (d_mem d') b (take (Z.to_nat (count `min` (len data - pos))) (drop (Z.to_nat pos) data)) ->
     same_outside b (count `min` (len data - pos)) (d_mem d) (d_mem d') -> d_table d' = d_table d ->
     (forall slot', slot' <> slot -> d_files d' !! slot' = d_files d !! slot') ->
     Q (s32 (count `min` (len data - pos))) d') ->
  wp (file_read slot b count) Q d.
Proof.
  intros Ho Hacc Hcount [Hb0 Hbw Hba] HQ. pose proof Ho as [Hm Hs E Ef Hpos]. unfold file_read.
  rewrite (proj2 (Z.eqb_neq slot NULL)), (proj2 (Z.eqb_neq b NULL)) by done.
  apply wp_bind, (wp_get_file _ _ _ _ Ef). cbn [fs_file access position].
  destruct (entry_bounds d p fl (mo_valid _ _ _ Hm) (mo_image _ _ _ Hm) i name data E) as [He _].
  rewrite (proj2 (Z.eqb_neq _ NULL)) by (unfold NULL; lia).
  assert (negb (acc =? FILE_ACCESS_READ) && negb (acc =? FILE_ACCESS_READ_WRITE) = false) as ->
    by (destruct Hacc as [->| ->]; done).
  apply wp_bind, (wp_file_size _ _ _ _ _ _ _ _ _ _ Ho). set (k := count `min` (len data - pos)) in *.
  destruct (data_bounds fl (mo_valid _ _ _ Hm) i name data E) as [H1 H2]. destruct (len_fl fl (mo_valid _ _ _ Hm)) as (H3 & H4 & H5 & H6).
  destruct (image_bounds d p fl (mo_image _ _ _ Hm)). pose proof (mo_room _ _ _ Hm).
  destruct (Z.leb_spec (len data) pos) as [Hend|Hmore].
  - apply wp_ret. assert (k = 0) as Ek by lia. rewrite Ek in *. change 0 with (s32 0) at 1. apply HQ.
    + by rewrite Z.add_0_r.
    + change (take (Z.to_nat 0) (drop (Z.to_nat pos) data)) with (@nil Z). destruct Hbw as (? & ? & _).
      split; [done|]. split; [cbn; lia|done].
    + by intros a _.
    + done.
    + done.
  - apply wp_bind, (wp_file_size _ _ _ _ _ _ _ _ _ _ Ho). rewrite (u32_id (len data - pos)) by (unfold is_u32; lia).
    assert ((if len data - pos <? count then len data - pos else count) = k) as ->.
    { unfold k. destruct (Z.ltb_spec (len data - pos) count); lia. }
    apply wp_bind, (wp_file_data _ _ _ _ _ _ _ _ _ _ Ho). rewrite (u32_id (p + data_offset i fl + pos)) by (unfold is_u32; lia).
    set (l := take (Z.to_nat k) (drop (Z.to_nat pos) data)).
    assert (Z.of_nat (length l) = k) as El by (unfold l; rewrite length_take, length_drop; unfold len in *; lia).
    assert (holds (d_mem d) (p + data_offset i fl + pos) l) as Hl.
    { pose proof (holds_data d p fl (mo_valid _ _ _ Hm) (mo_image _ _ _ Hm) i name data E) as Hd.
      rewrite <- (take_drop (Z.to_nat pos) data) in Hd. apply holds_app in Hd as [_ Hd].
      rewrite length_take in Hd. replace (Z.of_nat (Z.to_nat pos `min` length data)) with pos in Hd by (unfold len in *; lia).
      rewrite <- (take_drop (Z.to_nat k) (drop (Z.to_nat pos) data)) in Hd. by apply holds_app in Hd as [Hd _]. }
    apply wp_bind, wp_mem_op. rewrite <- El. destruct Hbw as (Hw1 & Hw2 & Hw3). eapply wp_mono.
    { apply wp_memcpy; [exact Hl|done|lia|intros j Hj; apply Hw3; lia|]. lia. }
    rewrite El. intros _ m' (_ & Hm' & Hout).
    apply wp_bind, wp_set_file; [by eexists|]. apply wp_ret. rewrite (u32_id (pos + k)) by (unfold is_u32; lia). apply HQ; cbn.
    + split; [|done|done|cbn; by rewrite lookup_insert_eq|lia]. destruct Hm as [Hv Hfs Hp Hh Hr]. split; try done. change (holds m' p (image_of fl)).
      eapply same_outside_holds; [exact Hout|done|]. unfold len in *. lia.
    + done.
    + done.
    + done.
    + intros slot' Hne. by rewrite lookup_insert_ne.
Qed.

(** *** The file table of a process *)

(** The slots of the process exist, and [us] tells which are in use. *)
Record table (d : disk Mem) (process : Z) (us : list bool) : Prop := {
  ta_range : 0 < process /\ process + 320 <= 2 ^ 32;
  ta_length : length us = 16%nat;
  ta_used : forall fd u, us !! fd = Some u -> d_table d !! file_slot process (Z.of_nat fd) = Some u;
  ta_files : forall fd, (fd < 16)%nat -> is_Some (d_files d !! file_slot process (Z.of_nat fd));
}.

Lemma file_slot_id process fd : 0 < process /\ process + 320 <= 2 ^ 32 -> 0 <= fd < 16 ->
  file_slot process fd = process + 64 + 16 * fd.
Proof. intros Hp Hfd. unfold file_slot. apply u32_id. unfold is_u32. lia. Qed.

Lemma wp_get_used d process us fd u (Q : bool -> disk Mem -> Prop) :
  table d process us -> us !! fd = Some u -> Q u d -> wp (get_used process (Z.of_nat fd)) Q d.
Proof.
  intros Ht E HQ. apply wp_bind, wp_gets. apply (wp_require _ _ _ _ u); [|done]. by apply (ta_used _ _ _ Ht).
Qed.

Lemma wp_set_used d process us fd u (Q : unit -> disk Mem -> Prop) :
  table d process us -> (fd < 16)%nat ->
  (forall d', table d' process (<[fd := u]> us) -> d_fs d' = d_fs d -> d_mem d' = d_mem d -> d_files d' = d_files d -> Q tt d') ->
  wp (set_used process (Z.of_nat fd) u) Q d.
Proof.
  intros Ht Hfd HQ. destruct (lookup_lt_is_Some_2 us fd) as [u0 E]; [by rewrite (ta_length _ _ _ Ht)|].
  apply wp_bind, (wp_get_used d process us fd u0); [done..|]. apply wp_modify, HQ; [|done..].
  destruct Ht as [Hr Hl Hu Hf]. split; [done|by rewrite length_insert| |done].
  intros fd' u'. cbn. destruct (decide (fd' = fd)) as [->|Hne].
  - rewrite list_lookup_insert_eq by lia. intros [= <-]. apply lookup_insert_eq.
  - rewrite list_lookup_insert_ne by done. intros E'. pose proof (lookup_lt_Some _ _ _ E'). rewrite lookup_insert_ne; [by apply Hu|].
    rewrite !file_slot_id by (done || lia). lia.
Qed.

(** The lowest free slot. *)
Definition first_free (us : list bool) (fd : nat) : Prop :=
  us !! fd = Some false /\ forall k, (k < fd)%nat -> us !! k = Some true.

Lemma table_ext d d' process us : table d process us -> d_table d' = d_table d ->
  (forall s, is_Some (d_files d !! s) -> is_Some (d_files d' !! s)) -> table d' process us.
Proof. intros [] E Hf. split; rewrite ?E; auto. Qed.

Lemma wp_process_open d p fl process us fuel q path acc (Q : Z -> disk Mem -> Prop) :
  mounted d p fl -> table d process us -> q <> NULL -> cstring (d_mem d) q path -> Forall is_u8 path -> (64 <= fuel)%nat ->
  access_mode acc ->
  (forall fd i data d', first_free us fd -> fl !! i = Some (path, data) ->
     opened d' p fl (file_slot process (Z.of_nat fd)) i path data 0 acc -> table d' process (<[fd := true]> us) ->
     d_mem d' = d_mem d -> Q (Z.of_nat fd) d') ->
  ((forall fd, us !! fd <> Some false) \/ (forall n dt, (n, dt) ∈ fl -> n <> path) -> Q (-1) d) ->
  wp (process_open fuel process q acc) Q d.
Proof.
  intros Hm Ht Hq0 Hq Hq8 Hf Hacc HQ HQn. unfold process_open. pose proof (ta_range _ _ _ Ht) as Hr.
  rewrite (proj2 (Z.eqb_neq process NULL)), (proj2 (Z.eqb_neq q NULL)) by (unfold NULL in *; lia).
  apply wp_bind. apply (wp_for_range (fun j d' => d' = d /\ forall k, Z.of_nat k < j -> us !! k = Some true)).
  - split; [done|]. intros k Hk. lia.
  - intros j d' Hj [-> Hno]. change (Z.to_nat PROCESS_MAX_FILES) with 16%nat in Hj.
    destruct (lookup_lt_is_Some_2 us (Z.to_nat j)) as [u E]; [rewrite (ta_length _ _ _ Ht); lia|].
    rewrite <- (Z2Nat.id j) by lia. set (fd := Z.to_nat j) in *. apply wp_bind, (wp_get_used d process us fd u); [done..|].
    destruct u.
    + apply wp_ret. split; [done|]. intros k Hk. destruct (decide (k = fd)) as [->|]; [done|]. apply Hno. lia.
    + assert (first_free us fd) as Hff by (split; [done|]; intros k Hk; apply Hno; lia).
      pose proof (file_slot_id process (Z.of_nat fd) Hr ltac:(lia)) as Es.
      apply wp_bind, (wp_file_open d p fl fuel q path); [done..|unfold NULL; lia|apply (ta_files _ _ _ Ht); lia|done| |].
      * intros i data Ei Hfirst. cbn [negb Z.eqb]. set (d1 := Disk _ _ _ _).
        assert (table d1 process us) as Ht1.
        { apply (table_ext d); [done|done|]. intros s Hs. cbn. destruct (decide (s = file_slot process (Z.of_nat fd))) as [->|].
          - rewrite lookup_insert_eq. by eexists.
          - by rewrite lookup_insert_ne. }
        apply wp_bind, (wp_set_used d1 process us fd true); [done|lia|]. intros d2 Ht2 E1 E2 E3. apply wp_ret. cbn [default].
        apply wp_ret, (HQ fd i data d2); [done|done| |done|by rewrite E2].
        split; [by apply (mounted_files d)|unfold NULL; lia|done| |].
        -- rewrite E3. cbn. by rewrite lookup_insert_eq.
        -- pose proof (len_nonneg data). lia.
      * intros Hno'. cbn [negb Z.eqb]. apply wp_ret, wp_ret. cbn [default]. apply HQn. by right.
  - intros d' [-> Hall]. apply wp_ret. cbn [default]. apply HQn. left. intros fd E. pose proof (lookup_lt_Some _ _ _ E) as Hlt.
    rewrite (ta_length _ _ _ Ht) in Hlt. rewrite Hall in E; [done|]. change (Z.to_nat PROCESS_MAX_FILES) with 16%nat. lia.
Qed.

Lemma wp_process_get_file d process us fd (Q : Z -> disk Mem -> Prop) :
  table d process us ->
  (forall k, fd = Z.of_nat k -> us !! k = Some true -> Q (file_slot process fd) d) ->
  ((forall k, fd = Z.of_nat k -> us !! k <> Some true) -> Q NULL d) -> wp (process_get_file process fd) Q d.
Proof.
  intros Ht HQ HQn. unfold process_get_file. pose proof (ta_range _ _ _ Ht) as Hr.
  rewrite (proj2 (Z.eqb_neq process NULL)) by (unfold NULL in *; lia). unfold PROCESS_MAX_FILES.
  destruct ((fd <? 0) || (16 <=? fd)) eqn:Eb.
  - apply wp_ret, HQn. intros k -> E. apply lookup_lt_Some in E. rewrite (ta_length _ _ _ Ht) in E. lia.
  - assert (0 <= fd < 16) as Hfd by lia.
    destruct (lookup_lt_is_Some_2 us (Z.to_nat fd)) as [u E]; [rewrite (ta_length _ _ _ Ht); lia|].
    replace fd with (Z.of_nat (Z.to_nat fd)) by lia. apply wp_bind, (wp_get_used d process us _ u); [done..|].
    destruct u; cbn [negb]; apply wp_ret.
    + rewrite Z2Nat.id by lia. by apply (HQ (Z.to_nat fd)); [lia|].
    + apply HQn. intros k ->. rewrite Nat2Z.id in E. congruence.
Qed.

Lemma wp_process_close d process us fd (Q : Z -> disk Mem -> Prop) :
  table d process us ->
  (forall k d', fd = Z.of_nat k -> us !! k = Some true -> table d' process (<[k := false]> us) ->
     d_files d' = <[file_slot process fd := File NULL 0 0]> (d_files d) -> d_mem d' = d_mem d -> d_fs d' = d_fs d -> Q 0 d') ->
  ((forall k, fd = Z.of_nat k -> us !! k <> Some true) -> Q (-1) d) -> wp (process_close process fd) Q d.
Proof.
  intros Ht HQ HQn. unfold process_close. pose proof (ta_range _ _ _ Ht) as Hr.
  apply wp_bind, (wp_process_get_file d process us fd); [done| |].
  - intros k -> E. pose proof (lookup_lt_Some _ _ _ E) as Hk. rewrite (ta_length _ _ _ Ht) in Hk.
    pose proof (file_slot_id process (Z.of_nat k) Hr ltac:(lia)) as Es.
    assert ((file_slot process (Z.of_nat k) =? NULL) = false) as E0 by (apply Z.eqb_neq; unfold NULL; lia).
    rewrite E0. apply wp_bind. unfold file_close. rewrite E0. apply wp_set_file; [by apply (ta_files _ _ _ Ht)|].
    set (d1 := Disk _ _ _ _). assert (table d1 process us) as Ht1.
    { apply (table_ext d); [done|done|]. intros s Hs. cbn. destruct (decide (s = file_slot process (Z.of_nat k))) as [->|].
      - rewrite lookup_insert_eq. by eexists.
      - by rewrite lookup_insert_ne. }
    apply wp_bind, (wp_set_used d1 process us k false); [done|lia|]. intros d2 Ht2 E1 E2 E3. apply wp_ret.
    apply (HQ k d2); try done; congruence.
  - intros Hno. rewrite Z.eqb_refl. by apply wp_ret, HQn.
Qed.
End Kernel.

(** ** Properties *)

Section Theorems.
Context {Mem : Type} `{ByteMemLaws Mem}.
Implicit Types (fl : files) (d : disk Mem) (p q : Z).

(** C27 Round trip through the image. [mkfs] writes for its arguments the image
    of the files they name. With the image in memory, [fs_mount] accepts it,
    and then [fs_find] answers the entry of the first file of the name asked
    for, with its size and the address of its contents, and [NULL] exactly
    when there is no such file. *)
Theorem mkfs_fs_roundtrip host args fl d p :
  args <> [] -> Forall2 (names_file host) args fl -> valid fl ->
  p <> NULL -> holds (d_mem d) p (image_of fl) -> p + len (image_of fl) < 2 ^ 32 ->
  mkfs host args [] = Ok tt (image_of fl) /\
  exists d1, fs_mount p (len (image_of fl)) d = Ok 0 d1 /\ d_mem d1 = d_mem d /\
    forall fuel q path, cstring (d_mem d1) q path -> Forall is_u8 path -> (64 <= fuel)%nat ->
      (exists i data f a, fl !! i = Some (path, data) /\ (forall j n dt, (j < i)%nat -> fl !! j = Some (n, dt) -> n <> path) /\
         fs_find fuel q d1 = Ok f d1 /\ f <> NULL /\ fs_file_size f d1 = Ok (len data) d1 /\ fs_file_data f d1 = Ok a d1 /\
         holds (d_mem d1) a data) \/
      ((forall n dt, (n, dt) ∈ fl -> n <> path) /\ fs_find fuel q d1 = Ok NULL d1).
Proof.
  intros Hne Hargs Hv Hp Hh Hroom. split.
  { by destruct (wp_inv _ _ _ (wp_mkfs host args fl Hne Hargs Hv)) as ([] & out & E & ->). }
  destruct (wp_inv (fs_mount p (len (image_of fl))) (fun r d1 => r = 0 /\ mounted d1 p fl /\ d_mem d1 = d_mem d) d)
    as (r & d1 & E & -> & Hm & Em); [by apply wp_fs_mount; auto|].
  exists d1. split; [done|]. split; [done|]. intros fuel q path Hq Hq8 Hf.
  destruct (wp_inv (fs_find fuel q) (fun f d' => d' = d1 /\
     ((exists i data, fl !! i = Some (path, data) /\ (forall j n dt, (j < i)%nat -> fl !! j = Some (n, dt) -> n <> path) /\ f = entry_at p i) \/
      ((forall n dt, (n, dt) ∈ fl -> n <> path) /\ f = NULL))) d1) as (f & d' & Ef & -> & Hcase).
  { apply (wp_fs_find d1 p fl fuel q path); [done..| |].
    - intros i data Ei Hfirst. split; [done|]. left. by exists i, data.
    - intros Hno. split; [done|]. by right. }
  destruct Hcase as [(i & data & Ei & Hfirst & ->)|[Hno ->]]; [left|by right].
  exists i, data, (entry_at p i), (p + data_offset i fl). repeat (split; [done|]).
  destruct (entry_bounds d1 p fl Hv (mo_image _ _ _ Hm) i path data Ei) as [He _].
  assert (entry_at p i <> NULL) as Hn by (unfold NULL; lia). split; [done|]. split; [|split].
  - destruct (wp_inv (fs_file_size (entry_at p i)) (fun r d' => r = len data /\ d' = d1) d1) as (r & d' & E' & -> & ->); [|done].
    unfold fs_file_size. rewrite (proj2 (Z.eqb_neq _ NULL)) by done.
    by apply (wp_f_size d1 p fl Hv (mo_image _ _ _ Hm) i path data Ei).
  - destruct (wp_inv (fs_file_data (entry_at p i)) (fun r d' => r = p + data_offset i fl /\ d' = d1) d1) as (r & d' & E' & -> & ->); [|done].
    by apply (wp_fs_file_data d1 p fl i path data).
  - by apply (holds_data d1 p fl Hv (mo_image _ _ _ Hm) i path).
Qed.

(** C38 Open files of a process. [process_open] takes the lowest free descriptor
    for the first file of that name, at position 0, and answers -1 when the
    table is full or there is no such file; [process_read] copies the next
    bytes of the file, as many as asked for or as are left, moves the position
    by as many, answers their number (0 at the end) and touches nothing else;
    [process_close] frees the descriptor; both answer -1 for a descriptor that
    is not open. *)
Theorem process_files_spec d p fl process us :
  mounted d p fl -> table d process us ->
  (forall fuel q path acc, q <> NULL -> cstring (d_mem d) q path -> Forall is_u8 path -> (64 <= fuel)%nat -> access_mode acc ->
     (exists fd i data d', process_open fuel process q acc d = Ok (Z.of_nat fd) d' /\ first_free us fd /\ fl !! i = Some (path, data) /\
        opened d' p fl (file_slot process (Z.of_nat fd)) i path data 0 acc /\ table d' process (<[fd := true]> us)) \/
     (exists d', process_open fuel process q acc d = Ok (-1) d' /\
        ((forall fd, us !! fd <> Some false) \/ (forall n dt, (n, dt) ∈ fl -> n <> path)))) /\
  (forall k i name data pos acc b count, us !! k = Some true ->
     opened d p fl (file_slot process (Z.of_nat k)) i name data pos acc -> readable_mode acc -> 0 <= count ->
     let n := count `min` (len data - pos) in buffer d p fl b n ->
     exists d', process_read process (Z.of_nat k) b count d = Ok (s32 n) d' /\
       opened d' p fl (file_slot process (Z.of_nat k)) i name data (pos + n) acc /\
       holds (d_mem d') b (take (Z.to_nat n) (drop (Z.to_nat pos) data)) /\ same_outside b n (d_mem d) (d_mem d')) /\
  (forall k, us !! k = Some true -> exists d', process_close process (Z.of_nat k) d = Ok 0 d' /\
     table d' process (<[k := false]> us) /\ mounted d' p fl) /\
  (forall fd b count, (forall k, fd = Z.of_nat k -> us !! k <> Some true) ->
     process_read process fd b count d = Ok (-1) d /\ process_close process fd d = Ok (-1) d).
Proof.
  intros Hm Ht. split; [|split; [|split]].
  - intros fuel q path acc Hq0 Hq Hq8 Hf Hacc.
    destruct (wp_inv (process_open fuel process q acc) (fun r d' =>
      (exists fd i data, r = Z.of_nat fd /\ first_free us fd /\ fl !! i = Some (path, data) /\
        opened d' p fl (file_slot process (Z.of_nat fd)) i path data 0 acc /\ table d' process (<[fd := true]> us)) \/
      (r = -1 /\ ((forall fd, us !! fd <> Some false) \/ (forall n dt, (n, dt) ∈ fl -> n <> path)))) d) as (r & d' & E & Hcase).
    { apply (wp_process_open d p fl process us fuel q path); [done..| |].
      - intros fd i data d' H1 H2 H3 H4 _. left. by exists fd, i, data.
      - intros Hno. by right. }
    destruct Hcase as [(fd & i & data & -> & H1)|[-> H1]]; [left; by exists fd, i, data, d'|right; by exists d'].
  - intros k i name data pos acc b count Ek Ho Hacc Hc n Hb.
    destruct (wp_inv (process_read process (Z.of_nat k) b count) (fun r d' => r = s32 n /\
       opened d' p fl (file_slot process (Z.of_nat k)) i name data (pos + n) acc /\
       holds (d_mem d') b (take (Z.to_nat n) (drop (Z.to_nat pos) data)) /\ same_outside b n (d_mem d) (d_mem d')) d)
      as (r & d' & E & -> & H1); [|by exists d'].
    apply wp_bind, (wp_process_get_file d process us); [done| |].
    + intros _ _ _. rewrite (proj2 (Z.eqb_neq _ NULL)) by apply (op_slot _ _ _ _ _ _ _ _ _ Ho).
      apply (wp_file_read d p fl _ i name data pos acc); auto.
    + intros Hno. by destruct (Hno k eq_refl).
  - intros k Ek. destruct (wp_inv (process_close process (Z.of_nat k)) (fun r d' => r = 0 /\
      table d' process (<[k := false]> us) /\ mounted d' p fl) d) as (r & d' & E & -> & H1); [|by exists d'].
    apply (wp_process_close d process us); [done| |].
    + intros k' d' ->%Nat2Z.inj _ H1 _ H2 H3. split; [done|]. split; [done|]. by apply (mounted_files d).
    + intros Hno. by destruct (Hno k eq_refl).
  - intros fd b count Hno. split.
    + destruct (wp_inv (process_read process fd b count) (fun r d' => r = -1 /\ d' = d) d) as (r & d' & E & -> & ->); [|done].
      apply wp_bind, (wp_process_get_file d process us); [done| |by intros _].
      intros k -> Ek. by destruct (Hno k eq_refl).
    + destruct (wp_inv (process_close process fd) (fun r d' => r = -1 /\ d' = d) d) as (r & d' & E & -> & ->); [|done].
      apply (wp_process_close d process us); [done| |done]. intros k d' -> Ek. by destruct (Hno k eq_refl).
Qed.
End Theorems.

(** ** Witnesses *)

(** Bytes placed in an otherwise given memory. *)
Lemma holds_placed (m : gmap Z Z) p l : 0 <= p -> p + len l <= 2 ^ 32 -> holds (map_seqZ p l ∪ m) p l.
Proof.
  intros Hp Hl. split; [done|]. split; [done|]. intros i v E. cbn. apply lookup_union_Some_l.
  apply lookup_map_seqZ_Some. split; [lia|]. by replace (Z.to_nat (p + Z.of_nat i - p)) with i by lia.
Qed.

Definition demo_files : files := [([97], [104; 105]); ([98; 99], [33])].
Definition demo_args : list (list Z) := [[97; 61; 120]; [98; 99; 61; 121]].
Definition demo_host (path : list Z) : option (list Z) :=
  if bool_decide (path = [120]) then Some [104; 105]
  else if bool_decide (path = [121]) then Some [33] else None.

Definition demo_image_at : Z := 4096.
Definition demo_memory : gmap Z Z := map_seqZ demo_image_at (image_of demo_files) ∪ map_seqZ 8192 (replicate 16 7).
Definition demo_slots : list Z := (fun fd => file_slot 65536 (Z.of_nat fd)) <$> seq 0 16.
Definition demo_opened : list bool := true :: replicate 15 false.

Definition demo_disk (s : fs) : disk (gmap Z Z) :=
  Disk s demo_memory (list_to_map (zip demo_slots (File (entry_at demo_image_at 0) 1 FILE_ACCESS_READ :: replicate 15 (File NULL 0 0))))
    (list_to_map (zip demo_slots demo_opened)).

Lemma demo_files_valid : valid demo_files.
Proof.
  split; [|vm_compute; reflexivity].
  repeat constructor; cbn; try lia; try done; unfold is_u8; lia.
Qed.

Lemma demo_image_held s : holds (d_mem (demo_disk s)) demo_image_at (image_of demo_files).
Proof. apply holds_placed; [done|]. vm_compute. discriminate. Qed.

Lemma demo_mounted : mounted (demo_disk (Fs demo_image_at (len (image_of demo_files)) demo_image_at)) demo_image_at demo_files.
Proof. split; [apply demo_files_valid|done|done|apply demo_image_held|vm_compute; reflexivity]. Qed.

Lemma demo_table s : table (demo_disk s) 65536 demo_opened.
Proof.
  split; [lia|done| |].
  - intros fd u E. assert (fd < 16)%nat as Hlt by (apply lookup_lt_Some in E; exact E).
    do 16 (destruct fd as [|fd]; [injection E as <-; vm_compute; reflexivity|]). cbn in Hlt. lia.
  - intros fd Hlt. do 16 (destruct fd as [|fd]; [vm_compute; by eexists|]). lia.
Qed.

Lemma demo_buffer_ok s : buffer (demo_disk s) demo_image_at demo_files 8192 1.
Proof.
  split; [done| |right; vm_compute; discriminate].
  split; [lia|]. split; [lia|]. intros j Hj. assert (j = 0) as -> by lia. vm_compute. by eexists.
Qed.

Lemma mkfs_fs_roundtrip_witness :
  mkfs demo_host demo_args [] = Ok tt (image_of demo_files) /\
  exists d1, fs_mount demo_image_at (len (image_of demo_files)) (demo_disk (Fs 0 0 0)) = Ok 0 d1 /\
    d_mem d1 = d_mem (demo_disk (Fs 0 0 0)) /\
    forall fuel q path, cstring (d_mem d1) q path -> Forall is_u8 path -> (64 <= fuel)%nat ->
      (exists i data f a, demo_files !! i = Some (path, data) /\
         (forall j n dt, (j < i)%nat -> demo_files !! j = Some (n, dt) -> n <> path) /\
         fs_find fuel q d1 = Ok f d1 /\ f <> NULL /\ fs_file_size f d1 = Ok (len data) d1 /\ fs_file_data f d1 = Ok a d1 /\
         holds (d_mem d1) a data) \/
      ((forall n dt, (n, dt) ∈ demo_files -> n <> path) /\ fs_find fuel q d1 = Ok NULL d1).
Proof.
  apply mkfs_fs_roundtrip; [discriminate| |apply demo_files_valid|discriminate|apply demo_image_held|vm_compute; reflexivity].
  constructor; [exists [120]; split; reflexivity|]. constructor; [exists [121]; split; reflexivity|constructor].
Defined.

Lemma process_files_spec_witness :
  let d := demo_disk (Fs demo_image_at (len (image_of demo_files)) demo_image_at) in
  exists d', process_read 65536 0 8192 5 d = Ok (s32 1) d' /\ holds (d_mem d') 8192 [105].
Proof.
  intros d. destruct (process_files_spec d demo_image_at demo_files 65536 demo_opened demo_mounted (demo_table _)) as (_ & H & _).
  destruct (H 0%nat 0%nat [97] [104; 105] 1 FILE_ACCESS_READ 8192 5) as (d' & E & _ & Hh & _).
  - reflexivity.
  - split; [apply demo_mounted|discriminate|reflexivity|vm_compute; reflexivity|unfold len; cbn [length]; lia].
  - left; reflexivity.
  - lia.
  - apply demo_buffer_ok.
  - exists d'. split; [exact E|exact Hh].
Defined.

(** An image that [fs_mount] rejects is in use all the same. *)
Example fs_mount_keeps_rejected_image :
  let d := demo_disk (Fs 0 0 0) in
  match fs_mount 8192 20 d with
  | Ok r d' => r = -1 /\ d_fs d' = Fs 8192 20 8192
  | Fault _ => False
  end.
Proof. vm_compute. split; reflexivity. Qed.
