(* ===== verification/Exec.v ===== *)
(** * The initial stack of a program

    [exec_build_user_stack] of [kernel/arch/x86/syscall.c]: the arguments of
    [exec] are laid out in the page behind the new user stack, which the
    kernel reaches through the direct mapping, while the strings are in kernel
    memory. Both are addresses of one byte memory, the kernel's view. *)

From S2P Require Import Prelude Layout CString Ram Words.

(** [for (i = first; i < first + n; i++)] with a local variable; [inr] leaves
    the loop. *)
Fixpoint for_state {S A R} (i : Z) (n : nat) (body : Z -> A -> M S (A + R)) (a : A) : M S (A + R) :=
  match n with
  | O => ret (inl a)
  | Datatypes.S n' =>
      let* r := body i a in
      match r with
      | inl a' => for_state (i + 1) n' body a'
      | inr v => ret (inr v)
      end
  end.

Lemma wp_for_state {S A R} (I : Z -> A -> S -> Prop) (body : Z -> A -> M S (A + R)) n :
  forall i a (Q : A + R -> S -> Prop) s,
  I i a s ->
  (forall j b s', i <= j < i + Z.of_nat n -> I j b s' ->
     wp (body j b) (fun r s'' => match r with inl b' => I (j + 1) b' s'' | inr v => Q (inr v) s'' end) s') ->
  (forall b s', I (i + Z.of_nat n) b s' -> Q (inl b) s') ->
  wp (for_state i n body a) Q s.
Proof.
  induction n as [|n IH]; intros i a Q s HI Hbody Hend; cbn [for_state].
  - apply wp_ret, Hend. by rewrite Z.add_0_r.
  - apply wp_bind. eapply wp_mono; [apply Hbody; [lia|done]|]. intros [b|v] s' Hr; [|done]. apply IH; [done| |].
    + intros j b' s'' Hj. apply Hbody. lia.
    + intros b' s'' HI'. apply Hend. by replace (i + Z.of_nat (Datatypes.S n)) with (i + 1 + Z.of_nat n) by lia.
Qed.

Definition EXEC_MAX_ARGS : Z := 32.
Definition USER_STACK_PAGES : Z := 1.
Definition USER_STACK_SIZE : Z := USER_STACK_PAGES * PAGE_SIZE.
Definition UINT32_MAX : Z := 0xFFFFFFFF.

(** [struct exec_args]; the strings are pointers. *)
Record exec_args : Type := ExecArgs { argc : Z; argv : list Z }.

Section Exec.
Context {Mem : Type} `{ByteMem Mem}.

Definition argv_at (args : exec_args) (i : Z) : M Mem Z :=
  require (OutOfBounds i) (argv args !! Z.to_nat i).

(** The size of the strings, [None] when it overflows. *)
Definition strings_size_of (fuel : nat) (args : exec_args) : M Mem (Z + unit) :=
  for_state 0 (Z.to_nat (argc args)) (fun i strings_size =>
    let* s := argv_at args i in
    let* n := strlen fuel s in
    let length := u32 (n + 1) in
    if u32 (UINT32_MAX - length) <? strings_size then ret (inr tt)
    else ret (inl (u32 (strings_size + length)))) 0.

(** The strings, one after the other at [stack + at_]. *)
Definition copy_strings (fuel : nat) (args : exec_args) (stack at_ : Z) : M Mem (Z + unit) :=
  for_state 0 (Z.to_nat (argc args)) (fun i offset =>
    let* s := argv_at args i in
    let* n := strlen fuel s in
    let length := u32 (n + 1) in
    memcpy (u32 (stack + at_ + offset)) s length ;;;
    ret (inl (u32 (offset + length)))) 0.

(** The pointers to them, the first at [stack + at_]. *)
Definition store_pointers (fuel : nat) (args : exec_args) (stack at_ strings_virt : Z) : M Mem (Z + unit) :=
  for_state 0 (Z.to_nat (argc args)) (fun i string_offset =>
    store32 (u32 (stack + at_ + i * 4)) (u32 (strings_virt + string_offset)) ;;;
    let* s := argv_at args i in
    let* n := strlen fuel s in
    ret (inl (u32 (string_offset + u32 (n + 1))))) 0.

(** The result is [*user_esp], [None] for the answer [false]; [None] for
    [args] is [NULL]. *)
Definition exec_build_user_stack (fuel : nat) (args : option exec_args) (stack_virt stack_phys : Z)
    : M Mem (option Z) :=
  match args with
  | None => ret None
  | Some args =>
      let stack_low := stack_virt in
      let stack_high := u32 (stack_virt + USER_STACK_SIZE) in
      let stack := PHYS_TO_VIRT stack_phys in
      let* r := strings_size_of fuel args in
      match r with
      | inr _ => ret None
      | inl strings_size =>
          let pointers_size := u32 (4 + u32 (u32 (argc args + 1) * 4)) in
          let total_size := u32 (pointers_size + strings_size) in
          if USER_STACK_SIZE <? total_size then ret None
          else
            let esp := u32 (stack_high - strings_size) in
            copy_strings fuel args stack (u32 (esp - stack_low)) ;;;
            let esp := u32 (esp - u32 (u32 (argc args + 1) * 4)) in
            let argv_virt := esp in
            store_pointers fuel args stack (u32 (argv_virt - stack_low)) (u32 (stack_high - strings_size)) ;;;
            store32 (u32 (stack + u32 (argv_virt - stack_low) + u32 (argc args * 4))) 0 ;;;
            let esp := u32 (esp - 4) in
            let esp := Z.land esp (u32 (Z.lnot 15)) in
            if esp <? stack_low then ret None
            else
              store32 (u32 (stack + u32 (esp - stack_low))) (argc args) ;;;
              ret (Some esp)
      end
  end.
End Exec.
