(* ===== verification/ExecSpec.v ===== *)
(** * What a program finds on its stack

    The layout that [exec_build_user_stack] leaves, byte for byte. *)

From S2P Require Import Prelude Layout CString Ram Words Exec.

(** A string with its terminator, and all of them in a row. *)
Definition nul (s : list Z) : list Z := s ++ [0].
Definition block (ss : list (list Z)) : list Z := concat (nul <$> ss).

(** Pointers to strings in a row from [base]. *)
Fixpoint pointers (base : Z) (ss : list (list Z)) : list Z :=
  match ss with
  | [] => []
  | s :: ss' => le32 base ++ pointers (base + len (nul s)) ss'
  end.

Definition argc_of (ss : list (list Z)) : Z := len ss.
Definition total_size (ss : list (list Z)) : Z := 4 + (len ss + 1) * 4 + len (block ss).

(** Where [argv] and the final stack pointer are, for a stack page at [low]. *)
Definition strings_at (low : Z) (ss : list (list Z)) : Z := low + USER_STACK_SIZE - len (block ss).
Definition argv_virt (low : Z) (ss : list (list Z)) : Z := strings_at low ss - (len ss + 1) * 4.
Definition entry_esp (low : Z) (ss : list (list Z)) : Z := 16 * ((argv_virt low ss - 4) / 16).

Section Lists.
Implicit Types (s : list Z) (ss : list (list Z)).

Lemma block_app ss ss' : block (ss ++ ss') = block ss ++ block ss'.
Proof. unfold block. by rewrite fmap_app, concat_app. Qed.

Lemma pointers_app base ss ss' : pointers base (ss ++ ss') = pointers base ss ++ pointers (base + len (block ss)) ss'.
Proof.
  revert base. induction ss as [|s ss IH]; intros base; cbn [app pointers].
  - by rewrite Z.add_0_r.
  - rewrite IH, <- app_assoc. change (block (s :: ss)) with (nul s ++ block ss). by rewrite len_app, Z.add_assoc.
Qed.

Lemma len_pointers base ss : len (pointers base ss) = 4 * len ss.
Proof.
  revert base. induction ss as [|s ss IH]; intros base; [done|]. cbn [pointers]. rewrite len_app, IH. unfold len. cbn [length le32]. lia.
Qed.

Lemma take_last ss i s : ss !! i = Some s -> block (take (S i) ss) = block (take i ss) ++ nul s.
Proof. intros E. rewrite (take_S_r _ _ _ E), block_app. cbn. by rewrite app_nil_r. Qed.

Lemma pointers_last base ss i s : ss !! i = Some s ->
  pointers base (take (S i) ss) = pointers base (take i ss) ++ le32 (base + len (block (take i ss))).
Proof. intros E. rewrite (take_S_r _ _ _ E), pointers_app. cbn. done. Qed.

Lemma block_prefix ss i : len (block (take i ss)) <= len (block ss).
Proof. rewrite <- (take_drop i ss) at 2. rewrite block_app, len_app. pose proof (len_nonneg (block (drop i ss))). lia. Qed.

Lemma block_prefix_next ss i s : ss !! i = Some s -> len (block (take i ss)) + len s + 1 <= len (block ss).
Proof.
  intros E. pose proof (block_prefix ss (S i)) as H. rewrite (take_last _ _ _ E), len_app in H.
  unfold nul in H. rewrite len_app in H. change (len [0]) with 1 in H. lia.
Qed.
End Lists.

Section Layout.
Context {Mem : Type} `{ByteMemLaws Mem}.
Implicit Types (m : Mem) (p q n v : Z) (l s : list Z) (ss : list (list Z)).

(** The arguments: pointers to strings outside the stack page at [P]. *)
Record arguments m P (args : exec_args) ss : Prop := {
  ar_argc : argc args = len ss;
  ar_string : forall i s, ss !! i = Some s -> exists p, argv args !! i = Some p /\ cstring m p s /\
    (p + len s + 1 <= P \/ P + USER_STACK_SIZE <= p);
}.

Lemma arguments_page m m' P args ss : arguments m P args ss -> same_outside P USER_STACK_SIZE m m' -> arguments m' P args ss.
Proof.
  intros [Ha Hs] Hout. split; [done|]. intros i s E. destruct (Hs i s E) as (p & Ep & [Hz Hh] & Hap). exists p. split; [done|].
  split; [|done]. split; [done|]. eapply same_outside_holds; [exact Hout|done|]. rewrite length_app. cbn. unfold len in Hap. lia.
Qed.

Section Loops.
Variables (P : Z) (args : exec_args) (ss : list (list Z)) (fuel : nat).
Hypothesis Hfuel : Forall (fun s => (length s < fuel)%nat) ss.
Hypothesis Hbig : len (block ss) < 2 ^ 31.

(** One argument is read. *)
Lemma wp_argument {A} m i s (Q : A -> Mem -> Prop) (k : Z -> Z -> M Mem A) :
  arguments m P args ss -> ss !! Z.to_nat i = Some s -> 
  (forall p, cstring m p s -> p + len s + 1 <= P \/ P + USER_STACK_SIZE <= p -> wp (k p (len s)) Q m) ->
  wp (let* p := argv_at args i in let* n := strlen fuel p in k p n) Q m.
Proof.
  intros Har E Hk. destruct (ar_string _ _ _ _ Har _ _ E) as (p & Ep & Hc & Hap).
  apply wp_bind, (wp_require _ _ _ _ p); [done|]. apply wp_bind. eapply wp_mono.
  - apply (wp_strlen _ _ s); [done|]. exact (proj1 (Forall_lookup _ _) Hfuel _ _ E).
  - intros r m' (-> & ->). by apply Hk.
Qed.

Lemma argument_length i s : ss !! Z.to_nat i = Some s -> 0 <= len s /\
  u32 (len s + 1) = len s + 1 /\ len (block (take (Z.to_nat i) ss)) + len s + 1 <= len (block ss) /\
  0 <= len (block (take (Z.to_nat i) ss)).
Proof.
  intros E. pose proof (block_prefix_next _ _ _ E). pose proof (len_nonneg s). pose proof (len_nonneg (block (take (Z.to_nat i) ss))).
  split; [lia|]. split; [apply u32_id; unfold is_u32; lia|lia].
Qed.

Lemma index_string m i : arguments m P args ss -> 0 <= i < 0 + Z.of_nat (Z.to_nat (argc args)) -> exists s, ss !! Z.to_nat i = Some s.
Proof.
  intros Har Hi. apply lookup_lt_is_Some_2. rewrite (ar_argc _ _ _ _ Har) in Hi. unfold len in Hi. lia.
Qed.

Lemma all_strings m : arguments m P args ss -> take (Z.to_nat (0 + Z.of_nat (Z.to_nat (argc args)))) ss = ss.
Proof. intros Har. apply take_ge. rewrite (ar_argc _ _ _ _ Har). unfold len. lia. Qed.

Lemma next_index i : 0 <= i -> Z.to_nat (i + 1) = S (Z.to_nat i).
Proof. lia. Qed.

Lemma wp_strings_size m (Q : Z + unit -> Mem -> Prop) :
  arguments m P args ss -> Q (inl (len (block ss))) m -> wp (strings_size_of fuel args) Q m.
Proof.
  intros Har HQ. apply (wp_for_state (fun i a m' => m' = m /\ a = len (block (take (Z.to_nat i) ss)))).
  - by split.
  - intros i a m' Hi [-> ->]. destruct (index_string m i Har Hi) as [s E]. destruct (argument_length i s E) as (H1 & H2 & H3 & H4).
    apply (wp_argument m i s); [done..|]. intros p _ _. cbv zeta. rewrite H2. unfold UINT32_MAX. rewrite u32_id by (unfold is_u32; lia).
    destruct (Z.ltb_spec (0xFFFFFFFF - (len s + 1)) (len (block (take (Z.to_nat i) ss)))); [lia|].
    apply wp_ret. split; [done|]. rewrite next_index, (take_last _ _ _ E), len_app by lia. unfold nul. rewrite len_app.
    change (len [0]) with 1. rewrite u32_id by (unfold is_u32; lia). lia.
  - intros a m' [-> ->]. by rewrite (all_strings m).
Qed.

(** A region of the stack page: [at_] bytes from its start. *)
Context (at_ : Z).
Hypothesis Hat : 0 <= at_.

Lemma wp_copy_strings m (Q : Z + unit -> Mem -> Prop) :
  arguments m P args ss -> writable m P USER_STACK_SIZE -> at_ + len (block ss) <= USER_STACK_SIZE ->
  (forall m', holds m' (P + at_) (block ss) -> same_outside (P + at_) (len (block ss)) m m' -> Q (inl (len (block ss))) m') ->
  wp (copy_strings fuel args P at_) Q m.
Proof.
  intros Har Hw Hroom HQ. pose proof Hw as (HP & HP2 & _). pose proof (len_nonneg (block ss)) as Hlb. pose proof (len_nonneg ss) as Hls.
  apply (wp_for_state (fun i a m' => a = len (block (take (Z.to_nat i) ss)) /\
    holds m' (P + at_) (block (take (Z.to_nat i) ss)) /\ same_outside (P + at_) a m m' /\ writable m' P USER_STACK_SIZE)).
  - split; [done|]. split; [|split; [by intros a _|done]].
    change (take (Z.to_nat 0) ss) with (@nil (list Z)). split; [lia|]. split; [cbn; lia|done].
  - intros i a m' Hi (-> & Hh & Hs & Hw'). destruct (index_string m i Har Hi) as [s E].
    destruct (argument_length i s E) as (H1 & H2 & H3 & H4). set (off := len (block (take (Z.to_nat i) ss))) in *.
    assert (arguments m' P args ss) as Har'.
    { eapply arguments_page; [done|]. eapply same_outside_sub; [exact Hs|lia|lia]. }
    apply (wp_argument m' i s); [done..|]. intros p Hc Hap. cbv zeta. rewrite H2.
    rewrite (u32_id (P + at_ + off)) by (unfold is_u32; lia). apply wp_bind.
    assert (Z.of_nat (length (nul s)) = len s + 1) as El by (unfold nul, len; rewrite length_app; cbn; lia).
    rewrite <- El. eapply wp_mono.
    { apply (wp_memcpy _ _ _ (nul s)); [apply Hc|lia|lia| |lia]. intros j Hj.
      replace (P + at_ + off + j) with (P + (at_ + off + j)) by lia. apply Hw'. lia. }
    rewrite El. intros _ m2 (_ & Hh2 & Hs2). apply wp_ret. rewrite next_index, (take_last _ _ _ E), len_app by lia. fold off.
    change (len (nul s)) with (Z.of_nat (length (nul s))). rewrite El.
    split; [by rewrite u32_id by (unfold is_u32; lia)|]. rewrite u32_id by (unfold is_u32; lia). split; [|split].
    + apply holds_app. split; [|exact Hh2]. eapply same_outside_holds; [exact Hs2|exact Hh|]. unfold off, len. lia.
    + eapply same_outside_trans; [eapply same_outside_sub; [exact Hs|lia|lia]|eapply same_outside_sub; [exact Hs2|lia|lia]].
    + eapply (writable_after m' m2 P USER_STACK_SIZE); [done|exact Hh2|]. unfold len. by rewrite El.
  - intros a m' (-> & Hh & Hs & _). rewrite (all_strings m) in * by done. by apply HQ.
Qed.

Lemma wp_store_pointers m base (Q : Z + unit -> Mem -> Prop) :
  arguments m P args ss -> writable m P USER_STACK_SIZE -> at_ + 4 * len ss <= USER_STACK_SIZE ->
  0 <= base -> base + len (block ss) <= 2 ^ 32 ->
  (forall r m', holds m' (P + at_) (pointers base ss) -> same_outside (P + at_) (4 * len ss) m m' -> Q r m') ->
  wp (store_pointers fuel args P at_ base) Q m.
Proof.
  intros Har Hw Hroom Hb Hb2 HQ. pose proof Hw as (HP & HP2 & _). pose proof (len_nonneg (block ss)) as Hlb. pose proof (len_nonneg ss) as Hls.
  apply (wp_for_state (fun i a m' => 0 <= i /\ a = len (block (take (Z.to_nat i) ss)) /\
    holds m' (P + at_) (pointers base (take (Z.to_nat i) ss)) /\ same_outside (P + at_) (4 * i) m m' /\ writable m' P USER_STACK_SIZE)).
  - split; [done|]. split; [done|]. split; [|split; [by intros a _|done]].
    change (take (Z.to_nat 0) ss) with (@nil (list Z)). split; [lia|]. split; [cbn; lia|done].
  - intros i a m' Hi (_ & -> & Hh & Hs & Hw'). destruct (index_string m i Har Hi) as [s E].
    destruct (argument_length i s E) as (H1 & H2 & H3 & H4). set (off := len (block (take (Z.to_nat i) ss))) in *.
    assert (i < len ss) as Hil by (rewrite (ar_argc _ _ _ _ Har) in Hi; unfold len in *; lia).
    assert (len (pointers base (take (Z.to_nat i) ss)) = 4 * i) as Elp
      by (rewrite len_pointers; unfold len in *; rewrite length_take; lia).
    rewrite (u32_id (P + at_ + i * 4)), (u32_id (base + off)) by (unfold is_u32; lia).
    apply wp_bind, wp_store32; [apply (writable_sub m' P USER_STACK_SIZE); [done|lia|lia]|]. intros m2 Hh2 Hs2.
    assert (arguments m2 P args ss) as Har2.
    { eapply arguments_page; [done|]. eapply same_outside_trans; eapply same_outside_sub; [exact Hs|lia|lia|exact Hs2|lia|lia]. }
    apply (wp_argument m2 i s); [done..|]. intros p _ _. apply wp_ret. rewrite H2.
    rewrite next_index, (take_last _ _ _ E), (pointers_last _ _ _ _ E), len_app by lia. fold off.
    unfold nul. rewrite len_app. change (len [0]) with 1. rewrite u32_id by (unfold is_u32; lia).
    split; [lia|]. split; [lia|]. split; [|split].
    + apply holds_app. split.
      * eapply same_outside_holds; [exact Hs2|exact Hh|]. unfold len in Elp. lia.
      * unfold len in Elp. rewrite Elp. by replace (P + at_ + 4 * i) with (P + at_ + i * 4) by lia.
    + eapply same_outside_trans; eapply same_outside_sub; [exact Hs|lia|lia|exact Hs2|lia|lia].
    + by eapply (writable_after m' m2 P USER_STACK_SIZE).
  - intros a m' (_ & -> & Hh & Hs & _). rewrite (all_strings m) in * by done. apply HQ; [done|].
    rewrite (ar_argc _ _ _ _ Har) in Hs. rewrite Z2Nat.id in Hs by apply len_nonneg. exact Hs.
Qed.
End Loops.

(** The page of a program's stack as the program finds it: the bytes at the
    user address [a] of the page [low] are the kernel's at [P + (a - low)]. *)
Definition user_holds m P low (a : Z) l : Prop := holds m (P + (a - low)) l.

Record initial_stack m P low ss (esp : Z) : Prop := {
  is_page : low <= esp;
  is_align : esp mod 16 = 0;
  is_argc : user_holds m P low esp (le32 (len ss));
  is_gap : argv_virt low ss = esp + 4 + (argv_virt low ss - 4) mod 16;
  is_argv : user_holds m P low (argv_virt low ss) (pointers (strings_at low ss) ss ++ le32 0);
  is_strings : user_holds m P low (strings_at low ss) (block ss);
}.

Lemma align16 x : is_u32 x -> Z.land x (u32 (Z.lnot 15)) = 16 * (x / 16).
Proof. intros Hx. change 15 with (2 ^ 4 - 1). change 16 with (2 ^ 4). apply land_lnot_mask; [lia|done]. Qed.

(** The four writes into the page: [so], [ao] and [eo] are the offsets of the
    strings, of the vector and of the count. *)
Lemma wp_fill_page m P args ss fuel base so ao eo r (Q : option Z -> Mem -> Prop) :
  writable m P USER_STACK_SIZE -> arguments m P args ss -> Forall (fun s => (length s < fuel)%nat) ss ->
  0 <= eo -> eo + 4 <= ao -> ao + (len ss + 1) * 4 = so -> so + len (block ss) = USER_STACK_SIZE ->
  0 <= base -> base + len (block ss) <= 2 ^ 32 ->
  (forall m', holds m' (P + eo) (le32 (len ss)) -> holds m' (P + ao) (pointers base ss ++ le32 0) ->
    holds m' (P + so) (block ss) -> same_outside P USER_STACK_SIZE m m' -> Q r m') ->
  wp (copy_strings fuel args P so ;;; store_pointers fuel args P ao base ;;;
      store32 (u32 (P + ao + len ss * 4)) 0 ;;; store32 (P + eo) (len ss) ;;; ret r) Q m.
Proof.
  intros Hw Har Hfuel Heo Hea Has Hso Hb Hb2 HQ. pose proof Hw as (HP0 & HP1 & _).
  pose proof (len_nonneg (block ss)) as Hlb. pose proof (len_nonneg ss) as Hls.
  assert (len (block ss) < 2 ^ 31) as Hbig by (unfold USER_STACK_SIZE, USER_STACK_PAGES, PAGE_SIZE in Hso; lia).
  rewrite u32_id by (unfold is_u32; lia).
  apply wp_bind. apply (wp_copy_strings P args ss fuel Hfuel Hbig so ltac:(lia) m); [done..|lia|]. intros m1 H1 S1.
  assert (same_outside P USER_STACK_SIZE m m1) as T1 by (eapply same_outside_sub; [exact S1|lia|lia]).
  assert (writable m1 P USER_STACK_SIZE) as W1 by (by eapply writable_after).
  apply wp_bind. apply (wp_store_pointers P args ss fuel Hfuel Hbig ao ltac:(lia) m1); [by eapply arguments_page|done|lia|done|done|].
  intros r2 m2 H2 S2.
  assert (same_outside P USER_STACK_SIZE m m2) as T2
    by (eapply same_outside_trans; [exact T1|]; eapply same_outside_sub; [exact S2|lia|lia]).
  assert (writable m2 P USER_STACK_SIZE) as W2 by (eapply writable_after; [exact W1|exact H2|by rewrite len_pointers]).
  apply wp_bind. apply wp_store32; [apply (writable_sub m2 P USER_STACK_SIZE); [done|lia|lia]|]. intros m3 H3 S3.
  assert (writable m3 P USER_STACK_SIZE) as W3 by (eapply writable_after; [exact W2|exact H3|exact S3]).
  apply wp_bind. apply wp_store32; [apply (writable_sub m3 P USER_STACK_SIZE); [done|lia|lia]|]. intros m4 H4 S4.
  apply wp_ret, HQ; [done| | |].
  - apply holds_app. split.
    + eapply holds_outside; [|exact S4|rewrite len_pointers; lia]. eapply holds_outside; [exact H2|exact S3|rewrite len_pointers; lia].
    + eapply holds_outside; [|exact S4|cbn; lia]. pose proof (len_pointers base ss) as El. unfold len in El at 1. rewrite El.
      by replace (P + ao + 4 * len ss) with (P + ao + len ss * 4) by lia.
  - eapply holds_outside; [|exact S4|lia]. eapply holds_outside; [|exact S3|lia]. eapply holds_outside; [exact H1|exact S2|lia].
  - eapply same_outside_trans; [exact T2|]. eapply same_outside_trans; (eapply same_outside_sub; [eassumption|lia|lia]).
Qed.

Lemma esp_bounds low ss : low mod PAGE_SIZE = 0 -> total_size ss <= USER_STACK_SIZE ->
  low <= entry_esp low ss /\ entry_esp low ss mod 16 = 0 /\
  argv_virt low ss = entry_esp low ss + 4 + (argv_virt low ss - 4) mod 16.
Proof.
  unfold entry_esp, argv_virt, strings_at, total_size, PAGE_SIZE. intros Hl Ht.
  set (e := low + USER_STACK_SIZE - len (block ss) - (len ss + 1) * 4 - 4) in *. assert (low <= e) as He by lia.
  rewrite Z.mul_comm, Z.mod_mul by done. lia.
Qed.

(** C28 [exec_build_user_stack] answers no, and touches nothing, exactly when
    the arguments do not fit the stack page. Otherwise the answer is a
    16-byte aligned stack pointer into the page, and a program started there
    finds the argument count at it, the argument vector, ended by a null
    pointer, whose entries point at the strings, and the strings themselves;
    nothing outside the page has changed. Between the count and the vector
    are the bytes that the alignment skips. *)
Theorem exec_user_stack_spec m low stack_phys args ss fuel :
  let P := PHYS_TO_VIRT stack_phys in
  0 <= low -> low mod PAGE_SIZE = 0 -> low + USER_STACK_SIZE < 2 ^ 32 ->
  writable m P USER_STACK_SIZE -> arguments m P args ss -> len ss <= EXEC_MAX_ARGS ->
  Forall (fun s => (length s < fuel)%nat) ss -> len (block ss) < 2 ^ 31 ->
  wp (exec_build_user_stack fuel (Some args) low stack_phys) (fun r m' =>
    if USER_STACK_SIZE <? total_size ss then r = None /\ m' = m
    else r = Some (entry_esp low ss) /\ initial_stack m' P low ss (entry_esp low ss) /\
      same_outside P USER_STACK_SIZE m m') m.
Proof.
  intros P Hl0 Hal Hl1 Hw Har Hmax Hfuel Hbig. pose proof Hw as (HP0 & HP1 & _).
  pose proof (len_nonneg (block ss)) as Hlb. pose proof (len_nonneg ss) as Hls. unfold exec_build_user_stack. fold P.
  assert (argc args = len ss) as Eargc by apply (ar_argc _ _ _ _ Har). rewrite Eargc.
  assert (u32 (u32 (len ss + 1) * 4) = (len ss + 1) * 4) as E4.
  { unfold EXEC_MAX_ARGS in Hmax. rewrite (u32_id (len ss + 1)) by (unfold is_u32; lia). apply u32_id. unfold is_u32. lia. }
  apply wp_bind. apply (wp_strings_size P args ss fuel Hfuel Hbig m); [done|]. cbv beta iota zeta. rewrite !E4.
  assert (u32 (u32 (4 + (len ss + 1) * 4) + len (block ss)) = total_size ss) as ->.
  { unfold EXEC_MAX_ARGS in Hmax. unfold total_size. rewrite (u32_id (4 + _)) by (unfold is_u32; lia). apply u32_id. unfold is_u32. lia. }
  destruct (Z.ltb_spec USER_STACK_SIZE (total_size ss)) as [|Hfit]; [by apply wp_ret|].
  destruct (esp_bounds low ss Hal Hfit) as (He1 & He2 & He3). unfold total_size in Hfit.
  assert (strings_at low ss - low = USER_STACK_SIZE - len (block ss)) as Est by (unfold strings_at; lia).
  assert (argv_virt low ss - low = USER_STACK_SIZE - len (block ss) - (len ss + 1) * 4) as Eav by (unfold argv_virt; lia).
  assert (u32 (u32 (low + USER_STACK_SIZE) - len (block ss)) = strings_at low ss) as ->.
  { rewrite (u32_id (low + _)) by (unfold is_u32, USER_STACK_SIZE, USER_STACK_PAGES, PAGE_SIZE in *; lia). apply u32_id. unfold is_u32. lia. }
  assert (u32 (strings_at low ss - (len ss + 1) * 4) = argv_virt low ss) as -> by (apply u32_id; unfold is_u32, argv_virt in *; lia).
  rewrite (u32_id (argv_virt low ss - low)), (u32_id (strings_at low ss - low)), (u32_id (len ss * 4)), (u32_id (argv_virt low ss - 4)) by (unfold is_u32; lia).
  rewrite align16 by (unfold is_u32; lia). fold (entry_esp low ss).
  rewrite (u32_id (entry_esp low ss - low)), (u32_id (P + _)) by (unfold is_u32; lia).
  destruct (Z.ltb_spec (entry_esp low ss) low) as [|_]; [lia|].
  pose proof (Z.mod_pos_bound (argv_virt low ss - 4) 16). unfold strings_at in *.
  apply (wp_fill_page m P args ss fuel); [done..|lia|lia|lia|lia|lia|lia|].
  intros m' Hargc Hargv Hstr Hout. done.
Qed.
End Layout.

(** ** Witnesses *)

(** Physical memory with the strings "ls" and "-l" at [0x2000]; the stack
    page is at [0x5000]. *)
Definition stack_ram : ram := Ram (map_seqZ 0x2000 [108; 115; 0; 45; 108; 0]).
Definition stack_args : exec_args := ExecArgs 2 [PHYS_TO_VIRT 0x2000; PHYS_TO_VIRT 0x2003].
Definition stack_strings : list (list Z) := [[108; 115]; [45; 108]].

Lemma stack_writable : writable stack_ram (PHYS_TO_VIRT 0x5000) USER_STACK_SIZE.
Proof.
  split; [by vm_compute|]. split; [by vm_compute|]. intros i Hi. cbn.
  change (PHYS_TO_VIRT 0x5000) with (KERNEL_VIRT_BASE + 0x5000).
  unfold USER_STACK_SIZE, USER_STACK_PAGES, PAGE_SIZE in Hi.
  rewrite (proj2 (direct_iff _)); [by eexists|]. unfold BOOTSTRAP_MAP_SIZE. lia.
Qed.

Lemma stack_arguments : arguments stack_ram (PHYS_TO_VIRT 0x5000) stack_args stack_strings.
Proof.
  split; [done|]. intros [|[|i]] s E; [| |by destruct i]; injection E as <-.
  - exists (PHYS_TO_VIRT 0x2000). split; [done|]. split; [|left; vm_compute; discriminate]. split; [by repeat constructor|].
    split; [done|]. split; [done|]. intros [|[|[|i]]] v E; [| | |by destruct i]; injection E as <-; by vm_compute.
  - exists (PHYS_TO_VIRT 0x2003). split; [done|]. split; [|left; vm_compute; discriminate]. split; [by repeat constructor|].
    split; [done|]. split; [done|]. intros [|[|[|i]]] v E; [| | |by destruct i]; injection E as <-; by vm_compute.
Qed.

Lemma exec_user_stack_spec_witness :
  match exec_build_user_stack 8 (Some stack_args) 0x400000 0x5000 stack_ram with
  | Ok r m' => r = Some 0x400FE0 /\ initial_stack m' (PHYS_TO_VIRT 0x5000) 0x400000 stack_strings 0x400FE0
  | Fault _ => False
  end.
Proof.
  destruct (wp_inv _ _ _ (exec_user_stack_spec stack_ram 0x400000 0x5000 stack_args stack_strings 8
    ltac:(lia) eq_refl ltac:(reflexivity) stack_writable stack_arguments ltac:(vm_compute; discriminate)
    ltac:(repeat constructor; cbn; lia) ltac:(reflexivity))) as (r & m' & E & HQ).
  rewrite E. change (USER_STACK_SIZE <? total_size stack_strings) with false in HQ. cbv iota in HQ. destruct HQ as (-> & Hs & _).
  split; [reflexivity|exact Hs].
Defined.

(** The comments place the alignment padding below the argument count; it is
    between the count and the vector. *)
Example argc_not_adjacent : entry_esp 0x400000 stack_strings + 4 <> argv_virt 0x400000 stack_strings.
Proof. discriminate. Qed.
