(* ===== verification/Console.v ===== *)
(** * Ports, the text screen and the keyboard

    [kernel/arch/x86/io.c], [kernel/drivers/vga.c], [kernel/console/console.c],
    [kernel/drivers/keyboard.c], [keymap.c] and the layouts of
    [kernel/keymaps]. *)

From S2P Require Import Prelude Words.

(** ** Ports *)

(** What was written to ports, the latest first, and what reading one gives. *)
Record io : Type := Io { outs : list (Z * Z); inputs : Z -> Z }.

Definition outb (port value : Z) : M io unit := modify (fun s => Io ((port, value) :: outs s) (inputs s)).
Definition inb (port : Z) : M io Z := gets (fun s => u8 (inputs s port)).

(** ** vga.c *)

Definition VGA_WIDTH : Z := 80.
Definition VGA_HEIGHT : Z := 25.
Definition BLACK : Z := 0.
Definition LIGHT_GRAY : Z := 7.

Definition NEWLINE : Z := 10.
Definition RETURN : Z := 13.
Definition SPACE : Z := 32.

(** The statics, the 16-bit cells of the frame buffer by index, and the
    layout selected in [keymap.c]. *)
Record console : Type := Console {
  cursor_row : Z;
  cursor_col : Z;
  foreground : Z;
  background : Z;
  cells : gmap Z Z;
  current_layout : option (Z -> Z);
  c_io : io;
}.

Definition c_io_l : lens console io := Lens c_io (fun p s =>
  Console (cursor_row s) (cursor_col s) (foreground s) (background s) (cells s) (current_layout s) p).
Definition with_cells (cs : gmap Z Z) (s : console) : console :=
  Console (cursor_row s) (cursor_col s) (foreground s) (background s) cs (current_layout s) (c_io s).
Definition set_cell (index v : Z) : M console unit := modify (fun s => with_cells (<[index := v]> (cells s)) s).
Definition set_cursor (row col : Z) : M console unit := modify (fun s =>
  Console row col (foreground s) (background s) (cells s) (current_layout s) (c_io s)).
Definition set_colors (fg bg : Z) : M console unit := modify (fun s =>
  Console (cursor_row s) (cursor_col s) fg bg (cells s) (current_layout s) (c_io s)).

(** A cell nothing was written to reads 0. *)
Definition cell (s : console) (index : Z) : Z := default 0 (cells s !! index).

Definition vga_write_cell (row col c fg bg : Z) : M console unit :=
  let index := u16 (row * VGA_WIDTH + col) in
  let attribute := u16 (Z.lor (Z.shiftl bg 12) (Z.shiftl fg 8)) in
  set_cell index (Z.lor attribute (u8 c)).

Definition vga_update_cursor : M console unit :=
  let* row := gets cursor_row in
  let* col := gets cursor_col in
  let position := u16 (row * VGA_WIDTH + col) in
  zoom c_io_l (outb 0x3D4 0x0F) ;;;
  zoom c_io_l (outb 0x3D5 (u8 (Z.land position 0xFF))) ;;;
  zoom c_io_l (outb 0x3D4 0x0E) ;;;
  zoom c_io_l (outb 0x3D5 (u8 (Z.shiftr position 8))).

Definition vga_clear (fg bg : Z) : M console unit :=
  set_colors fg bg ;;;
  for_each 0 (Z.to_nat VGA_HEIGHT) (fun row =>
    for_each 0 (Z.to_nat VGA_WIDTH) (fun col => vga_write_cell row col SPACE fg bg)) ;;;
  set_cursor 0 0 ;;;
  vga_update_cursor.

Definition vga_scroll : M console unit :=
  for_each 1 (Z.to_nat (VGA_HEIGHT - 1)) (fun row =>
    for_each 0 (Z.to_nat VGA_WIDTH) (fun col =>
      let* v := gets (fun s => cell s (row * VGA_WIDTH + col)) in
      set_cell ((row - 1) * VGA_WIDTH + col) v)) ;;;
  for_each 0 (Z.to_nat VGA_WIDTH) (fun col =>
    let* fg := gets foreground in
    let* bg := gets background in
    vga_write_cell (VGA_HEIGHT - 1) col SPACE fg bg).

(** The [switch] of [vga_putchar]. *)
Definition type_char (c : Z) : M console unit :=
  let* row := gets cursor_row in
  let* col := gets cursor_col in
  if c =? NEWLINE then set_cursor (u16 (row + 1)) 0
  else if c =? RETURN then set_cursor row 0
  else
    let* fg := gets foreground in
    let* bg := gets background in
    vga_write_cell row col c fg bg ;;;
    let col := u16 (col + 1) in
    if VGA_WIDTH <=? col then set_cursor (u16 (row + 1)) 0 else set_cursor row col.

Definition vga_putchar (c : Z) : M console unit :=
  type_char c ;;;
  let* row := gets cursor_row in
  (if VGA_HEIGHT <=? row then
     vga_scroll ;;;
     let* col := gets cursor_col in
     set_cursor (VGA_HEIGHT - 1) col
   else ret tt) ;;;
  vga_update_cursor.

(** The string is the list of its characters. *)
Fixpoint vga_write (str : list Z) : M console unit :=
  match str with
  | [] => ret tt
  | c :: str' => if c =? 0 then ret tt else vga_putchar c ;;; vga_write str'
  end.

Definition vga_set_cursor (row col : Z) : M console unit := set_cursor row col ;;; vga_update_cursor.

(** ** console.c *)

Definition console_init : M console unit := vga_clear LIGHT_GRAY BLACK.
Definition console_putchar (c : Z) : M console unit := vga_putchar c.
Definition console_write (str : list Z) : M console unit := vga_write str.
Definition console_clear : M console unit := vga_clear LIGHT_GRAY BLACK.

(** ** keymaps *)

Definition azerty_table : list (Z * Z) :=
  [(0x01, 27); (0x02, 38); (0x03, 101); (0x04, 34); (0x05, 39); (0x06, 40); (0x07, 45); (0x08, 101);
   (0x09, 95); (0x0A, 99); (0x0B, 97); (0x0C, 41); (0x0D, 61); (0x0E, 8); (0x0F, 9);
   (0x10, 97); (0x11, 122); (0x12, 101); (0x13, 114); (0x14, 116); (0x15, 121); (0x16, 117); (0x17, 105);
   (0x18, 111); (0x19, 112); (0x1C, 10); (0x1E, 113); (0x1F, 115); (0x20, 100); (0x21, 102); (0x22, 103);
   (0x23, 104); (0x24, 106); (0x25, 107); (0x26, 108); (0x2C, 119); (0x2D, 120); (0x2E, 99); (0x2F, 118);
   (0x30, 98); (0x31, 110); (0x32, 44); (0x33, 59); (0x34, 58); (0x35, 33); (0x39, 32)].

Definition keymap_azerty (scancode : Z) : Z :=
  if 128 <=? scancode then 0
  else default 0 ((list_to_map azerty_table : gmap Z Z) !! scancode).

(** Its table is empty. *)
Definition keymap_qwerty (scancode : Z) : Z := if 128 <=? scancode then 0 else 0.

Definition keymap_set (layout : option (Z -> Z)) : M console unit := modify (fun s =>
  Console (cursor_row s) (cursor_col s) (foreground s) (background s) (cells s) layout (c_io s)).

Definition keymap_translate (scancode : Z) : M console Z :=
  let* layout := gets current_layout in
  match layout with
  | None => ret 0
  | Some f => ret (f scancode)
  end.

(** ** keyboard.c *)

Definition keyboard_handler : M console unit :=
  let* scancode := zoom c_io_l (inb 0x60) in
  if negb (Z.land scancode 0x80 =? 0) then ret tt
  else
    let* c := keymap_translate scancode in
    if negb (c =? 0) then console_putchar c else ret tt.

Definition keyboard_init (layout : option (Z -> Z)) : M console unit := keymap_set layout.
