(* ===== verification/ConsoleSpec.v ===== *)
(** * The screen is the end of a scrollback

    A terminal that keeps every line ever shown is the reference: the frame
    buffer always shows the last 25 of its lines. *)

From S2P Require Import Prelude Bitmap Words Console.

(** ** The reference terminal *)

Record scrollback : Type := Scrollback {
  lines : list (list Z);
  line : nat;
  column : nat;
  attribute : Z;
}.

Definition attribute_of (fg bg : Z) : Z := u16 (Z.lor (Z.shiftl bg 12) (Z.shiftl fg 8)).
Definition glyph (attr c : Z) : Z := Z.lor attr (u8 c).
Definition blank (attr : Z) : list Z := replicate 80 (glyph attr SPACE).

Definition put (c : Z) (t : scrollback) : scrollback :=
  Scrollback (alter <[column t := glyph (attribute t) c]> (line t) (lines t)) (line t) (S (column t)) (attribute t).

(** To the start of the next line, which may not be there yet. *)
Definition line_down (t : scrollback) : scrollback := Scrollback (lines t) (S (line t)) 0 (attribute t).

Definition moved (c : Z) (t : scrollback) : scrollback :=
  if c =? NEWLINE then line_down t
  else if c =? RETURN then Scrollback (lines t) (line t) 0 (attribute t)
  else
    let t' := put c t in
    if decide (column t' = 80%nat) then line_down t' else t'.

(** A blank line is added when the cursor is below the last one. *)
Definition settle (t : scrollback) : scrollback :=
  Scrollback (if decide (line t < length (lines t))%nat then lines t else lines t ++ [blank (attribute t)])
    (line t) (column t) (attribute t).

Definition type_on (c : Z) (t : scrollback) : scrollback := settle (moved c t).

Definition type_text (str : list Z) (t : scrollback) : scrollback := foldl (fun t c => type_on c t) t str.

Lemma type_text_app str str' t : type_text (str ++ str') t = type_text str' (type_text str t).
Proof. apply foldl_app. Qed.
Lemma type_text_snoc str c t : type_text (str ++ [c]) t = type_on c (type_text str t).
Proof. unfold type_text. by rewrite foldl_app. Qed.

(** A cleared screen. *)
Definition empty_screen (attr : Z) : scrollback := Scrollback (replicate 25 (blank attr)) 0 0 attr.

(** The lines above the screen. *)
Definition above (t : scrollback) : nat := length (lines t) - 25.

(** The frame buffer shows the end of the scrollback; the cursor is in place,
    or below the last line. *)
Record window (s : console) (t : scrollback) : Prop := {
  wi_cells : forall i j l v, (i < 25)%nat -> lines t !! (above t + i)%nat = Some l -> l !! j = Some v ->
    cell s (Z.of_nat i * 80 + Z.of_nat j) = v;
  wi_row : cursor_row s = Z.of_nat (line t) - Z.of_nat (above t);
  wi_col : cursor_col s = Z.of_nat (column t);
  wi_attr : attribute_of (foreground s) (background s) = attribute t;
  wi_lines : (25 <= length (lines t))%nat;
  wi_line : (above t <= line t <= length (lines t))%nat;
  wi_column : (column t < 80)%nat;
  wi_width : Forall (fun l => length l = 80%nat) (lines t);
}.

Definition shows (s : console) (t : scrollback) : Prop := window s t /\ (line t < length (lines t))%nat.

(** The cells of the frame buffer outside of the screen are as before. *)
Definition outside_same (s s' : console) : Prop := forall k, ~ (0 <= k < 2000) -> cell s' k = cell s k.

(** The hardware cursor was last programmed with the position. *)
Definition cursor_programmed (s : console) : Prop :=
  exists rest, outs (c_io s) = (0x3D5, (cursor_row s * 80 + cursor_col s) / 256) :: (0x3D4, 0x0E) ::
    (0x3D5, (cursor_row s * 80 + cursor_col s) mod 256) :: (0x3D4, 0x0F) :: rest.

Section Screen.
Implicit Types (s : console) (t : scrollback) (i j k row col c v : Z) (cs : gmap Z Z).

Lemma cell_set s k j v : cell (with_cells (<[k := v]> (cells s)) s) j = if decide (j = k) then v else cell s j.
Proof.
  unfold cell. cbn [cells with_cells]. destruct (decide (j = k)) as [->|]; [by rewrite lookup_insert_eq|by rewrite lookup_insert_ne].
Qed.

Lemma cell_ext s s' k : cells s' = cells s -> cell s' k = cell s k.
Proof. unfold cell. by intros ->. Qed.

Lemma with_cells_id s : with_cells (cells s) s = s.
Proof. by destruct s. Qed.

(** A loop over the columns of one row that stores [f j] in column [j]. *)
Lemma wp_row_loop s row (f : Z -> Z) (body : Z -> M console unit) (Q : unit -> console -> Prop) :
  (forall j s' (R : unit -> console -> Prop), 0 <= j < 80 ->
     (exists cs, s' = with_cells cs s /\ forall k, cell s' k = if decide (row * 80 <= k < row * 80 + j) then f (k - row * 80) else cell s k) ->
     R tt (with_cells (<[row * 80 + j := f j]> (cells s')) s') -> wp (body j) R s') ->
  (forall cs, (forall k, cell (with_cells cs s) k = if decide (row * 80 <= k < row * 80 + 80) then f (k - row * 80) else cell s k) ->
     Q tt (with_cells cs s)) ->
  wp (for_each 0 (Z.to_nat VGA_WIDTH) body) Q s.
Proof.
  intros Hbody HQ. apply (wp_for_each (fun j s' => 0 <= j /\ exists cs, s' = with_cells cs s /\
    forall k, cell s' k = if decide (row * 80 <= k < row * 80 + j) then f (k - row * 80) else cell s k)).
  - split; [done|]. exists (cells s). split; [by rewrite with_cells_id|]. intros k. by rewrite decide_False by lia.
  - intros j s' Hj (_ & cs & -> & Hc). apply Hbody; [unfold VGA_WIDTH in *; lia|by exists cs|]. split; [lia|].
    eexists. split; [done|]. intros k.
    rewrite cell_set, Hc. destruct (decide (k = row * 80 + j)) as [->|].
    + rewrite decide_True by lia. f_equal. lia.
    + destruct (decide (row * 80 <= k < row * 80 + j)); [by rewrite decide_True by lia|by rewrite decide_False by lia].
  - intros s' (_ & cs & -> & Hc). by apply HQ.
Qed.

Lemma wp_write_cell s row col c fg bg (Q : unit -> console -> Prop) :
  0 <= row < 25 -> 0 <= col < 80 ->
  Q tt (with_cells (<[row * 80 + col := glyph (attribute_of fg bg) c]> (cells s)) s) ->
  wp (vga_write_cell row col c fg bg) Q s.
Proof.
  intros Hr Hc HQ. unfold vga_write_cell, VGA_WIDTH. rewrite u16_id by (unfold is_u16; lia). exact HQ.
Qed.

Lemma wp_update_cursor s (Q : unit -> console -> Prop) :
  0 <= cursor_row s < 25 -> 0 <= cursor_col s < 80 ->
  (forall p, cursor_programmed (set_view c_io_l p s) -> inputs p = inputs (c_io s) -> Q tt (set_view c_io_l p s)) ->
  wp vga_update_cursor Q s.
Proof.
  intros Hr Hc HQ. unfold vga_update_cursor. apply wp_bind, wp_gets. apply wp_bind, wp_gets.
  unfold VGA_WIDTH. set (p := cursor_row s * 80 + cursor_col s). rewrite u16_id by (unfold is_u16; lia).
  assert (u8 (Z.land p 0xFF) = p mod 256) as ->.
  { change 0xFF with (Z.ones 8). rewrite Z.land_ones by lia. unfold u8. change (2 ^ 8) with 256. lia. }
  assert (u8 (Z.shiftr p 8) = p / 256) as -> by (rewrite Z.shiftr_div_pow2 by lia; apply u8_id; unfold is_u8; lia).
  apply HQ; [|done]. by eexists.
Qed.
Lemma wp_scroll s (Q : unit -> console -> Prop) :
  (forall cs, (forall k, cell (with_cells cs s) k =
     if decide (0 <= k < 1920) then cell s (k + 80)
     else if decide (1920 <= k < 2000) then glyph (attribute_of (foreground s) (background s)) SPACE else cell s k) ->
     Q tt (with_cells cs s)) ->
  wp vga_scroll Q s.
Proof.
  intros HQ. unfold vga_scroll. apply wp_bind.
  apply (wp_for_each (fun row s' => 1 <= row /\ exists cs, s' = with_cells cs s /\
    forall k, cell s' k = if decide (0 <= k < (row - 1) * 80) then cell s (k + 80) else cell s k)).
  - split; [done|]. exists (cells s). split; [by rewrite with_cells_id|]. intros k. by rewrite decide_False by lia.
  - intros row s1 Hrow (_ & cs & -> & Hc). apply (wp_row_loop _ (row - 1) (fun j => cell s (row * 80 + j))).
    + intros j s' R Hj (cs' & -> & Hc') HR. apply wp_bind, wp_gets. unfold VGA_WIDTH. rewrite Hc', decide_False by lia.
      by rewrite Hc, decide_False by lia.
    + intros cs' Hc'. split; [lia|]. exists cs'. split; [done|]. intros k. rewrite Hc'.
      destruct (decide ((row - 1) * 80 <= k < (row - 1) * 80 + 80)).
      * rewrite decide_True by lia. f_equal. lia.
      * rewrite Hc. destruct (decide (0 <= k < (row - 1) * 80)); [by rewrite decide_True by lia|by rewrite decide_False by lia].
  - intros s1 (_ & cs & -> & Hc). change (1 + Z.of_nat (Z.to_nat (VGA_HEIGHT - 1)) - 1) with 24 in Hc.
    apply (wp_row_loop _ 24 (fun _ => glyph (attribute_of (foreground s) (background s)) SPACE)).
    + intros j s' R Hj (cs' & -> & _) HR. apply wp_bind, wp_gets, wp_bind, wp_gets. by apply wp_write_cell.
    + intros cs' Hc'. apply (HQ cs'). intros k. change (with_cells cs' s) with (with_cells cs' (with_cells cs s)). rewrite Hc', Hc.
      destruct (decide (24 * 80 <= k < 24 * 80 + 80)).
      * by rewrite decide_False, decide_True by lia.
      * destruct (decide (0 <= k < 24 * 80)); [by rewrite decide_True by lia|by rewrite !decide_False by lia].
Qed.

(** ** Clearing *)

Lemma wp_clear s fg bg (Q : unit -> console -> Prop) :
  (forall s', shows s' (empty_screen (attribute_of fg bg)) -> outside_same s s' -> cursor_programmed s' ->
     current_layout s' = current_layout s -> inputs (c_io s') = inputs (c_io s) -> Q tt s') ->
  wp (vga_clear fg bg) Q s.
Proof.
  intros HQ. unfold vga_clear. apply wp_bind, wp_modify. set (s0 := Console _ _ _ _ _ _ _). apply wp_bind.
  apply (wp_for_each (fun row s' => 0 <= row /\ exists cs, s' = with_cells cs s0 /\
    forall k, cell s' k = if decide (0 <= k < row * 80) then glyph (attribute_of fg bg) SPACE else cell s k)).
  - split; [done|]. exists (cells s). split; [done|]. intros k. by rewrite decide_False by lia.
  - intros row s1 Hrow (_ & cs & -> & Hc). change (Z.of_nat (Z.to_nat VGA_HEIGHT)) with 25 in Hrow.
    apply (wp_row_loop _ row (fun _ => glyph (attribute_of fg bg) SPACE)).
    + intros j s' R Hj (cs' & -> & _) HR. by apply wp_write_cell; [lia|lia|].
    + intros cs' Hc'. split; [lia|]. exists cs'. split; [done|]. intros k. rewrite Hc'.
      destruct (decide (row * 80 <= k < row * 80 + 80)); [by rewrite decide_True by lia|]. rewrite Hc.
      destruct (decide (0 <= k < row * 80)); [by rewrite decide_True by lia|by rewrite decide_False by lia].
  - intros s1 (_ & cs & -> & Hc). change ((0 + Z.of_nat (Z.to_nat VGA_HEIGHT)) * 80) with 2000 in Hc.
    apply wp_bind, wp_modify. apply wp_update_cursor; [done..|]. intros p Hp Hi. apply HQ; [| |done|done|exact Hi].
    + split; [|cbn; lia]. split; try done.
      * intros i j l v Hi' El Ev. change (cell (set_view c_io_l p _) ?k) with (cell (with_cells cs s0) k).
        cbn [lines empty_screen] in El. apply lookup_replicate in El as [-> _]. apply lookup_replicate in Ev as [-> Hj].
        rewrite Hc. by rewrite decide_True by lia.
      * cbn [lines empty_screen line]. rewrite length_replicate. unfold above. cbn [lines empty_screen]. rewrite length_replicate. lia.
      * cbn; lia.
      * cbn [lines empty_screen]. apply Forall_replicate. unfold blank. apply length_replicate.
    + intros k Hk. change (cell (set_view c_io_l p _) k) with (cell (with_cells cs s0) k). rewrite Hc. by rewrite decide_False.
Qed.

(** ** Typing *)

Lemma above_put c t : above (put c t) = above t.
Proof. unfold above. cbn [put lines]. by rewrite length_alter. Qed.

Lemma put_width c t : Forall (fun l => length l = 80%nat) (lines t) -> Forall (fun l => length l = 80%nat) (lines (put c t)).
Proof.
  intros Hw. apply Forall_lookup_2. intros i l El. cbn [put lines] in El. rewrite list_lookup_alter in El.
  destruct (decide (line t = i)) as [->|]; [|by apply (Forall_lookup_1 _ _ _ _ Hw El)].
  destruct (lines t !! i) as [l0|] eqn:E0; [|done]. injection El as <-. rewrite length_insert.
  apply (Forall_lookup_1 _ _ _ _ Hw E0).
Qed.

(** A character in its place. *)
Lemma put_cells s t c row col :
  window s t -> (line t < length (lines t))%nat ->
  row = Z.of_nat (line t) - Z.of_nat (above t) -> col = Z.of_nat (column t) ->
  let s' := with_cells (<[row * 80 + col := glyph (attribute t) c]> (cells s)) s in
  (forall (i j : nat) l v, (i < 25)%nat -> lines (put c t) !! (above (put c t) + i)%nat = Some l -> l !! j = Some v ->
     cell s' (Z.of_nat i * 80 + Z.of_nat j) = v) /\ outside_same s s'.
Proof.
  intros [Hc Hr Hcol Ha Hl Hline Hcl Hw] Hlt -> -> s'. pose proof (above_put c t) as Eab.
  assert (length (lines t) - above t = 25)%nat as E25 by (unfold above; lia). split.
  - intros i j l v Hi El Ev. rewrite Eab in El. cbn [put lines] in El. unfold s'. rewrite cell_set.
    assert (j < 80)%nat as Hj.
    { pose proof (Forall_lookup_1 _ _ _ _ (put_width c t Hw) El) as H80. cbn in H80. apply lookup_lt_Some in Ev. lia. }
    rewrite list_lookup_alter in El.
    destruct (decide (line t = (above t + i)%nat)) as [E|E].
    + rewrite E in El. destruct (lines t !! (above t + i)%nat) as [l0|] eqn:E0; [|done]. injection El as <-.
      pose proof (Forall_lookup_1 _ _ _ _ Hw E0) as Hl0. cbn in Hl0. destruct (decide (j = column t)) as [->|Hne].
      * rewrite list_lookup_insert_eq in Ev by lia. injection Ev as <-. by rewrite decide_True by lia.
      * rewrite list_lookup_insert_ne in Ev by done. rewrite decide_False by lia. by eapply Hc.
    + rewrite decide_False by lia. by eapply Hc.
  - intros k Hk. unfold s'. rewrite cell_set, decide_False by lia. done.
Qed.


Lemma window_line s t c (Q : unit -> console -> Prop) :
  shows s t ->
  (forall s', window s' (moved c t) -> outside_same s s' -> current_layout s' = current_layout s ->
     c_io s' = c_io s -> Q tt s') ->
  wp (type_char c) Q s.
Proof.
  intros [[Hc Hr Hcol Ha Hl Hline Hcl Hw] Hlt] HQ. unfold type_char. apply wp_bind, wp_gets. apply wp_bind, wp_gets.
  rewrite Hr, Hcol. unfold moved in HQ. assert (length (lines t) - above t = 25)%nat as E25 by (unfold above; lia).
  rewrite (u16_id (_ - _ + 1)), (u16_id (_ + 1)) by (unfold is_u16; lia).
  destruct (c =? NEWLINE).
  { apply HQ; [|done..]. split; try done; cbn [cursor_row cursor_col line_down lines line column]; change (above (line_down t)) with (above t); lia. }
  destruct (c =? RETURN).
  { apply HQ; [|done..]. split; try done; cbn; lia. }
  apply wp_bind, wp_gets. apply wp_bind, wp_gets. apply wp_bind, wp_write_cell; [lia|lia|].
  assert (window s t) as Hwin by by split. rewrite Ha.
  destruct (put_cells s t c _ _ Hwin Hlt eq_refl eq_refl) as [Hput Hout]. set (s' := with_cells _ s) in *.
  pose proof (above_put c t) as Eab. pose proof (put_width c t Hw) as Hw'. unfold VGA_WIDTH. cbn [column put].
  assert (length (lines (put c t)) = length (lines t)) as El by (cbn [put lines]; apply length_alter).
  destruct (Z.leb_spec 80 (Z.of_nat (column t) + 1)).
  - rewrite decide_True in HQ by (cbn [put column]; lia). apply HQ; [|done..].
    split; try done; cbn [line_down lines line column cursor_row cursor_col] in *; try lia.
    + change (above (line_down (put c t))) with (above (put c t)). cbn [put line]. lia.
    + change (above (line_down (put c t))) with (above (put c t)). cbn [put line]. rewrite Eab. lia.
  - rewrite decide_False in HQ by (cbn [put column]; lia). apply HQ; [|done..].
    split; try done; cbn [cursor_row cursor_col column]; rewrite ?Eab, ?El; cbn [put line column]; lia.
Qed.

(** The adjustment after a character. *)
Lemma wp_settle s t (Q : unit -> console -> Prop) :
  window s t ->
  (forall s', shows s' (settle t) -> outside_same s s' -> current_layout s' = current_layout s -> c_io s' = c_io s -> Q tt s') ->
  wp (let* row := gets cursor_row in
      if VGA_HEIGHT <=? row then
        vga_scroll ;;;
        let* col := gets cursor_col in
        set_cursor (VGA_HEIGHT - 1) col
      else ret tt) Q s.
Proof.
  intros [Hc Hr Hcol Ha Hl Hline Hcl Hw] HQ. apply wp_bind, wp_gets. rewrite Hr. unfold VGA_HEIGHT.
  assert (length (lines t) - above t = 25)%nat as E25 by (unfold above; lia).
  destruct (Z.leb_spec 25 (Z.of_nat (line t) - Z.of_nat (above t))) as [Hge|Hlt].
  - apply wp_bind, wp_scroll. intros cs Hcs. apply wp_bind, wp_gets, wp_modify. rewrite Ha in Hcs.
    assert (settle t = Scrollback (lines t ++ [blank (attribute t)]) (line t) (column t) (attribute t)) as Es
      by (unfold settle; by rewrite decide_False by lia).
    assert (above (settle t) = S (above t)) as Eab by (rewrite Es; unfold above; cbn [lines]; rewrite length_app; cbn [length]; lia).
    apply HQ; [|intros k Hk|done..].
    + split; [|rewrite Es; cbn [lines line]; rewrite length_app; cbn [length]; lia].
      split; rewrite ?Eab, ?Es; cbn [lines line column attribute cursor_row cursor_col]; rewrite ?length_app; cbn [length]; try done; try lia.
      * intros i j l v Hi El Ev. rewrite (cell_ext (with_cells cs s)) by done.
        assert (j < 80)%nat as Hj.
        { apply lookup_lt_Some in Ev. apply lookup_app_Some in El as [El|[_ El]].
          - pose proof (Forall_lookup_1 _ _ _ _ Hw El). cbn in *. lia.
          - apply list_lookup_singleton_Some in El as [_ <-]. unfold blank in Ev. rewrite length_replicate in Ev. lia. }
        rewrite Hcs. destruct (decide (i = 24%nat)) as [->|Hne].
        { rewrite lookup_app_r in El by lia. replace (S (above t) + 24 - length (lines t))%nat with 0%nat in El by lia.
          injection El as <-. apply lookup_replicate in Ev as [-> _]. by rewrite decide_False, decide_True by lia. }
        rewrite decide_True by lia. rewrite lookup_app_l in El by lia.
        replace (Z.of_nat i * 80 + Z.of_nat j + 80) with (Z.of_nat (S i) * 80 + Z.of_nat j) by lia.
        apply (Hc (S i) j l v); [lia| |done]. by replace (above t + S i)%nat with (S (above t) + i)%nat by lia.
      * apply Forall_app. split; [done|]. constructor; [apply length_replicate|constructor].
    + rewrite (cell_ext (with_cells cs s)) by done. by rewrite Hcs, !decide_False by lia.
  - apply wp_ret, HQ; [|done..]. assert (settle t = t) as Es by (unfold settle; rewrite decide_True by lia; by destruct t).
    rewrite Es. split; [by split|lia].
Qed.

Lemma wp_putchar s t c (Q : unit -> console -> Prop) :
  shows s t ->
  (forall s', shows s' (type_on c t) -> outside_same s s' -> current_layout s' = current_layout s ->
     inputs (c_io s') = inputs (c_io s) -> cursor_programmed s' -> Q tt s') ->
  wp (vga_putchar c) Q s.
Proof.
  intros Hs HQ. unfold vga_putchar. apply wp_bind. apply (window_line s t); [done|]. intros s1 H1 O1 L1 I1.
  apply wp_bind_assoc, wp_bind. apply (wp_settle s1 (moved c t)); [done|]. intros s2 H2 O2 L2 I2. pose proof H2 as [[_ Hr Hc _ Hl Hline Hcl _] Hlt].
  assert (length (lines (type_on c t)) - above (type_on c t) = 25)%nat as E25 by (unfold above, type_on; lia). unfold type_on in *.
  apply wp_update_cursor; [lia|lia|]. intros p Hp Hi. apply HQ; [|intros k Hk|..].
  - destruct H2 as [[]]. by split; [split|].
  - rewrite (cell_ext s2) by done. by rewrite O2, O1.
  - cbn [current_layout set_view c_io_l]. by rewrite L2, L1.
  - cbn [c_io set_view c_io_l]. by rewrite Hi, I2, I1.
  - exact Hp.
Qed.
End Screen.

Section Theorems.
Implicit Types (s : console) (t : scrollback) (str : list Z).

(** A console whose keyboard has the layout [f]. *)
Definition key (f : Z -> Z) (scancode : Z) : list Z :=
  if 128 <=? scancode then [] else if f scancode =? 0 then [] else [f scancode].

Lemma wp_vga_write str : forall s t (Q : unit -> console -> Prop),
  shows s t -> Forall (fun c => c <> 0) str ->
  (forall s', shows s' (type_text str t) -> outside_same s s' -> current_layout s' = current_layout s ->
     (if decide (str = []) then s' = s else cursor_programmed s') -> Q tt s') ->
  wp (vga_write str) Q s.
Proof.
  induction str as [|c str IH]; intros s t Q Hs Hz HQ; cbn [vga_write].
  - by apply wp_ret, HQ.
  - apply Forall_cons in Hz as [Hc Hz]. rewrite (proj2 (Z.eqb_neq c 0)) by done.
    apply wp_bind, (wp_putchar s t); [done|]. intros s1 H1 O1 L1 _ P1.
    apply (IH s1 (type_on c t)); [done|done|]. intros s2 H2 O2 L2 P2. apply HQ; [done| |by rewrite L2|].
    + intros k Hk. by rewrite O2, O1.
    + rewrite decide_False by done. destruct (decide (str = [])); [by subst|done].
Qed.

Lemma wp_keyboard_handler s t f (Q : unit -> console -> Prop) :
  shows s t -> current_layout s = Some f ->
  (forall s', shows s' (type_text (key f (u8 (inputs (c_io s) 0x60))) t) -> outside_same s s' -> Q tt s') ->
  wp keyboard_handler Q s.
Proof.
  intros Hs Hf HQ. unfold keyboard_handler, keymap_translate. apply wp_bind, wp_zoom, wp_gets. cbn [view c_io_l].
  assert (set_view c_io_l (c_io s) s = s) as -> by by destruct s.
  pose proof (u8_range (inputs (c_io s) 0x60)) as H8. set (x := u8 _) in *. unfold key in HQ.
  assert (negb (Z.land x 0x80 =? 0) = (128 <=? x)) as ->.
  { pose proof (land_pow2_testbit x 7 ltac:(lia)) as E. change (Z.shiftl 1 7) with 128 in E. rewrite E. clear E. unfold is_u8 in H8.
    destruct (Z.leb_spec 128 x).
    - apply Z.testbit_true; [lia|]. change (2 ^ 7) with 128. lia.
    - apply Z.testbit_false; [lia|]. change (2 ^ 7) with 128. lia. }
  assert (outside_same s s) as Ho by by intros k _.
  destruct (128 <=? x) in HQ |- *; [by apply wp_ret, HQ|].
  apply wp_bind, wp_bind, wp_gets. rewrite Hf. apply wp_ret.
  destruct (f x =? 0) in HQ |- *; cbn [negb]; [by apply wp_ret, HQ|].
  apply (wp_putchar s t); [done|]. intros s' H1 H2 _ _ _. by apply HQ.
Qed.

(** C29 The text screen is the end of a scrollback. Clearing it, from any
    state, shows a blank screen with the cursor in its corner; writing a
    string to a screen that shows the end of a scrollback shows the end of
    the scrollback the string was typed on, through wrapped lines, line
    feeds and scrolling; and so does a key press, for the character of its
    layout. The cursor of the adapter is programmed to the position, and no
    cell outside of the 25 lines is written. *)
Theorem vga_shows_scrollback s :
  (forall fg bg, wp (vga_clear fg bg) (fun _ s' =>
     shows s' (empty_screen (attribute_of fg bg)) /\ outside_same s s' /\ cursor_programmed s') s) /\
  (forall t str, shows s t -> Forall (fun c => c <> 0) str ->
     wp (vga_write str) (fun _ s' =>
       shows s' (type_text str t) /\ outside_same s s' /\ (str <> [] -> cursor_programmed s')) s) /\
  (forall t f, shows s t -> current_layout s = Some f ->
     wp keyboard_handler (fun _ s' => shows s' (type_text (key f (u8 (inputs (c_io s) 0x60))) t) /\ outside_same s s') s).
Proof.
  split; [|split].
  - intros fg bg. by apply wp_clear.
  - intros t str Hs Hz. apply (wp_vga_write str s t); [done..|]. intros s' H1 H2 _ H3. split; [done|]. split; [done|].
    intros Hne. by rewrite decide_False in H3.
  - intros t f Hs Hf. apply (wp_keyboard_handler s t f); [done..|]. by split.
Qed.
End Theorems.

(** ** Witness *)

(** The adapter after a reset. *)
Definition reset_console : console := Console 0 0 LIGHT_GRAY BLACK ∅ (Some keymap_azerty) (Io [] (fun _ => 0x1E)).

Definition boot_screen : console := final console_init reset_console.

Lemma boot_screen_shows : shows boot_screen (empty_screen 0x700) /\ current_layout boot_screen = Some keymap_azerty /\
  inputs (c_io boot_screen) = fun _ => 0x1E.
Proof.
  assert (wp console_init (fun _ s' => shows s' (empty_screen 0x700) /\ current_layout s' = Some keymap_azerty /\
    inputs (c_io s') = fun _ => 0x1E) reset_console) as H by by apply wp_clear.
  destruct (wp_final _ _ _ H) as [_ H']. exact H'.
Qed.

(** The first lines of the scrollback after a long line and a line feed, and
    a press of the key [a]. *)
Lemma vga_shows_scrollback_witness :
  wp (vga_write (replicate 81 65 ++ [10; 66])) (fun _ s' =>
    shows s' (type_text (replicate 81 65 ++ [10; 66]) (empty_screen 0x700))) boot_screen /\
  wp keyboard_handler (fun _ s' => shows s' (type_text [113] (empty_screen 0x700))) boot_screen.
Proof.
  destruct boot_screen_shows as (Hs & Hl & Hi). split.
  - eapply wp_mono; [apply (proj1 (proj2 (vga_shows_scrollback boot_screen)) (empty_screen 0x700)); [exact Hs|]|].
    + apply Forall_app; split; [apply Forall_replicate; discriminate|repeat constructor; discriminate].
    + intros u s' H. apply H.
  - eapply wp_mono; [apply (proj2 (proj2 (vga_shows_scrollback boot_screen)) (empty_screen 0x700) keymap_azerty Hs Hl)|].
    intros u s' H. rewrite Hi in H. apply H.
Defined.

(** What that text leaves: the line is wrapped. *)
Example long_line_wraps :
  let t := type_text (replicate 81 65 ++ [10; 66]) (empty_screen 0x700) in
  (line t, column t) = (2%nat, 1%nat) /\ take 3 (lines t) =
    [replicate 80 0x741; 0x741 :: replicate 79 0x720; 0x742 :: replicate 79 0x720].
Proof. by vm_compute. Qed.
