(* ===== verification/Descriptors.v ===== *)
(** * Descriptor tables, the interrupt controller and the timer

    [gdt.c], [tss.c], [idt.c], [pic.c], [pit.c], [arch_init] of [arch.c] and
    [syscall_init] of [syscall.c], all in [kernel/arch/x86]. The addresses of
    the tables and of the assembly stubs are the linker's: arguments. *)

From S2P Require Import Prelude Machine Console.

(** ** Tables *)

Record gdt_entry : Type := GdtEntry {
  limit_low : Z; base_low : Z; base_middle : Z; g_access : Z; granularity : Z; base_high : Z;
}.

Record idt_entry : Type := IdtEntry {
  offset_low : Z; selector : Z; i_zero : Z; i_flags : Z; offset_high : Z;
}.

(** [struct tss_entry]: the members the code writes, the others are 0. *)
Record tss_entry : Type := TssEntry { esp0 : Z; ss0 : Z; iomap_base : Z }.

Definition GDT_ENTRIES : Z := 6.
Definition IDT_ENTRIES : Z := 256.
Definition GDT_CODE_SELECTOR : Z := 0x08.
Definition GDT_DATA_SELECTOR : Z := 0x10.
Definition GDT_USER_CODE_SELECTOR : Z := 0x1B.
Definition GDT_USER_DATA_SELECTOR : Z := 0x23.
Definition GDT_TSS_SELECTOR : Z := 0x28.
Definition GDT_NULL : Z := 0.
Definition GDT_KERNEL_CODE : Z := 1.
Definition GDT_KERNEL_DATA : Z := 2.
Definition GDT_USER_CODE : Z := 3.
Definition GDT_USER_DATA : Z := 4.
Definition GDT_TSS_ENTRY : Z := 5.
Definition IDT_FLAG_INTERRUPT_GATE : Z := 0x8E.

(** [sizeof] *)
Definition DESCRIPTOR_SIZE : Z := 8.
Definition TSS_SIZE : Z := 104.

(** The statics, the registers that the assembly helpers load, the ports and
    the processor. *)
Record arch : Type := Arch {
  gdt : list gdt_entry;
  idt : list idt_entry;
  tss : tss_entry;
  gdtr : Z * Z;
  idtr : Z * Z;
  code_segment : Z;
  data_segment : Z;
  task_register : Z;
  pit_ticks : Z;
  pit_frequency : Z;
  a_io : io;
  a_cpu : cpu;
}.

Definition a_io_l : lens arch io := Lens a_io (fun p a =>
  Arch (gdt a) (idt a) (tss a) (gdtr a) (idtr a) (code_segment a) (data_segment a) (task_register a) (pit_ticks a)
    (pit_frequency a) p (a_cpu a)).
Definition a_cpu_l : lens arch cpu := Lens a_cpu (fun c a =>
  Arch (gdt a) (idt a) (tss a) (gdtr a) (idtr a) (code_segment a) (data_segment a) (task_register a) (pit_ticks a)
    (pit_frequency a) (a_io a) c).
Definition set_gdt (g : list gdt_entry) (a : arch) : arch :=
  Arch g (idt a) (tss a) (gdtr a) (idtr a) (code_segment a) (data_segment a) (task_register a) (pit_ticks a)
    (pit_frequency a) (a_io a) (a_cpu a).
Definition set_idt (i : list idt_entry) (a : arch) : arch :=
  Arch (gdt a) i (tss a) (gdtr a) (idtr a) (code_segment a) (data_segment a) (task_register a) (pit_ticks a)
    (pit_frequency a) (a_io a) (a_cpu a).
Definition set_tss (t : tss_entry) (a : arch) : arch :=
  Arch (gdt a) (idt a) t (gdtr a) (idtr a) (code_segment a) (data_segment a) (task_register a) (pit_ticks a)
    (pit_frequency a) (a_io a) (a_cpu a).
Definition set_pit (ticks frequency : Z) (a : arch) : arch :=
  Arch (gdt a) (idt a) (tss a) (gdtr a) (idtr a) (code_segment a) (data_segment a) (task_register a) ticks frequency
    (a_io a) (a_cpu a).

(** The assembly helpers: [lgdt] and the segment registers, [lidt], [ltr]. *)
Definition gdt_load (limit base : Z) : M arch unit := modify (fun a =>
  Arch (gdt a) (idt a) (tss a) (limit, base) (idtr a) GDT_CODE_SELECTOR GDT_DATA_SELECTOR (task_register a) (pit_ticks a)
    (pit_frequency a) (a_io a) (a_cpu a)).
Definition idt_load (limit base : Z) : M arch unit := modify (fun a =>
  Arch (gdt a) (idt a) (tss a) (gdtr a) (limit, base) (code_segment a) (data_segment a) (task_register a) (pit_ticks a)
    (pit_frequency a) (a_io a) (a_cpu a)).
Definition tss_load (sel : Z) : M arch unit := modify (fun a =>
  Arch (gdt a) (idt a) (tss a) (gdtr a) (idtr a) (code_segment a) (data_segment a) sel (pit_ticks a)
    (pit_frequency a) (a_io a) (a_cpu a)).

(** ** gdt.c *)

Definition gdt_set_entry (index base limit access flags : Z) : M arch unit :=
  if GDT_ENTRIES <=? index then ret tt
  else modify (fun a => set_gdt (<[Z.to_nat index := GdtEntry
    (u16 (Z.land limit 0xFFFF)) (u16 (Z.land base 0xFFFF)) (u8 (Z.land (Z.shiftr base 16) 0xFF)) access
    (u8 (Z.lor (Z.land (Z.shiftr limit 16) 0x0F) (Z.shiftl (Z.land flags 0x0F) 4)))
    (Z.land (u8 (Z.shiftr base 24)) 0xFF)]> (gdt a)) a).

Definition gdt_set_tss (base limit : Z) : M arch unit := gdt_set_entry GDT_TSS_ENTRY base limit 0x89 0x00.

Section Init.
Context (gdt_address idt_address tss_address syscall_stub : Z) (isr_table irq_table : Z -> Z).

Definition gdt_init : M arch unit :=
  gdt_set_entry GDT_NULL 0 0 0x00 0x00 ;;;
  gdt_set_entry GDT_KERNEL_CODE 0 0xFFFFF 0x9A 0x0C ;;;
  gdt_set_entry GDT_KERNEL_DATA 0 0xFFFFF 0x92 0x0C ;;;
  gdt_set_entry GDT_USER_CODE 0 0xFFFFF 0xFA 0x0C ;;;
  gdt_set_entry GDT_USER_DATA 0 0xFFFFF 0xF2 0x0C ;;;
  gdt_set_entry GDT_TSS_ENTRY 0 0 0x00 0x00 ;;;
  gdt_load (GDT_ENTRIES * DESCRIPTOR_SIZE - 1) gdt_address.

(** ** tss.c *)

Definition tss_init : M arch unit :=
  modify (set_tss (TssEntry 0 GDT_DATA_SELECTOR TSS_SIZE)) ;;;
  gdt_set_tss tss_address (TSS_SIZE - 1) ;;;
  tss_load GDT_TSS_SELECTOR.

(** ** idt.c *)

(** [idt[vector]], for a [uint8_t] vector *)
Definition idt_set_gate (vector handler sel flags : Z) : M arch unit := modify (fun a =>
  set_idt (<[Z.to_nat vector := IdtEntry (u16 (Z.land handler 0xFFFF)) sel 0 flags
    (Z.land (u16 (Z.shiftr handler 16)) 0xFFFF)]> (idt a)) a).

Definition idt_init : M arch unit :=
  for_each 0 32 (fun i => idt_set_gate (u8 i) (isr_table i) GDT_CODE_SELECTOR IDT_FLAG_INTERRUPT_GATE) ;;;
  for_each 0 16 (fun i => idt_set_gate (u8 (32 + i)) (irq_table i) GDT_CODE_SELECTOR IDT_FLAG_INTERRUPT_GATE) ;;;
  idt_load (IDT_ENTRIES * DESCRIPTOR_SIZE - 1) idt_address.

Definition idt_set_syscall_gate (vector handler sel flags : Z) : M arch unit := idt_set_gate vector handler sel flags.

(** ** syscall.c *)

Definition syscall_init : M arch unit := idt_set_syscall_gate 0x80 syscall_stub GDT_CODE_SELECTOR 0xEE.

(** ** pic.c *)

Definition PIC1_COMMAND : Z := 0x20.
Definition PIC1_DATA : Z := 0x21.
Definition PIC2_COMMAND : Z := 0xA0.
Definition PIC2_DATA : Z := 0xA1.
Definition ICW1_ICW4 : Z := 0x01.
Definition ICW1_INIT : Z := 0x10.
Definition ICW4_8086 : Z := 0x01.
Definition PIC_MASTER_OFFSET : Z := 32.
Definition PIC_SLAVE_OFFSET : Z := 40.

Definition pic_init : M io unit :=
  let* master_mask := inb PIC1_DATA in
  let* slave_mask := inb PIC2_DATA in
  outb PIC1_COMMAND (Z.lor ICW1_INIT ICW1_ICW4) ;;;
  outb PIC2_COMMAND (Z.lor ICW1_INIT ICW1_ICW4) ;;;
  outb PIC1_DATA PIC_MASTER_OFFSET ;;;
  outb PIC2_DATA PIC_SLAVE_OFFSET ;;;
  outb PIC1_DATA 4 ;;;
  outb PIC2_DATA 2 ;;;
  outb PIC1_DATA ICW4_8086 ;;;
  outb PIC2_DATA ICW4_8086 ;;;
  outb PIC1_DATA master_mask ;;;
  outb PIC2_DATA slave_mask.

Definition pic_send_eoi (irq : Z) : M io unit :=
  (if 8 <=? irq then outb PIC2_COMMAND 0x20 else ret tt) ;;;
  outb PIC1_COMMAND 0x20.

(** ** pit.c *)

Definition PIT_CHANNEL0 : Z := 0x40.
Definition PIT_COMMAND : Z := 0x43.
Definition PIT_FREQUENCY : Z := 1193182.

Definition pit_handler : M arch unit := modify (fun a => set_pit (u32 (pit_ticks a + 1)) (pit_frequency a) a).
Definition pit_get_ticks : M arch Z := gets pit_ticks.
Definition pit_get_frequency : M arch Z := gets pit_frequency.

Definition pit_init (frequency : Z) : M arch unit :=
  modify (fun a => set_pit (pit_ticks a) frequency a) ;;;
  if frequency =? 0 then fail (Panicked "Divide Error")
  else
    let divisor := u16 (PIT_FREQUENCY / frequency) in
    zoom a_io_l (outb PIT_COMMAND 0x36) ;;;
    zoom a_io_l (outb PIT_CHANNEL0 (u8 (Z.land divisor 0xFF))) ;;;
    zoom a_io_l (outb PIT_CHANNEL0 (u8 (Z.shiftr divisor 8))).

(** ** arch.c *)

Definition arch_init : M arch unit :=
  gdt_init ;;;
  tss_init ;;;
  idt_init ;;;
  syscall_init ;;;
  zoom a_io_l pic_init ;;;
  pit_init 100 ;;;
  zoom a_cpu_l interrupt_enable.
End Init.

(** ** What the devices take from the ports *)

(** The base of the vectors of an interrupt controller: its second
    initialisation word, after a command with bit 4. *)
Fixpoint vector_base (command data : Z) (started : bool) (log : list (Z * Z)) : option Z :=
  match log with
  | [] => None
  | (port, value) :: log' =>
      if (port =? command) && Z.testbit value 4 then vector_base command data true log'
      else if started && (port =? data) then Some value
      else vector_base command data started log'
  end.

(** The vector of a hardware interrupt. *)
Definition delivered (log : list (Z * Z)) (irq : Z) : option Z :=
  if irq <? 8 then (fun b => b + irq) <$> vector_base 0x20 0x21 false log
  else (fun b => b + (irq - 8)) <$> vector_base 0xA0 0xA1 false log.

(** The count of the timer's channel 0, low byte first. *)
Definition timer_count (log : list (Z * Z)) : option Z :=
  match filter (fun w => w.1 = 0x40) log with [(_, lo); (_, hi)] => Some (lo + 256 * hi) | _ => None end.

(** ** What the processor reads from a descriptor *)

Definition base_of (e : gdt_entry) : Z := base_low e + Z.shiftl (base_middle e) 16 + Z.shiftl (base_high e) 24.
Definition limit_of (e : gdt_entry) : Z := limit_low e + Z.shiftl (Z.land (granularity e) 0x0F) 16.
Definition flags_of (e : gdt_entry) : Z := Z.shiftr (granularity e) 4.

Definition handler_of (e : idt_entry) : Z := offset_low e + Z.shiftl (offset_high e) 16.

(** The gate is present; the lowest privilege that may use it with [int]. *)
Definition gate_present (e : idt_entry) : bool := Z.testbit (i_flags e) 7.
Definition gate_dpl (e : idt_entry) : Z := Z.land (Z.shiftr (i_flags e) 5) 3.

Definition no_gate : idt_entry := IdtEntry 0 0 0 0 0.
Definition gate (handler sel flags : Z) : idt_entry :=
  IdtEntry (u16 (Z.land handler 0xFFFF)) sel 0 flags (Z.land (u16 (Z.shiftr handler 16)) 0xFFFF).
Definition segment (base limit access flags : Z) : gdt_entry :=
  GdtEntry (u16 (Z.land limit 0xFFFF)) (u16 (Z.land base 0xFFFF)) (u8 (Z.land (Z.shiftr base 16) 0xFF)) access
    (u8 (Z.lor (Z.land (Z.shiftr limit 16) 0x0F) (Z.shiftl (Z.land flags 0x0F) 4)))
    (Z.land (u8 (Z.shiftr base 24)) 0xFF).

Section Encoding.
Implicit Types (base limit access flags handler : Z).

Lemma land_ff x : Z.land x 0xFF = x mod 2 ^ 8.
Proof. change 0xFF with (Z.ones 8). by rewrite Z.land_ones by lia. Qed.
Lemma land_ffff x : Z.land x 0xFFFF = x mod 2 ^ 16.
Proof. change 0xFFFF with (Z.ones 16). by rewrite Z.land_ones by lia. Qed.
Lemma land_f x : Z.land x 0x0F = x mod 2 ^ 4.
Proof. change 0x0F with (Z.ones 4). by rewrite Z.land_ones by lia. Qed.

Lemma granularity_sum x y : 0 <= x < 16 -> 0 <= y < 16 -> Z.lor x (Z.shiftl y 4) = x + 16 * y.
Proof.
  intros Hx Hy. rewrite Z.shiftl_mul_pow2 by lia. change (2 ^ 4) with 16.
  assert (Z.land x (y * 16) = 0) as H0.
  { apply Z.bits_inj'. intros n Hn. rewrite Z.land_spec, Z.testbit_0_l. destruct (Z.ltb_spec n 4).
    - change 16 with (2 ^ 4). rewrite Z.mul_pow2_bits_low by lia. apply andb_false_r.
    - rewrite (testbit_high x 4); [done|lia|lia]. }
  rewrite <- Z.lxor_lor by done. rewrite <- Z.add_nocarry_lxor by done. lia.
Qed.

Lemma segment_decode base limit access flags :
  is_u32 base -> 0 <= limit < 2 ^ 20 -> 0 <= flags < 16 ->
  let e := segment base limit access flags in
  base_of e = base /\ limit_of e = limit /\ g_access e = access /\ flags_of e = flags.
Proof.
  intros Hb Hl Hf e. unfold is_u32 in *.
  assert (granularity e = limit / 65536 + 16 * flags) as Eg.
  { cbn [granularity e segment]. rewrite !land_f, Z.shiftr_div_pow2 by lia.
    rewrite granularity_sum by lia. unfold u8. change (2 ^ 16) with 65536. lia. }
  unfold base_of, limit_of, flags_of. rewrite Eg. cbn [base_low base_middle base_high limit_low g_access e segment].
  rewrite !land_ff, !land_ffff, land_f. unfold u8, u16. rewrite !Z.shiftr_div_pow2, !Z.shiftl_mul_pow2 by lia.
  split; [lia|]. split; [lia|]. split; [done|lia].
Qed.

Lemma gate_decode handler sel flags : is_u32 handler -> handler_of (gate handler sel flags) = handler.
Proof.
  intros Hh. unfold handler_of, gate, is_u32 in *. cbn [offset_low offset_high]. rewrite !land_ffff. unfold u16.
  rewrite Z.shiftr_div_pow2, Z.shiftl_mul_pow2 by lia. lia.
Qed.
End Encoding.

(** ** The tables after boot *)

Section Boot.
Context (gdt_address idt_address tss_address syscall_stub : Z) (isr_table irq_table : Z -> Z).
Implicit Types (a : arch) (v i : Z).

(** The gate that [arch_init] leaves for a vector. *)
Definition boot_gate v : idt_entry :=
  if decide (0 <= v < 32) then gate (isr_table v) GDT_CODE_SELECTOR IDT_FLAG_INTERRUPT_GATE
  else if decide (32 <= v < 48) then gate (irq_table (v - 32)) GDT_CODE_SELECTOR IDT_FLAG_INTERRUPT_GATE
  else if decide (v = 0x80) then gate syscall_stub GDT_CODE_SELECTOR 0xEE
  else no_gate.

Definition boot_gdt : list gdt_entry :=
  [segment 0 0 0x00 0x00; segment 0 0xFFFFF 0x9A 0x0C; segment 0 0xFFFFF 0x92 0x0C; segment 0 0xFFFFF 0xFA 0x0C;
   segment 0 0xFFFFF 0xF2 0x0C; segment tss_address (TSS_SIZE - 1) 0x89 0x00].

(** The part of the state a routine of the tables leaves alone. *)
Definition with_tables (g : list gdt_entry) (i : list idt_entry) a : arch := set_idt i (set_gdt g a).

(** A loop that installs a gate per vector from [first]. *)
Lemma wp_gates a first n (h : Z -> Z) (Q : unit -> arch -> Prop) :
  length (idt a) = 256%nat -> 0 <= first -> first + Z.of_nat n <= 256 ->
  (forall l, length l = 256%nat ->
     (forall v, 0 <= v < 256 -> l !! Z.to_nat v =
        if decide (first <= v < first + Z.of_nat n) then Some (gate (h (v - first)) GDT_CODE_SELECTOR IDT_FLAG_INTERRUPT_GATE)
        else idt a !! Z.to_nat v) -> Q tt (set_idt l a)) ->
  wp (for_each 0 n (fun i => idt_set_gate (u8 (first + i)) (h i) GDT_CODE_SELECTOR IDT_FLAG_INTERRUPT_GATE)) Q a.
Proof.
  intros Hl H0 Hn HQ. apply (wp_for_each (fun i a' => 0 <= i /\ exists l, a' = set_idt l a /\ length l = 256%nat /\
    forall v, 0 <= v < 256 -> l !! Z.to_nat v =
      if decide (first <= v < first + i) then Some (gate (h (v - first)) GDT_CODE_SELECTOR IDT_FLAG_INTERRUPT_GATE)
      else idt a !! Z.to_nat v)).
  - split; [done|]. exists (idt a). split; [by destruct a|]. split; [done|]. intros v Hv. by rewrite decide_False by lia.
  - intros i a' Hi (_ & l & -> & Hll & Hv). apply wp_modify. split; [lia|]. rewrite u8_id by (unfold is_u8; lia).
    eexists. split; [reflexivity|]. cbn [idt set_idt]. rewrite length_insert. split; [done|]. intros v Hr.
    destruct (decide (v = first + i)) as [->|Hne].
    + rewrite list_lookup_insert_eq by lia. rewrite decide_True by lia. by replace (first + i - first) with i by lia.
    + rewrite list_lookup_insert_ne by lia. rewrite Hv by done.
      destruct (decide (first <= v < first + i)); [by rewrite decide_True by lia|by rewrite decide_False by lia].
  - intros a' (_ & l & -> & Hll & Hv). by apply HQ.
Qed.

Lemma wp_gdt_entry a index base limit access flags (Q : unit -> arch -> Prop) :
  0 <= index < 6 -> Q tt (set_gdt (<[Z.to_nat index := segment base limit access flags]> (gdt a)) a) ->
  wp (gdt_set_entry index base limit access flags) Q a.
Proof. intros Hi HQ. unfold gdt_set_entry, GDT_ENTRIES. rewrite (proj2 (Z.leb_gt 6 index)) by lia. exact HQ. Qed.

(** What [gdt_init] and [tss_init] leave alone. *)
Definition same_gates a a' : Prop := idt a' = idt a /\ a_io a' = a_io a /\ a_cpu a' = a_cpu a.

Lemma wp_segments a (Q : unit -> arch -> Prop) :
  length (gdt a) = 6%nat ->
  (forall a', gdt a' = boot_gdt -> gdtr a' = (47, gdt_address) -> task_register a' = GDT_TSS_SELECTOR ->
     tss a' = TssEntry 0 GDT_DATA_SELECTOR TSS_SIZE -> same_gates a a' -> Q tt a') ->
  wp (gdt_init gdt_address ;;; tss_init tss_address) Q a.
Proof.
  intros Hg HQ. apply wp_bind. unfold gdt_init.
  do 6 (apply wp_bind, wp_gdt_entry; [done|]). unfold gdt_load. apply wp_modify. unfold tss_init.
  apply wp_bind, wp_modify. apply wp_bind. unfold gdt_set_tss. apply wp_gdt_entry; [done|]. apply wp_modify.
  apply HQ; [|done..]. cbn [gdt set_gdt set_tss]. destruct a as [g ? ? ? ? ? ? ? ? ? ? ?]. cbn [gdt] in *.
  destruct g as [|g0 [|g1 [|g2 [|g3 [|g4 [|g5 [|]]]]]]]; done.
Qed.

Lemma wp_idt a (Q : unit -> arch -> Prop) :
  idt a = replicate 256 no_gate ->
  (forall l, (forall v, 0 <= v < 256 -> l !! Z.to_nat v = Some (boot_gate v)) ->
     Q tt (set_idt l (final (idt_load 2047 idt_address) a))) ->
  wp (idt_init idt_address isr_table irq_table ;;; syscall_init syscall_stub) Q a.
Proof.
  intros Hi HQ. apply wp_bind. unfold idt_init. assert (length (idt a) = 256%nat) as Hl by (rewrite Hi; apply length_replicate).
  apply wp_bind, (wp_gates a 0 32 isr_table); [done..|]. intros l1 Hl1 Hv1.
  apply wp_bind, (wp_gates (set_idt l1 a) 32 16 irq_table); [done..|]. intros l2 Hl2 Hv2. apply wp_modify.
  apply wp_modify. cbn [idt set_idt] in *.
  apply (HQ (<[Z.to_nat 128 := gate syscall_stub GDT_CODE_SELECTOR 0xEE]> l2)).
  intros v Hv. unfold boot_gate. destruct (decide (v = 0x80)) as [->|Hne].
  - rewrite list_lookup_insert_eq by lia. by rewrite !decide_False by lia.
  - rewrite list_lookup_insert_ne by lia. rewrite Hv2 by done. change (32 + Z.of_nat 16) with 48.
    destruct (decide (32 <= v < 48)); [by rewrite decide_False by lia|]. rewrite Hv1 by done.
    change (0 + Z.of_nat 32) with 32. destruct (decide (0 <= v < 32)); [by rewrite Z.sub_0_r|].
    rewrite Hi. apply lookup_replicate. split; [done|lia].
Qed.

Lemma boot_gate_dpl v : gate_present (boot_gate v) = true /\ gate_dpl (boot_gate v) = 3 <-> v = 0x80.
Proof.
  unfold boot_gate. destruct (decide (0 <= v < 32)); [|destruct (decide (32 <= v < 48)); [|destruct (decide (v = 0x80))]].
  - split; [by intros [_ H]|lia].
  - split; [by intros [_ H]|lia].
  - done.
  - split; [by intros [H _]|done].
Qed.

(** What [pic_init] and [pit_init] write to the ports, in this order: the four
    initialisation words of both interrupt controllers and the masks they had,
    then the mode and the count of the timer. *)
Definition controller_writes (read : Z -> Z) : list (Z * Z) :=
  [(0x20, 0x11); (0xA0, 0x11); (0x21, 32); (0xA1, 40); (0x21, 4); (0xA1, 2); (0x21, 1); (0xA1, 1);
   (0x21, u8 (read 0x21)); (0xA1, u8 (read 0xA1))].
Definition timer_writes : list (Z * Z) := [(0x43, 0x36); (0x40, 0x9B); (0x40, 0x2E)].
Definition boot_writes (read : Z -> Z) : list (Z * Z) := controller_writes read ++ timer_writes.

Lemma wp_pic (p : io) (Q : unit -> io -> Prop) :
  Q tt (Io (rev (controller_writes (inputs p)) ++ outs p) (inputs p)) -> wp pic_init Q p.
Proof. done. Qed.

Lemma boot_vectors read irq : 0 <= irq < 16 -> delivered (boot_writes read) irq = Some (32 + irq) /\
  boot_gate (32 + irq) = gate (irq_table irq) GDT_CODE_SELECTOR IDT_FLAG_INTERRUPT_GATE.
Proof.
  intros Hi. split.
  - unfold delivered. change (vector_base 0x20 0x21 false (boot_writes read)) with (Some 32).
    change (vector_base 0xA0 0xA1 false (boot_writes read)) with (Some 40).
    destruct (Z.ltb_spec irq 8); [done|]. apply (f_equal Some). lia.
  - unfold boot_gate. rewrite decide_False by lia. rewrite decide_True by lia. do 2 f_equal. lia.
Qed.

(** What [arch_init] leaves: the six segments and the TSS in place and loaded,
    every vector on its stub, and interrupts enabled. *)
Record tables_loaded a a' : Prop := {
  tl_gdt : gdt a' = boot_gdt;
  tl_gdtr : gdtr a' = (47, gdt_address);
  tl_tr : task_register a' = GDT_TSS_SELECTOR;
  tl_tss : tss a' = TssEntry 0 GDT_DATA_SELECTOR TSS_SIZE;
  tl_idtr : idtr a' = (2047, idt_address);
  tl_gates : forall v, 0 <= v < 256 -> idt a' !! Z.to_nat v = Some (boot_gate v);
  tl_flags : if_set (eflags (a_cpu a')) = true;
  tl_cr3 : cr3 (a_cpu a') = cr3 (a_cpu a);
  tl_ports : inputs (a_io a') = inputs (a_io a);
  tl_writes : outs (a_io a') = rev (boot_writes (inputs (a_io a))) ++ outs (a_io a);
  tl_timer : pit_frequency a' = 100;
}.

Lemma wp_arch_init a (Q : unit -> arch -> Prop) :
  gdt a = replicate 6 (segment 0 0 0 0) -> idt a = replicate 256 no_gate -> (forall a', tables_loaded a a' -> Q tt a') ->
  wp (arch_init gdt_address idt_address tss_address syscall_stub isr_table irq_table) Q a.
Proof.
  intros Hg Hi HQ. unfold arch_init. apply wp_bind_assoc, wp_bind, wp_segments; [by rewrite Hg|].
  intros a1 E1 E2 E3 E4 (Hs1 & Hio & Hcpu). apply wp_bind_assoc, wp_bind, wp_idt; [by rewrite Hs1|]. intros l Hv.
  apply wp_bind, wp_zoom, wp_pic. apply wp_bind, wp_bind, wp_modify.
  rewrite (proj2 (Z.eqb_neq 100 0)) by done. do 2 apply wp_bind, wp_zoom, wp_modify. apply wp_zoom, wp_modify.
  apply wp_zoom, wp_modify, HQ.
  split; [done..|apply if_set_sti|exact (f_equal cr3 Hcpu)|exact (f_equal inputs Hio)| |done]. by rewrite <- Hio.
Qed.

(** C40 Descriptors hold what they are given: for every entry of the table and
    every 32-bit base, 20-bit limit and 4 flags, the processor reads these
    back from the entry that [gdt_set_entry] writes, the others are as
    before, and an index past the table changes nothing; and the same holds of
    gates. After [arch_init] the six segments and the TSS are in place and
    loaded, every exception and interrupt vector leads to its stub at kernel
    privilege, and of all 256 vectors only [0x80] can be used by a program.
    The ports were written exactly the initialisation of both interrupt
    controllers and of the timer: read as the devices read it, hardware
    interrupt [irq] arrives at the vector [32 + irq], behind the exceptions,
    whose gate is its stub, with the masks as they were, and the timer divides
    its clock so that it ticks 100 times a second. *)
Theorem arch_tables_spec :
  (forall a index base limit access flags, length (gdt a) = 6%nat -> 0 <= index ->
     is_u32 base -> 0 <= limit < 2 ^ 20 -> 0 <= flags < 16 ->
     wp (gdt_set_entry index base limit access flags) (fun _ a' =>
       if GDT_ENTRIES <=? index then a' = a
       else exists e, gdt a' = <[Z.to_nat index := e]> (gdt a) /\ gdt a' !! Z.to_nat index = Some e /\
         base_of e = base /\ limit_of e = limit /\ g_access e = access /\ flags_of e = flags) a) /\
  (forall a vector handler sel flags, length (idt a) = 256%nat -> is_u8 vector -> is_u32 handler ->
     wp (idt_set_gate vector handler sel flags) (fun _ a' =>
       exists e, idt a' = <[Z.to_nat vector := e]> (idt a) /\ idt a' !! Z.to_nat vector = Some e /\
         handler_of e = handler /\ selector e = sel /\ i_flags e = flags) a) /\
  (forall a, gdt a = replicate 6 (segment 0 0 0 0) -> idt a = replicate 256 no_gate ->
     wp (arch_init gdt_address idt_address tss_address syscall_stub isr_table irq_table) (fun _ a' =>
       gdt a' = boot_gdt /\ gdtr a' = (47, gdt_address) /\ task_register a' = GDT_TSS_SELECTOR /\
       tss a' = TssEntry 0 GDT_DATA_SELECTOR TSS_SIZE /\ idtr a' = (2047, idt_address) /\
       (forall v, 0 <= v < 256 -> idt a' !! Z.to_nat v = Some (boot_gate v) /\
          (gate_present (boot_gate v) = true /\ gate_dpl (boot_gate v) = 3 <-> v = 0x80)) /\
       if_set (eflags (a_cpu a')) = true /\
       exists log, outs (a_io a') = rev log ++ outs (a_io a) /\ log = boot_writes (inputs (a_io a)) /\
         (forall irq, 0 <= irq < 16 -> delivered log irq = Some (32 + irq) /\
            idt a' !! Z.to_nat (32 + irq) = Some (gate (irq_table irq) GDT_CODE_SELECTOR IDT_FLAG_INTERRUPT_GATE)) /\
         timer_count log = Some (1193182 / pit_frequency a') /\ pit_frequency a' = 100) a).
Proof.
  split; [|split].
  - intros a index base limit access flags Hl Hi Hb Hlim Hf. unfold gdt_set_entry, GDT_ENTRIES.
    destruct (Z.leb_spec 6 index); [by apply wp_ret|]. apply wp_modify. exists (segment base limit access flags).
    split; [done|]. split; [cbn [gdt set_gdt]; by rewrite list_lookup_insert_eq by lia|]. by apply segment_decode.
  - intros a vector handler sel flags Hl Hv Hh. apply wp_modify. exists (gate handler sel flags). unfold is_u8 in Hv.
    split; [done|]. split; [cbn [idt set_idt]; by rewrite list_lookup_insert_eq by lia|]. split; [by apply gate_decode|done].
  - intros a Hg Hi. apply wp_arch_init; [done..|]. intros a' [H1 H2 H3 H4 H5 H6 H7 _ _ H10 H11]. do 5 (split; [done|]). split; [|split; [done|]].
    { intros v Hr. split; [by apply H6|apply boot_gate_dpl]. }
    exists (boot_writes (inputs (a_io a))). split; [done|]. split; [done|]. split; [|by rewrite H11].
    intros irq Hirq. destruct (boot_vectors (inputs (a_io a)) irq Hirq) as [Hd <-]. split; [done|]. apply H6. lia.
Qed.
End Boot.

(** ** Witness *)

Definition reset_arch : arch :=
  Arch (replicate 6 (segment 0 0 0 0)) (replicate 256 no_gate) (TssEntry 0 0 0) (0, 0) (0, 0) 0 0 0 0 0
    (Io [] (fun _ => 0xFF)) (Cpu 2 0 []).

Lemma arch_tables_spec_witness :
  wp (gdt_set_entry 5 0xC0101234 103 0x89 0) (fun _ a' => exists e, gdt a' !! 5%nat = Some e /\ base_of e = 0xC0101234) reset_arch /\
  wp (arch_init 0xC0100000 0xC0100040 0xC0101234 0xC0102000 (fun i => 0xC0103000 + 16 * i) (fun i => 0xC0104000 + 16 * i))
    (fun _ a' => (exists g, idt a' !! 0x80%nat = Some g /\ gate_dpl g = 3 /\ handler_of g = 0xC0102000) /\
       outs (a_io a') = rev (boot_writes (fun _ => 0xFF))) reset_arch.
Proof.
  destruct (arch_tables_spec 0xC0100000 0xC0100040 0xC0101234 0xC0102000 (fun i => 0xC0103000 + 16 * i) (fun i => 0xC0104000 + 16 * i))
    as (H1 & _ & H3). split.
  - eapply wp_mono; [apply (H1 reset_arch 5 0xC0101234 103 0x89 0); [reflexivity|lia|unfold is_u32; lia|lia|lia]|].
    intros u a' (e & _ & E & Eb & _). exists e. split; [exact E|exact Eb].
  - eapply wp_mono; [apply (H3 reset_arch); reflexivity|].
    intros u a' (_ & _ & _ & _ & _ & H & _ & log & El & -> & _). destruct (H 0x80 ltac:(lia)) as [E [_ Hd]]. split; [|exact El].
    eexists. split; [exact E|]. split; [apply Hd; reflexivity|reflexivity].
Defined.
