(* ===== verification/Kernel.v ===== *)
(** * The state of the whole kernel

    The components share one processor, one memory and one heap. [kernel] puts
    their states together; a routine of a component runs in it through the
    component's lens. Objects that the kernel keeps in heap blocks (processes,
    threads, user stacks, descriptors of user threads) are stores indexed by
    the address of their block, and [free_block] takes an object out of its
    store with the block, so that a later use is a fault. *)

From Stdlib Require Import Ascii String.
From S2P Require Import Prelude Layout Machine DList Pmm CString Ram Words Paging Vam Vmm Heap HeapSupply Task Sync Fs Console.

(** ** Memory as the kernel sees it *)

(** The window of the direct mapping, and every other address through the
    directory in CR3. The boot code leaves CR0.WP clear, so the kernel writes
    to read-only pages as well. *)
Definition kernel_load (a : Z) (m : machine) : option Z :=
  if direct a then load8 a (m_ram m)
  else
    match walk (m_ram m) (frame_of (cr3 (pmm_cpu (m_pmm m)))) a with
    | Some pte => Some (byte (m_ram m) (frame_of pte + page_offset a))
    | None => None
    end.

Definition kernel_store (a v : Z) (m : machine) : option machine :=
  if direct a then (fun r => with_ram r m) <$> store8 a v (m_ram m)
  else
    match walk (m_ram m) (frame_of (cr3 (pmm_cpu (m_pmm m)))) a with
    | Some pte => Some (with_ram (set_byte (frame_of pte + page_offset a) v (m_ram m)) m)
    | None => None
    end.

#[export] Instance kernel_memory : ByteMem machine := {| load8 := kernel_load; store8 := kernel_store |}.

(** ** State *)

(** [struct process]; the page directory is in [directories] of the
    scheduler's state and the open files in the stores of [Fs]. *)
Record process : Type := Process { pid : Z; name : list Z }.

(** List nodes of processes, user stacks and loaded pages, and list heads. *)
Inductive link : Type :=
  | ProcessListHead | ProcessNode (p : Z)
  | UserStacksHead (p : Z) | UserStackNode (a : Z)
  | LoadedHead | LoadedNode (a : Z).

#[export] Instance link_eq_dec : EqDecision link.
Proof. solve_decision. Defined.

#[export] Instance link_countable : Countable link.
Proof.
  apply (inj_countable'
    (fun l => match l with
              | ProcessListHead => inl true | LoadedHead => inl false
              | ProcessNode p => inr (inl (inl p)) | UserStacksHead p => inr (inl (inr p))
              | UserStackNode a => inr (inr (inl a)) | LoadedNode a => inr (inr (inr a))
              end)
    (fun c => match c with
              | inl true => ProcessListHead | inl false => LoadedHead
              | inr (inl (inl p)) => ProcessNode p | inr (inl (inr p)) => UserStacksHead p
              | inr (inr (inl a)) => UserStackNode a | inr (inr (inr a)) => LoadedNode a
              end)).
  by intros [].
Defined.

Record kernel : Type := Kernel {
  k_heap : heap_world machine;
  k_vam : vam;
  k_sched : sched;
  k_owners : gmap Z (option tref);
  k_counts : gmap Z Z;
  k_fs : fs;
  k_files : gmap Z file;
  k_table : gmap Z bool;
  k_links : gmap link (list_node link);
  k_processes : gmap Z process;
  (** [virt] of [struct user_stack] and of [struct elf_loaded_page] *)
  k_stacks : gmap Z Z;
  k_loaded : gmap Z Z;
  (** [user_entry], [user_esp] of [struct usermode_desc] *)
  k_descs : gmap Z (Z * Z);
  next_pid : Z;
  next_tid : Z;
  k_console : console;
}.

Definition k_heap_l : lens kernel (heap_world machine) := Lens k_heap (fun h k =>
  Kernel h (k_vam k) (k_sched k) (k_owners k) (k_counts k) (k_fs k) (k_files k) (k_table k) (k_links k) (k_processes k)
    (k_stacks k) (k_loaded k) (k_descs k) (next_pid k) (next_tid k) (k_console k)).
Definition k_vam_l : lens kernel vam := Lens k_vam (fun v k =>
  Kernel (k_heap k) v (k_sched k) (k_owners k) (k_counts k) (k_fs k) (k_files k) (k_table k) (k_links k) (k_processes k)
    (k_stacks k) (k_loaded k) (k_descs k) (next_pid k) (next_tid k) (k_console k)).
Definition k_links_l : lens kernel (gmap link (list_node link)) := Lens k_links (fun l k =>
  Kernel (k_heap k) (k_vam k) (k_sched k) (k_owners k) (k_counts k) (k_fs k) (k_files k) (k_table k) l (k_processes k)
    (k_stacks k) (k_loaded k) (k_descs k) (next_pid k) (next_tid k) (k_console k)).
Definition k_processes_l : lens kernel (gmap Z process) := Lens k_processes (fun p k =>
  Kernel (k_heap k) (k_vam k) (k_sched k) (k_owners k) (k_counts k) (k_fs k) (k_files k) (k_table k) (k_links k) p
    (k_stacks k) (k_loaded k) (k_descs k) (next_pid k) (next_tid k) (k_console k)).
Definition k_stacks_l : lens kernel (gmap Z Z) := Lens k_stacks (fun s k =>
  Kernel (k_heap k) (k_vam k) (k_sched k) (k_owners k) (k_counts k) (k_fs k) (k_files k) (k_table k) (k_links k) (k_processes k)
    s (k_loaded k) (k_descs k) (next_pid k) (next_tid k) (k_console k)).
Definition k_loaded_l : lens kernel (gmap Z Z) := Lens k_loaded (fun s k =>
  Kernel (k_heap k) (k_vam k) (k_sched k) (k_owners k) (k_counts k) (k_fs k) (k_files k) (k_table k) (k_links k) (k_processes k)
    (k_stacks k) s (k_descs k) (next_pid k) (next_tid k) (k_console k)).
Definition k_descs_l : lens kernel (gmap Z (Z * Z)) := Lens k_descs (fun d k =>
  Kernel (k_heap k) (k_vam k) (k_sched k) (k_owners k) (k_counts k) (k_fs k) (k_files k) (k_table k) (k_links k) (k_processes k)
    (k_stacks k) (k_loaded k) d (next_pid k) (next_tid k) (k_console k)).
Definition k_next_l : lens kernel (Z * Z) := Lens (fun k => (next_pid k, next_tid k)) (fun n k =>
  Kernel (k_heap k) (k_vam k) (k_sched k) (k_owners k) (k_counts k) (k_fs k) (k_files k) (k_table k) (k_links k) (k_processes k)
    (k_stacks k) (k_loaded k) (k_descs k) n.1 n.2 (k_console k)).
Definition k_console_l : lens kernel console := Lens k_console (fun c k =>
  Kernel (k_heap k) (k_vam k) (k_sched k) (k_owners k) (k_counts k) (k_fs k) (k_files k) (k_table k) (k_links k) (k_processes k)
    (k_stacks k) (k_loaded k) (k_descs k) (next_pid k) (next_tid k) c).

Definition compose {A B C} (f : lens A B) (g : lens B C) : lens A C :=
  Lens (fun a => view g (view f a)) (fun c a => set_view f (set_view g c (view f a)) a).

Definition k_machine_l : lens kernel machine := compose k_heap_l supply_l.
Definition k_cpu_l : lens kernel cpu := compose k_machine_l machine_cpu_l.
Definition k_pmm_l : lens kernel pmm_world := compose k_machine_l pmm_world_l.

Definition set_sched (s : sched) (k : kernel) : kernel :=
  Kernel (k_heap k) (k_vam k) s (k_owners k) (k_counts k) (k_fs k) (k_files k) (k_table k) (k_links k) (k_processes k)
    (k_stacks k) (k_loaded k) (k_descs k) (next_pid k) (next_tid k) (k_console k).
Definition set_locks (o : gmap Z (option tref)) (c : gmap Z Z) (k : kernel) : kernel :=
  Kernel (k_heap k) (k_vam k) (k_sched k) o c (k_fs k) (k_files k) (k_table k) (k_links k) (k_processes k)
    (k_stacks k) (k_loaded k) (k_descs k) (next_pid k) (next_tid k) (k_console k).
Definition set_disk (f : fs) (fl : gmap Z file) (t : gmap Z bool) (k : kernel) : kernel :=
  Kernel (k_heap k) (k_vam k) (k_sched k) (k_owners k) (k_counts k) f fl t (k_links k) (k_processes k)
    (k_stacks k) (k_loaded k) (k_descs k) (next_pid k) (next_tid k) (k_console k).

(** The scheduler and the locks share the processor with the machine; files
    share the machine as their memory. *)
Definition k_tasks_l : lens kernel tasks :=
  Lens (fun k => Tasks (view k_cpu_l k) (k_sched k))
    (fun t k => set_sched (t_sched t) (set_view k_cpu_l (t_cpu t) k)).
Definition k_sync_l : lens kernel sync :=
  Lens (fun k => Sync (view k_tasks_l k) (k_owners k) (k_counts k))
    (fun s k => set_locks (owners s) (counts s) (set_view k_tasks_l (s_tasks s) k)).
Definition k_disk_l : lens kernel (disk machine) :=
  Lens (fun k => Disk (k_fs k) (view k_machine_l k) (k_files k) (k_table k))
    (fun d k => set_disk (d_fs d) (d_files d) (d_table d) (set_view k_machine_l (d_mem d) k)).

Abbreviation KM := (M kernel).

Definition heap_op {A} (m : M (heap_world machine) A) : KM A := zoom k_heap_l m.
Definition machine_op {A} (m : M machine A) : KM A := zoom k_machine_l m.
Definition pmm_op {A} (m : M pmm_world A) : KM A := zoom k_pmm_l m.
Definition vam_op {A} (m : M vam A) : KM A := zoom k_vam_l m.
Definition tasks_op {A} (m : M tasks A) : KM A := zoom k_tasks_l m.
Definition sync_op {A} (m : M sync A) : KM A := zoom k_sync_l m.
Definition disk_op {A} (m : M (disk machine) A) : KM A := zoom k_disk_l m.
Definition link_op {A} (m : M (gmap link (list_node link)) A) : KM A := zoom k_links_l m.
Definition kcpu_op {A} (m : M cpu A) : KM A := zoom k_cpu_l m.

(** ** Printing *)

(** [printf] of a literal or of a number: the characters that
    [Printf.vprintf_spec] shows it prints. *)
Definition print_text (l : list Z) : KM unit :=
  zoom k_console_l (for_each 0 (length l) (fun i => Console.console_putchar (nth (Z.to_nat i) l 0))).

(** The characters of a literal. *)
Definition text (s : string) : list Z := (fun c => Z.of_nat (nat_of_ascii c)) <$> list_ascii_of_string s.
Definition NEWLINE : list Z := [10].

(** ** Objects in heap blocks *)

(** [kmalloc(size)] with the fuel of the allocator, and [kfree]. *)
Definition alloc_block (fuel : nat) (size : Z) : KM Z := heap_op (kmalloc fuel size).
Definition free_block (p : Z) : KM unit := heap_op (kfree p).

(** Reading, adding and removing the object at an address. *)
Definition fetch {A} (l : lens kernel (gmap Z A)) (p : Z) : KM A :=
  let* s := gets (view l) in require BadPointer (s !! p).
Definition store {A} (l : lens kernel (gmap Z A)) (p : Z) (x : A) : KM unit :=
  zoom l (modify (fun s => <[p := x]> s)).
Definition discard {A} (l : lens kernel (gmap Z A)) (p : Z) : KM unit :=
  zoom l (modify (fun s => delete p s)).

(** The memory of a list node comes to be, unlinked, and goes. *)
Definition new_link (n : link) : KM unit := zoom k_links_l (modify (fun s => <[n := Node None None]> s)).
Definition drop_link (n : link) : KM unit := zoom k_links_l (modify (fun s => delete n s)).

(** [process->page_directory] *)
Definition get_directory (p : Z) : KM Z := tasks_op (page_directory_of p).
Definition put_directory (p d : Z) : KM unit := tasks_op (modify (fun w =>
  let s := t_sched w in
  Tasks (t_cpu w) (Sched (nodes s) (threads s) (current s) (quantum_remaining s) (stack s) (tss_esp0 s)
    (<[p := d]> (directories s)) (reaper_thread s) (reaper_ready s)))).
Definition drop_directory (p : Z) : KM unit := tasks_op (modify (fun w =>
  let s := t_sched w in
  Tasks (t_cpu w) (Sched (nodes s) (threads s) (current s) (quantum_remaining s) (stack s) (tss_esp0 s)
    (delete p (directories s)) (reaper_thread s) (reaper_ready s)))).
