(* ===== verification/Printing.v ===== *)
(** * Output on the kernel's screen

    Text that the kernel prints appears on the terminal that the screen shows
    ([ConsoleSpec]); the rest of the kernel, and the layout of the keyboard, are
    as they were. *)

From Stdlib Require Import Ascii String.
From S2P Require Import Prelude Printf Console ConsoleSpec Kernel.

(** A line with a number. *)
Definition number_line (label : string) (base v : Z) : list Z := text label ++ unsigned_text base v ++ NEWLINE.

(** [k] with this console. *)
Definition on_screen (s : console) (k : kernel) : kernel := set_view k_console_l s k.

Lemma on_screen_id k : on_screen (k_console k) k = k.
Proof. by destruct k. Qed.

(** Printing never fails, whatever the screen holds. *)
Lemma wp_putchar_total c s : wp (console_putchar c) (fun _ _ => True) s.
Proof.
  assert (forall n i (body : Z -> M console unit) s, (forall j s, wp (body j) (fun _ _ => True) s) ->
    wp (for_each i n body) (fun _ _ => True) s) as Hloop.
  { intros n i body s0 Hb. by apply (wp_for_each (fun _ _ => True)). }
  unfold console_putchar, vga_putchar, type_char. apply wp_bind, wp_bind, wp_gets, wp_bind, wp_gets.
  assert (forall s, wp (let* row := gets cursor_row in
    (if VGA_HEIGHT <=? row then vga_scroll ;;; let* col := gets cursor_col in set_cursor (VGA_HEIGHT - 1) col else ret tt) ;;;
    vga_update_cursor) (fun _ _ => True) s) as Hrest.
  { intros s1. apply wp_bind, wp_gets. destruct (VGA_HEIGHT <=? cursor_row s1); [|done].
    apply wp_bind, wp_bind. unfold vga_scroll. apply wp_bind. eapply wp_mono; [apply Hloop|intros _ s2 _].
    - intros j s2. apply Hloop. done.
    - eapply wp_mono; [by apply Hloop|]. done. }
  destruct (c =? _); [apply Hrest|]. destruct (c =? _); [apply Hrest|].
  apply wp_bind, wp_gets, wp_bind, wp_gets, wp_bind, wp_modify. destruct (_ <=? _); apply Hrest.
Qed.

(** [l] has been printed: a screen that showed something shows it as well. *)
Definition printed (l : list Z) (k k' : kernel) : Prop :=
  forall scr, shows (k_console k) scr -> shows (k_console k') (type_text l scr).

Lemma wp_print_text l k s scr (Q : unit -> kernel -> Prop) :
  shows s scr ->
  (forall s', shows s' (type_text l scr) -> current_layout s' = current_layout s -> Q tt (on_screen s' k)) ->
  wp (print_text l) Q (on_screen s k).
Proof.
  intros Hs HQ. apply wp_zoom.
  apply (wp_for_each (fun i s' => 0 <= i /\ shows s' (type_text (take (Z.to_nat i) l) scr) /\ current_layout s' = current_layout s)).
  - by split.
  - intros i s' Hi (_ & Hs' & Hl'). destruct (lookup_lt_is_Some_2 l (Z.to_nat i)) as [b Eb]; [lia|].
    rewrite (nth_lookup_Some _ _ _ _ Eb). eapply wp_putchar; [exact Hs'|]. intros s2 H _ Hl _ _. split; [lia|].
    replace (Z.to_nat (i + 1)) with (Datatypes.S (Z.to_nat i)) by lia. rewrite (take_S_r _ _ _ Eb), type_text_snoc.
    split; [done|]. by rewrite Hl.
  - intros s' (_ & Hs' & Hl'). rewrite Z.add_0_l, Nat2Z.id, firstn_all in Hs'. by apply HQ.
Qed.

(** Without a word on the screen. *)
Lemma print_text_runs l k : exists s, print_text l k = Ok tt (on_screen s k) /\ printed l k (on_screen s k).
Proof.
  assert (wp (print_text l) (fun _ k' => exists s, k' = on_screen s k) k) as H.
  { apply wp_zoom. apply (wp_for_each (fun _ _ => True)); [done| |intros s _; by exists s].
    intros j s _ _. apply wp_putchar_total. }
  apply wp_inv in H as ([] & k' & E & s & ->). exists s. split; [done|]. intros scr Hs.
  assert (wp (print_text l) (fun _ k' => shows (k_console k') (type_text l scr)) k) as H.
  { rewrite <- (on_screen_id k). by apply (wp_print_text l k _ scr). }
  unfold wp in H. by rewrite E in H.
Qed.

Lemma wp_says l k (Q : unit -> kernel -> Prop) :
  (forall s, printed l k (on_screen s k) -> Q tt (on_screen s k)) -> wp (print_text l) Q k.
Proof. intros HQ. destruct (print_text_runs l k) as (s & E & Hs). eapply wp_Ok; [exact E|]. by apply HQ. Qed.
