(* ===== verification/Process.v ===== *)
(** * Processes and user stacks

    Creation, destruction and search of processes ([kernel/task/process.c]),
    and the user stacks of a process ([kernel/arch/x86/usermode.c]). *)

From S2P Require Import Prelude Layout Machine DList Pmm CString Ram Words Paging Vam Vmm Heap HeapSupply Task Sync Fs Exec Kernel.

Definition PROCESS_NAME_MAX : Z := 32.
Definition USER_STACK_REGION_START : Z := 0x80000000.
Definition USER_STACK_REGION_END : Z := 0xC0000000.

(** [sizeof] *)
Definition PROCESS_SIZE : Z := 320.
Definition USER_STACK_STRUCT_SIZE : Z := 12.

(** ** process.c *)

Definition process_container (n : option link) : KM Z :=
  match n with Some (ProcessNode p) => ret p | _ => fail BadPointer end.

Definition process_add (p : Z) : KM unit :=
  ASSERT "process != NULL" (negb (p =? NULL)) ;;;
  link_op (list_push_back (Some ProcessListHead) (Some (ProcessNode p))).

Definition process_remove (p : Z) : KM unit :=
  ASSERT "process != NULL" (negb (p =? NULL)) ;;;
  link_op (list_remove (Some (ProcessNode p))).

(** A walk along a list visits every node at most once. *)
Definition link_fuel : KM nat := gets (fun k => S (size (k_links k))).

(** [for (node = list_front(&process_list); node != &process_list.head; ...)] *)
Definition find_process (accept : process -> bool) : KM Z :=
  let* fuel := link_fuel in
  let* first := link_op (list_front (Some ProcessListHead)) in
  loop fuel (fun node =>
    if bool_decide (node = Some ProcessListHead) then ret (inr NULL)
    else
      let* p := process_container node in
      let* pr := fetch k_processes_l p in
      if accept pr then ret (inr p)
      else let* next := link_op (list_next node) in ret (inl next)) first.

Definition process_find (id : Z) : KM Z := find_process (fun pr => pid pr =? id).

(** The characters before the terminator. *)
Fixpoint characters (l : list Z) : list Z :=
  match l with
  | [] => []
  | c :: l' => if c =? 0 then [] else c :: characters l'
  end.

(** [strcmp(process->name, name) == 0], for the string of characters [s]. *)
Definition process_find_by_name (s : option (list Z)) : KM Z :=
  match s with
  | None => ret NULL
  | Some s => find_process (fun pr => bool_decide (characters (name pr) = s))
  end.

(** [strncpy(process->name, name, PROCESS_NAME_MAX - 1)] into a zeroed array. *)
Definition copy_name (s : list Z) : list Z :=
  let l := take (Z.to_nat (PROCESS_NAME_MAX - 1)) s in l ++ replicate (Z.to_nat PROCESS_NAME_MAX - length l) 0.

(** [kfree(process)] *)
Definition free_process (p : Z) : KM unit :=
  free_block p ;;;
  discard k_processes_l p ;;;
  drop_link (ProcessNode p) ;;;
  drop_link (UserStacksHead p) ;;;
  tasks_op (list_op (modify (fun n => delete (ThreadsHead p) n))) ;;;
  drop_directory p.

(** [memset(process, 0, sizeof( *process))]: the object comes to be. *)
Definition clear_process (p : Z) : KM unit :=
  store k_processes_l p (Process 0 (replicate (Z.to_nat PROCESS_NAME_MAX) 0)) ;;;
  new_link (ProcessNode p) ;;;
  new_link (UserStacksHead p) ;;;
  tasks_op (list_op (modify (fun n => <[ThreadsHead p := Node None None]> n))) ;;;
  put_directory p NULL ;;;
  for_each 0 (Z.to_nat PROCESS_MAX_FILES) (fun fd => disk_op (modify (fun d =>
    Disk (d_fs d) (d_mem d) (<[file_slot p fd := File NULL 0 0]> (d_files d)) (<[file_slot p fd := false]> (d_table d))))).

Definition process_create (fuel : nat) (s : list Z) : KM Z :=
  let* p := alloc_block fuel PROCESS_SIZE in
  if p =? NULL then ret NULL
  else
    clear_process p ;;;
    link_op (list_node_init (Some (ProcessNode p))) ;;;
    tasks_op (list_op (list_init (Some (ThreadsHead p)))) ;;;
    link_op (list_init (Some (UserStacksHead p))) ;;;
    let* directory := machine_op paging_create_directory in
    put_directory p directory ;;;
    if directory =? NULL then
      free_process p ;;;
      ret NULL
    else
      let* n := gets (view k_next_l) in
      zoom k_next_l (modify (fun n => (u32 (n.1 + 1), n.2))) ;;;
      store k_processes_l p (Process n.1 (copy_name s)) ;;;
      for_each 0 (Z.to_nat PROCESS_MAX_FILES) (fun i => disk_op (set_used p i false)) ;;;
      process_add p ;;;
      ret p.

Definition process_destroy (p : Z) : KM unit :=
  ASSERT "process != NULL" (negb (p =? NULL)) ;;;
  let* on := kcpu_op interrupt_enabled in
  ASSERT "!interrupt_enabled()" (negb on) ;;;
  let* no_threads := tasks_op (list_op (list_empty (Some (ThreadsHead p)))) in
  ASSERT "list_empty(&process->threads)" no_threads ;;;
  let* no_stacks := link_op (list_empty (Some (UserStacksHead p))) in
  ASSERT "list_empty(&process->user_stacks)" no_stacks ;;;
  process_remove p ;;;
  let* directory := get_directory p in
  (if directory =? NULL then ret tt else machine_op (paging_destroy_directory directory)) ;;;
  free_process p.

(** ** User stacks *)

Definition stack_container (n : option link) : KM Z :=
  match n with Some (UserStackNode a) => ret a | _ => fail BadPointer end.

(** The walk along [process->user_stacks] for the stack at [virt]: its
    [struct user_stack], or [NULL]. *)
Definition find_user_stack (p virt : Z) : KM Z :=
  let* fuel := link_fuel in
  let* first := link_op (list_front (Some (UserStacksHead p))) in
  loop fuel (fun node =>
    if bool_decide (node = Some (UserStacksHead p)) then ret (inr NULL)
    else
      let* next := link_op (list_next node) in
      let* a := stack_container node in
      let* v := fetch k_stacks_l a in
      if v =? virt then ret (inr a) else ret (inl next)) first.

(** The region has [2 ^ 18] stacks; the extra rounds find its start and the
    end of the address space. *)
Definition stack_rounds : nat := Z.to_nat (2 ^ 18 + 1).

Definition user_stack_alloc (p : Z) : KM Z :=
  ASSERT "process != NULL" (negb (p =? NULL)) ;;;
  loop stack_rounds (fun virt =>
    if negb (USER_STACK_REGION_START <=? virt) then ret (inr 0)
    else
      let* stack := find_user_stack p virt in
      let* free :=
        (if negb (stack =? NULL) then ret false
         else
           let* directory := get_directory p in
           let* phys := machine_op (paging_translate directory virt) in
           ret (phys =? 0)) in
      if free : bool then ret (inr virt)
      else if virt <? USER_STACK_SIZE then ret (inr 0)
      else ret (inl (u32 (virt - USER_STACK_SIZE)))) (USER_STACK_REGION_END - USER_STACK_SIZE).

Definition user_stack_reserve (fuel : nat) (p virt : Z) : KM bool :=
  ASSERT "process != NULL" (negb (p =? NULL)) ;;;
  ASSERT "virt != 0" (negb (virt =? 0)) ;;;
  let* stack := alloc_block fuel USER_STACK_STRUCT_SIZE in
  if stack =? NULL then ret false
  else
    new_link (UserStackNode stack) ;;;
    link_op (list_node_init (Some (UserStackNode stack))) ;;;
    store k_stacks_l stack virt ;;;
    link_op (list_push_back (Some (UserStacksHead p)) (Some (UserStackNode stack))) ;;;
    ret true.

Definition usermode_stack_release (p virt : Z) : KM unit :=
  ASSERT "process != NULL" (negb (p =? NULL)) ;;;
  ASSERT "virt != 0" (negb (virt =? 0)) ;;;
  let* stack := find_user_stack p virt in
  if stack =? NULL then ASSERT "false" false
  else
    link_op (list_remove (Some (UserStackNode stack))) ;;;
    free_block stack ;;;
    discard k_stacks_l stack ;;;
    drop_link (UserStackNode stack).

Definition USER_FLAGS : Z := Z.lor (Z.lor PAGE_PRESENT PAGE_WRITABLE) PAGE_USER.

(** The result is [*user_esp], [None] for the answer [false]. *)
Definition usermode_stack_create (fuel : nat) (p : Z) : KM (option Z) :=
  ASSERT "process != NULL" (negb (p =? NULL)) ;;;
  let* directory := get_directory p in
  ASSERT "process->page_directory != NULL" (negb (directory =? NULL)) ;;;
  let* virt := user_stack_alloc p in
  if virt =? 0 then ret None
  else
    let* ok := user_stack_reserve fuel p virt in
    if negb ok then ret None
    else
      let* phys := pmm_op pmm_alloc_page in
      if phys =? 0 then
        usermode_stack_release p virt ;;;
        ret None
      else
        let* directory := get_directory p in
        machine_op (paging_map directory virt phys USER_FLAGS) ;;;
        let* valid := machine_op (paging_validate_mapping directory virt) in
        if negb valid then
          machine_op (paging_unmap directory virt) ;;;
          pmm_op (pmm_free_page phys) ;;;
          usermode_stack_release p virt ;;;
          ret None
        else ret (Some (u32 (virt + USER_STACK_SIZE))).
