(* ===== verification/Lifecycle.v ===== *)
(** * Threads: creation, destruction, joining, the reaper

    The rest of [kernel/task/thread.c], [usermode_thread_create] and
    [usermode_elf_thread_create] of [kernel/arch/x86/usermode.c],
    [scheduler_start] of [scheduler.c] and [kernel/task/reaper.c]. *)

From Stdlib Require Import Ascii String.
From S2P Require Import Prelude Layout Machine DList Pmm CString Printf Ram Words Paging Vam Vmm Heap HeapSupply Task Sync Fs Exec Kernel Process.

(** [sizeof] *)
Definition THREAD_SIZE : Z := 80.
Definition USERMODE_DESC_SIZE : Z := 8.

Definition KERNEL_FLAGS : Z := Z.lor PAGE_PRESENT PAGE_WRITABLE.

(** [stack_pages] *)
Definition STACK_PAGES : Z := KERNEL_STACK_SIZE / PAGE_SIZE.

(** ** Kernel stacks *)

(** One page of a kernel stack is given back. *)
Definition release_stack_page (virt : Z) : KM unit :=
  let* directory := machine_op paging_get_kernel_directory in
  let* phys := machine_op (paging_translate directory virt) in
  let* directory := machine_op paging_get_kernel_directory in
  machine_op (paging_unmap directory virt) ;;;
  if negb (phys =? NULL) then pmm_op (pmm_free_page phys) else ret tt.

(** [while (i != 0) { i--; ... }]: the pages below [i], from the highest. *)
Fixpoint release_stack_pages (stack : Z) (i : nat) : KM unit :=
  match i with
  | O => ret tt
  | S i' => release_stack_page (u32 (stack + Z.of_nat i' * PAGE_SIZE)) ;;; release_stack_pages stack i'
  end.

(** The loop that backs the stack with pages: [Some i] when there was no page
    for page [i]. *)
Definition map_stack (stack process_directory : Z) : KM (option Z) :=
  for_range 0 (Z.to_nat STACK_PAGES) (fun i =>
    let* phys := pmm_op pmm_alloc_page in
    if phys =? NULL then ret (Some i)
    else
      let virt := u32 (stack + i * PAGE_SIZE) in
      machine_op (paging_map_kernel virt phys KERNEL_FLAGS) ;;;
      let* directory := machine_op paging_get_kernel_directory in
      let* ok := machine_op (paging_validate_mapping directory virt) in
      ASSERT "paging_validate_mapping(paging_get_kernel_directory(), virt)" ok ;;;
      let* ok := machine_op (paging_validate_mapping process_directory virt) in
      ASSERT "paging_validate_mapping(process->page_directory, virt)" ok ;;;
      ret None).

(** ** thread_create *)

Definition put_thread (t : tref) (th : thread) : KM unit :=
  tasks_op (modify (fun w => set_threads (<[t := th]> (threads (t_sched w))) w)).
Definition update (t : tref) (f : thread -> thread) : KM unit := tasks_op (update_thread (Some t) f).
Definition fetch_thread (t : tref) : KM thread := tasks_op (get_thread (Some t)).

Definition with_stack (s : Z) (th : thread) : thread :=
  Thread (tid th) s (entry th) (state th) (Task.process th) (detached th) (wait_queue th) (user_stack th) (usermode_desc th) (saved th).
Definition with_user (s d : Z) (th : thread) : thread :=
  Thread (tid th) (kernel_stack th) (entry th) (state th) (Task.process th) (detached th) (wait_queue th) s d (saved th).

(** The nodes of a thread, in the order of the initialisation. *)
Definition thread_nodes (t : tref) : list node :=
  [GroupNode t; SchedNode t; WaitNode t; ZombieNode t].

(** [memset(thread, 0, sizeof( *thread))]: the object comes to be. *)
Definition clear_thread (t : tref) : KM unit :=
  put_thread t (Thread 0 NULL NULL THREAD_READY NULL false None 0 NULL []) ;;;
  tasks_op (list_op (modify (fun n => foldr (fun x n => <[x := Node None None]> n) n
    (QueueHead (TerminationQueue t) :: thread_nodes t)))).

(** [kfree(thread)] *)
Definition free_thread (a : Z) : KM unit :=
  free_block a ;;;
  tasks_op (modify (fun w => set_threads (delete (HeapThread a) (threads (t_sched w))) w)) ;;;
  tasks_op (list_op (modify (fun n => foldr delete n (QueueHead (TerminationQueue (HeapThread a)) :: thread_nodes (HeapThread a))))).

Fixpoint init_nodes (l : list node) : KM unit :=
  match l with
  | [] => ret tt
  | n :: l' => tasks_op (list_op (list_node_init (Some n))) ;;; init_nodes l'
  end.

(** The initial frame on the new stack is [thread_bootstrap]. *)
Definition thread_create (fuel : nat) (process entry : Z) : KM Z :=
  ASSERT "process != NULL" (negb (process =? NULL)) ;;;
  let* a := alloc_block fuel THREAD_SIZE in
  if a =? NULL then ret NULL
  else
    let t := HeapThread a in
    clear_thread t ;;;
    init_nodes (thread_nodes t) ;;;
    tasks_op (wait_queue_init (TerminationQueue t)) ;;;
    update t (with_wait_queue None) ;;;
    update t (with_detached false) ;;;
    update t (with_user 0 NULL) ;;;
    update t (fun th => Thread (tid th) (kernel_stack th) entry (state th) (Task.process th) (detached th) (wait_queue th)
      (user_stack th) (usermode_desc th) (saved th)) ;;;
    let* stack := vam_op vam_alloc_stack in
    update t (with_stack stack) ;;;
    if stack =? NULL then free_thread a ;;; ret NULL
    else
      let* process_directory := get_directory process in
      let* failed := map_stack stack process_directory in
      match failed with
      | Some i =>
          release_stack_pages stack (Z.to_nat i) ;;;
          vam_op (vam_free_stack stack) ;;;
          free_thread a ;;;
          ret NULL
      | None =>
          let stack_top := u32 (stack + KERNEL_STACK_SIZE) in
          let* directory := machine_op paging_get_kernel_directory in
          let* stack_phys := machine_op (paging_translate directory (u32 (stack_top - 4))) in
          if stack_phys =? 0 then
            vam_op (vam_free_stack stack) ;;;
            free_thread a ;;;
            ret NULL
          else
            update t (with_saved [ThreadStart]) ;;;
            update t (with_state THREAD_READY) ;;;
            let* n := gets (view k_next_l) in
            zoom k_next_l (modify (fun n => (n.1, u32 (n.2 + 1)))) ;;;
            update t (fun th => Thread n.2 (kernel_stack th) (Task.entry th) (state th) process (detached th) (wait_queue th)
              (user_stack th) (usermode_desc th) (saved th)) ;;;
            ret a
      end.

(** ** thread_destroy *)

(** The user stack at [thread->user_stack] goes: its mapping, its page and its
    entry in the process. *)
Definition release_user_stack (process user_stack : Z) : KM unit :=
  let* directory := get_directory process in
  let* phys := machine_op (paging_translate directory user_stack) in
  let* directory := get_directory process in
  machine_op (paging_unmap directory user_stack) ;;;
  (if negb (phys =? NULL) then pmm_op (pmm_free_page phys) else ret tt) ;;;
  usermode_stack_release process user_stack.

(** The process is named before anything is checked. *)
Definition thread_destroy (a : Z) : KM unit :=
  let t := HeapThread a in
  let* th := fetch_thread t in
  let* pr := fetch k_processes_l (Task.process th) in
  print_text (text "destroying thread " ++ characters (name pr) ++ NEWLINE) ;;;
  ASSERT "thread != NULL" (negb (a =? NULL)) ;;;
  let* on := kcpu_op interrupt_enabled in
  ASSERT "!interrupt_enabled()" (negb on) ;;;
  let* th := fetch_thread t in
  ASSERT "thread->state == THREAD_TERMINATED" (bool_decide (state th = THREAD_TERMINATED)) ;;;
  let* p := tasks_op (list_op (get_prev (Some (GroupNode t)))) in
  let* n := tasks_op (list_op (get_next (Some (GroupNode t)))) in
  (if negb (is_null p) && negb (is_null n) then tasks_op (list_op (list_remove (Some (GroupNode t)))) else ret tt) ;;;
  (if negb (kernel_stack th =? NULL) then
     for_each 0 (Z.to_nat STACK_PAGES) (fun i => release_stack_page (u32 (kernel_stack th + i * PAGE_SIZE))) ;;;
     vam_op (vam_free_stack (kernel_stack th)) ;;;
     update t (with_stack NULL)
   else ret tt) ;;;
  (if negb (usermode_desc th =? NULL) then
     ASSERT "thread->user_stack != 0" (negb (user_stack th =? 0)) ;;;
     release_user_stack (Task.process th) (user_stack th) ;;;
     free_block (usermode_desc th) ;;;
     discard k_descs_l (usermode_desc th) ;;;
     update t (with_user 0 NULL)
   else ret tt) ;;;
  let* th := fetch_thread t in
  (if negb (user_stack th =? 0) then
     release_user_stack (Task.process th) (user_stack th) ;;;
     update t (with_user 0 (usermode_desc th))
   else ret tt) ;;;
  free_thread a.

(** [thread_destroy(thread); if (process != NULL && list_empty(&process->threads)) process_destroy(process);] *)
Definition reap (a : Z) : KM unit :=
  let* th := fetch_thread (HeapThread a) in
  let p := Task.process th in
  thread_destroy a ;;;
  if p =? NULL then ret tt
  else
    let* empty := tasks_op (list_op (list_empty (Some (ThreadsHead p)))) in
    if empty : bool then process_destroy p else ret tt.

(** ** thread_join *)

(** What follows the sleep. *)
Definition join_rest (a st : Z) : KM unit :=
  reap a ;;;
  kcpu_op (interrupt_restore st).

Definition thread_join (a : Z) : KM unit :=
  ASSERT "thread != NULL" (negb (a =? NULL)) ;;;
  let* th := fetch_thread (HeapThread a) in
  ASSERT "!thread->detached" (negb (detached th)) ;;;
  let* st := kcpu_op interrupt_save in
  let* th := fetch_thread (HeapThread a) in
  if bool_decide (state th <> THREAD_TERMINATED) then
    tasks_op (push_frame (JoinReturn (HeapThread a) st)) ;;;
    tasks_op (wait_queue_sleep (TerminationQueue (HeapThread a)))
  else join_rest a st.

(** ** Threads of programs *)

Definition store_desc (d entry esp : Z) : KM unit := store k_descs_l d (entry, esp).
Definition free_desc (d : Z) : KM unit := free_block d ;;; discard k_descs_l d.

(** [&usermode_trampoline] *)
Definition USERMODE_TRAMPOLINE : Z := 1.

(** The steps the two routines share from [paging_map] on. *)
Definition start_user_thread (fuel : nat) (process desc entry stack_virt phys : Z) : KM Z :=
  let* directory := get_directory process in
  machine_op (paging_map directory stack_virt phys USER_FLAGS) ;;;
  let* ok := machine_op (paging_validate_mapping directory stack_virt) in
  ASSERT "paging_validate_mapping(process->page_directory, stack_virt)" ok ;;;
  store_desc desc entry (u32 (stack_virt + USER_STACK_SIZE)) ;;;
  let* a := thread_create fuel process USERMODE_TRAMPOLINE in
  if a =? NULL then
    machine_op (paging_unmap directory stack_virt) ;;;
    pmm_op (pmm_free_page phys) ;;;
    usermode_stack_release process stack_virt ;;;
    free_desc desc ;;;
    ret NULL
  else
    update (HeapThread a) (with_user stack_virt desc) ;;;
    ret a.

(** Without a page for the stack this one leaves the reservation behind. *)
Definition usermode_thread_create (fuel : nat) (process user_fn : Z) : KM Z :=
  ASSERT "process != NULL" (negb (process =? NULL)) ;;;
  ASSERT "user_fn != NULL" (negb (user_fn =? NULL)) ;;;
  let* directory := get_directory process in
  ASSERT "process->page_directory != NULL" (negb (directory =? NULL)) ;;;
  let* desc := alloc_block fuel USERMODE_DESC_SIZE in
  if desc =? NULL then ret NULL
  else
    let* stack_virt := user_stack_alloc process in
    if stack_virt =? 0 then free_block desc ;;; ret NULL
    else
      let* ok := user_stack_reserve fuel process stack_virt in
      if negb ok then free_block desc ;;; ret NULL
      else
        let* phys := pmm_op pmm_alloc_page in
        if phys =? NULL then free_block desc ;;; ret NULL
        else start_user_thread fuel process desc user_fn stack_virt phys.

Definition usermode_elf_thread_create (fuel : nat) (process entry : Z) : KM Z :=
  ASSERT "process != NULL" (negb (process =? NULL)) ;;;
  if entry =? 0 then ret NULL
  else
    let* desc := alloc_block fuel USERMODE_DESC_SIZE in
    if desc =? NULL then ret NULL
    else
      let* stack_virt := user_stack_alloc process in
      if stack_virt =? 0 then free_block desc ;;; ret NULL
      else
        let* ok := user_stack_reserve fuel process stack_virt in
        if negb ok then free_block desc ;;; ret NULL
        else
          let* phys := pmm_op pmm_alloc_page in
          if phys =? NULL then
            usermode_stack_release process stack_virt ;;;
            free_block desc ;;;
            ret NULL
          else start_user_thread fuel process desc entry stack_virt phys.

(** ** The idle thread *)

Definition scheduler_start : KM unit :=
  kcpu_op interrupt_disable ;;;
  clear_thread IdleThread ;;;
  tasks_op (list_op (list_node_init (Some (SchedNode IdleThread)))) ;;;
  update IdleThread (with_state THREAD_RUNNING) ;;;
  let* stack := vam_op vam_alloc_stack in
  update IdleThread (with_stack stack) ;;;
  ASSERT "idle_thread.kernel_stack != NULL" (negb (stack =? NULL)) ;;;
  for_each 0 (Z.to_nat STACK_PAGES) (fun i =>
    let* phys := pmm_op pmm_alloc_page in
    ASSERT "phys != NULL" (negb (phys =? NULL)) ;;;
    machine_op (paging_map_kernel (u32 (stack + i * PAGE_SIZE)) phys KERNEL_FLAGS)) ;;;
  update IdleThread (with_saved [IdleStart]) ;;;
  tasks_op (modify (set_current (Some IdleThread))) ;;;
  tasks_op (modify (set_quantum SCHEDULER_QUANTUM_TICKS)).

(** ** The reaper *)

(** The zombie at [a] of the process [p]. *)
Definition reap_zombie (a p : Z) : KM unit :=
  thread_destroy a ;;;
  if p =? NULL then ret tt
  else
    let* empty := tasks_op (list_op (list_empty (Some (ThreadsHead p)))) in
    if empty : bool then
      let* pr := fetch k_processes_l p in
      print_text (text "zombie process on destruction = " ++ characters (name pr) ++ NEWLINE) ;;;
      process_destroy p
    else ret tt.

(** The loop over the zombies. *)
Definition reap_zombies : KM unit :=
  let* fuel := tasks_op node_fuel in
  loop fuel (fun _ : unit =>
    let* zombie := tasks_op scheduler_next_zombie in
    match zombie with
    | None => ret (inr tt)
    | Some t =>
        let* th := fetch_thread t in
        print_text (text "zombie on destruction = " ++ unsigned_text 10 (tid th) ++ NEWLINE) ;;;
        let* reaper := tasks_op reaper_thread_get in
        ASSERT "zombie != reaper_thread" (bool_decide (Some t <> reaper)) ;;;
        match t with
        | HeapThread a => reap_zombie a (Task.process th) ;;; ret (inl tt)
        | IdleThread => fail BadPointer
        end
    end) tt.

(** One round of [reaper_entry], up to the sleep; [reaper_woken] is the rest. *)
Definition reaper_round : KM unit :=
  let* st := kcpu_op interrupt_save in
  tasks_op (push_frame (ReaperWoken st)) ;;;
  tasks_op (wait_queue_sleep ReaperQueue).

Definition reaper_woken (st : Z) : KM unit :=
  kcpu_op (interrupt_restore st) ;;;
  let* st := kcpu_op interrupt_save in
  reap_zombies ;;;
  kcpu_op (interrupt_restore st) ;;;
  reaper_round.

(** [&reaper_entry] *)
Definition REAPER_ENTRY : Z := 2.

Definition set_reaper (t : option tref) (ready : bool) (w : tasks) : tasks :=
  let s := t_sched w in
  Tasks (t_cpu w) (Sched (nodes s) (threads s) (current s) (quantum_remaining s) (stack s) (tss_esp0 s) (directories s) t ready).

Definition reaper_init (fuel : nat) : KM unit :=
  tasks_op (wait_queue_init ReaperQueue) ;;;
  tasks_op (modify (fun w => set_reaper (reaper_thread (t_sched w)) true w)) ;;;
  let* p := process_create fuel [114; 101; 97; 112; 101; 114] in
  ASSERT "process != NULL" (negb (p =? NULL)) ;;;
  let* a := thread_create fuel p REAPER_ENTRY in
  tasks_op (modify (set_reaper (if a =? NULL then None else Some (HeapThread a)) true)) ;;;
  ASSERT "reaper_thread != NULL" (negb (a =? NULL)) ;;;
  update (HeapThread a) (with_detached true) ;;;
  let* st := kcpu_op interrupt_save in
  tasks_op (thread_add (Some (HeapThread a))) ;;;
  kcpu_op (interrupt_restore st).

(** A routine of the kernel goes on: those of the lifecycle here, the others
    in [Sync]. *)
Definition run_kernel_frame (f : frame) : KM unit :=
  match f with
  | JoinReturn (HeapThread a) st => join_rest a st
  | JoinReturn IdleThread _ => fail BadPointer
  | ReaperWoken st => reaper_woken st
  | _ => sync_op (run_frame f)
  end.
