(* ===== verification/Elf.v ===== *)
(** * The ELF loader

    [kernel/kernel/elf_loader.c]. [elf_validate] reads the image through any
    byte memory; [elf_load] runs in the kernel, where the image and the
    physical pages are both reached through the direct mapping. *)

From Stdlib Require Import Ascii String.
From S2P Require Import Prelude Layout Machine DList Pmm CString Printf Ram Words Paging Vam Vmm Heap HeapSupply Task Sync Fs Kernel.

Definition ELF_MAGIC0 : Z := 0x7F.
Definition ELF_MAGIC1 : Z := 69.
Definition ELF_MAGIC2 : Z := 76.
Definition ELF_MAGIC3 : Z := 70.
Definition ELFCLASS32 : Z := 1.
Definition ELFDATA2LSB : Z := 1.
Definition ET_EXEC : Z := 2.
Definition EM_386 : Z := 3.
Definition PT_LOAD : Z := 1.
Definition PF_W : Z := 2.

(** [sizeof] *)
Definition ELF_HEADER_SIZE : Z := 52.
Definition PROGRAM_HEADER_SIZE : Z := 32.

Section Validate.
Context {Mem : Type} `{ByteMem Mem}.

(** Members of [struct elf32_header] by their offsets. *)
Definition e_ident (image i : Z) : M Mem Z := ld (u32 (image + i)).
Definition e_type (image : Z) : M Mem Z := load_u16 (u32 (image + 16)).
Definition e_machine (image : Z) : M Mem Z := load_u16 (u32 (image + 18)).
Definition e_entry (image : Z) : M Mem Z := load_u32 (u32 (image + 24)).
Definition e_phoff (image : Z) : M Mem Z := load_u32 (u32 (image + 28)).
Definition e_phentsize (image : Z) : M Mem Z := load_u16 (u32 (image + 42)).
Definition e_phnum (image : Z) : M Mem Z := load_u16 (u32 (image + 44)).

(** [if (a != b) return 0;] *)
Definition check (m : M Mem Z) (v : Z) (k : M Mem Z) : M Mem Z :=
  let* x := m in if negb (x =? v) then ret 0 else k.

Definition elf_validate (image size : Z) : M Mem Z :=
  if image =? NULL then ret 0
  else if size <? ELF_HEADER_SIZE then ret 0
  else
    check (e_ident image 0) ELF_MAGIC0 (
    check (e_ident image 1) ELF_MAGIC1 (
    check (e_ident image 2) ELF_MAGIC2 (
    check (e_ident image 3) ELF_MAGIC3 (
    check (e_ident image 4) ELFCLASS32 (
    check (e_ident image 5) ELFDATA2LSB (
    check (e_type image) ET_EXEC (
    check (e_machine image) EM_386 (
    check (e_phentsize image) PROGRAM_HEADER_SIZE (
      let* phnum := e_phnum image in
      if phnum =? 0 then ret 0
      else
        let* phoff := e_phoff image in
        if size <? phoff then ret 0
        else if u32 (size - phoff) <? u32 (phnum * PROGRAM_HEADER_SIZE) then ret 0
        else ret 1))))))))).

(** [struct elf32_program_header] *)
Record program_header : Type := ProgramHeader {
  p_type : Z; p_offset : Z; p_vaddr : Z; p_filesz : Z; p_memsz : Z; p_flags : Z;
}.

Definition read_program_header (ph : Z) : M Mem program_header :=
  let* type := load_u32 ph in
  let* offset := load_u32 (u32 (ph + 4)) in
  let* vaddr := load_u32 (u32 (ph + 8)) in
  let* filesz := load_u32 (u32 (ph + 16)) in
  let* memsz := load_u32 (u32 (ph + 20)) in
  let* flags := load_u32 (u32 (ph + 24)) in
  ret (ProgramHeader type offset vaddr filesz memsz flags).

(** [(struct elf32_program_header * )(image + e_phoff + i * e_phentsize)] *)
Definition nth_program_header (image i : Z) : M Mem program_header :=
  let* phoff := e_phoff image in
  let* phentsize := e_phentsize image in
  read_program_header (u32 (u32 (image + phoff) + u32 (i * phentsize))).
End Validate.

(** ** A segment *)

(** The three tests of a segment against the image. *)
Definition segment_rejected (ph : program_header) (size : Z) : bool :=
  (p_memsz ph <? p_filesz ph) ||
  ((size <? p_offset ph) || (u32 (size - p_offset ph) <? p_filesz ph)) ||
  (u32 (p_vaddr ph + p_memsz ph) <? p_vaddr ph).

Definition segment_start (ph : program_header) : Z := page_down (p_vaddr ph).
Definition segment_end (ph : program_header) : Z := page_down (u32 (u32 (p_vaddr ph + p_memsz ph) + PAGE_SIZE - 1)).
Definition segment_flags (ph : program_header) : Z :=
  let flags := Z.lor PAGE_PRESENT PAGE_USER in
  if negb (Z.land (p_flags ph) PF_W =? 0) then Z.lor flags PAGE_WRITABLE else flags.

(** [page_offset], [copy_offset] and [copy_size] for the page at [page]. *)
Definition in_page_offset (ph : program_header) (page : Z) : Z :=
  if page =? segment_start ph then u32 (p_vaddr ph - segment_start ph) else 0.
Definition copy_offset (ph : program_header) (page : Z) : Z :=
  u32 (u32 (page - segment_start ph) + in_page_offset ph page).
Definition copy_size (ph : program_header) (page : Z) : Z :=
  if p_filesz ph <=? copy_offset ph page then 0
  else
    let n := u32 (p_filesz ph - copy_offset ph page) in
    if PAGE_SIZE - in_page_offset ph page <? n then PAGE_SIZE - in_page_offset ph page else n.

(** The page is zeroed, and the part of the file that belongs in it is copied.
    In the code the mapping is installed between the two. *)
Section Fill.
Context {Mem : Type} `{ByteMem Mem}.

Definition zero_page (phys : Z) : M Mem Z := memset (PHYS_TO_VIRT phys) 0 PAGE_SIZE.

Definition copy_segment_part (image : Z) (ph : program_header) (page phys : Z) : M Mem unit :=
  if negb (copy_size ph page =? 0) then
    memcpy (u32 (PHYS_TO_VIRT phys + in_page_offset ph page)) (u32 (u32 (image + p_offset ph) + copy_offset ph page))
      (copy_size ph page) ;;;
    ret tt
  else ret tt.
End Fill.

(** ** elf_load *)

(** What [elf_validate] prints, which over a bare memory it cannot. *)
Definition validate_message (image size : Z) : list Z :=
  if image =? NULL then text "image size null"
  else if size <? ELF_HEADER_SIZE then text "size < sizeof(struct elf32_header)"
  else [].

Definition LOADED_PAGE_SIZE : Z := 12.

Definition image_op {A} (m : M ram A) : KM A := machine_op (zoom ram_l m).

Definition loaded_container (n : option link) : KM Z :=
  match n with Some (LoadedNode a) => ret a | _ => fail BadPointer end.

(** One page of a segment; [Some tt] is [goto fail]. *)
Definition load_page (fuel : nat) (directory image : Z) (ph : program_header) (page : Z) : KM (option unit) :=
  let* phys := pmm_op pmm_alloc_page in
  if phys =? NULL then
    print_text (text "ELF: physical page allocation failed" ++ NEWLINE) ;;;
    ret (Some tt)
  else
    image_op (zero_page phys) ;;;
    machine_op (paging_map directory page phys (segment_flags ph)) ;;;
    let* translated := machine_op (paging_translate directory page) in
    if negb (translated =? phys) then
      print_text (text "ELF: failed to map virtual page " ++ unsigned_text 16 page ++ NEWLINE) ;;;
      machine_op (paging_unmap directory page) ;;;
      pmm_op (pmm_free_page phys) ;;;
      ret (Some tt)
    else
      let* loaded := alloc_block fuel LOADED_PAGE_SIZE in
      if loaded =? NULL then
        machine_op (paging_unmap directory page) ;;;
        pmm_op (pmm_free_page phys) ;;;
        ret (Some tt)
      else
        store k_loaded_l loaded page ;;;
        new_link (LoadedNode loaded) ;;;
        link_op (list_node_init (Some (LoadedNode loaded))) ;;;
        link_op (list_push_back (Some LoadedHead) (Some (LoadedNode loaded))) ;;;
        image_op (copy_segment_part image ph page phys) ;;;
        ret None.

(** [for (page = segment_start; page < segment_end; page += PAGE_SIZE)]; the
    bounds are page aligned, so [page] does not pass the end. *)
Definition load_segment (fuel : nat) (directory image size : Z) (ph : program_header) : KM (option unit) :=
  if negb (p_type ph =? PT_LOAD) then ret None
  else if segment_rejected ph size then ret (Some tt)
  else
    for_range 0 (Z.to_nat ((segment_end ph - segment_start ph) / PAGE_SIZE)) (fun i =>
      load_page fuel directory image ph (u32 (segment_start ph + i * PAGE_SIZE))).

(** The code after [fail:]. *)
Definition unload_pages (directory : Z) : KM unit :=
  let* fuel := gets (fun k => S (size (k_links k))) in
  loop fuel (fun _ : unit =>
    let* empty := link_op (list_empty (Some LoadedHead)) in
    if empty : bool then ret (inr tt)
    else
      let* node := link_op (list_back (Some LoadedHead)) in
      let* loaded := loaded_container node in
      let* virt := fetch k_loaded_l loaded in
      let* phys := machine_op (paging_translate directory virt) in
      link_op (list_remove node) ;;;
      machine_op (paging_unmap directory virt) ;;;
      (if negb (phys =? 0) then pmm_op (pmm_free_page phys) else ret tt) ;;;
      free_block loaded ;;;
      discard k_loaded_l loaded ;;;
      drop_link (LoadedNode loaded) ;;;
      ret (inl tt)) tt.

(** The result is [*entry], [None] for the answer 0. On success the records of
    the pages stay behind in the heap. *)
Definition elf_load (fuel : nat) (directory image size : Z) : KM (option Z) :=
  if (directory =? NULL) || (image =? NULL) then ret None
  else
    print_text (validate_message image size) ;;;
    let* ok := image_op (elf_validate image size) in
    if ok =? 0 then ret None
    else
      new_link LoadedHead ;;;
      link_op (list_init (Some LoadedHead)) ;;;
      let* phnum := image_op (e_phnum image) in
      let* failed := for_range 0 (Z.to_nat phnum) (fun i =>
        let* ph := image_op (nth_program_header image i) in
        load_segment fuel directory image size ph) in
      match failed with
      | Some _ => unload_pages directory ;;; ret None
      | None =>
          let* entry := image_op (e_entry image) in
          print_text (text "ELF loaded: entry=" ++ unsigned_text 16 entry ++ NEWLINE) ;;;
          ret (Some entry)
      end.
