(* ===== verification/Syscall.v ===== *)
(** * System calls

    [kernel/kernel/exec.c] and the handlers and the dispatcher of
    [kernel/arch/x86/syscall.c], over the whole kernel. *)

From Stdlib Require Import Ascii String.
From S2P Require Import Prelude Layout Machine DList Pmm CString Printf Ram Words Paging Vam Vmm Heap HeapSupply Task Sync Fs Exec Console Descriptors Kernel Process Lifecycle Elf.

Definition EXEC_MAX_ARG_LENGTH : Z := 256.

Definition SYS_EXIT : Z := 1.
Definition SYS_READ : Z := 3.
Definition SYS_WRITE : Z := 4.
Definition SYS_OPEN : Z := 5.
Definition SYS_CLOSE : Z := 6.
Definition SYS_EXEC : Z := 7.

(** [(uint32_t)-1] *)
Definition SYSCALL_ERROR : Z := 0xFFFFFFFF.

(** Bytes at virtual addresses, through the directory in CR3. *)
Definition virtual_op {A} (m : M machine A) : KM A := machine_op m.

(** ** exec.c *)

(** [while (user_string[length] != '\0') { length++; if (length >= MAX) goto fail; }] *)
Definition argument_length_of (string : Z) : KM (option Z) :=
  loop (Z.to_nat EXEC_MAX_ARG_LENGTH) (fun length =>
    let* c := virtual_op (ld (u32 (string + length))) in
    if c =? 0 then ret (inr (Some length))
    else
      let length := length + 1 in
      if EXEC_MAX_ARG_LENGTH <=? length then ret (inr None) else ret (inl length)) 0.

(** One argument: [inl] goes on, [inr None] is the end of the vector and
    [inr (Some tt)] is [goto fail]. *)
Definition copy_argument (fuel : nat) (directory user_argv i : Z) (argv : list Z) : KM (list Z + (list Z * bool)) :=
  let pointer_address := u32 (user_argv + i * 4) in
  let* ok := machine_op (paging_user_range_valid directory pointer_address 4) in
  if negb ok then ret (inr (argv, false))
  else
    let* user_string := virtual_op (load_u32 pointer_address) in
    if user_string =? NULL then ret (inr (argv, true))
    else
      let* ok := machine_op (paging_user_string_valid fuel directory user_string) in
      if negb ok then ret (inr (argv, false))
      else
        let* length := argument_length_of user_string in
        match length with
        | None => ret (inr (argv, false))
        | Some length =>
            let* copy := alloc_block fuel (length + 1) in
            if copy =? NULL then ret (inr (argv, false))
            else
              virtual_op (memcpy copy user_string (length + 1)) ;;;
              ret (inl (argv ++ [copy]))
        end.

(** [kfree] of every pointer that is not [NULL]. *)
Fixpoint exec_args_destroy (argv : list Z) : KM unit :=
  match argv with
  | [] => ret tt
  | p :: argv' => (if negb (p =? NULL) then free_block p else ret tt) ;;; exec_args_destroy argv'
  end.

(** The arguments, [None] for the answer -1. *)
Definition exec_args_copy_from_user (fuel : nat) (directory user_argv : Z) : KM (option exec_args) :=
  if directory =? NULL then ret None
  else if user_argv =? NULL then ret None
  else
    let* r := for_state 0 (Z.to_nat EXEC_MAX_ARGS) (copy_argument fuel directory user_argv) [] in
    match r with
    | inr (argv, true) => ret (Some (ExecArgs (len argv) argv))
    | inr (argv, false) | inl argv => exec_args_destroy argv ;;; ret None
    end.

(** ** syscall.c *)

(** [struct registers] as far as the handler uses it, with the stack pointer
    and segment that the processor pushed. *)
Record registers : Type := Registers {
  eax : Z; ebx : Z; ecx : Z; edx : Z; eip : Z; user_esp : Z; user_ss : Z;
}.

Definition with_eax (v : Z) (r : registers) : registers :=
  Registers v (ebx r) (ecx r) (edx r) (eip r) (user_esp r) (user_ss r).

(** [thread = scheduler_current(); process = thread->process;] and the two
    tests; [None] is the error. *)
Definition current_process : KM (option Z) :=
  let* cur := tasks_op scheduler_current in
  match cur with
  | None => ret None
  | Some _ =>
      let* th := tasks_op (get_thread cur) in
      if Task.process th =? NULL then ret None else ret (Some (Task.process th))
  end.

Definition with_process {A} (error : A) (k : Z -> KM A) : KM A :=
  let* p := current_process in
  match p with
  | None => ret error
  | Some p => k p
  end.

Definition sys_exit (code : Z) : KM unit :=
  let* thread := tasks_op scheduler_current in
  let* th := tasks_op (get_thread thread) in
  let* pr := fetch k_processes_l (Task.process th) in
  print_text (text "[EXIT] process=" ++ characters (name pr) ++ text " status=" ++ unsigned_text 10 code ++ NEWLINE) ;;;
  tasks_op thread_kill_current.

Definition sys_write (fd buf n : Z) : KM Z :=
  with_process SYSCALL_ERROR (fun p =>
    if negb (fd =? 1) then ret SYSCALL_ERROR
    else
      let* directory := get_directory p in
      let* ok := machine_op (paging_user_range_valid directory buf n) in
      if negb ok then ret SYSCALL_ERROR
      else
        for_each 0 (Z.to_nat n) (fun i =>
          let* c := virtual_op (ld (u32 (buf + i))) in
          zoom k_console_l (console_putchar c)) ;;;
        ret n).

Definition sys_open (fuel : nat) (path access : Z) : KM Z :=
  with_process (-1) (fun p =>
    let* directory := get_directory p in
    let* ok := machine_op (paging_user_string_valid fuel directory path) in
    if negb ok then ret (-1)
    else disk_op (process_open fuel p path access)).

Definition sys_read (fd buffer count : Z) : KM Z :=
  with_process (-1) (fun p =>
    let* directory := get_directory p in
    let* ok := machine_op (paging_user_range_valid directory buffer count) in
    if negb ok then ret (-1)
    else disk_op (process_read p fd buffer count)).

Definition sys_close (fd : Z) : KM Z := with_process (-1) (fun p => disk_op (process_close p fd)).

Section SysExec.
(** The address of the local [struct file]. *)
Context (local : Z).

(** What every error path after the file was opened does. *)
Definition exec_fail (args : exec_args) : KM (option registers) :=
  disk_op (file_close local) ;;;
  exec_args_destroy (argv args) ;;;
  ret None.

(** An error with the new directory attached to the process. *)
Definition exec_fail_detach (p old new : Z) (args : exec_args) : KM (option registers) :=
  put_directory p old ;;;
  machine_op (paging_destroy_directory new) ;;;
  exec_fail args.

(** From the commit on: the new directory is loaded, the old one destroyed and
    the user context replaced. *)
Definition exec_commit (regs : registers) (p old new entry esp : Z) (args : exec_args) (stack_virt : Z)
    : KM (option registers) :=
  let* ok := machine_op (paging_user_range_valid new stack_virt USER_STACK_SIZE) in
  ASSERT "paging_user_range_valid(new_directory, stack_virt, USER_STACK_SIZE)" ok ;;;
  let new_phys := VIRT_TO_PHYS new in
  ASSERT "new_directory_phys != 0" (negb (new_phys =? 0)) ;;;
  kcpu_op (paging_load_directory new_phys) ;;;
  let* cr := kcpu_op (gets cr3) in
  ASSERT "read_cr3() == new_directory_phys" (cr =? new_phys) ;;;
  put_directory p new ;;;
  machine_op (paging_destroy_directory old) ;;;
  let* ok := machine_op (paging_user_range_valid new stack_virt USER_STACK_SIZE) in
  ASSERT "paging_user_range_valid(new_directory, stack_virt, USER_STACK_SIZE)" ok ;;;
  ASSERT "*syscall_user_ss_slot(regs) == GDT_USER_DATA_SELECTOR" (user_ss regs =? GDT_USER_DATA_SELECTOR) ;;;
  disk_op (file_close local) ;;;
  exec_args_destroy (argv args) ;;;
  ret (Some (Registers 0 (ebx regs) (ecx regs) (edx regs) entry esp (user_ss regs))).

(** [None] is the answer -1 with the registers as they were. *)
Definition sys_exec (fuel : nat) (regs : registers) (path user_argv : Z) : KM (option registers) :=
  with_process None (fun p =>
    let* old := get_directory p in
    let* ok := machine_op (paging_user_string_valid fuel old path) in
    if negb ok then ret None
    else
      let* args := exec_args_copy_from_user fuel old user_argv in
      match args with
      | None => ret None
      | Some args =>
          disk_op (modify (fun d => Disk (d_fs d) (d_mem d) (<[local := File NULL 0 0]> (d_files d)) (d_table d))) ;;;
          let* e := disk_op (file_open fuel path FILE_ACCESS_READ local) in
          if negb (e =? 0) then exec_args_destroy (argv args) ;;; ret None
          else
            let* image := disk_op (file_data local) in
            let* image_size := disk_op (file_size local) in
            if (image =? NULL) || (image_size =? 0) then exec_fail args
            else
              let* new := machine_op paging_create_directory in
              if new =? NULL then exec_fail args
              else
                let* entry := elf_load fuel new image image_size in
                match entry with
                | None => machine_op (paging_destroy_directory new) ;;; exec_fail args
                | Some entry =>
                    put_directory p new ;;;
                    let* top := usermode_stack_create fuel p in
                    match top with
                    | None => exec_fail_detach p old new args
                    | Some top =>
                        let stack_virt := u32 (top - USER_STACK_SIZE) in
                        let* ok := machine_op (paging_validate_mapping new stack_virt) in
                        ASSERT "paging_validate_mapping(new_directory, stack_virt)" ok ;;;
                        let* stack_phys := machine_op (paging_translate new stack_virt) in
                        ASSERT "stack_phys != 0" (negb (stack_phys =? 0)) ;;;
                        let* esp := virtual_op (exec_build_user_stack fuel (Some args) stack_virt stack_phys) in
                        match esp with
                        | None => exec_fail_detach p old new args
                        | Some esp => exec_commit regs p old new entry esp args stack_virt
                        end
                    end
                end
      end).

Definition syscall_handler (fuel : nat) (regs : registers) : KM registers :=
  let nr := eax regs in
  let arg1 := ebx regs in
  let arg2 := ecx regs in
  let arg3 := edx regs in
  if nr =? SYS_EXIT then sys_exit arg1 ;;; ret regs
  else if nr =? SYS_WRITE then
    let* r := sys_write (s32 arg1) arg2 arg3 in ret (with_eax (u32 r) regs)
  else if nr =? SYS_OPEN then
    let* r := sys_open fuel arg1 arg2 in ret (with_eax (u32 r) regs)
  else if nr =? SYS_READ then
    let* r := sys_read (s32 arg1) arg2 arg3 in ret (with_eax (u32 r) regs)
  else if nr =? SYS_CLOSE then
    let* r := sys_close (s32 arg1) in ret (with_eax (u32 r) regs)
  else if nr =? SYS_EXEC then
    let* r := sys_exec fuel regs arg1 arg2 in
    match r with
    | Some regs' => ret (with_eax 0 regs')
    | None => ret (with_eax (u32 (-1)) regs)
    end
  else ret (with_eax SYSCALL_ERROR regs).
End SysExec.
