(* ===== verification/ElfFile.v ===== *)
(** * ELF files as byte sequences

    A reference reading of an executable, as pure functions of its bytes: the
    tests on the header, the program headers, and the byte every address of
    the program's memory starts with. The loader's routines are shown to
    compute it. *)

From S2P Require Import Prelude Layout CString Ram Words Paging Elf.

(** ** The reference *)

Definition byte_at (bs : list Z) (i : Z) : Z := default 0 (bs !! Z.to_nat i).
Definition half_at (bs : list Z) (i : Z) : Z := u16 (byte_at bs i + Z.shiftl (byte_at bs (i + 1)) 8).
Definition word_at (bs : list Z) (i : Z) : Z :=
  word_of (byte_at bs i) (byte_at bs (i + 1)) (byte_at bs (i + 2)) (byte_at bs (i + 3)).

(** A 32-bit executable for this machine whose program headers lie in the file. *)
Definition executable (bs : list Z) : bool :=
  (ELF_HEADER_SIZE <=? len bs) &&
  ((byte_at bs 0 =? ELF_MAGIC0) && (byte_at bs 1 =? ELF_MAGIC1) && (byte_at bs 2 =? ELF_MAGIC2) &&
   (byte_at bs 3 =? ELF_MAGIC3)) &&
  (byte_at bs 4 =? ELFCLASS32) && (byte_at bs 5 =? ELFDATA2LSB) &&
  (half_at bs 16 =? ET_EXEC) && (half_at bs 18 =? EM_386) && (half_at bs 42 =? PROGRAM_HEADER_SIZE) &&
  negb (half_at bs 44 =? 0) && (word_at bs 28 + half_at bs 44 * PROGRAM_HEADER_SIZE <=? len bs).

Definition program_header_at (bs : list Z) (i : Z) : program_header :=
  let o := word_at bs 28 + 32 * i in
  ProgramHeader (word_at bs o) (word_at bs (o + 4)) (word_at bs (o + 8)) (word_at bs (o + 16)) (word_at bs (o + 20))
    (word_at bs (o + 24)).

Definition program_headers (bs : list Z) : list program_header := program_header_at bs <$> seqZ 0 (half_at bs 44).

(** The byte of a segment at [va]: from the file, or 0 after its end. *)
Definition segment_byte (bs : list Z) (ph : program_header) (va : Z) : Z :=
  if (p_vaddr ph <=? va) && (va <? p_vaddr ph + p_filesz ph) then byte_at bs (p_offset ph + (va - p_vaddr ph)) else 0.

(** The pages a segment takes. *)
Definition segment_pages (ph : program_header) : list Z :=
  if p_type ph =? PT_LOAD
  then (fun i => segment_start ph + i * PAGE_SIZE) <$> seqZ 0 ((segment_end ph - segment_start ph) / PAGE_SIZE)
  else [].

(** The pages of the program, with the segment each belongs to. *)
Definition pages_of (ph : program_header) : list (program_header * Z) := pair ph <$> segment_pages ph.
Definition program_pages (bs : list Z) : list (program_header * Z) := mjoin (pages_of <$> program_headers bs).

(** The segment an address belongs to, and the byte there. *)
Definition program_segment (bs : list Z) (va : Z) : option program_header :=
  fst <$> (snd <$> list_find (fun j => j.2 / PAGE_SIZE = va / PAGE_SIZE) (program_pages bs)).
Definition program_byte (bs : list Z) (va : Z) : option Z :=
  (fun ph => segment_byte bs ph va) <$> program_segment bs va.

(** A segment the loader refuses. *)
Definition refused (bs : list Z) (ph : program_header) : bool := (p_type ph =? PT_LOAD) && segment_rejected ph (len bs).

(** Segments on page boundaries, in the user half, on pages of their own. *)
Record laid_out (bs : list Z) : Prop := {
  lay_aligned : forall ph, ph ∈ program_headers bs -> p_type ph = PT_LOAD ->
    p_vaddr ph mod PAGE_SIZE = 0 /\ p_vaddr ph + p_memsz ph <= KERNEL_VIRT_BASE;
  lay_apart : NoDup (program_pages bs).*2;
}.

Definition page_bytes (bs : list Z) (ph : program_header) (page : Z) : list Z :=
  (fun i => segment_byte bs ph (page + i)) <$> seqZ 0 PAGE_SIZE.

(** ** Reading the file *)

Section File.
Context {Mem : Type} `{ByteMemLaws Mem}.
Implicit Types (m : Mem) (image i : Z) (bs : list Z) (ph : program_header).

Lemma holds_byte m image bs i :
  holds m image bs -> 0 <= i < len bs ->
  load8 (image + i) m = Some (byte_at bs i) /\ u32 (image + i) = image + i.
Proof.
  intros Hh Hi. destruct (lookup_lt_is_Some_2 bs (Z.to_nat i)) as [c E]; [unfold len in Hi; lia|].
  destruct (holds_lookup _ _ _ _ _ Hh E) as [E' R]. rewrite Z2Nat.id in E', R by lia.
  split; [|by apply u32_id]. rewrite E'. unfold byte_at. by rewrite E.
Qed.

Lemma wp_file_byte m image bs i (Q : Z -> Mem -> Prop) :
  holds m image bs -> 0 <= i < len bs -> Q (byte_at bs i) m -> wp (ld (u32 (image + i))) Q m.
Proof. intros Hh Hi HQ. destruct (holds_byte m image bs i Hh Hi) as [E ->]. by eapply wp_ld. Qed.

Lemma wp_file_half m image bs i (Q : Z -> Mem -> Prop) :
  holds m image bs -> 0 <= i -> i + 2 <= len bs -> Q (half_at bs i) m -> wp (load_u16 (u32 (image + i))) Q m.
Proof.
  intros Hh Hi Hl HQ. unfold load_u16. destruct (holds_byte m image bs i Hh ltac:(lia)) as [_ ->].
  rewrite <- (Z.add_0_r (image + i)) at 1. rewrite <- Z.add_assoc.
  destruct (holds_byte m image bs (i + 0) Hh ltac:(lia)) as [E0 _].
  apply wp_bind; eapply wp_ld; [exact E0|]. rewrite <- Z.add_assoc.
  apply wp_bind, (wp_file_byte m image bs); [done|lia|]. apply wp_ret. by rewrite Z.add_0_r.
Qed.

Lemma wp_file_word m image bs i (Q : Z -> Mem -> Prop) :
  holds m image bs -> 0 <= i -> i + 4 <= len bs -> Q (word_at bs i) m -> wp (load_u32 (u32 (image + i))) Q m.
Proof.
  intros Hh Hi Hl HQ. unfold load_u32. destruct (holds_byte m image bs i Hh ltac:(lia)) as [_ ->].
  destruct (holds_byte m image bs i Hh ltac:(lia)) as [E0 _].
  apply wp_bind; eapply wp_ld; [exact E0|]. rewrite <- !Z.add_assoc.
  do 3 (apply wp_bind, (wp_file_byte m image bs); [done|lia|]). by apply wp_ret.
Qed.

(** The file is in memory below the end of the address space. *)
Definition file_at m image bs : Prop := holds m image bs /\ image <> NULL /\ len bs < 2 ^ 32.

Lemma wp_elf_validate m image bs (Q : Z -> Mem -> Prop) :
  file_at m image bs -> Q (if executable bs then 1 else 0) m -> wp (elf_validate image (len bs)) Q m.
Proof.
  intros (Hh & Hnz & Hlen) HQ. unfold elf_validate. rewrite (proj2 (Z.eqb_neq _ _)) by done.
  unfold executable in HQ.
  destruct (Z.leb_spec ELF_HEADER_SIZE (len bs)) as [Hs|Hs].
  2:{ rewrite (proj2 (Z.ltb_lt _ _)) by done. by apply wp_ret. }
  rewrite (proj2 (Z.ltb_ge _ _)) by done. cbn [andb] in HQ. unfold ELF_HEADER_SIZE in Hs.
  assert (forall i v k (Q' : Z -> Mem -> Prop), 0 <= i < 52 ->
    (if byte_at bs i =? v then wp k Q' m else Q' 0 m) -> wp (check (e_ident image i) v k) Q' m) as Hb.
  { intros i v k Q' Hi Hk. apply wp_bind, (wp_file_byte m image bs); [done|lia|]. by destruct (_ =? v). }
  assert (forall i v k (Q' : Z -> Mem -> Prop), 0 <= i < 51 ->
    (if half_at bs i =? v then wp k Q' m else Q' 0 m) -> wp (check (load_u16 (u32 (image + i))) v k) Q' m) as Hw.
  { intros i v k Q' Hi Hk. apply wp_bind, (wp_file_half m image bs); [done|lia|lia|]. by destruct (_ =? v). }
  do 6 (apply Hb; [lia|]; destruct (_ =? _); cbn [andb] in HQ; [|done]).
  do 3 (apply Hw; [lia|]; destruct (_ =? _); cbn [andb] in HQ; [|done]).
  apply wp_bind, (wp_file_half m image bs); [done|lia|lia|].
  destruct (half_at bs 44 =? 0); cbn [negb andb] in HQ; [by apply wp_ret|].
  apply wp_bind, (wp_file_word m image bs); [done|lia|lia|].
  pose proof (u32_range (byte_at bs 28 + Z.shiftl (byte_at bs 29) 8 + Z.shiftl (byte_at bs 30) 16 + Z.shiftl (byte_at bs 31) 24)) as Hoff.
  pose proof (u16_range (byte_at bs 44 + Z.shiftl (byte_at bs 45) 8)) as Hnum.
  change (is_u32 (word_at bs 28)) in Hoff. change (is_u16 (half_at bs 44)) in Hnum.
  unfold is_u32, is_u16, PROGRAM_HEADER_SIZE in *.
  destruct (Z.ltb_spec (len bs) (word_at bs 28)) as [Hl|Hl].
  { apply wp_ret. by rewrite (proj2 (Z.leb_gt _ _)) in HQ by lia. }
  rewrite (u32_id (len bs - _)), (u32_id (_ * 32)) by (unfold is_u32; lia).
  destruct (Z.ltb_spec (len bs - word_at bs 28) (half_at bs 44 * 32)).
  - apply wp_ret. by rewrite (proj2 (Z.leb_gt _ _)) in HQ by lia.
  - apply wp_ret. by rewrite (proj2 (Z.leb_le _ _)) in HQ by lia.
Qed.

Lemma executable_facts bs : executable bs = true ->
  52 <= len bs /\ half_at bs 42 = 32 /\ half_at bs 44 <> 0 /\ word_at bs 28 + half_at bs 44 * 32 <= len bs.
Proof.
  unfold executable. rewrite !andb_true_iff. intros [[[[[[[[H1%Z.leb_le _] _] _] _] _] H2%Z.eqb_eq] H3%negb_true_iff] H4%Z.leb_le].
  by apply Z.eqb_neq in H3.
Qed.

(** The program headers of an executable. *)
Lemma wp_nth_program_header m image bs i (Q : program_header -> Mem -> Prop) :
  file_at m image bs -> executable bs = true -> 0 <= i < half_at bs 44 ->
  Q (program_header_at bs i) m -> wp (nth_program_header image i) Q m.
Proof.
  intros (Hh & _ & Hlen) He Hi HQ. destruct (executable_facts _ He) as (Hmin & Hps & _ & Hle).
  pose proof Hh as (Hp & Hr & _). change (Z.of_nat (length bs)) with (len bs) in Hr.
  assert (is_u32 (word_at bs 28)) as Hoff by apply u32_range. assert (is_u16 (half_at bs 44)) as Hn by apply u16_range.
  unfold is_u32, is_u16 in *.
  unfold nth_program_header. apply wp_bind, (wp_file_word m image bs); [done|lia|lia|].
  apply wp_bind, (wp_file_half m image bs); [done|lia|lia|]. rewrite Hps.
  rewrite (u32_id (image + _)), (u32_id (i * 32)) by (unfold is_u32; lia).
  replace (image + word_at bs 28 + i * 32) with (image + (word_at bs 28 + 32 * i)) by lia.
  unfold program_header_at in HQ. set (o := word_at bs 28 + 32 * i) in *. unfold read_program_header.
  rewrite (u32_id (image + o)) by (unfold is_u32; lia). rewrite <- (u32_id (image + o)) at 1 by (unfold is_u32; lia).
  rewrite <- !Z.add_assoc. do 6 (apply wp_bind, (wp_file_word m image bs); [done|lia|lia|]). by apply wp_ret.
Qed.

(** ** The contents of a page *)

Lemma segment_byte_beyond bs ph va : p_vaddr ph + p_filesz ph <= va -> segment_byte bs ph va = 0.
Proof. intros Hle. unfold segment_byte. rewrite (proj2 (Z.ltb_ge _ _)) by done. by rewrite andb_false_r. Qed.

(** A list given by its elements. *)
Lemma seqZ_ext {A} (f : Z -> A) (l : list A) n :
  len l = n -> (forall i, 0 <= i < n -> l !! Z.to_nat i = Some (f i)) -> f <$> seqZ 0 n = l.
Proof.
  intros Hn Hl. apply list_eq. intros i. rewrite list_lookup_fmap. destruct (decide (Z.of_nat i < n)) as [Hi|Hi].
  - rewrite lookup_seqZ_lt by lia. cbn. rewrite Z.add_0_l. rewrite <- (Hl (Z.of_nat i)) by lia. by rewrite Nat2Z.id.
  - rewrite lookup_seqZ_ge by lia. cbn. symmetry. apply lookup_ge_None_2. unfold len in Hn. lia.
Qed.

(** A segment that passes the tests, on page boundaries. *)
Definition aligned_segment bs ph : Prop :=
  p_vaddr ph mod PAGE_SIZE = 0 /\ is_u32 (p_vaddr ph) /\ 0 <= p_offset ph /\ 0 <= p_filesz ph /\
  p_offset ph + p_filesz ph <= len bs.

Lemma wp_zero_page m phys (Q : Z -> Mem -> Prop) :
  writable m (PHYS_TO_VIRT phys) PAGE_SIZE ->
  (forall m', holds m' (PHYS_TO_VIRT phys) (replicate (Z.to_nat PAGE_SIZE) 0) ->
     same_outside (PHYS_TO_VIRT phys) PAGE_SIZE m m' -> Q (PHYS_TO_VIRT phys) m') ->
  wp (zero_page phys) Q m.
Proof.
  intros (Hp & Hle & Hw) HQ. eapply wp_mono; [apply wp_memset; [done|done|lia|done]|].
  intros r m' (-> & Hh & Hs). by apply HQ.
Qed.

(** The first [n] bytes of a page come from the file, the rest are 0. *)
Lemma page_bytes_split bs ph page n :
  0 <= p_offset ph -> p_vaddr ph <= page -> p_offset ph + p_filesz ph <= len bs ->
  0 < n <= PAGE_SIZE -> n <= p_filesz ph - (page - p_vaddr ph) ->
  (n < PAGE_SIZE -> n = p_filesz ph - (page - p_vaddr ph)) ->
  page_bytes bs ph page =
    take (Z.to_nat n) (drop (Z.to_nat (p_offset ph + (page - p_vaddr ph))) bs) ++ replicate (Z.to_nat (PAGE_SIZE - n)) 0.
Proof.
  intros Ho Hv Hle Hn Hnf Hns. apply seqZ_ext.
  - rewrite len_app. unfold len in *. rewrite length_take, length_drop, length_replicate. lia.
  - intros i Hi. unfold segment_byte. rewrite (proj2 (Z.leb_le _ _)) by lia. cbn [andb].
    destruct (Z.ltb_spec (page + i) (p_vaddr ph + p_filesz ph)).
    + rewrite lookup_app_l by (rewrite length_take, length_drop; unfold len in *; lia).
      rewrite lookup_take_lt, lookup_drop by lia. unfold byte_at.
      destruct (lookup_lt_is_Some_2 bs (Z.to_nat (p_offset ph + (page - p_vaddr ph)) + Z.to_nat i)) as [c E]; [unfold len in *; lia|].
      rewrite E. replace (Z.to_nat (p_offset ph + (page + i - p_vaddr ph)))
        with (Z.to_nat (p_offset ph + (page - p_vaddr ph)) + Z.to_nat i)%nat by lia. by rewrite E.
    + rewrite lookup_app_r by (rewrite length_take, length_drop; unfold len in *; lia).
      apply lookup_replicate_2. rewrite length_take, length_drop. unfold len in *. lia.
Qed.

(** A part of the file over the start of a zeroed page. *)
Lemma wp_copy_page m image bs a n dst (Q : unit -> Mem -> Prop) :
  holds m image bs -> 0 <= a -> a + n <= len bs -> 0 < n <= PAGE_SIZE ->
  holds m dst (replicate (Z.to_nat PAGE_SIZE) 0) -> (image + len bs <= dst \/ dst + PAGE_SIZE <= image) ->
  (forall m', holds m' dst (take (Z.to_nat n) (drop (Z.to_nat a) bs) ++ replicate (Z.to_nat (PAGE_SIZE - n)) 0) ->
     same_outside dst PAGE_SIZE m m' -> Q tt m') ->
  wp (memcpy dst (image + a) n ;;; ret tt) Q m.
Proof.
  intros Hh Ha Hle Hn Hz Hdis HQ. set (src := take (Z.to_nat n) (drop (Z.to_nat a) bs)) in *.
  assert (Z.of_nat (length src) = n) as Els by (unfold src, len in *; rewrite length_take, length_drop; lia).
  assert (holds m (image + a) src) as Hsrc.
  { assert (a = len (take (Z.to_nat a) bs)) as -> by (unfold len in *; rewrite length_take; lia).
    apply (holds_at m image _ src (drop (Z.to_nat n) (drop (Z.to_nat a) bs))).
    unfold src. by rewrite !take_drop. }
  pose proof Hz as (Hd & Hd2 & Hdl). rewrite length_replicate, Z2Nat.id in Hd2 by done.
  assert (replicate (Z.to_nat PAGE_SIZE) 0 = replicate (Z.to_nat n) 0 ++ replicate (Z.to_nat (PAGE_SIZE - n)) 0) as Esplit
    by (rewrite <- replicate_add; f_equal; lia).
  apply wp_bind. eapply wp_mono; [rewrite <- Els; apply (wp_memcpy m dst (image + a) src)|].
  - done.
  - done.
  - lia.
  - intros i Hi. pose proof (Hdl (Z.to_nat i) 0) as E. rewrite Z2Nat.id in E by lia. rewrite E; [done|].
    apply lookup_replicate_2. lia.
  - lia.
  - intros r m' (_ & Hh' & Hs). rewrite Els in Hs. apply wp_ret, HQ; [|apply (same_outside_sub _ _ dst n); [done|lia|lia]].
    apply holds_app. split; [done|]. rewrite Els. rewrite Esplit in Hz. apply holds_app in Hz as [_ Hz].
    rewrite length_replicate, Z2Nat.id in Hz by lia. eapply holds_outside; [exact Hz|exact Hs|lia].
Qed.

Lemma wp_copy_segment_part m image bs ph page phys (Q : unit -> Mem -> Prop) :
  file_at m image bs -> aligned_segment bs ph -> p_vaddr ph <= page < 2 ^ 32 -> page mod PAGE_SIZE = 0 ->
  holds m (PHYS_TO_VIRT phys) (replicate (Z.to_nat PAGE_SIZE) 0) ->
  (image + len bs <= PHYS_TO_VIRT phys \/ PHYS_TO_VIRT phys + PAGE_SIZE <= image) ->
  (forall m', holds m' (PHYS_TO_VIRT phys) (page_bytes bs ph page) ->
     same_outside (PHYS_TO_VIRT phys) PAGE_SIZE m m' -> Q tt m') ->
  wp (copy_segment_part image ph page phys) Q m.
Proof.
  intros (Hh & _ & Hlen) (Hal & Hv & Ho & Hf & Hle) Hpage Hpal Hz Hdis HQ. unfold copy_segment_part.
  assert (segment_start ph = p_vaddr ph) as Es.
  { unfold segment_start. rewrite page_down_div by done. unfold PAGE_SIZE in *. lia. }
  assert (in_page_offset ph page = 0) as Ei.
  { unfold in_page_offset. rewrite Es. destruct (_ =? _); [|done]. by rewrite Z.sub_diag. }
  set (o := page - p_vaddr ph). assert (copy_offset ph page = o) as Eo.
  { unfold copy_offset. rewrite Ei, Es, Z.add_0_r. unfold is_u32 in Hv.
    rewrite (u32_id (page - _)), u32_id by (unfold is_u32; lia). done. }
  set (n := Z.max 0 (Z.min PAGE_SIZE (p_filesz ph - o))).
  assert (0 <= o < 2 ^ 32) as Hor by (unfold is_u32 in Hv; lia).
  assert (copy_size ph page = n) as En.
  { unfold copy_size. rewrite Ei, Eo, Z.sub_0_r. destruct (Z.leb_spec (p_filesz ph) o); [lia|].
    rewrite u32_id by (unfold is_u32; lia). destruct (Z.ltb_spec PAGE_SIZE (p_filesz ph - o)); unfold PAGE_SIZE in *; lia. }
  rewrite En. destruct (Z.eqb_spec n 0) as [Hn0|Hn0]; cbn [negb].
  { apply wp_ret. apply HQ; [|done]. assert (page_bytes bs ph page = replicate (Z.to_nat PAGE_SIZE) 0) as ->; [|done].
    apply seqZ_ext; [unfold len, PAGE_SIZE; rewrite length_replicate; lia|]. intros i Hi.
    rewrite lookup_replicate_2 by lia. rewrite segment_byte_beyond; [done|]. unfold PAGE_SIZE in *. lia. }
  assert (0 < n <= PAGE_SIZE /\ n <= p_filesz ph - o /\ (n < PAGE_SIZE -> n = p_filesz ph - o)) as (Hn & Hnf & Hns)
    by (clear -Hn0; unfold n, PAGE_SIZE in *; lia).
  clearbody n. clear Hn0 En Es. rewrite Ei, Eo, (u32_id (PHYS_TO_VIRT phys + 0)), Z.add_0_r
    by (rewrite Z.add_0_r; apply u32_range). clear Ei Eo.
  assert (u32 (u32 (image + p_offset ph) + o) = image + (p_offset ph + o)) as ->.
  { destruct Hh as (Hi0 & Hi1 & _). change (Z.of_nat (length bs)) with (len bs) in Hi1. clear -Hi0 Hi1 Ho Hf Hle Hn Hnf Hor Hlen.
    rewrite (u32_id (image + _)), u32_id by (unfold is_u32; lia). lia. }
  apply (wp_copy_page m image bs (p_offset ph + o) n); [done|lia|lia|done|done|done|].
  intros m' Hh' Hs. apply HQ; [|done]. rewrite (page_bytes_split bs ph page n); [exact Hh'|done|lia|done..].
Qed.
End File.
