(* ===== verification/ElfPages.v ===== *)
(** * The pages of a program while it is loaded

    The machine during [elf_load]: which pages of the process were mapped, to
    which frames, and what the steps of the loader do to them. Nothing here
    depends on the loader's records in the heap. *)

From S2P Require Import Prelude Layout Bitmap Machine Pmm CString Ram Words Paging PagingSpec Vam Vmm Heap HeapSpec HeapSupply TaskSpace Elf ElfFile.

(** One page: the segment, its address, its frame and the loader's record. *)
Record page_rec : Type := PageRec { lp_ph : program_header; lp_page : Z; lp_frame : Z; lp_node : Z }.

Definition leaf_of (p : page_rec) : Z := leaf (lp_frame p) (segment_flags (lp_ph p)).

(** The loaded page an address lies in. *)
Definition page_of (L : list page_rec) (va : Z) : option page_rec :=
  snd <$> list_find (fun p => lp_page p / PAGE_SIZE = va / PAGE_SIZE) L.

(** A page of the user half. *)
Definition user_page (va : Z) : Prop := user_address va /\ va mod PAGE_SIZE = 0.

Section PageOf.
Implicit Types (L : list page_rec) (p : page_rec) (va : Z).

Lemma page_of_Some L va p : page_of L va = Some p -> p ∈ L /\ lp_page p / PAGE_SIZE = va / PAGE_SIZE.
Proof.
  unfold page_of. destruct (list_find _ L) as [[i q]|] eqn:E; [|done]. cbn. intros [= <-].
  apply list_find_Some in E as (E & Hp & _). split; [by eapply list_elem_of_lookup_2|done].
Qed.

Lemma page_of_None L va p : page_of L va = None -> p ∈ L -> lp_page p / PAGE_SIZE <> va / PAGE_SIZE.
Proof.
  unfold page_of. destruct (list_find _ L) as [[i q]|] eqn:E; [done|]. intros _ Hin Heq.
  apply list_find_None in E. rewrite Forall_forall in E. by apply (E p).
Qed.

Lemma same_page_address a b : a mod PAGE_SIZE = 0 -> b mod PAGE_SIZE = 0 -> a / PAGE_SIZE = b / PAGE_SIZE -> a = b.
Proof. unfold PAGE_SIZE. lia. Qed.

Lemma page_of_snoc L p va :
  Forall (fun q => user_page (lp_page q)) (L ++ [p]) -> NoDup (lp_page <$> L ++ [p]) ->
  page_of (L ++ [p]) va = if decide (lp_page p / PAGE_SIZE = va / PAGE_SIZE) then Some p else page_of L va.
Proof.
  intros Hpages Hnd. unfold page_of. destruct (list_find (fun q => lp_page q / PAGE_SIZE = va / PAGE_SIZE) L) as [[i q]|] eqn:E.
  - rewrite (list_find_app_l _ _ _ _ _ E). cbn. destruct (decide _) as [Ep|]; [|done]. exfalso.
    apply list_find_Some in E as (E & Hq & _). apply Forall_app in Hpages as [Hl [[_ Hp] _]%Forall_cons].
    rewrite Forall_forall in Hl. assert (q ∈ L) as Hin by by eapply list_elem_of_lookup_2.
    destruct (Hl q Hin) as [_ Hq']. rewrite fmap_app in Hnd. apply NoDup_app in Hnd as (_ & Hnd & _).
    apply (Hnd (lp_page q)); [apply list_elem_of_fmap; eauto|]. cbn. apply list_elem_of_singleton.
    apply same_page_address; [done..|congruence].
  - rewrite (list_find_app_r _ _ _ E). cbn. by destruct (decide _).
Qed.
End PageOf.

(** ** Bytes *)

Section Contents.
Implicit Types (r : ram) (f a image : Z) (l bs : list Z).

Lemma holds_kept r r' f l :
  good_frame f -> len l <= PAGE_SIZE -> page_kept r r' f -> holds r (PHYS_TO_VIRT f) l -> holds r' (PHYS_TO_VIRT f) l.
Proof.
  intros Hg Hlen Hk (H1 & H2 & H3). split; [done|]. split; [done|]. intros i v E. rewrite <- (H3 i v E).
  destruct (good_frame_virt f Hg) as (-> & _). apply lookup_lt_Some in E. unfold len in Hlen. cbn.
  destruct (direct _); [|done]. f_equal. replace (KERNEL_VIRT_BASE + f + Z.of_nat i - KERNEL_VIRT_BASE) with (f + Z.of_nat i) by lia.
  apply Hk. lia.
Qed.

Lemma only_page_written r r' f :
  good_frame f -> same_outside (PHYS_TO_VIRT f) PAGE_SIZE r r' -> untouched r r' -> only_page_of f r r'.
Proof.
  intros Hg Hs Hu g Ha Hne i Hi. destruct (good_frame_virt f Hg) as (Ef & _). rewrite Ef in Hs.
  destruct (decide (0 <= g + i < BOOTSTRAP_MAP_SIZE)) as [Hr|Hr]; [|by apply Hu].
  specialize (Hs (KERNEL_VIRT_BASE + (g + i))). cbn in Hs.
  assert (direct (KERNEL_VIRT_BASE + (g + i)) = true) as Hd by (apply direct_iff; lia). rewrite Hd in Hs.
  rewrite Z.add_simpl_l in Hs. assert (Some (byte r' (g + i)) = Some (byte r (g + i))) as [= ->]; [|done].
  apply Hs. apply good_frame_aligned in Hg. unfold PAGE_SIZE in *. lia.
Qed.

Lemma frame_writable r f : good_frame f -> writable r (PHYS_TO_VIRT f) PAGE_SIZE.
Proof.
  intros Hg. destruct (good_frame_virt f Hg) as (-> & _). destruct (good_frame_page f Hg) as [H1 H2].
  assert (0 <= f) as H0 by (unfold PAGE_SIZE in H1; lia). unfold BOOTSTRAP_MAP_SIZE in H2. split; [unfold KERNEL_VIRT_BASE; lia|].
  split; [unfold KERNEL_VIRT_BASE; lia|]. intros i Hi. cbn.
  rewrite (proj2 (direct_iff _)); [eauto|]. unfold BOOTSTRAP_MAP_SIZE. lia.
Qed.

Lemma keeps_zero_page f : keeps_rest (zero_page f).
Proof. apply keeps_memset. Qed.

Lemma keeps_copy image ph page f : keeps_rest (copy_segment_part image ph page f).
Proof.
  unfold copy_segment_part. destruct (negb _); [|apply keeps_ret]. apply keeps_bind; [apply keeps_memcpy|]. intros a. apply keeps_ret.
Qed.

(** The frame of an address of the direct mapping. *)
Definition frame_at a : Z := (a - KERNEL_VIRT_BASE) / PAGE_SIZE * PAGE_SIZE.

(** Every byte of the image lies in a page that is in use and not the directory. *)
Definition image_in_use m d image n : Prop :=
  forall i, 0 <= i < n -> m_free m (frame_at (image + i)) = false /\ frame_at (image + i) <> d.

Lemma file_kept r r' image bs :
  file_at r image bs -> (forall i, 0 <= i < len bs -> page_kept r r' (frame_at (image + i))) -> file_at r' image bs.
Proof.
  intros ((H1 & H2 & H3) & Hn & Hl) Hk. split; [|done]. split; [done|]. split; [done|]. intros i v E. rewrite <- (H3 i v E).
  cbn. destruct (direct _); [|done]. f_equal. apply lookup_lt_Some in E. specialize (Hk (Z.of_nat i)). unfold len in Hk.
  set (q := image + Z.of_nat i) in *. replace (q - KERNEL_VIRT_BASE) with (frame_at q + (q - KERNEL_VIRT_BASE) mod PAGE_SIZE).
  - apply Hk; [lia|]. unfold PAGE_SIZE. lia.
  - unfold frame_at, PAGE_SIZE. lia.
Qed.

Lemma image_apart m d image n f :
  image_in_use m d image n -> 0 < n -> good_frame f -> m_free m f = true ->
  image + n <= PHYS_TO_VIRT f \/ PHYS_TO_VIRT f + PAGE_SIZE <= image.
Proof.
  intros Hi Hn Hg Hf. destruct (good_frame_virt f Hg) as (-> & _). apply good_frame_aligned in Hg.
  destruct (decide (image + n <= KERNEL_VIRT_BASE + f \/ KERNEL_VIRT_BASE + f + PAGE_SIZE <= image)) as [|Hno]; [done|exfalso].
  destruct (Hi (Z.max 0 (KERNEL_VIRT_BASE + f - image))) as [E _]; [lia|].
  replace (frame_at _) with f in E; [congruence|]. clear -Hno Hg. unfold frame_at, PAGE_SIZE in *. lia.
Qed.
End Contents.

Section Pages.
Context (kd d : Z) (m0 : machine) (bs : list Z).
Implicit Types (m : machine) (r : ram) (L X : list page_rec) (p : page_rec) (f g va i n : Z).

(** A frame that was free when the loader started. *)
Definition frame_taken m f : Prop :=
  good_frame f /\ m_free m0 f = true /\ m_free m f = false /\ plain kd d m f.

(** The machine with the pages [L] mapped and the frames [fs] taken. *)
Record pages_loaded (fs : list Z) L m : Prop := {
  pl_task : task_space kd d m;
  pl_walk : forall va, user_address va -> walk (m_ram m) d va = leaf_of <$> page_of L va;
  pl_pages : Forall (fun p => user_page (lp_page p)) L;
  pl_virts : NoDup (lp_page <$> L);
  pl_taken : Forall (frame_taken m) (fs ++ (lp_frame <$> L));
  pl_frames : NoDup (fs ++ (lp_frame <$> L));
  (** pages in use at the start are as they were, the directory aside *)
  pl_old : forall f, f mod PAGE_SIZE = 0 -> m_free m0 f = false -> f <> d -> page_kept (m_ram m0) (m_ram m) f;
  pl_upper : forall i, KERNEL_PDE_START <= i < 1024 -> pde m d i = pde m0 d i;
  pl_free : forall f, m_free m f = true -> m_free m0 f = true;
  (** a page table of the user half is new, and serves a loaded page *)
  pl_tables : forall i, user_pde i -> present (pde m d i) = true ->
    m_free m0 (table_of m d i) = true /\ exists p, p ∈ L /\ pde_index (lp_page p) = i;
  (** no page is lost *)
  pl_owned : forall f, good_frame f -> m_free m0 f = true ->
    m_free m f = true \/ f ∈ fs ++ (lp_frame <$> L) \/ exists i, user_pde i /\ present (pde m d i) = true /\ table_of m d i = f;
  pl_total : total_pages (pmm_at m) = total_pages (pmm_at m0);
}.

(** At most [n] pages were taken. *)
Definition spent n m : Prop := free_pages (pmm_at m0) - n <= free_pages (pmm_at m).

(** The frames of the pages hold the program. *)
Definition filled L m : Prop :=
  Forall (fun p => holds (m_ram m) (PHYS_TO_VIRT (lp_frame p)) (page_bytes bs (lp_ph p) (lp_page p))) L.

Lemma pages_loaded_start :
  task_space kd d m0 -> (forall i, user_pde i -> present (pde m0 d i) = false) -> pages_loaded [] [] m0.
Proof.
  intros Ht Hempty. split; try done.
  - intros va Hva. cbn. destruct (user_address_pde _ Hva) as [_ Hi]. by apply walk_absent, Hempty.
  - apply NoDup_nil_2.
  - apply NoDup_nil_2.
  - intros i Hi Hp. by rewrite Hempty in Hp.
  - auto.
Qed.

Section State.
Context (fs : list Z) (L : list page_rec) (m : machine) (Hpl : pages_loaded fs L m).

Lemma pl_kernel : task_space kd d m0 -> same_kernel kd m0 m.
Proof.
  intros Ht. pose proof (ready_space _ _ (ts_ready _ _ _ Ht)) as Hsp. split.
  - intros j Hj. apply kept_entry; [|done]. apply (pl_old _ _ _ Hpl); [apply good_frame_aligned, Hsp|apply Hsp|].
    apply not_eq_sym, Ht.
  - intros j k Hj Hk Hp. destruct (space_tables _ _ Hsp j Hj Hp) as [Hg Hu]. apply kept_entry; [|done].
    apply (pl_old _ _ _ Hpl); [by apply good_frame_aligned|done|by apply (ts_kernel _ _ _ Ht)].
Qed.

Lemma frame_of_pages f : f ∈ fs ++ (lp_frame <$> L) -> frame_taken m f.
Proof. pose proof (pl_taken _ _ _ Hpl) as H. rewrite Forall_forall in H. apply H. Qed.

(** Pages below the end of the pool. *)
Lemma free_at_start f : m_free m f = true -> m_free m0 f = true.
Proof. apply (pl_free _ _ _ Hpl). Qed.

Lemma page_free_at_start q : page_free (pmm_at m) q = true -> page_free (pmm_at m0) q = true.
Proof.
  intros E. pose proof (free_at_start (q * PAGE_SIZE)) as H. unfold m_free in H.
  rewrite Z.div_mul in H by done. by apply H.
Qed.

Lemma free_pages_at_start : task_space kd d m0 -> free_pages (pmm_at m) <= free_pages (pmm_at m0).
Proof.
  intros Ht. destruct (ready_mem _ _ (ts_ready _ _ _ (pl_task _ _ _ Hpl))) as [Hi _].
  destruct (ready_mem _ _ (ts_ready _ _ _ Ht)) as [Hi0 _]. pose proof (pl_total _ _ _ Hpl) as Et.
  unfold pmm_at in *. rewrite (inv_count _ Hi), (inv_count _ Hi0), Et.
  apply count_mono. intros q _. apply page_free_at_start.
Qed.

(** A user address whose page is not loaded is not mapped. *)
Lemma fresh_page va : user_page va -> va ∉ lp_page <$> L -> walk (m_ram m) d va = None.
Proof.
  intros [Hu Ha] Hni. rewrite (pl_walk _ _ _ Hpl) by done. destruct (page_of L va) as [p|] eqn:E; [|done].
  apply page_of_Some in E as [Hin E]. exfalso. apply Hni, list_elem_of_fmap. exists p. split; [|done].
  pose proof (pl_pages _ _ _ Hpl) as H. rewrite Forall_forall in H. destruct (H p Hin).
  symmetry. by apply same_page_address.
Qed.
End State.

(** ** Taking, writing and giving back a frame *)

Lemma free_plain m f : task_space kd d m -> m_free m f = true -> plain kd d m f.
Proof.
  intros Ht Hf. assert (forall a, space m a -> leaf_frame m a f) as H; [|split; apply H; apply Ht].
  intros a Hsp. split.
  - intros ->. by rewrite (space_dir_used _ _ Hsp) in Hf.
  - intros j Hj Hp <-. destruct (space_tables _ _ Hsp j Hj Hp). congruence.
Qed.

Lemma pl_take L m f (p : pmm) :
  pages_loaded [] L m -> good_frame f -> m_free m f = true -> page_taken (f / PAGE_SIZE) (pmm_at m) p ->
  pages_loaded [f] L (with_pmm p m).
Proof.
  intros Hpl Hg Hf Hp. pose proof (fun g => taken_m_free _ _ _ g Hp) as Hfree.
  pose proof (free_plain m f (pl_task _ _ _ Hpl) Hf) as Hplain.
  assert (forall g, frame_taken m g -> frame_taken (with_pmm p m) g) as Hkeep.
  { intros g (H1 & H2 & H3 & H4). split; [done|]. split; [done|]. split; [by rewrite Hfree, H3|exact H4]. }
  assert (f ∉ lp_frame <$> L) as Hnew.
  { intros Hin. destruct (frame_of_pages [] L m Hpl f Hin) as (_ & _ & E & _). congruence. }
  pose proof Hpl as [H1 H2 H3 H4 H5 H6 H7 H8 H9 H10 H11 H12]. cbn [app] in *. split; try done.
  - by eapply ts_taken.
  - apply Forall_cons. split; [|eapply Forall_impl; [exact H5|exact Hkeep]].
    split; [done|]. split; [by apply H9|]. split; [|exact Hplain]. rewrite Hfree, Z.eqb_refl. apply andb_false_r.
  - by apply NoDup_cons.
  - intros g Hgf. apply H9. rewrite Hfree in Hgf. by apply andb_true_iff in Hgf as [? _].
  - intros g Hgg Hg0. destruct (decide (g = f)) as [->|Hne]; [right; left; set_solver|].
    destruct (H11 g Hgg Hg0) as [E|[E|E]]; [left|right; left; set_solver|by right; right].
    rewrite Hfree, E. apply negb_true_iff, Z.eqb_neq. intros E2. by apply Hne, same_pages.
  - cbn. change (total_pages p = total_pages (pmm_at m0)). rewrite <- H12. apply (taken_total _ _ _ Hp).
Qed.

Lemma pl_write fs L m f r :
  pages_loaded fs L m -> f ∈ fs ++ (lp_frame <$> L) -> only_page_of f (m_ram m) r -> pages_loaded fs L (with_ram r m).
Proof.
  intros Hpl Hin Ho. pose proof (frame_of_pages _ _ _ Hpl f Hin) as (Hg & Hf0 & Hf & Hplain).
  pose proof (pl_task _ _ _ Hpl) as Ht. destruct (only_page_same kd d m f r) as [Hk Hd]; [done|apply Ht..|done|].
  pose proof Hpl as [H1 H2 H3 H4 H5 H6 H7 H8 H9 H10 H11 H12].
  assert (forall j, 0 <= j < 1024 -> pde (with_ram r m) d j = pde m d j) as Epde by apply Hd.
  split; try done.
  - by eapply ts_written.
  - intros va Hva. rewrite <- H2 by done. apply (same_kernel_walk d m (with_ram r m)); [done|by apply user_address_pde].
  - eapply Forall_impl; [exact H5|]. intros g (G1 & G2 & G3 & [G4 G5]). split; [done|]. split; [done|].
    split; [done|]. split; by eapply same_kernel_leaf.
  - intros g Hgm Hg0 Hgd. eapply kept_trans; [by apply H7|]. apply Ho; [done|]. intros ->. congruence.
  - intros i Hi. rewrite Epde; [by apply H8|]. unfold KERNEL_PDE_START in Hi. lia.
  - intros i Hi Hp. pose proof (user_pde_range _ Hi) as Hr. rewrite Epde in Hp by done.
    unfold table_of. rewrite Epde by done. by apply H10.
  - intros g Hgg Hg0. destruct (H11 g Hgg Hg0) as [E|[E|(i & Hi & Hp & E)]]; [by left|by right; left|right; right].
    exists i. unfold table_of. rewrite Epde by by apply user_pde_range. done.
Qed.

Lemma pl_give fs L m f (p : pmm) :
  pages_loaded (f :: fs) L m -> page_released (f / PAGE_SIZE) (pmm_at m) p -> mem_ok (with_pmm p m) ->
  pages_loaded fs L (with_pmm p m).
Proof.
  intros Hpl Hp Hmem. destruct (frame_of_pages _ _ _ Hpl f ltac:(set_solver)) as (Hg & Hf0 & Hf & Hplain).
  assert (forall g, good_frame g -> m_free (with_pmm p m) g = m_free m g || bool_decide (g = f)) as Hfree.
  { intros g Hgg. unfold m_free. change (pmm_of (m_pmm (with_pmm p m))) with p. rewrite (released_free _ _ _ Hp).
    unfold pmm_at. f_equal. case_bool_decide; [subst g; apply Z.eqb_refl|]. apply Z.eqb_neq. intros E.
    by apply H, same_pages. }
  pose proof Hpl as [H1 H2 H3 H4 H5 H6 H7 H8 H9 H10 H11 H12]. cbn [app] in *.
  apply Forall_cons in H5 as [_ H5]. apply NoDup_cons in H6 as [Hnew H6]. split; try done.
  - by eapply ts_released.
  - rewrite Forall_forall in *. intros g Hin. destruct (H5 g Hin) as (G1 & G2 & G3 & G4).
    split; [done|]. split; [done|]. split; [|exact G4]. rewrite Hfree by done. rewrite G3.
    apply bool_decide_false. intros ->. done.
  - intros g E. unfold m_free in E. change (pmm_of (m_pmm (with_pmm p m))) with p in E. rewrite (released_free _ _ _ Hp) in E.
    apply orb_true_iff in E as [E|E%Z.eqb_eq]; [by apply H9|]. unfold m_free in *. by rewrite E.
  - intros g Hgg Hg0. rewrite Hfree by done. destruct (H11 g Hgg Hg0) as [->|[E|E]]; [by left| |by right; right].
    apply elem_of_cons in E as [->|E]; [left|by right; left]. rewrite bool_decide_true by done. apply orb_true_r.
  - change (total_pages p = total_pages (pmm_at m0)). rewrite <- H12. apply (released_total _ _ _ Hp).
Qed.
(** ** Mapping and unmapping *)

Lemma segment_flags_ok ph : map_flags (segment_flags ph).
Proof. unfold segment_flags. by destruct (negb _). Qed.

Lemma leaf_of_frame p : good_frame (lp_frame p) -> frame_of (leaf_of p) = lp_frame p.
Proof.
  intros Hg. destruct (good_frame_virt _ Hg) as (_ & _ & _ & Hu).
  destruct (leaf_ok (lp_frame p) (segment_flags (lp_ph p)) Hu (segment_flags_ok _)) as (_ & _ & E).
  unfold leaf_of. rewrite E, frame_of_div by done. pose proof (good_frame_aligned _ Hg). unfold PAGE_SIZE in *. lia.
Qed.

(** The table a mapping went to. *)
Lemma map_table L m m' p t :
  pages_loaded [lp_frame p] L m -> user_page (lp_page p) -> mapped d (lp_page p) (leaf_of p) m m' ->
  t = table_of m' d (pde_index (lp_page p)) ->
  good_frame t /\ m_free m0 t = true /\ (forall g, m_free m g = false -> plain kd d m g -> g <> t) /\
  (forall g, m_free m' g = m_free m g && negb (g / PAGE_SIZE =? t / PAGE_SIZE)) /\
  total_pages (pmm_at m') = total_pages (pmm_at m) /\ free_pages (pmm_at m) - 1 <= free_pages (pmm_at m').
Proof.
  intros Hpl [Hu _] (Hs & _ & Hpres' & _ & _ & _ & _ & Hcase) Et. destruct (user_address_pde _ Hu) as [Hv Hi].
  pose proof (user_pde_range _ Hi) as Hr. destruct (space_tables _ _ (step_space _ _ _ _ Hs) _ Hr Hpres') as [Hg Hused'].
  rewrite <- Et in *. split; [done|]. destruct Hcase as [(Hp & Ep & E)|(Hp & Hf & Htk)].
  - assert (t = table_of m d (pde_index (lp_page p))) as Et' by (unfold table_of in *; congruence).
    destruct (space_tables _ _ (ts_space _ _ _ (pl_task _ _ _ Hpl)) _ Hr Hp) as [_ Hused]. rewrite <- Et' in Hused.
    split; [rewrite Et'; by apply (pl_tables _ _ _ Hpl)|]. split; [|split; [|rewrite Ep; lia]].
    + intros g _ [_ [_ H]] ->. by apply (H (pde_index (lp_page p))).
    + intros g. unfold m_free in *. change (page_free (pmm_at m') (g / PAGE_SIZE) = page_free (pmm_at m) (g / PAGE_SIZE) && negb (g / PAGE_SIZE =? t / PAGE_SIZE)).
      rewrite Ep. destruct (Z.eqb_spec (g / PAGE_SIZE) (t / PAGE_SIZE)) as [->|]; [|by rewrite andb_true_r].
      rewrite andb_false_r. exact Hused.
  - split; [by apply (pl_free _ _ _ Hpl)|]. split; [|split; [|rewrite (taken_total _ _ _ Htk), (taken_count _ _ _ Htk); lia]].
    + intros g Hgf _ ->. congruence.
    + intros g. apply (taken_free _ _ _ Htk).
Qed.

Lemma pl_map L m m' p :
  pages_loaded [lp_frame p] L m -> user_page (lp_page p) -> lp_page p ∉ lp_page <$> L ->
  mapped d (lp_page p) (leaf_of p) m m' ->
  only_pages d (table_of m' d (pde_index (lp_page p))) (m_ram m) (m_ram m') ->
  pages_loaded [] (L ++ [p]) m' /\
  Forall (page_kept (m_ram m) (m_ram m')) (lp_frame <$> L ++ [p]) /\
  (forall n, spent n m -> spent (n + 1) m').
Proof.
  intros Hpl Hup Hnew Hmap Ho. set (t := table_of m' d (pde_index (lp_page p))) in *.
  destruct (map_table L m m' p t Hpl Hup Hmap eq_refl) as (Htg & Ht0 & Htp & Hfree & Htot & Hcnt).
  destruct (ts_mapped kd d m m' (lp_page p) (leaf_of p)) as (Hts & Hsk & Hplain);
    [apply Hpl|apply Hup|done|done|]. destruct (user_address_pde _ (proj1 Hup)) as [Hv Hi].
  destruct Hmap as (Hs & Hw & Hpres' & _ & _ & _ & _ & Hcase).
  pose proof Hpl as [H1 H2 H3 H4 H5 H6 H7 H8 H9 H10 H11 H12]. cbn [app] in *.
  assert (NoDup (lp_page <$> L ++ [p])) as Hnd.
  { rewrite fmap_app. apply NoDup_app. split; [done|]. split; [|apply NoDup_singleton]. set_solver. }
  assert (Forall (fun q => user_page (lp_page q)) (L ++ [p])) as Hups by (apply Forall_app; split; [done|by constructor]).
  assert (lp_frame p :: (lp_frame <$> L) ≡ₚ lp_frame <$> L ++ [p]) as Eperm.
  { rewrite fmap_app. cbn. by rewrite Permutation_app_comm. }
  assert (forall g, frame_taken m g -> frame_taken m' g /\ page_kept (m_ram m) (m_ram m') g) as Hkeep.
  { intros g (G1 & G2 & G3 & G4). split.
    - split; [done|]. split; [done|]. rewrite Hfree, G3. split; [done|by apply Hplain].
    - apply Ho; [by apply good_frame_aligned|apply G4|by apply Htp]. }
  split; [|split].
  - split; try done.
    + intros va Hva. rewrite page_of_snoc by done. destruct (user_address_pde _ Hva) as [Hvv Hvi].
      destruct (decide _) as [E|Hne].
      * cbn. rewrite <- Hw. by apply walk_page.
      * rewrite <- H2 by done. apply (step_walk _ _ _ _ Hs); [done|by apply not_eq_sym|by apply (ts_private _ _ _ H1)].
    + cbn [app]. rewrite <- Eperm. eapply Forall_impl; [exact H5|]. intros g Hg. by apply Hkeep.
    + cbn [app]. by rewrite <- Eperm.
    + intros g Hga Hg0 Hgd. eapply kept_trans; [by apply H7|]. apply Ho; [done|done|]. intros ->. congruence.
    + intros i Hir. rewrite (step_other _ _ _ _ Hs); [by apply H8|unfold KERNEL_PDE_START in Hir; lia|].
      intros ->. unfold user_pde in Hi. lia.
    + intros g Hg. apply H9. rewrite Hfree in Hg. by apply andb_true_iff in Hg as [? _].
    + intros i Hi' Hp. destruct (decide (i = pde_index (lp_page p))) as [->|Hne].
      { split; [done|]. exists p. split; [set_solver|done]. }
      pose proof (user_pde_range _ Hi') as Hr. unfold table_of. rewrite (step_other _ _ _ _ Hs) in Hp |- * by done.
      destruct (H10 i Hi' Hp) as [T1 (q & Hq & Eq)]. split; [done|]. exists q. set_solver.
    + intros g Hgg Hg0. cbn [app]. rewrite <- Eperm. rewrite Hfree.
      destruct (Z.eqb_spec (g / PAGE_SIZE) (t / PAGE_SIZE)) as [E|Hne].
      { right; right. exists (pde_index (lp_page p)). split; [done|]. split; [done|]. symmetry. by apply same_pages. }
      destruct (H11 g Hgg Hg0) as [->|[E|(i & Hi' & Hp & E)]]; [by left|by right; left|right; right].
      exists i. pose proof (user_pde_range _ Hi') as Hr. destruct (decide (i = pde_index (lp_page p))) as [->|Hni].
      * split; [done|]. split; [done|]. destruct Hcase as [(_ & _ & Ed)|(Hno & _)]; [|congruence]. unfold table_of in *. congruence.
      * unfold table_of. by rewrite (step_other _ _ _ _ Hs).
    + congruence.
  - rewrite <- Eperm. eapply Forall_impl; [exact H5|]. intros g Hg. by apply Hkeep.
  - intros n Hn. unfold spent in *. lia.
Qed.
(** What unmapping does to the pool. *)
Lemma unmap_table m m' virt t :
  task_space kd d m -> user_address virt -> walk (m_ram m) d virt <> None -> unmapped d virt m m' ->
  t = table_of m d (pde_index virt) ->
  present (pde m d (pde_index virt)) = true /\ good_frame t /\
  total_pages (pmm_at m') = total_pages (pmm_at m) /\
  ((forall g, m_free m' g = m_free m g) \/
   present (pde m' d (pde_index virt)) = false /\
   forall g, m_free m' g = m_free m g || (g / PAGE_SIZE =? t / PAGE_SIZE)).
Proof.
  intros Ht Hu Hw (_ & _ & _ & _ & _ & Hcase) Et. destruct (user_address_pde _ Hu) as [Hv Hi].
  pose proof (user_pde_range _ Hi) as Hr.
  assert (present (pde m d (pde_index virt)) = true) as Hpres.
  { apply not_false_iff_true. intros E. apply Hw. apply walk_absent. exact E. }
  destruct (space_tables _ _ (ts_space _ _ _ Ht) _ Hr Hpres) as [Hg _]. rewrite <- Et in *.
  split; [done|]. split; [done|]. destruct Hcase as [E|(Hrel & _ & Hno)].
  - rewrite E. split; [done|]. left. intros g. unfold m_free. change (page_free (pmm_at m') (g / PAGE_SIZE) = page_free (pmm_at m) (g / PAGE_SIZE)).
    by rewrite E.
  - split; [apply (released_total _ _ _ Hrel)|]. right. split; [done|]. intros g. apply (released_free _ _ _ Hrel).
Qed.

(** A table entry of the user half belongs to an address. *)
Lemma entry_address_of i k : user_pde i -> 0 <= k < 1024 ->
  exists va, user_address va /\ pde_index va = i /\ pte_index va = k.
Proof.
  intros Hi Hk. exists (i * 4194304 + k * 4096). rewrite pde_index_div, pte_index_mod.
  unfold user_pde, user_address, KERNEL_PDE_START, KERNEL_VIRT_BASE, PAGE_SIZE in *. lia.
Qed.

Lemma same_page_pde a b : a / PAGE_SIZE = b / PAGE_SIZE -> pde_index a = pde_index b.
Proof. rewrite !pde_index_div. unfold PAGE_SIZE. lia. Qed.

Lemma pl_unmap L m m' p :
  pages_loaded [] (L ++ [p]) m -> unmapped d (lp_page p) m m' ->
  only_pages d (table_of m d (pde_index (lp_page p))) (m_ram m) (m_ram m') ->
  table_kept d (lp_page p) m m' -> pages_loaded [lp_frame p] L m'.
Proof.
  intros Hpl Hun Ho Hlive. pose proof Hpl as [H1 H2 H3 H4 H5 H6 H7 H8 H9 H10 H11 H12]. cbn [app] in *.
  set (t := table_of m d (pde_index (lp_page p))) in *.
  assert (lp_frame <$> L ++ [p] ≡ₚ lp_frame p :: (lp_frame <$> L)) as Eperm.
  { rewrite fmap_app. cbn. by rewrite Permutation_app_comm. }
  assert (forall va, page_of (L ++ [p]) va = if decide (lp_page p / PAGE_SIZE = va / PAGE_SIZE) then Some p else page_of L va)
    as Hof by (intros va; by apply page_of_snoc).
  apply Forall_app in H3 as [H3 [Hup _]%Forall_cons].
  assert (walk (m_ram m) d (lp_page p) = Some (leaf_of p)) as Hwp by (rewrite H2, Hof, decide_True by (done || apply Hup); done).
  destruct (unmap_table m m' (lp_page p) t) as (Hpres & Htg & Htot & Hfree); [done|apply Hup|by rewrite Hwp|done..|].
  destruct (ts_unmapped kd d m m' (lp_page p)) as (Hts & Hsk & Hplain); [done|apply Hup|by rewrite Hwp|done..|].
  destruct Hun as (Hs & Hw & _ & _ & Hsame & _). destruct (user_address_pde _ (proj1 Hup)) as [Hv Hi].
  assert (m_free m0 t = true) as Ht0 by by apply H10.
  assert (forall j, 0 <= j < 1024 -> present (pde m' d j) = true -> pde m' d j = pde m d j) as Hd.
  { intros j Hj Hp. destruct (decide (j = pde_index (lp_page p))) as [->|]; [by apply Hsame|by apply (step_other _ _ _ _ Hs)]. }
  assert (forall va, user_address va -> walk (m_ram m') d va = leaf_of <$> page_of L va) as Hwalk.
  { intros va Hva. destruct (user_address_pde _ Hva) as [Hvv Hvi]. specialize (Hof va).
    destruct (decide (lp_page p / PAGE_SIZE = va / PAGE_SIZE)) as [E|Hne].
    - rewrite (walk_page _ _ va (lp_page p)), Hw by done. symmetry. destruct (page_of L va) as [q|] eqn:Eq; [|done]. exfalso.
      apply page_of_Some in Eq as [Hin Eq]. rewrite fmap_app in H4. apply NoDup_app in H4 as (_ & H4 & _).
      rewrite Forall_forall in H3. destruct (H3 q Hin). apply (H4 (lp_page q)); [by apply list_elem_of_fmap_2|].
      apply list_elem_of_singleton, same_page_address; [done|apply Hup|congruence].
    - rewrite <- Hof, <- H2 by done. apply (step_walk _ _ _ _ Hs); [done|by apply not_eq_sym|by apply (ts_private _ _ _ H1)]. }
  rewrite Eperm in H5, H6. rewrite fmap_app in H4. apply NoDup_app in H4 as (H4 & _ & _). split; try done.
  - eapply Forall_impl; [exact H5|]. intros g (G1 & G2 & G3 & G4). split; [done|]. split; [done|].
    apply and_comm. by apply Hplain.
  - intros g Hga Hg0 Hgd. eapply kept_trans; [by apply H7|]. apply Ho; [done|done|]. intros ->. congruence.
  - intros i Hir. rewrite (step_other _ _ _ _ Hs); [by apply H8|unfold KERNEL_PDE_START in Hir; lia|].
    intros ->. unfold user_pde in Hi. lia.
  - intros g Hg. destruct Hfree as [E|(_ & E)]; rewrite E in Hg; [by apply H9|].
    apply orb_true_iff in Hg as [Hg|Hg%Z.eqb_eq]; [by apply H9|]. unfold m_free in *. by rewrite Hg.
  - intros i Hi' Hp. pose proof (user_pde_range _ Hi') as Hr. pose proof (Hd i Hr Hp) as E.
    assert (table_of m' d i = table_of m d i) as Et by (unfold table_of; by rewrite E).
    pose proof Hp as Hp'. rewrite E in Hp. destruct (H10 i Hi' Hp) as [T1 (q & Hq & Eq)]. rewrite Et. split; [done|].
    apply elem_of_app in Hq as [Hq| ->%list_elem_of_singleton]; [by exists q|].
    rewrite <- Eq in Hp'. destruct Hlive as [[_ (k & Hk & Ek)]|[Hno _]]; [|congruence]. rewrite Eq in Hp', Ek.
    destruct (entry_address_of i k Hi' Hk) as (va & Hva & Evi & Evk). specialize (Hwalk va Hva).
    rewrite walk_unfold, Evi, Evk in Hwalk. change (entry (m_ram m') d i) with (pde m' d i) in Hwalk.
    rewrite Hp' in Hwalk. cbn zeta in Hwalk. change (frame_of (pde m' d i)) with (table_of m' d i) in Hwalk. rewrite Ek in Hwalk.
    destruct (page_of L va) as [q|] eqn:Eqq; [|done]. apply page_of_Some in Eqq as [Hin Eqq]. exists q. split; [done|].
    rewrite <- Evi. by apply same_page_pde.
  - intros g Hgg Hg0. cbn [app]. destruct (H11 g Hgg Hg0) as [E|[E|(i & Hi' & Hp & E)]].
    + left. destruct Hfree as [->|(_ & ->)]; [done|]. by rewrite E.
    + right; left. by rewrite <- Eperm.
    + pose proof (user_pde_range _ Hi') as Hr. destruct (present (pde m' d i)) eqn:Hp'.
      * right; right. exists i. split; [done|]. split; [done|]. unfold table_of. by rewrite Hd.
      * left. destruct (decide (i = pde_index (lp_page p))) as [->|Hne].
        2:{ rewrite (step_other _ _ _ _ Hs) in Hp' by done. congruence. }
        rewrite <- E. fold t. destruct Hlive as [[Hp2 _]|[_ Hrel]]; [congruence|]. specialize (Hrel Hp). fold t in Hrel.
        assert (t / PAGE_SIZE < total_pages (pmm_at m)) as Hlt by (rewrite H12; apply (page_free_range (pmm_at m0)); exact Ht0).
        change (page_free (pmm_at m') (t / PAGE_SIZE) = true). rewrite (released_free _ _ _ (Hrel Hlt)).
        by rewrite Z.eqb_refl, orb_true_r.
  - congruence.
Qed.
(** ** The image and the contents *)

Lemma file_loaded fs L m image :
  pages_loaded fs L m -> file_at (m_ram m0) image bs -> image_in_use m0 d image (len bs) -> file_at (m_ram m) image bs.
Proof.
  intros Hpl Hf Hi. apply (file_kept (m_ram m0)); [done|]. intros i Hr. destruct (Hi i Hr).
  apply (pl_old _ _ _ Hpl); [|done..]. unfold frame_at. by apply Z.mod_mul.
Qed.

Lemma len_page_bytes ph page : len (page_bytes bs ph page) = PAGE_SIZE.
Proof. unfold len, page_bytes. rewrite length_fmap, length_seqZ. by rewrite Z2Nat.id. Qed.

Lemma filled_kept L m m' :
  filled L m -> Forall good_frame (lp_frame <$> L) -> Forall (page_kept (m_ram m) (m_ram m')) (lp_frame <$> L) -> filled L m'.
Proof.
  unfold filled. rewrite !Forall_fmap, !Forall_forall. intros Hf Hg Hk p Hin.
  apply (holds_kept (m_ram m)); [by apply Hg|rewrite len_page_bytes; done|by apply Hk|by apply Hf].
Qed.

Lemma frames_good fs L m : pages_loaded fs L m -> Forall good_frame (lp_frame <$> L).
Proof. intros Hpl. eapply Forall_impl; [exact (proj2 (proj1 (Forall_app _ _ _) (pl_taken _ _ _ Hpl)))|]. by intros g (? & _). Qed.

Lemma filled_write L m f r :
  filled L m -> Forall good_frame (lp_frame <$> L) -> f ∉ lp_frame <$> L -> only_page_of f (m_ram m) r -> filled L (with_ram r m).
Proof.
  intros Hf Hg Hni Ho. apply (filled_kept L m); [done..|]. rewrite Forall_forall in *. intros g Hin. apply Ho; [by apply good_frame_aligned, Hg|].
  intros ->. done.
Qed.
End Pages.
