(* ===== verification/ElfLoad.v ===== *)
(** * The ELF loader on the kernel

    [elf_load] composes the physical pages, the page tables of a process, the
    heap and the lists. With room in the heap for its records it builds
    exactly the memory that [ElfFile] reads off the file, or leaves the
    address space as empty as it was. *)

From S2P Require Import Prelude Layout Bitmap Machine Pmm DList CString Ram Words Paging PagingSpec Vam Vmm Heap HeapSpec HeapRoom HeapSupply TaskSpace Task Sync Fs Console ConsoleSpec Kernel Printing Elf ElfFile ElfPages.

(** ** The part of the kernel that the loader uses *)

Section State.
Context (k0 : kernel).
Implicit Types (h : heap) (m : machine) (ln : gmap link (list_node link)) (ld : gmap Z Z).

(** [k0] with this heap, machine, list nodes and records. *)
Definition loader h m ln ld : kernel :=
  Kernel (HeapWorld h m) (k_vam k0) (k_sched k0) (k_owners k0) (k_counts k0) (k_fs k0) (k_files k0) (k_table k0) ln
    (k_processes k0) (k_stacks k0) ld (k_descs k0) (next_pid k0) (next_tid k0) (k_console k0).

Lemma wp_loader_machine {A} (c : M machine A) h m ln ld (Q : A -> kernel -> Prop) :
  wp c (fun a m' => Q a (loader h m' ln ld)) m -> wp (machine_op c) Q (loader h m ln ld).
Proof. intros H. by apply wp_zoom. Qed.

Lemma wp_loader_pmm {A} (c : M pmm_world A) h m ln ld (Q : A -> kernel -> Prop) :
  wp (zoom pmm_world_l c) (fun a m' => Q a (loader h m' ln ld)) m -> wp (pmm_op c) Q (loader h m ln ld).
Proof. intros H. unfold pmm_op, wp, zoom in *. cbn in *. by destruct (c (m_pmm m)). Qed.

Lemma wp_loader_image {A} (c : M ram A) h m ln ld (Q : A -> kernel -> Prop) :
  wp c (fun a r => Q a (loader h (with_ram r m) ln ld)) (m_ram m) -> wp (image_op c) Q (loader h m ln ld).
Proof. intros H. by apply wp_loader_machine, wp_ram. Qed.

Lemma wp_loader_heap {A} (c : M (heap_world machine) A) h m ln ld (Q : A -> kernel -> Prop) :
  wp c (fun a w => Q a (loader (the_heap w) (the_supply w) ln ld)) (HeapWorld h m) -> wp (heap_op c) Q (loader h m ln ld).
Proof.
  intros H. apply wp_zoom. eapply wp_mono; [exact H|]. intros a [h' m'] HQ. exact HQ.
Qed.

Lemma wp_loader_link {A} (c : M (gmap link (list_node link)) A) h m ln ld (Q : A -> kernel -> Prop) :
  wp c (fun a ln' => Q a (loader h m ln' ld)) ln -> wp (link_op c) Q (loader h m ln ld).
Proof. intros H. by apply wp_zoom. Qed.

Lemma wp_new_link n h m ln ld (Q : unit -> kernel -> Prop) :
  Q tt (loader h m (<[n := Node None None]> ln) ld) -> wp (new_link n) Q (loader h m ln ld).
Proof. done. Qed.

Lemma wp_drop_link n h m ln ld (Q : unit -> kernel -> Prop) :
  Q tt (loader h m (delete n ln) ld) -> wp (drop_link n) Q (loader h m ln ld).
Proof. done. Qed.

Lemma wp_store_loaded a v h m ln ld (Q : unit -> kernel -> Prop) :
  Q tt (loader h m ln (<[a := v]> ld)) -> wp (store k_loaded_l a v) Q (loader h m ln ld).
Proof. done. Qed.

Lemma wp_discard_loaded a h m ln ld (Q : unit -> kernel -> Prop) :
  Q tt (loader h m ln (delete a ld)) -> wp (discard k_loaded_l a) Q (loader h m ln ld).
Proof. done. Qed.

Lemma wp_fetch_loaded a v h m ln ld (Q : Z -> kernel -> Prop) :
  ld !! a = Some v -> Q v (loader h m ln ld) -> wp (fetch k_loaded_l a) Q (loader h m ln ld).
Proof. intros E HQ. unfold fetch. apply wp_bind, wp_gets. by apply (wp_require _ _ _ _ v). Qed.

Lemma wp_loader_print l scr h m ln ld (Q : unit -> kernel -> Prop) :
  shows (k_console k0) scr ->
  (forall s, shows s (type_text l scr) ->
     Q tt (Kernel (HeapWorld h m) (k_vam k0) (k_sched k0) (k_owners k0) (k_counts k0) (k_fs k0) (k_files k0) (k_table k0) ln
       (k_processes k0) (k_stacks k0) ld (k_descs k0) (next_pid k0) (next_tid k0) s)) ->
  wp (print_text l) Q (loader h m ln ld).
Proof.
  intros Hs HQ. rewrite <- (on_screen_id (loader h m ln ld)). apply (wp_print_text _ _ _ _ _ Hs). intros s H _. exact (HQ s H).
Qed.
End State.

(** With another screen. *)
Lemma wp_loader_says k0 l scr h m ln ld (Q : unit -> kernel -> Prop) :
  shows (k_console k0) scr -> (forall s, shows s (type_text l scr) -> Q tt (loader (on_screen s k0) h m ln ld)) ->
  wp (print_text l) Q (loader k0 h m ln ld).
Proof. intros Hs HQ. by apply (wp_loader_print k0 l scr). Qed.

(** Room in the heap for [n] more records. *)
Definition records_room (n : Z) (h : heap) (m : machine) : Prop := n <= 0 \/ has_room (HeapWorld h m) (32 * n - 16).

(** ** The records *)

Section Loaded.
Context (kd d : Z) (k0 : kernel) (u0 : list (Z * Z)) (bs : list Z).
Implicit Types (h : heap) (m : machine) (ln : gmap link (list_node link)) (ld : gmap Z Z) (L : list page_rec) (p : page_rec).

Let m0 : machine := the_supply (k_heap k0).
Let h0 : heap := the_heap (k_heap k0).

(** The blocks of the heap, the list and the contents of its nodes. The heap
    is described at the machine the loader started on; its own pages do not
    change. *)
Record records L h ln ld : Prop := {
  rc_heap : exists u, heap_at h m0 u /\ u.*1 ≡ₚ (lp_node <$> L) ++ u0.*1;
  rc_end : heap_end h = heap_end h0;
  rc_list : is_list ln LoadedHead (LoadedNode <$> (lp_node <$> L));
  rc_rest : forall x, (x <> LoadedHead) -> (forall a, x <> LoadedNode a) -> ln !! x = k_links k0 !! x;
  rc_store : Forall (fun p => ld !! lp_node p = Some (lp_page p)) L;
}.
Context (Hspace : task_space kd d m0) (Hheap : heap_at h0 m0 u0).

Lemma heap_bound h m : heap_end h = heap_end h0 -> free_pages (pmm_at m) <= free_pages (pmm_at m0) ->
  heap_end h + Z.of_nat (pages_free m) * PAGE_SIZE <= KERNEL_HEAP_END + 1.
Proof.
  intros -> Hle. destruct Hheap as (l & Hok & _). pose proof (ok_room _ _ Hok) as H. cbn in H.
  unfold pages_free in *. unfold PAGE_SIZE in *. lia.
Qed.

(** The heap during the loading. *)
Lemma heap_now fs L m h u :
  pages_loaded kd d m0 fs L m -> heap_end h = heap_end h0 -> heap_at h m0 u ->
  heap_at h m u /\ forall n, records_room n h m0 -> records_room n h m.
Proof.
  intros Hpl He Hh. pose proof (pl_task _ _ _ _ _ _ Hpl) as Ht. destruct (heap_at_move kd h m0 m u) as [H1 H2]; try done; try apply Hspace; try apply Ht.
  - by apply (pl_kernel kd d m0 fs L).
  - apply heap_bound; [done|]. by apply (free_pages_at_start kd d m0 fs L).
  - split; [done|]. intros n [Hn|Hn]; [by left|right; by apply H2].
Qed.

Lemma heap_then fs L m h u :
  pages_loaded kd d m0 fs L m -> heap_end h = heap_end h0 -> heap_at h m u ->
  heap_at h m0 u /\ forall n, records_room n h m -> records_room n h m0.
Proof.
  intros Hpl He Hh. pose proof (pl_task _ _ _ _ _ _ Hpl) as Ht. destruct (heap_at_move kd h m m0 u) as [H1 H2]; try done; try apply Hspace; try apply Ht.
  - by apply same_kernel_sym, (pl_kernel kd d m0 fs L).
  - by apply heap_bound.
  - split; [done|]. intros n [Hn|Hn]; [by left|right; by apply H2].
Qed.

Lemma records_room_fits r h m : records_room (r + 1) h m -> 0 <= r ->
  has_room (HeapWorld h m) (heap_align LOADED_PAGE_SIZE) /\
  (r <= 0 \/ has_room (HeapWorld h m) (heap_align LOADED_PAGE_SIZE + HEADER + (32 * r - 16))).
Proof.
  change (heap_align LOADED_PAGE_SIZE) with 16. unfold HEADER. intros [Hr|Hr] H0; [lia|]. split.
  - destruct Hr as (l & Hok & t & Hin & Hf & Hle). exists l. split; [done|]. exists t. split; [done|]. split; [done|lia].
  - right. by replace (16 + 16 + (32 * r - 16)) with (32 * (r + 1) - 16) by lia.
Qed.

Lemma wp_alloc_record fuel fs L' L m h ln ld r (Q : Z -> kernel -> Prop) :
  (1 < fuel)%nat -> pages_loaded kd d m0 fs L' m -> records L h ln ld -> records_room (r + 1) h m0 -> 0 <= r ->
  (forall a h' u', a <> NULL -> a ∉ lp_node <$> L -> heap_at h' m0 u' -> u'.*1 ≡ₚ a :: (lp_node <$> L) ++ u0.*1 ->
     heap_end h' = heap_end h0 -> records_room r h' m0 -> Q a (loader k0 h' m ln ld)) ->
  wp (alloc_block fuel LOADED_PAGE_SIZE) Q (loader k0 h m ln ld).
Proof.
  intros Hfuel Hpl [(u & Hu & Ep) He _ _ _] Hroom Hr HQ. apply wp_loader_heap.
  destruct (heap_now fs L' m h u) as [Hnow Hroom']; [done..|].
  destruct (records_room_fits r h m) as [Hfit Hmore]; [by apply Hroom'|done|].
  apply (wp_kmalloc_room _ u); [exact Hnow|done|exact Hfit|done|].
  intros a n [h' m'] u' Hh' Hgr [Es Ee] Hleft. cbn [the_heap the_supply] in *. subst m'.
  destruct (granted_fresh h m u (HeapWorld h' m) LOADED_PAGE_SIZE a n u' Hnow) as (Hfresh & Hnz & Eu'); [done|exact Hgr|].
  assert (heap_end h' = heap_end h0) as He' by congruence.
  destruct (heap_then fs L' m h' u') as [Hthen Hroom2]; [done..|].
  apply (HQ a h' u'); [done| |done| |done|].
  - intros Hin. apply Hfresh. rewrite Ep. set_solver.
  - by rewrite Eu', Ep.
  - apply Hroom2. destruct Hmore as [|Hmore]; [by left|]. destruct (decide (r <= 0)); [by left|]. right. apply Hleft; [lia|done].
Qed.
(** ** One page *)

(** A frame is cleared. *)
Lemma wp_zero_frame L m f h ln ld (Q : Z -> kernel -> Prop) :
  pages_loaded kd d m0 [f] L m -> filled bs L m ->
  (forall a r, pages_loaded kd d m0 [f] L (with_ram r m) -> filled bs L (with_ram r m) ->
     holds r (PHYS_TO_VIRT f) (replicate (Z.to_nat PAGE_SIZE) 0) -> Q a (loader k0 h (with_ram r m) ln ld)) ->
  wp (image_op (zero_page f)) Q (loader k0 h m ln ld).
Proof.
  intros Hpl Hfill HQ. assert (f ∈ [f] ++ (lp_frame <$> L)) as Hin by apply list_elem_of_here.
  pose proof (frame_of_pages kd d m0 _ _ _ Hpl f Hin) as (Hg & _).
  apply wp_loader_image, wp_keeps, wp_zero_page; [apply keeps_zero_page|by apply frame_writable|].
  intros r Hz Hs Hun. pose proof (only_page_written _ _ _ Hg Hs Hun) as Ho.
  apply HQ; [by apply (pl_write kd d m0 [f] L m f)| |done].
  apply (filled_write bs L m f); [done|by eapply frames_good| |done].
  pose proof (pl_frames _ _ _ _ _ _ Hpl) as Hnd. by apply NoDup_cons in Hnd as [? _].
Qed.

(** Nothing was mapped because no page is left for a table. *)
Definition no_table m page : Prop := present (pde m d (pde_index page)) = false /\ free_pages (pmm_at m) = 0.

Lemma none_free_count m : mem_ok m -> none_free (pmm_at m) -> free_pages (pmm_at m) = 0.
Proof.
  intros [Hi _] Hn. unfold pmm_at in *. rewrite (inv_count _ Hi). apply Z.le_antisymm; [|apply count_bound].
  rewrite (count_ext _ (fun _ => false)) by (intros; apply Hn). generalize (Z.to_nat (total_pages (pmm_of (m_pmm m)))).
  intros n. induction n; cbn; lia.
Qed.

(** An allocation fails only when no page is left. *)
Lemma alloc_failed_empty m (p' : pmm) :
  task_space kd d m -> alloc_failed (pmm_at m) p' -> with_pmm p' m = m /\ free_pages (pmm_at m) = 0.
Proof.
  intros Ht (Hwhy & _ & _ & _ & _ & Hsame). rewrite (Hsame (ts_fail _ _ _ Ht)). split; [by destruct m as [[]]|].
  apply none_free_count; [apply (ready_mem _ _ (ts_ready _ _ _ Ht))|]. destruct Hwhy as [Hw|]; [by rewrite (ts_fail _ _ _ Ht) in Hw|done].
Qed.

(** The page of a segment is mapped, and translates to its frame. *)
Lemma wp_map_frame L m f ph page h ln ld (Q : Z -> kernel -> Prop) :
  pages_loaded kd d m0 [f] L m -> user_page page -> page ∉ lp_page <$> L ->
  (forall m', (forall a, pages_loaded kd d m0 [] (L ++ [PageRec ph page f a]) m') ->
     Forall (page_kept (m_ram m) (m_ram m')) (f :: (lp_frame <$> L)) ->
     (forall n, spent m0 n m -> spent m0 (n + 1) m') -> Q f (loader k0 h m' ln ld)) ->
  (no_table m page -> Q 0 (loader k0 h m ln ld)) ->
  wp (machine_op (paging_map (PHYS_TO_VIRT d) page f (segment_flags ph)) ;;;
      machine_op (paging_translate (PHYS_TO_VIRT d) page)) Q (loader k0 h m ln ld).
Proof.
  intros Hpl Hup Hnew HQ HQf. destruct (user_address_pde _ (proj1 Hup)) as [Hv Hi].
  pose proof (pl_task _ _ _ _ _ _ Hpl) as Ht. pose proof (ready_mem _ _ (ts_ready _ _ _ Ht)) as Hmem.
  pose proof (ts_space _ _ _ Ht) as Hsp. pose proof (ts_private _ _ _ Ht _ Hi) as Hpriv.
  assert (f ∈ [f] ++ (lp_frame <$> L)) as Hin by apply list_elem_of_here.
  destruct (frame_of_pages kd d m0 _ _ _ Hpl f Hin) as (Hg & _). destruct (good_frame_virt f Hg) as (_ & _ & _ & Hfu).
  apply wp_bind, wp_loader_machine. eapply wp_mono.
  { apply wp_conj; [apply (wp_map_bytes m d page f (segment_flags ph)); try done; apply segment_flags_ok|].
    apply (wp_paging_map m d page f (segment_flags ph) (fun _ m' =>
      mapped d page (leaf f (segment_flags ph)) m m' \/ map_failed d page m m')); auto using segment_flags_ok. }
  intros _ m' [Ho [Hmap|(Hno & p' & Hfail & ->)]]; apply wp_loader_machine.
  - assert (forall a, pages_loaded kd d m0 [] (L ++ [PageRec ph page f a]) m' /\
      Forall (page_kept (m_ram m) (m_ram m')) (lp_frame <$> L ++ [PageRec ph page f a]) /\
      (forall n, spent m0 n m -> spent m0 (n + 1) m')) as Hall by (intros a; by apply pl_map).
    apply wp_paging_translate; [apply Hmap|done|]. destruct Hmap as (_ & -> & _).
    pose proof (leaf_of_frame (PageRec ph page f 0) Hg) as El. cbn [lp_frame] in El. unfold leaf_of in El. cbn [lp_frame lp_ph] in El.
    rewrite El, page_offset_mod, (proj2 Hup), Z.add_0_r, u32_id by done. apply HQ.
    + intros a. apply Hall.
    + destruct (Hall 0) as (_ & Hk & _). rewrite fmap_app in Hk. apply Forall_app in Hk as [Hk1 Hk2].
      apply Forall_cons. split; [by apply Forall_cons in Hk2 as [? _]|done].
    + apply (Hall 0).
  - destruct (alloc_failed_empty m p' Ht Hfail) as [-> Hz].
    apply wp_paging_translate; [done|done|]. rewrite (walk_absent _ _ _ Hno). by apply HQf.
Qed.
(** ** Taking everything back *)

(** A frame goes back. *)
Lemma wp_give_frame k1 L m f h ln ld (Q : unit -> kernel -> Prop) :
  pages_loaded kd d m0 [f] L m ->
  (forall m', pages_loaded kd d m0 [] L m' -> Q tt (loader k1 h m' ln ld)) ->
  wp (pmm_op (pmm_free_page f)) Q (loader k1 h m ln ld).
Proof.
  intros Hpl HQ. destruct (frame_of_pages kd d m0 _ _ _ Hpl f) as (Hg & Hf0 & Hf & _); [apply list_elem_of_here|].
  destruct (good_frame_page f Hg) as [Hpos Hle]. destruct (good_frame_virt f Hg) as (_ & _ & _ & Hu).
  apply wp_loader_pmm, wp_free_frame; [apply (ready_mem _ _ (ts_ready _ _ _ (pl_task _ _ _ _ _ _ Hpl)))|done..| |].
  - intros [Hout|Hfr]; [|congruence]. pose proof (pl_total _ _ _ _ _ _ Hpl) as Et. unfold pmm_at in Et. rewrite Et in Hout.
    apply page_free_range in Hf0. unfold pmm_at in *. lia.
  - intros p' _ _ Hrel Hmem. apply HQ. by apply (pl_give kd d m0 [] L m f).
Qed.

(** One record. *)
Definition unload_last : KM (unit + unit) :=
  let* node := link_op (list_back (Some LoadedHead)) in
  let* loaded := loaded_container node in
  let* virt := fetch k_loaded_l loaded in
  let* phys := machine_op (paging_translate (PHYS_TO_VIRT d) virt) in
  link_op (list_remove node) ;;;
  machine_op (paging_unmap (PHYS_TO_VIRT d) virt) ;;;
  (if negb (phys =? 0) then pmm_op (pmm_free_page phys) else ret tt) ;;;
  free_block loaded ;;;
  discard k_loaded_l loaded ;;;
  drop_link (LoadedNode loaded) ;;;
  ret (inl tt).

(** A mapped page is unmapped. *)
Lemma wp_unmap_page L m p h ln ld (Q : unit -> kernel -> Prop) :
  pages_loaded kd d m0 [] (L ++ [p]) m ->
  (forall m', pages_loaded kd d m0 [lp_frame p] L m' -> Q tt (loader k0 h m' ln ld)) ->
  wp (machine_op (paging_unmap (PHYS_TO_VIRT d) (lp_page p))) Q (loader k0 h m ln ld).
Proof.
  intros Hpl HQ. pose proof (pl_task _ _ _ _ _ _ Hpl) as Ht. pose proof (ready_mem _ _ (ts_ready _ _ _ Ht)) as Hmem.
  pose proof (pl_pages _ _ _ _ _ _ Hpl) as Hups. apply Forall_app in Hups as [_ [Hup _]%Forall_cons].
  destruct (user_address_pde _ (proj1 Hup)) as [Hv Hi]. pose proof (ts_space _ _ _ Ht) as Hsp.
  pose proof (ts_private _ _ _ Ht _ Hi) as Hpriv. apply wp_loader_machine. eapply wp_mono.
  { apply wp_conj; [by apply (wp_unmap_bytes m d (lp_page p))|].
    apply wp_conj; [by apply (wp_unmap_table m d (lp_page p))|].
    apply (wp_paging_unmap m d (lp_page p) (fun _ m' => unmapped d (lp_page p) m m')); auto. }
  intros [] m' (Ho & Hk & Hun). apply HQ. by apply (pl_unmap kd d m0 L m m' p).
Qed.

Lemma remove_record L h ln ld p ln' :
  records (L ++ [p]) h ln ld ->
  removed LoadedHead (LoadedNode <$> (lp_node <$> L)) (LoadedNode (lp_node p)) [] ln ln' ->
  (lp_node p ∉ lp_node <$> L) /\ is_list (delete (LoadedNode (lp_node p)) ln') LoadedHead (LoadedNode <$> (lp_node <$> L)) /\
  forall x, (x <> LoadedHead) -> (forall a, x <> LoadedNode a) -> delete (LoadedNode (lp_node p)) ln' !! x = k_links k0 !! x.
Proof.
  intros [_ _ [Hnd _] Hrest _] (Hl' & _ & Hun & _). rewrite app_nil_r in Hl'.
  assert (LoadedNode (lp_node p) ∉ LoadedHead :: (LoadedNode <$> (lp_node <$> L))) as Hni.
  { rewrite !fmap_app in Hnd. cbn in Hnd. apply NoDup_cons in Hnd as [_ Hnd]. apply NoDup_app in Hnd as (_ & Hnd & _).
    intros [|Hin]%elem_of_cons; [done|]. by apply (Hnd _ Hin), list_elem_of_singleton. }
  split; [|split].
  - intros Hin. apply Hni. right. by apply list_elem_of_fmap_2.
  - apply (is_list_frame ln' _ _ _ [LoadedNode (lp_node p)]); [done| |].
    + intros y Hy. apply lookup_delete_ne. intros <-. apply Hy, list_elem_of_here.
    + intros y Hy ->%list_elem_of_singleton. done.
  - intros x Hx1 Hx2. rewrite lookup_delete_ne by auto. rewrite Hun; [by apply Hrest|].
    intros [->|[(b & -> & _)%list_elem_of_fmap|[->|H]%elem_of_cons]%elem_of_app]%elem_of_cons;
      [done|by apply (Hx2 b)|by apply (Hx2 (lp_node p))|by apply not_elem_of_nil in H].
Qed.

Lemma wp_unload_last L m p h ln ld (Q : unit + unit -> kernel -> Prop) :
  pages_loaded kd d m0 [] (L ++ [p]) m -> records (L ++ [p]) h ln ld ->
  (forall h' m' ln' ld', pages_loaded kd d m0 [] L m' -> records L h' ln' ld' -> Q (inl tt) (loader k0 h' m' ln' ld')) ->
  wp unload_last Q (loader k0 h m ln ld).
Proof.
  intros Hpl Hrec HQ. pose proof Hrec as [(u & Hu & Eu) He Hl Hrest Hst].
  assert (lp_frame p ∈ [] ++ (lp_frame <$> L ++ [p])) as Hin.
  { cbn [app]. rewrite fmap_app. apply elem_of_app. right. by apply list_elem_of_singleton. }
  destruct (frame_of_pages kd d m0 _ _ _ Hpl _ Hin) as (Hg & _).
  pose proof (pl_pages _ _ _ _ _ _ Hpl) as Hups. apply Forall_app in Hups as [_ [Hup _]%Forall_cons].
  destruct (user_address_pde _ (proj1 Hup)) as [Hv Hi]. apply Forall_app in Hst as [Hst [Hp _]%Forall_cons].
  rewrite !fmap_app in Hl. cbn in Hl. set (a := lp_node p) in *.
  apply wp_bind, wp_loader_link, (wp_list_back _ _ _ _ Hl). rewrite last_cons, last_snoc. cbn [loaded_container].
  apply wp_bind, wp_ret, wp_bind, (wp_fetch_loaded k0 a (lp_page p)); [done|].
  apply wp_bind, wp_loader_machine, wp_paging_translate; [apply (pl_task _ _ _ _ _ _ Hpl)|done|].
  rewrite (pl_walk _ _ _ _ _ _ Hpl) by apply Hup.
  rewrite page_of_snoc by apply Hpl. rewrite decide_True by done. cbn [option_fmap option_map fmap].
  rewrite leaf_of_frame, page_offset_mod, (proj2 Hup), Z.add_0_r by done.
  destruct (good_frame_virt _ Hg) as (_ & _ & _ & Hfu). destruct (good_frame_page _ Hg) as [Hpos _].
  rewrite u32_id by done. apply wp_bind, wp_loader_link, (wp_remove_list _ _ _ [] _ _ Hl). intros ln1 Hrem.
  destruct (remove_record L h ln ld p ln1 Hrec Hrem) as (Hni & Hl' & Hrest').
  apply wp_bind, (wp_unmap_page L m p); [done|]. intros m1 Hpl1.
  rewrite (proj2 (Z.eqb_neq (lp_frame p) 0)) by (intros E; rewrite E in Hpos; done). cbn [negb].
  apply wp_bind, (wp_give_frame k0 L m1 (lp_frame p)); [done|]. intros m2 Hpl2.
  apply wp_bind, wp_loader_heap. destruct (heap_now [] L m2 h u) as [Hnow _]; [done..|].
  apply (wp_kfree _ u); [exact Hnow|rewrite Eu, fmap_app; set_solver|].
  intros [h' m'] u1 n u2 E Hh' [Es Ee]. cbn [the_heap the_supply] in *. subst m'.
  assert (heap_end h' = heap_end h0) as He' by congruence.
  destruct (heap_then [] L m2 h' (u1 ++ u2)) as [Hthen _]; [done..|].
  apply wp_bind, wp_discard_loaded, wp_bind, wp_drop_link, wp_ret, HQ; [done|]. split; [|done|done|done|].
  - exists (u1 ++ u2). split; [done|]. apply (Permutation_cons_inv (a := a)).
    rewrite E, !fmap_app in Eu. cbn in Eu. rewrite fmap_app, Permutation_middle, Eu.
    rewrite <- app_assoc. by apply symmetry, Permutation_middle.
  - rewrite Forall_forall in *. intros q Hq. rewrite lookup_delete_ne; [by apply Hst|].
    intros E2. apply Hni. fold a. rewrite E2. by apply list_elem_of_fmap_2.
Qed.

Lemma wp_unload_pages L m h ln ld (Q : unit -> kernel -> Prop) :
  pages_loaded kd d m0 [] L m -> records L h ln ld ->
  (forall h' m' ln' ld', pages_loaded kd d m0 [] [] m' -> records [] h' ln' ld' -> Q tt (loader k0 h' m' ln' ld')) ->
  wp (unload_pages (PHYS_TO_VIRT d)) Q (loader k0 h m ln ld).
Proof.
  intros Hpl Hrec HQ. apply wp_bind, wp_gets.
  assert (length L < S (size ln))%nat as Hn.
  { pose proof (rc_list _ _ _ _ Hrec) as Hl. pose proof (is_list_length _ _ _ Hl) as E. rewrite !length_fmap in E. lia. }
  change (k_links (loader k0 h m ln ld)) with ln. revert Hn. generalize (S (size ln)). intros n.
  revert L m h ln ld Hpl Hrec. induction n as [|n IH]; intros L m h ln ld Hpl Hrec Hn; [lia|]. cbn [loop].
  apply wp_bind, wp_bind, wp_loader_link, (wp_list_empty _ _ _ _ (rc_list _ _ _ _ Hrec)).
  destruct L as [|p L _] using rev_ind.
  - rewrite bool_decide_true by done. do 2 apply wp_ret. by apply HQ.
  - rewrite bool_decide_false by (rewrite !fmap_app; by destruct (LoadedNode <$> _)).
    apply (wp_unload_last L m p); [done..|]. intros h' m' ln' ld' Hpl' Hrec'. apply (IH L); [done..|].
    rewrite length_app in Hn. cbn in Hn. lia.
Qed.

(** ** Loading *)

(** What the screen shows. *)
Context (scr : scrollback) (Hscreen : shows (k_console k0) scr).

(** The image that is loaded. *)
Context (image : Z) (Hfile : file_at (m_ram m0) image bs) (Himage : image_in_use m0 d image (len bs)) (Hlen : 0 < len bs).

(** The part of the file that belongs in the page is copied. *)
Lemma wp_fill_frame L m p h ln ld (Q : unit -> kernel -> Prop) :
  pages_loaded kd d m0 [] (L ++ [p]) m -> filled bs L m -> aligned_segment bs (lp_ph p) -> p_vaddr (lp_ph p) <= lp_page p ->
  holds (m_ram m) (PHYS_TO_VIRT (lp_frame p)) (replicate (Z.to_nat PAGE_SIZE) 0) ->
  (forall r, pages_loaded kd d m0 [] (L ++ [p]) (with_ram r m) -> filled bs (L ++ [p]) (with_ram r m) ->
     Q tt (loader k0 h (with_ram r m) ln ld)) ->
  wp (image_op (copy_segment_part image (lp_ph p) (lp_page p) (lp_frame p))) Q (loader k0 h m ln ld).
Proof.
  intros Hpl Hfill Hseg Hv Hz HQ. set (f := lp_frame p) in *.
  assert (f ∈ [] ++ (lp_frame <$> L ++ [p])) as Hin.
  { cbn [app]. rewrite fmap_app. apply elem_of_app. right. by apply list_elem_of_singleton. }
  destruct (frame_of_pages kd d m0 _ _ _ Hpl f Hin) as (Hg & Hf0 & _).
  pose proof (pl_pages _ _ _ _ _ _ Hpl) as Hups. apply Forall_app in Hups as [_ [[Hu Ha] _]%Forall_cons].
  pose proof (file_loaded kd d m0 bs _ _ _ image Hpl Hfile Himage) as Hnow.
  apply wp_loader_image, wp_keeps; [apply keeps_copy|].
  apply (wp_copy_segment_part (m_ram m) image bs (lp_ph p) (lp_page p) f); [done|done| |done|done| |].
  - split; [done|]. unfold user_address, KERNEL_VIRT_BASE in Hu. clear -Hu. lia.
  - by eapply image_apart.
  - intros r Hh Hs Hun. pose proof (only_page_written _ _ _ Hg Hs Hun) as Ho.
    apply HQ; [by apply (pl_write kd d m0 [] (L ++ [p]) m f)|].
    pose proof (frames_good kd d m0 _ _ _ Hpl) as Hgood. pose proof (pl_frames _ _ _ _ _ _ Hpl) as Hnd.
    cbn [app] in Hnd. rewrite fmap_app in Hgood, Hnd. apply Forall_app in Hgood as [Hgood _].
    apply NoDup_app in Hnd as (_ & Hnd & _).
    apply Forall_app. split; [|apply Forall_cons; split; [exact Hh|by apply Forall_nil]].
    apply (filled_write bs L m f); [done|done| |done]. intros Hl. apply (Hnd f Hl). by apply list_elem_of_singleton.
Qed.

(** A record joins the list. *)
Lemma wp_add_record {B} L m h ln ld p u (rest : KM B) (Q : B -> kernel -> Prop) :
  records L h ln ld -> (lp_node p ∉ lp_node <$> L) ->
  (forall ln', is_list ln' LoadedHead (LoadedNode <$> (lp_node <$> L ++ [p])) ->
     (forall x, (x <> LoadedHead) -> (forall a, x <> LoadedNode a) -> ln' !! x = k_links k0 !! x) ->
     Forall (fun q => <[lp_node p := lp_page p]> ld !! lp_node q = Some (lp_page q)) (L ++ [p]) ->
     wp rest Q (loader k0 u m ln' (<[lp_node p := lp_page p]> ld))) ->
  wp (store k_loaded_l (lp_node p) (lp_page p) ;;;
      new_link (LoadedNode (lp_node p)) ;;;
      link_op (list_node_init (Some (LoadedNode (lp_node p)))) ;;;
      link_op (list_push_back (Some LoadedHead) (Some (LoadedNode (lp_node p)))) ;;; rest) Q (loader k0 u m ln ld).
Proof.
  intros [_ _ Hl Hrest Hst] Hnew HQ. set (a := lp_node p) in *.
  apply wp_bind, wp_store_loaded, wp_bind, wp_new_link, wp_bind, wp_loader_link.
  set (ln1 := <[LoadedNode a := Node None None]> ln).
  assert (unlinked ln1 (LoadedNode a)) as Hun by apply lookup_insert_eq.
  assert (is_list ln1 LoadedHead (LoadedNode <$> (lp_node <$> L))) as Hl1.
  { apply (is_list_frame ln ln1 _ _ [LoadedNode a]); [done| |].
    - intros y Hy. apply lookup_insert_ne. intros <-. apply Hy, list_elem_of_here.
    - intros y Hy ->%list_elem_of_singleton. apply elem_of_cons in Hy as [|Hy]; [done|].
      apply list_elem_of_fmap in Hy as (b & [= <-] & Hy). done. }
  apply wp_node_init; [done|]. apply wp_bind, wp_loader_link, (wp_push_back _ (LoadedNode <$> (lp_node <$> L))); [done..|].
  intros ln2 (Hl2 & Hu2 & _). apply HQ.
  - by rewrite !fmap_app.
  - intros x Hx1 Hx2. rewrite Hu2; [|].
    + unfold ln1. rewrite lookup_insert_ne by auto. by apply Hrest.
    + rewrite app_nil_r. intros [->|[->|(b & -> & _)%list_elem_of_fmap]%elem_of_cons]%elem_of_cons; [by apply (Hx2 a)|done|by apply (Hx2 b)].
  - apply Forall_app. split; [|apply Forall_cons; split; [apply lookup_insert_eq|by apply Forall_nil]].
    rewrite Forall_forall in *. intros q Hq. rewrite lookup_insert_ne; [by apply Hst|].
    intros E. apply Hnew. rewrite E. by apply list_elem_of_fmap_2.
Qed.
(** The pages [L] have been loaded, with room for [r] more records. *)
Definition progress L r (k : kernel) : Prop :=
  exists h m ln ld, k = loader k0 h m ln ld /\ pages_loaded kd d m0 [] L m /\ filled bs L m /\ records L h ln ld /\
    records_room r h m0 /\ spent m0 (2 * len L) m.

(** The pages [L] have been loaded, and the memory is used up. *)
Definition exhausted L (k : kernel) : Prop :=
  exists s scr' h m ln ld, k = loader (on_screen s k0) h m ln ld /\ shows s scr' /\ pages_loaded kd d m0 [] L m /\ records L h ln ld /\
    free_pages (pmm_at m0) < 2 * (len L + 1).

Lemma len_snoc {A} (l : list A) x : len (l ++ [x]) = len l + 1.
Proof. unfold len. rewrite length_app. cbn. lia. Qed.

(** After the page is mapped. *)
Lemma wp_finish_page fuel L r ph page f h m ln ld (Q : option unit -> kernel -> Prop) :
  (1 < fuel)%nat -> 0 <= r -> aligned_segment bs ph -> p_vaddr ph <= page ->
  (forall a, pages_loaded kd d m0 [] (L ++ [PageRec ph page f a]) m) -> filled bs L m ->
  holds (m_ram m) (PHYS_TO_VIRT f) (replicate (Z.to_nat PAGE_SIZE) 0) ->
  records L h ln ld -> records_room (r + 1) h m0 -> spent m0 (2 * len L + 2) m ->
  (forall a k, progress (L ++ [PageRec ph page f a]) r k -> Q None k) ->
  wp (let* loaded := alloc_block fuel LOADED_PAGE_SIZE in
      if loaded =? NULL then
        machine_op (paging_unmap (PHYS_TO_VIRT d) page) ;;;
        pmm_op (pmm_free_page f) ;;;
        ret (Some tt)
      else
        store k_loaded_l loaded page ;;;
        new_link (LoadedNode loaded) ;;;
        link_op (list_node_init (Some (LoadedNode loaded))) ;;;
        link_op (list_push_back (Some LoadedHead) (Some (LoadedNode loaded))) ;;;
        image_op (copy_segment_part image ph page f) ;;;
        ret None) Q (loader k0 h m ln ld).
Proof.
  intros Hfuel Hr Hseg Hv Hpl Hfill Hz Hrec Hroom Hsp HQ.
  apply wp_bind, (wp_alloc_record fuel [] (L ++ [PageRec ph page f 0]) L m h ln ld r); [done|done|done|done|done|].
  intros a h' u' Hnz Hnew Hu' Eu' He Hroom'. rewrite (proj2 (Z.eqb_neq a NULL)) by done.
  set (p := PageRec ph page f a) in *. specialize (Hpl a). fold p in Hpl.
  apply (wp_add_record L m h ln ld p h'); [done|done|]. intros ln' Hl' Hrest' Hst'.
  apply wp_bind, (wp_fill_frame L m p); [done..|]. intros r' Hpl' Hfill'. apply wp_ret, (HQ a).
  exists h', (with_ram r' m), ln', (<[a := page]> ld). split; [done|]. split; [done|]. split; [done|]. split; [|split; [done|]].
  - split; [|done..]. exists u'. split; [done|]. rewrite Eu', fmap_app. cbn. by rewrite <- Permutation_middle, app_nil_r.
  - rewrite len_snoc. unfold spent in *. change (pmm_at (with_ram r' m)) with (pmm_at m). lia.
Qed.
Lemma wp_load_page fuel L r ph page k (Q : option unit -> kernel -> Prop) :
  (1 < fuel)%nat -> 0 <= r -> aligned_segment bs ph -> p_vaddr ph <= page -> user_page page -> page ∉ lp_page <$> L ->
  progress L (r + 1) k ->
  (forall f a k', progress (L ++ [PageRec ph page f a]) r k' -> Q None k') ->
  (forall k', exhausted L k' -> Q (Some tt) k') ->
  wp (load_page fuel (PHYS_TO_VIRT d) image ph page) Q k.
Proof.
  intros Hfuel Hr Hseg Hv Hup Hnew (h & m & ln & ld & -> & Hpl & Hfill & Hrec & Hroom & Hsp) HQ HQf.
  pose proof (pl_task _ _ _ _ _ _ Hpl) as Ht. pose proof (ready_mem _ _ (ts_ready _ _ _ Ht)) as Hmem.
  destruct (user_address_pde _ (proj1 Hup)) as [Hpv Hpi].
  unfold load_page. apply wp_bind, wp_loader_pmm, wp_alloc_frame; [done| |].
  { intros p' Hfail. destruct (alloc_failed_empty m p' Ht Hfail) as [-> Hz].
    change (NULL =? NULL) with true. cbn iota. apply wp_bind, (wp_loader_says k0 _ scr); [done|]. intros s Hs. apply wp_ret, HQf.
    exists s, (type_text (text "ELF: physical page allocation failed" ++ NEWLINE) scr), h, m, ln, ld.
    do 4 (split; [done|]). unfold spent in Hsp. lia. }
  intros f p' Hg Hnz Hf _ Htk. rewrite (proj2 (Z.eqb_neq f NULL)) by done.
  pose proof (pl_take kd d m0 L m f p' Hpl Hg Hf Htk) as Hpl1.
  assert (spent m0 (2 * len L + 1) (with_pmm p' m)) as Hsp1.
  { unfold spent in *. change (pmm_at (with_pmm p' m)) with p'. rewrite (taken_count _ _ _ Htk). unfold pmm_at in *. lia. }
  apply wp_bind, (wp_zero_frame L); [done|exact Hfill|]. intros _ r1 Hpl2 Hfill2 Hz.
  set (m2 := with_ram r1 (with_pmm p' m)) in *.
  apply wp_bind_assoc, wp_bind. apply (wp_map_frame L m2 f ph page); [done..| |].
  - intros m3 Hpl3 Hkept Hsp3. rewrite Z.eqb_refl. apply Forall_cons in Hkept as [Hkf Hkl].
    apply (wp_finish_page fuel L r ph page f h m3 ln ld); try done.
    + apply (filled_kept bs L m2); [done|by eapply frames_good|done].
    + apply (holds_kept (m_ram m2)); [done| |done|done]. unfold len. by rewrite length_replicate, Z2Nat.id.
    + replace (2 * len L + 2) with (2 * len L + 1 + 1) by lia. by apply Hsp3.
    + intros a k'. apply HQ.
  - intros [Hno Hz2]. rewrite (proj2 (Z.eqb_neq 0 f)) by (by apply not_eq_sym). cbn [negb].
    apply wp_bind, (wp_loader_says k0 _ scr); [done|]. intros s Hs. apply wp_bind, wp_loader_machine.
    apply wp_unmap_absent; [apply (ts_space _ _ _ Ht)|done|exact Hno|].
    apply wp_bind, (wp_give_frame (on_screen s k0) L m2 f); [done|]. intros m4 Hpl4. apply wp_ret, HQf.
    eexists s, _, h, m4, ln, ld. split; [done|]. split; [exact Hs|]. do 2 (split; [done|]). unfold spent in Hsp1.
    change (pmm_at m2) with (pmm_at (with_pmm p' m)) in Hz2. lia.
Qed.
End Loaded.
