(* ===== verification/ElfSpec.v ===== *)
(** * The loader builds the program's memory

    [elf_load] on an image in kernel memory and the empty user half of a
    directory: every user address reads as [ElfFile.program_byte] says, or the
    program is refused and every page goes back. *)

From S2P Require Import Prelude Layout Bitmap Machine Pmm DList CString Printf Ram Words Paging PagingSpec Vam Vmm Heap HeapSpec HeapRoom HeapSupply TaskSpace Task Sync Fs Console ConsoleSpec Kernel Printing Elf ElfFile ElfPages ElfLoad.

(** ** The segments of a laid out program *)

Section Segments.
Implicit Types (bs : list Z) (ph : program_header) (va page i : Z).

Lemma header_fields bs ph : ph ∈ program_headers bs ->
  is_u32 (p_offset ph) /\ is_u32 (p_vaddr ph) /\ is_u32 (p_filesz ph) /\ is_u32 (p_memsz ph).
Proof.
  unfold program_headers. intros (i & -> & _)%list_elem_of_fmap. cbn. repeat split; apply u32_range.
Qed.

(** The rounding of the end does not overflow. *)
Lemma segment_bounds ph :
  is_u32 (p_vaddr ph) -> is_u32 (p_memsz ph) -> p_vaddr ph mod PAGE_SIZE = 0 -> p_vaddr ph + p_memsz ph <= KERNEL_VIRT_BASE ->
  segment_start ph = p_vaddr ph /\ segment_end ph = (p_vaddr ph + p_memsz ph + PAGE_SIZE - 1) / PAGE_SIZE * PAGE_SIZE.
Proof.
  unfold is_u32, KERNEL_VIRT_BASE. intros Hv Hm Ha Hle. unfold segment_start, segment_end.
  rewrite (page_down_div (p_vaddr ph)) by done. rewrite (u32_id (p_vaddr ph + p_memsz ph)) by (unfold is_u32; lia).
  rewrite page_down_div by apply u32_range. rewrite u32_id by (unfold is_u32, PAGE_SIZE; lia). unfold PAGE_SIZE in *. lia.
Qed.

(** A segment that is not refused can be loaded page by page. *)
Lemma accepted_segment bs ph :
  laid_out bs -> ph ∈ program_headers bs -> p_type ph = PT_LOAD -> refused bs ph = false -> len bs < 2 ^ 32 ->
  aligned_segment bs ph /\
  forall page, page ∈ segment_pages ph -> user_page page /\ p_vaddr ph <= page.
Proof.
  intros Hlay Hin Ht Hr Hlen. destruct (header_fields bs ph Hin) as (Ho & Hv & Hf & Hm).
  destruct (lay_aligned _ Hlay ph Hin Ht) as [Ha Hle]. destruct (segment_bounds ph Hv Hm Ha Hle) as [Es Ee].
  unfold refused, segment_rejected in Hr. rewrite Ht in Hr. cbn [Z.eqb Pos.eqb PT_LOAD andb] in Hr.
  apply orb_false_iff in Hr as [[_ [H1 H2]%orb_false_iff]%orb_false_iff _]. unfold is_u32 in *. split.
  - split; [done|]. split; [done|]. rewrite u32_id in H2 by (unfold is_u32; lia). lia.
  - intros page Hp. unfold segment_pages in Hp. rewrite Ht in Hp. cbn [Z.eqb Pos.eqb PT_LOAD] in Hp.
    apply list_elem_of_fmap in Hp as (i & -> & Hi). apply elem_of_seqZ in Hi. rewrite Es, Ee in *.
    unfold user_page, user_address, KERNEL_VIRT_BASE, PAGE_SIZE in *. lia.
Qed.
End Segments.

(** ** The loops *)

Definition job (p : page_rec) : program_header * Z := (lp_ph p, lp_page p).

Section Load.
Context (kd d : Z) (k0 : kernel) (u0 : list (Z * Z)) (bs : list Z) (image : Z) (fuel : nat).
Implicit Types (k : kernel) (L : list page_rec) (ph : program_header) (js : list (program_header * Z)).

Let m0 : machine := the_supply (k_heap k0).
Let h0 : heap := the_heap (k_heap k0).
Let pages : Z := len (program_pages bs).

Context (Hspace : task_space kd d m0) (Hheap : heap_at h0 m0 u0).
Context (Hfile : file_at (m_ram m0) image bs) (Himage : image_in_use m0 d image (len bs)).
Context (scr : scrollback) (Hscreen : shows (k_console k0) scr) (Hlay : laid_out bs) (Hfuel : (1 < fuel)%nat).

(** The pages [js] of the program are loaded. *)
Definition reached js k : Prop :=
  exists L, job <$> L = js /\ progress kd d k0 u0 bs L (pages - len js) k.

(** The loader cannot go on. *)
Definition stuck k : Prop :=
  exists s scr' L h m ln ld, k = loader (on_screen s k0) h m ln ld /\ shows s scr' /\
    pages_loaded kd d m0 [] L m /\ records k0 u0 L h ln ld /\
    ((exists ph, ph ∈ program_headers bs /\ refused bs ph = true) \/ free_pages (pmm_at m0) < 2 * pages).

Lemma job_pages L : lp_page <$> L = (job <$> L).*2.
Proof. rewrite <- list_fmap_compose. by apply list_fmap_ext. Qed.

Lemma seqZ_take n i : 0 <= i <= n -> take (Z.to_nat i) (seqZ 0 n) = seqZ 0 i.
Proof.
  intros Hi. replace n with (i + (n - i)) by lia. rewrite seqZ_app by lia.
  rewrite take_app_le by (rewrite length_seqZ; lia). rewrite firstn_all2; [done|]. rewrite length_seqZ. lia.
Qed.

Lemma reached_stuck js k ph : ph ∈ program_headers bs -> refused bs ph = true -> reached js k -> stuck k.
Proof.
  intros Hin Hr (L & _ & h & m & ln & ld & -> & Hpl & _ & Hrec & _). exists (k_console k0), scr, L, h, m, ln, ld.
  rewrite on_screen_id. eauto 10.
Qed.

(** The next page. *)
Lemma wp_load_next js rest ph page k (Q : option unit -> kernel -> Prop) :
  program_pages bs = js ++ (ph, page) :: rest -> aligned_segment bs ph -> p_vaddr ph <= page -> user_page page ->
  0 < len bs -> reached js k ->
  (forall k', reached (js ++ [(ph, page)]) k' -> Q None k') -> (forall k', stuck k' -> Q (Some tt) k') ->
  wp (load_page fuel (PHYS_TO_VIRT d) image ph page) Q k.
Proof.
  intros Epages Hseg Hv Hup Hlen (L & EL & Hprog) HQ HQf.
  assert (len L = len js) as Elen by (rewrite <- EL; unfold len; by rewrite length_fmap).
  assert (0 <= pages - len js - 1) as Hroom.
  { unfold pages. rewrite Epages, len_app. unfold len. cbn [length]. lia. }
  apply (wp_load_page kd d k0 u0 bs Hspace Hheap scr Hscreen image Hfile Himage Hlen fuel L (pages - len js - 1) ph page); try done.
  - rewrite job_pages, EL. pose proof (lay_apart _ Hlay) as Hnd. rewrite Epages, fmap_app in Hnd. cbn in Hnd.
    apply NoDup_app in Hnd as (_ & Hnd & _). intros Hin. by apply (Hnd page Hin), list_elem_of_here.
  - by rewrite Z.sub_add.
  - intros f a k' Hprog'. apply HQ. exists (L ++ [PageRec ph page f a]). split; [by rewrite fmap_app, EL|].
    rewrite len_snoc. by rewrite Z.sub_add_distr.
  - intros k' (s & scr' & h & m & ln & ld & -> & Hs & Hpl & Hrec & Hfree). apply HQf.
    exists s, scr', L, h, m, ln, ld. do 4 (split; [done|]).
    right. eapply Z.lt_le_trans; [exact Hfree|]. clear -Elen Hroom. unfold pages in *. lia.
Qed.

(** One segment, after the pages [js]. *)
Lemma wp_load_segment js rest ph k (Q : option unit -> kernel -> Prop) :
  program_pages bs = js ++ pages_of ph ++ rest -> ph ∈ program_headers bs -> 0 < len bs -> reached js k ->
  (forall k', reached (js ++ pages_of ph) k' -> refused bs ph = false -> Q None k') ->
  (forall k', stuck k' -> Q (Some tt) k') ->
  wp (load_segment fuel (PHYS_TO_VIRT d) image (len bs) ph) Q k.
Proof.
  intros Epages Hin Hlen Hk HQ HQf. unfold load_segment.
  destruct (Z.eqb_spec (p_type ph) PT_LOAD) as [Ht|Ht]; cbn [negb].
  2:{ apply wp_ret, HQ; [|unfold refused; by rewrite (proj2 (Z.eqb_neq _ _))].
      unfold pages_of, segment_pages. rewrite (proj2 (Z.eqb_neq _ _)) by done. by rewrite app_nil_r. }
  destruct (segment_rejected ph (len bs)) eqn:Hrej.
  { apply wp_ret, HQf, (reached_stuck js k ph); [done| |done]. unfold refused. by rewrite Ht. }
  assert (refused bs ph = false) as Href by (unfold refused; by rewrite Hrej, andb_false_r).
  destruct (accepted_segment bs ph) as [Hseg Hpages]; [done..|apply Hfile|].
  set (n := (segment_end ph - segment_start ph) / PAGE_SIZE) in *.
  assert (segment_pages ph = (fun i => segment_start ph + i * PAGE_SIZE) <$> seqZ 0 n) as Esp.
  { unfold segment_pages. by rewrite Ht. }
  apply (wp_for_range (fun i k' => reached (js ++ take (Z.to_nat i) (pages_of ph)) k')).
  - by rewrite app_nil_r.
  - intros i k' Hi Hk'. assert (0 <= i < n) as Hin' by lia. set (page := segment_start ph + i * PAGE_SIZE) in *.
    assert (page ∈ segment_pages ph) as Hp.
    { rewrite Esp. apply list_elem_of_fmap. exists i. split; [done|]. apply elem_of_seqZ. lia. }
    destruct (Hpages page Hp) as [Hup Hv]. destruct (user_address_pde _ (proj1 Hup)) as [Hu _]. rewrite u32_id by exact Hu.
    assert (pages_of ph !! Z.to_nat i = Some (ph, page)) as El.
    { unfold pages_of. rewrite Esp, !list_lookup_fmap, lookup_seqZ_lt by lia. cbn. unfold page. do 3 f_equal. lia. }
    assert (take (Z.to_nat (i + 1)) (pages_of ph) = take (Z.to_nat i) (pages_of ph) ++ [(ph, page)]) as Etake.
    { rewrite Z2Nat.inj_add, Nat.add_1_r by lia. by apply take_S_r. }
    rewrite Etake, app_assoc.
    apply (wp_load_next (js ++ take (Z.to_nat i) (pages_of ph)) (drop (S (Z.to_nat i)) (pages_of ph) ++ rest) ph page);
      [|done..].
    rewrite Epages, <- app_assoc. f_equal. rewrite <- (take_drop_middle _ _ _ El) at 1. by rewrite <- app_assoc.
  - intros k' Hend. apply HQ; [|done]. rewrite firstn_all2 in Hend; [done|].
    unfold pages_of. rewrite Esp, !length_fmap, length_seqZ. lia.
Qed.

(** The image stays where it is. *)
Lemma wp_image_reached {A} js k (c : M ram A) (a : A) (Q : A -> kernel -> Prop) :
  reached js k -> (forall r, file_at r image bs -> wp c (fun x r' => x = a /\ r' = r) r) -> Q a k -> wp (image_op c) Q k.
Proof.
  intros (L & _ & h & m & ln & ld & -> & Hpl & _) Hc HQ. pose proof (file_loaded kd d m0 bs _ _ _ image Hpl Hfile Himage) as Hnow.
  apply wp_loader_image. eapply wp_mono; [by apply Hc|]. intros x r [-> ->]. by rewrite with_ram_id.
Qed.

(** The pages of the first [i] headers. *)
Definition pages_before i : list (program_header * Z) := mjoin (pages_of <$> take (Z.to_nat i) (program_headers bs)).

Lemma wp_load_headers k (Q : option unit -> kernel -> Prop) :
  executable bs = true -> reached [] k ->
  (forall k', reached (program_pages bs) k' -> Forall (fun ph => refused bs ph = false) (program_headers bs) -> Q None k') ->
  (forall k', stuck k' -> Q (Some tt) k') ->
  wp (for_range 0 (Z.to_nat (half_at bs 44)) (fun i =>
        let* ph := image_op (nth_program_header image i) in
        load_segment fuel (PHYS_TO_VIRT d) image (len bs) ph)) Q k.
Proof.
  intros Hexec Hk HQ HQf. destruct (executable_facts bs Hexec) as (Hmin & _).
  assert (is_u16 (half_at bs 44)) as [Hn0 _] by apply u16_range. set (n := half_at bs 44) in *.
  assert (length (program_headers bs) = Z.to_nat n) as Elen by (unfold program_headers; by rewrite length_fmap, length_seqZ).
  apply (wp_for_range (fun i k' => reached (pages_before i) k' /\
    Forall (fun ph => refused bs ph = false) (take (Z.to_nat i) (program_headers bs)))).
  - done.
  - intros i k' Hi [Hk' Hacc]. assert (0 <= i < n) as Hin by lia. set (ph := program_header_at bs i).
    assert (program_headers bs !! Z.to_nat i = Some ph) as El.
    { unfold program_headers. rewrite list_lookup_fmap, lookup_seqZ_lt by (fold n; lia). cbn. unfold ph. do 2 f_equal. lia. }
    assert (take (Z.to_nat (i + 1)) (program_headers bs) = take (Z.to_nat i) (program_headers bs) ++ [ph]) as Etake.
    { rewrite Z2Nat.inj_add, Nat.add_1_r by lia. by apply take_S_r. }
    assert (pages_before (i + 1) = pages_before i ++ pages_of ph) as Epb.
    { unfold pages_before. rewrite Etake, fmap_app, join_app. cbn. by rewrite app_nil_r. }
    apply wp_bind, (wp_image_reached (pages_before i) k' _ ph); [done| |].
    { intros r Hr. by apply (wp_nth_program_header r image bs i). }
    apply (wp_load_segment (pages_before i) (mjoin (pages_of <$> drop (S (Z.to_nat i)) (program_headers bs))) ph); try done.
    + unfold program_pages, pages_before. rewrite <- (take_drop_middle _ _ _ El) at 1. by rewrite fmap_app, join_app.
    + by eapply list_elem_of_lookup_2.
    + lia.
    + intros k2 Hk2 Href. rewrite Epb, Etake. split; [done|]. apply Forall_app. by split; [|constructor].
  - intros k' [Hk' Hacc]. rewrite Z.add_0_l, Z2Nat.id in Hk', Hacc by done. unfold pages_before in Hk'.
    rewrite <- Elen, firstn_all in Hk', Hacc. by apply HQ.
Qed.
End Load.

(** ** What the loader promises *)

(** The user half of [d] is the memory of the program: the byte of every
    address, the permissions of every page, a frame for each page alone, and
    every frame taken is one of these or a page table. *)
Record program_in (bs : list Z) (d : Z) (m0 m : machine) : Prop := {
  in_bytes : forall va, user_address va -> virtual_byte (m_ram m) d va = program_byte bs va;
  in_flags : forall va e, user_address va -> walk (m_ram m) d va = Some e ->
    exists ph, program_segment bs va = Some ph /\ Z.land e (PAGE_SIZE - 1) = segment_flags ph;
  in_apart : forall va vb e e', user_address va -> user_address vb -> walk (m_ram m) d va = Some e ->
    walk (m_ram m) d vb = Some e' -> frame_of e = frame_of e' -> va / PAGE_SIZE = vb / PAGE_SIZE;
  in_fresh : forall va e, user_address va -> walk (m_ram m) d va = Some e -> m_free m0 (frame_of e) = true;
  in_owned : forall f, good_frame f -> m_free m0 f = true ->
    m_free m f = true \/
    (exists va e, user_address va /\ walk (m_ram m) d va = Some e /\ frame_of e = f) \/
    (exists i, user_pde i /\ present (pde m d i) = true /\ table_of m d i = f);
}.

(** The user half is empty and every page is back. *)
Record load_undone (d : Z) (m0 m : machine) : Prop := {
  un_empty : forall va, user_address va -> walk (m_ram m) d va = None;
  un_free : forall f, m_free m f = m_free m0 f;
  un_count : free_pages (pmm_at m) = free_pages (pmm_at m0);
}.

(** The rest of the kernel is as it was: the address spaces, every page in use
    at the start but the directory's, the upper half of the directory, and
    every component but the heap, the loader's own list and the screen. *)
Definition rest_kept (kd d : Z) (k k' : kernel) : Prop :=
  let m0 := the_supply (k_heap k) in
  exists s h m ln ld, k' = loader (on_screen s k) h m ln ld /\ task_space kd d m /\
    (forall f, f mod PAGE_SIZE = 0 -> m_free m0 f = false -> f <> d -> page_kept (m_ram m0) (m_ram m) f) /\
    (forall i, KERNEL_PDE_START <= i < 1024 -> pde m d i = pde m0 d i) /\
    (forall x, (x <> LoadedHead) -> (forall a, x <> LoadedNode a) -> ln !! x = k_links k !! x).

(** The heap holds [n] blocks more than [u]. *)
Definition heap_grown (k : kernel) (u : list (Z * Z)) (n : nat) : Prop :=
  exists u' nodes, heap_holds (k_heap k) u' /\ u'.*1 ≡ₚ nodes ++ u.*1 /\ length nodes = n.

(** Where [elf_load] runs: the kernel directory and an empty one, the image in
    kernel pages that are in use, and room in the heap for a record per page. *)
Record loadable (kd d : Z) (k : kernel) (u : list (Z * Z)) (image : Z) (bs : list Z) : Prop := {
  ld_space : task_space kd d (the_supply (k_heap k));
  ld_empty : forall i, user_pde i -> present (pde (the_supply (k_heap k)) d i) = false;
  ld_heap : heap_holds (k_heap k) u;
  ld_room : records_room (len (program_pages bs)) (the_heap (k_heap k)) (the_supply (k_heap k));
  ld_file : file_at (m_ram (the_supply (k_heap k))) image bs;
  ld_image : image_in_use (the_supply (k_heap k)) d image (len bs);
  ld_layout : laid_out bs;
}.

Section Outcome.
Context (kd d : Z) (m0 : machine) (bs : list Z).
Implicit Types (m : machine) (L : list page_rec) (va f e : Z).

Lemma segment_of_page L va :
  job <$> L = program_pages bs -> program_segment bs va = lp_ph <$> page_of L va.
Proof.
  intros E. unfold program_segment, page_of. rewrite <- E, list_find_fmap. cbn.
  by destruct (list_find _ L) as [[i p]|] eqn:Ef; rewrite ?Ef.
Qed.

Lemma undone_intro m : task_space kd d m0 -> pages_loaded kd d m0 [] [] m -> load_undone d m0 m.
Proof.
  intros Ht0 Hpl. assert (forall f, m_free m f = m_free m0 f) as Hfree.
  { intros f. destruct (m_free m0 f) eqn:E0; [|destruct (m_free m f) eqn:E; [by rewrite (pl_free _ _ _ _ _ _ Hpl f E) in E0|done]].
    destruct (ready_mem _ _ (ts_ready _ _ _ Ht0)) as [Hinv Hlow].
    assert (m_free m (f / PAGE_SIZE * PAGE_SIZE) = m_free m f) as <- by (unfold m_free; by rewrite Z.div_mul).
    assert (m_free m0 (f / PAGE_SIZE * PAGE_SIZE) = true) as E1 by (unfold m_free in *; by rewrite Z.div_mul).
    assert (good_frame (f / PAGE_SIZE * PAGE_SIZE)) as Hg.
    { apply good_page_frame; [|by apply Hlow]. pose proof (page_free_range _ _ E0) as [Hr _].
      destruct (decide (f / PAGE_SIZE = 0)) as [Ez|]; [|lia]. unfold m_free in E0. rewrite Ez in E0.
      pose proof (inv_null _ Hinv). congruence. }
    destruct (pl_owned _ _ _ _ _ _ Hpl _ Hg E1) as [E|[H|(i & Hi & Hp & _)]]; [done|by apply not_elem_of_nil in H|].
    destruct (pl_tables _ _ _ _ _ _ Hpl i Hi Hp) as [_ (p & H & _)]. by apply not_elem_of_nil in H. }
  split; [|done|].
  - intros va Hva. by rewrite (pl_walk _ _ _ _ _ _ Hpl).
  - destruct (ready_mem _ _ (ts_ready _ _ _ (pl_task _ _ _ _ _ _ Hpl))) as [Hi _].
    destruct (ready_mem _ _ (ts_ready _ _ _ Ht0)) as [Hi0 _]. pose proof (pl_total _ _ _ _ _ _ Hpl) as Et.
    unfold pmm_at in *. rewrite (inv_count _ Hi), (inv_count _ Hi0), Et. apply count_ext. intros q _.
    pose proof (Hfree (q * PAGE_SIZE)) as E. unfold m_free in E. by rewrite Z.div_mul in E.
Qed.

Lemma fmap_nodup_inj {A B} (f : A -> B) (l : list A) x y : NoDup (f <$> l) -> x ∈ l -> y ∈ l -> f x = f y -> x = y.
Proof.
  induction l as [|z l IH]; [by intros _ []%not_elem_of_nil|]. rewrite fmap_cons. intros [Hni Hnd]%NoDup_cons Hx Hy E.
  apply elem_of_cons in Hx as [->|Hx], Hy as [->|Hy]; [done| | |by apply IH]; exfalso; apply Hni;
    [rewrite E|rewrite <- E]; by apply list_elem_of_fmap_2.
Qed.

Lemma leaf_flags p : good_frame (lp_frame p) -> Z.land (leaf_of p) (PAGE_SIZE - 1) = segment_flags (lp_ph p).
Proof.
  intros Hg. unfold leaf_of, leaf. destruct (segment_flags_ok (lp_ph p)) as [Hr _]. destruct (good_frame_virt _ Hg) as (_ & _ & _ & Hu).
  change (PAGE_SIZE - 1) with (Z.ones 12). rewrite Z.land_lor_distr_l, !Z.land_ones by lia. change (2 ^ 12) with PAGE_SIZE.
  destruct (frame_of_aligned _ Hu) as [-> _]. rewrite Z.lor_0_l. apply Z.mod_small. exact Hr.
Qed.

Lemma program_in_intro L m :
  pages_loaded kd d m0 [] L m -> filled bs L m -> job <$> L = program_pages bs -> program_in bs d m0 m.
Proof.
  intros Hpl Hfill Hjob. pose proof (pl_frames _ _ _ _ _ _ Hpl) as Hnd. cbn [app] in Hnd.
  assert (forall p, p ∈ L -> frame_taken kd d m0 m (lp_frame p)) as Hframe.
  { intros p Hin. apply (frame_of_pages kd d m0 [] L m Hpl). cbn [app]. by apply list_elem_of_fmap_2. }
  assert (forall va e, user_address va -> walk (m_ram m) d va = Some e ->
    exists p, page_of L va = Some p /\ p ∈ L /\ lp_page p / PAGE_SIZE = va / PAGE_SIZE /\ e = leaf_of p /\
      good_frame (lp_frame p) /\ frame_of e = lp_frame p) as Hwalk.
  { intros va e Hva E. rewrite (pl_walk _ _ _ _ _ _ Hpl) in E by done. destruct (page_of L va) as [p|] eqn:Ep; [|done].
    injection E as <-. pose proof (page_of_Some _ _ _ Ep) as [Hin Hpg]. destruct (Hframe p Hin) as (Hg & _).
    exists p. repeat (split; [done|]). by apply leaf_of_frame. }
  split.
  - intros va Hva. unfold virtual_byte, program_byte. rewrite (segment_of_page L) by done.
    destruct (walk (m_ram m) d va) as [e|] eqn:E.
    2:{ rewrite (pl_walk _ _ _ _ _ _ Hpl) in E by done. by destruct (page_of L va). }
    destruct (Hwalk va e Hva E) as (p & Ep & Hin & Hpg & -> & Hg & ->). rewrite Ep. cbn. f_equal.
    pose proof (pl_pages _ _ _ _ _ _ Hpl) as Hups. unfold filled in Hfill. rewrite Forall_forall in Hups, Hfill.
    destruct (Hups p Hin) as [_ Ha]. destruct (Hfill p Hin) as (_ & _ & Hh). rewrite page_offset_mod.
    specialize (Hh (Z.to_nat (va mod PAGE_SIZE)) (segment_byte bs (lp_ph p) va)).
    assert (0 <= va mod PAGE_SIZE < PAGE_SIZE) as Hr by (apply Z.mod_pos_bound; done). rewrite Z2Nat.id in Hh by lia.
    destruct (good_frame_virt _ Hg) as (Ev & _). rewrite Ev in Hh.
    destruct (reachable_load (m_ram m) (lp_frame p) PAGE_SIZE (va mod PAGE_SIZE)) as (_ & El & _);
      [split; [apply good_frame_page in Hg; unfold PAGE_SIZE in *; lia|apply Hg]|done|].
    rewrite El in Hh. assert (Some (byte (m_ram m) (lp_frame p + va mod PAGE_SIZE)) = Some (segment_byte bs (lp_ph p) va)) as [= ->]; [|done].
    apply Hh. unfold page_bytes. rewrite list_lookup_fmap, lookup_seqZ_lt by lia. cbn. do 2 f_equal. unfold PAGE_SIZE in *. lia.
  - intros va e Hva E. destruct (Hwalk va e Hva E) as (p & Ep & _ & _ & -> & Hg & _). exists (lp_ph p).
    split; [rewrite (segment_of_page L) by done; by rewrite Ep|by apply leaf_flags].
  - intros va vb e e' Hva Hvb E E' Ef. destruct (Hwalk va e Hva E) as (p & _ & Hp & Hpg & _ & _ & E1).
    destruct (Hwalk vb e' Hvb E') as (q & _ & Hq & Hqg & _ & _ & E2). rewrite <- Hpg, <- Hqg.
    by rewrite (fmap_nodup_inj lp_frame L p q) by (done || congruence).
  - intros va e Hva E. destruct (Hwalk va e Hva E) as (p & _ & Hp & _ & _ & _ & ->). by apply Hframe.
  - intros f Hg Hf0. destruct (pl_owned _ _ _ _ _ _ Hpl f Hg Hf0) as [E|[E|E]]; [by left|right; left|by right; right].
    cbn [app] in E. apply list_elem_of_fmap in E as (p & -> & Hin). pose proof (pl_pages _ _ _ _ _ _ Hpl) as Hups.
    rewrite Forall_forall in Hups. destruct (Hups p Hin) as [Hu Ha]. exists (lp_page p), (leaf_of p). split; [done|].
    split; [|by apply leaf_of_frame]. rewrite (pl_walk _ _ _ _ _ _ Hpl) by done.
    destruct (page_of L (lp_page p)) as [q|] eqn:Eq; [|by destruct (page_of_None _ _ p Eq Hin)].
    apply page_of_Some in Eq as [Hq Eq]. destruct (Hups q Hq) as [_ Haq].
    by rewrite (fmap_nodup_inj lp_page L q p (pl_virts _ _ _ _ _ _ Hpl) Hq Hin) by by apply same_page_address.
Qed.
End Outcome.

Lemma loader_id k : loader k (the_heap (k_heap k)) (the_supply (k_heap k)) (k_links k) (k_loaded k) = k.
Proof. by destruct k as [[]]. Qed.

Section Results.
Context (kd d : Z) (k : kernel) (u : list (Z * Z)) (bs : list Z).
Let m0 : machine := the_supply (k_heap k).
Implicit Types (L : list page_rec) (h : heap) (m : machine).

(** The list of the records is set up. *)
Lemma wp_loader_start image (Q : unit -> kernel -> Prop) :
  loadable kd d k u image bs ->
  (forall k', reached kd d k u bs [] k' -> Q tt k') ->
  wp (new_link LoadedHead ;;; link_op (list_init (Some LoadedHead))) Q k.
Proof.
  intros [Hspace Hempty Hheap Hroom _ _ _] HQ. rewrite <- (loader_id k). apply wp_bind, wp_new_link, wp_loader_link.
  apply wp_list_init; [rewrite lookup_insert_eq; eauto|]. intros ln Hl Hun. apply HQ. exists []. split; [done|].
  exists (the_heap (k_heap k)), m0, ln, (k_loaded k). split; [done|]. split; [by apply pages_loaded_start|].
  split; [by apply Forall_nil|]. split; [|split; [by rewrite Z.sub_0_r|unfold spent, m0, len; cbn [length]; lia]]. split; [| |done| |by apply Forall_nil].
  - exists u. split; [|done]. unfold heap_at. by destruct (k_heap k).
  - done.
  - intros x Hx _. rewrite Hun; [by apply lookup_insert_ne, not_eq_sym|]. by intros ->%list_elem_of_singleton.
Qed.

Lemma rest_kept_intro fs L s h m ln ld :
  pages_loaded kd d m0 fs L m -> records k u L h ln ld -> rest_kept kd d k (loader (on_screen s k) h m ln ld).
Proof. intros Hpl Hrec. exists s, h, m, ln, ld. split; [done|]. split; [apply Hpl|]. split; [apply Hpl|]. split; [apply Hpl|apply Hrec]. Qed.

Lemma heap_grown_intro fs L s h m ln ld :
  task_space kd d m0 -> heap_holds (k_heap k) u ->
  pages_loaded kd d m0 fs L m -> records k u L h ln ld -> heap_grown (loader (on_screen s k) h m ln ld) u (length L).
Proof.
  intros Hspace Hheap Hpl [(u' & Hu & Ep) He _ _ _]. exists u', (lp_node <$> L). split; [|split; [done|by rewrite length_fmap]].
  apply (heap_now kd d k u Hspace) with (fs := fs) (L := L); [|done..]. unfold heap_at. by destruct (k_heap k).
Qed.

(** The records are not on the screen. *)
Lemma records_screen s L h ln ld : records (on_screen s k) u L h ln ld <-> records k u L h ln ld.
Proof. by split; intros []; split. Qed.

(** What is left when the loader does not go on. *)
Lemma wp_loader_undo (Q : unit -> kernel -> Prop) k1 :
  task_space kd d m0 -> heap_holds (k_heap k) u -> stuck kd d k u bs k1 ->
  (forall k', rest_kept kd d k k' -> load_undone d m0 (the_supply (k_heap k')) -> heap_grown k' u 0 ->
     (exists scr', shows (k_console k') scr') -> Q tt k') ->
  wp (unload_pages (PHYS_TO_VIRT d)) Q k1.
Proof.
  intros Hspace Hheap (s & scr' & L & h & m & ln & ld & -> & Hs & Hpl & Hrec & _) HQ.
  apply (wp_unload_pages kd d (on_screen s k) u Hspace) with (L := L); [cbn; unfold heap_at; by destruct (k_heap k)|done|by apply records_screen|].
  intros h' m' ln' ld' Hpl' Hrec'%records_screen. apply HQ.
  - by eapply rest_kept_intro.
  - by apply (undone_intro kd).
  - by apply (heap_grown_intro [] []).
  - by exists scr'.
Qed.

(** The image can be loaded whatever is on the screen. *)
Lemma loadable_screen s image : loadable kd d k u image bs -> loadable kd d (on_screen s k) u image bs.
Proof. intros []. by split. Qed.

(** Nothing happened. *)
Lemma nothing_loaded image s :
  loadable kd d k u image bs -> rest_kept kd d k (on_screen s k) /\ load_undone d m0 m0 /\ heap_grown (on_screen s k) u 0.
Proof.
  intros [Hspace Hempty Hheap _ _ _ _]. split; [|split].
  - exists s, (the_heap (k_heap k)), m0, (k_links k), (k_loaded k). split; [symmetry; apply (loader_id (on_screen s k))|done].
  - apply (undone_intro kd); [done|]. by apply pages_loaded_start.
  - by exists u, [].
Qed.

(** Everything was loaded; more may be printed. *)
Lemma everything_loaded image k' s :
  loadable kd d k u image bs -> reached kd d k u bs (program_pages bs) k' ->
  rest_kept kd d k (on_screen s k') /\ program_in bs d m0 (the_supply (k_heap k')) /\
  heap_grown (on_screen s k') u (length (program_pages bs)).
Proof.
  intros [Hspace _ Hheap _ _ _ _] (L & EL & h & m & ln & ld & -> & Hpl & Hfill & Hrec & _). split; [|split].
  - by eapply (rest_kept_intro [] L s h m ln ld).
  - by apply (program_in_intro kd d m0 bs L).
  - rewrite <- EL, length_fmap. by apply (heap_grown_intro [] L s h m ln ld).
Qed.
End Results.

(** A message when everything was loaded. *)
Lemma wp_loaded_says kd d k u bs js k' l scr (Q : unit -> kernel -> Prop) :
  shows (k_console k) scr -> reached kd d k u bs js k' ->
  (forall s, shows s (type_text l scr) -> Q tt (on_screen s k')) -> wp (print_text l) Q k'.
Proof. intros Hs (L & _ & h & m & ln & ld & -> & _) HQ. by apply (wp_loader_says k l scr). Qed.

(** C3 [elf_load] builds exactly the memory that a file describes whose
    segments lie page-aligned, on pages of their own, in the user half of the
    address space: on success the entry point is the one in the header and
    every user address reads as the reference says, with the permissions of
    its segment, on a frame of its own that was free; no frame is lost. It
    fails only for a file that is no executable, for a segment that is
    refused, or when memory runs out, and then gives back every page and every
    record. The rest of the kernel is unchanged in both cases but for the
    screen, which gets the line with the entry point on success; one heap
    block per page stays behind then. *)
Theorem elf_load_spec fuel kd d k u image bs scr :
  loadable kd d k u image bs -> shows (k_console k) scr -> (1 < fuel)%nat ->
  wp (elf_load fuel (PHYS_TO_VIRT d) image (len bs)) (fun r k' =>
    rest_kept kd d k k' /\
    match r with
    | Some e => e = word_at bs 24 /\ executable bs = true /\ Forall (fun ph => refused bs ph = false) (program_headers bs) /\
        program_in bs d (the_supply (k_heap k)) (the_supply (k_heap k')) /\ heap_grown k' u (length (program_pages bs)) /\
        shows (k_console k') (type_text (number_line "ELF loaded: entry=" 16 e) scr)
    | None => (executable bs = false \/ (exists ph, ph ∈ program_headers bs /\ refused bs ph = true) \/
          free_pages (pmm_at (the_supply (k_heap k))) < 2 * len (program_pages bs)) /\
        load_undone d (the_supply (k_heap k)) (the_supply (k_heap k')) /\ heap_grown k' u 0 /\
        exists scr', shows (k_console k') scr'
    end) k.
Proof.
  intros Hload Hscr Hfuel. pose proof Hload as [Hspace _ Hheap _ Hfile Himage Hlay]. set (m0 := the_supply (k_heap k)) in *.
  destruct (good_frame_virt _ (space_dir _ _ (ts_space _ _ _ Hspace))) as (_ & _ & Hdn & _).
  pose proof (proj1 (proj2 Hfile)) as Hin. unfold elf_load.
  rewrite (proj2 (Z.eqb_neq (PHYS_TO_VIRT d) NULL)), (proj2 (Z.eqb_neq image NULL)) by done. cbn [orb].
  rewrite <- (loader_id k) at 1. apply wp_bind, (wp_loader_says k _ scr); [done|]. intros s Hs.
  apply wp_bind, wp_loader_image, (wp_elf_validate _ _ bs); [exact Hfile|].
  pose proof (loader_id (on_screen s k) :
    loader (on_screen s k) (the_heap (k_heap k)) (the_supply (k_heap k)) (k_links k) (k_loaded k) = on_screen s k) as Eid.
  rewrite with_ram_id, Eid. clear Eid.
  destruct (executable bs) eqn:Hexec; cbn [Z.eqb].
  2:{ apply wp_ret. destruct (nothing_loaded kd d k u bs image s Hload) as (H1 & H2 & H3). eauto 8. }
  destruct (executable_facts bs Hexec) as (Hmin & _).
  unfold validate_message in Hs. rewrite (proj2 (Z.eqb_neq image NULL)), (proj2 (Z.ltb_ge _ _)) in Hs by done.
  set (k0 := on_screen s k) in *. pose proof (loadable_screen kd d k u bs s image Hload : loadable kd d k0 u image bs) as Hload0.
  assert (heap_at (the_heap (k_heap k0)) m0 u) as Hat by (cbn; unfold heap_at, m0; by destruct (k_heap k)).
  apply wp_bind_assoc, wp_bind, (wp_loader_start kd d k0 u bs image); [done|]. intros k1 Hk1.
  apply wp_bind, (wp_image_reached kd d k0 u bs image Hfile Himage [] k1 _ (half_at bs 44)); [done| |].
  { intros r Hr. apply (wp_file_half r image bs); [apply Hr|lia|lia|done]. }
  apply wp_bind, (wp_load_headers kd d k0 u bs image fuel Hspace Hat Hfile Himage scr Hs Hlay Hfuel); [done|done| |].
  - intros k2 Hk2 Hacc. apply wp_bind, (wp_image_reached kd d k0 u bs image Hfile Himage (program_pages bs) k2 _ (word_at bs 24)); [done| |].
    { intros r Hr. apply (wp_file_word r image bs); [apply Hr|lia|lia|done]. }
    apply wp_bind, (wp_loaded_says kd d k0 u bs (program_pages bs) k2 _ scr); [done|done|]. intros s2 Hs2.
    apply wp_ret. destruct (everything_loaded kd d k0 u bs image k2 s2 Hload0 Hk2) as (H1 & H2 & H3). auto 8.
  - intros k2 Hk2. apply wp_bind, (wp_loader_undo kd d k0 u bs); [done..|]. intros k' Hrest Hun Hgr Hshow. apply wp_ret. split; [done|].
    split; [|done]. right. by destruct Hk2 as (s' & scr' & L & h & m & ln & ld & _ & _ & _ & _ & Hwhy).
Qed.

(** ** Witness *)

(** The smallest program: one segment of four bytes from the file, with twelve
    zero bytes after them, at [0x400000]. *)
Definition demo_image : list Z :=
  [0x7F; 69; 76; 70; 1; 1; 1; 0; 0; 0; 0; 0; 0; 0; 0; 0;
   2; 0; 3; 0; 1; 0; 0; 0;  0; 0; 0x40; 0;  52; 0; 0; 0;  0; 0; 0; 0;  0; 0; 0; 0;
   52; 0; 32; 0; 1; 0; 0; 0; 0; 0; 0; 0;
   1; 0; 0; 0;  84; 0; 0; 0;  0; 0; 0x40; 0;  0; 0; 0x40; 0;  4; 0; 0; 0;  16; 0; 0; 0;  5; 0; 0; 0;  0; 0x10; 0; 0;
   0x90; 0x90; 0xEB; 0xFC].

Definition demo_header : program_header := ProgramHeader 1 84 0x400000 4 16 5.

Definition elf_kd : Z := 0x10000.
Definition elf_directory : Z := 0x11000.
Definition elf_image : Z := 0xC0070000.

(** Both directories have the 60 tables of the heap region, whose first page
    is mapped; the image is in the page at 0x70000. *)
Definition elf_ram : ram :=
  put_bytes 0x70000 demo_image (ram_entry_set 0x20000 0 0x71003
    (foldr (fun i r => ram_entry_set elf_kd (772 + i) (0x20003 + i * 0x1000)
      (ram_entry_set elf_directory (772 + i) (0x20003 + i * 0x1000) r)) (Ram ∅) (seqZ 0 60))).

Definition elf_machine : machine := MkMachine demo_world elf_ram (PHYS_TO_VIRT elf_kd).

(** A heap of one page with nothing in it. *)
Definition elf_heap : heap := Heap 0xC1000000 0xC1001000 0 {[0xC1000000 := Block 4080 true NULL]}.

Definition elf_kernel : kernel :=
  Kernel (HeapWorld elf_heap elf_machine) vam_start (Sched ∅ ∅ None 5 [] 0 ∅ None true)
    ∅ ∅ (Fs 0 0 0) ∅ ∅ ∅ ∅ ∅ ∅ ∅ 2 2 boot_screen.

(** The tables of a directory are all different, and not the directory. *)
Definition tables_check (m : machine) (d : Z) : bool :=
  bool_decide (NoDup (d :: (table_of m d <$> filter (fun i => present (pde m d i) = true) (seqZ 0 1024)))).

Lemma tables_check_ok m d i : tables_check m d = true -> 0 <= i < 1024 -> private m d i.
Proof.
  unfold tables_check. rewrite bool_decide_eq_true. intros [Hd Hnd]%NoDup_cons Hi Hp.
  assert (forall j, 0 <= j < 1024 -> present (pde m d j) = true ->
    j ∈ filter (fun i => present (pde m d i) = true) (seqZ 0 1024)) as Hin.
  { intros j Hj Hpj. apply list_elem_of_filter. split; [done|]. apply elem_of_seqZ. lia. }
  split.
  - intros E. apply Hd, list_elem_of_fmap. exists i. split; [done|by apply Hin].
  - intros j Hj Hne Hpj E. apply Hne. by apply (fmap_nodup_inj _ _ _ _ Hnd); [apply Hin..|].
Qed.

(** Everything the loader needs of a machine. *)
Definition kernel_check (m : machine) (kd d : Z) : bool :=
  space_check m kd && space_check m d && tables_check m kd &&
  (kernel_directory m =? PHYS_TO_VIRT kd) && negb (d =? kd) && (fail_allocations (pmm_at m) =? 0) &&
  forallb (fun i => present (pde m kd i)) (seqZ 772 60) && forallb (fun i => negb (present (pde m d i))) (seqZ 0 768) &&
  forallb (fun i => negb (present (pde m kd i)) || negb (table_of m kd i =? d)) (seqZ 0 1024).

Lemma forallb_seqZ (f : Z -> bool) a n i : forallb f (seqZ a n) = true -> a <= i < a + n -> f i = true.
Proof. rewrite forallb_forall. intros H Hi. apply H, list_elem_of_In, elem_of_seqZ. lia. Qed.

Section Check.
Context (m : machine) (kd d : Z) (Hmem : mem_ok m) (Hcheck : kernel_check m kd d = true).

Lemma kernel_check_facts :
  ready m kd /\ heap_tables m kd /\ (forall i, user_pde i -> present (pde m d i) = false) /\
  fail_allocations (pmm_at m) = 0.
Proof.
  unfold kernel_check in Hcheck. rewrite !andb_true_iff in Hcheck. destruct Hcheck as [[[[[[[[H2 H3] H4] H5] H6] H7] H8] H9] H10].
  split; [|split; [|split]].
  - split; [done|by apply space_check_ok|by apply Z.eqb_eq].
  - intros i Hi. destruct heap_bounds as [B1 B2]. unfold HEAP_START in B1. rewrite !pde_index_div, B1, B2 in Hi.
    split; [apply (forallb_seqZ _ 772 60 i H8); lia|apply tables_check_ok; [done|lia]].
  - intros i Hi. apply negb_true_iff, (forallb_seqZ _ 0 768 i H9). unfold user_pde, KERNEL_PDE_START in Hi. lia.
  - by apply Z.eqb_eq.
Qed.

Lemma kernel_check_space : task_space kd d m.
Proof.
  destruct kernel_check_facts as (Hr & Ht & Hu & Hf). unfold kernel_check in Hcheck. rewrite !andb_true_iff in Hcheck.
  destruct Hcheck as [[[[[[[[H2 H3] H4] H5] H6] H7] H8] H9] H10].
  split; [done|done|done|by apply space_check_ok| |by apply Z.eqb_neq, negb_true_iff| |].
  - intros i Hi Hp. by rewrite Hu in Hp.
  - intros j Hj Hp. pose proof (forallb_seqZ _ 0 1024 j H10 Hj) as H. cbn beta in H. rewrite Hp in H. by apply Z.eqb_neq, negb_true_iff.
  - intros i Hi Hp. by rewrite Hu in Hp.
Qed.

(** The heap of one page on it. *)
Lemma elf_heap_ok :
  is_Some (walk (m_ram m) kd 0xC1000000) -> free_pages (pmm_at m) <= 4096 -> heap_ok (HeapWorld elf_heap m) [(4080, true)].
Proof.
  intros Hw Hfree. destruct kernel_check_facts as (Hr & Ht & Hu & Hf). clear Hcheck. destruct heap_bounds as [B1 B2].
  split; cbn [the_heap the_supply elf_heap heap_head heap_end headers].
  - by rewrite B1.
  - rewrite B1. by vm_compute.
  - rewrite B1. by vm_compute.
  - by repeat constructor.
  - by intros [=].
  - by vm_compute.
  - rewrite B1. intros a Ha. apply (accessible_walk m kd a Hr).
    rewrite (walk_page _ _ a 0xC1000000); [done|unfold PAGE_SIZE; clear -Ha; lia].
  - by exists kd.
  - rewrite B2. cbn. unfold pages_free, PAGE_SIZE. clear -Hfree. lia.
Qed.
End Check.

Lemma elf_facts :
  kernel_check elf_machine elf_kd elf_directory = true /\ walk elf_ram elf_kd 0xC1000000 = Some 0x71003 /\
  free_pages (pmm_at elf_machine) = 3542 /\ m_free elf_machine 0x70000 = false /\
  forallb (fun i => bool_decide (load8 (elf_image + Z.of_nat i) elf_ram = demo_image !! i)) (seq 0 88) = true /\
  program_pages demo_image = [(demo_header, 0x400000)] /\ program_headers demo_image = [demo_header] /\
  executable demo_image = true.
Proof. vm_compute. auto 20. Qed.

Lemma elf_mem : mem_ok elf_machine.
Proof. exact demo_boot_mem. Qed.

#[local] Opaque elf_machine elf_ram.

Lemma elf_layout : laid_out demo_image.
Proof.
  destruct elf_facts as (_ & _ & _ & _ & _ & Hp & Hh & _). split.
  - rewrite Hh. clear. intros ph ->%list_elem_of_singleton _. split; [reflexivity|]. vm_compute. discriminate.
  - rewrite Hp. apply NoDup_singleton.
Qed.

Lemma elf_file : file_at elf_ram elf_image demo_image.
Proof.
  destruct elf_facts as (_ & _ & _ & _ & Hb & _). rewrite forallb_forall in Hb.
  split; [|by vm_compute]. split; [by vm_compute|]. split; [by vm_compute|]. intros i v E.
  rewrite <- E. specialize (Hb i). apply bool_decide_eq_true in Hb; [done|]. apply in_seq.
  apply lookup_lt_Some in E. change (length demo_image) with 88%nat in E. lia.
Qed.

Lemma elf_loadable : loadable elf_kd elf_directory elf_kernel [] elf_image demo_image.
Proof.
  destruct elf_facts as (Hc & Hw & Hf & Hi & _ & Hp & _). unfold elf_kernel.
  assert (heap_ok (HeapWorld elf_heap elf_machine) [(4080, true)]) as Hok.
  { apply (elf_heap_ok elf_machine elf_kd elf_directory elf_mem Hc); [exists 0x71003; exact Hw|rewrite Hf; done]. }
  split; cbn [k_heap the_supply the_heap].
  - apply (kernel_check_space elf_machine elf_kd elf_directory elf_mem Hc).
  - apply (kernel_check_facts elf_machine elf_kd elf_directory elf_mem Hc).
  - exists [(4080, true)]. split; [exact Hok|]. split; [by clear|reflexivity].
  - right. rewrite Hp. exists [(4080, true)]. split; [exact Hok|]. exists (4080, true).
    split; [apply list_elem_of_here|]. clear. split; [reflexivity|]. vm_compute. discriminate.
  - exact elf_file.
  - change (len demo_image) with 88. intros i Hr. assert (frame_at (elf_image + i) = 0x70000) as ->.
    { unfold frame_at, elf_image, KERNEL_VIRT_BASE, PAGE_SIZE. clear -Hr. lia. }
    split; [exact Hi|by vm_compute].
  - exact elf_layout.
Qed.

Lemma demo_program :
  word_at demo_image 24 = 0x400000 /\ user_address 0x400002 /\ program_byte demo_image 0x400002 = Some 0xEB.
Proof. split; [by vm_compute|]. split; [|by vm_compute]. unfold user_address, KERNEL_VIRT_BASE. lia. Qed.

Lemma elf_load_spec_witness :
  loadable elf_kd elf_directory elf_kernel [] elf_image demo_image /\
  wp (elf_load 2 (PHYS_TO_VIRT elf_directory) elf_image (len demo_image)) (fun r k' =>
    r = Some 0x400000 /\ virtual_byte (m_ram (the_supply (k_heap k'))) elf_directory 0x400002 = Some 0xEB) elf_kernel.
Proof.
  split; [exact elf_loadable|].
  eapply wp_mono; [exact (elf_load_spec 2 elf_kd elf_directory elf_kernel [] elf_image demo_image _ elf_loadable
    (proj1 boot_screen_shows) ltac:(lia))|].
  destruct elf_facts as (_ & _ & Hf & _ & _ & Hp & Hh & He).
  intros [e|] k' [_ H].
  - destruct H as (-> & _ & _ & [Hb _ _ _ _] & _). destruct demo_program as (-> & Hu & <-). split; [reflexivity|by apply Hb].
  - destruct H as ([H|[(ph & Hin & H)|H]] & _).
    + congruence.
    + rewrite Hh in Hin. apply list_elem_of_singleton in Hin as ->. vm_compute in H. discriminate H.
    + rewrite Hp in H. change (the_supply (k_heap elf_kernel)) with elf_machine in H. rewrite Hf in H. vm_compute in H. discriminate H.
Defined.
