(* ===== verification/UserStack.v ===== *)
(** * The user stacks of a process

    [user_stack_alloc], [user_stack_reserve], [usermode_stack_release] and
    [usermode_stack_create] of [kernel/arch/x86/usermode.c]: the highest slot
    that is neither reserved nor mapped is taken, or everything is as before. *)

From S2P Require Import Prelude Layout Bitmap Machine Pmm DList CString Ram Words Paging PagingSpec Vam Vmm Heap HeapSpec HeapRoom HeapSupply TaskSpace Task Sync Fs Exec Console ConsoleSpec Kernel Process Elf ElfFile ElfPages ElfLoad ElfSpec.

(** ** The part of the kernel that is used *)

Section State.
Context (k0 : kernel).
Implicit Types (h : heap) (m : machine) (ln : gmap link (list_node link)) (st : gmap Z Z).

(** [k0] with this heap, machine, list nodes and reservations. *)
Definition stacker h m ln st : kernel :=
  Kernel (HeapWorld h m) (k_vam k0) (k_sched k0) (k_owners k0) (k_counts k0) (k_fs k0) (k_files k0) (k_table k0) ln
    (k_processes k0) st (k_loaded k0) (k_descs k0) (next_pid k0) (next_tid k0) (k_console k0).

Lemma stacker_id : stacker (the_heap (k_heap k0)) (the_supply (k_heap k0)) (k_links k0) (k_stacks k0) = k0.
Proof. unfold stacker. by destruct k0 as [[]]. Qed.

Lemma wp_stacker_machine {A} (c : M machine A) h m ln st (Q : A -> kernel -> Prop) :
  wp c (fun a m' => Q a (stacker h m' ln st)) m -> wp (machine_op c) Q (stacker h m ln st).
Proof. intros H. by apply wp_zoom. Qed.

Lemma wp_stacker_pmm {A} (c : M pmm_world A) h m ln st (Q : A -> kernel -> Prop) :
  wp (zoom pmm_world_l c) (fun a m' => Q a (stacker h m' ln st)) m -> wp (pmm_op c) Q (stacker h m ln st).
Proof. intros H. unfold pmm_op, wp, zoom in *. cbn in *. by destruct (c (m_pmm m)). Qed.

Lemma wp_stacker_heap {A} (c : M (heap_world machine) A) h m ln st (Q : A -> kernel -> Prop) :
  wp c (fun a w => Q a (stacker (the_heap w) (the_supply w) ln st)) (HeapWorld h m) -> wp (heap_op c) Q (stacker h m ln st).
Proof. intros H. apply wp_zoom. eapply wp_mono; [exact H|]. intros a [h' m'] HQ. exact HQ. Qed.

Lemma wp_stacker_link {A} (c : M (gmap link (list_node link)) A) h m ln st (Q : A -> kernel -> Prop) :
  wp c (fun a ln' => Q a (stacker h m ln' st)) ln -> wp (link_op c) Q (stacker h m ln st).
Proof. intros H. by apply wp_zoom. Qed.

Lemma wp_stacker_directory p D h m ln st (Q : Z -> kernel -> Prop) :
  directories (k_sched k0) !! p = Some D -> Q D (stacker h m ln st) -> wp (get_directory p) Q (stacker h m ln st).
Proof.
  intros E HQ. unfold get_directory, tasks_op. apply wp_zoom. unfold page_directory_of. apply wp_bind, wp_gets.
  apply (wp_require _ _ _ _ D); [exact E|]. destruct m as [[] ? ?]. exact HQ.
Qed.
End State.

(** ** Reservations *)

(** The reservations [S] of a process: blocks and addresses. *)
Definition reserved p (S : list (Z * Z)) (ln : gmap link (list_node link)) (st : gmap Z Z) : Prop :=
  is_list ln (UserStacksHead p) (UserStackNode <$> S.*1) /\ Forall (fun x => x.1 <> NULL /\ st !! x.1 = Some x.2) S.

(** The block of the reservation of an address. *)
Fixpoint stack_of (S : list (Z * Z)) (virt : Z) : Z :=
  match S with [] => NULL | (a, v) :: S' => if v =? virt then a else stack_of S' virt end.

Section Search.
Context (k0 : kernel).
Implicit Types (h : heap) (m : machine) (ln : gmap link (list_node link)) (st : gmap Z Z) (S : list (Z * Z)) (p virt : Z).

Lemma stack_of_None S virt : Forall (fun x => x.1 <> NULL) S -> (stack_of S virt = NULL <-> virt ∉ S.*2).
Proof.
  induction 1 as [|[a v] S Ha HS IH]; cbn; [split; [intros _; apply not_elem_of_nil|done]|].
  destruct (Z.eqb_spec v virt) as [->|Hne].
  - split; [done|]. intros H. exfalso. apply H. left.
  - rewrite IH. cbn. rewrite not_elem_of_cons. naive_solver.
Qed.

Lemma wp_find_user_stack p S virt h m ln st (Q : Z -> kernel -> Prop) :
  reserved p S ln st -> Q (stack_of S virt) (stacker k0 h m ln st) ->
  wp (find_user_stack p virt) Q (stacker k0 h m ln st).
Proof.
  intros [Hl Hst] HQ. unfold find_user_stack, link_fuel. apply wp_bind, wp_gets.
  apply wp_bind, wp_stacker_link, (wp_list_front _ _ _ _ Hl).
  pose proof (is_list_length _ _ _ Hl) as Hlen. rewrite !length_fmap in Hlen. change (k_links (stacker k0 h m ln st)) with ln.
  assert (forall n S1 S2, S = S1 ++ S2 -> (length S2 < n)%nat -> stack_of S virt = stack_of S2 virt ->
    wp (loop n (fun node =>
      if bool_decide (node = Some (UserStacksHead p)) then ret (inr NULL)
      else
        let* next := link_op (list_next node) in
        let* a := stack_container node in
        let* v := fetch k_stacks_l a in
        if v =? virt then ret (inr a) else ret (inl next))
      (head ((UserStackNode <$> S2.*1) ++ [UserStacksHead p]))) Q (stacker k0 h m ln st)) as Hloop.
  { induction n as [|n IH]; intros S1 S2 ES Hn Es; [lia|]. cbn [loop]. apply wp_bind.
    destruct S2 as [|[a v] S2]; cbn [fmap list_fmap app head fst].
    - rewrite bool_decide_true by done. do 2 apply wp_ret. cbn in Es. by rewrite <- Es.
    - rewrite bool_decide_false by done. rewrite ES, !fmap_app in Hl. cbn in Hl. apply wp_bind, wp_stacker_link, (wp_list_next _ _ _ _ _ _ Hl).
      apply wp_bind, wp_ret, wp_bind. rewrite ES in Hst. apply Forall_app in Hst as [_ [[_ Hv] _]%Forall_cons]. cbn in Hv.
      unfold fetch. apply wp_bind, wp_gets, (wp_require _ _ _ _ v); [exact Hv|]. cbn in Es.
      destruct (v =? virt); [do 2 apply wp_ret; by rewrite <- Es|]. apply wp_ret.
      apply (IH (S1 ++ [(a, v)])); [by rewrite <- app_assoc|cbn in Hn; lia|done]. }
  apply (Hloop _ [] S); [done|lia|done].
Qed.
End Search.

(** ** The search for a slot *)

(** The slots from the top of the region down. *)
Definition slot (j : Z) : Z := USER_STACK_REGION_END - (j + 1) * USER_STACK_SIZE.
Definition SLOTS : Z := 2 ^ 18.

Definition available (S : list (Z * Z)) (d : Z) (m : machine) (v : Z) : Prop := (v ∉ S.*2) /\ walk (m_ram m) d v = None.

(** [v] is the highest slot available, or 0. *)
Definition highest_slot (S : list (Z * Z)) (d : Z) (m : machine) (v : Z) : Prop :=
  (exists j, 0 <= j < SLOTS /\ v = slot j /\ available S d m v /\ forall i, 0 <= i < j -> ~ available S d m (slot i)) \/
  v = 0 /\ forall i, 0 <= i < SLOTS -> ~ available S d m (slot i).

(** No user page is backed by page 0. *)
Definition backed_pages (d : Z) (m : machine) : Prop :=
  forall va e, user_address va -> walk (m_ram m) d va = Some e -> 0 < frame_of e.

Section Alloc.
Context (k0 : kernel) (kd d p : Z).
Implicit Types (h : heap) (m : machine) (ln : gmap link (list_node link)) (st : gmap Z Z) (S : list (Z * Z)) (virt j : Z).

Lemma slot_page j : 0 <= j < SLOTS ->
  user_address (slot j) /\ slot j mod PAGE_SIZE = 0 /\ USER_STACK_REGION_START <= slot j /\ is_u32 (slot j) /\ slot j <> 0.
Proof.
  unfold SLOTS, user_address, slot, is_u32. change USER_STACK_SIZE with 4096.
  unfold USER_STACK_REGION_START, USER_STACK_REGION_END, KERNEL_VIRT_BASE, PAGE_SIZE. lia.
Qed.

(** The translation of an aligned user address is 0 when it is not mapped. *)
Lemma translated_zero m va :
  backed_pages d m -> space m d -> user_address va -> va mod PAGE_SIZE = 0 ->
  (match walk (m_ram m) d va with Some e => u32 (frame_of e + page_offset va) | None => 0 end =? 0) =
  bool_decide (walk (m_ram m) d va = None).
Proof.
  intros Hb Hsp Hu Ha. destruct (walk (m_ram m) d va) as [e|] eqn:E; [|by rewrite bool_decide_true].
  rewrite bool_decide_false by done. pose proof (Hb va e Hu E) as Hpos. rewrite page_offset_mod, Ha, Z.add_0_r.
  apply Z.eqb_neq. rewrite u32_id; [lia|]. unfold walk in E.
  repeat (destruct (present _); [|done]). injection E as <-.
  pose proof (entry_u32 (m_ram m) (frame_of (Paging.entry (m_ram m) d (pde_index va))) (pte_index va)) as He.
  destruct (frame_of_aligned _ He). unfold is_u32 in *. lia.
Qed.

Lemma wp_user_stack_alloc S h m ln st (Q : Z -> kernel -> Prop) :
  p <> NULL -> directories (k_sched k0) !! p = Some (PHYS_TO_VIRT d) -> space m d -> backed_pages d m -> reserved p S ln st ->
  (forall v, highest_slot S d m v -> Q v (stacker k0 h m ln st)) ->
  wp (user_stack_alloc p) Q (stacker k0 h m ln st).
Proof.
  intros Hp Hdir Hsp Hb Hres HQ. pose proof Hres as [_ Hblocks]. unfold user_stack_alloc.
  apply wp_bind, wp_assert; [by apply negb_true_iff, Z.eqb_neq|].
  assert (Forall (fun x => x.1 <> NULL) S) as Hnn by (eapply Forall_impl; [exact Hblocks|]; by intros x [? _]).
  set (body := fun virt : Z => _).
  assert (forall n j, 0 <= j <= SLOTS -> SLOTS - j < Z.of_nat n -> (forall i, 0 <= i < j -> ~ available S d m (slot i)) ->
    wp (loop n body (slot j)) Q (stacker k0 h m ln st)) as Hloop.
  { induction n as [|n IH]; intros j Hj Hn Hno; [unfold SLOTS in *; lia|]. cbn [loop]. apply wp_bind. unfold body at 1.
    destruct (decide (j = SLOTS)) as [->|Hne].
    { rewrite (proj2 (Z.leb_gt _ _)) by (by vm_compute). do 2 apply wp_ret. apply HQ. right. done. }
    destruct (slot_page j ltac:(lia)) as (Hu & Ha & Hle & Hu32 & Hnz).
    rewrite (proj2 (Z.leb_le _ _)) by done. cbn [negb]. apply wp_bind, (wp_find_user_stack k0 p S); [done|].
    assert (forall b, b = bool_decide (available S d m (slot j)) ->
      wp (if b then ret (inr (slot j))
          else if slot j <? USER_STACK_SIZE then ret (inr 0) else ret (inl (u32 (slot j - USER_STACK_SIZE))))
        (fun r k => wp (match r with inl l' => loop n body l' | inr v => ret v end) Q k) (stacker k0 h m ln st)) as Hnext.
    { intros b ->. case_bool_decide as Hav.
      - do 2 apply wp_ret. apply HQ. left. exists j. split; [lia|]. done.
      - rewrite (proj2 (Z.ltb_ge _ _)).
        2:{ revert Hle. change USER_STACK_SIZE with 4096. unfold USER_STACK_REGION_START. lia. }
        apply wp_ret. rewrite u32_id.
        2:{ revert Hle Hu32. change USER_STACK_SIZE with 4096. unfold USER_STACK_REGION_START, is_u32. lia. }
        replace (slot j - USER_STACK_SIZE) with (slot (j + 1)) by (unfold slot; lia).
        apply IH; [lia|lia|]. intros i Hi. destruct (decide (i = j)) as [->|]; [done|]. apply Hno. lia. }
    destruct (Z.eqb_spec (stack_of S (slot j)) NULL) as [E|E]; cbn [negb].
    - apply (stack_of_None S (slot j) Hnn) in E. apply wp_bind, wp_bind, (wp_stacker_directory k0 p (PHYS_TO_VIRT d)); [done|].
      apply wp_bind, wp_stacker_machine, wp_paging_translate; [done|done|]. apply wp_ret. rewrite translated_zero by done.
      apply Hnext. apply bool_decide_ext. unfold available. naive_solver.
    - apply wp_bind, wp_ret, (Hnext false). symmetry. rewrite bool_decide_false; [done|]. intros [Hni _]. apply E. by apply stack_of_None. }
  change (USER_STACK_REGION_END - USER_STACK_SIZE) with (slot 0). apply Hloop; [unfold SLOTS; lia| |intros i Hi; lia].
  unfold stack_rounds, SLOTS. rewrite Z2Nat.id by lia. lia.
Qed.
End Alloc.

(** ** Reserving and releasing *)

Section Reserve.
Context (k0 : kernel) (p : Z).
Implicit Types (h : heap) (m : machine) (ln : gmap link (list_node link)) (st : gmap Z Z) (S u : list (Z * Z)) (virt a : Z).

(** The list nodes of the reservations [S], and of no other object. *)
Definition stack_nodes S : list link := UserStacksHead p :: (UserStackNode <$> S.*1).

Lemma reserved_insert S ln ln' st a virt :
  reserved p S ln st -> a <> NULL -> a ∉ S.*1 -> is_list ln' (UserStacksHead p) (UserStackNode <$> (S ++ [(a, virt)]).*1) ->
  reserved p (S ++ [(a, virt)]) ln' (<[a := virt]> st).
Proof.
  intros [_ Hst] Ha Hnew Hl. split; [done|]. apply Forall_app. split.
  - rewrite Forall_forall in *. intros x Hx. destruct (Hst x Hx) as [H1 H2]. split; [done|].
    rewrite lookup_insert_ne; [done|]. intros ->. apply Hnew. by apply list_elem_of_fmap_2.
  - apply Forall_cons. split; [|by apply Forall_nil]. split; [done|]. apply lookup_insert_eq.
Qed.

Lemma wp_user_stack_reserve fuel S u virt h m ln st (Q : bool -> kernel -> Prop) :
  (1 < fuel)%nat -> p <> NULL -> virt <> 0 -> heap_at h m u -> has_room (HeapWorld h m) 16 -> S.*1 ⊆ u.*1 -> reserved p S ln st ->
  (forall a h' u' ln', a <> NULL -> (a ∉ u.*1) -> heap_at h' m u' -> u'.*1 ≡ₚ a :: u.*1 -> heap_end h' = heap_end h ->
     reserved p (S ++ [(a, virt)]) ln' (<[a := virt]> st) -> unchanged (stack_nodes (S ++ [(a, virt)])) ln ln' ->
     Q true (stacker k0 h' m ln' (<[a := virt]> st))) ->
  wp (user_stack_reserve fuel p virt) Q (stacker k0 h m ln st).
Proof.
  intros Hfuel Hp Hv Hh Hroom HS Hres HQ. pose proof Hres as [Hl Hst]. unfold user_stack_reserve.
  apply wp_bind, wp_assert; [by apply negb_true_iff, Z.eqb_neq|]. apply wp_bind, wp_assert; [by apply negb_true_iff, Z.eqb_neq|].
  apply wp_bind, wp_stacker_heap, (wp_kmalloc_room _ u); [exact Hh|done|exact Hroom|done|].
  intros a n [h' m'] u' Hh' Hgr [Es Ee] _. cbn [the_heap the_supply] in *. subst m'.
  destruct (granted_fresh h m u (HeapWorld h' m) USER_STACK_STRUCT_SIZE a n u' Hh) as (Hfresh & Hnz & Eu'); [done|exact Hgr|].
  rewrite (proj2 (Z.eqb_neq a NULL)) by done.
  set (ln1 := <[UserStackNode a := Node None None]> ln).
  apply wp_bind. change (wp (link_op (list_node_init (Some (UserStackNode a))) ;;;
    store k_stacks_l a virt ;;; link_op (list_push_back (Some (UserStacksHead p)) (Some (UserStackNode a))) ;;; ret true)
    Q (stacker k0 h' m ln1 st)).
  assert (a ∉ S.*1) as Hnew by (intros Hin; by apply Hfresh, HS).
  assert (UserStackNode a ∉ stack_nodes S) as Hni.
  { intros [|(b & [= <-] & Hb)%list_elem_of_fmap]%elem_of_cons; done. }
  assert (is_list ln1 (UserStacksHead p) (UserStackNode <$> S.*1)) as Hl1.
  { apply (is_list_frame ln ln1 _ _ [UserStackNode a]); [done| |].
    - intros y Hy. apply lookup_insert_ne. intros <-. apply Hy, list_elem_of_here.
    - intros y Hy ->%list_elem_of_singleton. done. }
  apply wp_bind, wp_stacker_link, wp_node_init; [apply lookup_insert_eq|].
  apply wp_bind. change (wp (link_op (list_push_back (Some (UserStacksHead p)) (Some (UserStackNode a))) ;;; ret true)
    Q (stacker k0 h' m ln1 (<[a := virt]> st))).
  apply wp_bind, wp_stacker_link, (wp_push_back _ (UserStackNode <$> S.*1)); [done|apply lookup_insert_eq|].
  intros ln2 (Hl2 & Hu2 & _). apply wp_ret, (HQ a h' u' ln2); try done.
  - apply (reserved_insert S ln); [done..|]. by rewrite !fmap_app.
  - intros x Hx. rewrite Hu2.
    + unfold ln1. apply lookup_insert_ne. intros <-. apply Hx. unfold stack_nodes. rewrite !fmap_app. cbn. set_solver.
    + revert Hx. unfold stack_nodes. rewrite !fmap_app. cbn. set_solver.
Qed.

Lemma reserved_delete S1 a virt S2 ln st :
  reserved p (S1 ++ (a, virt) :: S2) ln st ->
  (a ∉ (S1 ++ S2).*1) /\ forall ln', is_list ln' (UserStacksHead p) (UserStackNode <$> (S1 ++ S2).*1) ->
    reserved p (S1 ++ S2) ln' (delete a st).
Proof.
  intros [[Hnd _] Hst]. assert (a ∉ (S1 ++ S2).*1) as Hni.
  { rewrite !fmap_app in Hnd. cbn in Hnd. rewrite <- Permutation_middle, <- fmap_app, <- fmap_app in Hnd.
    apply NoDup_cons in Hnd as [_ Hnd]. apply NoDup_cons in Hnd as [Hn _]. intros Hin. by apply Hn, list_elem_of_fmap_2. }
  split; [done|]. intros ln' Hl'. split; [done|]. rewrite Forall_app, Forall_cons in Hst. destruct Hst as (H1 & _ & H2).
  pose proof (proj2 (Forall_app _ S1 S2) (conj H1 H2)) as H. rewrite Forall_forall in *. intros x Hx. destruct (H x Hx) as [? E].
  split; [done|]. rewrite lookup_delete_ne; [done|]. intros ->. by apply Hni, list_elem_of_fmap_2.
Qed.

Lemma stack_of_at S1 a virt S2 : virt ∉ S1.*2 -> stack_of (S1 ++ (a, virt) :: S2) virt = a.
Proof.
  induction S1 as [|[b w] S1 IH]; cbn; [by rewrite Z.eqb_refl|]. intros [Hne Hni]%not_elem_of_cons.
  rewrite (proj2 (Z.eqb_neq w virt)) by congruence. by apply IH.
Qed.

Lemma wp_usermode_stack_release S1 a virt S2 u h m ln st (Q : unit -> kernel -> Prop) :
  p <> NULL -> virt <> 0 -> heap_at h m u -> a ∈ u.*1 -> virt ∉ S1.*2 -> reserved p (S1 ++ (a, virt) :: S2) ln st ->
  (forall h' u' ln', heap_at h' m u' -> a :: u'.*1 ≡ₚ u.*1 -> heap_end h' = heap_end h ->
     reserved p (S1 ++ S2) ln' (delete a st) -> unchanged (stack_nodes (S1 ++ (a, virt) :: S2)) ln ln' ->
     Q tt (stacker k0 h' m ln' (delete a st))) ->
  wp (usermode_stack_release p virt) Q (stacker k0 h m ln st).
Proof.
  intros Hp Hv Hh Ha Hfirst Hres HQ. pose proof Hres as [Hl Hst]. destruct (reserved_delete _ _ _ _ _ _ Hres) as [Hni Hdel].
  assert (a <> NULL) as Hnz. { rewrite Forall_app, Forall_cons in Hst. apply Hst. }
  unfold usermode_stack_release. do 2 (apply wp_bind, wp_assert; [by apply negb_true_iff, Z.eqb_neq|]).
  apply wp_bind, (wp_find_user_stack k0 p (S1 ++ (a, virt) :: S2)); [done|]. rewrite stack_of_at by done.
  rewrite (proj2 (Z.eqb_neq a NULL)) by done. rewrite !fmap_app in Hl. cbn in Hl.
  apply wp_bind, wp_stacker_link, (wp_remove_list _ _ _ _ _ _ Hl). intros ln1 (Hl1 & _ & Hun & _).
  apply wp_bind, wp_stacker_heap, (wp_kfree _ u); [exact Hh|done|].
  intros [h' m'] u1 n u2 E Hh' [Es Ee]. cbn [the_heap the_supply] in *. subst m'.
  apply wp_bind. change (wp (drop_link (UserStackNode a)) Q (stacker k0 h' m ln1 (delete a st))).
  change (Q tt (stacker k0 h' m (delete (UserStackNode a) ln1) (delete a st))).
  apply (HQ h' (u1 ++ u2)); [done| |done| |].
  - rewrite E, !fmap_app. cbn. by rewrite Permutation_middle.
  - apply Hdel. rewrite !fmap_app. apply (is_list_frame ln1 _ _ _ [UserStackNode a]); [done| |].
    + intros y Hy. apply lookup_delete_ne. intros <-. apply Hy, list_elem_of_here.
    + intros y Hy ->%list_elem_of_singleton. apply elem_of_cons in Hy as [|Hy]; [done|].
      rewrite <- !fmap_app in Hy. apply list_elem_of_fmap in Hy as (b & [= <-] & Hb). done.
  - intros y Hy. unfold stack_nodes in Hy. rewrite !fmap_app in Hy. cbn in Hy. rewrite lookup_delete_ne by set_solver. apply Hun. done.
Qed.
End Reserve.

(** ** Creating a stack *)

(** Where [usermode_stack_create] runs: the directories of the kernel and of
    the process, its reservations, and room in the heap for one more. *)
Record stack_space (kd d p : Z) (k : kernel) (u S : list (Z * Z)) : Prop := {
  ss_process : p <> NULL;
  ss_directory : directories (k_sched k) !! p = Some (PHYS_TO_VIRT d);
  ss_space : task_space kd d (the_supply (k_heap k));
  ss_backed : backed_pages d (the_supply (k_heap k));
  ss_heap : heap_holds (k_heap k) u;
  ss_room : has_room (k_heap k) 16;
  ss_blocks : S.*1 ⊆ u.*1;
  ss_reserved : reserved p S (k_links k) (k_stacks k);
}.

(** The page at [v] is new: a free frame, for the user to write, without a
    change to any other page of the process or any page in use but the
    directory and the table of [v]. *)
Record stack_page (kd d v : Z) (m0 m : machine) : Prop := {
  sp_task : task_space kd d m;
  sp_kernel : same_kernel kd m0 m;
  sp_frame : exists f, good_frame f /\ m_free m0 f = true /\ m_free m f = false /\ plain kd d m f /\
    walk (m_ram m) d v = Some (leaf f USER_FLAGS);
  sp_walk : forall va, user_address va -> va / PAGE_SIZE <> v / PAGE_SIZE -> walk (m_ram m) d va = walk (m_ram m0) d va;
  sp_used : forall g, m_free m0 g = false -> m_free m g = false;
  sp_kept : forall g, g mod PAGE_SIZE = 0 -> g <> d -> g <> table_of m d (pde_index v) -> page_kept (m_ram m0) (m_ram m) g;
  sp_spent : free_pages (pmm_at m0) - 2 <= free_pages (pmm_at m) <= free_pages (pmm_at m0);
}.

Section Create.
Context (kd d p : Z) (k : kernel) (u S : list (Z * Z)) (Hspace : stack_space kd d p k u S).
Implicit Types (h : heap) (m : machine) (ln : gmap link (list_node link)) (st : gmap Z Z) (v a f : Z).

Let m0 : machine := the_supply (k_heap k).

(** The stack is there. *)
Definition stack_created v k' : Prop :=
  exists a u' h m ln, k' = stacker k h m ln (<[a := v]> (k_stacks k)) /\ heap_at h m u' /\ u'.*1 ≡ₚ a :: u.*1 /\ (a ∉ u.*1) /\
    reserved p (S ++ [(a, v)]) ln (<[a := v]> (k_stacks k)) /\ unchanged (stack_nodes p (S ++ [(a, v)])) (k_links k) ln /\
    stack_page kd d v m0 m.

(** Everything is as before; in between a block was in use. *)
Definition stack_undone k' : Prop :=
  exists a u' h m ln st, k' = stacker k h m ln st /\ heap_at h m u' /\ u'.*1 ≡ₚ u.*1 /\ (a ∉ u.*1) /\
    reserved p S ln st /\ (forall b, b <> a -> st !! b = k_stacks k !! b) /\
    (forall x, x ∉ UserStackNode a :: stack_nodes p S -> ln !! x = k_links k !! x) /\
    task_space kd d m /\ m_ram m = m_ram m0 /\ (forall g, m_free m g = m_free m0 g) /\ free_pages (pmm_at m) = free_pages (pmm_at m0).
End Create.

Section Page.
Context (kd d : Z).
Implicit Types (m : machine) (v f g : Z).

Lemma user_flags_ok : map_flags USER_FLAGS.
Proof. by vm_compute. Qed.

(** A frame [f] was taken and is mapped at [v]. *)
Lemma stack_page_intro m f (q : pmm) m' v :
  task_space kd d m -> user_address v -> good_frame f -> m_free m f = true -> page_taken (f / PAGE_SIZE) (pmm_at m) q ->
  mapped d v (leaf f USER_FLAGS) (with_pmm q m) m' ->
  only_pages d (table_of m' d (pde_index v)) (m_ram m) (m_ram m') -> stack_page kd d v m m'.
Proof.
  intros Ht Hu Hg Hf Htk Hmap Ho. destruct (user_address_pde _ Hu) as [Hv Hi].
  pose proof (ts_taken _ _ _ _ _ Ht Htk) as Ht1. pose proof (fun g => taken_m_free _ _ _ g Htk) as Hfree.
  destruct (ts_mapped kd d (with_pmm q m) m' v (leaf f USER_FLAGS)) as (Hts & Hsk & Hplain); [done..|].
  assert (m_free (with_pmm q m) f = false) as Hf1 by (rewrite Hfree, Z.eqb_refl; apply andb_false_r).
  destruct Hmap as (Hs & Hw & Hpres & _ & _ & _ & _ & Hcase).
  assert (forall g, m_free m' g = true -> m_free (with_pmm q m) g = true) as Hback.
  { intros g. unfold m_free. destruct Hcase as [(_ & E & _)|(_ & _ & Htk2)].
    - unfold pmm_at in E. by rewrite E.
    - pose proof (taken_free _ _ _ Htk2 (g / PAGE_SIZE)) as E. unfold pmm_at in E. rewrite E. by intros [? _]%andb_true_iff. }
  assert (forall g, m_free (with_pmm q m) g = false -> m_free m' g = false) as Hused.
  { intros g Hg1. apply not_true_iff_false. intros E. apply Hback in E. congruence. }
  split; [done|by destruct Hsk; split| | | |done|].
  - exists f. split; [done|]. split; [done|]. split; [by apply Hused|]. split; [|done].
    apply Hplain; [done|done|]. by apply (free_plain kd d m).
  - intros va Hva Hne. destruct (user_address_pde _ Hva) as [Hvv Hvi].
    change (m_ram m) with (m_ram (with_pmm q m)). apply (step_walk _ _ _ _ Hs); [done|done|by apply (ts_private _ _ _ Ht1)].
  - intros g Hg0. apply Hused. by rewrite Hfree, Hg0.
  - pose proof (taken_count _ _ _ Htk) as E1.
    destruct Hcase as [(_ & E & _)|(_ & _ & Htk2)]; [rewrite E|rewrite (taken_count _ _ _ Htk2)];
      change (pmm_at (with_pmm q m)) with q; lia.
Qed.

Lemma wp_stack_page m f (q : pmm) v (Q : unit -> machine -> Prop) :
  task_space kd d m -> user_address v -> good_frame f -> m_free m f = true -> page_taken (f / PAGE_SIZE) (pmm_at m) q ->
  (forall m', stack_page kd d v m m' -> Q tt m') ->
  (present (pde m d (pde_index v)) = false -> free_pages (pmm_at m) < 2 -> Q tt (with_pmm q m)) ->
  wp (paging_map (PHYS_TO_VIRT d) v f USER_FLAGS) Q (with_pmm q m).
Proof.
  intros Ht Hu Hg Hf Htk HQ HQf. destruct (user_address_pde _ Hu) as [Hv Hi]. destruct (good_frame_virt f Hg) as (_ & _ & _ & Hfu).
  pose proof (ts_taken _ _ _ _ _ Ht Htk) as Ht1. pose proof (ready_mem _ _ (ts_ready _ _ _ Ht1)) as Hmem.
  pose proof (ts_space _ _ _ Ht1) as Hsp. pose proof (ts_private _ _ _ Ht1 _ Hi) as Hpriv.
  eapply wp_mono.
  { apply wp_conj; [by apply (wp_map_bytes _ d v f USER_FLAGS)|].
    apply (wp_paging_map _ d v f USER_FLAGS (fun _ m' =>
      mapped d v (leaf f USER_FLAGS) (with_pmm q m) m' \/ map_failed d v (with_pmm q m) m')); auto using user_flags_ok. }
  intros [] m' [Ho [Hmap|(Hno & p' & Hfail & ->)]].
  - apply HQ. by apply (stack_page_intro m f q).
  - destruct (alloc_failed_empty kd d _ p' Ht1 Hfail) as [-> Hz]. apply HQf; [exact Hno|].
    pose proof (taken_count _ _ _ Htk) as E. change (pmm_at (with_pmm q m)) with q in Hz. lia.
Qed.

(** A frame that was taken goes back. *)
Lemma wp_frame_back m f (q : pmm) (Q : unit -> machine -> Prop) :
  task_space kd d m -> good_frame f -> m_free m f = true -> page_taken (f / PAGE_SIZE) (pmm_at m) q ->
  (forall m', task_space kd d m' -> same_kernel kd m m' -> m_ram m' = m_ram m -> (forall g, m_free m' g = m_free m g) ->
     free_pages (pmm_at m') = free_pages (pmm_at m) -> Q tt m') ->
  wp (zoom pmm_world_l (pmm_free_page f)) Q (with_pmm q m).
Proof.
  intros Ht Hg Hf Htk HQ. destruct (good_frame_page f Hg) as [Hpos Hle]. destruct (good_frame_virt f Hg) as (_ & _ & _ & Hu).
  pose proof (ts_taken _ _ _ _ _ Ht Htk) as Ht1. pose proof (fun g => taken_m_free _ _ _ g Htk) as Hfree.
  assert (m_free (with_pmm q m) f = false) as Hf1 by (rewrite Hfree, Z.eqb_refl; apply andb_false_r).
  assert (plain kd d (with_pmm q m) f) as Hpl by exact (free_plain kd d m f Ht Hf).
  apply wp_free_frame; [apply (ready_mem _ _ (ts_ready _ _ _ Ht1))|done..| |].
  - intros [Hout|Hfr]; [|congruence]. apply page_free_range in Hf. change (pmm_of (m_pmm (with_pmm q m))) with q in Hout.
    rewrite (taken_total _ _ _ Htk) in Hout. unfold pmm_at in *. lia.
  - intros q' _ _ Hrel Hmem. change (with_pmm q' (with_pmm q m)) with (with_pmm q' m).
    apply HQ; [|by split|done| |].
    + by apply (ts_released kd d (with_pmm q m) f q').
    + intros g. unfold m_free. change (pmm_of (m_pmm (with_pmm q' m))) with q'. rewrite (released_free _ _ _ Hrel).
      change (m_free (with_pmm q m) g || (g / PAGE_SIZE =? f / PAGE_SIZE) = m_free m g). rewrite Hfree.
      destruct (Z.eqb_spec (g / PAGE_SIZE) (f / PAGE_SIZE)) as [E|]; [|by rewrite andb_true_r, orb_false_r].
      rewrite orb_true_r. unfold m_free in *. by rewrite E.
    + change (pmm_at (with_pmm q' m)) with q'. rewrite (released_count _ _ _ Hrel).
      change (pmm_of (m_pmm (with_pmm q m))) with q. rewrite (taken_count _ _ _ Htk). lia.
Qed.
End Page.

(** ** The whole operation *)

Section Outcome.
Context (kd d p : Z) (k : kernel) (u S : list (Z * Z)) (Hspace : stack_space kd d p k u S).
Implicit Types (h : heap) (m : machine) (ln : gmap link (list_node link)) (st : gmap Z Z) (v a f : Z).

Let m0 : machine := the_supply (k_heap k).
Let h0 : heap := the_heap (k_heap k).

Lemma stack_heap : heap_at h0 m0 u.
Proof. unfold heap_at, h0, m0. pose proof (ss_heap _ _ _ _ _ _ Hspace). by destruct (k_heap k). Qed.

(** The reservation is taken back. *)
Lemma wp_stack_back v a u' h m ln (Q : unit -> kernel -> Prop) :
  v <> 0 -> v ∉ S.*2 -> (a ∉ u.*1) -> heap_at h m u' -> u'.*1 ≡ₚ a :: u.*1 ->
  reserved p (S ++ [(a, v)]) ln (<[a := v]> (k_stacks k)) -> unchanged (stack_nodes p (S ++ [(a, v)])) (k_links k) ln ->
  task_space kd d m -> m_ram m = m_ram m0 -> (forall g, m_free m g = m_free m0 g) -> free_pages (pmm_at m) = free_pages (pmm_at m0) ->
  (forall k', stack_undone kd d p k u S k' -> Q tt k') ->
  wp (usermode_stack_release p v) Q (stacker k h m ln (<[a := v]> (k_stacks k))).
Proof.
  intros Hv Hnew Ha Hh Eu Hres Hun Ht Er Ef Ec HQ.
  apply (wp_usermode_stack_release k p S a v [] u'); [apply Hspace|done|done|rewrite Eu; apply list_elem_of_here|done|done|].
  intros h' u2 ln' Hh' Eu2 _ Hres' Hun'. rewrite app_nil_r in Hres'. apply HQ.
  exists a, u2, h', m, ln', (delete a (<[a := v]> (k_stacks k))). split; [done|]. split; [done|].
  split; [|split; [done|split; [done|split; [|split; [|done]]]]].
  - apply (Permutation_cons_inv (a := a)). by rewrite Eu2, Eu.
  - intros b Hb. by rewrite lookup_delete_ne, lookup_insert_ne.
  - intros x Hx. assert (x ∉ stack_nodes p (S ++ [(a, v)])) as Hx'.
    { revert Hx. unfold stack_nodes. rewrite !fmap_app. cbn. set_solver. }
    by rewrite Hun', Hun.
Qed.

(** After the reservation: the frame and its mapping. *)
Lemma wp_stack_mapping v a u' h ln (Q : option Z -> kernel -> Prop) :
  user_address v -> v mod PAGE_SIZE = 0 -> v <> 0 -> v ∉ S.*2 -> walk (m_ram m0) d v = None -> (a ∉ u.*1) ->
  heap_at h m0 u' -> u'.*1 ≡ₚ a :: u.*1 ->
  reserved p (S ++ [(a, v)]) ln (<[a := v]> (k_stacks k)) -> unchanged (stack_nodes p (S ++ [(a, v)])) (k_links k) ln ->
  (forall k', stack_created kd d p k u S v k' -> Q (Some (u32 (v + USER_STACK_SIZE))) k') ->
  (forall k', stack_undone kd d p k u S k' -> free_pages (pmm_at m0) < 2 -> Q None k') ->
  wp (let* phys := pmm_op pmm_alloc_page in
      if phys =? 0 then usermode_stack_release p v ;;; ret None
      else
        let* directory := get_directory p in
        machine_op (paging_map directory v phys USER_FLAGS) ;;;
        let* valid := machine_op (paging_validate_mapping directory v) in
        if negb valid then
          machine_op (paging_unmap directory v) ;;;
          pmm_op (pmm_free_page phys) ;;;
          usermode_stack_release p v ;;;
          ret None
        else ret (Some (u32 (v + USER_STACK_SIZE)))) Q (stacker k h m0 ln (<[a := v]> (k_stacks k))).
Proof.
  intros Hu Hal Hv Hnew Hw Ha Hh Eu Hres Hun HQ HQf. pose proof (ss_space _ _ _ _ _ _ Hspace) as Ht. fold m0 in Ht.
  pose proof (ready_mem _ _ (ts_ready _ _ _ Ht)) as Hmem. destruct (user_address_pde _ Hu) as [Hv32 Hi].
  apply wp_bind, wp_stacker_pmm, wp_alloc_frame; [done| |].
  { intros p' Hfail. destruct (alloc_failed_empty kd d m0 p' Ht Hfail) as [-> Hz]. change (NULL =? 0) with true.
    apply wp_bind, (wp_stack_back v a u'); try done. intros k' Hk'. apply wp_ret, HQf; [done|]. clear -Hz. lia. }
  intros f q Hg Hnz Hf _ Htk. rewrite (proj2 (Z.eqb_neq f 0)) by done.
  apply wp_bind, (wp_stacker_directory k p (PHYS_TO_VIRT d)); [apply Hspace|].
  apply wp_bind, wp_stacker_machine, (wp_stack_page kd d m0 f q); [done..| |].
  - intros m1 Hpage. pose proof (sp_task _ _ _ _ _ Hpage) as Ht1.
    apply wp_bind, wp_stacker_machine, wp_paging_validate_mapping; [apply Ht1|done|].
    destruct (sp_frame _ _ _ _ _ Hpage) as (f' & _ & _ & _ & _ & Ew). rewrite Ew. apply wp_ret, HQ.
    exists a, u', h, m1, ln. split; [done|]. split; [|done].
    apply (heap_at_task kd d h m0 m1 u' Hh Ht Ht1); apply Hpage.
  - intros Hno Hlt. pose proof (ts_taken _ _ _ _ _ Ht Htk) as Ht1.
    apply wp_bind, wp_stacker_machine, wp_paging_validate_mapping; [apply Ht1|done|]. change (m_ram (with_pmm q m0)) with (m_ram m0).
    rewrite Hw. cbn [negb]. apply wp_bind, wp_stacker_machine, wp_unmap_absent; [apply (ts_space _ _ _ Ht)|done|exact Hno|].
    apply wp_bind, wp_stacker_pmm, (wp_frame_back kd d m0 f q); [done..|]. intros m2 Ht2 Hs2 Er Ef Ec.
    apply wp_bind, (wp_stack_back v a u'); try done.
    + apply (heap_at_task kd d h m0 m2 u' Hh Ht Ht2); [done|]. by rewrite Ec.
    + intros k' Hk'. apply wp_ret, HQf; done.
Qed.
(** C6 [usermode_stack_create] gives a process the highest stack slot that is
    neither reserved nor mapped: the page of the slot is mapped for the user on
    a frame that was free, the reservation joins the list of the process, and
    no other page of the process or of the kernel changes. It fails only when
    no slot is left or fewer than two pages are free, and then every page, the
    list and the blocks in use are as before. *)
Theorem usermode_stack_create_spec fuel :
  (1 < fuel)%nat ->
  wp (usermode_stack_create fuel p) (fun r k' =>
    match r with
    | Some top => exists j, 0 <= j < SLOTS /\ top = slot j + USER_STACK_SIZE /\ available S d m0 (slot j) /\
        (forall i, 0 <= i < j -> ~ available S d m0 (slot i)) /\ stack_created kd d p k u S (slot j) k'
    | None => ((forall i, 0 <= i < SLOTS -> ~ available S d m0 (slot i)) \/ free_pages (pmm_at m0) < 2) /\
        (k' = k \/ stack_undone kd d p k u S k')
    end) k.
Proof.
  intros Hfuel. pose proof Hspace as [Hp Hdir Ht Hback Hheap Hroom HS Hres]. fold m0 in Ht, Hback.
  destruct (good_frame_virt _ (space_dir _ _ (ts_space _ _ _ Ht))) as (_ & _ & Hdn & _).
  refine (eq_ind _ (wp _ _) _ _ (stacker_id k)). fold m0 h0. unfold usermode_stack_create.
  apply wp_bind, wp_assert; [by apply negb_true_iff, Z.eqb_neq|].
  apply wp_bind, (wp_stacker_directory k p (PHYS_TO_VIRT d)); [done|].
  apply wp_bind, wp_assert; [by apply negb_true_iff, Z.eqb_neq|].
  apply wp_bind, (wp_user_stack_alloc k d p S); [done|done|apply (ts_space _ _ _ Ht)|done|done|].
  intros v [(j & Hj & -> & Hav & Hhigh)|[-> Hnone]].
  2:{ apply wp_ret. split; [by left|]. left. apply stacker_id. }
  destruct (slot_page j Hj) as (Hu & Hal & _ & Hu32 & Hnz). rewrite (proj2 (Z.eqb_neq (slot j) 0)) by done.
  apply wp_bind, (wp_user_stack_reserve k p fuel S u); [done..|exact stack_heap| |done|done|].
  { unfold h0, m0. by destruct (k_heap k). }
  intros a h' u' ln' Ha Hnew Hh' Eu' _ Hres' Hun. cbn [negb].
  apply (wp_stack_mapping (slot j) a u'); [done..|apply Hav|apply Hav|done|done|done|done|done| |].
  - intros k' Hk'. exists j. split; [done|]. split; [|done]. rewrite u32_id; [done|].
    clear -Hu. unfold user_address, KERNEL_VIRT_BASE, is_u32 in *. change USER_STACK_SIZE with 4096. lia.
  - intros k' Hk' Hlt. split; [by right|by right].
Qed.
End Outcome.

(** ** Witness *)

(** The kernel of [ElfSpec] with a process that has no stack. *)
Definition stack_process : Z := 0xC0080000.
Definition stack_kernel : kernel :=
  Kernel (HeapWorld elf_heap elf_machine) vam_start
    (Sched ∅ ∅ None 5 [] 0 {[stack_process := PHYS_TO_VIRT elf_directory]} None true) ∅ ∅ (Fs 0 0 0) ∅ ∅
    {[UserStacksHead stack_process := Node (Some (UserStacksHead stack_process)) (Some (UserStacksHead stack_process))]}
    ∅ ∅ ∅ ∅ 2 2 boot_screen.

#[local] Opaque elf_machine elf_ram.

(** Without user tables nothing is mapped. *)
Lemma no_user_walk m d va :
  (forall i, user_pde i -> present (pde m d i) = false) -> user_address va -> walk (m_ram m) d va = None.
Proof. intros Hu [_ Hi]%user_address_pde. apply walk_absent. exact (Hu _ Hi). Qed.

Lemma stack_unmapped va : user_address va -> walk (m_ram elf_machine) elf_directory va = None.
Proof.
  destruct elf_facts as (Hc & _).
  destruct (kernel_check_facts elf_machine elf_kd elf_directory elf_mem Hc) as (_ & _ & Hu & _). exact (no_user_walk _ _ va Hu).
Qed.

Lemma stack_room : has_room (HeapWorld elf_heap elf_machine) 16.
Proof.
  destruct elf_loadable as [_ _ _ [H|H] _ _ _]; destruct elf_facts as (_ & _ & _ & _ & _ & Hp & _); rewrite Hp in H; [|exact H].
  clear -H. by vm_compute in H.
Qed.

Lemma stack_kernel_space : stack_space elf_kd elf_directory stack_process stack_kernel [] [].
Proof.
  destruct elf_loadable as [H1 _ H2 _ _ _ _].
  split; [by vm_compute|reflexivity|exact H1| |exact H2|exact stack_room|by intros x Hx| ].
  - intros va e Hu. change (the_supply (k_heap stack_kernel)) with elf_machine. by rewrite stack_unmapped.
  - split; [|by apply Forall_nil]. split; [apply NoDup_singleton|]. by vm_compute.
Qed.

Lemma usermode_stack_create_spec_witness :
  stack_space elf_kd elf_directory stack_process stack_kernel [] [] /\
  wp (usermode_stack_create 2 stack_process) (fun r k' =>
    r = Some USER_STACK_REGION_END /\
    exists f, m_free elf_machine f = true /\
      walk (m_ram (the_supply (k_heap k'))) elf_directory (slot 0) = Some (leaf f USER_FLAGS)) stack_kernel.
Proof.
  split; [exact stack_kernel_space|]. eapply wp_mono.
  { exact (usermode_stack_create_spec elf_kd elf_directory stack_process stack_kernel [] [] stack_kernel_space 2 ltac:(lia)). }
  assert (available [] elf_directory elf_machine (slot 0)) as Hav.
  { split; [by apply not_elem_of_nil|]. apply stack_unmapped. by vm_compute. }
  assert (0 <= 0 < SLOTS) as H0 by (by vm_compute). destruct elf_facts as (_ & _ & Hf & _).
  intros [top|] k'.
  - intros (j & Hj & -> & _ & Hhigh & (a & u' & h & m & ln & -> & _ & _ & _ & _ & _ & Hpage)).
    destruct (decide (j = 0)) as [->|Hne]; [|exfalso; apply (Hhigh 0); [lia|exact Hav]]. split; [reflexivity|].
    destruct (sp_frame _ _ _ _ _ Hpage) as (f & _ & Hfree & _ & _ & Hw). exact (ex_intro _ f (conj Hfree Hw)).
  - intros [[Hno|Hlt] _]; exfalso; [by apply (Hno 0)|]. change (the_supply (k_heap stack_kernel)) with elf_machine in Hlt.
    rewrite Hf in Hlt. clear -Hlt. by vm_compute in Hlt.
Defined.
