(* ===== verification/ThreadStack.v ===== *)
(** * Kernel stacks of threads

    The pages of one slot of the stack region: mapped by [thread_create],
    released by it when it fails and by [thread_destroy]. All of them are below
    one page table, which the kernel directory shares with the directory of
    every process, so that the stack is there whatever directory is loaded. *)

From S2P Require Import Prelude Layout Bitmap Machine Pmm CString Ram Paging PagingSpec Vam Vmm Heap HeapSpec HeapSupply TaskSpace.

(** ** Mapping and unmapping below a table that is there *)

Section Present.
Implicit Types (m : machine) (d virt phys flags : Z).

(** [m] after an [invlpg]. *)
Definition flushed_at (virt : Z) m : machine :=
  with_cpu (Cpu (eflags (pmm_cpu (m_pmm m))) (cr3 (pmm_cpu (m_pmm m))) (virt :: flushed (pmm_cpu (m_pmm m)))) m.

(** [m] with this entry for [virt]. *)
Definition entry_written d virt e m : machine :=
  flushed_at virt (with_ram (ram_entry_set (table_of m d (pde_index virt)) (pte_index virt) e (m_ram m)) m).

Lemma wp_map_present m d virt phys flags (Q : unit -> machine -> Prop) :
  space m d -> is_u32 virt -> present (pde m d (pde_index virt)) = true ->
  Q tt (entry_written d virt (leaf phys flags) m) -> wp (paging_map (PHYS_TO_VIRT d) virt phys flags) Q m.
Proof.
  intros Hsp Hv Hp HQ. pose proof (space_dir _ _ Hsp) as Hd. pose proof (pde_index_range virt Hv) as Hi.
  pose proof (pte_index_range virt) as Hti. unfold paging_map. apply wp_bind, wp_paging_get_table; [done..|]. rewrite Hp.
  destruct (space_tables _ _ Hsp _ Hi Hp) as [Hg _]. destruct (good_frame_virt _ Hg) as (_ & _ & Hnn & _).
  rewrite (proj2 (Z.eqb_neq _ _)) by done. apply wp_bind, wp_ret. rewrite (proj2 (Z.eqb_neq _ _)) by done.
  apply wp_bind, wp_set_entry; [done..|]. apply wp_flush. exact HQ.
Qed.

(** Another entry of the table is in use, so the table stays. *)
Lemma wp_unmap_present m d virt k (Q : unit -> machine -> Prop) :
  space m d -> is_u32 virt -> present (pde m d (pde_index virt)) = true ->
  0 <= k < 1024 -> k <> pte_index virt -> present (entry (m_ram m) (table_of m d (pde_index virt)) k) = true ->
  Q tt (entry_written d virt 0 m) -> wp (paging_unmap (PHYS_TO_VIRT d) virt) Q m.
Proof.
  intros Hsp Hv Hp Hk Hne Hpk HQ. pose proof (space_dir _ _ Hsp) as Hd. pose proof (pde_index_range virt Hv) as Hi.
  pose proof (pte_index_range virt) as Hti. destruct (good_frame_virt d Hd) as (_ & _ & Hdn & _). unfold paging_unmap.
  apply wp_bind, wp_assert; [by rewrite (proj2 (Z.eqb_neq _ _))|]. apply wp_bind, wp_get_entry; [done..|].
  change (entry (m_ram m) d _) with (pde m d (pde_index virt)). rewrite Hp. cbn [negb].
  destruct (space_tables _ _ Hsp _ Hi Hp) as [Hg _]. destruct (good_frame_virt _ Hg) as (_ & _ & Hnn & _).
  apply wp_bind, wp_paging_get_table; [done..|]. rewrite Hp. rewrite (proj2 (Z.eqb_neq _ _)) by done.
  apply wp_bind, wp_set_entry; [done..|]. apply wp_bind, wp_flush. apply wp_bind, wp_table_in_use; [done|].
  intros [] Hno; [by apply wp_ret|]. exfalso. specialize (Hno eq_refl k Hk).
  pose proof (good_frame_aligned _ Hg) as Hag. cbn [m_ram with_ram with_cpu] in Hno.
  rewrite entry_set_ne in Hno by (done || by right; apply not_eq_sym). congruence.
Qed.
End Present.

(** ** The slot *)

(** Page [j] of slot [n]: its address, the directory entry and the entry of
    the table. *)
Definition page_of (n j : Z) : Z := slot_address n + j * PAGE_SIZE.
Definition slot_pde (n : Z) : Z := 832 + n / 256.
Definition slot_pte (n j : Z) : Z := n mod 256 * 4 + j.

(** An entry of the table outside of the slot. *)
Definition outside_slot (n k : Z) : Prop := 0 <= k < 1024 /\ (k < slot_pte n 0 \/ slot_pte n 3 < k).

Lemma page_of_index n j : 0 <= n < KERNEL_STACK_COUNT -> 0 <= j < 4 ->
  is_u32 (page_of n j) /\ u32 (slot_address n + j * PAGE_SIZE) = page_of n j /\ pde_index (page_of n j) = slot_pde n /\
  pte_index (page_of n j) = slot_pte n j /\ page_of n j mod PAGE_SIZE = 0.
Proof.
  change KERNEL_STACK_COUNT with 16384. intros Hn Hj.
  assert (is_u32 (page_of n j)) as Hu.
  { unfold page_of, slot_address, is_u32. change KERNEL_STACK_SIZE with 16384. unfold KERNEL_STACKS_START, PAGE_SIZE. lia. }
  split; [done|]. split; [by apply u32_id|]. rewrite pde_index_div, pte_index_mod.
  unfold page_of, slot_address, slot_pde, slot_pte. change KERNEL_STACK_SIZE with 16384. unfold KERNEL_STACKS_START, PAGE_SIZE. lia.
Qed.

(** The table of slot [n] is there for the kernel and for the process of [d],
    the slot is unmapped, and something else below the table is mapped. *)
Record slot_ready (kd d n : Z) (m : machine) : Prop := {
  sr_slot : 0 <= n < KERNEL_STACK_COUNT;
  sr_present : present (pde m kd (slot_pde n)) = true;
  sr_private : private m kd (slot_pde n);
  sr_shared : present (pde m d (slot_pde n)) = true /\ table_of m d (slot_pde n) = table_of m kd (slot_pde n);
  sr_unused : forall j, 0 <= j < 4 -> present (entry (m_ram m) (table_of m kd (slot_pde n)) (slot_pte n j)) = false;
  sr_used : exists k, outside_slot n k /\ present (entry (m_ram m) (table_of m kd (slot_pde n)) k) = true;
}.

(** ** Frames of the pages *)

(** The frames behind the pages of the slot, [None] for a page that is not
    mapped. *)
Definition frames (F : list (option Z)) : list Z := omap id F.

Lemma frames_set F j f : F !! j = Some None -> frames (<[j := Some f]> F) ≡ₚ f :: frames F.
Proof.
  intros E. rewrite <- (take_drop_middle F j None E) at 2. rewrite insert_take_drop by by eapply lookup_lt_Some.
  unfold frames. rewrite !omap_app. cbn. by rewrite Permutation_middle.
Qed.

Lemma frames_clear F j f : F !! j = Some (Some f) -> f :: frames (<[j := None]> F) ≡ₚ frames F.
Proof.
  intros E. rewrite <- (take_drop_middle F j (Some f) E) at 2. rewrite insert_take_drop by by eapply lookup_lt_Some.
  unfold frames. rewrite !omap_app. cbn. by rewrite Permutation_middle.
Qed.

Lemma frames_member F j f : F !! j = Some (Some f) -> f ∈ frames F.
Proof. intros E. rewrite <- (frames_clear F j f E). apply list_elem_of_here. Qed.

(** [m] is [m0] with the frames [F] behind the slot. *)
Record slot_state (kd n : Z) (m0 : machine) (F : list (option Z)) (m : machine) : Prop := {
  sl_length : length F = 4%nat;
  sl_only : only_page (table_of m0 kd (slot_pde n)) (m_ram m0) (m_ram m);
  sl_outside : forall k, outside_slot n k ->
    entry (m_ram m) (table_of m0 kd (slot_pde n)) k = entry (m_ram m0) (table_of m0 kd (slot_pde n)) k;
  sl_pages : forall j, 0 <= j < 4 -> match F !! Z.to_nat j with
    | Some (Some f) => entry (m_ram m) (table_of m0 kd (slot_pde n)) (slot_pte n j) = leaf f 3
    | _ => present (entry (m_ram m) (table_of m0 kd (slot_pde n)) (slot_pte n j)) = false
    end;
  sl_once : NoDup (frames F);
  sl_frames : Forall (fun f => good_frame f /\ m_free m0 f = true) (frames F);
  sl_free : forall g, g mod PAGE_SIZE = 0 -> m_free m g = m_free m0 g && negb (bool_decide (g ∈ frames F));
  sl_count : free_pages (pmm_at m) = free_pages (pmm_at m0) - Z.of_nat (length (frames F));
  sl_total : total_pages (pmm_at m) = total_pages (pmm_at m0);
  sl_mem : mem_ok m;
  sl_fail : fail_allocations (pmm_at m) = fail_allocations (pmm_at m0);
  sl_kd : kernel_directory m = kernel_directory m0;
  sl_cpu : eflags (pmm_cpu (m_pmm m)) = eflags (pmm_cpu (m_pmm m0)) /\ cr3 (pmm_cpu (m_pmm m)) = cr3 (pmm_cpu (m_pmm m0));
}.

Definition no_frames : list (option Z) := replicate 4 None.

Section Slot.
Context (kd d n : Z) (m0 : machine) (Ht : task_space kd d m0) (Hr : slot_ready kd d n m0).
Implicit Types (m : machine) (F : list (option Z)) (f g j k : Z).

Let t : Z := table_of m0 kd (slot_pde n).

Lemma slot_pde_range : 0 <= slot_pde n < 1024 /\ 832 <= slot_pde n < 896.
Proof. pose proof (sr_slot _ _ _ _ Hr) as H. unfold slot_pde. change KERNEL_STACK_COUNT with 16384 in H. lia. Qed.

Lemma slot_pte_range j : 0 <= j < 4 -> 0 <= slot_pte n j < 1024.
Proof. intros Hj. unfold slot_pte. lia. Qed.

Lemma slot_table : good_frame t /\ m_free m0 t = false /\ t <> kd /\ t <> d.
Proof.
  destruct slot_pde_range as [Hi _]. pose proof (ready_space _ _ (ts_ready _ _ _ Ht)) as Hsp.
  destruct (space_tables _ _ Hsp _ Hi (sr_present _ _ _ _ Hr)) as [Hg Hu]. destruct (sr_private _ _ _ _ Hr (sr_present _ _ _ _ Hr)) as [Hk _].
  split; [done|]. split; [done|]. split; [done|]. apply (ts_kernel _ _ _ Ht); [done|apply Hr].
Qed.

Lemma slot_start : slot_state kd n m0 no_frames m0.
Proof.
  split; [done|done|done| |constructor|constructor| |cbn; lia|done|apply (ready_mem _ _ (ts_ready _ _ _ Ht))|done|done|done].
  - intros j Hj. destruct (lookup_lt_is_Some_2 no_frames (Z.to_nat j)) as [o E]; [cbn; lia|]. rewrite E.
    apply lookup_replicate in E as [-> _]. by apply Hr.
  - intros g _. rewrite bool_decide_false; [by rewrite andb_true_r|]. by intros ?%not_elem_of_nil.
Qed.

Lemma slot_pdes F m j : slot_state kd n m0 F m -> 0 <= j < 1024 -> pde m kd j = pde m0 kd j /\ pde m d j = pde m0 d j.
Proof.
  intros Hs Hj. destruct slot_table as (_ & _ & Hk & Hd).
  split; apply (sl_only _ _ _ _ _ Hs); [|by apply not_eq_sym|done| |by apply not_eq_sym|done]; apply good_frame_aligned.
  - apply (ready_space _ _ (ts_ready _ _ _ Ht)).
  - apply (ts_space _ _ _ Ht).
Qed.

Lemma slot_kept F m g : slot_state kd n m0 F m -> g mod PAGE_SIZE = 0 -> m_free m0 g = false -> m_free m g = false.
Proof. intros Hs Hg E. by rewrite (sl_free _ _ _ _ _ Hs), E. Qed.

(** Both directories stay well formed. *)
Lemma slot_space F m : slot_state kd n m0 F m -> task_space kd d m.
Proof.
  intros Hs. pose proof (fun j => slot_pdes F m j Hs) as Hp. pose proof Ht as [[Hmem Hspk Hkd] Hf Htab Hsp Hpriv Hne Hkt Hut].
  assert (forall j, 0 <= j < 1024 -> table_of m kd j = table_of m0 kd j /\ table_of m d j = table_of m0 d j) as Htb.
  { intros j Hj. unfold table_of. by destruct (Hp j Hj) as [-> ->]. }
  assert (forall j, 0 <= j < 1024 -> private m0 kd j -> private m kd j) as Hpk.
  { intros j Hj Hpr Hpj. destruct (Hp j Hj) as [E _]. rewrite E in Hpj. destruct (Hpr Hpj) as [P1 P2].
    destruct (Htb j Hj) as [-> _]. split; [done|]. intros i Hi Hij Hpi. destruct (Hp i Hi) as [Ei _]. rewrite Ei in Hpi.
    destruct (Htb i Hi) as [-> _]. by apply P2. }
  split.
  - split; [apply Hs| |by rewrite (sl_kd _ _ _ _ _ Hs)]. split; [apply Hspk|eapply slot_kept; [done|apply good_frame_aligned, Hspk|apply Hspk]|].
    intros j Hj Hpj. destruct (Hp j Hj) as [E _]. rewrite E in Hpj. destruct (Htb j Hj) as [-> _].
    destruct (space_tables _ _ Hspk j Hj Hpj) as [Hg Hu]. split; [done|]. eapply slot_kept; [done|by apply good_frame_aligned|done].
  - by rewrite (sl_fail _ _ _ _ _ Hs).
  - intros i Hi. destruct (Htab i Hi) as [P1 P2]. assert (0 <= i < 1024) as Hri.
    { destruct heap_bounds as [B1 B2]. unfold HEAP_START in B1. rewrite !pde_index_div, B1, B2 in Hi. lia. }
    destruct (Hp i Hri) as [-> _]. split; [done|]. by apply Hpk.
  - split; [apply Hsp|eapply slot_kept; [done|apply good_frame_aligned, Hsp|apply Hsp]|].
    intros j Hj Hpj. destruct (Hp j Hj) as [_ E]. rewrite E in Hpj. destruct (Htb j Hj) as [_ ->].
    destruct (space_tables _ _ Hsp j Hj Hpj) as [Hg Hu]. split; [done|]. eapply slot_kept; [done|by apply good_frame_aligned|done].
  - intros i Hi Hpi. pose proof (user_pde_range i Hi) as Hri. destruct (Hp i Hri) as [_ E]. rewrite E in Hpi.
    destruct (Hpriv i Hi Hpi) as [P1 P2]. destruct (Htb i Hri) as [_ ->]. split; [done|].
    intros j Hj Hij Hpj. destruct (Hp j Hj) as [_ Ej]. rewrite Ej in Hpj. destruct (Htb j Hj) as [_ ->]. by apply P2.
  - done.
  - intros j Hj Hpj. destruct (Hp j Hj) as [E _]. rewrite E in Hpj. destruct (Htb j Hj) as [-> _]. by apply Hkt.
  - intros i Hi Hpi. pose proof (user_pde_range i Hi) as Hri. destruct (Hp i Hri) as [_ E]. rewrite E in Hpi.
    destruct (Htb i Hri) as [_ ->]. destruct (Hut i Hi Hpi) as [U1 U2]. split; [done|].
    intros j Hj Hpj. destruct (Hp j Hj) as [Ej _]. rewrite Ej in Hpj. destruct (Htb j Hj) as [-> _]. by apply U2.
Qed.

(** What is not in the slot is translated as before, by the kernel and by the
    process. *)
Lemma slot_walk_kernel F m va :
  slot_state kd n m0 F m -> is_u32 va -> (forall j, 0 <= j < 4 -> va / PAGE_SIZE <> page_of n j / PAGE_SIZE) ->
  walk (m_ram m) kd va = walk (m_ram m0) kd va.
Proof.
  intros Hs Hva Hout. pose proof (pde_index_range va Hva) as Hi. pose proof (pte_index_range va) as Hti.
  destruct (slot_pdes F m _ Hs Hi) as [E _]. apply walk_ext; [exact E|]. intros Hp.
  destruct (space_tables _ _ (ready_space _ _ (ts_ready _ _ _ Ht)) _ Hi Hp) as [Hg _].
  destruct (decide (pde_index va = slot_pde n)) as [Es|Hne].
  - change (frame_of (entry (m_ram m0) kd (pde_index va))) with (table_of m0 kd (pde_index va)). rewrite Es. fold t.
    apply (sl_outside _ _ _ _ _ Hs). split; [done|].
    destruct (decide (pte_index va < slot_pte n 0)) as [|H1]; [by left|]. destruct (decide (slot_pte n 3 < pte_index va)) as [|H2]; [by right|].
    exfalso. set (j := pte_index va - slot_pte n 0). assert (0 <= j < 4) as Hj by (unfold j, slot_pte in *; lia).
    destruct (page_of_index n j (sr_slot _ _ _ _ Hr) Hj) as (Hu & _ & Ep & Et & _). apply (Hout j Hj).
    apply same_page; [done|done|congruence|]. rewrite Et. unfold j, slot_pte. lia.
  - apply (sl_only _ _ _ _ _ Hs); [by apply good_frame_aligned| |done]. fold t.
    destruct (sr_private _ _ _ _ Hr (sr_present _ _ _ _ Hr)) as [_ Hpr]. apply Hpr; done.
Qed.

Lemma slot_heap_moved h F F' m m' u :
  slot_state kd n m0 F m -> slot_state kd n m0 F' m' -> heap_at h m u ->
  heap_end h + Z.of_nat (pages_free m') * PAGE_SIZE <= KERNEL_HEAP_END + 1 -> heap_at h m' u.
Proof.
  intros Hs Hs' Hh Hb. pose proof (slot_space F m Hs) as Ht1. pose proof (slot_space F' m' Hs') as Ht2.
  apply (heap_at_walks kd h m m' u); [done|apply Ht1|apply Ht2|apply Ht2|apply Ht2| |done].
  intros a Ha. destruct heap_bounds as [B1 B2].
  assert (is_u32 a /\ a < KERNEL_STACKS_START) as [Hu Hlt].
  { destruct Hh as (l & [_ _ _ _ _ _ _ _ H9] & _). cbn [the_heap the_supply] in H9.
    rewrite B1 in Ha. rewrite B2 in H9. unfold is_u32, KERNEL_STACKS_START, PAGE_SIZE in *. lia. }
  assert (forall j, 0 <= j < 4 -> a / PAGE_SIZE <> page_of n j / PAGE_SIZE) as Hout.
  { intros j Hj. pose proof (sr_slot _ _ _ _ Hr) as Hn.
    unfold page_of, slot_address. change KERNEL_STACK_SIZE with 16384. change KERNEL_STACK_COUNT with 16384 in Hn.
    unfold KERNEL_STACKS_START, PAGE_SIZE in *. lia. }
  by rewrite (slot_walk_kernel F' m' a), (slot_walk_kernel F m a).
Qed.

Lemma slot_heap h F m u : slot_state kd n m0 F m -> heap_at h m0 u -> heap_at h m u.
Proof.
  intros Hs Hh. pose proof (heap_at_bound h m0 u Hh) as Hb. apply (slot_heap_moved h no_frames F m0); [apply slot_start|done..|].
  unfold pages_free in *. rewrite (sl_count _ _ _ _ _ Hs). unfold PAGE_SIZE in *. lia.
Qed.

Lemma leaf_is_u32 f : good_frame f -> is_u32 (leaf f 3).
Proof. intros Hg. destruct (good_frame_virt f Hg) as (_ & _ & _ & Hu). by apply (leaf_ok f 3 Hu). Qed.

(** Writing the entry of one page of the slot. *)
Lemma slot_written j e m k :
  0 <= j < 4 -> is_u32 e -> pde m kd (slot_pde n) = pde m0 kd (slot_pde n) -> 0 <= k < 1024 ->
  entry (m_ram (entry_written kd (page_of n j) e m)) t k = (if decide (k = slot_pte n j) then e else entry (m_ram m) t k) /\
  only_page t (m_ram m) (m_ram (entry_written kd (page_of n j) e m)).
Proof.
  intros Hj He Ep Hk. destruct (page_of_index n j (sr_slot _ _ _ _ Hr) Hj) as (_ & _ & Ei & Et & _).
  destruct slot_table as (Hg & _). pose proof (good_frame_aligned _ Hg) as Ha.
  change (m_ram (entry_written kd (page_of n j) e m)) with
    (ram_entry_set (table_of m kd (pde_index (page_of n j))) (pte_index (page_of n j)) e (m_ram m)).
  rewrite Ei, Et. replace (table_of m kd (slot_pde n)) with t by (unfold t, table_of; by rewrite Ep).
  split; [|apply only_page_set; [done|by apply slot_pte_range]]. case_decide as E.
  - subst k. by apply entry_set_eq.
  - apply entry_set_ne; [done|done|by apply slot_pte_range|done|by right; apply not_eq_sym].
Qed.

Lemma slot_pte_inj i j : slot_pte n i = slot_pte n j -> i = j.
Proof. unfold slot_pte. lia. Qed.

(** The page of the slot whose entry is written, and the others. *)
Lemma slot_pages_written F m j o e :
  slot_state kd n m0 F m -> 0 <= j < 4 -> is_u32 e ->
  match o with Some f => e = leaf f 3 | None => present e = false end ->
  forall i, 0 <= i < 4 -> match <[Z.to_nat j := o]> F !! Z.to_nat i with
    | Some (Some f) => entry (m_ram (entry_written kd (page_of n j) e m)) t (slot_pte n i) = leaf f 3
    | _ => present (entry (m_ram (entry_written kd (page_of n j) e m)) t (slot_pte n i)) = false
    end.
Proof.
  intros Hs Hj He Ho i Hi. destruct slot_pde_range as [Hir _]. destruct (slot_pdes F m _ Hs Hir) as [Ep _].
  destruct (slot_written j e m (slot_pte n i) Hj He Ep (slot_pte_range i Hi)) as [-> _]. destruct (decide (i = j)) as [->|Hne].
  - rewrite decide_True by done. rewrite list_lookup_insert_eq by (rewrite (sl_length _ _ _ _ _ Hs); lia). by destruct o.
  - rewrite decide_False by (by intros E%slot_pte_inj). rewrite list_lookup_insert_ne by lia. by apply Hs.
Qed.

Lemma slot_outside_written F m j e :
  slot_state kd n m0 F m -> 0 <= j < 4 -> is_u32 e ->
  (forall k, outside_slot n k -> entry (m_ram (entry_written kd (page_of n j) e m)) t k = entry (m_ram m0) t k) /\
  only_page t (m_ram m0) (m_ram (entry_written kd (page_of n j) e m)).
Proof.
  intros Hs Hj He. destruct slot_pde_range as [Hir _]. destruct (slot_pdes F m _ Hs Hir) as [Ep _]. split.
  - intros k [Hk Hout]. destruct (slot_written j e m k Hj He Ep Hk) as [-> _].
    rewrite decide_False; [by apply (sl_outside _ _ _ _ _ Hs)|]. unfold slot_pte in *. lia.
  - eapply only_page_trans; [apply (sl_only _ _ _ _ _ Hs)|]. by apply (slot_written j e m 0 Hj He Ep).
Qed.

Lemma slot_mapped F m j f (q : pmm) :
  slot_state kd n m0 F m -> 0 <= j < 4 -> F !! Z.to_nat j = Some None -> good_frame f -> m_free m f = true ->
  page_taken (f / PAGE_SIZE) (pmm_at m) q ->
  slot_state kd n m0 (<[Z.to_nat j := Some f]> F) (entry_written kd (page_of n j) (leaf f 3) (with_pmm q m)).
Proof.
  intros Hs Hj Ef Hg Hf Htk. pose proof (leaf_is_u32 f Hg) as Hl. pose proof (good_frame_aligned _ Hg) as Hfa.
  destruct (slot_outside_written F m j (leaf f 3) Hs Hj Hl) as [Hout Honly].
  pose proof (sl_free _ _ _ _ _ Hs f Hfa) as Hff. rewrite Hf in Hff. symmetry in Hff. apply andb_true_iff in Hff as [Hf0 Hnew].
  apply negb_true_iff, bool_decide_eq_false in Hnew. pose proof (frames_set F _ f Ef) as Ep.
  split; [by rewrite length_insert, (sl_length _ _ _ _ _ Hs)|exact Honly|exact Hout| | | | | |by rewrite <- (sl_total _ _ _ _ _ Hs), <- (taken_total _ _ _ Htk)| | |apply Hs|apply Hs].
  - exact (slot_pages_written F m j (Some f) (leaf f 3) Hs Hj Hl eq_refl).
  - rewrite Ep. constructor; [done|apply Hs].
  - rewrite Ep. constructor; [done|apply Hs].
  - intros g Hga. change (m_free (entry_written _ _ _ (with_pmm q m)) g) with (page_free q (g / PAGE_SIZE)).
    rewrite (taken_free _ _ _ Htk). change (page_free (pmm_at m) (g / PAGE_SIZE)) with (m_free m g).
    rewrite (sl_free _ _ _ _ _ Hs g Hga), <- andb_assoc. f_equal. rewrite <- negb_orb. f_equal.
    apply Bool.eq_iff_eq_true. rewrite orb_true_iff, !bool_decide_eq_true, Ep, elem_of_cons, Z.eqb_eq.
    unfold PAGE_SIZE in *. split; [intros [|]; [by right|left; lia]|intros [->|]; [by right|by left]].
  - change (free_pages (pmm_at (entry_written _ _ _ (with_pmm q m)))) with (free_pages q).
    rewrite (taken_count _ _ _ Htk), (sl_count _ _ _ _ _ Hs), Ep. cbn [length]. lia.
  - change (mem_ok (with_pmm q m)). eapply taken_mem_ok; [apply Hs|exact Htk].
  - change (fail_allocations q = fail_allocations (pmm_at m0)). by rewrite (taken_fail _ _ _ Htk), (sl_fail _ _ _ _ _ Hs).
Qed.

Lemma slot_unmapped F m j f (q : pmm) :
  slot_state kd n m0 F m -> 0 <= j < 4 -> F !! Z.to_nat j = Some (Some f) ->
  page_released (f / PAGE_SIZE) (pmm_at m) q -> mem_ok (with_pmm q m) ->
  slot_state kd n m0 (<[Z.to_nat j := None]> F) (with_pmm q (entry_written kd (page_of n j) 0 m)).
Proof.
  intros Hs Hj Ef Hrel Hmem. pose proof (frames_clear F _ f Ef) as Ep. pose proof (frames_member F _ f Ef) as Hin.
  pose proof (sl_frames _ _ _ _ _ Hs) as Hfr. rewrite Forall_forall in Hfr. destruct (Hfr f Hin) as [Hg Hf0].
  pose proof (good_frame_aligned _ Hg) as Hfa. assert (is_u32 0) as H0 by done.
  destruct (slot_outside_written F m j 0 Hs Hj H0) as [Hout Honly]. pose proof (sl_once _ _ _ _ _ Hs) as Hnd. rewrite <- Ep in Hnd.
  apply NoDup_cons in Hnd as [Hno Hnd].
  split; [by rewrite length_insert, (sl_length _ _ _ _ _ Hs)|exact Honly|exact Hout| |done| | | |by rewrite <- (sl_total _ _ _ _ _ Hs), <- (released_total _ _ _ Hrel)|exact Hmem| |apply Hs|apply Hs].
  - exact (slot_pages_written F m j None 0 Hs Hj H0 eq_refl).
  - pose proof (sl_frames _ _ _ _ _ Hs) as H. rewrite <- Ep in H. by apply Forall_cons in H as [_ H].
  - intros g Hga. change (m_free (with_pmm q (entry_written _ _ _ m)) g) with (page_free q (g / PAGE_SIZE)).
    rewrite (released_free _ _ _ Hrel). change (page_free (pmm_at m) (g / PAGE_SIZE)) with (m_free m g).
    rewrite (sl_free _ _ _ _ _ Hs g Hga). destruct (Z.eqb_spec (g / PAGE_SIZE) (f / PAGE_SIZE)) as [E|Hne].
    + assert (g = f) as -> by (unfold PAGE_SIZE in *; lia). rewrite orb_true_r, Hf0, bool_decide_false by done. done.
    + rewrite orb_false_r. do 2 f_equal. apply bool_decide_ext. rewrite <- Ep, elem_of_cons. split; [|by right].
      intros [->|]; done.
  - change (free_pages (pmm_at (with_pmm q (entry_written _ _ _ m)))) with (free_pages q).
    rewrite (released_count _ _ _ Hrel), (sl_count _ _ _ _ _ Hs), <- Ep. cbn [length]. lia.
  - change (fail_allocations q = fail_allocations (pmm_at m0)). by rewrite (released_fail _ _ _ Hrel), (sl_fail _ _ _ _ _ Hs).
Qed.

(** What the page translates to, in both directories. *)
Lemma slot_walk F m j :
  slot_state kd n m0 F m -> 0 <= j < 4 ->
  walk (m_ram m) kd (page_of n j) = match F !! Z.to_nat j with Some (Some f) => Some (leaf f 3) | _ => None end /\
  walk (m_ram m) d (page_of n j) = walk (m_ram m) kd (page_of n j).
Proof.
  intros Hs Hj. destruct (page_of_index n j (sr_slot _ _ _ _ Hr) Hj) as (_ & _ & Ei & Et & _).
  destruct slot_pde_range as [Hir _]. destruct (slot_pdes F m _ Hs Hir) as [Ek Ed].
  destruct (sr_shared _ _ _ _ Hr) as [Hpd Etd]. pose proof (sr_present _ _ _ _ Hr) as Hpk.
  pose proof (sl_pages _ _ _ _ _ Hs j Hj) as Hp. pose proof (sl_frames _ _ _ _ _ Hs) as Hfr. rewrite Forall_forall in Hfr.
  rewrite !walk_unfold, Ei, Et. change (entry (m_ram m) kd (slot_pde n)) with (pde m kd (slot_pde n)).
  change (entry (m_ram m) d (slot_pde n)) with (pde m d (slot_pde n)). rewrite Ek, Ed, Hpd, Hpk.
  change (frame_of (pde m0 kd (slot_pde n))) with t. change (frame_of (pde m0 d (slot_pde n))) with (table_of m0 d (slot_pde n)).
  rewrite Etd. fold t in Hp |- *. split; [|done]. cbn zeta. destruct (F !! Z.to_nat j) as [[f|]|] eqn:E.
  - rewrite Hp. destruct (Hfr f (frames_member F _ f E)) as [Hg _]. destruct (good_frame_virt f Hg) as (_ & _ & _ & Hu).
    destruct (leaf_ok f 3 Hu) as (_ & Hpr & _); [by vm_compute|]. by rewrite Hpr.
  - by rewrite Hp.
  - by rewrite Hp.
Qed.
End Slot.
