(* ===== verification/ProcessSpec.v ===== *)
(** * The life of a process

    [process_create], [process_destroy] and the search of [process.c] on the
    whole kernel. The invariant [processes_ok] says what the list of processes
    means: each process has a block of the heap and a directory of its own, and
    no page belongs to two directories, to the kernel's, or to the pool. *)

From S2P Require Import Prelude Layout Bitmap Machine Pmm DList CString Ram Words Paging PagingSpec Vam Vmm Heap HeapSpec HeapRoom HeapSupply TaskSpace Task Sync Fs Console ConsoleSpec Kernel Process Elf ElfFile ElfPages ElfLoad ElfSpec.

(** ** The directories of all processes *)

Definition all_owned (r : ram) (L : list Z) : list Z := concat (owned r <$> L).

(** The kernel directory [kd] and the directories [L] of the processes share
    the physical memory: a page that one of [L] owns is in use, is owned once,
    and is no part of the kernel's tables; the kernel half of each is the
    kernel's. *)
Record process_space (kd : Z) (L : list Z) (m : machine) : Prop := {
  ps_ready : ready m kd;
  ps_fail : fail_allocations (pmm_at m) = 0;
  ps_tables : heap_tables m kd;
  ps_once : NoDup (all_owned (m_ram m) L);
  ps_freeable : Forall (freeable (pmm_at m)) (all_owned (m_ram m) L);
  ps_kernel : Forall (leaf_frame m kd) (all_owned (m_ram m) L);
}.

Section Space.
Implicit Types (r : ram) (m : machine) (kd d f g t i j k : Z) (L : list Z).

Lemma all_owned_app r L1 L2 : all_owned r (L1 ++ L2) = all_owned r L1 ++ all_owned r L2.
Proof. unfold all_owned. by rewrite fmap_app, concat_app. Qed.

Lemma all_owned_cons r d L : all_owned r (d :: L) = owned r d ++ all_owned r L.
Proof. done. Qed.

Lemma owned_self r d : d ∈ owned r d.
Proof. apply elem_of_app. right. apply list_elem_of_here. Qed.

Lemma elem_of_all_owned r d g L : d ∈ L -> g ∈ owned r d -> g ∈ all_owned r L.
Proof.
  intros Hd Hg. apply list_elem_of_split in Hd as (L1 & L2 & ->).
  rewrite all_owned_app, all_owned_cons, !elem_of_app. auto.
Qed.

(** A table of the user half is owned. *)
Lemma owned_table r d i : 0 <= i < 768 -> present (Paging.entry r d i) = true -> frame_of (Paging.entry r d i) ∈ owned r d.
Proof.
  intros Hi Hp. destruct (blocks_prefix r d 768 i Hi) as [rest E]. unfold owned. rewrite E. unfold block. rewrite Hp.
  rewrite !elem_of_app. left. right. left. right. apply list_elem_of_here.
Qed.

(** What a directory owns depends on its entries and those of its tables. *)
Lemma owned_ext r r' d :
  (forall i, 0 <= i < 768 -> Paging.entry r' d i = Paging.entry r d i) ->
  (forall i k, 0 <= i < 768 -> present (Paging.entry r d i) = true -> 0 <= k < 1024 ->
     Paging.entry r' (frame_of (Paging.entry r d i)) k = Paging.entry r (frame_of (Paging.entry r d i)) k) ->
  owned r' d = owned r d.
Proof.
  intros Hd Ht. unfold owned, blocks. do 2 f_equal. apply list_fmap_ext. intros n i E. apply lookup_seqZ in E.
  rewrite Hd by lia. unfold block. destruct (present (Paging.entry r d i)) eqn:Hp; [|done]. f_equal.
  apply table_pages_ext. intros k Hk. apply Ht; [lia|done..].
Qed.

Lemma all_owned_ext r r' L : (forall d, d ∈ L -> owned r' d = owned r d) -> all_owned r' L = all_owned r L.
Proof.
  intros H. unfold all_owned. f_equal. apply list_fmap_ext. intros n d E. apply H. by eapply list_elem_of_lookup_2.
Qed.

(** Nothing that [L] owns is written. *)
Lemma owned_kept r r' L :
  Forall (fun g => g mod PAGE_SIZE = 0) (all_owned r L) ->
  (forall g k, g mod PAGE_SIZE = 0 -> g ∈ all_owned r L -> 0 <= k < 1024 -> Paging.entry r' g k = Paging.entry r g k) ->
  all_owned r' L = all_owned r L.
Proof.
  intros Hal H. rewrite Forall_forall in Hal. apply all_owned_ext. intros d Hd. apply owned_ext.
  - intros i Hi. assert (d ∈ all_owned r L) as Hin by by eapply elem_of_all_owned, owned_self. apply H; [by apply Hal|done|lia].
  - intros i k Hi Hp Hk. assert (frame_of (Paging.entry r d i) ∈ all_owned r L) as Hin by by eapply elem_of_all_owned, owned_table.
    apply H; [by apply Hal|done|done].
Qed.

Lemma freeable_used m f : freeable (pmm_at m) f -> f mod PAGE_SIZE = 0 /\ m_free m f = false.
Proof. intros (_ & Ha & _ & _ & _ & Hf). done. Qed.

Lemma freeable_good p f : freeable p f -> good_frame f.
Proof. intros (? & ? & ? & _). by split. Qed.

Lemma ps_aligned kd L m : process_space kd L m -> Forall (fun g => g mod PAGE_SIZE = 0) (all_owned (m_ram m) L).
Proof. intros H. eapply Forall_impl; [apply (ps_freeable _ _ _ H)|]. intros g Hg. apply (freeable_used _ _ Hg). Qed.

(** A free page is no part of the kernel's tables. *)
Lemma free_leaf m kd f : space m kd -> m_free m f = true -> leaf_frame m kd f.
Proof.
  intros Hsp Hf. split.
  - intros <-. by rewrite (space_dir_used _ _ Hsp) in Hf.
  - intros j Hj Hp E. destruct (space_tables _ _ Hsp j Hj Hp) as [_ H]. by rewrite E, Hf in H.
Qed.

(** Writing one free page. *)
Lemma only_page_kernel m m' kd f :
  space m kd -> leaf_frame m kd f -> only_page f (m_ram m) (m_ram m') -> same_kernel kd m m'.
Proof.
  intros Hsp [Hkf Hkt] Ho. split.
  - intros j Hj. apply Ho; [apply good_frame_aligned, Hsp|by apply not_eq_sym|done].
  - intros j k Hj Hk Hp. destruct (space_tables _ _ Hsp j Hj Hp) as [Hg _].
    apply Ho; [by apply good_frame_aligned|by apply Hkt|done].
Qed.
End Space.

(** ** A directory more, a directory less *)

Section Spaces.
Implicit Types (m : machine) (kd d f g i j k : Z) (L : list Z).

Lemma created_same_kernel kd f m m' : space m kd -> m_free m f = true -> created kd f m m' -> same_kernel kd m m'.
Proof. intros Hsp Hf Hc. apply (only_page_kernel m m' kd f); [done|by apply free_leaf|apply Hc]. Qed.

Lemma created_ready kd f m m' : ready m kd -> created kd f m m' -> ready m' kd.
Proof. intros [_ _ Hk] Hc. split; [apply Hc|apply Hc|]. by rewrite (created_kd _ _ _ _ Hc). Qed.

(** The new directory owns its own page. *)
Lemma created_owned kd f m m' : created kd f m m' -> owned (m_ram m') f = [f].
Proof.
  intros Hc. unfold owned, blocks. replace (concat _) with (@nil Z); [done|]. symmetry. apply concat_nil_Forall, Forall_fmap, Forall_forall.
  intros i Hi%elem_of_seqZ. change (block (m_ram m') (pde m' f i) = []). rewrite (created_pde _ _ _ _ Hc) by lia. unfold is_kernel_pde.
  rewrite (proj2 (Z.leb_gt _ _)); [done|]. unfold KERNEL_PDE_START. lia.
Qed.

Lemma space_added kd L f m m' :
  process_space kd L m -> good_frame f -> m_free m f = true -> created kd f m m' ->
  process_space kd (L ++ [f]) m' /\ all_owned (m_ram m') L = all_owned (m_ram m) L.
Proof.
  intros Hps Hg Hf Hc. pose proof Hps as [Hr Hfail Ht Hnd Hfr Hk]. pose proof (ready_space _ _ Hr) as Hsp.
  pose proof (created_same_kernel _ _ _ _ Hsp Hf Hc) as Hs.
  assert (f ∉ all_owned (m_ram m) L) as Hnew.
  { intros Hin. rewrite Forall_forall in Hfr. destruct (freeable_used _ _ (Hfr f Hin)). congruence. }
  assert (all_owned (m_ram m') L = all_owned (m_ram m) L) as E.
  { apply owned_kept; [by eapply ps_aligned|]. intros g k Hga Hin Hkk. apply (created_only _ _ _ _ Hc); [done| |done]. by intros ->. }
  split; [|done]. assert (all_owned (m_ram m') (L ++ [f]) = all_owned (m_ram m) L ++ [f]) as E'.
  { rewrite all_owned_app, E. unfold all_owned at 2. cbn [fmap list_fmap concat]. by rewrite (created_owned _ _ _ _ Hc), app_nil_r. }
  split; rewrite ?E'.
  - by eapply created_ready.
  - by rewrite (taken_fail _ _ _ (created_taken _ _ _ _ Hc)).
  - by eapply heap_tables_step.
  - apply NoDup_app. split; [done|]. split; [|apply NoDup_singleton]. by intros g Hin ->%list_elem_of_singleton.
  - apply Forall_app. split.
    + eapply Forall_impl; [exact Hfr|]. intros g (H1 & H2 & H3 & H4 & H5 & H6). repeat (split; [done|]).
      rewrite (taken_total _ _ _ (created_taken _ _ _ _ Hc)), (taken_free _ _ _ (created_taken _ _ _ _ Hc)), H6. done.
    + apply Forall_singleton. destruct Hg as (H1 & H2 & H3). destruct (good_frame_virt f) as (_ & _ & _ & Hu); [by split|].
      split; [done|]. split; [done|]. split; [done|]. split; [done|].
      rewrite (taken_total _ _ _ (created_taken _ _ _ _ Hc)), (taken_free _ _ _ (created_taken _ _ _ _ Hc)), Z.eqb_refl, andb_false_r.
      split; [|done]. pose proof (page_free_range (pmm_at m) (f / PAGE_SIZE) Hf) as Hr2. exact (proj2 Hr2).
  - apply Forall_app. split; [eapply Forall_impl; [exact Hk|]; intros g Hl; by apply (same_kernel_leaf _ _ _ _ Hs)|].
    apply Forall_singleton. by apply (same_kernel_leaf _ _ _ _ Hs), free_leaf.
Qed.

(** The new directory is a space of its own beside the kernel's. *)
Lemma created_task_space kd f m m' :
  ready m kd -> fail_allocations (pmm_at m) = 0 -> heap_tables m kd -> m_free m f = true -> created kd f m m' -> task_space kd f m'.
Proof.
  intros Hr Hfail Ht Hf Hc. pose proof (ready_space _ _ Hr) as Hsp. pose proof (created_same_kernel _ _ _ _ Hsp Hf Hc) as Hs.
  assert (forall i, user_pde i -> present (pde m' f i) = false) as Hu.
  { intros i Hi. pose proof (user_pde_range i Hi). rewrite (created_pde _ _ _ _ Hc) by done. unfold is_kernel_pde.
    rewrite (proj2 (Z.leb_gt _ _)); [done|]. unfold user_pde in Hi. lia. }
  destruct (same_kernel_leaf _ _ _ _ Hs (free_leaf _ _ _ Hsp Hf)) as [Hne Hkt].
  split; [by eapply created_ready|by rewrite (taken_fail _ _ _ (created_taken _ _ _ _ Hc))|by eapply heap_tables_step|apply Hc|..].
  - intros i Hi Hp. by rewrite Hu in Hp.
  - done.
  - done.
  - intros i Hi Hp. by rewrite Hu in Hp.
Qed.

Lemma space_destroyable kd L d m : process_space kd L m -> d ∈ L -> destroyable m d.
Proof.
  intros [_ _ _ Hnd Hfr _] Hd. apply list_elem_of_split in Hd as (L1 & L2 & ->).
  rewrite all_owned_app, all_owned_cons in Hnd, Hfr. apply Forall_app in Hfr as [_ [Hfr _]%Forall_app].
  apply NoDup_app in Hnd as (_ & _ & Hnd). apply NoDup_app in Hnd as (Hnd & _). split; [|done].
  rewrite Forall_forall in Hfr. eapply freeable_good, Hfr, owned_self.
Qed.

Lemma space_removed kd L1 d L2 m m' :
  process_space kd (L1 ++ d :: L2) m -> destroyed d m m' ->
  process_space kd (L1 ++ L2) m' /\ same_kernel kd m m' /\
  (forall e, e ∈ L1 ++ L2 -> forall g k, g ∈ owned (m_ram m) e -> 0 <= k < 1024 -> Paging.entry (m_ram m') g k = Paging.entry (m_ram m) g k).
Proof.
  intros Hps (Hmem & Hgb & _ & Ekd & Hsame). pose proof Hps as [Hr Hfail Ht Hnd Hfr Hk].
  rewrite all_owned_app, all_owned_cons in Hnd, Hfr, Hk.
  rewrite (Permutation_app_swap_app (all_owned (m_ram m) L1)) in Hnd, Hfr, Hk. rewrite <- all_owned_app in Hnd, Hfr, Hk.
  apply NoDup_app in Hnd as (_ & Hdis & Hnd). apply Forall_app in Hfr as [_ Hfr]. apply Forall_app in Hk as [Hkd Hk].
  set (L := L1 ++ L2) in *. pose proof (ready_space _ _ Hr) as Hsp.
  assert (forall g, g ∈ all_owned (m_ram m) L -> g mod PAGE_SIZE = 0 /\ g ∉ owned (m_ram m) d) as Hother.
  { intros g Hin. split; [|intros Hd; by apply (Hdis g Hd)]. rewrite Forall_forall in Hfr. by destruct (freeable_used _ _ (Hfr g Hin)). }
  assert (forall g k, g ∈ all_owned (m_ram m) L -> 0 <= k < 1024 -> Paging.entry (m_ram m') g k = Paging.entry (m_ram m) g k) as Hkept.
  { intros g k Hin Hkk. destruct (Hother g Hin). by apply Hsame. }
  assert (all_owned (m_ram m') L = all_owned (m_ram m) L) as E.
  { apply owned_kept; [|by intros; apply Hkept]. apply Forall_forall. intros g Hg. by apply Hother. }
  assert (forall g, leaf_frame m kd g -> g <> kd) as Hne by by intros g [? _].
  assert (kd ∉ owned (m_ram m) d) as Hkdo. { intros Hin. rewrite Forall_forall in Hkd. by destruct (Hkd kd Hin). }
  assert (forall j, 0 <= j < 1024 -> present (pde m kd j) = true -> table_of m kd j ∉ owned (m_ram m) d) as Hkto.
  { intros j Hj Hp Hin. rewrite Forall_forall in Hkd. destruct (Hkd _ Hin) as [_ H]. by apply (H j). }
  assert (same_kernel kd m m') as Hs.
  { split; [intros j Hj; by apply Hsame; [apply good_frame_aligned, Hsp|..]|]. intros j k Hj Hkk Hp.
    destruct (space_tables _ _ Hsp j Hj Hp) as [Hg _]. apply Hsame; [by apply good_frame_aligned|by apply Hkto|done]. }
  assert (forall g, g mod PAGE_SIZE = 0 -> g ∉ owned (m_ram m) d -> m_free m g = false -> m_free m' g = false) as Hused.
  { intros g Hga Hgo Hg. unfold m_free. change (page_free (pmm_at m') (g / PAGE_SIZE) = false).
    rewrite (gb_free _ _ _ Hgb) by done. rewrite bool_decide_false by done. by rewrite orb_false_r. }
  split; [|split; [done|intros e He g k Hg; apply Hkept; by eapply elem_of_all_owned]].
  split; rewrite ?E; [| | |done| |].
  - apply (ready_step kd m); [done..| |].
    + apply Hused; [apply good_frame_aligned, Hsp|done|apply Hsp].
    + intros j Hj Hp. destruct (space_tables _ _ Hsp j Hj Hp) as [Hg Hu]. apply Hused; [by apply good_frame_aligned|by apply Hkto|done].
  - by rewrite (gb_fail _ _ _ Hgb).
  - by eapply heap_tables_step.
  - rewrite Forall_forall in *. intros g Hin. destruct (Hother g Hin) as [_ Hno]. destruct (Hfr g Hin) as (H1 & H2 & H3 & H4 & H5 & H6).
    repeat (split; [done|]). rewrite (gb_total _ _ _ Hgb), (gb_free _ _ _ Hgb) by done. rewrite bool_decide_false by done.
    by rewrite H6.
  - eapply Forall_impl; [exact Hk|]. intros g. by apply same_kernel_leaf.
Qed.
End Spaces.

(** ** The part of the kernel that is used *)

Section State.
Context (k0 : kernel).
Implicit Types (h : heap) (m : machine) (nd : gmap node (list_node node)) (dr : gmap Z Z) (fl : gmap Z file) (tb : gmap Z bool)
  (ln : gmap link (list_node link)) (pr : gmap Z process) (np p : Z).

(** [k0] with these parts. *)
Definition hosted h m nd dr fl tb ln pr np : kernel :=
  let s := k_sched k0 in
  Kernel (HeapWorld h m) (k_vam k0)
    (Sched nd (threads s) (current s) (quantum_remaining s) (stack s) (tss_esp0 s) dr (reaper_thread s) (reaper_ready s))
    (k_owners k0) (k_counts k0) (k_fs k0) fl tb ln pr (k_stacks k0) (k_loaded k0) (k_descs k0) np (next_tid k0) (k_console k0).

Lemma hosted_id :
  hosted (the_heap (k_heap k0)) (the_supply (k_heap k0)) (nodes (k_sched k0)) (directories (k_sched k0)) (k_files k0) (k_table k0)
    (k_links k0) (k_processes k0) (next_pid k0) = k0.
Proof. unfold hosted. by destruct k0 as [[] ? []]. Qed.

Lemma wp_hosted_heap {A} (c : M (heap_world machine) A) h m nd dr fl tb ln pr np (Q : A -> kernel -> Prop) :
  wp c (fun a w => Q a (hosted (the_heap w) (the_supply w) nd dr fl tb ln pr np)) (HeapWorld h m) ->
  wp (heap_op c) Q (hosted h m nd dr fl tb ln pr np).
Proof. intros H. apply wp_zoom. eapply wp_mono; [exact H|]. by intros a [h' m']. Qed.

Lemma wp_hosted_machine {A} (c : M machine A) h m nd dr fl tb ln pr np (Q : A -> kernel -> Prop) :
  wp c (fun a m' => Q a (hosted h m' nd dr fl tb ln pr np)) m -> wp (machine_op c) Q (hosted h m nd dr fl tb ln pr np).
Proof. intros H. by apply wp_zoom. Qed.

Lemma wp_hosted_link {A} (c : M (gmap link (list_node link)) A) h m nd dr fl tb ln pr np (Q : A -> kernel -> Prop) :
  wp c (fun a ln' => Q a (hosted h m nd dr fl tb ln' pr np)) ln -> wp (link_op c) Q (hosted h m nd dr fl tb ln pr np).
Proof. intros H. by apply wp_zoom. Qed.

Lemma wp_hosted_nodes {A} (c : M (gmap node (list_node node)) A) h m nd dr fl tb ln pr np (Q : A -> kernel -> Prop) :
  wp c (fun a nd' => Q a (hosted h m nd' dr fl tb ln pr np)) nd -> wp (tasks_op (list_op c)) Q (hosted h m nd dr fl tb ln pr np).
Proof.
  intros H. apply wp_zoom, wp_zoom. eapply wp_mono; [exact H|]. intros a nd' HQ. by destruct m as [[] ? ?].
Qed.

Lemma wp_hosted_put_directory p d h m nd dr fl tb ln pr np (Q : unit -> kernel -> Prop) :
  Q tt (hosted h m nd (<[p := d]> dr) fl tb ln pr np) -> wp (put_directory p d) Q (hosted h m nd dr fl tb ln pr np).
Proof. intros HQ. apply wp_zoom, wp_modify. by destruct m as [[] ? ?]. Qed.

Lemma wp_hosted_drop_directory p h m nd dr fl tb ln pr np (Q : unit -> kernel -> Prop) :
  Q tt (hosted h m nd (delete p dr) fl tb ln pr np) -> wp (drop_directory p) Q (hosted h m nd dr fl tb ln pr np).
Proof. intros HQ. apply wp_zoom, wp_modify. by destruct m as [[] ? ?]. Qed.

Lemma wp_hosted_get_directory p d h m nd dr fl tb ln pr np (Q : Z -> kernel -> Prop) :
  dr !! p = Some d -> Q d (hosted h m nd dr fl tb ln pr np) -> wp (get_directory p) Q (hosted h m nd dr fl tb ln pr np).
Proof.
  intros E HQ. apply wp_zoom. unfold page_directory_of. apply wp_bind, wp_gets, (wp_require _ _ _ _ d); [exact E|].
  by destruct m as [[] ? ?].
Qed.

Lemma wp_hosted_store p x h m nd dr fl tb ln pr np (Q : unit -> kernel -> Prop) :
  Q tt (hosted h m nd dr fl tb ln (<[p := x]> pr) np) -> wp (store k_processes_l p x) Q (hosted h m nd dr fl tb ln pr np).
Proof. intros HQ. by apply wp_zoom, wp_modify. Qed.

Lemma wp_hosted_discard p h m nd dr fl tb ln pr np (Q : unit -> kernel -> Prop) :
  Q tt (hosted h m nd dr fl tb ln (delete p pr) np) -> wp (discard k_processes_l p) Q (hosted h m nd dr fl tb ln pr np).
Proof. intros HQ. by apply wp_zoom, wp_modify. Qed.

Lemma wp_hosted_new_link x h m nd dr fl tb ln pr np (Q : unit -> kernel -> Prop) :
  Q tt (hosted h m nd dr fl tb (<[x := Node None None]> ln) pr np) -> wp (new_link x) Q (hosted h m nd dr fl tb ln pr np).
Proof. intros HQ. by apply wp_zoom, wp_modify. Qed.

Lemma wp_hosted_drop_link x h m nd dr fl tb ln pr np (Q : unit -> kernel -> Prop) :
  Q tt (hosted h m nd dr fl tb (delete x ln) pr np) -> wp (drop_link x) Q (hosted h m nd dr fl tb ln pr np).
Proof. intros HQ. by apply wp_zoom, wp_modify. Qed.

Lemma wp_hosted_next h m nd dr fl tb ln pr np (Q : unit -> kernel -> Prop) :
  Q tt (hosted h m nd dr fl tb ln pr (u32 (np + 1))) ->
  wp (zoom k_next_l (modify (fun n => (u32 (n.1 + 1), n.2)))) Q (hosted h m nd dr fl tb ln pr np).
Proof. intros HQ. by apply wp_zoom, wp_modify. Qed.

Lemma wp_hosted_interrupts h m nd dr fl tb ln pr np (Q : bool -> kernel -> Prop) :
  Q (if_set (eflags (pmm_cpu (m_pmm m)))) (hosted h m nd dr fl tb ln pr np) ->
  wp (kcpu_op interrupt_enabled) Q (hosted h m nd dr fl tb ln pr np).
Proof. intros HQ. apply wp_zoom, wp_gets. by destruct m as [[] ? ?]. Qed.

(** ** The file table *)

(** The descriptors of the process are closed, the others are as they were. *)
Definition slots_closed p fl tb fl' tb' : Prop :=
  (forall fd, 0 <= fd < PROCESS_MAX_FILES -> tb' !! file_slot p fd = Some false) /\
  forall x, (forall fd, 0 <= fd < PROCESS_MAX_FILES -> x <> file_slot p fd) -> fl' !! x = fl !! x /\ tb' !! x = tb !! x.

Lemma wp_reset_slots p h m nd dr fl tb ln pr np (Q : unit -> kernel -> Prop) :
  (forall fl' tb', slots_closed p fl tb fl' tb' -> Q tt (hosted h m nd dr fl' tb' ln pr np)) ->
  wp (for_each 0 (Z.to_nat PROCESS_MAX_FILES) (fun fd => disk_op (modify (fun d =>
    Disk (d_fs d) (d_mem d) (<[file_slot p fd := File NULL 0 0]> (d_files d)) (<[file_slot p fd := false]> (d_table d)))))) Q
    (hosted h m nd dr fl tb ln pr np).
Proof.
  intros HQ. apply (wp_for_each (fun i k => exists fl' tb', k = hosted h m nd dr fl' tb' ln pr np /\
    (forall fd, 0 <= fd < i -> tb' !! file_slot p fd = Some false) /\
    forall x, (forall fd, 0 <= fd < PROCESS_MAX_FILES -> x <> file_slot p fd) -> fl' !! x = fl !! x /\ tb' !! x = tb !! x)).
  - exists fl, tb. split; [done|]. split; [lia|done].
  - intros i k Hi (fl' & tb' & -> & Hin & Hout). apply wp_zoom, wp_modify.
    exists (<[file_slot p i := File NULL 0 0]> fl'), (<[file_slot p i := false]> tb'). split; [done|]. split.
    + intros fd Hfd. destruct (decide (file_slot p fd = file_slot p i)) as [->|Hne]; [by rewrite lookup_insert_eq|].
      rewrite lookup_insert_ne by done. apply Hin. destruct (decide (fd = i)); [by subst|lia].
    + intros x Hx. rewrite !lookup_insert_ne; [by apply Hout|..]; apply not_eq_sym, Hx; unfold PROCESS_MAX_FILES in *; lia.
  - intros k (fl' & tb' & -> & H). by apply HQ.
Qed.

Lemma wp_close_slots p h m nd dr fl tb ln pr np (Q : unit -> kernel -> Prop) :
  (forall fd, 0 <= fd < PROCESS_MAX_FILES -> tb !! file_slot p fd = Some false) ->
  Q tt (hosted h m nd dr fl tb ln pr np) ->
  wp (for_each 0 (Z.to_nat PROCESS_MAX_FILES) (fun i => disk_op (set_used p i false))) Q (hosted h m nd dr fl tb ln pr np).
Proof.
  intros Htb HQ. apply (wp_for_each (fun _ k => k = hosted h m nd dr fl tb ln pr np)); [done| |by intros k ->].
  intros i k Hi ->. apply wp_zoom. unfold set_used, get_used.
  assert (tb !! file_slot p i = Some false) as E by (apply Htb; unfold PROCESS_MAX_FILES in *; lia).
  apply wp_bind, wp_bind, wp_gets, (wp_require _ _ _ _ false); [exact E|]. apply wp_modify. cbn [d_fs d_mem d_files d_table view k_disk_l].
  change (k_table (hosted h m nd dr fl tb ln pr np)) with tb. by rewrite insert_id.
Qed.
End State.

(** ** The processes of the kernel *)

(** The processes [L], as blocks and directories in the order of the list, in
    a kernel whose heap has the blocks [u] in use. *)
Record processes_ok (kd : Z) (L : list (Z * Z)) (k : kernel) (u : list (Z * Z)) : Prop := {
  po_space : process_space kd L.*2 (the_supply (k_heap k));
  po_heap : heap_holds (k_heap k) u;
  po_list : is_list (k_links k) ProcessListHead (ProcessNode <$> L.*1);
  po_members : Forall (fun x => x.1 <> NULL /\ x.1 ∈ u.*1 /\ is_Some (k_processes k !! x.1) /\
    directories (k_sched k) !! x.1 = Some (PHYS_TO_VIRT x.2)) L;
  (** the heap has addresses for every page there is *)
  po_room : heap_end (the_heap (k_heap k)) +
    (free_pages (pmm_at (the_supply (k_heap k))) + len (all_owned (m_ram (the_supply (k_heap k))) L.*2)) * PAGE_SIZE <= KERNEL_HEAP_END + 1;
}.

Section Create.
Context (kd : Z) (L : list (Z * Z)) (k : kernel) (u : list (Z * Z)) (Hk : processes_ok kd L k u).
Implicit Types (h : heap) (m : machine) (nd : gmap node (list_node node)) (dr : gmap Z Z) (fl : gmap Z file) (tb : gmap Z bool)
  (ln : gmap link (list_node link)) (pr : gmap Z process) (np p f : Z).

Let m0 : machine := the_supply (k_heap k).
Let h0 : heap := the_heap (k_heap k).

(** The links of the list of processes and of a process's stacks. *)
Definition process_links p : list link := ProcessNode p :: UserStacksHead p :: ProcessListHead :: (ProcessNode <$> L.*1).

(** The process [p] with the directory [f] and no threads, stacks or files. *)
Record process_made (s : list Z) p f k' u' : Prop := {
  pm_ok : processes_ok kd (L ++ [(p, f)]) k' u';
  pm_block : (p ∉ u.*1) /\ u'.*1 ≡ₚ p :: u.*1;
  pm_directory : m_free m0 f = true /\ created kd f m0 (the_supply (k_heap k'));
  pm_process : k_processes k' = <[p := Process (next_pid k) (copy_name s)]> (k_processes k) /\ next_pid k' = u32 (next_pid k + 1);
  pm_threads : is_list (nodes (k_sched k')) (ThreadsHead p) [] /\ unchanged [ThreadsHead p] (nodes (k_sched k)) (nodes (k_sched k'));
  pm_stacks : is_list (k_links k') (UserStacksHead p) [] /\ unchanged (process_links p) (k_links k) (k_links k');
  pm_files : slots_closed p (k_files k) (k_table k) (k_files k') (k_table k');
  pm_space : task_space kd f (the_supply (k_heap k'));
  pm_room : forall n, 0 < n -> has_room (k_heap k) (PROCESS_SIZE + HEADER + n) -> has_room (k_heap k') n;
  pm_rest : exists h nd ln, k' = hosted k h (the_supply (k_heap k')) nd (<[p := PHYS_TO_VIRT f]> (directories (k_sched k)))
    (k_files k') (k_table k') ln (k_processes k') (next_pid k');
}.

(** Nothing was made; only the block that was in use for a while, at [p], may
    have other contents. *)
Record process_unmade p k' u' : Prop := {
  pu_ok : processes_ok kd L k' u';
  pu_blocks : (p ∉ u.*1) /\ u'.*1 ≡ₚ u.*1;
  pu_objects : k_processes k' = delete p (k_processes k) /\ next_pid k' = next_pid k /\
    (forall q, q <> p -> directories (k_sched k') !! q = directories (k_sched k) !! q);
  pu_nodes : unchanged [ThreadsHead p] (nodes (k_sched k)) (nodes (k_sched k')) /\
    unchanged [ProcessNode p; UserStacksHead p] (k_links k) (k_links k');
  pu_rest : exists h nd dr fl tb ln, k' = hosted k h m0 nd dr fl tb ln (k_processes k') (next_pid k') /\
    forall x, (forall fd, 0 <= fd < PROCESS_MAX_FILES -> x <> file_slot p fd) -> fl !! x = k_files k !! x /\ tb !! x = k_table k !! x;
}.

Lemma processes_heap : heap_at h0 m0 u.
Proof. unfold heap_at, h0, m0. pose proof (po_heap _ _ _ _ Hk). by destruct (k_heap k). Qed.

Lemma wp_clear_process p h m nd dr fl tb ln pr np (Q : unit -> kernel -> Prop) :
  (forall fl' tb', slots_closed p fl tb fl' tb' ->
     Q tt (hosted k h m (<[ThreadsHead p := Node None None]> nd) (<[p := NULL]> dr) fl' tb'
       (<[UserStacksHead p := Node None None]> (<[ProcessNode p := Node None None]> ln))
       (<[p := Process 0 (replicate (Z.to_nat PROCESS_NAME_MAX) 0)]> pr) np)) ->
  wp (clear_process p) Q (hosted k h m nd dr fl tb ln pr np).
Proof.
  intros HQ. unfold clear_process. apply wp_bind, wp_hosted_store. do 2 (apply wp_bind, wp_hosted_new_link). apply wp_bind, wp_hosted_nodes, wp_modify.
  apply wp_bind, wp_hosted_put_directory. by apply wp_reset_slots.
Qed.

(** A process's block is not new. *)
Lemma block_not_member p : p ∉ u.*1 -> p ∉ L.*1.
Proof.
  intros Hp (x & -> & Hx)%list_elem_of_fmap. pose proof (po_members _ _ _ _ Hk) as H. rewrite Forall_forall in H.
  by destruct (H x Hx) as (_ & ? & _).
Qed.

Lemma process_nodes_fresh p : p ∉ u.*1 -> ProcessNode p ∉ ProcessListHead :: (ProcessNode <$> L.*1).
Proof. intros Hp [|(q & [= <-] & Hq)%list_elem_of_fmap]%elem_of_cons; [done|]. by apply (block_not_member p Hp). Qed.

Lemma wp_free_process p v h m nd dr fl tb ln pr np (Q : unit -> kernel -> Prop) :
  heap_at h m v -> p ∈ v.*1 ->
  (forall h' v', heap_at h' m v' -> p :: v'.*1 ≡ₚ v.*1 -> heap_end h' = heap_end h ->
     Q tt (hosted k h' m (delete (ThreadsHead p) nd) (delete p dr) fl tb (delete (UserStacksHead p) (delete (ProcessNode p) ln))
       (delete p pr) np)) ->
  wp (free_process p) Q (hosted k h m nd dr fl tb ln pr np).
Proof.
  intros Hh Hp HQ. unfold free_process. apply wp_bind, wp_hosted_heap, (wp_kfree _ v); [exact Hh|done|].
  intros [h' m'] v1 n v2 E Hh' [Es Ee]. cbn [the_heap the_supply] in *. subst m'.
  apply wp_bind, wp_hosted_discard. do 2 (apply wp_bind, wp_hosted_drop_link). apply wp_bind, wp_hosted_nodes, wp_modify.
  apply wp_hosted_drop_directory, (HQ h' (v1 ++ v2)); [exact Hh'| |done]. rewrite E, !fmap_app. cbn. by rewrite Permutation_middle.
Qed.

(** What an unmade process leaves. *)
Lemma process_unmade_intro p v h nd dr fl tb ln :
  heap_at h m0 v -> (p ∉ u.*1) -> v.*1 ≡ₚ u.*1 -> heap_end h = heap_end h0 ->
  unchanged [ThreadsHead p] (nodes (k_sched k)) nd -> unchanged [ProcessNode p; UserStacksHead p] (k_links k) ln ->
  (forall q, q <> p -> dr !! q = directories (k_sched k) !! q) ->
  (forall x, (forall fd, 0 <= fd < PROCESS_MAX_FILES -> x <> file_slot p fd) -> fl !! x = k_files k !! x /\ tb !! x = k_table k !! x) ->
  process_unmade p (hosted k h m0 nd dr fl tb ln (delete p (k_processes k)) (next_pid k)) v.
Proof.
  intros Hh Hp Ev Ee Hnd Hln Hdr Hfl. pose proof (block_not_member p Hp) as Hm. pose proof Hk as [H1 _ H3 H4 H5].
  split; [|by split|by split|by split|by exists h, nd, dr, fl, tb, ln].
  split; cbn [hosted k_heap the_heap the_supply k_links k_processes k_sched directories]; [done|exact Hh| | |by rewrite Ee].
  - apply (is_list_frame (k_links k) ln _ _ [ProcessNode p; UserStacksHead p]); [done|done|].
    intros y Hy Hin. apply elem_of_cons in Hin as [->|E].
    { by apply (process_nodes_fresh p Hp). }
    apply list_elem_of_singleton in E as ->. apply elem_of_cons in Hy as [|(q & ? & _)%list_elem_of_fmap]; done.
  - rewrite Forall_forall in H4 |- *. intros x Hx. destruct (H4 x Hx) as (N1 & N2 & N3 & N4).
    assert (x.1 <> p) as Hne by (intros <-; apply Hm; by apply list_elem_of_fmap_2).
    split; [done|]. split; [by rewrite Ev|]. rewrite lookup_delete_ne by by apply not_eq_sym. by rewrite Hdr.
Qed.

Lemma process_made_intro s p f v h m nd fl tb ln :
  heap_at h m v -> (p ∉ u.*1) -> p <> NULL -> v.*1 ≡ₚ p :: u.*1 -> heap_end h = heap_end h0 -> good_frame f -> m_free m0 f = true -> created kd f m0 m ->
  is_list nd (ThreadsHead p) [] -> unchanged [ThreadsHead p] (nodes (k_sched k)) nd ->
  is_list ln (UserStacksHead p) [] -> is_list ln ProcessListHead (ProcessNode <$> (L ++ [(p, f)]).*1) -> unchanged (process_links p) (k_links k) ln ->
  slots_closed p (k_files k) (k_table k) fl tb ->
  (forall n, 0 < n -> has_room (k_heap k) (PROCESS_SIZE + HEADER + n) -> has_room (HeapWorld h m) n) ->
  process_made s p f (hosted k h m nd (<[p := PHYS_TO_VIRT f]> (directories (k_sched k))) fl tb ln
    (<[p := Process (next_pid k) (copy_name s)]> (k_processes k)) (u32 (next_pid k + 1))) v.
Proof.
  intros Hh Hp Hnz Ev Ee Hg Hf Hc Hth Hnd Hst Hl Hln Hfl Hroom. pose proof (block_not_member p Hp) as Hm. pose proof Hk as [H1 _ H3 H4 H5].
  destruct (space_added _ _ _ _ _ H1 Hg Hf Hc) as [Hps Eo].
  split; [|by split|by split|by split|by split|by split|done| |exact Hroom|by exists h, nd, ln].
  2:{ apply (created_task_space kd f m0 m); [apply H1..|done|done]. }
  split; cbn [hosted k_heap the_heap the_supply k_links k_processes k_sched directories]; [by rewrite fmap_app|exact Hh|done| |].
  - apply Forall_app. split.
    + rewrite Forall_forall in H4 |- *. intros x Hx. destruct (H4 x Hx) as (N1 & N2 & N3 & N4).
      assert (x.1 <> p) as Hne by (intros <-; apply Hm; by apply list_elem_of_fmap_2).
      split; [done|]. split; [rewrite Ev; set_solver|]. by rewrite !lookup_insert_ne by by apply not_eq_sym.
    + apply Forall_singleton. cbn [fst snd]. split; [done|]. split; [rewrite Ev; apply list_elem_of_here|].
      rewrite !lookup_insert_eq. split; [by eexists|done].
  - rewrite fmap_app, all_owned_app, Eo. cbn [fmap list_fmap snd]. unfold all_owned at 2. cbn [fmap list_fmap concat].
    rewrite (created_owned _ _ _ _ Hc), app_nil_r. unfold len in *. rewrite length_app. cbn [length].
    rewrite Ee, (taken_count _ _ _ (created_taken _ _ _ _ Hc)). unfold m0 in *. fold h0 in H5. lia.
Qed.

(** From the cleared block on. *)
Lemma wp_init_process {A} p h m nd dr fl tb ln pr np (Q : A -> kernel -> Prop) R :
  (forall nd' ln', is_list nd' (ThreadsHead p) [] -> unchanged [ThreadsHead p] nd nd' -> is_list ln' (UserStacksHead p) [] ->
     unlinked ln' (ProcessNode p) -> unchanged [ProcessNode p; UserStacksHead p] ln ln' ->
     wp R Q (hosted k h m nd' dr fl tb ln' pr np)) ->
  wp (link_op (list_node_init (Some (ProcessNode p))) ;;; tasks_op (list_op (list_init (Some (ThreadsHead p)))) ;;;
      link_op (list_init (Some (UserStacksHead p))) ;;; R) Q
    (hosted k h m (<[ThreadsHead p := Node None None]> nd) dr fl tb
      (<[UserStacksHead p := Node None None]> (<[ProcessNode p := Node None None]> ln)) pr np).
Proof.
  intros HR. set (ln1 := <[UserStacksHead p := _]> _). set (nd1 := <[ThreadsHead p := _]> nd).
  assert (unlinked ln1 (ProcessNode p)) as Hun.
  { unfold unlinked, ln1. rewrite lookup_insert_ne by done. apply lookup_insert_eq. }
  apply wp_bind, wp_hosted_link, wp_node_init; [done|].
  apply wp_bind, wp_hosted_nodes, wp_list_init; [unfold nd1; rewrite lookup_insert_eq; by eexists|]. intros nd2 Hnd2 Hu2.
  apply wp_bind, wp_hosted_link, wp_list_init; [unfold ln1; rewrite lookup_insert_eq; by eexists|]. intros ln2 Hln2 Hu3.
  apply HR; [done| |done| |].
  - intros x Hx. rewrite Hu2 by done. unfold nd1. apply lookup_insert_ne. intros <-. apply Hx, list_elem_of_here.
  - unfold unlinked. rewrite Hu3; [exact Hun|]. by intros ?%list_elem_of_singleton.
  - intros x Hx. rewrite Hu3 by set_solver. unfold ln1. rewrite !lookup_insert_ne; [done|set_solver..].
Qed.

Lemma wp_process_create fuel s (Q : Z -> kernel -> Prop) :
  (1 < fuel)%nat -> has_room (k_heap k) PROCESS_SIZE ->
  (forall p f k' u', p <> NULL -> process_made s p f k' u' -> Q p k') ->
  (forall p k' u', free_pages (pmm_at m0) = 0 -> process_unmade p k' u' -> Q NULL k') ->
  wp (process_create fuel s) Q k.
Proof.
  intros Hfuel Hroom HQ HQf. pose proof Hk as [Hps _ Hl Hmem Hr]. fold m0 h0 in Hps, Hr. pose proof (ps_ready _ _ _ Hps) as Hrd.
  refine (eq_ind _ (wp _ _) _ _ (hosted_id k)). fold m0 h0. unfold process_create.
  apply wp_bind, wp_hosted_heap, (wp_kmalloc_room _ u); [exact processes_heap|done| |done|].
  { change (heap_align PROCESS_SIZE) with PROCESS_SIZE. unfold h0, m0. by rewrite heap_world_eta. }
  intros p n [h1 m1] v Hh1 Hgr [Es Ee] Hroom1. cbn [the_heap the_supply] in *. subst m1.
  destruct (granted_fresh h0 m0 u (HeapWorld h1 m0) PROCESS_SIZE p n v processes_heap) as (Hp & Hnz & Ev); [done|exact Hgr|].
  rewrite (proj2 (Z.eqb_neq p NULL)) by done.
  apply wp_bind, wp_clear_process. intros fl tb [Htb Hfl]. apply wp_init_process. intros nd ln Hth Hnd Hst Hun Hln.
  apply wp_bind, wp_hosted_machine, (wp_paging_create_directory m0 kd); [apply Hrd..| |].
  - intros q (Hwhy & _ & _ & _ & _ & Hsame). rewrite (Hsame (ps_fail _ _ _ Hps)).
    rewrite with_pmm_same.
    apply wp_bind, wp_hosted_put_directory. change (NULL =? NULL) with true. cbn iota.
    apply wp_bind, (wp_free_process _ v); [exact Hh1|rewrite Ev; apply list_elem_of_here|]. intros h2 v2 Hh2 Ev2 Ee2. apply wp_ret.
    rewrite (delete_insert_eq (k_processes k)). apply (HQf p _ v2).
    + apply none_free_zero; [apply (ready_mem _ _ Hrd)|]. destruct Hwhy as [Hw|]; [by rewrite (ps_fail _ _ _ Hps) in Hw|done].
    + apply (process_unmade_intro p v2); [done|done| |by rewrite Ee2, Ee| | | |].
      * apply (Permutation_cons_inv (a := p)). by rewrite Ev2, Ev.
      * intros x Hx. rewrite lookup_delete_ne by (intros <-; apply Hx, list_elem_of_here). by apply Hnd.
      * intros x Hx. rewrite !lookup_delete_ne by set_solver. by apply Hln.
      * intros q' Hq. by rewrite lookup_delete_ne, !lookup_insert_ne by by apply not_eq_sym.
      * done.
  - intros f m' Hg Hf Hc. apply wp_bind, wp_hosted_put_directory. destruct (good_frame_virt f Hg) as (_ & _ & Hfn & _).
    rewrite (proj2 (Z.eqb_neq _ _)) by done. apply wp_bind, wp_gets. change (view k_next_l _) with (next_pid k, next_tid k). cbn [fst].
    apply wp_bind, wp_hosted_next. apply wp_bind, wp_hosted_store. apply wp_bind, wp_close_slots; [done|].
    apply wp_bind. unfold process_add. apply wp_bind, wp_assert; [by apply negb_true_iff, Z.eqb_neq|].
    assert (is_list ln ProcessListHead (ProcessNode <$> L.*1)) as Hl'.
    { apply (is_list_frame (k_links k) ln _ _ [ProcessNode p; UserStacksHead p]); [done|done|].
      intros y Hy Hin. apply elem_of_cons in Hin as [->|E].
      { by apply (process_nodes_fresh p Hp). }
      apply list_elem_of_singleton in E as ->. apply elem_of_cons in Hy as [|(q & ? & _)%list_elem_of_fmap]; done. }
    apply wp_hosted_link, (wp_push_back _ (ProcessNode <$> L.*1)); [done..|]. intros ln2 (Hl2 & Hu2 & _). apply wp_ret.
    pose proof (created_same_kernel _ _ _ _ (ready_space _ _ Hrd) Hf Hc) as Hs.
    destruct (heap_at_move kd h1 m0 m' v) as [Hh' Hroom']; [exact Hh1|done|by eapply created_ready| | |done| |].
    { rewrite (taken_fail _ _ _ (created_taken _ _ _ _ Hc)). apply Hps. }
    { eapply heap_tables_step; [apply Hps|done]. }
    { pose proof (heap_at_bound h1 m0 v Hh1) as Hb. revert Hb. unfold pages_free.
      rewrite (taken_count _ _ _ (created_taken _ _ _ _ Hc)). unfold PAGE_SIZE. lia. }
    rewrite !insert_insert_eq. apply (HQ p f _ v); [done|]. apply process_made_intro; try done.
    + apply (is_list_frame ln ln2 _ _ (ProcessListHead :: ProcessNode p :: (ProcessNode <$> L.*1))); [done| |].
      * intros y Hy. apply Hu2. set_solver.
      * intros y ->%list_elem_of_singleton. set_solver.
    + by rewrite !fmap_app.
    + intros x Hx. unfold process_links in Hx. rewrite Hu2 by set_solver. apply Hln. set_solver.
    + intros x Hx Hr2. apply Hroom', Hroom1; [done|]. unfold h0, m0. by rewrite heap_world_eta.
Qed.
End Create.

(** ** The end of a process *)

Section DestroyProcess.
Context (kd : Z) (L1 L2 : list (Z * Z)) (p d : Z) (k : kernel) (u : list (Z * Z)).
Context (Hk : processes_ok kd (L1 ++ (p, d) :: L2) k u).
Implicit Types (h : heap) (m : machine) (nd : gmap node (list_node node)) (dr : gmap Z Z) (fl : gmap Z file) (tb : gmap Z bool)
  (ln : gmap link (list_node link)) (pr : gmap Z process) (np : Z).

Let m0 : machine := the_supply (k_heap k).
Let h0 : heap := the_heap (k_heap k).

(** The process is gone, with the pages it owned; the directories of the
    others hold what they held. *)
Record process_gone k' u' : Prop := {
  pg_ok : processes_ok kd (L1 ++ L2) k' u';
  pg_block : p :: u'.*1 ≡ₚ u.*1;
  pg_pages : given_back (owned (m_ram m0) d) (pmm_at m0) (pmm_at (the_supply (k_heap k')));
  pg_others : forall e g i, e ∈ (L1 ++ L2).*2 -> g ∈ owned (m_ram m0) e -> 0 <= i < 1024 ->
    Paging.entry (m_ram (the_supply (k_heap k'))) g i = Paging.entry (m_ram m0) g i;
  pg_kernel : same_kernel kd m0 (the_supply (k_heap k'));
  pg_objects : k_processes k' = delete p (k_processes k) /\ directories (k_sched k') = delete p (directories (k_sched k));
  pg_nodes : nodes (k_sched k') = delete (ThreadsHead p) (nodes (k_sched k)) /\
    unchanged (process_links (L1 ++ (p, d) :: L2) p) (k_links k) (k_links k');
  pg_rest : exists h ln, k' = hosted k h (the_supply (k_heap k')) (nodes (k_sched k')) (directories (k_sched k'))
    (k_files k) (k_table k) ln (k_processes k') (next_pid k);
}.

Lemma destroyed_member : p <> NULL /\ p ∈ u.*1 /\ directories (k_sched k) !! p = Some (PHYS_TO_VIRT d).
Proof.
  pose proof (po_members _ _ _ _ Hk) as H. apply Forall_app in H as [_ [H _]%Forall_cons]. destruct H as (? & ? & _ & ?). done.
Qed.

(** The process is on the list once. *)
Lemma destroyed_once : (p ∉ (L1 ++ L2).*1) /\ ProcessNode p ∉ ProcessListHead :: (ProcessNode <$> (L1 ++ L2).*1).
Proof.
  destruct (po_list _ _ _ _ Hk) as [Hnd _]. apply NoDup_cons in Hnd as [_ Hnd].
  rewrite !fmap_app in Hnd. cbn [fmap list_fmap fst] in Hnd. rewrite <- Permutation_middle in Hnd.
  apply NoDup_cons in Hnd as [Hno _]. rewrite <- !fmap_app in Hno. split; [|by intros [|]%elem_of_cons].
  intros Hin. by apply Hno, list_elem_of_fmap_2.
Qed.

Lemma process_gone_intro v h m ln :
  heap_at h m v -> p :: v.*1 ≡ₚ u.*1 -> heap_end h = heap_end h0 -> destroyed d m0 m ->
  is_list ln ProcessListHead (ProcessNode <$> (L1 ++ L2).*1) -> unchanged (process_links (L1 ++ (p, d) :: L2) p) (k_links k) ln ->
  process_gone (hosted k h m (delete (ThreadsHead p) (nodes (k_sched k))) (delete p (directories (k_sched k))) (k_files k) (k_table k)
    ln (delete p (k_processes k)) (next_pid k)) v.
Proof.
  intros Hh Ev Ee Hdes Hl Hln. pose proof Hk as [H1 _ _ H4 H5]. destruct destroyed_once as [Hno _]. fold m0 h0 in H5.
  rewrite fmap_app, fmap_cons in H1, H5. cbn [snd] in H1, H5. destruct (space_removed kd L1.*2 d L2.*2 m0 m H1 Hdes) as (Hps & Hs & Hkept).
  rewrite <- fmap_app in Hps, Hkept. pose proof Hdes as (_ & Hgb & _).
  split; [|done|done|exact (fun e g i He => Hkept e He g i)|done|done|done|by exists h, ln].
  split; cbn [hosted k_heap the_heap the_supply k_links k_processes k_sched directories]; [done|exact Hh|done| |].
  - apply Forall_app in H4 as [Ha [_ Hb]%Forall_cons]. pose proof (proj2 (Forall_app _ _ _) (conj Ha Hb)) as Hall.
    rewrite Forall_forall in Hall |- *. intros x Hx. destruct (Hall x Hx) as (N1 & N2 & N3 & N4).
    assert (x.1 <> p) as Hne by (intros <-; apply Hno; by apply list_elem_of_fmap_2).
    split; [done|]. split; [|by rewrite !lookup_delete_ne by by apply not_eq_sym].
    rewrite <- Ev in N2. by apply elem_of_cons in N2 as [|].
  - assert (all_owned (m_ram m) (L1 ++ L2).*2 = all_owned (m_ram m0) (L1 ++ L2).*2) as Eo.
    { apply all_owned_ext. intros e He. apply owned_ext.
      - intros i Hi. apply (Hkept e He); [apply owned_self|lia].
      - intros i j Hi Hp. apply (Hkept e He). by apply owned_table. }
    rewrite Eo, Ee, (gb_count _ _ _ Hgb). rewrite all_owned_app, all_owned_cons in H5. rewrite fmap_app, all_owned_app.
    unfold len in *. rewrite !length_app in *. lia.
Qed.

Lemma wp_process_destroy (Q : unit -> kernel -> Prop) :
  if_set (eflags (pmm_cpu (m_pmm m0))) = false ->
  is_list (nodes (k_sched k)) (ThreadsHead p) [] -> is_list (k_links k) (UserStacksHead p) [] ->
  (forall k' u', process_gone k' u' -> Q tt k') ->
  wp (process_destroy p) Q k.
Proof.
  intros Hoff Hth Hst HQ. destruct destroyed_member as (Hnz & Hp & Hdir). destruct destroyed_once as [Hno Hnode].
  pose proof Hk as [Hps _ Hl _ Hroom]. fold m0 h0 in Hps, Hroom. refine (eq_ind _ (wp _ _) _ _ (hosted_id k)). fold m0 h0.
  unfold process_destroy. apply wp_bind, wp_assert; [by apply negb_true_iff, Z.eqb_neq|].
  apply wp_bind, wp_hosted_interrupts. rewrite Hoff. apply wp_bind, wp_assert; [done|].
  apply wp_bind, wp_hosted_nodes, (wp_list_empty _ _ _ _ Hth). rewrite bool_decide_true by done. apply wp_bind, wp_assert; [done|].
  apply wp_bind, wp_hosted_link, (wp_list_empty _ _ _ _ Hst). rewrite bool_decide_true by done. apply wp_bind, wp_assert; [done|].
  unfold process_remove. apply wp_bind, wp_bind, wp_assert; [by apply negb_true_iff, Z.eqb_neq|].
  rewrite !fmap_app in Hl. cbn [fmap list_fmap fst] in Hl.
  apply wp_hosted_link, (wp_remove_list _ _ _ _ _ _ Hl). intros ln1 (Hl1 & _ & Hu1 & _). rewrite <- !fmap_app in Hl1.
  apply wp_bind, (wp_hosted_get_directory _ _ _ _ _ _ _ _ _ _ _ _ _ Hdir).
  rewrite fmap_app, fmap_cons in Hps. cbn [snd] in Hps.
  assert (destroyable m0 d) as Hdes by (apply (space_destroyable kd _ d m0 Hps); set_solver).
  destruct (good_frame_virt d (proj1 Hdes)) as (_ & _ & Hdn & _). rewrite (proj2 (Z.eqb_neq _ _)) by done.
  apply wp_bind, wp_hosted_machine, wp_paging_destroy_directory; [apply (ps_ready _ _ _ Hps)|done|done|]. intros m1 Hd1.
  destruct (space_removed kd L1.*2 d L2.*2 m0 m1 Hps Hd1) as (Hps1 & Hs1 & _).
  assert (heap_at h0 m1 u) as Hh1.
  { apply (heap_at_move kd h0 m0 m1 u); [eapply processes_heap, Hk|apply Hps|apply Hps1|apply Hps1|apply Hps1|done|].
    destruct Hd1 as (_ & Hgb & _). unfold pages_free. rewrite (gb_count _ _ _ Hgb).
    pose proof (heap_at_bound h0 m0 u (processes_heap kd _ k u Hk)).
    rewrite fmap_app, fmap_cons in Hroom. cbn [snd] in Hroom. rewrite all_owned_app, all_owned_cons in Hroom.
    unfold len in Hroom. rewrite !length_app in Hroom. unfold PAGE_SIZE in *. lia. }
  apply (wp_free_process k p u); [done|done|]. intros h2 v Hh2 Ev Ee. apply (HQ _ v), process_gone_intro; [done..| |].
  - apply (is_list_frame ln1 _ _ _ [UserStacksHead p; ProcessNode p]); [done| |].
    + intros x Hx. rewrite !lookup_delete_ne by set_solver. done.
    + intros y Hy Hin. apply elem_of_cons in Hin as [->|E].
      { apply elem_of_cons in Hy as [|(q & ? & _)%list_elem_of_fmap]; done. }
      by apply list_elem_of_singleton in E as ->.
  - intros x Hx. unfold process_links in Hx. rewrite !fmap_app in Hx. cbn in Hx. rewrite !lookup_delete_ne by set_solver. apply Hu1. set_solver.
Qed.
End DestroyProcess.

(** ** Looking processes up *)

(** The first process of the list that is accepted, [NULL] without one. *)
Fixpoint found (accept : process -> bool) (pr : gmap Z process) (P : list Z) : Z :=
  match P with
  | [] => NULL
  | p :: P' => if match pr !! p with Some x => accept x | None => false end then p else found accept pr P'
  end.

Section Find.
Context (kd : Z) (L : list (Z * Z)) (k : kernel) (u : list (Z * Z)) (Hk : processes_ok kd L k u).

Lemma wp_find_process accept (Q : Z -> kernel -> Prop) :
  Q (found accept (k_processes k) L.*1) k -> wp (find_process accept) Q k.
Proof.
  intros HQ. pose proof Hk as [_ _ Hl Hmem _]. rewrite <- (hosted_id k) in HQ. refine (eq_ind _ (wp _ _) _ _ (hosted_id k)).
  unfold find_process, link_fuel. apply wp_bind, wp_gets. apply wp_bind, wp_hosted_link, (wp_list_front _ _ _ _ Hl).
  pose proof (is_list_length _ _ _ Hl) as Hlen. rewrite !length_fmap in Hlen.
  change (k_links (hosted k _ _ _ _ _ _ _ _ _)) with (k_links k). set (K := hosted k _ _ _ _ _ _ _ _ _) in *.
  assert (forall n La Lb, L = La ++ Lb -> (length Lb < n)%nat ->
    found accept (k_processes k) L.*1 = found accept (k_processes k) Lb.*1 ->
    wp (loop n (fun node =>
      if bool_decide (node = Some ProcessListHead) then ret (inr NULL)
      else
        let* p := process_container node in
        let* pr := fetch k_processes_l p in
        if accept pr then ret (inr p)
        else let* next := link_op (list_next node) in ret (inl next))
      (head ((ProcessNode <$> Lb.*1) ++ [ProcessListHead]))) Q K) as Hloop.
  { induction n as [|n IH]; intros La Lb EL Hn Es; [lia|]. cbn [loop]. apply wp_bind.
    destruct Lb as [|[p d] Lb]; cbn [fmap list_fmap app head fst].
    - rewrite bool_decide_true by done. do 2 apply wp_ret. cbn in Es. by rewrite <- Es.
    - rewrite bool_decide_false by done. apply wp_bind, wp_ret, wp_bind.
      rewrite EL in Hmem. apply Forall_app in Hmem as [_ [(_ & _ & [x Ex] & _) _]%Forall_cons]. cbn [fst] in Ex.
      unfold fetch. apply wp_bind, wp_gets, (wp_require _ _ _ _ x); [exact Ex|]. cbn [fmap list_fmap fst found] in Es. rewrite Ex in Es.
      destruct (accept x); [do 2 apply wp_ret; by rewrite <- Es|].
      rewrite EL, !fmap_app in Hl. cbn in Hl. apply wp_bind, wp_hosted_link, (wp_list_next _ _ _ _ _ _ Hl). apply wp_ret.
      apply (IH (La ++ [(p, d)])); [by rewrite <- app_assoc|cbn in Hn; lia|done]. }
  apply (Hloop _ [] L); [done|lia|done].
Qed.
End Find.

Lemma found_spec accept (pr : gmap Z process) P :
  Forall (fun p => p <> NULL /\ is_Some (pr !! p)) P ->
  (found accept pr P = NULL /\ forall p x, p ∈ P -> pr !! p = Some x -> accept x = false) \/
  (exists Pa p Pb x, P = Pa ++ p :: Pb /\ found accept pr P = p /\ pr !! p = Some x /\ accept x = true /\
     forall q y, q ∈ Pa -> pr !! q = Some y -> accept y = false).
Proof.
  induction 1 as [|p P [Hp [x Ex]] HP IH]; cbn [found].
  { left. split; [done|]. by intros p x ?%not_elem_of_nil. }
  rewrite Ex. destruct (accept x) eqn:Ea.
  { right. exists [], p, P, x. split; [done|]. split; [done|]. split; [done|]. split; [done|]. by intros q y ?%not_elem_of_nil. }
  destruct IH as [[-> Hno]|(Pa & q & Pb & y & -> & -> & Ey & Eay & Hno)].
  - left. split; [done|]. intros q y [->|Hq]%elem_of_cons Ey; [congruence|by apply (Hno q)].
  - right. exists (p :: Pa), q, Pb, y. split; [done|]. split; [done|]. split; [done|]. split; [done|].
    intros r z [->|Hr]%elem_of_cons Ez; [congruence|by apply (Hno r)].
Qed.

(** The name that is kept. *)
Lemma characters_copied s : Forall (fun c => c <> 0) s -> characters (copy_name s) = take 31 s.
Proof.
  intros Hs. unfold copy_name. change (Z.to_nat (PROCESS_NAME_MAX - 1)) with 31%nat. change (Z.to_nat PROCESS_NAME_MAX) with 32%nat.
  assert (forall l n, Forall (fun c => c <> 0) l -> characters (l ++ replicate (S n) 0) = l) as H.
  { intros l n. induction 1 as [|c l Hc Hl IH]; cbn [app characters]; [done|]. rewrite (proj2 (Z.eqb_neq c 0)) by done. by rewrite IH. }
  pose proof (length_take s 31) as Hlen. replace (32 - length (take 31 s))%nat with (S (31 - length (take 31 s))) by lia.
  by apply H, Forall_take.
Qed.

(** ** Properties *)

Section Properties.
Context (kd : Z) (L : list (Z * Z)) (k : kernel) (u : list (Z * Z)) (Hk : processes_ok kd L k u).

(** C12 [process_create] makes a process at the end of the list: a block that
    was not in use, a directory on a page that was free, whose user half is
    empty and whose kernel half is the kernel's, the next process number, at
    most 31 characters of the name, no threads, no stacks and no open file; no
    other process and no other object changes, and no page belongs to two
    processes. It fails only when no page is free, and then every list, every
    object and every page is as before. *)
Theorem process_create_spec fuel s :
  (1 < fuel)%nat -> has_room (k_heap k) PROCESS_SIZE ->
  wp (process_create fuel s) (fun p k' => exists u',
    (p <> NULL /\ exists f, process_made kd L k u s p f k' u') \/
    (p = NULL /\ free_pages (pmm_at (the_supply (k_heap k))) = 0 /\ exists q, process_unmade kd L k u q k' u')) k.
Proof.
  intros Hfuel Hroom. apply (wp_process_create kd L k u Hk); [done|done|..].
  - intros p f k' u' Hp Hm. exists u'. left. split; [done|]. by exists f.
  - intros p k' u' H0 Hm. exists u'. right. split; [done|]. split; [done|]. by exists p.
Qed.

(** C@ [process_find] and [process_find_by_name] change nothing and answer the
    first process of the list with the number or the name, or [NULL] when
    there is none. *)
Theorem process_find_spec accept search :
  (exists id, accept = (fun x => pid x =? id) /\ search = process_find id) \/
  (exists s, accept = (fun x => bool_decide (characters (name x) = s)) /\ search = process_find_by_name (Some s)) ->
  wp search (fun p k' => k' = k /\
    (p = NULL /\ (forall q x, q ∈ L.*1 -> k_processes k !! q = Some x -> accept x = false) \/
     exists Pa Pb x, L.*1 = Pa ++ p :: Pb /\ k_processes k !! p = Some x /\ accept x = true /\
       forall q y, q ∈ Pa -> k_processes k !! q = Some y -> accept y = false)) k.
Proof.
  intros H. assert (wp (find_process accept) (fun p k' => k' = k /\ p = found accept (k_processes k) L.*1) k) as Hf
    by by apply (wp_find_process kd L k u Hk).
  assert (search = find_process accept) as -> by by destruct H as [(id & -> & ->)|(s & -> & ->)].
  eapply wp_mono; [exact Hf|]. intros p k' [-> ->]. split; [done|].
  destruct (found_spec accept (k_processes k) L.*1) as [[-> Hno]|(Pa & p & Pb & x & E & -> & Ex & Ea & Hno)].
  - pose proof (po_members _ _ _ _ Hk) as Hm. rewrite Forall_fmap. eapply Forall_impl; [exact Hm|]. intros x (H1 & _ & H2 & _). done.
  - by left.
  - right. by exists Pa, Pb, x.
Qed.

(** Nobody has the name. *)
Definition new_name (s : list Z) : Prop :=
  forall p x, p ∈ L.*1 -> k_processes k !! p = Some x -> characters (name x) <> s.

(** The lookups answer [NULL] while nobody has the name. *)
Lemma found_nobody s (pr : gmap Z process) :
  new_name s -> (forall p, p ∈ L.*1 -> pr !! p = k_processes k !! p) ->
  found (fun x => bool_decide (characters (name x) = s)) pr L.*1 = NULL.
Proof.
  intros Hs Hpr. unfold new_name in Hs. induction L.*1 as [|p P IH]; cbn [found]; [done|].
  rewrite Hpr by apply list_elem_of_here. destruct (k_processes k !! p) as [x|] eqn:E.
  - rewrite bool_decide_false by (apply (Hs p); [apply list_elem_of_here|done]).
    apply IH; intros q; [intros y Hq; apply Hs; by right|intros Hq; apply Hpr; by right].
  - apply IH; intros q; [intros y Hq; apply Hs; by right|intros Hq; apply Hpr; by right].
Qed.

Lemma found_app accept pr P p :
  found accept pr P = NULL -> Forall (fun p => p <> NULL) P -> found accept pr (P ++ [p]) = found accept pr [p].
Proof.
  intros H HP. induction HP as [|q P Hq HP IH]; cbn [app found] in *; [done|]. destruct (match pr !! q with Some _ => _ | None => _ end); [done|].
  by apply IH.
Qed.
End Properties.

Section Roundtrip.
Context (kd : Z) (L : list (Z * Z)) (k : kernel) (u : list (Z * Z)) (Hk : processes_ok kd L k u).

(** The processes, the blocks and the pages are those of [k]. *)
Record restored (k' : kernel) : Prop := {
  rs_ok : exists u', processes_ok kd L k' u' /\ u'.*1 ≡ₚ u.*1;
  rs_free : forall g, g mod PAGE_SIZE = 0 -> m_free (the_supply (k_heap k')) g = m_free (the_supply (k_heap k)) g;
  rs_count : free_pages (pmm_at (the_supply (k_heap k'))) = free_pages (pmm_at (the_supply (k_heap k)));
  rs_kernel : same_kernel kd (the_supply (k_heap k)) (the_supply (k_heap k'));
  rs_processes : forall p, p ∈ L.*1 -> k_processes k' !! p = k_processes k !! p;
}.

Lemma unmade_restored p k' u' : process_unmade kd L k u p k' u' -> restored k'.
Proof.
  intros [Hok [Hp Eu] (E1 & _ & _) _ (h & nd & dr & fl & tb & ln & E & _)].
  split; [by exists u'|by rewrite E|by rewrite E|rewrite E; apply same_kernel_refl|].
  intros q Hq. rewrite E1. apply lookup_delete_ne. intros ->. by apply (block_not_member kd L k u Hk q).
Qed.

Lemma gone_restored s p f k1 u1 k2 u2 :
  process_made kd L k u s p f k1 u1 -> process_gone kd L [] p f k1 u1 k2 u2 -> restored k2.
Proof.
  intros [Hok1 [Hp Eu1] [Hf Hc] [Ep _] _ _ _ _ _ _] [Hok2 Eu2 Hgb _ Hs2 [Ep2 _] _ _]. rewrite app_nil_r in Hok2.
  pose proof (po_space _ _ _ _ Hk) as Hps. rewrite (created_owned _ _ _ _ Hc) in Hgb.
  pose proof (created_taken _ _ _ _ Hc) as Htk. split.
  - exists u2. split; [done|]. apply (Permutation_cons_inv (a := p)). by rewrite Eu2, Eu1.
  - intros g Hg. unfold m_free. change (page_free (pmm_at (the_supply (k_heap k2))) (g / PAGE_SIZE) = page_free (pmm_at (the_supply (k_heap k))) (g / PAGE_SIZE)).
    rewrite (gb_free _ _ _ Hgb) by done. rewrite (taken_free _ _ _ Htk).
    pose proof (good_frame_aligned _ (space_dir _ _ (created_space _ _ _ _ Hc))) as Hfa.
    destruct (Z.eqb_spec (g / PAGE_SIZE) (f / PAGE_SIZE)) as [E|Hne].
    + assert (g = f) as -> by (unfold PAGE_SIZE in *; lia). rewrite andb_false_r. cbn [orb].
      rewrite bool_decide_true by apply list_elem_of_here. symmetry. exact Hf.
    + rewrite bool_decide_false; [by rewrite andb_true_r, orb_false_r|]. intros ->%list_elem_of_singleton. done.
  - rewrite (gb_count _ _ _ Hgb), (taken_count _ _ _ Htk). cbn. lia.
  - eapply same_kernel_trans; [|exact Hs2]. apply (created_same_kernel kd f); [apply (ready_space _ _ (ps_ready _ _ _ Hps))|done|done].
  - intros q Hq. assert (q <> p) as Hne by (intros ->; by apply (block_not_member kd L k u Hk p)).
    by rewrite Ep2, Ep, lookup_delete_ne, lookup_insert_ne by by apply not_eq_sym.
Qed.

(** C13 Creating a process and destroying it again, with interrupts off, is a
    round trip: in between the new process is found under its name, when it has
    at most 31 characters and nobody else has it; afterwards nobody is found
    under the name, the same processes are on the list, the same blocks are in
    use, exactly the same pages are free, and the kernel's tables hold what
    they held. *)
Theorem process_roundtrip fuel s :
  (1 < fuel)%nat -> has_room (k_heap k) PROCESS_SIZE -> if_set (eflags (pmm_cpu (m_pmm (the_supply (k_heap k))))) = false ->
  Forall (fun c => c <> 0) s -> (length s <= 31)%nat -> new_name L k s ->
  wp (let* p := process_create fuel s in
      if p =? NULL then ret (p, NULL, NULL)
      else
        let* q := process_find_by_name (Some s) in
        process_destroy p ;;;
        let* r := process_find_by_name (Some s) in
        ret (p, q, r))
    (fun '(p, q, r) k' => q = p /\ r = NULL /\ restored k' /\
       (p = NULL -> free_pages (pmm_at (the_supply (k_heap k))) = 0)) k.
Proof.
  intros Hfuel Hroom Hoff Hs Hlen Hnew. apply wp_bind, (wp_process_create kd L k u Hk); [done|done|..].
  2:{ intros p k' u' H0 Hu. change (NULL =? NULL) with true. apply wp_ret. split; [done|]. split; [done|].
      split; [by eapply unmade_restored|done]. }
  intros p f k1 u1 Hnz Hm. rewrite (proj2 (Z.eqb_neq p NULL)) by done. pose proof Hm as [Hok1 [Hp Eu1] [Hf Hc] [Ep _] [Hth _] [Hst _] _ _ _ _].
  apply wp_bind, (wp_find_process kd _ k1 u1 Hok1). rewrite fmap_app. cbn [fmap list_fmap fst].
  assert (p ∉ L.*1) as Hpl by by apply (block_not_member kd L k u Hk).
  rewrite found_app.
  2:{ apply (found_nobody L k); [done|]. intros q Hq. rewrite Ep. apply lookup_insert_ne. by intros ->. }
  2:{ rewrite Forall_fmap. eapply Forall_impl; [apply (po_members _ _ _ _ Hk)|]. by intros x (? & _). }
  cbn [found]. rewrite Ep, lookup_insert_eq. cbn [name]. rewrite characters_copied, take_ge by done. rewrite bool_decide_true by done.
  apply wp_bind, (wp_process_destroy kd L [] p f k1 u1 Hok1).
  { by rewrite (created_cpu _ _ _ _ Hc). }
  { exact Hth. }
  { exact Hst. }
  intros k2 u2 Hg. pose proof (pg_ok _ _ _ _ _ _ _ _ _ Hg) as Hok2. rewrite app_nil_r in Hok2.
  apply wp_bind, (wp_find_process kd _ k2 u2 Hok2). apply wp_ret. split; [done|]. split; [|split; [by eapply gone_restored|done]].
  apply (found_nobody L k); [done|]. intros q Hq. destruct (pg_objects _ _ _ _ _ _ _ _ _ Hg) as [-> _].
  assert (q <> p) as Hne by by intros ->. by rewrite Ep, lookup_delete_ne, lookup_insert_ne by by apply not_eq_sym.
Qed.
End Roundtrip.

(** C15 [process_destroy] of a process without threads and stacks, with
    interrupts off: the process leaves the list and its block the heap, the
    pages its directory owns go back to the pool, once each, and no other; the
    directories of the other processes and of the kernel hold what they held. *)
Theorem process_destroy_spec kd L1 p d L2 k u :
  processes_ok kd (L1 ++ (p, d) :: L2) k u -> if_set (eflags (pmm_cpu (m_pmm (the_supply (k_heap k))))) = false ->
  is_list (nodes (k_sched k)) (ThreadsHead p) [] -> is_list (k_links k) (UserStacksHead p) [] ->
  wp (process_destroy p) (fun _ k' => exists u', process_gone kd L1 L2 p d k u k' u') k.
Proof.
  intros Hk Hoff Hth Hst. apply (wp_process_destroy kd L1 L2 p d k u Hk); [done..|]. intros k' u' Hg. by exists u'.
Qed.

(** ** Witnesses *)

(** The kernel of [ElfSpec] with an empty list of processes and interrupts
    off. *)
Definition empty_list : list_node link := Node (Some ProcessListHead) (Some ProcessListHead).
Definition quiet_machine : machine := with_cpu (Cpu 2 elf_kd []) elf_machine.
Definition process_kernel : kernel :=
  Kernel (HeapWorld elf_heap quiet_machine) vam_start (Sched ∅ ∅ None 5 [] 0 ∅ None true) ∅ ∅ (Fs 0 0 0) ∅ ∅
    {[ProcessListHead := empty_list]} ∅ ∅ ∅ ∅ 2 2 boot_screen.

(** The shell, [sh]. *)
Definition sh : list Z := [115; 104].

Lemma quiet_facts :
  kernel_check quiet_machine elf_kd elf_directory = true /\ walk (m_ram quiet_machine) elf_kd 0xC1000000 = Some 0x71003 /\
  free_pages (pmm_at quiet_machine) = 3542 /\ if_set (eflags (pmm_cpu (m_pmm quiet_machine))) = false.
Proof. vm_compute. auto. Qed.

Lemma quiet_mem : mem_ok quiet_machine.
Proof. exact elf_mem. Qed.

#[local] Opaque quiet_machine.

Lemma process_kernel_ok : processes_ok elf_kd [] process_kernel [] /\ has_room (k_heap process_kernel) PROCESS_SIZE.
Proof.
  destruct quiet_facts as (Hc & Hw & Hf & _). destruct (kernel_check_facts quiet_machine elf_kd elf_directory quiet_mem Hc) as (Hr & Ht & _ & Hfail).
  assert (heap_ok (HeapWorld elf_heap quiet_machine) [(4080, true)]) as Hok.
  { apply (elf_heap_ok quiet_machine elf_kd elf_directory quiet_mem Hc); [exists 0x71003; exact Hw|rewrite Hf; done]. }
  split.
  - split.
    + split; [exact Hr|exact Hfail|exact Ht|constructor|constructor|constructor].
    + exists [(4080, true)]. split; [exact Hok|]. split; [by clear|reflexivity].
    + split; [apply NoDup_singleton|]. clear. by vm_compute.
    + constructor.
    + change (the_supply (k_heap process_kernel)) with quiet_machine. change (k_heap process_kernel) with (HeapWorld elf_heap quiet_machine).
      rewrite Hf. clear. vm_compute. discriminate.
  - exists [(4080, true)]. split; [exact Hok|]. exists (4080, true). split; [apply list_elem_of_here|].
    clear. split; [reflexivity|]. vm_compute. discriminate.
Qed.

Lemma sh_name : Forall (fun c => c <> 0) sh /\ new_name [] process_kernel sh.
Proof. split; [repeat constructor; discriminate|]. by intros p x ?%not_elem_of_nil. Qed.

Lemma process_create_spec_witness :
  wp (process_create 2 sh) (fun p k' => p <> NULL /\ k_processes k' !! p = Some (Process 2 (sh ++ replicate 30 0))) process_kernel.
Proof.
  destruct process_kernel_ok as [Hk Hroom]. eapply wp_mono.
  { exact (process_create_spec elf_kd [] process_kernel [] Hk 2 sh ltac:(lia) Hroom). }
  intros p k' (u' & [(Hp & f & Hm)|(-> & H0 & _)]).
  - split; [exact Hp|]. destruct (pm_process _ _ _ _ _ _ _ _ _ Hm) as [-> _]. apply lookup_insert_eq.
  - exfalso. destruct quiet_facts as (_ & _ & Hf & Hoff). change (the_supply (k_heap process_kernel)) with quiet_machine in H0. congruence.
Defined.

Lemma process_roundtrip_witness :
  wp (let* p := process_create 2 sh in
      if p =? NULL then ret (p, NULL, NULL)
      else
        let* q := process_find_by_name (Some sh) in
        process_destroy p ;;;
        let* r := process_find_by_name (Some sh) in
        ret (p, q, r))
    (fun '(p, q, r) k' => p <> NULL /\ q = p /\ r = NULL /\ free_pages (pmm_at (the_supply (k_heap k'))) = 3542) process_kernel.
Proof.
  destruct process_kernel_ok as [Hk Hroom], sh_name as [Hs Hn], quiet_facts as (_ & _ & Hf & Hoff). eapply wp_mono.
  { exact (process_roundtrip elf_kd [] process_kernel [] Hk 2 sh ltac:(lia) Hroom Hoff Hs ltac:(cbn; lia) Hn). }
  intros [[p q] r] k' (-> & -> & Hres & Hfail). change (the_supply (k_heap process_kernel)) with quiet_machine in Hfail.
  split; [intros E; rewrite (Hfail E) in Hf; discriminate Hf|]. split; [reflexivity|]. split; [reflexivity|].
  rewrite (rs_count _ _ _ _ _ Hres). exact Hf.
Defined.

Lemma process_destroy_spec_witness :
  wp (process_create 2 sh) (fun p k' => p <> NULL /\
    wp (process_destroy p) (fun _ k2 => k_processes k2 !! p = None) k') process_kernel.
Proof.
  destruct process_kernel_ok as [Hk Hroom]. apply (wp_process_create elf_kd [] process_kernel [] Hk); [lia|exact Hroom|..].
  - intros p f k' u' Hp Hm. split; [exact Hp|].
    pose proof Hm as [Hok _ [_ Hc] _ [Hth _] [Hst _] _ _ _ _].
    eapply wp_mono; [refine (process_destroy_spec elf_kd [] p f [] k' u' Hok _ Hth Hst)|].
    + rewrite (created_cpu _ _ _ _ Hc). exact (proj2 (proj2 (proj2 quiet_facts))).
    + intros u k2 (u2 & Hg). destruct (pg_objects _ _ _ _ _ _ _ _ _ Hg) as [-> _]. apply lookup_delete_eq.
  - intros p k' u' H0 _. exfalso. destruct quiet_facts as (_ & _ & Hf & Hoff). change (the_supply (k_heap process_kernel)) with quiet_machine in H0. congruence.
Defined.

Lemma process_find_spec_witness :
  wp (process_create 2 sh) (fun p k' => p <> NULL /\ wp (process_find 2) (fun q _ => q = p) k') process_kernel.
Proof.
  destruct process_kernel_ok as [Hk Hroom]. apply (wp_process_create elf_kd [] process_kernel [] Hk); [lia|exact Hroom|..].
  - intros p f k' u' Hp Hm. split; [exact Hp|]. destruct (pm_process _ _ _ _ _ _ _ _ _ Hm) as [Ep _].
    eapply wp_mono; [refine (process_find_spec elf_kd [(p, f)] k' u' (pm_ok _ _ _ _ _ _ _ _ _ Hm) _ (process_find 2) _); left; by exists 2|].
    assert (k_processes k' !! p = Some (Process 2 (copy_name sh))) as Ex by (rewrite Ep; apply lookup_insert_eq).
    intros q k2 [_ [[_ Hno]|(Pa & Pb & x & E & _ & _ & _)]].
    + specialize (Hno p _ (list_elem_of_here _ _) Ex). discriminate Hno.
    + destruct Pa as [|q' [|]]; [|discriminate E|discriminate E]. by injection E as -> _.
  - intros p k' u' H0 _. exfalso. destruct quiet_facts as (_ & _ & Hf & Hoff). change (the_supply (k_heap process_kernel)) with quiet_machine in H0. congruence.
Defined.
