(* ===== verification/ThreadSpec.v ===== *)
(** * Creating threads

    [thread_create] of [kernel/task/thread.c] on the whole kernel: a thread
    with a kernel stack of its own, or everything as before. *)

From S2P Require Import Prelude Layout Bitmap Machine Pmm DList CString Ram Words Paging PagingSpec Vam Vmm Heap HeapSpec HeapRoom HeapSupply TaskSpace Task Sync Fs Console ConsoleSpec Kernel Process Lifecycle ElfSpec TaskDemo ThreadStack.

(** ** The part of the kernel that is used *)

Section Kernel.
Context (k0 : kernel).
Implicit Types (h : heap) (m : machine) (v : vam) (s : sched) (c : cpu).

(** [k0] with this heap, machine, address manager and scheduler. *)
Definition starting h m v s : kernel :=
  Kernel (HeapWorld h m) v s (k_owners k0) (k_counts k0) (k_fs k0) (k_files k0) (k_table k0) (k_links k0)
    (k_processes k0) (k_stacks k0) (k_loaded k0) (k_descs k0) (next_pid k0) (next_tid k0) (k_console k0).

Lemma starting_id : starting (the_heap (k_heap k0)) (the_supply (k_heap k0)) (k_vam k0) (k_sched k0) = k0.
Proof. unfold starting. by destruct k0 as [[]]. Qed.

Lemma wp_starting_machine {A} (x : M machine A) h m v s (Q : A -> kernel -> Prop) :
  wp x (fun a m' => Q a (starting h m' v s)) m -> wp (machine_op x) Q (starting h m v s).
Proof. intros H. by apply wp_zoom. Qed.

Lemma wp_starting_pmm {A} (x : M pmm_world A) h m v s (Q : A -> kernel -> Prop) :
  wp (zoom pmm_world_l x) (fun a m' => Q a (starting h m' v s)) m -> wp (pmm_op x) Q (starting h m v s).
Proof. intros H. unfold pmm_op, wp, zoom in *. cbn in *. by destruct (x (m_pmm m)). Qed.

Lemma wp_starting_vam {A} (x : M vam A) h m v s (Q : A -> kernel -> Prop) :
  wp x (fun a v' => Q a (starting h m v' s)) v -> wp (vam_op x) Q (starting h m v s).
Proof. intros H. by apply wp_zoom. Qed.

Lemma wp_starting_heap {A} (x : M (heap_world machine) A) h m v s (Q : A -> kernel -> Prop) :
  wp x (fun a w => Q a (starting (the_heap w) (the_supply w) v s)) (HeapWorld h m) -> wp (heap_op x) Q (starting h m v s).
Proof. intros H. apply wp_zoom. eapply wp_mono; [exact H|]. intros a [h' m'] HQ. exact HQ. Qed.

Lemma wp_starting_tasks {A} (x : TM A) h m v s (Q : A -> kernel -> Prop) :
  wp x (fun a t => Q a (starting h (with_cpu (t_cpu t) m) v (t_sched t))) (Tasks (pmm_cpu (m_pmm m)) s) ->
  wp (tasks_op x) Q (starting h m v s).
Proof. intros H. apply wp_zoom. eapply wp_mono; [exact H|]. intros a [c s'] HQ. exact HQ. Qed.

Lemma wp_starting_cpu {A} (x : M cpu A) h m v s (Q : A -> kernel -> Prop) :
  wp x (fun a c => Q a (starting h (with_cpu c m) v s)) (pmm_cpu (m_pmm m)) -> wp (kcpu_op x) Q (starting h m v s).
Proof. intros H. by apply wp_zoom. Qed.

(** The scheduler's state with other nodes or threads. *)
Definition with_nodes (n : gmap node (list_node node)) s : sched :=
  Sched n (threads s) (current s) (quantum_remaining s) (stack s) (tss_esp0 s) (directories s) (reaper_thread s) (reaper_ready s).
Definition with_threads (t : gmap tref thread) s : sched :=
  Sched (nodes s) t (current s) (quantum_remaining s) (stack s) (tss_esp0 s) (directories s) (reaper_thread s) (reaper_ready s).

Lemma wp_starting_list {A} (x : M (gmap node (list_node node)) A) h m v s (Q : A -> kernel -> Prop) :
  wp x (fun a n => Q a (starting h m v (with_nodes n s))) (nodes s) -> wp (tasks_op (list_op x)) Q (starting h m v s).
Proof. intros H. apply wp_starting_tasks, wp_zoom. eapply wp_mono; [exact H|]. intros a n HQ. destruct m as [[] ? ?]. exact HQ. Qed.

Lemma wp_starting_put t th h m v s (Q : unit -> kernel -> Prop) :
  Q tt (starting h m v (with_threads (<[t := th]> (threads s)) s)) -> wp (put_thread t th) Q (starting h m v s).
Proof. intros HQ. apply wp_starting_tasks, wp_modify. destruct m as [[] ? ?]. exact HQ. Qed.

Lemma wp_starting_update t g th h m v s (Q : unit -> kernel -> Prop) :
  threads s !! t = Some th -> Q tt (starting h m v (with_threads (<[t := g th]> (threads s)) s)) ->
  wp (update t g) Q (starting h m v s).
Proof.
  intros E HQ. apply wp_starting_tasks. unfold wp, update_thread. cbn [t_sched]. rewrite E. destruct m as [[] ? ?]. exact HQ.
Qed.

Lemma wp_starting_directory p d h m v s (Q : Z -> kernel -> Prop) :
  directories s !! p = Some d -> Q d (starting h m v s) -> wp (get_directory p) Q (starting h m v s).
Proof.
  intros E HQ. apply wp_starting_tasks. unfold page_directory_of. apply wp_bind, wp_gets, (wp_require _ _ _ _ d); [exact E|].
  by destruct m as [[] ? ?].
Qed.
End Kernel.

(** ** Nodes of a new thread *)

Definition fresh_nodes (t : tref) : list node := QueueHead (TerminationQueue t) :: thread_nodes t.

Lemma fresh_unchanged (t : tref) (n : gmap node (list_node node)) : unchanged (fresh_nodes t) n (foldr (fun x n => <[x := Node None None]> n) n (fresh_nodes t)).
Proof.
  generalize (fresh_nodes t). intros l y. induction l as [|x l IH]; [done|]. intros [Hne Hni]%not_elem_of_cons. cbn.
  rewrite lookup_insert_ne by congruence. by apply IH.
Qed.

Lemma fresh_unlinked (t : tref) (n : gmap node (list_node node)) x :
  x ∈ fresh_nodes t -> unlinked (foldr (fun x n => <[x := Node None None]> n) n (fresh_nodes t)) x.
Proof.
  generalize (fresh_nodes t). intros l. unfold unlinked. induction l as [|y l IH]; intros Hx; [by apply not_elem_of_nil in Hx|].
  cbn. destruct (decide (y = x)) as [->|Hne]; [apply lookup_insert_eq|]. rewrite lookup_insert_ne by done. apply IH.
  by apply elem_of_cons in Hx as [|].
Qed.

(** The nodes of a thread that goes. *)
Lemma foldr_delete_lookup {K A} `{Countable K} (l : list K) (n : gmap K A) x : foldr delete n l !! x = if decide (x ∈ l) then None else n !! x.
Proof.
  induction l as [|y l IH]; [by rewrite decide_False by by apply not_elem_of_nil|]. cbn.
  destruct (decide (y = x)) as [->|Hne].
  - rewrite lookup_delete_eq, decide_True by apply list_elem_of_here. done.
  - rewrite lookup_delete_ne, IH by done. apply decide_ext. rewrite elem_of_cons. split; [by right|]. by intros [->|].
Qed.

Lemma fresh_dropped t (n : gmap node (list_node node)) : unchanged (fresh_nodes t) n (foldr delete n (fresh_nodes t)).
Proof. intros x Hx. by rewrite foldr_delete_lookup, decide_False. Qed.

(** ** The pages of the stack *)

(** The frames [fs] behind the first pages of the slot. *)
Definition filled (fs : list Z) : list (option Z) := (Some <$> fs) ++ replicate (4 - length fs) None.

Lemma frames_filled fs : frames (filled fs) = fs.
Proof.
  unfold frames, filled. rewrite omap_app. replace (omap id (replicate (4 - length fs) None)) with (@nil Z).
  - rewrite app_nil_r. induction fs as [|f fs IH]; cbn in *; [done|]. by rewrite IH.
  - generalize (4 - length fs)%nat. intros k. by induction k as [|k IH].
Qed.

Lemma filled_next fs : (length fs < 4)%nat -> filled fs !! length fs = Some None.
Proof.
  intros H. unfold filled. rewrite lookup_app_r by (rewrite length_fmap; lia). rewrite length_fmap, Nat.sub_diag.
  apply lookup_replicate. split; [done|lia].
Qed.

Lemma filled_last fs f : (length fs < 4)%nat -> filled (fs ++ [f]) !! length fs = Some (Some f).
Proof.
  intros H. unfold filled. rewrite fmap_app, <- app_assoc. rewrite lookup_app_r by (rewrite length_fmap; lia).
  by rewrite length_fmap, Nat.sub_diag.
Qed.

Lemma filled_set fs f o : (length fs < 4)%nat ->
  <[length fs := o]> (filled (fs ++ [f])) = (Some <$> fs) ++ o :: replicate (3 - length fs) None.
Proof.
  intros H. unfold filled. rewrite fmap_app, <- app_assoc, length_app. cbn [length fmap list_fmap app].
  rewrite insert_app_r_alt by (rewrite length_fmap; lia). rewrite length_fmap, Nat.sub_diag. cbn.
  by replace (4 - (length fs + 1))%nat with (3 - length fs)%nat by lia.
Qed.

Lemma filled_grow fs f : (length fs < 4)%nat -> <[length fs := Some f]> (filled fs) = filled (fs ++ [f]).
Proof.
  intros H. unfold filled. rewrite insert_app_r_alt by (rewrite length_fmap; lia). rewrite length_fmap, Nat.sub_diag, fmap_app, length_app, <- app_assoc.
  cbn [length fmap list_fmap app]. destruct (4 - length fs)%nat as [|r] eqn:E; [lia|]. cbn.
  by replace (4 - (length fs + 1))%nat with r by lia.
Qed.

Lemma filled_shrink fs f : (length fs < 4)%nat -> <[length fs := None]> (filled (fs ++ [f])) = filled fs.
Proof.
  intros H. rewrite filled_set by done. unfold filled. destruct (4 - length fs)%nat as [|r] eqn:E; [lia|].
  by replace (3 - length fs)%nat with r by lia.
Qed.

Section StackPages.
Context (kd d n : Z) (m0 : machine) (Ht : task_space kd d m0) (Hr : slot_ready kd d n m0) (k0 : kernel).
Implicit Types (h : heap) (m : machine) (v : vam) (s : sched) (F : list (option Z)) (fs : list Z) (f j : Z).

(** The page's own frame is in use. *)
Lemma slot_frame F m j f : slot_state kd n m0 F m -> F !! Z.to_nat j = Some (Some f) ->
  good_frame f /\ m_free m f = false /\ f / PAGE_SIZE < total_pages (pmm_at m).
Proof.
  intros Hs E. pose proof (sl_frames _ _ _ _ _ Hs) as Hfr. rewrite Forall_forall in Hfr. pose proof (frames_member F _ f E) as Hin.
  destruct (Hfr f Hin) as [Hg Hf]. split; [done|]. split.
  - rewrite (sl_free _ _ _ _ _ Hs) by by apply good_frame_aligned. rewrite bool_decide_true by done. apply andb_false_r.
  - rewrite (sl_total _ _ _ _ _ Hs). pose proof (page_free_range (pmm_at m0) (f / PAGE_SIZE) Hf) as H. apply H.
Qed.

Lemma wp_release_stack_page F j f h m v s (Q : unit -> kernel -> Prop) :
  slot_state kd n m0 F m -> 0 <= j < 4 -> F !! Z.to_nat j = Some (Some f) ->
  (forall m', slot_state kd n m0 (<[Z.to_nat j := None]> F) m' -> Q tt (starting k0 h m' v s)) ->
  wp (release_stack_page (page_of n j)) Q (starting k0 h m v s).
Proof.
  intros Hs Hj E HQ. destruct (page_of_index n j (sr_slot _ _ _ _ Hr) Hj) as (Hu & _ & Ei & Et & Ha).
  pose proof (slot_space kd d n m0 Ht Hr F m Hs) as Hts. pose proof (ts_ready _ _ _ Hts) as Hrd. pose proof (ready_space _ _ Hrd) as Hsp.
  destruct (slot_frame F m j f Hs E) as (Hg & Hf & Htot). destruct (good_frame_virt f Hg) as (_ & _ & _ & Hfu).
  destruct (leaf_ok f 3 Hfu) as (_ & _ & El); [by vm_compute|].
  assert (frame_of f = f) as Eff by (rewrite frame_of_div by done; apply good_frame_aligned in Hg; unfold PAGE_SIZE in *; lia).
  unfold release_stack_page. apply wp_bind, wp_starting_machine, wp_gets. rewrite (ready_kd _ _ Hrd).
  apply wp_bind, wp_starting_machine, wp_paging_translate; [done..|].
  destruct (slot_walk kd d n m0 Ht Hr F m j Hs Hj) as [Ew _]. rewrite Ew, E, El, Eff, page_offset_mod, Ha, Z.add_0_r, u32_id by done.
  apply wp_bind, wp_starting_machine, wp_gets. rewrite (ready_kd _ _ Hrd).
  destruct (slot_pde_range kd d n m0 Hr) as [Hir _]. destruct (slot_pdes kd d n m0 Ht Hr F m _ Hs Hir) as [Ek _].
  destruct (sr_used _ _ _ _ Hr) as (k & Hk & Hpk).
  apply wp_bind, wp_starting_machine, (wp_unmap_present m kd (page_of n j) k); [done|done| | | | |].
  { rewrite Ei, Ek. apply Hr. }
  { apply Hk. }
  { rewrite Et. destruct Hk as [_ Hk]. unfold slot_pte in *. lia. }
  { rewrite Ei. unfold table_of. rewrite Ek. rewrite <- Hpk. f_equal. by apply (sl_outside _ _ _ _ _ Hs). }
  assert (f <> NULL) as Hnz by (destruct Hg; unfold NULL; lia). rewrite (proj2 (Z.eqb_neq f NULL)) by done. cbn [negb].
  destruct (good_frame_page f Hg) as [Hpos Hle].
  apply wp_starting_pmm, wp_free_frame; [apply Hs|done..| |].
  - change (total_pages (pmm_at m) <= f / PAGE_SIZE \/ m_free m f = true -> Q tt (starting k0 h (entry_written kd (page_of n j) 0 m) v s)).
    intros [H|H]; [lia|congruence].
  - intros q _ _ Hrel Hmem. apply HQ. by apply (slot_unmapped kd d n m0 Ht Hr F m j f q).
Qed.

Lemma wp_release_stack_pages fs : forall h m v s (Q : unit -> kernel -> Prop),
  slot_state kd n m0 (filled fs) m -> (length fs <= 4)%nat ->
  (forall m', slot_state kd n m0 (filled []) m' -> Q tt (starting k0 h m' v s)) ->
  wp (release_stack_pages (slot_address n) (length fs)) Q (starting k0 h m v s).
Proof.
  induction fs as [|f fs IH] using rev_ind; intros h m v s Q Hs Hlen HQ; [by apply wp_ret, HQ|].
  rewrite length_app, Nat.add_comm. cbn [length Nat.add release_stack_pages]. rewrite length_app in Hlen. cbn in Hlen.
  destruct (page_of_index n (Z.of_nat (length fs)) (sr_slot _ _ _ _ Hr)) as (_ & -> & _); [lia|].
  apply wp_bind, (wp_release_stack_page (filled (fs ++ [f])) _ f); [done|lia|rewrite Nat2Z.id; apply filled_last; lia|].
  rewrite Nat2Z.id, filled_shrink by lia. intros m' Hs'. apply IH; [done|lia|done].
Qed.

(** The loop of [thread_create]. *)
Lemma wp_map_stack h v s (Q : option Z -> kernel -> Prop) :
  (forall fs m, length fs = 4%nat -> slot_state kd n m0 (filled fs) m -> Q None (starting k0 h m v s)) ->
  (forall fs m, (length fs < 4)%nat -> slot_state kd n m0 (filled fs) m -> free_pages (pmm_at m0) = Z.of_nat (length fs) ->
     Q (Some (Z.of_nat (length fs))) (starting k0 h m v s)) ->
  wp (map_stack (slot_address n) (PHYS_TO_VIRT d)) Q (starting k0 h m0 v s).
Proof.
  intros HQ HQf. unfold map_stack. change (Z.to_nat STACK_PAGES) with 4%nat.
  apply (wp_for_range (fun i k => exists fs m, Z.of_nat (length fs) = i /\ (length fs <= 4)%nat /\ slot_state kd n m0 (filled fs) m /\
    k = starting k0 h m v s)).
  - exists [], m0. split; [done|]. split; [cbn; lia|]. split; [by apply slot_start with (d := d)|done].
  - intros j k Hj (fs & m & El & Hlen & Hs & ->). assert (length fs < 4)%nat as Hlt by lia.
    assert (0 <= j < 4) as Hj4 by lia. assert (Z.to_nat j = length fs) as Ej by lia.
    destruct (page_of_index n j (sr_slot _ _ _ _ Hr) Hj4) as (Hu & Eu & Ei & Et & Ha).
    pose proof (slot_space kd d n m0 Ht Hr _ m Hs) as Hts. pose proof (ts_ready _ _ _ Hts) as Hrd.
    apply wp_bind, wp_starting_pmm, wp_alloc_frame; [apply Hs| |].
    + intros q (Hwhy & _ & _ & _ & _ & Hsame). rewrite (Hsame (ts_fail _ _ _ Hts)).
      change (pmm_of (m_pmm m)) with (pmm_at m). rewrite with_pmm_same. change (NULL =? NULL) with true. cbn iota.
      apply wp_ret. rewrite <- El. apply HQf; [done..|]. pose proof (sl_count _ _ _ _ _ Hs) as Hc. rewrite frames_filled in Hc.
      assert (free_pages (pmm_at m) = 0); [|lia]. apply none_free_zero; [apply Hs|].
      destruct Hwhy as [Hw|]; [|done]. destruct (Hw (ts_fail _ _ _ Hts)).
    + intros f q Hg Hnz Hf _ Htk. rewrite (proj2 (Z.eqb_neq f NULL)) by done. rewrite Eu.
      destruct (slot_pde_range kd d n m0 Hr) as [Hir _]. destruct (slot_pdes kd d n m0 Ht Hr _ m _ Hs Hir) as [Ek _].
      pose proof (ts_taken _ _ _ _ _ Hts Htk) as Htq.
      apply wp_bind, wp_starting_machine. unfold paging_map_kernel. apply wp_bind, wp_gets.
      change (kernel_directory (with_pmm q m)) with (kernel_directory m). rewrite (ready_kd _ _ Hrd).
      apply wp_map_present; [apply (ready_space _ _ (ts_ready _ _ _ Htq))|done| |].
      { rewrite Ei. change (pde (with_pmm q m)) with (pde m). rewrite Ek. apply Hr. }
      assert (filled fs !! Z.to_nat j = Some None) as Enone by (rewrite Ej; by apply filled_next).
      pose proof (slot_mapped kd d n m0 Ht Hr (filled fs) m j f q Hs Hj4 Enone Hg Hf Htk) as Hs'.
      change (entry_written kd (page_of n j) (leaf f KERNEL_FLAGS) (with_pmm q m)) with (entry_written kd (page_of n j) (leaf f 3) (with_pmm q m)).
      set (m1 := entry_written _ _ _ _) in *. rewrite Ej, filled_grow in Hs' by done.
      pose proof (slot_space kd d n m0 Ht Hr _ m1 Hs') as Hts1. pose proof (ts_ready _ _ _ Hts1) as Hrd1.
      destruct (slot_walk kd d n m0 Ht Hr _ m1 j Hs' Hj4) as [Ew Ewd]. rewrite Ej, filled_last in Ew by done. rewrite Ew in Ewd.
      apply wp_bind, wp_starting_machine, wp_gets. rewrite (ready_kd _ _ Hrd1).
      apply wp_bind, wp_starting_machine, wp_paging_validate_mapping; [apply Hrd1|done|]. rewrite Ew.
      apply wp_bind, wp_assert; [done|].
      apply wp_bind, wp_starting_machine, wp_paging_validate_mapping; [apply Hts1|done|]. rewrite Ewd.
      apply wp_bind, wp_assert; [done|]. apply wp_ret. exists (fs ++ [f]), m1.
      rewrite length_app. cbn [length]. split; [lia|]. split; [lia|]. by split.
  - intros k (fs & m & El & Hlen & Hs & ->). apply (HQ fs); [lia|done].
Qed.
End StackPages.

(** ** The whole operation *)

(** Where [thread_create] runs: the directories of the kernel and of the
    process [p], a free slot whose table both directories have, and room in the
    heap for the [struct thread]. *)
Record thread_space (kd d p : Z) (k : kernel) (u : list (Z * Z)) : Prop := {
  tp_process : p <> NULL;
  tp_directory : directories (k_sched k) !! p = Some (PHYS_TO_VIRT d);
  tp_space : task_space kd d (the_supply (k_heap k));
  tp_vam : vam_inv (k_vam k);
  tp_slots : forall n, 0 <= n < KERNEL_STACK_COUNT -> slot_used (k_vam k) n = false ->
    (forall i, 0 <= i < n -> slot_used (k_vam k) i = true) -> slot_ready kd d n (the_supply (k_heap k));
  tp_heap : heap_holds (k_heap k) u;
  tp_room : has_room (k_heap k) THREAD_SIZE;
}.

Section Create.
Context (kd d p entry : Z) (k : kernel) (u : list (Z * Z)) (Hk : thread_space kd d p k u).
Implicit Types (h : heap) (m : machine) (v : vam) (s : sched) (fs : list Z) (a n : Z).

Let m0 : machine := the_supply (k_heap k).
Let h0 : heap := the_heap (k_heap k).

(** The thread as [thread_create] leaves it. *)
Definition new_thread (tid n : Z) : thread :=
  Thread tid (slot_address n) entry THREAD_READY p false None 0 NULL [ThreadStart].

(** The thread in the block [a] with its stack in slot [n], on the frames
    [fs]. *)
Record thread_made a n fs (k' : kernel) (u' : list (Z * Z)) : Prop := {
  tm_block : (a ∉ u.*1) /\ u'.*1 ≡ₚ a :: u.*1 /\ heap_holds (k_heap k') u';
  tm_extent : heap_end (the_heap (k_heap k')) = heap_end h0;
  tm_slot : 0 <= n < KERNEL_STACK_COUNT /\ slot_used (k_vam k) n = false /\ (forall i, 0 <= i < n -> slot_used (k_vam k) i = true) /\
    slots_updated (k_vam k) (k_vam k') (fun i => bool_decide (i = n) || slot_used (k_vam k) i);
  tm_pages : length fs = 4%nat /\ slot_state kd n m0 (filled fs) (the_supply (k_heap k'));
  tm_space : task_space kd d (the_supply (k_heap k'));
  tm_thread : threads (k_sched k') = <[HeapThread a := new_thread (next_tid k) n]> (threads (k_sched k)) /\
    next_tid k' = u32 (next_tid k + 1);
  tm_nodes : (forall x, x ∈ thread_nodes (HeapThread a) -> unlinked (nodes (k_sched k')) x) /\
    is_list (nodes (k_sched k')) (QueueHead (TerminationQueue (HeapThread a))) [] /\
    unchanged (fresh_nodes (HeapThread a)) (nodes (k_sched k)) (nodes (k_sched k'));
  tm_rest : exists h nd, k' = starting (set_view k_next_l (next_pid k, next_tid k') k) h (the_supply (k_heap k')) (k_vam k')
    (with_threads (threads (k_sched k')) (with_nodes nd (k_sched k)));
}.

(** Everything is as before; only the block [a] and the entries of a slot that
    is not mapped were in use for a while. *)
Record thread_unmade a (k' : kernel) (u' : list (Z * Z)) : Prop := {
  tu_block : (a ∉ u.*1) /\ u'.*1 ≡ₚ u.*1 /\ heap_holds (k_heap k') u';
  tu_slots : slots_updated (k_vam k) (k_vam k') (slot_used (k_vam k));
  tu_machine : the_supply (k_heap k') = m0 \/ exists n, slot_ready kd d n m0 /\ slot_state kd n m0 no_frames (the_supply (k_heap k'));
  tu_space : task_space kd d (the_supply (k_heap k'));
  tu_threads : threads (k_sched k') = delete (HeapThread a) (threads (k_sched k));
  tu_nodes : unchanged (fresh_nodes (HeapThread a)) (nodes (k_sched k)) (nodes (k_sched k')) /\
    forall x, x ∈ fresh_nodes (HeapThread a) -> nodes (k_sched k') !! x = None;
  tu_rest : exists h nd, k' = starting k h (the_supply (k_heap k')) (k_vam k')
    (with_threads (threads (k_sched k')) (with_nodes nd (k_sched k)));
}.

Lemma thread_heap : heap_at h0 m0 u.
Proof. unfold heap_at, h0, m0. pose proof (tp_heap _ _ _ _ _ Hk). by destruct (k_heap k). Qed.

Lemma wp_free_thread a w h m v s (Q : unit -> kernel -> Prop) :
  heap_at h m w -> a ∈ w.*1 ->
  (forall h' w', heap_at h' m w' -> a :: w'.*1 ≡ₚ w.*1 -> heap_end h' = heap_end h ->
     Q tt (starting k h' m v (with_nodes (foldr delete (nodes s) (fresh_nodes (HeapThread a))) (with_threads (delete (HeapThread a) (threads s)) s)))) ->
  wp (free_thread a) Q (starting k h m v s).
Proof.
  intros Hh Ha HQ. unfold free_thread. apply wp_bind, wp_starting_heap, (wp_kfree _ w); [exact Hh|done|].
  intros [h' m'] w1 n w2 E Hh' [Es Ee]. cbn [the_heap the_supply] in *. subst m'.
  apply wp_bind, wp_starting_tasks, wp_modify. cbn [set_threads t_sched t_cpu].
  replace (with_cpu (pmm_cpu (m_pmm m)) m) with m by by destruct m as [[] ? ?].
  apply wp_starting_list, wp_modify. apply (HQ h' (w1 ++ w2)); [exact Hh'| |exact Ee]. rewrite E, !fmap_app. cbn. by rewrite Permutation_middle.
Qed.

(** The nodes are initialised and the queue is empty. *)
Lemma wp_init_nodes (l : list node) : forall h m v s (Q : unit -> kernel -> Prop),
  (forall x, x ∈ l -> unlinked (nodes s) x) -> Q tt (starting k h m v s) -> wp (init_nodes l) Q (starting k h m v s).
Proof.
  induction l as [|x l IH]; intros h m v s Q Hl HQ; [by apply wp_ret|]. cbn [init_nodes].
  apply wp_bind, wp_starting_list, wp_node_init; [apply Hl, list_elem_of_here|].
  replace (with_nodes (nodes s) s) with s by by destruct s. apply IH; [|done]. intros y Hy. apply Hl. by right.
Qed.

(** [k]'s scheduler with these nodes and threads. *)
Definition scheduled (nd : gmap node (list_node node)) (th : gmap tref thread) : sched := with_threads th (with_nodes nd (k_sched k)).

Lemma scheduled_id : scheduled (nodes (k_sched k)) (threads (k_sched k)) = k_sched k.
Proof. unfold scheduled. by destruct (k_sched k). Qed.

(** One more assignment to a field of the new thread. *)
Lemma wp_field t g x h m v nd th (Q : unit -> kernel -> Prop) :
  Q tt (starting k h m v (scheduled nd (<[t := g x]> th))) -> wp (update t g) Q (starting k h m v (scheduled nd (<[t := x]> th))).
Proof.
  intros HQ. eapply wp_starting_update; [apply lookup_insert_eq|].
  change (threads (scheduled nd (<[t := x]> th))) with (<[t := x]> th). rewrite insert_insert_eq. exact HQ.
Qed.

(** The new object up to the choice of its stack. *)
Lemma wp_prepare_thread {A} a h m v (R : KM A) (Q : A -> kernel -> Prop) :
  let t := HeapThread a in
  (forall nd, (forall x, x ∈ thread_nodes t -> unlinked nd x) -> is_list nd (QueueHead (TerminationQueue t)) [] ->
     unchanged (fresh_nodes t) (nodes (k_sched k)) nd ->
     wp R Q (starting k h m v (scheduled nd (<[t := Thread 0 NULL entry THREAD_READY NULL false None 0 NULL []]> (threads (k_sched k)))))) ->
  wp (clear_thread t ;;; init_nodes (thread_nodes t) ;;; tasks_op (wait_queue_init (TerminationQueue t)) ;;;
      update t (with_wait_queue None) ;;; update t (with_detached false) ;;; update t (with_user 0 NULL) ;;;
      update t (fun th => Thread (tid th) (kernel_stack th) entry (state th) (Task.process th) (detached th) (wait_queue th)
        (user_stack th) (usermode_desc th) (saved th)) ;;; R) Q (starting k h m v (k_sched k)).
Proof.
  intros t HR. apply wp_bind. unfold clear_thread. apply wp_bind, wp_starting_put, wp_starting_list, wp_modify.
  pose proof (fresh_unchanged t (nodes (k_sched k))) as Hun. pose proof (fresh_unlinked t (nodes (k_sched k))) as Hlk.
  change (nodes (with_threads _ (k_sched k))) with (nodes (k_sched k)).
  change (QueueHead (TerminationQueue t) :: thread_nodes t) with (fresh_nodes t).
  set (n1 := foldr _ (nodes (k_sched k)) (fresh_nodes t)) in *.
  change (with_nodes n1 (with_threads ?th (k_sched k))) with (scheduled n1 th).
  apply wp_bind, wp_init_nodes; [intros x Hx; apply Hlk; by right|].
  apply wp_bind, wp_starting_list, wp_list_init.
  { specialize (Hlk (QueueHead (TerminationQueue t)) (list_elem_of_here _ _)). unfold unlinked in Hlk.
    change (nodes (scheduled n1 _)) with n1. rewrite Hlk. by eexists. }
  change (nodes (scheduled n1 ?th)) with n1. intros n2 Hn2 Hu2. change (with_nodes n2 (scheduled n1 ?th)) with (scheduled n2 th).
  do 4 (apply wp_bind, wp_field). apply HR; [|done|].
  - intros x Hx. unfold unlinked. rewrite Hu2; [apply Hlk; by right|]. intros ->%list_elem_of_singleton.
    unfold thread_nodes in Hx. rewrite !elem_of_cons in Hx. destruct Hx as [|[|[|[|Hx]]]]; try done. by apply not_elem_of_nil in Hx.
  - intros x Hx. rewrite Hu2; [by apply Hun|]. intros ->%list_elem_of_singleton. apply Hx, list_elem_of_here.
Qed.

(** The way back. *)
Lemma wp_undo_thread a x h m v w nd (Q : unit -> kernel -> Prop) :
  heap_at h m w -> (a ∉ u.*1) -> w.*1 ≡ₚ a :: u.*1 -> slots_updated (k_vam k) v (slot_used (k_vam k)) ->
  (m = m0 \/ exists n, slot_ready kd d n m0 /\ slot_state kd n m0 no_frames m) ->
  unchanged (fresh_nodes (HeapThread a)) (nodes (k_sched k)) nd ->
  (forall k' u', thread_unmade a k' u' -> Q tt k') ->
  wp (free_thread a) Q (starting k h m v (scheduled nd (<[HeapThread a := x]> (threads (k_sched k))))).
Proof.
  intros Hh Ha Ew Hv Hm Hnd HQ. apply (wp_free_thread a w); [done|rewrite Ew; apply list_elem_of_here|].
  intros h' w' Hh' Ew' _. change (threads (scheduled nd ?th)) with th. change (nodes (scheduled nd _)) with nd. rewrite delete_insert_eq.
  set (nd' := foldr delete nd (fresh_nodes (HeapThread a))).
  change (with_nodes nd' _) with (scheduled nd' (delete (HeapThread a) (threads (k_sched k)))).
  apply (HQ _ w'). split; cbn [starting k_heap k_vam k_sched the_supply the_heap scheduled with_threads threads with_nodes nodes].
  - split; [done|]. split; [|exact Hh']. apply (Permutation_cons_inv (a := a)). by rewrite Ew', Ew.
  - done.
  - done.
  - destruct Hm as [->|(n & Hr & Hs)]; [apply Hk|]. by apply (slot_space kd d n m0 (tp_space _ _ _ _ _ Hk) Hr no_frames).
  - done.
  - split; intros y Hy; unfold nd'.
    + rewrite fresh_dropped by done. by apply Hnd.
    + by rewrite foldr_delete_lookup, decide_True.
  - by exists h', nd'.
Qed.

Lemma slot_address_not_null n : 0 <= n < KERNEL_STACK_COUNT -> slot_address n <> NULL.
Proof. change KERNEL_STACK_COUNT with 16384. unfold slot_address, NULL, KERNEL_STACKS_START. change KERNEL_STACK_SIZE with 16384. lia. Qed.

Lemma wp_thread_create fuel (Q : Z -> kernel -> Prop) :
  (1 < fuel)%nat ->
  (forall a n fs k' u', a <> NULL -> thread_made a n fs k' u' -> Q a k') ->
  (forall a k' u', (forall n, 0 <= n < KERNEL_STACK_COUNT -> slot_used (k_vam k) n = true) \/ free_pages (pmm_at m0) < 4 ->
     thread_unmade a k' u' -> Q NULL k') ->
  wp (thread_create fuel p entry) Q k.
Proof.
  intros Hfuel HQ HQf. pose proof Hk as [Hp Hdir Ht Hv Hslots Hheap Hroom]. fold m0 in Ht, Hslots.
  refine (eq_ind _ (wp _ _) _ _ (starting_id k)). fold m0 h0. unfold thread_create.
  apply wp_bind, wp_assert; [by apply negb_true_iff, Z.eqb_neq|].
  apply wp_bind, wp_starting_heap, (wp_kmalloc_room _ u); [exact thread_heap|done| |done|].
  { change (heap_align THREAD_SIZE) with THREAD_SIZE. unfold h0, m0. by rewrite heap_world_eta. }
  intros a sz [h1 m1] w Hh1 Hgr [Es Ee] _. cbn [the_heap the_supply] in *. subst m1.
  destruct (granted_fresh h0 m0 u (HeapWorld h1 m0) THREAD_SIZE a sz w thread_heap) as (Ha & Hnz & Ew); [done|exact Hgr|].
  rewrite (proj2 (Z.eqb_neq a NULL)) by done. cbn zeta.
  apply wp_prepare_thread. intros nd Hun Hq Hnd. set (t := HeapThread a) in *.
  apply wp_bind, wp_starting_vam, wp_vam_alloc_stack; [done| |].
  - intros Hall. apply wp_bind, wp_field. change (NULL =? NULL) with true. cbn iota.
    apply wp_bind, (wp_undo_thread a _ _ _ _ w); [done..|by split|by left|done|]. intros k' u' Hu'. apply wp_ret. apply (HQf a k' u'); [by left|done].
  - intros n v' Hn Hfree Hlow Hupd. apply wp_bind, wp_field. rewrite (proj2 (Z.eqb_neq _ _)) by by apply slot_address_not_null.
    pose proof (Hslots n Hn Hfree Hlow) as Hr.
    apply wp_bind, (wp_starting_directory k p (PHYS_TO_VIRT d)); [exact Hdir|].
    apply wp_bind, (wp_map_stack kd d n m0 Ht Hr); [|].
    + intros fs m Hlen Hs. pose proof (slot_space kd d n m0 Ht Hr _ m Hs) as Hts. pose proof (ts_ready _ _ _ Hts) as Hrd.
      apply wp_bind, wp_starting_machine, wp_gets. rewrite (ready_kd _ _ Hrd).
      assert (u32 (u32 (slot_address n + KERNEL_STACK_SIZE) - 4) = page_of n 3 + 4092 /\ is_u32 (page_of n 3 + 4092) /\
        (page_of n 3 + 4092) / PAGE_SIZE = page_of n 3 / PAGE_SIZE) as (Etop & Hu & Epg).
      { change KERNEL_STACK_COUNT with 16384 in Hn. unfold page_of, slot_address, is_u32, u32, PAGE_SIZE, KERNEL_STACKS_START.
        change KERNEL_STACK_SIZE with 16384. clear -Hn. lia. }
      rewrite Etop. apply wp_bind, wp_starting_machine, wp_paging_translate; [apply Hrd|done|].
      rewrite (walk_page _ _ _ (page_of n 3)) by done. destruct (slot_walk kd d n m0 Ht Hr _ m 3 Hs ltac:(lia)) as [-> _].
      assert (exists f fs', fs = fs' ++ [f] /\ length fs' = 3%nat) as (f & fs' & -> & Hl3).
      { destruct fs as [|x fs _] using rev_ind; [done|]. exists x, fs. split; [done|]. rewrite length_app in Hlen. cbn in Hlen. lia. }
      change (Z.to_nat 3) with 3%nat. rewrite <- Hl3 at 1. rewrite filled_last by lia.
      pose proof (sl_frames _ _ _ _ _ Hs) as Hfr. rewrite frames_filled in Hfr. apply Forall_app in Hfr as [_ [[Hg _] _]%Forall_cons].
      destruct (good_frame_virt f Hg) as (_ & _ & _ & Hfu). destruct (leaf_ok f 3 Hfu) as (_ & _ & El); [by vm_compute|].
      assert (frame_of f = f) as Eff by (rewrite frame_of_div by done; apply good_frame_aligned in Hg; unfold PAGE_SIZE in *; lia).
      rewrite El, Eff. assert (u32 (f + page_offset (page_of n 3 + 4092)) <> 0) as Hnz2.
      { rewrite page_offset_mod. destruct Hg as (G1 & G2 & _). unfold PAGE_SIZE, BOOTSTRAP_MAP_SIZE in *. unfold u32. clear -G1 G2 Hn. lia. }
      rewrite (proj2 (Z.eqb_neq _ _)) by done. do 2 apply wp_bind, wp_field. apply wp_bind, wp_gets.
      apply wp_bind, wp_zoom, wp_modify.
      change (set_view k_next_l _ _) with (starting (set_view k_next_l (next_pid k, u32 (next_tid k + 1)) k) h1 m v'
        (scheduled nd (<[t := with_state THREAD_READY (with_saved [ThreadStart] (with_stack (slot_address n)
          (Thread 0 NULL entry THREAD_READY NULL false None 0 NULL [])))]> (threads (k_sched k))))).
      apply wp_bind. eapply wp_starting_update; [apply lookup_insert_eq|].
      change (threads (scheduled nd ?th)) with th. rewrite insert_insert_eq. apply wp_ret.
      apply (HQ a n (fs' ++ [f]) _ w); [done|]. split.
      * split; [done|]. split; [done|]. by apply (slot_heap kd d n m0 Ht Hr h1 (filled (fs' ++ [f]))).
      * exact Ee.
      * done.
      * done.
      * done.
      * done.
      * done.
      * by exists h1, nd.
    + intros fs m Hlen Hs Hpages.
      apply wp_bind. rewrite Nat2Z.id. apply (wp_release_stack_pages kd d n m0 Ht Hr k fs); [done|lia|]. intros m' Hs'.
      destruct Hupd as (Hv' & Eb & Hupd). apply wp_bind, wp_starting_vam, wp_vam_free_stack; [done..|]. intros v2 (Hv2 & Eb2 & Hupd2).
      apply wp_bind, (wp_undo_thread a _ _ _ _ w); [by apply (slot_heap kd d n m0 Ht Hr h1 no_frames)|done|done| |by right; exists n|done|].
      { split; [done|]. split; [congruence|]. intros i. rewrite Hupd2, Hupd. case_bool_decide; subst; [by rewrite Hfree|done]. }
      intros k' u' Hu'. apply wp_ret, (HQf a k' u'); [right; lia|done].
Qed.

(** C11 [thread_create] makes a thread that is ready and will run the entry
    point with a kernel stack of its own: the lowest free slot, its four pages
    on four frames that were free, mapped in the kernel's directory and visible
    in the directory of the process, everything else mapped as before; the
    thread has a fresh block, the next number, unlinked nodes and an empty
    queue. It fails only when no slot is free or fewer than four pages are
    free, and then every slot, page, block and thread is as before. *)
Theorem thread_create_spec fuel :
  (1 < fuel)%nat ->
  wp (thread_create fuel p entry) (fun a k' => exists u',
    (a <> NULL /\ exists n fs, thread_made a n fs k' u') \/
    (a = NULL /\ ((forall n, 0 <= n < KERNEL_STACK_COUNT -> slot_used (k_vam k) n = true) \/ free_pages (pmm_at m0) < 4) /\
     exists b, thread_unmade b k' u')) k.
Proof.
  intros Hfuel. apply wp_thread_create; [done|..].
  - intros a n fs k' u' Ha Hm. exists u'. left. split; [done|]. by exists n, fs.
  - intros b k' u' Hwhy Hu. exists u'. right. split; [done|]. split; [done|]. by exists b.
Qed.
End Create.

(** ** Witness *)

(** The machine of [ElfSpec] with the table of the first 256 stacks in both
    directories; the last page of the table is mapped. *)
Definition stacks_machine : machine :=
  MkMachine (PmmWorld (Cpu 2 elf_kd []) demo_pmm)
    (ram_entry_set 0x72000 1023 0x73003 (ram_entry_set elf_kd 832 0x72003 (ram_entry_set elf_directory 832 0x72003 elf_ram)))
    (PHYS_TO_VIRT elf_kd).

(** A heap of one page whose first block is the [struct process] of a process,
    and a kernel with this process. *)
Definition owner : Z := 0xC1000010.
Definition owner_heap : heap :=
  Heap 0xC1000000 0xC1001000 0 {[0xC1000000 := Block 320 false 0xC1000150; 0xC1000150 := Block 3744 true NULL]}.
Definition owner_tiles : list (Z * bool) := [(320, false); (3744, true)].
Definition owner_blocks : list (Z * Z) := [(owner, 320)].
Definition owner_links : gmap link (list_node link) :=
  list_to_map (ring ProcessListHead [ProcessNode owner] ++ ring (UserStacksHead owner) []).
Definition kernel_on (m : machine) (n : gmap node (list_node node)) (t : gmap tref thread) (c : option tref) : kernel :=
  Kernel (HeapWorld owner_heap m) vam_start (Sched n t c 5 [] 0 {[owner := PHYS_TO_VIRT elf_directory]} None false)
    ∅ ∅ (Fs 0 0 0) ∅ ∅ owner_links {[owner := Process 1 (copy_name [115; 104])]} ∅ ∅ ∅ 2 2 boot_screen.

Lemma owner_heap_ok m kd : ready m kd -> fail_allocations (pmm_at m) = 0 -> heap_tables m kd ->
  is_Some (walk (m_ram m) kd 0xC1000000) -> free_pages (pmm_at m) <= 4096 -> heap_ok (HeapWorld owner_heap m) owner_tiles.
Proof.
  intros Hr Hf Ht Hw Hfree. destruct heap_bounds as [B1 B2].
  split; cbn [the_heap the_supply owner_heap heap_head heap_end headers].
  - by rewrite B1.
  - rewrite B1. by vm_compute.
  - rewrite B1. by vm_compute.
  - by repeat constructor.
  - by intros [=].
  - by vm_compute.
  - rewrite B1. intros a Ha. apply (accessible_walk m kd a Hr).
    rewrite (walk_page _ _ a 0xC1000000); [done|unfold PAGE_SIZE; clear -Ha; lia].
  - by exists kd.
  - rewrite B2. cbn. unfold pages_free, PAGE_SIZE. clear -Hfree. lia.
Qed.

(** [slot_ready] of slot 0, decided. *)
Definition first_slot_check (m : machine) (kd d : Z) : bool :=
  present (pde m kd 832) && present (pde m d 832) && (table_of m d 832 =? table_of m kd 832) &&
  forallb (fun j => negb (present (Paging.entry (m_ram m) (table_of m kd 832) j))) (seqZ 0 4) &&
  present (Paging.entry (m_ram m) (table_of m kd 832) 1023).

Lemma first_slot_ready m kd d : first_slot_check m kd d = true -> tables_check m kd = true -> slot_ready kd d 0 m.
Proof.
  unfold first_slot_check. rewrite !andb_true_iff. intros [[[[H1 H2] H3%Z.eqb_eq] H4] H5] Ht.
  split; change (slot_pde 0) with 832.
  - by vm_compute.
  - done.
  - apply tables_check_ok; [done|lia].
  - done.
  - intros j Hj. apply negb_true_iff. exact (forallb_seqZ _ 0 4 j H4 ltac:(lia)).
  - exists 1023. split; [|done]. split; [lia|]. right. by vm_compute.
Qed.

Lemma stacks_facts :
  kernel_check stacks_machine elf_kd elf_directory = true /\ first_slot_check stacks_machine elf_kd elf_directory = true /\
  tables_check stacks_machine elf_kd = true /\ walk (m_ram stacks_machine) elf_kd 0xC1000000 = Some 0x71003 /\
  free_pages (pmm_at stacks_machine) = 3542.
Proof. vm_compute. auto. Qed.

Lemma stacks_mem : mem_ok stacks_machine.
Proof. exact elf_mem. Qed.

#[local] Opaque stacks_machine.

Lemma stacks_heap : heap_ok (HeapWorld owner_heap stacks_machine) owner_tiles.
Proof.
  destruct stacks_facts as (Hc & _ & _ & Hw & Hf). destruct (kernel_check_facts stacks_machine elf_kd elf_directory stacks_mem Hc) as (Hr & Ht & _ & Hfail).
  apply (owner_heap_ok stacks_machine elf_kd Hr Hfail Ht); [exists 0x71003; exact Hw|rewrite Hf; done].
Qed.

Lemma owner_space n t c : thread_space elf_kd elf_directory owner (kernel_on stacks_machine n t c) owner_blocks.
Proof.
  destruct stacks_facts as (Hc & H0 & Hd & _). split.
  - discriminate.
  - reflexivity.
  - exact (kernel_check_space stacks_machine elf_kd elf_directory stacks_mem Hc).
  - exact vam_start_inv.
  - intros i Hi _ Hlow. destruct (decide (i = 0)) as [->|Hne]; [exact (first_slot_ready _ _ _ H0 Hd)|].
    exfalso. specialize (Hlow 0 ltac:(lia)). clear -Hlow. by vm_compute in Hlow.
  - exists owner_tiles. split; [exact stacks_heap|]. split; [clear; cbn; split; [by intros [[=] _]|by split]|reflexivity].
  - exists owner_tiles. split; [exact stacks_heap|]. exists (3744, true). split; [apply list_elem_of_further, list_elem_of_here|].
    clear. split; [reflexivity|]. vm_compute. discriminate.
Qed.

Lemma stacks_left n t c :
  ~ ((forall i, 0 <= i < KERNEL_STACK_COUNT -> slot_used (k_vam (kernel_on stacks_machine n t c)) i = true) \/
     free_pages (pmm_at (the_supply (k_heap (kernel_on stacks_machine n t c)))) < 4).
Proof.
  destruct stacks_facts as (_ & _ & _ & _ & Hf). intros [Hno|Hlt].
  - specialize (Hno 0 ltac:(clear; by vm_compute)). clear -Hno. by vm_compute in Hno.
  - change (the_supply (k_heap (kernel_on stacks_machine n t c))) with stacks_machine in Hlt. rewrite Hf in Hlt. clear -Hlt. lia.
Qed.

Lemma thread_create_spec_witness :
  wp (thread_create 2 owner 0x400000) (fun a k' => a <> NULL /\
    threads (k_sched k') !! HeapThread a = Some (Thread 2 0xD0000000 0x400000 THREAD_READY owner false None 0 NULL [ThreadStart]) /\
    free_pages (pmm_at (the_supply (k_heap k'))) = 3538) (kernel_on stacks_machine ∅ ∅ None).
Proof.
  destruct stacks_facts as (_ & _ & _ & _ & Hf). eapply wp_mono.
  { exact (thread_create_spec elf_kd elf_directory owner 0x400000 (kernel_on stacks_machine ∅ ∅ None) owner_blocks (owner_space ∅ ∅ None) 2 ltac:(lia)). }
  intros a k' (u' & [(Ha & n & fs & Hm)|(_ & Hno & _)]).
  - split; [exact Ha|]. destruct (tm_slot _ _ _ _ _ _ _ _ _ _ _ Hm) as (Hn & _ & Hlow & _).
    assert (n = 0) as ->.
    { destruct (decide (n = 0)) as [|Hne]; [assumption|]. exfalso. specialize (Hlow 0 ltac:(lia)). clear -Hlow. by vm_compute in Hlow. }
    destruct (tm_thread _ _ _ _ _ _ _ _ _ _ _ Hm) as [-> _]. split; [apply lookup_insert_eq|].
    destruct (tm_pages _ _ _ _ _ _ _ _ _ _ _ Hm) as [Hlen Hs]. rewrite (sl_count _ _ _ _ _ Hs), frames_filled, Hlen.
    change (the_supply (k_heap (kernel_on stacks_machine ∅ ∅ None))) with stacks_machine. rewrite Hf. reflexivity.
  - destruct (stacks_left _ _ _ Hno).
Defined.

(** Where the directory of the process does not have the table of the slot,
    [thread_create] stops the machine: [paging_map_kernel] adds a new table to
    the kernel's directory only. *)
Lemma thread_create_without_table :
  thread_create 2 owner 0x400000 (kernel_on elf_machine ∅ ∅ None) = 
  Fault (AssertFailed "paging_validate_mapping(process->page_directory, virt)").
Proof. vm_compute. reflexivity. Qed.
