(* ===== verification/ThreadLife.v ===== *)
(** * The life of a thread

    Creating and destroying threads while the scheduler runs: both keep the
    invariant [ok] of [TaskSpec], so that the theorems on scheduling, waiting
    and locking hold for the threads that come and go. *)

From S2P Require Import Prelude Layout Bitmap Machine Pmm DList ListFamily CString Ram Words Paging PagingSpec Vam Vmm Heap HeapSpec HeapRoom HeapSupply TaskSpace Task TaskSpec TaskOps Sync SyncSpec Fs Console ConsoleSpec Kernel Printing Process Lifecycle ElfSpec TaskDemo ThreadStack ThreadSpec.

(** ** Lists that come and go *)

Section Lists.
Context {L : Type} `{Countable L}.
Implicit Types (s : gmap L (list_node L)) (F : gmap L (list L)) (h x : L) (ns : list L).

(** New nodes, one of them the head of an empty list. *)
Lemma lists_fresh s s' F h ns :
  lists s F -> (forall x g, x ∈ h :: ns -> ~ occurs F g x) -> unchanged (h :: ns) s s' ->
  is_list s' h [] -> (forall x, x ∈ ns -> unlinked s' x) -> lists s' (<[h := []]> F).
Proof.
  intros Hl Hno Hun Hh Hns. split.
  - intros g xs. destruct (decide (g = h)) as [->|Hne].
    + rewrite lookup_insert_eq. by intros [= <-].
    + rewrite lookup_insert_ne by done. intros E. eapply is_list_frame; [by apply Hl|exact Hun|].
      intros y Hy Hin. apply (Hno y g Hin). by exists xs.
  - intros g1 g2 y. rewrite !occurs_insert, !list_elem_of_singleton.
    intros [[-> ->]|[Hn1 H1]] [[-> Hy']|[Hn2 H2]]; try done.
    + by destruct (Hno h g2 (list_elem_of_here _ _)).
    + subst y. by destruct (Hno h g1 (list_elem_of_here _ _)).
    + by apply (fam_disjoint _ _ Hl g1 g2 y).
  - intros y Hy Hfree. destruct (decide (y = h)) as [->|Hne].
    { exfalso. apply (Hfree h). apply occurs_insert. left. split; [done|apply list_elem_of_here]. }
    destruct (decide (y ∈ ns)) as [Hin|Hin]; [by apply Hns|]. assert (y ∉ h :: ns) as Hout by by apply not_elem_of_cons.
    unfold unlinked. rewrite Hun by done. apply (fam_free _ _ Hl); [by rewrite <- Hun|].
    intros g Ho. destruct (decide (g = h)) as [->|Hgh].
    + destruct Ho as (xs & E & Hx). pose proof (Hno h h (list_elem_of_here _ _)) as Hc. apply Hc. by eapply occurs_head.
    + apply (Hfree g), occurs_insert. by right.
Qed.

Lemma lists_forget s F h : lists s F -> F !! h = Some [] -> lists (delete h s) (delete h F).
Proof.
  intros Hl E. assert (forall g x, occurs (delete h F) g x -> g <> h /\ occurs F g x) as Ho.
  { intros g x (xs & Eg & Hx). apply lookup_delete_Some in Eg as [Hne Eg]. split; [congruence|]. by exists xs. }
  split.
  - intros g xs Eg. apply lookup_delete_Some in Eg as [Hne Eg]. eapply (is_list_frame s _ g xs [h]); [by apply Hl| |].
    + intros y Hy. apply lookup_delete_ne. intros ->. apply Hy, list_elem_of_here.
    + intros y Hy ->%list_elem_of_singleton. apply Hne. apply (fam_disjoint _ _ Hl h g h); [by eapply occurs_head|by exists xs].
  - intros g1 g2 x [_ H1]%Ho [_ H2]%Ho. by apply (fam_disjoint _ _ Hl g1 g2 x).
  - intros y Hy Hfree. unfold unlinked. destruct (decide (y = h)) as [->|Hne].
    { rewrite lookup_delete_eq in Hy. by destruct Hy. }
    rewrite lookup_delete_ne in Hy |- * by congruence. apply (fam_free _ _ Hl); [done|].
    intros g (xs & Eg & Hx). destruct (decide (g = h)) as [->|Hg].
    + rewrite E in Eg. injection Eg as <-. by apply list_elem_of_singleton in Hx.
    + apply (Hfree g). exists xs. split; [|done]. by rewrite lookup_delete_ne by congruence.
Qed.

(** Nodes of no list and an empty list deleted. *)
Lemma lists_drop s F h ns :
  lists s F -> F !! h = Some [] -> (forall x g, x ∈ ns -> ~ occurs F g x) -> lists (foldr delete s (h :: ns)) (delete h F).
Proof.
  intros Hl E Hno. cbn. apply lists_forget; [|done]. clear E. induction ns as [|x ns IH]; [done|]. cbn.
  apply lists_delete; [|intros g; exact (Hno x g (list_elem_of_here _ _))]. apply IH. intros y g Hy. apply (Hno y g). by right.
Qed.

Lemma lists_gone s s' F ns :
  lists s F -> (forall x g, x ∈ ns -> ~ occurs F g x) -> unchanged ns s s' -> (forall x, x ∈ ns -> s' !! x = None) -> lists s' F.
Proof.
  intros Hl Hno Hun Hns. split; [|apply (fam_disjoint _ _ Hl)|].
  - intros g xs E. eapply (is_list_frame s _ g xs ns); [by apply Hl|exact Hun|]. intros y Hy Hin. apply (Hno y g Hin). by exists xs.
  - intros y Hy Hfree. destruct (decide (y ∈ ns)) as [Hin|Hin]; [rewrite Hns in Hy by done; by destruct Hy|].
    unfold unlinked. rewrite Hun in Hy |- * by done. by apply (fam_free _ _ Hl).
Qed.
End Lists.

(** ** Threads that come and go *)

(** What else the scheduler's view says: a thread of a group is a thread of
    that process, and a termination queue belongs to a thread. *)
Record tracked (w : tasks) (v : TaskSpec.view) : Prop := {
  tr_ok : ok w v;
  tr_groups : forall p t, t ∈ default [] (v_groups v !! p) ->
    exists th, threads (t_sched w) !! t = Some th /\ Task.process th = p;
  tr_queues : forall t, is_Some (v_queues v !! TerminationQueue t) -> is_Some (threads (t_sched w) !! t);
}.

(** [t], a new thread of [p], at the end of the ready list. *)
Definition joined (t : tref) (p : Z) (v : TaskSpec.view) : TaskSpec.view :=
  View (v_ready v ++ [t]) (v_zombies v) (<[TerminationQueue t := []]> (v_queues v))
    (<[p := default [] (v_groups v !! p) ++ [t]]> (v_groups v)).

(** [t] as [thread_create] leaves it: its queue is there, and it is on no
    list. *)
Definition with_termination (t : tref) (v : TaskSpec.view) : TaskSpec.view := with_queue (TerminationQueue t) [] v.

(** Without the thread [t] of [p]. *)
Definition parted (t : tref) (p : Z) (l : list tref) (v : TaskSpec.view) : TaskSpec.view :=
  View (v_ready v) (v_zombies v) (delete (TerminationQueue t) (v_queues v)) (<[p := l]> (v_groups v)).

(** [w'] is [w] but for the nodes, the threads and the processor. *)
Record same_scheduling (w w' : tasks) : Prop := {
  ss_current : current (t_sched w') = current (t_sched w);
  ss_quantum : quantum_remaining (t_sched w') = quantum_remaining (t_sched w);
  ss_directories : directories (t_sched w') = directories (t_sched w);
  ss_reaper : reaper_ready (t_sched w') = reaper_ready (t_sched w);
}.

Section Views.
Implicit Types (w : tasks) (v : TaskSpec.view) (t u : tref) (p : Z) (th : thread) (q : queue).

(** No node of a thread that does not exist is in a list. *)
Lemma fresh_nowhere w v t F x g :
  tracked w v -> threads (t_sched w) !! t = None -> (forall h, F !! h = entry_of v h) -> x ∈ fresh_nodes t -> ~ occurs F g x.
Proof.
  intros [[Hb _] Hg Hq] Et HF Hx Ho. apply (occurs_in_view v F g x HF) in Ho.
  assert (forall th, threads (t_sched w) !! t <> Some th) as Hno by (intros th; by rewrite Et).
  unfold fresh_nodes, thread_nodes in Hx. rewrite !elem_of_cons in Hx. destruct Hx as [->|[->|[->|[->|[->|Hx]]]]]; [..|by apply not_elem_of_nil in Hx].
  - cbn [node_in] in Ho. destruct Ho as [-> [l E]]. cbn in E. destruct (v_queues v !! TerminationQueue t) as [l'|] eqn:Eq; [|done].
    destruct (Hq t) as [th E']; [by exists l'|]. by apply (Hno th).
  - destruct Ho as (p & _ & (th & E & _)%Hg). by apply (Hno th).
  - destruct Ho as [_ (_ & th & E & _)%(b_ready _ _ Hb)]. by apply (Hno th).
  - destruct Ho as (q & _ & (th & E & _)%(b_wait _ _ Hb)). by apply (Hno th).
  - destruct Ho as [_ (th & E & _)%(b_zombie _ _ Hb)]. by apply (Hno th).
Qed.

Lemma node_of_thread t u x : u <> t -> x ∈ [SchedNode u; WaitNode u; ZombieNode u; GroupNode u] -> x ∉ fresh_nodes t.
Proof. intros Hne Hx Hin. unfold fresh_nodes, thread_nodes in Hin. set_solver. Qed.

(** The nodes after [thread_create]. *)
Lemma holds_created w v t nd' ts' :
  tracked w v -> threads (t_sched w) !! t = None -> unchanged (fresh_nodes t) (nodes (t_sched w)) nd' ->
  is_list nd' (QueueHead (TerminationQueue t)) [] -> (forall x, x ∈ thread_nodes t -> unlinked nd' x) ->
  (forall u, is_Some (ts' !! u) -> u = t \/ is_Some (threads (t_sched w) !! u)) ->
  forall s, nodes s = nd' -> threads s = ts' -> holds s (with_termination t v).
Proof.
  intros Htr Et Hun Hl Hlk Hts s En Es. pose proof Htr as [[Hb _] _ _]. destruct (b_holds _ _ Hb) as [(F & HlF & HF) Hn].
  split; rewrite En.
  - exists (<[QueueHead (TerminationQueue t) := []]> F). split.
    + apply (lists_fresh (nodes (t_sched w)) _ _ _ (thread_nodes t)); [done| |done..]. intros x g Hx. by apply (fresh_nowhere w v t).
    + apply (entry_update v (with_termination t v)); [done|cbn; by rewrite lookup_insert_eq|]. intros [] Hne; try done. cbn. rewrite lookup_insert_ne; [done|]. congruence.
  - intros u Hu. rewrite Es in Hu. destruct (decide (u = t)) as [->|Hne].
    + assert (forall x, x ∈ thread_nodes t -> is_Some (nd' !! x)) as H by (intros x Hx; rewrite (Hlk x Hx); by eexists).
      repeat split; apply H, list_elem_of_In; cbn; tauto.
    + destruct (Hts u Hu) as [|Hu']; [done|]. destruct (Hn u Hu') as (H1 & H2 & H3 & H4).
      repeat split; (rewrite Hun; [done|]); apply (node_of_thread t u); [done|apply list_elem_of_In; cbn; tauto|done|apply list_elem_of_In; cbn; tauto|
        done|apply list_elem_of_In; cbn; tauto|done|apply list_elem_of_In; cbn; tauto].
Qed.

(** Other nodes for the same lists. *)
Lemma tracked_same w w' v :
  tracked w v -> holds (t_sched w') v -> threads (t_sched w') = threads (t_sched w) -> same_scheduling w w' -> tracked w' v.
Proof.
  intros [[[] Hrun] Hg Hq] Hh Et [E1 E2 E3 E5]. split; [split; [split|]|..]; unfold running; rewrite ?Et, ?E1, ?E2, ?E3, ?E5; done.
Qed.

(** [t]'s nodes are in no list of [v]. *)
Definition loose t v : Prop := (t ∉ v_ready v) /\ forall p, t ∉ default [] (v_groups v !! p).

Lemma untracked_loose w v t : tracked w v -> threads (t_sched w) !! t = None -> loose t v.
Proof.
  intros [[Hb _] Hg _] Et. split.
  - intros (_ & th & E & _)%(b_ready _ _ Hb). congruence.
  - intros p (th & E & _)%Hg. congruence.
Qed.

(** [thread_add] of a thread that is on no list. *)
Lemma wp_thread_add w v t th (Q : unit -> tasks -> Prop) :
  holds (t_sched w) (with_termination t v) -> disabled w -> threads (t_sched w) !! t = Some th ->
  is_Some (v_groups v !! Task.process th) -> loose t v ->
  (forall nd, holds (t_sched (set_nodes nd w)) (joined t (Task.process th) v) -> Q tt (set_nodes nd w)) ->
  wp (thread_add (Some t)) Q w.
Proof.
  intros Hh Hd Et [l El] [Hr Hg] HQ. set (p := Task.process th) in *.
  destruct (h_nodes _ _ Hh t) as (H1 & _ & _ & H4); [by exists th|]. specialize (Hg p) as Hgp. rewrite El in Hgp. cbn in Hgp.
  unfold thread_add. apply wp_bind, wp_assert; [done|]. apply wp_bind, (wp_get_thread _ _ th); [done|]. fold p.
  apply wp_bind, (wp_push_node w (with_termination t v) (with_group p (l ++ [t]) (with_termination t v)) (ThreadsHead p) (GroupNode <$> l));
    [done|done| | | | |].
  - intros h (p' & _ & Hin). by apply (Hg p').
  - cbn. by rewrite El.
  - cbn. rewrite lookup_insert_eq. cbn. by rewrite fmap_app.
  - intros h' Hne. destruct h'; try done. cbn. rewrite lookup_insert_ne by congruence. done.
  - intros nd Hnd. unfold scheduler_add. apply wp_bind, wp_assert_disabled; [done|].
    apply (wp_push_node (set_nodes nd w) (with_group p (l ++ [t]) (with_termination t v)) (joined t p v) ReadyHead (SchedNode <$> v_ready v)); [done| | |done| | |].
    + destruct (h_nodes _ _ Hnd t) as (H & _); [by exists th|exact H].
    + intros h [_ Hin]. by apply Hr.
    + cbn. by rewrite fmap_app.
    + intros h' Hne. destruct h'; try done. cbn. by rewrite El.
    + intros nd2 Hnd2. exact (HQ nd2 Hnd2).
Qed.

(** A thread that is ready joins the scheduler. *)
Lemma tracked_joined w w' v t th :
  tracked w v -> threads (t_sched w) !! t = None -> t <> IdleThread ->
  holds (t_sched w') (joined t (Task.process th) v) -> threads (t_sched w') = <[t := th]> (threads (t_sched w)) -> same_scheduling w w' ->
  state th = THREAD_READY -> wait_queue th = None -> is_Some (directories (t_sched w) !! Task.process th) ->
  tracked w' (joined t (Task.process th) v).
Proof.
  intros Htr Et Hi Hh Ets [E1 E2 E3 E5] Es Ew Hdir. pose proof (untracked_loose w v t Htr Et) as [Hnr Hng].
  pose proof Htr as [[Hb Hrun] Hg Hq]. set (p := Task.process th) in *.
  assert (threads (t_sched w') !! t = Some th) as Eself by (rewrite Ets; apply lookup_insert_eq).
  assert (forall u, u <> t -> threads (t_sched w') !! u = threads (t_sched w) !! u) as Eother by (intros u Hne; rewrite Ets; by apply lookup_insert_ne).
  assert (forall u x, threads (t_sched w') !! u = Some x -> (u = t /\ x = th) \/ (u <> t /\ threads (t_sched w) !! u = Some x)) as Hinv.
  { intros u x E. destruct (decide (u = t)) as [->|Hne]; [left; split; congruence|right; by rewrite <- Eother]. }
  assert (forall q u, u ∈ waiting (joined t p v) q <-> u ∈ waiting v q) as Hwait.
  { intros q u. unfold waiting, joined. cbn [v_queues]. destruct (decide (q = TerminationQueue t)) as [->|Hne].
    - rewrite lookup_insert_eq. destruct (v_queues v !! TerminationQueue t) eqn:E; [|done].
      destruct (Hq t) as [x Ex]; [by eexists|congruence].
    - by rewrite lookup_insert_ne. }
  split; [split|..].
  - split.
    + done.
    + rewrite Eother by done. apply Hb.
    + intros u. cbn [v_ready joined]. rewrite elem_of_app, list_elem_of_singleton. destruct (decide (u = t)) as [->|Hne].
      * rewrite Eself. split; [intros _|by right]. split; [done|]. exists th. split; [done|]. by left.
      * rewrite (b_ready _ _ Hb u), Eother by done. split; [by intros [|]|by left].
    + intros q u. rewrite Hwait, (b_wait _ _ Hb q u). destruct (decide (u = t)) as [->|Hne]; [|by rewrite Eother].
      rewrite Eself. split; intros (x & E & Ex); congruence.
    + intros u x [[-> ->]|[_ E]]%Hinv Hx; [done|by apply (b_blocked _ _ Hb u)].
    + intros u Hin. destruct (b_zombie _ _ Hb u Hin) as (x & E & Hx). exists x. rewrite Eother; [done|congruence].
    + intros u x [[-> ->]|[_ E]]%Hinv Hx; [congruence|]. rewrite E1. by apply (b_running _ _ Hb u x).
    + destruct (b_current _ _ Hb) as (c & Ec & [x Ex]). exists c. rewrite E1. split; [done|]. exists x. rewrite Eother; [done|congruence].
    + rewrite E2. apply Hb.
    + rewrite E3. intros u x [[-> ->]|[_ E]]%Hinv Hx; [done|by apply (b_dirs _ _ Hb u)].
    + intros u Hu [x [[-> ->]|[_ E]]%Hinv]; cbn [v_queues joined].
      * rewrite lookup_insert_eq. by eexists.
      * rewrite lookup_insert_is_Some. destruct (decide (TerminationQueue t = TerminationQueue u)); [by left|right].
        split; [done|]. apply (b_termination _ _ Hb); [done|by exists x].
    + rewrite E5. cbn [v_queues joined]. intros Hr. rewrite lookup_insert_ne by done. by apply (b_reaper _ _ Hb).
  - destruct Hrun as (Hq1 & c & x & Ec & Ex & Hx). split; [by rewrite E2|]. exists c, x. rewrite E1. split; [done|].
    rewrite Eother; [done|congruence].
  - intros p' u. cbn [v_groups joined]. intros Hin.
    assert (u = t /\ p' = p \/ u ∈ default [] (v_groups v !! p')) as [[-> ->]|Hin'].
    { destruct (decide (p' = p)) as [->|Hne]; [|right; by rewrite lookup_insert_ne in Hin].
      rewrite lookup_insert_eq in Hin. cbn in Hin. apply elem_of_app in Hin as [| ->%list_elem_of_singleton]; [by right|by left]. }
    + by exists th.
    + destruct (Hg p' u Hin') as (x & E & Hx). exists x. rewrite Eother; [done|congruence].
  - intros u [l Hl]. cbn [v_queues joined] in Hl. destruct (decide (u = t)) as [->|Hne]; [by exists th|].
    rewrite lookup_insert_ne in Hl by congruence. rewrite Eother by done. apply Hq. by exists l.
Qed.
(** The nodes after [thread_destroy]. *)
Lemma holds_dropped s s' v t :
  holds s v -> loose t v -> (t ∉ v_zombies v) -> (forall q, t ∉ waiting v q) -> v_queues v !! TerminationQueue t = Some [] ->
  nodes s' = foldr delete (nodes s) (fresh_nodes t) -> threads s' = delete t (threads s) ->
  holds s' (View (v_ready v) (v_zombies v) (delete (TerminationQueue t) (v_queues v)) (v_groups v)).
Proof.
  intros [(F & HlF & HF) Hn] [Hr Hg] Hz Hw Hq En Es. split; rewrite En.
  - exists (delete (QueueHead (TerminationQueue t)) F). split.
    + apply lists_drop; [done|by rewrite HF; cbn; rewrite Hq|]. intros x g Hx Ho. apply (occurs_in_view v F g x HF) in Ho.
      unfold thread_nodes in Hx. rewrite !elem_of_cons in Hx. destruct Hx as [->|[->|[->|[->|Hx]]]]; [..|by apply not_elem_of_nil in Hx].
      * destruct Ho as (p & _ & Hin). by apply (Hg p).
      * by destruct Ho.
      * destruct Ho as (q & _ & Hin). by apply (Hw q).
      * by destruct Ho.
    + intros h. destruct (decide (h = QueueHead (TerminationQueue t))) as [->|Hne].
      * rewrite lookup_delete_eq. cbn. by rewrite lookup_delete_eq.
      * rewrite lookup_delete_ne, HF by congruence. destruct h; try done. cbn. rewrite lookup_delete_ne by congruence. done.
  - intros u Hu. rewrite Es in Hu. assert (u <> t) as Hne by (intros ->; rewrite lookup_delete_eq in Hu; by destruct Hu).
    rewrite lookup_delete_ne in Hu by congruence. destruct (Hn u Hu) as (H1 & H2 & H3 & H4).
    assert (forall x, x ∈ [SchedNode u; WaitNode u; ZombieNode u; GroupNode u] -> is_Some (nodes s !! x) ->
      is_Some (foldr delete (nodes s) (fresh_nodes t) !! x)) as H.
    { intros x Hx Hs. rewrite foldr_delete_lookup, decide_False; [done|]. by apply (node_of_thread t u). }
    repeat split; (apply H; [apply list_elem_of_In; cbn; tauto|done]).
Qed.

(** A terminated thread leaves the scheduler. *)
Lemma tracked_parted w w' v t th l1 l2 :
  tracked w v -> threads (t_sched w) !! t = Some th -> t <> IdleThread -> state th = THREAD_TERMINATED -> (t ∉ v_zombies v) ->
  v_groups v !! Task.process th = Some (l1 ++ t :: l2) -> v_queues v !! TerminationQueue t = Some [] ->
  holds (t_sched w') (parted t (Task.process th) (l1 ++ l2) v) -> threads (t_sched w') = delete t (threads (t_sched w)) -> same_scheduling w w' ->
  (forall p, t ∉ default [] (v_groups (parted t (Task.process th) (l1 ++ l2) v) !! p)) ->
  tracked w' (parted t (Task.process th) (l1 ++ l2) v).
Proof.
  intros Htr Et Hi Es Hz Hgt Hqt Hh Ets [E1 E2 E3 E5] Hng. pose proof Htr as [[Hb Hrun] Hg Hq]. set (p := Task.process th) in *.
  assert (forall u, u <> t -> threads (t_sched w') !! u = threads (t_sched w) !! u) as Eother by (intros u Hne; rewrite Ets; by apply lookup_delete_ne).
  assert (forall u x, threads (t_sched w') !! u = Some x -> u <> t /\ threads (t_sched w) !! u = Some x) as Hinv.
  { intros u x E. rewrite Ets in E. apply lookup_delete_Some in E as [Hne E]. split; [congruence|done]. }
  assert (wait_queue th = None) as Hwt.
  { destruct (wait_queue th) eqn:E; [|done]. pose proof (b_blocked _ _ Hb t th Et). rewrite E in H. by rewrite H in Es. }
  assert (forall q, waiting (parted t p (l1 ++ l2) v) q = waiting v q) as Hwait.
  { intros q. unfold waiting, parted. cbn [v_queues]. destruct (decide (q = TerminationQueue t)) as [->|Hne].
    - by rewrite lookup_delete_eq, Hqt.
    - by rewrite lookup_delete_ne. }
  assert (current (t_sched w) <> Some t) as Hcur.
  { destruct Hrun as (_ & c & x & Ec & Ex & Hx). rewrite Ec. intros [= ->]. congruence. }
  split; [split|..].
  - split.
    + done.
    + rewrite Eother by done. apply Hb.
    + intros u. cbn [v_ready parted]. destruct (decide (u = t)) as [->|Hne].
      * rewrite (b_ready _ _ Hb t). split; intros [_ (x & E & Hx)]; [|by apply Hinv in E as [? _]].
        assert (x = th) as -> by congruence. rewrite Es in Hx. by destruct Hx.
      * by rewrite (b_ready _ _ Hb u), Eother.
    + intros q u. rewrite Hwait, (b_wait _ _ Hb q u). destruct (decide (u = t)) as [->|Hne]; [|by rewrite Eother].
      split; intros (x & E & Ex); [congruence|by apply Hinv in E as [? _]].
    + intros u x [_ E]%Hinv Hx. by apply (b_blocked _ _ Hb u).
    + intros u Hin. destruct (b_zombie _ _ Hb u Hin) as (x & E & Hx). exists x. rewrite Eother; [done|]. by intros ->.
    + intros u x [_ E]%Hinv Hx. rewrite E1. by apply (b_running _ _ Hb u x).
    + destruct (b_current _ _ Hb) as (c & Ec & Hc). exists c. rewrite E1. split; [done|]. rewrite Eother; [done|congruence].
    + rewrite E2. apply Hb.
    + rewrite E3. intros u x [_ E]%Hinv Hx. by apply (b_dirs _ _ Hb u).
    + intros u Hu [x [Hne E]%Hinv]. cbn [v_queues parted]. rewrite lookup_delete_ne by congruence.
      apply (b_termination _ _ Hb); [done|by exists x].
    + rewrite E5. cbn [v_queues parted]. intros Hr. rewrite lookup_delete_ne by done. by apply (b_reaper _ _ Hb).
  - destruct Hrun as (Hq1 & c & x & Ec & Ex & Hx). split; [by rewrite E2|]. exists c, x. rewrite E1. split; [done|].
    rewrite Eother; [done|congruence].
  - intros p' u Hin. assert (u <> t) as Hne by (intros ->; by apply (Hng p')). rewrite Eother by done. apply Hg.
    cbn [v_groups parted] in Hin. destruct (decide (p' = p)) as [->|Hp]; [|by rewrite lookup_insert_ne in Hin].
    rewrite lookup_insert_eq in Hin. rewrite Hgt. cbn in *. set_solver.
  - intros u [l Hl]. cbn [v_queues parted] in Hl. apply lookup_delete_Some in Hl as [Hne Hl].
    rewrite Eother by congruence. apply Hq. by exists l.
Qed.
End Views.

(** ** Destruction *)

Lemma with_cpu_same (m : machine) : with_cpu (pmm_cpu (m_pmm m)) m = m.
Proof. by destruct m as [[] ? ?]. Qed.

(** The frames [fs] of a stack whose first pages are gone. *)
Definition emptied (i : nat) (fs : list Z) : list (option Z) := replicate i None ++ (Some <$> drop i fs).

Lemma emptied_start fs : length fs = 4%nat -> emptied 0 fs = filled fs.
Proof. intros E. unfold emptied, filled. by rewrite E, app_nil_r. Qed.

Lemma emptied_end fs : length fs = 4%nat -> emptied 4 fs = no_frames.
Proof. intros E. unfold emptied. by rewrite drop_ge, app_nil_r by lia. Qed.

Lemma emptied_next i fs f : fs !! i = Some f -> emptied i fs !! i = Some (Some f) /\ <[i := None]> (emptied i fs) = emptied (S i) fs.
Proof.
  intros E. unfold emptied. rewrite (drop_S fs f i) by done. split.
  - rewrite lookup_app_r by (by rewrite length_replicate). by rewrite length_replicate, Nat.sub_diag.
  - rewrite insert_app_r_alt by (by rewrite length_replicate). rewrite length_replicate, Nat.sub_diag, replicate_S_end, <- app_assoc. done.
Qed.

(** A terminated thread at [a], of no program, with its stack in slot [n] on
    the frames [fs]; but for the stack the machine is [m0]. *)
Record dead_thread (kd d n : Z) (m0 : machine) (k : kernel) (u : list (Z * Z)) (v : TaskSpec.view) (a : Z) (fs : list Z) (th : thread)
    (l1 l2 : list tref) : Prop := {
  dt_space : task_space kd d m0;
  dt_ready : slot_ready kd d n m0;
  dt_pages : length fs = 4%nat /\ slot_state kd n m0 (filled fs) (the_supply (k_heap k));
  dt_slot : vam_inv (k_vam k) /\ kernel_stack th = slot_address n;
  dt_block : a <> NULL /\ a ∈ u.*1 /\ heap_holds (k_heap k) u;
  dt_room : heap_end (the_heap (k_heap k)) + Z.of_nat (pages_free m0) * PAGE_SIZE <= KERNEL_HEAP_END + 1;
  dt_tracked : tracked (Prelude.view k_tasks_l k) v;
  dt_flags : disabled (Prelude.view k_tasks_l k);
  dt_thread : threads (k_sched k) !! HeapThread a = Some th /\ state th = THREAD_TERMINATED;
  dt_kernel : user_stack th = 0 /\ usermode_desc th = NULL;
  dt_group : v_groups v !! Task.process th = Some (l1 ++ HeapThread a :: l2);
  dt_alone : (HeapThread a ∉ v_zombies v) /\ v_queues v !! TerminationQueue (HeapThread a) = Some [];
  dt_process : is_Some (k_processes k !! Task.process th);
}.

Section Destroy.
Context (kd d n : Z) (m0 : machine) (k : kernel) (u : list (Z * Z)) (v : TaskSpec.view) (a : Z) (fs : list Z) (th : thread) (l1 l2 : list tref).
Context (Hdead : dead_thread kd d n m0 k u v a fs th l1 l2).
Implicit Types (h : heap) (m : machine) (s : sched) (w : list (Z * Z)).

Let t : tref := HeapThread a.
Let v' : TaskSpec.view := parted t (Task.process th) (l1 ++ l2) v.

(** The thread is gone: its block, its slot and its pages are free again. *)
Record thread_gone (k' : kernel) (u' : list (Z * Z)) : Prop := {
  tg_block : a :: u'.*1 ≡ₚ u.*1 /\ heap_holds (k_heap k') u';
  tg_extent : heap_end (the_heap (k_heap k')) = heap_end (the_heap (k_heap k));
  tg_slot : slots_updated (k_vam k) (k_vam k') (fun i => negb (bool_decide (i = n)) && slot_used (k_vam k) i);
  tg_pages : slot_state kd n m0 no_frames (the_supply (k_heap k'));
  tg_space : task_space kd d (the_supply (k_heap k'));
  tg_tracked : tracked (Prelude.view k_tasks_l k') v';
  tg_threads : threads (k_sched k') = delete t (threads (k_sched k));
  tg_rest : exists (c : console) h nd, k' = starting (on_screen c k) h (the_supply (k_heap k')) (k_vam k') (with_threads (threads (k_sched k')) (with_nodes nd (k_sched k)));
}.

(** The stack, page by page. *)
Lemma wp_release_stack h m va s (Q : unit -> kernel -> Prop) :
  slot_state kd n m0 (filled fs) m -> (forall m', slot_state kd n m0 no_frames m' -> Q tt (starting k h m' va s)) ->
  wp (for_each 0 (Z.to_nat STACK_PAGES) (fun i => release_stack_page (u32 (slot_address n + i * PAGE_SIZE)))) Q (starting k h m va s).
Proof.
  intros Hs HQ. pose proof (dt_space _ _ _ _ _ _ _ _ _ _ _ _ Hdead) as Ht. pose proof (dt_ready _ _ _ _ _ _ _ _ _ _ _ _ Hdead) as Hr.
  destruct (dt_pages _ _ _ _ _ _ _ _ _ _ _ _ Hdead) as [Hlen _]. change (Z.to_nat STACK_PAGES) with 4%nat.
  apply (wp_for_each (fun i k' => exists m', slot_state kd n m0 (emptied (Z.to_nat i) fs) m' /\ k' = starting k h m' va s)).
  - exists m. split; [|done]. by rewrite emptied_start.
  - intros j k' Hj (m' & Hs' & ->). assert (0 <= j < 4) as Hj4 by lia.
    destruct (page_of_index n j (sr_slot _ _ _ _ Hr) Hj4) as (_ & -> & _).
    destruct (lookup_lt_is_Some_2 fs (Z.to_nat j)) as [f Ef]; [lia|]. destruct (emptied_next _ _ _ Ef) as [El Eu].
    apply (wp_release_stack_page kd d n m0 Ht Hr k _ j f h m' va s _ Hs' Hj4 El). intros m2 Hs2. exists m2. split; [|done].
    rewrite Eu in Hs2. by replace (Z.to_nat (j + 1)) with (S (Z.to_nat j)) by lia.
  - intros k' (m' & Hs' & ->). apply HQ. change (Z.to_nat (0 + Z.of_nat 4)) with 4%nat in Hs'. by rewrite emptied_end in Hs'.
Qed.
(** [t] leaves the list of its process. *)
Lemma wp_leave_group {A} h m va (R : KM A) (Q : A -> kernel -> Prop) :
  (forall nd, holds (with_nodes nd (k_sched k)) (with_group (Task.process th) (l1 ++ l2) v) ->
     wp R Q (starting k h m va (with_nodes nd (k_sched k)))) ->
  wp (let* p := tasks_op (list_op (get_prev (Some (GroupNode t)))) in
      let* n := tasks_op (list_op (get_next (Some (GroupNode t)))) in
      (if negb (is_null p) && negb (is_null n) then tasks_op (list_op (list_remove (Some (GroupNode t)))) else ret tt) ;;; R) Q
    (starting k h m va (k_sched k)).
Proof.
  intros HQ. pose proof Hdead as [_ _ _ _ _ _ [[Hb _] _ _] _ _ _ Hg _].
  pose proof (b_holds _ _ Hb) as Hh. destruct (h_lists _ _ Hh) as (F & HlF & HF). change (t_sched (Prelude.view k_tasks_l k)) with (k_sched k) in *.
  assert (F !! ThreadsHead (Task.process th) = Some ((GroupNode <$> l1) ++ GroupNode t :: (GroupNode <$> l2))) as EF.
  { rewrite HF. cbn. rewrite Hg. cbn. by rewrite fmap_app. }
  destruct (listed_pointers _ F _ _ (GroupNode t) HlF EF) as (x & y & E); [apply elem_of_app; right; apply list_elem_of_here|].
  assert (with_nodes (nodes (k_sched k)) (k_sched k) = k_sched k) as Eid by by destruct (k_sched k).
  apply wp_bind, wp_starting_list, wp_get_prev; [by rewrite E|]. rewrite Eid. unfold prev_of. rewrite E.
  apply wp_bind, wp_starting_list, wp_get_next; [by rewrite E|]. rewrite Eid. unfold DList.next_of. rewrite E. cbn [is_null negb andb prev next].
  apply wp_bind, wp_starting_list, (wp_fam_remove _ F (ThreadsHead (Task.process th)) (GroupNode <$> l1) _ (GroupNode <$> l2)); [done|done|].
  intros nd Hnd _. apply HQ.
  apply (holds_relisted (Prelude.view k_tasks_l k) v _ (ThreadsHead (Task.process th)) ((GroupNode <$> l1) ++ (GroupNode <$> l2)) nd F); [done|done|done| |].
  - cbn. rewrite lookup_insert_eq. cbn. by rewrite fmap_app.
  - intros h' Hne. destruct h'; try done. cbn. rewrite lookup_insert_ne by congruence. done.
Qed.

(** The group lists each thread once. *)
Lemma group_parted : (t ∉ l1 ++ l2) /\ forall p, t ∉ default [] (v_groups (with_group (Task.process th) (l1 ++ l2) v) !! p).
Proof.
  pose proof Hdead as [_ _ _ _ _ _ [[Hb _] Htg _] _ [Et _] _ Hg _]. destruct (h_lists _ _ (b_holds _ _ Hb)) as (F & HlF & HF).
  assert (F !! ThreadsHead (Task.process th) = Some (GroupNode <$> (l1 ++ t :: l2))) as EF by (rewrite HF; cbn; by rewrite Hg).
  destruct (fam_list _ _ HlF _ _ EF) as [[_ Hnd]%NoDup_cons _]. apply NoDup_fmap_1 in Hnd. apply NoDup_app in Hnd as (_ & H1 & [H2 _]%NoDup_cons).
  assert (t ∉ l1 ++ l2) as Hno.
  { intros [Hin|Hin]%elem_of_app; [|done]. apply (H1 t Hin), list_elem_of_here. }
  split; [done|]. intros p. cbn [v_groups with_group]. destruct (decide (p = Task.process th)) as [->|Hne]; [by rewrite lookup_insert_eq|].
  rewrite lookup_insert_ne by done. intros (x & E & Ep)%Htg. change (t_sched (Prelude.view k_tasks_l k)) with (k_sched k) in E. fold t in Et. congruence.
Qed.

(** A terminated thread is neither ready nor waits for anything. *)
Lemma dead_idle : (t ∉ v_ready v) /\ forall q, t ∉ waiting v q.
Proof.
  pose proof Hdead as [_ _ _ _ _ _ Htr _ [Et Es] _ _ _ _]. fold t in Et. split.
  - intros (_ & x & E & Hx)%(b_ready _ _ (proj1 (tr_ok _ _ Htr))).
    change (t_sched (Prelude.view k_tasks_l k)) with (k_sched k) in E. assert (x = th) as -> by congruence.
    rewrite Es in Hx. by destruct Hx.
  - intros q Hin. apply (b_wait _ _ (proj1 (tr_ok _ _ Htr)) q t) in Hin as (x & E & Ex).
    pose proof (b_blocked _ _ (proj1 (tr_ok _ _ Htr)) t x E) as Hb.
    change (t_sched (Prelude.view k_tasks_l k)) with (k_sched k) in E. assert (x = th) as -> by congruence.
    rewrite Hb in Es by congruence. done.
Qed.

(** Nothing of this depends on the screen. *)
Lemma dead_screen (s : console) : dead_thread kd d n m0 (on_screen s k) u v a fs th l1 l2.
Proof. destruct Hdead. by split. Qed.
End Destroy.

Lemma set_view_tasks k : set_view k_tasks_l (Prelude.view k_tasks_l k) k = k.
Proof. by destruct k as [[? [[] ? ?]] ? []]. Qed.

(** What [thread_destroy] says. *)
Definition farewell (k : kernel) (th : thread) : list Z :=
  text "destroying thread " ++ characters (default [] (name <$> k_processes k !! Task.process th)) ++ NEWLINE.

Section Destroyed.
Context (kd d n : Z) (m0 : machine) (k : kernel) (u : list (Z * Z)) (v : TaskSpec.view) (a : Z) (fs : list Z) (th : thread) (l1 l2 : list tref).

Let t : tref := HeapThread a.

Lemma wp_thread_destroy (Q : unit -> kernel -> Prop) :
  dead_thread kd d n m0 k u v a fs th l1 l2 ->
  (forall k' u', thread_gone kd d n m0 k u v a th l1 l2 k' u' -> printed (farewell k th) k k' -> Q tt k') -> wp (thread_destroy a) Q k.
Proof.
  intros Hdead HQ. destruct (dt_process _ _ _ _ _ _ _ _ _ _ _ _ Hdead) as [pr Epr].
  unfold thread_destroy. apply wp_bind, wp_zoom, (wp_get_thread _ _ th); [apply Hdead|]. rewrite set_view_tasks.
  unfold fetch. apply wp_bind, wp_bind, wp_gets, (wp_require _ _ _ _ pr); [exact Epr|].
  apply wp_bind, wp_says. intros s Hsaid. set (k0 := on_screen s k). pose proof (dead_screen kd d n m0 k u v a fs th l1 l2 Hdead s) as Hdead0. fold k0 in Hdead0.
  assert (printed (farewell k th) k k0) as Hfw by (unfold farewell; by rewrite Epr). clear Hsaid Epr.
  pose proof Hdead0 as [Ht Hr [Hlen Hs] [Hv Hks] [Hnz [Hau Hheap]] Hroom Htr Hd [Et Es] [Eus Eud] Hg [Hz Hq] _].
  destruct (group_parted kd d n m0 k0 u v a fs th l1 l2 Hdead0) as [Hno Hnog], (dead_idle kd d n m0 k0 u v a fs th l1 l2 Hdead0) as [Hnr Hnw].
  fold t in Hno, Hnog, Hnr, Hnw. pose proof (slot_space kd d n m0 Ht Hr _ _ Hs) as Hts.
  refine (eq_ind _ (wp _ _) _ _ (starting_id k0)). fold t.
  apply wp_bind, wp_assert; [by apply negb_true_iff, Z.eqb_neq|].
  apply wp_bind, wp_starting_cpu, wp_gets. rewrite with_cpu_same.
  apply wp_bind, wp_assert; [by apply negb_true_iff|].
  apply wp_bind, wp_starting_tasks, (wp_get_thread _ _ th); [done|]. cbn [t_cpu t_sched].
  rewrite with_cpu_same.
  apply wp_bind, wp_assert; [by apply bool_decide_eq_true|].
  apply (wp_leave_group kd d n m0 k0 u v a fs th l1 l2 Hdead0). intros nd Hnd.
  rewrite Hks, (proj2 (Z.eqb_neq _ _)) by by apply slot_address_not_null, Hr. cbn [negb].
  apply wp_bind, wp_bind, (wp_release_stack kd d n m0 k0 u v a fs th l1 l2 Hdead0); [done|]. intros m' Hs'.
  apply wp_bind, wp_starting_vam, wp_vam_free_stack; [done|apply Hr|]. intros va Hva.
  eapply wp_starting_update; [exact Et|]. rewrite Eud. change (NULL =? NULL) with true. cbn [negb].
  apply wp_bind, wp_ret.
  apply wp_bind, wp_starting_tasks. eapply wp_get_thread; [apply lookup_insert_eq|]. cbn [t_cpu t_sched]. rewrite with_cpu_same.
  cbn [user_stack with_stack]. rewrite Eus. change (0 =? 0) with true. cbn [negb]. apply wp_bind, wp_ret.
  apply (wp_free_thread k0 a u); [|done|].
  { apply (slot_heap_moved kd d n m0 Ht Hr _ (filled fs) no_frames (the_supply (k_heap k0)) m'); [done|done| |].
    - unfold heap_at. by rewrite heap_world_eta.
    - unfold pages_free in *. rewrite (sl_count _ _ _ _ _ Hs'). cbn. by rewrite Z.sub_0_r. }
  intros h' u' Hh' Eu Ee.
  change (threads (with_threads ?x _)) with x. change (nodes (with_threads _ (with_nodes nd _))) with nd. rewrite delete_insert_eq.
  apply (HQ _ u'); [|exact Hfw]. split; [by split|exact Ee|exact Hva|exact Hs'|by apply (slot_space kd d n m0 Ht Hr no_frames)| |done|].
  - eapply (tracked_parted (Prelude.view k_tasks_l k0) _ v t th l1 l2); try done. eapply (holds_dropped _ _ _ t Hnd); [|done|exact Hnw|done|done|done].
    by split.
  - by exists s, h', (foldr delete nd (fresh_nodes t)).
Qed.
End Destroyed.

(** ** Creation *)

(** Every thread but the idle one has a block of the heap. *)
Definition on_blocks (k : kernel) (u : list (Z * Z)) : Prop := forall a, is_Some (threads (k_sched k) !! HeapThread a) -> a ∈ u.*1.

(** [k] with these nodes. *)
Definition relinked (nd : gmap node (list_node node)) (k : kernel) : kernel :=
  set_view k_tasks_l (set_nodes nd (Prelude.view k_tasks_l k)) k.

Lemma relinked_heap nd k : k_heap (relinked nd k) = k_heap k.
Proof. by destruct k as [[? [[] ? ?]]]. Qed.

Lemma relinked_view nd k : Prelude.view k_tasks_l (relinked nd k) = set_nodes nd (Prelude.view k_tasks_l k).
Proof. by destruct k as [[? [[] ? ?]]]. Qed.

Section Spawn.
Context (kd d p entry : Z) (k : kernel) (u : list (Z * Z)) (v : TaskSpec.view).
Context (Hk : thread_space kd d p k u) (Htr : tracked (Prelude.view k_tasks_l k) v) (Hbl : on_blocks k u).
Context (Hg : is_Some (v_groups v !! p)) (Hoff : disabled (Prelude.view k_tasks_l k)).
Implicit Types (a n : Z) (fs : list Z).

Lemma new_block a : (a ∉ u.*1) -> threads (k_sched k) !! HeapThread a = None.
Proof. intros Ha. destruct (threads (k_sched k) !! HeapThread a) eqn:E; [|done]. destruct Ha. apply Hbl. by rewrite E. Qed.

(** Where creation fails the scheduler sees nothing of it. *)
Lemma tracked_unmade a k' u' : thread_unmade kd d k u a k' u' -> tracked (Prelude.view k_tasks_l k') v /\ on_blocks k' u'.
Proof.
  intros [[Ha [Eu _]] _ _ _ Eth [Hun Hnone] (h & nd & E)]. pose proof (new_block a Ha) as Hnew. rewrite delete_id in Eth by done.
  pose proof Htr as [[Hb Hrun] Hgr Hq]. pose proof (b_holds _ _ Hb) as Hh. destruct (h_lists _ _ Hh) as (F & HlF & HF).
  change (t_sched (Prelude.view k_tasks_l k)) with (k_sched k) in *.
  assert (same_scheduling (Prelude.view k_tasks_l k) (Prelude.view k_tasks_l k')) as Hs by by rewrite E.
  assert (holds (k_sched k') v) as Hh'.
  { split.
    - exists F. split; [|done]. apply (lists_gone (nodes (k_sched k)) _ F (fresh_nodes (HeapThread a))); [done| |done..].
      intros x g Hx. by apply (fresh_nowhere (Prelude.view k_tasks_l k) v (HeapThread a)).
    - intros t Ht. rewrite Eth in Ht. assert (t <> HeapThread a) as Hne by (intros ->; rewrite Hnew in Ht; by destruct Ht).
      destruct (h_nodes _ _ Hh t Ht) as (H1 & H2 & H3 & H4).
      repeat split; (rewrite Hun; [done|]); apply (node_of_thread _ t); try done; apply list_elem_of_In; cbn; tauto. }
  split; [by apply (tracked_same (Prelude.view k_tasks_l k))|]. intros b Hin. rewrite Eth in Hin. rewrite Eu. by apply Hbl.
Qed.

(** The new thread joins the scheduler. *)
Lemma wp_join_new a n fs k1 u1 (Q : unit -> kernel -> Prop) :
  thread_made kd d p entry k u a n fs k1 u1 ->
  (forall nd, tracked (Prelude.view k_tasks_l (relinked nd k1)) (joined (HeapThread a) p v) -> on_blocks (relinked nd k1) u1 -> Q tt (relinked nd k1)) ->
  wp (tasks_op (thread_add (Some (HeapThread a)))) Q k1.
Proof.
  intros Hm HQ. pose proof Hm as [[Ha [Eu _]] _ _ [_ Hs] _ [Eth _] [Hlk [Hl Hun]] (h & nd & E)]. pose proof (new_block a Ha) as Hnew.
  assert (same_scheduling (Prelude.view k_tasks_l k) (Prelude.view k_tasks_l k1)) as Hss by by rewrite E.
  assert (holds (k_sched k1) (with_termination (HeapThread a) v)) as Hh.
  { apply (holds_created (Prelude.view k_tasks_l k) v (HeapThread a) (nodes (k_sched k1)) (threads (k_sched k1))); try done.
    intros t Ht. rewrite Eth in Ht. apply lookup_insert_is_Some in Ht as [<-|[_ Ht]]; [by left|by right]. }
  assert (threads (k_sched k1) !! HeapThread a = Some (new_thread p entry (next_tid k) n)) as Ea by (rewrite Eth; apply lookup_insert_eq).
  apply wp_zoom, (wp_thread_add (Prelude.view k_tasks_l k1) v (HeapThread a) (new_thread p entry (next_tid k) n)); [done| |done|done| |].
  - unfold disabled. destruct (sl_cpu _ _ _ _ _ Hs) as [Ef _]. change (eflags (t_cpu (Prelude.view k_tasks_l k1))) with
      (eflags (pmm_cpu (m_pmm (the_supply (k_heap k1))))). by rewrite Ef.
  - by apply (untracked_loose (Prelude.view k_tasks_l k)).
  - intros nd' Hnd'. apply (HQ nd').
    + apply (tracked_joined (Prelude.view k_tasks_l k) _ v (HeapThread a) (new_thread p entry (next_tid k) n)); [done|done|done|done|done|by destruct Hss|done|done|].
      exists (PHYS_TO_VIRT d). exact (tp_directory _ _ _ _ _ Hk).
    + intros b Hb. change (threads (k_sched (relinked nd' k1))) with (threads (k_sched k1)) in Hb. rewrite Eth in Hb. rewrite Eu.
      apply lookup_insert_is_Some in Hb as [[= <-]|[_ Hb]]; [apply list_elem_of_here|right; by apply Hbl].
Qed.

(** C8 A thread that is created and added takes part in the scheduling: with
    interrupts off, [thread_create] and [thread_add] keep every invariant of
    the scheduler, with the new thread as the last of the ready list and of the
    threads of its process, ready, with nobody waiting for its end; when
    [thread_create] fails the invariants hold for the threads there were. *)
Theorem thread_spawn_spec fuel :
  (1 < fuel)%nat ->
  wp (let* a := thread_create fuel p entry in
      if a =? NULL then ret NULL
      else tasks_op (thread_add (Some (HeapThread a))) ;;; ret a)
    (fun a k' => exists u' v', tracked (Prelude.view k_tasks_l k') v' /\ on_blocks k' u' /\ heap_holds (k_heap k') u' /\
       ((a <> NULL /\ v' = joined (HeapThread a) p v /\ exists n, slot_used (k_vam k) n = false /\
           threads (k_sched k') = <[HeapThread a := new_thread p entry (next_tid k) n]> (threads (k_sched k))) \/
        (a = NULL /\ v' = v /\ threads (k_sched k') = threads (k_sched k) /\
         ((forall n, 0 <= n < KERNEL_STACK_COUNT -> slot_used (k_vam k) n = true) \/ free_pages (pmm_at (the_supply (k_heap k))) < 4)))) k.
Proof.
  intros Hfuel. apply wp_bind, (wp_thread_create kd d p entry k u Hk fuel); [done|..].
  - intros a n fs k1 u1 Hnz Hm. rewrite (proj2 (Z.eqb_neq a NULL)) by done. apply wp_bind, (wp_join_new a n fs k1 u1); [done|].
    intros nd Ht Hb. apply wp_ret. exists u1, (joined (HeapThread a) p v). split; [done|]. split; [done|].
    pose proof (tm_block _ _ _ _ _ _ _ _ _ _ _ Hm) as (_ & _ & Hh). pose proof (tm_slot _ _ _ _ _ _ _ _ _ _ _ Hm) as (_ & Hf & _).
    pose proof (tm_thread _ _ _ _ _ _ _ _ _ _ _ Hm) as [Eth _]. split; [by rewrite relinked_heap|]. left. split; [done|]. split; [done|]. exists n. done.
  - intros a k1 u1 Hwhy Hu. change (NULL =? NULL) with true. apply wp_ret. destruct (tracked_unmade a k1 u1 Hu) as [H1 H2].
    exists u1, v. split; [done|]. split; [done|]. pose proof (tu_block _ _ _ _ _ _ _ Hu) as (Ha & _ & Hh).
    split; [done|]. right. split; [done|]. split; [done|]. rewrite (tu_threads _ _ _ _ _ _ _ Hu). split; [by apply delete_id, new_block|done].
Qed.
End Spawn.

(** ** A life of a thread *)

(** The current thread [c], not detached, ends while nobody waits for that. *)
Lemma wp_kill_quiet w v c th (Q : unit -> tasks -> Prop) :
  ok w v -> current (t_sched w) = Some c -> c <> IdleThread -> Some c <> reaper_thread (t_sched w) ->
  threads (t_sched w) !! c = Some th -> detached th = false -> v_queues v !! TerminationQueue c = Some [] ->
  (forall w1 w', threads (t_sched w1) = <[c := with_state THREAD_TERMINATED th]> (threads (t_sched w)) -> same_scheduling w w1 ->
     disabled w1 -> stack (t_sched w1) = KillReturn :: stack (t_sched w) ->
     switches c (pick (v_ready (remove_ready c v)) c) w1 w' -> ok w' (remove_ready c v) -> Q tt w') ->
  wp thread_kill_current Q w.
Proof.
  intros Hok Hc Hi Hr Et Edt Hq HQ. unfold thread_kill_current.
  apply wp_bind, wp_cpu_op, wp_modify. change (Tasks _ (t_sched w)) with (cli w).
  assert (ok (cli w) v) as Hok0 by by apply ok_cpu. pose proof (cli_disabled w) as Hd0.
  apply wp_bind, wp_scheduler_current. cbn [t_sched cli]. rewrite Hc. apply wp_bind, wp_assert; [done|].
  apply wp_bind. unfold scheduler_terminate. apply wp_bind, wp_assert; [done|].
  apply wp_bind, wp_assert_disabled; [done|]. apply wp_bind, wp_gets. cbn [t_sched cli].
  apply wp_bind, wp_assert; [by rewrite bool_decide_true|].
  apply wp_bind_assoc, wp_bind, (wp_mark_terminated (cli w) v c); [done..|].
  intros w1 Hb1 Hu1 C1. assert (disabled w1) as Hd1 by (unfold disabled in *; by rewrite C1).
  assert (threads (t_sched w1) = <[c := with_state THREAD_TERMINATED th]> (threads (t_sched w))) as Et1.
  { rewrite (up_threads _ _ _ _ Hu1). by rewrite <- alter_insert_eq, insert_id. }
  apply wp_bind, wp_gets. pose proof (queue_length w1 _ _ _ (b_holds _ _ Hb1) Hq) as Hlen.
  apply wp_bind. eapply (wp_wait_queue_wake_all w1); [done|done|exact Hq|lia|]. intros w2 -> Hb2 _.
  apply wp_bind, (wp_get_thread _ _ (with_state THREAD_TERMINATED th)); [by rewrite Et1, lookup_insert_eq|].
  cbn [detached with_state]. rewrite Edt. apply wp_ret. apply wp_bind, wp_modify.
  apply (wp_yield _ (remove_ready c v) c).
  - by apply base_stack.
  - done.
  - exact (eq_trans (up_current _ _ _ _ Hu1) Hc).
  - intros w' Hs Hok'. apply (HQ (set_stack (KillReturn :: stack (t_sched w1)) w1)); [done| |done|cbn; by rewrite (up_stack _ _ _ _ Hu1)|done|done].
    by split; cbn; rewrite ?(up_current _ _ _ _ Hu1), ?(up_quantum _ _ _ _ Hu1), ?(up_directories _ _ _ _ Hu1), ?(up_reaper _ _ _ _ Hu1), ?(up_reaper_ready _ _ _ _ Hu1).
Qed.

(** Another processor state is none of the concern of the paging structures. *)
Lemma task_space_cpu kd d m c : task_space kd d m -> task_space kd d (with_cpu c m).
Proof. intros [[H1 [H2 H3 H4] H5] H6 H7 [H8 H9 H10] H11 H12 H13 H14]. split; try done; by split. Qed.

Lemma slot_ready_cpu kd d n m c : slot_ready kd d n m -> slot_ready kd d n (with_cpu c m).
Proof. intros []. by split. Qed.

Lemma slot_state_cpu kd n m0 F m c : slot_state kd n m0 F m -> slot_state kd n (with_cpu c m0) F (with_cpu c m).
Proof. intros []. by split. Qed.

Lemma view_set_tasks w k : Prelude.view k_tasks_l (set_view k_tasks_l w k) = w.
Proof. by destruct w, k as [[? [[] ? ?]]]. Qed.

Lemma set_set_tasks w w' k : set_view k_tasks_l w (set_view k_tasks_l w' k) = set_view k_tasks_l w k.
Proof. by destruct k as [[? [[] ? ?]]]. Qed.

Lemma with_tasks_heap w k : k_heap (set_view k_tasks_l w k) = HeapWorld (the_heap (k_heap k)) (with_cpu (t_cpu w) (the_supply (k_heap k))).
Proof. by destruct k as [[? [[] ? ?]]]. Qed.

Lemma wp_tasks {A} (x : TM A) w k (Q : A -> kernel -> Prop) :
  wp x (fun a w' => Q a (set_view k_tasks_l w' k)) w -> wp (tasks_op x) Q (set_view k_tasks_l w k).
Proof.
  intros H. apply wp_zoom. rewrite view_set_tasks. eapply wp_mono; [exact H|]. intros a w' HQ. by rewrite set_set_tasks.
Qed.

Lemma heap_holds_cpu kd d h m c u : task_space kd d m -> heap_at h m u -> heap_at h (with_cpu c m) u.
Proof.
  intros Ht Hh. pose proof (task_space_cpu kd d m c Ht) as Ht'. pose proof (heap_at_bound h m u Hh).
  apply (heap_at_walks kd h m (with_cpu c m) u); [done|apply Ht|apply Ht'|apply Ht'|apply Ht'|done|done].
Qed.

(** What a context switch leaves alone in a thread. *)
Lemma after_switch_user c e st t th :
  kernel_stack (after_switch c e st t th) = kernel_stack th /\ user_stack (after_switch c e st t th) = user_stack th /\
  usermode_desc (after_switch c e st t th) = usermode_desc th.
Proof. unfold after_switch, demote. repeat (case_decide || case_bool_decide); done. Qed.

(** The threads changed, each in its place and for the same process. *)
Lemma tracked_changed w w' v v' (f : tref -> thread -> thread) :
  tracked w v -> ok w' v' -> v_groups v' = v_groups v -> v_queues v' = v_queues v ->
  (forall t, threads (t_sched w') !! t = f t <$> threads (t_sched w) !! t) ->
  (forall t th, Task.process (f t th) = Task.process th) -> tracked w' v'.
Proof.
  intros [_ Hg Hq] Hok Eg Eq Ef Hp. split; [done|..].
  - intros p t. rewrite Eg. intros (th & E & <-)%Hg. exists (f t th). rewrite Ef, E. split; [done|apply Hp].
  - intros t. rewrite Eq, Ef. intros H. rewrite fmap_is_Some. by apply Hq.
Qed.

(** The thread [t] has run and ended; what has changed of a thread's record. *)
Definition ran (t : tref) (st st' : list frame) (x : tref) (th : thread) : thread :=
  after_switch t IdleThread st' x ((if decide (x = t) then with_state THREAD_TERMINATED else id) (after_switch IdleThread t st x th)).

Lemma ran_process t st st' x th : Task.process (ran t st st' x th) = Task.process th.
Proof.
  unfold ran. destruct (after_switch_fields t IdleThread st' x
    ((if decide (x = t) then with_state THREAD_TERMINATED else id) (after_switch IdleThread t st x th))) as (_ & _ & -> & _).
  destruct (after_switch_fields IdleThread t st x th) as (_ & _ & Ex & _). destruct (decide (x = t)); exact Ex.
Qed.

Lemma ran_detached t st st' x th : t <> IdleThread -> detached (ran t st st' x th) = detached th.
Proof.
  intros Hi. unfold ran. destruct (after_switch_fields t IdleThread st' x
    ((if decide (x = t) then with_state THREAD_TERMINATED else id) (after_switch IdleThread t st x th))) as (_ & -> & _).
  destruct (after_switch_fields IdleThread t st x th) as (_ & Ex & _). destruct (decide (x = t)); exact Ex.
Qed.

Lemma ran_other t st st' x th : x <> IdleThread -> x <> t -> ran t st st' x th = th.
Proof. intros H1 H2. unfold ran, after_switch. repeat (rewrite decide_False by naive_solver). done. Qed.

Lemma ran_self t st st' th : t <> IdleThread -> state (ran t st st' t th) = THREAD_TERMINATED /\
  kernel_stack (ran t st st' t th) = kernel_stack th /\ user_stack (ran t st st' t th) = user_stack th /\
  usermode_desc (ran t st st' t th) = usermode_desc th.
Proof.
  intros Hi. unfold ran. rewrite (decide_True (P := t = t)) by done.
  set (th3 := with_state THREAD_TERMINATED (after_switch IdleThread t st t th)).
  destruct (after_switch_fields t IdleThread st' t th3) as (_ & _ & _ & ->). destruct (after_switch_user t IdleThread st' t th3) as (-> & -> & ->).
  destruct (after_switch_user IdleThread t st t th) as (E1 & E2 & E3). rewrite decide_False by done.
  rewrite decide_False by (by intros (_ & _ & ?)). done.
Qed.

(** From the idle thread to [t], the only one that is ready, and back when [t]
    ends. *)
Lemma wp_run_alone w v t th (Q : unit -> tasks -> Prop) :
  ok w v -> disabled w -> current (t_sched w) = Some IdleThread -> v_ready v = [t] -> t <> IdleThread ->
  Some t <> reaper_thread (t_sched w) -> threads (t_sched w) !! t = Some th -> detached th = false ->
  v_queues v !! TerminationQueue t = Some [] ->
  (forall w' st st', ok w' (remove_ready t v) -> disabled w' -> current (t_sched w') = Some IdleThread ->
     (forall x, threads (t_sched w') !! x = ran t st st' x <$> threads (t_sched w) !! x) ->
     directories (t_sched w') = directories (t_sched w) -> Q tt w') ->
  wp (scheduler_switch ;;; cpu_op interrupt_enable ;;; thread_kill_current) Q w.
Proof.
  intros Hok Hd Hc Er Hi Hr Et Edt Hq HQ. apply wp_bind, (wp_switch w v IdleThread); [apply Hok|done..|].
  rewrite Er. assert (pick [t] IdleThread = t) as -> by (unfold pick; cbn; by case_decide). intros w3 Hs3 Hok3.
  apply wp_bind, wp_cpu_op, wp_modify. set (w4 := Tasks _ (t_sched w3)). set (th3 := after_switch IdleThread t (stack (t_sched w)) t th).
  assert (threads (t_sched w4) !! t = Some th3) as E3 by (change (t_sched w4) with (t_sched w3); by rewrite (sw_threads _ _ _ _ Hs3), Et).
  apply (wp_kill_quiet w4 v t th3).
  - by apply ok_cpu.
  - apply (sw_current _ _ _ _ Hs3).
  - done.
  - change (t_sched w4) with (t_sched w3). by destruct (sw_reaper _ _ _ _ Hs3) as [-> _].
  - exact E3.
  - unfold th3. by destruct (after_switch_fields IdleThread t (stack (t_sched w)) t th) as (_ & -> & _).
  - done.
  - intros w4' w5 Et4 Hss4 Hd4 _ Hs5 Hok5.
    assert (pick (v_ready (remove_ready t v)) t = IdleThread) as Ep.
    { unfold remove_ready. cbn [v_ready with_ready]. rewrite Er. cbn. rewrite decide_False; [done|]. by intros H. }
    rewrite Ep in Hs5. apply (HQ w5 (stack (t_sched w)) (stack (t_sched w4'))).
    + done.
    + unfold disabled. by rewrite (sw_flags _ _ _ _ Hs5).
    + apply (sw_current _ _ _ _ Hs5).
    + intros x. rewrite (sw_threads _ _ _ _ Hs5), Et4. unfold ran. destruct (decide (x = t)) as [->|Hne].
      * by rewrite lookup_insert_eq, Et.
      * rewrite lookup_insert_ne by done. change (t_sched w4) with (t_sched w3). rewrite (sw_threads _ _ _ _ Hs3).
        by destruct (threads (t_sched w) !! x).
    + rewrite (sw_directories _ _ _ _ Hs5), (ss_directories _ _ Hss4). apply (sw_directories _ _ _ _ Hs3).
Qed.

Section Lifetime.
Context (kd d p entry : Z) (k : kernel) (u : list (Z * Z)) (v : TaskSpec.view) (l : list tref).
Context (Hk : thread_space kd d p k u) (Htr : tracked (Prelude.view k_tasks_l k) v) (Hbl : on_blocks k u).
Context (Hg : v_groups v !! p = Some l) (Hoff : disabled (Prelude.view k_tasks_l k)).
Context (Hidle : current (k_sched k) = Some IdleThread) (Hnone : v_ready v = []).
Context (Hreap : forall r, reaper_thread (k_sched k) = Some r -> is_Some (threads (k_sched k) !! r)).
Context (Hproc : is_Some (k_processes k !! p)).
Implicit Types (a n : Z) (fs : list Z).

Let m0 : machine := the_supply (k_heap k).

(** When the new thread [a] has ended it can be destroyed. *)
Lemma now_dead a n fs k1 u1 w th :
  thread_made kd d p entry k u a n fs k1 u1 -> a <> NULL ->
  tracked w (with_termination (HeapThread a) (with_group p (l ++ [HeapThread a]) v)) -> disabled w ->
  threads (t_sched w) !! HeapThread a = Some th -> state th = THREAD_TERMINATED -> kernel_stack th = slot_address n ->
  user_stack th = 0 -> usermode_desc th = NULL -> Task.process th = p ->
  dead_thread kd d n (with_cpu (t_cpu w) m0) (set_view k_tasks_l w k1) u1
    (with_termination (HeapThread a) (with_group p (l ++ [HeapThread a]) v)) a fs th l [].
Proof.
  intros [[Ha [Eu Hheap]] Eext [Hn [Hfree [Hlow Hupd]]] [Hlen Hs] Hts _ _ (h & nd & Ek1)] Hnz Htw Hdw Eth Es Ek Eus Ed Ep.
  pose proof (new_block k u Hbl a Ha) as Hnew. split.
  - by apply task_space_cpu, Hk.
  - by apply slot_ready_cpu, Hk.
  - split; [done|]. rewrite with_tasks_heap. by apply slot_state_cpu.
  - split; [apply Hupd|done].
  - split; [done|]. split; [rewrite Eu; apply list_elem_of_here|]. rewrite with_tasks_heap.
    apply (heap_holds_cpu kd d); [done|]. unfold heap_at. by rewrite heap_world_eta.
  - rewrite with_tasks_heap. cbn [the_heap]. rewrite Eext. exact (heap_at_bound _ _ _ (thread_heap kd d p k u Hk)).
  - by rewrite view_set_tasks.
  - by rewrite view_set_tasks.
  - done.
  - done.
  - rewrite Ep. apply lookup_insert_eq.
  - split; [|apply lookup_insert_eq]. intros Hz. destruct (b_zombie _ _ (proj1 (tr_ok _ _ Htr)) _ Hz) as (x & E & _).
    change (t_sched (Prelude.view k_tasks_l k)) with (k_sched k) in E. congruence.
  - rewrite Ep. change (k_processes (set_view k_tasks_l w k1)) with (k_processes k1). by rewrite Ek1.
Qed.

(** The new thread [a], added to the scheduler, runs and ends. *)
Lemma wp_run_and_end a n fs k1 u1 (Q : unit -> kernel -> Prop) :
  thread_made kd d p entry k u a n fs k1 u1 -> a <> NULL ->
  (forall c th k5, dead_thread kd d n (with_cpu c m0) k5 u1 (with_termination (HeapThread a) (with_group p (l ++ [HeapThread a]) v)) a fs th l [] ->
     (forall t, t <> IdleThread -> t <> HeapThread a -> threads (k_sched k5) !! t = threads (k_sched k) !! t) ->
     (forall x y, threads (k_sched k5) !! x = Some y -> x = HeapThread a \/ exists y0, threads (k_sched k) !! x = Some y0 /\ Task.process y = Task.process y0) ->
     (exists w, k5 = set_view k_tasks_l w k1 /\ directories (t_sched w) = directories (k_sched k)) -> Task.process th = p -> detached th = false -> Q tt k5) ->
  wp (tasks_op (thread_add (Some (HeapThread a))) ;;;
      tasks_op (scheduler_switch ;;; cpu_op interrupt_enable ;;; thread_kill_current)) Q k1.
Proof.
  intros Hm Hnz HQ. set (t := HeapThread a).
  apply wp_bind, (wp_join_new kd d p entry k u v Hk Htr Hbl (ex_intro _ l Hg) Hoff a n fs k1 u1); [done|].
  intros nd Htr2 _. fold t in Htr2. unfold relinked. set (w2 := set_nodes nd (Prelude.view k_tasks_l k1)) in *. rewrite relinked_view in Htr2. fold w2 in Htr2.
  assert (joined t p v = View [t] (v_zombies v) (<[TerminationQueue t := []]> (v_queues v)) (<[p := l ++ [t]]> (v_groups v))) as Ev
    by (unfold joined; by rewrite Hg, Hnone).
  rewrite Ev in Htr2. set (v2 := View _ _ _ _) in Htr2.
  pose proof Hm as [[Ha [Eu Hheap]] Eext [Hn [Hfree [Hlow Hupd]]] [Hlen Hs] Hts [Eth _] _ (h & nd0 & Ek1)].
  pose proof (new_block k u Hbl a Ha) as Hnew. fold t in Hnew, Eth.
  assert (disabled w2 /\ current (t_sched w2) = Some IdleThread /\ reaper_thread (t_sched w2) = reaper_thread (k_sched k)) as (Hd2 & Hc2 & Hr2).
  { unfold disabled, w2. destruct (sl_cpu _ _ _ _ _ Hs) as [Ef _]. change (eflags (t_cpu (set_nodes nd (Prelude.view k_tasks_l k1)))) with
      (eflags (pmm_cpu (m_pmm (the_supply (k_heap k1))))). rewrite Ef. split; [exact Hoff|].
    change (t_sched (set_nodes nd (Prelude.view k_tasks_l k1))) with (with_nodes nd (k_sched k1)). rewrite Ek1. done. }
  assert (Some t <> reaper_thread (t_sched w2)) as Hnr.
  { rewrite Hr2. intros E. destruct (Hreap t) as [x Ex]; [done|]. congruence. }
  set (th0 := new_thread p entry (next_tid k) n) in *.
  assert (threads (t_sched w2) = <[t := th0]> (threads (k_sched k))) as Et2 by exact Eth.
  apply wp_tasks, (wp_run_alone w2 v2 t th0); [apply Htr2|done|done|done|done|done|by rewrite Et2, lookup_insert_eq|done|apply lookup_insert_eq|].
  intros w5 st st' Hok5 Hd5 Hc5 Eth5 Edir5. set (th5 := ran t st st' t th0). set (k5 := set_view k_tasks_l w5 k1).
  assert (remove_ready t v2 = with_termination t (with_group p (l ++ [t]) v)) as Ev5.
  { unfold remove_ready, with_ready, with_termination, with_queue, with_group. cbn. rewrite Hnone. rewrite decide_False; [done|]. by intros H. }
  rewrite Ev5 in Hok5. destruct (ran_self t st st' th0) as (Es5 & Ek5 & Eu5 & Ed5); [done|].
  assert (Task.process th5 = p) as Ep5 by apply ran_process.
  apply (HQ (t_cpu w5) th5 k5); [|..| |done|].
  - apply (now_dead a n fs k1 u1); try done.
    + eapply (tracked_changed w2 w5 v2); [exact Htr2|done|done|done|exact Eth5|]. intros x th. apply ran_process.
    + change (k_sched k5) with (t_sched w5). by rewrite Eth5, Et2, lookup_insert_eq.
  - intros x Hxi Hxt. change (k_sched k5) with (t_sched w5). rewrite Eth5, Et2, lookup_insert_ne by done.
    destruct (threads (k_sched k) !! x) as [y|]; [|done]. cbn. by rewrite ran_other.
  - intros x y. change (k_sched k5) with (t_sched w5). rewrite Eth5, Et2. destruct (decide (x = t)) as [->|Hne]; [by left|].
    rewrite lookup_insert_ne by done. destruct (threads (k_sched k) !! x) as [y0|]; [|done]. intros [= <-]. right. exists y0.
    split; [done|]. apply ran_process.
  - exists w5. split; [done|]. rewrite Edir5. change (t_sched w2) with (with_nodes nd (k_sched k1)). by rewrite Ek1.
  - apply (ran_detached t st st' t th0). done.
Qed.

(** Nothing is left of a thread that has been. *)
Record life_over (k' : kernel) (u' : list (Z * Z)) : Prop := {
  lo_blocks : u'.*1 ≡ₚ u.*1 /\ heap_holds (k_heap k') u' /\ on_blocks k' u';
  lo_slots : forall i, slot_used (k_vam k') i = slot_used (k_vam k) i;
  lo_pages : (forall g, g mod PAGE_SIZE = 0 -> m_free (the_supply (k_heap k')) g = m_free m0 g) /\
    free_pages (pmm_at (the_supply (k_heap k'))) = free_pages (pmm_at m0);
  lo_walk : forall va, is_u32 va -> walk (m_ram (the_supply (k_heap k'))) kd va = walk (m_ram m0) kd va;
  lo_tracked : tracked (Prelude.view k_tasks_l k') v;
  lo_threads : forall t, t <> IdleThread -> threads (k_sched k') !! t = threads (k_sched k) !! t;
}.

(** An empty slot is as it was. *)
Lemma slot_idle n m : slot_ready kd d n m0 -> slot_state kd n m0 no_frames m ->
  (forall g, g mod PAGE_SIZE = 0 -> m_free m g = m_free m0 g) /\ free_pages (pmm_at m) = free_pages (pmm_at m0) /\
  (forall va, is_u32 va -> walk (m_ram m) kd va = walk (m_ram m0) kd va).
Proof.
  intros Hr Hs. pose proof (tp_space _ _ _ _ _ Hk) as Ht. split; [|split].
  - intros g Hg'. rewrite (sl_free _ _ _ _ _ Hs) by done. rewrite bool_decide_false by by apply not_elem_of_nil. apply andb_true_r.
  - rewrite (sl_count _ _ _ _ _ Hs). cbn. lia.
  - intros va Hva. destruct (decide (Exists (fun j => va / PAGE_SIZE = page_of n j / PAGE_SIZE) (seqZ 0 4))) as [(j & Hj%elem_of_seqZ & E)%Exists_exists|Hno].
    + assert (0 <= j < 4) as Hj4 by lia. rewrite !(walk_page _ _ va (page_of n j)) by done.
      destruct (slot_walk kd d n m0 Ht Hr _ m j Hs Hj4) as [-> _].
      by destruct (slot_walk kd d n m0 Ht Hr _ m0 j (slot_start kd d n m0 Ht Hr) Hj4) as [-> _].
    + apply (slot_walk_kernel kd d n m0 Ht Hr _ m va Hs Hva). intros j Hj E. apply Hno, Exists_exists. exists j. split; [|done].
      apply elem_of_seqZ. lia.
Qed.

Lemma unmade_over a k' u' : thread_unmade kd d k u a k' u' -> life_over k' u'.
Proof.
  intros Hu. destruct (tracked_unmade kd d k u v Htr Hbl a k' u' Hu) as [H1 H2]. destruct Hu as [[Ha [Eu Hh]] [_ [_ Hsl]] Hm _ Eth _ _].
  assert (threads (k_sched k') = threads (k_sched k)) as Et by (rewrite Eth; by apply delete_id, (new_block k u)).
  destruct Hm as [E|(n & Hr & Hs)].
  - by split; rewrite ?E, ?Et.
  - destruct (slot_idle n _ Hr Hs) as (P1 & P2 & P3). split; rewrite ?Et; done.
Qed.

Lemma gone_over a n fs k1 u1 c th k5 k' u' :
  thread_made kd d p entry k u a n fs k1 u1 ->
  dead_thread kd d n (with_cpu c m0) k5 u1 (with_termination (HeapThread a) (with_group p (l ++ [HeapThread a]) v)) a fs th l [] ->
  (forall t, t <> IdleThread -> t <> HeapThread a -> threads (k_sched k5) !! t = threads (k_sched k) !! t) ->
  k_vam k5 = k_vam k1 -> Task.process th = p ->
  thread_gone kd d n (with_cpu c m0) k5 u1 (with_termination (HeapThread a) (with_group p (l ++ [HeapThread a]) v)) a th l [] k' u' ->
  life_over k' u'.
Proof.
  intros [[Ha [Eu _]] _ [Hn [Hfree [Hlow [_ [_ Hs1]]]]] _ _ _ _ _] Hdead Hth Ev Ep [[Eu' Hh] _ [_ [_ Hs2]] Hs _ Htg Eth _].
  pose proof (new_block k u Hbl a Ha) as Hnew.
  assert (slot_state kd n m0 no_frames (with_cpu (pmm_cpu (m_pmm m0)) (the_supply (k_heap k')))) as Hs0.
  { apply (slot_state_cpu _ _ _ _ _ (pmm_cpu (m_pmm m0))) in Hs.
    assert (with_cpu (pmm_cpu (m_pmm m0)) (with_cpu c m0) = m0) as E by by destruct m0 as [[] ? ?]. by rewrite E in Hs. }
  destruct (slot_idle n _ (tp_slots _ _ _ _ _ Hk n Hn Hfree Hlow) Hs0) as (P1 & P2 & P3).
  assert (u'.*1 ≡ₚ u.*1) as Eb by (apply (Permutation_cons_inv (a := a)); by rewrite Eu', Eu).
  assert (forall t, t <> IdleThread -> threads (k_sched k') !! t = threads (k_sched k) !! t) as Hthr.
  { intros t Hi. rewrite Eth. destruct (decide (t = HeapThread a)) as [->|Hne]; [by rewrite lookup_delete_eq|].
    rewrite lookup_delete_ne by done. by apply Hth. }
  split; try done.
  - split; [exact Eb|]. split; [exact Hh|]. intros b Hb. rewrite Hthr in Hb by done. rewrite Eb. by apply Hbl.
  - intros i. rewrite Hs2, Ev, Hs1. case_bool_decide; subst; [by rewrite Hfree|done].
  - assert (parted (HeapThread a) (Task.process th) (l ++ []) (with_termination (HeapThread a) (with_group p (l ++ [HeapThread a]) v)) = v) as E.
    { unfold parted, with_termination, with_queue, with_group. cbn [v_ready v_zombies v_queues v_groups].
      rewrite Ep, app_nil_r, insert_insert_eq, delete_insert_eq, (insert_id _ p l Hg).
      rewrite delete_id; [by destruct v|]. destruct (v_queues v !! TerminationQueue (HeapThread a)) eqn:Eq; [|done].
      destruct (tr_queues _ _ Htr (HeapThread a)) as [x Ex]; [by rewrite Eq|].
      change (t_sched (Prelude.view k_tasks_l k)) with (k_sched k) in Ex. congruence. }
    by rewrite E in Htg.
Qed.

(** C7 The life of a thread is a round trip. An idle kernel creates a thread
    and adds it, switches to it, the thread ends at once, and it is destroyed:
    afterwards the same blocks of the heap are in use, the same stack slots and
    exactly the same pages are free, the kernel translates every address as
    before, the other threads are as they were, and every invariant of the
    scheduler holds for the same lists and queues. When there is no slot or
    fewer than four pages are free no thread appears, and all of this holds as
    well. *)
Theorem thread_lifetime fuel :
  (1 < fuel)%nat ->
  wp (let* a := thread_create fuel p entry in
      if a =? NULL then ret NULL
      else
        (tasks_op (thread_add (Some (HeapThread a))) ;;;
         tasks_op (scheduler_switch ;;; cpu_op interrupt_enable ;;; thread_kill_current)) ;;;
        thread_destroy a ;;;
        ret a)
    (fun a k' => (exists u', life_over k' u') /\
       (a = NULL -> (forall n, 0 <= n < KERNEL_STACK_COUNT -> slot_used (k_vam k) n = true) \/ free_pages (pmm_at m0) < 4)) k.
Proof.
  intros Hfuel. apply wp_bind, (wp_thread_create kd d p entry k u Hk fuel); [done|..].
  - intros a n fs k1 u1 Hnz Hm. rewrite (proj2 (Z.eqb_neq a NULL)) by done.
    apply wp_bind, (wp_run_and_end a n fs k1 u1); [done|done|]. intros c th k5 Hdead Hth _ [w [-> _]] Ep _.
    apply wp_bind, (wp_thread_destroy kd d n _ _ u1 _ a fs th l [] _ Hdead). intros k' u' Hgone _. apply wp_ret.
    split; [|done]. exists u'. by apply (gone_over a n fs k1 u1 c th (set_view k_tasks_l w k1)).
  - intros a k1 u1 Hwhy Hu. change (NULL =? NULL) with true. apply wp_ret. split; [exists u1; by apply (unmade_over a)|done].
Qed.
End Lifetime.

(** [thread_destroy] of a terminated thread of the kernel, with interrupts
    off: the thread leaves the list of its process, the pages of its stack go
    back to the pool, its slot and its block are free again, its nodes are
    gone, and every invariant of the scheduler holds for the others, which keep
    their state. *)
Theorem thread_destroy_spec kd d n m0 k u v a fs th l1 l2 :
  dead_thread kd d n m0 k u v a fs th l1 l2 ->
  wp (thread_destroy a) (fun _ k' => printed (farewell k th) k k' /\ exists u', thread_gone kd d n m0 k u v a th l1 l2 k' u') k.
Proof. intros H. apply (wp_thread_destroy kd d n m0 k u v a fs th l1 l2 _ H). intros k' u' Hg Hp. split; [done|by exists u']. Qed.

(** ** Witnesses *)

(** An idle kernel with one process, which has no thread yet. *)
Definition idle_nodes : gmap node (list_node node) :=
  list_to_map (ring ReadyHead [] ++ ring ZombieHead [] ++ ring (ThreadsHead owner) [] ++ (lone <$> fresh_nodes IdleThread)).
Definition idle_threads : gmap tref thread :=
  {[IdleThread := Thread 0 KERNEL_STACKS_START NULL THREAD_RUNNING NULL false None 0 NULL [IdleStart]]}.
Definition idle_view : TaskSpec.view := View [] [] ∅ {[owner := []]}.
Definition idle_kernel : kernel := kernel_on stacks_machine idle_nodes idle_threads (Some IdleThread).

#[local] Opaque stacks_machine.

Lemma idle_ok : tracked (Prelude.view k_tasks_l idle_kernel) idle_view /\ on_blocks idle_kernel owner_blocks.
Proof.
  assert (ok (Tasks (Cpu 2 elf_kd []) (k_sched idle_kernel)) idle_view) as Hok.
  { apply ok_check_ok, (bool_decide_eq_true_1 _). vm_compute. reflexivity. }
  split.
  - split; [exact Hok|..].
    + intros p t. unfold idle_view. cbn [v_groups]. destruct (decide (p = owner)) as [->|Hne].
      * rewrite lookup_singleton_eq. intros H. by apply not_elem_of_nil in H.
      * rewrite lookup_singleton_ne by congruence. intros H. by apply not_elem_of_nil in H.
    + intros t [l E]. cbn in E. by rewrite lookup_empty in E.
  - intros a [x E]. change (threads (k_sched idle_kernel)) with idle_threads in E. unfold idle_threads in E.
    by rewrite lookup_singleton_ne in E.
Qed.

Lemma thread_spawn_spec_witness :
  wp (let* a := thread_create 2 owner 0x400000 in
      if a =? NULL then ret NULL
      else tasks_op (thread_add (Some (HeapThread a))) ;;; ret a)
    (fun a k' => a <> NULL /\ exists v', ok (Prelude.view k_tasks_l k') v' /\ v_ready v' = [HeapThread a]) idle_kernel.
Proof.
  destruct idle_ok as [Htr Hbl]. eapply wp_mono.
  { exact (thread_spawn_spec elf_kd elf_directory owner 0x400000 idle_kernel owner_blocks idle_view (owner_space _ _ _) Htr Hbl
      (ex_intro _ [] (lookup_singleton_eq owner [])) eq_refl 2 ltac:(lia)). }
  intros a k' (u' & v' & Ht & _ & _ & [(Ha & -> & _)|(-> & _ & _ & Hno)]).
  - split; [exact Ha|]. exists (joined (HeapThread a) owner idle_view). split; [apply Ht|reflexivity].
  - destruct (stacks_left _ _ _ Hno).
Defined.

Lemma idle_facts : v_groups idle_view !! owner = Some [] /\ disabled (Prelude.view k_tasks_l idle_kernel) /\
  current (k_sched idle_kernel) = Some IdleThread /\ v_ready idle_view = [] /\
  (forall r, reaper_thread (k_sched idle_kernel) = Some r -> is_Some (threads (k_sched idle_kernel) !! r)) /\
  is_Some (k_processes idle_kernel !! owner).
Proof.
  split; [apply lookup_singleton_eq|]. split; [reflexivity|]. split; [reflexivity|]. split; [reflexivity|].
  split; [intros r E; discriminate E|]. eexists. apply lookup_singleton_eq.
Qed.

Lemma thread_lifetime_witness :
  wp (let* a := thread_create 2 owner 0x400000 in
      if a =? NULL then ret NULL
      else
        (tasks_op (thread_add (Some (HeapThread a))) ;;;
         tasks_op (scheduler_switch ;;; cpu_op interrupt_enable ;;; thread_kill_current)) ;;;
        thread_destroy a ;;;
        ret a)
    (fun a k' => a <> NULL /\ free_pages (pmm_at (the_supply (k_heap k'))) = 3542 /\ ok (Prelude.view k_tasks_l k') idle_view) idle_kernel.
Proof.
  destruct idle_ok as [Htr Hbl], idle_facts as (Hg & Hd & Hc & Hr & Hre & Hp). eapply wp_mono.
  { exact (thread_lifetime elf_kd elf_directory owner 0x400000 idle_kernel owner_blocks idle_view [] (owner_space _ _ _) Htr Hbl Hg Hd Hc Hr Hre Hp 2 ltac:(lia)). }
  intros a k' [(u' & Hover) Hwhy]. split; [|split].
  - intros E. destruct (stacks_left _ _ _ (Hwhy E)).
  - destruct (lo_pages _ _ _ _ _ _ Hover) as [_ ->]. exact (proj2 (proj2 (proj2 (proj2 stacks_facts)))).
  - apply Hover.
Defined.

Lemma thread_destroy_spec_witness :
  wp (let* a := thread_create 2 owner 0x400000 in
      (tasks_op (thread_add (Some (HeapThread a))) ;;;
       tasks_op (scheduler_switch ;;; cpu_op interrupt_enable ;;; thread_kill_current)) ;;;
      ret a)
    (fun a k5 => wp (thread_destroy a) (fun _ k' => threads (k_sched k') !! HeapThread a = None) k5) idle_kernel.
Proof.
  destruct idle_ok as [Htr Hbl], idle_facts as (Hg & Hd & Hc & Hr & Hre & Hp).
  apply wp_bind, (wp_thread_create elf_kd elf_directory owner 0x400000 idle_kernel owner_blocks (owner_space _ _ _)); [lia|..].
  - intros a n fs k1 u1 Hnz Hm. apply wp_bind.
    apply (wp_run_and_end elf_kd elf_directory owner 0x400000 idle_kernel owner_blocks idle_view [] (owner_space _ _ _) Htr Hbl Hg Hd Hc Hr Hre Hp a n fs k1 u1); [exact Hm|exact Hnz|].
    intros c th k5 Hdead _ _ _ _ _. apply wp_ret. eapply wp_mono; [exact (thread_destroy_spec _ _ _ _ _ _ _ _ _ _ _ _ Hdead)|].
    intros [] k' (_ & u' & Hgone). rewrite (tg_threads _ _ _ _ _ _ _ _ _ _ _ _ _ Hgone). apply lookup_delete_eq.
  - intros a k' u' Hno. destruct (stacks_left _ _ _ Hno).
Defined.
