(* ===== verification/ReapSpec.v ===== *)
(** * The end of a thread and of its process

    [reap], the common part of [thread_join] of [kernel/task/thread.c] and of
    the reaper ([kernel/task/reaper.c]): a terminated thread is destroyed, and
    with the last thread its process. *)

From S2P Require Import Prelude Layout Bitmap Machine Pmm DList ListFamily CString Ram Words Paging PagingSpec Vam Vmm Heap HeapSpec HeapRoom HeapSupply TaskSpace Task TaskSpec TaskOps Sync SyncSpec Fs Console ConsoleSpec Kernel Printing Process Lifecycle ElfSpec TaskDemo ThreadStack ProcessSpec ThreadSpec ThreadLife.

(** ** The processes beside a stack *)

Section Slot.
Context (kd d n : Z) (m0 : machine) (Ht : task_space kd d m0) (Hr : slot_ready kd d n m0).
Implicit Types (m : machine) (L : list Z) (F : list (option Z)).

(** The table of the slot belongs to no process. *)
Lemma slot_owned_kept F m L e : slot_state kd n m0 F m -> process_space kd L m0 -> e ∈ L ->
  owned (m_ram m) e = owned (m_ram m0) e.
Proof.
  intros Hs Hps He. assert (forall g, g ∈ all_owned (m_ram m0) [e] -> g ∈ all_owned (m_ram m0) L) as Hsub.
  { intros g. rewrite all_owned_cons, elem_of_app. intros [Hg|Hg]; [by eapply elem_of_all_owned|by apply not_elem_of_nil in Hg]. }
  pose proof (ps_kernel _ _ _ Hps) as Hk. pose proof (ps_aligned _ _ _ Hps) as Hal. rewrite Forall_forall in Hk, Hal.
  assert (all_owned (m_ram m) [e] = all_owned (m_ram m0) [e]) as E; [|unfold all_owned in E; cbn in E; by rewrite !app_nil_r in E].
  apply owned_kept; [apply Forall_forall; intros g Hg; by apply Hal, Hsub|]. intros g i Hg Hin Hi. apply (sl_only _ _ _ _ _ Hs); [done| |done].
  destruct (Hk g (Hsub g Hin)) as [_ Hkt]. destruct (slot_pde_range kd d n m0 Hr) as [Hir _]. apply not_eq_sym. apply Hkt; [done|apply Hr].
Qed.

Lemma slot_all_owned_kept F m L : slot_state kd n m0 F m -> process_space kd L m0 -> all_owned (m_ram m) L = all_owned (m_ram m0) L.
Proof. intros Hs Hps. apply all_owned_ext. intros e He. by apply (slot_owned_kept F m L). Qed.

(** The stack is none of the processes' concern: its pages were free. *)
Lemma process_space_slot F m L : slot_state kd n m0 F m -> process_space kd L m0 -> process_space kd L m.
Proof.
  intros Hs Hps. pose proof (slot_space kd d n m0 Ht Hr _ m Hs) as Hts. pose proof (slot_all_owned_kept F m L Hs Hps) as E.
  pose proof Hps as [_ _ _ Hnd Hfr Hk]. split; rewrite ?E; [apply Hts|apply Hts|apply Hts|done| |].
  - eapply Forall_impl; [exact Hfr|]. intros g (H1 & H2 & H3 & H4 & H5 & H6). repeat (split; [done|]).
    rewrite (sl_total _ _ _ _ _ Hs). split; [done|]. change (m_free m g = false). rewrite (sl_free _ _ _ _ _ Hs) by done.
    change (m_free m0 g = false) in H6. by rewrite H6.
  - eapply Forall_impl; [exact Hk|]. intros g [Hgk Hgt]. split; [done|]. intros j Hj Hp.
    destruct (slot_pdes kd d n m0 Ht Hr _ m j Hs Hj) as [Ep _]. unfold table_of. rewrite Ep in *. by apply Hgt.
Qed.
End Slot.

(** ** The scheduler without a process *)

(** The groups but for that of [p]. *)
Definition without_group (p : Z) (v : TaskSpec.view) : TaskSpec.view :=
  View (v_ready v) (v_zombies v) (v_queues v) (delete p (v_groups v)).

Lemma tracked_without w w' v p :
  tracked w v -> v_groups v !! p = Some [] -> (forall t th, threads (t_sched w) !! t = Some th -> Task.process th <> p) ->
  nodes (t_sched w') = delete (ThreadsHead p) (nodes (t_sched w)) -> threads (t_sched w') = threads (t_sched w) ->
  directories (t_sched w') = delete p (directories (t_sched w)) ->
  current (t_sched w') = current (t_sched w) -> quantum_remaining (t_sched w') = quantum_remaining (t_sched w) ->
  reaper_ready (t_sched w') = reaper_ready (t_sched w) -> tracked w' (without_group p v).
Proof.
  intros [[[] Hrun] Hg Hq] Ep Hno En Et Ed Ec Eq Er. destruct b_holds as [(F & HlF & HF) Hn]. split; [split; [split|]|..].
  - split; rewrite En, ?Et.
    + exists (delete (ThreadsHead p) F). split; [apply lists_forget; [done|]; rewrite HF; cbn; by rewrite Ep|].
      intros h. destruct (decide (h = ThreadsHead p)) as [->|Hne].
      * rewrite lookup_delete_eq. cbn. by rewrite lookup_delete_eq.
      * rewrite lookup_delete_ne, HF by congruence. destruct h; try done. cbn. rewrite lookup_delete_ne by congruence. done.
    + intros t Ht. destruct (Hn t Ht) as (H1 & H2 & H3 & H4). repeat split; by rewrite lookup_delete_ne.
  - by rewrite Et.
  - by rewrite Et.
  - by rewrite Et.
  - by rewrite Et.
  - by rewrite Et.
  - by rewrite Et, Ec.
  - by rewrite Et, Ec.
  - by rewrite Eq.
  - rewrite Et, Ed. intros t th E Hnz. rewrite lookup_delete_ne by (apply not_eq_sym; by apply (Hno t)). by apply (b_dirs t th).
  - by rewrite Et.
  - by rewrite Er.
  - unfold running. by rewrite Eq, Ec, Et.
  - intros q t. rewrite Et. cbn [v_groups without_group]. destruct (decide (q = p)) as [->|Hne].
    + rewrite lookup_delete_eq. intros H. by apply not_elem_of_nil in H.
    + rewrite lookup_delete_ne by done. apply Hg.
  - rewrite Et. exact Hq.
Qed.

(** ** Reaping *)

(** The terminated thread at [a] in a kernel with the processes
    [L1 ++ (p, d) :: L2], where [p] is its own; [m0] is the machine without the
    stack of the thread. *)
Record dead_member (kd d n : Z) (m0 : machine) (k : kernel) (u : list (Z * Z)) (v : TaskSpec.view) (a : Z) (fs : list Z) (th : thread)
    (l1 l2 : list tref) (L1 L2 : list (Z * Z)) (p : Z) : Prop := {
  dm_dead : dead_thread kd d n m0 k u v a fs th l1 l2;
  dm_process : Task.process th = p;
  dm_space : process_space kd (L1 ++ (p, d) :: L2).*2 m0;
  dm_list : is_list (k_links k) ProcessListHead (ProcessNode <$> (L1 ++ (p, d) :: L2).*1);
  dm_members : Forall (fun x => x.1 <> NULL /\ x.1 ∈ u.*1 /\ is_Some (k_processes k !! x.1) /\
    directories (k_sched k) !! x.1 = Some (PHYS_TO_VIRT x.2)) (L1 ++ (p, d) :: L2);
  dm_block : a ∉ (L1 ++ (p, d) :: L2).*1;
  dm_room : heap_end (the_heap (k_heap k)) +
    (free_pages (pmm_at m0) + len (all_owned (m_ram m0) (L1 ++ (p, d) :: L2).*2)) * PAGE_SIZE <= KERNEL_HEAP_END + 1;
  dm_stacks : is_list (k_links k) (UserStacksHead p) [];
  dm_group : forall t x, threads (k_sched k) !! t = Some x -> Task.process x = p -> t ∈ l1 ++ HeapThread a :: l2;
}.

Section Reap.
Context (kd d n : Z) (m0 : machine) (k : kernel) (u : list (Z * Z)) (v : TaskSpec.view) (a : Z) (fs : list Z) (th : thread).
Context (l1 l2 : list tref) (L1 L2 : list (Z * Z)) (p : Z).
Context (Hdead : dead_member kd d n m0 k u v a fs th l1 l2 L1 L2 p).

Let t : tref := HeapThread a.
Let gone := thread_gone kd d n m0 k u v a th l1 l2.

(** The process goes with its last thread: its block and the pages of its
    directory are free again, and the others are as they were. *)
Record process_over (k' : kernel) (u' : list (Z * Z)) : Prop := {
  ov_ok : processes_ok kd (L1 ++ L2) k' u';
  ov_blocks : a :: p :: u'.*1 ≡ₚ u.*1;
  ov_pages : forall g, g mod PAGE_SIZE = 0 ->
    m_free (the_supply (k_heap k')) g = m_free m0 g || bool_decide (g ∈ owned (m_ram m0) d);
  ov_count : free_pages (pmm_at (the_supply (k_heap k'))) = free_pages (pmm_at m0) + len (owned (m_ram m0) d);
  ov_slots : forall i, slot_used (k_vam k') i = negb (bool_decide (i = n)) && slot_used (k_vam k) i;
  ov_tracked : tracked (Prelude.view k_tasks_l k') (without_group p (parted t p [] v));
  ov_objects : threads (k_sched k') = delete t (threads (k_sched k)) /\ k_processes k' = delete p (k_processes k) /\
    directories (k_sched k') = delete p (directories (k_sched k));
}.

(** After [thread_destroy] the processes are sound. *)
Lemma gone_processes k1 u1 : gone k1 u1 -> processes_ok kd (L1 ++ (p, d) :: L2) k1 u1.
Proof.
  intros [[Eu Hh] Ee _ Hs _ _ _ (c & h & nd & Ek)]. destruct Hdead as [Hd _ Hps Hl Hm Hblk Hroom _ _].
  pose proof (dt_space _ _ _ _ _ _ _ _ _ _ _ _ Hd) as Ht. pose proof (dt_ready _ _ _ _ _ _ _ _ _ _ _ _ Hd) as Hr. split.
  - by apply (process_space_slot kd d n m0 Ht Hr no_frames).
  - exact Hh.
  - by rewrite Ek.
  - rewrite Forall_forall in *. intros x Hx. destruct (Hm x Hx) as (H1 & H2 & H3 & H4). split; [done|]. split; [|by rewrite Ek].
    rewrite <- Eu in H2. apply elem_of_cons in H2 as [E|H2]; [|done]. destruct Hblk. rewrite <- E. by apply list_elem_of_fmap_2.
  - rewrite Ee, (slot_all_owned_kept kd d n m0 Hr _ _ _ Hs Hps), (sl_count _ _ _ _ _ Hs). cbn. by rewrite Z.sub_0_r.
Qed.

Lemma gone_over_process k1 u1 k2 u2 :
  gone k1 u1 -> l1 ++ l2 = [] -> process_gone kd L1 L2 p d k1 u1 k2 u2 -> process_over k2 u2.
Proof.
  intros [[Eu Hh] Ee [_ [_ Hsl]] Hs _ Htr Eth (c & h & nd & Ek)] Enil [Hok2 Eu2 Hgb _ _ [Ep Ed] [En _] (h2 & ln & Ek2)].
  destruct Hdead as [Hd Eproc Hps _ _ _ _ _ Hgr]. pose proof (dt_space _ _ _ _ _ _ _ _ _ _ _ _ Hd) as Ht.
  pose proof (dt_ready _ _ _ _ _ _ _ _ _ _ _ _ Hd) as Hr.
  assert (owned (m_ram (the_supply (k_heap k1))) d = owned (m_ram m0) d) as Eo.
  { apply (slot_owned_kept kd d n m0 Hr _ _ _ _ Hs Hps). rewrite fmap_app. cbn. set_solver. }
  assert (threads (k_sched k2) = threads (k_sched k1)) as Et2 by by rewrite Ek2.
  rewrite Eproc, Enil in Htr. assert (l1 = [] /\ l2 = []) as [El1 El2] by by apply app_eq_nil in Enil. split.
  - done.
  - by rewrite Eu2, Eu.
  - intros g Hg. change (page_free (pmm_at (the_supply (k_heap k2))) (g / PAGE_SIZE) = m_free m0 g || bool_decide (g ∈ owned (m_ram m0) d)).
    rewrite (gb_free _ _ _ Hgb) by done. rewrite Eo. f_equal. change (m_free (the_supply (k_heap k1)) g = m_free m0 g).
    rewrite (sl_free _ _ _ _ _ Hs) by done. rewrite bool_decide_false by by apply not_elem_of_nil. apply andb_true_r.
  - rewrite (gb_count _ _ _ Hgb), Eo, (sl_count _ _ _ _ _ Hs). change (Z.of_nat (length (frames no_frames))) with 0. rewrite Z.sub_0_r. done.
  - intros i. rewrite <- Hsl. by rewrite Ek2.
  - apply (tracked_without (Prelude.view k_tasks_l k1)); try done; [..|by rewrite Ek2|by rewrite Ek2|by rewrite Ek2].
    + cbn. by rewrite lookup_insert_eq.
    + intros x y E Ey. change (t_sched (Prelude.view k_tasks_l k1)) with (k_sched k1) in E. rewrite Eth in E.
      apply lookup_delete_Some in E as [Hne E]. pose proof (Hgr x y E Ey) as Hin. rewrite El1, El2 in Hin. by apply list_elem_of_singleton in Hin.
  - by rewrite Et2, Eth, Ep, Ed, Ek.
Qed.

(** The process goes, whatever was printed before. *)
Lemma wp_last_member k1 u1 (Q : unit -> kernel -> Prop) :
  gone k1 u1 -> l1 ++ l2 = [] -> (forall k' u', k_console k' = k_console k1 -> process_over k' u' -> Q tt k') ->
  wp (process_destroy p) Q k1.
Proof.
  intros Hg E HQ. pose proof Hdead as [Hd Ep _ _ _ _ _ Hst _]. pose proof (dt_flags _ _ _ _ _ _ _ _ _ _ _ _ Hd) as Hoff.
  pose proof (tg_tracked _ _ _ _ _ _ _ _ _ _ _ _ _ Hg) as Htr. pose proof (b_holds _ _ (proj1 (tr_ok _ _ Htr))) as Hh.
  pose proof (gone_processes k1 u1 Hg) as Hok1. pose proof Hg as [_ _ _ Hs _ _ _ (c & h & nd & Ek)].
  apply (wp_process_destroy kd L1 L2 p d k1 u1 Hok1).
  - destruct (sl_cpu _ _ _ _ _ Hs) as [-> _]. destruct (dt_pages _ _ _ _ _ _ _ _ _ _ _ _ Hd) as [_ Hs0].
    destruct (sl_cpu _ _ _ _ _ Hs0) as [<- _]. exact Hoff.
  - destruct (h_lists _ _ Hh) as (F & HlF & HF). apply (fam_list _ _ HlF). rewrite HF. cbn. by rewrite Ep, lookup_insert_eq, E.
  - by rewrite Ek.
  - intros k2 u2 Hg2. apply (HQ k2 u2); [|by apply (gone_over_process k1 u1)].
    by destruct (pg_rest _ _ _ _ _ _ _ _ _ Hg2) as (h2 & ln & ->).
Qed.

(** What joining and the reaper have in common; [last] is what happens to a
    process that has no threads any more. *)
Lemma wp_reap_with (last : KM unit) (Q : unit -> kernel -> Prop) :
  (forall k' u', printed (farewell k th) k k' -> l1 ++ l2 <> [] -> gone k' u' -> Q tt k') ->
  (forall k1 u1, printed (farewell k th) k k1 -> l1 ++ l2 = [] -> gone k1 u1 -> wp last Q k1) ->
  wp (thread_destroy a ;;;
      if p =? NULL then ret tt
      else
        let* empty := tasks_op (list_op (list_empty (Some (ThreadsHead p)))) in
        if empty : bool then last else ret tt) Q k.
Proof.
  intros HQ HQp. pose proof Hdead as [Hd Ep _ _ Hm _ _ _ _].
  assert (p <> NULL) as Hnz by (apply Forall_app in Hm as [_ [Hm _]%Forall_cons]; apply Hm).
  apply wp_bind, (wp_thread_destroy kd d n m0 k u v a fs th l1 l2 _ Hd). intros k1 u1 Hg Hsaid. rewrite (proj2 (Z.eqb_neq p NULL)) by done.
  pose proof (tg_tracked _ _ _ _ _ _ _ _ _ _ _ _ _ Hg) as Htr. pose proof (b_holds _ _ (proj1 (tr_ok _ _ Htr))) as Hh.
  apply wp_bind, wp_zoom, (wp_empty_list _ _ _ (GroupNode <$> l1 ++ l2) _ Hh).
  { cbn. by rewrite Ep, lookup_insert_eq. }
  rewrite set_view_tasks. case_bool_decide as E.
  - apply fmap_nil_inv in E. by apply (HQp k1 u1).
  - apply wp_ret, (HQ k1 u1); [done| |done]. intros E'. by rewrite E' in E.
Qed.

Lemma wp_reap (Q : unit -> kernel -> Prop) :
  (forall k' u', printed (farewell k th) k k' -> l1 ++ l2 <> [] -> gone k' u' -> Q tt k') ->
  (forall k' u', printed (farewell k th) k k' -> l1 ++ l2 = [] -> process_over k' u' -> Q tt k') -> wp (reap a) Q k.
Proof.
  intros HQ HQp. unfold reap. apply wp_bind, wp_zoom, (wp_get_thread _ _ th); [apply Hdead|]. rewrite set_view_tasks. cbn zeta.
  rewrite (dm_process _ _ _ _ _ _ _ _ _ _ _ _ _ _ _ Hdead). apply wp_reap_with; [done|]. intros k1 u1 Hsaid E Hg.
  apply (wp_last_member k1 u1); [done|done|]. intros k' u' Ec Hov. apply (HQp k' u'); [|done|done]. intros scr Hs. rewrite Ec. by apply Hsaid.
Qed.

(** What the reaper says of a process. *)
Definition process_farewell : list Z :=
  text "zombie process on destruction = " ++ characters (default [] (name <$> k_processes k !! p)) ++ NEWLINE.

Lemma wp_reap_zombie (Q : unit -> kernel -> Prop) :
  (forall k' u', printed (farewell k th) k k' -> l1 ++ l2 <> [] -> gone k' u' -> Q tt k') ->
  (forall k' u', printed (farewell k th ++ process_farewell) k k' -> l1 ++ l2 = [] -> process_over k' u' -> Q tt k') ->
  wp (reap_zombie a p) Q k.
Proof.
  intros HQ HQp. apply wp_reap_with; [done|]. intros k1 u1 Hsaid E Hg. destruct (tg_rest _ _ _ _ _ _ _ _ _ _ _ _ _ Hg) as (c & h & nd & Ek).
  destruct (dt_process _ _ _ _ _ _ _ _ _ _ _ _ (dm_dead _ _ _ _ _ _ _ _ _ _ _ _ _ _ _ Hdead)) as [pr Epr].
  rewrite (dm_process _ _ _ _ _ _ _ _ _ _ _ _ _ _ _ Hdead) in Epr. unfold process_farewell in HQp. rewrite Epr in HQp.
  unfold fetch. apply wp_bind, wp_bind, wp_gets, (wp_require _ _ _ _ pr); [by rewrite Ek|].
  apply wp_bind, wp_says. intros s Hsaid2. apply (wp_last_member (on_screen s k1) u1); [|done|].
  - destruct Hg as [G1 G2 G3 G4 G5 G6 G7 _]. split; [done..|]. exists s, h, nd. by rewrite Ek at 1.
  - intros k' u' Ec Hov. apply (HQp k' u'); [|done|done]. intros scr Hs. rewrite Ec, type_text_app. by apply Hsaid2, Hsaid.
Qed.

(** C9 [reap] of a terminated thread, with interrupts off. When its process
    has other threads, the thread is destroyed and nothing else happens. When it
    was the last one, its process goes too: the list of processes, their
    directories and the scheduler stay sound without it, both blocks are free
    again, and exactly the pages of the stack and of the directory of the
    process have come back to the pool. The reaper does the same to a zombie;
    the screen names what is destroyed. *)
Theorem reap_spec :
  wp (reap a) (fun _ k' => printed (farewell k th) k k' /\ exists u',
    (l1 ++ l2 <> [] /\ thread_gone kd d n m0 k u v a th l1 l2 k' u') \/ (l1 ++ l2 = [] /\ process_over k' u')) k /\
  wp (reap_zombie a p) (fun _ k' => exists u',
    (l1 ++ l2 <> [] /\ printed (farewell k th) k k' /\ thread_gone kd d n m0 k u v a th l1 l2 k' u') \/
    (l1 ++ l2 = [] /\ printed (farewell k th ++ process_farewell) k k' /\ process_over k' u')) k.
Proof.
  split; [apply wp_reap|apply wp_reap_zombie]; intros k' u' Hp E Hg; [split; [done|]..| |]; exists u'; by (left + right).
Qed.
End Reap.

(** A new thread that has ended, in a kernel with sound processes. *)
Section Ended.
Context (kd d p entry : Z) (k : kernel) (u : list (Z * Z)) (L1 L2 : list (Z * Z)) (l : list tref).
Context (Hk : thread_space kd d p k u) (Hok : processes_ok kd (L1 ++ (p, d) :: L2) k u).
Context (Hst : is_list (k_links k) (UserStacksHead p) []).
Context (Hl : forall t x, threads (k_sched k) !! t = Some x -> Task.process x = p -> t ∈ l).

Lemma process_space_cpu L m c : process_space kd L m -> process_space kd L (with_cpu c m).
Proof. intros [[H1 [H2 H3 H4] H5] H6 H7 H8 H9 H10]. by split. Qed.

Lemma member_ended a n fs k1 u1 c w v th :
  thread_made kd d p entry k u a n fs k1 u1 ->
  dead_thread kd d n (with_cpu c (the_supply (k_heap k))) (set_view k_tasks_l w k1) u1 v a fs th l [] ->
  (forall x y, threads (k_sched (set_view k_tasks_l w k1)) !! x = Some y ->
     x = HeapThread a \/ exists y0, threads (k_sched k) !! x = Some y0 /\ Task.process y = Task.process y0) ->
  directories (t_sched w) = directories (k_sched k) -> Task.process th = p ->
  dead_member kd d n (with_cpu c (the_supply (k_heap k))) (set_view k_tasks_l w k1) u1 v a fs th l [] L1 L2 p.
Proof.
  intros Hm Hdead Hth Edir Ep. pose proof Hm as [[Ha [Eu _]] Ee _ _ _ _ _ (h & nd & Ek1)]. destruct Hok as [Hps _ Hlist Hmem Hroom].
  assert (k_links k1 = k_links k /\ k_processes k1 = k_processes k) as [Elk Epr] by by rewrite Ek1. split.
  - exact Hdead.
  - exact Ep.
  - by apply process_space_cpu.
  - change (k_links (set_view k_tasks_l w k1)) with (k_links k1). by rewrite Elk.
  - rewrite Forall_forall in *. intros x Hx. destruct (Hmem x Hx) as (H1 & H2 & H3 & H4). split; [done|].
    split; [rewrite Eu; by right|]. change (k_processes (set_view k_tasks_l w k1)) with (k_processes k1). rewrite Epr. split; [done|].
    change (directories (k_sched (set_view k_tasks_l w k1))) with (directories (t_sched w)). by rewrite Edir.
  - intros (x & E & Hx)%list_elem_of_fmap. rewrite Forall_forall in Hmem. destruct (Hmem x Hx) as (_ & H2 & _). by rewrite <- E in H2.
  - rewrite with_tasks_heap. cbn [the_heap]. rewrite Ee. exact Hroom.
  - change (k_links (set_view k_tasks_l w k1)) with (k_links k1). by rewrite Elk.
  - intros t x E Ex. apply elem_of_app. destruct (Hth t x E) as [->|(y & Ey & E1)]; [right; apply list_elem_of_here|].
    left. apply (Hl t y); [done|congruence].
Qed.
End Ended.

(** ** Joining *)

Section Join.
Context (kd d n : Z) (m0 : machine) (k : kernel) (u : list (Z * Z)) (v : TaskSpec.view) (a : Z) (fs : list Z) (th : thread).
Context (l1 l2 : list tref) (L1 L2 : list (Z * Z)) (p : Z).

(** [k] with interrupts off, and the flags to restore. *)
Let k0 : kernel := set_view k_tasks_l (cli (Prelude.view k_tasks_l k)) k.
Let e : Z := eflags (t_cpu (Prelude.view k_tasks_l k)).

(** The thread was reaped. *)
Definition reaped (k' : kernel) (u' : list (Z * Z)) : Prop :=
  printed (farewell k th) k k' /\
  ((l1 ++ l2 <> [] /\ thread_gone kd d n m0 k0 u v a th l1 l2 k' u') \/
   (l1 ++ l2 = [] /\ process_over kd d n m0 k0 u v a L1 L2 p k' u')).

(** C14 Joining a thread that has terminated returns at once: the thread is
    reaped with interrupts off, with its process when it was the last, and then
    the interrupt flag is what it was. Joining a detached thread fails its
    assertion. *)
Theorem thread_join_spec :
  dead_member kd d n m0 k0 u v a fs th l1 l2 L1 L2 p ->
  (detached th = false -> wp (thread_join a) (fun _ k' => exists u' k1, reaped k1 u' /\
     k' = set_view k_tasks_l (set_flags e (Prelude.view k_tasks_l k1)) k1) k) /\
  (detached th = true -> thread_join a k = Fault (AssertFailed "!thread->detached")).
Proof.
  intros Hdead. pose proof Hdead as [Hd _ _ _ _ _ _ _ _]. pose proof Hd as [_ _ _ _ [Hnz _] _ _ _ [Et Es] _ _ _ _].
  assert (threads (k_sched k) !! HeapThread a = Some th) as Et0 by by destruct k as [[? [[] ? ?]]]. split.
  - intros Edt. unfold thread_join. apply wp_bind, wp_assert; [by apply negb_true_iff, Z.eqb_neq|].
    apply wp_bind, wp_zoom, (wp_get_thread _ _ th); [done|]. rewrite set_view_tasks. rewrite Edt. apply wp_bind, wp_assert; [done|].
    assert (forall (R : Z -> kernel -> Prop), R e k0 -> wp (kcpu_op interrupt_save) R k) as Hsave.
    { intros R HR. apply wp_zoom. unfold k0, e in HR. by destruct k as [[? [[] ? ?]]]. }
    apply wp_bind, Hsave. apply wp_bind, wp_zoom, (wp_get_thread _ _ th); [done|]. rewrite set_view_tasks.
    rewrite bool_decide_false by (by intros H). unfold join_rest.
    assert (forall k1 u', reaped k1 u' -> wp (kcpu_op (interrupt_restore e)) (fun _ k' => exists u' k1, reaped k1 u' /\
      k' = set_view k_tasks_l (set_flags e (Prelude.view k_tasks_l k1)) k1) k1) as Hend.
    { intros k1 u' H. apply wp_zoom, wp_modify. exists u', k1. split; [exact H|]. by destruct k1 as [[? [[] ? ?]] ? []]. }
    apply wp_bind, (wp_reap kd d n m0 k0 u v a fs th l1 l2 L1 L2 p Hdead); intros k1 u' Hp E Hg; apply (Hend k1 u'); (split; [exact Hp|]); [by left|by right].
  - intros Edt. unfold thread_join, bind, ASSERT. rewrite (proj2 (Z.eqb_neq a NULL)) by done. cbn [negb ret].
    unfold fetch_thread, tasks_op, zoom, get_thread. change (threads (t_sched (Prelude.view k_tasks_l k))) with (threads (k_sched k)).
    rewrite Et0. by rewrite Edt.
Qed.
End Join.

(** ** Witnesses *)

Lemma owner_facts :
  all_owned (m_ram stacks_machine) [elf_directory] = [elf_directory] /\
  freeable_check (pmm_at stacks_machine) [elf_directory] = true /\ free_pages (pmm_at stacks_machine) = 3542.
Proof. vm_compute. auto. Qed.

#[local] Opaque stacks_machine.

(** The process of [idle_kernel]. *)
Lemma owner_processes : processes_ok elf_kd [(owner, elf_directory)] idle_kernel owner_blocks /\
  is_list (k_links idle_kernel) (UserStacksHead owner) [].
Proof.
  destruct owner_facts as (Eo & Hfr & Hf). pose proof (owner_space idle_nodes idle_threads (Some IdleThread)) as [_ _ Ht _ _ Hh _].
  change (the_supply (k_heap (kernel_on stacks_machine idle_nodes idle_threads (Some IdleThread)))) with stacks_machine in Ht.
  split.
  - split; change (the_supply (k_heap idle_kernel)) with stacks_machine; change [(owner, elf_directory)].*2 with [elf_directory]; rewrite ?Eo.
    + split; rewrite ?Eo; [exact (ts_ready _ _ _ Ht)|exact (ts_fail _ _ _ Ht)|exact (ts_tables _ _ _ Ht)|apply NoDup_singleton|exact (freeable_check_ok _ _ Hfr)|].
      constructor; [|constructor]. exact (conj (ts_dirs _ _ _ Ht) (ts_kernel _ _ _ Ht)).
    + exact Hh.
    + apply (bool_decide_eq_true_1 _). clear. vm_compute. reflexivity.
    + constructor; [|constructor]. clear. split; [discriminate|]. split; [apply list_elem_of_here|]. split; [eexists; reflexivity|reflexivity].
    + rewrite Hf. clear. vm_compute. discriminate.
  - apply (bool_decide_eq_true_1 _). clear. vm_compute. reflexivity.
Qed.

(** The thread of [idle_kernel]'s process, created, run and ended. *)
Definition short_life : KM Z :=
  let* a := thread_create 2 owner 0x400000 in
  (tasks_op (thread_add (Some (HeapThread a))) ;;;
   tasks_op (scheduler_switch ;;; cpu_op interrupt_enable ;;; thread_kill_current)) ;;;
  ret a.

Lemma wp_short_life (Q : Z -> kernel -> Prop) :
  (forall n m0 k5 u1 v a fs th, detached th = false -> dead_member elf_kd elf_directory n m0 k5 u1 v a fs th [] [] [] [] owner -> Q a k5) ->
  wp short_life Q idle_kernel.
Proof.
  intros HQ. destruct idle_ok as [Htr Hbl], idle_facts as (Hg & Hd & Hc & Hr & Hre & Hp), owner_processes as [Hok Hst].
  apply wp_bind, (wp_thread_create elf_kd elf_directory owner 0x400000 idle_kernel owner_blocks (owner_space _ _ _)); [lia|..].
  - intros a n fs k1 u1 Hnz Hm. apply wp_bind.
    apply (wp_run_and_end elf_kd elf_directory owner 0x400000 idle_kernel owner_blocks idle_view [] (owner_space _ _ _) Htr Hbl Hg Hd Hc Hr Hre Hp a n fs k1 u1); [exact Hm|exact Hnz|].
    intros c th k5 Hdead _ Hth [w [-> Edir]] Ep Edt. apply wp_ret. eapply (HQ n _ _ u1 _ a fs th); [exact Edt|].
    apply (member_ended elf_kd elf_directory owner 0x400000 idle_kernel owner_blocks [] [] [] Hok Hst); try done.
    intros t x E Ex. exfalso. change (threads (k_sched idle_kernel)) with idle_threads in E. unfold idle_threads in E.
    apply lookup_singleton_Some in E as [_ <-]. discriminate Ex.
  - intros a k' u' Hno. destruct (stacks_left _ _ _ Hno).
Qed.

Lemma reap_spec_witness :
  wp short_life (fun a k5 => wp (reap a) (fun _ k' => threads (k_sched k') !! HeapThread a = None /\ k_processes k' !! owner = None) k5)
    idle_kernel.
Proof.
  apply wp_short_life. intros n m0 k5 u1 v a fs th _ Hdead.
  eapply wp_mono; [exact (proj1 (reap_spec elf_kd elf_directory n m0 k5 u1 v a fs th [] [] [] [] owner Hdead))|].
  intros [] k' (_ & u' & [[Hno _]|[_ Hover]]); [destruct (Hno eq_refl)|].
  destruct (ov_objects _ _ _ _ _ _ _ _ _ _ _ _ _ Hover) as (-> & -> & _). split; apply lookup_delete_eq.
Defined.

Lemma cli_off w : disabled w -> cli w = w.
Proof.
  unfold disabled, if_set, cli. intros H%negb_false_iff%Z.eqb_eq. pose proof (Z.lor_ldiff_and (eflags (t_cpu w)) EFLAGS_IF) as E.
  rewrite H, Z.lor_0_r in E. rewrite E. by destruct w as [[] ?].
Qed.

Lemma thread_join_spec_witness :
  wp short_life (fun a k5 => wp (thread_join a) (fun _ k' => threads (k_sched k') !! HeapThread a = None /\ k_processes k' !! owner = None) k5)
    idle_kernel.
Proof.
  apply wp_short_life. intros n m0 k5 u1 v a fs th Edt Hdead.
  assert (dead_member elf_kd elf_directory n m0 (set_view k_tasks_l (cli (Prelude.view k_tasks_l k5)) k5) u1 v a fs th [] [] [] [] owner) as Hd.
  { rewrite cli_off; [by rewrite set_view_tasks|]. apply (dt_flags _ _ _ _ _ _ _ _ _ _ _ _ (dm_dead _ _ _ _ _ _ _ _ _ _ _ _ _ _ _ Hdead)). }
  destruct (thread_join_spec elf_kd elf_directory n m0 k5 u1 v a fs th [] [] [] [] owner Hd) as [Hjoin _].
  eapply wp_mono; [exact (Hjoin Edt)|]. intros [] k' (u' & k1 & (_ & [[Hno _]|[_ Hover]]) & ->); [destruct (Hno eq_refl)|].
  destruct (ov_objects _ _ _ _ _ _ _ _ _ _ _ _ _ Hover) as (Et & Ep & _).
  change (threads (k_sched k1) !! HeapThread a = None /\ k_processes k1 !! owner = None).
  rewrite Et, Ep. split; apply lookup_delete_eq.
Defined.
