(* ===== verification/StartSpec.v ===== *)
(** * Starting a process with its first thread

    The sequence [process_create], [thread_create], [thread_add] with which
    [kernel_main] and the reaper's [reaper_init] ([kernel/task/reaper.c])
    populate the kernel, against the invariant [system_ok] that ties the
    processes, the threads, the kernel stacks and the heap together. *)

From S2P Require Import Prelude Layout Bitmap Machine Pmm DList ListFamily CString Ram Words Paging PagingSpec Vam Vmm Heap HeapSpec HeapRoom HeapSupply TaskSpace Task TaskSpec TaskOps Sync SyncSpec Fs Console ConsoleSpec Kernel Printing Process Lifecycle ElfSpec TaskDemo ThreadStack ProcessSpec ThreadSpec ThreadLife ReapSpec.

(** ** The stack region *)

(** The stacks that share the table of the idle thread's. *)
Definition FIRST_STACKS : Z := 256.

(** Every free slot among them can be mapped. *)
Definition stacks_ready (kd : Z) (v : vam) (m : machine) : Prop :=
  forall n, 0 <= n < FIRST_STACKS -> slot_used v n = false -> slot_ready kd kd n m.

Section Stacks.
Context (kd : Z).
Implicit Types (m : machine) (v : vam) (n i j : Z).

Lemma first_stack_pde n : 0 <= n < FIRST_STACKS -> slot_pde n = 832.
Proof. unfold FIRST_STACKS, slot_pde. lia. Qed.

(** What the kernel's tables hold decides it. *)
Lemma slot_ready_same d n m m' : same_kernel kd m m' -> slot_ready kd kd n m ->
  present (pde m' d (slot_pde n)) = true -> table_of m' d (slot_pde n) = table_of m kd (slot_pde n) -> slot_ready kd d n m'.
Proof.
  intros Hs Hr Hp Et. destruct (slot_pde_range kd kd n m Hr) as [Hi _]. pose proof Hr as [H1 H2 H3 _ H5 (i & [Hi1 Hi2] & H6)].
  pose proof (same_kernel_table _ _ _ _ Hs Hi) as Ek. split.
  - done.
  - by rewrite (sk_pde _ _ _ Hs).
  - by eapply same_kernel_private.
  - by rewrite Ek.
  - intros j Hj. rewrite Ek, (sk_table _ _ _ Hs) by (done || unfold slot_pte; lia). by apply H5.
  - exists i. split; [done|]. by rewrite Ek, (sk_table _ _ _ Hs).
Qed.

Lemma stacks_same v m m' : same_kernel kd m m' -> stacks_ready kd v m -> stacks_ready kd v m'.
Proof.
  intros Hs Hst n Hn Hf. pose proof (Hst n Hn Hf) as Hr. destruct (slot_pde_range kd kd n m Hr) as [Hi _].
  apply (slot_ready_same kd n m m' Hs Hr); [rewrite (sk_pde _ _ _ Hs) by done; apply Hr|by apply (same_kernel_table _ _ _ _ Hs)].
Qed.

(** A new stack leaves the other slots alone. *)
Lemma stacks_taken d n v v' m0 m F :
  task_space kd d m0 -> slot_ready kd d n m0 -> 0 <= n < FIRST_STACKS -> slot_state kd n m0 F m -> stacks_ready kd v m0 ->
  slot_used v n = false -> slots_updated v v' (fun i => bool_decide (i = n) || slot_used v i) -> stacks_ready kd v' m.
Proof.
  intros Ht Hr Hn Hs Hst Hf (_ & _ & Hv') n' Hn' Hf'. rewrite Hv' in Hf'. apply orb_false_iff in Hf' as [Hne%bool_decide_eq_false Hf'].
  pose proof (Hst n' Hn' Hf') as Hr'. destruct Hr' as [H1 H2 H3 _ H5 (i & [Hi Hout] & H6)].
  pose proof (first_stack_pde n Hn) as E. pose proof (first_stack_pde n' Hn') as E'. pose proof (sl_outside _ _ _ _ _ Hs) as Hkeep. rewrite E in Hkeep. rewrite E' in *.
  assert (forall j, 0 <= j < 1024 -> pde m kd j = pde m0 kd j) as Hp by (intros j Hj; by apply (slot_pdes kd d n m0 Ht Hr F m j)).
  assert (table_of m kd 832 = table_of m0 kd 832) as Et by (unfold table_of; by rewrite Hp).
  unfold FIRST_STACKS in *. split; rewrite ?E'.
  - done.
  - by rewrite Hp.
  - intros Hpr. rewrite Hp in Hpr by done. destruct (H3 Hpr) as [P1 P2]. rewrite Et. split; [done|]. intros j Hj Hjn Hpj.
    rewrite Hp in Hpj by done. unfold table_of at 1. rewrite Hp by done. by apply P2.
  - by rewrite Hp.
  - intros j Hj. rewrite Et, Hkeep; [by apply H5|]. unfold outside_slot, slot_pte. lia.
  - exists i. split; [done|]. rewrite Et, Hkeep; [done|]. split; [done|].
    destruct (decide (i < slot_pte n 0)) as [|Hge]; [by left|]. destruct (decide (slot_pte n 3 < i)) as [|Hle]; [by right|]. exfalso.
    pose proof (sr_unused _ _ _ _ Hr (i - slot_pte n 0)) as Hu. rewrite E in Hu.
    replace (slot_pte n (i - slot_pte n 0)) with i in Hu by (unfold slot_pte; lia). rewrite Hu in H6; [done|]. unfold slot_pte in *. lia.
Qed.
End Stacks.

(** ** The invariant *)

(** The parts of the kernel fit together: sound processes with the directories
    and blocks of [L], a scheduler with the lists of [v], each thread in a block
    of the heap, groups of existing processes only, interrupts off, and room
    for stacks. *)
Record system_ok (kd : Z) (L : list (Z * Z)) (k : kernel) (u : list (Z * Z)) (v : TaskSpec.view) : Prop := {
  sy_processes : processes_ok kd L k u;
  sy_tracked : tracked (Prelude.view k_tasks_l k) v;
  sy_blocks : on_blocks k u;
  sy_groups : forall p, is_Some (v_groups v !! p) -> p ∈ L.*1;
  sy_off : disabled (Prelude.view k_tasks_l k);
  sy_vam : vam_inv (k_vam k);
  sy_stacks : stacks_ready kd (k_vam k) (the_supply (k_heap k));
}.

Section Create.
Context (kd : Z) (L : list (Z * Z)) (k : kernel) (u : list (Z * Z)) (v : TaskSpec.view) (Hsys : system_ok kd L k u v).
Implicit Types (p f : Z) (s : list Z).

(** More directories, and a new group without threads. *)
Lemma tracked_grown w w' p :
  tracked w v -> v_groups v !! p = None -> unchanged [ThreadsHead p] (nodes (t_sched w)) (nodes (t_sched w')) ->
  is_list (nodes (t_sched w')) (ThreadsHead p) [] -> threads (t_sched w') = threads (t_sched w) ->
  (forall q, is_Some (directories (t_sched w) !! q) -> is_Some (directories (t_sched w') !! q)) ->
  current (t_sched w') = current (t_sched w) -> quantum_remaining (t_sched w') = quantum_remaining (t_sched w) ->
  reaper_ready (t_sched w') = reaper_ready (t_sched w) -> tracked w' (with_group p [] v).
Proof.
  intros [[[] Hrun] Hg Hq] Ep Hun Hl Et Hd Ec Eq Er. destruct b_holds as [(F & HlF & HF) Hn]. split; [split; [split|]|..].
  - split; rewrite ?Et.
    + exists (<[ThreadsHead p := []]> F). split.
      * apply (lists_fresh (nodes (t_sched w)) _ F (ThreadsHead p) []); [done| |done|done|by intros x ?%not_elem_of_nil].
        intros x g ->%list_elem_of_singleton Ho. apply (occurs_in_view v F g _ HF) in Ho as [-> Hs]. cbn in Hs. rewrite Ep in Hs. by destruct Hs.
      * apply (entry_update v); [done|cbn; by rewrite lookup_insert_eq|]. intros [] Hne; try done. cbn. rewrite lookup_insert_ne; [done|]. congruence.
    + intros t Ht. destruct (Hn t Ht) as (H1 & H2 & H3 & H4). repeat split; (rewrite Hun; [done|]); by intros [=]%list_elem_of_singleton.
  - by rewrite Et.
  - by rewrite Et.
  - by rewrite Et.
  - by rewrite Et.
  - by rewrite Et.
  - by rewrite Et, Ec.
  - by rewrite Et, Ec.
  - by rewrite Eq.
  - rewrite Et. intros t th E Hnz. by apply Hd, (b_dirs t th).
  - by rewrite Et.
  - by rewrite Er.
  - unfold running. by rewrite Eq, Ec, Et.
  - intros q t. rewrite Et. cbn [v_groups with_group]. destruct (decide (q = p)) as [->|Hne].
    + rewrite lookup_insert_eq. intros H. by apply not_elem_of_nil in H.
    + rewrite lookup_insert_ne by done. apply Hg.
  - rewrite Et. exact Hq.
Qed.

Lemma member_block p : p ∈ L.*1 -> p ∈ u.*1.
Proof.
  intros (x & -> & Hx)%list_elem_of_fmap. pose proof (po_members _ _ _ _ (sy_processes _ _ _ _ _ Hsys)) as H. rewrite Forall_forall in H.
  by apply H.
Qed.

(** A new process joins the system. *)
Lemma system_created s p f k1 u1 : process_made kd L k u s p f k1 u1 -> system_ok kd (L ++ [(p, f)]) k1 u1 (with_group p [] v).
Proof.
  intros [Hok1 [Hp Eu] [Hf Hc] _ [Hl Hun] _ _ _ _ (h & nd & ln & Ek)]. pose proof Hsys as [Hok Htr Hbl Hgr Hoff Hv Hst].
  pose proof (po_space _ _ _ _ Hok) as Hps.
  assert (same_kernel kd (the_supply (k_heap k)) (the_supply (k_heap k1))) as Hsame
    by (apply (created_same_kernel kd f); [apply (ready_space _ _ (ps_ready _ _ _ Hps))|done|done]).
  assert (v_groups v !! p = None) as Hnew.
  { destruct (v_groups v !! p) eqn:E; [|done]. destruct Hp. apply member_block, Hgr. by rewrite E. }
  split.
  - exact Hok1.
  - apply (tracked_grown (Prelude.view k_tasks_l k)); try done; [by rewrite Ek| |by rewrite Ek|by rewrite Ek|by rewrite Ek].
    intros q Hq. rewrite Ek. change (is_Some ((<[p := PHYS_TO_VIRT f]> (directories (k_sched k))) !! q)).
    destruct (decide (p = q)) as [->|Hne]; [rewrite lookup_insert_eq; by eexists|]. by rewrite lookup_insert_ne.
  - intros a Ha. rewrite Eu. right. apply Hbl. by rewrite Ek in Ha.
  - intros q. cbn [v_groups with_group]. rewrite fmap_app. cbn. destruct (decide (q = p)) as [->|Hne]; [intros _; set_solver|].
    rewrite lookup_insert_ne by done. intros Hq. apply elem_of_app. left. by apply Hgr.
  - unfold disabled. change (t_cpu (Prelude.view k_tasks_l k1)) with (pmm_cpu (m_pmm (the_supply (k_heap k1)))). by rewrite (created_cpu _ _ _ _ Hc).
  - by rewrite Ek.
  - replace (k_vam k1) with (k_vam k) by by rewrite Ek. by apply (stacks_same kd _ (the_supply (k_heap k))).
Qed.

(** A thread can be created for the new process. *)
Lemma created_thread_space s p f k1 u1 :
  process_made kd L k u s p f k1 u1 -> p <> NULL -> (exists n, 0 <= n < FIRST_STACKS /\ slot_used (k_vam k) n = false) ->
  has_room (k_heap k1) THREAD_SIZE -> thread_space kd f p k1 u1.
Proof.
  intros Hm Hnz (n0 & Hn0 & Hf0) Hroom. pose proof (system_created s p f k1 u1 Hm) as [Hok1 _ _ _ _ Hv1 Hst1].
  pose proof Hm as [_ _ [Hf Hc] _ _ _ _ Hts _ (h & nd & ln & Ek)]. assert (k_vam k1 = k_vam k) as Ev by by rewrite Ek. split.
  - done.
  - rewrite Ek. apply lookup_insert_eq.
  - done.
  - done.
  - intros n Hn Hfree Hlow. assert (0 <= n < FIRST_STACKS) as Hn1.
    { split; [lia|]. destruct (decide (n < FIRST_STACKS)) as [|Hge]; [done|]. exfalso. rewrite Ev in Hlow. rewrite Hlow in Hf0; [done|lia]. }
    pose proof (Hst1 n Hn1 Hfree) as Hr. destruct (slot_pde_range kd kd n _ Hr) as [Hi Hi2].
    assert (pde (the_supply (k_heap k1)) f (slot_pde n) = pde (the_supply (k_heap k1)) kd (slot_pde n)) as Ep.
    { rewrite (first_stack_pde n Hn1), (created_pde _ _ _ _ Hc) by lia. reflexivity. }
    apply (slot_ready_same kd f n _ _ (same_kernel_refl _ _) Hr); [rewrite Ep; apply Hr|]. unfold table_of. by rewrite Ep.
  - apply Hok1.
  - done.
Qed.
End Create.

(** ** The first thread *)

Section Join.
Context (kd d p entry : Z) (L : list (Z * Z)) (k : kernel) (u : list (Z * Z)) (v : TaskSpec.view).
Context (Hsys : system_ok kd L k u v) (Hk : thread_space kd d p k u) (Hg : is_Some (v_groups v !! p)).
Context (a n : Z) (fs : list Z) (k1 : kernel) (u1 : list (Z * Z)) (Hm : thread_made kd d p entry k u a n fs k1 u1) (Hn : n < FIRST_STACKS).

Let t : tref := HeapThread a.

(** The processes and the stacks after [thread_create]. *)
Lemma made_processes : processes_ok kd L k1 u1 /\ stacks_ready kd (k_vam k1) (the_supply (k_heap k1)) /\ vam_inv (k_vam k1).
Proof.
  pose proof Hm as [[Ha [Eu Hh]] Ee [Hn0 [Hfree [Hlow Hupd]]] [Hlen Hs] Hts _ _ (h & nd & Ek)].
  pose proof Hsys as [[Hps _ Hl Hmem Hroom] _ _ _ _ _ Hst]. pose proof (tp_space _ _ _ _ _ Hk) as Ht. pose proof (tp_slots _ _ _ _ _ Hk n Hn0 Hfree Hlow) as Hr.
  split; [split|split].
  - by apply (process_space_slot kd d n _ Ht Hr (filled fs)).
  - done.
  - by rewrite Ek.
  - eapply Forall_impl; [exact Hmem|]. intros x (H1 & H2 & H3 & H4). split; [done|]. split; [rewrite Eu; by right|]. by rewrite Ek.
  - rewrite Ee, (slot_all_owned_kept kd d n _ Hr _ _ _ Hs Hps), (sl_count _ _ _ _ _ Hs). unfold PAGE_SIZE in *. lia.
  - apply (stacks_taken kd d n (k_vam k) _ (the_supply (k_heap k)) _ (filled fs)); try done. by split; [apply Hn0|].
  - apply Hupd.
Qed.

(** [thread_add] of the new thread, which may have been changed a little. *)
Lemma wp_system_join w th (Q : unit -> kernel -> Prop) :
  t_cpu w = t_cpu (Prelude.view k_tasks_l k1) -> nodes (t_sched w) = nodes (k_sched k1) ->
  threads (t_sched w) = <[t := th]> (threads (k_sched k)) -> same_scheduling (Prelude.view k_tasks_l k) w ->
  directories (t_sched w) = directories (k_sched k1) ->
  state th = THREAD_READY -> wait_queue th = None -> Task.process th = p ->
  (forall nd, system_ok kd L (set_view k_tasks_l (set_nodes nd w) k1) u1 (joined t p v) -> Q tt (set_view k_tasks_l (set_nodes nd w) k1)) ->
  wp (tasks_op (thread_add (Some t))) Q (set_view k_tasks_l w k1).
Proof.
  intros Ec En Et Hss Ed Es Ew Ep HQ. pose proof Hm as [[Ha [Eu Hh]] _ _ [_ Hs] _ _ [Hlk [Hl Hun]] _].
  pose proof Hsys as [_ Htr Hbl Hgr Hoff _ _]. pose proof (new_block k u Hbl a Ha) as Hnew. destruct made_processes as (Hok & Hst & Hv).
  assert (disabled w) as Hdw.
  { unfold disabled. rewrite Ec. change (t_cpu (Prelude.view k_tasks_l k1)) with (pmm_cpu (m_pmm (the_supply (k_heap k1)))).
    destruct (sl_cpu _ _ _ _ _ Hs) as [-> _]. exact Hoff. }
  assert (threads (t_sched w) !! t = Some th) as Eth by (rewrite Et; apply lookup_insert_eq).
  assert (holds (t_sched w) (with_termination t v)) as Hhw.
  { apply (holds_created (Prelude.view k_tasks_l k) v t (nodes (k_sched k1)) (threads (t_sched w))); try done.
    intros x Hx. rewrite Et in Hx. apply lookup_insert_is_Some in Hx as [<-|[_ Hx]]; [by left|by right]. }
  apply wp_tasks, (wp_thread_add w v t th); [done|done|done|by rewrite Ep|by apply (untracked_loose (Prelude.view k_tasks_l k))|].
  intros nd Hnd. rewrite Ep in Hnd. apply HQ.
  assert (k_heap (set_view k_tasks_l (set_nodes nd w) k1) = k_heap k1) as Eh.
  { rewrite with_tasks_heap. change (t_cpu (set_nodes nd w)) with (t_cpu w). rewrite Ec.
    change (t_cpu (Prelude.view k_tasks_l k1)) with (pmm_cpu (m_pmm (the_supply (k_heap k1)))). rewrite with_cpu_same. apply heap_world_eta. }
  split.
  - destruct Hok as [P1 P2 P3 P4 P5]. split; rewrite ?Eh; try done.
    change (directories (k_sched (set_view k_tasks_l (set_nodes nd w) k1))) with (directories (t_sched w)). by rewrite Ed.
  - rewrite view_set_tasks. rewrite <- Ep. apply (tracked_joined (Prelude.view k_tasks_l k) (set_nodes nd w) v t th); [done|done|done|by rewrite Ep|done|by destruct Hss|done|done|].
    rewrite Ep. exists (PHYS_TO_VIRT d). exact (tp_directory _ _ _ _ _ Hk).
  - intros b Hb. change (threads (k_sched (set_view k_tasks_l (set_nodes nd w) k1))) with (threads (t_sched w)) in Hb. rewrite Et in Hb. rewrite Eu.
    apply lookup_insert_is_Some in Hb as [[= <-]|[_ Hb]]; [apply list_elem_of_here|right; by apply Hbl].
  - intros q. cbn [v_groups joined]. intros Hq. apply Hgr. apply lookup_insert_is_Some in Hq as [<-|[_ Hq]]; done.
  - by rewrite view_set_tasks.
  - done.
  - rewrite Eh. exact Hst.
Qed.
End Join.

(** ** [process_create] and [thread_create] together *)

(** Room for a process and one thread: in the heap, among the pages and among
    the stacks. *)
Record startable (k : kernel) : Prop := {
  st_room : has_room (k_heap k) (PROCESS_SIZE + HEADER + THREAD_SIZE);
  st_pages : 5 <= free_pages (pmm_at (the_supply (k_heap k)));
  st_slot : exists n, 0 <= n < FIRST_STACKS /\ slot_used (k_vam k) n = false;
}.

Lemma has_room_less w s s' : s' <= s -> has_room w s -> has_room w s'.
Proof. intros Hs (l & Hl & t & Ht & Hf & Hn). exists l. split; [done|]. exists t. split; [done|]. split; [done|lia]. Qed.

Section Populate.
Context (kd : Z) (L : list (Z * Z)) (k : kernel) (u : list (Z * Z)) (v : TaskSpec.view).
Context (Hsys : system_ok kd L k u v) (Hst : startable k).

Lemma wp_first_thread {A} fuel s entry msg (R : Z -> Z -> KM A) (Q : A -> kernel -> Prop) :
  (1 < fuel)%nat ->
  (forall p f k1 u1 a n fs k2 u2, p <> NULL -> a <> NULL -> process_made kd L k u s p f k1 u1 -> thread_space kd f p k1 u1 ->
     thread_made kd f p entry k1 u1 a n fs k2 u2 -> n < FIRST_STACKS -> wp (R p a) Q k2) ->
  wp (let* p := process_create fuel s in
      ASSERT msg (negb (p =? NULL)) ;;;
      let* a := thread_create fuel p entry in
      R p a) Q k.
Proof.
  intros Hfuel HR. destruct Hst as [Hroom Hpages Hslot]. pose proof Hsys as [Hok _ _ _ _ _ _].
  apply wp_bind, (wp_process_create kd L k u Hok); [done|apply (has_room_less _ (PROCESS_SIZE + HEADER + THREAD_SIZE)); [by vm_compute|done]|..].
  2:{ intros p k' u' H0. lia. }
  intros p f k1 u1 Hnz Hm. apply wp_bind, wp_assert; [by apply negb_true_iff, Z.eqb_neq|].
  pose proof (created_thread_space kd L k u v Hsys s p f k1 u1 Hm Hnz Hslot (pm_room _ _ _ _ _ _ _ _ _ Hm THREAD_SIZE ltac:(by vm_compute) Hroom)) as Hts.
  pose proof Hm as [_ _ [_ Hc] _ _ _ _ _ _ (h & nd & ln & Ek)]. assert (k_vam k1 = k_vam k) as Ev by by rewrite Ek.
  destruct Hslot as (n0 & Hn0 & Hf0).
  apply wp_bind, (wp_thread_create kd f p entry k1 u1 Hts); [done|..].
  - intros a n fs k2 u2 Ha Ht. apply (HR p f k1 u1 a n fs k2 u2); try done.
    destruct (tm_slot _ _ _ _ _ _ _ _ _ _ _ Ht) as (_ & _ & Hlow & _). rewrite Ev in Hlow.
    destruct (decide (n < FIRST_STACKS)) as [|Hge]; [done|]. rewrite Hlow in Hf0; [done|lia].
  - intros a k' u' [Hno|Hlt] _; exfalso.
    + rewrite Ev in Hno. rewrite Hno in Hf0; [done|]. change KERNEL_STACK_COUNT with 16384. unfold FIRST_STACKS in Hn0. lia.
    + rewrite (taken_count _ _ _ (created_taken _ _ _ _ Hc)) in Hlt. lia.
Qed.
End Populate.

(** ** The reaper *)

Lemma wp_save_off w k (Q : Z -> kernel -> Prop) :
  disabled w -> Q (eflags (t_cpu w)) (set_view k_tasks_l w k) -> wp (kcpu_op interrupt_save) Q (set_view k_tasks_l w k).
Proof. intros Hd HQ. apply wp_zoom. rewrite <- (cli_off w Hd) in HQ at 2. by destruct k as [[? [[] ? ?]]]. Qed.

Lemma wp_restore_same w k (Q : unit -> kernel -> Prop) :
  Q tt (set_view k_tasks_l w k) -> wp (kcpu_op (interrupt_restore (eflags (t_cpu w)))) Q (set_view k_tasks_l w k).
Proof. intros HQ. apply wp_zoom, wp_modify. by destruct k as [[? [[] ? ?]]], w as [[] ?]. Qed.

(** "reaper" *)
Definition REAPER_NAME : list Z := [114; 101; 97; 112; 101; 114].

Section Reaper.
Context (kd : Z) (L : list (Z * Z)) (k : kernel) (u : list (Z * Z)) (v : TaskSpec.view).
Context (Hsys : system_ok kd L k u v) (Hst : startable k).
Context (Hhead : is_Some (nodes (k_sched k) !! QueueHead ReaperQueue)) (Hnone : v_queues v !! ReaperQueue = None).

Let v0 : TaskSpec.view := with_queue ReaperQueue [] v.

(** After the first two lines of [reaper_init]. *)
Definition queue_ready nd : tasks := set_reaper (reaper_thread (k_sched k)) true (set_nodes nd (Prelude.view k_tasks_l k)).

Lemma tracked_queue nd :
  is_list nd (QueueHead ReaperQueue) [] -> unchanged [QueueHead ReaperQueue] (nodes (k_sched k)) nd -> tracked (queue_ready nd) v0.
Proof.
  intros Hl Hun. destruct Hsys as [_ [[[] Hrun] Hg Hq] _ _ _ _ _]. destruct b_holds as [(F & HlF & HF) Hn].
  assert (forall q, waiting v0 q = waiting v q) as Hw.
  { intros q. unfold waiting, v0. cbn [v_queues with_queue]. destruct (decide (q = ReaperQueue)) as [->|Hne]; [by rewrite lookup_insert_eq, Hnone|by rewrite lookup_insert_ne]. }
  split; [split; [split|exact Hrun]|exact Hg|].
  - split.
    + exists (<[QueueHead ReaperQueue := []]> F). split.
      * apply (lists_fresh (nodes (k_sched k)) _ F (QueueHead ReaperQueue) []); [done| |done|done|by intros x ?%not_elem_of_nil].
        intros x g ->%list_elem_of_singleton Ho. apply (occurs_in_view v F g _ HF) in Ho as [-> Hs]. cbn in Hs. rewrite Hnone in Hs. by destruct Hs.
      * apply (entry_update v); [done|cbn; by rewrite lookup_insert_eq|]. intros [] Hne; try done. cbn. rewrite lookup_insert_ne; [done|]. congruence.
    + intros t Ht. destruct (Hn t Ht) as (H1 & H2 & H3 & H4). repeat split; (change (nodes (t_sched (queue_ready nd))) with nd; rewrite Hun; [done|]); by intros [=]%list_elem_of_singleton.
  - done.
  - done.
  - intros q t. rewrite Hw. apply b_wait.
  - done.
  - done.
  - done.
  - done.
  - done.
  - done.
  - intros t Ht Hs. unfold v0. cbn [v_queues with_queue]. rewrite lookup_insert_ne by done. by apply b_termination.
  - intros _. unfold v0. cbn [v_queues with_queue]. rewrite lookup_insert_eq. by eexists.
  - intros t. unfold v0. cbn [v_queues with_queue]. rewrite lookup_insert_ne by done. apply Hq.
Qed.

Lemma system_queue nd :
  is_list nd (QueueHead ReaperQueue) [] -> unchanged [QueueHead ReaperQueue] (nodes (k_sched k)) nd ->
  system_ok kd L (set_view k_tasks_l (queue_ready nd) k) u v0 /\ startable (set_view k_tasks_l (queue_ready nd) k).
Proof.
  intros Hl Hun. pose proof (tracked_queue nd Hl Hun) as Htr.
  assert (k_heap (set_view k_tasks_l (queue_ready nd) k) = k_heap k) as Eh.
  { rewrite with_tasks_heap. change (t_cpu (queue_ready nd)) with (pmm_cpu (m_pmm (the_supply (k_heap k)))). rewrite with_cpu_same. apply heap_world_eta. }
  destruct Hsys as [Hok _ Hbl Hgr Hoff Hv Hs]. split.
  - split; rewrite ?view_set_tasks; try done; rewrite ?Eh; try done. destruct Hok as [P1 P2 P3 P4 P5]. split; rewrite ?Eh; done.
  - destruct Hst as [S1 S2 S3]. split; rewrite ?Eh; done.
Qed.

(** What [reaper_init] leaves: the process [p] on the directory [f] and its
    thread [a]. *)
Record reaper_started p f a k' u' : Prop := {
  rp_system : system_ok kd (L ++ [(p, f)]) k' u' (joined (HeapThread a) p (with_group p [] v0));
  rp_process : k_processes k' = <[p := Process (next_pid k) (copy_name REAPER_NAME)]> (k_processes k);
  rp_thread : exists n, slot_used (k_vam k) n = false /\ (forall i, 0 <= i < n -> slot_used (k_vam k) i = true) /\
    threads (k_sched k') = <[HeapThread a := with_detached true (new_thread p REAPER_ENTRY (next_tid k) n)]> (threads (k_sched k));
  rp_ready : reaper_thread (k_sched k') = Some (HeapThread a) /\ reaper_ready (k_sched k') = true;
  rp_current : current (k_sched k') = current (k_sched k);
  rp_pages : free_pages (pmm_at (the_supply (k_heap k'))) = free_pages (pmm_at (the_supply (k_heap k))) - 5;
}.

Lemma wp_reaper_init fuel (Q : unit -> kernel -> Prop) :
  (1 < fuel)%nat -> (forall p f a k' u', reaper_started p f a k' u' -> Q tt k') -> wp (reaper_init fuel) Q k.
Proof.
  intros Hfuel HQ. unfold reaper_init. apply wp_bind, wp_zoom, wp_list_op, wp_list_init; [exact Hhead|]. intros nd Hl Hun.
  apply wp_bind, wp_zoom, wp_modify. rewrite view_set_tasks, set_set_tasks.
  change (set_reaper _ true _) with (queue_ready nd). destruct (system_queue nd Hl Hun) as [Hs0 Hst0]. set (k0 := set_view k_tasks_l (queue_ready nd) k) in *.
  apply (wp_first_thread kd L k0 u v0 Hs0 Hst0); [done|]. intros p f k1 u1 a n fs k2 u2 Hnz Ha Hm Hts Ht Hn.
  pose proof (system_created kd L k0 u v0 Hs0 _ p f k1 u1 Hm) as Hs1.
  apply wp_bind, wp_zoom, wp_modify. rewrite (proj2 (Z.eqb_neq a NULL)) by done. apply wp_bind, wp_assert; [done|].
  set (w1 := set_reaper (Some (HeapThread a)) true (Prelude.view k_tasks_l k2)).
  pose proof Ht as [_ _ [_ [Hfree [Hlow _]]] [Hlen Hss] _ [Eth _] _ (h2 & nd2 & Ek2)]. pose proof Hm as [_ _ [_ Hc] [Ep _] _ _ _ _ _ (h1 & nd1 & ln1 & Ek1)].
  set (t := HeapThread a) in *. set (th := new_thread p REAPER_ENTRY (next_tid k) n).
  assert (next_tid k1 = next_tid k /\ threads (k_sched k1) = threads (k_sched k) /\ current (k_sched k1) = current (k_sched k) /\ k_vam k1 = k_vam k) as (E1 & E2 & E3 & E4)
    by by rewrite Ek1.
  rewrite E4 in Hfree, Hlow. rewrite E1, E2 in Eth. fold th in Eth.
  assert (eflags (t_cpu w1) = eflags (t_cpu (Prelude.view k_tasks_l k1))) as Ecpu.
  { change (eflags (pmm_cpu (m_pmm (the_supply (k_heap k2)))) = eflags (pmm_cpu (m_pmm (the_supply (k_heap k1))))). by destruct (sl_cpu _ _ _ _ _ Hss). }
  set (w2 := set_threads (<[t := with_detached true th]> (threads (k_sched k))) w1).
  assert (wp (update_thread (Some t) (with_detached true)) (fun _ w => w = w2) w1) as Hup.
  { apply wp_update_thread; unfold update_threads; change (threads (t_sched w1)) with (threads (k_sched k2)); rewrite Eth; [rewrite lookup_insert_eq; by eexists|].
    unfold w2. f_equal. apply map_eq. intros x. destruct (decide (x = t)) as [->|Hne]; [by rewrite lookup_alter_eq, !lookup_insert_eq|by rewrite lookup_alter_ne, !lookup_insert_ne by done]. }
  apply wp_bind. apply wp_tasks. eapply wp_mono; [exact Hup|]. intros [] w ->.
  assert (disabled w2) as Hd2 by (unfold disabled; change (t_cpu w2) with (t_cpu w1); rewrite Ecpu; apply Hs1).
  apply wp_bind, wp_save_off; [done|].
  apply wp_bind, (wp_system_join kd f p REAPER_ENTRY (L ++ [(p, f)]) k1 u1 (with_group p [] v0) Hs1 Hts (ex_intro _ [] (lookup_insert_eq _ _ _)) a n fs k2 u2 Ht Hn w2 (with_detached true th)).
  - done.
  - done.
  - change (threads (t_sched w2)) with (<[t := with_detached true th]> (threads (k_sched k))). by rewrite E2.
  - unfold w2, w1. split; [..|by rewrite Ek1].
    + change (current (k_sched k2) = current (k_sched k1)). by rewrite Ek2.
    + change (quantum_remaining (k_sched k2) = quantum_remaining (k_sched k1)). by rewrite Ek2.
    + change (directories (k_sched k2) = directories (k_sched k1)). by rewrite Ek2.
  - done.
  - done.
  - done.
  - done.
  - intros nd3 Hs2. apply (wp_restore_same (set_nodes nd3 w2)), (HQ p f a _ u2). split.
    + exact Hs2.
    + change (k_processes k2 = <[p := Process (next_pid k) (copy_name REAPER_NAME)]> (k_processes k)). rewrite Ek2. exact Ep.
    + by exists n.
    + done.
    + change (current (k_sched k2) = current (k_sched k)). rewrite <- E3. by rewrite Ek2.
    + change (free_pages (pmm_at (the_supply (k_heap k2))) = free_pages (pmm_at (the_supply (k_heap k))) - 5).
      rewrite (sl_count _ _ _ _ _ Hss), frames_filled, Hlen, (taken_count _ _ _ (created_taken _ _ _ _ Hc)).
      change (pmm_at (the_supply (k_heap k0))) with (pmm_at (the_supply (k_heap k))). lia.
Qed.
End Reaper.

(** C10 [reaper_init] while the parts of the kernel fit together, with room for a
    process and a thread, before the reaper's queue is set up: no assertion
    fails, the process "reaper" and its detached thread are there, the thread
    is ready on its own stack, and the parts still fit together: the new
    process is the last of the list, its directory translates the kernel's
    addresses, and the scheduler has the thread at the end of the ready list.
    Nothing else runs, and five pages were spent. *)
Theorem reaper_init_spec kd L k u v fuel :
  system_ok kd L k u v -> startable k -> is_Some (nodes (k_sched k) !! QueueHead ReaperQueue) -> v_queues v !! ReaperQueue = None ->
  (1 < fuel)%nat ->
  wp (reaper_init fuel) (fun _ k' => exists p f a u', reaper_started kd L k v p f a k' u') k.
Proof.
  intros Hsys Hst Hh Hn Hfuel. apply (wp_reaper_init kd L k u v Hsys Hst Hh Hn); [done|]. intros p f a k' u' H. by exists p, f, a, u'.
Qed.

(** ** Witness *)

(** The machine of [ElfSpec] with a table for the first stacks in both
    directories; the four pages of the idle thread's stack are mapped. *)
Definition starting_machine : machine :=
  MkMachine (PmmWorld (Cpu 2 elf_kd []) demo_pmm)
    (foldr (fun j r => ram_entry_set 0x72000 j 0x73003 r)
       (ram_entry_set elf_kd 832 0x72003 (ram_entry_set elf_directory 832 0x72003 elf_ram)) (seqZ 0 4))
    (PHYS_TO_VIRT elf_kd).
Definition first_stack_taken (v : vam) : vam := Vam (vam_bitmap v) (<[0 := 1]> (kernel_stack_bitmap v)).
Definition starting_vam : vam := first_stack_taken vam_start.
Definition starting_nodes : gmap node (list_node node) := <[QueueHead ReaperQueue := Node None None]> idle_nodes.
Definition starting_kernel : kernel :=
  Kernel (HeapWorld owner_heap starting_machine) starting_vam
    (Sched starting_nodes idle_threads (Some IdleThread) 5 [] 0 {[owner := PHYS_TO_VIRT elf_directory]} None false)
    ∅ ∅ (Fs 0 0 0) ∅ ∅ owner_links {[owner := Process 1 (copy_name [115; 104])]} ∅ ∅ ∅ 2 2 boot_screen.

(** [stacks_ready], decided. *)
Definition stacks_check (m : machine) (kd : Z) : bool :=
  present (pde m kd 832) && tables_check m kd && present (Paging.entry (m_ram m) (table_of m kd 832) 0) &&
  forallb (fun j => negb (present (Paging.entry (m_ram m) (table_of m kd 832) j))) (seqZ 4 1020).

Lemma stacks_check_ok m kd v : stacks_check m kd = true -> slot_used v 0 = true -> stacks_ready kd v m.
Proof.
  unfold stacks_check. rewrite !andb_true_iff. intros [[[H1 H2] H3] H4] H0 n Hn Hf. pose proof (first_stack_pde n Hn) as E.
  assert (n <> 0) as Hnz by congruence. unfold FIRST_STACKS in Hn. split; rewrite ?E.
  - change KERNEL_STACK_COUNT with 16384. lia.
  - done.
  - apply tables_check_ok; [done|lia].
  - done.
  - intros j Hj. apply negb_true_iff. refine (forallb_seqZ _ 4 1020 _ H4 _). unfold slot_pte. lia.
  - exists 0. split; [|done]. unfold outside_slot, slot_pte. lia.
Qed.

Lemma starting_facts :
  kernel_check starting_machine elf_kd elf_directory = true /\ stacks_check starting_machine elf_kd = true /\
  walk (m_ram starting_machine) elf_kd 0xC1000000 = Some 0x71003 /\ free_pages (pmm_at starting_machine) = 3542 /\
  all_owned (m_ram starting_machine) [elf_directory] = [elf_directory] /\
  freeable_check (pmm_at starting_machine) [elf_directory] = true.
Proof. vm_compute. auto 8. Qed.

Lemma starting_mem : mem_ok starting_machine.
Proof. exact demo_boot_mem. Qed.

#[local] Opaque starting_machine.

Lemma starting_tiles : heap_ok (HeapWorld owner_heap starting_machine) owner_tiles.
Proof.
  destruct starting_facts as (Hc & _ & Hw & Hf & _). destruct (kernel_check_facts starting_machine elf_kd elf_directory starting_mem Hc) as (Hr & Ht & _ & Hfail).
  apply (owner_heap_ok starting_machine elf_kd Hr Hfail Ht); [exists 0x71003; exact Hw|rewrite Hf; done].
Qed.

Lemma starting_processes : processes_ok elf_kd [(owner, elf_directory)] starting_kernel owner_blocks.
Proof.
  destruct starting_facts as (Hc & _ & _ & Hf & Eo & Hfr). pose proof (kernel_check_space starting_machine elf_kd elf_directory starting_mem Hc) as Ht.
  split; change (the_supply (k_heap starting_kernel)) with starting_machine; change [(owner, elf_directory)].*2 with [elf_directory]; rewrite ?Eo.
  - split; rewrite ?Eo; [exact (ts_ready _ _ _ Ht)|exact (ts_fail _ _ _ Ht)|exact (ts_tables _ _ _ Ht)|apply NoDup_singleton|exact (freeable_check_ok _ _ Hfr)|].
    constructor; [|constructor]. exact (conj (ts_dirs _ _ _ Ht) (ts_kernel _ _ _ Ht)).
  - exists owner_tiles. split; [exact starting_tiles|]. split; [clear; cbn; split; [by intros [[=] _]|by split]|reflexivity].
  - apply (bool_decide_eq_true_1 _). clear. vm_compute. reflexivity.
  - constructor; [|constructor]. clear. split; [discriminate|]. split; [apply list_elem_of_here|]. split; [eexists; reflexivity|reflexivity].
  - rewrite Hf. clear. vm_compute. discriminate.
Qed.

Lemma starting_scheduler : tracked (Prelude.view k_tasks_l starting_kernel) idle_view.
Proof.
  assert (ok (Tasks (Cpu 2 elf_kd []) (k_sched starting_kernel)) idle_view) as Hok.
  { apply ok_check_ok, (bool_decide_eq_true_1 _). vm_compute. reflexivity. }
  destruct idle_ok as [[_ Hg Hq] _]. split; [exact Hok|exact Hg|exact Hq].
Qed.

Lemma first_stack_inv v : vam_inv v -> vam_inv (first_stack_taken v).
Proof.
  intros [Hp Hs]. split; [exact Hp|]. intros i. specialize (Hs i). unfold first_stack_taken. cbn [kernel_stack_bitmap].
  destruct (decide (i = 0)) as [->|Hne]; [|by rewrite lookup_insert_ne]. rewrite lookup_insert_eq. clear. split; [by vm_compute|by vm_compute].
Qed.

Lemma starting_system : system_ok elf_kd [(owner, elf_directory)] starting_kernel owner_blocks idle_view.
Proof.
  split.
  - exact starting_processes.
  - exact starting_scheduler.
  - exact (proj2 idle_ok).
  - intros p. cbn [v_groups idle_view]. intros Hp. destruct (decide (p = owner)) as [->|Hne]; [apply list_elem_of_here|].
    rewrite lookup_singleton_ne in Hp by congruence. by destruct Hp.
  - reflexivity.
  - exact (first_stack_inv vam_start vam_start_inv).
  - apply stacks_check_ok; [exact (proj1 (proj2 starting_facts))|by vm_compute].
Qed.

Lemma starting_room : startable starting_kernel.
Proof.
  destruct starting_facts as (_ & _ & _ & Hf & _). split.
  - exists owner_tiles. split; [exact starting_tiles|]. exists (3744, true). split; [apply list_elem_of_further, list_elem_of_here|].
    clear. split; [reflexivity|]. vm_compute. discriminate.
  - change (the_supply (k_heap starting_kernel)) with starting_machine. rewrite Hf. discriminate.
  - exists 1. clear. split; [by vm_compute|by vm_compute].
Qed.

Lemma reaper_init_spec_witness :
  wp (reaper_init 2) (fun _ k' => exists a, reaper_thread (k_sched k') = Some (HeapThread a) /\
    free_pages (pmm_at (the_supply (k_heap k'))) = 3537) starting_kernel.
Proof.
  eapply wp_mono.
  { exact (reaper_init_spec elf_kd [(owner, elf_directory)] starting_kernel owner_blocks idle_view 2 starting_system starting_room
      (ex_intro _ (Node None None) (lookup_insert_eq _ _ _)) (lookup_empty _) ltac:(lia)). }
  intros [] k' (p & f & a & u' & H). exists a. split; [apply (rp_ready _ _ _ _ _ _ _ _ _ H)|].
  rewrite (rp_pages _ _ _ _ _ _ _ _ _ H). change (the_supply (k_heap starting_kernel)) with starting_machine.
  by rewrite (proj1 (proj2 (proj2 (proj2 starting_facts)))).
Defined.
