(* ===== verification/SyscallSpec.v ===== *)
(** * What a program can do with a bad system call

    Every handler checks what it was given before it touches anything. *)

From S2P Require Import Prelude Layout Machine DList Pmm CString Ram Words Paging PagingSpec Vam Vmm Heap HeapSupply Task Sync Fs Exec Console ConsoleSpec Descriptors Kernel Process Lifecycle Elf Syscall.

(** The machine of a kernel. *)
Definition machine_of (k : kernel) : machine := view k_machine_l k.

Section Lenses.
Implicit Types k : kernel.

Lemma machine_view k : set_view k_machine_l (machine_of k) k = k.
Proof. by destruct k as [[? ?]]. Qed.

Lemma tasks_view k : set_view k_tasks_l (view k_tasks_l k) k = k.
Proof. by destruct k as [[? [[] ? ?]]]. Qed.

Lemma disk_view k : set_view k_disk_l (view k_disk_l k) k = k.
Proof. by destruct k as [[? ?]]. Qed.

(** A routine of a component that leaves its state alone. *)
Lemma wp_reads {S A} (l : lens kernel S) (c : M S A) (P : A -> Prop) (Q : A -> kernel -> Prop) k :
  set_view l (view l k) k = k -> wp c (fun a s => s = view l k /\ P a) (view l k) -> (forall a, P a -> Q a k) ->
  wp (zoom l c) Q k.
Proof.
  intros Hv Hc HQ. apply wp_zoom. eapply wp_mono; [exact Hc|]. intros a s [-> Ha]. rewrite Hv. by apply HQ.
Qed.
End Lenses.

(** A program runs: the current thread belongs to the process [p], whose
    directory, in frame [d], is the one in CR3. *)
Record running (k : kernel) (p d : Z) : Prop := {
  ru_thread : exists t th, current (k_sched k) = Some t /\ threads (k_sched k) !! t = Some th /\ Task.process th = p;
  ru_process : p <> NULL;
  ru_directory : directories (k_sched k) !! p = Some (PHYS_TO_VIRT d);
  ru_space : space (machine_of k) d;
  ru_active : active (machine_of k) d;
}.

(** The bytes from [a] to [a + n] are in user pages of the program. *)
Definition user_range (k : kernel) (d a n : Z) : Prop :=
  n = 0 \/ a + n < 2 ^ 32 /\ forall b, a <= b < a + n -> user_mapped (m_ram (machine_of k)) d b = true.

(** The descriptor is not of an open file. *)
Definition not_open (k : kernel) (p fd : Z) : Prop :=
  fd < 0 \/ PROCESS_MAX_FILES <= fd \/ k_table k !! file_slot p fd = Some false.

Section Handlers.
Context (local : Z).
Implicit Types (k : kernel) (p d a n fd : Z) (regs : registers).

Lemma wp_current_process k p d (Q : option Z -> kernel -> Prop) :
  running k p d -> Q (Some p) k -> wp current_process Q k.
Proof.
  intros [(t & th & Ec & Et & Ep) Hp _ _ _] HQ. unfold current_process.
  apply wp_bind, (wp_reads _ _ (fun c => c = Some t)); [apply tasks_view|by apply wp_gets|]. intros ? ->.
  apply wp_bind, (wp_reads _ _ (fun x => x = th)); [apply tasks_view| |].
  - unfold wp, get_thread. change (threads (t_sched (view k_tasks_l k))) with (threads (k_sched k)). by rewrite Et.
  - intros ? ->. rewrite Ep, (proj2 (Z.eqb_neq p NULL)) by done. by apply wp_ret.
Qed.

Lemma wp_with_process {A} k p d (e : A) (c : Z -> KM A) (Q : A -> kernel -> Prop) :
  running k p d -> wp (c p) Q k -> wp (with_process e c) Q k.
Proof. intros Hr HQ. unfold with_process. by apply wp_bind, (wp_current_process k p d). Qed.

Lemma wp_get_directory k p d (Q : Z -> kernel -> Prop) :
  running k p d -> Q (PHYS_TO_VIRT d) k -> wp (get_directory p) Q k.
Proof.
  intros Hr HQ. apply (wp_reads _ _ (fun x => x = PHYS_TO_VIRT d)); [apply tasks_view| |by intros ? ->].
  apply wp_bind, wp_gets. apply (wp_require _ _ _ _ (PHYS_TO_VIRT d)); [|done]. apply (ru_directory _ _ _ Hr).
Qed.

Lemma wp_range k p d a n (Q : bool -> kernel -> Prop) :
  running k p d -> is_u32 a -> is_u32 n -> (forall b, (b = true <-> user_range k d a n) -> Q b k) ->
  wp (machine_op (paging_user_range_valid (PHYS_TO_VIRT d) a n)) Q k.
Proof.
  intros Hr Ha Hn HQ. apply (wp_reads _ _ (fun b => b = true <-> user_range k d a n)); [apply machine_view| |done].
  apply wp_user_range_valid; [apply (ru_space _ _ _ Hr)|done|done|]. intros b Hb. by split.
Qed.

Lemma wp_string k p d s fuel (Q : bool -> kernel -> Prop) :
  running k p d -> 0 < s <= USER_VIRT_END -> (USER_VIRT_END + PAGE_SIZE - s) / PAGE_SIZE < Z.of_nat fuel ->
  (forall b, (b = true <-> exists n, user_string (m_ram (machine_of k)) d s n) -> Q b k) ->
  wp (machine_op (paging_user_string_valid fuel (PHYS_TO_VIRT d) s)) Q k.
Proof.
  intros Hr Hs Hf HQ. apply (wp_reads _ _ (fun b => b = true <-> exists n, user_string (m_ram (machine_of k)) d s n)); [apply machine_view| |done].
  apply wp_user_string_valid; [apply (ru_space _ _ _ Hr)|apply (ru_active _ _ _ Hr)|done|done|]. intros b Hb. by split.
Qed.

(** A descriptor that is not open has no file. *)
Lemma no_file k p fd : p <> NULL -> not_open k p fd -> process_get_file p fd (view k_disk_l k) = Ok NULL (view k_disk_l k).
Proof.
  intros Hp Hfd. unfold process_get_file. rewrite (proj2 (Z.eqb_neq p NULL)) by done.
  destruct ((fd <? 0) || (PROCESS_MAX_FILES <=? fd)) eqn:E; [done|].
  destruct Hfd as [?|[?|Hu]]; [lia|lia|]. unfold get_used, bind, gets, require.
  change (d_table (view k_disk_l k)) with (k_table k). by rewrite Hu.
Qed.

Lemma wp_read_not_open k p fd buffer count (Q : Z -> kernel -> Prop) :
  p <> NULL -> not_open k p fd -> Q (-1) k -> wp (disk_op (process_read p fd buffer count)) Q k.
Proof.
  intros Hp Hfd HQ. apply (wp_reads _ _ (fun r => r = -1)); [apply disk_view| |by intros ? ->].
  unfold wp, process_read, bind. by rewrite no_file.
Qed.

Lemma wp_close_not_open k p fd (Q : Z -> kernel -> Prop) :
  p <> NULL -> not_open k p fd -> Q (-1) k -> wp (disk_op (process_close p fd)) Q k.
Proof.
  intros Hp Hfd HQ. apply (wp_reads _ _ (fun r => r = -1)); [apply disk_view| |by intros ? ->].
  unfold wp, process_close, bind. by rewrite no_file.
Qed.

(** ** Writing to the console *)

(** The bytes at [buf] as the kernel reads them. *)
Definition kernel_bytes k buf (bs : list Z) : Prop :=
  forall i c, bs !! i = Some c -> kernel_load (buf + Z.of_nat i) (machine_of k) = Some c.

(** Only the console changed. *)
Definition only_console k k' : Prop := exists c, k' = set_view k_console_l c k.

Lemma console_frame k c : machine_of (set_view k_console_l c k) = machine_of k.
Proof. done. Qed.

Lemma set_console_console k c c' : set_view k_console_l c (set_view k_console_l c' k) = set_view k_console_l c k.
Proof. done. Qed.

Lemma wp_write_bytes k t buf bs (Q : unit -> kernel -> Prop) :
  shows (k_console k) t -> 0 <= buf -> buf + len bs < 2 ^ 32 -> kernel_bytes k buf bs ->
  (forall k', only_console k k' -> shows (k_console k') (type_text bs t) -> Q tt k') ->
  wp (for_each 0 (length bs) (fun i =>
        let* c := virtual_op (ld (u32 (buf + i))) in zoom k_console_l (console_putchar c))) Q k.
Proof.
  intros Hs Hb0 Hb1 Hbs HQ.
  apply (wp_for_each (fun i k' => 0 <= i /\ only_console k k' /\ shows (k_console k') (type_text (take (Z.to_nat i) bs) t))).
  - split; [done|]. split; [|done]. exists (k_console k). by destruct k.
  - intros i k' Hi (_ & [c ->] & Hs'). destruct (lookup_lt_is_Some_2 bs (Z.to_nat i)) as [b Eb]; [lia|].
    unfold len in Hb1. rewrite u32_id by (unfold is_u32; lia). apply wp_bind.
    apply (wp_reads k_machine_l _ (fun x => x = b)); [apply machine_view| |].
    { pose proof (Hbs _ _ Eb) as El. rewrite Z2Nat.id in El by lia. unfold wp, ld. cbn [load8 kernel_memory].
      change (view k_machine_l (set_view k_console_l c k)) with (machine_of k). by rewrite El. }
    intros ? ->. apply wp_zoom. eapply wp_putchar; [exact Hs'|]. intros s' H1 _ _ _ _. split; [lia|]. split.
    + exists s'. apply set_console_console.
    + cbn [k_console k_console_l set_view]. replace (Z.to_nat (i + 1)) with (S (Z.to_nat i)) by lia.
      rewrite (take_S_r _ _ _ Eb), type_text_snoc. exact H1.
  - intros k' (_ & Ho & Hs'). apply HQ; [done|]. rewrite Z.add_0_l, Nat2Z.id, firstn_all in Hs'. exact Hs'.
Qed.
End Handlers.

Section Theorem_.
Context (local : Z).
Implicit Types (k : kernel) (p d : Z) (regs : registers).

(** The calls that are refused. *)
Definition refused k p d regs : Prop :=
  (eax regs ∉ [SYS_EXIT; SYS_READ; SYS_WRITE; SYS_OPEN; SYS_CLOSE; SYS_EXEC]) \/
  (eax regs = SYS_WRITE /\ (s32 (ebx regs) <> 1 \/ ~ user_range k d (ecx regs) (edx regs))) \/
  (eax regs = SYS_READ /\ (~ user_range k d (ecx regs) (edx regs) \/ not_open k p (s32 (ebx regs)))) \/
  (eax regs = SYS_CLOSE /\ not_open k p (s32 (ebx regs))) \/
  (eax regs ∈ [SYS_OPEN; SYS_EXEC] /\ 0 < ebx regs <= USER_VIRT_END /\
     ~ exists n, user_string (m_ram (machine_of k)) d (ebx regs) n).

(** Each handler on a call that is refused. *)
Lemma refused_write k p d fd buf n (Q : Z -> kernel -> Prop) :
  running k p d -> is_u32 buf -> is_u32 n -> fd <> 1 \/ ~ user_range k d buf n -> Q SYSCALL_ERROR k ->
  wp (sys_write fd buf n) Q k.
Proof.
  intros Hr Hb Hn Hbad HQ. apply (wp_with_process k p d); [done|]. destruct (Z.eqb_spec fd 1) as [->|]; [|by apply wp_ret].
  apply wp_bind, (wp_get_directory k p d); [done|]. apply wp_bind, (wp_range k p d); [done..|]. intros b Hb'.
  destruct b; [|by apply wp_ret]. destruct Hbad as [|Hno]; [done|]. by exfalso; apply Hno, Hb'.
Qed.

Lemma refused_read k p d fd buf n (Q : Z -> kernel -> Prop) :
  running k p d -> is_u32 buf -> is_u32 n -> ~ user_range k d buf n \/ not_open k p fd -> Q (-1) k ->
  wp (sys_read fd buf n) Q k.
Proof.
  intros Hr Hb Hn Hbad HQ. apply (wp_with_process k p d); [done|].
  apply wp_bind, (wp_get_directory k p d); [done|]. apply wp_bind, (wp_range k p d); [done..|]. intros b Hb'.
  destruct b; [|by apply wp_ret]. destruct Hbad as [Hno|Hno]; [by exfalso; apply Hno, Hb'|].
  cbn [negb]. apply wp_read_not_open; [apply (ru_process _ _ _ Hr)|done|done].
Qed.

Lemma refused_close k p d fd (Q : Z -> kernel -> Prop) :
  running k p d -> not_open k p fd -> Q (-1) k -> wp (sys_close fd) Q k.
Proof.
  intros Hr Hno HQ. apply (wp_with_process k p d); [done|]. apply wp_close_not_open; [apply (ru_process _ _ _ Hr)|done|done].
Qed.

Lemma refused_path {A} k p d fuel s (e : A) (c : KM A) (Q : A -> kernel -> Prop) :
  running k p d -> 0 < s <= USER_VIRT_END -> (USER_VIRT_END + PAGE_SIZE - s) / PAGE_SIZE < Z.of_nat fuel ->
  (~ exists n, user_string (m_ram (machine_of k)) d s n) -> Q e k ->
  wp (let* ok := machine_op (paging_user_string_valid fuel (PHYS_TO_VIRT d) s) in if negb ok then ret e else c) Q k.
Proof.
  intros Hr Hs Hf Hno HQ. apply wp_bind, (wp_string k p d); [done..|]. intros b Hb.
  destruct b; [by exfalso; apply Hno, Hb|by apply wp_ret].
Qed.

Lemma refused_open k p d fuel s access (Q : Z -> kernel -> Prop) :
  running k p d -> 0 < s <= USER_VIRT_END -> (USER_VIRT_END + PAGE_SIZE - s) / PAGE_SIZE < Z.of_nat fuel ->
  (~ exists n, user_string (m_ram (machine_of k)) d s n) -> Q (-1) k -> wp (sys_open fuel s access) Q k.
Proof.
  intros Hr Hs Hf Hno HQ. apply (wp_with_process k p d); [done|].
  apply wp_bind, (wp_get_directory k p d); [done|]. by apply (refused_path k p d).
Qed.

Lemma refused_exec k p d fuel regs s user_argv (Q : option registers -> kernel -> Prop) :
  running k p d -> 0 < s <= USER_VIRT_END -> (USER_VIRT_END + PAGE_SIZE - s) / PAGE_SIZE < Z.of_nat fuel ->
  (~ exists n, user_string (m_ram (machine_of k)) d s n) -> Q None k -> wp (sys_exec local fuel regs s user_argv) Q k.
Proof.
  intros Hr Hs Hf Hno HQ. apply (wp_with_process k p d); [done|].
  apply wp_bind, (wp_get_directory k p d); [done|]. by apply (refused_path k p d).
Qed.

(** C23 A bad system call does nothing: for a running program, an unknown
    number, a buffer or a string that is not wholly in user pages of the
    program, a descriptor that is not open, or a file other than standard
    output for writing, the handler answers the error in EAX and leaves every
    other register and the whole kernel as they were. A write that is
    accepted answers its length and types exactly the buffer on the screen,
    and changes nothing else. *)
Theorem syscall_errors fuel k p d regs :
  running k p d -> is_u32 (ebx regs) -> is_u32 (ecx regs) -> is_u32 (edx regs) ->
  (USER_VIRT_END + PAGE_SIZE) / PAGE_SIZE < Z.of_nat fuel ->
  (refused k p d regs -> syscall_handler local fuel regs k = Ok (with_eax SYSCALL_ERROR regs) k) /\
  (forall t bs, eax regs = SYS_WRITE -> s32 (ebx regs) = 1 -> user_range k d (ecx regs) (edx regs) ->
     shows (k_console k) t -> len bs = edx regs -> kernel_bytes k (ecx regs) bs -> ecx regs + edx regs < 2 ^ 32 ->
     wp (syscall_handler local fuel regs) (fun regs' k' => regs' = with_eax (edx regs) regs /\
       only_console k k' /\ shows (k_console k') (type_text bs t)) k).
Proof.
  intros Hr Hb Hc Hd Hf. pose proof (ru_process _ _ _ Hr) as Hp. split.
  - intros Href. destruct (wp_inv (syscall_handler local fuel regs)
      (fun r k' => r = with_eax SYSCALL_ERROR regs /\ k' = k) k) as (r & k' & E & -> & ->); [|done].
    unfold syscall_handler. destruct Href as [Hnr|[[E Hbad]|[[E Hbad]|[[E Hbad]|(E & Hs & Hbad)]]]].
    + rewrite !not_elem_of_cons in Hnr. destruct Hnr as (H1 & H2 & H3 & H4 & H5 & H6 & _).
      rewrite !(proj2 (Z.eqb_neq _ _)) by done. by apply wp_ret.
    + rewrite E. apply wp_bind, (refused_write k p d); [done..|]. by apply wp_ret.
    + rewrite E. apply wp_bind, (refused_read k p d); [done..|]. by apply wp_ret.
    + rewrite E. apply wp_bind, (refused_close k p d); [done..|]. by apply wp_ret.
    + assert ((USER_VIRT_END + PAGE_SIZE - ebx regs) / PAGE_SIZE < Z.of_nat fuel) as Hf'.
      { eapply Z.le_lt_trans; [|exact Hf]. apply Z.div_le_mono; [done|lia]. }
      apply elem_of_cons in E as [E|E%list_elem_of_singleton]; rewrite E.
      * apply wp_bind, (refused_open k p d); [done..|]. by apply wp_ret.
      * apply wp_bind, (refused_exec k p d); [done..|]. by apply wp_ret.
  - intros t bs E Efd Hrange Hs El Hbs Hlt. unfold syscall_handler. rewrite E, Efd.
    apply wp_bind, (wp_with_process k p d); [done|]. apply wp_bind, (wp_get_directory k p d); [done|].
    apply wp_bind, (wp_range k p d); [done..|]. intros b Hb'. destruct b; [|by apply Hb' in Hrange].
    apply wp_bind. rewrite <- El. unfold len at 1. rewrite Nat2Z.id.
    apply (wp_write_bytes k t (ecx regs) bs); [done|unfold is_u32 in *; lia|lia|done|]. intros k' Ho Hs'.
    apply wp_ret, wp_ret. rewrite u32_id by (by rewrite El). done.
Qed.
End Theorem_.

(** ** Witness *)

(** A program with one page at [0x400000] runs. *)
Definition program_machine : machine :=
  final (zoom machine_cpu_l (paging_load_directory demo_process_frame)) demo_process_machine.

Definition program_thread : thread := Thread 1 0xD1000000 0 THREAD_RUNNING 0xC1000100 false None 0xBFFFF000 0xC1000300 [].

Definition program_kernel : kernel :=
  Kernel (HeapWorld (Heap 0 0 0 ∅) program_machine) vam_start
    (Sched ∅ {[HeapThread 0xC1000010 := program_thread]} (Some (HeapThread 0xC1000010)) 5 [] 0
      {[0xC1000100 := PHYS_TO_VIRT demo_process_frame]} None true)
    ∅ ∅ (Fs 0 0 0) ∅ (list_to_map ((fun fd => (file_slot 0xC1000100 (Z.of_nat fd), false)) <$> seq 0 16)) ∅ ∅ ∅ ∅ ∅ 2 2 boot_screen.

#[local] Opaque demo_process_machine.

Lemma program_facts :
  space_check program_machine demo_process_frame = true /\ frame_of (cr3 (pmm_cpu (m_pmm program_machine))) = demo_process_frame /\
  user_mapped (m_ram program_machine) demo_process_frame 0x400000 = true /\
  user_mapped (m_ram program_machine) demo_process_frame 0x400001 = true /\
  kernel_load 0x400000 program_machine = Some 0 /\ kernel_load 0x400001 program_machine = Some 0.
Proof. vm_compute. auto 10. Qed.

(** The parts of the kernel that do not need the machine. *)
Lemma program_scheduler :
  threads (k_sched program_kernel) !! HeapThread 0xC1000010 = Some program_thread /\
  directories (k_sched program_kernel) !! 0xC1000100 = Some (PHYS_TO_VIRT demo_process_frame) /\
  k_table program_kernel !! file_slot 0xC1000100 3 = Some false.
Proof. unfold program_kernel. cbn [k_sched threads directories k_table]. split; [by vm_compute|]. split; by vm_compute. Qed.

Lemma program_running : running program_kernel 0xC1000100 demo_process_frame.
Proof.
  destruct program_facts as (Hs & Ha & _). destruct program_scheduler as (Ht & Hd & _).
  split; [|discriminate|exact Hd|apply space_check_ok, Hs|exact Ha].
  exists (HeapThread 0xC1000010), program_thread. split; [reflexivity|]. split; [exact Ht|reflexivity].
Qed.

Lemma program_range : user_range program_kernel demo_process_frame 0x400000 2.
Proof.
  right. split; [lia|]. intros b Hb. destruct program_facts as (_ & _ & H0 & H1 & _).
  assert (b = 0x400000 \/ b = 0x400001) as [-> | ->] by (clear -Hb; lia); [exact H0|exact H1].
Qed.

Lemma program_bytes : kernel_bytes program_kernel 0x400000 [0; 0].
Proof.
  destruct program_facts as (_ & _ & _ & _ & H0 & H1). intros [|[|i]] c E; [| |discriminate E]; injection E as <-; [exact H0|exact H1].
Qed.

Lemma u32_small (n : Z) : 0 <= n < 2 ^ 32 -> is_u32 n.
Proof. done. Qed.

Lemma program_screen : shows (k_console program_kernel) (empty_screen 0x700).
Proof. exact (proj1 boot_screen_shows). Qed.

#[local] Opaque program_kernel.

(** Reading from descriptor 3, which is not open, and writing two bytes. *)
Lemma syscall_errors_witness :
  let fuel := Z.to_nat (2 ^ 20) in
  syscall_handler 0xD1003F00 fuel (Registers SYS_READ 3 0x400000 2 0x400010 0xBFFFFFF0 0x23) program_kernel =
    Ok (Registers SYSCALL_ERROR 3 0x400000 2 0x400010 0xBFFFFFF0 0x23) program_kernel /\
  wp (syscall_handler 0xD1003F00 fuel (Registers SYS_WRITE 1 0x400000 2 0x400010 0xBFFFFFF0 0x23)) (fun r k' =>
    r = Registers 2 1 0x400000 2 0x400010 0xBFFFFFF0 0x23 /\
    shows (k_console k') (type_text [0; 0] (empty_screen 0x700))) program_kernel.
Proof.
  intros fuel. assert ((USER_VIRT_END + PAGE_SIZE) / PAGE_SIZE < Z.of_nat fuel) as Hf
    by (unfold fuel; rewrite Z2Nat.id by (clear; lia); vm_compute; reflexivity).
  clearbody fuel. split.
  - refine (proj1 (syscall_errors 0xD1003F00 fuel program_kernel 0xC1000100 demo_process_frame
      (Registers SYS_READ 3 0x400000 2 0x400010 0xBFFFFFF0 0x23) program_running (u32_small 3 _) (u32_small 0x400000 _)
      (u32_small 2 _) Hf) _); [lia..|].
    right. right. left. split; [reflexivity|]. right. right. right. exact (proj2 (proj2 program_scheduler)).
  - eapply wp_mono.
    + refine (proj2 (syscall_errors 0xD1003F00 fuel program_kernel 0xC1000100 demo_process_frame
        (Registers SYS_WRITE 1 0x400000 2 0x400010 0xBFFFFFF0 0x23) program_running (u32_small 1 _) (u32_small 0x400000 _)
        (u32_small 2 _) Hf) (empty_screen 0x700) [0; 0] eq_refl eq_refl program_range program_screen eq_refl
        program_bytes _); [lia..|reflexivity].
    + intros r k' (-> & _ & H). split; [reflexivity|exact H].
Defined.
