(* ===== verification/Boot.v ===== *)
(** * Interrupts and the start of the kernel

    The dispatchers [isr_handler] and [irq_handler], and the sequence from
    [kernel_main] to the first switch: [kernel_init], the reaper, the test
    process and [init_process_start]. The state is the kernel's with the
    tables and devices of [Descriptors] and the statics of [multiboot2.c] and
    [test.c] beside it. *)

From Stdlib Require Import Ascii String.
From S2P Require Import Prelude Layout Machine DList Pmm CString Printf Ram Words Multiboot Paging Vam Vmm Heap HeapSupply Task Sync Fs Console Descriptors Kernel Process Lifecycle Elf.

Record computer : Type := Computer {
  c_kernel : kernel;
  (** its processor and ports are those of [c_kernel] *)
  c_arch : arch;
  c_boot_info : Z;
  test_ticks : Z;
}.

Definition c_kernel_l : lens computer kernel := Lens c_kernel (fun k c => Computer k (c_arch c) (c_boot_info c) (test_ticks c)).

(** The ports belong to the console, the processor to the machine. *)
Definition c_arch_l : lens computer arch :=
  Lens (fun c => set_view a_io_l (c_io (k_console (c_kernel c))) (set_view a_cpu_l (view k_cpu_l (c_kernel c)) (c_arch c)))
    (fun a c => Computer
      (set_view k_console_l (set_view c_io_l (a_io a) (k_console (c_kernel c))) (set_view k_cpu_l (a_cpu a) (c_kernel c)))
      a (c_boot_info c) (test_ticks c)).

Definition c_boot_l : lens computer (boot machine) :=
  Lens (fun c => Multiboot.Boot (c_boot_info c) (view k_machine_l (c_kernel c)))
    (fun b c => Computer (set_view k_machine_l (b_mem b) (c_kernel c)) (c_arch c) (boot_info b) (test_ticks c)).

Abbreviation CM := (M computer).

Definition kernel_op {A} (m : KM A) : CM A := zoom c_kernel_l m.
Definition arch_op {A} (m : M arch A) : CM A := zoom c_arch_l m.
Definition boot_op {A} (m : M (boot machine) A) : CM A := zoom c_boot_l m.
Definition screen_op {A} (m : M console A) : CM A := kernel_op (zoom k_console_l m).

(** ** Printing *)

Definition print (l : list Z) : CM unit := kernel_op (print_text l).

(** ** isr.c and irq.c *)

(** The registers that the stub pushed and the handler looks at. *)
Record exception_frame : Type := ExceptionFrame { int_no : Z; err_code : Z; r_eip : Z; r_cs : Z }.

Definition exception_messages : list string :=
  ["Divide Error"; "Debug"; "Non Maskable Interrupt"; "Breakpoint"; "Overflow"; "BOUND Range Exceeded"; "Invalid Opcode";
   "Device Not Available"; "Double Fault"; "Coprocessor Segment Overrun"; "Invalid TSS"; "Segment Not Present";
   "Stack Segment Fault"; "General Protection Fault"; "Page Fault"; "Reserved"; "x87 Floating Point"; "Alignment Check";
   "Machine Check"; "SIMD Floating Point"; "Virtualization"; "Control Protection"; "Reserved"; "Reserved"; "Reserved";
   "Reserved"; "Reserved"; "Reserved"; "Hypervisor Injection"; "VMM Communication"; "Security Exception"; "Reserved"]%string.

(** What is left of an exception: the thread of a program ends and another
    one runs, or the kernel halts for good. *)
Inductive exception_outcome : Type := Killed | Halted.

(** [cr2] is the address of a page fault. *)
Definition isr_handler (cr2 : Z) (regs : exception_frame) : CM exception_outcome :=
  let privilege := Z.land (r_cs regs) 3 in
  print (NEWLINE ++ text "=== CPU EXCEPTION ===" ++ NEWLINE) ;;;
  (if int_no regs <? 32 then print (text (nth (Z.to_nat (int_no regs)) exception_messages "") ++ NEWLINE) else ret tt) ;;;
  print (text "Vector : " ++ unsigned_text 10 (int_no regs) ++ NEWLINE) ;;;
  print (text "Error  : " ++ unsigned_text 16 (err_code regs) ++ NEWLINE) ;;;
  print (text "EIP    : " ++ unsigned_text 16 (r_eip regs) ++ NEWLINE) ;;;
  print (text "CS     : " ++ unsigned_text 16 (r_cs regs) ++ NEWLINE) ;;;
  print (text "CPL    : " ++ unsigned_text 10 privilege ++ NEWLINE) ;;;
  (if int_no regs =? 14 then print (text "CR2    : " ++ unsigned_text 16 cr2 ++ NEWLINE) else ret tt) ;;;
  if privilege =? 3 then
    print (text "USER MODE EXCEPTION" ++ NEWLINE) ;;;
    kernel_op (tasks_op thread_kill_current) ;;;
    ret Killed
  else
    print (text "KERNEL MODE EXCEPTION" ++ NEWLINE) ;;;
    ret Halted.

Definition irq_handler (int_no : Z) : CM unit :=
  let irq := u32 (int_no - 32) in
  (if irq =? 0 then
     arch_op pit_handler ;;;
     modify (fun c => Computer (c_kernel c) (c_arch c) (c_boot_info c) (u32 (test_ticks c + 1)))
   else if irq =? 1 then screen_op keyboard_handler
   else ret tt) ;;;
  arch_op (zoom a_io_l (pic_send_eoi (u8 irq))) ;;;
  if irq =? 0 then kernel_op (tasks_op scheduler_tick) else ret tt.

(** ** The start *)

Section Start.
(** Addresses fixed by the linker: tables and stubs, the end of the kernel in
    both address spaces, the strings of the code, and the local [struct file]. *)
Context (gdt_address idt_address tss_address syscall_stub : Z) (isr_table irq_table : Z -> Z).
Context (kernel_end kernel_virtual_end rootfs_name init_path local : Z).
(** Fuel of the searches, the string comparisons and the allocator. *)
Context (fuel : nat).

(** [printf("%s", p)] *)
Definition print_chars (p : Z) : CM unit :=
  loop fuel (fun p =>
    let* c := boot_op (zoom b_mem_l (ld p)) in
    if c =? 0 then ret (inr tt)
    else screen_op (Console.console_putchar c) ;;; ret (inl (u32 (p + 1)))) p.

Definition multiboot2_dump_module : CM unit :=
  let* module := boot_op (multiboot2_find_module fuel fuel rootfs_name) in
  if module =? NULL then print (text "Multiboot: no module found" ++ NEWLINE)
  else
    print (text "Multiboot module:" ++ NEWLINE) ;;;
    let* start := boot_op (read32 (u32 (module + 8))) in
    print (text "  start = " ++ unsigned_text 16 start ++ NEWLINE) ;;;
    let* stop := boot_op (read32 (u32 (module + 12))) in
    print (text "  end   = " ++ unsigned_text 16 stop ++ NEWLINE) ;;;
    let* stop := boot_op (read32 (u32 (module + 12))) in
    let* start := boot_op (read32 (u32 (module + 8))) in
    print (text "  size  = " ++ unsigned_text 10 (u32 (stop - start)) ++ NEWLINE) ;;;
    print (text "  name  = ") ;;;
    print_chars (u32 (module + 16)) ;;;
    print NEWLINE.

Definition boot_init (magic mb_info : Z) : CM unit :=
  boot_op (multiboot2_init magic mb_info) ;;;
  multiboot2_dump_module.

Definition drivers_init : CM unit := screen_op (keyboard_init (Some keymap_azerty)).

(** The report of [pmm_init] on its statistics. *)
Definition print_memory (memory : boot_memory) : CM unit :=
  match memory_map memory with
  | None => print (text "PMM: no memory map" ++ NEWLINE)
  | Some _ =>
      let* total := kernel_op (pmm_op (zoom pmm_l (gets total_memory))) in
      print (text "Total memory : " ++ unsigned_text 10 (total / 1024) ++ text " KB" ++ NEWLINE) ;;;
      let* usable := kernel_op (pmm_op (zoom pmm_l (gets usable_memory))) in
      print (text "Usable memory: " ++ unsigned_text 10 (usable / 1024) ++ text " KB" ++ NEWLINE)
  end.

(** [pmm_init] on the boot information. *)
Definition memory_init : CM unit :=
  let* memory := boot_op (read_boot_memory fuel fuel rootfs_name kernel_end) in
  kernel_op (pmm_op (zoom pmm_l (pmm_survey memory))) ;;;
  print_memory memory ;;;
  kernel_op (pmm_op (zoom pmm_l (pmm_release memory))).

Definition kernel_init (magic mb_info : Z) : CM unit :=
  screen_op console_init ;;;
  boot_init magic mb_info ;;;
  drivers_init ;;;
  arch_op (arch_init gdt_address idt_address tss_address syscall_stub isr_table irq_table) ;;;
  memory_init ;;;
  kernel_op (machine_op paging_init) ;;;
  kernel_op (vam_op (vam_init kernel_virtual_end)) ;;;
  kernel_op (heap_op heap_init) ;;;
  kernel_op (tasks_op scheduler_init) ;;;
  kernel_op scheduler_start.

(** The names of the two processes. *)
Definition INIT_NAME : list Z := text "init".
Definition KERNEL_TESTS_NAME : list Z := text "kernel_tests".
(** [&kernel_test_entry] *)
Definition KERNEL_TEST_ENTRY : Z := 3.

(** From the mounting of the file system to the file's contents. *)
Definition open_init (image image_size : Z) : KM (Z * Z) :=
  let* e := disk_op (fs_mount image image_size) in
  ASSERT "fs_mount(image, image_size) == 0" (e =? 0) ;;;
  disk_op (modify (fun d => Disk (d_fs d) (d_mem d) (<[local := File NULL 0 0]> (d_files d)) (d_table d))) ;;;
  let* e := disk_op (file_open fuel init_path FILE_ACCESS_READ local) in
  ASSERT "file_open(init_path, FILE_ACCESS_READ, &file) == 0" (e =? 0) ;;;
  let* file_image := disk_op (file_data local) in
  let* file_size_value := disk_op (file_size local) in
  ASSERT "file_image != NULL" (negb (file_image =? NULL)) ;;;
  ASSERT "file_size_value != 0" (negb (file_size_value =? 0)) ;;;
  ret (file_image, file_size_value).

(** The thread of the program. *)
Definition start_init (process file_image file_size_value : Z) : KM unit :=
  let* directory := get_directory process in
  let* entry := elf_load fuel directory file_image file_size_value in
  match entry with
  | None => fail (Panicked "failed to load init")
  | Some entry =>
      let* thread := usermode_elf_thread_create fuel process entry in
      ASSERT "thread != NULL" (negb (thread =? NULL)) ;;;
      tasks_op (thread_add (Some (HeapThread thread))) ;;;
      disk_op (file_close local)
  end.

Definition init_process_start : CM unit :=
  let* module := boot_op (multiboot2_find_module fuel fuel rootfs_name) in
  ASSERT "module != NULL" (negb (module =? NULL)) ;;;
  let* start := boot_op (read32 (u32 (module + 8))) in
  let* stop := boot_op (read32 (u32 (module + 12))) in
  let* file := kernel_op (open_init (PHYS_TO_VIRT start) (u32 (stop - start))) in
  print (validate_message file.1 file.2) ;;;
  let* ok := kernel_op (machine_op (elf_validate file.1 file.2)) in
  ASSERT "elf_validate(file_image, file_size_value)" (negb (ok =? 0)) ;;;
  let* process := kernel_op (process_create fuel INIT_NAME) in
  let* p := kernel_op (fetch k_processes_l process) in
  print (text "init -> pid " ++ unsigned_text 16 (pid p) ++ NEWLINE) ;;;
  ASSERT "process != NULL" (negb (process =? NULL)) ;;;
  kernel_op (start_init process file.1 file.2).

(** [scheduler_enter_idle(scheduler_idle_stack_pointer())]: the bootstrap stack
    is left for good, and the idle thread goes on from its saved frames. *)
Definition scheduler_enter_idle : TM unit :=
  let* th := get_thread (Some IdleThread) in
  modify (set_stack (saved th)).

Definition kernel_main (magic mb_info : Z) : CM unit :=
  kernel_init magic mb_info ;;;
  kernel_op (reaper_init fuel) ;;;
  let* process := kernel_op (process_create fuel KERNEL_TESTS_NAME) in
  ASSERT "process != NULL" (negb (process =? NULL)) ;;;
  let* thread := kernel_op (thread_create fuel process KERNEL_TEST_ENTRY) in
  ASSERT "thread != NULL" (negb (thread =? NULL)) ;;;
  kernel_op (tasks_op (thread_add (Some (HeapThread thread)))) ;;;
  init_process_start ;;;
  kernel_op (tasks_op scheduler_enter_idle).
End Start.
