(* ===== verification/InterruptSpec.v ===== *)
(** * Interrupts and exceptions

    The handlers of [isr.c] and [irq.c] on the whole computer: what they show,
    which acknowledgements they send, and what becomes of the thread that was
    interrupted. *)

From S2P Require Import Prelude Layout Machine DList ListFamily Pmm CString Printf Ram Words Paging Vam Vmm Heap HeapSupply Task TaskSpec TaskOps Sync SyncSpec SyncInv SyncSafe TaskDemo Fs Console ConsoleSpec Descriptors Kernel Printing Process Lifecycle Boot.

Lemma wp_kernel_op {A} (x : KM A) k a i t (Q : A -> computer -> Prop) :
  wp x (fun r k' => Q r (Computer k' a i t)) k -> wp (kernel_op x) Q (Computer k a i t).
Proof. intros H. by apply wp_zoom. Qed.

(** ** Printing *)

Definition computer_at (k : kernel) (a : arch) (b t : Z) (s : console) : computer := Computer (on_screen s k) a b t.

Section Printing.
Context {k : kernel} {a : arch} {info t : Z}.
Implicit Types (s : console) (scr : scrollback) (l : list Z).

Let at_ s : computer := computer_at k a info t s.

Lemma wp_type_char (c : Z) s scr (Q : unit -> computer -> Prop) :
  shows s scr -> (forall s', shows s' (type_text [c] scr) -> Q tt (at_ s')) -> wp (screen_op (Console.console_putchar c)) Q (at_ s).
Proof. intros Hs HQ. apply wp_kernel_op, wp_zoom. eapply wp_putchar; [exact Hs|]. intros s' H _ _ _ _. by apply HQ. Qed.

Lemma wp_print_layout l s scr (Q : unit -> computer -> Prop) :
  shows s scr -> (forall s', shows s' (type_text l scr) -> current_layout s' = current_layout s -> Q tt (at_ s')) -> wp (print l) Q (at_ s).
Proof. intros Hs HQ. apply wp_kernel_op, (wp_print_text _ _ _ _ _ Hs). exact HQ. Qed.

Lemma wp_print l s scr (Q : unit -> computer -> Prop) :
  shows s scr -> (forall s', shows s' (type_text l scr) -> Q tt (at_ s')) -> wp (print l) Q (at_ s).
Proof. intros Hs HQ. apply (wp_print_layout _ _ _ _ Hs). intros s' H _. by apply HQ. Qed.
End Printing.

(** ** Exceptions *)

(** The text that [isr_handler] shows. *)
Definition exception_report (cr2 : Z) (regs : exception_frame) : list Z :=
  (NEWLINE ++ text "=== CPU EXCEPTION ===" ++ NEWLINE) ++
  (if int_no regs <? 32 then text (nth (Z.to_nat (int_no regs)) exception_messages "") ++ NEWLINE else []) ++
  number_line "Vector : " 10 (int_no regs) ++ number_line "Error  : " 16 (err_code regs) ++
  number_line "EIP    : " 16 (r_eip regs) ++ number_line "CS     : " 16 (r_cs regs) ++
  number_line "CPL    : " 10 (Z.land (r_cs regs) 3) ++
  (if int_no regs =? 14 then number_line "CR2    : " 16 cr2 else []) ++
  (if Z.land (r_cs regs) 3 =? 3 then text "USER MODE EXCEPTION" ++ NEWLINE else text "KERNEL MODE EXCEPTION" ++ NEWLINE).

Section Exceptions.
Context (k : kernel) (a : arch) (info t : Z).
Implicit Types (s : console) (scr : scrollback) (w : tasks) (v : view) (c : tref).

Lemma computer_id : computer_at k a info t (k_console k) = Computer k a info t.
Proof. unfold computer_at, on_screen. by destruct k. Qed.

(** A line that is printed or not. *)
Lemma wp_print_if (b : bool) l s scr (Q : unit -> computer -> Prop) :
  shows s scr -> (forall s', shows s' (type_text (if b then l else []) scr) -> Q tt (computer_at k a info t s')) ->
  wp (if b then print l else ret tt) Q (computer_at k a info t s).
Proof. intros Hs HQ. destruct b; [by apply (wp_print _ s scr)|]. by apply wp_ret, HQ. Qed.

(** The report, and what is left to do for the privilege level. *)
Lemma wp_isr_report cr2 regs s scr (Q : exception_outcome -> computer -> Prop) :
  shows s scr ->
  (forall s', shows s' (type_text (exception_report cr2 regs) scr) -> Z.land (r_cs regs) 3 <> 3 -> Q Halted (computer_at k a info t s')) ->
  (forall s', shows s' (type_text (exception_report cr2 regs) scr) -> Z.land (r_cs regs) 3 = 3 ->
     wp (kernel_op (tasks_op thread_kill_current) ;;; ret Killed) Q (computer_at k a info t s')) ->
  wp (isr_handler cr2 regs) Q (computer_at k a info t s).
Proof.
  intros Hs HQk HQu. unfold isr_handler, exception_report, number_line in *.
  apply wp_bind, (wp_print _ s scr _ Hs). intros s1 H1. apply wp_bind, (wp_print_if _ _ s1 _ _ H1). intros s2 H2.
  apply wp_bind, (wp_print _ s2 _ _ H2). intros s3 H3. apply wp_bind, (wp_print _ s3 _ _ H3). intros s4 H4.
  apply wp_bind, (wp_print _ s4 _ _ H4). intros s5 H5. apply wp_bind, (wp_print _ s5 _ _ H5). intros s6 H6.
  apply wp_bind, (wp_print _ s6 _ _ H6). intros s7 H7. apply wp_bind, (wp_print_if _ _ s7 _ _ H7). intros s8 H8.
  rewrite <- !type_text_app in H8. destruct (Z.eqb_spec (Z.land (r_cs regs) 3) 3) as [E|E].
  - apply wp_bind, (wp_print _ s8 _ _ H8). intros s9 H9. rewrite <- type_text_app in H9. apply (HQu s9); [|done].
    rewrite <- !app_assoc in H9. rewrite <- !app_assoc. exact H9.
  - apply wp_bind, (wp_print _ s8 _ _ H8). intros s9 H9. rewrite <- type_text_app in H9. apply wp_ret, (HQk s9); [|done].
    rewrite <- !app_assoc in H9. rewrite <- !app_assoc. exact H9.
Qed.

(** The thread [c] is dead, and another one runs. *)
Record killed (c : tref) (w w' : tasks) : Prop := {
  kl_ok : exists v, ok w' v;
  kl_disabled : disabled w';
  kl_current : current (t_sched w') <> Some c;
  kl_thread : exists th, threads (t_sched w') !! c = Some th /\ state th = THREAD_TERMINATED /\ wait_queue th = None /\
    saved th = KillReturn :: stack (t_sched w);
}.

Lemma wp_killed w v c (Q : unit -> tasks -> Prop) :
  ok w v -> current (t_sched w) = Some c -> c <> IdleThread -> Some c <> reaper_thread (t_sched w) ->
  (forall w', killed c w w' -> Q tt w') -> wp thread_kill_current Q w.
Proof.
  intros Hok Hc Hi Hr HQ. apply (su_kill w v c); [done..|]. intros w' g (v' & Hok' & _) Hd _ _ Hsum. apply HQ.
  specialize (Hsum c). unfold su_set in Hsum. rewrite decide_True in Hsum by done. unfold summary_of in Hsum.
  destruct (threads (t_sched w') !! c) as [th|] eqn:Et; [|done]. cbn in Hsum. injection Hsum as Eq Eb Ed Ef.
  apply bool_decide_eq_true in Ed. assert (current (t_sched w') <> Some c) as Hne.
  { intros E. destruct (running_current _ _ _ Hok' E) as (th' & Et' & Es' & _). congruence. }
  rewrite decide_False in Ef by done. split; [by exists v'|done|done|by exists th].
Qed.

(** C17 An exception shows its report, with the message of its vector, and
    nothing else: from the kernel, the machine halts and nothing but the screen
    has changed; from a program, the thread that caused it is terminated,
    another thread runs, and every invariant of the scheduler holds. *)
Theorem isr_handler_spec cr2 regs scr :
  shows (k_console k) scr ->
  (Z.land (r_cs regs) 3 <> 3 ->
     wp (isr_handler cr2 regs) (fun o (x : computer) => o = Halted /\ exists s, x = computer_at k a info t s /\
       shows s (type_text (exception_report cr2 regs) scr)) (Computer k a info t)) /\
  (Z.land (r_cs regs) 3 = 3 -> forall v c, ok (Prelude.view k_tasks_l k) v -> current (k_sched k) = Some c -> c <> IdleThread ->
     Some c <> reaper_thread (k_sched k) ->
     wp (isr_handler cr2 regs) (fun o (x : computer) => o = Killed /\ exists s w, x = computer_at (set_view k_tasks_l w k) a info t s /\
       shows s (type_text (exception_report cr2 regs) scr) /\ killed c (Prelude.view k_tasks_l k) w) (Computer k a info t)).
Proof.
  intros Hs. rewrite <- computer_id. split.
  - intros Hp. apply (wp_isr_report _ _ _ scr); [done| |done]. intros s' Hs' _. split; [done|]. by exists s'.
  - intros Hp v c Hok Hc Hi Hr. apply (wp_isr_report _ _ _ scr); [done|done|]. intros s' Hs' _.
    apply wp_bind, wp_kernel_op, wp_zoom. apply (wp_killed (Prelude.view k_tasks_l k) v c); [done..|]. intros w Hw. apply wp_ret.
    split; [done|]. by exists s', w.
Qed.
End Exceptions.

(** ** Hardware interrupts *)

(** [x] after these values went to these ports, in this order. *)
Definition sent (l : list (Z * Z)) (x : computer) : computer :=
  let a := Prelude.view c_arch_l x in
  set_view c_arch_l (set_view a_io_l (Io (rev l ++ outs (a_io a)) (inputs (a_io a))) a) x.

(** [x] one tick later. *)
Definition ticked (x : computer) : computer :=
  let a := Prelude.view c_arch_l x in
  let x' := set_view c_arch_l (set_pit (u32 (pit_ticks a + 1)) (pit_frequency a) a) x in
  Computer (c_kernel x') (c_arch x') (c_boot_info x') (u32 (test_ticks x' + 1)).

(** The state of the tasks. *)
Definition tasks_of (x : computer) : tasks := Prelude.view k_tasks_l (c_kernel x).
Definition with_tasks (w : tasks) (x : computer) : computer := set_view c_kernel_l (set_view k_tasks_l w (c_kernel x)) x.

Section Interrupts.
Context (x : computer).
Implicit Types (scr : scrollback) (s : console) (w : tasks) (v : TaskSpec.view) (c : tref) (irq : Z).

Lemma eoi_master irq : irq < 8 -> arch_op (zoom a_io_l (pic_send_eoi irq)) x = Ok tt (sent [(PIC1_COMMAND, 0x20)] x).
Proof. intros H. unfold arch_op, zoom, pic_send_eoi. by rewrite (proj2 (Z.leb_gt 8 irq)). Qed.

Lemma eoi_slave irq : 8 <= irq ->
  arch_op (zoom a_io_l (pic_send_eoi irq)) x = Ok tt (sent [(PIC2_COMMAND, 0x20); (PIC1_COMMAND, 0x20)] x).
Proof. intros H. unfold arch_op, zoom, pic_send_eoi. by rewrite (proj2 (Z.leb_le 8 irq)). Qed.
End Interrupts.

(** C16 The handler of the hardware interrupts. The timer's counts a tick,
    acknowledges the interrupt, and then, as its last act, calls
    [scheduler_tick]: the thread goes on while it has quantum left, and after
    its last tick the next thread of the round runs. The keyboard's types the
    character of the key on the screen and acknowledges. Every other line is
    acknowledged, the lines from 8 on at both controllers, the second one
    first, and nothing else happens. *)
Theorem irq_handler_spec x :
  (irq_handler 32 x = kernel_op (tasks_op scheduler_tick) (sent [(PIC1_COMMAND, 0x20)] (ticked x))) /\
  (forall v c, ok (tasks_of x) v -> disabled (tasks_of x) -> current (t_sched (tasks_of x)) = Some c ->
     let q := quantum_remaining (t_sched (tasks_of x)) in
     wp (irq_handler 32) (fun _ x' => exists w, x' = with_tasks w (sent [(PIC1_COMMAND, 0x20)] (ticked x)) /\ ok w v /\
       (1 < q -> w = set_quantum (q - 1) (tasks_of x)) /\
       (q = 1 -> switches c (pick (v_ready v) c) (set_quantum 0 (tasks_of x)) w)) x) /\
  (forall scr f, shows (k_console (c_kernel x)) scr -> current_layout (k_console (c_kernel x)) = Some f ->
     wp (irq_handler 33) (fun _ x' => exists s,
       x' = sent [(PIC1_COMMAND, 0x20)] (set_view c_kernel_l (on_screen s (c_kernel x)) x) /\
       shows s (type_text (key f (u8 (inputs (c_io (k_console (c_kernel x))) 0x60))) scr)) x) /\
  (forall irq, 2 <= irq < 16 -> irq_handler (32 + irq) x =
     Ok tt (sent ((if 8 <=? irq then [(PIC2_COMMAND, 0x20)] else []) ++ [(PIC1_COMMAND, 0x20)]) x)).
Proof.
  assert (irq_handler 32 x = kernel_op (tasks_op scheduler_tick) (sent [(PIC1_COMMAND, 0x20)] (ticked x))) as E by done.
  split; [done|]. split; [|split].
  - intros v c Hok Hd Hc q. unfold wp. rewrite E. set (x1 := sent _ (ticked x)).
    assert (wp (kernel_op (tasks_op scheduler_tick)) (fun _ x' => exists w, x' = with_tasks w x1 /\ ok w v /\
      (1 < q -> w = set_quantum (q - 1) (tasks_of x)) /\
      (q = 1 -> switches c (pick (v_ready v) c) (set_quantum 0 (tasks_of x)) w)) x1) as H; [|exact H].
    apply wp_zoom, wp_zoom. change (Prelude.view k_tasks_l (Prelude.view c_kernel_l x1)) with (tasks_of x). clearbody x1.
    apply (wp_scheduler_tick _ v c); [done..| |].
    + intros Hq Hok'. eexists. split; [reflexivity|]. split; [exact Hok'|]. split; [done|]. intros H1. unfold q in H1. lia.
    + intros w Hq Hs Hok'. exists w. split; [reflexivity|]. split; [exact Hok'|]. unfold q. split; [lia|done].
  - intros scr f Hs Hf. unfold irq_handler. change (u32 (33 - 32)) with 1. cbn [Z.eqb Pos.eqb].
    apply wp_bind, wp_zoom, wp_zoom, (wp_keyboard_handler _ scr f); [done..|]. intros s Hs' _.
    apply wp_bind. eapply wp_Ok; [apply eoi_master; by vm_compute|]. apply wp_ret. by exists s.
  - intros irq Hirq. unfold irq_handler. assert (u32 (32 + irq - 32) = irq) as ->.
    { rewrite u32_id; [lia|]. unfold is_u32. lia. }
    rewrite (proj2 (Z.eqb_neq irq 0)), (proj2 (Z.eqb_neq irq 1)) by lia. unfold bind, ret.
    assert (u8 irq = irq) as -> by (unfold u8; lia). destruct (Z.leb_spec 8 irq); [rewrite eoi_slave by lia|rewrite eoi_master by lia]; done.
Qed.

(** ** Witnesses *)

Lemma tasks_of_with w x : tasks_of (with_tasks w x) = w.
Proof. by destruct w as [[] []], x as [[[? [[] ? ?]]]]. Qed.

Lemma key_q : key keymap_azerty (u8 0x1E) = [113].
Proof. by vm_compute. Qed.

(** The threads of [TaskDemo] with a cleared screen, interrupts off. *)
Definition interrupt_machine : machine := MkMachine (PmmWorld (Cpu FLAGS_OFF 0 []) pmm_reset) (Ram ∅) 0.
Definition interrupt_kernel : kernel :=
  Kernel (HeapWorld (Heap 0 0 0 ∅) interrupt_machine) vam_start (t_sched (demo_tasks FLAGS_OFF 5)) ∅ ∅ (Fs 0 0 0) ∅ ∅ ∅ ∅ ∅ ∅ ∅ 1 4
    boot_screen.
Definition interrupt_computer : computer := Computer interrupt_kernel reset_arch 0 7.

Lemma interrupt_tasks_ok : ok (Prelude.view k_tasks_l interrupt_kernel) demo_view.
Proof. exact (demo_tasks_ok FLAGS_OFF). Qed.

Lemma interrupt_screen : k_console (c_kernel interrupt_computer) = boot_screen.
Proof. reflexivity. Qed.

Lemma irq_handler_spec_witness :
  wp (irq_handler 32) (fun _ x => current (t_sched (tasks_of x)) = Some T1 /\ quantum_remaining (t_sched (tasks_of x)) = 4)
    interrupt_computer /\
  wp (irq_handler 33) (fun _ x => exists s, shows s (type_text [113] (empty_screen 0x700)) /\
    x = sent [(PIC1_COMMAND, 0x20)] (set_view c_kernel_l (on_screen s interrupt_kernel) interrupt_computer)) interrupt_computer /\
  irq_handler 46 interrupt_computer = Ok tt (sent [(PIC2_COMMAND, 0x20); (PIC1_COMMAND, 0x20)] interrupt_computer).
Proof.
  destruct (irq_handler_spec interrupt_computer) as (_ & H1 & H2 & H3). split; [|split].
  - pose proof (H1 demo_view T1 interrupt_tasks_ok eq_refl eq_refl) as H. cbv zeta in H. eapply wp_mono; [exact H|]. clear. intros u x (w & -> & _ & Hw & _).
    rewrite tasks_of_with, (Hw ltac:(vm_compute; reflexivity)). split; vm_compute; reflexivity.
  - destruct boot_screen_shows as (Hs & Hf & Hi). rewrite interrupt_screen in H2. eapply wp_mono; [exact (H2 _ _ Hs Hf)|]. clear H1 H2 H3.
    intros u x (s & -> & Hs'). exists s. split; [|reflexivity].
    rewrite Hi in Hs'. cbv beta in Hs'. rewrite key_q in Hs'. exact Hs'.
  - exact (H3 14 ltac:(lia)).
Defined.

(** A page fault in the kernel, and one in a program. *)
Lemma isr_handler_spec_witness :
  wp (isr_handler 0xDEAD (ExceptionFrame 14 0 0xC0100000 8)) (fun o _ => o = Halted) (Computer interrupt_kernel reset_arch 0 7) /\
  wp (isr_handler 0xDEAD (ExceptionFrame 14 4 0x400000 27)) (fun o x => o = Killed /\ current (t_sched (tasks_of x)) <> Some T1)
    (Computer interrupt_kernel reset_arch 0 7).
Proof.
  destruct boot_screen_shows as (Hs & _). split.
  - eapply wp_mono; [refine (proj1 (isr_handler_spec interrupt_kernel reset_arch 0 7 0xDEAD (ExceptionFrame 14 0 0xC0100000 8) _ Hs) _)|].
    + clear. vm_compute. discriminate.
    + intros o x [-> _]. reflexivity.
  - eapply wp_mono; [refine (proj2 (isr_handler_spec interrupt_kernel reset_arch 0 7 0xDEAD (ExceptionFrame 14 4 0x400000 27) _ Hs) _
      demo_view T1 interrupt_tasks_ok _ _ _)|].
    + reflexivity.
    + reflexivity.
    + discriminate.
    + discriminate.
    + intros o x [-> (s & w & -> & _ & Hk)]. split; [reflexivity|exact (kl_current _ _ _ Hk)].
Defined.
