(* ===== verification/BootSpec.v ===== *)
(** * The kernel after its start

    [kernel_init] run from the state the boot loader leaves: the memory
    manager works on exactly the available pages, the kernel's own directory
    is loaded, the heap has its first page and the idle thread its stack. *)

From S2P Require Import Prelude Layout Bitmap Machine Pmm DList CString Printf Ram Words Multiboot Paging PagingSpec Vam Vmm Heap HeapSpec HeapSupply TaskSpace Task Sync Fs Console ConsoleSpec Descriptors Kernel Printing Process Lifecycle ThreadStack ThreadSpec Boot InterruptSpec.

(** ** Mapping pages of the new directory *)

(** [f] is the kernel directory, and but for its last entry no table of it. *)
Record started (f : Z) (m : machine) : Prop := {
  st_ready : ready m f;
  st_fail : fail_allocations (pmm_at m) = 0;
  st_tables : forall j, 0 <= j < RECURSIVE_PDE_INDEX -> present (pde m f j) = true -> table_of m f j <> f;
  st_cr3 : cr3 (pmm_cpu (m_pmm m)) = f;
}.

(** Pages that can be mapped below entry [i], when its table takes one. *)
Definition pages_for (f i : Z) (m : machine) : Z := free_pages (pmm_at m) - (if present (pde m f i) then 0 else 1).

(** One page more below entry [i]. *)
Record page_added (f i : Z) (m m' : machine) : Prop := {
  pa_started : started f m';
  pa_left : pages_for f i m - 1 <= pages_for f i m';
  pa_table : present (pde m' f i) = true;
  pa_private : private m' f i;
  pa_other : forall j, 0 <= j < 1024 -> j <> i -> pde m' f j = pde m f j;
  pa_walk : forall va, is_u32 va -> pde_index va < RECURSIVE_PDE_INDEX -> pde_index va <> i ->
    walk (m_ram m') f va = walk (m_ram m) f va;
  pa_flags : eflags (pmm_cpu (m_pmm m')) = eflags (pmm_cpu (m_pmm m));
}.

Section Pages.
Context (f : Z).
Implicit Types (m : machine) (va phys i : Z) (q : pmm).

Lemma wp_start_alloc m (Q : Z -> machine -> Prop) :
  started f m -> 0 < free_pages (pmm_at m) ->
  (forall phys q, good_frame phys -> phys <> NULL -> page_taken (phys / PAGE_SIZE) (pmm_at m) q -> Q phys (with_pmm q m)) ->
  wp (zoom pmm_world_l pmm_alloc_page) Q m.
Proof.
  intros [[Hmem _ _] Hf _ _] Hpos HQ. apply wp_alloc_frame; [done| |].
  - intros p' Hfail. destruct (no_failure (pmm_at m) p'); [apply Hmem|done..].
  - intros phys q Hg Hnz _ _ Htk. by apply HQ.
Qed.

(** Addresses below other entries are translated as before. *)
Lemma added_walk m m' va virt :
  started f m -> private m' f (pde_index virt) -> present (pde m' f (pde_index virt)) = true ->
  only_pages f (table_of m' f (pde_index virt)) (m_ram m) (m_ram m') ->
  (forall j, 0 <= j < 1024 -> j <> pde_index virt -> pde m' f j = pde m f j) -> is_u32 virt ->
  is_u32 va -> pde_index va < RECURSIVE_PDE_INDEX -> pde_index va <> pde_index virt ->
  walk (m_ram m') f va = walk (m_ram m) f va.
Proof.
  intros Hst Hpriv Hpres Ho Hoth Hv Hva Hlt Hne. pose proof (pde_index_range va Hva) as Hr. pose proof (Hoth _ Hr Hne) as E.
  apply walk_ext; [exact E|]. intros Hp. destruct (space_tables _ _ (ready_space _ _ (st_ready _ _ Hst)) _ Hr Hp) as [Hg _].
  apply kept_entry; [|apply pte_index_range]. apply Ho; [by apply good_frame_aligned|apply (st_tables _ _ Hst); [lia|done]|].
  destruct (Hpriv Hpres) as [_ H]. specialize (H _ Hr Hne). unfold table_of in *. rewrite E in H. by apply H.
Qed.

Lemma wp_start_map m q phys virt flags (Q : unit -> machine -> Prop) :
  started f m -> good_frame phys -> page_taken (phys / PAGE_SIZE) (pmm_at m) q -> is_u32 virt -> map_flags flags ->
  pde_index virt < RECURSIVE_PDE_INDEX -> private m f (pde_index virt) -> 0 < pages_for f (pde_index virt) m ->
  (forall m', page_added f (pde_index virt) m m' -> walk (m_ram m') f virt = Some (leaf phys flags) ->
     (forall va, is_u32 va -> va / PAGE_SIZE <> virt / PAGE_SIZE -> pde_index va = pde_index virt ->
        walk (m_ram m') f va = walk (m_ram m) f va) -> Q tt m') ->
  wp (paging_map (PHYS_TO_VIRT f) virt phys flags) Q (with_pmm q m).
Proof.
  intros Hst Hg Htk Hv Hfl Hlt Hpriv Hpages HQ. pose proof Hst as [[Hmem Hsp Hkd] Hf Htab Hcr3].
  destruct (good_frame_virt phys Hg) as (_ & _ & _ & Hu). pose proof (taken_count _ _ _ Htk) as Ec.
  assert (mem_ok (with_pmm q m)) as Hmem1 by by eapply taken_mem_ok.
  assert (space (with_pmm q m) f) as Hsp1 by by eapply taken_space.
  eapply wp_mono.
  { apply wp_conj; [by apply (wp_map_bytes _ f virt phys flags)|].
    apply (wp_paging_map _ f virt phys flags (fun _ m' =>
      mapped f virt (leaf phys flags) (with_pmm q m) m' \/ map_failed f virt (with_pmm q m) m')); auto. }
  intros [] m' [Ho [Hmap|(Hno & p' & Hfail & _)]].
  2:{ exfalso. eapply (no_failure q p'); [apply Hmem1| | |exact Hfail]; [by rewrite (taken_fail _ _ _ Htk)|].
      unfold pages_for in Hpages. change (pde (with_pmm q m) f (pde_index virt)) with (pde m f (pde_index virt)) in Hno.
      rewrite Hno in Hpages. lia. }
  destruct Hmap as (Hs & Hw & Hpres & Hpriv' & _ & Efl & Ecr & Hcase). pose proof (step_other _ _ _ _ Hs) as Hoth.
  change (forall j, 0 <= j < 1024 -> j <> pde_index virt -> pde m' f j = pde m f j) in Hoth.
  pose proof (pde_index_range virt Hv) as Hr. apply HQ; [|done|].
  - split; [split| |done|done|done| |exact Efl].
    + split; [apply Hs|apply Hs|]. by rewrite (step_kd _ _ _ _ Hs).
    + destruct Hcase as [(_ & E & _)|(_ & _ & Htk2)]; [rewrite E|rewrite (taken_fail _ _ _ Htk2)]; by rewrite <- Hf, <- (taken_fail _ _ _ Htk).
    + intros j Hj Hp. destruct (decide (j = pde_index virt)) as [->|Hne]; [by apply Hpriv'|].
      unfold RECURSIVE_PDE_INDEX in Hj. unfold table_of. rewrite Hoth in Hp |- * by (done || lia). by apply Htab.
    + by rewrite Ecr.
    + unfold pages_for. rewrite Hpres. change (present (pde (with_pmm q m) f (pde_index virt))) with (present (pde m f (pde_index virt))) in Hcase.
      destruct Hcase as [(E1 & E2 & _)|(E1 & _ & Htk2)]; rewrite E1; [rewrite E2|rewrite (taken_count _ _ _ Htk2)];
        change (pmm_at (with_pmm q m)) with q; lia.
    + intros va Hva Hlt' Hne. by apply (added_walk m m' va virt).
  - intros va Hva Hne E. change (m_ram m) with (m_ram (with_pmm q m)). apply (step_walk _ _ _ _ Hs); [done|done|]. by rewrite E.
Qed.
End Pages.

(** ** The heap's first page *)

Section HeapStart.
Context (f : Z).
Implicit Types (m : machine) (h : heap).

Lemma heap_entry : pde_index KERNEL_HEAP_START = 772 /\ is_u32 KERNEL_HEAP_START.
Proof. by vm_compute. Qed.

(** The heap of one page with nothing in it. *)
Definition first_heap : heap :=
  Heap KERNEL_HEAP_START (KERNEL_HEAP_START + PAGE_SIZE) 0 {[KERNEL_HEAP_START := Block (PAGE_SIZE - HEADER) true NULL]}.

Lemma wp_first_page m (Q : Z -> machine -> Prop) :
  started f m -> private m f 772 -> 0 < pages_for f 772 m -> walk (m_ram m) f KERNEL_HEAP_START = None ->
  (forall m' phys, page_added f 772 m m' -> walk (m_ram m') f KERNEL_HEAP_START = Some (leaf phys 3) -> Q KERNEL_HEAP_START m') ->
  wp (vmm_alloc_pages KERNEL_HEAP_START 1) Q m.
Proof.
  intros Hst Hpriv Hleft Hw HQ. destruct heap_entry as [Ei Hu]. pose proof (st_ready _ _ Hst) as Hr.
  assert (page_at KERNEL_HEAP_START 0 = KERNEL_HEAP_START) as Eat by by vm_compute.
  unfold vmm_alloc_pages. change (1 =? 0) with false. apply wp_bind. unfold vmm_map_pages. apply wp_bind, wp_gets.
  rewrite (ready_kd _ _ Hr). unfold any_mapped. change (Z.to_nat 1) with 1%nat. cbn [for_range]. rewrite Eat.
  do 4 apply wp_bind. apply wp_paging_translate; [apply Hr|done|]. rewrite Hw. cbn [Z.eqb negb]. do 4 apply wp_ret.
  apply wp_bind, wp_bind, wp_bind, (wp_start_alloc f); [done|unfold pages_for in Hleft; destruct (present _); lia|].
  intros phys q Hg Hnz Htk. rewrite (proj2 (Z.eqb_neq phys NULL)) by done.
  apply wp_bind, wp_start_map; [done..|by rewrite Ei|by rewrite Ei|by rewrite Ei|].
  rewrite Ei. intros m' Hadd Hw' _. do 4 apply wp_ret. by apply (HQ m' phys).
Qed.

Lemma wp_first_validate m (Q : unit -> heap_world machine -> Prop) :
  kernel_accessible m KERNEL_HEAP_START = true -> Q tt (HeapWorld first_heap m) -> wp heap_validate Q (HeapWorld first_heap m).
Proof.
  intros Hacc HQ. unfold heap_validate. do 2 apply wp_bind, wp_gets. apply wp_bind. unfold for_blocks, walk_fuel.
  apply wp_bind, wp_gets. cbn [the_heap first_heap headers heap_head heap_end]. rewrite map_size_singleton. cbn [loop].
  apply wp_bind. change (KERNEL_HEAP_START =? NULL) with false. cbn iota.
  apply wp_bind. unfold wp at 1, deref. change (KERNEL_HEAP_START =? NULL) with false. cbn iota. cbn [the_supply the_heap first_heap headers].
  change (accessible m KERNEL_HEAP_START) with (kernel_accessible m KERNEL_HEAP_START). rewrite Hacc, lookup_singleton_eq. cbn [negb].
  apply wp_bind. do 5 (apply wp_bind, wp_assert; [by vm_compute|]). change (negb (NULL =? NULL)) with false. cbn iota.
  do 2 apply wp_ret. cbn [block_next]. apply wp_bind. change (NULL =? NULL) with true. by do 3 apply wp_ret.
Qed.

Lemma wp_start_heap m h (Q : unit -> heap_world machine -> Prop) :
  started f m -> private m f 772 -> 0 < pages_for f 772 m -> walk (m_ram m) f KERNEL_HEAP_START = None -> headers h = ∅ ->
  (forall m', page_added f 772 m m' -> is_Some (walk (m_ram m') f KERNEL_HEAP_START) -> Q tt (HeapWorld first_heap m')) ->
  wp heap_init Q (HeapWorld h m).
Proof.
  intros Hst Hpriv Hleft Hw Hh HQ. unfold heap_init. apply wp_bind, wp_zoom. change HEAP_PAGES with 1.
  apply wp_first_page; [done..|]. intros m' phys Hadd Hw'. change (KERNEL_HEAP_START =? NULL) with false.
  assert (kernel_accessible m' KERNEL_HEAP_START = true) as Hacc.
  { apply (accessible_walk m' f); [apply (st_ready _ _ (pa_started _ _ _ _ Hadd))|by rewrite Hw']. }
  do 3 apply wp_bind, wp_zoom, wp_modify. apply wp_bind, wp_put_block; [done|exact Hacc|].
  unfold with_headers. cbn [the_heap the_supply view set_view heap_l supply_l heap_head heap_end heap_expansions headers]. rewrite Hh.
  change (Heap _ _ _ _) with first_heap. apply wp_first_validate; [done|]. apply HQ; [done|by rewrite Hw'].
Qed.
End HeapStart.

(** ** Memory *)

(** The pages that [pmm_init] frees. *)
Definition reserved_at (b : boot_memory) (entries : list mmap_entry) (j : Z) : bool :=
  Pmm.boot_reserved b (page_align_up (reserved_end b)) ((bitmap_bytes (highest entries) + PAGE_SIZE - 1) / PAGE_SIZE) j.
Definition available_page (b : boot_memory) (entries : list mmap_entry) (j : Z) : bool :=
  (0 <=? j) && (j <? pages_below (highest entries)) && released entries j && negb (reserved_at b entries j).
Definition available_pages (b : boot_memory) (entries : list mmap_entry) : Z :=
  count (available_page b entries) (Z.to_nat (pages_below (highest entries))).

(** The bootstrap directory [bd] of the loader's assembly: it and its tables
    are in pages that are reserved, and it maps nothing from the heap on. *)
Record bootstrap (b : boot_memory) (entries : list mmap_entry) (bd : Z) (m : machine) : Prop := {
  bs_cr3 : cr3 (pmm_cpu (m_pmm m)) = bd;
  bs_dir : good_frame bd /\ reserved_at b entries (bd / PAGE_SIZE) = true;
  bs_tables : forall i, 0 <= i < 1024 -> present (pde m bd i) = true ->
    good_frame (table_of m bd i) /\ reserved_at b entries (table_of m bd i / PAGE_SIZE) = true;
  bs_high : forall i, 772 <= i < 1024 -> present (pde m bd i) = false;
  bs_fail : fail_allocations (pmm_at m) = 0;
}.

Section MemoryStart.
Context (b : boot_memory) (entries : list mmap_entry) (bd : Z).
Implicit Types (m : machine) (f : Z).

(** The kernel directory right after it is built. *)
Record memory_started m f m' : Prop := {
  ms_started : started f m';
  ms_left : free_pages (pmm_at m') = available_pages b entries - 1;
  ms_pool : forall j, page_free (pmm_at m') j = available_page b entries j && negb (j =? f / PAGE_SIZE);
  ms_walk : forall va, is_u32 va -> va < RECURSIVE_VIRT_BASE -> walk (m_ram m') f va = walk (m_ram m) bd va;
  ms_high : forall i, 772 <= i < RECURSIVE_PDE_INDEX -> present (pde m' f i) = false;
}.

Lemma wp_start_memory m (Q : unit -> machine -> Prop) :
  boot_ok b entries -> highest entries <= BOOTSTRAP_MAP_SIZE -> bootstrap b entries bd m -> 0 < available_pages b entries ->
  (forall f m', memory_started m f m' -> Q tt m') ->
  wp (zoom pmm_world_l (zoom pmm_l (pmm_init b))) (fun _ => wp paging_init Q) m.
Proof.
  intros Hb Hlow [Hcr [Hd Hdr] Htabs Hhigh Hfail] Hpos HQ. apply wp_pmm, wp_zoom.
  eapply wp_mono; [apply (wp_pmm_init b entries); exact Hb|]. intros [] p (Hinv & Htot & Hf & Hfree). cbn [view set_view pmm_l].
  change (wp paging_init Q (with_pmm p m)). set (m1 := with_pmm p m).
  assert (forall j, page_free p j = available_page b entries j) as Hav by exact Hfree. clear Hfree.
  assert (mem_ok m1) as Hmem.
  { split; [exact Hinv|]. intros j Hj. change (page_free p j = true) in Hj. rewrite Hav in Hj. unfold available_page in Hj.
    rewrite !andb_true_iff in Hj. destruct Hj as [[[H1 H2] _] _]. unfold pages_below in H2.
    unfold PAGE_SIZE, BOOTSTRAP_MAP_SIZE in *. lia. }
  assert (forall g, reserved_at b entries (g / PAGE_SIZE) = true -> m_free m1 g = false) as Hused.
  { intros g Hg. unfold m_free. change (page_free p (g / PAGE_SIZE) = false). rewrite Hav. unfold available_page. rewrite Hg. apply andb_false_r. }
  assert (space m1 bd) as Hsp.
  { split; [done|by apply Hused|]. intros i Hi Hp. destruct (Htabs i Hi Hp). split; [done|by apply Hused]. }
  assert (free_pages p = available_pages b entries) as Ecount.
  { rewrite (inv_count _ Hinv), Htot. apply count_ext. intros; apply Hav. }
  apply (wp_paging_init m1 bd); [done|done|exact Hcr| | |].
  - change (fail_allocations p = 0). by rewrite Hf.
  - intros Hno. pose proof (none_free_zero p Hinv Hno). lia.
  - intros f m' Hg Hff [I1 I2 I3 I4 I5 I6 I7 I8 I9 I10]. apply (HQ f). split.
    + split; [by split| | |done].
      * rewrite (taken_fail _ _ _ I6). change (fail_allocations p = 0). by rewrite Hf.
      * intros j Hj Hp. unfold table_of. rewrite I10 in Hp |- * by done.
        destruct (space_tables _ _ Hsp j ltac:(unfold RECURSIVE_PDE_INDEX in Hj; lia) Hp) as [_ Hu].
        intros E. unfold table_of in Hu. by rewrite E, Hff in Hu.
    + rewrite (taken_count _ _ _ I6). change (free_pages p - 1 = available_pages b entries - 1). lia.
    + intros j. rewrite (taken_free _ _ _ I6). change (page_free (pmm_at m1) j) with (page_free p j). by rewrite Hav.
    + intros va Hv Hlt. by rewrite I8.
    + intros i Hi. rewrite I10 by (unfold RECURSIVE_PDE_INDEX in *; lia). apply Hhigh. unfold RECURSIVE_PDE_INDEX in *. lia.
Qed.
End MemoryStart.

(** ** The idle thread's stack *)

Section Stack.
Context (f : Z) (k0 : kernel).
Implicit Types (h : heap) (m : machine) (v : vam) (s : sched) (c : cpu) (i j : Z).

Definition stack_page_at i : Z := KERNEL_STACKS_START + i * PAGE_SIZE.

(** The first [i] pages of the stack are mapped. *)
Record stack_mapped m0 i m : Prop := {
  sm_started : started f m;
  sm_left : pages_for f 832 m0 - i <= pages_for f 832 m;
  sm_private : private m f 832;
  sm_pages : forall j, 0 <= j < i -> is_Some (walk (m_ram m) f (stack_page_at j));
  sm_walk : forall va, is_u32 va -> pde_index va < RECURSIVE_PDE_INDEX -> pde_index va <> 832 ->
    walk (m_ram m) f va = walk (m_ram m0) f va;
  sm_flags : eflags (pmm_cpu (m_pmm m)) = eflags (pmm_cpu (m_pmm m0));
}.

Lemma stack_page_bounds i : 0 <= i < 4 ->
  is_u32 (stack_page_at i) /\ u32 (KERNEL_STACKS_START + i * PAGE_SIZE) = stack_page_at i /\ pde_index (stack_page_at i) = 832 /\
  stack_page_at i / PAGE_SIZE = 851968 + i.
Proof.
  unfold stack_page_at. rewrite pde_index_div. unfold KERNEL_STACKS_START, PAGE_SIZE. intros Hi.
  split; [unfold is_u32; lia|]. split; [apply u32_id; unfold is_u32; lia|]. lia.
Qed.
Lemma wp_idle_page m0 i h m v s (Q : unit -> kernel -> Prop) :
  0 <= i < 4 -> 4 <= pages_for f 832 m0 -> stack_mapped m0 i m ->
  (forall m', stack_mapped m0 (i + 1) m' -> Q tt (starting k0 h m' v s)) ->
  wp (let* phys := pmm_op pmm_alloc_page in
      ASSERT "phys != NULL" (negb (phys =? NULL)) ;;;
      machine_op (paging_map_kernel (u32 (KERNEL_STACKS_START + i * PAGE_SIZE)) phys KERNEL_FLAGS)) Q (starting k0 h m v s).
Proof.
  intros Hi Hn [Hst Hleft Hpriv Hpages Hwalk Hfl] HQ. destruct (stack_page_bounds i Hi) as (Hu & Eu & Epd & Epg).
  assert (0 < pages_for f 832 m) as Hpos by lia.
  apply wp_bind, wp_starting_pmm, (wp_start_alloc f); [done|unfold pages_for in Hpos; destruct (present (pde m f 832)); lia|].
  intros phys q Hg Hnz Htk. apply wp_bind, wp_assert; [by apply negb_true_iff, Z.eqb_neq|]. rewrite Eu.
  apply wp_starting_machine. unfold paging_map_kernel. apply wp_bind, wp_gets.
  change (kernel_directory (with_pmm q m)) with (kernel_directory m). rewrite (ready_kd _ _ (st_ready _ _ Hst)).
  apply wp_start_map; [done..|by rewrite Epd|by rewrite Epd|by rewrite Epd|]. rewrite Epd.
  intros m' [A1 A2 A3 A4 A5 A6 A7] Hw Hsame. apply HQ. split; [done|lia|done| | |congruence].
  - intros j Hj. destruct (decide (j = i)) as [->|Hne]; [by rewrite Hw|].
    destruct (stack_page_bounds j ltac:(lia)) as (Huj & _ & Epj & Egj).
    rewrite Hsame; [by apply Hpages; lia|done|rewrite Egj, Epg; lia|done].
  - intros va Hva Hlt Hne. rewrite A6 by done. by apply Hwalk.
Qed.

Lemma wp_idle_stack h m v s (Q : unit -> kernel -> Prop) :
  started f m -> private m f 832 -> 4 <= pages_for f 832 m ->
  (forall m', stack_mapped m 4 m' -> Q tt (starting k0 h m' v s)) ->
  wp (for_each 0 (Z.to_nat STACK_PAGES) (fun i =>
    let* phys := pmm_op pmm_alloc_page in
    ASSERT "phys != NULL" (negb (phys =? NULL)) ;;;
    machine_op (paging_map_kernel (u32 (KERNEL_STACKS_START + i * PAGE_SIZE)) phys KERNEL_FLAGS))) Q (starting k0 h m v s).
Proof.
  intros Hst Hpriv Hn HQ. change (Z.to_nat STACK_PAGES) with 4%nat.
  apply (wp_for_each (fun i k => 0 <= i /\ exists m', k = starting k0 h m' v s /\ stack_mapped m i m')).
  - split; [done|]. exists m. split; [done|]. split; [done|lia|done|intros j Hj; lia|done|done].
  - intros i k Hi (_ & m' & -> & Hs). apply (wp_idle_page m); [lia|done|done|]. intros m2 Hs2. split; [lia|by exists m2].
  - intros k (_ & m' & -> & Hs). by apply HQ.
Qed.
(** ** The scheduler *)

(** The idle thread runs, nothing else does. *)
Definition idle_thread : thread := Thread 0 KERNEL_STACKS_START NULL THREAD_RUNNING NULL false None 0 NULL [IdleStart].

Record idle_running (s : sched) : Prop := {
  ir_ready : is_list (nodes s) ReadyHead [];
  ir_zombies : is_list (nodes s) ZombieHead [];
  ir_current : current s = Some IdleThread;
  ir_quantum : quantum_remaining s = SCHEDULER_QUANTUM_TICKS;
  ir_idle : threads s !! IdleThread = Some idle_thread;
}.

Lemma wp_scheduler_init h m v s (Q : unit -> kernel -> Prop) :
  is_Some (nodes s !! ReadyHead) -> is_Some (nodes s !! ZombieHead) ->
  (forall s', is_list (nodes s') ReadyHead [] -> is_list (nodes s') ZombieHead [] -> Q tt (starting k0 h m v s')) ->
  wp (tasks_op scheduler_init) Q (starting k0 h m v s).
Proof.
  intros Hr Hz HQ. apply wp_starting_tasks. unfold scheduler_init.
  apply wp_bind, wp_zoom, wp_list_init; [exact Hr|]. intros n1 L1 U1.
  apply wp_bind, wp_zoom, wp_list_init; [cbn; rewrite U1; [exact Hz|by intros ?%list_elem_of_singleton]|]. intros n2 L2 U2.
  apply wp_bind, wp_modify, wp_modify. destruct m as [[] ? ?].
  apply HQ; [|done]. apply (is_list_frame n1 n2 _ _ [ZombieHead]); [done|done|].
  by intros y ->%list_elem_of_singleton Hy%list_elem_of_singleton.
Qed.
Lemma wp_scheduler_start h m v s (Q : unit -> kernel -> Prop) :
  started f m -> private m f 832 -> 4 <= pages_for f 832 m -> vam_inv v ->
  (forall t, 0 <= t < KERNEL_STACK_COUNT -> slot_used v t = false) ->
  is_list (nodes s) ReadyHead [] -> is_list (nodes s) ZombieHead [] ->
  (forall m' v' s', stack_mapped (with_cpu (Cpu (Z.ldiff (eflags (pmm_cpu (m_pmm m))) EFLAGS_IF) (cr3 (pmm_cpu (m_pmm m))) (flushed (pmm_cpu (m_pmm m)))) m) 4 m' ->
     slots_updated v v' (fun t => bool_decide (t = 0) || slot_used v t) -> idle_running s' -> Q tt (starting k0 h m' v' s')) ->
  wp scheduler_start Q (starting k0 h m v s).
Proof.
  intros Hst Hpriv Hn Hv Hfree Hr Hz HQ. unfold scheduler_start. apply wp_bind, wp_starting_cpu, wp_modify.
  set (m1 := with_cpu _ m). assert (started f m1) as Hst1.
  { destruct Hst as [[H1 [H2 H3 H4] H5] H6 H7 H8]. split; [|done..]. split; [done|by split|done]. }
  apply wp_bind. unfold clear_thread. apply wp_bind, wp_starting_put. apply wp_starting_list, wp_modify.
  pose proof (fresh_unchanged IdleThread (nodes s)) as Hun. set (n1 := foldr _ _ _) in Hun.
  assert (forall hd, hd = ReadyHead \/ hd = ZombieHead -> is_list (nodes s) hd [] -> is_list n1 hd []) as Hlist.
  { intros hd Hhd Hl. apply (is_list_frame (nodes s) n1 _ _ (fresh_nodes IdleThread)); [done|done|].
    intros y ->%list_elem_of_singleton. unfold fresh_nodes, thread_nodes. rewrite !not_elem_of_cons. destruct Hhd as [-> | ->];
      repeat split; try done; apply not_elem_of_nil. }
  apply wp_bind, wp_starting_list, wp_node_init; [by apply fresh_unlinked; right; right; left|].
  apply wp_bind. eapply wp_starting_update; [apply lookup_insert_eq|].
  apply wp_bind, wp_starting_vam, wp_vam_alloc_stack; [done| |].
  { intros Hall. specialize (Hall 0). rewrite Hfree in Hall by (by vm_compute). discriminate Hall. by vm_compute. }
  intros t v' Ht Htf Hlow Hslots. assert (t = 0) as ->.
  { destruct (decide (t = 0)) as [|Hne]; [done|]. specialize (Hlow 0 ltac:(lia)). rewrite Hfree in Hlow by (by vm_compute). done. }
  change (slot_address 0) with KERNEL_STACKS_START.
  apply wp_bind. eapply wp_starting_update; [apply lookup_insert_eq|].
  apply wp_bind, wp_assert; [done|]. apply wp_bind, wp_idle_stack; [done..|]. intros m2 Hm2.
  apply wp_bind. eapply wp_starting_update; [apply lookup_insert_eq|].
  apply wp_bind, wp_starting_tasks, wp_modify, wp_starting_tasks, wp_modify.
  replace (with_cpu _ (with_cpu _ m2)) with m2 by (by destruct m2 as [[] ? ?]).
  apply HQ; [exact Hm2|exact Hslots|]. split; [by apply Hlist; [left|]|by apply Hlist; [right|]|done|done|].
  cbn. by rewrite !lookup_insert_eq.
Qed.
End Stack.

(** ** The initialisers after the boot information is read *)

Record kernel_started (b : boot_memory) (entries : list mmap_entry) (bd kernel_virtual_end : Z) (m0 : machine) (f : Z) (k : kernel)
    : Prop := {
  ks_directory : started f (the_supply (k_heap k));
  ks_pages : available_pages b entries - 8 <= free_pages (pmm_at (the_supply (k_heap k)));
  ks_image : forall va, is_u32 va -> pde_index va < 772 ->
    walk (m_ram (the_supply (k_heap k))) f va = walk (m_ram m0) bd va;
  ks_heap : the_heap (k_heap k) = first_heap /\ is_Some (walk (m_ram (the_supply (k_heap k))) f KERNEL_HEAP_START);
  ks_vam : vam_inv (k_vam k) /\
    (forall i, 0 <= i < VAM_TOTAL_PAGES -> occupied (k_vam k) i = Vam.boot_reserved kernel_virtual_end i) /\
    (forall t, 0 <= t < KERNEL_STACK_COUNT -> slot_used (k_vam k) t = bool_decide (t = 0));
  ks_stack : forall j, 0 <= j < 4 -> is_Some (walk (m_ram (the_supply (k_heap k))) f (stack_page_at j));
  ks_sched : idle_running (k_sched k);
  ks_flags : if_set (eflags (pmm_cpu (m_pmm (the_supply (k_heap k))))) = false;
}.

Section Initialisers.
Context (b : boot_memory) (entries : list mmap_entry) (bd kernel_virtual_end : Z).
Context (Hmap : boot_ok b entries) (Hlow : highest entries <= BOOTSTRAP_MAP_SIZE) (Hpages : 8 <= available_pages b entries).
Context (Hend : KERNEL_IMAGE_BASE < kernel_virtual_end <= KERNEL_HEAP_START).
Implicit Types (k : kernel) (m : machine).

Definition initialisers : KM unit :=
  pmm_op (zoom pmm_l (pmm_init b)) ;;;
  machine_op paging_init ;;;
  vam_op (vam_init kernel_virtual_end) ;;;
  heap_op heap_init ;;;
  tasks_op scheduler_init ;;;
  scheduler_start.

(** Where nothing is mapped nothing is translated. *)
Lemma absent_private m f i : present (pde m f i) = false -> private m f i.
Proof. unfold private. congruence. Qed.

Lemma stack_slots v v' :
  (forall t, 0 <= t < KERNEL_STACK_COUNT -> slot_used v t = false) ->
  slots_updated v v' (fun t => bool_decide (t = 0) || slot_used v t) ->
  (forall i, occupied v' i = occupied v i) /\ forall t, 0 <= t < KERNEL_STACK_COUNT -> slot_used v' t = bool_decide (t = 0).
Proof.
  intros Hfree (_ & Eb & Hs). split; [intros i; unfold occupied; by rewrite Eb|].
  intros t Ht. rewrite Hs, Hfree by done. apply orb_false_r.
Qed.

Lemma wp_initialisers k (Q : unit -> kernel -> Prop) :
  bootstrap b entries bd (the_supply (k_heap k)) -> headers (the_heap (k_heap k)) = ∅ -> vam_inv (k_vam k) ->
  is_Some (nodes (k_sched k) !! ReadyHead) -> is_Some (nodes (k_sched k) !! ZombieHead) ->
  (forall f h m v s, kernel_started b entries bd kernel_virtual_end (the_supply (k_heap k)) f (starting k h m v s) ->
     Q tt (starting k h m v s)) ->
  wp initialisers Q k.
Proof.
  intros Hbs Hh Hv Hr Hz HQ. set (m0 := the_supply (k_heap k)) in *. set (h0 := the_heap (k_heap k)) in *.
  refine (eq_ind _ (wp _ _) _ _ (starting_id k)). fold m0 h0. unfold initialisers.
  apply wp_bind, wp_starting_pmm. eapply wp_mono; [apply (wp_start_memory b entries bd m0 (fun _ m => exists f, memory_started b entries bd m0 f m)); [done..|lia|]|].
  { intros f m' H. by exists f. }
  intros [] m1 Hm1. apply wp_bind, wp_starting_machine. eapply wp_mono; [exact Hm1|]. clear m1 Hm1.
  intros [] m (f & [Hst Hleft _ Hwalk Hhigh]).
  apply wp_bind, wp_starting_vam. eapply wp_mono; [by apply (wp_vam_init (k_vam k) kernel_virtual_end)|]. intros [] v (Hv1 & Hocc & Hslot).
  apply wp_bind, wp_starting_heap.
  assert (forall i, 772 <= i < 1023 -> present (pde m f i) = false /\ private m f i /\ pages_for f i m = free_pages (pmm_at m) - 1) as Habs.
  { intros i Hi. pose proof (Hhigh i Hi) as E. split; [done|]. split; [by apply absent_private|]. unfold pages_for. by rewrite E. }
  destruct (Habs 772 ltac:(lia)) as (Hab & Hpr & Hpf). destruct heap_entry as [Ehp Hhu].
  apply (wp_start_heap f); [done|done|rewrite Hpf; lia| |done|].
  { apply walk_absent. rewrite Ehp. exact Hab. }
  intros m2 [A1 A2 A3 A4 A5 A6 A7] Hpage. cbn [the_heap the_supply].
  apply wp_bind, wp_scheduler_init; [done..|]. intros s Hls Hlz.
  assert (present (pde m2 f 832) = false) as Hab2 by (rewrite A5 by lia; apply Habs; lia).
  assert (4 <= pages_for f 832 m2) as Hn.
  { unfold pages_for in *. rewrite A3 in A2. rewrite Hab2. rewrite Hab in A2. lia. }
  apply (wp_scheduler_start f k); [done|by apply absent_private|done|done|done|done|done|].
  intros m3 v' s' [S1 S2 S3 S4 S5 S6] Hslots Hrun. destruct (stack_slots v v' Hslot Hslots) as [Ho Hs].
  apply (HQ f). split; cbn [the_supply the_heap k_heap k_vam k_sched starting].
  - exact S1.
  - change (pages_for f 832 (with_cpu _ m2)) with (pages_for f 832 m2) in S2. unfold pages_for in *. rewrite A3 in A2. rewrite Hab in A2.
    rewrite Hab2 in S2. destruct (present (pde m3 f 832)); lia.
  - intros va Hva Hi. rewrite S5, A6 by (done || unfold RECURSIVE_PDE_INDEX; lia). apply Hwalk; [done|].
    rewrite pde_index_div in Hi. unfold RECURSIVE_VIRT_BASE. lia.
  - split; [done|]. rewrite S5; [done|done|by rewrite Ehp|by rewrite Ehp].
  - split; [apply Hslots|]. split; [|done]. intros i Hi. rewrite Ho. by apply Hocc.
  - exact S4.
  - exact Hrun.
  - rewrite S6. apply if_set_cli.
Qed.
End Initialisers.

(** ** From the boot loader *)

Lemma machine_holds (m m' : machine) p l : (forall a, load8 a m' = load8 a m) -> holds m p l -> holds m' p l.
Proof. intros E (H1 & H2 & H3). split; [done|]. split; [done|]. intros i v Hi. rewrite E. by apply H3. Qed.

Lemma machine_boot_holds i (m m' : machine) total ts :
  (forall a, load8 a m' = load8 a m) -> boot_holds (Multiboot.Boot i m) total ts -> boot_holds (Multiboot.Boot i m') total ts.
Proof.
  intros E [H1 [H2 H3] H4]. split; [done| |].
  - split; [|done]. by apply (machine_holds m).
  - cbn [boot_info b_mem] in *. clear -E H4. revert H4. generalize (i + 8). induction ts as [|t ts IH]; intros a; cbn [tags_at].
    + by apply machine_holds.
    + intros (T1 & T2 & T3 & T4). split; [by apply (machine_holds m)|]. split; [done|]. split; [done|by apply IH].
Qed.

(** Loads depend on the memory and on CR3. *)
Lemma load_cpu (m : machine) (c : cpu) a : cr3 c = cr3 (pmm_cpu (m_pmm m)) -> load8 a (with_cpu c m) = load8 a m.
Proof. intros E. cbn. unfold kernel_load. cbn [m_ram with_cpu m_pmm pmm_cpu]. by rewrite E. Qed.

Section Start.
Context (gdt_address idt_address tss_address syscall_stub : Z) (isr_table irq_table : Z -> Z).
Context (kernel_end kernel_virtual_end rootfs_name : Z) (fuel : nat) (mb_info : Z).
Implicit Types (c : computer) (k : kernel) (ts : list tag) (name : list Z) (entries : list mmap_entry).

(** The boot information, as [pmm_init] sees it. *)
Definition memory_of (total : Z) entries (bounds : option (Z * Z)) : boot_memory :=
  BootMemory (Some entries) (PHYS_TO_VIRT mb_info) total bounds kernel_end.

(** What the boot loader and the assembly before [kernel_main] leave: the
    boot information with a memory map, the bootstrap directory, statics that
    are zero, and at least eight pages that nothing reserves. *)
Record boot_loaded c total ts name entries bounds (bd : Z) : Prop := {
  bl_info : boot_holds (Multiboot.Boot (PHYS_TO_VIRT mb_info) (the_supply (k_heap (c_kernel c)))) total ts;
  bl_fuel : (length ts < fuel)%nat;
  bl_modules : modules_ok fuel ts;
  bl_name : cstring (the_supply (k_heap (c_kernel c))) rootfs_name name /\ Forall is_u8 name;
  bl_tags : describes ts name entries bounds;
  bl_map : boot_ok (memory_of total entries bounds) entries;
  bl_low : highest entries <= BOOTSTRAP_MAP_SIZE;
  bl_pages : 8 <= available_pages (memory_of total entries bounds) entries;
  bl_directory : bootstrap (memory_of total entries bounds) entries bd (the_supply (k_heap (c_kernel c)));
  bl_image : KERNEL_IMAGE_BASE < kernel_virtual_end <= KERNEL_HEAP_START;
  bl_heap : headers (the_heap (k_heap (c_kernel c))) = ∅;
  bl_vam : vam_inv (k_vam (c_kernel c));
  bl_lists : is_Some (nodes (k_sched (c_kernel c)) !! ReadyHead) /\ is_Some (nodes (k_sched (c_kernel c)) !! ZombieHead);
  bl_tables : gdt (c_arch c) = replicate 6 (segment 0 0 0 0) /\ idt (c_arch c) = replicate 256 no_gate;
}.

(** *** The report on the module *)

Definition module_report (name : list Z) (bounds : option (Z * Z)) : list Z :=
  match bounds with
  | None => text "Multiboot: no module found" ++ NEWLINE
  | Some (start, stop) =>
      (text "Multiboot module:" ++ NEWLINE) ++ number_line "  start = " 16 start ++ number_line "  end   = " 16 stop ++
      number_line "  size  = " 10 (u32 (stop - start)) ++ text "  name  = " ++ name ++ NEWLINE
  end.

(** Reading through the boot information changes nothing. *)
Lemma wp_boot_read {A} (x : M (boot machine) A) r c (Q : A -> computer -> Prop) :
  wp x (fun r' b' => r' = r /\ b' = view c_boot_l c) (view c_boot_l c) -> Q r c -> wp (boot_op x) Q c.
Proof.
  intros H HQ. apply wp_zoom. eapply wp_mono; [exact H|]. intros r' b' [-> ->].
  by replace (set_view c_boot_l (view c_boot_l c) c) with c by by destruct c as [[[]]].
Qed.

Lemma wp_boot_byte p v c (Q : Z -> computer -> Prop) :
  load8 p (the_supply (k_heap (c_kernel c))) = Some v -> Q v c -> wp (boot_op (zoom b_mem_l (ld p))) Q c.
Proof. intros E HQ. apply (wp_boot_read _ v); [|exact HQ]. apply wp_zoom, (wp_ld _ v); [exact E|]. done. Qed.

Lemma wp_boot_word p v c (Q : Z -> computer -> Prop) :
  holds (the_supply (k_heap (c_kernel c))) p (le32 v) -> is_u32 v -> Q v c -> wp (boot_op (read32 p)) Q c.
Proof. intros Hh Hv HQ. apply (wp_boot_read _ v); [|exact HQ]. apply (wp_read32 _ _ v); [exact Hh|done|done]. Qed.

Section Printing.
Context (k : kernel) (a : arch) (t : Z).
Implicit Types (s : console) (scr : scrollback) (l : list Z) (p : Z).

Let at_ s : computer := computer_at k a (PHYS_TO_VIRT mb_info) t s.
Let m : machine := the_supply (k_heap k).

Lemma wp_print_chars l p s scr (Q : unit -> computer -> Prop) :
  cstring m p l -> (length l < fuel)%nat -> shows s scr ->
  (forall s', shows s' (type_text l scr) -> Q tt (at_ s')) -> wp (print_chars fuel p) Q (at_ s).
Proof.
  intros Hc Hf Hs HQ. unfold print_chars.
  assert (forall n i s', (i <= length l)%nat -> (length l - i < n)%nat -> shows s' (type_text (take i l) scr) ->
    wp (loop n (fun p =>
      let* c := boot_op (zoom b_mem_l (ld p)) in
      if c =? 0 then ret (inr tt)
      else screen_op (Console.console_putchar c) ;;; ret (inl (u32 (p + 1)))) (p + Z.of_nat i)) Q (at_ s')) as Hloop.
  { induction n as [|n IH]; intros i s' Hi Hn Hs'; [lia|]. cbn [loop]. apply wp_bind, wp_bind.
    destruct (decide (i = length l)) as [->|Hne].
    - pose proof (cstring_nul _ _ _ Hc) as E. apply (wp_boot_byte _ 0); [exact E|]. do 2 apply wp_ret.
      rewrite firstn_all in Hs'. by apply HQ.
    - destruct (lookup_lt_is_Some_2 l i) as [c Ec]; [lia|]. destruct (cstring_char _ _ _ _ _ Hc Ec) as (E & Hnz & Hb).
      apply (wp_boot_byte _ c); [exact E|]. rewrite (proj2 (Z.eqb_neq c 0)) by done.
      apply wp_bind, (wp_type_char c s' (type_text (take i l) scr)); [done|]. intros s2 Hs2. apply wp_ret.
      rewrite u32_id by (unfold is_u32; lia). replace (p + Z.of_nat i + 1) with (p + Z.of_nat (Datatypes.S i)) by lia.
      apply IH; [lia|lia|]. rewrite (take_S_r _ _ _ Ec), type_text_snoc. exact Hs2. }
  rewrite <- (Z.add_0_r p). apply (Hloop fuel 0%nat); [lia|lia|exact Hs].
Qed.

Lemma wp_dump_module total ts name entries bounds s scr (Q : unit -> computer -> Prop) :
  boot_holds (Multiboot.Boot (PHYS_TO_VIRT mb_info) m) total ts -> (length ts < fuel)%nat -> modules_ok fuel ts ->
  cstring m rootfs_name name -> Forall is_u8 name -> describes ts name entries bounds -> shows s scr ->
  (forall s', shows s' (type_text (module_report name bounds) scr) -> Q tt (at_ s')) ->
  wp (multiboot2_dump_module rootfs_name fuel) Q (at_ s).
Proof.
  intros Hb Hf Hok Hc H8 [_ Hbounds] Hs HQ. pose proof Hb as [[Hb1 Hb2] _ Hts]. cbn [boot_info b_mem] in *.
  pose proof (first_with_spec m (module_named name) ts (PHYS_TO_VIRT mb_info + 8) ltac:(lia) Hts) as Hm.
  unfold multiboot2_dump_module. apply wp_bind, (wp_boot_read _ (first_with (module_named name) (PHYS_TO_VIRT mb_info + 8) ts)).
  { eapply wp_Ok; [by apply (find_module_ok _ total ts fuel fuel name rootfs_name)|done]. }
  destruct (find (module_named name) ts) as [mt|].
  2:{ rewrite Hm, Hbounds in *. change (NULL =? NULL) with true. by apply (wp_print _ s scr). }
  set (x := first_with _ _ _) in *. destruct Hm as (Hx & Hh & Hspan & Hin & Hnamed).
  destruct Hbounds as (start & stop & nm & rest & Hu1 & Hu2 & Hnz & Eb & ->).
  destruct (module_cmdline _ _ _ _ _ _ _ Hh Hspan Eb Hnz) as (Hl1 & Hl2 & Hcm & U8 & U12 & U16 & Enm).
  unfold module_named, has_type in Hnamed. apply andb_true_iff in Hnamed as [Ht%Z.eqb_eq Hn%bool_decide_eq_true].
  assert (nm = name) as -> by congruence.
  assert (length name < fuel)%nat as Hlen.
  { unfold modules_ok in Hok. rewrite Forall_forall in Hok. destruct (Hok mt Hin Ht) as (st & sp & n' & r' & _ & _ & Hnz' & _ & Hl & Eb').
    destruct (module_cmdline _ _ _ _ _ _ _ Hh Hspan Eb' Hnz') as (_ & _ & _ & _ & _ & _ & En'). by replace name with n' by congruence. }
  rewrite (proj2 (Z.eqb_neq x NULL)) by (unfold NULL; lia). rewrite !u32_id by done.
  apply wp_bind, (wp_print _ s scr); [done|]. intros s1 H1. apply wp_bind, (wp_boot_word _ start); [exact Hl1|done|].
  apply wp_bind, (wp_print _ s1 _ _ H1). intros s2 H2. apply wp_bind, (wp_boot_word _ stop); [exact Hl2|done|].
  apply wp_bind, (wp_print _ s2 _ _ H2). intros s3 H3. apply wp_bind, (wp_boot_word _ stop); [exact Hl2|done|].
  apply wp_bind, (wp_boot_word _ start); [exact Hl1|done|].
  apply wp_bind, (wp_print _ s3 _ _ H3). intros s4 H4. apply wp_bind, (wp_print _ s4 _ _ H4). intros s5 H5.
  apply wp_bind, (wp_print_chars name (x + 16) s5 _ _ Hcm Hlen H5). intros s6 H6. apply (wp_print _ s6 _ _ H6). intros s7 H7.
  apply HQ. unfold module_report, number_line. by rewrite !type_text_app in *.
Qed.
End Printing.

(** The same kernel but for its screen and its processor's flags. *)
Definition screen_and_flags name (bounds : option (Z * Z)) k k' : Prop :=
  exists s p, k' = set_view k_console_l s (set_view k_cpu_l p k) /\ cr3 p = cr3 (view k_cpu_l k) /\
    shows s (type_text (module_report name bounds) (empty_screen 0x700)) /\ current_layout s = Some keymap_azerty.

(** Up to [arch_init]. *)
Lemma wp_hardware_start {B} c total ts name entries bounds bd (rest : CM B) (Q : B -> computer -> Prop) :
  boot_loaded c total ts name entries bounds bd ->
  (forall k' a a0, screen_and_flags name bounds (c_kernel c) k' ->
     tables_loaded gdt_address idt_address tss_address syscall_stub isr_table irq_table a0 a ->
     wp rest Q (Computer k' a (PHYS_TO_VIRT mb_info) (test_ticks c))) ->
  wp (screen_op console_init ;;;
      boot_init rootfs_name fuel MULTIBOOT2_BOOTLOADER_MAGIC mb_info ;;;
      drivers_init ;;;
      arch_op (arch_init gdt_address idt_address tss_address syscall_stub isr_table irq_table) ;;; rest) Q c.
Proof.
  intros Hb HQ. destruct c as [k a i t]. pose proof Hb as [Hinfo Hfuel Hmod [Hname H8] Htags _ _ _ _ _ _ _ _ [Hg Hi]]. cbn [c_kernel c_arch] in *.
  apply wp_bind, wp_kernel_op, wp_zoom, wp_clear. intros s0 Hs0 _ _ _ _.
  apply wp_bind. unfold boot_init. apply wp_bind, wp_zoom. unfold multiboot2_init. rewrite Z.eqb_refl. cbn [negb]. apply wp_modify.
  replace (set_view c_boot_l _ _) with (Computer (on_screen s0 k) a (PHYS_TO_VIRT mb_info) t) by by destruct k as [[]].
  apply (wp_dump_module k a t total ts name entries bounds s0 _ _ Hinfo Hfuel Hmod Hname H8 Htags Hs0). intros s Hs.
  apply wp_bind, wp_kernel_op, wp_zoom, wp_modify.
  apply wp_bind, wp_zoom, wp_arch_init; [exact Hg|exact Hi|]. intros a' Ha.
  destruct k as [[h [[p q] r kd]] v sc ow ct fs fl tb ln pr st ld ds np nt con].
  eapply (HQ _ a' _); [|exact Ha]. exists (set_view c_io_l (a_io a') (Console (cursor_row s) (cursor_col s) (foreground s) (background s)
    (cells s) (Some keymap_azerty) (c_io s))), (a_cpu a').
  split; [reflexivity|]. split; [exact (tl_cr3 _ _ _ _ _ _ _ _ Ha)|]. split; [|done].
  destruct Hs as [[W1 W2 W3 W4 W5 W6 W7 W8] Hline]. by split; [split|].
Qed.
Lemma wp_kernel_seq {A} (x : KM unit) (y : KM A) (R : CM A) k a i t (P : A -> kernel -> Prop) (Q : A -> computer -> Prop) :
  wp (x ;;; y) P k -> (forall k', wp y P k' -> wp R Q (Computer k' a i t)) -> wp (kernel_op x ;;; R) Q (Computer k a i t).
Proof. intros H HR. unfold wp, kernel_op, zoom, bind in *. cbn. destruct (x k) as [[] k'|]; [by apply HR|done]. Qed.

(** *** The report on the memory *)

Definition memory_line (label : string) (bytes : Z) : list Z := text label ++ unsigned_text 10 (bytes / 1024) ++ text " KB" ++ NEWLINE.
(** The lengths of all the regions and of those that are available, in KB. *)
Definition memory_report entries : list Z :=
  memory_line "Total memory : " (u32 (all_bytes entries)) ++ memory_line "Usable memory: " (u32 (available_bytes entries)).

(** [k] with this memory manager. *)
Definition with_pool (p : pmm) k : kernel := set_view k_pmm_l (set_view pmm_l p (view k_pmm_l k)) k.

Lemma wp_statistic {A} (g : pmm -> A) k a i t s (Q : A -> computer -> Prop) :
  Q (g (pmm_at (the_supply (k_heap k)))) (computer_at k a i t s) ->
  wp (kernel_op (pmm_op (zoom pmm_l (gets g)))) Q (computer_at k a i t s).
Proof. by destruct k as [[h [[c p] r kd]] v sc ow ct fs fl tb ln pr st lo ds np nt con]. Qed.

Lemma wp_print_memory b k a i t s scr entries (Q : unit -> computer -> Prop) :
  memory_map b = Some entries ->
  total_memory (pmm_at (the_supply (k_heap k))) = u32 (all_bytes entries) ->
  usable_memory (pmm_at (the_supply (k_heap k))) = u32 (available_bytes entries) -> shows s scr ->
  (forall s', shows s' (type_text (memory_report entries) scr) -> current_layout s' = current_layout s ->
     Q tt (computer_at k a i t s')) ->
  wp (print_memory b) Q (computer_at k a i t s).
Proof.
  intros Em Et Eu Hs HQ. unfold print_memory. rewrite Em. unfold memory_report, memory_line in HQ. rewrite <- Et, <- Eu in HQ.
  rewrite type_text_app in HQ. apply wp_bind, wp_statistic, wp_bind, (wp_print_layout _ s scr); [exact Hs|]. intros s1 H1 L1.
  apply wp_bind, wp_statistic, (wp_print_layout _ s1 _ _ H1). intros s2 H2 L2.
  apply HQ; [exact H2|]. by rewrite L2.
Qed.

Lemma pool_seq {A} (x z : M pmm unit) (y : KM A) (P : A -> kernel -> Prop) k p :
  x (pmm_at (the_supply (k_heap k))) = Ok tt p -> wp (pmm_op (zoom pmm_l (x ;;; z)) ;;; y) P k ->
  exists k2, pmm_op (zoom pmm_l z) (with_pool p k) = Ok tt k2 /\ wp y P k2.
Proof.
  unfold wp, bind, pmm_op, zoom, pmm_at. cbn. intros ->. by destruct (z p) as [[] p'|]; [eexists|].
Qed.

Lemma pool_run (x : M pmm unit) k a i t s p :
  x (pmm_at (the_supply (k_heap k))) = Ok tt p ->
  kernel_op (pmm_op (zoom pmm_l x)) (computer_at k a i t s) = Ok tt (computer_at (with_pool p k) a i t s).
Proof. unfold kernel_op, pmm_op, zoom, pmm_at. cbn. by intros ->. Qed.

(** [pmm_init] with its report: what its two parts lead to, whatever is on
    the screen between them. *)
Lemma wp_memory_report {A} b entries k a i t s scr (y : KM A) (R : CM A) (P : console -> A -> kernel -> Prop) (Q : A -> computer -> Prop) :
  boot_ok b entries -> shows s scr ->
  (forall s', wp (pmm_op (zoom pmm_l (pmm_init b)) ;;; y) (P s') (on_screen s' k)) ->
  (forall k' s', shows s' (type_text (memory_report entries) scr) -> current_layout s' = current_layout s ->
     wp y (P s') k' -> wp R Q (Computer k' a i t)) ->
  wp (kernel_op (pmm_op (zoom pmm_l (pmm_survey b))) ;;; print_memory b ;;; kernel_op (pmm_op (zoom pmm_l (pmm_release b))))
    (fun _ => wp R Q) (computer_at k a i t s).
Proof.
  intros Hb Hs Hk HR. destruct (wp_inv _ _ _ (wp_pmm_survey b entries (pmm_at (the_supply (k_heap k))) Hb)) as ([] & p & E & Et & Eu).
  assert (forall s', exists k2, pmm_op (zoom pmm_l (pmm_release b)) (on_screen s' (with_pool p k)) = Ok tt k2 /\ wp y (P s') k2) as H.
  { intros s'. by apply (pool_seq (pmm_survey b) (pmm_release b) y (P s') (on_screen s' k) p). }
  assert (kernel_op (pmm_op (zoom pmm_l (pmm_survey b))) (computer_at k a i t s) = Ok tt (computer_at (with_pool p k) a i t s)) as E1.
  { exact (pool_run (pmm_survey b) k a i t s p E). }
  apply wp_bind. eapply wp_Ok; [exact E1|]. apply wp_bind, (wp_print_memory b _ a i t s scr entries).
  { exact (ok_map b entries Hb). } 1-3: done.
  intros s' Hs' Hl. destruct (H s') as (k2 & E2 & Hy). apply wp_kernel_op. eapply wp_Ok; [exact E2|]. by apply (HR k2 s').
Qed.

(** Nothing of this depends on the screen and the flags. *)
Lemma bootstrap_kept name bounds k k' b entries bd :
  screen_and_flags name bounds k k' -> bootstrap b entries bd (the_supply (k_heap k)) -> bootstrap b entries bd (the_supply (k_heap k')).
Proof. intros (s & p & -> & E & _) [H1 H2 H3 H4 H5]. split; [exact (eq_trans E H1)|done..]. Qed.

Lemma started_kept name bounds k k' b entries bd f k2 :
  screen_and_flags name bounds k k' ->
  kernel_started b entries bd kernel_virtual_end (the_supply (k_heap k')) f k2 ->
  kernel_started b entries bd kernel_virtual_end (the_supply (k_heap k)) f k2.
Proof. intros (s & p & -> & _ & _) [H1 H2 H3 H4 H5 H6 H7 H8]. by split. Qed.

End Start.

(** ** Witness *)

(** Two regions of memory, the module [rootfs] and nothing else. *)
Definition boot_map : list (mmap_entry * list Z) :=
  [(MmapEntry 0 0x9F000 1, [0; 0; 0; 0]); (MmapEntry 0x100000 0xF00000 1, [0; 0; 0; 0])].
Definition rootfs_text : list Z := [114; 111; 111; 116; 102; 115].
Definition boot_tags : list tag := [Tag 3 (module_body 0x200000 0x210000 rootfs_text []); Tag 6 (map_body 24 0 boot_map)].
Definition boot_bytes : list Z := le32 104 ++ le32 0 ++ tags_bytes boot_tags.

(** The information at [0x7000], the name in the kernel image, the bootstrap
    directory at [0x101000] with its four tables in both halves, and the first
    page of the image in the first table. *)
Definition boot_ram : ram :=
  put_bytes 0x7000 boot_bytes (put_bytes 0x100000 (rootfs_text ++ [0]) (ram_entry_set 0x102000 0x100 0x100003
    (foldr (fun i r => ram_entry_set 0x101000 i (0x102003 + i * 0x1000)
      (ram_entry_set 0x101000 (768 + i) (0x102003 + i * 0x1000) r)) (Ram ∅) (seqZ 0 4)))).

Definition boot_machine : machine := MkMachine (PmmWorld (Cpu 2 0x101000 []) pmm_reset) boot_ram 0.

Definition static_lists : gmap node (list_node node) := <[ReadyHead := Node None None]> {[ZombieHead := Node None None]}.

Definition boot_computer : computer :=
  Computer (Kernel (HeapWorld (Heap 0 0 0 ∅) boot_machine) vam_start (Sched static_lists ∅ None 0 [] 0 ∅ None false)
    ∅ ∅ (Fs 0 0 0) ∅ ∅ ∅ ∅ ∅ ∅ ∅ 1 1 reset_console) reset_arch 0 0.

Definition boot_memory_map : boot_memory := memory_of 0x150000 0x7000 104 boot_map.*1 (Some (0x200000, 0x210000)).

Definition machine_holds_check (m : machine) (p : Z) (l : list Z) : bool :=
  (0 <=? p) && (p + len l <=? 2 ^ 32) && forallb (fun '(i, v) => bool_decide (load8 (p + i) m = Some v)) (zip (seqZ 0 (len l)) l).

Lemma machine_holds_check_ok m p l : machine_holds_check m p l = true -> holds m p l.
Proof.
  unfold machine_holds_check, len. rewrite !andb_true_iff, Z.leb_le, Z.leb_le, forallb_forall. intros [[H1 H2] H3].
  split; [done|]. split; [done|]. intros i v E. specialize (H3 (Z.of_nat i, v)).
  apply bool_decide_eq_true in H3; [exact H3|]. apply list_elem_of_In, list_elem_of_lookup. exists i.
  apply lookup_zip_with_Some. exists (Z.of_nat i), v. split; [done|]. split; [|done].
  apply lookup_seqZ. apply lookup_lt_Some in E. lia.
Qed.

(** The tables of the directory, decided. *)
Definition bootstrap_check (b : boot_memory) (entries : list mmap_entry) (bd : Z) (m : machine) : bool :=
  forallb (fun i => negb (present (pde m bd i)) ||
    bool_decide (good_frame (table_of m bd i)) && reserved_at b entries (table_of m bd i / PAGE_SIZE)) (seqZ 0 772) &&
  forallb (fun i => negb (present (pde m bd i))) (seqZ 772 252).

Lemma bootstrap_check_ok b entries bd m :
  cr3 (pmm_cpu (m_pmm m)) = bd -> good_frame bd -> reserved_at b entries (bd / PAGE_SIZE) = true ->
  fail_allocations (pmm_at m) = 0 -> bootstrap_check b entries bd m = true -> bootstrap b entries bd m.
Proof.
  intros Hc Hg Hr Hf. unfold bootstrap_check. rewrite andb_true_iff, !forallb_forall. intros [H1 H2].
  assert (forall i, 772 <= i < 1024 -> present (pde m bd i) = false) as Hhigh.
  { intros i Hi. apply negb_true_iff, H2, list_elem_of_In, elem_of_seqZ. lia. }
  split; [done|done| |exact Hhigh|done]. intros i Hi Hp. destruct (decide (772 <= i)); [by rewrite Hhigh in Hp by lia|].
  specialize (H1 i). rewrite Hp in H1. cbn [negb orb] in H1. rewrite andb_true_iff, bool_decide_eq_true in H1.
  apply H1, list_elem_of_In, elem_of_seqZ. lia.
Qed.

Lemma boot_facts :
  bootstrap_check boot_memory_map boot_map.*1 0x101000 boot_machine = true /\
  available_pages boot_memory_map boot_map.*1 = 3743 /\ reserved_at boot_memory_map boot_map.*1 0x101 = true /\
  walk boot_ram 0x101000 0xC0100000 = Some 0x100003.
Proof. vm_compute. auto 10. Qed.

Lemma boot_texts :
  machine_holds_check boot_machine 0xC0007000 (le32 104) = true /\
  machine_holds_check boot_machine 0xC0007008 (tag_bytes (Tag 3 (module_body 0x200000 0x210000 rootfs_text []))) = true /\
  machine_holds_check boot_machine 0xC0007020 (tag_bytes (Tag 6 (map_body 24 0 boot_map))) = true /\
  machine_holds_check boot_machine 0xC0007060 (le32 0) = true /\
  machine_holds_check boot_machine 0xC0100000 (rootfs_text ++ [0]) = true.
Proof. vm_compute. auto 10. Qed.

#[local] Opaque boot_machine boot_ram.

Lemma boot_information : boot_holds (Multiboot.Boot 0xC0007000 boot_machine) 104 boot_tags.
Proof.
  destruct boot_texts as (H1 & H2 & H3 & H4 & _). apply machine_holds_check_ok in H1, H2, H3, H4.
  split; [by split|split; [exact H1|done]|]. cbn [tags_at boot_tags boot_info b_mem].
  split; [exact H2|]. split; [by split|]. split; [by vm_compute|]. split; [exact H3|]. split; [by split|]. split; [by vm_compute|exact H4].
Qed.

Lemma rootfs_described : describes boot_tags rootfs_text boot_map.*1 (Some (0x200000, 0x210000)) /\ modules_ok 7 boot_tags.
Proof.
  split; [split|].
  - exists (Tag 6 (map_body 24 0 boot_map)), 24, 0, boot_map.
    split; [reflexivity|]. split; [reflexivity|]. split; [lia|]. split; [|reflexivity].
    unfold boot_map, valid_entry, is_u64, is_u32. repeat constructor; cbn; lia.
  - exists 0x200000, 0x210000, rootfs_text, []. unfold is_u32. repeat split; try lia. repeat constructor; discriminate.
  - repeat (constructor; [try discriminate|]); [|constructor]. intros _.
    exists 0x200000, 0x210000, rootfs_text, []. unfold is_u32, is_u8. repeat split; try lia; repeat constructor; try discriminate; lia.
Qed.

Lemma boot_map_ok : boot_ok boot_memory_map boot_map.*1.
Proof. split; [done|repeat constructor; cbn; lia|..]; vm_compute; repeat split; congruence. Qed.

Lemma boot_computer_loaded :
  boot_loaded 0x150000 0xC0180000 0xC0100000 7 0x7000 boot_computer 104 boot_tags rootfs_text boot_map.*1
    (Some (0x200000, 0x210000)) 0x101000.
Proof.
  destruct boot_facts as (Hc & Hp & Hr & _), boot_texts as (_ & _ & _ & _ & Hn). destruct rootfs_described as [Hd Hm].
  split; cbn [boot_computer c_kernel c_arch k_heap the_supply the_heap].
  - exact boot_information.
  - clear. cbn. lia.
  - exact Hm.
  - split; [split; [repeat constructor; discriminate|exact (machine_holds_check_ok _ _ _ Hn)]|]. clear. unfold is_u8. repeat constructor; lia.
  - exact Hd.
  - exact boot_map_ok.
  - clear. vm_compute. discriminate.
  - change (8 <= available_pages boot_memory_map boot_map.*1). rewrite Hp. clear. lia.
  - apply bootstrap_check_ok; [clear; by vm_compute|clear; by vm_compute|exact Hr|clear; by vm_compute|exact Hc].
  - clear. by vm_compute.
  - reflexivity.
  - exact vam_start_inv.
  - clear. split; by eexists.
  - clear. by split.
Qed.

